(* ===== verification/_CoqProject ===== *)
-Q . S2P
Prelude.v
Interfaces.v
Kmalloc.v
Ringbuff.v
KList.v
Proc.v
Sync.v
CString.v
Kernel.v
Sched.v
Virtual.v
Sys.v
Mq.v
Signals.v
Kprintf.v
Keyboard.v
Tty.v
Vfs.v
Request.v
Tmpfs.v
Elf.v
Blockq.v
Device.v
Dirtree.v
Sd.v
Tar.v
Console.v
Serial.v
Log.v
I2c.v
Rootfs.v
Sysd.v
Interrupt.v
Report.v
Kstart.v
Usys.v
Terminal.v
Userio.v
Libc.v
Stdio.v
Printf.v
Crt.v
