(* ===== verification/Prelude.v ===== *)
(** * piOS: a verification library of the kernel and of its C library

    piOS is a small multitasking system for pcpu, a 16-bit machine with paged
    memory: a kernel (src/kernel) and a C library for user programs
    (src/lib/libc).  Processes enter the kernel through interrupts; a system
    call runs on a kernel stack of its own as a kernel thread, may block on a
    semaphore, and returns through the scheduler.  Files are reached through
    requests to drivers, and a driver answers a request by raising the
    semaphore its caller sleeps on.

    ** The files and the code they model

    - Prelude.v (this file): machine integers, the [outcome] of code that can
      fault, panic or not return, arrays, loops, and the lemmas, tactics and
      hints that the other files share.
    - Interfaces.v: what the allocator (kernel/libk/kmalloc.h) and the lists
      (kernel/libk/list.h) promise, as the classes [Allocator] and [ListStore].
      Every client is written and verified against the class; Kmalloc.v and
      KList.v prove the instances.
    - Kmalloc.v: kernel/libk/kmalloc.c.  Ringbuff.v: kernel/libk/ringbuff.c.
      KList.v: kernel/libk/list.c.  CString.v: the string functions of the
      kernel and of the C library.
    - Sync.v: kernel/libk/atomic.c, kernel/libk/con/semaphore.c and spinlock.c.
      Modules [Sem] and [Spin] are step relations over threads that are
      interrupted between any two statements; [SemOps] holds the sequential
      functions the other files call.
    - Proc.v, Kernel.v, Sched.v: kernel/proc/proc.h, the variables the kernel
      shares, kernel/proc/sched.c.
    - Virtual.v: kernel/proc/virtual.c.  Signals.v: kernel/proc/signal.c.
    - Sys.v: the state of the whole kernel with the objects on its heap.
      Mq.v: kernel/sys/mq.c.  Vfs.v and Request.v: kernel/fs/vfs.c and
      vfs_async.c; a file system is a [vfs_reg] of operations, and [Driver] is
      what a driver promises to the callers of the blocking functions.
      Tmpfs.v: kernel/fs/tmp.c, which discharges [Driver].
    - Elf.v: kernel/proc/elf.c, over any file that can be read ([readable]).
      Sysd.v: kernel/sys/sysd.c, every system call.
    - Kprintf.v: kernel/libk/kprintf.c.  Keyboard.v: kernel/driver/keyboard.c, over
      the function that takes a typed character.
      Tty.v: kernel/driver/vga.c and the screen and line editor of tty.c.
    - Blockq.v: kernel/libk/con/blockq.c as a step relation over threads.
      Device.v: the page of memory-mapped registers as the class [DevicePage]
      and the state of the drivers.  Sd.v: kernel/driver/spi.c and sd.c.
      Dirtree.v: kernel/fs/dirtree.c.  Tar.v: kernel/fs/tar.c, which reads the
      archive through the requests of Sd.v.
    - Console.v: the request threads of tty.c, kernel/fs/kbd.c, and [send_key], which
      gives a typed character to both.  Serial.v:
      kernel/driver/serial.c.  Log.v: kernel/libk/log.c, kernel/fs/sio.c, sprintf
      and kprintf.  I2c.v: kernel/driver/i2c.c.  Rootfs.v: kernel/fs/rootfs.c.
    - Interrupt.v: kernel/irq/interrupt.c and [switch_to_userspace]: the
      composition of the keyboard, the timer, the scheduler, the system calls
      and the signals.
    - Report.v: kernel/panic.c, kernel/libk/assert.c and the listing of dirtree.c:
      what reaches the targets of the log when the kernel stops.
    - Kstart.v: kernel/kstart.c and kernel/irq/timer.c: the start of the kernel,
      which uses all of the above.
    - Usys.v: lib/libc/src/sys.c and unistd.c, over the class [Processor], and on
      the kernel: there the [sys] instruction is an interrupt of Interrupt.v.
    - Terminal.v and Userio.v: the terminal as a [Driver] for writes and for reads,
      the system calls on it (Terminal.v), and a call followed from the program
      through sys.c, interrupt.c, sysd.c, virtual.c, vfs.c and tty.c to the screen or
      the input and back (Userio.v).
    - Crt.v: lib/crt/crtbegin.c and crtend.c, in the order of crt0.s.
    - Libc.v, Stdio.v, Printf.v: lib/libc/src/mem.c, rand.c, stdio.c, initfini.c
      and printf.c, over the system calls as the class [Syscalls].

    ** How code is modelled

    A C function becomes a function of the same name from the state it uses to
    an [outcome]: [Ret], [Fault] for a read or write outside an object or
    through a pointer that is not one, [Panic] for a failed assertion or a call
    of panic, and [Hang] for a loop that does not end.  A panic carries its
    message: a theorem that allows one names it, and it is always [HEAP_FULL], the
    panic of [kmalloc] when no free block is large enough; every other panic and
    every failed assertion is excluded there.  Integers are [Z], with the conversion
    to 8, 16 or 32 bits written wherever the C type can wrap.
    An object on the heap is an entry of the map of its kind, under the address
    the allocator gave; arrays are lists, and an index outside faults.

    Loops over an array or a string have fuel computed from its length, which
    the theorems show to be enough: [kmalloc_loop] and [malloc_loop] take the
    number of chunks (every turn moves to a later chunk), the format loops the
    length of the format, string loops the length of the array.  The search of
    [sched_pick_next] takes its fuel as an argument: with a process that can
    run, one more than the number of processes is enough
    (sched_pick_next_round_robin), and in one situation no fuel is
    (sched_pick_next_diverges).  A loop that polls a device register makes as
    many turns as the hardware promises to need ([dev_polls]); the loops over an
    archive take the number of its entries as an argument, and the loop that
    waits for input one turn for each time the terminal is woken.

    A driver thread that serves requests in an endless loop is modelled by one
    turn of that loop; where a caller waits for it, [Others] says what the other
    threads do meanwhile, and the theorems on whole requests and on the start of
    the kernel put the driver's turn there.

    What the sources leave open is an argument: the content of fresh memory
    ([Uninit]), the sign of char ([CharSign]) and the order of bytes in a word
    ([ByteOrder]), the registered file systems ([VfsRegs]) and callbacks
    ([Callbacks]), the threads that run while one is blocked ([Others]), the
    device registers ([DevicePage]), the addresses of the functions the threads
    start in ([Entries]), the interrupt controller ([IrqController]), a 16-bit store
    at an odd address ([WordStore]), the words on the kernel's stack
    ([StackWords]), what a program puts into its constructor tables ([Program]),
    the loader as the system calls see it, and the console log.

    ** What the theorems show

    - The interrupt handler (Interrupt.v): an interrupted process loses nothing,
      time advances by one tick, and a scan code that waits is served, its characters
      sent to the terminal and to the keyboard device (interrupt_preempts); a system call returns
      with the registers of its caller, changed as the call says
      (syscall_roundtrip); a pending signal enters the handler on the way out
      (signal_on_return); a fault in user code kills that process only
      (segfault_kills).
    - Scheduling and synchronisation: the choice is round robin among the
      processes that can run, and only wakes those whose semaphore is raised;
      a semaphore never loses or invents a unit under any interleaving, as long as
      its 16-bit count does not overflow, and a thread that waits on a raised one is
      woken; a spin lock has one holder.
    - Memory: first fit, disjointness and round trip of the kernel heap, first
      fit of the user heap, isolation of the pages of processes, and the copies
      between processes and the kernel across page boundaries.
    - Programs: a well-formed file is loaded with every byte of its segments at
      its address in fresh pages and the entry point, name and break of the new
      process set (elf_load_loads); any other header is refused without a new
      process (elf_load_rejects).
    - Queues: the ring buffer, the message queues and the blocking queue (under
      any interleaving, without deadlock) refine a list used as a first-in
      first-out queue; removal from a list.
    - Files: descriptors, seeking, mounts, the blocking request protocol, and
      writing and reading back a temporary file; the directory tree and the root
      file system as tables from paths to inodes; a sector read through the SPI
      bus from the SD card (sd_request_served) and a file of the archive read
      through the sectors (tar_request_served).
    - Devices: reads and writes of the terminal, bytes on the serial line, lines
      of the log, transfers on the I2C bus.
    - Library and kernel: sleep of the C library, run on the kernel through its six
      system calls, ends when its alarm is due and restores the signal handler
      (sleep_until_alarm; while it waits, the clock goes on and [sched_pick_next] is
      called); a write to the terminal prints the bytes of the caller, 128
      at most, and leaves the user memory, the kernel heap and the context of the
      program as they were (write_reaches_screen); a read takes the oldest bytes
      that were typed (read_typed_bytes).  That the thread of the terminal has its
      turn while the caller waits is their hypothesis ([writer_runs],
      [reader_runs]), and the witnesses are kernels in which it holds.
    - Stopping: a failed assertion reports the place, the cause and at most ten
      frames, whatever the stack holds (assert_reports).
    - Start: there is no general theorem, but a run of the whole model on one machine
      with an SD card, which starts up and has its first program loaded from the
      archive (boot_loads_program).
    - Text: number conversion and the three printers against one reference
      rendering, the cursor of the terminal, line editing, the keyboard, and
      buffered streams.

    Several theorems state behaviour the code does not intend; the places are
    listed as findings in the manifest.

    ** Not modelled

    In the other files a panic or a failed assertion is the outcome [Panic], without
    the report of Report.v; the messages that other parts send to the log are left
    out.  Assembly (irq.S, cswitch.S, boot.S, crt0.s: contexts, page tables and
    stacks) is not modelled beyond the order of its calls, nor is the exception
    frame registry of crtbegin.c, which the build leaves out.  The example programs
    are a few calls of the stubs of sys.c.  The remaining lines of the sources are
    prototypes, type names and the layouts of structures that the code never
    uses. *)
From stdpp Require Export prelude gmap list fin_maps sets strings.
From Stdlib Require Export ZArith Lia.

#[global] Open Scope Z_scope.

(** ** Machine integers

    pcpu is a 16-bit machine: [int], [unsigned], [size_t] and every pointer
    have 16 bits, [long] has 32 and [char] 8.  Values are [Z]; each operation
    whose C type can wrap is written with the conversion to that type. *)

Definition u8 (z : Z) : Z := z mod 256.
Definition u16 (z : Z) : Z := z mod 65536.
Definition u32 (z : Z) : Z := z mod 4294967296.
Definition i16 (z : Z) : Z :=
  let m := z mod 65536 in if m <? 32768 then m else m - 65536.

Abbreviation is_u8 z := (0 <= z < 256).
Abbreviation is_u16 z := (0 <= z < 65536).
Abbreviation is_i16 z := (-32768 <= z < 32768).

(** [lia] after turning [/] and [mod] by constants into equations. *)
Ltac zlia := unfold u8, u16, u32 in *; Z.to_euclidean_division_equations; lia.

Lemma u16_small z : is_u16 z -> u16 z = z.
Proof. intros. apply Z.mod_small. lia. Qed.

Lemma u16_range z : is_u16 (u16 z).
Proof. apply Z.mod_pos_bound. lia. Qed.

Lemma u8_small z : is_u8 z -> u8 z = z.
Proof. intros. apply Z.mod_small. lia. Qed.

Lemma u8_range z : is_u8 (u8 z).
Proof. apply Z.mod_pos_bound. lia. Qed.

Lemma i16_small z : is_i16 z -> i16 z = z.
Proof.
  intros H. unfold i16. destruct (Z.ltb_spec (z mod 65536) 32768); zlia.
Qed.

Lemma i16_range z : is_i16 (i16 z).
Proof.
  unfold i16. destruct (Z.ltb_spec (z mod 65536) 32768); zlia.
Qed.

Lemma u16_i16 z : u16 (i16 z) = u16 z.
Proof.
  unfold i16. destruct (Z.ltb_spec (z mod 65536) 32768); zlia.
Qed.

Lemma i16_add_l a b : i16 (i16 a + b) = i16 (a + b).
Proof.
  unfold i16 at 1 3. replace ((i16 a + b) mod 65536) with ((a + b) mod 65536); [done|].
  change ((a + b) mod 65536) with (u16 (a + b)). change ((i16 a + b) mod 65536) with (u16 (i16 a + b)).
  unfold u16. rewrite Z.add_mod by lia. rewrite (Z.add_mod (i16 a)) by lia.
  do 2 f_equal. symmetry. apply u16_i16.
Qed.

Lemma u16_u16 z : u16 (u16 z) = u16 z.
Proof. apply u16_small, u16_range. Qed.

Lemma eqb_ne (a b : Z) : a <> b -> (a =? b) = false.
Proof. apply Z.eqb_neq. Qed.

Create HintDb cint.
#[export] Hint Resolve u16_range u8_range i16_range : cint.

(** ** Outcomes of C code

    [Panic m] is a call of [panic] (an [ASSERT] that fails panics with
    "assertion"), after which the kernel is halted; [Fault] is an access the C
    standard gives no meaning to (an index outside its array, a dangling
    pointer); [Hang] is a loop that has not returned within the fuel given to
    it; [Block] is a semaphore taken while its count is zero. *)

Inductive outcome (A : Type) : Type :=
| Ret (a : A)
| Panic (msg : string)
| Fault
| Hang
| Block.
Arguments Ret {A} a.
Arguments Panic {A} msg.
Arguments Fault {A}.
Arguments Hang {A}.
Arguments Block {A}.

#[export] Instance outcome_ret : MRet outcome := @Ret.
#[export] Instance outcome_bind : MBind outcome := fun A B f m =>
  match m with
  | Ret a => f a
  | Panic s => Panic s
  | Fault => Fault
  | Hang => Hang
  | Block => Block
  end.
#[export] Instance outcome_fmap : FMap outcome := fun A B f m =>
  match m with
  | Ret a => Ret (f a)
  | Panic s => Panic s
  | Fault => Fault
  | Hang => Hang
  | Block => Block
  end.

Definition ASSERT (b : bool) : outcome unit :=
  if b then Ret tt else Panic "assertion".

(** The panic of [kmalloc] when no free block is large enough. *)
Definition HEAP_FULL : string := "kmalloc: out of memory".

(** The outcome is a value, or the panic of a full kernel heap: no undefined
    behaviour, no endless loop, no failed assertion and no other panic. *)
Definition safe {A} (o : outcome A) : Prop :=
  match o with Ret _ => True | Panic m => m = HEAP_FULL | _ => False end.

(** The computation has a result. *)
Definition returned {A} (o : outcome A) : bool := match o with Ret _ => true | _ => false end.

Lemma bind_Ret_inv {A B} (m : outcome A) (f : A -> outcome B) b :
  m ≫= f = Ret b -> exists a, m = Ret a /\ f a = Ret b.
Proof. destruct m; simpl; naive_solver. Qed.

(** Split a computation that returned into the steps that returned. *)
Ltac run_inv :=
  repeat match goal with
  | H : _ ≫= _ = Ret _ |- _ =>
      let a := fresh "v" in let E := fresh "E" in
      apply bind_Ret_inv in H as (a & E & H); simpl in H
  | H : Ret _ = Ret _ |- _ => injection H as H; subst
  | H : Panic _ = Ret _ |- _ => discriminate H
  | H : Fault = Ret _ |- _ => discriminate H
  | H : Hang = Ret _ |- _ => discriminate H
  | H : Block = Ret _ |- _ => discriminate H
  | p : _ * _ |- _ => destruct p
  end.

(** ** Objects in memory

    The objects of one type are a map from addresses; an access to an address
    that holds none (the null pointer, a freed object) is a [Fault]. *)

Definition deref {A} (m : gmap Z A) (p : Z) : outcome A :=
  match m !! p with Some x => Ret x | None => Fault end.

Lemma deref_Some {A} (m : gmap Z A) p x : m !! p = Some x -> deref m p = Ret x.
Proof. unfold deref. by intros ->. Qed.

(** ** C arrays

    An array is a list; an index outside it is a [Fault]. *)

Definition arr_get {A} (l : list A) (i : Z) : outcome A :=
  if decide (0 <= i) then
    match l !! Z.to_nat i with Some x => Ret x | None => Fault end
  else Fault.

Definition arr_set {A} (l : list A) (i : Z) (x : A) : outcome (list A) :=
  if decide (0 <= i < Z.of_nat (length l)) then Ret (<[Z.to_nat i := x]> l)
  else Fault.

Abbreviation zlen l := (Z.of_nat (length l)).

Lemma arr_get_lookup {A} (l : list A) (i : nat) x :
  l !! i = Some x -> arr_get l (Z.of_nat i) = Ret x.
Proof.
  intros H. unfold arr_get. rewrite decide_True by lia.
  by rewrite Nat2Z.id, H.
Qed.

Lemma arr_get_Ret {A} (l : list A) i x :
  arr_get l i = Ret x <-> 0 <= i /\ l !! Z.to_nat i = Some x.
Proof.
  unfold arr_get. case_decide; [|naive_solver lia].
  destruct (l !! Z.to_nat i); naive_solver.
Qed.

Lemma arr_get_in {A} (l : list A) i :
  0 <= i < zlen l -> exists x, arr_get l i = Ret x /\ l !! Z.to_nat i = Some x.
Proof.
  intros H. destruct (lookup_lt_is_Some_2 l (Z.to_nat i)) as [x Hx]; [lia|].
  exists x. split; [|done]. apply arr_get_Ret. split; [lia|done].
Qed.

Lemma arr_set_in {A} (l : list A) i x :
  0 <= i < zlen l -> arr_set l i x = Ret (<[Z.to_nat i := x]> l).
Proof. intros. unfold arr_set. by rewrite decide_True by lia. Qed.

Lemma arr_set_Ret {A} (l l' : list A) i x :
  arr_set l i x = Ret l' -> 0 <= i < zlen l /\ l' = <[Z.to_nat i := x]> l.
Proof. unfold arr_set. case_decide; naive_solver. Qed.

Lemma arr_get_app_r {A} (l k : list A) (i : Z) :
  0 <= i -> arr_get (l ++ k) (zlen l + i) = arr_get k i.
Proof.
  intros H. unfold arr_get. rewrite !decide_True by lia.
  rewrite lookup_app_r by lia.
  by replace (Z.to_nat (zlen l + i) - length l)%nat with (Z.to_nat i) by lia.
Qed.

Lemma arr_get_middle {A} (l k : list A) x : arr_get (l ++ x :: k) (zlen l) = Ret x.
Proof. rewrite <-(Z.add_0_r (zlen l)), arr_get_app_r by lia. done. Qed.

Lemma arr_set_middle {A} (l k : list A) x y :
  arr_set (l ++ x :: k) (zlen l) y = Ret (l ++ y :: k).
Proof.
  rewrite arr_set_in.
  - rewrite Nat2Z.id. by rewrite insert_app_r_alt, Nat.sub_diag by lia.
  - rewrite length_app. simpl. lia.
Qed.

(** [xs] written over the elements of [l] from index [d] on. *)
Definition splice {A} (l : list A) (d : Z) (xs : list A) : list A :=
  take (Z.to_nat d) l ++ xs ++ drop (Z.to_nat d + length xs) l.

Lemma splice_nil {A} (l : list A) d : splice l d [] = l.
Proof. unfold splice. simpl. by rewrite Nat.add_0_r, take_drop. Qed.

Lemma splice_cons {A} (l : list A) d x xs :
  0 <= d < zlen l -> splice (<[Z.to_nat d := x]> l) (d + 1) xs = splice l d (x :: xs).
Proof.
  intros H. unfold splice. replace (Z.to_nat (d + 1)) with (S (Z.to_nat d)) by lia.
  rewrite (take_S_r _ _ x) by (apply list_lookup_insert_eq; lia).
  rewrite take_insert_ge by lia. rewrite drop_insert_lt by lia. simpl.
  rewrite <-app_assoc. simpl. by rewrite <-plus_n_Sm.
Qed.

Lemma length_splice {A} (l : list A) d xs :
  0 <= d -> d + zlen xs <= zlen l -> length (splice l d xs) = length l.
Proof. intros. unfold splice. rewrite !length_app, length_take, length_drop. lia. Qed.

Lemma splice_app {A} (l : list A) d xs ys :
  0 <= d -> d + zlen xs <= zlen l -> splice (splice l d xs) (d + zlen xs) ys = splice l d (xs ++ ys).
Proof.
  revert l d. induction xs as [|x xs IH]; intros l d Hd Hl; simpl in Hl.
  - by rewrite splice_nil, Z.add_0_r.
  - simpl app. rewrite <-!splice_cons by lia.
    replace (d + zlen (x :: xs)) with (d + 1 + zlen xs) by (simpl; lia).
    apply IH; [lia|]. rewrite length_insert. lia.
Qed.

(** The same two writes in the other order. *)
Lemma splice_before {A} (l : list A) d xs ys :
  0 <= d -> d + zlen xs + zlen ys <= zlen l ->
  splice (splice l (d + zlen xs) ys) d xs = splice l d (xs ++ ys).
Proof.
  intros Hd Hl. unfold splice. rewrite length_app.
  replace (Z.to_nat (d + zlen xs)) with (Z.to_nat d + length xs)%nat by lia.
  rewrite <-app_assoc. f_equal.
  - rewrite take_app_le by (rewrite length_take; lia). rewrite take_take. f_equal. lia.
  - f_equal. rewrite drop_app_ge by (rewrite length_take; lia). rewrite length_take.
    replace (_ - _)%nat with 0%nat by lia. rewrite drop_0. do 2 f_equal. lia.
Qed.

Lemma arr_set_splice {A} (l : list A) d xs x :
  0 <= d -> d + zlen xs < zlen l ->
  arr_set (splice l d xs) (d + zlen xs) x = Ret (splice l d (xs ++ [x])).
Proof.
  intros Hd Hl. rewrite arr_set_in by (rewrite length_splice; lia).
  rewrite <-splice_app by lia.
  rewrite <-(splice_cons _ _ x []) by (rewrite length_splice; lia). by rewrite splice_nil.
Qed.

(** A write over the end of another one. *)
Lemma splice_over {A} (l out tail ys : list A) :
  (length tail <= length ys)%nat -> zlen out + zlen ys <= zlen l ->
  splice (splice l 0 (out ++ tail)) (zlen out) ys = splice l 0 (out ++ ys).
Proof.
  intros Ht Hl. unfold splice. simpl. rewrite Nat2Z.id, !length_app.
  rewrite <-!app_assoc, take_app_length. f_equal. f_equal.
  rewrite drop_app_ge by lia. rewrite drop_app_ge by lia. rewrite drop_drop. f_equal. lia.
Qed.

Lemma splice_all {A} (l xs : list A) : length xs = length l -> splice l 0 xs = xs.
Proof. intros H. unfold splice. simpl. by rewrite H, drop_all, app_nil_r. Qed.

(** The first element with a property, and what comes before it. *)
Lemma list_find_prefix {A} (P : A -> Prop) `{forall x, Decision (P x)} (ys : list A) i y :
  list_find P ys = Some (i, y) -> exists pre post, ys = pre ++ y :: post /\ length pre = i /\
    P y /\ Forall (fun x => ~ P x) pre.
Proof.
  intros (Hl & HP & Hn)%list_find_Some. exists (take i ys), (drop (S i) ys).
  split_and!; [by rewrite take_drop_middle|..|].
  - apply length_take_le. apply lookup_lt_Some in Hl. lia.
  - done.
  - apply Forall_forall. intros x (j & Hj)%list_elem_of_lookup.
    apply lookup_take_Some in Hj as [Hj Hji]. eauto.
Qed.

(** ** Counting loops: [for (i = lo; i < lo + n; i++) body] *)

Fixpoint for_loop {S : Type} (n : nat) (i : Z) (body : Z -> S -> outcome S) (s : S)
  : outcome S :=
  match n with
  | O => Ret s
  | Datatypes.S n => s' ← body i s; for_loop n (i + 1) body s'
  end.

(** An invariant of the body indexed by the loop variable holds at the end. *)
Lemma for_loop_inv {S} (P : Z -> S -> Prop) n i (body : Z -> S -> outcome S) s :
  P i s ->
  (forall j s, i <= j < i + Z.of_nat n -> P j s ->
     exists s', body j s = Ret s' /\ P (j + 1) s') ->
  exists s', for_loop n i body s = Ret s' /\ P (i + Z.of_nat n) s'.
Proof.
  revert i s. induction n as [|n IH]; intros i s Hs Hb; simpl.
  - exists s. by rewrite Z.add_0_r.
  - destruct (Hb i s) as (s1 & -> & H1); [lia|done|]. simpl.
    destruct (IH (i + 1) s1 H1) as (s2 & H2 & H3).
    { intros. apply Hb; [lia|done]. }
    exists s2. split; [done|].
    by replace (i + Z.of_nat (Datatypes.S n)) with (i + 1 + Z.of_nat n) by lia.
Qed.
