(* ===== verification/Interfaces.v ===== *)
(** * Interfaces between the components

    What one component promises to the components that call it, as type
    classes.  A client is written and verified against the class; the file of
    the component that implements it proves an instance. *)

From S2P Require Import Prelude.

(** ** The kernel allocator (libk/kmalloc.h)

    [live] is the set of the pointers handed out and not yet freed; the heap
    lies below the pages of the devices, from 0xF000 on. *)

Class Allocator (H : Type) := {
  alloc : H -> Z -> outcome (Z * H);
  dealloc : H -> Z -> outcome H;
  heap_ok : H -> Prop;
  live : H -> gset Z;
  alloc_safe h n : heap_ok h -> is_u16 n -> safe (alloc h n);
  alloc_fresh h n p h' : heap_ok h -> is_u16 n -> alloc h n = Ret (p, h') ->
    heap_ok h' /\ 0 < p < 0xF000 /\ (p ∉ live h) /\ live h' = {[p]} ∪ live h;
  dealloc_live h p : heap_ok h -> p ∈ live h ->
    exists h', dealloc h p = Ret h' /\ heap_ok h' /\ live h' = live h ∖ {[p]};
}.

(** ** Linked lists on the kernel heap (libk/list.h)

    A store holds every [struct list] by its address, the nodes of those lists
    and the heap they are allocated from.  [ls_rep st m own] says that [st]
    holds, at each address [l] of [m], a list whose nodes are, in order, the
    pairs (node pointer, value) of [m !! l], and that [own] are pointers of
    the same heap that belong to no list: the objects of the client.  No node
    is shared between two lists. *)

Definition head_ptr (xs : list (Z * Z)) (d : Z) : Z :=
  match xs with [] => d | (p, _) :: _ => p end.

Class ListStore (S : Type) := {
  ls_init : S -> Z -> S;
  ls_append : S -> Z -> Z -> outcome S;
  ls_remove : S -> Z -> Z -> outcome S;
  ls_nodes : S -> Z -> outcome (list (Z * Z));
  ls_first : S -> Z -> outcome Z;      (** [list->first] *)
  ls_next : S -> Z -> outcome Z;       (** [node->next] *)
  ls_val : S -> Z -> outcome Z;        (** [node->val] *)
  ls_alloc : S -> Z -> outcome (Z * S);
  ls_free : S -> Z -> outcome S;
  ls_rep : S -> gmap Z (list (Z * Z)) -> gset Z -> Prop;
  ls_init_ok st m own l : ls_rep st m own -> ls_rep (ls_init st l) (<[l := []]> m) own;
  ls_append_ok st m own l xs v st' :
    ls_rep st m own -> m !! l = Some xs -> ls_append st l v = Ret st' ->
    exists p, p <> 0 /\ ls_rep st' (<[l := xs ++ [(p, v)]]> m) own;
  ls_append_safe st m own l v :
    ls_rep st m own -> is_Some (m !! l) -> safe (ls_append st l v);
  ls_remove_ok st m own l xs1 p v xs2 :
    ls_rep st m own -> m !! l = Some (xs1 ++ (p, v) :: xs2) ->
    exists st', ls_remove st l p = Ret st' /\ ls_rep st' (<[l := xs1 ++ xs2]> m) own;
  ls_nodes_ok st m own l xs :
    ls_rep st m own -> m !! l = Some xs -> ls_nodes st l = Ret xs;
  ls_nodup st m own l xs :
    ls_rep st m own -> m !! l = Some xs -> NoDup xs.*1 /\ (0 ∉ xs.*1);
  ls_first_ok st m own l xs :
    ls_rep st m own -> m !! l = Some xs -> ls_first st l = Ret (head_ptr xs 0);
  ls_node_ok st m own l xs1 p v xs2 :
    ls_rep st m own -> m !! l = Some (xs1 ++ (p, v) :: xs2) ->
    ls_next st p = Ret (head_ptr xs2 0) /\ ls_val st p = Ret v;
  ls_alloc_ok st m own n p st' :
    ls_rep st m own -> is_u16 n -> ls_alloc st n = Ret (p, st') ->
    0 < p < 0xF000 /\ (p ∉ own) /\ ls_rep st' m ({[p]} ∪ own);
  ls_alloc_safe st m own n : ls_rep st m own -> is_u16 n -> safe (ls_alloc st n);
  ls_free_ok st m own p :
    ls_rep st m own -> p ∈ own ->
    exists st', ls_free st p = Ret st' /\ ls_rep st' m (own ∖ {[p]});
}.
