(* ===== verification/Kmalloc.v ===== *)
(** * The kernel heap (kernel/libk/kmalloc.c)

    A first-fit allocator over an array [memory] of 16-bit cells, one for each
    8-byte chunk of the heap: a cell holds the length in chunks of the block
    that starts there, and every other cell holds 0.  The file models
    [init_malloc], [kmalloc], [kfree] and [mem_free_size], proves them against
    the layout of the heap (a sequence of free chunks and of blocks), and
    shows that they implement the [Allocator] interface. *)

From S2P Require Import Prelude Interfaces.

Definition KERNEL_HEAP_START : Z := 0xA000.
Definition KERNEL_HEAP_END : Z := 0xE3FF.
Definition CHUNK_SIZE : Z := 8.
Definition KERNEL_HEAP_SIZE : Z := u16 (KERNEL_HEAP_END - KERNEL_HEAP_START).
Definition heap_arr_size : Z := KERNEL_HEAP_SIZE / CHUNK_SIZE.

Lemma heap_arr_size_val : heap_arr_size = 2175.
Proof. reflexivity. Qed.

(** ** The code *)

Definition init_malloc (memory : list Z) : outcome (list Z) :=
  for_loop (Z.to_nat heap_arr_size) 0 (fun i m => arr_set m i 0) memory.

(** The search loop of [kmalloc]; [ptr] is 0 when no run of free chunks is
    long enough. *)
Fixpoint kmalloc_loop (fuel : nat) (memory : list Z)
    (size_in_chunks free_chunks current_chunk : Z) : outcome (Z * list Z) :=
  match fuel with
  | O => Hang
  | S fuel =>
    if current_chunk <? heap_arr_size then
      c ← arr_get memory current_chunk;
      if c =? 0 then
        let free_chunks := i16 (free_chunks + 1) in
        if free_chunks =? size_in_chunks then
          let start := i16 (current_chunk - size_in_chunks + 1) in
          memory' ← arr_set memory start (u16 size_in_chunks);
          Ret (u16 (KERNEL_HEAP_START + start * CHUNK_SIZE), memory')
        else
          kmalloc_loop fuel memory size_in_chunks free_chunks (i16 (current_chunk + 1))
      else
        kmalloc_loop fuel memory size_in_chunks 0 (i16 (current_chunk + c))
    else Ret (0, memory)
  end.

Definition heap_fuel : nat := S (Z.to_nat heap_arr_size).

#[global] Opaque heap_fuel heap_arr_size.

Definition size_in_chunks (size : Z) : Z := i16 (u16 (size + CHUNK_SIZE) / CHUNK_SIZE).

Definition kmalloc (memory : list Z) (size : Z) : outcome (Z * list Z) :=
  '(ptr, memory') ← kmalloc_loop heap_fuel memory (size_in_chunks size) 0 0;
  if ptr =? 0 then Panic "kmalloc: out of memory" else Ret (ptr, memory').

Fixpoint mem_free_loop (fuel : nat) (memory : list Z) (free current_chunk : Z)
  : outcome Z :=
  match fuel with
  | O => Hang
  | S fuel =>
    if current_chunk <? heap_arr_size then
      c ← arr_get memory current_chunk;
      if c =? 0 then
        mem_free_loop fuel memory (u16 (free + CHUNK_SIZE)) (i16 (current_chunk + 1))
      else mem_free_loop fuel memory free (i16 (current_chunk + c))
    else Ret (u16 (free * 2))
  end.

Definition mem_free_size (memory : list Z) : outcome Z :=
  mem_free_loop heap_fuel memory 0 0.

Definition kfree (memory : list Z) (ptr : Z) : outcome (list Z) :=
  if (ptr <? KERNEL_HEAP_START) || (KERNEL_HEAP_END <? ptr) then
    Panic "kfree: pointer out of bounds"
  else
    let chunk_number := u16 (ptr - KERNEL_HEAP_START) / CHUNK_SIZE in
    arr_set memory chunk_number 0.

(** ** Layouts

    The abstract heap is a sequence of free chunks and of blocks; [SBlock n]
    is a block of [n + 1] chunks. *)

Inductive seg := SFree | SBlock (n : nat).

Definition seg_cells (s : seg) : list Z :=
  match s with
  | SFree => [0]
  | SBlock n => Z.of_nat (S n) :: replicate n 0
  end.

Definition cells (segs : list seg) : list Z := concat (seg_cells <$> segs).

Definition seg_mask (s : seg) : list bool :=
  match s with SFree => [true] | SBlock n => replicate (S n) false end.

(** One flag for each chunk: is it free? *)
Definition mask (segs : list seg) : list bool := concat (seg_mask <$> segs).

Definition free_run (segs : list seg) (i n : nat) : Prop :=
  forall j, (j < n)%nat -> mask segs !! (i + j)%nat = Some true.

Definition layout_of (memory : list Z) (segs : list seg) : Prop :=
  memory = cells segs /\ zlen memory = heap_arr_size.

(** The blocks of a layout: index of the first chunk and number of chunks. *)
Fixpoint seg_blocks (i : Z) (segs : list seg) : list (Z * Z) :=
  match segs with
  | [] => []
  | SFree :: segs => seg_blocks (i + 1) segs
  | SBlock n :: segs =>
      (i, Z.of_nat (S n)) :: seg_blocks (i + Z.of_nat (S n)) segs
  end.

(** The same list read off the array. *)
Fixpoint blocks (i : Z) (skip : nat) (memory : list Z) : list (Z * Z) :=
  match memory with
  | [] => []
  | c :: m =>
    match skip with
    | S k => blocks (i + 1) k m
    | O => if c =? 0 then blocks (i + 1) 0 m
           else (i, c) :: blocks (i + 1) (Z.to_nat c - 1) m
    end
  end.

Definition chunk_ptr (i : Z) : Z := KERNEL_HEAP_START + i * CHUNK_SIZE.

(** ** Lemmas on layouts *)

Lemma cells_app s1 s2 : cells (s1 ++ s2) = cells s1 ++ cells s2.
Proof. unfold cells. by rewrite fmap_app, concat_app. Qed.

Lemma cells_cons s segs : cells (s :: segs) = seg_cells s ++ cells segs.
Proof. done. Qed.

Lemma mask_app s1 s2 : mask (s1 ++ s2) = mask s1 ++ mask s2.
Proof. unfold mask. by rewrite fmap_app, concat_app. Qed.

Lemma mask_cons s segs : mask (s :: segs) = seg_mask s ++ mask segs.
Proof. done. Qed.

Lemma cells_nil : cells [] = [].
Proof. done. Qed.

Lemma mask_nil : mask [] = [].
Proof. done. Qed.

#[global] Opaque cells mask.

Lemma length_mask segs : length (mask segs) = length (cells segs).
Proof.
  induction segs as [|[|n] segs IH]; [by rewrite cells_nil, mask_nil| |];
    rewrite cells_cons, mask_cons;
    rewrite !length_app, IH; simpl; rewrite ?length_replicate; lia.
Qed.

Lemma cells_replicate_free k : cells (replicate k SFree) = replicate k 0.
Proof. induction k; [apply cells_nil|]. simpl. rewrite cells_cons. simpl. by rewrite IHk. Qed.

Lemma mask_replicate_free k : mask (replicate k SFree) = replicate k true.
Proof. induction k; [apply mask_nil|]. simpl. rewrite mask_cons. simpl. by rewrite IHk. Qed.

(** Lengths of arrays given by their segments. *)
Ltac cells_len :=
  repeat (rewrite ?cells_app, ?cells_replicate_free, ?cells_cons, ?cells_nil, ?length_app,
            ?length_replicate; simpl seg_cells; simpl length).
Ltac cells_len_in H :=
  repeat (rewrite ?cells_app, ?cells_replicate_free, ?cells_cons, ?cells_nil, ?length_app,
            ?length_replicate in H; simpl seg_cells in H; simpl length in H).

Lemma cells_nonneg segs x : x ∈ cells segs -> 0 <= x.
Proof.
  induction segs as [|[|n] segs IH]; [set_solver| |].
  - rewrite cells_cons. simpl. intros [->|?]%elem_of_cons; [lia|auto].
  - rewrite cells_cons. simpl. intros [->|H]%elem_of_cons; [lia|].
    apply elem_of_app in H as [?%elem_of_replicate|?]; [lia|auto].
Qed.

(** A run of free chunks ends before a block. *)
Lemma free_run_no_block segs1 m segs2 i n :
  (length (cells segs1) < i + n)%nat -> (i < length (cells segs1) + S m)%nat -> (0 < n)%nat ->
  ~ free_run (segs1 ++ SBlock m :: segs2) i n.
Proof.
  intros H1 H2 Hn H.
  set (p := length (cells segs1)) in *.
  specialize (H (p `max` i - i)%nat ltac:(lia)).
  rewrite mask_app, lookup_app_r in H by (rewrite length_mask; fold p; lia).
  rewrite length_mask in H. fold p in H.
  rewrite mask_cons in H. unfold seg_mask in H.
  rewrite lookup_app_l in H by (rewrite length_replicate; lia).
  rewrite lookup_replicate_2 in H by lia. done.
Qed.

Lemma free_run_length segs i n :
  (0 < n)%nat -> free_run segs i n -> (i + n <= length (cells segs))%nat.
Proof.
  intros Hn H. specialize (H (n - 1)%nat ltac:(lia)).
  apply lookup_lt_Some in H. rewrite length_mask in H. lia.
Qed.

Lemma free_run_at pre n rest :
  free_run (pre ++ replicate n SFree ++ rest) (length (cells pre)) n.
Proof.
  intros j Hj. rewrite !mask_app, lookup_app_r by (rewrite length_mask; lia).
  rewrite length_mask, lookup_app_l.
  - rewrite mask_replicate_free, lookup_replicate_2 by lia. done.
  - rewrite length_mask, cells_replicate_free, length_replicate. lia.
Qed.

(** Allocating overwrites only the first cell of the run. *)
Lemma cells_allocate pre n rest :
  (0 < n)%nat ->
  arr_set (cells (pre ++ replicate n SFree ++ rest)) (zlen (cells pre)) (Z.of_nat n)
  = Ret (cells (pre ++ SBlock (n - 1) :: rest)).
Proof.
  intros Hn. destruct n as [|n]; [lia|]. rewrite !cells_app, cells_replicate_free.
  simpl replicate. simpl app. rewrite arr_set_middle, cells_cons. simpl.
  by rewrite Nat.sub_0_r.
Qed.

(** The loop stands between two segments of a heap of [size] chunks: after the
    segments [pre], and after [k] free chunks that follow them. *)
Definition loop_at (size : Z) (pre : list seg) (k : nat) (s : seg) (rest : list seg) : Prop :=
  zlen (cells (pre ++ replicate k SFree ++ s :: rest)) = size.

Lemma loop_at_bound size pre k s rest : loop_at size pre k s rest ->
  zlen (cells pre) + Z.of_nat k + zlen (seg_cells s) + zlen (cells rest) = size.
Proof.
  unfold loop_at. rewrite !cells_app, cells_replicate_free, cells_cons,
    !length_app, length_replicate. lia.
Qed.

Lemma loop_at_get pre k s rest c cs : seg_cells s = c :: cs ->
  arr_get (cells (pre ++ replicate k SFree ++ s :: rest)) (zlen (cells pre) + Z.of_nat k)
  = Ret c.
Proof.
  intros Hs. rewrite !cells_app, cells_replicate_free, cells_cons, Hs, app_assoc.
  replace (zlen (cells pre) + Z.of_nat k) with (zlen (cells pre ++ replicate k 0))
    by (rewrite length_app, length_replicate; lia).
  apply arr_get_middle.
Qed.

Lemma replicate_free_snoc pre k rest :
  pre ++ replicate k SFree ++ SFree :: rest = pre ++ replicate (S k) SFree ++ rest.
Proof.
  f_equal. change (SFree :: rest) with (replicate 1 SFree ++ rest).
  rewrite app_assoc, <-replicate_add. f_equal. f_equal. lia.
Qed.

(** ** First fit

    A search loop that behaves as follows on one free chunk, on one block and at
    the end of the heap finds the first run that is long enough.  The kernel's
    loop and the one of the C library are instances. *)

Definition alloc_result (ptr : Z -> Z) (segs : list seg) (n : nat) (r : outcome (Z * list Z)) : Prop :=
  (exists pre rest,
     segs = pre ++ replicate n SFree ++ rest /\
     (forall i, (i < length (cells pre))%nat -> ~ free_run segs i n) /\
     r = Ret (ptr (zlen (cells pre)), cells (pre ++ SBlock (n - 1) :: rest)))
  \/ ((forall i, ~ free_run segs i n) /\ r = Ret (0, cells segs)).

Section FirstFit.
Context (loop : nat -> list Z -> Z -> Z -> Z -> outcome (Z * list Z)) (size : Z) (ptr : Z -> Z).

Record fits_first : Prop := {
  ff_found fuel pre k rest :
    Z.of_nat (S k) < 16384 -> loop_at size pre k SFree rest ->
    loop (S fuel) (cells (pre ++ replicate k SFree ++ SFree :: rest))
      (Z.of_nat (S k)) (Z.of_nat k) (zlen (cells pre) + Z.of_nat k)
    = Ret (ptr (zlen (cells pre)), cells (pre ++ SBlock k :: rest));
  ff_free fuel pre k n rest :
    Z.of_nat k + 1 <> Z.of_nat n -> loop_at size pre k SFree rest ->
    loop (S fuel) (cells (pre ++ replicate k SFree ++ SFree :: rest))
      (Z.of_nat n) (Z.of_nat k) (zlen (cells pre) + Z.of_nat k)
    = loop fuel (cells (pre ++ replicate (S k) SFree ++ rest))
        (Z.of_nat n) (Z.of_nat (S k)) (zlen (cells pre) + Z.of_nat (S k));
  ff_block fuel pre k m n rest :
    loop_at size pre k (SBlock m) rest ->
    loop (S fuel) (cells (pre ++ replicate k SFree ++ SBlock m :: rest))
      n (Z.of_nat k) (zlen (cells pre) + Z.of_nat k)
    = let pre' := pre ++ replicate k SFree ++ [SBlock m] in
      loop fuel (cells (pre' ++ replicate 0 SFree ++ rest))
        n (Z.of_nat 0) (zlen (cells pre') + Z.of_nat 0);
  ff_end fuel memory n k i : size <= i -> loop (S fuel) memory n k i = Ret (0, memory);
}.

Hypothesis FF : fits_first.

Lemma segs_block pre k m rest :
  pre ++ replicate k SFree ++ SBlock m :: rest
  = (pre ++ replicate k SFree ++ [SBlock m]) ++ replicate 0 SFree ++ rest.
Proof using. by rewrite <-!app_assoc. Qed.

Lemma rest_shorter s rest fuel :
  (length (cells (s :: rest)) < S fuel)%nat -> (length (cells rest) < fuel)%nat.
Proof using. rewrite cells_cons. destruct s; simpl; rewrite ?length_app; lia. Qed.

Lemma loop_done pre k : zlen (cells (pre ++ replicate k SFree ++ [])) = size ->
  zlen (cells pre) + Z.of_nat k = size.
Proof using. intros <-. rewrite app_nil_r, cells_app, cells_replicate_free, length_app, length_replicate. lia. Qed.

(** The search: [k] free chunks have just been counted and nothing fits before
    them. *)
Lemma first_fit_spec rest pre k n fuel :
  (k < n)%nat -> Z.of_nat n < 16384 ->
  zlen (cells (pre ++ replicate k SFree ++ rest)) = size ->
  (length (cells rest) < fuel)%nat ->
  (forall i, (i < length (cells pre))%nat ->
     ~ free_run (pre ++ replicate k SFree ++ rest) i n) ->
  alloc_result ptr (pre ++ replicate k SFree ++ rest) n
    (loop fuel (cells (pre ++ replicate k SFree ++ rest)) (Z.of_nat n) (Z.of_nat k)
       (zlen (cells pre) + Z.of_nat k)).
Proof using FF.
  revert pre k fuel.
  induction rest as [|s rest IH]; intros pre k fuel Hk Hn Hlen Hfuel Hno;
    (destruct fuel as [|fuel]; [lia|]).
  - pose proof (loop_done _ _ Hlen) as Htot. right. split.
    + intros i Hi. destruct (decide (i < length (cells pre))%nat); [by eapply Hno|].
      apply free_run_length in Hi; [|lia]. cells_len_in Hi. lia.
    + apply (ff_end FF). lia.
  - pose proof (rest_shorter _ _ _ Hfuel) as Hf.
    destruct s as [|m]; [destruct (decide (n = S k)) as [->|]|].
    + left. exists pre, rest. rewrite (ff_found FF) by done.
      rewrite replicate_free_snoc in *. simpl. by rewrite Nat.sub_0_r.
    + rewrite (ff_free FF) by (done || lia). rewrite replicate_free_snoc in *.
      apply IH; [lia|done..].
    + rewrite (ff_block FF) by done. cbv zeta.
      rewrite (segs_block pre k m rest) in Hlen |- *. apply IH; [lia|done..|].
      intros i Hi. rewrite <-(segs_block pre k m rest).
      destruct (decide (i < length (cells pre))%nat); [by apply Hno|].
      rewrite app_assoc. cells_len_in Hi. apply free_run_no_block; cells_len; lia.
Qed.

(** A search for no chunks never ends early. *)
Lemma first_fit_zero rest pre k fuel :
  zlen (cells (pre ++ replicate k SFree ++ rest)) = size ->
  (length (cells rest) < fuel)%nat ->
  loop fuel (cells (pre ++ replicate k SFree ++ rest)) (Z.of_nat 0) (Z.of_nat k)
    (zlen (cells pre) + Z.of_nat k)
  = Ret (0, cells (pre ++ replicate k SFree ++ rest)).
Proof using FF.
  revert pre k fuel.
  induction rest as [|s rest IH]; intros pre k fuel Hlen Hfuel;
    (destruct fuel as [|fuel]; [lia|]).
  - apply (ff_end FF). rewrite (loop_done _ _ Hlen). done.
  - pose proof (rest_shorter _ _ _ Hfuel) as Hf. destruct s as [|m].
    + rewrite (ff_free FF fuel pre k 0 rest) by (done || lia).
      rewrite replicate_free_snoc in *. by apply IH.
    + rewrite (ff_block FF) by done. cbv zeta. rewrite (segs_block pre k m rest) in Hlen |- *. by apply IH.
Qed.

(** The whole heap. *)
Lemma first_fit_search segs n fuel :
  (0 < n)%nat -> Z.of_nat n < 16384 -> zlen (cells segs) = size -> (length (cells segs) < fuel)%nat ->
  alloc_result ptr segs n (loop fuel (cells segs) (Z.of_nat n) 0 0).
Proof using FF.
  intros Hn Hn' Hlen Hf. apply (first_fit_spec segs [] 0 n fuel);
    [done..|rewrite cells_nil; simpl; lia].
Qed.
End FirstFit.

(** One iteration on a free chunk that completes the run. *)
Lemma kmalloc_loop_found fuel pre k rest :
  Z.of_nat (S k) < 16384 -> loop_at heap_arr_size pre k SFree rest ->
  kmalloc_loop (S fuel) (cells (pre ++ replicate k SFree ++ SFree :: rest))
    (Z.of_nat (S k)) (Z.of_nat k) (zlen (cells pre) + Z.of_nat k)
  = Ret (chunk_ptr (zlen (cells pre)), cells (pre ++ SBlock k :: rest)).
Proof.
  intros Hk Hat. pose proof (loop_at_bound _ _ _ _ _ Hat) as Hb. rewrite heap_arr_size_val in Hb. simpl in Hb.
  simpl kmalloc_loop. rewrite heap_arr_size_val, (proj2 (Z.ltb_lt _ _)) by lia.
  erewrite loop_at_get by done. simpl.
  rewrite (i16_small (Z.of_nat k + 1)), (proj2 (Z.eqb_eq _ _)), i16_small by lia.
  replace (zlen (cells pre) + Z.of_nat k - Z.of_nat (S k) + 1)
    with (zlen (cells pre)) by lia.
  rewrite (u16_small (Z.of_nat (S k))) by lia.
  rewrite replicate_free_snoc, cells_allocate by lia. simpl. rewrite Nat.sub_0_r.
  unfold chunk_ptr. rewrite u16_small; [done|]. unfold KERNEL_HEAP_START, CHUNK_SIZE. lia.
Qed.

(** One iteration on a free chunk that does not. *)
Lemma kmalloc_loop_free fuel pre k n rest :
  Z.of_nat k + 1 <> Z.of_nat n -> loop_at heap_arr_size pre k SFree rest ->
  kmalloc_loop (S fuel) (cells (pre ++ replicate k SFree ++ SFree :: rest))
    (Z.of_nat n) (Z.of_nat k) (zlen (cells pre) + Z.of_nat k)
  = kmalloc_loop fuel (cells (pre ++ replicate (S k) SFree ++ rest))
      (Z.of_nat n) (Z.of_nat (S k)) (zlen (cells pre) + Z.of_nat (S k)).
Proof.
  intros Hk Hat. pose proof (loop_at_bound _ _ _ _ _ Hat) as Hb. rewrite heap_arr_size_val in Hb. simpl in Hb.
  simpl kmalloc_loop. rewrite heap_arr_size_val, (proj2 (Z.ltb_lt _ _)) by lia.
  erewrite loop_at_get by done. simpl.
  rewrite (i16_small (Z.of_nat k + 1)), (proj2 (Z.eqb_neq _ _)), i16_small by lia.
  rewrite replicate_free_snoc. f_equal; lia.
Qed.

(** One iteration on a block jumps over it and starts counting again. *)
Lemma kmalloc_loop_block fuel pre k m n rest :
  loop_at heap_arr_size pre k (SBlock m) rest ->
  kmalloc_loop (S fuel) (cells (pre ++ replicate k SFree ++ SBlock m :: rest))
    n (Z.of_nat k) (zlen (cells pre) + Z.of_nat k)
  = let pre' := pre ++ replicate k SFree ++ [SBlock m] in
    kmalloc_loop fuel (cells (pre' ++ replicate 0 SFree ++ rest))
      n (Z.of_nat 0) (zlen (cells pre') + Z.of_nat 0).
Proof.
  intros Hat. pose proof (loop_at_bound _ _ _ _ _ Hat) as Hb. rewrite heap_arr_size_val in Hb. simpl in Hb.
  rewrite length_replicate in Hb.
  simpl kmalloc_loop. rewrite heap_arr_size_val, (proj2 (Z.ltb_lt _ _)) by lia.
  erewrite loop_at_get by done. simpl. rewrite i16_small by lia.
  f_equal; [by rewrite <-!app_assoc|].
  cells_len. lia.
Qed.

Lemma kmalloc_loop_end fuel memory n k i : heap_arr_size <= i ->
  kmalloc_loop (S fuel) memory n k i = Ret (0, memory).
Proof. intros Hi. simpl. by rewrite (proj2 (Z.ltb_ge _ _)). Qed.

Definition chunks_needed (size : Z) : nat := Z.to_nat ((size + 8) / 8).

Lemma size_in_chunks_small size : 0 <= size < 65528 ->
  size_in_chunks size = Z.of_nat (chunks_needed size) /\
  (0 < chunks_needed size)%nat /\ Z.of_nat (chunks_needed size) < 16384.
Proof.
  intros H. unfold size_in_chunks, chunks_needed, CHUNK_SIZE.
  rewrite u16_small, i16_small by zlia. zlia.
Qed.

Lemma size_in_chunks_large size : 65528 <= size < 65536 -> size_in_chunks size = 0.
Proof.
  intros H. unfold size_in_chunks, CHUNK_SIZE.
  replace (u16 (size + 8)) with (size + 8 - 65536) by zlia.
  rewrite Z.div_small by lia. done.
Qed.

Lemma kmalloc_fuel segs : zlen (cells segs) = heap_arr_size ->
  (length (cells segs) < heap_fuel)%nat.
Proof. intros H. Transparent heap_fuel. unfold heap_fuel. lia. Opaque heap_fuel. Qed.

Lemma kmalloc_fits : fits_first kmalloc_loop heap_arr_size chunk_ptr.
Proof.
  split; [exact kmalloc_loop_found|exact kmalloc_loop_free|exact kmalloc_loop_block|exact kmalloc_loop_end].
Qed.

(** The search as [kmalloc] starts it. *)
Lemma kmalloc_search segs n :
  (0 < n)%nat -> Z.of_nat n < 16384 -> zlen (cells segs) = heap_arr_size ->
  alloc_result chunk_ptr segs n (kmalloc_loop heap_fuel (cells segs) (Z.of_nat n) 0 0).
Proof.
  intros Hn Hn' Hlen. apply (first_fit_search _ _ _ kmalloc_fits); [done..|by apply kmalloc_fuel].
Qed.

Lemma kmalloc_search_zero segs : zlen (cells segs) = heap_arr_size ->
  kmalloc_loop heap_fuel (cells segs) 0 0 0 = Ret (0, cells segs).
Proof. intros H. apply (first_fit_zero _ _ _ kmalloc_fits segs [] 0 heap_fuel H), kmalloc_fuel, H. Qed.

Lemma chunk_ptr_nonzero i : 0 <= i -> chunk_ptr i <> 0.
Proof. unfold chunk_ptr, KERNEL_HEAP_START, CHUNK_SIZE. lia. Qed.

(** What [kmalloc] does to the layout, on both branches. *)
Lemma kmalloc_layout segs size :
  zlen (cells segs) = heap_arr_size -> is_u16 size ->
  let n := chunks_needed size in
  (exists pre rest,
     segs = pre ++ replicate n SFree ++ rest /\
     (forall i, (i < length (cells pre))%nat -> ~ free_run segs i n) /\
     kmalloc (cells segs) size
       = Ret (chunk_ptr (zlen (cells pre)), cells (pre ++ SBlock (n - 1) :: rest)))
  \/ ((forall i, ~ free_run segs i n) /\
      kmalloc (cells segs) size = Panic "kmalloc: out of memory").
Proof.
  intros Hlen Hsz n. unfold kmalloc.
  destruct (decide (size < 65528)) as [Hs|Hs].
  - destruct (size_in_chunks_small size) as (-> & Hn & Hn'); [lia|].
    destruct (kmalloc_search segs n) as [(pre & rest & E & Hno & R)|[Hno R]]; [done..| |].
    + left. exists pre, rest. split_and!; [done..|].
      fold n. rewrite R. simpl.
      rewrite (proj2 (Z.eqb_neq _ _)) by (apply chunk_ptr_nonzero; lia). done.
    + right. split; [done|].
      fold n. by rewrite R.
  - right. rewrite size_in_chunks_large by lia. split.
    + intros i Hi. unfold n, chunks_needed in Hi.
      apply free_run_length in Hi; [|zlia]. rewrite heap_arr_size_val in Hlen. zlia.
    + by rewrite kmalloc_search_zero.
Qed.

(** ** Blocks *)

Lemma blocks_skip i k l : blocks i k (replicate k 0 ++ l) = blocks (i + Z.of_nat k) 0 l.
Proof.
  revert i. induction k as [|k IH]; intros i; simpl; [by rewrite Z.add_0_r|].
  rewrite IH. f_equal. lia.
Qed.

Lemma blocks_cells i segs : blocks i 0 (cells segs) = seg_blocks i segs.
Proof.
  revert i. induction segs as [|[|n] segs IH]; intros i; [done| |]; rewrite cells_cons; simpl.
  - apply IH.
  - replace (Z.to_nat (Z.of_nat (S n)) - 1)%nat with n by lia.
    rewrite blocks_skip, IH. do 2 f_equal. lia.
Qed.

Lemma seg_blocks_app i s1 s2 :
  seg_blocks i (s1 ++ s2) = seg_blocks i s1 ++ seg_blocks (i + zlen (cells s1)) s2.
Proof.
  revert i. induction s1 as [|[|n] s1 IH]; intros i; simpl.
  - f_equal. rewrite cells_nil. simpl. lia.
  - rewrite IH. cells_len. do 2 f_equal. lia.
  - rewrite IH. cells_len. do 3 f_equal. lia.
Qed.

Lemma seg_blocks_free i k : seg_blocks i (replicate k SFree) = [].
Proof. revert i. induction k; intros; simpl; auto. Qed.

Lemma seg_blocks_bounds i segs j l : (j, l) ∈ seg_blocks i segs ->
  i <= j /\ 0 < l /\ j + l <= i + zlen (cells segs).
Proof.
  revert i. induction segs as [|[|n] segs IH]; intros i; simpl.
  - by intros ?%elem_of_nil.
  - intros H%IH. cells_len. lia.
  - cells_len.
    intros [H|H%IH]%elem_of_cons; [simplify_eq|]; lia.
Qed.

Lemma seg_blocks_split i segs j l : (j, l) ∈ seg_blocks i segs ->
  exists pre m rest, segs = pre ++ SBlock m :: rest /\
    j = i + zlen (cells pre) /\ l = Z.of_nat (S m).
Proof.
  revert i. induction segs as [|[|n] segs IH]; intros i; simpl.
  - by intros ?%elem_of_nil.
  - intros (pre & m & rest & -> & -> & ->)%IH.
    exists (SFree :: pre), m, rest. cells_len. split_and!; [done|lia|done].
  - intros [H|(pre & m & rest & -> & -> & ->)%IH]%elem_of_cons.
    + simplify_eq. exists [], n, segs. cells_len. split_and!; [done|lia|done].
    + exists (SBlock n :: pre), m, rest. cells_len. split_and!; [done|lia|done].
Qed.

Lemma seg_blocks_allocate pre n rest : (0 < n)%nat ->
  seg_blocks 0 (pre ++ SBlock (n - 1) :: rest) ≡ₚ
  (zlen (cells pre), Z.of_nat n) :: seg_blocks 0 (pre ++ replicate n SFree ++ rest).
Proof.
  intros Hn. rewrite !seg_blocks_app, seg_blocks_free, cells_replicate_free, length_replicate.
  simpl. replace (S (n - 1)) with n by lia.
  by rewrite <-Permutation_middle.
Qed.

Lemma cells_kfree pre m rest : zlen (cells (pre ++ SBlock m :: rest)) = heap_arr_size ->
  kfree (cells (pre ++ SBlock m :: rest)) (chunk_ptr (zlen (cells pre)))
  = Ret (cells (pre ++ replicate (S m) SFree ++ rest)).
Proof.
  intros Hlen. rewrite heap_arr_size_val, cells_app, cells_cons, !length_app in Hlen.
  simpl in Hlen. unfold kfree, chunk_ptr, KERNEL_HEAP_START, KERNEL_HEAP_END, CHUNK_SIZE.
  rewrite (proj2 (Z.ltb_ge _ _)), (proj2 (Z.ltb_ge _ _)) by lia. simpl orb. cbv iota zeta.
  rewrite u16_small by lia.
  replace ((40960 + zlen (cells pre) * 8 - 40960) / 8) with (zlen (cells pre)) by zlia.
  rewrite !cells_app, cells_cons, cells_replicate_free. simpl app.
  by rewrite arr_set_middle.
Qed.

Definition free_chunks (segs : list seg) : Z :=
  zlen (filter (fun b : bool => b = true) (mask segs)).

Lemma free_chunks_cons s segs : free_chunks (s :: segs) =
  (match s with SFree => 1 | SBlock _ => 0 end) + free_chunks segs.
Proof.
  unfold free_chunks. rewrite mask_cons, filter_app, length_app. destruct s as [|m]; [simpl; lia|].
  replace (filter (λ b : bool, b = true) (seg_mask (SBlock m))) with (@nil bool); [simpl; lia|].
  unfold seg_mask. generalize (S m) as k. induction k as [|k IH]; [done|]. simpl.
  by rewrite filter_cons_False.
Qed.

Lemma mem_free_loop_spec rest pre fuel free :
  zlen (cells (pre ++ rest)) = heap_arr_size -> (length (cells rest) < fuel)%nat ->
  0 <= free <= CHUNK_SIZE * zlen (cells pre) ->
  mem_free_loop fuel (cells (pre ++ rest)) free (zlen (cells pre))
  = Ret ((free + CHUNK_SIZE * free_chunks rest) * 2).
Proof.
  unfold CHUNK_SIZE. revert pre fuel free.
  induction rest as [|s rest IH]; intros pre fuel free Hlen Hfuel Hfree;
    (destruct fuel as [|fuel]; [lia|]); simpl mem_free_loop.
  - rewrite app_nil_r in *. rewrite heap_arr_size_val in *.
    rewrite (proj2 (Z.ltb_ge _ _)) by lia. unfold free_chunks. rewrite mask_nil. simpl.
    rewrite u16_small by lia. f_equal. lia.
  - assert (Hat : loop_at heap_arr_size pre 0 s rest) by done.
    pose proof (loop_at_bound _ _ _ _ _ Hat) as Hb. rewrite heap_arr_size_val in Hb. rewrite heap_arr_size_val.
    pose proof (fun c cs => loop_at_get pre 0 s rest c cs) as Hget.
    rewrite Z.add_0_r in Hget. simpl app in Hget.
    assert (Hsegs : pre ++ s :: rest = (pre ++ [s]) ++ rest) by (by rewrite <-app_assoc).
    cells_len_in Hfuel. rewrite free_chunks_cons.
    destruct s as [|m]; cells_len_in Hfuel; cells_len_in Hb;
      rewrite (proj2 (Z.ltb_lt _ _)) by lia; erewrite Hget by done; simpl.
    + unfold CHUNK_SIZE. rewrite i16_small, u16_small, Hsegs by lia.
      replace (zlen (cells pre) + 1) with (zlen (cells (pre ++ [SFree]))) by (cells_len; lia).
      rewrite IH; [f_equal; lia|by rewrite <-Hsegs|lia|cells_len; lia].
    + rewrite i16_small, Hsegs by lia.
      replace (zlen (cells pre) + Z.of_nat (S m)) with (zlen (cells (pre ++ [SBlock m])))
        by (cells_len; lia).
      rewrite IH; [f_equal; lia|by rewrite <-Hsegs|lia|cells_len; lia].
Qed.

(** ** Properties *)

(** C14. [kmalloc] implements first fit on every heap that has a layout: it
    returns the lowest-addressed run of enough free chunks, which becomes a
    block and is the only change, and it panics exactly when no such run
    exists (a size that overflows [size + CHUNK_SIZE] included).  It never
    faults and always terminates. *)
Theorem kmalloc_first_fit memory segs size :
  layout_of memory segs -> is_u16 size ->
  let n := chunks_needed size in
  match kmalloc memory size with
  | Ret (p, memory') => exists pre rest,
      segs = pre ++ replicate n SFree ++ rest /\
      (forall i, (i < length (cells pre))%nat -> ~ free_run segs i n) /\
      p = chunk_ptr (zlen (cells pre)) /\
      layout_of memory' (pre ++ SBlock (n - 1) :: rest)
  | Panic m => m = "kmalloc: out of memory"%string /\ (forall i, ~ free_run segs i n)
  | _ => False
  end.
Proof.
  intros [-> Hlen] Hsz n.
  destruct (kmalloc_layout segs size Hlen Hsz) as [(pre & rest & E & Hno & ->)|[Hno ->]].
  - exists pre, rest. fold n. split_and!; [done..|split; [done|]].
    rewrite <-Hlen, E. assert (0 < n)%nat by (unfold n, chunks_needed; zlia).
    cells_len. fold n. lia.
  - done.
Qed.

Definition empty_heap : list Z := replicate 2175 0.

Lemma empty_heap_layout : layout_of empty_heap (replicate 2175 SFree).
Proof. split; [|done]. by rewrite cells_replicate_free. Qed.

Lemma kmalloc_first_fit_witness :
  kmalloc empty_heap 20 = Ret (0xA000, 3 :: replicate 2174 0) /\
  (let n := chunks_needed 20 in
   match kmalloc empty_heap 20 with
   | Ret (p, memory') => exists pre rest,
       replicate 2175 SFree = pre ++ replicate n SFree ++ rest /\
       (forall i, (i < length (cells pre))%nat -> ~ free_run (replicate 2175 SFree) i n) /\
       p = chunk_ptr (zlen (cells pre)) /\
       layout_of memory' (pre ++ SBlock (n - 1) :: rest)
   | Panic m => m = "kmalloc: out of memory"%string /\
       (forall i, ~ free_run (replicate 2175 SFree) i n)
   | _ => False
   end).
Proof.
  split; [vm_compute; reflexivity|].
  apply (kmalloc_first_fit empty_heap (replicate 2175 SFree) 20).
  - apply empty_heap_layout.
  - lia.
Defined.

(** A block handed out by [kmalloc], by the layout before and after. *)
Lemma kmalloc_Ret memory segs size p memory' :
  layout_of memory segs -> is_u16 size -> kmalloc memory size = Ret (p, memory') ->
  exists pre rest, let n := chunks_needed size in
    segs = pre ++ replicate n SFree ++ rest /\ (0 < n)%nat /\
    p = chunk_ptr (zlen (cells pre)) /\ layout_of memory' (pre ++ SBlock (n - 1) :: rest).
Proof.
  intros [-> Hlen] Hsz R.
  destruct (kmalloc_layout segs size Hlen Hsz) as [(pre & rest & E & _ & R')|[_ R']];
    rewrite R in R'; [|done]. simplify_eq.
  exists pre, rest. simpl. assert (0 < chunks_needed size)%nat by (unfold chunks_needed; zlia).
  split_and!; [done..|]. split; [done|]. rewrite <-Hlen. cells_len. lia.
Qed.

(** C15. Memory safety of [kmalloc]: the block is 8-byte aligned, lies inside
    the heap with one byte to spare beyond the size asked for, shares no byte
    with a block in use, and the blocks in use afterwards are the old ones and
    this one. *)
Theorem kmalloc_disjoint memory segs size p memory' :
  layout_of memory segs -> is_u16 size -> kmalloc memory size = Ret (p, memory') ->
  p mod 8 = 0 /\ KERNEL_HEAP_START <= p /\ p + size < KERNEL_HEAP_END /\
  (forall i l, (i, l) ∈ blocks 0 0 memory ->
     p + size < chunk_ptr i \/ chunk_ptr (i + l) <= p) /\
  exists i l, p = chunk_ptr i /\ size < l * CHUNK_SIZE /\
    blocks 0 0 memory' ≡ₚ (i, l) :: blocks 0 0 memory.
Proof.
  intros Hlay Hsz R. pose proof Hlay as [-> Hlen].
  destruct (kmalloc_Ret _ _ _ _ _ Hlay Hsz R) as (pre & rest & -> & Hn & -> & -> & Hlen').
  set (n := chunks_needed size) in *.
  assert (Hsn : size < Z.of_nat n * 8) by (unfold n, chunks_needed; zlia).
  assert (Hsn' : Z.of_nat n * 8 <= size + 8) by (unfold n, chunks_needed; zlia).
  cells_len_in Hlen. rewrite heap_arr_size_val in Hlen.
  unfold chunk_ptr, KERNEL_HEAP_START, KERNEL_HEAP_END, CHUNK_SIZE.
  split_and!; [zlia|lia|lia| |].
  - intros i l. rewrite blocks_cells, !seg_blocks_app, seg_blocks_free. simpl app.
    intros [H|H]%elem_of_app; apply seg_blocks_bounds in H; [lia|].
    rewrite cells_replicate_free, length_replicate in H. lia.
  - exists (zlen (cells pre)), (Z.of_nat n). split_and!; [done|lia|].
    rewrite !blocks_cells. by apply seg_blocks_allocate.
Qed.

Lemma kmalloc_disjoint_witness :
  0xA018 mod 8 = 0 /\ KERNEL_HEAP_START <= 0xA018 /\ 0xA018 + 20 < KERNEL_HEAP_END /\
  (forall i l, (i, l) ∈ blocks 0 0 (cells (SBlock 2 :: replicate 2172 SFree)) ->
     0xA018 + 20 < chunk_ptr i \/ chunk_ptr (i + l) <= 0xA018) /\
  exists i l, 0xA018 = chunk_ptr i /\ 20 < l * CHUNK_SIZE /\
    blocks 0 0 (cells (SBlock 2 :: SBlock 2 :: replicate 2169 SFree)) ≡ₚ
    (i, l) :: blocks 0 0 (cells (SBlock 2 :: replicate 2172 SFree)).
Proof.
  eapply (kmalloc_disjoint _ (SBlock 2 :: replicate 2172 SFree) 20).
  - split; [reflexivity|vm_compute; reflexivity].
  - lia.
  - vm_compute. reflexivity.
Defined.

(** Round trip: freeing a block right after it was allocated restores the
    heap exactly. *)
Theorem kmalloc_kfree memory segs size p memory' :
  layout_of memory segs -> is_u16 size -> kmalloc memory size = Ret (p, memory') ->
  kfree memory' p = Ret memory.
Proof.
  intros Hlay Hsz R. pose proof Hlay as [-> Hlen].
  destruct (kmalloc_Ret _ _ _ _ _ Hlay Hsz R) as (pre & rest & -> & Hn & -> & -> & Hlen').
  rewrite cells_kfree by done. by replace (S (chunks_needed size - 1)) with (chunks_needed size) by lia.
Qed.

Lemma kmalloc_kfree_witness : kfree (3 :: replicate 2174 0) 0xA000 = Ret empty_heap.
Proof.
  apply (kmalloc_kfree empty_heap (replicate 2175 SFree) 20 0xA000).
  - apply empty_heap_layout.
  - lia.
  - vm_compute. reflexivity.
Defined.

(** A cell where no block starts holds 0. *)
Lemma cells_not_block o segs j :
  (forall l, (j, l) ∉ seg_blocks o segs) -> o <= j < o + zlen (cells segs) ->
  cells segs !! Z.to_nat (j - o) = Some 0.
Proof.
  revert o. induction segs as [|s segs IH]; intros o Hno Hj; cells_len_in Hj; [lia|].
  rewrite cells_cons. destruct (decide (j < o + zlen (seg_cells s))) as [Hin|Hout].
  - rewrite lookup_app_l by lia. destruct s as [|m]; simpl in Hin, Hno |- *.
    + by replace (Z.to_nat (j - o)) with 0%nat by lia.
    + destruct (decide (j = o)) as [->|Hne]; [destruct (Hno (Z.of_nat (S m))); set_solver|].
      rewrite length_replicate in Hin.
      rewrite lookup_cons_ne_0 by lia. apply lookup_replicate_2. lia.
  - rewrite lookup_app_r by lia.
    replace (Z.to_nat (j - o) - length (seg_cells s))%nat
      with (Z.to_nat (j - (o + zlen (seg_cells s)))) by lia.
    apply IH; [|lia]. intros l Hl. apply (Hno l).
    destruct s as [|m]; simpl in Hl |- *; rewrite ?length_replicate in Hl; set_solver.
Qed.

(** Every block in use can be freed, and nothing else changes. *)
Lemma kfree_block memory segs i l :
  layout_of memory segs -> (i, l) ∈ blocks 0 0 memory ->
  exists memory' segs', kfree memory (chunk_ptr i) = Ret memory' /\
    layout_of memory' segs' /\ blocks 0 0 memory ≡ₚ (i, l) :: blocks 0 0 memory'.
Proof.
  intros [-> Hlen]. rewrite blocks_cells.
  intros (pre & m & rest & -> & -> & ->)%seg_blocks_split.
  rewrite Z.add_0_l, cells_kfree by done.
  eexists _, _. split_and!; [done|split; [done|]|].
  - rewrite <-Hlen. cells_len. lia.
  - rewrite blocks_cells. rewrite <-seg_blocks_allocate by lia.
    simpl. by rewrite Nat.sub_0_r.
Qed.

(** [kfree] on every pointer value: a pointer outside the heap panics; a
    pointer to a block in use frees exactly that block; any other pointer into
    the chunks of the heap changes nothing; and a pointer into the 8 bytes
    after the last chunk passes the bounds check of the code and then indexes
    [memory] one past its end. *)
Theorem kfree_cases memory segs p :
  layout_of memory segs -> is_u16 p ->
  let i := (p - KERNEL_HEAP_START) / CHUNK_SIZE in
  (p < KERNEL_HEAP_START \/ KERNEL_HEAP_END < p ->
     kfree memory p = Panic "kfree: pointer out of bounds") /\
  (KERNEL_HEAP_START <= p <= KERNEL_HEAP_END ->
     (i < heap_arr_size -> (forall l, (i, l) ∉ blocks 0 0 memory) ->
        kfree memory p = Ret memory) /\
     (forall l, (i, l) ∈ blocks 0 0 memory ->
        exists memory', kfree memory p = Ret memory' /\
          (exists segs', layout_of memory' segs') /\
          blocks 0 0 memory ≡ₚ (i, l) :: blocks 0 0 memory') /\
     (0xE3F8 <= p -> kfree memory p = Fault)).
Proof.
  intros Hlay Hp i. pose proof Hlay as [Hmem Hlen]. rewrite heap_arr_size_val in *.
  unfold KERNEL_HEAP_START, KERNEL_HEAP_END, CHUNK_SIZE in *. split.
  { intros H. unfold kfree, KERNEL_HEAP_START, KERNEL_HEAP_END.
    destruct (Z.ltb_spec p 40960), (Z.ltb_spec 58367 p); simpl; done || lia. }
  intros Hr.
  assert (Hk : kfree memory p = arr_set memory i 0).
  { unfold kfree, KERNEL_HEAP_START, KERNEL_HEAP_END, CHUNK_SIZE.
    rewrite (proj2 (Z.ltb_ge _ _)), (proj2 (Z.ltb_ge _ _)), u16_small by lia. done. }
  rewrite Hk. split_and!.
  - intros Hi Hno. rewrite arr_set_in by (unfold i in *; zlia). f_equal.
    apply list_insert_id. rewrite Hmem in *. rewrite blocks_cells in Hno.
    rewrite <-(Z.sub_0_r i). apply cells_not_block; [done|unfold i; zlia].
  - intros l Hin. destruct (kfree_block _ _ _ _ Hlay Hin) as (m' & segs' & R & L & B).
    exists m'. split_and!; [|eauto|done]. rewrite <-R. unfold kfree, chunk_ptr.
    rewrite Hmem, blocks_cells in Hin. apply seg_blocks_bounds in Hin.
    rewrite <-Hmem, Hlen in Hin. unfold KERNEL_HEAP_START, KERNEL_HEAP_END, CHUNK_SIZE.
    rewrite (proj2 (Z.ltb_ge _ _)), (proj2 (Z.ltb_ge _ _)), u16_small by lia. simpl.
    f_equal. zlia.
  - intros Hp'. unfold arr_set. rewrite decide_False; [done|]. unfold i. zlia.
Qed.

Lemma kfree_cases_witness :
  kfree (3 :: replicate 2174 0) 0xA000 = Ret empty_heap /\
  kfree empty_heap 0xE3FF = Fault.
Proof.
  split.
  - vm_compute. reflexivity.
  - apply (kfree_cases empty_heap (replicate 2175 SFree) 0xE3FF empty_heap_layout);
      [lia|unfold KERNEL_HEAP_START, KERNEL_HEAP_END; lia|lia].
Defined.

(** [mem_free_size] terminates on every heap with a layout and returns
    twice the number of free bytes: the code multiplies by 2 a count that is
    already in bytes. *)
Theorem mem_free_size_twice memory segs :
  layout_of memory segs ->
  mem_free_size memory = Ret (2 * (CHUNK_SIZE * free_chunks segs)).
Proof.
  intros [-> Hlen]. unfold mem_free_size.
  pose proof (mem_free_loop_spec segs [] heap_fuel 0 Hlen (kmalloc_fuel _ Hlen)) as R.
  rewrite cells_nil in R. simpl app in R. simpl length in R.
  change (Z.of_nat 0) with 0 in R. rewrite R by (unfold CHUNK_SIZE; lia).
  f_equal. lia.
Qed.

Lemma mem_free_size_twice_witness :
  mem_free_size empty_heap = Ret (2 * (CHUNK_SIZE * free_chunks (replicate 2175 SFree))) /\
  mem_free_size empty_heap = Ret 34800.
Proof.
  split; [|vm_compute; reflexivity].
  apply (mem_free_size_twice empty_heap), empty_heap_layout.
Defined.

Lemma init_malloc_spec memory :
  zlen memory = heap_arr_size -> init_malloc memory = Ret empty_heap.
Proof.
  intros Hlen. unfold init_malloc.
  destruct (for_loop_inv
    (fun i m => 0 <= i <= 2175 /\ m = replicate (Z.to_nat i) 0 ++ drop (Z.to_nat i) memory)
    (Z.to_nat heap_arr_size) 0 (fun i m => arr_set m i 0) memory) as (s & -> & Hi & ->).
  - split; [lia|done].
  - rewrite heap_arr_size_val in *. intros j s Hj [Hj' ->].
    destruct (drop (Z.to_nat j) memory) as [|x l] eqn:E.
    { apply (f_equal length) in E. rewrite length_drop in E. simpl in E. lia. }
    exists (replicate (Z.to_nat j) 0 ++ 0 :: l). split.
    + rewrite <-(arr_set_middle _ _ x). f_equal. rewrite length_replicate. lia.
    + split; [lia|]. replace (Z.to_nat (j + 1)) with (Z.to_nat j + 1)%nat by lia.
      rewrite replicate_add, <-drop_drop, E, <-app_assoc. done.
  - rewrite heap_arr_size_val in *. f_equal.
    rewrite drop_ge by lia. by rewrite app_nil_r.
Qed.

(** After [init_malloc] every byte of the heap array is free, whatever the
    array held before: the first [kmalloc] of any size up to 17399 bytes
    succeeds at the start of the heap. *)
Theorem init_malloc_kmalloc memory size :
  zlen memory = heap_arr_size -> 0 <= size <= 17399 ->
  exists m m', init_malloc memory = Ret m /\
    kmalloc m size = Ret (KERNEL_HEAP_START, m') /\
    blocks 0 0 m' = [(0, (size + 8) / 8)].
Proof.
  intros Hlen Hsz. rewrite init_malloc_spec by done.
  destruct empty_heap_layout as [Hc Hl]. rewrite Hc in Hl |- *.
  destruct (kmalloc_layout (replicate 2175 SFree) size Hl) as [(pre & rest & E & Hno & R)|[Hno R]];
    [lia| |].
  - assert (Hpre : length (cells pre) = 0%nat).
    { destruct (length (cells pre)) as [|k] eqn:Hk; [done|]. destruct (Hno 0%nat); [lia|].
      intros j Hj. rewrite mask_replicate_free, lookup_replicate_2; [done|].
      apply (f_equal (fun s => length (cells s))) in E. cells_len_in E. lia. }
    exists (cells (replicate 2175 SFree)), (cells (pre ++ SBlock (chunks_needed size - 1) :: rest)).
    rewrite R, Hpre. split_and!; [done|done|].
    apply length_zero_iff_nil in Hpre. destruct pre as [|s pre].
    2:{ rewrite cells_cons in Hpre. by destruct s. }
    simpl app in *. rewrite blocks_cells.
    assert (exists k, rest = replicate k SFree) as [k ->].
    { exists (2175 - chunks_needed size)%nat.
      apply (f_equal (drop (chunks_needed size))) in E.
      rewrite drop_replicate, drop_app_length' in E by (by rewrite length_replicate). done. }
    simpl. rewrite seg_blocks_free. do 2 f_equal. unfold chunks_needed. zlia.
  - destruct (Hno 0%nat). intros j Hj. rewrite mask_replicate_free.
    apply lookup_replicate_2. unfold chunks_needed in Hj. zlia.
Qed.

Lemma init_malloc_kmalloc_witness :
  exists m m', init_malloc (replicate 2175 7) = Ret m /\
    kmalloc m 17399 = Ret (KERNEL_HEAP_START, m') /\ blocks 0 0 m' = [(0, 2175)].
Proof.
  apply (init_malloc_kmalloc (replicate 2175 7) 17399).
  - vm_compute. reflexivity.
  - lia.
Defined.

(** ** Reachable heaps *)

(** The heaps that [init_malloc] and any sequence of calls can produce,
    [kfree] of pointers that were never handed out included. *)
Inductive heap_reached : list Z -> Prop :=
| reached_init memory memory' :
    zlen memory = heap_arr_size -> init_malloc memory = Ret memory' -> heap_reached memory'
| reached_kmalloc memory size p memory' :
    heap_reached memory -> is_u16 size -> kmalloc memory size = Ret (p, memory') -> heap_reached memory'
| reached_kfree memory p memory' :
    heap_reached memory -> is_u16 p -> kfree memory p = Ret memory' -> heap_reached memory'.

(** [kfree] keeps a layout for every pointer it accepts. *)
Lemma kfree_layout memory segs p memory' :
  layout_of memory segs -> is_u16 p -> kfree memory p = Ret memory' -> exists segs', layout_of memory' segs'.
Proof.
  intros L Hp R. destruct (kfree_cases _ _ _ L Hp) as [Hout Hin].
  destruct (decide (p < KERNEL_HEAP_START \/ KERNEL_HEAP_END < p)) as [Ho|Ho]; [by rewrite Hout in R|].
  destruct Hin as (Hno & Hblock & Hpast); [lia|]. set (i := (p - KERNEL_HEAP_START) / CHUNK_SIZE) in *.
  destruct (decide (0xE3F8 <= p)) as [|Hlt]; [by rewrite Hpast in R|].
  destruct (decide (i ∈ (blocks 0 0 memory).*1)) as [([j l] & Ej & Hjl)%list_elem_of_fmap|Hni].
  - simpl in Ej. subst j. destruct (Hblock l Hjl) as (m' & R' & Hs & _). rewrite R in R'. by simplify_eq.
  - rewrite Hno in R; [simplify_eq; eauto| |].
    + rewrite heap_arr_size_val. unfold i, KERNEL_HEAP_START, CHUNK_SIZE. zlia.
    + intros l Hl. apply Hni, list_elem_of_fmap. by exists (i, l).
Qed.

(** C16. The representation invariant of the heap: whatever calls were made since
    [init_malloc], wrong calls of [kfree] included, [memory] is a sequence of
    free chunks and of blocks that fills the array exactly.  On such a heap
    [mem_free_size] and [kmalloc] of every size come to an end, and [kmalloc]
    can only return or report that the memory is full. *)
Theorem heap_well_formed memory :
  heap_reached memory ->
  (exists segs, layout_of memory segs) /\ (exists n, mem_free_size memory = Ret n) /\
  forall size, is_u16 size ->
    (exists p memory', kmalloc memory size = Ret (p, memory')) \/ kmalloc memory size = Panic "kmalloc: out of memory".
Proof.
  intros R. assert (exists segs, layout_of memory segs) as [segs L].
  { induction R as [m m' Hl R|m size p m' _ [segs L] Hs R|m p m' _ [segs L] Hp R].
    - rewrite init_malloc_spec in R by done. simplify_eq. eexists. apply empty_heap_layout.
    - destruct (kmalloc_Ret _ _ _ _ _ L Hs R) as (pre & rest & _ & _ & _ & L'). eauto.
    - by eapply kfree_layout. }
  split; [by exists segs|]. split; [eexists; by apply mem_free_size_twice|]. destruct L as [-> Hlen]. intros size Hs.
  destruct (kmalloc_layout segs size Hlen Hs) as [(pre & rest & _ & _ & ->)|[_ ->]]; eauto.
Qed.

Lemma heap_well_formed_witness :
  (exists segs, layout_of (0 :: replicate 2174 0) segs) /\ (exists n, mem_free_size (0 :: replicate 2174 0) = Ret n) /\
  forall size, is_u16 size ->
    (exists p memory', kmalloc (0 :: replicate 2174 0) size = Ret (p, memory')) \/
    kmalloc (0 :: replicate 2174 0) size = Panic "kmalloc: out of memory".
Proof.
  apply heap_well_formed. apply (reached_kfree (3 :: replicate 2174 0) 0xA000); [|lia|vm_compute; reflexivity].
  apply (reached_kmalloc empty_heap 20 0xA000); [|lia|vm_compute; reflexivity].
  apply (reached_init (replicate 2175 7)); vm_compute; reflexivity.
Defined.

(** ** The interface *)

Definition live_ptrs (memory : list Z) : gset Z :=
  list_to_set ((fun b => chunk_ptr b.1) <$> blocks 0 0 memory).

Lemma chunk_ptr_inj i j : chunk_ptr i = chunk_ptr j -> i = j.
Proof. unfold chunk_ptr, CHUNK_SIZE. lia. Qed.

Lemma live_ptrs_elem memory p :
  p ∈ live_ptrs memory <-> exists i l, p = chunk_ptr i /\ (i, l) ∈ blocks 0 0 memory.
Proof.
  unfold live_ptrs. rewrite elem_of_list_to_set, list_elem_of_fmap. split.
  - intros ([i l] & -> & H). eauto.
  - intros (i & l & -> & H). by exists (i, l).
Qed.

Lemma seg_blocks_NoDup o segs : NoDup (seg_blocks o segs).*1.
Proof.
  revert o. induction segs as [|[|n] segs IH]; intros o; simpl; [constructor|apply IH|].
  constructor; [|apply IH].
  intros ([i l] & -> & H)%list_elem_of_fmap. apply seg_blocks_bounds in H. simpl in H. lia.
Qed.

#[export] Program Instance kmalloc_allocator : Allocator (list Z) := {|
  alloc := kmalloc;
  dealloc := kfree;
  heap_ok := fun memory => exists segs, layout_of memory segs;
  live := live_ptrs;
|}.
Next Obligation.
  intros h n [segs [-> Hlen]] Hn.
  destruct (kmalloc_layout segs n Hlen Hn) as [(? & ? & _ & _ & ->)|[_ ->]]; done.
Qed.
Next Obligation.
  intros h n p h' [segs Hlay] Hn R.
  destruct (kmalloc_Ret _ _ _ _ _ Hlay Hn R) as (pre & rest & E & Hpos & Hp & Hlay').
  destruct Hlay as [-> Hlen], Hlay' as [-> Hlen'].
  set (k := chunks_needed n) in *.
  assert (Hb : blocks 0 0 (cells (pre ++ SBlock (k - 1) :: rest)) ≡ₚ
               (zlen (cells pre), Z.of_nat k) :: blocks 0 0 (cells segs)).
  { rewrite !blocks_cells, E. by apply seg_blocks_allocate. }
  split_and!.
  - eexists. by split.
  - rewrite Hp. unfold chunk_ptr, KERNEL_HEAP_START, CHUNK_SIZE. lia.
  - rewrite Hp. unfold chunk_ptr, KERNEL_HEAP_START, CHUNK_SIZE.
    rewrite heap_arr_size_val, cells_app, length_app in Hlen'. simpl in Hlen'. lia.
  - rewrite live_ptrs_elem. intros (i & l & Hi & Hin). rewrite Hp in Hi.
    apply chunk_ptr_inj in Hi as <-. rewrite E, blocks_cells, !seg_blocks_app in Hin.
    rewrite seg_blocks_free in Hin. simpl app in Hin.
    apply elem_of_app in Hin as [Hin|Hin]; apply seg_blocks_bounds in Hin; [lia|].
    rewrite cells_replicate_free, length_replicate in Hin. lia.
  - apply set_eq. intros q. rewrite elem_of_union, elem_of_singleton, !live_ptrs_elem.
    setoid_rewrite Hb. rewrite Hp. set_solver.
Qed.
Next Obligation.
  intros h p [segs Hlay]. rewrite live_ptrs_elem. intros (i & l & -> & Hin).
  destruct (kfree_block _ _ _ _ Hlay Hin) as (h' & segs' & R & Hlay' & Hb).
  exists h'. split_and!; [done|by eexists|].
  assert (Hnot : forall l', (i, l') ∉ blocks 0 0 h').
  { intros l' Hl'. destruct Hlay as [-> _], Hlay' as [-> _].
    assert (Hnd : NoDup (blocks 0 0 (cells segs)).*1).
    { rewrite blocks_cells. apply seg_blocks_NoDup. }
    rewrite Hb in Hnd. simpl in Hnd. apply NoDup_cons in Hnd as [Hnd _].
    apply Hnd. apply list_elem_of_fmap. by exists (i, l'). }
  apply set_eq. intros q. rewrite elem_of_difference, elem_of_singleton, !live_ptrs_elem.
  setoid_rewrite Hb. split.
  - intros (j & m & -> & Hj). split; [set_solver|]. intros Heq%chunk_ptr_inj. naive_solver.
  - intros [(j & m & -> & Hj) Hne]. exists j, m. set_solver.
Qed.
