(* ===== verification/Ringbuff.v ===== *)
(** * The ring buffer (kernel/libk/ringbuff.c)

    A byte queue in an array with a write index [head] and a read index
    [tail]; one slot always stays free, so that [head = tail] means empty.
    The file models every operation with its 16-bit index arithmetic and
    proves that the ring buffer refines a bounded FIFO queue of bytes. *)

From S2P Require Import Prelude Interfaces Kmalloc.

Record ringbuff := Ringbuff {
  rb_head : Z;
  rb_tail : Z;
  rb_size : Z;
  rb_buff : list Z;
}.

(** ** The code *)

Section Init.
Context {H : Type} `{Allocator H}.

(** [junk] is what the allocated block happens to hold. *)
Definition ringbuff_init (h : H) (junk : list Z) (size : Z) : outcome (H * ringbuff) :=
  let size := u16 (size + 1) in
  '(_, h') ← alloc h size;
  Ret (h', Ringbuff 0 0 size (resize (Z.to_nat size) 0 junk)).
End Init.

Definition ringbuff_length (rb : ringbuff) : Z :=
  if rb_tail rb <=? rb_head rb then u16 (rb_head rb - rb_tail rb)
  else u16 (u16 (rb_head rb + rb_size rb) - rb_tail rb).

(** [if (++index == size) index = 0] *)
Definition advance (size index : Z) : Z :=
  let index := u16 (index + 1) in if index =? size then 0 else index.

Definition rb_full (rb : ringbuff) : bool :=
  (rb_head rb =? u16 (rb_tail rb - 1))
  || ((rb_tail rb =? 0) && (rb_head rb =? u16 (rb_size rb - 1))).

(** [rb->buff[rb->head] = c; if (++rb->head == rb->size) rb->head = 0;] *)
Definition put_byte (rb : ringbuff) (c : Z) : outcome ringbuff :=
  b ← arr_set (rb_buff rb) (rb_head rb) c;
  Ret (Ringbuff (advance (rb_size rb) (rb_head rb)) (rb_tail rb) (rb_size rb) b).

Fixpoint ringbuff_write_loop (rb : ringbuff) (buff : list Z) (n : nat) (wlen : Z)
  {struct n} : outcome (Z * ringbuff) :=
  match n with
  | O => Ret (wlen, rb)
  | S n =>
    if rb_full rb then Ret (wlen, rb)
    else match buff with
         | [] => Fault
         | c :: buff => rb' ← put_byte rb c; ringbuff_write_loop rb' buff n (u16 (wlen + 1))
         end
  end.

Definition ringbuff_write (rb : ringbuff) (buff : list Z) (n : Z) : outcome (Z * ringbuff) :=
  ringbuff_write_loop rb buff (Z.to_nat n) 0.

(** The bytes stored through [buff] are returned, in order. *)
Fixpoint ringbuff_read_loop (rb : ringbuff) (n : nat) (rlen : Z)
  : outcome (Z * list Z * ringbuff) :=
  match n with
  | O => Ret (rlen, [], rb)
  | S n =>
    if rb_tail rb =? rb_head rb then Ret (rlen, [], rb)
    else
      c ← arr_get (rb_buff rb) (rb_tail rb);
      let rb' := Ringbuff (rb_head rb) (advance (rb_size rb) (rb_tail rb))
                   (rb_size rb) (rb_buff rb) in
      '(rlen', out, rb'') ← ringbuff_read_loop rb' n (u16 (rlen + 1));
      Ret (rlen', c :: out, rb'')
  end.

Definition ringbuff_read (rb : ringbuff) (n : Z) : outcome (Z * list Z * ringbuff) :=
  ringbuff_read_loop rb (Z.to_nat n) 0.

Fixpoint ringbuff_force_write_loop (rb : ringbuff) (buff : list Z) (n : nat)
  {struct n} : outcome ringbuff :=
  match n with
  | O => Ret rb
  | S n =>
    match buff with
    | [] => Fault
    | c :: buff => rb' ← put_byte rb c; ringbuff_force_write_loop rb' buff n
    end
  end.

Definition ringbuff_force_write (rb : ringbuff) (buff : list Z) (n : Z) : outcome ringbuff :=
  ringbuff_force_write_loop rb buff (Z.to_nat n).

(** ** Representation *)

Record rb_wf (rb : ringbuff) : Prop := {
  wf_size : 0 < rb_size rb < 65536;
  wf_buff : zlen (rb_buff rb) = rb_size rb;
  wf_head : 0 <= rb_head rb < rb_size rb;
  wf_tail : 0 <= rb_tail rb < rb_size rb;
}.

(** The bytes waiting to be read, oldest first. *)
Definition rb_slot (rb : ringbuff) (j : Z) : Z :=
  default 0 (rb_buff rb !! Z.to_nat ((rb_tail rb + j) mod rb_size rb)).

Definition contents (rb : ringbuff) : list Z :=
  rb_slot rb <$> seqZ 0 (ringbuff_length rb).

Definition capacity (rb : ringbuff) : Z := rb_size rb - 1.

(** The ring buffer [rb] represents the queue [q] of capacity [cap]. *)
Definition repr (cap : Z) (q : list Z) (rb : ringbuff) : Prop :=
  rb_wf rb /\ contents rb = q /\ capacity rb = cap.

(** ** The specification: a bounded FIFO queue of bytes *)

Definition fifo_write (cap : Z) (q data : list Z) (n : Z) : Z * list Z :=
  let k := n `min` (cap - zlen q) in (k, q ++ take (Z.to_nat k) data).

Definition fifo_read (q : list Z) (n : Z) : Z * list Z * list Z :=
  let k := n `min` zlen q in (k, take (Z.to_nat k) q, drop (Z.to_nat k) q).

(** ** Lemmas *)

Lemma ringbuff_length_mod rb : rb_wf rb ->
  ringbuff_length rb = (rb_head rb - rb_tail rb) mod rb_size rb.
Proof.
  intros [Hs Hb Hh Ht]. unfold ringbuff_length.
  destruct (Z.leb_spec (rb_tail rb) (rb_head rb)).
  - rewrite u16_small by lia. by rewrite Z.mod_small by lia.
  - replace ((rb_head rb - rb_tail rb) mod rb_size rb)
      with (rb_head rb - rb_tail rb + rb_size rb)
      by (apply (Z.mod_unique_pos _ _ (-1)); lia).
    zlia.
Qed.

Lemma ringbuff_length_range rb : rb_wf rb -> 0 <= ringbuff_length rb <= capacity rb.
Proof.
  intros Hwf. rewrite ringbuff_length_mod by done. destruct Hwf. unfold capacity.
  pose proof (Z.mod_pos_bound (rb_head rb - rb_tail rb) (rb_size rb)). lia.
Qed.

Lemma zlen_contents rb : rb_wf rb -> zlen (contents rb) = ringbuff_length rb.
Proof.
  intros Hwf%ringbuff_length_range. unfold contents.
  rewrite length_fmap, length_seqZ. lia.
Qed.

Lemma advance_mod size i : 0 < size < 65536 -> 0 <= i < size ->
  advance size i = (i + 1) mod size.
Proof.
  intros Hs Hi. unfold advance. rewrite u16_small by lia.
  destruct (Z.eqb_spec (i + 1) size) as [->|?].
  - rewrite Z.mod_same; lia.
  - rewrite Z.mod_small; lia.
Qed.

Lemma rb_full_spec rb : rb_wf rb -> rb_full rb = true <-> ringbuff_length rb = capacity rb.
Proof.
  intros [Hs Hb Hh Ht]. unfold rb_full, ringbuff_length, capacity, u16.
  rewrite orb_true_iff, andb_true_iff, !Z.eqb_eq.
  destruct (Z.leb_spec (rb_tail rb) (rb_head rb)); split; zlia.
Qed.

(** The first indices of a queue do not collide modulo the size. *)
Lemma slot_index_inj size t j k : 0 < size -> 0 <= j < size -> 0 <= k < size ->
  (t + j) mod size = (t + k) mod size -> j = k.
Proof.
  intros Hs Hj Hk E.
  assert ((j - k) mod size = 0) as D.
  { replace (j - k) with ((t + j) - (t + k)) by lia.
    rewrite Zminus_mod, E, Z.sub_diag, Z.mod_0_l; lia. }
  apply Z.mod_divide in D as [c D]; [|lia].
  assert (c = 0) as -> by nia. lia.
Qed.

(** [head] is the slot after the last byte. *)
Lemma head_slot rb : rb_wf rb ->
  (rb_tail rb + ringbuff_length rb) mod rb_size rb = rb_head rb.
Proof.
  intros Hwf. pose proof Hwf as [Hs Hb Hh Ht].
  rewrite ringbuff_length_mod, Zplus_mod_idemp_r by done.
  replace (rb_tail rb + (rb_head rb - rb_tail rb)) with (rb_head rb) by lia.
  by rewrite Z.mod_small.
Qed.

(** Storing a byte moves [head] to the next slot, whatever it overwrites. *)
Lemma put_byte_head rb c : rb_wf rb ->
  exists rb', put_byte rb c = Ret rb' /\ rb_wf rb' /\ rb_size rb' = rb_size rb /\
    rb_tail rb' = rb_tail rb /\ rb_buff rb' = <[Z.to_nat (rb_head rb) := c]> (rb_buff rb) /\
    ringbuff_length rb' = (ringbuff_length rb + 1) mod rb_size rb.
Proof.
  intros Hwf. pose proof Hwf as [Hs Hb Hh Ht].
  unfold put_byte. rewrite arr_set_in by lia. simpl. rewrite advance_mod by lia.
  eexists. split; [done|].
  assert (Hwf' : rb_wf (Ringbuff ((rb_head rb + 1) mod rb_size rb) (rb_tail rb) (rb_size rb)
                          (<[Z.to_nat (rb_head rb):=c]> (rb_buff rb)))).
  { split; simpl; rewrite ?length_insert; try lia. apply Z.mod_pos_bound. lia. }
  split_and!; [done..|]. rewrite !ringbuff_length_mod by done. simpl.
  rewrite Zminus_mod_idemp_l, Zplus_mod_idemp_l. f_equal. lia.
Qed.

(** Storing a byte into a queue that is not full appends it. *)
Lemma put_byte_spec rb c : rb_wf rb -> ringbuff_length rb < capacity rb ->
  exists rb', put_byte rb c = Ret rb' /\ rb_wf rb' /\ capacity rb' = capacity rb /\
    contents rb' = contents rb ++ [c].
Proof.
  intros Hwf Hlt. pose proof (ringbuff_length_range rb Hwf) as Hlen.
  destruct (put_byte_head rb c Hwf) as (rb' & R & Hwf' & Hsz & Htl & Hbf & Hlen').
  pose proof Hwf as [Hs Hb Hh Ht]. unfold capacity in *. rewrite Z.mod_small in Hlen' by lia.
  exists rb'. split_and!; [done..|lia|].
  unfold contents. rewrite Hlen', seqZ_app, fmap_app by lia. f_equal.
  - apply list_fmap_ext. intros i j Hij. apply lookup_seqZ in Hij as [-> Hi].
    unfold rb_slot. rewrite Hbf, Hsz, Htl. rewrite list_lookup_insert_ne; [done|].
    intros E. apply Z2Nat.inj in E; [|lia|apply Z.mod_pos_bound; lia].
    rewrite <-(head_slot rb Hwf) in E. apply slot_index_inj in E; lia.
  - simpl. f_equal. unfold rb_slot. rewrite Hbf, Hsz, Htl, Z.add_0_l, head_slot by done.
    rewrite list_lookup_insert_eq by lia. done.
Qed.

(** Removing the oldest byte. *)
Lemma pop_byte_spec rb : rb_wf rb -> 0 < ringbuff_length rb ->
  let rb' := Ringbuff (rb_head rb) (advance (rb_size rb) (rb_tail rb)) (rb_size rb) (rb_buff rb) in
  exists c, arr_get (rb_buff rb) (rb_tail rb) = Ret c /\ rb_wf rb' /\
    contents rb = c :: contents rb'.
Proof.
  intros Hwf Hpos rb'. pose proof Hwf as [Hs Hb Hh Ht].
  destruct (arr_get_in (rb_buff rb) (rb_tail rb)) as (c & Hc & Hl); [lia|].
  exists c. unfold rb'. rewrite advance_mod by lia.
  assert (Hwf' : rb_wf (Ringbuff (rb_head rb) ((rb_tail rb + 1) mod rb_size rb)
                          (rb_size rb) (rb_buff rb))).
  { split; simpl; try lia. apply Z.mod_pos_bound. lia. }
  split_and!; [done..|]. unfold contents.
  rewrite (ringbuff_length_mod _ Hwf') by done. simpl.
  rewrite Zminus_mod_idemp_r.
  replace (rb_head rb - (rb_tail rb + 1)) with (rb_head rb - rb_tail rb - 1) by lia.
  rewrite <-Zminus_mod_idemp_l, <-ringbuff_length_mod by done.
  pose proof (ringbuff_length_range rb Hwf) as Hlen. unfold capacity in Hlen.
  rewrite (Z.mod_small (ringbuff_length rb - 1)) by lia. rewrite seqZ_cons by lia. simpl. f_equal.
  - unfold rb_slot. rewrite Z.add_0_r, Z.mod_small, Hl by lia. done.
  - rewrite <-(fmap_add_seqZ 1 0), <-list_fmap_compose. apply list_fmap_ext.
    intros i j _. unfold rb_slot. simpl. rewrite Zplus_mod_idemp_l.
    do 4 f_equal. lia.
Qed.

Lemma rb_wf_not_full rb : rb_wf rb -> rb_full rb = false -> ringbuff_length rb < capacity rb.
Proof.
  intros Hwf Hf. pose proof (ringbuff_length_range rb Hwf).
  destruct (decide (ringbuff_length rb = capacity rb)) as [E|]; [|lia].
  apply rb_full_spec in E; [congruence|done].
Qed.

Lemma repr_self rb : rb_wf rb -> repr (capacity rb) (contents rb) rb.
Proof. done. Qed.

#[local] Hint Resolve repr_self : core.

Lemma write_loop_spec n rb data w : rb_wf rb -> (n <= length data)%nat ->
  0 <= w -> w + Z.of_nat n < 65536 ->
  let k := Z.of_nat n `min` (capacity rb - zlen (contents rb)) in
  exists rb', ringbuff_write_loop rb data n w = Ret (w + k, rb') /\
    repr (capacity rb) (contents rb ++ take (Z.to_nat k) data) rb'.
Proof.
  revert rb data w. induction n as [|n IH]; intros rb data w Hwf Hn Hw Hw' k; simpl.
  - pose proof (zlen_contents rb Hwf). pose proof (ringbuff_length_range rb Hwf).
    assert (k = 0) as -> by (unfold k; lia). exists rb. rewrite Z.add_0_r, app_nil_r. split; [reflexivity|auto].
  - pose proof (zlen_contents rb Hwf) as Hz. pose proof (ringbuff_length_range rb Hwf).
    destruct (rb_full rb) eqn:Hf.
    + apply rb_full_spec in Hf; [|done]. assert (k = 0) as -> by (unfold k; lia).
      exists rb. rewrite Z.add_0_r, app_nil_r. split; [reflexivity|auto].
    + apply rb_wf_not_full in Hf; [|done].
      destruct data as [|c data]; simpl in Hn; [lia|].
      destruct (put_byte_spec rb c Hwf Hf) as (rb1 & -> & Hwf1 & Hcap & Hc1). simpl.
      rewrite u16_small by lia.
      destruct (IH rb1 data (w + 1) Hwf1) as (rb' & -> & Hrepr); [lia..|].
      exists rb'. rewrite Hc1, Hcap, length_app in Hrepr |- *. simpl in Hrepr |- *.
      set (k' := Z.of_nat n `min` _) in *.
      assert (k = k' + 1) as -> by (unfold k, k'; lia).
      split; [do 2 f_equal; lia|].
      replace (Z.to_nat (k' + 1)) with (S (Z.to_nat k')) by (unfold k'; lia).
      by rewrite <-app_assoc in Hrepr.
Qed.

Lemma read_loop_spec n rb r : rb_wf rb -> 0 <= r -> r + Z.of_nat n < 65536 ->
  let k := Z.of_nat n `min` zlen (contents rb) in
  exists rb', ringbuff_read_loop rb n r = Ret (r + k, take (Z.to_nat k) (contents rb), rb') /\
    repr (capacity rb) (drop (Z.to_nat k) (contents rb)) rb'.
Proof.
  revert rb r. induction n as [|n IH]; intros rb r Hwf Hr Hr' k; simpl.
  - assert (k = 0) as -> by (unfold k; lia). exists rb. rewrite Z.add_0_r. split; [reflexivity|auto].
  - pose proof (zlen_contents rb Hwf) as Hz. pose proof (ringbuff_length_range rb Hwf).
    destruct (Z.eqb_spec (rb_tail rb) (rb_head rb)) as [E|E].
    + assert (ringbuff_length rb = 0) as E0.
      { rewrite ringbuff_length_mod, E, Z.sub_diag by done. apply Z.mod_0_l. destruct Hwf. lia. }
      assert (k = 0) as -> by (unfold k; lia). exists rb. rewrite Z.add_0_r. split; [reflexivity|auto].
    + assert (0 < ringbuff_length rb) as Hpos.
      { rewrite ringbuff_length_mod by done. destruct Hwf as [Hs Hb Hh Ht].
        pose proof (Z.mod_pos_bound (rb_head rb - rb_tail rb) (rb_size rb)).
        destruct (decide ((rb_head rb - rb_tail rb) mod rb_size rb = 0)) as [D|]; [|lia].
        apply Z.mod_divide in D as [c D]; [|lia]. assert (c = 0) by nia. lia. }
      destruct (pop_byte_spec rb Hwf Hpos) as (c & -> & Hwf1 & Hc). simpl.
      rewrite u16_small by lia.
      destruct (IH _ (r + 1) Hwf1) as (rb' & -> & Hrepr); [lia..|]. simpl.
      exists rb'. set (k' := Z.of_nat n `min` _) in *.
      assert (k = k' + 1) as -> by (unfold k, k'; rewrite Hc; simpl; lia).
      rewrite Hc.
      replace (Z.to_nat (k' + 1)) with (S (Z.to_nat k')) by (unfold k'; lia).
      split; [simpl; do 2 f_equal; f_equal; lia|done].
Qed.

Lemma ringbuff_write_spec cap q rb data n :
  repr cap q rb -> is_u16 n -> n <= zlen data ->
  exists rb', ringbuff_write rb data n = Ret ((fifo_write cap q data n).1, rb') /\
    repr cap (fifo_write cap q data n).2 rb'.
Proof.
  intros (Hwf & <- & <-) Hn Hd. unfold ringbuff_write, fifo_write.
  destruct (write_loop_spec (Z.to_nat n) rb data 0 Hwf) as (rb' & R & Hrepr); [lia..|].
  rewrite Z2Nat.id in R, Hrepr by lia. exists rb'. by rewrite R.
Qed.

Lemma ringbuff_read_spec cap q rb n : repr cap q rb -> is_u16 n ->
  exists rb', ringbuff_read rb n = Ret ((fifo_read q n).1, rb') /\
    repr cap (fifo_read q n).2 rb'.
Proof.
  intros (Hwf & <- & <-) Hn. unfold ringbuff_read, fifo_read.
  destruct (read_loop_spec (Z.to_nat n) rb 0 Hwf) as (rb' & R & Hrepr); [lia..|].
  rewrite Z2Nat.id in R, Hrepr by lia. exists rb'. by rewrite R.
Qed.

(** ** Properties *)

(** Calls of the ring buffer, and what a caller observes of each: the count
    returned and the bytes delivered. *)
Inductive rb_call := CWrite (data : list Z) (n : Z) | CRead (n : Z) | CLength.

Definition rb_call_ok (c : rb_call) : Prop :=
  match c with
  | CWrite data n => is_u16 n /\ n <= zlen data
  | CRead n => is_u16 n
  | CLength => True
  end.

Definition run_call (rb : ringbuff) (c : rb_call) : outcome (Z * list Z * ringbuff) :=
  match c with
  | CWrite data n => '(k, rb') ← ringbuff_write rb data n; Ret (k, [], rb')
  | CRead n => ringbuff_read rb n
  | CLength => Ret (ringbuff_length rb, [], rb)
  end.

Fixpoint run_calls (rb : ringbuff) (cs : list rb_call) : outcome (list (Z * list Z)) :=
  match cs with
  | [] => Ret []
  | c :: cs => '(k, out, rb') ← run_call rb c; r ← run_calls rb' cs; Ret ((k, out) :: r)
  end.

Definition fifo_call (cap : Z) (q : list Z) (c : rb_call) : Z * list Z * list Z :=
  match c with
  | CWrite data n => let '(k, q') := fifo_write cap q data n in (k, [], q')
  | CRead n => fifo_read q n
  | CLength => (zlen q, [], q)
  end.

Fixpoint fifo_calls (cap : Z) (q : list Z) (cs : list rb_call) : list (Z * list Z) :=
  match cs with
  | [] => []
  | c :: cs => let '(k, out, q') := fifo_call cap q c in (k, out) :: fifo_calls cap q' cs
  end.

Lemma run_call_spec cap q rb c : repr cap q rb -> rb_call_ok c ->
  exists rb', run_call rb c = Ret ((fifo_call cap q c).1, rb') /\
    repr cap (fifo_call cap q c).2 rb'.
Proof.
  intros Hr Hok. destruct c as [data n|n|]; simpl in *.
  - destruct Hok. destruct (ringbuff_write_spec cap q rb data n) as (rb' & -> & ?); [done..|].
    by exists rb'.
  - by apply ringbuff_read_spec.
  - exists rb. split; [|done]. destruct Hr as (Hwf & <- & _). by rewrite zlen_contents.
Qed.

(** C33. Refinement: through every sequence of writes, reads and length
    queries, the ring buffer is indistinguishable from a bounded FIFO queue of
    bytes that accepts a write up to its capacity; it neither faults nor
    loses, repeats or reorders a byte. *)
Theorem ringbuff_refines_fifo cap q rb cs :
  repr cap q rb -> Forall rb_call_ok cs -> run_calls rb cs = Ret (fifo_calls cap q cs).
Proof.
  intros Hr Hcs. revert q rb Hr. induction Hcs as [|c cs Hc Hcs IH]; intros q rb Hr; [done|].
  simpl. destruct (run_call_spec cap q rb c Hr Hc) as (rb' & -> & Hr').
  destruct (fifo_call cap q c) as [[k out] q']. simpl in *. by rewrite (IH q').
Qed.

Lemma ringbuff_refines_fifo_witness :
  run_calls (Ringbuff 3 2 4 [10; 11; 12; 13])
    [CWrite [1; 2; 3] 3; CLength; CRead 2; CWrite [4] 1; CRead 5]
  = Ret [(2, []); (3, []); (2, [12; 1]); (1, []); (2, [2; 4])].
Proof.
  apply (ringbuff_refines_fifo 3 [12]).
  - split_and!; [split; simpl; lia|vm_compute; reflexivity|reflexivity].
  - repeat constructor; simpl; lia.
Defined.

(** [ringbuff_init] builds the empty queue that holds [size] bytes,
    whatever the allocated block contains. *)
Theorem ringbuff_init_empty {H} `{Allocator H} (h h' : H) junk size rb :
  0 <= size < 65535 -> ringbuff_init h junk size = Ret (h', rb) -> repr size [] rb.
Proof.
  intros Hs R. unfold ringbuff_init in R. rewrite u16_small in R by lia. run_inv.
  split_and!.
  - split; simpl; try lia. rewrite length_resize. lia.
  - done.
  - unfold capacity. simpl. lia.
Qed.

Lemma ringbuff_init_empty_witness :
  exists h' rb, ringbuff_init empty_heap [1; 2; 3] 16 = Ret (h', rb) /\ repr 16 [] rb.
Proof.
  eexists _, _. split; [vm_compute; reflexivity|].
  eapply (ringbuff_init_empty empty_heap _ [1; 2; 3] 16).
  - lia.
  - vm_compute. reflexivity.
Defined.

Lemma force_write_loop_spec n rb data : rb_wf rb -> (n <= length data)%nat ->
  exists rb', ringbuff_force_write_loop rb data n = Ret rb' /\ rb_wf rb' /\
    rb_size rb' = rb_size rb /\
    ringbuff_length rb' = (ringbuff_length rb + Z.of_nat n) mod rb_size rb /\
    (ringbuff_length rb + Z.of_nat n <= capacity rb ->
       contents rb' = contents rb ++ take n data).
Proof.
  revert rb data. induction n as [|n IH]; intros rb data Hwf Hn; simpl.
  - exists rb. split_and!; [done..| |by rewrite app_nil_r].
    pose proof (ringbuff_length_range rb Hwf). unfold capacity in *.
    rewrite Z.mod_small; lia.
  - destruct data as [|c data]; simpl in Hn; [lia|].
    destruct (put_byte_head rb c Hwf) as (rb1 & R & Hwf1 & Hsz & _ & _ & Hl1).
    rewrite R. simpl. destruct (IH rb1 data Hwf1) as (rb' & -> & Hwf' & Hsz' & Hl & Hc); [lia|].
    exists rb'. split_and!; [done..|congruence| |].
    + rewrite Hl, Hl1, Hsz, Zplus_mod_idemp_l. f_equal. lia.
    + intros Hle. destruct (put_byte_spec rb c Hwf) as (rb1' & R' & _ & Hcap & Hc1); [lia|].
      rewrite R in R'. injection R' as <-. pose proof (zlen_contents rb1 Hwf1) as Hz1.
      pose proof (zlen_contents rb Hwf). rewrite Hc1, length_app in Hz1. simpl in Hz1.
      rewrite Hc by lia. rewrite Hc1, <-app_assoc. done.
Qed.

(** [ringbuff_force_write] always stores: while the data fits it behaves
    as a write, and past the capacity the number of bytes waiting is reduced
    modulo the size of the array, the reset the comment in the code
    describes. *)
Theorem ringbuff_force_write_wraps cap q rb data n :
  repr cap q rb -> is_u16 n -> n <= zlen data ->
  exists rb', ringbuff_force_write rb data n = Ret rb' /\ rb_wf rb' /\ capacity rb' = cap /\
    ringbuff_length rb' = (zlen q + n) mod (cap + 1) /\
    (zlen q + n <= cap -> repr cap (q ++ take (Z.to_nat n) data) rb').
Proof.
  intros (Hwf & <- & <-) Hn Hd. unfold ringbuff_force_write.
  destruct (force_write_loop_spec (Z.to_nat n) rb data Hwf) as (rb' & R & Hwf' & Hsz & Hl & Hc);
    [lia|].
  rewrite Z2Nat.id in Hl, Hc by lia. exists rb'. unfold capacity in *.
  rewrite zlen_contents by done.
  split_and!; [done..|lia|rewrite Hl; f_equal; lia|].
  intros Hle. split_and!; [done|by apply Hc|unfold capacity; lia].
Qed.

Lemma ringbuff_force_write_wraps_witness :
  exists rb', ringbuff_force_write (Ringbuff 2 0 4 [7; 8; 0; 0]) [1; 2; 3] 3 = Ret rb' /\
    rb_wf rb' /\ capacity rb' = 3 /\ ringbuff_length rb' = (zlen [7; 8] + 3) mod (3 + 1) /\
    (zlen [7; 8] + 3 <= 3 -> repr 3 ([7; 8] ++ take (Z.to_nat 3) [1; 2; 3]) rb').
Proof.
  apply (ringbuff_force_write_wraps 3 [7; 8]).
  - split_and!; [split; simpl; lia|vm_compute; reflexivity|reflexivity].
  - lia.
  - simpl. lia.
Defined.
