(* ===== verification/KList.v ===== *)
(** * Doubly linked lists (kernel/libk/list.c)

    Nodes are heap objects: a store maps node pointers to nodes and the
    addresses of [struct list] variables to their two end pointers.
    [list_append] and [list_remove] are translated pointer write by pointer
    write; a representation predicate links them to Rocq lists, and the
    [ListStore] interface is proved for any [Allocator]. *)

From S2P Require Import Prelude Interfaces Kmalloc.

Record list_node := ListNode { n_next : Z; n_prev : Z; n_val : Z }.
Record klist := KList { l_first : Z; l_last : Z }.

(** [sizeof(struct list_node)]: three 16-bit pointers. *)
Definition sizeof_list_node : Z := 6.

Lemma sizeof_list_node_u16 : is_u16 sizeof_list_node.
Proof. unfold sizeof_list_node. lia. Qed.

Section KList.
Context {H : Type} `{Allocator H}.

Record store := Store {
  st_heap : H;
  st_nodes : gmap Z list_node;
  st_lists : gmap Z klist;
}.

(** ** The code *)

Definition list_init (st : store) (lst : Z) : store :=
  Store (st_heap st) (st_nodes st) (<[lst := KList 0 0]> (st_lists st)).

Definition list_append (st : store) (lst : Z) (v : Z) : outcome store :=
  '(new_node, h) ← alloc (st_heap st) sizeof_list_node;
  L ← deref (st_lists st) lst;
  let nodes := <[new_node := ListNode 0 (l_last L) v]> (st_nodes st) in
  if l_first L =? 0 then
    Ret (Store h nodes (<[lst := KList new_node new_node]> (st_lists st)))
  else
    l ← deref nodes (l_last L);
    Ret (Store h (<[l_last L := ListNode new_node (n_prev l) (n_val l)]> nodes)
               (<[lst := KList (l_first L) new_node]> (st_lists st))).

(** The two halves of [list_remove], each of which reads the node again. *)
Definition unlink_next (st : store) (lst : Z) (node : Z) : outcome store :=
  n ← deref (st_nodes st) node;
  if n_next n =? 0 then
    L ← deref (st_lists st) lst;
    Ret (Store (st_heap st) (st_nodes st) (<[lst := KList (l_first L) (n_prev n)]> (st_lists st)))
  else
    nx ← deref (st_nodes st) (n_next n);
    Ret (Store (st_heap st) (<[n_next n := ListNode (n_next nx) (n_prev n) (n_val nx)]> (st_nodes st))
               (st_lists st)).

Definition unlink_prev (st : store) (lst : Z) (node : Z) : outcome store :=
  n ← deref (st_nodes st) node;
  if n_prev n =? 0 then
    L ← deref (st_lists st) lst;
    Ret (Store (st_heap st) (st_nodes st) (<[lst := KList (n_next n) (l_last L)]> (st_lists st)))
  else
    pv ← deref (st_nodes st) (n_prev n);
    Ret (Store (st_heap st) (<[n_prev n := ListNode (n_next n) (n_prev pv) (n_val pv)]> (st_nodes st))
               (st_lists st)).

Definition list_remove (st : store) (lst : Z) (list_node : Z) : outcome store :=
  st ← unlink_next st lst list_node;
  st ← unlink_prev st lst list_node;
  h ← dealloc (st_heap st) list_node;
  Ret (Store h (delete list_node (st_nodes st)) (st_lists st)).

(** [list_foreach]: the nodes from [first] along [next]. *)
Fixpoint walk (fuel : nat) (nodes : gmap Z list_node) (it : Z) : outcome (list (Z * Z)) :=
  match fuel with
  | O => Hang
  | S fuel =>
    if it =? 0 then Ret []
    else
      n ← deref nodes it;
      xs ← walk fuel nodes (n_next n);
      Ret ((it, n_val n) :: xs)
  end.

Definition list_foreach (st : store) (lst : Z) : outcome (list (Z * Z)) :=
  L ← deref (st_lists st) lst;
  walk (S (size (st_nodes st))) (st_nodes st) (l_first L).

(** ** Representation *)

Definition last_ptr (xs : list (Z * Z)) (d : Z) : Z :=
  match List.rev xs with [] => d | (p, _) :: _ => p end.

(** [xs] is laid out in [nodes], after the node [pp] and before the node [nx]. *)
Fixpoint dseg (nodes : gmap Z list_node) (pp : Z) (xs : list (Z * Z)) (nx : Z) : Prop :=
  match xs with
  | [] => True
  | (p, v) :: xs =>
      p <> 0 /\ nodes !! p = Some (ListNode (head_ptr xs nx) pp v) /\ dseg nodes p xs nx
  end.

Definition list_rep (nodes : gmap Z list_node) (L : klist) (xs : list (Z * Z)) : Prop :=
  l_first L = head_ptr xs 0 /\ l_last L = last_ptr xs 0 /\ dseg nodes 0 xs 0.

Record store_rep (st : store) (m : gmap Z (list (Z * Z))) (own : gset Z) : Prop := {
  rep_heap : heap_ok (st_heap st);
  rep_list l xs : m !! l = Some xs ->
    exists L, st_lists st !! l = Some L /\ list_rep (st_nodes st) L xs;
  rep_nodup l xs : m !! l = Some xs -> NoDup xs.*1;
  rep_disj l1 l2 xs1 xs2 p : m !! l1 = Some xs1 -> m !! l2 = Some xs2 ->
    p ∈ xs1.*1 -> p ∈ xs2.*1 -> l1 = l2;
  rep_live l xs p : m !! l = Some xs -> p ∈ xs.*1 -> p ∈ live (st_heap st) /\ (p ∉ own);
  rep_own p : p ∈ own -> p ∈ live (st_heap st);
}.

(** ** Lemmas on segments *)

Lemma head_ptr_app xs ys d : head_ptr (xs ++ ys) d = head_ptr xs (head_ptr ys d).
Proof. by destruct xs as [|[]]. Qed.

Lemma last_ptr_snoc xs p v d : last_ptr (xs ++ [(p, v)]) d = p.
Proof. unfold last_ptr. by rewrite List.rev_app_distr. Qed.

Lemma last_ptr_cons p v xs d : last_ptr ((p, v) :: xs) d = last_ptr xs p.
Proof.
  unfold last_ptr. simpl. destruct (List.rev xs) as [|[]]; done.
Qed.

Lemma last_ptr_app xs ys d : last_ptr (xs ++ ys) d = last_ptr ys (last_ptr xs d).
Proof.
  unfold last_ptr. rewrite List.rev_app_distr. destruct (List.rev ys) as [|[]]; done.
Qed.

Lemma dseg_app nodes pp xs ys nx :
  dseg nodes pp (xs ++ ys) nx <->
  dseg nodes pp xs (head_ptr ys nx) /\ dseg nodes (last_ptr xs pp) ys nx.
Proof.
  revert pp. induction xs as [|[p v] xs IH]; intros pp; simpl.
  - change (last_ptr [] pp) with pp. tauto.
  - rewrite IH, head_ptr_app, last_ptr_cons. tauto.
Qed.

Lemma dseg_frame nodes nodes' pp xs nx :
  (forall p, p ∈ xs.*1 -> nodes' !! p = nodes !! p) ->
  dseg nodes pp xs nx -> dseg nodes' pp xs nx.
Proof.
  revert pp. induction xs as [|[p v] xs IH]; intros pp Hf; simpl; [done|].
  intros (? & Hp & ?). split_and!; [done| |apply IH; [set_solver|done]].
  rewrite Hf; [done|set_solver].
Qed.

Lemma dseg_nonzero nodes pp xs nx p : dseg nodes pp xs nx -> p ∈ xs.*1 -> p <> 0.
Proof.
  revert pp. induction xs as [|[q v] xs IH]; intros pp; simpl.
  - by intros _ ?%elem_of_nil.
  - intros (? & _ & ?) [->|?]%elem_of_cons; [done|by eapply IH].
Qed.

Lemma dseg_dom nodes pp xs nx p : dseg nodes pp xs nx -> p ∈ xs.*1 -> is_Some (nodes !! p).
Proof.
  revert pp. induction xs as [|[q v] xs IH]; intros pp; simpl.
  - by intros _ ?%elem_of_nil.
  - intros (_ & ? & ?) [->|?]%elem_of_cons; [by eexists|by eapply IH].
Qed.

Lemma last_ptr_elem xs d : xs <> [] -> last_ptr xs d ∈ xs.*1.
Proof.
  destruct xs as [|[q w] xs _] using rev_ind; [done|]. intros _.
  rewrite last_ptr_snoc, fmap_app. set_solver.
Qed.

(** Relink the first node of a segment to another predecessor. *)
Lemma dseg_relink_head nodes pp pp' q w xs nx n :
  NoDup (q :: xs.*1) -> nodes !! q = Some n ->
  dseg nodes pp ((q, w) :: xs) nx ->
  dseg (<[q := ListNode (n_next n) pp' (n_val n)]> nodes) pp' ((q, w) :: xs) nx.
Proof.
  intros [Hq Hnd]%NoDup_cons Hn (Hq0 & E & Hseg). simpl. split_and!; [done| |].
  - rewrite lookup_insert_eq. rewrite E in Hn. by simplify_eq.
  - eapply dseg_frame; [|done]. intros r Hr. rewrite lookup_insert_ne; [done|]. congruence.
Qed.

(** Relink the last node of a segment to another successor. *)
Lemma dseg_relink_last nodes pp xs q w nx nx' n :
  NoDup (xs.*1 ++ [q]) -> nodes !! q = Some n ->
  dseg nodes pp (xs ++ [(q, w)]) nx ->
  dseg (<[q := ListNode nx' (n_prev n) (n_val n)]> nodes) pp (xs ++ [(q, w)]) nx'.
Proof.
  intros (_ & Hq & _)%NoDup_app Hn. rewrite !dseg_app. simpl.
  intros (Hseg & Hq0 & E & _). split_and!; [|done| |done].
  - eapply dseg_frame; [|done]. intros r Hr. rewrite lookup_insert_ne; [done|]. set_solver.
  - rewrite lookup_insert_eq. rewrite E in Hn. by simplify_eq.
Qed.

Lemma head_ptr_zero nodes xs pp nx : dseg nodes pp xs nx -> head_ptr xs 0 = 0 -> xs = [].
Proof. destruct xs as [|[q w] xs]; simpl; [done|]. by intros (? & _). Qed.

(** ** The operations on one list *)

Lemma append_rep nodes L xs n v :
  list_rep nodes L xs -> NoDup xs.*1 -> n ∉ xs.*1 -> n <> 0 ->
  let nodes1 := <[n := ListNode 0 (l_last L) v]> nodes in
  (l_first L = 0 /\ xs = [] /\ list_rep nodes1 (KList n n) [(n, v)]) \/
  (l_first L <> 0 /\ exists l, deref nodes1 (l_last L) = Ret l /\ l_last L ∈ xs.*1 /\
     list_rep (<[l_last L := ListNode n (n_prev l) (n_val l)]> nodes1)
       (KList (l_first L) n) (xs ++ [(n, v)])).
Proof.
  intros (Hf & Hl & Hseg) Hnd Hn Hn0 nodes1.
  destruct xs as [|[q w] xs _] using rev_ind.
  - left. split_and!; [done..|]. split_and!; [done..|]. simpl. unfold nodes1.
    by rewrite lookup_insert_eq, Hl.
  - right. rewrite last_ptr_snoc in Hl. subst nodes1. rewrite Hl. split.
    + intros E. rewrite Hf in E. apply head_ptr_zero in Hseg; [|done].
      by apply app_eq_nil in Hseg as [_ ?].
    + rewrite fmap_app in Hnd, Hn. simpl in Hnd, Hn.
      set (nodes1 := <[n := ListNode 0 q v]> nodes).
      assert (Hseg1 : dseg nodes1 0 (xs ++ [(q, w)]) 0).
      { eapply dseg_frame; [|done]. intros p Hp. unfold nodes1. rewrite fmap_app in Hp.
        rewrite lookup_insert_ne; [done|]. intros <-. set_solver. }
      destruct (dseg_dom nodes1 0 (xs ++ [(q, w)]) 0 q Hseg1) as [l Hlq].
      { rewrite fmap_app. set_solver. }
      exists l. unfold deref. rewrite Hlq. split_and!; [done|rewrite fmap_app; set_solver|].
      split_and!; [simpl|simpl|].
      * rewrite Hf, !head_ptr_app. done.
      * by rewrite last_ptr_snoc.
      * apply (dseg_relink_last nodes1 0 xs q w 0 n l Hnd Hlq) in Hseg1.
        apply dseg_app. simpl. split_and!; [done..| |done].
        rewrite last_ptr_snoc, lookup_insert_ne by set_solver.
        unfold nodes1. by rewrite lookup_insert_eq.
Qed.

(** The state of a list between the two halves of [list_remove]: nothing
    points back to the node any more. *)
Lemma unlink_next_rep st lst L xs1 p v xs2 :
  st_lists st !! lst = Some L -> list_rep (st_nodes st) L (xs1 ++ (p, v) :: xs2) ->
  NoDup (xs1 ++ (p, v) :: xs2).*1 ->
  exists nodes', unlink_next st lst p =
      Ret (Store (st_heap st) nodes'
             (<[lst := KList (l_first L) (last_ptr (xs1 ++ xs2) 0)]> (st_lists st))) /\
    (forall q, q ∉ (xs1 ++ (p, v) :: xs2).*1 -> nodes' !! q = st_nodes st !! q) /\
    dseg nodes' 0 xs1 p /\ dseg nodes' (last_ptr xs1 0) xs2 0 /\
    nodes' !! p = Some (ListNode (head_ptr xs2 0) (last_ptr xs1 0) v).
Proof.
  intros HL (Hf & Hl & Hseg) Hnd. unfold unlink_next, deref.
  rewrite fmap_app in Hnd. apply dseg_app in Hseg as (Hs1 & Hp0 & Hp & Hs2).
  apply NoDup_app in Hnd as (Hnd1 & Hd & Hnd2). simpl in Hnd2.
  rewrite Hp. simpl. rewrite last_ptr_app, last_ptr_cons in Hl.
  destruct xs2 as [|[q w] xs2]; simpl.
  - rewrite HL. simpl. exists (st_nodes st). rewrite app_nil_r. done.
  - destruct Hs2 as (Hq0 & Hq & Hs2). rewrite (proj2 (Z.eqb_neq _ _)) by done.
    rewrite Hq. simpl. eexists. split.
    + rewrite (insert_id (st_lists st)); [done|]. rewrite HL. f_equal. rewrite last_ptr_app, !last_ptr_cons in *.
      destruct L. simpl in *. congruence.
    + simpl in Hd, Hnd2. split_and!.
      * intros r Hr. rewrite lookup_insert_ne; [done|]. intros <-.
        rewrite fmap_app in Hr. set_solver.
      * eapply dseg_frame; [|exact Hs1]. intros r Hr. rewrite lookup_insert_ne; [done|]. set_solver.
      * done.
      * by rewrite lookup_insert_eq.
      * eapply dseg_frame; [|exact Hs2]. intros r Hr. rewrite lookup_insert_ne; [done|].
        apply NoDup_cons in Hnd2 as [_ [? _]%NoDup_cons]. set_solver.
      * rewrite lookup_insert_ne; [done|]. apply NoDup_cons in Hnd2 as [? _]. set_solver.
Qed.

Lemma unlink_prev_rep st lst L xs1 p v xs2 :
  st_lists st !! lst = Some L -> l_first L = head_ptr (xs1 ++ (p, v) :: xs2) 0 ->
  l_last L = last_ptr (xs1 ++ xs2) 0 ->
  dseg (st_nodes st) 0 xs1 p -> dseg (st_nodes st) (last_ptr xs1 0) xs2 0 ->
  st_nodes st !! p = Some (ListNode (head_ptr xs2 0) (last_ptr xs1 0) v) ->
  NoDup (xs1 ++ (p, v) :: xs2).*1 ->
  exists nodes', unlink_prev st lst p =
      Ret (Store (st_heap st) nodes'
             (<[lst := KList (head_ptr (xs1 ++ xs2) 0) (l_last L)]> (st_lists st))) /\
    (forall q, q ∉ (xs1 ++ (p, v) :: xs2).*1 -> nodes' !! q = st_nodes st !! q) /\
    dseg nodes' 0 (xs1 ++ xs2) 0.
Proof.
  intros HL Hf Hl Hs1 Hs2 Hp Hnd. unfold unlink_prev, deref. rewrite Hp. simpl.
  rewrite fmap_app in Hnd. apply NoDup_app in Hnd as (Hnd1 & Hd & Hnd2). simpl in Hd, Hnd2.
  destruct xs1 as [|[q w] xs1 _] using rev_ind.
  - change (last_ptr [] 0) with 0 in *. simpl. rewrite HL. simpl. by exists (st_nodes st).
  - rewrite last_ptr_snoc in *. rewrite fmap_app in Hnd1, Hd. simpl in Hnd1, Hd.
    destruct (dseg_dom _ _ _ _ q Hs1) as [n Hn]; [rewrite fmap_app; set_solver|].
    assert (Hq0 : q <> 0).
    { eapply (dseg_nonzero _ _ _ _ _ Hs1). rewrite fmap_app. set_solver. }
    rewrite (proj2 (Z.eqb_neq _ _)), Hn by done. simpl. eexists. split.
    + rewrite (insert_id (st_lists st)); [done|]. rewrite HL. f_equal.
      rewrite !head_ptr_app in *. simpl in *. destruct L. simpl in *. congruence.
    + split.
      * intros r Hr. rewrite lookup_insert_ne; [done|]. intros <-.
        rewrite !fmap_app in Hr. set_solver.
      * apply (dseg_relink_last _ 0 xs1 q w p (head_ptr xs2 0) n Hnd1 Hn) in Hs1.
        apply dseg_app. rewrite last_ptr_snoc. split; [done|].
        eapply dseg_frame; [|exact Hs2]. intros r Hr. rewrite lookup_insert_ne; [done|].
        set_solver.
Qed.

(** ** The operations on a store *)

(** Replacing one list of a store by another, with new nodes that were not
    live before, leaves every other list as it was. *)
Lemma store_rep_set st m own l xs xs' L' h' nodes' :
  store_rep st m own -> m !! l = Some xs -> heap_ok h' ->
  list_rep nodes' L' xs' -> NoDup xs'.*1 ->
  (forall p, p ∈ xs'.*1 -> p ∈ live h' /\ (p ∉ own)) ->
  (forall p, p ∈ xs'.*1 -> p ∈ xs.*1 \/ p ∉ live (st_heap st)) ->
  (forall p, p ∈ live (st_heap st) -> p ∉ xs.*1 ->
     p ∈ live h' /\ nodes' !! p = st_nodes st !! p) ->
  store_rep (Store h' nodes' (<[l := L']> (st_lists st))) (<[l := xs']> m) own.
Proof.
  intros R Hl Hok Hrep Hnd Hlive Hnew Hkeep.
  assert (Hother : forall l2 ys p, l <> l2 -> m !! l2 = Some ys -> p ∈ ys.*1 ->
            p ∈ live (st_heap st) /\ (p ∉ xs.*1) /\ (p ∉ xs'.*1)).
  { intros l2 ys p Hne Hl2 Hp. destruct (rep_live _ _ _ R _ _ _ Hl2 Hp) as [Hpl _].
    assert (p ∉ xs.*1) by (intros Hx; apply Hne; exact (rep_disj _ _ _ R _ _ _ _ _ Hl Hl2 Hx Hp)).
    split_and!; [done..|]. intros Hx. destruct (Hnew p Hx); done. }
  split; simpl.
  - done.
  - intros l2 ys Hl2. destruct (decide (l = l2)) as [<-|Hne].
    + rewrite lookup_insert_eq in Hl2. simplify_eq. exists L'. by rewrite lookup_insert_eq.
    + rewrite lookup_insert_ne in Hl2 by done. setoid_rewrite lookup_insert_ne; [|done].
      destruct (rep_list _ _ _ R _ _ Hl2) as (L2 & HL2 & ? & ? & Hseg).
      exists L2. split_and!; [done|]. split_and!; [done..|].
      eapply dseg_frame; [|done]. intros p Hp. destruct (Hother _ _ _ Hne Hl2 Hp) as (? & ? & _).
      by apply Hkeep.
  - intros l2 ys Hl2. apply lookup_insert_Some in Hl2 as [[<- <-]|[? Hl2]]; [done|].
    by eapply rep_nodup.
  - intros l1 l2 ys zs p H1 H2 P1 P2.
    apply lookup_insert_Some in H1 as [[<- <-]|[? H1]], H2 as [[<- <-]|[? H2]]; [done|..].
    + by destruct (Hother l2 zs p) as (_ & _ & []).
    + by destruct (Hother l1 ys p) as (_ & _ & []).
    + by eapply rep_disj.
  - intros l2 ys p Hl2 Hp. apply lookup_insert_Some in Hl2 as [[<- <-]|[Hne Hl2]]; [by apply Hlive|].
    destruct (Hother _ _ _ Hne Hl2 Hp) as (? & ? & _).
    split; [by apply Hkeep|]. by eapply rep_live.
  - intros p Hp. apply Hkeep; [by eapply rep_own|].
    intros Hx. by destruct (rep_live _ _ _ R _ _ _ Hl Hx).
Qed.

Lemma list_init_rep st m own l :
  store_rep st m own -> store_rep (list_init st l) (<[l := []]> m) own.
Proof.
  intros [Hok Hrep Hnd Hd Hlive Hown]. unfold list_init. split; simpl; [done|..|done].
  - intros l2 ys Hl2. destruct (decide (l = l2)) as [<-|].
    + rewrite lookup_insert_eq in Hl2. simplify_eq. exists (KList 0 0).
      by rewrite lookup_insert_eq.
    + rewrite lookup_insert_ne in Hl2 by done. setoid_rewrite lookup_insert_ne; [|done].
      by apply Hrep.
  - intros l2 ys [[<- <-]|[_ ?]]%lookup_insert_Some; [constructor|eauto].
  - intros l1 l2 ys zs p [[<- <-]|[_ ?]]%lookup_insert_Some [[<- <-]|[_ ?]]%lookup_insert_Some
      P1 P2; set_solver.
  - intros l2 ys p [[<- <-]|[_ ?]]%lookup_insert_Some Hp; [set_solver|eauto].
Qed.

Lemma list_append_rep st m own l xs v st' :
  store_rep st m own -> m !! l = Some xs -> list_append st l v = Ret st' ->
  exists p, p <> 0 /\ store_rep st' (<[l := xs ++ [(p, v)]]> m) own.
Proof.
  intros R Hl Happ. unfold list_append in Happ.
  apply bind_Ret_inv in Happ as ([n h] & Halloc & Happ). simpl in Happ.
  destruct (alloc_fresh _ _ _ _ (rep_heap _ _ _ R) sizeof_list_node_u16 Halloc)
    as (Hok & Hn16 & Hn & Hlive). assert (Hn0 : n <> 0) by lia.
  destruct (rep_list _ _ _ R _ _ Hl) as (L & HL & Hrep).
  rewrite (deref_Some _ _ _ HL) in Happ. simpl in Happ.
  assert (Hnx : n ∉ xs.*1) by (intros ?; apply Hn; by eapply rep_live).
  pose proof (rep_nodup _ _ _ R _ _ Hl) as Hnd.
  exists n. split; [done|].
  assert (Hxs' : (xs ++ [(n, v)]).*1 = xs.*1 ++ [n]) by (by rewrite fmap_app).
  destruct (append_rep _ _ _ n v Hrep Hnd Hnx Hn0) as [(Hf & -> & Hrep')|(Hf & ln & Hln & Hlx & Hrep')].
  - rewrite Hf in Happ. simpl in Happ. simplify_eq. eapply store_rep_set; try done; simpl.
    + apply NoDup_singleton.
    + intros p ->%list_elem_of_singleton. rewrite Hlive. split; [set_solver|].
      intros Hp. by apply Hn, (rep_own _ _ _ R).
    + intros p ->%list_elem_of_singleton. by right.
    + intros p Hp _. rewrite Hlive, lookup_insert_ne by congruence. set_solver.
  - rewrite (proj2 (Z.eqb_neq _ _)), Hln in Happ by done. simpl in Happ. simplify_eq.
    eapply store_rep_set; try done; rewrite ?Hxs'.
    + apply NoDup_app. split_and!; [done|set_solver|apply NoDup_singleton].
    + intros p [Hp| ->%list_elem_of_singleton]%elem_of_app; rewrite Hlive.
      * destruct (rep_live _ _ _ R _ _ _ Hl Hp). set_solver.
      * split; [set_solver|]. intros Hp. by apply Hn, (rep_own _ _ _ R).
    + intros p [Hp| ->%list_elem_of_singleton]%elem_of_app; auto.
    + intros p Hp Hpx. rewrite Hlive, !lookup_insert_ne by set_solver. set_solver.
Qed.

Lemma list_append_safe st m own l v :
  store_rep st m own -> is_Some (m !! l) -> safe (list_append st l v).
Proof.
  intros R [xs Hl]. unfold list_append.
  pose proof (alloc_safe _ sizeof_list_node (rep_heap _ _ _ R) sizeof_list_node_u16).
  destruct (alloc (st_heap st) sizeof_list_node) as [[n h]| | | |] eqn:Halloc; try done. simpl.
  destruct (alloc_fresh _ _ _ _ (rep_heap _ _ _ R) sizeof_list_node_u16 Halloc)
    as (_ & Hn16 & Hn & _). assert (Hn0 : n <> 0) by lia.
  destruct (rep_list _ _ _ R _ _ Hl) as (L & HL & Hrep).
  rewrite (deref_Some _ _ _ HL). simpl.
  assert (Hnx : n ∉ xs.*1) by (intros ?; apply Hn; by eapply rep_live).
  destruct (append_rep _ _ _ n v Hrep (rep_nodup _ _ _ R _ _ Hl) Hnx Hn0)
    as [(-> & _)|(Hf & ln & Hln & _)]; [done|].
  by rewrite (proj2 (Z.eqb_neq _ _)), Hln.
Qed.

Lemma list_remove_rep st m own l xs1 p v xs2 :
  store_rep st m own -> m !! l = Some (xs1 ++ (p, v) :: xs2) ->
  exists st', list_remove st l p = Ret st' /\ store_rep st' (<[l := xs1 ++ xs2]> m) own.
Proof.
  intros R Hl. destruct (rep_list _ _ _ R _ _ Hl) as (L & HL & Hrep).
  pose proof (rep_nodup _ _ _ R _ _ Hl) as Hnd. unfold list_remove.
  destruct (unlink_next_rep st l L xs1 p v xs2 HL Hrep Hnd) as (nodes1 & -> & Hk1 & Hs1 & Hs2 & Hp).
  simpl. destruct Hrep as (Hf & _ & _).
  destruct (unlink_prev_rep (Store (st_heap st) nodes1
     (<[l := KList (l_first L) (last_ptr (xs1 ++ xs2) 0)]> (st_lists st))) l
     (KList (l_first L) (last_ptr (xs1 ++ xs2) 0)) xs1 p v xs2) as (nodes2 & -> & Hk2 & Hseg);
    [simpl; by rewrite lookup_insert_eq|done..|].
  simpl in *. rewrite insert_insert_eq.
  assert (Hpin : p ∈ (xs1 ++ (p, v) :: xs2).*1) by (rewrite fmap_app; set_solver).
  destruct (rep_live _ _ _ R _ _ _ Hl Hpin) as [Hpl Hpo].
  destruct (dealloc_live _ _ (rep_heap _ _ _ R) Hpl) as (h' & -> & Hok & Hlive). simpl.
  eexists. split; [done|].
  assert (Hsub : forall q, q ∈ (xs1 ++ xs2).*1 -> q ∈ (xs1 ++ (p, v) :: xs2).*1 /\ q <> p).
  { intros q. rewrite !fmap_app in *. simpl. apply NoDup_app in Hnd as (_ & Hd & Hnd2).
    apply NoDup_cons in Hnd2 as [Hpx _]. simpl in Hd. intros [Hq|Hq]%elem_of_app.
    - specialize (Hd q Hq). set_solver.
    - split; [set_solver|]. intros ->. done. }
  eapply store_rep_set; try done.
  - split_and!; [done..|]. eapply dseg_frame; [|exact Hseg].
    intros q Hq. rewrite lookup_delete_ne; [done|]. destruct (Hsub q Hq). congruence.
  - rewrite fmap_app in Hnd. rewrite fmap_app. simpl in Hnd.
    apply NoDup_app in Hnd as (? & Hd & [_ ?]%NoDup_cons). apply NoDup_app. set_solver.
  - intros q Hq. destruct (Hsub q Hq) as [Hq' Hne].
    destruct (rep_live _ _ _ R _ _ _ Hl Hq'). rewrite Hlive. set_solver.
  - intros q Hq. left. by apply Hsub.
  - intros q Hq Hqx. rewrite Hlive, lookup_delete_ne, Hk2, Hk1 by set_solver. set_solver.
Qed.

Lemma walk_spec nodes xs pp fuel : dseg nodes pp xs 0 -> (length xs < fuel)%nat ->
  walk fuel nodes (head_ptr xs 0) = Ret xs.
Proof.
  revert pp fuel. induction xs as [|[p v] xs IH]; intros pp [|fuel] Hseg Hf; simpl in *; try lia.
  - done.
  - destruct Hseg as (Hp0 & Hp & Hseg). rewrite (proj2 (Z.eqb_neq _ _)) by done.
    unfold deref. rewrite Hp. simpl. erewrite IH by (done || lia). done.
Qed.

Lemma list_foreach_spec st m own l xs :
  store_rep st m own -> m !! l = Some xs -> list_foreach st l = Ret xs.
Proof.
  intros R Hl. destruct (rep_list _ _ _ R _ _ Hl) as (L & HL & Hf & _ & Hseg).
  unfold list_foreach. rewrite (deref_Some _ _ _ HL). unfold mbind, outcome_bind. rewrite Hf.
  eapply walk_spec; [done|]. apply Nat.lt_succ_r.
  rewrite <-(length_fmap fst), <-size_dom.
  rewrite <-(size_list_to_set (C:=gset Z)) by (by eapply rep_nodup).
  apply subseteq_size. intros p Hp%elem_of_list_to_set. apply elem_of_dom.
  by eapply dseg_dom.
Qed.

(** The pointers of a list and of its nodes. *)
Definition list_first (st : store) (lst : Z) : outcome Z :=
  L ← deref (st_lists st) lst; Ret (l_first L).

Definition node_next (st : store) (p : Z) : outcome Z :=
  n ← deref (st_nodes st) p; Ret (n_next n).

Definition node_val (st : store) (p : Z) : outcome Z :=
  n ← deref (st_nodes st) p; Ret (n_val n).

Lemma store_nodup st m own l xs :
  store_rep st m own -> m !! l = Some xs -> NoDup xs.*1 /\ (0 ∉ xs.*1).
Proof.
  intros R Hl. split; [by eapply rep_nodup|].
  destruct (rep_list _ _ _ R _ _ Hl) as (L & _ & _ & _ & Hseg).
  intros Hz. by eapply dseg_nonzero in Hz.
Qed.

Lemma list_first_spec st m own l xs :
  store_rep st m own -> m !! l = Some xs -> list_first st l = Ret (head_ptr xs 0).
Proof.
  intros R Hl. destruct (rep_list _ _ _ R _ _ Hl) as (L & HL & Hf & _).
  unfold list_first. rewrite (deref_Some _ _ _ HL). simpl. by rewrite Hf.
Qed.

Lemma list_node_spec st m own l xs1 p v xs2 :
  store_rep st m own -> m !! l = Some (xs1 ++ (p, v) :: xs2) ->
  node_next st p = Ret (head_ptr xs2 0) /\ node_val st p = Ret v.
Proof.
  intros R Hl. destruct (rep_list _ _ _ R _ _ Hl) as (L & _ & _ & _ & Hseg).
  apply dseg_app in Hseg as (_ & _ & Hp & _).
  unfold node_next, node_val. by rewrite (deref_Some _ _ _ Hp).
Qed.

(** Objects of the client on the same heap. *)
Definition store_alloc (st : store) (n : Z) : outcome (Z * store) :=
  '(p, h) ← alloc (st_heap st) n; Ret (p, Store h (st_nodes st) (st_lists st)).

Definition store_free (st : store) (p : Z) : outcome store :=
  h ← dealloc (st_heap st) p; Ret (Store h (st_nodes st) (st_lists st)).

Lemma store_alloc_rep st m own n p st' :
  store_rep st m own -> is_u16 n -> store_alloc st n = Ret (p, st') ->
  0 < p < 0xF000 /\ (p ∉ own) /\ store_rep st' m ({[p]} ∪ own).
Proof.
  intros R Hn Ha. unfold store_alloc in Ha. run_inv.
  destruct (alloc_fresh _ _ _ _ (rep_heap _ _ _ R) Hn E) as (Hok & Hp0 & Hp & Hlive).
  assert (p ∉ own) by (intros ?; by apply Hp, (rep_own _ _ _ R)).
  split; [done|]. split; [done|]. destruct R as [? Hrep Hnd Hd Hl Hown]. split; simpl; try done.
  - intros l xs q Hlx Hq. destruct (Hl _ _ _ Hlx Hq). rewrite Hlive. set_solver.
  - intros q. rewrite Hlive. set_solver.
Qed.

Lemma store_free_rep st m own p :
  store_rep st m own -> p ∈ own ->
  exists st', store_free st p = Ret st' /\ store_rep st' m (own ∖ {[p]}).
Proof.
  intros R Hp. unfold store_free.
  destruct (dealloc_live _ p (rep_heap _ _ _ R)) as (h' & -> & Hok & Hlive); [by eapply rep_own|].
  simpl. eexists. split; [done|]. destruct R as [? Hrep Hnd Hd Hl Hown]. split; simpl; try done.
  - intros l xs q Hlx Hq. destruct (Hl _ _ _ Hlx Hq). rewrite Hlive. set_solver.
  - intros q. rewrite Hlive. set_solver.
Qed.

#[global] Program Instance klist_store : ListStore store := {|
  ls_init := list_init;
  ls_append := list_append;
  ls_remove := list_remove;
  ls_nodes := list_foreach;
  ls_first := list_first;
  ls_next := node_next;
  ls_val := node_val;
  ls_alloc := store_alloc;
  ls_free := store_free;
  ls_rep := store_rep;
|}.
Solve Obligations with
  eauto using list_init_rep, list_append_rep, list_append_safe, list_remove_rep,
    list_foreach_spec, store_alloc_rep, store_free_rep,
    store_nodup, list_first_spec, list_node_spec.
Next Obligation.
  intros st m own n R Hn. unfold store_alloc.
  pose proof (alloc_safe _ n (rep_heap _ _ _ R) Hn).
  by destruct (alloc (st_heap st) n) as [[]| | | |].
Qed.
End KList.
Arguments store H : clear implicits.

(** ** Properties *)

(** The store of a freshly booted kernel. *)
Definition boot_store : store (list Z) := Store empty_heap ∅ ∅.

Lemma boot_store_rep : store_rep boot_store ∅ ∅.
Proof. split; simpl; [eexists; apply empty_heap_layout|set_solver..]. Qed.

Section Properties.
Context {H : Type} `{Allocator H}.

(** [list_append] allocates one node and puts the value at the end of the
    list it is given: iterating the list then yields the old nodes followed by
    the new one, and every other list and every other object of the heap is
    untouched.  The only failure is the allocator's panic. *)
Theorem list_append_end (st : store H) m own l xs v :
  store_rep st m own -> m !! l = Some xs ->
  match list_append st l v with
  | Ret st' => exists p, p <> 0 /\
      store_rep st' (<[l := xs ++ [(p, v)]]> m) own /\
      list_foreach st' l = Ret (xs ++ [(p, v)])
  | Panic msg => msg = HEAP_FULL
  | _ => False
  end.
Proof.
  intros R Hl. pose proof (list_append_safe st m own l v R (mk_is_Some _ _ Hl)) as Hs.
  destruct (list_append st l v) as [st'| | | |] eqn:E; try done.
  destruct (list_append_rep _ _ _ _ _ _ _ R Hl E) as (p & Hp & R').
  exists p. split_and!; [done..|]. eapply list_foreach_spec; [done|]. apply lookup_insert_eq.
Qed.

(** [list_remove] unlinks any node of a list, first, middle or last, and
    frees it: iterating the list yields the other nodes in the same order, and
    every other list and object is untouched.  It never fails on a node of the
    list. *)
Theorem list_remove_node (st : store H) m own l xs1 p v xs2 :
  store_rep st m own -> m !! l = Some (xs1 ++ (p, v) :: xs2) ->
  exists st', list_remove st l p = Ret st' /\
    store_rep st' (<[l := xs1 ++ xs2]> m) own /\
    list_foreach st' l = Ret (xs1 ++ xs2).
Proof.
  intros R Hl. destruct (list_remove_rep _ _ _ _ _ _ _ _ R Hl) as (st' & E & R').
  exists st'. split_and!; [done..|]. eapply list_foreach_spec; [done|]. apply lookup_insert_eq.
Qed.
End Properties.

(** A list at address 0x5000 holding the values 11, 22 and 33. *)
Definition three_nodes : outcome (store (list Z)) :=
  st ← list_append (list_init boot_store 0x5000) 0x5000 11;
  st ← list_append st 0x5000 22;
  list_append st 0x5000 33.

Lemma list_append_end_witness :
  match list_append (list_init boot_store 0x5000) 0x5000 11 with
  | Ret st' => exists p, p <> 0 /\
      store_rep st' (<[0x5000 := [] ++ [(p, 11)]]> (<[0x5000 := []]> ∅)) ∅ /\
      list_foreach st' 0x5000 = Ret ([] ++ [(p, 11)])
  | Panic msg => msg = HEAP_FULL
  | _ => False
  end.
Proof.
  apply list_append_end.
  - apply list_init_rep, boot_store_rep.
  - reflexivity.
Defined.

Lemma three_nodes_rep st : three_nodes = Ret st ->
  exists p1 p2 p3, store_rep st {[0x5000 := [(p1, 11); (p2, 22); (p3, 33)]]} ∅.
Proof.
  unfold three_nodes. intros R. run_inv.
  apply (list_append_rep _ (<[0x5000 := []]> ∅) ∅ _ []) in E as (p1 & _ & R1);
    [|apply list_init_rep, boot_store_rep|reflexivity].
  eapply list_append_rep in E0 as (p2 & _ & R2); [|done|apply lookup_insert_eq].
  eapply list_append_rep in R as (p3 & _ & R3); [|done|apply lookup_insert_eq].
  exists p1, p2, p3. rewrite !insert_insert_eq in R3. apply R3.
Qed.

Lemma list_remove_node_witness :
  exists st p1 p2 p3, three_nodes = Ret st /\
    exists st', list_remove st 0x5000 p2 = Ret st' /\
      store_rep st' (<[0x5000 := [(p1, 11)] ++ [(p3, 33)]]>
                       {[0x5000 := [(p1, 11); (p2, 22); (p3, 33)]]}) ∅ /\
      list_foreach st' 0x5000 = Ret ([(p1, 11)] ++ [(p3, 33)]).
Proof.
  assert (exists st, three_nodes = Ret st) as [st Hst] by (eexists; vm_compute; reflexivity).
  destruct (three_nodes_rep st Hst) as (p1 & p2 & p3 & R).
  exists st, p1, p2, p3. split; [exact Hst|].
  eapply (list_remove_node st _ ∅ 0x5000 [(p1, 11)] p2 22 [(p3, 33)]).
  - exact R.
  - apply lookup_insert_eq.
Defined.
