(* ===== verification/Proc.v ===== *)
(** * Processes (kernel/proc/proc.h, kernel/fs/vfs_async.h)

    The process descriptor, its constants, and functional updates of its
    fields.  Pointers to other objects are addresses; the semaphore and the
    signal list embedded in a descriptor are known by their addresses. *)

From S2P Require Import Prelude.

Definition PROC_MAX_FILES : Z := 16.

Definition PROC_STATE_UNLOADED : Z := 0.
Definition PROC_STATE_RUNNABLE : Z := 1.
Definition PROC_STATE_BLOCKED : Z := 2.
Definition PROC_STATE_SYSCALL : Z := 3.
Definition PROC_STATE_SYSCALL_BLOCKED : Z := 4.
Definition PROC_STATE_DEAD : Z := 5.

Definition PROC_TYPE_INIT : Z := 0.
Definition PROC_TYPE_USER : Z := 1.
Definition PROC_TYPE_KERNEL : Z := 2.
Definition PROC_TYPE_PRIV : Z := 3.

Record proc_file := ProcFile {
  f_inode : Z;
  f_offset : Z;
  f_fcntl_flags : Z;
  f_driver_data : Z;
}.

(** The registers and page tables of a context. *)
Record proc_state := ProcState {
  regs : list Z;
  pc : Z;
  arith_flags : Z;
  mem_pages : list Z;
  prog_pages : list Z;
}.

Record proc := Proc {
  p_pid : Z;
  p_state : Z;
  p_type : Z;
  p_proc_state : proc_state;
  p_syscall_state : proc_state;
  p_name : list Z;
  p_kernel_stack_page : Z;
  p_open_files : list proc_file;
  p_parent : Z;
  p_sema_blocked : Z;
  p_signals_hold : Z;
  p_sighandler : Z;
  p_load_brk : Z;
  p_alarm_ticks : Z;
}.

(** [sizeof(struct proc)]: [int] fields and pointers of 2 bytes, two register
    contexts of 84, a name of 16 and 16 open files of 8.

    A pointer to a member of a heap object keeps the object and the byte offset
    apart, as [object + 65536 * offset]; objects have 16-bit addresses, so
    pointers to members of different objects, or to different members, differ.
    Global variables have negative addresses. *)
Definition sizeof_proc : Z := 340.
Definition member (p off : Z) : Z := p + 65536 * off.
Definition signal_queue_of (p : Z) : Z := member p 324.
Definition signal_sema_of (p : Z) : Z := member p 332.

Lemma member_inj p off p' off' :
  is_u16 p -> is_u16 p' -> member p off = member p' off' -> p = p' /\ off = off'.
Proof. unfold member. lia. Qed.

Lemma sizeof_proc_u16 : is_u16 sizeof_proc.
Proof. unfold sizeof_proc. lia. Qed.

(** ** Updates *)

Definition set_p_state (x : Z) (p : proc) : proc :=
  Proc (p_pid p) x (p_type p) (p_proc_state p) (p_syscall_state p) (p_name p)
    (p_kernel_stack_page p) (p_open_files p) (p_parent p) (p_sema_blocked p)
    (p_signals_hold p) (p_sighandler p) (p_load_brk p) (p_alarm_ticks p).

Definition set_p_proc_state (x : proc_state) (p : proc) : proc :=
  Proc (p_pid p) (p_state p) (p_type p) x (p_syscall_state p) (p_name p)
    (p_kernel_stack_page p) (p_open_files p) (p_parent p) (p_sema_blocked p)
    (p_signals_hold p) (p_sighandler p) (p_load_brk p) (p_alarm_ticks p).

Definition set_p_syscall_state (x : proc_state) (p : proc) : proc :=
  Proc (p_pid p) (p_state p) (p_type p) (p_proc_state p) x (p_name p)
    (p_kernel_stack_page p) (p_open_files p) (p_parent p) (p_sema_blocked p)
    (p_signals_hold p) (p_sighandler p) (p_load_brk p) (p_alarm_ticks p).

Definition set_p_open_files (x : list proc_file) (p : proc) : proc :=
  Proc (p_pid p) (p_state p) (p_type p) (p_proc_state p) (p_syscall_state p) (p_name p)
    (p_kernel_stack_page p) x (p_parent p) (p_sema_blocked p)
    (p_signals_hold p) (p_sighandler p) (p_load_brk p) (p_alarm_ticks p).

Definition set_p_sema_blocked (x : Z) (p : proc) : proc :=
  Proc (p_pid p) (p_state p) (p_type p) (p_proc_state p) (p_syscall_state p) (p_name p)
    (p_kernel_stack_page p) (p_open_files p) (p_parent p) x
    (p_signals_hold p) (p_sighandler p) (p_load_brk p) (p_alarm_ticks p).

Definition set_p_signals_hold (x : Z) (p : proc) : proc :=
  Proc (p_pid p) (p_state p) (p_type p) (p_proc_state p) (p_syscall_state p) (p_name p)
    (p_kernel_stack_page p) (p_open_files p) (p_parent p) (p_sema_blocked p)
    x (p_sighandler p) (p_load_brk p) (p_alarm_ticks p).

Definition set_p_sighandler (x : Z) (p : proc) : proc :=
  Proc (p_pid p) (p_state p) (p_type p) (p_proc_state p) (p_syscall_state p) (p_name p)
    (p_kernel_stack_page p) (p_open_files p) (p_parent p) (p_sema_blocked p)
    (p_signals_hold p) x (p_load_brk p) (p_alarm_ticks p).

Definition set_p_alarm_ticks (x : Z) (p : proc) : proc :=
  Proc (p_pid p) (p_state p) (p_type p) (p_proc_state p) (p_syscall_state p) (p_name p)
    (p_kernel_stack_page p) (p_open_files p) (p_parent p) (p_sema_blocked p)
    (p_signals_hold p) (p_sighandler p) (p_load_brk p) x.

Definition set_p_name (x : list Z) (p : proc) : proc :=
  Proc (p_pid p) (p_state p) (p_type p) (p_proc_state p) (p_syscall_state p) x
    (p_kernel_stack_page p) (p_open_files p) (p_parent p) (p_sema_blocked p)
    (p_signals_hold p) (p_sighandler p) (p_load_brk p) (p_alarm_ticks p).

Definition set_p_load_brk (x : Z) (p : proc) : proc :=
  Proc (p_pid p) (p_state p) (p_type p) (p_proc_state p) (p_syscall_state p) (p_name p)
    (p_kernel_stack_page p) (p_open_files p) (p_parent p) (p_sema_blocked p)
    (p_signals_hold p) (p_sighandler p) x (p_alarm_ticks p).

Definition set_pc (x : Z) (s : proc_state) : proc_state :=
  ProcState (regs s) x (arith_flags s) (mem_pages s) (prog_pages s).

Definition set_regs (x : list Z) (s : proc_state) : proc_state :=
  ProcState x (pc s) (arith_flags s) (mem_pages s) (prog_pages s).

Definition set_mem_pages (x : list Z) (s : proc_state) : proc_state :=
  ProcState (regs s) (pc s) (arith_flags s) x (prog_pages s).

Definition set_prog_pages (x : list Z) (s : proc_state) : proc_state :=
  ProcState (regs s) (pc s) (arith_flags s) (mem_pages s) x.

#[export] Instance proc_file_eq_dec : EqDecision proc_file.
Proof. solve_decision. Defined.

#[export] Instance proc_state_eq_dec : EqDecision proc_state.
Proof. solve_decision. Defined.

#[export] Instance proc_eq_dec : EqDecision proc.
Proof. solve_decision. Defined.
