(* ===== verification/Sync.v ===== *)
(** * Atomic operations, semaphores and spinlocks
      (kernel/libk/atomic.c, kernel/libk/con/semaphore.c,
       kernel/libk/con/spinlock.c, and the interrupt flag of
       kernel/irq/interrupt.c)

    The kernel runs on one core: code is interrupted only while interrupts are
    enabled, and a thread gives up the core only in an interrupt (the timer,
    or [YIELD]).  [Module Atomic] has the operations on the status register
    and on one variable; [Module Sem] is the machine of any number of threads
    that use one semaphore, one transition per statement of [semaphore_down]
    and [semaphore_up] and per context switch; [Module Spin] is the machine of
    the spinlock. *)

From S2P Require Import Prelude Proc.

(** ** The interrupt flag and the atomic operations *)

Module Atomic.

(** The status register [sr1] of the core. *)
Definition int_enable (sr : Z) : Z := Z.lor sr 0x4.
Definition int_disable (sr : Z) : Z := Z.land sr 0xfb.
Definition int_get (sr : Z) : bool := 0 <? Z.land sr 0x4.
Definition enable_paging (sr : Z) : Z := Z.lor sr 0x2.
Definition disable_paging (sr : Z) : Z := Z.land sr 0xfd.

(** Each operation takes the status register and the variable, and returns
    both. *)
Definition restore (int_should_enable : bool) (sr : Z) : Z :=
  if int_should_enable then int_enable sr else sr.

Definition atomic_read_int (sr var : Z) : Z * Z :=
  let int_should_enable := int_get sr in
  let sr := int_disable sr in
  let v := var in
  (v, restore int_should_enable sr).

Definition atomic_write_int (sr var v : Z) : Z * Z :=
  let int_should_enable := int_get sr in
  let sr := int_disable sr in
  let var := v in
  (var, restore int_should_enable sr).

Definition atomic_add_int (sr var v : Z) : Z * Z :=
  let int_should_enable := int_get sr in
  let sr := int_disable sr in
  let var := i16 (var + v) in
  (var, restore int_should_enable sr).

Definition atomic_compare_and_swap_int (sr var cmp swap : Z) : Z * Z * Z :=
  let int_should_enable := int_get sr in
  let sr := int_disable sr in
  let '(ret, var) := if var =? cmp then (1, swap) else (0, var) in
  (ret, var, restore int_should_enable sr).

(** Paging and the interrupt flag are different bits of the register. *)
Lemma paging_bit sr :
  Z.testbit (enable_paging sr) 1 = true /\ Z.testbit (disable_paging sr) 1 = false /\
  int_get (enable_paging sr) = int_get sr /\ int_get (disable_paging sr) = int_get sr.
Proof.
  unfold enable_paging, disable_paging, int_get. rewrite Z.lor_spec, Z.land_spec, Z.land_lor_distr_l, <-Z.land_assoc.
  change (Z.land 2 4) with 0. change (Z.land 0xfd 4) with 4. rewrite Z.lor_0_r.
  change (Z.testbit 2 1) with true. change (Z.testbit 0xfd 1) with false. by rewrite orb_true_r, andb_false_r.
Qed.

(** The status register has 8 significant bits; disabling and restoring leaves
    all of them as they were. *)
Lemma restore_disable sr : is_u8 sr -> restore (int_get sr) (int_disable sr) = sr.
Proof.
  intros H.
  assert (Hall : forallb (fun z => restore (int_get z) (int_disable z) =? z) (seqZ 0 256) = true)
    by (vm_compute; reflexivity).
  rewrite forallb_forall in Hall. apply Z.eqb_eq, Hall, list_elem_of_In, elem_of_seqZ. lia.
Qed.

(** Each atomic operation computes its result and leaves the whole status
    register, and so the interrupt flag, as it found it, whether or not
    interrupts were enabled; the access itself runs with interrupts off. *)
Theorem atomic_ops_restore sr var v cmp swap :
  is_u8 sr ->
  int_get (int_disable sr) = false /\
  atomic_read_int sr var = (var, sr) /\
  atomic_write_int sr var v = (v, sr) /\
  atomic_add_int sr var v = (i16 (var + v), sr) /\
  atomic_compare_and_swap_int sr var cmp swap
    = (if decide (var = cmp) then (1, swap, sr) else (0, var, sr)).
Proof.
  intros H. unfold atomic_read_int, atomic_write_int, atomic_add_int, atomic_compare_and_swap_int.
  rewrite restore_disable by done. split_and!; [|done..|].
  - unfold int_get, int_disable. rewrite <-Z.land_assoc, Z.land_0_r. done.
  - destruct (Z.eqb_spec var cmp); case_decide; done.
Qed.

Lemma atomic_ops_restore_witness :
  int_get (int_disable 7) = false /\
  atomic_read_int 7 5 = (5, 7) /\
  atomic_write_int 7 5 9 = (9, 7) /\
  atomic_add_int 7 5 9 = (i16 (5 + 9), 7) /\
  atomic_compare_and_swap_int 7 5 5 1 = (1, 1, 7).
Proof. apply (atomic_ops_restore 7 5 9 5 1). lia. Defined.

End Atomic.

(** ** Semaphores *)

Module Sem.

(** The statement a thread is about to run, of [semaphore_down] (lines 23 to
    54 of semaphore.c) or of the [atomic_add_int] inside [semaphore_up];
    [Out] is any code outside the two. *)
Inductive pc :=
| Out
| DownEntry          (** [ASSERT(int_get()); int_disable();] *)
| DownRead           (** [count = atomic_read_int(..); ASSERT(count >= 0); if (count == 0) ..] *)
| DownEnable         (** [int_enable();] at the top of the loop *)
| DownYield          (** [YIELD();] *)
| DownDisable        (** [int_disable();] at the bottom of the loop *)
| DownTest           (** [while (atomic_read_int(..) == 0)] *)
| DownDec            (** [atomic_add_int(.., -1);] *)
| DownExit           (** the last [int_enable();] *)
| UpEntry            (** [int_should_enable = int_get(); int_disable();] *)
| UpAdd (int_should_enable : bool)
| UpExit (int_should_enable : bool)
| AssertFailed.

(** What the machine keeps of a thread: where it is, its process state, and
    whether [sema_blocked] points to the semaphore. *)
Record thread := Thread { t_pc : pc; t_state : Z; t_blocked : bool }.

(** [ups] and [downs] count the completed operations; they are not part of
    the program. *)
Record machine := Machine {
  count : Z;
  int_on : bool;
  current : option nat;         (** [None] is the idle task *)
  threads : gmap nat thread;
  ups : Z;
  downs : Z;
}.

Definition set_thread (t : nat) (th : thread) (m : machine) : machine :=
  Machine (count m) (int_on m) (current m) (<[t := th]> (threads m)) (ups m) (downs m).

(** One statement of the current thread. *)
Definition exec (t : nat) (th : thread) (m : machine) : option machine :=
  let goto c := set_thread t (Thread c (t_state th) (t_blocked th)) in
  let set_int b m := Machine (count m) b (current m) (threads m) (ups m) (downs m) in
  match t_pc th with
  | DownEntry =>
      if int_on m then Some (set_int false (goto DownRead m)) else Some (goto AssertFailed m)
  | DownRead =>
      if count m <? 0 then Some (goto AssertFailed m)
      else if count m =? 0 then
        let st := if t_state th =? PROC_STATE_SYSCALL
                  then PROC_STATE_SYSCALL_BLOCKED else PROC_STATE_BLOCKED in
        Some (set_thread t (Thread DownEnable st true) m)
      else Some (goto DownDec m)
  | DownEnable => Some (set_int true (goto DownYield m))
  | DownDisable => Some (set_int false (goto DownTest m))
  | DownTest => Some (goto (if count m =? 0 then DownEnable else DownDec) m)
  | DownDec =>
      let m := goto DownExit m in
      Some (Machine (i16 (count m + -1)) (int_on m) (current m) (threads m) (ups m) (downs m + 1))
  | DownExit => Some (set_int true (goto Out m))
  | UpEntry => Some (set_int false (goto (UpAdd (int_on m)) m))
  | UpAdd b =>
      let m := goto (UpExit b) m in
      Some (Machine (i16 (count m + 1)) (int_on m) (current m) (threads m) (ups m + 1) (downs m))
  | UpExit b => Some (let m := goto Out m in if b then set_int true m else m)
  | Out | DownYield | AssertFailed => None
  end.

(** What [sched_pick_next] does to a thread it selects; [None] when it passes
    over it. *)
Definition wake (cnt : Z) (th : thread) : option thread :=
  if (t_state th =? PROC_STATE_RUNNABLE) || (t_state th =? PROC_STATE_SYSCALL) then Some th
  else if (t_state th =? PROC_STATE_BLOCKED) || (t_state th =? PROC_STATE_SYSCALL_BLOCKED) then
    if t_blocked th && (0 <? cnt) then
      Some (Thread (t_pc th)
              (if t_state th =? PROC_STATE_BLOCKED then PROC_STATE_RUNNABLE
               else PROC_STATE_SYSCALL) false)
    else None
  else None.

Definition switch (t : option nat) (m : machine) : machine :=
  Machine (count m) (int_on m) t (threads m) (ups m) (downs m).

Inductive step : machine -> machine -> Prop :=
| step_call_down m t th :
    current m = Some t -> threads m !! t = Some th -> t_pc th = Out -> int_on m = true ->
    step m (set_thread t (Thread DownEntry (t_state th) (t_blocked th)) m)
| step_call_up m t th :
    current m = Some t -> threads m !! t = Some th -> t_pc th = Out ->
    step m (set_thread t (Thread UpEntry (t_state th) (t_blocked th)) m)
| step_exec m t th m' :
    current m = Some t -> threads m !! t = Some th -> exec t th m = Some m' -> step m m'
| step_yield m t th :
    (** [YIELD] enters the interrupt handler, which picks a thread *)
    current m = Some t -> threads m !! t = Some th -> t_pc th = DownYield -> int_on m = true ->
    step m (switch None (set_thread t (Thread DownDisable (t_state th) (t_blocked th)) m))
| step_preempt m t :
    (** a timer interrupt *)
    current m = Some t -> int_on m = true -> step m (switch None m)
| step_pick m t th th' :
    current m = None -> threads m !! t = Some th -> wake (count m) th = Some th' ->
    step m (switch (Some t) (set_thread t th' m))
| step_irq_up m :
    (** an interrupt handler calls [semaphore_up] *)
    int_on m = true ->
    step m (Machine (i16 (count m + 1)) (int_on m) (current m) (threads m) (ups m + 1) (downs m)).

(** Initially no thread is inside an operation or blocked. *)
Definition initial (n : Z) (m : machine) : Prop :=
  count m = n /\ 0 <= n < 32768 /\ int_on m = true /\ ups m = 0 /\ downs m = 0 /\
  (forall t, current m = Some t -> is_Some (threads m !! t)) /\
  forall t th, threads m !! t = Some th ->
    t_pc th = Out /\ t_blocked th = false /\
    (t_state th = PROC_STATE_RUNNABLE \/ t_state th = PROC_STATE_SYSCALL).

(** A run from an initial state with count [n]: its states, the last one
    first. *)
Inductive run (n : Z) : list machine -> machine -> Prop :=
| run_initial m : initial n m -> run n [m] m
| run_step h m m' : run n h m -> step m m' -> run n (m' :: h) m'.

(** The value the semaphore stands for, [n] plus the completed ups less the
    completed downs, fits the 16-bit count. *)
Definition fits (n : Z) (m : machine) : Prop := n + ups m - downs m < 32768.

(** ** The invariant *)

(** Statements that run with interrupts off; a failed assertion halts the
    kernel, with interrupts off. *)
Definition masked (c : pc) : bool :=
  match c with
  | DownRead | DownEnable | DownTest | DownDec | DownExit | UpAdd _ | UpExit _ | AssertFailed => true
  | _ => false
  end.

Definition asleep (th : thread) : Prop :=
  t_state th = PROC_STATE_BLOCKED \/ t_state th = PROC_STATE_SYSCALL_BLOCKED.

Definition awake (th : thread) : Prop :=
  t_state th = PROC_STATE_RUNNABLE \/ t_state th = PROC_STATE_SYSCALL.

Record thread_ok (m : machine) (t : nat) (th : thread) : Prop := {
  ok_masked : masked (t_pc th) = true -> current m = Some t /\ int_on m = false;
  ok_current : current m = Some t -> masked (t_pc th) = false -> int_on m = true;
  ok_flag b : t_pc th = UpAdd b \/ t_pc th = UpExit b -> b = true;
  ok_state : awake th /\ t_blocked th = false \/
             asleep th /\ t_blocked th = true /\
             (t_pc th = DownEnable \/ t_pc th = DownYield \/
              t_pc th = DownDisable /\ current m <> Some t);
}.

(** What holds in every run. *)
Record inv (n : Z) (m : machine) : Prop := {
  inv_count : count m = i16 (n + ups m - downs m);
  inv_idle : current m = None -> int_on m = true;
  inv_threads t th : threads m !! t = Some th -> thread_ok m t th;
  inv_present t : current m = Some t -> is_Some (threads m !! t);
}.

(** What holds in addition while the value fits the count: the value is not
    negative, it is positive when a thread is about to decrement it, and no
    assertion has failed. *)
Record exact (n : Z) (m : machine) : Prop := {
  ex_fits : fits n m;
  ex_nonneg : 0 <= n + ups m - downs m;
  ex_dec t th : threads m !! t = Some th -> t_pc th = DownDec -> 0 < n + ups m - downs m;
  ex_assert t th : threads m !! t = Some th -> t_pc th <> AssertFailed;
}.

Lemma exact_count n m : inv n m -> exact n m -> count m = n + ups m - downs m.
Proof. intros I [F P _ _]. unfold fits in F. rewrite (inv_count _ _ I). apply i16_small. lia. Qed.

(** A thread that does not run, before and after, stays as it was. *)
Lemma thread_ok_other m m' t th :
  thread_ok m t th -> current m <> Some t -> current m' <> Some t -> thread_ok m' t th.
Proof.
  intros [Hm Hc Hf Hs] Hne Hne'.
  assert (masked (t_pc th) = false) as Hnm.
  { destruct (masked (t_pc th)); [|done]. destruct Hm; [done|]. congruence. }
  split; [congruence|congruence| |].
  - intros b [E|E]; by rewrite E in Hnm.
  - destruct Hs as [?|(? & ? & [E|[?|[? _]]])]; [by left|by rewrite E in Hnm|right..]; auto 6.
Qed.

(** A step of the current thread [t] that changes no other thread. *)
Lemma inv_step_thread n m m' t th' :
  inv n m -> current m = Some t ->
  threads m' = <[t := th']> (threads m) ->
  (current m' = Some t \/ current m' = None /\ int_on m' = true) ->
  count m' = i16 (n + ups m' - downs m') ->
  thread_ok m' t th' -> inv n m'.
Proof.
  intros I Hcur Hth Hcur' Hcnt Hok. split; [done| | |].
  - naive_solver.
  - intros t2 th2. rewrite Hth. intros [[<- <-]|[Hne Hl]]%lookup_insert_Some; [done|].
    eapply thread_ok_other; [by eapply inv_threads| |].
    + rewrite Hcur. congruence.
    + destruct Hcur' as [->|[-> _]]; congruence.
  - intros t2 Ht2. assert (t2 = t) as -> by (destruct Hcur' as [E|[E _]]; congruence).
    rewrite Hth, lookup_insert_eq. done.
Qed.

(** The fields of [thread_ok] for the current thread, after its statement. *)
Ltac thread_tac :=
  split; unfold awake, asleep in *; simpl in *; intros;
  repeat match goal with
  | H : _ \/ _ |- _ => destruct H
  | H : _ /\ _ |- _ => destruct H
  end; subst; try discriminate; try congruence; try lia; auto 7.

Lemma exec_inv n m t th m' :
  inv n m -> current m = Some t -> threads m !! t = Some th ->
  exec t th m = Some m' -> inv n m'.
Proof.
  intros I Hcur Hl E. pose proof (inv_threads _ _ I _ _ Hl) as Hok.
  pose proof (inv_count _ _ I) as Hcnt.
  destruct th as [c st bl], Hok as [Hm Hc Hf Hs]. simpl in *.
  assert (int_on m = negb (masked c)) as Hi by (destruct (masked c); naive_solver).
  clear Hm Hc. rewrite <-?Hi.
  unfold exec in E. simpl in E.
  destruct c; simpl in Hi; simpl in E; rewrite ?Hi in E; try discriminate E;
    try pose proof (Hf _ (or_introl eq_refl)); try pose proof (Hf _ (or_intror eq_refl));
    repeat match type of E with
    | context [if ?b then _ else _] => destruct b eqn:?
    end; injection E as <-; simpl in *;
    (eapply (inv_step_thread n m _ t); [exact I|done|reflexivity|left; done|..]);
    simpl in *; rewrite ?Hcnt, ?i16_add_l; try (f_equal; lia); thread_tac.
Qed.

(** A step that changes neither the threads nor the semaphore's count. *)
Lemma inv_switch n m c :
  inv n m -> int_on m = true -> c = None -> inv n (switch c m).
Proof.
  intros I Hi ->. pose proof I as [Hcnt _ Hth _]. split; try done.
  intros t th Hl. destruct (Hth _ _ Hl) as [Hm Hc Hf Hs].
  assert (masked (t_pc th) = false) as Hnm
    by (destruct (masked (t_pc th)); [|done]; destruct Hm; congruence).
  split; simpl; [congruence|done|done|].
  destruct Hs as [?|(? & ? & [?|[?|[? _]]])]; [by left|right..]; auto 6.
Qed.

Lemma wake_awake cnt th th' :
  wake cnt th = Some th' -> (awake th /\ t_blocked th = false) \/ asleep th ->
  t_pc th' = t_pc th /\ awake th' /\ t_blocked th' = false.
Proof.
  unfold wake, awake, asleep. destruct th as [c st bl]; simpl.
  intros E Hs. case_match eqn:E1; [|case_match; [case_match; [|done]|done]].
  - injection E as <-. simpl. apply orb_true_iff in E1. rewrite !Z.eqb_eq in E1.
    destruct Hs as [[? ?]|[-> | ->]]; [done|destruct E1 as [E|E]; vm_compute in E; discriminate E..].
  - injection E as <-. simpl. split_and!; [done| |done].
    destruct (st =? PROC_STATE_BLOCKED); auto.
Qed.

Lemma wake_pc cnt th th' : wake cnt th = Some th' -> t_pc th' = t_pc th.
Proof. unfold wake. intros E. repeat case_match; simplify_eq/=; done. Qed.

Lemma pick_inv n m t th th' :
  inv n m -> current m = None -> threads m !! t = Some th -> wake (count m) th = Some th' ->
  inv n (switch (Some t) (set_thread t th' m)).
Proof.
  intros I Hcur Hl Hw. pose proof I as [Hcnt Hidle Hth _].
  pose proof (Hth _ _ Hl) as [Hm Hc Hf Hs]. specialize (Hidle Hcur).
  assert (masked (t_pc th) = false) as Hnm
    by (destruct (masked (t_pc th)); [|done]; destruct Hm; congruence).
  destruct (wake_awake _ _ _ Hw) as (Hpc & Haw & Hbl); [tauto|].
  split; simpl; [done|discriminate| |].
  - intros t2 th2. rewrite lookup_insert_Some. intros [[<- <-]|[Hne Hl2]].
    + split; simpl; rewrite Hpc; auto. congruence.
    + apply (thread_ok_other m); [eauto|congruence..|simpl; congruence].
  - intros t2 [= <-]. rewrite lookup_insert_eq. done.
Qed.

Lemma irq_up_inv n m :
  inv n m ->
  inv n (Machine (i16 (count m + 1)) (int_on m) (current m) (threads m) (ups m + 1) (downs m)).
Proof.
  intros [Hcnt Hidle Hth Hpres]. split; simpl; try done.
  - rewrite Hcnt, i16_add_l. f_equal. lia.
  - intros t th Hl. destruct (Hth _ _ Hl) as [Hm Hc Hf Hs]. split; simpl; auto.
Qed.

Lemma step_inv n m m' : step m m' -> inv n m -> inv n m'.
Proof.
  intros Hs I. pose proof I as [Hcnt _ Hth _].
  destruct Hs as [m t th Hcur Hl Hpc Hi|m t th Hcur Hl Hpc|m t th m' Hcur Hl E|m t th Hcur Hl Hpc Hi
                 |m t Hcur Hi|m t th th' Hcur Hl Hw|m Hi].
  - destruct (Hth _ _ Hl) as [Hm Hc Hf Hst]. rewrite Hpc in *.
    apply (inv_step_thread n m _ t (Thread DownEntry (t_state th) (t_blocked th))); auto.
    split; simpl; [done|auto|intros ? [?|?]; done|].
    destruct Hst as [?|(? & ? & [?|[?|[? _]]])]; [by left|done..].
  - destruct (Hth _ _ Hl) as [Hm Hc Hf Hst]. rewrite Hpc in *.
    apply (inv_step_thread n m _ t (Thread UpEntry (t_state th) (t_blocked th))); auto.
    split; simpl; [done|auto|intros ? [?|?]; done|].
    destruct Hst as [?|(? & ? & [?|[?|[? _]]])]; [by left|done..].
  - eauto using exec_inv.
  - destruct (Hth _ _ Hl) as [Hm Hc Hf Hst].
    apply (inv_step_thread n m _ t (Thread DownDisable (t_state th) (t_blocked th))); auto.
    split; simpl; [done|done|intros ? [?|?]; done|].
    destruct Hst as [?|(? & ? & ?)]; [by left|right]. auto 6.
  - by apply inv_switch.
  - by eapply pick_inv.
  - by apply irq_up_inv.
Qed.

Lemma initial_inv n m : initial n m -> inv n m /\ exact n m.
Proof.
  intros (Hc & Hn & Hi & Hu & Hd & Hp & Ht). split; split; unfold fits; rewrite ?Hu, ?Hd.
  - rewrite Hc, i16_small; lia.
  - done.
  - intros t th Hl. destruct (Ht _ _ Hl) as (Hpc & Hbl & Hst).
    split; rewrite ?Hpc; [done|auto|intros ? [?|?]; done|by left].
  - done.
  - lia.
  - lia.
  - intros t th Hl. destruct (Ht _ _ Hl) as (-> & _). done.
  - intros t th Hl. destruct (Ht _ _ Hl) as (-> & _). done.
Qed.

Lemma run_inv n h m : run n h m -> inv n m.
Proof. induction 1 as [m Hi|h m m' _ I Hs]; [by apply initial_inv|by eapply step_inv]. Qed.

(** ** While the value fits *)

(** Only the current thread is at [DownDec] or at a failed assertion. *)
Lemma masked_current n m t t' th' :
  inv n m -> current m = Some t -> threads m !! t' = Some th' -> masked (t_pc th') = true -> t' = t.
Proof. intros I Hcur Hl Hm. destruct (ok_masked _ _ _ (inv_threads _ _ I _ _ Hl) Hm). congruence. Qed.

(** A step of the current thread that keeps the value in range. *)
Lemma exact_thread n m m' t th' :
  inv n m -> exact n m -> current m = Some t -> threads m' = <[t := th']> (threads m) ->
  fits n m' -> 0 <= n + ups m' - downs m' ->
  (t_pc th' = DownDec -> 0 < n + ups m' - downs m') -> t_pc th' <> AssertFailed -> exact n m'.
Proof.
  intros I [F P D A] Hcur Hth Hfit Hpos Hdec Hass. split; [done|done|..].
  - intros t2 th2. rewrite Hth. intros [[<- <-]|[Hne Hl]]%lookup_insert_Some; [done|].
    intros E. contradict Hne. symmetry. eapply masked_current; [done..|by rewrite E].
  - intros t2 th2. rewrite Hth. intros [[<- <-]|[_ Hl]]%lookup_insert_Some; eauto.
Qed.

Lemma exec_exact n m t th m' :
  inv n m -> exact n m -> current m = Some t -> threads m !! t = Some th ->
  exec t th m = Some m' -> fits n m' -> exact n m'.
Proof.
  intros I X Hcur Hl E Hfit. pose proof (exact_count _ _ I X) as Hcnt.
  pose proof (inv_threads _ _ I _ _ Hl) as Hok. pose proof X as [F P D _]. specialize (D _ _ Hl).
  destruct th as [c st bl], Hok as [Hm Hc Hf _]. simpl in *.
  assert (int_on m = negb (masked c)) as Hi by (destruct (masked c); naive_solver).
  unfold exec in E. simpl in E.
  destruct c; simpl in Hi; simpl in E; rewrite ?Hi in E; try discriminate E; try specialize (D eq_refl);
    repeat match type of E with
    | context [if ?b then _ else _] => destruct b eqn:?
    end; injection E as <-;
    (eapply (exact_thread n m _ t); [exact I|exact X|done|reflexivity|exact Hfit|..]);
    simpl; try done; lia.
Qed.

Lemma step_exact n m m' : step m m' -> inv n m -> exact n m -> fits n m' -> exact n m'.
Proof.
  intros Hs I X Hfit. pose proof X as [F P D A].
  destruct Hs as [m t th Hcur Hl Hpc Hi|m t th Hcur Hl Hpc|m t th m' Hcur Hl E|m t th Hcur Hl Hpc Hi
                 |m t Hcur Hi|m t th th' Hcur Hl Hw|m Hi]; [| |by eapply exec_exact|..].
  1-3: by eapply (exact_thread n m _ t); [exact I|exact X|exact Hcur|reflexivity|exact Hfit|exact P|..].
  - by split.
  - apply wake_pc in Hw as Hpc. split; simpl; [done|done|..]; intros t2 th2;
      rewrite lookup_insert_Some; intros [[<- <-]|[_ Hl2]]; rewrite ?Hpc; eauto.
  - split; simpl; [done|lia|intros t th Hl E; specialize (D _ _ Hl E); lia|eauto].
Qed.

Lemma run_exact n h m : run n h m -> Forall (fits n) h -> exact n m.
Proof.
  induction 1 as [m Hi|h m m' R IH Hs]; intros Hh; [by apply initial_inv|].
  apply Forall_cons in Hh as [Hfit Hh]. eapply step_exact; eauto using run_inv.
Qed.

(** C11. In every interleaving of any number of threads and interrupt handlers
    that use a semaphore of initial count [n], the 16-bit count is the value
    [n] plus the completed [semaphore_up] calls less the completed
    [semaphore_down] calls, as a 16-bit integer; and if in the states passed so
    far this value has not gone past 32767, the largest [int] (there is no
    other condition: the calls made over the whole run are not bounded), then
    the count is exactly this value, no more [semaphore_down] calls have
    completed than [n] plus the [semaphore_up] calls, and none of the
    assertions of [semaphore_down] has failed. *)
Theorem semaphore_safe n h m :
  run n h m ->
  count m = i16 (n + ups m - downs m) /\
  (Forall (fits n) h ->
   count m = n + ups m - downs m /\ downs m <= n + ups m /\
   forall t th, threads m !! t = Some th -> t_pc th <> AssertFailed).
Proof.
  intros R. pose proof (run_inv _ _ _ R) as I. split; [apply I|].
  intros X%(run_exact _ _ _ R). split_and!; [by apply exact_count|destruct X; lia|apply X].
Qed.

Lemma wake_of_awake cnt th : awake th -> wake cnt th = Some th.
Proof. destruct th as [c st bl]. unfold awake; simpl. by intros [-> | ->]. Qed.

Lemma wake_of_asleep cnt th : asleep th -> t_blocked th = true -> 0 < cnt -> is_Some (wake cnt th).
Proof.
  destruct th as [c st bl]. unfold asleep; simpl. intros Hs -> Hpos.
  assert ((0 <? cnt) = true) as Hb by lia.
  destruct Hs as [-> | ->]; unfold wake; simpl; rewrite Hb; eauto.
Qed.

Lemma wake_ok n m t th :
  inv n m -> threads m !! t = Some th -> 0 < count m -> is_Some (wake (count m) th).
Proof.
  intros I Hl Hpos. destruct (ok_state _ _ _ (inv_threads _ _ I _ _ Hl)) as [[Ha _]|(Ha & Hb & _)].
  - rewrite wake_of_awake; eauto.
  - by apply wake_of_asleep.
Qed.

(** One statement of the current thread, as a step. *)
Lemma step_exec_at m t c st bl m' :
  current m = Some t -> threads m !! t = Some (Thread c st bl) ->
  exec t (Thread c st bl) m = Some m' -> step m m'.
Proof. eauto using step. Qed.

(** From [DownDisable] with a positive count the current thread takes the
    semaphore. *)
Lemma down_completes m t st bl :
  current m = Some t -> threads m !! t = Some (Thread DownDisable st bl) -> 0 < count m ->
  exists m', rtc step m m' /\ threads m' !! t = Some (Thread Out st bl) /\
    downs m' = downs m + 1 /\ int_on m' = true.
Proof.
  intros Hcur Hl Hpos. destruct m as [cnt io cur ths u d]; simpl in *. subst cur.
  assert ((cnt =? 0) = false) as E0 by lia.
  eexists. split; [|split].
  - eapply rtc_l. { eapply step_exec_at; [done|exact Hl|reflexivity]. }
    eapply rtc_l. { eapply step_exec_at; [done|apply lookup_insert_eq|reflexivity]. }
    simpl. rewrite E0.
    eapply rtc_l. { eapply step_exec_at; [done|apply lookup_insert_eq|reflexivity]. }
    eapply rtc_l. { eapply step_exec_at; [done|apply lookup_insert_eq|reflexivity]. }
    apply rtc_refl.
  - simpl. apply lookup_insert_eq.
  - done.
Qed.

(** C12. No wake-up is lost: whenever the core is idle and the count is
    positive, a thread that waits inside [semaphore_down] can be picked, whatever the
    interleaving before (of any length, and also if the count has wrapped),
    and if it runs its [semaphore_down] completes and leaves it runnable with
    interrupts enabled. *)
Theorem semaphore_wakeup n h m t th :
  run n h m -> current m = None -> 0 < count m -> threads m !! t = Some th ->
  t_pc th = DownYield \/ t_pc th = DownDisable ->
  exists m' th', rtc step m m' /\ threads m' !! t = Some th' /\
    t_pc th' = Out /\ awake th' /\ t_blocked th' = false /\
    downs m' = downs m + 1 /\ int_on m' = true.
Proof.
  intros I%run_inv Hcur Hpos Hl Hpc.
  destruct (wake_ok _ _ _ _ I Hl Hpos) as [th' Hw].
  destruct (wake_awake _ _ _ Hw) as (Hpc' & Haw & Hbl).
  { pose proof (ok_state _ _ _ (inv_threads _ _ I _ _ Hl)). tauto. }
  set (m1 := switch (Some t) (set_thread t th' m)).
  assert (step m m1) as S1 by by econstructor.
  assert (int_on m1 = true) as Hi by (by apply (inv_idle _ _ I)).
  destruct th' as [c st bl]; simpl in *; subst bl.
  assert (exists m2, rtc step m1 m2 /\ current m2 = Some t /\ count m2 = count m /\
            downs m2 = downs m /\ threads m2 !! t = Some (Thread DownDisable st false))
    as (m2 & R2 & C2 & N2 & D2 & T2).
  { destruct Hpc as [Hpc|Hpc]; rewrite Hpc in Hpc'; subst c.
    - eexists. split.
      + eapply rtc_l; [eapply step_yield; [done|apply lookup_insert_eq|done|done]|].
        eapply rtc_once, step_pick; [done|apply lookup_insert_eq|]. simpl. by apply wake_of_awake.
      + simpl. split_and!; [done..|]. apply lookup_insert_eq.
    - exists m1. split_and!; [done..|]. apply lookup_insert_eq. }
  destruct (down_completes m2 t st false) as (m3 & R3 & T3 & D3 & I3); [done..|lia|].
  exists m3, (Thread Out st false). split_and!; try done; [|lia].
  eapply rtc_l; [exact S1|]. by etrans.
Qed.

(** A run of the machine: thread 0 finds the count at zero and sleeps. *)
Definition demo0 : machine :=
  Machine 0 true (Some 0%nat) {[ 0%nat := Thread Out PROC_STATE_RUNNABLE false ]} 0 0.

Definition demo_asleep : machine :=
  Machine 1 true None {[ 0%nat := Thread DownDisable PROC_STATE_BLOCKED true ]} 1 0.

Lemma demo_initial : initial 0 demo0.
Proof.
  split_and!; try done.
  - intros t [= <-]. by eexists.
  - intros t th Hl. simpl in Hl. apply lookup_singleton_Some in Hl as [<- <-]. simpl. auto.
Qed.

Lemma run_exec n h m t th m' :
  run n h m -> current m = Some t -> threads m !! t = Some th -> exec t th m = Some m' -> run n (m' :: h) m'.
Proof. eauto using run_step, step_exec. Qed.

Lemma demo_run : exists h, run 0 h demo_asleep /\ Forall (fits 0) h.
Proof.
  pose proof (run_initial _ _ demo_initial) as R.
  assert (L0 : threads demo0 !! 0%nat = Some (Thread Out PROC_STATE_RUNNABLE false)) by apply lookup_insert_eq.
  pose proof (run_step _ _ _ _ R (step_call_down demo0 0%nat _ eq_refl L0 eq_refl eq_refl)) as R1.
  eapply run_exec in R1; [|reflexivity|apply lookup_insert_eq|reflexivity].
  eapply run_exec in R1; [|reflexivity|apply lookup_insert_eq|reflexivity].
  eapply run_exec in R1; [|reflexivity|apply lookup_insert_eq|reflexivity].
  eapply run_step in R1; [|eapply step_yield; [reflexivity|apply lookup_insert_eq|reflexivity|reflexivity]].
  eapply run_step in R1; [|apply step_irq_up; reflexivity].
  eexists. split.
  - assert (forall h m m', run 0 h m -> m = m' -> run 0 h m') as Eq by by intros ??? ? <-.
    eapply Eq; [exact R1|vm_compute; reflexivity].
  - repeat (constructor; [vm_compute; done|]). constructor.
Qed.

Lemma semaphore_safe_witness :
  exists h, run 0 h demo_asleep /\
    count demo_asleep = 1 /\ downs demo_asleep <= 0 + ups demo_asleep.
Proof.
  destruct demo_run as (h & R & F). exists h. split; [exact R|].
  destruct (semaphore_safe 0 h demo_asleep R) as [_ S]. destruct (S F) as (C & D & _).
  split; [exact C|exact D].
Defined.

Lemma semaphore_wakeup_witness :
  exists m' th', rtc step demo_asleep m' /\ threads m' !! 0%nat = Some th' /\
    t_pc th' = Out /\ awake th' /\ t_blocked th' = false /\
    downs m' = downs demo_asleep + 1 /\ int_on m' = true.
Proof.
  destruct demo_run as (h & R & _).
  apply (semaphore_wakeup 0 h demo_asleep 0%nat (Thread DownDisable PROC_STATE_BLOCKED true));
    [exact R|reflexivity|vm_compute; reflexivity|reflexivity|right; reflexivity].
Defined.
End Sem.

(** ** The sequential semaphore operations

    The effect of an operation that is not interleaved with another, for the
    components that use semaphores; [Block] is a [semaphore_down] that puts
    the caller to sleep. *)

Module SemOps.

Definition semaphore_init (sr count : Z) : Z * Z := Atomic.atomic_write_int sr count 0.

Definition semaphore_up (sr count : Z) : Z * Z := Atomic.atomic_add_int sr count 1.

Definition semaphore_binary_up (sr count : Z) : outcome (Z * Z) :=
  _ ← ASSERT (count <? 2);
  let '(_, count, sr) := Atomic.atomic_compare_and_swap_int sr count 0 1 in
  Ret (count, sr).

Definition semaphore_down (sr count : Z) : outcome (Z * Z) :=
  _ ← ASSERT (Atomic.int_get sr);
  let sr := Atomic.int_disable sr in
  let '(c, sr) := Atomic.atomic_read_int sr count in
  _ ← ASSERT (0 <=? c);
  if c =? 0 then Block
  else
    let '(count, sr) := Atomic.atomic_add_int sr count (-1) in
    Ret (count, Atomic.int_enable sr).

(** A binary semaphore is 0 or 1 and stays so. *)
Lemma semaphore_binary_up_spec sr count :
  is_u8 sr -> count = 0 \/ count = 1 -> semaphore_binary_up sr count = Ret (1, sr).
Proof.
  intros Hsr Hc. unfold semaphore_binary_up, Atomic.atomic_compare_and_swap_int.
  rewrite Atomic.restore_disable by done. by destruct Hc as [-> | ->].
Qed.

End SemOps.

(** ** Spinlocks *)

Module Spin.

(** The statement a thread is about to run; [Held] is between a
    [spinlock_lock] that returned and the [spinlock_unlock] that follows. *)
Inductive pc :=
| Out
| LTry               (** [while (!atomic_compare_and_swap_int(&sl->locked, 0, 1))] *)
| LYield             (** [YIELD();] *)
| LSetOwner          (** [sl->owner = current_proc->pid; return 0;] *)
| Held
| UOwner             (** [if (current_proc->pid != sl->owner] *)
| ULocked            (** [|| !sl->locked) return -1;] *)
| UClear             (** [sl->locked = 0; return 0;] *)
| UFailed.           (** [spinlock_unlock] returned -1 *)

Record machine := Machine { sr : Z; locked : Z; owner : Z; threads : gmap Z pc }.

(** The state after [spinlock_init]. *)
Definition spinlock_init (sr : Z) (threads : gmap Z pc) : machine :=
  Machine sr 0 (-1) threads.

(** One statement of the thread with pid [p]. *)
Definition exec (p : Z) (c : pc) (m : machine) : option machine :=
  let goto c := Machine (sr m) (locked m) (owner m) (<[p := c]> (threads m)) in
  match c with
  | LTry =>
      let '(ret, l, sr') := Atomic.atomic_compare_and_swap_int (sr m) (locked m) 0 1 in
      Some (Machine sr' l (owner m) (<[p := if ret =? 0 then LYield else LSetOwner]> (threads m)))
  | LYield => Some (goto LTry)
  | LSetOwner => Some (Machine (sr m) (locked m) p (<[p := Held]> (threads m)))
  | UOwner => Some (goto (if p =? owner m then ULocked else UFailed))
  | ULocked => Some (goto (if locked m =? 0 then UFailed else UClear))
  | UClear => Some (Machine (sr m) 0 (owner m) (<[p := Out]> (threads m)))
  | Out | Held | UFailed => None
  end.

(** Any thread may run next: a context switch can happen between any two
    statements.  A thread unlocks a lock it holds. *)
Inductive step : machine -> machine -> Prop :=
| step_call_lock m p :
    threads m !! p = Some Out ->
    step m (Machine (sr m) (locked m) (owner m) (<[p := LTry]> (threads m)))
| step_call_unlock m p :
    threads m !! p = Some Held ->
    step m (Machine (sr m) (locked m) (owner m) (<[p := UOwner]> (threads m)))
| step_exec m p c m' : threads m !! p = Some c -> exec p c m = Some m' -> step m m'.

(** The statements from a successful compare-and-swap to the store that
    releases the lock, and those where the owner field is set. *)
Definition inside (c : pc) : bool :=
  match c with LSetOwner | Held | UOwner | ULocked | UClear => true | _ => false end.

Definition owns (c : pc) : bool :=
  match c with Held | UOwner | ULocked | UClear => true | _ => false end.

(** [h] is the thread that is inside, if any; the lock word says whether there
    is one. *)
Definition lock_word (h : option Z) : Z := match h with Some _ => 1 | None => 0 end.

Record inv_at (h : option Z) (m : machine) : Prop := {
  at_sr : is_u8 (sr m);
  at_locked : locked m = lock_word h;
  at_inside p c : threads m !! p = Some c -> inside c = true <-> h = Some p;
  at_owner p c : threads m !! p = Some c -> owns c = true -> owner m = p;
  at_ok p c : threads m !! p = Some c -> c <> UFailed;
}.

(** Thread [p] moves to [c'], with the new lock word, owner and holder. *)
Lemma inv_at_step h h' m p c c' l' o' :
  inv_at h m -> threads m !! p = Some c ->
  l' = lock_word h' ->
  (inside c' = true <-> h' = Some p) ->
  (forall q, q <> p -> h' = Some q <-> h = Some q) ->
  (owns c' = true -> o' = p) ->
  (o' = owner m \/ h = Some p) ->
  c' <> UFailed ->
  inv_at h' (Machine (sr m) l' o' (<[p := c']> (threads m))).
Proof.
  intros [Hsr Hl Hi Ho Hk] Hp Hl' Hi' Hq Ho' Hoo Hk'. split; simpl; [done|done|..].
  all: intros q d; rewrite lookup_insert_Some; intros [[<- <-]|[Hne Hd]]; auto.
  - rewrite Hq by done. eauto.
  - intros Hown. destruct Hoo as [-> | ->]; [eauto|].
    assert (inside d = true) as E by (destruct d; done). apply (Hi _ _ Hd) in E. congruence.
  - eauto.
Qed.

Lemma step_inv_at h m m' : inv_at h m -> step m m' -> exists h', inv_at h' m'.
Proof.
  intros I Hs. pose proof I as [Hsr Hl Hi Ho Hk]. destruct Hs as [m p Hp|m p Hp|m p c m' Hp E].
  - exists h. eapply inv_at_step; eauto; try done. apply (Hi _ _ Hp).
  - exists h. eapply inv_at_step; eauto; try done. apply (Hi _ _ Hp).
  - pose proof (Hi _ _ Hp) as Hip. pose proof (Ho _ _ Hp) as Hop. pose proof (Hk _ _ Hp) as Hkp.
    destruct c; simpl in *; try discriminate E.
    + unfold Atomic.atomic_compare_and_swap_int in E. rewrite Atomic.restore_disable in E by done.
      rewrite Hl in E. destruct h as [q|]; simpl in E; injection E as <-.
      * exists (Some q). eapply inv_at_step; eauto; done.
      * exists (Some p). eapply (inv_at_step None); eauto; try done. intros; split; congruence.
    + injection E as <-. exists h. eapply inv_at_step; eauto; done.
    + injection E as <-. exists h. eapply inv_at_step; eauto; try done. right. by apply Hip.
    + injection E as <-. rewrite (proj2 (Z.eqb_eq p (owner m))) by (symmetry; auto).
      exists h. eapply inv_at_step; eauto; done.
    + injection E as <-. pose proof (proj1 Hip eq_refl); subst h. rewrite (proj2 (Z.eqb_neq (locked m) 0)) by (by rewrite Hl).
      exists (Some p). eapply inv_at_step; eauto; done.
    + injection E as <-. exists None. eapply inv_at_step; eauto; try done.
      pose proof (proj1 Hip eq_refl); subst h. intros; split; congruence.
Qed.

Lemma steps_inv_at m m' : rtc step m m' -> (exists h, inv_at h m) -> exists h, inv_at h m'.
Proof. induction 1; [done|]. intros [h I]. eauto using step_inv_at. Qed.

Lemma spinlock_init_inv r ths :
  is_u8 r -> (forall p c, ths !! p = Some c -> c = Out) -> inv_at None (spinlock_init r ths).
Proof.
  intros Hr Hout. split; simpl; [done|done|..]; intros p c Hc; apply Hout in Hc as ->; done.
Qed.

(** C13. After [spinlock_init], in every interleaving of threads that lock and
    unlock, at most one thread is between its [spinlock_lock] and the release
    in its [spinlock_unlock]; while there is one the lock word is set, so every other
    thread that tries the lock yields and retries; and [spinlock_unlock] by
    the holder never returns -1. *)
Theorem spinlock_mutual_exclusion r ths m p q cp cq :
  is_u8 r -> (forall p c, ths !! p = Some c -> c = Out) ->
  rtc step (spinlock_init r ths) m ->
  threads m !! p = Some cp -> threads m !! q = Some cq -> p <> q -> inside cp = true ->
  inside cq = false /\ locked m = 1 /\ cp <> UFailed /\ cq <> UFailed /\
  (cq = LTry -> exists m', exec q cq m = Some m' /\ threads m' !! q = Some LYield /\
     locked m' = 1 /\ owner m' = owner m).
Proof.
  intros Hr Hout Hs Hp Hq Hne Hin.
  destruct (steps_inv_at _ _ Hs) as [h I]; [eauto using spinlock_init_inv|].
  destruct I as [Hsr Hl Hi Ho Hk]. apply (Hi _ _ Hp) in Hin as ->. split_and!; eauto.
  - destruct (inside cq) eqn:E; [|done]. apply (Hi _ _ Hq) in E. congruence.
  - intros ->. simpl. unfold Atomic.atomic_compare_and_swap_int.
    rewrite Atomic.restore_disable, Hl by done. simpl. eexists. split; [done|].
    simpl. by rewrite lookup_insert_eq.
Qed.

Definition demo : machine := Machine 4 1 3 {[ 3 := Held; 5 := LTry ]}.

Lemma demo_steps : rtc step (spinlock_init 4 {[ 3 := Out; 5 := Out ]}) demo.
Proof.
  eapply rtc_l. { apply (step_call_lock _ 3). reflexivity. }
  eapply rtc_l. { apply (step_call_lock _ 5). reflexivity. }
  eapply rtc_l. { apply (step_exec _ 3 LTry); reflexivity. }
  eapply rtc_l. { apply (step_exec _ 3 LSetOwner); reflexivity. }
  vm_compute. apply rtc_refl.
Qed.

Lemma spinlock_mutual_exclusion_witness :
  inside LTry = false /\ locked demo = 1 /\ Held <> UFailed /\ LTry <> UFailed /\
  (LTry = LTry -> exists m', exec 5 LTry demo = Some m' /\ threads m' !! 5 = Some LYield /\
     locked m' = 1 /\ owner m' = owner demo).
Proof.
  apply (spinlock_mutual_exclusion 4 {[ 3 := Out; 5 := Out ]} demo 3 5 Held LTry);
    [lia| |exact demo_steps|reflexivity..|lia|reflexivity].
  intros p c [[_ E]|[_ E]]%lookup_insert_Some; [done|].
  by apply lookup_singleton_Some in E as [_ <-].
Defined.

(** *** The calls on their own *)

Record spinlock := Spinlock { sl_locked : Z; sl_owner : Z }.

(** [None] is a lock that is taken: the caller yields and retries. *)
Definition spinlock_lock (pid sr : Z) (sl : spinlock) : option (spinlock * Z) :=
  let '(ret, l, sr) := Atomic.atomic_compare_and_swap_int sr (sl_locked sl) 0 1 in
  if ret =? 0 then None else Some (Spinlock l pid, 0).

Definition spinlock_unlock (pid : Z) (sl : spinlock) : spinlock * Z :=
  if negb (pid =? sl_owner sl) || (sl_locked sl =? 0) then (sl, -1)
  else (Spinlock 0 (sl_owner sl), 0).

(** A thread that does not own the lock cannot release it; the owner's
    unlock makes the next lock succeed. *)
Lemma spinlock_lock_unlock pid pid' sr sl sl' :
  is_u8 sr -> spinlock_lock pid sr sl = Some (sl', 0) ->
  spinlock_lock pid' sr sl' = None /\
  (pid' <> pid -> spinlock_unlock pid' sl' = (sl', -1)) /\
  (exists sl'', spinlock_unlock pid sl' = (sl'', 0) /\
     spinlock_lock pid' sr sl'' = Some (Spinlock 1 pid', 0)).
Proof.
  intros Hsr. unfold spinlock_lock, Atomic.atomic_compare_and_swap_int.
  destruct (Z.eqb_spec (sl_locked sl) 0) as [E|E]; simpl; [|done]. intros [= <-].
  unfold spinlock_unlock. simpl. split_and!; [done| |].
  - intros Hne. by rewrite (proj2 (Z.eqb_neq _ _) Hne).
  - rewrite Z.eqb_refl. simpl. eauto.
Qed.

End Spin.
