(* ===== verification/CString.v ===== *)
(** * Strings and memory blocks
      (lib/libc/src/string.c, also linked into the kernel; kernel/libk/string.c)

    A [char] array is the list of its bytes, a pointer into it an index, and an
    access outside the array a [Fault].  Every loop of these functions runs at
    most once per byte of an array, so the fuel is the length of that array
    plus one; the theorems show that the result is reached. *)

From S2P Require Import Prelude.

(** Whether [char] is signed is the compiler's choice; [char_value] is the
    promotion of a byte to [int]. *)
Class CharSign := char_signed : bool.

Section CString.
Context {sign : CharSign}.

Definition char_value (b : Z) : Z :=
  if char_signed then (if b <? 128 then b else b - 256) else b.

(** ** The code *)

Fixpoint strcpy_loop (fuel : nat) (dest : list Z) (d : Z) (src : list Z) (s : Z) {struct fuel}
  : outcome (list Z) :=
  match fuel with
  | O => Hang
  | S fuel =>
    c ← arr_get src s;
    if c =? 0 then arr_set dest d c
    else dest ← arr_set dest d c; strcpy_loop fuel dest (d + 1) src (s + 1)
  end.

Definition strcpy (dest : list Z) (d : Z) (src : list Z) (s : Z) : outcome (list Z) :=
  strcpy_loop (S (length src)) dest d src s.

(** [count] bytes set to [ch], from [d] on: the loop [while (count--)]. *)
Fixpoint fill (count : nat) (dest : list Z) (d : Z) (ch : Z) {struct count} : outcome (list Z) :=
  match count with
  | O => Ret dest
  | S count => dest ← arr_set dest d ch; fill count dest (d + 1) ch
  end.

Fixpoint strncpy_loop (count : nat) (dest : list Z) (d : Z) (src : list Z) (s : Z) {struct count}
  : outcome (list Z) :=
  c ← arr_get src s;
  if c =? 0 then fill count dest d 0
  else
    match count with
    | O => Ret dest
    | S count' => dest ← arr_set dest d c; strncpy_loop count' dest (d + 1) src (s + 1)
    end.

Definition strncpy (dest : list Z) (d : Z) (src : list Z) (s : Z) (count : Z) : outcome (list Z) :=
  strncpy_loop (Z.to_nat count) dest d src s.

Fixpoint strlen_loop (fuel : nat) (str : list Z) (i len : Z) : outcome Z :=
  match fuel with
  | O => Hang
  | S fuel =>
    c ← arr_get str i;
    if c =? 0 then Ret len else strlen_loop fuel str (i + 1) (u16 (len + 1))
  end.

Definition strlen (str : list Z) (i : Z) : outcome Z := strlen_loop (S (length str)) str i 0.

Fixpoint strcmp_loop (fuel : nat) (lhs : list Z) (l : Z) (rhs : list Z) (r : Z) : outcome Z :=
  match fuel with
  | O => Hang
  | S fuel =>
    a ← arr_get lhs l;
    b ← arr_get rhs r;
    if a =? b then
      if (a =? 0) && (b =? 0) then Ret (char_value a - char_value b)
      else strcmp_loop fuel lhs (l + 1) rhs (r + 1)
    else Ret (char_value a - char_value b)
  end.

Definition strcmp (lhs : list Z) (l : Z) (rhs : list Z) (r : Z) : outcome Z :=
  strcmp_loop (S (length lhs)) lhs l rhs r.

Fixpoint strncmp_loop (fuel : nat) (lhs : list Z) (l : Z) (rhs : list Z) (r : Z) (index count : Z)
  : outcome Z :=
  match fuel with
  | O => Hang
  | S fuel =>
    a ← arr_get lhs l;
    b ← arr_get rhs r;
    if a =? b then
      if (a =? 0) && (b =? 0) then Ret (char_value a - char_value b)
      else
        let index := u16 (index + 1) in
        if count <=? index then Ret (char_value a - char_value b)
        else strncmp_loop fuel lhs (l + 1) rhs (r + 1) index count
    else Ret (char_value a - char_value b)
  end.

Definition strncmp (lhs : list Z) (l : Z) (rhs : list Z) (r : Z) (count : Z) : outcome Z :=
  if count =? 0 then Ret 0 else strncmp_loop (S (length lhs)) lhs l rhs r 0 count.

(** The index of the character, or [None] for the null pointer. *)
Fixpoint strchr_loop (fuel : nat) (str : list Z) (i ch : Z) : outcome (option Z) :=
  match fuel with
  | O => Hang
  | S fuel =>
    c ← arr_get str i;
    if c =? ch then Ret (Some i)
    else if c =? 0 then Ret None else strchr_loop fuel str (i + 1) ch
  end.

Definition strchr (str : list Z) (i ch : Z) : outcome (option Z) :=
  strchr_loop (S (length str)) str i (u8 ch).

Definition memset (dest : list Z) (d ch count : Z) : outcome (list Z) :=
  fill (Z.to_nat count) dest d (u8 ch).

Fixpoint memcpy_loop (count : nat) (dest : list Z) (d : Z) (src : list Z) (s : Z) {struct count}
  : outcome (list Z) :=
  match count with
  | O => Ret dest
  | S count =>
    c ← arr_get src s;
    dest ← arr_set dest d c;
    memcpy_loop count dest (d + 1) src (s + 1)
  end.

Definition memcpy (dest : list Z) (d : Z) (src : list Z) (s : Z) (count : Z) : outcome (list Z) :=
  memcpy_loop (Z.to_nat count) dest d src s.

Fixpoint strcnt_loop (fuel : nat) (str : list Z) (i pat cnt : Z) : outcome Z :=
  match fuel with
  | O => Hang
  | S fuel =>
    c ← arr_get str i;
    let cnt := if c =? pat then i16 (cnt + 1) else cnt in
    if c =? 0 then Ret cnt else strcnt_loop fuel str (i + 1) pat cnt
  end.

Definition strcnt (str : list Z) (i pat : Z) : outcome Z := strcnt_loop (S (length str)) str i pat 0.

(** ** C strings *)

(** [buf] holds at index [i] the string [str], which its null byte ends. *)
Definition cstr (buf : list Z) (i : Z) (str : list Z) : Prop :=
  exists pre post, buf = pre ++ str ++ 0 :: post /\ i = zlen pre /\ Forall (fun b => b <> 0) str.

Lemma cstr_nil buf i : cstr buf i [] -> arr_get buf i = Ret 0 /\ 0 <= i < zlen buf.
Proof.
  intros (pre & post & -> & -> & _). split; [apply arr_get_middle|].
  rewrite length_app. simpl. lia.
Qed.

Lemma cstr_cons buf i c str :
  cstr buf i (c :: str) ->
  arr_get buf i = Ret c /\ c <> 0 /\ cstr buf (i + 1) str /\ 0 <= i < zlen buf.
Proof.
  intros (pre & post & -> & -> & [Hc Hs]%Forall_cons). split_and!; try done.
  - apply arr_get_middle.
  - exists (pre ++ [c]), post. rewrite <-app_assoc, length_app. split_and!; [done|simpl; lia|done].
  - lia.
  - rewrite length_app. simpl. lia.
Qed.

Lemma cstr_length buf i str : cstr buf i str -> 0 <= i /\ i + zlen str < zlen buf.
Proof.
  intros (pre & post & -> & -> & _). rewrite !length_app. simpl. lia.
Qed.

(** Whether a list literal is a string is decidable by evaluation. *)
Lemma cstr_literal str post : Forall (fun b => b <> 0) str -> cstr (str ++ 0 :: post) 0 str.
Proof. exists [], post. done. Qed.

(** The null byte or the first byte of the string is read. *)
Ltac cstr_head H :=
  first [ let E := fresh "Hget" in destruct (cstr_nil _ _ H) as [E ?]; rewrite E
        | let E := fresh "Hget" in let N := fresh "Hnz" in let T := fresh "Htl" in
          destruct (cstr_cons _ _ _ _ H) as (E & N & T & ?); rewrite E ];
  simpl.

Lemma strcpy_loop_spec fuel dest d src s str :
  cstr src s str -> (length str < fuel)%nat -> 0 <= d ->
  strcpy_loop fuel dest d src s =
    if decide (d + zlen str < zlen dest) then Ret (splice dest d (str ++ [0])) else Fault.
Proof.
  revert fuel dest d s. induction str as [|c str IH]; intros [|fuel] dest d s Hs Hf Hd;
    simpl in Hf; try lia; simpl strcpy_loop; cstr_head Hs.
  - unfold arr_set. repeat case_decide; try lia; [|done].
    by rewrite <-splice_cons, splice_nil by lia.
  - rewrite eqb_ne by done. unfold arr_set. case_decide as Hin; simpl.
    + rewrite (IH fuel) by (done || lia). rewrite length_insert.
      rewrite splice_cons by lia. repeat case_decide; try lia; done.
    + rewrite decide_False by lia. done.
Qed.

Lemma strlen_loop_spec fuel str i s len :
  cstr str i s -> (length s < fuel)%nat -> is_u16 len ->
  strlen_loop fuel str i len = Ret (u16 (len + zlen s)).
Proof.
  revert fuel i len. induction s as [|c s IH]; intros [|fuel] i len Hs Hf Hl; simpl in Hf; try lia;
    simpl strlen_loop; cstr_head Hs.
  - by rewrite Z.add_0_r, u16_small.
  - rewrite eqb_ne by done. rewrite IH; [|done|lia|apply u16_range].
    f_equal. unfold u16. rewrite Z.add_mod_idemp_l by lia. f_equal. lia.
Qed.

Lemma char_value_inj a b : is_u8 a -> is_u8 b -> char_value a = char_value b -> a = b.
Proof.
  unfold char_value. intros. destruct char_signed; [|done].
  destruct (Z.ltb_spec a 128), (Z.ltb_spec b 128); lia.
Qed.

(** The reference order: the difference of the first bytes that differ, the
    null bytes included. *)
Fixpoint first_diff (ls rs : list Z) : Z :=
  match ls, rs with
  | [], [] => 0
  | [], b :: _ => char_value 0 - char_value b
  | a :: _, [] => char_value a - char_value 0
  | a :: ls, b :: rs => if a =? b then first_diff ls rs else char_value a - char_value b
  end.

Lemma strcmp_loop_spec fuel lhs l rhs r ls rs :
  cstr lhs l ls -> cstr rhs r rs -> (length ls < fuel)%nat ->
  strcmp_loop fuel lhs l rhs r = Ret (first_diff ls rs).
Proof.
  revert fuel l r rs. induction ls as [|a ls IH]; intros [|fuel] l r [|b rs] Hl Hr Hf;
    simpl in Hf; try lia; simpl strcmp_loop; cstr_head Hl; cstr_head Hr.
  - by rewrite Z.sub_diag.
  - by destruct b.
  - by rewrite eqb_ne.
  - destruct (Z.eqb_spec a b) as [<-|Hne]; [|done].
    rewrite eqb_ne by done. apply IH; [done..|lia].
Qed.

(** With [n] left to compare, at least one. *)
Lemma strncmp_loop_spec fuel lhs l rhs r ls rs index count n :
  cstr lhs l ls -> cstr rhs r rs -> (length ls < fuel)%nat ->
  0 <= index -> count < 65536 -> count = index + Z.of_nat n -> (0 < n)%nat ->
  strncmp_loop fuel lhs l rhs r index count = Ret (first_diff (take n ls) (take n rs)).
Proof.
  revert fuel l r rs index n. induction ls as [|a ls IH];
    intros [|fuel] l r [|b rs] index [|n] Hl Hr Hf Hi Hc Hn Hpos;
    simpl in Hf; try lia; simpl strncmp_loop; cstr_head Hl; cstr_head Hr.
  - by rewrite Z.sub_diag.
  - by destruct b.
  - by rewrite eqb_ne.
  - destruct (Z.eqb_spec a b) as [<-|Hne]; [|done].
    rewrite eqb_ne by done. simpl. rewrite u16_small by lia.
    destruct (Z.leb_spec count (index + 1)).
    + replace n with 0%nat by lia. simpl. by rewrite Z.sub_diag.
    + apply IH; try done; lia.
Qed.

Lemma first_diff_zero ls rs :
  Forall (fun b => b <> 0 /\ is_u8 b) ls -> Forall (fun b => b <> 0 /\ is_u8 b) rs ->
  first_diff ls rs = 0 <-> ls = rs.
Proof.
  assert (Hz : forall b, b <> 0 /\ is_u8 b -> char_value b <> char_value 0).
  { intros b [Hb Hr] E. apply Hb. apply char_value_inj in E; lia. }
  revert rs. induction ls as [|a ls IH]; intros [|b rs] Hl Hr; simpl; try (split; done);
    try (inversion Hr as [|? ? Hb Hr']; subst); try (inversion Hl as [|? ? Ha Hl']; subst).
  - pose proof (Hz b Hb). split; [lia|done].
  - pose proof (Hz a Ha). split; [lia|done].
  - destruct (Z.eqb_spec a b) as [<-|Hne].
    + rewrite IH by done. split; congruence.
    + split; [|congruence]. intros E. exfalso. apply Hne, char_value_inj; tauto || lia.
Qed.

Lemma fill_spec count dest d ch :
  0 <= d -> fill count dest d ch =
    if decide (d + Z.of_nat count <= zlen dest \/ count = 0%nat)
    then Ret (splice dest d (replicate count ch)) else Fault.
Proof.
  revert dest d. induction count as [|count IH]; intros dest d Hd; simpl.
  - rewrite decide_True by lia. by rewrite splice_nil.
  - unfold arr_set. destruct (decide (0 <= d < zlen dest)) as [Hin|Hin]; simpl.
    + rewrite IH by lia. rewrite length_insert, splice_cons by lia.
      repeat case_decide; try lia; done.
    + rewrite decide_False by lia. done.
Qed.

Lemma memcpy_loop_spec count dest d src s pre xs post :
  src = pre ++ xs ++ post -> s = zlen pre -> length xs = count ->
  0 <= d -> d + Z.of_nat count <= zlen dest ->
  memcpy_loop count dest d src s = Ret (splice dest d xs).
Proof.
  revert dest d s pre xs. induction count as [|count IH]; intros dest d s pre xs -> -> Hc Hd Hb; simpl.
  - destruct xs; [|done]. by rewrite splice_nil.
  - destruct xs as [|x xs]; [done|]. simpl in Hc. simpl app. rewrite arr_get_middle. simpl.
    rewrite arr_set_in by lia. simpl. rewrite (IH _ _ _ (pre ++ [x]) xs).
    + by rewrite splice_cons by lia.
    + by rewrite <-app_assoc.
    + rewrite length_app. simpl. lia.
    + lia.
    + lia.
    + rewrite length_insert. lia.
Qed.

Lemma strncpy_loop_spec count dest d src s str :
  cstr src s str -> 0 <= d -> d + Z.of_nat count <= zlen dest ->
  strncpy_loop count dest d src s =
    Ret (splice dest d (take count str ++ replicate (count - length str) 0)).
Proof.
  revert dest d s str. induction count as [|count IH]; intros dest d s [|c str] Hs Hd Hb;
    simpl strncpy_loop; cstr_head Hs.
  - by rewrite splice_nil.
  - rewrite eqb_ne by done. by rewrite splice_nil.
  - rewrite arr_set_in by lia. simpl. rewrite fill_spec by lia. rewrite length_insert.
    rewrite decide_True by lia. by rewrite splice_cons by lia.
  - rewrite eqb_ne by done. rewrite arr_set_in by lia. simpl.
    rewrite (IH _ _ _ str); [|done|lia|rewrite length_insert; lia].
    by rewrite splice_cons by lia.
Qed.

Lemma strchr_loop_spec fuel str i ch s :
  cstr str i s -> (length s < fuel)%nat ->
  strchr_loop fuel str i ch =
    Ret (match list_find (fun c => c = ch) (s ++ [0]) with
         | Some (k, _) => Some (i + Z.of_nat k) | None => None end).
Proof.
  revert fuel i. induction s as [|c s IH]; intros [|fuel] i Hs Hf; simpl in Hf; try lia;
    simpl strchr_loop; cstr_head Hs.
  - destruct ch; case_decide; try done. simpl. by rewrite Z.add_0_r.
  - destruct (Z.eqb_spec c ch); case_decide; simpl; try done.
    + by rewrite Z.add_0_r.
    + rewrite eqb_ne, IH by (done || lia).
      destruct (list_find _ (s ++ [0])) as [[k x]|]; simpl; [|done]. do 2 f_equal. lia.
Qed.

Lemma strcnt_loop_spec fuel str i pat s cnt :
  cstr str i s -> (length s < fuel)%nat -> 0 <= cnt -> cnt + zlen s < 32767 ->
  strcnt_loop fuel str i pat cnt = Ret (cnt + Z.of_nat (count_occ Z.eq_dec (s ++ [0]) pat)).
Proof.
  revert fuel i cnt. induction s as [|c s IH]; intros [|fuel] i cnt Hs Hf Hc Hb; simpl in Hf, Hb; try lia;
    simpl strcnt_loop; cstr_head Hs.
  - destruct pat; simpl; rewrite ?i16_small by lia; f_equal; lia.
  - rewrite (eqb_ne c 0) by done.
    destruct (Z.eqb_spec c pat), (Z.eq_dec c pat); try done; [rewrite i16_small by lia|];
      rewrite IH by (done || lia); f_equal; lia.
Qed.

(** A string that was written can be read back. *)
Lemma cstr_splice dest d str :
  0 <= d -> d + zlen str < zlen dest -> Forall (fun b => b <> 0) str ->
  cstr (splice dest d (str ++ [0])) d str.
Proof.
  intros Hd Hb Hs. eexists _, _. split_and!; [|symmetry|exact Hs].
  - unfold splice. rewrite <-app_assoc. done.
  - rewrite length_take. lia.
Qed.

Lemma first_diff_refl s : first_diff s s = 0.
Proof. induction s as [|c s IH]; simpl; [done|]. by rewrite Z.eqb_refl. Qed.

(** ** Properties *)

(** [strcpy] writes the string and its null byte at the destination and
    changes no other byte; what it wrote reads back with the length of the
    source ([strlen], modulo 2^16) and compares equal to it ([strcmp]).  When
    the destination array is too small the code writes outside of it. *)
Theorem strcpy_spec dest d src s str :
  cstr src s str -> 0 <= d ->
  if decide (d + zlen str < zlen dest) then
    exists dest', strcpy dest d src s = Ret dest' /\
      dest' = splice dest d (str ++ [0]) /\ length dest' = length dest /\
      strlen dest' d = Ret (u16 (zlen str)) /\ strcmp dest' d src s = Ret 0
  else strcpy dest d src s = Fault.
Proof.
  intros Hs Hd. pose proof (cstr_length _ _ _ Hs) as [Hs0 Hlen]. unfold strcpy.
  rewrite (strcpy_loop_spec _ _ _ _ _ str) by (done || lia).
  case_decide as Hfit; [|done]. eexists. split; [done|]. split; [done|].
  assert (Hlen' : length (splice dest d (str ++ [0])) = length dest).
  { apply length_splice; [lia|]. rewrite length_app. simpl. lia. }
  assert (Hc : cstr (splice dest d (str ++ [0])) d str).
  { apply cstr_splice; [done..|]. by destruct Hs as (? & ? & _ & _ & ?). }
  split; [done|]. split.
  - unfold strlen. rewrite (strlen_loop_spec _ _ _ str) by (done || lia). done.
  - unfold strcmp. rewrite (strcmp_loop_spec _ _ _ _ _ str str) by (done || lia).
    by rewrite first_diff_refl.
Qed.

(** [strcmp] returns the difference of the first characters that differ,
    as the compiler's [char] orders them, and zero exactly for equal strings;
    [strncmp] does the same on the first [count] characters, and is zero
    exactly when these are equal. *)
Theorem strcmp_spec lhs l rhs r ls rs count :
  cstr lhs l ls -> cstr rhs r rs ->
  Forall (fun b => b <> 0 /\ is_u8 b) ls -> Forall (fun b => b <> 0 /\ is_u8 b) rs ->
  is_u16 count ->
  exists z zn, strcmp lhs l rhs r = Ret z /\ z = first_diff ls rs /\ (z = 0 <-> ls = rs) /\
    strncmp lhs l rhs r count = Ret zn /\
    zn = first_diff (take (Z.to_nat count) ls) (take (Z.to_nat count) rs) /\
    (zn = 0 <-> take (Z.to_nat count) ls = take (Z.to_nat count) rs).
Proof.
  intros Hl Hr Fl Fr Hc. pose proof (cstr_length _ _ _ Hl) as [Hl0 Hlen].
  exists (first_diff ls rs), (first_diff (take (Z.to_nat count) ls) (take (Z.to_nat count) rs)).
  split_and!; try done.
  - unfold strcmp. rewrite (strcmp_loop_spec _ _ _ _ _ ls rs) by (done || lia). done.
  - by apply first_diff_zero.
  - unfold strncmp. destruct (Z.eqb_spec count 0) as [->|]; [by destruct ls, rs|].
    apply strncmp_loop_spec; try done; lia.
  - apply first_diff_zero; by apply Forall_take.
Qed.

(** [strncpy] writes exactly [count] bytes: the string up to that length,
    then null bytes. *)
Theorem strncpy_spec dest d src s str count :
  cstr src s str -> 0 <= d -> 0 <= count -> d + count <= zlen dest ->
  exists dest' xs, strncpy dest d src s count = Ret dest' /\ dest' = splice dest d xs /\
    zlen xs = count /\ xs = take (Z.to_nat count) str ++ replicate (Z.to_nat count - length str) 0.
Proof.
  intros Hs Hd Hc Hb. eexists _, _. split_and!; [|reflexivity| |reflexivity].
  - apply strncpy_loop_spec; [done..|lia].
  - rewrite length_app, length_take, length_replicate. lia.
Qed.

(** [strchr] returns the first occurrence of the character, the null byte
    included, and the null pointer when there is none; [strcnt] counts the
    occurrences, again with the null byte. *)
Theorem strchr_strcnt_spec str i s ch pat :
  cstr str i s -> zlen s < 32767 ->
  strchr str i ch = Ret (match list_find (fun c => c = u8 ch) (s ++ [0]) with
                         | Some (k, _) => Some (i + Z.of_nat k) | None => None end) /\
  strcnt str i pat = Ret (Z.of_nat (count_occ Z.eq_dec (s ++ [0]) pat)).
Proof.
  intros Hs Hl. pose proof (cstr_length _ _ _ Hs) as [Hs0 Hlen]. split.
  - unfold strchr. apply strchr_loop_spec; [done|lia].
  - unfold strcnt. rewrite (strcnt_loop_spec _ _ _ _ s) by (done || lia). done.
Qed.

(** [memcpy] of a block that fits in both arrays. *)
Lemma memcpy_spec dest d pre xs post :
  0 <= d -> d + zlen xs <= zlen dest ->
  memcpy dest d (pre ++ xs ++ post) (zlen pre) (zlen xs) = Ret (splice dest d xs).
Proof.
  intros. unfold memcpy. rewrite Nat2Z.id. by eapply memcpy_loop_spec.
Qed.

Lemma memcpy_at dest d src s n pre xs post :
  src = pre ++ xs ++ post -> s = zlen pre -> n = zlen xs -> 0 <= d -> d + n <= zlen dest ->
  memcpy dest d src s n = Ret (splice dest d xs).
Proof. intros -> -> -> ? ?. by apply memcpy_spec. Qed.

Lemma memset_spec dest d ch count :
  0 <= d -> 0 <= count -> d + count <= zlen dest ->
  memset dest d ch count = Ret (splice dest d (replicate (Z.to_nat count) (u8 ch))).
Proof. intros. unfold memset. rewrite fill_spec, decide_True by lia. done. Qed.

End CString.

(** "ab" into an array of four bytes, with unsigned characters. *)
Lemma strcpy_spec_witness :
  exists dest', strcpy [9; 9; 9; 9] 1 [97; 98; 0] 0 = Ret dest' /\
    dest' = splice [9; 9; 9; 9] 1 ([97; 98] ++ [0]) /\ length dest' = 4%nat /\
    strlen dest' 1 = Ret (u16 2) /\ strcmp (sign := false) dest' 1 [97; 98; 0] 0 = Ret 0.
Proof.
  pose proof (strcpy_spec (sign := false) [9; 9; 9; 9] 1 [97; 98; 0] 0 [97; 98]) as H.
  rewrite decide_True in H by (simpl; lia). apply H.
  - apply (cstr_literal [97; 98] []). repeat constructor; lia.
  - lia.
Defined.

Lemma strcmp_spec_witness :
  exists z zn, strcmp (sign := true) [200; 0] 0 [200; 1; 0] 0 = Ret z /\
    z = first_diff (sign := true) [200] [200; 1] /\ (z = 0 <-> [200] = [200; 1]) /\
    strncmp (sign := true) [200; 0] 0 [200; 1; 0] 0 1 = Ret zn /\
    zn = first_diff (sign := true) [200] [200] /\ (zn = 0 <-> [200] = [200]).
Proof.
  apply (strcmp_spec (sign := true) [200; 0] 0 [200; 1; 0] 0 [200] [200; 1] 1).
  - apply (cstr_literal [200] []). repeat constructor; lia.
  - apply (cstr_literal [200; 1] []). repeat constructor; lia.
  - repeat constructor; lia.
  - repeat constructor; lia.
  - lia.
Defined.

Lemma strncpy_spec_witness :
  exists dest' xs, strncpy [9; 9; 9; 9] 0 [97; 0] 0 3 = Ret dest' /\
    dest' = splice [9; 9; 9; 9] 0 xs /\ zlen xs = 3 /\ xs = [97] ++ replicate 2 0.
Proof.
  apply (strncpy_spec [9; 9; 9; 9] 0 [97; 0] 0 [97] 3).
  - apply (cstr_literal [97] []). repeat constructor; lia.
  - lia.
  - lia.
  - simpl. lia.
Defined.

Lemma strchr_strcnt_spec_witness :
  strchr [47; 97; 47; 0] 0 97 = Ret (Some 1) /\ strcnt [47; 97; 47; 0] 0 47 = Ret 2.
Proof.
  apply (strchr_strcnt_spec [47; 97; 47; 0] 0 [47; 97; 47] 97 47).
  - apply (cstr_literal [47; 97; 47] []). repeat constructor; lia.
  - simpl. lia.
Defined.
