(* ===== verification/Kernel.v ===== *)
(** * The state the kernel components share

    The process table, semaphores and queued signals by address, the lists and
    the heap behind the [ListStore] interface, and the global variables of
    kernel/proc/sched.c and kernel/irq/timer.c.  Also [signal_send]
    (kernel/proc/signal.c), the one operation that every other component uses
    to notify a process. *)

From S2P Require Import Prelude Interfaces Proc Sync.

(** Addresses of global objects; globals are outside the heap. *)
Definition PROC_LIST : Z := -1.
Definition IDLE_STRUCT : Z := -2.

(** [struct signal] *)
Record signal := Signal { sig_type : Z; sig_number : Z }.

#[export] Instance signal_eq_dec : EqDecision signal.
Proof. solve_decision. Defined.

Definition sizeof_signal : Z := 4.
Definition SIG_TYPE_CONTROL : Z := 1.
Definition SIG_TYPE_ALARM : Z := 2.
Definition SIG_TYPE_USER : Z := 16.
Definition SIG_CONTROL_CHLD : Z := 1.

Section Kernel.
Context {St : Type} `{ListStore St}.

Record kernel := Kernel {
  k_store : St;
  k_procs : gmap Z proc;
  k_semas : gmap Z Z;
  k_signals : gmap Z signal;
  current_proc : Z;
  last_element : Z;
  pid_now : Z;
  first_free_page : Z;
  scheduling_enabled : bool;
  int_no_proc_modify : bool;
  sys_ticks : Z;
  first_free_prog_page : Z;
}.

Definition set_store (x : St) (k : kernel) : kernel :=
  Kernel x (k_procs k) (k_semas k) (k_signals k) (current_proc k) (last_element k) (pid_now k)
    (first_free_page k) (scheduling_enabled k) (int_no_proc_modify k) (sys_ticks k) (first_free_prog_page k).

Definition set_procs (x : gmap Z proc) (k : kernel) : kernel :=
  Kernel (k_store k) x (k_semas k) (k_signals k) (current_proc k) (last_element k) (pid_now k)
    (first_free_page k) (scheduling_enabled k) (int_no_proc_modify k) (sys_ticks k) (first_free_prog_page k).

Definition set_semas (x : gmap Z Z) (k : kernel) : kernel :=
  Kernel (k_store k) (k_procs k) x (k_signals k) (current_proc k) (last_element k) (pid_now k)
    (first_free_page k) (scheduling_enabled k) (int_no_proc_modify k) (sys_ticks k) (first_free_prog_page k).

Definition set_signals (x : gmap Z signal) (k : kernel) : kernel :=
  Kernel (k_store k) (k_procs k) (k_semas k) x (current_proc k) (last_element k) (pid_now k)
    (first_free_page k) (scheduling_enabled k) (int_no_proc_modify k) (sys_ticks k) (first_free_prog_page k).

Definition set_current_proc (x : Z) (k : kernel) : kernel :=
  Kernel (k_store k) (k_procs k) (k_semas k) (k_signals k) x (last_element k) (pid_now k)
    (first_free_page k) (scheduling_enabled k) (int_no_proc_modify k) (sys_ticks k) (first_free_prog_page k).

Definition set_last_element (x : Z) (k : kernel) : kernel :=
  Kernel (k_store k) (k_procs k) (k_semas k) (k_signals k) (current_proc k) x (pid_now k)
    (first_free_page k) (scheduling_enabled k) (int_no_proc_modify k) (sys_ticks k) (first_free_prog_page k).

Definition set_pid_now (x : Z) (k : kernel) : kernel :=
  Kernel (k_store k) (k_procs k) (k_semas k) (k_signals k) (current_proc k) (last_element k) x
    (first_free_page k) (scheduling_enabled k) (int_no_proc_modify k) (sys_ticks k) (first_free_prog_page k).

Definition set_first_free_page (x : Z) (k : kernel) : kernel :=
  Kernel (k_store k) (k_procs k) (k_semas k) (k_signals k) (current_proc k) (last_element k)
    (pid_now k) x (scheduling_enabled k) (int_no_proc_modify k) (sys_ticks k) (first_free_prog_page k).

Definition set_int_no_proc_modify (x : bool) (k : kernel) : kernel :=
  Kernel (k_store k) (k_procs k) (k_semas k) (k_signals k) (current_proc k) (last_element k)
    (pid_now k) (first_free_page k) (scheduling_enabled k) x (sys_ticks k) (first_free_prog_page k).

Definition set_sys_ticks (x : Z) (k : kernel) : kernel :=
  Kernel (k_store k) (k_procs k) (k_semas k) (k_signals k) (current_proc k) (last_element k)
    (pid_now k) (first_free_page k) (scheduling_enabled k) (int_no_proc_modify k) x (first_free_prog_page k).

Definition set_first_free_prog_page (x : Z) (k : kernel) : kernel :=
  Kernel (k_store k) (k_procs k) (k_semas k) (k_signals k) (current_proc k) (last_element k)
    (pid_now k) (first_free_page k) (scheduling_enabled k) (int_no_proc_modify k) (sys_ticks k) x.

(** An update of the descriptor at address [p]. *)
Definition upd_proc (p : Z) (f : proc -> proc) (k : kernel) : outcome kernel :=
  x ← deref (k_procs k) p; Ret (set_procs (<[p := f x]> (k_procs k)) k).

(** [semaphore_init] and [semaphore_up] on the semaphore at address [s]. *)
Definition sema_init (s : Z) (k : kernel) : kernel := set_semas (<[s := 0]> (k_semas k)) k.

Definition sema_up (s : Z) (k : kernel) : outcome kernel :=
  c ← deref (k_semas k) s;
  Ret (set_semas (<[s := fst (SemOps.semaphore_up 4 c)]> (k_semas k)) k).

(** ** signal_send *)

Definition signal_send (proc : Z) (sg : signal) (k : kernel) : outcome kernel :=
  '(gsignal, st) ← ls_alloc (k_store k) sizeof_signal;
  let k := set_signals (<[gsignal := sg]> (k_signals k)) (set_store st k) in
  st ← ls_append (k_store k) (signal_queue_of proc) gsignal;
  sema_up (signal_sema_of proc) (set_store st k).

(** ** Well-formed states

    [m] are the lists, [own] the heap objects, [xs] the process list.  Every
    process of the list has its descriptor, its signal queue and its signal
    semaphore, and is blocked on nothing or on a semaphore. *)

Record proc_ok (k : kernel) (m : gmap Z (list (Z * Z))) (own : gset Z) (v : Z) : Prop := {
  pok_range : 0 < v < 65536;
  pok_own : v ∈ own;
  pok_proc : exists p, k_procs k !! v = Some p /\
    (p_sema_blocked p = 0 \/ is_Some (k_semas k !! p_sema_blocked p));
  pok_queue : is_Some (m !! signal_queue_of v);
  pok_sema : is_Some (k_semas k !! signal_sema_of v);
}.

Record kernel_ok (k : kernel) (m : gmap Z (list (Z * Z))) (own : gset Z) (xs : list (Z * Z)) : Prop := {
  kok_rep : ls_rep (k_store k) m own;
  kok_list : m !! PROC_LIST = Some xs;
  kok_vals : NoDup xs.*2;
  kok_procs v : v ∈ xs.*2 -> proc_ok k m own v;
  kok_last : last_element k = 0 \/ last_element k ∈ xs.*1;
}.

Lemma signal_queue_not_global v : 0 < v < 65536 -> signal_queue_of v <> PROC_LIST.
Proof. unfold signal_queue_of, member, PROC_LIST. lia. Qed.

(** A process stays well formed when other state grows around it. *)
Lemma proc_ok_mono k m own k' m' own' v :
  proc_ok k m own v -> own ⊆ own' ->
  (forall l, is_Some (m !! l) -> is_Some (m' !! l)) ->
  (forall s, is_Some (k_semas k !! s) -> is_Some (k_semas k' !! s)) ->
  (forall p, k_procs k !! v = Some p -> exists p', k_procs k' !! v = Some p' /\
     (p_sema_blocked p' = 0 \/ p_sema_blocked p' = p_sema_blocked p)) ->
  proc_ok k' m' own' v.
Proof.
  intros [Hr Ho (p & Hp & Hb) Hq Hs] Hown Hm Hsem Hproc. split; auto.
  destruct (Hproc p Hp) as (p' & Hp' & Hb'). exists p'. split; [done|].
  destruct Hb' as [->| ->]; [by left|]. destruct Hb; auto.
Qed.

Lemma is_Some_insert {A} (m : gmap Z A) i x j : is_Some (m !! j) -> is_Some (<[i := x]> m !! j).
Proof. intros [y Hy]. destruct (decide (i = j)) as [->|]; [rewrite lookup_insert_eq|rewrite lookup_insert_ne]; eauto. Qed.

Lemma sizeof_signal_u16 : is_u16 sizeof_signal.
Proof. unfold sizeof_signal. lia. Qed.

(** [signal_send] to a process of the list puts a copy of the signal at the end
    of its queue and ups its semaphore; it fails only when the heap is full. *)
Lemma signal_send_ok k m own xs v q sg :
  kernel_ok k m own xs -> v ∈ xs.*2 -> m !! signal_queue_of v = Some q ->
  match signal_send v sg k with
  | Ret k' => exists g n c, (g ∉ own) /\ 0 < g < 65536 /\ n <> 0 /\
      k_semas k !! signal_sema_of v = Some c /\
      kernel_ok k' (<[signal_queue_of v := q ++ [(n, g)]]> m) ({[g]} ∪ own) xs /\
      k' = set_semas (<[signal_sema_of v := i16 (c + 1)]> (k_semas k))
             (set_signals (<[g := sg]> (k_signals k)) (set_store (k_store k') k))
  | Panic msg => msg = HEAP_FULL
  | _ => False
  end.
Proof.
  intros K Hv Hq. destruct (kok_procs _ _ _ _ K _ Hv) as [Hr Ho _ _ [c Hc]].
  unfold signal_send. pose proof (ls_alloc_safe _ _ _ _ (kok_rep _ _ _ _ K) sizeof_signal_u16) as Hsafe.
  destruct (ls_alloc (k_store k) sizeof_signal) as [[g st]| | | |] eqn:Ea; try done. simpl.
  destruct (ls_alloc_ok _ _ _ _ _ _ (kok_rep _ _ _ _ K) sizeof_signal_u16 Ea) as (Hg & Hgo & R1).
  pose proof (ls_append_safe _ _ _ (signal_queue_of v) g R1 (mk_is_Some _ _ Hq)) as Hs2.
  destruct (ls_append st (signal_queue_of v) g) as [st2| | | |] eqn:Eap; try done. simpl.
  destruct (ls_append_ok _ _ _ _ _ _ _ R1 Hq Eap) as (n & Hn & R2).
  unfold sema_up. simpl. rewrite (deref_Some _ _ _ Hc). simpl.
  exists g, n, c. split_and!; try done; [lia..|].
  split; simpl.
  - done.
  - rewrite lookup_insert_ne by (by apply signal_queue_not_global). apply K.
  - apply K.
  - intros w Hw. eapply proc_ok_mono; [by apply K|set_solver|..]; simpl;
      eauto using is_Some_insert.
  - apply K.
Qed.

(** Who runs, what time it is and whether an interrupt is being served stay the
    same. *)
Definition same_run (k k' : kernel) : Prop :=
  current_proc k' = current_proc k /\ scheduling_enabled k' = scheduling_enabled k /\
  last_element k' = last_element k /\ sys_ticks k' = sys_ticks k /\ int_no_proc_modify k' = int_no_proc_modify k.
End Kernel.
Arguments kernel St : clear implicits.
