(* ===== verification/Sched.v ===== *)
(** * The scheduler (kernel/proc/sched.c)

    [sched_pick_next] as the loop it is, over the pointers of the process
    list; the creation of kernel threads and of user processes; the search of
    a process by its pid.  The functions are written against the [ListStore]
    interface.  Memory that [kmalloc] returns is not initialised: the
    descriptor a new process starts from is the argument [junk]. *)

From S2P Require Import Prelude Interfaces Kmalloc KList Proc Sync CString Kernel.

Section Sched.
Context {St : Type} `{ListStore St}.
Implicit Types k : kernel St.

(** ** sched_pick_next *)

(** The element after [last_element], from the beginning again at the end. *)
Definition advance (st : St) (last_element : Z) : outcome Z :=
  if last_element =? 0 then ls_first st PROC_LIST
  else
    nx ← ls_next st last_element;
    if nx =? 0 then ls_first st PROC_LIST else Ret nx.

(** [lproc->alarm_ticks && (unsigned)lproc->alarm_ticks <= (unsigned)sys_ticks] *)
Definition alarm_due (k : kernel St) (p : proc) : bool :=
  negb (p_alarm_ticks p =? 0) && (u16 (p_alarm_ticks p) <=? u16 (sys_ticks k)).

Definition run_alarm (lproc : Z) (p : proc) (k : kernel St) : outcome (kernel St) :=
  if alarm_due k p then
    k ← signal_send lproc (Signal SIG_TYPE_ALARM (u16 (p_alarm_ticks p))) k;
    upd_proc lproc (set_p_alarm_ticks 0) k
  else Ret k.

(** Whether the process can run, with the state in which it is woken up:
    [Some k'] where the code breaks out of the loop. *)
Definition try_run (lproc : Z) (k : kernel St) : outcome (option (kernel St)) :=
  p ← deref (k_procs k) lproc;
  if (p_state p =? PROC_STATE_RUNNABLE) || (p_state p =? PROC_STATE_SYSCALL) then Ret (Some k)
  else if (p_state p =? PROC_STATE_BLOCKED) || (p_state p =? PROC_STATE_SYSCALL_BLOCKED) then
    if p_sema_blocked p =? 0 then Ret None
    else
      c ← deref (k_semas k) (p_sema_blocked p);
      if 0 <? c then
        k ← upd_proc lproc (fun p =>
              set_p_sema_blocked 0
                (set_p_state (if p_state p =? PROC_STATE_BLOCKED
                              then PROC_STATE_RUNNABLE else PROC_STATE_SYSCALL) p)) k;
        Ret (Some k)
      else Ret None
  else Ret None.

Fixpoint pick_loop (fuel : nat) (first_element : Z) (k : kernel St) : outcome (kernel St) :=
  match fuel with
  | O => Hang
  | S fuel =>
    le ← advance (k_store k) (last_element k);
    let k := set_last_element le k in
    lproc ← ls_val (k_store k) le;
    p ← deref (k_procs k) lproc;
    if p_state p =? PROC_STATE_DEAD then pick_loop fuel first_element k
    else
      k ← run_alarm lproc p k;
      r ← try_run lproc k;
      match r with
      | Some k => Ret (set_current_proc lproc k)
      | None =>
          if le =? first_element then Ret (set_current_proc IDLE_STRUCT k)
          else pick_loop fuel first_element k
      end
  end.

Definition sched_pick_next (fuel : nat) (k : kernel St) : outcome (kernel St) :=
  f ← ls_first (k_store k) PROC_LIST;
  _ ← ASSERT (negb (f =? 0));
  pick_loop fuel (last_element k) k.

(** ** Creation and search of processes *)

Definition ILLEGAL_PAGE : Z := 0.

(** The string "idle". *)
Definition idle_name : list Z := [105; 100; 108; 101; 0].

(** [junk] is the descriptor [idle_struct] before the call. *)
Definition scheduler_init (junk : proc) (idle_task : Z) (k : kernel St) : outcome (kernel St) :=
  let st := ls_init (k_store k) PROC_LIST in
  name ← strcpy (p_name junk) 0 idle_name 0;
  let idle := Proc 0 PROC_STATE_RUNNABLE PROC_TYPE_INIT
    (ProcState (regs (p_proc_state junk)) (u16 (idle_task + 1)) (arith_flags (p_proc_state junk))
       (replicate 16 ILLEGAL_PAGE) (seqZ 0 16))
    (p_syscall_state junk) name (p_kernel_stack_page junk) (p_open_files junk) (p_parent junk)
    (p_sema_blocked junk) (p_signals_hold junk) (p_sighandler junk) (p_load_brk junk)
    (p_alarm_ticks junk) in
  Ret (Kernel st (<[IDLE_STRUCT := idle]> (k_procs k)) (k_semas k) (k_signals k) (current_proc k)
         (last_element k) 0 (first_free_page k) false (int_no_proc_modify k) (sys_ticks k) (first_free_prog_page k)).

(** [kmalloc] of a descriptor, its registration in the list of its semaphores
    and signal queues, and [list_append(&proc_list, p)]. *)
Definition add_proc (p : Z) (pr : proc) (k : kernel St) : outcome (kernel St) :=
  let k := set_procs (<[p := pr]> (k_procs k)) k in
  let k := set_store (ls_init (k_store k) (signal_queue_of p)) k in
  let k := sema_init (signal_sema_of p) k in
  st ← ls_append (k_store k) PROC_LIST p;
  Ret (set_store st k).

Definition free_files (files : list proc_file) : list proc_file :=
  (fun f => ProcFile 0 (f_offset f) (f_fcntl_flags f) (f_driver_data f)) <$> files.

(** [name] is the argument string with its null byte. *)
Definition make_kernel_thread (junk : proc) (name : list Z) (entry : Z) (k : kernel St)
  : outcome (Z * kernel St) :=
  '(p, st) ← ls_alloc (k_store k) sizeof_proc;
  let k := set_store st k in
  let pid := i16 (pid_now k + 1) in
  let k := set_pid_now pid k in
  let stack := first_free_page k in
  let k := set_first_free_page (i16 (stack + 1)) k in
  let ps := ProcState
    (<[5%nat := 0xfffe]> (<[7%nat := 0xfffe]> (replicate 8 0)))
    entry 0
    (<[15%nat := stack]> (<[0%nat := 0]> ((fun i => 0x200 + i) <$> seqZ 0 16)))
    (seqZ 0 16) in
  name ← strcpy (p_name junk) 0 name 0;
  k ← add_proc p (Proc pid PROC_STATE_RUNNABLE PROC_TYPE_KERNEL ps (p_syscall_state junk) name
        (p_kernel_stack_page junk) (free_files (p_open_files junk)) 0 0 (p_signals_hold junk) 0
        (p_load_brk junk) (p_alarm_ticks junk)) k;
  Ret (pid, k).

Definition sched_init_user_thread (junk : proc) (k : kernel St) : outcome (Z * kernel St) :=
  '(p, st) ← ls_alloc (k_store k) sizeof_proc;
  let k := set_store st k in
  let pid := i16 (pid_now k + 1) in
  let k := set_pid_now pid k in
  let stack := first_free_page k in
  let kstack := i16 (stack + 1) in
  let k := set_first_free_page (i16 (kstack + 1)) k in
  let ps := ProcState (replicate 8 0) 0 0 (<[15%nat := stack]> (replicate 16 0xff)) (replicate 16 0xff) in
  name ← arr_set (p_name junk) 0 0;
  k ← add_proc p (Proc pid PROC_STATE_UNLOADED PROC_TYPE_USER ps (p_syscall_state junk) name
        kstack (free_files (p_open_files junk)) 0 0 0 0 (p_load_brk junk) (p_alarm_ticks junk)) k;
  Ret (p, k).

Fixpoint find_pid (procs : gmap Z proc) (pid : Z) (xs : list (Z * Z)) : outcome Z :=
  match xs with
  | [] => Ret 0
  | (_, v) :: xs =>
    p ← deref procs v;
    if p_pid p =? pid then Ret v else find_pid procs pid xs
  end.

Definition proc_by_pid (pid : Z) (k : kernel St) : outcome Z :=
  xs ← ls_nodes (k_store k) PROC_LIST;
  find_pid (k_procs k) pid xs.

(** ** The order in which the list is scanned *)

(** [(n, v)] is the node after [l] in [xs], cyclically. *)
Definition succ (xs : list (Z * Z)) (l : Z) (nv : Z * Z) : Prop :=
  (l = 0 /\ exists t, xs = nv :: t) \/
  (exists a w b, xs = a ++ (l, w) :: nv :: b) \/
  (exists a w t, xs = a ++ [(l, w)] /\ xs = nv :: t).

Fixpoint upcoming (xs : list (Z * Z)) (l : Z) (ys : list (Z * Z)) : Prop :=
  match ys with
  | [] => True
  | nv :: ys => succ xs l nv /\ upcoming xs nv.1 ys
  end.

Lemma succ_elem xs l nv : succ xs l nv -> nv ∈ xs.
Proof.
  intros [(_ & t & ->)|[(a & w & b & ->)|(a & w & t & _ & ->)]]; set_solver.
Qed.

Lemma upcoming_elem xs l ys nv : upcoming xs l ys -> nv ∈ ys -> nv ∈ xs.
Proof.
  revert l. induction ys as [|y ys IH]; intros l; simpl; [by intros _ ?%elem_of_nil|].
  intros [Hs Hu] [->|Hin]%elem_of_cons; [by eapply succ_elem|by eapply IH].
Qed.

(** The pointer the scan is at after the nodes [ys]. *)
Definition end_of (l : Z) (ys : list (Z * Z)) : Z :=
  match last ys with Some nv => nv.1 | None => l end.

Lemma end_of_cons l y ys : end_of l (y :: ys) = end_of y.1 ys.
Proof. unfold end_of. rewrite last_cons. by destruct (last ys). Qed.

Lemma upcoming_app xs l ys zs :
  upcoming xs l (ys ++ zs) <-> upcoming xs l ys /\ upcoming xs (end_of l ys) zs.
Proof.
  revert l. induction ys as [|y ys IH]; intros l; simpl; [tauto|].
  rewrite IH, end_of_cons. tauto.
Qed.

(** The nodes from some point of the list to its end follow one another. *)
Lemma upcoming_suffix a l w b : upcoming (a ++ (l, w) :: b) l b.
Proof.
  revert a l w. induction b as [|[n v] b IH]; intros a l w; simpl; [done|].
  split; [right; left; by exists a, w, b|].
  specialize (IH (a ++ [(l, w)]) n v). by rewrite <-app_assoc in IH.
Qed.

(** From a node whose successor is the first one, the list itself follows. *)
Lemma upcoming_prefix e y t b :
  succ (y :: t ++ b) e y -> upcoming (y :: t ++ b) e (y :: t).
Proof.
  intros Hs. split; [done|]. destruct y as [n v].
  pose proof (upcoming_suffix [] n v (t ++ b)) as Hu. by apply upcoming_app in Hu as [Hu _].
Qed.

(** One whole round: from [l] to the end, then from the beginning to [l]. *)
Lemma upcoming_round a l w b : upcoming (a ++ (l, w) :: b) l (b ++ a ++ [(l, w)]).
Proof.
  apply upcoming_app. split; [apply upcoming_suffix|].
  destruct (a ++ [(l, w)]) as [|y t] eqn:E; [by destruct a|].
  assert (Hxs : a ++ (l, w) :: b = y :: t ++ b).
  { change (y :: t ++ b) with ((y :: t) ++ b). by rewrite <-E, <-app_assoc. }
  rewrite Hxs. apply upcoming_prefix. right. right. rewrite <-Hxs.
  destruct b as [|[e v] b' _] using rev_ind.
  - exists a, w, (t ++ []). by rewrite <-Hxs.
  - exists (a ++ (l, w) :: b'), v, (t ++ b' ++ [(e, v)]). unfold end_of.
    rewrite last_snoc. split; [|by rewrite <-Hxs]. by rewrite <-app_assoc.
Qed.

Lemma upcoming_start xs : xs <> [] -> upcoming xs 0 xs.
Proof.
  destruct xs as [|y t]; [done|]. intros _.
  pose proof (upcoming_prefix 0 y t []) as Hp. rewrite app_nil_r in Hp. apply Hp.
  left. eauto.
Qed.

(** Every node has a successor. *)
Lemma succ_exists xs l : l = 0 \/ l ∈ xs.*1 -> xs <> [] -> exists nv, succ xs l nv.
Proof.
  intros [->|Hl] Hne.
  - destruct xs as [|y t]; [done|]. exists y. left. eauto.
  - apply list_elem_of_fmap in Hl as ([l' w] & -> & Hin).
    apply list_elem_of_split in Hin as (a & b & ->).
    pose proof (upcoming_round a l' w b) as Hu. simpl.
    destruct (b ++ a ++ [(l', w)]) as [|y ys] eqn:E.
    + by apply app_eq_nil in E as [_ [_ ?]%app_eq_nil].
    + exists y. apply Hu.
Qed.

(** ** The loop over well-formed states *)

Section Scan.
Context (k : kernel St) (m : gmap Z (list (Z * Z))) (own : gset Z) (xs : list (Z * Z)).
Context (K : kernel_ok k m own xs).

Lemma advance_ok n v : succ xs (last_element k) (n, v) ->
  advance (k_store k) (last_element k) = Ret n /\ ls_val (k_store k) n = Ret v.
Proof using K.
  pose proof (kok_rep _ _ _ _ K) as R. pose proof (kok_list _ _ _ _ K) as L.
  destruct (ls_nodup _ _ _ _ _ R L) as [Hnd H0].
  assert (Hnode : forall a q b, xs = a ++ q :: b -> q.1 <> 0 /\
            ls_next (k_store k) q.1 = Ret (head_ptr b 0) /\ ls_val (k_store k) q.1 = Ret q.2).
  { intros a [q w] b E. simpl. split.
    - intros ->. apply H0. rewrite E, fmap_app. set_solver.
    - eapply ls_node_ok; [exact R|]. rewrite L, E. done. }
  assert (Hfirst : forall t, xs = (n, v) :: t -> ls_first (k_store k) PROC_LIST = Ret n).
  { intros t E. rewrite (ls_first_ok _ _ _ _ _ R L), E. done. }
  unfold advance. intros [(-> & t & E)|[(a & w & b & E)|(a & w & t & E & E2)]].
  - split; [by apply (Hfirst t)|]. apply (Hnode [] (n, v) t E).
  - destruct (Hnode a (last_element k, w) ((n, v) :: b) E) as (Hl & Hn & _). simpl in *.
    destruct (Hnode (a ++ [(last_element k, w)]) (n, v) b) as (Hn0 & _ & Hv); [by rewrite <-app_assoc|].
    simpl in Hn0, Hv. rewrite (eqb_ne _ _ Hl), Hn. simpl. by rewrite (eqb_ne _ _ Hn0).
  - destruct (Hnode a (last_element k, w) [] E) as (Hl & Hn & _). simpl in *.
    rewrite (eqb_ne _ _ Hl), Hn. simpl. split; [by apply (Hfirst t)|]. apply (Hnode [] (n, v) t E2).
Qed.

Lemma scan_proc n v : (n, v) ∈ xs -> exists p, k_procs k !! v = Some p.
Proof using K.
  intros Hin. destruct (kok_procs _ _ _ _ K v) as [_ _ (p & Hp & _) _ _]; [|by exists p].
  apply list_elem_of_fmap. by exists (n, v).
Qed.

Lemma kernel_ok_last n v : (n, v) ∈ xs -> kernel_ok (set_last_element n k) m own xs.
Proof using K.
  intros Hin. destruct K as [R L V P _]. split; simpl; try done.
  - intros w Hw. destruct (P w Hw). split; done.
  - right. apply list_elem_of_fmap. by exists (n, v).
Qed.

Lemma kernel_ok_current c : kernel_ok (set_current_proc c k) m own xs.
Proof using K.
  destruct K as [R L V P E]. split; simpl; try done. intros w Hw. destruct (P w Hw). split; done.
Qed.

(** An update of one descriptor that does not invent a semaphore. *)
Lemma kernel_ok_upd_proc v f :
  v ∈ xs.*2 -> (forall p, p_sema_blocked (f p) = 0 \/ p_sema_blocked (f p) = p_sema_blocked p) ->
  exists p, k_procs k !! v = Some p /\
    upd_proc v f k = Ret (set_procs (<[v := f p]> (k_procs k)) k) /\
    kernel_ok (set_procs (<[v := f p]> (k_procs k)) k) m own xs.
Proof using K.
  intros Hv Hf. destruct (kok_procs _ _ _ _ K v Hv) as [_ _ (p & Hp & _) _ _].
  exists p. unfold upd_proc. rewrite (deref_Some _ _ _ Hp). split_and!; [done..|].
  destruct K as [R L V P E]. split; simpl; try done.
  intros w Hw. eapply proc_ok_mono; [by apply P|done|done|done|]. simpl.
  intros q Hq. destruct (decide (v = w)) as [->|].
  - rewrite lookup_insert_eq. rewrite Hp in Hq. simplify_eq. eauto.
  - rewrite lookup_insert_ne by done. eauto.
Qed.

(** A process that can run now: [try_run] breaks out of the loop for it. *)
Definition eligible (v : Z) : bool :=
  match k_procs k !! v with
  | Some p =>
      (p_state p =? PROC_STATE_RUNNABLE) || (p_state p =? PROC_STATE_SYSCALL) ||
      ((p_state p =? PROC_STATE_BLOCKED) || (p_state p =? PROC_STATE_SYSCALL_BLOCKED)) &&
      negb (p_sema_blocked p =? 0) &&
      match k_semas k !! p_sema_blocked p with Some c => 0 <? c | None => false end
  | None => false
  end.

(** A blocked process that is picked becomes runnable again. *)
Definition woken (p : proc) : proc :=
  if (p_state p =? PROC_STATE_BLOCKED) || (p_state p =? PROC_STATE_SYSCALL_BLOCKED) then
    set_p_sema_blocked 0
      (set_p_state (if p_state p =? PROC_STATE_BLOCKED
                    then PROC_STATE_RUNNABLE else PROC_STATE_SYSCALL) p)
  else p.

Lemma try_run_spec v : v ∈ xs.*2 -> exists p, k_procs k !! v = Some p /\
  try_run v k = Ret (if eligible v then Some (set_procs (<[v := woken p]> (k_procs k)) k) else None).
Proof using K.
  intros Hv. destruct (kok_procs _ _ _ _ K v Hv) as [_ _ (p & Hp & Hb) _ _].
  exists p. split; [done|]. unfold try_run, eligible. rewrite (deref_Some _ _ _ Hp), Hp. simpl.
  destruct ((p_state p =? PROC_STATE_RUNNABLE) || (p_state p =? PROC_STATE_SYSCALL)) eqn:E1; simpl.
  - unfold woken. apply orb_true_iff in E1. rewrite !Z.eqb_eq in E1.
    assert (((p_state p =? PROC_STATE_BLOCKED) || (p_state p =? PROC_STATE_SYSCALL_BLOCKED)) = false) as ->
      by (destruct E1 as [-> | ->]; done).
    rewrite insert_id by done. by destruct k.
  - destruct ((p_state p =? PROC_STATE_BLOCKED) || (p_state p =? PROC_STATE_SYSCALL_BLOCKED)) eqn:E2;
      simpl; [|done].
    destruct (Z.eqb_spec (p_sema_blocked p) 0) as [|Hne]; simpl; [done|].
    destruct Hb as [?|[c Hc]]; [done|]. rewrite (deref_Some _ _ _ Hc), Hc. simpl.
    destruct (0 <? c); [|done]. unfold upd_proc. rewrite (deref_Some _ _ _ Hp). simpl.
    unfold woken. by rewrite E2.
Qed.

Lemma eligible_woken v p :
  eligible v = true -> k_procs k !! v = Some p ->
  p_state (woken p) = PROC_STATE_RUNNABLE \/ p_state (woken p) = PROC_STATE_SYSCALL.
Proof using.
  unfold eligible, woken. intros He Hp. rewrite Hp in He.
  destruct ((p_state p =? PROC_STATE_BLOCKED) || (p_state p =? PROC_STATE_SYSCALL_BLOCKED)) eqn:E; simpl.
  - destruct (p_state p =? PROC_STATE_BLOCKED); auto.
  - rewrite orb_false_r in He. apply orb_true_iff in He. by rewrite !Z.eqb_eq in He.
Qed.

Lemma dead_not_eligible v p : k_procs k !! v = Some p -> p_state p = PROC_STATE_DEAD -> eligible v = false.
Proof using. unfold eligible. intros -> ->. done. Qed.

Definition dead (v : Z) : bool :=
  match k_procs k !! v with Some p => p_state p =? PROC_STATE_DEAD | None => false end.

(** No process that is not dead has an alarm due. *)
Definition quiet : Prop := forall v p, v ∈ xs.*2 -> k_procs k !! v = Some p ->
  p_state p <> PROC_STATE_DEAD -> alarm_due k p = false.
End Scan.

Lemma elem_snd (xs : list (Z * Z)) n v : (n, v) ∈ xs -> v ∈ xs.*2.
Proof. intros. apply list_elem_of_fmap. by exists (n, v). Qed.

Lemma quiet_last k xs n : quiet k xs -> quiet (set_last_element n k) xs.
Proof. intros Q v p. apply (Q v p). Qed.

(** One turn of the loop at a process whose alarm is not due. *)
Lemma pick_loop_step_at k m own xs fuel first_element n v :
  kernel_ok k m own xs ->
  (forall p, k_procs k !! v = Some p -> p_state p <> PROC_STATE_DEAD -> alarm_due k p = false) ->
  succ xs (last_element k) (n, v) ->
  pick_loop (S fuel) first_element k =
    if eligible k v then
      Ret (set_current_proc v (set_procs (alter woken v (k_procs k)) (set_last_element n k)))
    else if negb (dead k v) && (n =? first_element) then
      Ret (set_current_proc IDLE_STRUCT (set_last_element n k))
    else pick_loop fuel first_element (set_last_element n k).
Proof.
  intros K Q Hs. pose proof (succ_elem _ _ _ Hs) as Hin. pose proof (elem_snd _ _ _ Hin) as Hv.
  destruct (advance_ok _ _ _ _ K _ _ Hs) as [Ha Hval].
  pose proof (kernel_ok_last _ _ _ _ K _ _ Hin) as K1.
  destruct (try_run_spec _ _ _ _ K1 _ Hv) as (p & Hp & Htry). simpl in Hp.
  simpl pick_loop. rewrite Ha. simpl. rewrite Hval. simpl. rewrite (deref_Some _ _ _ Hp). simpl.
  unfold dead. rewrite Hp.
  destruct (Z.eqb_spec (p_state p) PROC_STATE_DEAD) as [Hd|Hd]; simpl.
  - by rewrite (dead_not_eligible _ _ _ Hp Hd).
  - unfold run_alarm. change (alarm_due (set_last_element n k) p) with (alarm_due k p).
    rewrite (Q p Hp Hd). simpl. rewrite Htry. simpl.
    change (eligible (set_last_element n k) v) with (eligible k v).
    destruct (eligible k v); [|done]. simpl. do 3 f_equal. apply map_eq. intros i.
    destruct (decide (v = i)) as [<-|].
    + by rewrite lookup_insert_eq, lookup_alter_eq, Hp.
    + by rewrite lookup_insert_ne, lookup_alter_ne by done.
Qed.

Lemma pick_loop_step k m own xs fuel first_element n v :
  kernel_ok k m own xs -> quiet k xs -> succ xs (last_element k) (n, v) ->
  pick_loop (S fuel) first_element k =
    if eligible k v then
      Ret (set_current_proc v (set_procs (alter woken v (k_procs k)) (set_last_element n k)))
    else if negb (dead k v) && (n =? first_element) then
      Ret (set_current_proc IDLE_STRUCT (set_last_element n k))
    else pick_loop fuel first_element (set_last_element n k).
Proof.
  intros K Q Hs. apply (pick_loop_step_at _ m own xs); [done| |done]. intros p. apply (Q v).
  by eapply elem_snd, succ_elem.
Qed.

(** Nodes that cannot run, and do not end the scan, are passed over. *)
Lemma pick_scan k m own xs first_element ys fuel :
  kernel_ok k m own xs -> quiet k xs -> upcoming xs (last_element k) ys ->
  Forall (fun nv => eligible k nv.2 = false /\ (nv.1 = first_element -> dead k nv.2 = true)) ys ->
  pick_loop (length ys + fuel) first_element k =
  pick_loop fuel first_element (set_last_element (end_of (last_element k) ys) k).
Proof.
  revert k. induction ys as [|[n v] ys IH]; intros k K Q Hu Hf.
  - by destruct k.
  - apply Forall_cons in Hf as [[He Hd] Hf]. destruct Hu as [Hs Hu]. simpl in He, Hd, Hu.
    change (length ((n, v) :: ys) + fuel)%nat with (S (length ys + fuel)).
    rewrite (pick_loop_step _ _ _ _ _ _ _ _ K Q Hs), He.
    assert (negb (dead k v) && (n =? first_element) = false) as ->.
    { destruct (Z.eqb_spec n first_element) as [->|]; [by rewrite Hd|by rewrite andb_false_r]. }
    rewrite IH; try done.
    + by rewrite end_of_cons.
    + eapply kernel_ok_last; [done|by eapply succ_elem].
Qed.

Lemma end_of_elem xs l ys : upcoming xs l ys -> end_of l ys = l \/ end_of l ys ∈ xs.*1.
Proof.
  intros Hu. unfold end_of. destruct (last ys) as [nv|] eqn:E; [right|by left].
  apply last_Some in E as [ys' ->]. apply list_elem_of_fmap. exists nv. split; [done|].
  eapply upcoming_elem; [done|set_solver].
Qed.

Lemma kernel_ok_end k m own xs ys :
  kernel_ok k m own xs -> upcoming xs (last_element k) ys ->
  kernel_ok (set_last_element (end_of (last_element k) ys) k) m own xs.
Proof.
  intros K Hu. destruct (end_of_elem _ _ _ Hu) as [E|E].
  - rewrite E. by destruct k.
  - apply list_elem_of_fmap in E as ([n v] & -> & Hin). by eapply kernel_ok_last.
Qed.

(** The next node that can run, and the kernel state after it was picked. *)
Definition next_eligible (k : kernel St) (ys : list (Z * Z)) : option (nat * (Z * Z)) :=
  list_find (fun nv => eligible k nv.2 = true) ys.

Definition picked (k : kernel St) (n v : Z) : kernel St :=
  set_current_proc v (set_procs (alter woken v (k_procs k)) (set_last_element n k)).

Lemma sched_pick_start k m own xs fuel :
  kernel_ok k m own xs -> xs <> [] -> sched_pick_next fuel k = pick_loop fuel (last_element k) k.
Proof.
  intros K Hne. unfold sched_pick_next.
  destruct (ls_nodup _ _ _ _ _ (kok_rep _ _ _ _ K) (kok_list _ _ _ _ K)) as [_ H0].
  rewrite (ls_first_ok _ _ _ _ _ (kok_rep _ _ _ _ K) (kok_list _ _ _ _ K)).
  destruct xs as [|[n v] xs]; [done|]. simpl. rewrite eqb_ne; [done|]. set_solver.
Qed.

Lemma NoDup_fst_last (a : list (Z * Z)) l w b :
  NoDup (a ++ (l, w) :: b).*1 -> forall nv, nv ∈ b ++ a -> nv.1 <> l.
Proof.
  rewrite fmap_app. intros (_ & Hd & [Hb _]%NoDup_cons)%NoDup_app nv Hin <-.
  apply elem_of_app in Hin as [Hin|Hin]; apply (list_elem_of_fmap_2 fst) in Hin.
  - by apply Hb.
  - apply (Hd _ Hin). set_solver.
Qed.

(** C8. Round robin: with no alarm due, [sched_pick_next] selects the first
    process after the one that ran last, in list order and cyclically, that is
    runnable or whose semaphore has become available; a woken process becomes
    runnable and is no longer blocked, and nothing else changes.  When no
    process can run it selects the idle task, provided that the process it
    started from is not dead.  One turn of the list is enough fuel. *)
Theorem sched_pick_next_round_robin k m own a l w b :
  kernel_ok k m own (a ++ (l, w) :: b) -> quiet k (a ++ (l, w) :: b) -> last_element k = l ->
  let ys := b ++ a ++ [(l, w)] in
  match next_eligible k ys with
  | Some (i, (n, v)) => sched_pick_next (length ys) k = Ret (picked k n v)
  | None => dead k w = false -> sched_pick_next (length ys) k = Ret (set_current_proc IDLE_STRUCT k)
  end.
Proof.
  intros K Q Hlast ys. set (xs := a ++ (l, w) :: b) in *.
  assert (xs <> []) as Hne by (unfold xs; by destruct a).
  destruct (ls_nodup _ _ _ _ _ (kok_rep _ _ _ _ K) (kok_list _ _ _ _ K)) as [Hnd _].
  pose proof (upcoming_round a l w b) as Hu. fold xs ys in Hu. rewrite <-Hlast in Hu.
  rewrite !(sched_pick_start _ _ _ _ _ K Hne).
  destruct (next_eligible k ys) as [[i [n v]]|] eqn:E.
  - apply list_find_prefix in E as (pre & post & Eys & _ & He & Hpre). simpl in He.
    pose proof Hu as Hu'. rewrite Eys in Hu'. apply upcoming_app in Hu' as [Hu1 [Hs _]].
    rewrite Eys, length_app. rewrite (pick_scan _ _ _ _ _ _ _ K Q Hu1).
    + simpl length. erewrite pick_loop_step; [|by apply kernel_ok_end|exact Q|exact Hs].
      change (eligible (set_last_element _ k) v) with (eligible k v). by rewrite He.
    + apply Forall_forall. intros [n' v'] Hin. rewrite Forall_forall in Hpre.
      specialize (Hpre _ Hin). simpl in *. split; [by destruct (eligible k v')|].
      intros ->. exfalso. apply (NoDup_fst_last a l w b Hnd (l, v')); [|done].
      unfold ys in Eys. rewrite app_assoc in Eys.
      destruct post as [|z post _] using rev_ind.
      * apply app_inj_tail in Eys as [-> _]. by rewrite Hlast in *.
      * rewrite app_comm_cons, app_assoc in Eys. apply app_inj_tail in Eys as [-> _].
        rewrite Hlast in *. set_solver.
  - intros Hd. apply list_find_None in E. rewrite Forall_forall in E.
    unfold ys in *. rewrite app_assoc in *. apply upcoming_app in Hu as [Hu1 [Hs _]].
    rewrite (length_app (b ++ a)). rewrite (pick_scan _ _ _ _ _ _ _ K Q Hu1).
    + simpl length. erewrite pick_loop_step; [|by apply kernel_ok_end|exact Q|exact Hs].
      change (eligible (set_last_element _ k) w) with (eligible k w).
      change (dead (set_last_element _ k) w) with (dead k w).
      assert (eligible k w = false) as ->.
      { specialize (E (l, w)). simpl in E. destruct (eligible k w); [|done].
        exfalso. apply E; [set_solver|done]. }
      rewrite Hd, Hlast, Z.eqb_refl. simpl. do 2 f_equal. rewrite <-Hlast. by destruct k.
    + apply Forall_forall. intros [n' v'] Hin. simpl. split.
      * specialize (E (n', v')). simpl in E. destruct (eligible k v'); [|done].
        exfalso. apply E; [set_solver|done].
      * intros ->. exfalso. rewrite Hlast in Hin. by apply (NoDup_fst_last a l w b Hnd (l, v')).
Qed.

(** C10. The loop does not end when no process can run and it started from a
    dead process, or on its very first call: the [continue] for dead processes
    skips the test that ends the scan, and a null start is never met again.
    No amount of fuel gives a result. *)
Theorem sched_pick_next_diverges k m own xs fuel :
  kernel_ok k m own xs -> quiet k xs -> xs <> [] ->
  (forall v, v ∈ xs.*2 -> eligible k v = false) ->
  (last_element k = 0 \/ exists w, (last_element k, w) ∈ xs /\ dead k w = true) ->
  sched_pick_next fuel k = Hang.
Proof.
  intros K Q Hne He Hstart. rewrite (sched_pick_start _ _ _ _ _ K Hne).
  destruct (ls_nodup _ _ _ _ _ (kok_rep _ _ _ _ K) (kok_list _ _ _ _ K)) as [Hnd H0].
  assert (Hfirst : forall n v, (n, v) ∈ xs -> n = last_element k -> dead k v = true).
  { intros n v Hin ->. destruct Hstart as [E|(w & Hw & Hd)].
    - exfalso. apply H0. rewrite <-E. apply list_elem_of_fmap. by exists (last_element k, v).
    - apply list_elem_of_lookup in Hin as [i Hi], Hw as [j Hj].
      assert (i = j) as ->.
      { eapply (NoDup_lookup xs.*1); [done| |]; rewrite list_lookup_fmap; [rewrite Hi|rewrite Hj]; done. }
      rewrite Hi in Hj. by simplify_eq. }
  set (f := last_element k) in *. clearbody f. clear Hstart.
  revert k K Q He Hfirst. induction fuel as [|fuel IH]; intros k K Q He Hfirst; [done|].
  destruct (succ_exists xs (last_element k)) as [[n v] Hs]; [apply K|done|].
  pose proof (succ_elem _ _ _ Hs) as Hin.
  rewrite (pick_loop_step _ _ _ _ _ _ _ _ K Q Hs), He by (by eapply elem_snd).
  assert (negb (dead k v) && (n =? f) = false) as ->.
  { destruct (Z.eqb_spec n f) as [->|]; [by rewrite (Hfirst f v)|by rewrite andb_false_r]. }
  apply IH; try done. by eapply kernel_ok_last.
Qed.

(** ** Alarms *)

Lemma run_alarm_ok k m own xs v p :
  kernel_ok k m own xs -> v ∈ xs.*2 -> k_procs k !! v = Some p ->
  match run_alarm v p k with
  | Ret k' => (exists m' own', kernel_ok k' m' own' xs) /\ last_element k' = last_element k /\
      forall w, dead k' w = dead k w
  | Panic msg => msg = HEAP_FULL
  | _ => False
  end.
Proof.
  intros K Hv Hp. unfold run_alarm. destruct (alarm_due k p); [|eauto 6].
  destruct (pok_queue _ _ _ _ (kok_procs _ _ _ _ K _ Hv)) as [q Hq].
  pose proof (signal_send_ok k m own xs v q (Signal SIG_TYPE_ALARM (u16 (p_alarm_ticks p))) K Hv Hq) as Hsend.
  destruct (signal_send _ _ k) as [k1| | | |]; try done. simpl.
  destruct Hsend as (g & n & c & _ & _ & _ & _ & K1 & Hk1).
  destruct (kernel_ok_upd_proc _ _ _ _ K1 v (set_p_alarm_ticks 0) Hv) as (p1 & Hp1 & -> & K2); [by right|].
  assert (k_procs k1 = k_procs k) as Epr by (by rewrite Hk1).
  split; [eauto|]. split; [by rewrite Hk1|]. intros w. unfold dead. simpl. rewrite Epr in *.
  destruct (decide (v = w)) as [<-|]; [rewrite lookup_insert_eq, Hp1|rewrite lookup_insert_ne]; done.
Qed.

Lemma kernel_ok_woken k m own xs v p :
  kernel_ok k m own xs -> v ∈ xs.*2 -> k_procs k !! v = Some p ->
  kernel_ok (set_procs (<[v := woken p]> (k_procs k)) k) m own xs.
Proof.
  intros K Hv Hp. destruct (kernel_ok_upd_proc _ _ _ _ K v woken Hv) as (p' & Hp' & _ & K').
  - intros q. unfold woken. repeat case_match; auto.
  - rewrite Hp in Hp'. by simplify_eq.
Qed.

(** ** What the scheduler leaves alone *)

(** The saved context of a process, and its state unless it is woken up. *)
Definition same_context (q q' : proc) : Prop :=
  p_proc_state q' = p_proc_state q /\
  (p_state q' = p_state q \/ p_state q <> PROC_STATE_DEAD /\
     (p_state q' = PROC_STATE_RUNNABLE \/ p_state q' = PROC_STATE_SYSCALL)).

(** The kernel state apart from the process table, the heap and the cursor. *)
Record pick_frame (k k' : kernel St) : Prop := {
  pf_procs Q : option_Forall2 same_context (k_procs k !! Q) (k_procs k' !! Q);
  pf_sched : scheduling_enabled k' = scheduling_enabled k;
  pf_modify : int_no_proc_modify k' = int_no_proc_modify k;
  pf_ticks : sys_ticks k' = sys_ticks k;
}.

Lemma same_context_refl q : same_context q q.
Proof. split; auto. Qed.

Lemma pick_frame_refl k : pick_frame k k.
Proof. split; try done. intros Q. apply option_Forall2_refl. intros q. apply same_context_refl. Qed.

Lemma same_context_trans q1 q2 q3 : same_context q1 q2 -> same_context q2 q3 -> same_context q1 q3.
Proof.
  intros [E1 H1] [E2 H2]. split; [congruence|].
  destruct H1 as [H1|(Hd & H1)], H2 as [H2|(Hd2 & H2)]; [left; congruence|right..].
  - split; [congruence|done].
  - split; [done|]. by rewrite H2.
  - done.
Qed.

Lemma pick_frame_trans k1 k2 k3 : pick_frame k1 k2 -> pick_frame k2 k3 -> pick_frame k1 k3.
Proof.
  intros [F1 A1 B1 C1] [F2 A2 B2 C2]. split; try congruence. intros Q.
  specialize (F1 Q). specialize (F2 Q). destruct F1; inversion F2; subst; constructor.
  by eapply same_context_trans.
Qed.

Lemma upd_proc_frame v f k k' :
  upd_proc v f k = Ret k' ->
  (forall q, k_procs k !! v = Some q -> same_context q (f q)) -> pick_frame k k'.
Proof.
  intros E Hf. unfold upd_proc, deref in E. destruct (k_procs k !! v) as [q|] eqn:Hq; [|done].
  simplify_eq/=. split; try done. simpl. intros Q. destruct (decide (v = Q)) as [<-|].
  - rewrite lookup_insert_eq, Hq. constructor. auto.
  - rewrite lookup_insert_ne by done. apply option_Forall2_refl. intros ?. apply same_context_refl.
Qed.

Lemma signal_send_frame v sg k k' : signal_send v sg k = Ret k' -> k_procs k' = k_procs k /\ pick_frame k k'.
Proof.
  unfold signal_send, sema_up. intros E. run_inv. simpl. split; [done|].
  split; try done. intros Q. apply option_Forall2_refl. intros ?. apply same_context_refl.
Qed.

Lemma run_alarm_frame v p k k' : run_alarm v p k = Ret k' -> pick_frame k k'.
Proof.
  unfold run_alarm. destruct (alarm_due k p); intros E; run_inv; [|apply pick_frame_refl].
  apply signal_send_frame in E0 as [_ F]. eapply pick_frame_trans; [exact F|].
  eapply upd_proc_frame; [exact E|]. intros q _. split; auto.
Qed.

Lemma try_run_frame v k k' : try_run v k = Ret (Some k') -> pick_frame k k'.
Proof.
  unfold try_run. intros E. run_inv. destruct (_ || _); run_inv; [apply pick_frame_refl|].
  destruct (_ || _) eqn:Eb; run_inv; [|done]. destruct (_ =? 0); run_inv; [done|].
  destruct (0 <? _); run_inv; [|done]. eapply upd_proc_frame; [exact E2|].
  intros q Hq. unfold deref in E0. rewrite Hq in E0. simplify_eq. split; [done|]. right.
  apply orb_true_iff in Eb. rewrite !Z.eqb_eq in Eb. simpl.
  split; [by destruct Eb as [-> | ->]|]. destruct (_ =? _); auto.
Qed.

(** [sched_pick_next] changes no saved context, and brings no process back to
    life. *)
Lemma pick_loop_frame fuel f k k' : pick_loop fuel f k = Ret k' -> pick_frame k k'.
Proof.
  revert k. induction fuel as [|fuel IH]; intros k E; [done|]. simpl in E. run_inv.
  assert (F0 : pick_frame k (set_last_element v k)) by (destruct (pick_frame_refl k); by split).
  destruct (_ =? PROC_STATE_DEAD); [eapply pick_frame_trans; eauto|]. run_inv.
  apply run_alarm_frame in E3. pose proof (pick_frame_trans _ _ _ F0 E3) as F1.
  destruct v3 as [k3|]; run_inv.
  - apply try_run_frame in E4. pose proof (pick_frame_trans _ _ _ F1 E4) as [? ? ? ?]. by split.
  - destruct (_ =? f); run_inv; [destruct F1; by split|]. eapply pick_frame_trans; eauto.
Qed.

Lemma sched_pick_next_frame fuel k k' : sched_pick_next fuel k = Ret k' -> pick_frame k k'.
Proof. unfold sched_pick_next. intros E. run_inv. by eapply pick_loop_frame. Qed.

(** What a scan may end in: the idle task or a process that can run, or the
    panic of the allocator. *)
Definition pick_good (xs : list (Z * Z)) (o : outcome (kernel St)) : Prop :=
  match o with
  | Ret k' => (exists m' own', kernel_ok k' m' own' xs) /\
      (current_proc k' = IDLE_STRUCT \/
       exists p, current_proc k' ∈ xs.*2 /\ k_procs k' !! current_proc k' = Some p /\
         (p_state p = PROC_STATE_RUNNABLE \/ p_state p = PROC_STATE_SYSCALL))
  | Panic msg => msg = HEAP_FULL
  | _ => False
  end.

(** ** Termination of the scan, alarms included *)

Definition runnable (k : kernel St) (v : Z) : bool :=
  match k_procs k !! v with
  | Some p => (p_state p =? PROC_STATE_RUNNABLE) || (p_state p =? PROC_STATE_SYSCALL)
  | None => false
  end.

Lemma runnable_eligible k v : runnable k v = true -> eligible k v = true /\ dead k v = false.
Proof.
  unfold runnable, eligible, dead. destruct (k_procs k !! v) as [p|]; [|done]. intros E. rewrite E. split; [done|].
  apply orb_true_iff in E. rewrite !Z.eqb_eq in E. by destruct E as [-> | ->].
Qed.

Lemma frame_runnable k k' v : pick_frame k k' -> runnable k v = true -> runnable k' v = true.
Proof.
  intros F. pose proof (pf_procs _ _ F v) as Fv. unfold runnable.
  destruct Fv as [q q' [_ Hq]|]; [|done]. rewrite !orb_true_iff, !Z.eqb_eq.
  destruct Hq as [-> | [_ Hq]]; auto.
Qed.

Lemma frame_dead k k' v : pick_frame k k' -> dead k' v = dead k v.
Proof.
  intros F. pose proof (pf_procs _ _ F v) as Fv. unfold dead.
  destruct Fv as [q q' [_ Hq]|]; [|done]. destruct Hq as [-> | [Hd Hq]]; [done|].
  rewrite (eqb_ne (p_state q)) by done. by destruct Hq as [-> | ->].
Qed.

Lemma frame_last k n : pick_frame k (set_last_element n k).
Proof. destruct (pick_frame_refl k). by split. Qed.

(** One turn of the loop: it ends well, or goes on behind a process that
    cannot run. *)
Lemma pick_loop_turn k m own xs fuel f n v :
  kernel_ok k m own xs -> succ xs (last_element k) (n, v) ->
  (n <> f \/ dead k v = true -> runnable k v = false ->
   forall k' m' own', kernel_ok k' m' own' xs -> last_element k' = n -> pick_frame k k' ->
     pick_good xs (pick_loop fuel f k')) ->
  pick_good xs (pick_loop (S fuel) f k).
Proof.
  intros K Hs Hgo. pose proof (succ_elem _ _ _ Hs) as Hin. pose proof (elem_snd _ _ _ Hin) as Hv.
  destruct (advance_ok _ _ _ _ K _ _ Hs) as [Ha Hval].
  pose proof (kernel_ok_last _ _ _ _ K _ _ Hin) as K1.
  destruct (scan_proc _ _ _ _ K _ _ Hin) as [p Hp].
  simpl pick_loop. rewrite Ha. simpl. rewrite Hval. simpl. rewrite (deref_Some _ _ _ Hp). simpl.
  destruct (Z.eqb_spec (p_state p) PROC_STATE_DEAD) as [Ed|Ed].
  { eapply (Hgo); [right|..| |apply frame_last]; [..|exact K1|done]; unfold dead, runnable; by rewrite Hp, Ed. }
  pose proof (run_alarm_ok _ _ _ _ _ _ K1 Hv Hp) as Hal.
  destruct (run_alarm v p (set_last_element n k)) as [k2| | | |] eqn:Er; try done. simpl.
  pose proof (pick_frame_trans _ _ _ (frame_last k n) (run_alarm_frame _ _ _ _ Er)) as F.
  destruct Hal as ((m2 & own2 & K2) & Hl2 & _). simpl in Hl2.
  destruct (try_run_spec _ _ _ _ K2 _ Hv) as (p2 & Hp2 & ->). simpl.
  destruct (eligible k2 v) eqn:He.
  - pose proof (kernel_ok_woken _ _ _ _ _ _ K2 Hv Hp2) as K3. split.
    + eexists _, _. by apply kernel_ok_current.
    + right. exists (woken p2). simpl. rewrite lookup_insert_eq. eauto using eligible_woken.
  - destruct (Z.eqb_spec n f) as [->|Hne].
    + split; [|by left]. eexists _, _. by apply kernel_ok_current.
    + eapply Hgo; eauto. apply not_true_iff_false. intros Hr.
      destruct (runnable_eligible _ _ (frame_runnable _ _ _ F Hr)). congruence.
Qed.

(** The nodes after the cursor, one whole turn. *)
Lemma round_from k m own xs : kernel_ok k m own xs -> xs <> [] ->
  exists ys, upcoming xs (last_element k) ys /\ ys ≡ₚ xs.
Proof.
  intros K Hne. destruct (kok_last _ _ _ _ K) as [->|Hl].
  - exists xs. split; [by apply upcoming_start|done].
  - apply list_elem_of_fmap in Hl as ([l w] & -> & Hin). apply list_elem_of_split in Hin as (a & b & ->).
    exists (b ++ a ++ [(l, w)]). split; [apply upcoming_round|]. simpl. solve_Permutation.
Qed.

(** A scan that starts at a living process ends. *)
Lemma sched_pick_good k m own a l w b :
  kernel_ok k m own (a ++ (l, w) :: b) -> last_element k = l -> dead k w = false ->
  pick_good (a ++ (l, w) :: b) (sched_pick_next (length (a ++ (l, w) :: b)) k).
Proof.
  intros K Hlast Hd. rewrite (sched_pick_start _ _ _ _ _ K) by (by destruct a).
  pose proof (upcoming_round a l w b) as Hu. rewrite app_assoc in Hu.
  replace (length (a ++ (l, w) :: b)) with (length (b ++ a) + 1)%nat
    by (rewrite !length_app; simpl; lia).
  rewrite <-Hlast in Hu at 2. rewrite Hlast. set (xs := a ++ (l, w) :: b) in *. clearbody xs.
  clear Hlast. revert k m own K Hu Hd. generalize (b ++ a) as ys.
  induction ys as [|[n v] ys IH]; intros k m own K Hu Hd; destruct Hu as [Hs Hu].
  - eapply pick_loop_turn; [done..|]. intros [?|Hw]; [done|]. by rewrite Hd in Hw.
  - eapply pick_loop_turn; [done..|]. intros _ _ k' m' own' K' Hl' F. eapply IH; [done|by rewrite Hl'|].
    by rewrite (frame_dead _ _ _ F).
Qed.

(** So does one while some process is runnable. *)
Lemma sched_pick_runnable k m own xs v :
  kernel_ok k m own xs -> v ∈ xs.*2 -> runnable k v = true ->
  pick_good xs (sched_pick_next (length xs) k).
Proof.
  intros K Hv Hr. assert (xs <> []) as Hne by (intros ->; set_solver).
  rewrite (sched_pick_start _ _ _ _ _ K Hne). destruct (round_from _ _ _ _ K Hne) as (ys & Hu & Hp).
  rewrite <-Hp in Hv. rewrite <-(Permutation_length Hp). clear Hp Hne. generalize (last_element k) at 1 as f. intros f.
  revert k m own K Hu Hr. induction ys as [|[n w] ys IH]; intros k m own K Hu Hr; [set_solver|].
  destruct Hu as [Hs Hu]. eapply pick_loop_turn; [done..|]. intros _ Hnr k' m' own' K' Hl' F.
  assert (v ∈ ys.*2) as Hv'.
  { apply elem_of_cons in Hv as [->|]; [|done]. simpl in Hr. congruence. }
  eapply IH; [done|done|by rewrite Hl'|by eapply frame_runnable].
Qed.

(** *** A process that waits for its alarm *)

(** Neither the state of process [v] nor an alarm lets it run. *)
Definition asleep (k : kernel St) (v : Z) : Prop :=
  eligible k v = false /\
  forall p, k_procs k !! v = Some p -> p_state p <> PROC_STATE_DEAD -> alarm_due k p = false.

Lemma pick_asleep k m own xs f ys fuel :
  kernel_ok k m own xs -> upcoming xs (last_element k) ys ->
  Forall (fun nv => nv.1 <> f /\ asleep k nv.2) ys ->
  pick_loop (length ys + fuel) f k = pick_loop fuel f (set_last_element (end_of (last_element k) ys) k).
Proof.
  revert k. induction ys as [|[n v] ys IH]; intros k K Hu Hf; [by destruct k|].
  apply Forall_cons in Hf as [[Hn [He Ha]] Hf]. destruct Hu as [Hs Hu]. simpl in Hn, He, Ha, Hu.
  change (length ((n, v) :: ys) + fuel)%nat with (S (length ys + fuel)).
  rewrite (pick_loop_step_at _ _ _ _ _ _ _ _ K Ha Hs), He, (eqb_ne _ _ Hn), andb_false_r.
  rewrite IH; [by rewrite end_of_cons| |done|done]. eapply kernel_ok_last; [done|by eapply succ_elem].
Qed.

(** The kernel when the alarm of [P] was sent, with the signal at [g], and [P]
    was picked from node [n]. *)
Definition alarm_woken (P n g : Z) (q : proc) (st : St) (k : kernel St) : kernel St :=
  set_current_proc P (set_procs (<[P := woken (set_p_alarm_ticks 0 q)]> (k_procs k))
    (set_semas (<[signal_sema_of P := 1]> (k_semas k))
      (set_signals (<[g := Signal SIG_TYPE_ALARM (u16 (p_alarm_ticks q))]> (k_signals k))
        (set_store st (set_last_element n k))))).

(** [P] waits for a signal, and its alarm is due. *)
Record alarm_wait (k : kernel St) (m : gmap Z (list (Z * Z))) (P : Z) (q : proc) : Prop := {
  aw_proc : k_procs k !! P = Some q;
  aw_state : p_state q = PROC_STATE_SYSCALL_BLOCKED;
  aw_sema : p_sema_blocked q = signal_sema_of P;
  aw_due : alarm_due k q = true;
  aw_queue : m !! signal_queue_of P = Some [];
  aw_count : k_semas k !! signal_sema_of P = Some 0;
}.

Definition alarm_sent (m : gmap Z (list (Z * Z))) (own : gset Z) (xs : list (Z * Z)) (P : Z) (q : proc) (k : kernel St)
    (o : outcome (kernel St)) : Prop :=
  match o with
  | Ret k' => exists n g nd st, (g ∉ own) /\ nd <> 0 /\ k' = alarm_woken P n g q st k /\
      kernel_ok k' (<[signal_queue_of P := [(nd, g)]]> m) ({[g]} ∪ own) xs
  | Panic msg => msg = HEAP_FULL
  | _ => False
  end.

Lemma woken_set P q (k : kernel St) :
  set_procs (<[P := woken q]> (<[P := q]> (k_procs k))) (set_procs (<[P := q]> (k_procs k)) k) =
  set_procs (<[P := woken q]> (k_procs k)) k.
Proof. rewrite insert_insert_eq. by destruct k. Qed.

Lemma pick_alarm k m own xs fuel f n P q :
  kernel_ok k m own xs -> alarm_wait k m P q -> succ xs (last_element k) (n, P) ->
  alarm_sent m own xs P q k (pick_loop (S fuel) f k).
Proof.
  intros K [Hp Hst Hsb Hdue Hq Hc] Hs. pose proof (succ_elem _ _ _ Hs) as Hin. pose proof (elem_snd _ _ _ Hin) as Hv.
  destruct (advance_ok _ _ _ _ K _ _ Hs) as [Ha Hval].
  pose proof (kernel_ok_last _ _ _ _ K _ _ Hin) as K1. unfold alarm_sent.
  simpl pick_loop. rewrite Ha. simpl. rewrite Hval. simpl. rewrite (deref_Some _ _ _ Hp). simpl.
  rewrite Hst. cbn [Z.eqb Pos.eqb PROC_STATE_SYSCALL_BLOCKED PROC_STATE_DEAD]. unfold run_alarm.
  change (alarm_due (set_last_element n k) q) with (alarm_due k q). rewrite Hdue.
  pose proof (signal_send_ok _ _ _ _ P [] (Signal SIG_TYPE_ALARM (u16 (p_alarm_ticks q))) K1 Hv Hq) as Hsend.
  destruct (signal_send _ _ _) as [k1| | | |]; try done. cbn [mbind outcome_bind].
  destruct Hsend as (g & nd & c & Hgo & _ & Hnd & Hc0 & K2 & Ek). simpl in Hc0. rewrite Hc in Hc0. injection Hc0 as <-.
  destruct (kernel_ok_upd_proc _ _ _ _ K2 P (set_p_alarm_ticks 0) Hv) as (q1 & Hq1 & -> & K3); [by right|].
  assert (q1 = q) as -> by (rewrite Ek in Hq1; simpl in Hq1; congruence). cbn [mbind outcome_bind].
  set (q1 := set_p_alarm_ticks 0 q) in *.
  destruct (try_run_spec _ _ _ _ K3 P Hv) as (q2 & Hq2 & ->). simpl in Hq2. rewrite lookup_insert_eq in Hq2. injection Hq2 as <-.
  assert (He : eligible (set_procs (<[P := q1]> (k_procs k1)) k1) P = true).
  { unfold eligible. simpl. rewrite lookup_insert_eq. unfold q1. simpl. rewrite Hst, Hsb, Ek. simpl. rewrite lookup_insert_eq.
    destruct (kok_procs _ _ _ _ K P Hv) as [Hr _ _ _ _]. rewrite eqb_ne; [done|]. unfold signal_sema_of, member. lia. }
  rewrite He. cbn [mbind outcome_bind k_procs set_procs]. rewrite (woken_set P q1 k1).
  exists n, g, nd, (k_store k1). split_and!; [done|done| |].
  - unfold alarm_woken. rewrite Ek. by destruct k.
  - pose proof (kernel_ok_woken _ _ _ _ P q1 K3 Hv (lookup_insert_eq _ _ _)) as K4. simpl in K4.
    rewrite insert_insert_eq in K4. by apply (kernel_ok_current _ _ _ _ K4).
Qed.

(** The nodes before a process in one turn are not the one the turn started from. *)
Lemma round_to k m own xs P : kernel_ok k m own xs -> P ∈ xs.*2 ->
  exists ys n, upcoming xs (last_element k) (ys ++ [(n, P)]) /\ (length ys < length xs)%nat /\
    forall x, x ∈ ys -> x.1 <> last_element k /\ x.2 <> P /\ x ∈ xs.
Proof.
  intros K HP. destruct (ls_nodup _ _ _ _ _ (kok_rep _ _ _ _ K) (kok_list _ _ _ _ K)) as [Hnd H0].
  assert (xs <> []) as Hne by (intros ->; set_solver).
  assert (exists zs, upcoming xs (last_element k) zs /\ zs ≡ₚ xs /\
    forall a y b, zs = a ++ y :: b -> forall x, x ∈ a -> x.1 <> last_element k) as (zs & Hu & Hperm & Hfirst).
  { destruct (kok_last _ _ _ _ K) as [E|E].
    - exists xs. rewrite E. split_and!; [by apply upcoming_start|done|]. intros a y b -> x Hx Hx0.
      apply H0. rewrite <-Hx0, fmap_app. apply elem_of_app. left. by apply list_elem_of_fmap_2.
    - apply list_elem_of_fmap in E as ([l w] & E & Hin). apply list_elem_of_split in Hin as (a & b & ->). simpl in E.
      exists (b ++ a ++ [(l, w)]). rewrite E. split_and!; [apply upcoming_round|solve_Permutation|].
      intros a' y b' Ea x Hx. apply (NoDup_fst_last _ _ _ _ Hnd).
      destruct b' as [|z b'' _] using rev_ind.
      + rewrite (app_assoc b) in Ea. by apply app_inj_tail in Ea as [-> _].
      + rewrite (app_assoc b), app_comm_cons, (app_assoc a') in Ea. apply app_inj_tail in Ea as [-> _].
        apply elem_of_app. by left. }
  assert (P ∈ zs.*2) as HPz by (by rewrite Hperm).
  apply list_elem_of_fmap in HPz as ([n P'] & -> & Hin). simpl.
  apply (list_find_elem_of (fun x : Z * Z => x.2 = P')) in Hin as [[i [n' P2]] Hfind]; [|done].
  apply list_find_Some in Hfind as (Hi & E & Hbefore). simpl in E. subst P2.
  apply list_elem_of_split_length in Hi as (a & b & -> & ->).
  exists a, n'. rewrite <-(Permutation_length Hperm), length_app. simpl. split_and!; [|lia|].
  - change (a ++ (n', P') :: b) with (a ++ [(n', P')] ++ b) in Hu. rewrite app_assoc in Hu. by apply upcoming_app in Hu as [Hu _].
  - intros x Hx. split; [by eapply Hfirst|]. split; [|rewrite <-Hperm; apply elem_of_app; by left].
    apply list_elem_of_lookup in Hx as [j Hj]. apply lookup_lt_Some in Hj as Hlt.
    apply (Hbefore j x); [by rewrite lookup_app_l|done].
Qed.

(** When no other process can run, the scheduler sends the alarm and picks [P]. *)
Lemma sched_pick_alarm k m own xs P q fuel :
  kernel_ok k m own xs -> alarm_wait k m P q -> P ∈ xs.*2 ->
  (forall v, v ∈ xs.*2 -> v <> P -> asleep k v) -> (length xs <= fuel)%nat ->
  alarm_sent m own xs P q k (sched_pick_next fuel k).
Proof.
  intros K W HP Hasleep Hfuel. assert (xs <> []) as Hne by (intros ->; set_solver).
  rewrite (sched_pick_start _ _ _ _ _ K Hne). destruct (round_to _ _ _ _ P K HP) as (ys & n & Hu & Hlen & Hys).
  apply upcoming_app in Hu as [Hu [Hs _]].
  replace fuel with (length ys + S (fuel - length ys - 1))%nat by lia.
  rewrite (pick_asleep _ _ _ _ _ ys _ K Hu).
  - set (k1 := set_last_element _ k). assert (W1 : alarm_wait k1 m P q) by (by destruct W).
    pose proof (pick_alarm k1 m own xs (fuel - length ys - 1) (last_element k) n P q (kernel_ok_end _ _ _ _ _ K Hu) W1 Hs) as G.
    exact G.
  - apply Forall_forall. intros x Hx. destruct (Hys x Hx) as (H1 & H2 & H3). split; [done|].
    apply Hasleep; [|done]. by apply list_elem_of_fmap_2.
Qed.

(** C9. Alarms included, [sched_pick_next] ends within one turn of the list
    when the process it starts from is not dead: it selects the idle task or a
    process of the list that is runnable, and keeps the process table, the
    signal queues and the heap well formed.  Its assertion holds; the only other
    outcome is the panic of [kmalloc] on a full heap, while it queues an alarm
    signal. *)
Theorem sched_pick_next_safe k m own a l w b :
  kernel_ok k m own (a ++ (l, w) :: b) -> last_element k = l -> dead k w = false ->
  pick_good (a ++ (l, w) :: b) (sched_pick_next (length (a ++ (l, w) :: b)) k).
Proof. apply sched_pick_good. Qed.

(** ** Creation *)

Lemma kernel_ok_own k m own own' xs st :
  kernel_ok k m own xs -> own ⊆ own' -> ls_rep st m own' -> kernel_ok (set_store st k) m own' xs.
Proof.
  intros [R L V P E] Hsub R'. split; simpl; try done.
  intros v Hv. eapply proc_ok_mono; eauto.
Qed.

(** The kernel after [add_proc], with the store left open. *)
Definition added (p : Z) (pr : proc) (st : St) (k : kernel St) : kernel St :=
  set_store st (set_semas (<[signal_sema_of p := 0]> (k_semas k))
                  (set_procs (<[p := pr]> (k_procs k)) k)).

Lemma add_proc_ok k m own xs p pr :
  kernel_ok k m own xs -> p ∈ own -> 0 < p < 65536 -> p ∉ xs.*2 -> p_sema_blocked pr = 0 ->
  match add_proc p pr k with
  | Ret k' => exists n m', kernel_ok k' m' own (xs ++ [(n, p)]) /\ k' = added p pr (k_store k') k
  | Panic msg => msg = HEAP_FULL
  | _ => False
  end.
Proof.
  intros K Hown Hr Hnew Hb. unfold add_proc. simpl.
  pose proof (ls_init_ok _ _ _ (signal_queue_of p) (kok_rep _ _ _ _ K)) as R1.
  set (m1 := <[signal_queue_of p := []]> m) in *.
  assert (L1 : m1 !! PROC_LIST = Some xs).
  { unfold m1. rewrite lookup_insert_ne by (by apply signal_queue_not_global). apply K. }
  pose proof (ls_append_safe _ _ _ PROC_LIST p R1 (mk_is_Some _ _ L1)) as Hsafe.
  destruct (ls_append _ PROC_LIST p) as [st| | | |] eqn:Ea; try done. simpl.
  destruct (ls_append_ok _ _ _ _ _ _ _ R1 L1 Ea) as (n & Hn & R2).
  exists n, (<[PROC_LIST := xs ++ [(n, p)]]> m1). split; [|done].
  destruct K as [R L V P E]. split; simpl.
  - done.
  - by rewrite lookup_insert_eq.
  - rewrite fmap_app. apply NoDup_app. split_and!; [done| |apply NoDup_singleton]. set_solver.
  - rewrite fmap_app. simpl. intros v [Hv| ->%list_elem_of_singleton]%elem_of_app.
    + assert (v <> p) by congruence.
      eapply proc_ok_mono; [by apply P|done|..]; simpl; unfold m1; eauto using is_Some_insert.
      intros q Hq. rewrite lookup_insert_ne by done. eauto.
    + split; simpl; rewrite ?lookup_insert_eq; eauto.
      unfold m1. apply is_Some_insert. rewrite lookup_insert_eq. eauto.
  - rewrite fmap_app. set_solver.
Qed.

(** Pids are positive and were given out by [pid_now]. *)
Definition pids_ok (k : kernel St) (xs : list (Z * Z)) : Prop :=
  0 <= pid_now k /\ forall v p, v ∈ xs.*2 -> k_procs k !! v = Some p -> 0 < p_pid p <= pid_now k.

(** The search returns a process of the list or the null pointer. *)
Lemma proc_by_pid_ok k m own xs pid : kernel_ok k m own xs ->
  exists r, proc_by_pid pid k = Ret r /\ (r = 0 \/ r ∈ xs.*2).
Proof.
  intros K. unfold proc_by_pid.
  rewrite (ls_nodes_ok _ _ _ _ _ (kok_rep _ _ _ _ K) (kok_list _ _ _ _ K)). cbn [mbind outcome_bind].
  assert (Hp : Forall (fun v => is_Some (k_procs k !! v)) xs.*2).
  { apply Forall_forall. intros v Hv. destruct (kok_procs _ _ _ _ K v Hv) as [_ _ (p & Hp & _) _ _]. by exists p. }
  clear K. induction xs as [|[n v] xs IH]; simpl; [eauto|].
  apply Forall_cons in Hp as [[p Hp] Hxs]. simpl in Hp. rewrite (deref_Some _ _ _ Hp). cbn [mbind outcome_bind].
  destruct (_ =? pid); [exists v; set_solver|]. destruct (IH Hxs) as (r & -> & Hr). exists r. set_solver.
Qed.

Lemma find_pid_spec procs pid xs1 n v xs2 p :
  (forall w, w ∈ xs1.*2 -> exists q, procs !! w = Some q /\ p_pid q <> pid) ->
  procs !! v = Some p -> p_pid p = pid ->
  find_pid procs pid (xs1 ++ (n, v) :: xs2) = Ret v.
Proof.
  intros Hxs Hp Hpid. induction xs1 as [|[n1 w] xs1 IH]; simpl.
  - rewrite (deref_Some _ _ _ Hp). simpl. by rewrite Hpid, Z.eqb_refl.
  - destruct (Hxs w) as (q & Hq & Hne); [set_solver|].
    rewrite (deref_Some _ _ _ Hq). simpl. rewrite (eqb_ne _ _ Hne). apply IH. set_solver.
Qed.

(** A new process is at the end of the list, under a pid no other process has,
    and the descriptors and semaphores of the others are as they were. *)
Definition process_added (k : kernel St) (own : gset Z) (xs : list (Z * Z)) (p : Z) (pr : proc)
    (k' : kernel St) : Prop :=
  (exists n m', kernel_ok k' m' ({[p]} ∪ own) (xs ++ [(n, p)]) /\ pids_ok k' (xs ++ [(n, p)])) /\
  (p ∉ own) /\ k_procs k' = <[p := pr]> (k_procs k) /\
  k_semas k' = <[signal_sema_of p := 0]> (k_semas k) /\
  p_pid pr = pid_now k + 1 /\ pid_now k' = pid_now k + 1 /\
  proc_by_pid (pid_now k + 1) k' = Ret p.

Lemma add_proc_added k0 k m own xs p pr st :
  kernel_ok k0 m own xs -> pids_ok k0 xs -> pid_now k0 < 32767 ->
  ls_alloc (k_store k0) sizeof_proc = Ret (p, st) ->
  k_store k = st -> k_procs k = k_procs k0 -> k_semas k = k_semas k0 ->
  last_element k = last_element k0 -> pid_now k = i16 (pid_now k0 + 1) ->
  p_pid pr = i16 (pid_now k0 + 1) -> p_sema_blocked pr = 0 ->
  match add_proc p pr k with
  | Ret k' => process_added k0 own xs p pr k' /\ first_free_page k' = first_free_page k
  | Panic msg => msg = HEAP_FULL
  | _ => False
  end.
Proof.
  intros K [Hp0 Hpids] Hlim Ha Est Epr Ese Ela Epn Hpid Hb.
  rewrite i16_small in * by lia.
  destruct (ls_alloc_ok _ _ _ _ _ _ (kok_rep _ _ _ _ K) sizeof_proc_u16 Ha) as (Hh & Hown & R1).
  assert (Hr : 0 < p < 65536) by lia.
  assert (Hnew : p ∉ xs.*2) by (intros Hin; apply Hown, (pok_own _ _ _ _ (kok_procs _ _ _ _ K _ Hin))).
  assert (K1 : kernel_ok k m ({[p]} ∪ own) xs).
  { destruct K as [R L V P E]. split; rewrite ?Est, ?Ela; try done.
    intros v Hv. eapply proc_ok_mono; [by apply P|set_solver|done|by rewrite Ese|].
    intros q Hq. rewrite Epr. eauto. }
  pose proof (add_proc_ok k m ({[p]} ∪ own) xs p pr K1) as Hadd.
  destruct (add_proc p pr k) as [k'| | | |]; try (apply Hadd; done || set_solver).
  destruct Hadd as (n & m' & K' & Ek'); [set_solver|done..|]. rewrite Ek'.
  assert (Hlk : forall v q, v ∈ xs.*2 -> k_procs k0 !! v = Some q -> p_pid q <> pid_now k0 + 1).
  { intros v q Hv Hq. specialize (Hpids v q Hv Hq). lia. }
  split; [|done]. rewrite Ek' in K'. split_and!; simpl; rewrite ?Epr, ?Ese; try done.
  - exists n, m'. split; [done|]. split; simpl; [lia|]. rewrite Epr, Epn. intros v q Hv Hq.
    apply lookup_insert_Some in Hq as [[<- <-]|[Hne Hq]]; [lia|].
    rewrite fmap_app in Hv. apply elem_of_app in Hv as [Hv|Hv%list_elem_of_singleton]; [|done].
    specialize (Hpids v q Hv Hq). lia.
  - unfold proc_by_pid. erewrite ls_nodes_ok; [|apply K'..]. simpl. rewrite Epr.
    eapply find_pid_spec; [|apply lookup_insert_eq|done].
    intros w Hw. destruct (pok_proc _ _ _ _ (kok_procs _ _ _ _ K w Hw)) as (q & Hq & _).
    exists q. rewrite lookup_insert_ne by congruence. split; [done|eauto].
Qed.

Lemma make_kernel_thread_added k m own xs junk name str entry :
  kernel_ok k m own xs -> pids_ok k xs -> pid_now k < 32767 ->
  length (p_name junk) = 16%nat -> cstr name 0 str ->
  match make_kernel_thread junk name entry k with
  | Ret (pid, k') => zlen str < 16 /\
      exists p pr, process_added k own xs p pr k' /\ pid = pid_now k + 1 /\
        p_state pr = PROC_STATE_RUNNABLE /\ p_type pr = PROC_TYPE_KERNEL /\
        pc (p_proc_state pr) = entry /\
        mem_pages (p_proc_state pr) = [0] ++ seqZ 0x201 14 ++ [first_free_page k] /\
        first_free_page k' = i16 (first_free_page k + 1) /\
        Forall (fun f => f_inode f = 0) (p_open_files pr) /\
        p_alarm_ticks pr = p_alarm_ticks junk
  | Panic msg => msg = HEAP_FULL
  | Fault => 16 <= zlen str
  | _ => False
  end.
Proof.
  intros K Hpids Hlim Hname Hstr. unfold make_kernel_thread.
  pose proof (ls_alloc_safe _ _ _ _ (kok_rep _ _ _ _ K) sizeof_proc_u16) as Hsafe.
  destruct (ls_alloc (k_store k) sizeof_proc) as [[p st]| | | |] eqn:Ea; try done. cbn -[strcpy add_proc seqZ replicate Z.of_nat].
  unfold strcpy. pose proof (cstr_length _ _ _ Hstr).
  rewrite (strcpy_loop_spec _ _ _ _ _ str) by (done || lia). rewrite Hname.
  case_decide as Hfit; [|simpl; lia]. cbn -[add_proc seqZ replicate].
  match goal with |- context [add_proc p ?pr ?k1] =>
    pose proof (add_proc_added k k1 m own xs p pr st K Hpids Hlim Ea) as Hadd;
    destruct (add_proc p pr k1) as [k'| | | |] end; try done; try (by apply Hadd); try (exfalso; by apply Hadd).
  destruct Hadd as [Hadd Hpage]; [done..|]. simpl. split; [lia|].
  eexists p, _. split; [exact Hadd|]. simpl. split_and!; try done.
  - rewrite i16_small; [done|]. destruct Hpids. lia.
  - apply Forall_fmap, Forall_true. done.
Qed.

(** [make_kernel_thread] adds one process at the end of the list, under
    the next pid, ready to run at [entry], with the kernel mapping except for
    the first page, which is illegal, and the stack page, which no earlier call
    has handed out; [proc_by_pid] finds it by the pid that is returned, and no
    other process changes.  Its [alarm_ticks] is whatever the memory held.  It
    fails only when the heap is full, and writes outside [name] when the name
    has more than 15 characters. *)
Theorem make_kernel_thread_spec k m own xs junk name str entry :
  kernel_ok k m own xs -> pids_ok k xs -> pid_now k < 32767 ->
  length (p_name junk) = 16%nat -> cstr name 0 str ->
  match make_kernel_thread junk name entry k with
  | Ret (pid, k') => zlen str < 16 /\
      exists p pr, process_added k own xs p pr k' /\ pid = pid_now k + 1 /\
        p_state pr = PROC_STATE_RUNNABLE /\ p_type pr = PROC_TYPE_KERNEL /\
        pc (p_proc_state pr) = entry /\
        mem_pages (p_proc_state pr) = [0] ++ seqZ 0x201 14 ++ [first_free_page k] /\
        first_free_page k' = i16 (first_free_page k + 1) /\
        Forall (fun f => f_inode f = 0) (p_open_files pr) /\
        p_alarm_ticks pr = p_alarm_ticks junk
  | Panic msg => msg = HEAP_FULL
  | Fault => 16 <= zlen str
  | _ => False
  end.
Proof. apply make_kernel_thread_added. Qed.

(** [sched_init_user_thread] adds one process at the end of the list,
    under the next pid and not yet runnable, with two fresh pages (its stack
    and its kernel stack), every other page unmapped, no open file and no
    pending signal; [proc_by_pid] finds it, and no other process changes. *)
Theorem sched_init_user_thread_spec k m own xs junk :
  kernel_ok k m own xs -> pids_ok k xs -> pid_now k < 32767 -> length (p_name junk) = 16%nat ->
  match sched_init_user_thread junk k with
  | Ret (p, k') => exists pr, process_added k own xs p pr k' /\
      p_state pr = PROC_STATE_UNLOADED /\ p_type pr = PROC_TYPE_USER /\
      mem_pages (p_proc_state pr) = replicate 15 0xff ++ [first_free_page k] /\
      p_kernel_stack_page pr = i16 (first_free_page k + 1) /\
      first_free_page k' = i16 (first_free_page k + 2) /\
      Forall (fun f => f_inode f = 0) (p_open_files pr) /\ p_signals_hold pr = 0
  | Panic msg => msg = HEAP_FULL
  | _ => False
  end.
Proof.
  intros K Hpids Hlim Hname. unfold sched_init_user_thread.
  pose proof (ls_alloc_safe _ _ _ _ (kok_rep _ _ _ _ K) sizeof_proc_u16) as Hsafe.
  destruct (ls_alloc (k_store k) sizeof_proc) as [[p st]| | | |] eqn:Ea; try done. simpl.
  rewrite arr_set_in by lia. cbn -[add_proc seqZ replicate].
  match goal with |- context [add_proc p ?pr ?k1] =>
    pose proof (add_proc_added k k1 m own xs p pr st K Hpids Hlim Ea) as Hadd;
    destruct (add_proc p pr k1) as [k'| | | |] end; try done; try (by apply Hadd); try (exfalso; by apply Hadd).
  destruct Hadd as [Hadd Hpage]; [done..|]. simpl.
  eexists _. split; [exact Hadd|]. simpl. split_and!; try done.
  - rewrite Hpage. simpl. rewrite i16_add_l. f_equal. lia.
  - apply Forall_fmap, Forall_true. done.
Qed.

Lemma scheduler_init_ok k m own junk idle_task :
  ls_rep (k_store k) m own -> last_element k = 0 -> length (p_name junk) = 16%nat ->
  exists k', scheduler_init junk idle_task k = Ret k' /\
    kernel_ok k' (<[PROC_LIST := []]> m) own [] /\ pids_ok k' [] /\
    last_element k' = 0 /\ pid_now k' = 0.
Proof.
  intros R Hl Hn. unfold scheduler_init, strcpy.
  rewrite (strcpy_loop_spec _ _ _ _ _ [105; 100; 108; 101]); [|apply (cstr_literal [105; 100; 108; 101] [])|..];
    [|repeat constructor; lia|simpl; lia|lia].
  rewrite decide_True by (rewrite Hn; simpl; lia). simpl. eexists. split; [done|]. split_and!; try done.
  - split; simpl; [by apply ls_init_ok|by rewrite lookup_insert_eq|constructor|set_solver|by left].
  - split; simpl; [lia|set_solver].
Qed.

(** A list of two processes, the scan standing at the first. *)
Lemma two_threads k m own junk name str entry pid k1 pid2 k2 :
  kernel_ok k m own [] -> pids_ok k [] -> pid_now k = 0 ->
  length (p_name junk) = 16%nat -> cstr name 0 str ->
  make_kernel_thread junk name entry k = Ret (pid, k1) ->
  make_kernel_thread junk name entry k1 = Ret (pid2, k2) ->
  exists n1 p1 n2 p2 m' own', kernel_ok (set_last_element n1 k2) m' own' [(n1, p1); (n2, p2)] /\
    p1 <> p2 /\ forall p pr, p ∈ [p1; p2] -> k_procs k2 !! p = Some pr ->
      p_state pr = PROC_STATE_RUNNABLE /\ p_alarm_ticks pr = p_alarm_ticks junk.
Proof.
  intros K P Hpid Hn Hs E1 E2.
  pose proof (make_kernel_thread_added k m own [] junk name str entry K P) as T1.
  rewrite E1 in T1. destruct T1 as (_ & p1 & pr1 & ((n1 & m1 & K1 & P1) & _ & Ep1 & _ & _ & Hpn & _) & _ & S1 & _ & _ & _ & _ & _ & A1);
    [lia|done..|].
  pose proof (make_kernel_thread_added k1 _ _ _ junk name str entry K1 P1) as T2.
  rewrite E2 in T2. destruct T2 as (_ & p2 & pr2 & ((n2 & m2 & K2 & P2) & Hnew & Ep2 & _) & _ & S2 & _ & _ & _ & _ & _ & A2);
    [lia|done..|].
  exists n1, p1, n2, p2, m2, ({[p2]} ∪ ({[p1]} ∪ own)). split_and!.
  - eapply (kernel_ok_last _ _ _ _ K2 n1 p1). set_solver.
  - set_solver.
  - intros p pr Hp. rewrite Ep2, Ep1. intros [[<- <-]|[Hne [[<- <-]|[Hne2 Hl]]%lookup_insert_Some]]%lookup_insert_Some;
      [done..|]. set_solver.
Qed.
End Sched.

(** ** Witnesses: a freshly booted kernel with two threads *)

Definition junk_state : proc_state := ProcState (replicate 8 0) 0 0 (replicate 16 0) (replicate 16 0).

Definition junk_proc : proc :=
  Proc 0 0 0 junk_state junk_state (replicate 16 0) 0 (replicate 16 (ProcFile 0 0 0 0)) 0 0 0 0 0 0.

Definition boot_kernel : kernel (store (list Z)) :=
  Kernel boot_store ∅ ∅ ∅ 0 0 0 0x211 false false 0 0x11.

(** The name "sysd". *)
Definition demo_name : list Z := [115; 121; 115; 100; 0].

Lemma demo_name_cstr : cstr demo_name 0 [115; 121; 115; 100].
Proof. apply (cstr_literal [115; 121; 115; 100] []). repeat constructor; lia. Qed.

Lemma boot_kernel_ok : exists k, scheduler_init junk_proc 0x100 boot_kernel = Ret k /\
  kernel_ok k (<[PROC_LIST := []]> ∅) ∅ [] /\ pids_ok k [] /\ last_element k = 0 /\ pid_now k = 0.
Proof. apply scheduler_init_ok; [apply boot_store_rep|done..]. Qed.

Definition two_threads_kernel : outcome (kernel (store (list Z))) :=
  k ← scheduler_init junk_proc 0x100 boot_kernel;
  '(_, k) ← make_kernel_thread junk_proc demo_name 0x200 k;
  '(_, k) ← make_kernel_thread junk_proc demo_name 0x200 k;
  Ret k.

Lemma two_threads_ok :
  exists k n1 p1 n2 p2 m own, two_threads_kernel = Ret k /\
    kernel_ok (set_last_element n1 k) m own [(n1, p1); (n2, p2)] /\ p1 <> p2 /\
    forall p pr, p ∈ [p1; p2] -> k_procs k !! p = Some pr ->
      p_state pr = PROC_STATE_RUNNABLE /\ p_alarm_ticks pr = 0.
Proof.
  destruct boot_kernel_ok as (k0 & E0 & K0 & P0 & _ & Hp0).
  assert (exists k, two_threads_kernel = Ret k) as [k Hk] by (eexists; vm_compute; reflexivity).
  exists k. pose proof Hk as R. unfold two_threads_kernel in R. rewrite E0 in R. simpl in R. run_inv.
  destruct (two_threads k0 _ _ junk_proc demo_name _ 0x200 _ _ _ _ K0 P0 Hp0 eq_refl demo_name_cstr E E1)
    as (n1 & p1 & n2 & p2 & m & own & K & Hne & Hpr).
  exists n1, p1, n2, p2, m, own. split_and!; done.
Qed.

(** A test of the two threads by evaluation *)
Definition on_two_threads (f : kernel (store (list Z)) -> Z -> Z -> Z -> bool) : bool :=
  match two_threads_kernel with
  | Ret k => match ls_nodes (k_store k) PROC_LIST with Ret [(n1, p1); (_, p2)] => f k n1 p1 p2 | _ => false end
  | _ => false
  end.


Lemma two_threads_eval f k n1 p1 n2 p2 m own :
  two_threads_kernel = Ret k -> kernel_ok (set_last_element n1 k) m own [(n1, p1); (n2, p2)] ->
  on_two_threads f = true -> f k n1 p1 p2 = true.
Proof.
  intros E K. unfold on_two_threads. rewrite E.
  pose proof (ls_nodes_ok _ _ _ _ _ (kok_rep _ _ _ _ K) (kok_list _ _ _ _ K)) as N.
  change (k_store (set_last_element n1 k)) with (k_store k) in N. by rewrite N.
Qed.

(** Both threads run; with the first on the core, the second is next. *)
Lemma sched_pick_next_round_robin_witness :
  exists (k : kernel (store (list Z))) n2 p2, sched_pick_next 2 k = Ret (picked k n2 p2).
Proof.
  destruct two_threads_ok as (k & n1 & p1 & n2 & p2 & m & own & _ & K & _ & Hpr).
  exists (set_last_element n1 k), n2, p2.
  pose proof (sched_pick_next_round_robin (set_last_element n1 k) m own [] n1 p1 [(n2, p2)] K) as T.
  destruct (scan_proc _ _ _ _ K n2 p2) as [pr2 Hp2]; [set_solver|].
  cbv zeta in T. unfold next_eligible in T. simpl in T.
  assert (eligible (set_last_element n1 k) p2 = true) as He.
  { unfold eligible. rewrite Hp2. destruct (Hpr p2 pr2) as [-> _]; [set_solver|done|done]. }
  rewrite decide_True in T by exact He. apply T; [|reflexivity].
  intros v p Hv Hp _. unfold alarm_due. simpl in Hp. destruct (Hpr v p) as [_ ->]; [set_solver|done|done].
Defined.

Lemma sched_pick_next_safe_witness :
  exists (k k' : kernel (store (list Z))) xs, sched_pick_next 2 k = Ret k' /\ pick_good xs (Ret k').
Proof.
  destruct two_threads_ok as (k & n1 & p1 & n2 & p2 & m & own & E & K & _ & Hpr).
  assert (on_two_threads (fun k n1 _ _ => returned (sched_pick_next 2 (set_last_element n1 k))) = true) as Ran by (vm_compute; reflexivity).
  apply (two_threads_eval _ _ _ _ _ _ _ _ E K) in Ran. clear E.
  exists (set_last_element n1 k).
  pose proof (sched_pick_next_safe (set_last_element n1 k) m own [] n1 p1 [(n2, p2)] K eq_refl) as G.
  simpl in G, Ran. destruct (sched_pick_next 2 (set_last_element n1 k)) as [k'| | | |]; try discriminate Ran.
  exists k', [(n1, p1); (n2, p2)]. split; [reflexivity|]. apply G.
  destruct (scan_proc _ _ _ _ K n1 p1) as [pr1 Hp1]; [set_solver|].
  unfold dead. rewrite Hp1. destruct (Hpr p1 pr1) as [-> _]; [set_solver|done|reflexivity].
Defined.

Lemma make_kernel_thread_spec_witness :
  exists (k : kernel (store (list Z))), match make_kernel_thread junk_proc demo_name 0x200 k with
  | Ret (pid, k') => zlen [115; 121; 115; 100] < 16 /\
      exists p pr, process_added k ∅ [] p pr k' /\ pid = pid_now k + 1 /\
        p_state pr = PROC_STATE_RUNNABLE /\ p_type pr = PROC_TYPE_KERNEL /\
        pc (p_proc_state pr) = 0x200 /\
        mem_pages (p_proc_state pr) = [0] ++ seqZ 0x201 14 ++ [first_free_page k] /\
        first_free_page k' = i16 (first_free_page k + 1) /\
        Forall (fun f => f_inode f = 0) (p_open_files pr) /\ p_alarm_ticks pr = 0
  | Panic msg => msg = HEAP_FULL
  | Fault => 16 <= zlen [115; 121; 115; 100]
  | _ => False
  end.
Proof.
  destruct boot_kernel_ok as (k0 & _ & K0 & P0 & _ & Hp0). exists k0.
  apply (make_kernel_thread_spec k0 _ ∅ [] junk_proc demo_name _ 0x200 K0 P0);
    [rewrite Hp0; lia|reflexivity|exact demo_name_cstr].
Defined.

Lemma sched_init_user_thread_spec_witness :
  exists (k : kernel (store (list Z))), match sched_init_user_thread junk_proc k with
  | Ret (p, k') => exists pr, process_added k ∅ [] p pr k' /\
      p_state pr = PROC_STATE_UNLOADED /\ p_type pr = PROC_TYPE_USER /\
      mem_pages (p_proc_state pr) = replicate 15 0xff ++ [first_free_page k] /\
      p_kernel_stack_page pr = i16 (first_free_page k + 1) /\
      first_free_page k' = i16 (first_free_page k + 2) /\
      Forall (fun f => f_inode f = 0) (p_open_files pr) /\ p_signals_hold pr = 0
  | Panic msg => msg = HEAP_FULL
  | _ => False
  end.
Proof.
  destruct boot_kernel_ok as (k0 & _ & K0 & P0 & _ & Hp0). exists k0.
  apply (sched_init_user_thread_spec k0 _ ∅ [] junk_proc K0 P0); [rewrite Hp0; lia|reflexivity].
Defined.

(** Both threads have exited, and the first was the one that ran. *)
Lemma sched_pick_next_diverges_witness :
  exists (k : kernel (store (list Z))), k_procs k <> ∅ /\ forall fuel, sched_pick_next fuel k = Hang.
Proof.
  destruct two_threads_ok as (k & n1 & p1 & n2 & p2 & m & own & _ & K & _ & Hpr).
  destruct (kernel_ok_upd_proc _ _ _ _ K p1 (set_p_state PROC_STATE_DEAD))
    as (pr1 & Hp1 & _ & K1); [set_solver|by right|].
  destruct (kernel_ok_upd_proc _ _ _ _ K1 p2 (set_p_state PROC_STATE_DEAD))
    as (pr2 & Hp2 & _ & K2); [set_solver|by right|].
  match type of K2 with kernel_ok ?k2 _ _ _ => set (kd := k2) in * end.
  assert (Hdead : forall v, v ∈ [p1; p2] -> exists p, k_procs kd !! v = Some p /\ p_state p = PROC_STATE_DEAD).
  { intros v Hv. unfold kd. simpl. destruct (decide (v = p2)) as [->|].
    - rewrite lookup_insert_eq. eauto.
    - rewrite lookup_insert_ne by done. assert (v = p1) as -> by set_solver.
      rewrite lookup_insert_eq. eauto. }
  exists kd. split.
  { intros E. destruct (Hdead p1) as (p & Hp & _); [set_solver|]. rewrite E in Hp. done. }
  intros fuel. apply (sched_pick_next_diverges kd m own [(n1, p1); (n2, p2)] fuel K2).
  - intros v p Hv Hp Hnd. destruct (Hdead v) as (p' & Hp' & Hd); [set_solver|]. congruence.
  - done.
  - intros v Hv. destruct (Hdead v) as (p' & Hp' & Hd); [set_solver|]. by eapply dead_not_eligible.
  - right. exists p1. split; [set_solver|]. unfold dead.
    destruct (Hdead p1) as (p & -> & ->); [set_solver|done].
Defined.
