(* ===== verification/Virtual.v ===== *)
(** * Virtual memory (kernel/proc/virtual.c)

    Physical memory is a map from page numbers to pages of 4096 bytes; a
    process reaches it through the sixteen entries of its page table.  The
    kernel reads and writes user memory through its own page 0, which it maps
    to one physical page after another.  The reference definitions translate
    every byte on its own; the theorems show that the copies by whole pages do
    the same. *)

From S2P Require Import Prelude Interfaces Kmalloc KList Proc CString Kernel Sched.

Definition PAGE_SIZE : Z := 0x1000.
Definition VIRT_PAGE_PART (addr : Z) : Z := Z.shiftr (u16 addr) 12.
Definition VIRT_LOCAL_PART (addr : Z) : Z := Z.land (u16 addr) 0x0fff.

Section Virtual.
Context {St : Type} `{ListStore St}.

(** [zero_page] is the physical page behind the kernel's page 0. *)
Record vm := Vm { v_kernel : kernel St; v_phys : gmap Z (list Z); zero_page : Z }.

Definition set_page0 (page : Z) (p : proc) : outcome proc :=
  mp ← arr_set (mem_pages (p_proc_state p)) 0 page;
  Ret (set_p_proc_state (set_mem_pages mp (p_proc_state p)) p).

Definition map_page_zero (page : Z) (v : vm) : outcome vm :=
  let k := v_kernel v in
  k ← (if scheduling_enabled k && negb (int_no_proc_modify k) then
         p ← deref (k_procs k) (current_proc k);
         p ← set_page0 page p;
         Ret (set_procs (<[current_proc k := p]> (k_procs k)) k)
       else Ret k);
  Ret (Vm k (v_phys v) page).

(** [map_page_zero(scheduling_enabled ? current_proc->proc_state.mem_pages[0] : ILLEGAL_PAGE)] *)
Definition unmap_page_zero (v : vm) : outcome vm :=
  if scheduling_enabled (v_kernel v) then
    p ← deref (k_procs (v_kernel v)) (current_proc (v_kernel v));
    pg ← arr_get (mem_pages (p_proc_state p)) 0;
    map_page_zero pg v
  else map_page_zero ILLEGAL_PAGE v.

(** The loops copy at least one byte per turn, so [size] is enough fuel.  The
    page table is the one of [proc->syscall_state]; [table] gives it from the
    kernel buffer, because a caller may copy into [syscall_state] itself. *)
Fixpoint from_loop (fuel : nat) (table : list Z -> list Z) (kbuff : list Z) (d ubuff size : Z) (v : vm)
  {struct fuel} : outcome (list Z * vm) :=
  if size =? 0 then Ret (kbuff, v)
  else
    match fuel with
    | O => Hang
    | S fuel =>
      page ← arr_get (table kbuff) (VIRT_PAGE_PART ubuff);
      v ← map_page_zero page v;
      let to_copy := Z.min size (PAGE_SIZE - VIRT_LOCAL_PART ubuff) in
      pg ← deref (v_phys v) (zero_page v);
      kbuff ← memcpy kbuff d pg (VIRT_LOCAL_PART ubuff) to_copy;
      from_loop fuel table kbuff (d + to_copy) (u16 (ubuff + to_copy)) (size - to_copy) v
    end.

Definition memcpy_from_userspace (table : list Z -> list Z) (kbuff : list Z) (d ubuff size : Z) (v : vm)
  : outcome (list Z * vm) :=
  '(kbuff, v) ← from_loop (Z.to_nat size) table kbuff d ubuff size v;
  v ← unmap_page_zero v;
  Ret (kbuff, v).

(** [kbuff] is read again in every turn: a caller may copy from the descriptor
    of the current process, which [map_page_zero] changes. *)
Fixpoint to_loop (fuel : nat) (table : list Z) (ubuff : Z) (kbuff : vm -> list Z) (s size : Z) (v : vm)
  {struct fuel} : outcome vm :=
  if size =? 0 then Ret v
  else
    match fuel with
    | O => Hang
    | S fuel =>
      page ← arr_get table (VIRT_PAGE_PART ubuff);
      v ← map_page_zero page v;
      let to_copy := Z.min size (PAGE_SIZE - VIRT_LOCAL_PART ubuff) in
      pg ← deref (v_phys v) (zero_page v);
      pg ← memcpy pg (VIRT_LOCAL_PART ubuff) (kbuff v) s to_copy;
      let v := Vm (v_kernel v) (<[zero_page v := pg]> (v_phys v)) (zero_page v) in
      to_loop fuel table (u16 (ubuff + to_copy)) kbuff (s + to_copy) (size - to_copy) v
    end.

Definition memcpy_to_userspace (table : list Z) (ubuff : Z) (kbuff : vm -> list Z) (s size : Z) (v : vm)
  : outcome vm :=
  v ← to_loop (Z.to_nat size) table ubuff kbuff s size v;
  unmap_page_zero v.

Definition load_into_userspace (page : Z) (data : list Z) (s size offset : Z) (v : vm) : outcome vm :=
  _ ← ASSERT (u16 (offset + size) <=? PAGE_SIZE);
  v ← map_page_zero page v;
  pg ← deref (v_phys v) (zero_page v);
  pg ← memcpy pg offset data s size;
  map_page_zero ILLEGAL_PAGE (Vm (v_kernel v) (<[zero_page v := pg]> (v_phys v)) (zero_page v)).

Definition load_into_userspace_program (page : Z) (data : list Z) (s size offset : Z) (v : vm) : outcome vm :=
  _ ← ASSERT (u16 (offset + size) <=? PAGE_SIZE);
  _ ← ASSERT (Z.land size 3 =? 0);
  v ← map_page_zero page v;
  pg ← deref (v_phys v) (zero_page v);
  pg ← memcpy pg offset data s size;
  map_page_zero ILLEGAL_PAGE (Vm (v_kernel v) (<[zero_page v := pg]> (v_phys v)) (zero_page v)).

Definition get_proc_addr_page (pid addr : Z) (k : kernel St) : outcome Z :=
  if pid =? 0 then Ret (0x200 + VIRT_PAGE_PART addr)
  else
    proc ← proc_by_pid pid k;
    if proc =? 0 then Ret ILLEGAL_PAGE
    else
      p ← deref (k_procs k) proc;
      if (p_state p =? PROC_STATE_SYSCALL) || (p_state p =? PROC_STATE_SYSCALL_BLOCKED)
      then arr_get (mem_pages (p_syscall_state p)) (VIRT_PAGE_PART addr)
      else arr_get (mem_pages (p_proc_state p)) (VIRT_PAGE_PART addr).

(** ** Reference: byte by byte *)

Definition translate (table : list Z) (a : Z) : option (Z * Z) :=
  page ← table !! Z.to_nat (VIRT_PAGE_PART a);
  Some (page, VIRT_LOCAL_PART a).

Definition user_byte (table : list Z) (phys : gmap Z (list Z)) (a : Z) : option Z :=
  '(page, local) ← translate table a;
  pg ← phys !! page;
  pg !! Z.to_nat local.

(** [n] bytes from address [u] on, around the end of the address space. *)
Fixpoint user_bytes (table : list Z) (phys : gmap Z (list Z)) (u : Z) (n : nat) : option (list Z) :=
  match n with
  | O => Some []
  | S n =>
    b ← user_byte table phys u;
    bs ← user_bytes table phys (u16 (u + 1)) n;
    Some (b :: bs)
  end.

Definition user_poke (table : list Z) (phys : gmap Z (list Z)) (a b : Z) : option (gmap Z (list Z)) :=
  '(page, local) ← translate table a;
  pg ← phys !! page;
  if decide (Z.to_nat local < length pg)%nat
  then Some (<[page := <[Z.to_nat local := b]> pg]> phys) else None.

Fixpoint user_write (table : list Z) (phys : gmap Z (list Z)) (u : Z) (bs : list Z)
  : option (gmap Z (list Z)) :=
  match bs with
  | [] => Some phys
  | b :: bs => phys ← user_poke table phys u b; user_write table phys (u16 (u + 1)) bs
  end.

(** ** Addresses *)

Lemma page_part_div a : is_u16 a -> VIRT_PAGE_PART a = a / 4096.
Proof. intros. unfold VIRT_PAGE_PART. rewrite u16_small, Z.shiftr_div_pow2 by lia. done. Qed.

Lemma local_part_mod a : is_u16 a -> VIRT_LOCAL_PART a = a mod 4096.
Proof.
  intros. unfold VIRT_LOCAL_PART. rewrite u16_small by lia.
  change 0x0fff with (Z.ones 12). by rewrite Z.land_ones by lia.
Qed.

(** Bytes of the same page are translated together. *)
Lemma translate_same_page table u i :
  is_u16 u -> 0 <= i < 4096 - VIRT_LOCAL_PART u ->
  translate table (u16 (u + i)) =
    (page ← table !! Z.to_nat (VIRT_PAGE_PART u); Some (page, VIRT_LOCAL_PART u + i)).
Proof.
  intros Hu Hi. rewrite local_part_mod in * by done.
  assert (is_u16 (u + i)) by zlia. unfold translate. rewrite (u16_small (u + i)) by done.
  rewrite !page_part_div, !local_part_mod by done.
  replace ((u + i) / 4096) with (u / 4096) by zlia.
  by replace ((u + i) mod 4096) with (u mod 4096 + i) by zlia.
Qed.

Lemma u16_add_assoc u i j : u16 (u16 (u + i) + j) = u16 (u + (i + j)).
Proof. unfold u16. rewrite Z.add_mod_idemp_l by lia. f_equal. lia. Qed.

Lemma user_bytes_lookup table phys u n bs :
  is_u16 u -> user_bytes table phys u n = Some bs ->
  length bs = n /\ forall i, (i < n)%nat -> bs !! i = user_byte table phys (u16 (u + Z.of_nat i)).
Proof.
  revert u bs. induction n as [|n IH]; intros u bs Hu Hb; simpl in Hb.
  - simplify_eq. split; [done|lia].
  - destruct (user_byte table phys u) as [b|] eqn:Eb; [|done]. simpl in Hb.
    destruct (user_bytes table phys (u16 (u + 1)) n) as [bs'|] eqn:E; [|done]. simplify_eq/=.
    destruct (IH _ _ (u16_range _) E) as [<- Hl]. split; [done|].
    intros [|i] Hi; simpl.
    + by rewrite Z.add_0_r, u16_small.
    + rewrite Hl by lia. rewrite u16_add_assoc. do 2 f_equal. lia.
Qed.

Lemma user_bytes_app table phys u n1 n2 bs :
  is_u16 u -> user_bytes table phys u (n1 + n2) = Some bs ->
  exists bs1 bs2, bs = bs1 ++ bs2 /\ user_bytes table phys u n1 = Some bs1 /\
    user_bytes table phys (u16 (u + Z.of_nat n1)) n2 = Some bs2.
Proof.
  revert u bs. induction n1 as [|n1 IH]; intros u bs Hu Hb; simpl in Hb.
  - exists [], bs. simpl. rewrite Z.add_0_r, u16_small by done. done.
  - simpl. destruct (user_byte table phys u) as [b|] eqn:Eb; [|done]. simpl in *.
    destruct (user_bytes table phys (u16 (u + 1)) (n1 + n2)) as [bs'|] eqn:E; [|done]. simplify_eq/=.
    destruct (IH _ _ (u16_range _) E) as (bs1 & bs2 & -> & -> & E2).
    exists (b :: bs1), bs2. split_and!; [done..|]. rewrite <-E2, u16_add_assoc. do 2 f_equal. lia.
Qed.

(** A chunk that stays in one page is a segment of that page. *)
Lemma user_bytes_page table phys u n bs :
  is_u16 u -> (0 < n)%nat -> Z.of_nat n <= 4096 - VIRT_LOCAL_PART u ->
  user_bytes table phys u n = Some bs ->
  exists page pg post, arr_get table (VIRT_PAGE_PART u) = Ret page /\ phys !! page = Some pg /\
    pg = take (Z.to_nat (VIRT_LOCAL_PART u)) pg ++ bs ++ post /\
    VIRT_LOCAL_PART u = zlen (take (Z.to_nat (VIRT_LOCAL_PART u)) pg).
Proof.
  intros Hu Hn Hl Hb. destruct (user_bytes_lookup _ _ _ _ _ Hu Hb) as [Hlen Hlk].
  assert (0 <= VIRT_LOCAL_PART u < 4096) by (rewrite local_part_mod by done; zlia).
  assert (0 <= VIRT_PAGE_PART u) by (rewrite page_part_div by done; zlia).
  assert (Hi : forall i, (i < n)%nat -> exists page pg, table !! Z.to_nat (VIRT_PAGE_PART u) = Some page /\
            phys !! page = Some pg /\ bs !! i = pg !! (Z.to_nat (VIRT_LOCAL_PART u) + i)%nat).
  { intros i Hi. specialize (Hlk i Hi). unfold user_byte in Hlk.
    rewrite translate_same_page in Hlk by (done || lia).
    destruct (lookup_lt_is_Some_2 bs i) as [b Hbi]; [lia|]. rewrite Hbi in Hlk. symmetry in Hlk.
    destruct (table !! Z.to_nat (VIRT_PAGE_PART u)) as [page|] eqn:Et; [|done]. simpl in Hlk.
    destruct (phys !! page) as [pg|] eqn:Ep; [|done]. simpl in Hlk.
    exists page, pg. rewrite Hbi, <-Hlk. split_and!; [done..|]. f_equal. lia. }
  destruct (Hi 0%nat) as (page & pg & Et & Ep & _); [done|].
  set (o := Z.to_nat (VIRT_LOCAL_PART u)) in *.
  assert (Hseg : take n (drop o pg) = bs).
  { apply list_eq_same_length with n; [done| |].
    - rewrite length_take, length_drop. destruct (Hi (n - 1)%nat) as (page' & pg' & Et' & Ep' & Eb); [lia|].
      assert (pg' = pg) as -> by congruence.
      destruct (lookup_lt_is_Some_2 bs (n - 1)) as [b Hbi]; [lia|]. rewrite Hbi in Eb.
      symmetry in Eb. apply lookup_lt_Some in Eb. lia.
    - intros i x y Hin Hx Hy. rewrite lookup_take, lookup_drop, decide_True in Hx by done.
      destruct (Hi i) as (page' & pg' & Et' & Ep' & Eb); [done|]. congruence. }
  exists page, pg, (drop n (drop o pg)). split_and!; [|done|..].
  - apply arr_get_Ret. done.
  - by rewrite <-Hseg, take_drop, take_drop.
  - rewrite length_take. destruct (Hi 0%nat) as (page' & pg' & Et' & Ep' & Eb); [done|].
    destruct (lookup_lt_is_Some_2 bs 0) as [b Hbi]; [lia|]. rewrite Hbi in Eb.
    symmetry in Eb. apply lookup_lt_Some in Eb. assert (pg' = pg) by congruence. subst pg'. lia.
Qed.

(** ** Mapping page 0 *)

Definition page0 (page : Z) (p : proc) : proc :=
  set_p_proc_state (set_mem_pages (<[0%nat := page]> (mem_pages (p_proc_state p))) (p_proc_state p)) p.

(** While threads are scheduled, the current one has a page table. *)
Definition current_ok (k : kernel St) : Prop :=
  scheduling_enabled k = true ->
  exists p, k_procs k !! current_proc k = Some p /\ (0 < length (mem_pages (p_proc_state p)))%nat.

Definition mapped (page : Z) (v : vm) : vm :=
  let k := v_kernel v in
  Vm (if scheduling_enabled k && negb (int_no_proc_modify k)
      then set_procs (alter (page0 page) (current_proc k) (k_procs k)) k else k)
    (v_phys v) page.

Lemma map_page_zero_ok page v :
  current_ok (v_kernel v) -> map_page_zero page v = Ret (mapped page v) /\ current_ok (v_kernel (mapped page v)).
Proof.
  intros Hc. unfold map_page_zero, mapped. destruct v as [k ph z]; simpl in *.
  destruct (scheduling_enabled k) eqn:Es; simpl; [|done].
  destruct (Hc Es) as (p & Hp & Hl). destruct (int_no_proc_modify k) eqn:Ei; simpl; [done|].
  rewrite (deref_Some _ _ _ Hp). simpl. unfold set_page0. rewrite arr_set_in by lia. simpl. split.
  - do 2 f_equal. f_equal. apply map_eq. intros j. destruct (decide (j = current_proc k)) as [->|].
    + by rewrite lookup_insert_eq, lookup_alter_eq, Hp.
    + by rewrite lookup_insert_ne, lookup_alter_ne by done.
  - intros _. simpl. rewrite lookup_alter_eq, Hp. simpl. eexists. split; [done|]. simpl.
    by rewrite length_insert.
Qed.

Lemma mapped_mapped p q v : mapped p (mapped q v) = mapped p v.
Proof.
  destruct v as [k ph z]. unfold mapped; simpl.
  destruct (scheduling_enabled k && negb (int_no_proc_modify k)) eqn:E; simpl; rewrite ?E; [|done].
  unfold set_procs. simpl. do 2 f_equal. apply map_eq. intros j.
  destruct (decide (j = current_proc k)) as [->|]; [|by rewrite !lookup_alter_ne by done].
  rewrite !lookup_alter_eq. destruct (k_procs k !! current_proc k) as [x|]; simpl; [|done].
  unfold page0, set_p_proc_state, set_mem_pages. simpl. by rewrite list_insert_insert_eq.
Qed.

(** The mapping of page 0 after a copy whose last page was [page], and before
    it if nothing was copied. *)
Definition unmapped (v : vm) : vm :=
  let k := v_kernel v in
  if scheduling_enabled k then
    match k_procs k !! current_proc k with
    | Some p => match mem_pages (p_proc_state p) !! 0%nat with Some pg => mapped pg v | None => v end
    | None => v
    end
  else mapped ILLEGAL_PAGE v.

Lemma unmap_page_zero_ok v : current_ok (v_kernel v) -> unmap_page_zero v = Ret (unmapped v).
Proof.
  intros Hc. unfold unmap_page_zero, unmapped. pose proof Hc as Hc'.
  destruct (scheduling_enabled (v_kernel v)) eqn:E; [|by apply map_page_zero_ok].
  destruct (Hc E) as (p & Hp & Hl). rewrite (deref_Some _ _ _ Hp), Hp. simpl.
  destruct (arr_get_in (mem_pages (p_proc_state p)) 0) as (pg & -> & Hpg); [lia|].
  change (Z.to_nat 0) with 0%nat in Hpg. rewrite Hpg. by apply map_page_zero_ok.
Qed.

(** ** Copies from user memory *)

(** The page of the last byte of a copy of [n] bytes. *)
Definition last_page (table : list Z) (u : Z) (n : nat) : Z :=
  nth (Z.to_nat (VIRT_PAGE_PART (u16 (u + Z.of_nat n - 1)))) table 0.

Lemma nth_arr_get (table : list Z) i x : arr_get table i = Ret x -> nth (Z.to_nat i) table 0 = x.
Proof. intros [_ E]%arr_get_Ret. rewrite nth_lookup, E. done. Qed.

(** One turn of a copy: the bytes of the first page, then the others. *)
Lemma copy_turn table phys u n bs :
  is_u16 u -> (0 < n)%nat -> user_bytes table phys u n = Some bs ->
  let t := Z.to_nat (Z.min (Z.of_nat n) (PAGE_SIZE - VIRT_LOCAL_PART u)) in
  exists page pg pre bs1 post bs2, (0 < t <= n)%nat /\
    arr_get table (VIRT_PAGE_PART u) = Ret page /\ phys !! page = Some pg /\
    pg = pre ++ bs1 ++ post /\ VIRT_LOCAL_PART u = zlen pre /\ length bs1 = t /\
    bs = bs1 ++ bs2 /\ user_bytes table phys (u16 (u + Z.of_nat t)) (n - t) = Some bs2 /\
    page = last_page table u t.
Proof.
  intros Hu Hn Hb t.
  assert (Hloc : 0 <= VIRT_LOCAL_PART u < 4096) by (rewrite local_part_mod by done; zlia).
  assert (Ht : (0 < t <= n)%nat) by (unfold t, PAGE_SIZE; lia).
  replace n with (t + (n - t))%nat in Hb by lia.
  destruct (user_bytes_app _ _ _ _ _ _ Hu Hb) as (bs1 & bs2 & -> & E1 & E2).
  destruct (user_bytes_page table phys u t bs1) as (page & pg & post & Ea & Ep & Epg & Hpre);
    [done|lia|unfold t, PAGE_SIZE; lia|done|].
  destruct (user_bytes_lookup _ _ _ _ _ Hu E1) as [Hl1 _].
  exists page, pg, (take (Z.to_nat (VIRT_LOCAL_PART u)) pg), bs1, post, bs2. split_and!; try done; [lia..|].
  unfold last_page. symmetry. apply nth_arr_get.
  replace (VIRT_PAGE_PART (u16 (u + Z.of_nat t - 1))) with (VIRT_PAGE_PART u); [done|].
  rewrite local_part_mod in * by done. rewrite !page_part_div by (done || apply u16_range).
  unfold t, PAGE_SIZE in *. rewrite local_part_mod in * by done. zlia.
Qed.

Lemma last_page_shift table u t n :
  last_page table (u16 (u + Z.of_nat t)) n = last_page table u (t + n).
Proof.
  unfold last_page. do 3 f_equal. replace (u16 (u + Z.of_nat t) + Z.of_nat n - 1)
    with (u16 (u + Z.of_nat t) + (Z.of_nat n - 1)) by lia.
  rewrite u16_add_assoc. f_equal. lia.
Qed.

Lemma from_loop_spec fuel table kbuff d u n bs v :
  is_u16 u -> (n <= fuel)%nat -> (0 < n)%nat -> current_ok (v_kernel v) ->
  user_bytes table (v_phys v) u n = Some bs -> 0 <= d -> d + Z.of_nat n <= zlen kbuff ->
  from_loop fuel (fun _ => table) kbuff d u (Z.of_nat n) v =
    Ret (splice kbuff d bs, mapped (last_page table u n) v).
Proof.
  revert kbuff d u n bs v. induction fuel as [|fuel IH]; intros kbuff d u n bs v Hu Hf Hn Hc Hb Hd Hlen; [lia|].
  simpl from_loop. rewrite eqb_ne by lia.
  destruct (copy_turn _ _ _ _ _ Hu Hn Hb) as
    (page & pg & pre & bs1 & post & bs2 & Ht & Ea & Ep & Epg & Hpre & Hl1 & -> & E2 & Epage).
  set (t := Z.to_nat (Z.min (Z.of_nat n) (PAGE_SIZE - VIRT_LOCAL_PART u))) in *.
  rewrite Ea. simpl. destruct (map_page_zero_ok page v Hc) as [-> Hc1]. simpl.
  rewrite (deref_Some _ _ _ Ep). simpl.
  replace (Z.min (Z.of_nat n) (PAGE_SIZE - VIRT_LOCAL_PART u)) with (Z.of_nat t) by lia.
  rewrite Epg, Hpre. rewrite <-Hl1 at 1. rewrite memcpy_spec by lia. simpl.
  replace (Z.of_nat n - Z.of_nat t) with (Z.of_nat (n - t)) by lia.
  clearbody t. destruct (decide (n = t)) as [->|Hnt].
  - rewrite Nat.sub_diag in *. simpl in E2. simplify_eq. rewrite app_nil_r.
    by destruct fuel.
  - rewrite (IH _ _ _ _ bs2); try (done || lia || apply u16_range).
    + rewrite mapped_mapped, last_page_shift. replace (t + (n - t))%nat with n by lia.
      rewrite <-Hl1, splice_app by lia. done.
    + rewrite length_splice by lia. lia.
Qed.

(** ** Copies to user memory *)

Lemma user_poke_Some table phys a b phys' :
  is_u16 a -> user_poke table phys a b = Some phys' ->
  exists page pg, arr_get table (VIRT_PAGE_PART a) = Ret page /\ phys !! page = Some pg /\
    0 <= VIRT_LOCAL_PART a < zlen pg /\
    phys' = <[page := <[Z.to_nat (VIRT_LOCAL_PART a) := b]> pg]> phys.
Proof.
  intros Ha. unfold user_poke, translate.
  assert (0 <= VIRT_PAGE_PART a) by (rewrite page_part_div by done; zlia).
  assert (0 <= VIRT_LOCAL_PART a) by (rewrite local_part_mod by done; zlia).
  destruct (table !! Z.to_nat (VIRT_PAGE_PART a)) as [page|] eqn:Et; [|done]. simpl.
  destruct (phys !! page) as [pg|] eqn:Ep; [|done]. simpl. case_decide; [|done]. intros [= <-].
  exists page, pg. split_and!; try done; [by apply arr_get_Ret|lia].
Qed.

Lemma next_in_page u : is_u16 u -> 1 < 4096 - VIRT_LOCAL_PART u ->
  VIRT_PAGE_PART (u16 (u + 1)) = VIRT_PAGE_PART u /\ VIRT_LOCAL_PART (u16 (u + 1)) = VIRT_LOCAL_PART u + 1.
Proof.
  intros Hu Hl. rewrite !page_part_div, !local_part_mod in * by (done || apply u16_range). zlia.
Qed.

Lemma user_write_page table phys u b bs phys' :
  is_u16 u -> zlen (b :: bs) <= 4096 - VIRT_LOCAL_PART u ->
  user_write table phys u (b :: bs) = Some phys' ->
  exists page pg, arr_get table (VIRT_PAGE_PART u) = Ret page /\ phys !! page = Some pg /\
    0 <= VIRT_LOCAL_PART u /\ VIRT_LOCAL_PART u + zlen (b :: bs) <= zlen pg /\
    phys' = <[page := splice pg (VIRT_LOCAL_PART u) (b :: bs)]> phys.
Proof.
  revert phys u b. induction bs as [|b2 bs IH]; intros phys u b Hu Hl Hw; simpl in Hw;
    (destruct (user_poke table phys u b) as [phys1|] eqn:Ep; [|done]); simpl in Hw;
    destruct (user_poke_Some _ _ _ _ _ Hu Ep) as (page & pg & Ea & Epg & Hloc & Ephys1).
  - simplify_eq. exists page, pg. split_and!; try done; [lia|simpl; lia|].
    by rewrite <-splice_cons, splice_nil by lia.
  - destruct (next_in_page u Hu) as [Enp Enl]; [simpl in Hl; lia|].
    destruct (IH phys1 (u16 (u + 1)) b2) as (page2 & pg2 & Ea2 & Ep2 & _ & Hl2 & ->);
      [apply u16_range|rewrite Enl; simpl in *; lia|done|].
    rewrite Enp, Ea in Ea2. simplify_eq. rewrite lookup_insert_eq in Ep2. simplify_eq.
    rewrite length_insert in Hl2. rewrite Enl in *.
    exists page2, pg. split_and!; try done; [lia|simpl in *; lia|].
    rewrite insert_insert_eq. by rewrite splice_cons by lia.
Qed.

Lemma user_write_app table phys u bs1 bs2 :
  is_u16 u -> user_write table phys u (bs1 ++ bs2) =
    (phys1 ← user_write table phys u bs1; user_write table phys1 (u16 (u + zlen bs1)) bs2).
Proof.
  revert phys u. induction bs1 as [|b bs1 IH]; intros phys u Hu; simpl.
  - by rewrite Z.add_0_r, u16_small.
  - destruct (user_poke table phys u b) as [phys1|]; simpl; [|done].
    rewrite IH by apply u16_range. rewrite u16_add_assoc.
    by replace (1 + zlen bs1) with (Z.pos (Pos.of_succ_nat (length bs1))) by lia.
Qed.

Lemma to_loop_spec fuel table kpre bs kpost u v phys' :
  is_u16 u -> (length bs <= fuel)%nat -> bs <> [] -> current_ok (v_kernel v) ->
  user_write table (v_phys v) u bs = Some phys' ->
  to_loop fuel table u (fun _ => kpre ++ bs ++ kpost) (zlen kpre) (zlen bs) v =
    Ret (mapped (last_page table u (length bs)) (Vm (v_kernel v) phys' (zero_page v))).
Proof.
  revert kpre bs u v. induction fuel as [|fuel IH]; intros kpre bs u v Hu Hf Hn Hc Hw;
    [by destruct bs; simpl in *; [|lia]|].
  assert (Hloc : 0 <= VIRT_LOCAL_PART u < 4096) by (rewrite local_part_mod by done; zlia).
  set (t := Z.to_nat (Z.min (zlen bs) (PAGE_SIZE - VIRT_LOCAL_PART u))).
  assert (Ht : (0 < t <= length bs)%nat /\ Z.of_nat t <= 4096 - VIRT_LOCAL_PART u).
  { unfold t, PAGE_SIZE. destruct bs; simpl in *; [done|]. lia. }
  simpl to_loop. rewrite eqb_ne by lia.
  replace (Z.min (zlen bs) (PAGE_SIZE - VIRT_LOCAL_PART u)) with (Z.of_nat t) by lia.
  rewrite <-(take_drop t bs) in Hw. rewrite user_write_app in Hw by done.
  destruct (user_write table (v_phys v) u (take t bs)) as [phys1|] eqn:E1; [|done]. simpl in Hw.
  assert (Hlt : length (take t bs) = t) by (rewrite length_take; lia).
  destruct (take t bs) as [|b bs1] eqn:Etake; [simpl in Hlt; lia|].
  destruct (user_write_page table (v_phys v) u b bs1 phys1 Hu) as (page & pg & Ea & Ep & _ & Hl & ->); [lia|done|].
  rewrite Ea. simpl. destruct (map_page_zero_ok page v Hc) as [-> Hc1]. simpl.
  rewrite (deref_Some _ _ _ Ep). simpl.
  assert (Ebs : bs = (b :: bs1) ++ drop t bs) by (by rewrite <-Etake, take_drop).
  assert (Epage : page = last_page table u t).
  { unfold last_page. symmetry. apply nth_arr_get. rewrite <-Ea. f_equal.
    rewrite local_part_mod in * by done. rewrite !page_part_div by (done || apply u16_range). zlia. }
  rewrite (memcpy_at _ _ _ _ _ kpre (b :: bs1) (drop t bs ++ kpost))
    by (done || lia || (rewrite Ebs at 1; by rewrite <-app_assoc)).
  simpl mbind. cbn beta iota.
  assert (Hd : length (drop t bs) = (length bs - t)%nat) by (by rewrite length_drop).
  replace (zlen bs - Z.of_nat t) with (zlen (drop t bs)) by lia.
  destruct (decide (drop t bs = [])) as [En|Hne].
  - rewrite En in *. simpl in Hw, Hd. injection Hw as <-.
    assert (length bs = t) as -> by lia. rewrite Epage.
    destruct fuel; simpl; f_equal; unfold mapped; simpl; done.
  - replace (kpre ++ bs ++ kpost) with ((kpre ++ b :: bs1) ++ drop t bs ++ kpost)
      by (by rewrite <-Etake, <-(app_assoc kpre), (app_assoc (take t bs)), take_drop).
    replace (zlen kpre + Z.of_nat t) with (zlen (kpre ++ b :: bs1)) by (rewrite length_app; lia).
    rewrite IH; try done; [|apply u16_range|lia|].
    + simpl. rewrite last_page_shift. replace (t + length (drop t bs))%nat with (length bs) by lia.
      f_equal. rewrite <-(mapped_mapped _ page (Vm (v_kernel v) phys' (zero_page v))). done.
    + simpl. by rewrite Hlt in Hw.
Qed.

(** ** What a write changes *)

Lemma user_byte_poke table phys a b phys' a' :
  is_u16 a -> user_poke table phys a b = Some phys' ->
  user_byte table phys' a' =
    if decide (translate table a' = translate table a) then Some b else user_byte table phys a'.
Proof.
  intros Ha Hp. destruct (user_poke_Some _ _ _ _ _ Ha Hp) as (page & pg & Ea & Epg & Hloc & ->).
  apply arr_get_Ret in Ea as [_ Et]. unfold user_byte.
  assert (Hta : translate table a = Some (page, VIRT_LOCAL_PART a)) by (unfold translate; by rewrite Et).
  rewrite Hta. destruct (translate table a') as [[page' loc']|] eqn:Et'; simpl; [|done].
  assert (Hl' : 0 <= loc').
  { unfold translate in Et'. destruct (table !! Z.to_nat (VIRT_PAGE_PART a')); simplify_eq/=. unfold VIRT_LOCAL_PART. apply Z.land_nonneg. lia. }
  destruct (decide (page' = page)) as [->|Hne].
  - rewrite lookup_insert_eq. simpl. destruct (decide (loc' = VIRT_LOCAL_PART a)) as [->|Hnl].
    + rewrite decide_True by done. apply list_lookup_insert_eq. lia.
    + rewrite decide_False by congruence. rewrite Epg. simpl. apply list_lookup_insert_ne. lia.
  - rewrite lookup_insert_ne by done. by rewrite decide_False by congruence.
Qed.

(** The physical places of the [n] bytes from [u] on. *)
Definition places (table : list Z) (u : Z) (n : nat) : list (option (Z * Z)) :=
  (fun i => translate table (u16 (u + i))) <$> seqZ 0 (Z.of_nat n).

Lemma places_S table u n :
  is_u16 u -> places table u (S n) = translate table u :: places table (u16 (u + 1)) n.
Proof.
  intros Hu. unfold places. rewrite seqZ_cons by lia. rewrite fmap_cons, Z.add_0_r, u16_small by done.
  f_equal. replace (Z.pred (Z.of_nat (S n))) with (Z.of_nat n) by lia.
  change (Z.succ 0) with (1 + 0). rewrite <-(fmap_add_seqZ 1 0), <-list_fmap_compose.
  apply list_fmap_ext. intros _ i _. simpl. by rewrite u16_add_assoc.
Qed.

Lemma user_write_other table phys u bs phys' a :
  is_u16 u -> user_write table phys u bs = Some phys' ->
  translate table a ∉ places table u (length bs) ->
  user_byte table phys' a = user_byte table phys a.
Proof.
  revert phys u. induction bs as [|b bs IH]; intros phys u Hu Hw Hn; simpl in Hw; [by simplify_eq|].
  simpl length in Hn. rewrite places_S in Hn by done. apply not_elem_of_cons in Hn as [Hn1 Hn2].
  destruct (user_poke table phys u b) as [phys1|] eqn:Ep; [|done]. simpl in Hw.
  rewrite (IH phys1 (u16 (u + 1))) by (done || apply u16_range).
  rewrite (user_byte_poke _ _ _ _ _ a Hu Ep). by rewrite decide_False.
Qed.

Lemma user_write_read table phys u bs phys' :
  is_u16 u -> user_write table phys u bs = Some phys' -> NoDup (places table u (length bs)) ->
  user_bytes table phys' u (length bs) = Some bs.
Proof.
  revert phys u. induction bs as [|b bs IH]; intros phys u Hu Hw Hn; simpl in Hw; [done|].
  simpl length in Hn. rewrite places_S in Hn by done. apply NoDup_cons in Hn as [Hn1 Hn2].
  destruct (user_poke table phys u b) as [phys1|] eqn:Ep; [|done]. simpl in Hw. simpl.
  rewrite (user_write_other _ _ _ _ _ u (u16_range _) Hw Hn1).
  rewrite (user_byte_poke _ _ _ _ _ u Hu Ep), decide_True by done. simpl.
  by rewrite (IH phys1) by (done || apply u16_range).
Qed.

(** ** Accesses inside one page *)

Lemma user_write_in_page table phys u bs page pg :
  is_u16 u -> zlen bs <= 4096 - VIRT_LOCAL_PART u ->
  table !! Z.to_nat (VIRT_PAGE_PART u) = Some page -> phys !! page = Some pg -> length pg = 4096%nat ->
  user_write table phys u bs = Some (<[page := splice pg (VIRT_LOCAL_PART u) bs]> phys).
Proof.
  revert phys u pg. induction bs as [|b bs IH]; intros phys u pg Hu Hl Ht Hp Hpg; simpl.
  - rewrite splice_nil. by rewrite insert_id.
  - assert (Hloc : 0 <= VIRT_LOCAL_PART u < 4096) by (rewrite local_part_mod by done; zlia).
    unfold user_poke, translate. rewrite Ht. simpl. rewrite Hp. simpl.
    rewrite decide_True by lia. simpl.
    destruct bs as [|b2 bs].
    + simpl. by rewrite <-splice_cons, splice_nil by lia.
    + destruct (next_in_page u Hu) as [Enp Enl]; [simpl in Hl; lia|].
      rewrite (IH _ (u16 (u + 1)) (<[Z.to_nat (VIRT_LOCAL_PART u) := b]> pg)).
      * rewrite Enl, insert_insert_eq. by rewrite splice_cons by lia.
      * apply u16_range.
      * rewrite Enl. simpl in *. lia.
      * by rewrite Enp.
      * apply lookup_insert_eq.
      * by rewrite length_insert.
Qed.

Lemma user_bytes_in_page table phys u page pg pre bs post :
  is_u16 u -> zlen bs <= 4096 - VIRT_LOCAL_PART u ->
  table !! Z.to_nat (VIRT_PAGE_PART u) = Some page -> phys !! page = Some pg ->
  pg = pre ++ bs ++ post -> VIRT_LOCAL_PART u = zlen pre ->
  user_bytes table phys u (length bs) = Some bs.
Proof.
  revert u pre. induction bs as [|b bs IH]; intros u pre Hu Hl Ht Hp -> Hpre; simpl; [done|].
  unfold user_byte, translate. rewrite Ht. simpl. rewrite Hp, Hpre, Nat2Z.id. simpl.
  rewrite list_lookup_middle by done. simpl. destruct bs as [|b2 bs]; [done|].
  destruct (next_in_page u Hu) as [Enp Enl]; [simpl in Hl; lia|].
  rewrite (IH (u16 (u + 1)) (pre ++ [b])); try done.
  - apply u16_range.
  - rewrite Enl. simpl in *. lia.
  - by rewrite Enp.
  - by rewrite <-app_assoc.
  - rewrite Enl, length_app. simpl. lia.
Qed.

(** A read inside one page does not look at the page table again. *)
Lemma from_loop_in_page fuel table kbuff d u n bs v :
  is_u16 u -> (0 < n <= fuel)%nat -> Z.of_nat n <= 4096 - VIRT_LOCAL_PART u -> current_ok (v_kernel v) ->
  user_bytes (table kbuff) (v_phys v) u n = Some bs -> 0 <= d -> d + Z.of_nat n <= zlen kbuff ->
  exists page, from_loop fuel table kbuff d u (Z.of_nat n) v = Ret (splice kbuff d bs, mapped page v).
Proof.
  intros Hu Hn Hl Hc Hb Hd Hlen. destruct fuel as [|fuel]; [lia|]. simpl from_loop. rewrite eqb_ne by lia.
  destruct (user_bytes_page _ _ _ _ _ Hu (proj1 Hn) Hl Hb) as (page & pg & post & Ea & Ep & Epg & Hpre).
  destruct (user_bytes_lookup _ _ _ _ _ Hu Hb) as [Hlb _].
  exists page. rewrite Ea. simpl. destruct (map_page_zero_ok page v Hc) as [-> _]. simpl.
  rewrite (deref_Some _ _ _ Ep). simpl.
  replace (Z.min (Z.of_nat n) (PAGE_SIZE - VIRT_LOCAL_PART u)) with (Z.of_nat n) by (unfold PAGE_SIZE; lia).
  rewrite (memcpy_at _ _ _ _ _ _ bs post Epg Hpre) by lia. simpl. rewrite Z.sub_diag. by destruct fuel.
Qed.

(** While an interrupt is handled, mapping page 0 changes no descriptor, so a
    buffer inside a descriptor is constant. *)
Lemma mapped_irq page v : int_no_proc_modify (v_kernel v) = true -> v_kernel (mapped page v) = v_kernel v.
Proof. unfold mapped. simpl. intros ->. by rewrite andb_false_r. Qed.

Lemma to_loop_irq fuel table u f c s size v :
  current_ok (v_kernel v) -> int_no_proc_modify (v_kernel v) = true ->
  (forall v', v_kernel v' = v_kernel v -> f v' = c) ->
  to_loop fuel table u f s size v = to_loop fuel table u (fun _ => c) s size v.
Proof.
  revert u s size v. induction fuel as [|fuel IH]; intros u s size v Hc Hi Hf; [done|]. simpl.
  destruct (size =? 0); [done|]. destruct (arr_get table (VIRT_PAGE_PART u)) as [page| | | |]; try done.
  simpl. destruct (map_page_zero_ok page v Hc) as [-> Hc1]. simpl mbind. cbn beta iota.
  pose proof (mapped_irq page v Hi) as Ek.
  destruct (deref _ _) as [pg| | | |]; try done. simpl mbind. cbn beta iota.
  rewrite (Hf (mapped page v)) by done.
  destruct (memcpy _ _ _ _ _) as [pg'| | | |]; try done. simpl mbind. cbn beta iota.
  unfold mapped in Ek. simpl in Ek. apply IH; simpl; rewrite Ek; done.
Qed.

Lemma unmapped_irq v : int_no_proc_modify (v_kernel v) = true ->
  v_kernel (unmapped v) = v_kernel v /\ v_phys (unmapped v) = v_phys v.
Proof.
  intros Hi. unfold unmapped. repeat case_match; split; try done; by apply mapped_irq.
Qed.

Lemma memcpy_to_irq table u f bs v page pg :
  is_u16 u -> bs <> [] -> zlen bs <= 4096 - VIRT_LOCAL_PART u ->
  current_ok (v_kernel v) -> int_no_proc_modify (v_kernel v) = true ->
  (forall v', v_kernel v' = v_kernel v -> f v' = bs) ->
  table !! Z.to_nat (VIRT_PAGE_PART u) = Some page -> v_phys v !! page = Some pg -> length pg = 4096%nat ->
  exists z, memcpy_to_userspace table u f 0 (zlen bs) v =
    Ret (Vm (v_kernel v) (<[page := splice pg (VIRT_LOCAL_PART u) bs]> (v_phys v)) z).
Proof.
  intros Hu Hn Hl Hc Hi Hf Ht Hp Hpg. unfold memcpy_to_userspace.
  rewrite (to_loop_irq _ _ _ _ bs) by done.
  pose proof (user_write_in_page table (v_phys v) u bs page pg Hu Hl Ht Hp Hpg) as Hw.
  pose proof (to_loop_spec (Z.to_nat (zlen bs)) table [] bs [] u v _ Hu ltac:(lia) Hn Hc Hw) as Hto.
  simpl in Hto. change (Z.of_nat 0) with 0 in Hto. rewrite app_nil_r in Hto. rewrite Hto. simpl.
  set (v1 := Vm (v_kernel v) _ _).
  destruct (map_page_zero_ok (last_page table u (length bs)) v1 Hc) as [_ Hc1].
  rewrite unmap_page_zero_ok by done.
  pose proof (mapped_irq (last_page table u (length bs)) v1 Hi) as E1.
  destruct (unmapped_irq (mapped (last_page table u (length bs)) v1)) as [E2 E3]; [by rewrite E1|].
  exists (zero_page (unmapped (mapped (last_page table u (length bs)) v1))). f_equal.
  destruct (unmapped (mapped (last_page table u (length bs)) v1)) as [k' ph' z'] eqn:E. simpl in *.
  by rewrite E2, E1, E3.
Qed.

(** In a thread, the page of the last byte stays mapped. *)
Lemma unmapped_mapped page v :
  current_ok (v_kernel v) -> scheduling_enabled (v_kernel v) = true ->
  int_no_proc_modify (v_kernel v) = false -> unmapped (mapped page v) = mapped page v.
Proof.
  intros Hc Hs Hi. destruct (Hc Hs) as (p & Hp & Hl). unfold unmapped.
  assert (E : scheduling_enabled (v_kernel (mapped page v)) = true).
  { unfold mapped. rewrite Hs, Hi. done. }
  rewrite E. unfold mapped at 1 2. rewrite Hs, Hi. simpl. rewrite lookup_alter_eq, Hp. simpl.
  rewrite list_lookup_insert_eq by done. apply mapped_mapped.
Qed.

Lemma memcpy_to_thread_prefix table u bs rest v phys' :
  is_u16 u -> bs <> [] -> current_ok (v_kernel v) -> scheduling_enabled (v_kernel v) = true ->
  int_no_proc_modify (v_kernel v) = false -> user_write table (v_phys v) u bs = Some phys' ->
  memcpy_to_userspace table u (fun _ => bs ++ rest) 0 (zlen bs) v =
    Ret (mapped (last_page table u (length bs)) (Vm (v_kernel v) phys' (zero_page v))).
Proof.
  intros Hu Hn Hc Hs Hi Hw. unfold memcpy_to_userspace.
  pose proof (to_loop_spec (Z.to_nat (zlen bs)) table [] bs rest u v _ Hu ltac:(lia) Hn Hc Hw) as Hto.
  simpl in Hto. change (Z.of_nat 0) with 0 in Hto. rewrite Hto.
  cbn [mbind outcome_bind]. set (v1 := Vm (v_kernel v) _ _).
  destruct (map_page_zero_ok (last_page table u (length bs)) v1 Hc) as [_ Hc1].
  rewrite unmap_page_zero_ok by done. by rewrite (unmapped_mapped _ v1).
Qed.

Lemma memcpy_from_thread table kbuff d u n bs v :
  is_u16 u -> (0 < n)%nat -> current_ok (v_kernel v) -> scheduling_enabled (v_kernel v) = true ->
  int_no_proc_modify (v_kernel v) = false -> user_bytes table (v_phys v) u n = Some bs ->
  0 <= d -> d + Z.of_nat n <= zlen kbuff ->
  memcpy_from_userspace (fun _ => table) kbuff d u (Z.of_nat n) v =
    Ret (splice kbuff d bs, mapped (last_page table u n) v).
Proof.
  intros Hu Hn Hc Hs Hi Hb Hd Hl. unfold memcpy_from_userspace.
  rewrite (from_loop_spec _ table kbuff d u n bs v) by (done || lia). cbn [mbind outcome_bind].
  destruct (map_page_zero_ok (last_page table u n) v Hc) as [_ Hc1].
  rewrite unmap_page_zero_ok by done. by rewrite unmapped_mapped.
Qed.

(** ** Properties *)

(** C30. [memcpy_from_userspace] reads exactly the bytes a byte-by-byte
    translation through the page table of the process gives, across page
    boundaries and around the end of the address space, and changes no other
    byte of the kernel buffer and no user memory.  Afterwards the kernel's
    page 0 is illegal again before scheduling starts, but while threads are
    scheduled it stays mapped to the last user page that was read: the value it
    is "restored" from was overwritten by the copy. *)
Theorem memcpy_from_userspace_spec table kbuff d ubuff n bs v :
  is_u16 ubuff -> (0 < n)%nat -> current_ok (v_kernel v) ->
  user_bytes table (v_phys v) ubuff n = Some bs -> 0 <= d -> d + Z.of_nat n <= zlen kbuff ->
  exists v', memcpy_from_userspace (fun _ => table) kbuff d ubuff (Z.of_nat n) v
      = Ret (splice kbuff d bs, v') /\ v_phys v' = v_phys v /\
    (scheduling_enabled (v_kernel v) = false -> zero_page v' = ILLEGAL_PAGE) /\
    (scheduling_enabled (v_kernel v) = true -> int_no_proc_modify (v_kernel v) = false ->
     zero_page v' = last_page table ubuff n).
Proof.
  intros Hu Hn Hc Hb Hd Hl. unfold memcpy_from_userspace.
  rewrite (from_loop_spec _ table kbuff d ubuff n bs v) by (done || lia). simpl.
  destruct (map_page_zero_ok (last_page table ubuff n) v Hc) as [_ Hc1].
  rewrite unmap_page_zero_ok by done. simpl. eexists. split; [done|].
  unfold unmapped, mapped. destruct (scheduling_enabled (v_kernel v)) eqn:Es; simpl.
  - destruct (Hc Es) as (p & Hp & Hlp). destruct (int_no_proc_modify (v_kernel v)) eqn:Ei; simpl.
    + rewrite Es, Hp. destruct (mem_pages (p_proc_state p) !! 0%nat); simpl; done.
    + rewrite Es, lookup_alter_eq, Hp. simpl. rewrite list_lookup_insert_eq by lia. done.
  - rewrite Es. simpl. done.
Qed.

(** C31. [memcpy_to_userspace] has the effect of storing the bytes one by one
    through the page table of the process; when no two of the addresses share
    a physical place, [memcpy_from_userspace] reads the same bytes back, and
    every user byte at another place is unchanged. *)
Theorem memcpy_to_userspace_spec table kpre bs kpost ubuff v phys' :
  is_u16 ubuff -> bs <> [] -> current_ok (v_kernel v) ->
  user_write table (v_phys v) ubuff bs = Some phys' ->
  NoDup (places table ubuff (length bs)) ->
  exists v', memcpy_to_userspace table ubuff (fun _ => kpre ++ bs ++ kpost) (zlen kpre) (zlen bs) v = Ret v' /\
    v_phys v' = phys' /\
    (exists v'', memcpy_from_userspace (fun _ => table) (replicate (length bs) 0) 0 ubuff (zlen bs) v'
       = Ret (bs, v'')) /\
    forall a, translate table a ∉ places table ubuff (length bs) ->
      user_byte table phys' a = user_byte table (v_phys v) a.
Proof.
  intros Hu Hn Hc Hw Hnd. unfold memcpy_to_userspace.
  rewrite (to_loop_spec _ table kpre bs kpost ubuff v phys') by (done || lia). simpl.
  set (v1 := Vm (v_kernel v) phys' (zero_page v)).
  destruct (map_page_zero_ok (last_page table ubuff (length bs)) v1 Hc) as [_ Hc1].
  rewrite unmap_page_zero_ok by done. eexists. split; [done|].
  set (v2 := mapped (last_page table ubuff (length bs)) v1) in *.
  assert (Hv3 : v_phys (unmapped v2) = phys' /\ current_ok (v_kernel (unmapped v2))).
  { unfold unmapped. destruct (scheduling_enabled (v_kernel v2)) eqn:E.
    - destruct (Hc1 E) as (p & -> & _). destruct (mem_pages (p_proc_state p) !! 0%nat); [|done].
      split; [done|]. by apply map_page_zero_ok.
    - split; [done|]. by apply map_page_zero_ok. }
  destruct Hv3 as [Hph Hc3]. split_and!; [done| |].
  - unfold memcpy_from_userspace.
    rewrite (from_loop_spec _ table _ 0 ubuff (length bs) bs).
    + simpl. destruct (map_page_zero_ok (last_page table ubuff (length bs)) (unmapped v2) Hc3) as [_ Hc4].
      rewrite unmap_page_zero_ok by done. simpl. rewrite splice_all by (by rewrite length_replicate). eauto.
    + done.
    + lia.
    + destruct bs; simpl; [done|lia].
    + done.
    + rewrite Hph. by eapply user_write_read.
    + done.
    + rewrite length_replicate. lia.
  - intros a Ha. by eapply user_write_other.
Qed.
End Virtual.
Arguments vm St : clear implicits.

(** ** Witnesses: a copy across the boundary of two pages *)

Definition demo_table : list Z := [0x30; 0x31] ++ replicate 14 0xff.

Definition demo_vm : vm (store (list Z)) :=
  Vm (Kernel boot_store {[5 := junk_proc]} ∅ ∅ 5 0 0 0x211 true false 0 0x11)
    {[0x30 := replicate 4096 7; 0x31 := replicate 4096 9]} 0.

Lemma demo_current_ok : current_ok (v_kernel demo_vm).
Proof. intros _. exists junk_proc. split; [apply lookup_singleton_eq|simpl; lia]. Qed.

Lemma memcpy_from_userspace_spec_witness :
  exists v', memcpy_from_userspace (fun _ => demo_table) [1; 1; 1; 1; 1] 1 0xffe (Z.of_nat 4) demo_vm
      = Ret (splice [1; 1; 1; 1; 1] 1 [7; 7; 9; 9], v') /\ v_phys v' = v_phys demo_vm /\
    (true = false -> zero_page v' = ILLEGAL_PAGE) /\
    (true = true -> false = false -> zero_page v' = last_page demo_table 0xffe 4).
Proof.
  apply (memcpy_from_userspace_spec demo_table [1; 1; 1; 1; 1] 1 0xffe 4 [7; 7; 9; 9] demo_vm).
  - lia.
  - lia.
  - exact demo_current_ok.
  - vm_compute. reflexivity.
  - lia.
  - simpl. lia.
Defined.

Lemma memcpy_to_userspace_spec_witness :
  exists phys' v', user_write demo_table (v_phys demo_vm) 0xfff [3; 4] = Some phys' /\
    memcpy_to_userspace demo_table 0xfff (fun _ => [] ++ [3; 4] ++ []) 0 2 demo_vm = Ret v' /\
    v_phys v' = phys' /\
    (exists v'', memcpy_from_userspace (fun _ => demo_table) (replicate 2 0) 0 0xfff 2 v'
       = Ret ([3; 4], v'')) /\
    forall a, translate demo_table a ∉ places demo_table 0xfff 2 ->
      user_byte demo_table phys' a = user_byte demo_table (v_phys demo_vm) a.
Proof.
  assert (exists phys', user_write demo_table (v_phys demo_vm) 0xfff [3; 4] = Some phys')
    as [phys' Hw] by (eexists; vm_compute; reflexivity).
  exists phys'.
  destruct (memcpy_to_userspace_spec demo_table [] [3; 4] [] 0xfff demo_vm phys') as (v' & Hv').
  - lia.
  - discriminate.
  - exact demo_current_ok.
  - exact Hw.
  - apply (bool_decide_unpack _). vm_compute. exact I.
  - exists v'. split; [exact Hw|exact Hv'].
Defined.
