(* ===== verification/Sys.v ===== *)
(** * The state of the whole kernel

    [Kernel.v] and [Virtual.v] hold the processes and the memory they share
    with the kernel.  The file systems, the message queues and the system calls
    also use objects on the kernel heap, each kind in a map from its address:
    byte buffers, the inodes, vnodes and requests of the virtual file system
    (kernel/fs/vfs.h, kernel/fs/vfs_async.h), and messages (kernel/sys/mq.h).
    [D] is the private state of the file system drivers. *)

From S2P Require Import Prelude Interfaces Proc Sync CString Kernel Sched Virtual.

(** [struct inode] *)
Record inode := Inode { i_name : Z; i_fid : Z; i_size : Z; i_vnode : Z; i_type : Z }.

(** [struct vnode] *)
Record vnode := Vnode { vid : Z; vn_reg : Z; abs_mount_path : Z; mount_inode : Z }.

(** [struct vfs_async_req_t] *)
Record vfs_async_req_t := Req {
  r_id : Z;
  r_file : Z;
  r_type : Z;
  r_pid : Z;
  r_vbuff : Z;
  r_size : Z;
  r_callback : Z;
  r_fin_sema : Z;
  r_res : Z;
  r_flags : Z;
}.

(** The globals of vfs.c and its objects. *)
Record vfs_state := VfsState {
  inodes : gmap Z inode;
  vnodes : gmap Z vnode;
  reqs : gmap Z vfs_async_req_t;
  req_id : Z;
  free_vid : Z;
  root_inode : Z;
}.

(** [struct mq_msg] *)
Record mq_msg := MqMsg { m_id : Z; m_type : Z; m_size : Z; m_data : Z }.

(** [struct mq_entry]; its list and its semaphores are members. *)
Record mq_entry := MqEntry { me_id : Z; me_len : Z }.

(** The globals of mq.c and its objects. *)
Record mq_state := MqState {
  entries : gmap Z mq_entry;
  msgs : gmap Z mq_msg;
  mq_id : Z;
  mq_msg_id : Z;
}.

Definition sizeof_inode : Z := 10.
Definition sizeof_vnode : Z := 8.
Definition sizeof_req : Z := 20.
Definition sizeof_semaphore : Z := 2.
Definition sizeof_mq_msg : Z := 8.
Definition sizeof_mq_entry : Z := 12.

(** Byte [i] of a block that [kmalloc] has just returned at address [p]. *)
Class Uninit := uninit : Z -> Z -> Z.

Section Sys.
Context {St D : Type} `{ListStore St} {junk : Uninit}.

Record sys := Sys {
  s_vm : vm St;
  s_bufs : gmap Z (list Z);
  s_vfs : vfs_state;
  s_mq : mq_state;
  s_dev : D;
}.

Definition s_kernel (s : sys) : kernel St := v_kernel (s_vm s).
Definition s_store (s : sys) : St := k_store (s_kernel s).
Definition s_semas (s : sys) : gmap Z Z := k_semas (s_kernel s).

Definition set_vm (x : vm St) (s : sys) : sys := Sys x (s_bufs s) (s_vfs s) (s_mq s) (s_dev s).
Definition set_bufs (x : gmap Z (list Z)) (s : sys) : sys := Sys (s_vm s) x (s_vfs s) (s_mq s) (s_dev s).
Definition set_vfs (x : vfs_state) (s : sys) : sys := Sys (s_vm s) (s_bufs s) x (s_mq s) (s_dev s).
Definition set_mq (x : mq_state) (s : sys) : sys := Sys (s_vm s) (s_bufs s) (s_vfs s) x (s_dev s).
Definition set_dev (x : D) (s : sys) : sys := Sys (s_vm s) (s_bufs s) (s_vfs s) (s_mq s) x.

Definition set_kernel (k : kernel St) (s : sys) : sys :=
  set_vm (Vm k (v_phys (s_vm s)) (zero_page (s_vm s))) s.

Definition s_set_store (st : St) (s : sys) : sys := set_kernel (set_store st (s_kernel s)) s.
Definition s_set_semas (x : gmap Z Z) (s : sys) : sys := set_kernel (set_semas x (s_kernel s)) s.

Definition set_inodes (x : gmap Z inode) (s : sys) : sys :=
  let v := s_vfs s in set_vfs (VfsState x (vnodes v) (reqs v) (req_id v) (free_vid v) (root_inode v)) s.
Definition set_vnodes (x : gmap Z vnode) (s : sys) : sys :=
  let v := s_vfs s in set_vfs (VfsState (inodes v) x (reqs v) (req_id v) (free_vid v) (root_inode v)) s.
Definition set_reqs (x : gmap Z vfs_async_req_t) (s : sys) : sys :=
  let v := s_vfs s in set_vfs (VfsState (inodes v) (vnodes v) x (req_id v) (free_vid v) (root_inode v)) s.
Definition set_req_id (x : Z) (s : sys) : sys :=
  let v := s_vfs s in set_vfs (VfsState (inodes v) (vnodes v) (reqs v) x (free_vid v) (root_inode v)) s.
Definition set_free_vid (x : Z) (s : sys) : sys :=
  let v := s_vfs s in set_vfs (VfsState (inodes v) (vnodes v) (reqs v) (req_id v) x (root_inode v)) s.
Definition set_root_inode (x : Z) (s : sys) : sys :=
  let v := s_vfs s in set_vfs (VfsState (inodes v) (vnodes v) (reqs v) (req_id v) (free_vid v) x) s.

(** ** Heap and semaphores *)

Definition s_kmalloc (n : Z) (s : sys) : outcome (Z * sys) :=
  '(p, st) ← ls_alloc (s_store s) (u16 n);
  Ret (p, s_set_store st s).

Definition s_kfree (p : Z) (s : sys) : outcome sys :=
  st ← ls_free (s_store s) p;
  Ret (s_set_store st s).

(** A byte buffer from [kmalloc]. *)
Definition fresh_bytes (p n : Z) : list Z := (fun i => u8 (uninit p i)) <$> seqZ 0 (u16 n).

Definition kmalloc_bytes (n : Z) (s : sys) : outcome (Z * sys) :=
  '(p, s) ← s_kmalloc n s;
  Ret (p, set_bufs (<[p := fresh_bytes p n]> (s_bufs s)) s).

Definition kfree_bytes (p : Z) (s : sys) : outcome sys :=
  s ← s_kfree p s;
  Ret (set_bufs (delete p (s_bufs s)) s).

Definition s_sema_init (l : Z) (s : sys) : sys := s_set_semas (<[l := 0]> (s_semas s)) s.

Definition s_sema_up (l : Z) (s : sys) : outcome sys :=
  c ← deref (s_semas s) l;
  Ret (s_set_semas (<[l := fst (SemOps.semaphore_up 4 c)]> (s_semas s)) s).

(** What the rest of the system does while the current thread sleeps on the
    semaphore at address [l], until [sched_pick_next] selects it again. *)
Class Others := wait : Z -> sys -> outcome sys.
Context {others : Others}.

Definition await (l : Z) (s : sys) : outcome sys :=
  c ← deref (s_semas s) l;
  if c =? 0 then wait l s else Ret s.

Definition s_sema_down (l : Z) (s : sys) : outcome sys :=
  s ← await l s;
  c ← deref (s_semas s) l;
  '(c, _) ← SemOps.semaphore_down 4 c;
  Ret (s_set_semas (<[l := c]> (s_semas s)) s).

(** ** Bytes in kernel memory *)

(** [memcpy(d, s, n)] between two byte buffers, from their first bytes on; a
    copy of no bytes does not use the pointers. *)
Definition s_memcpy (d src n : Z) (s : sys) : outcome sys :=
  if n =? 0 then Ret s
  else
    db ← deref (s_bufs s) d;
    sb ← deref (s_bufs s) src;
    db ← memcpy db 0 sb 0 n;
    Ret (set_bufs (<[d := db]> (s_bufs s)) s).

(** ** Open files

    [&proc->open_files[i]] is the address of a member of the descriptor. *)

Definition file_ptr (p i : Z) : Z := member p (192 + 8 * i).
Definition file_proc (file : Z) : Z := file mod 65536.
Definition file_index (file : Z) : Z := (file / 65536 - 192) / 8.

Definition file_at (file : Z) (s : sys) : outcome proc_file :=
  p ← deref (k_procs (s_kernel s)) (file_proc file);
  arr_get (p_open_files p) (file_index file).

Definition set_file (file : Z) (f : proc_file) (s : sys) : outcome sys :=
  p ← deref (k_procs (s_kernel s)) (file_proc file);
  fs ← arr_set (p_open_files p) (file_index file) f;
  let k := s_kernel s in
  Ret (set_kernel (set_procs (<[file_proc file := set_p_open_files fs p]> (k_procs k)) k) s).

Lemma file_ptr_proc p i : is_u16 p -> file_proc (file_ptr p i) = p.
Proof.
  intros Hp. unfold file_proc, file_ptr, member.
  rewrite (Z.mul_comm 65536), Z_mod_plus_full. by apply Z.mod_small.
Qed.

Lemma file_ptr_index p i : is_u16 p -> file_index (file_ptr p i) = i.
Proof.
  intros Hp. unfold file_index, file_ptr, member.
  rewrite (Z.mul_comm 65536), Z_div_plus_full by lia. rewrite (Z.div_small p) by lia.
  replace (0 + (192 + 8 * i) - 192) with (i * 8) by lia. rewrite Z.div_mul; lia.
Qed.

(** ** Lemmas *)

Lemma set_kernel_eta s : set_kernel (s_kernel s) s = s.
Proof. by destruct s as [[] ? ? ? ?]. Qed.

(** [kmalloc] returns a fresh pointer or panics. *)
Lemma s_kmalloc_ok s m own n :
  ls_rep (s_store s) m own ->
  match s_kmalloc n s with
  | Ret (p, s') => 0 < p < 65536 /\ (p ∉ own) /\ ls_rep (s_store s') m ({[p]} ∪ own) /\
      s' = s_set_store (s_store s') s
  | Panic msg => msg = HEAP_FULL
  | _ => False
  end.
Proof.
  intros R. unfold s_kmalloc.
  pose proof (ls_alloc_safe _ _ _ _ R (u16_range n)) as Hs.
  destruct (ls_alloc (s_store s) (u16 n)) as [[p st]| | | |] eqn:E; try done. simpl.
  destruct (ls_alloc_ok _ _ _ _ _ _ R (u16_range n) E) as (Hp & Ho & R'). split_and!; done || lia.
Qed.

Lemma s_kmalloc_below s m own n p s' : ls_rep (s_store s) m own -> s_kmalloc n s = Ret (p, s') -> p < 0xF000.
Proof.
  intros R E. unfold s_kmalloc in E. destruct (ls_alloc (s_store s) (u16 n)) as [[q st]| | | |] eqn:Ea; try done.
  simpl in E. simplify_eq. pose proof (ls_alloc_ok _ _ _ _ _ _ R (u16_range n) Ea). lia.
Qed.

Lemma s_kfree_ok s m own p :
  ls_rep (s_store s) m own -> p ∈ own ->
  exists st, s_kfree p s = Ret (s_set_store st s) /\ ls_rep st m (own ∖ {[p]}).
Proof.
  intros R Hp. unfold s_kfree. destruct (ls_free_ok _ _ _ _ R Hp) as (st & -> & R'). eauto.
Qed.

Lemma s_sema_up_ok s l c :
  s_semas s !! l = Some c ->
  s_sema_up l s = Ret (s_set_semas (<[l := i16 (c + 1)]> (s_semas s)) s).
Proof. intros Hc. unfold s_sema_up. by rewrite (deref_Some _ _ _ Hc). Qed.

(** A positive semaphore is taken without waiting. *)
Lemma s_sema_down_now s l c :
  s_semas s !! l = Some c -> 0 < c ->
  s_sema_down l s = Ret (s_set_semas (<[l := i16 (c - 1)]> (s_semas s)) s).
Proof.
  intros Hc Hp. unfold s_sema_down, await. rewrite (deref_Some _ _ _ Hc). cbn [mbind outcome_bind].
  rewrite eqb_ne by lia. cbn [mbind outcome_bind]. rewrite (deref_Some _ _ _ Hc). cbn [mbind outcome_bind].
  unfold SemOps.semaphore_down, ASSERT. simpl.
  destruct (Z.leb_spec 0 c); [|lia]. simpl. by rewrite eqb_ne by lia.
Qed.

Lemma s_sema_down_await s s' l c :
  await l s = Ret s' -> s_semas s' !! l = Some c -> 0 < c ->
  s_sema_down l s = Ret (s_set_semas (<[l := i16 (c - 1)]> (s_semas s')) s').
Proof.
  intros Ha Hc Hp. pose proof (s_sema_down_now s' l c Hc Hp) as E.
  unfold s_sema_down in *. rewrite Ha. unfold await in E. rewrite (deref_Some _ _ _ Hc) in E.
  cbn [mbind outcome_bind] in E. rewrite eqb_ne in E by lia. exact E.
Qed.

Lemma s_memcpy_ok s d src n db sb :
  s_bufs s !! d = Some db -> s_bufs s !! src = Some sb ->
  0 <= n -> n <= zlen db -> n <= zlen sb ->
  s_memcpy d src n s = Ret (set_bufs (<[d := splice db 0 (take (Z.to_nat n) sb)]> (s_bufs s)) s).
Proof.
  intros Hd Hs Hn Hdl Hsl. unfold s_memcpy. destruct (Z.eqb_spec n 0) as [->|].
  - rewrite take_0, splice_nil, insert_id by done. by destruct s.
  - rewrite (deref_Some _ _ _ Hd), (deref_Some _ _ _ Hs). cbn [mbind outcome_bind].
    rewrite (memcpy_at _ _ _ _ _ [] (take (Z.to_nat n) sb) (drop (Z.to_nat n) sb)); try done.
    + by rewrite app_nil_l, take_drop.
    + rewrite length_take. lia.
Qed.

End Sys.
Arguments sys St D : clear implicits.
Arguments Others St D : clear implicits.
