(* ===== verification/Mq.v ===== *)
(** * Message queues (kernel/sys/mq.c)

    A table of queues, each a list of messages with a lock and a semaphore that
    counts the messages.  Against an abstract table of FIFO queues. *)

From S2P Require Import Prelude Interfaces Kmalloc KList Proc Sync CString Kernel Sched Virtual Sys.

Definition MQS : Z := -6.                                  (** [static struct list mqs] *)
Definition mq_list (e : Z) : Z := member e 2.              (** [&entry->mq] *)
Definition mq_lock (e : Z) : Z := member e 8.              (** [&entry->lock] *)
Definition mq_data_available (e : Z) : Z := member e 10.   (** [&entry->data_available] *)

Section Mq.
Context {St D : Type} `{ListStore St} {junk : Uninit} {others : Others St D}.
Abbreviation sys := (sys St D).

Definition set_entries (x : gmap Z mq_entry) (s : sys) : sys :=
  let q := s_mq s in set_mq (MqState x (msgs q) (mq_id q) (mq_msg_id q)) s.
Definition set_msgs (x : gmap Z mq_msg) (s : sys) : sys :=
  let q := s_mq s in set_mq (MqState (entries q) x (mq_id q) (mq_msg_id q)) s.
Definition set_mq_id (x : Z) (s : sys) : sys :=
  let q := s_mq s in set_mq (MqState (entries q) (msgs q) x (mq_msg_id q)) s.
Definition set_mq_msg_id (x : Z) (s : sys) : sys :=
  let q := s_mq s in set_mq (MqState (entries q) (msgs q) (mq_id q) x) s.

(** ** The code *)

Definition mqs_init (s : sys) : sys := s_set_store (ls_init (s_store s) MQS) s.

Definition mqs_create (s : sys) : outcome (Z * sys) :=
  '(entry, s) ← s_kmalloc sizeof_mq_entry s;
  let id := u16 (mq_id (s_mq s) + 1) in
  let s := set_mq_id id s in
  let s := s_set_store (ls_init (s_store s) (mq_list entry)) s in
  let s := s_sema_init (mq_lock entry) s in
  let s := s_sema_init (mq_data_available entry) s in
  s ← s_sema_up (mq_lock entry) s;
  let s := set_entries (<[entry := MqEntry id 0]> (entries (s_mq s))) s in
  st ← ls_append (s_store s) MQS entry;
  Ret (i16 id, s_set_store st s).

Fixpoint find_id (ents : gmap Z mq_entry) (id : Z) (xs : list (Z * Z)) : outcome Z :=
  match xs with
  | [] => Ret 0
  | (_, e) :: xs => x ← deref ents e; if me_id x =? id then Ret e else find_id ents id xs
  end.

Definition find_mq (id : Z) (s : sys) : outcome Z :=
  xs ← ls_nodes (s_store s) MQS;
  find_id (entries (s_mq s)) id xs.

(** [mqe->len += d] *)
Definition add_len (e d : Z) (s : sys) : outcome sys :=
  x ← deref (entries (s_mq s)) e;
  Ret (set_entries (<[e := MqEntry (me_id x) (u16 (me_len x + d))]> (entries (s_mq s))) s).

Definition mq_push (id : Z) (msg : mq_msg) (s : sys) : outcome (Z * sys) :=
  mqe ← find_mq id s;
  if mqe =? 0 then Ret (-1, s)
  else
    let n := u16 (mq_msg_id (s_mq s) + 1) in
    let s := set_mq_msg_id n s in
    let msg := MqMsg (i16 n) (m_type msg) (m_size msg) (m_data msg) in
    '(hmsg, s) ← s_kmalloc sizeof_mq_msg s;
    let s := set_msgs (<[hmsg := msg]> (msgs (s_mq s))) s in
    s ← s_sema_down (mq_lock mqe) s;
    st ← ls_append (s_store s) (mq_list mqe) hmsg;
    s ← s_sema_up (mq_data_available mqe) (s_set_store st s);
    s ← add_len mqe 1 s;
    s ← s_sema_up (mq_lock mqe) s;
    Ret (m_id msg, s).

(** [m = mqe->mq.first->val; list_remove(&mqe->mq, mqe->mq.first)] *)
Definition take_first (mqe : Z) (s : sys) : outcome (Z * sys) :=
  first ← ls_first (s_store s) (mq_list mqe);
  m ← ls_val (s_store s) first;
  st ← ls_remove (s_store s) (mq_list mqe) first;
  Ret (m, s_set_store st s).

Definition mq_pop (id : Z) (s : sys) : outcome (Z * sys) :=
  mqe ← find_mq id s;
  if mqe =? 0 then Ret (0, s)
  else
    s ← s_sema_down (mq_data_available mqe) s;
    s ← s_sema_down (mq_lock mqe) s;
    '(m, s) ← take_first mqe s;
    s ← add_len mqe (-1) s;
    s ← s_sema_up (mq_lock mqe) s;
    Ret (m, s).

Definition mq_pop_nonblock (id : Z) (s : sys) : outcome (Z * sys) :=
  mqe ← find_mq id s;
  if mqe =? 0 then Ret (0, s)
  else
    s ← s_sema_down (mq_lock mqe) s;
    x ← deref (entries (s_mq s)) mqe;
    if me_len x =? 0 then
      s ← s_sema_up (mq_lock mqe) s;
      Ret (0, s)
    else
      '(m, s) ← take_first mqe s;
      s ← s_sema_down (mq_data_available mqe) s;
      s ← add_len mqe (-1) s;
      s ← s_sema_up (mq_lock mqe) s;
      Ret (m, s).

(** ** The abstract table

    A queue is its entry, its number and the messages it holds.  Between two
    operations the lock is free and both counters agree with the list. *)

Record queue := Queue { q_entry : Z; q_id : Z; q_msgs : list mq_msg }.

Record queue_ok (s : sys) (m : gmap Z (list (Z * Z))) (own : gset Z) (q : queue) : Prop := {
  qo_range : 0 < q_entry q < 65536;
  qo_own : q_entry q ∈ own;
  qo_entry : entries (s_mq s) !! q_entry q = Some (MqEntry (q_id q) (zlen (q_msgs q)));
  qo_list : exists xs, m !! mq_list (q_entry q) = Some xs /\
    Forall2 (fun x msg => x.2 ∈ own /\ msgs (s_mq s) !! x.2 = Some msg) xs (q_msgs q);
  qo_lock : s_semas s !! mq_lock (q_entry q) = Some 1;
  qo_data : s_semas s !! mq_data_available (q_entry q) = Some (zlen (q_msgs q));
  qo_len : zlen (q_msgs q) < 32767;
}.

Record table_ok (s : sys) (m : gmap Z (list (Z * Z))) (own : gset Z) (t : list queue) : Prop := {
  to_rep : ls_rep (s_store s) m own;
  to_list : exists es, m !! MQS = Some es /\ es.*2 = q_entry <$> t;
  to_queues : Forall (queue_ok s m own) t;
  to_entries : NoDup (q_entry <$> t);
  to_ids : NoDup (q_id <$> t);
}.

(** An operation on the queue at [e] leaves everything else of the table. *)
Record only (e : Z) (s : sys) (m : gmap Z (list (Z * Z))) (own : gset Z)
    (s' : sys) (m' : gmap Z (list (Z * Z))) (own' : gset Z) : Prop := {
  on_entries e' : e' <> e -> entries (s_mq s') !! e' = entries (s_mq s) !! e';
  on_lists l : l <> mq_list e -> m' !! l = m !! l;
  on_semas l : l <> mq_lock e -> l <> mq_data_available e -> s_semas s' !! l = s_semas s !! l;
  on_msgs p : p ∈ own -> msgs (s_mq s') !! p = msgs (s_mq s) !! p;
  on_own : own ⊆ own';
}.

Lemma queue_ok_only e s m own s' m' own' q :
  only e s m own s' m' own' -> 0 < e < 65536 -> q_entry q <> e ->
  queue_ok s m own q -> queue_ok s' m' own' q.
Proof.
  intros O He Hne [Hr Hown Hent (xs & Hxs & Hf) Hl Hd Hn].
  assert (Hm : forall a b, member (q_entry q) a <> member e b).
  { intros a b E. apply member_inj in E as [? _]; lia. }
  split; try done.
  - by apply (on_own _ _ _ _ _ _ _ O).
  - by rewrite (on_entries _ _ _ _ _ _ _ O).
  - exists xs. rewrite (on_lists _ _ _ _ _ _ _ O) by apply Hm. split; [done|].
    eapply Forall2_impl; [exact Hf|]. intros x msg [Hx Hmsg].
    rewrite (on_msgs _ _ _ _ _ _ _ O) by done. split; [by apply (on_own _ _ _ _ _ _ _ O)|done].
  - rewrite (on_semas _ _ _ _ _ _ _ O) by apply Hm. done.
  - rewrite (on_semas _ _ _ _ _ _ _ O) by apply Hm. done.
Qed.

Lemma table_ok_update s m own t1 q t2 s' m' own' q' :
  table_ok s m own (t1 ++ q :: t2) -> only (q_entry q) s m own s' m' own' ->
  ls_rep (s_store s') m' own' -> queue_ok s' m' own' q' ->
  q_entry q' = q_entry q -> q_id q' = q_id q -> table_ok s' m' own' (t1 ++ q' :: t2).
Proof.
  intros [R (es & Hes & Ees) Hq He Hi] O R' Q' Ee Ei. split; try done.
  - exists es. split.
    + rewrite (on_lists _ _ _ _ _ _ _ O); [done|]. apply Forall_app in Hq as [_ [[Hr _ _ _ _ _ _] _]%Forall_cons].
      unfold MQS, mq_list, member. lia.
    + by rewrite Ees, !fmap_app, !fmap_cons, Ee.
  - apply Forall_app in Hq as [Hq1 [Hq0 Hq2]%Forall_cons].
    rewrite fmap_app, fmap_cons in He. apply NoDup_app in He as (_ & Hd1 & [Hd2 _]%NoDup_cons).
    apply Forall_app. split; [|constructor; [done|]].
    + rewrite Forall_forall in Hq1 |- *. intros r Hr. eapply queue_ok_only; [done|apply Hq0| |by apply Hq1].
      intros E. apply (Hd1 (q_entry r)); [by apply list_elem_of_fmap_2|]. rewrite E. apply list_elem_of_here.
    + rewrite Forall_forall in Hq2 |- *. intros r Hr. eapply queue_ok_only; [done|apply Hq0| |by apply Hq2].
      intros E. apply Hd2. rewrite <-E. by apply list_elem_of_fmap_2.
  - by rewrite fmap_app, fmap_cons, Ee, <-fmap_cons, <-fmap_app.
  - by rewrite fmap_app, fmap_cons, Ei, <-fmap_cons, <-fmap_app.
Qed.

(** ** Lookup *)

Lemma find_id_spec s m own es (t : list queue) id :
  es.*2 = q_entry <$> t -> Forall (queue_ok s m own) t ->
  find_id (entries (s_mq s)) id es =
    Ret (match list_find (fun q => q_id q = id) t with Some (_, q) => q_entry q | None => 0 end).
Proof.
  revert es. induction t as [|q t IH]; intros [|[n e] es] E Hq; simplify_eq/=; [done|].
  apply Forall_cons in Hq as [Hq0 Hq]. rewrite (deref_Some _ _ _ (qo_entry _ _ _ _ Hq0)). simpl.
  destruct (Z.eqb_spec (q_id q) id); [by rewrite decide_True|]. rewrite decide_False by done.
  rewrite (IH es) by done. by destruct (list_find _ t) as [[??]|].
Qed.

Lemma find_mq_here s m own t1 q t2 :
  table_ok s m own (t1 ++ q :: t2) -> find_mq (q_id q) s = Ret (q_entry q).
Proof.
  intros [R (es & Hes & Ees) Hq He Hi]. unfold find_mq. rewrite (ls_nodes_ok _ _ _ _ _ R Hes).
  cbn [mbind outcome_bind]. rewrite (find_id_spec s m own es (t1 ++ q :: t2)) by done.
  rewrite fmap_app in Hi. apply NoDup_app in Hi as (_ & Hd & _).
  assert (list_find (fun r => q_id r = q_id q) (t1 ++ q :: t2) = Some (length t1, q)) as ->; [|done].
  apply list_find_Some. split_and!; [by apply list_lookup_middle|done|].
  intros j r Hj Hlt Er. rewrite lookup_app_l in Hj by done. apply (Hd (q_id r)).
  - apply list_elem_of_fmap_2. by eapply list_elem_of_lookup_2.
  - rewrite Er. apply list_elem_of_here.
Qed.

Lemma find_mq_missing s m own t id :
  table_ok s m own t -> id ∉ (q_id <$> t) -> find_mq id s = Ret 0.
Proof.
  intros [R (es & Hes & Ees) Hq He Hi] Hid. unfold find_mq. rewrite (ls_nodes_ok _ _ _ _ _ R Hes).
  cbn [mbind outcome_bind]. rewrite (find_id_spec s m own es t) by done.
  destruct (list_find _ t) as [[i q]|] eqn:E; [|done].
  apply list_find_Some in E as (Hi' & Eq & _). exfalso. apply Hid. rewrite <-Eq.
  apply list_elem_of_fmap_2. by eapply list_elem_of_lookup_2.
Qed.

(** ** The operations on one queue *)

Lemma mq_members e : mq_lock e <> mq_data_available e.
Proof. unfold mq_lock, mq_data_available, member. lia. Qed.

Lemma mq_push_ok s m own t1 q t2 msg :
  table_ok s m own (t1 ++ q :: t2) -> zlen (q_msgs q) < 32766 ->
  let n := u16 (mq_msg_id (s_mq s) + 1) in
  match mq_push (q_id q) msg s with
  | Ret (r, s') => r = i16 n /\ mq_msg_id (s_mq s') = n /\ exists m' own',
      table_ok s' m' own' (t1 ++ Queue (q_entry q) (q_id q)
        (q_msgs q ++ [MqMsg (i16 n) (m_type msg) (m_size msg) (m_data msg)]) :: t2)
  | Panic msg => msg = HEAP_FULL
  | _ => False
  end.
Proof.
  intros T Hlen n. unfold mq_push. rewrite (find_mq_here _ _ _ _ _ _ T). cbn [mbind outcome_bind].
  pose proof (to_queues _ _ _ _ T) as Hq. apply Forall_app in Hq as [_ [Q _]%Forall_cons].
  destruct Q as [Hr Ho Hent (xs & Hxs & Hf) Hl Hd Hn]. set (e := q_entry q) in *.
  rewrite eqb_ne by lia. fold n. set (msg' := MqMsg (i16 n) _ _ _).
  pose proof (s_kmalloc_ok (set_mq_msg_id n s) m own sizeof_mq_msg (to_rep _ _ _ _ T)) as A.
  destruct (s_kmalloc sizeof_mq_msg (set_mq_msg_id n s)) as [[h s2]| | | |]; try done.
  destruct A as (Hh & Hho & R2 & ->). cbn [mbind outcome_bind].
  rewrite (s_sema_down_now _ _ 1) by (exact Hl || lia). cbn [mbind outcome_bind].
  match goal with |- context [ls_append ?x ?l ?v] =>
    pose proof (ls_append_safe x m _ l v R2 (mk_is_Some _ _ Hxs)) as Hsafe;
    destruct (ls_append x l v) as [st| | | |] eqn:Ea; try done end.
  destruct (ls_append_ok _ _ _ _ _ _ _ R2 Hxs Ea) as (nd & Hnd & R3). cbn [mbind outcome_bind].
  erewrite s_sema_up_ok by (etransitivity; [apply lookup_insert_ne, mq_members|exact Hd]).
  cbn [mbind outcome_bind]. unfold add_len. erewrite deref_Some by exact Hent. cbn [mbind outcome_bind].
  erewrite s_sema_up_ok by (etransitivity; [apply lookup_insert_ne, not_eq_sym, mq_members|apply lookup_insert_eq]).
  cbn [mbind outcome_bind]. split_and!; [done..|].
  exists (<[mq_list e := xs ++ [(nd, h)]]> m), ({[h]} ∪ own).
  eapply table_ok_update; [exact T| |exact R3| |done|done].
  - split; cbn.
    + intros e' He'. by rewrite lookup_insert_ne.
    + intros l Hl'. by rewrite lookup_insert_ne.
    + intros l Hl1 Hl2. by rewrite !lookup_insert_ne.
    + intros p Hp. rewrite lookup_insert_ne; [done|]. set_solver.
    + set_solver.
  - split; cbn; try done.
    + by apply elem_of_union_r.
    + rewrite lookup_insert_eq. do 2 f_equal. rewrite length_app. simpl. rewrite u16_small; lia.
    + exists (xs ++ [(nd, h)]). rewrite lookup_insert_eq. split; [done|]. apply Forall2_app.
      * eapply Forall2_impl; [exact Hf|]. intros x y [Hx Hy]. split; [set_solver|].
        rewrite lookup_insert_ne; [done|]. set_solver.
      * constructor; [|constructor]. simpl. rewrite lookup_insert_eq. split; [set_solver|done].
    + rewrite lookup_insert_eq. done.
    + rewrite lookup_insert_ne by apply mq_members. rewrite lookup_insert_eq. f_equal.
      rewrite length_app. simpl. rewrite i16_small; lia.
    + rewrite length_app. simpl. lia.
Qed.

(** The oldest message leaves the list. *)
Lemma take_first_ok s m own e n p xs :
  ls_rep (s_store s) m own -> m !! mq_list e = Some ((n, p) :: xs) ->
  exists st, take_first e s = Ret (p, s_set_store st s) /\ ls_rep st (<[mq_list e := xs]> m) own.
Proof.
  intros R Hm. unfold take_first. rewrite (ls_first_ok _ _ _ _ _ R Hm). cbn [mbind outcome_bind head_ptr].
  destruct (ls_node_ok _ _ _ _ [] n p xs R Hm) as [_ ->]. cbn [mbind outcome_bind].
  destruct (ls_remove_ok _ _ _ _ [] n p xs R Hm) as (st & -> & R'). eauto.
Qed.

(** What both ways of taking a message do to a queue that has one. *)
Lemma pop_result s m own t1 q t2 msg ms s' p xs n :
  table_ok s m own (t1 ++ q :: t2) -> q_msgs q = msg :: ms ->
  m !! mq_list (q_entry q) = Some ((n, p) :: xs) ->
  ls_rep (s_store s') (<[mq_list (q_entry q) := xs]> m) own ->
  msgs (s_mq s') = msgs (s_mq s) ->
  entries (s_mq s') = <[q_entry q := MqEntry (q_id q) (u16 (zlen (msg :: ms) + -1))]> (entries (s_mq s)) ->
  s_semas s' !! mq_lock (q_entry q) = Some 1 ->
  s_semas s' !! mq_data_available (q_entry q) = Some (i16 (zlen (msg :: ms) - 1)) ->
  (forall l, l <> mq_lock (q_entry q) -> l <> mq_data_available (q_entry q) -> s_semas s' !! l = s_semas s !! l) ->
  msgs (s_mq s') !! p = Some msg /\ p ∈ own /\
  table_ok s' (<[mq_list (q_entry q) := xs]> m) own (t1 ++ Queue (q_entry q) (q_id q) ms :: t2).
Proof.
  intros T Hms Hm R Em Ee Hl Hd Hk.
  pose proof (to_queues _ _ _ _ T) as Hq. apply Forall_app in Hq as [_ [Q _]%Forall_cons].
  destruct Q as [Hr Ho Hent (ys & Hys & Hf) _ _ Hn]. rewrite Hms in Hf, Hn. simpl in Hn.
  assert (ys = (n, p) :: xs) as -> by congruence.
  replace (u16 (zlen (msg :: ms) + -1)) with (zlen ms) in Ee by (rewrite u16_small; simpl; lia).
  replace (i16 (zlen (msg :: ms) - 1)) with (zlen ms) in Hd by (rewrite i16_small; simpl; lia).
  apply Forall2_cons in Hf as [[Hpo Hmsg] Hf]. rewrite Em. split_and!; [done..|].
  eapply table_ok_update; [exact T| |exact R| |done|done].
  - split; cbn; try done.
    + intros e' He'. by rewrite Ee, lookup_insert_ne.
    + intros l Hl'. by rewrite lookup_insert_ne.
    + intros. by rewrite Em.
  - split; cbn; try done; [by rewrite Ee, lookup_insert_eq| |lia].
    exists xs. rewrite lookup_insert_eq, Em. split; done.
Qed.

Lemma mq_pop_ok s m own t1 q t2 msg ms :
  table_ok s m own (t1 ++ q :: t2) -> q_msgs q = msg :: ms ->
  exists p s' m', mq_pop (q_id q) s = Ret (p, s') /\ msgs (s_mq s') !! p = Some msg /\ p ∈ own /\
    table_ok s' m' own (t1 ++ Queue (q_entry q) (q_id q) ms :: t2).
Proof.
  intros T Hms. unfold mq_pop. rewrite (find_mq_here _ _ _ _ _ _ T). cbn [mbind outcome_bind].
  pose proof (to_queues _ _ _ _ T) as Hq. apply Forall_app in Hq as [_ [Q _]%Forall_cons].
  destruct Q as [Hr Ho Hent (xs & Hxs & Hf) Hl Hd Hn]. rewrite Hms in Hd, Hn, Hent, Hf. simpl in Hn.
  apply Forall2_cons_inv_r in Hf as ([n p] & xs' & _ & _ & ->).
  rewrite eqb_ne by lia. rewrite (s_sema_down_now _ _ _ Hd) by (simpl; lia). cbn [mbind outcome_bind].
  erewrite s_sema_down_now; [|etransitivity; [apply lookup_insert_ne, not_eq_sym, mq_members|exact Hl]|lia].
  cbn [mbind outcome_bind].
  match goal with |- context [take_first _ ?x] =>
    destruct (take_first_ok x m own _ _ _ _ (to_rep _ _ _ _ T) Hxs) as (st & -> & R) end.
  cbn [mbind outcome_bind]. unfold add_len. erewrite deref_Some by exact Hent. cbn [mbind outcome_bind].
  erewrite s_sema_up_ok by apply lookup_insert_eq. cbn [mbind outcome_bind].
  eexists p, _, _. split; [reflexivity|]. eapply (pop_result s m own t1 q t2 msg ms); try done.
  - apply lookup_insert_eq.
  - etransitivity; [apply lookup_insert_ne, mq_members|].
    etransitivity; [apply lookup_insert_ne, mq_members|]. apply lookup_insert_eq.
  - intros l Hl1 Hl2. cbn. by rewrite !lookup_insert_ne.
Qed.

Lemma mq_pop_nonblock_ok s m own t1 q t2 msg ms :
  table_ok s m own (t1 ++ q :: t2) -> q_msgs q = msg :: ms ->
  exists p s' m', mq_pop_nonblock (q_id q) s = Ret (p, s') /\ msgs (s_mq s') !! p = Some msg /\ p ∈ own /\
    table_ok s' m' own (t1 ++ Queue (q_entry q) (q_id q) ms :: t2).
Proof.
  intros T Hms. unfold mq_pop_nonblock. rewrite (find_mq_here _ _ _ _ _ _ T). cbn [mbind outcome_bind].
  pose proof (to_queues _ _ _ _ T) as Hq. apply Forall_app in Hq as [_ [Q _]%Forall_cons].
  destruct Q as [Hr Ho Hent (xs & Hxs & Hf) Hl Hd Hn]. rewrite Hms in Hd, Hn, Hent, Hf. simpl in Hn.
  apply Forall2_cons_inv_r in Hf as ([n p] & xs' & _ & _ & ->).
  rewrite eqb_ne by lia. rewrite (s_sema_down_now _ _ _ Hl) by lia. cbn [mbind outcome_bind].
  erewrite deref_Some by exact Hent. cbn [mbind outcome_bind me_len]. rewrite eqb_ne by (simpl; lia).
  match goal with |- context [take_first _ ?x] =>
    destruct (take_first_ok x m own _ _ _ _ (to_rep _ _ _ _ T) Hxs) as (st & -> & R) end.
  cbn [mbind outcome_bind].
  erewrite s_sema_down_now; [|etransitivity; [apply lookup_insert_ne, mq_members|exact Hd]|simpl; lia].
  cbn [mbind outcome_bind]. unfold add_len. erewrite deref_Some by exact Hent. cbn [mbind outcome_bind].
  erewrite s_sema_up_ok by (etransitivity; [apply lookup_insert_ne, not_eq_sym, mq_members|apply lookup_insert_eq]).
  cbn [mbind outcome_bind].
  eexists p, _, _. split; [reflexivity|]. eapply (pop_result s m own t1 q t2 msg ms); try done.
  - apply lookup_insert_eq.
  - etransitivity; [apply lookup_insert_ne, mq_members|]. apply lookup_insert_eq.
  - intros l Hl1 Hl2. cbn. by rewrite !lookup_insert_ne.
Qed.

(** An empty queue is left as it is. *)
Lemma mq_pop_nonblock_empty s m own t1 q t2 :
  table_ok s m own (t1 ++ q :: t2) -> q_msgs q = [] -> mq_pop_nonblock (q_id q) s = Ret (0, s).
Proof.
  intros T Hms. unfold mq_pop_nonblock. rewrite (find_mq_here _ _ _ _ _ _ T). cbn [mbind outcome_bind].
  pose proof (to_queues _ _ _ _ T) as Hq. apply Forall_app in Hq as [_ [Q _]%Forall_cons].
  destruct Q as [Hr Ho Hent _ Hl Hd Hn]. rewrite Hms in Hent.
  rewrite eqb_ne by lia. rewrite (s_sema_down_now _ _ _ Hl) by lia. cbn [mbind outcome_bind].
  erewrite deref_Some by exact Hent. cbn [mbind outcome_bind me_len length Z.of_nat Z.eqb].
  erewrite s_sema_up_ok by apply lookup_insert_eq. cbn [mbind outcome_bind]. do 2 f_equal.
  destruct s as [[k ph z] b v q' d]. unfold s_set_semas, set_kernel, set_vm, s_semas, s_kernel in *. cbn in *.
  rewrite insert_insert_eq, insert_id by done. by destruct k.
Qed.

Lemma mqs_create_ok s m own t :
  table_ok s m own t -> u16 (mq_id (s_mq s) + 1) ∉ (q_id <$> t) ->
  match mqs_create s with
  | Ret (r, s') => let id := u16 (mq_id (s_mq s) + 1) in r = i16 id /\ mq_id (s_mq s') = id /\
      exists e m' own', table_ok s' m' own' (t ++ [Queue e id []])
  | Panic msg => msg = HEAP_FULL
  | _ => False
  end.
Proof.
  intros T Hid. unfold mqs_create. set (id := u16 (mq_id (s_mq s) + 1)) in *.
  pose proof (s_kmalloc_ok s m own sizeof_mq_entry (to_rep _ _ _ _ T)) as A.
  destruct (s_kmalloc sizeof_mq_entry s) as [[e s1]| | | |]; try done.
  destruct A as (He & Heo & R1 & ->). cbn [mbind outcome_bind].
  erewrite s_sema_up_ok by (etransitivity; [apply lookup_insert_ne, not_eq_sym, mq_members|apply lookup_insert_eq]).
  cbn [mbind outcome_bind].
  destruct (to_list _ _ _ _ T) as (es & Hes & Ees).
  pose proof (ls_init_ok _ _ _ (mq_list e) R1) as R2.
  assert (Hm2 : <[mq_list e := []]> m !! MQS = Some es).
  { rewrite lookup_insert_ne; [done|]. unfold MQS, mq_list, member. lia. }
  match goal with |- context [ls_append ?x ?l ?v] =>
    pose proof (ls_append_safe x _ _ l v R2 (mk_is_Some _ _ Hm2)) as Hsafe;
    destruct (ls_append x l v) as [st| | | |] eqn:Ea; try done end.
  destruct (ls_append_ok _ _ _ _ _ _ _ R2 Hm2 Ea) as (nd & Hnd & R3). cbn [mbind outcome_bind].
  split_and!; [done..|]. exists e, (<[MQS := es ++ [(nd, e)]]> (<[mq_list e := []]> m)), ({[e]} ∪ own).
  assert (Hne : forall q, q ∈ t -> q_entry q <> e).
  { intros q Hq E. pose proof (to_queues _ _ _ _ T) as F. rewrite Forall_forall in F.
    apply Heo. rewrite <-E. apply (qo_own _ _ _ _ (F q Hq)). }
  split.
  - exact R3.
  - exists (es ++ [(nd, e)]). rewrite lookup_insert_eq. split; [done|]. by rewrite !fmap_app, Ees.
  - apply Forall_app. split.
    + pose proof (to_queues _ _ _ _ T) as F. rewrite Forall_forall in F |- *. intros q Hq.
      apply (queue_ok_only e s (<[MQS := es ++ [(nd, e)]]> m) own); [|done|by apply Hne|].
      * split; cbn.
        -- intros. by rewrite lookup_insert_ne.
        -- intros l Hl. destruct (decide (l = MQS)) as [->|]; [by rewrite !lookup_insert_eq|].
           by rewrite !lookup_insert_ne.
        -- intros. by rewrite !lookup_insert_ne.
        -- done.
        -- apply union_subseteq_r.
      * destruct (F q Hq) as [Hr Ho Hent (xs & Hxs & Hf) Hl Hd Hn]. split; try done. exists xs.
        rewrite lookup_insert_ne; [done|]. unfold MQS, mq_list, member. lia.
    + constructor; [|constructor]. split; cbn; try done.
      * by apply elem_of_union_l, elem_of_singleton_2.
      * by rewrite lookup_insert_eq.
      * exists []. rewrite lookup_insert_ne by (unfold MQS, mq_list, member; lia).
        by rewrite lookup_insert_eq.
      * by rewrite lookup_insert_eq.
      * rewrite lookup_insert_ne by apply mq_members. by rewrite lookup_insert_eq.
  - rewrite fmap_app. apply NoDup_app. split_and!; [apply T| |apply NoDup_singleton].
    intros x (q & -> & Hq)%list_elem_of_fmap E%list_elem_of_singleton. by eapply Hne.
  - rewrite fmap_app. apply NoDup_app. split_and!; [apply T| |apply NoDup_singleton].
    intros x Hx E%list_elem_of_singleton. simpl in E. by subst.
Qed.

(** ** Properties *)

(** C28. The operations on message queues act on a table of FIFO queues.
    [mqs_create] adds an empty queue under the next number and returns that number,
    as long as no queue has it (the numbers wrap around after 65535).  A push on a
    queue of fewer than 32766 messages puts the message at the end under the next
    message number and returns that number; the panic of [kmalloc] on a full heap is
    the only other outcome of these two.  Taking from a queue with messages, in
    either of the two ways, returns the oldest one and removes it; taking from an
    empty queue without waiting returns the null pointer and changes nothing; a
    push or a pop with a queue number that does not exist gives -1 or the null
    pointer and changes nothing.  Every other queue keeps its messages, and the
    locks are free again after the call. *)
Theorem mq_refines_fifo s m own t1 q t2 msg :
  table_ok s m own (t1 ++ q :: t2) ->
  (u16 (mq_id (s_mq s) + 1) ∉ (q_id <$> (t1 ++ q :: t2)) ->
   match mqs_create s with
   | Ret (r, s') => let id := u16 (mq_id (s_mq s) + 1) in r = i16 id /\ mq_id (s_mq s') = id /\
       exists e m' own', table_ok s' m' own' ((t1 ++ q :: t2) ++ [Queue e id []])
   | Panic msg => msg = HEAP_FULL
   | _ => False
   end) /\
  (zlen (q_msgs q) < 32766 ->
   match mq_push (q_id q) msg s with
   | Ret (r, s') => let n := u16 (mq_msg_id (s_mq s) + 1) in
       r = i16 n /\ mq_msg_id (s_mq s') = n /\ exists m' own',
       table_ok s' m' own' (t1 ++ Queue (q_entry q) (q_id q)
         (q_msgs q ++ [MqMsg (i16 n) (m_type msg) (m_size msg) (m_data msg)]) :: t2)
   | Panic msg => msg = HEAP_FULL
   | _ => False
   end) /\
  match q_msgs q with
  | [] => mq_pop_nonblock (q_id q) s = Ret (0, s)
  | oldest :: rest =>
      Forall (fun pop => exists p s' m', pop (q_id q) s = Ret (p, s') /\
          msgs (s_mq s') !! p = Some oldest /\ p ∈ own /\
          table_ok s' m' own (t1 ++ Queue (q_entry q) (q_id q) rest :: t2))
        [mq_pop; mq_pop_nonblock]
  end /\
  forall id, id ∉ (q_id <$> (t1 ++ q :: t2)) ->
    mq_push id msg s = Ret (-1, s) /\ mq_pop id s = Ret (0, s) /\ mq_pop_nonblock id s = Ret (0, s).
Proof.
  intros T. split_and!.
  - intros Hid. by apply (mqs_create_ok s m own).
  - intros Hlen. by apply (mq_push_ok s m own).
  - destruct (q_msgs q) as [|msg' ms] eqn:E; [by eapply mq_pop_nonblock_empty|].
    repeat constructor; [by apply (mq_pop_ok s m)|by apply (mq_pop_nonblock_ok s m)].
  - intros id Hid. unfold mq_push, mq_pop, mq_pop_nonblock. by rewrite (find_mq_missing _ _ _ _ _ T Hid).
Qed.
End Mq.

(** ** Witnesses: a queue created in a freshly booted kernel *)

Section Demo.
Abbreviation demo_sys := (sys (store (list Z)) unit).
Instance demo_uninit : Uninit := fun _ _ => 0.
Instance demo_others : Others (store (list Z)) unit := fun _ _ => Block.

Definition demo_boot : demo_sys :=
  mqs_init (Sys (Vm boot_kernel ∅ 0) ∅ (VfsState ∅ ∅ ∅ 0 0 0) (MqState ∅ ∅ 0 0) tt).

Lemma demo_boot_ok : table_ok demo_boot (<[MQS := []]> ∅) ∅ [].
Proof.
  split; [|by exists []|constructor..].
  exact (ls_init_ok boot_store ∅ ∅ MQS boot_store_rep).
Qed.

Lemma demo_queue_ok : exists s e m own, mqs_create demo_boot = Ret (1, s) /\ table_ok s m own [Queue e 1 []].
Proof.
  pose proof (mqs_create_ok demo_boot _ _ _ demo_boot_ok ltac:(set_solver)) as X.
  assert (exists s, mqs_create demo_boot = Ret (1, s)) as [s E] by (eexists; vm_compute; reflexivity).
  rewrite E in X. destruct X as (_ & _ & e & m' & own' & T). by exists s, e, m', own'.
Qed.

(** The first message gets number 1 and is taken again; nothing can be taken
    before. *)
Lemma mq_refines_fifo_witness :
  exists (s s1 s2 : demo_sys) p, mq_pop_nonblock 1 s = Ret (0, s) /\ mq_pop 2 s = Ret (0, s) /\
    mq_push 1 (MqMsg 0 5 0 0) s = Ret (1, s1) /\
    mq_pop 1 s1 = Ret (p, s2) /\ msgs (s_mq s2) !! p = Some (MqMsg 1 5 0 0).
Proof.
  destruct demo_queue_ok as (s & e & m & own & E & T).
  assert (('(_, s) ← mqs_create demo_boot; '(r, _) ← mq_push 1 (MqMsg 0 5 0 0) s; Ret r) = Ret 1) as Ran by (vm_compute; reflexivity).
  rewrite E in Ran. cbn [mbind outcome_bind] in Ran. clear E.
  destruct (mq_refines_fifo s m own [] (Queue e 1 []) [] (MqMsg 0 5 0 0) T) as (_ & Hpush & Hpop & Hmiss).
  specialize (Hpush ltac:(simpl; lia)). cbn [q_id q_entry q_msgs app m_type m_size m_data] in Hpush.
  destruct (mq_push 1 (MqMsg 0 5 0 0) s) as [[r s1]| | | |] eqn:Ep; try discriminate Ran.
  injection Ran as ->. destruct Hpush as (E1 & _ & m1 & own1 & T1). rewrite <-E1 in T1.
  destruct (mq_refines_fifo s1 m1 own1 [] _ [] (MqMsg 0 5 0 0) T1) as (_ & _ & Hpop1 & _).
  cbn [q_id q_entry q_msgs app] in Hpop1. apply Forall_cons in Hpop1 as [(p & s2 & m2 & E2 & Hp & _) _].
  exists s, s1, s2, p. split_and!; [exact Hpop|apply Hmiss; set_solver|exact Ep|exact E2|exact Hp].
Defined.
End Demo.
