(* ===== verification/Signals.v ===== *)
(** * Signal delivery (kernel/proc/signal.c)

    A signal interrupts a process by saving its registers and the signal on
    its user stack and redirecting it to the handler; the return from the
    handler restores the registers from the stack.  ([signal_send] is in
    Kernel.v.) *)

From S2P Require Import Prelude Interfaces Kmalloc KList Proc CString Kernel Sched Virtual.

(** The order of the two bytes of an [int] is the machine's choice. *)
Class ByteOrder := big_endian : bool.

Section Signals.
Context {St : Type} `{ListStore St} {order : ByteOrder}.
Implicit Types v : vm St.

(** ** Structures in memory *)

Definition word_bytes (w : Z) : list Z :=
  if big_endian then [u8 (w / 256); u8 w] else [u8 w; u8 (w / 256)].

Definition word_of (b1 b2 : Z) : Z := if big_endian then b1 * 256 + b2 else b2 * 256 + b1.

Fixpoint words_of (bs : list Z) : list Z :=
  match bs with
  | b1 :: b2 :: bs => word_of b1 b2 :: words_of bs
  | _ => []
  end.

Definition bytes_of (ws : list Z) : list Z := ws ≫= word_bytes.

(** [struct proc_state]: 42 words, the registers first. *)
Definition state_words (s : proc_state) : list Z :=
  regs s ++ [pc s; arith_flags s] ++ mem_pages s ++ prog_pages s.

Definition state_of (ws : list Z) : proc_state :=
  ProcState (take 8 ws) (nth 8 ws 0) (nth 9 ws 0) (take 16 (drop 10 ws)) (take 16 (drop 26 ws)).

Definition sizeof_proc_state : Z := 84.

(** ** The code *)

Definition proc_at (v : vm St) (p : Z) : outcome proc := deref (k_procs (v_kernel v)) p.

Definition set_proc (p : Z) (x : proc) (v : vm St) : vm St :=
  let k := v_kernel v in Vm (set_procs (<[p := x]> (k_procs k)) k) (v_phys v) (zero_page v).

(** The bytes of the saved context, in memory at [&proc->proc_state]. *)
Definition state_bytes (proc : Z) (v : vm St) : list Z :=
  match k_procs (v_kernel v) !! proc with
  | Some p => bytes_of (state_words (p_proc_state p))
  | None => []
  end.

(** The two copies to the user stack; returns the new stack pointer and the
    address of the signal. *)
Definition push_context (proc : Z) (table : list Z) (r7 : Z) (sg : signal) (v : vm St)
  : outcome (Z * Z * vm St) :=
  let sp := u16 (r7 - 4) in
  let sp := u16 (sp - sizeof_proc_state) in
  v ← memcpy_to_userspace table (u16 (sp + 2)) (state_bytes proc) 0 sizeof_proc_state v;
  let sp := u16 (sp - sizeof_signal) in
  let sigptr := u16 (sp + 2) in
  v ← memcpy_to_userspace table (u16 (sp + 2))
        (fun _ => bytes_of [sig_type sg; sig_number sg]) 0 sizeof_signal v;
  _ ← ASSERT (0xf000 <=? sp);
  Ret (sp, sigptr, v).

(** The registers set for the handler. *)
Definition enter_regs (r : list Z) (sp sigptr : Z) : outcome (list Z) :=
  r ← arr_set r 0 sigptr;
  r ← arr_set r 1 1;
  r ← arr_set r 5 sp;
  r ← arr_set r 6 0;
  arr_set r 7 sp.

Definition signal_handler_enter (proc : Z) (sg : signal) (v : vm St) : outcome (vm St) :=
  p ← proc_at v proc;
  let v := set_proc proc (set_p_signals_hold 1 p) v in
  r7 ← arr_get (regs (p_proc_state p)) 7;
  '(sp, sigptr, v) ← push_context proc (mem_pages (p_syscall_state p)) r7 sg v;
  p ← proc_at v proc;
  let s := p_proc_state p in
  r ← enter_regs (regs s) sp sigptr;
  _ ← ASSERT (negb (p_sighandler p =? 0));
  Ret (set_proc proc (set_p_proc_state
         (ProcState r (p_sighandler p) (arith_flags s) (mem_pages s) (prog_pages s)) p) v).

Definition signal_handler_return (proc : Z) (v : vm St) : outcome (vm St) :=
  p ← proc_at v proc;
  r5 ← arr_get (regs (p_syscall_state p)) 5;
  let sp := u16 (r5 + sizeof_signal) in
  '(kb, v) ← memcpy_from_userspace (fun kb => mem_pages (state_of (words_of kb)))
      (bytes_of (state_words (p_syscall_state p))) 0 (u16 (sp + 2)) sizeof_proc_state v;
  let s := state_of (words_of kb) in
  let sp := u16 (sp + (sizeof_proc_state + 4)) in
  r7 ← arr_get (regs s) 7;
  _ ← ASSERT (sp =? u16 r7);
  p ← proc_at v proc;
  Ret (set_proc proc (set_p_signals_hold 0 (set_p_syscall_state s p)) v).

(** [SIG_TYPE_CONTROL] to the parent of the current process, when [chld] has
    one and it is still in the list. *)
Definition signal_send_sigchld (chld : Z) (k : kernel St) : outcome (kernel St) :=
  c ← deref (k_procs k) chld;
  if p_parent c =? 0 then Ret k
  else
    cur ← deref (k_procs k) (current_proc k);
    pp ← proc_by_pid (p_parent cur) k;
    if pp =? 0 then Ret k
    else signal_send pp (Signal SIG_TYPE_CONTROL SIG_CONTROL_CHLD) k.

(** It keeps the process table and the state of every process, and fails only
    by the allocator's panic. *)
Lemma sigchld_ok k m own xs chld :
  kernel_ok k m own xs -> is_Some (k_procs k !! chld) -> is_Some (k_procs k !! current_proc k) ->
  match signal_send_sigchld chld k with
  | Ret k' => (exists m' own', kernel_ok k' m' own' xs) /\ pick_frame k k' /\ k_procs k' = k_procs k /\
      current_proc k' = current_proc k /\ forall l, l < 0 -> k_semas k' !! l = k_semas k !! l
  | Panic msg => msg = HEAP_FULL
  | _ => False
  end.
Proof.
  intros K [c Hc] [q Hq]. unfold signal_send_sigchld. rewrite (deref_Some _ _ _ Hc). cbn [mbind outcome_bind].
  destruct (_ =? 0); [split_and!; [eauto|apply pick_frame_refl|done..]|]. rewrite (deref_Some _ _ _ Hq). cbn [mbind outcome_bind].
  destruct (proc_by_pid_ok _ _ _ _ (p_parent q) K) as (r & -> & Hr). cbn [mbind outcome_bind].
  destruct (Z.eqb_spec r 0) as [->|]; [split_and!; [eauto|apply pick_frame_refl|done..]|]. destruct Hr as [?|Hr]; [done|].
  destruct (kok_procs _ _ _ _ K r Hr) as [_ _ _ [qu Hqu] _].
  pose proof (signal_send_ok _ _ _ _ _ _ (Signal SIG_TYPE_CONTROL SIG_CONTROL_CHLD) K Hr Hqu) as G.
  destruct (signal_send r _ k) as [k'| | | |] eqn:E; try done.
  destruct G as (g & nd & cnt & _ & _ & _ & _ & K' & Ek). destruct (signal_send_frame _ _ _ _ E) as [Ep F].
  split_and!; [eauto|done|done|by rewrite Ek|]. intros l Hl. rewrite Ek. simpl.
  destruct (kok_procs _ _ _ _ K r Hr) as [Hr0 _ _ _ _]. apply lookup_insert_ne. unfold signal_sema_of, member. lia.
Qed.

(** ** Encoding *)

Definition state_ok (s : proc_state) : Prop :=
  length (regs s) = 8%nat /\ length (mem_pages s) = 16%nat /\ length (prog_pages s) = 16%nat /\
  Forall (fun w => is_u16 w) (state_words s).

Lemma word_bytes_of w : is_u16 w -> exists b1 b2, word_bytes w = [b1; b2] /\ word_of b1 b2 = w.
Proof.
  intros Hw. unfold word_bytes, word_of. destruct big_endian; eexists _, _; (split; [done|]); zlia.
Qed.

Lemma bytes_of_cons w ws : bytes_of (w :: ws) = word_bytes w ++ bytes_of ws.
Proof. done. Qed.

Lemma words_of_bytes ws : Forall (fun w => is_u16 w) ws -> words_of (bytes_of ws) = ws.
Proof.
  induction 1 as [|w ws Hw _ IH]; [done|]. rewrite bytes_of_cons.
  destruct (word_bytes_of w Hw) as (b1 & b2 & -> & Ew). simpl. by rewrite Ew, IH.
Qed.

Lemma length_bytes_of ws : length (bytes_of ws) = (2 * length ws)%nat.
Proof.
  induction ws as [|w ws IH]; [done|]. rewrite bytes_of_cons, length_app, IH.
  unfold word_bytes. destruct big_endian; simpl; lia.
Qed.

Lemma length_state_words s : state_ok s -> length (state_words s) = 42%nat.
Proof. intros (H8 & Hm & Hp & _). unfold state_words. rewrite !length_app, H8, Hm, Hp. done. Qed.

Lemma state_of_words s : state_ok s -> state_of (state_words s) = s.
Proof.
  intros (H8 & Hm & Hp & _). destruct s as [r c f mp pp]; unfold state_of, state_words; simpl in *.
  do 8 (destruct r as [|? r]; [done|]). destruct r; [|done].
  do 16 (destruct mp as [|? mp]; [done|]). destruct mp; [|done].
  do 16 (destruct pp as [|? pp]; [done|]). by destruct pp.
Qed.

(** A register context survives its way through memory. *)
Lemma state_roundtrip s : state_ok s -> state_of (words_of (bytes_of (state_words s))) = s.
Proof. intros Hs. rewrite words_of_bytes by apply Hs. by apply state_of_words. Qed.

(** ** Delivery and return *)

Lemma stack_address a : 0xf000 <= a < 65536 -> Z.to_nat (VIRT_PAGE_PART a) = 15%nat /\ VIRT_LOCAL_PART a = a - 0xf000.
Proof. intros. rewrite page_part_div, local_part_mod by lia. zlia. Qed.

Lemma current_ok_set_proc v P p x :
  k_procs (v_kernel v) !! P = Some p -> mem_pages (p_proc_state x) = mem_pages (p_proc_state p) ->
  current_ok (v_kernel v) -> current_ok (v_kernel (set_proc P x v)).
Proof.
  intros Hp Hm Hc Hs. destruct (Hc Hs) as (q & Hq & Hl). simpl.
  destruct (decide (P = current_proc (v_kernel v))) as [->|].
  - rewrite lookup_insert_eq. exists x. rewrite Hm. by simplify_eq.
  - rewrite lookup_insert_ne by done. eauto.
Qed.

(** The process [P] on its user stack at [sp0], with its stack page mapped,
    when an interrupt handler delivers it a signal. *)
Record deliverable (v : vm St) (P : Z) (p : proc) (sp0 page : Z) (pg : list Z) : Prop := {
  dl_proc : k_procs (v_kernel v) !! P = Some p;
  dl_state : state_ok (p_proc_state p);
  dl_sp : regs (p_proc_state p) !! 7%nat = Some sp0;
  dl_room : 0xf000 + 92 <= sp0 < 65536;
  dl_page : mem_pages (p_syscall_state p) !! 15%nat = Some page;
  dl_phys : v_phys v !! page = Some pg;
  dl_length : length pg = 4096%nat;
  dl_current : current_ok (v_kernel v);
  dl_irq : int_no_proc_modify (v_kernel v) = true;
  dl_handler : p_sighandler p <> 0;
}.

(** The registers of the handler and the stack page below [sp0]. *)
Definition handler_regs (r : list Z) (sp0 : Z) : list Z :=
  <[7%nat := sp0 - 92]> (<[6%nat := 0]> (<[5%nat := sp0 - 92]> (<[1%nat := 1]> (<[0%nat := sp0 - 90]> r)))).

Lemma push_context_spec v P p sp0 page pg sg table :
  k_procs (v_kernel v) !! P = Some p -> state_ok (p_proc_state p) ->
  0xf000 + 92 <= sp0 < 65536 -> table !! 15%nat = Some page -> v_phys v !! page = Some pg ->
  length pg = 4096%nat -> current_ok (v_kernel v) -> int_no_proc_modify (v_kernel v) = true ->
  exists z, push_context P table sp0 sg v = Ret (sp0 - 92, sp0 - 90, Vm (v_kernel v)
    (<[page := splice pg (sp0 - 90 - 0xf000)
        (bytes_of [sig_type sg; sig_number sg] ++ bytes_of (state_words (p_proc_state p)))]> (v_phys v)) z).
Proof.
  intros Hp Hs Hroom Hpage Hphys Hlen Hcur Hirq. unfold push_context.
  change sizeof_proc_state with 84. change sizeof_signal with 4.
  rewrite (u16_small (sp0 - 4)), (u16_small (sp0 - 4 - 84)), (u16_small (sp0 - 4 - 84 + 2)) by lia.
  rewrite (u16_small (sp0 - 4 - 84 - 4)), (u16_small (sp0 - 4 - 84 - 4 + 2)) by lia.
  replace (sp0 - 4 - 84 + 2) with (sp0 - 86) by lia. replace (sp0 - 4 - 84 - 4) with (sp0 - 92) by lia.
  replace (sp0 - 92 + 2) with (sp0 - 90) by lia.
  set (sb := bytes_of (state_words (p_proc_state p))). set (gb := bytes_of [sig_type sg; sig_number sg]).
  assert (Hsb : zlen sb = 84) by (unfold sb; rewrite length_bytes_of, length_state_words by done; done).
  assert (Hgb : zlen gb = 4) by (unfold gb; by rewrite length_bytes_of).
  destruct (stack_address (sp0 - 86)) as [Ea1 El1]; [lia|].
  destruct (stack_address (sp0 - 90)) as [Ea2 El2]; [lia|].
  destruct (memcpy_to_irq table (sp0 - 86) (state_bytes P) sb v page pg) as [z1 E1];
    [lia|intros E; by rewrite E in Hsb|lia|done|done| |by rewrite Ea1|done|done|].
  { intros v' E. unfold state_bytes. by rewrite E, Hp. }
  rewrite Hsb in E1. rewrite E1. clear E1. cbn [mbind outcome_bind].
  match goal with |- context [memcpy_to_userspace _ _ _ _ _ ?v2] =>
    destruct (memcpy_to_irq table (sp0 - 90) (fun _ => gb) gb v2 page
      (splice pg (VIRT_LOCAL_PART (sp0 - 86)) sb)) as [z2 E2] end;
    [lia|intros E; by rewrite E in Hgb|lia|done|done|done|by rewrite Ea2|apply lookup_insert_eq
    |by rewrite length_splice by lia|].
  rewrite Hgb in E2. rewrite E2. cbn [mbind outcome_bind].
  rewrite (proj2 (Z.leb_le _ _)) by lia. exists z2. cbn [ASSERT v_kernel v_phys].
  rewrite insert_insert_eq, El1, El2.
  replace (sp0 - 86 - 0xf000) with (sp0 - 90 - 0xf000 + zlen gb) by lia.
  by rewrite splice_before by lia.
Qed.

Lemma enter_regs_spec r sp sigptr :
  length r = 8%nat ->
  enter_regs r sp sigptr =
    Ret (<[7%nat := sp]> (<[6%nat := 0]> (<[5%nat := sp]> (<[1%nat := 1]> (<[0%nat := sigptr]> r))))).
Proof.
  intros H8. unfold enter_regs.
  by do 5 (rewrite arr_set_in by (rewrite ?length_insert; lia); cbn [mbind outcome_bind]).
Qed.

(** The state of the process when its handler starts. *)
Definition in_handler (p : proc) (sp0 : Z) : proc :=
  let s := p_proc_state p in
  set_p_proc_state
    (ProcState (handler_regs (regs s) sp0) (p_sighandler p) (arith_flags s) (mem_pages s) (prog_pages s))
    (set_p_signals_hold 1 p).

Lemma signal_enter_exact v P p sp0 page pg sg :
  deliverable v P p sp0 page pg ->
  exists z, signal_handler_enter P sg v = Ret (Vm
    (set_procs (<[P := in_handler p sp0]> (k_procs (v_kernel v))) (v_kernel v))
    (<[page := splice pg (sp0 - 90 - 0xf000)
        (bytes_of [sig_type sg; sig_number sg] ++ bytes_of (state_words (p_proc_state p)))]> (v_phys v)) z).
Proof.
  intros [Hp Hs Hsp Hroom Hpage Hphys Hlen Hcur Hirq Hh].
  unfold signal_handler_enter, proc_at. rewrite (deref_Some _ _ _ Hp). cbn [mbind outcome_bind].
  set (p1 := set_p_signals_hold 1 p).
  rewrite (proj2 (arr_get_Ret (regs (p_proc_state p)) 7 sp0)) by (split; [lia|done]). cbn [mbind outcome_bind].
  destruct (push_context_spec (set_proc P p1 v) P p1 sp0 page pg sg (mem_pages (p_syscall_state p)))
    as [z E]; try done; [by simpl; rewrite lookup_insert_eq|by apply (current_ok_set_proc v P p p1)|].
  rewrite E. cbn [mbind outcome_bind v_kernel].
  rewrite (deref_Some _ _ p1) by (simpl; by rewrite lookup_insert_eq). cbn [mbind outcome_bind].
  rewrite enter_regs_spec by apply Hs. cbn [mbind outcome_bind].
  change (p_sighandler p1) with (p_sighandler p). rewrite (eqb_ne _ _ Hh). simpl.
  exists z. unfold set_proc. simpl. by rewrite insert_insert_eq.
Qed.

(** Every way of mapping page 0 keeps what a descriptor holds besides it. *)
Lemma mapped_proc page v P p :
  k_procs (v_kernel v) !! P = Some p ->
  exists p', k_procs (v_kernel (mapped page v)) !! P = Some p' /\
    p_syscall_state p' = p_syscall_state p /\ p_signals_hold p' = p_signals_hold p.
Proof.
  intros Hp. unfold mapped. simpl. case_match; [|by eauto]. simpl.
  destruct (decide (P = current_proc (v_kernel v))) as [->|].
  - rewrite lookup_alter_eq, Hp. simpl. by eauto.
  - rewrite lookup_alter_ne by done. eauto.
Qed.

Lemma unmapped_proc v P p :
  k_procs (v_kernel v) !! P = Some p ->
  exists p', k_procs (v_kernel (unmapped v)) !! P = Some p' /\
    p_syscall_state p' = p_syscall_state p /\ p_signals_hold p' = p_signals_hold p.
Proof.
  intros Hp. unfold unmapped. repeat case_match; eauto using mapped_proc.
Qed.

(** The process is in the system call by which its handler returns: its frame
    pointer is the stack pointer the handler started with, its page table is
    [table], and the saved context is still on its stack. *)
Record returning (v : vm St) (P : Z) (p : proc) (sp0 : Z) (table : list Z) (saved : proc_state) : Prop := {
  rt_proc : k_procs (v_kernel v) !! P = Some p;
  rt_state : state_ok (p_syscall_state p);
  rt_fp : regs (p_syscall_state p) !! 5%nat = Some (sp0 - 92);
  rt_table : mem_pages (p_syscall_state p) = table;
  rt_current : current_ok (v_kernel v);
  rt_stack : user_bytes table (v_phys v) (sp0 - 86) 84 = Some (bytes_of (state_words saved));
}.

Lemma signal_return_exact v P p sp0 table saved :
  returning v P p sp0 table saved -> state_ok saved -> regs saved !! 7%nat = Some sp0 ->
  0xf000 + 92 <= sp0 < 65536 ->
  exists v' p', signal_handler_return P v = Ret v' /\ k_procs (v_kernel v') !! P = Some p' /\
    p_syscall_state p' = saved /\ p_signals_hold p' = 0.
Proof.
  intros [Hp Hs Hfp Htab Hcur Hst] Hok Hsp Hroom. unfold signal_handler_return, proc_at.
  rewrite (deref_Some _ _ _ Hp). cbn [mbind outcome_bind].
  rewrite (proj2 (arr_get_Ret (regs (p_syscall_state p)) 5 (sp0 - 92))) by (split; [lia|done]).
  cbn [mbind outcome_bind]. change sizeof_signal with 4. change sizeof_proc_state with 84.
  rewrite (u16_small (sp0 - 92 + 4)) by lia. rewrite (u16_small (sp0 - 92 + 4 + 2)) by lia.
  replace (sp0 - 92 + 4 + 2) with (sp0 - 86) by lia.
  destruct (stack_address (sp0 - 86)) as [Ea El]; [lia|].
  set (kb := bytes_of (state_words (p_syscall_state p))).
  assert (Hkb : length kb = 84%nat) by (unfold kb; by rewrite length_bytes_of, length_state_words).
  unfold memcpy_from_userspace.
  destruct (from_loop_in_page (Z.to_nat 84) (fun kb => mem_pages (state_of (words_of kb))) kb 0
    (sp0 - 86) 84 (bytes_of (state_words saved)) v) as [page E]; try lia; try done.
  { unfold kb. by rewrite state_roundtrip, Htab. }
  change (Z.of_nat 84) with 84 in E. rewrite E. cbn [mbind outcome_bind].
  destruct (map_page_zero_ok page v Hcur) as [_ Hc1]. rewrite unmap_page_zero_ok by done.
  cbn [mbind outcome_bind].
  rewrite splice_all by (by rewrite Hkb, length_bytes_of, length_state_words).
  rewrite state_roundtrip by done.
  rewrite (proj2 (arr_get_Ret (regs saved) 7 sp0)) by (split; [lia|done]). cbn [mbind outcome_bind].
  rewrite (u16_small sp0), (u16_small (sp0 - 92 + 4 + (84 + 4))) by lia.
  rewrite (proj2 (Z.eqb_eq _ _)) by lia. cbn [ASSERT mbind outcome_bind].
  destruct (mapped_proc page v P p Hp) as (p1 & Hp1 & _).
  destruct (unmapped_proc (mapped page v) P p1 Hp1) as (p2 & Hp2 & _).
  rewrite (deref_Some _ _ _ Hp2). cbn [mbind outcome_bind]. eexists _, _. split; [done|].
  simpl. rewrite lookup_insert_eq. done.
Qed.

(** The signal and the saved context on the stack page. *)
Lemma pushed_frame (table : list Z) (phys : gmap Z (list Z)) page pg sp0 sg saved :
  table !! 15%nat = Some page -> length pg = 4096%nat -> 0xf000 + 92 <= sp0 < 65536 -> state_ok saved ->
  let phys' := <[page := splice pg (sp0 - 90 - 0xf000)
        (bytes_of [sig_type sg; sig_number sg] ++ bytes_of (state_words saved))]> phys in
  user_bytes table phys' (sp0 - 90) 4 = Some (bytes_of [sig_type sg; sig_number sg]) /\
  user_bytes table phys' (sp0 - 86) 84 = Some (bytes_of (state_words saved)).
Proof.
  intros Hpage Hlen Hroom Hs phys'.
  set (gb := bytes_of [sig_type sg; sig_number sg]) in *. set (sb := bytes_of (state_words saved)) in *.
  assert (Hgb : length gb = 4%nat) by (unfold gb; by rewrite length_bytes_of).
  assert (Hsb : length sb = 84%nat) by (unfold sb; by rewrite length_bytes_of, length_state_words).
  destruct (stack_address (sp0 - 86)) as [Ea1 El1]; [lia|].
  destruct (stack_address (sp0 - 90)) as [Ea2 El2]; [lia|].
  set (o := Z.to_nat (sp0 - 90 - 0xf000)). split.
  - rewrite <-Hgb.
    eapply (user_bytes_in_page _ _ _ page _ (take o pg) gb (sb ++ drop (o + length (gb ++ sb)) pg));
      [lia|lia|by rewrite Ea2|apply lookup_insert_eq| |rewrite El2, length_take; lia].
    unfold splice. by rewrite <-app_assoc.
  - rewrite <-Hsb.
    eapply (user_bytes_in_page _ _ _ page _ (take o pg ++ gb) sb (drop (o + length (gb ++ sb)) pg));
      [lia|lia|by rewrite Ea1|apply lookup_insert_eq| |rewrite El1, length_app, length_take; lia].
    unfold splice. fold o. rewrite <-(app_assoc gb), <-(app_assoc (take o pg)). done.
Qed.

(** C32. A signal is transparent to the process it interrupts.
    [signal_handler_enter] saves the registers and the signal on the user
    stack, and starts the handler on that stack with the address of the signal
    in its first register and further signals held back; when the handler
    returns by its system call with the saved area intact,
    [signal_handler_return] restores exactly the context that was interrupted
    and releases the signals.  Neither of the assertions fails. *)
Theorem signal_enter_return v P p sp0 page pg sg :
  deliverable v P p sp0 page pg ->
  exists v1, signal_handler_enter P sg v = Ret v1 /\
    k_procs (v_kernel v1) !! P = Some (in_handler p sp0) /\
    p_signals_hold (in_handler p sp0) = 1 /\ pc (p_proc_state (in_handler p sp0)) = p_sighandler p /\
    regs (p_proc_state (in_handler p sp0)) !! 0%nat = Some (sp0 - 90) /\
    user_bytes (mem_pages (p_syscall_state p)) (v_phys v1) (sp0 - 90) 4
      = Some (bytes_of [sig_type sg; sig_number sg]) /\
    user_bytes (mem_pages (p_syscall_state p)) (v_phys v1) (sp0 - 86) 84
      = Some (bytes_of (state_words (p_proc_state p))) /\
    forall v2 p2, returning v2 P p2 sp0 (mem_pages (p_syscall_state p)) (p_proc_state p) ->
      exists v3 p3, signal_handler_return P v2 = Ret v3 /\ k_procs (v_kernel v3) !! P = Some p3 /\
        p_syscall_state p3 = p_proc_state p /\ p_signals_hold p3 = 0.
Proof.
  intros D. destruct (signal_enter_exact v P p sp0 page pg sg D) as [z E].
  destruct D as [Hp Hs Hsp Hroom Hpage Hphys Hlen Hcur Hirq Hh]. eexists. split; [exact E|].
  destruct (pushed_frame _ (v_phys v) page pg sp0 sg _ Hpage Hlen Hroom Hs) as [Hg Hst].
  simpl v_kernel. simpl v_phys. split; [simpl; by rewrite lookup_insert_eq|]. split_and!; try done.
  - simpl. unfold handler_regs. destruct Hs as (H8 & _).
    rewrite !list_lookup_insert_ne by done. apply list_lookup_insert_eq. lia.
  - intros v2 p2 R. by eapply signal_return_exact.
Qed.
End Signals.

(** ** Witness: process 5 with its stack in page 0x40 *)

Definition sig_state : proc_state :=
  ProcState [1; 2; 3; 4; 5; 6; 7; 0xfffe] 0x100 0 (replicate 15 0xff ++ [0x40]) (seqZ 0 16).

Definition sig_proc : proc :=
  Proc 1 PROC_STATE_RUNNABLE PROC_TYPE_USER sig_state sig_state (replicate 16 0) 0
    (replicate 16 (ProcFile 0 0 0 0)) 0 0 0 0x2000 0 0.

Definition sig_vm : vm (store (list Z)) :=
  Vm (Kernel boot_store {[5 := sig_proc]} ∅ ∅ 5 0 0 0x211 true true 0 0x11) {[0x40 := replicate 4096 0]} 0.

Lemma sig_deliverable : deliverable sig_vm 5 sig_proc 0xfffe 0x40 (replicate 4096 0).
Proof.
  split; try done; try lia.
  - split_and!; try done. apply (bool_decide_unpack _). vm_compute. exact I.
  - intros _. exists sig_proc. split; [apply lookup_singleton_eq|simpl; lia].
Qed.

Lemma signal_enter_return_witness :
  exists v1, signal_handler_enter (order := false) 5 (Signal 2 7) sig_vm = Ret v1 /\
    user_bytes (mem_pages sig_state) (v_phys v1) (0xfffe - 90) 4
      = Some (bytes_of (order := false) [2; 7]) /\
    forall (v2 : vm (store (list Z))) p2, returning (order := false) v2 5 p2 0xfffe (mem_pages sig_state) sig_state ->
      exists v3 p3, signal_handler_return (order := false) 5 v2 = Ret v3 /\
        k_procs (v_kernel v3) !! 5 = Some p3 /\
        p_syscall_state p3 = sig_state /\ p_signals_hold p3 = 0.
Proof.
  destruct (signal_enter_return (order := false) sig_vm 5 sig_proc 0xfffe 0x40 (replicate 4096 0)
    (Signal 2 7) sig_deliverable) as (v1 & E & _ & _ & _ & _ & Hg & _ & Hr).
  exists v1. split; [exact E|]. split; [exact Hg|exact Hr].
Defined.
