(* ===== verification/Kprintf.v ===== *)
(** * Formatted output in the kernel (kernel/libk/kprintf.c)

    [_utoa] and [vsprintf] write into a [char] array.  The arguments of a call
    are a list, and an argument of another kind than the directive expects is
    a [Fault].  The reference is a format that is a list of directives, its
    text and the text it renders to. *)

From S2P Require Import Prelude CString.

(** ** Numbers *)

(** The digit with value [d], in lower case. *)
Definition digit (d : Z) : Z := if d <? 10 then 48 + d else 97 + (d - 10).

(** [while (num) { .. buff[pos++] = digit; num /= base; }]; a 16-bit number has
    at most 16 digits. *)
Fixpoint digit_loop (fuel : nat) (buff : list Z) (p num base pos : Z) {struct fuel}
  : outcome (list Z * Z) :=
  if num =? 0 then Ret (buff, pos)
  else
    match fuel with
    | O => Hang
    | S fuel =>
      buff ← arr_set buff (p + pos) (u8 (digit (num mod base)));
      digit_loop fuel buff p (num / base) base (pos + 1)
    end.

(** [for (i = 0; i < (pos>>1); i++)] swap [buff[i]] and [buff[pos-i-1]]. *)
Definition swap_at (p pos i : Z) (buff : list Z) : outcome (list Z) :=
  swp ← arr_get buff (p + i);
  x ← arr_get buff (p + (pos - i - 1));
  buff ← arr_set buff (p + i) x;
  arr_set buff (p + (pos - i - 1)) swp.

Definition reverse_loop (buff : list Z) (p pos : Z) : outcome (list Z) :=
  for_loop (Z.to_nat (Z.shiftr pos 1)) 0 (swap_at p pos) buff.

(** [_utoa(buff + p, num, base)] *)
Definition _utoa (buff : list Z) (p num base : Z) : outcome (list Z * Z) :=
  '(buff, pos) ← (if num =? 0 then b ← arr_set buff p 48; Ret (b, 1) else Ret (buff, 0));
  '(buff, pos) ← digit_loop 16 buff p num base pos;
  buff ← reverse_loop buff p pos;
  buff ← arr_set buff (p + pos) 0;
  Ret (buff, pos).

(** ** vsprintf *)

Inductive arg :=
| AInt (z : Z)              (** an [int] or [unsigned], as its 16-bit signed value *)
| ALong (z : Z)             (** a [long], as its 32-bit pattern *)
| AStr (s : list Z).        (** a [char*]: the array it points into, from there on *)

Definition va_int (args : list arg) : outcome (Z * list arg) :=
  match args with AInt z :: args => Ret (z, args) | _ => Fault end.
Definition va_long (args : list arg) : outcome (Z * list arg) :=
  match args with ALong z :: args => Ret (z, args) | _ => Fault end.
Definition va_str (args : list arg) : outcome (list Z * list arg) :=
  match args with AStr s :: args => Ret (s, args) | _ => Fault end.

(** A directive at [buff + b]: the buffer, the new position and the arguments
    that are left. *)
Definition fmt_d (buff : list Z) (b : Z) (args : list arg) : outcome (list Z * Z * list arg) :=
  '(i_param, args) ← va_int args;
  '(buff, b, i_param) ← (if i_param <? 0 then
      buff ← arr_set buff b 45; Ret (buff, b + 1, i16 (i_param * -1))
    else Ret (buff, b, i_param));
  '(buff, n) ← _utoa buff b (u16 i_param) 10;
  Ret (buff, b + n, args).

Definition fmt_u (base : Z) (buff : list Z) (b : Z) (args : list arg) : outcome (list Z * Z * list arg) :=
  '(i_param, args) ← va_int args;
  '(buff, n) ← _utoa buff b (u16 i_param) base;
  Ret (buff, b + n, args).

Definition fmt_s (buff : list Z) (b : Z) (args : list arg) : outcome (list Z * Z * list arg) :=
  '(s_param, args) ← va_str args;
  buff ← strcpy buff b s_param 0;
  n ← strlen s_param 0;
  Ret (buff, b + n, args).

Definition fmt_c (buff : list Z) (b : Z) (args : list arg) : outcome (list Z * Z * list arg) :=
  '(c_param, args) ← va_int args;
  buff ← arr_set buff b (u8 c_param);
  Ret (buff, b + 1, args).

(** [%lx]: [alp] is the local array of five characters, of any content. *)
Definition fmt_lx (alp buff : list Z) (b : Z) (args : list arg) : outcome (list Z * Z * list arg) :=
  '(l_param, args) ← va_long args;
  let h_part := u16 (Z.shiftr l_param 16) in
  let l_part := Z.land l_param 0xffff in
  if negb (h_part =? 0) then
    '(buff, n) ← _utoa buff b h_part 16;
    let b := b + n in
    '(alp, l) ← _utoa alp 0 l_part 16;
    buff ← for_loop (Z.to_nat (4 - l)) 0 (fun i buff => arr_set buff (b + i) 48) buff;
    let b := b + Z.of_nat (Z.to_nat (4 - l)) in
    buff ← strcpy buff b alp 0;
    Ret (buff, b + l, args)
  else
    '(buff, n) ← _utoa buff b l_part 16;
    Ret (buff, b + n, args).

(** The text after a percent sign, at index [s]: how much of it is read. *)
Definition directive (alp : list Z) (str : list Z) (s : Z) (buff : list Z) (b : Z) (args : list arg)
  : outcome (list Z * Z * list arg * Z) :=
  c ← arr_get str s;
  let ok (r : outcome (list Z * Z * list arg)) (s : Z) := '(x) ← r; Ret (x, s) in
  if (c =? 100) || (c =? 105) then ok (fmt_d buff b args) (s + 1)        (* d, i *)
  else if c =? 117 then ok (fmt_u 10 buff b args) (s + 1)                (* u *)
  else if c =? 120 then ok (fmt_u 16 buff b args) (s + 1)                (* x *)
  else if c =? 115 then ok (fmt_s buff b args) (s + 1)                   (* s *)
  else if c =? 99 then ok (fmt_c buff b args) (s + 1)                    (* c *)
  else if c =? 108 then                                                  (* l *)
    c ← arr_get str (s + 1);
    if c =? 120 then ok (fmt_lx alp buff b args) (s + 2)
    else ok (buff ← arr_set buff b 69; Ret (buff, b + 1, args)) (s + 2)
  else ok (buff ← arr_set buff b 69; Ret (buff, b + 1, args)) s.

(** Every turn reads at least one character of the format. *)
Fixpoint vsprintf_loop (fuel : nat) (alp : list Z) (buff : list Z) (b : Z) (str : list Z) (s : Z)
  (args : list arg) {struct fuel} : outcome (list Z * Z) :=
  match fuel with
  | O => Hang
  | S fuel =>
    c ← arr_get str s;
    if c =? 0 then
      buff ← arr_set buff b 0; Ret (buff, b)
    else if c =? 37 then
      '(buff, b, args, s) ← directive alp str (s + 1) buff b args;
      vsprintf_loop fuel alp buff b str s args
    else
      buff ← arr_set buff b c;
      vsprintf_loop fuel alp buff (b + 1) str (s + 1) args
  end.

(** Returns the buffer and the number of characters. *)
Definition vsprintf (alp buff : list Z) (str : list Z) (args : list arg) : outcome (list Z * Z) :=
  vsprintf_loop (S (length str)) alp buff 0 str 0 args.

(** ** Reference *)

(** The digits of a number, least significant first. *)
Fixpoint digits_rev (fuel : nat) (num base : Z) : list Z :=
  if num =? 0 then []
  else match fuel with
       | O => []
       | S fuel => num mod base :: digits_rev fuel (num / base) base
       end.

Definition num_text (base num : Z) : list Z :=
  if num =? 0 then [48] else reverse (digit <$> digits_rev 32 num base).

(** A format as a list of directives, and its text. *)
Inductive item := ILit (c : Z) | IDec | IInt | IUns | IHex | IStr | IChr | ILongHex.

Definition item_text (it : item) : list Z :=
  match it with
  | ILit c => [c]
  | IDec => [37; 100] | IInt => [37; 105] | IUns => [37; 117] | IHex => [37; 120]
  | IStr => [37; 115] | IChr => [37; 99] | ILongHex => [37; 108; 120]
  end.

(** The string in an array, up to its null byte. *)
Fixpoint c_string (s : list Z) : option (list Z) :=
  match s with
  | [] => None
  | c :: s => if c =? 0 then Some [] else t ← c_string s; Some (c :: t)
  end.

(** What an item prints and the arguments it leaves. *)
Definition render_item (it : item) (args : list arg) : option (list Z * list arg) :=
  match it, args with
  | ILit c, _ => Some ([c], args)
  | (IDec | IInt), AInt z :: args => Some ((if z <? 0 then [45] else []) ++ num_text 10 (Z.abs z), args)
  | IUns, AInt z :: args => Some (num_text 10 (u16 z), args)
  | IHex, AInt z :: args => Some (num_text 16 (u16 z), args)
  | IStr, AStr s :: args => t ← c_string s; Some (t, args)
  | IChr, AInt z :: args => Some ([u8 z], args)
  | ILongHex, ALong z :: args => Some (num_text 16 z, args)
  | _, _ => None
  end.

Fixpoint render (items : list item) (args : list arg) : option (list Z) :=
  match items with
  | [] => Some []
  | it :: items =>
    '(t, args) ← render_item it args;
    ts ← render items args;
    Some (t ++ ts)
  end.

Definition item_ok (it : item) : Prop := match it with ILit c => c <> 0 /\ c <> 37 | _ => True end.

Definition arg_ok (a : arg) : Prop :=
  match a with
  | AInt z => is_i16 z
  | ALong z => 0 <= z < 4294967296
  | AStr s => match c_string s with Some t => zlen t < 65536 | None => True end
  end.

(** The number a text stands for. *)
Definition digit_value (c : Z) : Z := if c <? 58 then c - 48 else c - 97 + 10.

Definition parse_num (base : Z) (text : list Z) : Z :=
  fold_left (fun acc c => acc * base + digit_value c) text 0.

(** ** Lemmas on numbers *)

Lemma digit_char d : 0 <= d < 16 -> 48 <= digit d < 103 /\ digit_value (digit d) = d.
Proof.
  intros H. unfold digit, digit_value. destruct (Z.ltb_spec d 10).
  - destruct (Z.ltb_spec (48 + d) 58); lia.
  - destruct (Z.ltb_spec (97 + (d - 10)) 58); lia.
Qed.

Lemma digits_rev_S fuel num base : num <> 0 ->
  digits_rev (S fuel) num base = num mod base :: digits_rev fuel (num / base) base.
Proof. intros H. simpl. by rewrite eqb_ne. Qed.

Lemma digits_rev_range fuel num base : 2 <= base -> Forall (fun d => 0 <= d < base) (digits_rev fuel num base).
Proof.
  intros Hb. revert num. induction fuel as [|fuel IH]; intros num; simpl; destruct (num =? 0); try done.
  constructor; [apply Z.mod_pos_bound; lia|done].
Qed.

Lemma pow_S_bound base fuel num :
  2 <= base -> 0 <= num < base ^ Z.of_nat (S fuel) -> 0 <= num / base < base ^ Z.of_nat fuel.
Proof.
  intros Hb. rewrite Nat2Z.inj_succ, Z.pow_succ_r by lia. intros [H0 H1]. split.
  - apply Z.div_pos; lia.
  - apply Z.div_lt_upper_bound; lia.
Qed.

Lemma digit_loop_spec fuel buff p num base pos :
  2 <= base <= 16 -> 0 <= num < base ^ Z.of_nat fuel -> 0 <= p + pos ->
  p + pos + zlen (digits_rev fuel num base) <= zlen buff ->
  digit_loop fuel buff p num base pos =
    Ret (splice buff (p + pos) (digit <$> digits_rev fuel num base),
         pos + zlen (digits_rev fuel num base)).
Proof.
  intros Hb. revert buff num pos. induction fuel as [|fuel IH]; intros buff num pos Hn Hp Hl;
    destruct (Z.eqb_spec num 0) as [->|Hz].
  - simpl. by rewrite splice_nil, Z.add_0_r.
  - simpl in Hn. lia.
  - simpl. by rewrite splice_nil, Z.add_0_r.
  - rewrite digits_rev_S in * by done. simpl digit_loop. rewrite (eqb_ne _ _ Hz).
    simpl in Hl. assert (Hm : 0 <= num mod base < base) by (apply Z.mod_pos_bound; lia).
    destruct (digit_char (num mod base)) as [Hd _]; [lia|].
    rewrite u8_small, arr_set_in by lia. cbn [mbind outcome_bind].
    rewrite IH; [|apply pow_S_bound; [lia|done]|lia|rewrite length_insert; lia].
    simpl fmap. replace (p + (pos + 1)) with (p + pos + 1) by lia. rewrite splice_cons by lia.
    do 2 f_equal. simpl. lia.
Qed.

(** Swapping from both ends towards the middle reverses a segment. *)
Definition swapped (o n i j : nat) : nat :=
  if decide (o <= j < o + i \/ o + n - i <= j < o + n)%nat then (2 * o + n - 1 - j)%nat else j.

(** One swap extends the permuted part by one on each side. *)
Lemma swap_at_spec b0 b o n (i : nat) :
  (2 * i + 2 <= n)%nat -> (o + n <= length b0)%nat ->
  length b = length b0 -> (forall j, b !! j = b0 !! swapped o n i j) ->
  exists b', swap_at (Z.of_nat o) (Z.of_nat n) (Z.of_nat i) b = Ret b' /\ length b' = length b0 /\
    forall j, b' !! j = b0 !! swapped o n (i + 1) j.
Proof.
  intros Hi Hlen Hl Hb. unfold swap_at.
  destruct (arr_get_in b (Z.of_nat o + Z.of_nat i)) as (x1 & -> & E1); [lia|]. cbn [mbind outcome_bind].
  destruct (arr_get_in b (Z.of_nat o + (Z.of_nat n - Z.of_nat i - 1))) as (x2 & -> & E2); [lia|].
  cbn [mbind outcome_bind].
  rewrite arr_set_in by lia. cbn [mbind outcome_bind]. rewrite arr_set_in by (rewrite length_insert; lia).
  eexists. split; [done|]. rewrite !length_insert. split; [done|]. intros j.
  replace (Z.to_nat (Z.of_nat o + Z.of_nat i)) with (o + i)%nat in * by lia.
  replace (Z.to_nat (Z.of_nat o + (Z.of_nat n - Z.of_nat i - 1))) with (o + n - 1 - i)%nat in * by lia.
  rewrite Hb in E1, E2. unfold swapped in *.
  rewrite decide_False in E1 by lia. rewrite decide_False in E2 by lia.
  destruct (decide (j = o + n - 1 - i)%nat) as [->|Hj2].
  - rewrite list_lookup_insert_eq by (rewrite length_insert; lia). rewrite decide_True by lia.
    rewrite <-E1. f_equal. lia.
  - rewrite list_lookup_insert_ne by done.
    destruct (decide (j = o + i)%nat) as [->|Hj1].
    + rewrite list_lookup_insert_eq by lia. rewrite decide_True by lia. rewrite <-E2. f_equal. lia.
    + rewrite list_lookup_insert_ne by done. rewrite Hb.
      repeat case_decide; try lia; done.
Qed.

Lemma half_bounds n : (2 * (n / 2) <= n < 2 * (n / 2) + 2)%nat.
Proof.
  pose proof (Nat.div_mod_eq n 2). pose proof (Nat.mod_upper_bound n 2). lia.
Qed.

(** After half of the swaps the segment is reversed. *)
Lemma swapped_half (o seg post : list Z) j :
  (o ++ seg ++ post) !! swapped (length o) (length seg) (length seg / 2) j = (o ++ reverse seg ++ post) !! j.
Proof.
  pose proof (half_bounds (length seg)) as Hh. set (h := (length seg / 2)%nat) in *.
  unfold swapped. destruct (decide (j < length o)%nat) as [Hj|Hj].
  { rewrite decide_False by lia. by rewrite !lookup_app_l by done. }
  rewrite (lookup_app_r o (reverse seg ++ post)) by lia.
  destruct (decide (j < length o + length seg)%nat) as [Hj2|Hj2].
  - rewrite (lookup_app_l (reverse seg)) by (rewrite length_reverse; lia).
    rewrite reverse_lookup by lia.
    assert (Hmid : ((if decide (length o <= j < length o + h \/
                     length o + length seg - h <= j < length o + length seg)
              then 2 * length o + length seg - 1 - j else j) = length o + (length seg - S (j - length o)))%nat).
    { case_decide; lia. }
    rewrite Hmid, lookup_app_r by lia. rewrite lookup_app_l by lia. f_equal. lia.
  - rewrite decide_False by lia. rewrite (lookup_app_r (reverse seg)) by (rewrite length_reverse; lia).
    rewrite lookup_app_r, lookup_app_r, length_reverse by lia. done.
Qed.

Lemma reverse_loop_spec buff o seg post :
  buff = o ++ seg ++ post ->
  reverse_loop buff (zlen o) (zlen seg) = Ret (o ++ reverse seg ++ post).
Proof.
  intros ->. unfold reverse_loop. rewrite Z.shiftr_div_pow2 by lia. change (2 ^ 1) with 2.
  replace (zlen seg / 2) with (Z.of_nat (length seg / 2)) by (by rewrite Nat2Z.inj_div).
  rewrite Nat2Z.id. pose proof (half_bounds (length seg)) as Hh.
  destruct (for_loop_inv (fun i b => length b = length (o ++ seg ++ post) /\
      forall j, b !! j = (o ++ seg ++ post) !! swapped (length o) (length seg) (Z.to_nat i) j)
    (length seg / 2) 0 (swap_at (zlen o) (zlen seg)) (o ++ seg ++ post)) as (b' & Hrun & Hl' & Hb').
  - split; [done|]. intros j. unfold swapped. by rewrite decide_False by lia.
  - intros i b Hi [Hl Hb].
    destruct (swap_at_spec (o ++ seg ++ post) b (length o) (length seg) (Z.to_nat i))
      as (b' & E & Hl' & Hb'); [lia|rewrite !length_app; lia|done|done|].
    rewrite Z2Nat.id in E by lia. exists b'. split; [done|]. split; [done|].
    by replace (Z.to_nat (i + 1)) with (Z.to_nat i + 1)%nat by lia.
  - rewrite Hrun. f_equal. apply list_eq. intros j. rewrite Hb'.
    rewrite Z.add_0_l, Nat2Z.id.
    apply swapped_half.
Qed.

(** More fuel than digits changes nothing. *)
Lemma digits_rev_fuel fuel k num base :
  2 <= base -> 0 <= num < base ^ Z.of_nat fuel -> digits_rev (fuel + k) num base = digits_rev fuel num base.
Proof.
  intros Hb. revert num. induction fuel as [|fuel IH]; intros num Hn.
  - simpl in Hn. replace num with 0 by lia. by destruct k.
  - destruct (Z.eqb_spec num 0) as [->|Hz]; [done|].
    simpl plus. rewrite !digits_rev_S by done. f_equal. apply IH. by apply pow_S_bound; [lia|].
Qed.

Lemma pow_ge_2 base n : 2 <= base -> 2 ^ Z.of_nat n <= base ^ Z.of_nat n.
Proof. intros. apply Z.pow_le_mono_l. lia. Qed.

Lemma digits_16 num base : 2 <= base -> is_u16 num ->
  digits_rev 32 num base = digits_rev 16 num base /\ 0 <= num < base ^ Z.of_nat 16.
Proof.
  intros Hb Hn. pose proof (pow_ge_2 base 16 Hb) as Hp. change (2 ^ Z.of_nat 16) with 65536 in Hp.
  split; [|lia]. apply (digits_rev_fuel 16 16); [done|lia].
Qed.

Lemma reverse_splice buff p seg :
  0 <= p -> p + zlen seg <= zlen buff ->
  reverse_loop (splice buff p seg) p (zlen seg) = Ret (splice buff p (reverse seg)).
Proof.
  intros Hp Hl. unfold splice. rewrite length_reverse.
  pose proof (reverse_loop_spec _ (take (Z.to_nat p) buff) seg (drop (Z.to_nat p + length seg) buff) eq_refl) as E.
  by replace (zlen (take (Z.to_nat p) buff)) with p in E by (rewrite length_take; lia).
Qed.

Lemma _utoa_spec buff p num base :
  2 <= base <= 16 -> is_u16 num -> 0 <= p -> p + zlen (num_text base num) < zlen buff ->
  _utoa buff p num base = Ret (splice buff p (num_text base num ++ [0]), zlen (num_text base num)).
Proof.
  intros Hb Hn Hp Hfit. destruct (digits_16 num base) as [E16 Hpow]; [lia|done|].
  assert (exists seg, reverse seg = num_text base num /\
    ('(buff, pos) ← (if num =? 0 then b ← arr_set buff p 48; Ret (b, 1) else Ret (buff, 0));
     digit_loop 16 buff p num base pos) = Ret (splice buff p seg, zlen seg)) as (seg & Hseg & E).
  { unfold num_text in *. rewrite E16 in *. destruct (Z.eqb_spec num 0) as [->|Hz].
    - exists [48]. split; [done|]. simpl in Hfit. rewrite arr_set_in by lia. simpl.
      by rewrite <-splice_cons, splice_nil by lia.
    - rewrite length_reverse, length_fmap in Hfit. eexists. split; [done|].
      cbn [mbind outcome_bind]. rewrite digit_loop_spec by (lia || done).
      by rewrite Z.add_0_r, length_fmap. }
  assert (Hlen : length seg = length (num_text base num)) by (by rewrite <-Hseg, length_reverse).
  unfold _utoa.
  destruct (if num =? 0 then b ← arr_set buff p 48; Ret (b, 1) else Ret (buff, 0)) as [[b1 pos]| | | |];
    try discriminate E. cbn [mbind outcome_bind] in *. rewrite E. cbn [mbind outcome_bind].
  rewrite reverse_splice by lia. cbn [mbind outcome_bind]. rewrite Hseg, Hlen.
  by rewrite arr_set_splice by lia.
Qed.

(** The text of a number has no null byte and reads back as the number. *)
Lemma parse_num_app base ds c : parse_num base (ds ++ [c]) = parse_num base ds * base + digit_value c.
Proof. unfold parse_num. by rewrite fold_left_app. Qed.

Lemma parse_digits fuel base num :
  2 <= base <= 16 -> 0 <= num < base ^ Z.of_nat fuel ->
  parse_num base (reverse (digit <$> digits_rev fuel num base)) = num.
Proof.
  intros Hb. revert num. induction fuel as [|fuel IH]; intros num Hn;
    destruct (Z.eqb_spec num 0) as [->|Hz]; try done.
  - simpl in Hn. lia.
  - rewrite digits_rev_S by done. rewrite fmap_cons, reverse_cons, parse_num_app, IH
      by (apply pow_S_bound; [lia|done]).
    assert (0 <= num mod base < base) by (apply Z.mod_pos_bound; lia).
    destruct (digit_char (num mod base)) as [_ ->]; [lia|].
    pose proof (Z.div_mod num base). lia.
Qed.

Lemma num_text_chars base num : 2 <= base <= 16 -> Forall (fun c => 48 <= c < 103) (num_text base num).
Proof.
  intros Hb. unfold num_text. destruct (num =? 0); [by repeat constructor|].
  apply Forall_reverse, Forall_fmap. eapply Forall_impl; [apply digits_rev_range; lia|].
  intros d Hd. simpl. apply digit_char. simpl in Hd. lia.
Qed.

(** ** The two halves of a long *)

Lemma digits_rev_split fuel k l h base :
  2 <= base -> 0 < h -> 0 <= l < base ^ Z.of_nat k ->
  digits_rev (k + fuel) (h * base ^ Z.of_nat k + l) base =
    digits_rev k l base ++ replicate (k - length (digits_rev k l base)) 0 ++ digits_rev fuel h base.
Proof.
  intros Hb Hh. revert l. induction k as [|k IH]; intros l Hl.
  - simpl in *. replace l with 0 by lia. simpl. f_equal. lia.
  - assert (Hpos : 0 < base ^ Z.of_nat k) by (apply Z.pow_pos_nonneg; lia).
    assert (Hpow : base ^ Z.of_nat (S k) = base * base ^ Z.of_nat k)
      by (rewrite Nat2Z.inj_succ, Z.pow_succ_r; lia).
    pose proof (pow_S_bound base k l Hb Hl) as Hl'.
    simpl plus. rewrite digits_rev_S by nia. rewrite Hpow in *.
    replace (h * (base * base ^ Z.of_nat k) + l) with (l + (h * base ^ Z.of_nat k) * base) by lia.
    rewrite Z.mod_add, Z.div_add by lia. rewrite Z.add_comm, IH by done.
    destruct (Z.eqb_spec l 0) as [->|Hz].
    + rewrite Z.mod_0_l, Z.div_0_l by lia. simpl. destruct k; done.
    + rewrite digits_rev_S by done. done.
Qed.

Lemma replicate_fmap_digit n : digit <$> replicate n 0 = replicate n 48.
Proof. by rewrite fmap_replicate. Qed.

Lemma reverse_replicate {A} n (x : A) : reverse (replicate n x) = replicate n x.
Proof.
  induction n as [|n IH]; [done|]. simpl. rewrite reverse_cons, IH. symmetry. apply replicate_cons_app.
Qed.

(** A long whose upper half is not zero prints as that half, then the lower
    half in exactly four digits. *)
Lemma num_text_long h l :
  0 < h < 65536 -> is_u16 l ->
  num_text 16 (h * 65536 + l) =
    num_text 16 h ++ replicate (4 - length (num_text 16 l)) 48 ++ num_text 16 l.
Proof.
  intros Hh Hl. unfold num_text at 1 2. rewrite !eqb_ne by lia.
  change 65536 with (16 ^ Z.of_nat 4) at 1. change 32%nat with (4 + 28)%nat at 1.
  rewrite digits_rev_split by (change (16 ^ Z.of_nat 4) with 65536; lia).
  rewrite !fmap_app, !reverse_app, replicate_fmap_digit, reverse_replicate, <-app_assoc.
  assert (Eh : digits_rev 28 h 16 = digits_rev 32 h 16).
  { destruct (digits_16 h 16) as [-> Hp]; [lia|lia|]. by apply (digits_rev_fuel 16 12); [lia|]. }
  rewrite Eh. f_equal. unfold num_text. destruct (Z.eqb_spec l 0) as [->|Hz]; [done|].
  assert (El : digits_rev 32 l 16 = digits_rev 4 l 16).
  { apply (digits_rev_fuel 4 28); [lia|]. change (16 ^ Z.of_nat 4) with 65536. lia. }
  by rewrite El, length_reverse, length_fmap.
Qed.

Lemma length_num_text_u16 l : is_u16 l -> (length (num_text 16 l) <= 4)%nat.
Proof.
  intros Hl. unfold num_text. destruct (Z.eqb_spec l 0); [simpl; lia|].
  rewrite length_reverse, length_fmap. rewrite (digits_rev_fuel 4 28) by (change (16 ^ Z.of_nat 4) with 65536; lia).
  generalize l, 4%nat. intros x m. revert x. induction m as [|m IH]; intros x; simpl; destruct (x =? 0); simpl; try lia.
  specialize (IH (x / 16)). lia.
Qed.

(** ** One directive

    [buff] holds the output so far and, after it, at most one byte that a
    previous directive left. *)

Definition holds (buff0 buff : list Z) (out : list Z) : Prop :=
  exists tail, (length tail <= 1)%nat /\ buff = splice buff0 0 (out ++ tail) /\ zlen out + zlen tail <= zlen buff0.

(** The directive wrote [t], and moved the position to its end. *)
Definition wrote (buff0 out t : list Z) (args : list arg) (r : outcome (list Z * Z * list arg)) : Prop :=
  exists buff, r = Ret (buff, zlen (out ++ t), args) /\ holds buff0 buff (out ++ t).

Lemma holds_length buff0 buff out : holds buff0 buff out -> length buff = length buff0.
Proof.
  intros (tail & _ & -> & Hl). apply length_splice; [lia|]. rewrite length_app. lia.
Qed.

Lemma holds_splice buff0 buff out t x :
  holds buff0 buff out -> zlen (out ++ t) < zlen buff0 ->
  holds buff0 (splice buff (zlen out) (t ++ [x])) (out ++ t).
Proof.
  intros (tail & Ht & -> & Hl) Hfit. rewrite length_app in Hfit. exists [x]. split_and!; [done| |].
  - rewrite splice_over by (rewrite ?length_app; simpl; lia). by rewrite app_assoc.
  - rewrite length_app. simpl. lia.
Qed.

Lemma holds_set buff0 buff out c :
  holds buff0 buff out -> zlen out < zlen buff0 ->
  exists buff', arr_set buff (zlen out) c = Ret buff' /\ holds buff0 buff' (out ++ [c]).
Proof.
  intros Hh Hfit. pose proof (holds_length _ _ _ Hh) as Hl. destruct Hh as (tail & Ht & -> & Hb).
  rewrite arr_set_in by lia. eexists. split; [done|].
  exists []. split_and!; [simpl; lia| |rewrite length_app; simpl; lia].
  rewrite <-(splice_nil (<[_ := _]> _) (zlen out + 1)), splice_cons by lia.
  rewrite splice_over by (simpl; lia). by rewrite app_nil_r.
Qed.

Lemma utoa_wrote buff0 buff out base num :
  holds buff0 buff out -> 2 <= base <= 16 -> is_u16 num -> zlen (out ++ num_text base num) < zlen buff0 ->
  exists buff', _utoa buff (zlen out) num base = Ret (buff', zlen (num_text base num)) /\
    holds buff0 buff' (out ++ num_text base num).
Proof.
  intros Hh Hb Hn Hfit. eexists. split; [|by apply (holds_splice _ _ _ _ 0 Hh)].
  apply _utoa_spec; try done; [lia|]. rewrite (holds_length _ _ _ Hh). rewrite length_app in Hfit. lia.
Qed.

Lemma zlen_app (xs ys : list Z) : zlen (xs ++ ys) = zlen xs + zlen ys.
Proof. rewrite length_app. lia. Qed.

Lemma fmt_u_wrote base z buff0 buff out args :
  2 <= base <= 16 -> holds buff0 buff out -> zlen (out ++ num_text base (u16 z)) < zlen buff0 ->
  wrote buff0 out (num_text base (u16 z)) args (fmt_u base buff (zlen out) (AInt z :: args)).
Proof.
  intros Hb Hh Hfit. destruct (utoa_wrote _ _ _ base (u16 z) Hh Hb (u16_range z) Hfit) as (buff' & E & Hh').
  exists buff'. split; [|done]. unfold fmt_u. simpl. rewrite E. simpl. by rewrite zlen_app.
Qed.

Lemma fmt_d_wrote z buff0 buff out args :
  is_i16 z -> holds buff0 buff out ->
  let t := (if z <? 0 then [45] else []) ++ num_text 10 (Z.abs z) in
  zlen (out ++ t) < zlen buff0 -> wrote buff0 out t args (fmt_d buff (zlen out) (AInt z :: args)).
Proof.
  intros Hz Hh t Hfit. unfold t in *. unfold fmt_d. simpl.
  destruct (Z.ltb_spec z 0) as [Hneg|Hpos].
  - rewrite !zlen_app in Hfit. simpl in Hfit. destruct (holds_set _ _ _ 45 Hh) as (b1 & -> & H1); [lia|].
    cbn [mbind outcome_bind]. replace (zlen out + 1) with (zlen (out ++ [45])) by (by rewrite zlen_app).
    destruct (utoa_wrote _ _ _ 10 (u16 (i16 (z * -1))) H1) as (b2 & E & H2); [lia|apply u16_range|..].
    { rewrite u16_i16, !zlen_app. rewrite u16_small by lia. replace (z * -1) with (Z.abs z) by lia. simpl. lia. }
    rewrite u16_i16 in *. rewrite u16_small in * by lia. replace (z * -1) with (Z.abs z) in * by lia.
    rewrite E. simpl. exists b2. rewrite <-!app_assoc in *. split; [|done]. simpl. rewrite !zlen_app. simpl.
    do 3 f_equal. lia.
  - simpl in *. replace (Z.abs z) with (u16 z) in * by (rewrite u16_small; lia).
    destruct (utoa_wrote _ _ _ 10 (u16 z) Hh) as (b2 & E & H2); [lia|apply u16_range|done|].
    rewrite E. simpl. exists b2. by rewrite zlen_app.
Qed.

Lemma c_string_cstr s t : c_string s = Some t -> cstr s 0 t.
Proof.
  intros Hs. assert (exists post, s = t ++ 0 :: post /\ Forall (fun b => b <> 0) t) as (post & -> & Ht).
  { revert t Hs. induction s as [|c s IH]; intros t Hs; simpl in Hs; [done|].
    destruct (Z.eqb_spec c 0) as [->|Hc]; [simplify_eq; by exists s|].
    destruct (c_string s) as [t'|]; [|done]. simplify_eq/=. destruct (IH t' eq_refl) as (post & -> & ?).
    exists post. split; [done|]. by constructor. }
  by apply cstr_literal.
Qed.

Lemma fmt_s_wrote str t buff0 buff out args :
  c_string str = Some t -> zlen t < 65536 -> holds buff0 buff out -> zlen (out ++ t) < zlen buff0 ->
  wrote buff0 out t args (fmt_s buff (zlen out) (AStr str :: args)).
Proof.
  intros Hs%c_string_cstr Ht Hh Hfit. pose proof (cstr_length _ _ _ Hs) as [_ Hl].
  exists (splice buff (zlen out) (t ++ [0])). split; [|by apply holds_splice].
  unfold fmt_s. simpl va_str. cbn [mbind outcome_bind]. unfold strcpy, strlen.
  rewrite (strcpy_loop_spec _ _ _ _ _ t) by (done || lia).
  rewrite decide_True by (rewrite (holds_length _ _ _ Hh); rewrite zlen_app in Hfit; lia).
  cbn [mbind outcome_bind]. rewrite (strlen_loop_spec _ _ _ t) by (done || lia). cbn [mbind outcome_bind].
  by rewrite zlen_app, u16_small by lia.
Qed.

Lemma fmt_c_wrote z buff0 buff out args :
  holds buff0 buff out -> zlen (out ++ [u8 z]) < zlen buff0 ->
  wrote buff0 out [u8 z] args (fmt_c buff (zlen out) (AInt z :: args)).
Proof.
  intros Hh Hfit. rewrite zlen_app in Hfit. simpl in Hfit.
  destruct (holds_set _ _ _ (u8 z) Hh) as (b1 & E & H1); [lia|].
  exists b1. split; [|done]. unfold fmt_c. simpl. rewrite E. simpl. by rewrite zlen_app.
Qed.

(** The zeros that pad the lower half. *)
Lemma pad_wrote buff0 buff out n :
  holds buff0 buff out -> zlen out + Z.of_nat n <= zlen buff0 ->
  exists buff', for_loop n 0 (fun i buff => arr_set buff (zlen out + i) 48) buff = Ret buff' /\
    holds buff0 buff' (out ++ replicate n 48).
Proof.
  intros Hh Hfit. destruct (for_loop_inv (fun i b => holds buff0 b (out ++ replicate (Z.to_nat i) 48)) n 0
    (fun i buff => arr_set buff (zlen out + i) 48) buff) as (b' & E & Hb').
  - by rewrite app_nil_r.
  - intros j b Hj Hb. destruct (holds_set _ _ _ 48 Hb) as (b' & E & Hb').
    { rewrite zlen_app, length_replicate. lia. }
    rewrite zlen_app, length_replicate, Z2Nat.id in E by lia. exists b'. split; [done|].
    rewrite <-app_assoc, <-replicate_cons_app in Hb'.
    by replace (Z.to_nat (j + 1)) with (S (Z.to_nat j)) by lia.
  - rewrite Z.add_0_l, Nat2Z.id in Hb'. eauto.
Qed.

Lemma fmt_lx_wrote alp z buff0 buff out args :
  length alp = 5%nat -> 0 <= z < 4294967296 -> holds buff0 buff out ->
  zlen (out ++ num_text 16 z) < zlen buff0 ->
  wrote buff0 out (num_text 16 z) args (fmt_lx alp buff (zlen out) (ALong z :: args)).
Proof.
  intros Halp Hz Hh Hfit. unfold fmt_lx. simpl va_long. cbn [mbind outcome_bind].
  assert (Eh : u16 (Z.shiftr z 16) = z / 65536) by (rewrite Z.shiftr_div_pow2 by lia; change (2 ^ 16) with 65536; zlia).
  assert (El : Z.land z 0xffff = z mod 65536) by (change 0xffff with (Z.ones 16); by rewrite Z.land_ones by lia).
  rewrite Eh, El. set (h := z / 65536). set (l := z mod 65536).
  assert (Hl : is_u16 l) by (unfold l; zlia). assert (Hh16 : is_u16 h) by (unfold h; zlia).
  assert (Ez : z = h * 65536 + l) by (unfold h, l; zlia).
  destruct (Z.eqb_spec h 0) as [Eh0|Hh0]; simpl negb; cbv iota.
  - assert (El0 : l = z) by lia. rewrite El0 in *.
    destruct (utoa_wrote _ _ _ 16 z Hh) as (b1 & E & H1); [lia|done|done|].
    rewrite E. exists b1. split; [|done]. simpl. by rewrite zlen_app.
  - assert (Hh1 : 0 < h < 65536) by lia. rewrite Ez in Hfit. rewrite (num_text_long h l Hh1 Hl) in Hfit.
    pose proof (length_num_text_u16 l Hl) as Hl4. rewrite Ez, (num_text_long h l Hh1 Hl).
    rewrite !zlen_app in Hfit. rewrite length_replicate in Hfit.
    destruct (utoa_wrote _ _ _ 16 h Hh) as (b1 & E1 & H1); [lia|done|rewrite zlen_app; lia|].
    rewrite E1. cbn [mbind outcome_bind].
    rewrite (_utoa_spec alp 0 l 16) by (lia || rewrite Halp; lia). cbn [mbind outcome_bind].
    replace (Z.to_nat (4 - zlen (num_text 16 l))) with (4 - length (num_text 16 l))%nat by lia.
    destruct (pad_wrote _ _ _ (4 - length (num_text 16 l)) H1) as (b2 & E2 & H2); [rewrite zlen_app; lia|].
    rewrite <-zlen_app, E2. cbn [mbind outcome_bind].
    assert (Hc : cstr (splice alp 0 (num_text 16 l ++ [0])) 0 (num_text 16 l)).
    { apply cstr_splice; [lia|lia|]. eapply Forall_impl; [apply num_text_chars; lia|]. simpl. lia. }
    unfold strcpy. rewrite (strcpy_loop_spec _ _ _ _ _ (num_text 16 l) Hc);
      [|rewrite length_splice by (rewrite ?length_app; simpl; lia); lia|lia].
    rewrite decide_True by (rewrite (holds_length _ _ _ H2), zlen_app; lia). cbn [mbind outcome_bind].
    eexists. split.
    + do 3 f_equal. rewrite !zlen_app, length_replicate. lia.
    + rewrite !app_assoc.
      replace (zlen (out ++ num_text 16 h) + Z.of_nat (4 - length (num_text 16 l)))
        with (zlen ((out ++ num_text 16 h) ++ replicate (4 - length (num_text 16 l)) 48))
        by (rewrite (zlen_app (out ++ _)), length_replicate; lia).
      apply holds_splice; [done|]. rewrite !zlen_app, length_replicate. lia.
Qed.

Definition is_lit (it : item) : bool := match it with ILit _ => true | _ => false end.

Lemma wrote_ok buff0 out t args r (s : Z) :
  wrote buff0 out t args r ->
  exists buff', ('(x) ← r; Ret (x, s)) = Ret (buff', zlen (out ++ t), args, s) /\ holds buff0 buff' (out ++ t).
Proof. intros (b & -> & Hb). eauto. Qed.

Lemma directive_wrote alp it args t args' buff0 buff out pre rest :
  is_lit it = false -> render_item it args = Some (t, args') -> Forall arg_ok args -> length alp = 5%nat ->
  holds buff0 buff out -> zlen (out ++ t) < zlen buff0 ->
  exists buff', directive alp (pre ++ item_text it ++ rest) (zlen pre + 1) buff (zlen out) args =
      Ret (buff', zlen (out ++ t), args', zlen pre + zlen (item_text it)) /\ holds buff0 buff' (out ++ t).
Proof.
  intros Hlit Hr Hargs Halp Hh Hfit. unfold directive.
  rewrite arr_get_app_r by lia. replace (zlen pre + 1 + 1) with (zlen pre + 2) by lia.
  replace (zlen pre + 1 + 2) with (zlen pre + 3) by lia.
  destruct it as [c| | | | | | |]; [done|..]; destruct args as [|[z|z|str] args]; simpl in Hr; try done;
    apply Forall_cons in Hargs as [Ha _]; simpl in Ha.
  all: try (simplify_eq; simpl; apply wrote_ok; auto using fmt_d_wrote, fmt_c_wrote; apply fmt_u_wrote; by auto || lia).
  - destruct (c_string str) as [t'|] eqn:Es; simplify_eq/=. apply wrote_ok. by eapply fmt_s_wrote.
  - simplify_eq. simpl. rewrite arr_get_app_r by lia. simpl. apply wrote_ok. by apply fmt_lx_wrote.
Qed.

Lemma render_item_args it args t args' :
  render_item it args = Some (t, args') -> Forall arg_ok args -> Forall arg_ok args'.
Proof.
  intros Hr Ha. destruct it, args as [|[] args]; simpl in Hr; simplify_eq; try done;
    try (by apply Forall_cons in Ha as [_ ?]).
  destruct (c_string s); simplify_eq/=. by apply Forall_cons in Ha as [_ ?].
Qed.

Definition text_of (items : list item) : list Z := items ≫= item_text.

Lemma vsprintf_loop_renders fuel alp items args ts buff0 buff out pre post :
  Forall item_ok items -> Forall arg_ok args -> render items args = Some ts -> length alp = 5%nat ->
  holds buff0 buff out -> zlen (out ++ ts) < zlen buff0 -> (length items < fuel)%nat ->
  vsprintf_loop fuel alp buff (zlen out) (pre ++ text_of items ++ 0 :: post) (zlen pre) args =
    Ret (splice buff0 0 (out ++ ts ++ [0]), zlen (out ++ ts)).
Proof.
  revert fuel args ts buff out pre. induction items as [|it items IH];
    intros [|fuel] args ts buff out pre Hok Ha Hr Halp Hh Hfit Hf; simpl in Hf; try lia.
  - simpl in Hr. simplify_eq. simpl vsprintf_loop. rewrite arr_get_middle. cbn [mbind outcome_bind Z.eqb].
    rewrite app_nil_r in *. pose proof (holds_length _ _ _ Hh) as Hl. destruct Hh as (tail & Ht & -> & Hb).
    rewrite arr_set_in by lia. cbn [mbind outcome_bind]. do 2 f_equal.
    rewrite <-(splice_nil (<[_ := _]> _) (zlen out + 1)), splice_cons by lia.
    by rewrite splice_over by (simpl; lia).
  - apply Forall_cons in Hok as [Hit Hok]. simpl in Hr.
    destruct (render_item it args) as [[t args']|] eqn:Er; [|done]. simpl in Hr.
    destruct (render items args') as [ts'|] eqn:Ers; [|done]. simplify_eq/=.
    pose proof (render_item_args _ _ _ _ Er Ha) as Ha'. rewrite !zlen_app in Hfit.
    change (text_of (it :: items)) with (item_text it ++ text_of items). rewrite <-app_assoc.
    destruct (is_lit it) eqn:Hlit.
    + destruct it as [c| | | | | | |]; try done. simpl in Er. simplify_eq. destruct Hit as [Hc0 Hc37].
      simpl in *. rewrite arr_get_middle. cbn [mbind outcome_bind]. rewrite !eqb_ne by done.
      destruct (holds_set _ _ _ c Hh) as (b1 & -> & H1); [lia|]. cbn [mbind outcome_bind].
      replace (zlen out + 1) with (zlen (out ++ [c])) by (by rewrite zlen_app).
      replace (zlen pre + 1) with (zlen (pre ++ [c])) by (by rewrite zlen_app).
      replace (pre ++ c :: text_of items ++ 0 :: post) with ((pre ++ [c]) ++ text_of items ++ 0 :: post)
        by (by rewrite <-app_assoc).
      rewrite (IH fuel args' ts') by (done || lia || (rewrite !zlen_app; simpl in *; lia)).
      by rewrite <-!app_assoc.
    + destruct (directive_wrote alp it args t args' buff0 buff out pre (text_of items ++ 0 :: post))
        as (b1 & E & H1); [done..|rewrite zlen_app; lia|].
      assert (exists k, item_text it = 37 :: k) as [k Ek] by (destruct it; simpl; eauto; done).
      assert (Hc : arr_get (pre ++ item_text it ++ text_of items ++ 0 :: post) (zlen pre) = Ret 37)
        by (rewrite Ek; apply arr_get_middle).
      simpl vsprintf_loop. rewrite Hc. cbn [mbind outcome_bind].
      change (37 =? 0) with false. change (37 =? 37) with true. cbv iota.
      rewrite E. cbn [mbind outcome_bind].
      rewrite <-(zlen_app pre).
      replace (pre ++ item_text it ++ text_of items ++ 0 :: post)
        with ((pre ++ item_text it) ++ text_of items ++ 0 :: post) by (by rewrite <-app_assoc).
      rewrite (IH fuel args' ts') by (done || lia || (rewrite !zlen_app; lia)).
      by rewrite <-!app_assoc.
Qed.

(** ** Properties *)

(** Printing a number and reading it back gives the number: [_utoa] writes
    the digits of a 16-bit number, in any base from 2 to 16, most significant
    first and followed by a null byte, returns how many there are, and changes
    nothing else. *)
Theorem utoa_roundtrip buff p num base :
  2 <= base <= 16 -> is_u16 num -> 0 <= p -> p + zlen (num_text base num) < zlen buff ->
  _utoa buff p num base = Ret (splice buff p (num_text base num ++ [0]), zlen (num_text base num)) /\
  parse_num base (num_text base num) = num.
Proof.
  intros Hb Hn Hp Hfit. split; [by apply _utoa_spec|].
  unfold num_text. destruct (Z.eqb_spec num 0) as [->|Hz]; [done|].
  destruct (digits_16 num base) as [-> Hpow]; [lia|done|]. by apply parse_digits.
Qed.

Lemma vsprintf_text alp buff items args ts post :
  Forall item_ok items -> Forall arg_ok args -> render items args = Some ts -> length alp = 5%nat ->
  zlen ts < zlen buff ->
  vsprintf alp buff (text_of items ++ 0 :: post) args = Ret (splice buff 0 (ts ++ [0]), zlen ts).
Proof.
  intros Hok Ha Hr Halp Hfit. unfold vsprintf.
  apply (vsprintf_loop_renders _ alp items args ts buff buff [] [] post); try done.
  - exists []. split_and!; [simpl; lia|symmetry; apply splice_nil|simpl; lia].
  - rewrite length_app. simpl. assert (length items <= length (text_of items))%nat; [|lia].
    clear. induction items as [|it items IH]; [done|]. change (text_of (it :: items)) with (item_text it ++ text_of items).
    rewrite length_app. destruct it; simpl; lia.
Qed.

(** [vsprintf] renders every format made of literal characters and the
    directives d, i, u, x, s, c and lx exactly as its reference does, negative
    numbers and both halves of a long included: it writes that text and a null
    byte and returns the length of the text. *)
Theorem vsprintf_renders alp buff items args ts post :
  Forall item_ok items -> Forall arg_ok args -> render items args = Some ts -> length alp = 5%nat ->
  zlen ts < zlen buff ->
  vsprintf alp buff (text_of items ++ 0 :: post) args = Ret (splice buff 0 (ts ++ [0]), zlen ts).
Proof. apply vsprintf_text. Qed.

Lemma utoa_roundtrip_witness :
  _utoa (replicate 8 1) 1 48879 16 =
    Ret (splice (replicate 8 1) 1 (num_text 16 48879 ++ [0]), zlen (num_text 16 48879)) /\
  parse_num 16 (num_text 16 48879) = 48879.
Proof. apply (utoa_roundtrip (replicate 8 1) 1 48879 16); [lia|lia|lia|vm_compute; reflexivity]. Defined.

(** "v=%d %lx" with -32768 and 0x10002. *)
Lemma vsprintf_renders_witness :
  vsprintf (replicate 5 0) (replicate 32 1)
    (text_of [ILit 118; ILit 61; IDec; ILit 32; ILongHex] ++ 0 :: []) [AInt (-32768); ALong 0x10002]
  = Ret (splice (replicate 32 1) 0 ([118; 61; 45; 51; 50; 55; 54; 56; 32; 49; 48; 48; 48; 50] ++ [0]), 14).
Proof.
  apply (vsprintf_renders (replicate 5 0) (replicate 32 1) _ _
    [118; 61; 45; 51; 50; 55; 54; 56; 32; 49; 48; 48; 48; 50] []).
  - repeat constructor; simpl; lia.
  - repeat constructor; simpl; lia.
  - vm_compute. reflexivity.
  - reflexivity.
  - simpl. lia.
Defined.
