(* ===== verification/Keyboard.v ===== *)
(** * The keyboard (kernel/driver/keyboard.c)

    The PS/2 scan codes, one per interrupt, become characters: a state machine
    over the modifier keys, the release prefix 0xF0 and the extended prefix
    0xE0.  Each character is handed to [send_key], which submits it to the
    terminal and to the keyboard device: it is the function of that name of
    Console.v, and the state machine is written for any [send_key] that acts
    on a state of some type. *)

From S2P Require Import Prelude.

Definition RELEASE_SCANCODE : Z := 0xF0.
Definition EXTENDED_SCANCODE : Z := 0xE0.
Definition LSHIFT_SCANCODE : Z := 0x12.
Definition RSHIFT_SCANCODE : Z := 0x59.
Definition CTRL_SCANCODE : Z := 0x14.
Definition ARR_UP_ESCANCODE : Z := 0x75.
Definition ARR_DOWN_ESCANCODE : Z := 0x72.
Definition ARR_LEFT_ESCANCODE : Z := 0x6B.
Definition ARR_RIGHT_ESCANCODE : Z := 0x74.
Definition STATE_SHIFT : Z := 1.
Definition STATE_CTRL : Z := 4.

Definition printable_scancodes : list Z :=
  [
   32; 32; 32; 32; 32; 32; 32; 32; 32; 32; 32; 32; 32; 9; 96; 32;
   32; 32; 32; 32; 32; 113; 49; 32; 32; 32; 122; 115; 97; 119; 50; 32;
   32; 99; 120; 100; 101; 52; 51; 32; 32; 32; 118; 102; 116; 114; 53; 32;
   32; 110; 98; 104; 103; 121; 54; 32; 32; 32; 109; 106; 117; 55; 56; 32;
   32; 44; 107; 105; 111; 48; 57; 32; 32; 46; 47; 108; 59; 112; 45; 32;
   32; 32; 39; 32; 91; 61; 32; 32; 32; 32; 10; 93; 32; 92; 32; 32;
   32; 32; 32; 32; 32; 32; 8
  ].

Definition shift_scancodes : list Z :=
  [
   32; 32; 32; 32; 32; 32; 32; 32; 32; 32; 32; 32; 32; 9; 126; 32;
   32; 32; 32; 32; 32; 81; 33; 32; 32; 32; 90; 83; 65; 87; 64; 32;
   32; 67; 88; 68; 69; 36; 35; 32; 32; 32; 86; 70; 84; 82; 37; 32;
   32; 78; 66; 72; 71; 89; 94; 32; 32; 32; 77; 74; 85; 38; 42; 32;
   32; 60; 75; 73; 79; 41; 40; 32; 32; 62; 63; 76; 58; 80; 95; 32;
   32; 32; 34; 32; 123; 43; 32; 32; 32; 32; 10; 125; 32; 124; 32; 32;
   32; 32; 32; 32; 32; 32; 8
  ].

(** The globals of the driver. *)
Record keyboard := Keyboard {
  prev_scancode : Z;
  keyboard_state : Z;
  extended_scancode : bool;
}.

(** ** The code *)

Definition set_state (x : Z) (k : keyboard) : keyboard :=
  Keyboard (prev_scancode k) (u8 x) (extended_scancode k).

Definition set_extended (x : bool) (k : keyboard) : keyboard :=
  Keyboard (prev_scancode k) (keyboard_state k) x.

Definition set_prev (x : Z) (k : keyboard) : keyboard :=
  Keyboard x (keyboard_state k) (extended_scancode k).

(** A modifier key is held until its release. *)
Definition modifier (bit : Z) (k : keyboard) : keyboard :=
  if prev_scancode k =? RELEASE_SCANCODE then set_state (Z.land (keyboard_state k) (Z.lnot bit)) k
  else set_state (Z.lor (keyboard_state k) bit) k.

(** The character of a key; a table is read past its end for a code above 102. *)
Definition key_char (state scancode : Z) : outcome Z :=
  if negb (Z.land state STATE_CTRL =? 0) then
    s ← arr_get shift_scancodes scancode;
    if (64 <=? s) && (s <=? 90) || (94 <=? s) && (s <=? 95) then Ret (s - 64)
    else
      p ← arr_get printable_scancodes scancode;
      if (91 <=? p) && (p <=? 93) then Ret (p - 64)
      else if s =? 63 then Ret 127
      else Ret (if negb (Z.land state STATE_SHIFT =? 0) then s else p)
  else if negb (Z.land state STATE_SHIFT =? 0) then arr_get shift_scancodes scancode
  else arr_get printable_scancodes scancode.

(** The final letter of the escape sequence of an arrow key *)
Definition arrow_letter (c : Z) : option Z :=
  if c =? ARR_UP_ESCANCODE then Some 65 else if c =? ARR_DOWN_ESCANCODE then Some 66
  else if c =? ARR_RIGHT_ESCANCODE then Some 67 else if c =? ARR_LEFT_ESCANCODE then Some 68 else None.

Lemma arr_get_nth (l : list Z) i : 0 <= i < zlen l -> arr_get l i = Ret (nth (Z.to_nat i) l 0).
Proof.
  intros Hi. destruct (arr_get_in l i Hi) as (x & -> & Hx). by rewrite nth_lookup, Hx.
Qed.

Lemma key_char_in state code : 0 <= code < 103 -> exists ch, key_char state code = Ret ch.
Proof.
  intros Hc. unfold key_char. rewrite !arr_get_nth by (simpl; lia). cbn [mbind outcome_bind].
  repeat match goal with |- context [if ?b then _ else _] => destruct b end; eauto.
Qed.

Section Scan.
Context {S : Type} (send_key : Z -> S -> outcome S).

Definition arrow (c : Z) (s : S) : outcome S :=
  s ← send_key 27 s; s ← send_key 91 s; send_key c s.

Definition extended_key (scancode : Z) (k : keyboard) (s : S) : outcome (keyboard * S) :=
  let k := if negb (scancode =? RELEASE_SCANCODE) then set_extended false k else k in
  s ← (if negb (prev_scancode k =? RELEASE_SCANCODE) then
         if scancode =? ARR_UP_ESCANCODE then arrow 65 s
         else if scancode =? ARR_DOWN_ESCANCODE then arrow 66 s
         else if scancode =? ARR_RIGHT_ESCANCODE then arrow 67 s
         else if scancode =? ARR_LEFT_ESCANCODE then arrow 68 s
         else Ret s
       else Ret s);
  Ret (k, s).

Definition print_scancode (scancode : Z) (k : keyboard) (s : S) : outcome (keyboard * S) :=
  if scancode =? 0x81 then Ret (k, s)
  else
    '(k, s) ← (if (scancode =? LSHIFT_SCANCODE) || (scancode =? RSHIFT_SCANCODE) then Ret (modifier STATE_SHIFT k, s)
         else if scancode =? CTRL_SCANCODE then Ret (modifier STATE_CTRL k, s)
         else if scancode =? EXTENDED_SCANCODE then Ret (set_extended true k, s)
         else if extended_scancode k then extended_key scancode k s
         else if negb (prev_scancode k =? RELEASE_SCANCODE) && negb (scancode =? RELEASE_SCANCODE) then
           c ← key_char (keyboard_state k) scancode;
           s ← send_key c s;
           Ret (k, s)
         else Ret (k, s));
    Ret (set_prev scancode k, s).

Fixpoint scan (codes : list Z) (k : keyboard) (s : S) : outcome (keyboard * S) :=
  match codes with
  | [] => Ret (k, s)
  | c :: codes => '(k, s) ← print_scancode c k s; scan codes k s
  end.

(** The characters of a list are sent in order. *)
Fixpoint send_keys (cs : list Z) (s : S) : outcome S :=
  match cs with [] => Ret s | c :: cs => s ← send_key c s; send_keys cs s end.

(** A scan code that is no character of the tables: the code that is ignored,
    the modifiers and the prefixes. *)
Definition known (scancode : Z) : Prop :=
  0 <= scancode < 103 \/ scancode = 0x81 \/ scancode = EXTENDED_SCANCODE \/ scancode = RELEASE_SCANCODE.

(** What a scan code sends: nothing, a character or the three of an arrow key;
    and it does nothing else to the state. *)
Lemma print_scancode_sends code k : known code \/ extended_scancode k = true ->
  exists k' cs, (length cs <= 3)%nat /\
    forall s, print_scancode code k s = s' ← send_keys cs s; Ret (k', s').
Proof.
  intros Hk. unfold print_scancode. destruct (code =? 0x81) eqn:E81; [by exists k, []; split; [simpl; lia|]|].
  destruct ((code =? LSHIFT_SCANCODE) || (code =? RSHIFT_SCANCODE)); [by eexists _, []; split; [simpl; lia|]|].
  destruct (code =? CTRL_SCANCODE); [by eexists _, []; split; [simpl; lia|]|].
  destruct (code =? EXTENDED_SCANCODE) eqn:Ee; [by eexists _, []; split; [simpl; lia|]|].
  destruct (extended_scancode k) eqn:Ex.
  - unfold extended_key. set (k1 := if negb _ then _ else _).
    destruct (prev_scancode k1 =? RELEASE_SCANCODE); [by eexists (set_prev code k1), []; split; [simpl; lia|]|].
    repeat match goal with |- context [if code =? ?x then arrow ?l _ else _] =>
      destruct (code =? x); [eexists (set_prev code k1), [27; 91; l]; split; [simpl; lia|]; intros s; unfold arrow; simpl;
        repeat (match goal with |- context [send_key ?c ?y] => destruct (send_key c y) end; simpl; try done)|] end.
    by eexists (set_prev code k1), []; split; [simpl; lia|].
  - destruct (prev_scancode k =? RELEASE_SCANCODE); [by eexists _, []; split; [simpl; lia|]|].
    destruct (code =? RELEASE_SCANCODE) eqn:Er; [by eexists _, []; split; [simpl; lia|]|]. cbn [negb andb].
    destruct (key_char_in (keyboard_state k) code) as [ch Hch].
    { unfold known in Hk. destruct Hk as [Hk|]; [|done]. lia. }
    rewrite Hch. cbn [mbind outcome_bind]. eexists _, [ch]. split; [simpl; lia|]. intros s. simpl.
    by destruct (send_key ch s).
Qed.
End Scan.

(** ** Reference: what is typed

    A stroke is a key pressed and released, alone or with a modifier held. *)

Inductive stroke :=
| Key (scancode : Z)
| ShiftKey (scancode : Z)
| CtrlKey (scancode : Z)
| Arrow (scancode : Z).

(** The codes the hardware sends. *)
Definition codes (s : stroke) : list Z :=
  let press_release c := [c; RELEASE_SCANCODE; c] in
  match s with
  | Key c => press_release c
  | ShiftKey c => LSHIFT_SCANCODE :: press_release c ++ [RELEASE_SCANCODE; LSHIFT_SCANCODE]
  | CtrlKey c => CTRL_SCANCODE :: press_release c ++ [RELEASE_SCANCODE; CTRL_SCANCODE]
  | Arrow c => [EXTENDED_SCANCODE; c; EXTENDED_SCANCODE; RELEASE_SCANCODE; c]
  end.

(** A key of the tables that is no modifier. *)
Definition plain (c : Z) : Prop :=
  0 <= c < 103 /\ c <> LSHIFT_SCANCODE /\ c <> RSHIFT_SCANCODE /\ c <> CTRL_SCANCODE.

Definition stroke_ok (s : stroke) : Prop :=
  match s with
  | Key c | ShiftKey c | CtrlKey c => plain c
  | Arrow c => is_Some (arrow_letter c)
  end.

(** A control character: the letter less 64, or 127 for the question mark. *)
Definition control (s p : Z) : Z :=
  if (64 <=? s) && (s <=? 90) || (94 <=? s) && (s <=? 95) then s - 64
  else if (91 <=? p) && (p <=? 93) then p - 64 else if s =? 63 then 127 else p.

Definition text (s : stroke) : list Z :=
  let at_ l c := nth (Z.to_nat c) l 0 in
  match s with
  | Key c => [at_ printable_scancodes c]
  | ShiftKey c => [at_ shift_scancodes c]
  | CtrlKey c => [control (at_ shift_scancodes c) (at_ printable_scancodes c)]
  | Arrow c => match arrow_letter c with Some l => [27; 91; l] | None => [] end
  end.

(** No modifier is held and no prefix is pending. *)
Record idle (k : keyboard) : Prop := {
  id_state : keyboard_state k = 0;
  id_extended : extended_scancode k = false;
  id_prev : prev_scancode k <> RELEASE_SCANCODE;
}.

Lemma plain_get c : plain c ->
  arr_get printable_scancodes c = Ret (nth (Z.to_nat c) printable_scancodes 0) /\
  arr_get shift_scancodes c = Ret (nth (Z.to_nat c) shift_scancodes 0).
Proof. intros [Hc _]. split; apply arr_get_nth; simpl; lia. Qed.

Lemma plain_not_release c : plain c -> c <> RELEASE_SCANCODE.
Proof. intros [? _]. unfold RELEASE_SCANCODE. lia. Qed.

Section Typing.
Context {S : Type} (send_key : Z -> S -> outcome S).
Abbreviation print_scancode := (print_scancode send_key).
Abbreviation scan := (scan send_key).
Abbreviation send_keys := (send_keys send_key).

Lemma scan_app l1 l2 k s : scan (l1 ++ l2) k s = '(k, s) ← scan l1 k s; scan l2 k s.
Proof.
  revert k s. induction l1 as [|c l1 IH]; intros k s; simpl; [done|].
  destruct (print_scancode c k s) as [[k1 s1]| | | |]; simpl; auto.
Qed.

Lemma send_keys_app l1 l2 s : send_keys (l1 ++ l2) s = s ← send_keys l1 s; send_keys l2 s.
Proof.
  revert s. induction l1 as [|c l1 IH]; intros s; simpl; [done|].
  destruct (send_key c s); simpl; auto.
Qed.

(** Evaluation of a scan code that is known not to be a special one. *)
Lemma print_plain c k s :
  plain c -> extended_scancode k = false ->
  print_scancode c k s =
    if prev_scancode k =? RELEASE_SCANCODE then Ret (set_prev c k, s)
    else ch ← key_char (keyboard_state k) c; s ← send_key ch s; Ret (set_prev c k, s).
Proof.
  intros (Hc & H1 & H2 & H3) He. unfold Keyboard.print_scancode.
  unfold LSHIFT_SCANCODE, RSHIFT_SCANCODE, CTRL_SCANCODE, EXTENDED_SCANCODE, RELEASE_SCANCODE in *.
  rewrite !eqb_ne by lia. rewrite He. cbn [orb negb].
  destruct (prev_scancode k =? 240); simpl; [done|]. rewrite (eqb_ne c 240) by lia.
  destruct (key_char (keyboard_state k) c); simpl; try done. by destruct (send_key a s).
Qed.

(** A press and a release with the modifiers of [k] held. *)
Lemma scan_press c ch k s :
  plain c -> extended_scancode k = false -> prev_scancode k <> RELEASE_SCANCODE ->
  key_char (keyboard_state k) c = Ret ch ->
  scan [c; RELEASE_SCANCODE; c] k s = s' ← send_keys [ch] s; Ret (Keyboard c (keyboard_state k) false, s').
Proof.
  intros Hc He Hp Hch. cbn [Keyboard.scan Keyboard.send_keys]. rewrite (print_plain c k s Hc He).
  rewrite eqb_ne by done. rewrite Hch. cbn [mbind outcome_bind].
  destruct (send_key ch s) as [s1| | | |]; cbn [mbind outcome_bind]; try done.
  assert (E : print_scancode RELEASE_SCANCODE (set_prev c k) s1 = Ret (set_prev RELEASE_SCANCODE (set_prev c k), s1)).
  { unfold Keyboard.print_scancode. simpl. rewrite He. cbn [negb andb]. by rewrite andb_false_r. }
  rewrite E. cbn [mbind outcome_bind]. rewrite (print_plain c _ _ Hc) by done. simpl.
  unfold set_prev. simpl. by rewrite He.
Qed.

(** A press and a release between the press and the release of a modifier. *)
Lemma scan_modified m bit c ch pv s :
  plain c -> pv <> RELEASE_SCANCODE ->
  (m = LSHIFT_SCANCODE /\ bit = STATE_SHIFT \/ m = CTRL_SCANCODE /\ bit = STATE_CTRL) ->
  key_char bit c = Ret ch ->
  scan (m :: [c; RELEASE_SCANCODE; c] ++ [RELEASE_SCANCODE; m]) (Keyboard pv 0 false) s =
    s' ← send_keys [ch] s; Ret (Keyboard m 0 false, s').
Proof.
  intros Hc Hp Hm Hch.
  assert (E : print_scancode m (Keyboard pv 0 false) s = Ret (Keyboard m bit false, s)).
  { destruct Hm as [[-> ->]|[-> ->]]; unfold Keyboard.print_scancode, modifier; simpl; by rewrite eqb_ne. }
  cbn [Keyboard.scan]. rewrite E. cbn [mbind outcome_bind]. rewrite scan_app, (scan_press c ch _ _ Hc); [| done | | done].
  - destruct (send_keys [ch] s) as [s1| | | |]; cbn [mbind outcome_bind]; try done. cbn [Keyboard.scan keyboard_state].
    assert (E2 : print_scancode RELEASE_SCANCODE (Keyboard c bit false) s1 = Ret (Keyboard RELEASE_SCANCODE bit false, s1)).
    { unfold Keyboard.print_scancode. simpl. by rewrite andb_false_r. }
    rewrite E2. cbn [mbind outcome_bind]. by destruct Hm as [[-> ->]|[-> ->]].
  - destruct Hm as [[-> ->]|[-> ->]]; done.
Qed.

Lemma scan_arrow c l pv s : arrow_letter c = Some l ->
  scan (codes (Arrow c)) (Keyboard pv 0 false) s = s' ← send_keys [27; 91; l] s; Ret (Keyboard c 0 false, s').
Proof.
  unfold arrow_letter. intros H.
  repeat match type of H with context [c =? ?x] => destruct (Z.eqb_spec c x) as [->|] end; simplify_eq;
    cbn; unfold arrow, set_prev;
    repeat (match goal with |- context [send_key ?x ?y] => destruct (send_key x y) end; simpl; try done).
Qed.

(** A stroke sends the characters of its key, in order, and nothing else. *)
Lemma scan_stroke x k s : stroke_ok x -> idle k ->
  exists k', scan (codes x) k s = (s' ← send_keys (text x) s; Ret (k', s')) /\ idle k'.
Proof.
  intros Hx [H0 He Hp]. destruct k as [pv st ex]; simpl in *; subst st ex.
  destruct x as [c|c|c|c]; simpl in Hx.
  - destruct (plain_get c Hx) as [Hg _]. eexists.
    split; [eapply (scan_press c _ (Keyboard pv 0 false)); done|].
    split; try done. by apply plain_not_release.
  - destruct (plain_get c Hx) as [_ Hg]. eexists. split.
    { eapply (scan_modified LSHIFT_SCANCODE STATE_SHIFT); [done | done | by left | exact Hg]. }
    by split.
  - destruct (plain_get c Hx) as [Hg1 Hg2]. eexists. split.
    { eapply (scan_modified CTRL_SCANCODE STATE_CTRL c
        (control (nth (Z.to_nat c) shift_scancodes 0) (nth (Z.to_nat c) printable_scancodes 0))); [done | done | by right |].
      unfold key_char, control. simpl negb. cbv iota. rewrite Hg2. cbn [mbind outcome_bind].
      destruct (_ || _); [done|]. rewrite Hg1. cbn [mbind outcome_bind].
      destruct (_ && _); [done|]. by destruct (_ =? 63). }
    by split.
  - destruct Hx as [l Hl]. eexists. split; [rewrite (scan_arrow c l) by done; unfold text; by rewrite Hl|].
    split; try done. simpl. intros ->. done.
Qed.

(** ** Theorems *)

(** Typing: from the state with no modifier held and no prefix pending,
    every sequence of strokes (keys alone, with shift or with control held, and
    arrow keys) sends exactly the characters the keys stand for, in order, and
    the driver is back in such a state; a key beyond the 103 entries of the
    tables makes the driver read past their end. *)
Theorem keyboard_typing (strokes : list stroke) (k : keyboard) (s : S) :
  Forall stroke_ok strokes -> idle k ->
  (exists k', scan (strokes ≫= codes) k s = (s' ← send_keys (strokes ≫= text) s; Ret (k', s')) /\ idle k') /\
  (forall c, 103 <= c < 0x81 -> print_scancode c k s = Fault).
Proof.
  intros Hs Hk. split.
  - revert k s Hk. induction Hs as [|x strokes H1 Hs IH]; intros k s Hk; [by exists k|].
    destruct (scan_stroke x k s H1 Hk) as (k1 & E1 & Hi1). simpl. rewrite scan_app, send_keys_app, E1.
    destruct (send_keys (text x) s) as [s1| | | |]; cbn [mbind outcome_bind]; [|by exists k..].
    exact (IH k1 s1 Hi1).
  - intros c Hc. destruct Hk as [H0 He Hp]. unfold Keyboard.print_scancode, key_char. rewrite H0, He.
    unfold LSHIFT_SCANCODE, RSHIFT_SCANCODE, CTRL_SCANCODE, EXTENDED_SCANCODE, RELEASE_SCANCODE in *.
    rewrite !(eqb_ne c) by lia. rewrite (eqb_ne _ _ Hp). simpl.
    unfold arr_get. rewrite lookup_ge_None_2; [by case_decide|]. simpl. lia.
Qed.
End Typing.

(** "Hi!", control-C and an arrow, with the characters collected in a list. *)
Lemma keyboard_typing_witness :
  exists k', scan (fun c sent => Ret (sent ++ [c])) ([ShiftKey 0x33; Key 0x43; ShiftKey 0x16; CtrlKey 0x21; Arrow 0x75] ≫= codes)
               (Keyboard 0 0 false) [] = Ret (k', [72; 105; 33; 3; 27; 91; 65]).
Proof.
  destruct (keyboard_typing (fun c sent => Ret (sent ++ [c])) [ShiftKey 0x33; Key 0x43; ShiftKey 0x16; CtrlKey 0x21; Arrow 0x75]
              (Keyboard 0 0 false) []) as [(k' & E & _) _].
  - repeat constructor; simpl; try done; by eexists.
  - by split.
  - exists k'. exact E.
Defined.
