(* ===== verification/Tty.v ===== *)
(** * The screen and the terminal (kernel/driver/vga.c, kernel/driver/tty.c)

    [Module Vga] is the text screen: device memory with a scroll origin, and
    the logical screen of 48 rows and 106 columns it represents.
    [Module Tty] is the terminal on top of it: the cursor, the escape
    sequences, and the line buffer the keyboard fills.  The page that the
    driver maps to reach the device memory is not part of the model. *)

From S2P Require Import Prelude Ringbuff Sync CString.

Module Vga.

Definition VGA_FRAMEBUFF_ADDR : Z := 0x6000.
Definition VGA_SETTINGS_ADDR : Z := 0xc000.
Definition VGA_FAST_SCROLL_ADDR : Z := 0xc002.
Definition VGA_TEXT_106_48_MODE : Z := 1.
Definition VGA_TEXT_WIDTH : Z := 106.
Definition VGA_TEXT_HEIGHT : Z := 48.

(** [dev] are the 16-bit words of the device, by address. *)
Record vga := Vga { vga_text_color : Z; vga_scroll_begin : Z; dev : gmap Z Z }.

Definition poke (addr x : Z) (v : vga) : vga :=
  Vga (vga_text_color v) (vga_scroll_begin v) (<[u16 addr := u16 x]> (dev v)).

Definition REAL_ROW (v : vga) (x : Z) : Z :=
  if x + vga_scroll_begin v <? VGA_TEXT_HEIGHT then x + vga_scroll_begin v
  else x + vga_scroll_begin v - VGA_TEXT_HEIGHT.

Definition vga_put_char_at (c row col : Z) (v : vga) : vga :=
  poke (VGA_FRAMEBUFF_ADDR + (REAL_ROW v row * VGA_TEXT_WIDTH * 2 + col * 2))
    (Z.lor c (Z.shiftl (vga_text_color v) 8)) v.

Definition vga_set_color (color : Z) (v : vga) : vga := Vga color (vga_scroll_begin v) (dev v).

(** [n] words from [ptr] on set to zero. *)
Fixpoint clear_words (n : nat) (ptr : Z) (v : vga) : vga :=
  match n with
  | O => v
  | S n => clear_words n (ptr + 2) (poke ptr 0 v)
  end.

Definition vga_clear_line (row : Z) (v : vga) : vga :=
  clear_words (Z.to_nat VGA_TEXT_WIDTH) (VGA_FRAMEBUFF_ADDR + REAL_ROW v row * VGA_TEXT_WIDTH * 2) v.

Definition vga_clear_screen (v : vga) : vga :=
  clear_words (Z.to_nat (VGA_TEXT_WIDTH * VGA_TEXT_HEIGHT)) VGA_FRAMEBUFF_ADDR v.

Definition vga_fast_scroll (v : vga) : vga :=
  let v := Vga (vga_text_color v)
    (if VGA_TEXT_HEIGHT <=? vga_scroll_begin v + 1 then 0 else vga_scroll_begin v + 1) (dev v) in
  let v := poke VGA_FAST_SCROLL_ADDR (vga_scroll_begin v) v in
  vga_clear_line (VGA_TEXT_HEIGHT - 1) v.

Definition vga_init (v : vga) : vga :=
  let v := poke VGA_SETTINGS_ADDR VGA_TEXT_106_48_MODE v in
  let v := Vga 0x0F 0 (dev v) in
  let v := poke VGA_FAST_SCROLL_ADDR (vga_scroll_begin v) v in
  vga_clear_screen v.

(** ** The logical screen *)

Definition cell_addr (real_row col : Z) : Z := 0x6000 + (real_row * 106 * 2 + col * 2).

Definition screen (v : vga) (row col : Z) : Z := default 0 (dev v !! cell_addr (REAL_ROW v row) col).

Abbreviation is_row r := (0 <= r < 48).
Abbreviation is_col c := (0 <= c < 106).

Definition vga_ok (v : vga) : Prop := is_row (vga_scroll_begin v).

Lemma REAL_ROW_range v r : vga_ok v -> is_row r -> is_row (REAL_ROW v r).
Proof.
  unfold vga_ok, REAL_ROW, VGA_TEXT_HEIGHT. intros Hv Hr.
  destruct (Z.ltb_spec (r + vga_scroll_begin v) 48); lia.
Qed.

Lemma REAL_ROW_inj v r r' : vga_ok v -> is_row r -> is_row r' -> REAL_ROW v r = REAL_ROW v r' -> r = r'.
Proof.
  unfold vga_ok, REAL_ROW, VGA_TEXT_HEIGHT. intros Hv Hr Hr'.
  destruct (Z.ltb_spec (r + vga_scroll_begin v) 48), (Z.ltb_spec (r' + vga_scroll_begin v) 48); lia.
Qed.

Lemma cell_addr_inj r c r' c' :
  is_col c -> is_col c' -> cell_addr r c = cell_addr r' c' -> r = r' /\ c = c'.
Proof. unfold cell_addr. lia. Qed.

Lemma cell_addr_u16 r c : is_row r -> is_col c -> u16 (cell_addr r c) = cell_addr r c.
Proof. intros. apply u16_small. unfold cell_addr. lia. Qed.

(** Writing a character changes one cell of the screen. *)
Lemma screen_put c row col v r k :
  vga_ok v -> is_row row -> is_col col -> is_row r -> is_col k ->
  screen (vga_put_char_at c row col v) r k =
    if decide (r = row /\ k = col) then u16 (Z.lor c (Z.shiftl (vga_text_color v) 8)) else screen v r k.
Proof.
  intros Hv Hrow Hcol Hr Hk. unfold vga_put_char_at, screen, poke.
  change (VGA_FRAMEBUFF_ADDR + (REAL_ROW v row * VGA_TEXT_WIDTH * 2 + col * 2))
    with (cell_addr (REAL_ROW v row) col). simpl dev.
  rewrite cell_addr_u16 by (done || by apply REAL_ROW_range).
  change (REAL_ROW (Vga _ (vga_scroll_begin v) _) r) with (REAL_ROW v r).
  case_decide as Hd.
  - destruct Hd as [-> ->]. by rewrite lookup_insert_eq.
  - rewrite lookup_insert_ne; [done|]. intros E. apply Hd.
    apply cell_addr_inj in E as [E ->]; [|done..]. split; [|done]. by apply REAL_ROW_inj in E.
Qed.

Lemma clear_words_fields n ptr v :
  vga_text_color (clear_words n ptr v) = vga_text_color v /\
  vga_scroll_begin (clear_words n ptr v) = vga_scroll_begin v.
Proof. revert ptr v. induction n as [|n IH]; intros ptr v; simpl; [done|]. by destruct (IH (ptr + 2) (poke ptr 0 v)) as [-> ->]. Qed.


Lemma clear_words_other n ptr v a :
  0 <= ptr -> ptr + 2 * Z.of_nat n <= 65536 ->
  (forall i, 0 <= i < Z.of_nat n -> a <> ptr + 2 * i) ->
  dev (clear_words n ptr v) !! a = dev v !! a.
Proof.
  revert ptr v. induction n as [|n IH]; intros ptr v Hp Hl Ha; [done|]. simpl.
  rewrite IH; [|lia|lia|].
  - unfold poke. simpl. rewrite u16_small by lia. rewrite lookup_insert_ne; [done|].
    specialize (Ha 0). lia.
  - intros i Hi. specialize (Ha (i + 1)). lia.
Qed.

Lemma clear_words_in n ptr v i :
  0 <= ptr -> ptr + 2 * Z.of_nat n <= 65536 -> 0 <= i < Z.of_nat n ->
  dev (clear_words n ptr v) !! (ptr + 2 * i) = Some 0.
Proof.
  revert ptr v i. induction n as [|n IH]; intros ptr v i Hp Hl Hi; [lia|]. simpl.
  destruct (decide (i = 0)) as [->|Hi0].
  - rewrite clear_words_other by lia. unfold poke. simpl.
    rewrite u16_small, Z.add_0_r by lia. apply lookup_insert_eq.
  - replace (ptr + 2 * i) with (ptr + 2 + 2 * (i - 1)) by lia. apply IH; lia.
Qed.

Lemma screen_clear_line row v r k :
  vga_ok v -> is_row row -> is_row r -> is_col k ->
  screen (vga_clear_line row v) r k = if decide (r = row) then 0 else screen v r k.
Proof.
  intros Hv Hrow Hr Hk. unfold screen, vga_clear_line.
  pose proof (REAL_ROW_range v row Hv Hrow) as Hrr. pose proof (REAL_ROW_range v r Hv Hr) as Hrr2.
  assert (E : forall w, vga_scroll_begin w = vga_scroll_begin v -> REAL_ROW w r = REAL_ROW v r)
    by (intros w E; unfold REAL_ROW; by rewrite E).
  rewrite E by apply clear_words_fields.
  change VGA_FRAMEBUFF_ADDR with 0x6000. change VGA_TEXT_WIDTH with 106. case_decide as Hd.
  - subst r. unfold cell_addr.
    replace (0x6000 + (REAL_ROW v row * 106 * 2 + k * 2)) with (0x6000 + REAL_ROW v row * 106 * 2 + 2 * k) by lia.
    rewrite clear_words_in by lia. done.
  - rewrite clear_words_other; [done|lia|lia|]. intros i Hi. unfold cell_addr. intros Ea. apply Hd.
    apply (REAL_ROW_inj v); try done. lia.
Qed.

(** [vga_fast_scroll] moves every row up by one and leaves the last one blank. *)
Lemma screen_scroll v r k :
  vga_ok v -> is_row r -> is_col k ->
  vga_ok (vga_fast_scroll v) /\
  screen (vga_fast_scroll v) r k = if decide (r = 47) then 0 else screen v (r + 1) k.
Proof.
  intros Hv Hr Hk. unfold vga_fast_scroll. unfold vga_ok in Hv.
  set (sb := if VGA_TEXT_HEIGHT <=? vga_scroll_begin v + 1 then 0 else vga_scroll_begin v + 1).
  assert (Hsb : is_row sb /\ sb = (vga_scroll_begin v + 1) mod 48).
  { unfold sb, VGA_TEXT_HEIGHT. destruct (Z.leb_spec 48 (vga_scroll_begin v + 1)); zlia. }
  set (v1 := poke _ _ _). assert (Hv1 : vga_ok v1) by (unfold vga_ok; simpl; lia).
  split.
  - unfold vga_ok, vga_clear_line. rewrite (proj2 (clear_words_fields _ _ _)). apply Hv1.
  - rewrite screen_clear_line by (done || unfold VGA_TEXT_HEIGHT; lia).
    change (VGA_TEXT_HEIGHT - 1) with 47. case_decide; [done|].
    unfold screen. assert (ER : REAL_ROW v1 r = REAL_ROW v (r + 1)).
    { unfold REAL_ROW, v1, VGA_TEXT_HEIGHT. simpl.
      destruct (Z.ltb_spec (r + sb) 48), (Z.ltb_spec (r + 1 + vga_scroll_begin v) 48); zlia. }
    rewrite ER. unfold v1, poke. simpl. rewrite lookup_insert_ne; [done|].
    pose proof (REAL_ROW_range v (r + 1) Hv ltac:(lia)).
    unfold cell_addr, VGA_FAST_SCROLL_ADDR. rewrite u16_small by lia. lia.
Qed.

Lemma vga_init_blank v r k :
  is_row r -> is_col k -> vga_ok (vga_init v) /\ screen (vga_init v) r k = 0.
Proof.
  intros Hr Hk. unfold vga_init, vga_clear_screen.
  match goal with |- context [clear_words ?n ?p ?w] => set (v1 := w) end.
  assert (Hok : vga_ok (clear_words (Z.to_nat (VGA_TEXT_WIDTH * VGA_TEXT_HEIGHT)) VGA_FRAMEBUFF_ADDR v1)).
  { unfold vga_ok. rewrite (proj2 (clear_words_fields _ _ _)). simpl. lia. }
  split; [done|]. unfold screen.
  pose proof (REAL_ROW_range _ r Hok Hr) as Hrr. unfold cell_addr.
  change VGA_FRAMEBUFF_ADDR with 0x6000 in *. change (VGA_TEXT_WIDTH * VGA_TEXT_HEIGHT) with 5088 in *.
  set (rr := REAL_ROW _ r) in *.
  replace (0x6000 + (rr * 106 * 2 + k * 2)) with (0x6000 + 2 * (rr * 106 + k)) by lia.
  rewrite clear_words_in by lia. done.
Qed.
End Vga.

Module Tty.
Import Vga.

Definition TTY_BUFF_SIZE : Z := 255.
Definition LINE_BUFF_SIZE : Z := 128.

Definition IS_PRINTABLE (x : Z) : bool := (32 <=? x) && (x <=? 126).

Record tty := Mk {
  screen_of : vga;
  tty_cursor_col : Z;
  tty_cursor_row : Z;
  line_buff : list Z;
  line_buff_len : Z;
  read_rb : ringbuff;
  read_data_signal : Z;          (** the count of the semaphore *)
  esc_stage : Z;
  esc_arg0 : Z;
  esc_arg1 : Z;
  in_escape_code : bool;
}.

Definition set_screen (x : vga) (t : tty) : tty :=
  Mk x (tty_cursor_col t) (tty_cursor_row t) (line_buff t) (line_buff_len t) (read_rb t)
    (read_data_signal t) (esc_stage t) (esc_arg0 t) (esc_arg1 t) (in_escape_code t).

Definition set_cursor (row col : Z) (t : tty) : tty :=
  Mk (screen_of t) col row (line_buff t) (line_buff_len t) (read_rb t)
    (read_data_signal t) (esc_stage t) (esc_arg0 t) (esc_arg1 t) (in_escape_code t).

Definition set_escape (stage a0 a1 : Z) (inside : bool) (t : tty) : tty :=
  Mk (screen_of t) (tty_cursor_col t) (tty_cursor_row t) (line_buff t) (line_buff_len t) (read_rb t)
    (read_data_signal t) stage a0 a1 inside.

Definition set_line (lb : list Z) (len : Z) (t : tty) : tty :=
  Mk (screen_of t) (tty_cursor_col t) (tty_cursor_row t) lb len (read_rb t)
    (read_data_signal t) (esc_stage t) (esc_arg0 t) (esc_arg1 t) (in_escape_code t).

Definition tty_new_line (t : tty) : tty :=
  let row := tty_cursor_row t + 1 in
  if VGA_TEXT_HEIGHT <=? row then
    set_cursor (VGA_TEXT_HEIGHT - 1) (tty_cursor_col t) (set_screen (vga_fast_scroll (screen_of t)) t)
  else set_cursor row (tty_cursor_col t) t.

Fixpoint new_lines (n : nat) (t : tty) : tty :=
  match n with O => t | S n => new_lines n (tty_new_line t) end.

(** The final byte of an escape sequence. *)
Definition escape_final (c : Z) (t : tty) : tty :=
  let a0 := esc_arg0 t in
  let a1 := esc_arg1 t in
  let row := tty_cursor_row t in
  let col := tty_cursor_col t in
  let t :=
    if c =? 109 then                                                     (* m *)
      let fg := if a0 <? 38 then a0 - 30 else Z.lor (a0 - 90) 8 in
      let bg := Z.shiftl (if a1 <? 38 then (if a1 =? 0 then 0 else a1 - 30) else Z.lor (a1 - 90) 8) 4 in
      set_screen (vga_set_color (u8 (Z.lor fg bg)) (screen_of t)) t
    else if c =? 65 then                                                 (* A *)
      set_cursor (i16 (row - Z.max (Z.max a0 1) 0)) col t
    else if c =? 66 then new_lines (Z.to_nat (Z.max a0 1)) t             (* B *)
    else if c =? 67 then                                                 (* C *)
      set_cursor row (Z.min (i16 (col + Z.max a0 1)) (VGA_TEXT_WIDTH - 1)) t
    else if c =? 68 then                                                 (* D *)
      set_cursor row (Z.max (i16 (col - Z.max a0 1)) 0) t
    else if c =? 72 then                                                 (* H *)
      set_cursor (Z.min a1 (VGA_TEXT_HEIGHT - 1)) (Z.min a0 (VGA_TEXT_WIDTH - 1)) t
    else t in
  set_escape 0 (esc_arg0 t) (esc_arg1 t) false t.

Definition handle_escapes (c : Z) (t : tty) : tty :=
  if esc_stage t =? 0 then
    if negb (c =? 91) then set_escape 0 (esc_arg0 t) (esc_arg1 t) false t
    else set_escape (esc_stage t + 1) 0 0 (in_escape_code t) t
  else
    let t :=
      if (esc_stage t =? 1) || (esc_stage t =? 2) then
        if c =? 59 then set_escape (esc_stage t + 1) (esc_arg0 t) (esc_arg1 t) (in_escape_code t) t
        else if (48 <=? c) && (c <=? 57) then
          let next a := i16 (i16 (a * 10) + (c - 48)) in
          if esc_stage t =? 1
          then set_escape (esc_stage t) (next (esc_arg0 t)) (esc_arg1 t) (in_escape_code t) t
          else set_escape (esc_stage t) (esc_arg0 t) (next (esc_arg1 t)) (in_escape_code t) t
        else set_escape 3 (esc_arg0 t) (esc_arg1 t) (in_escape_code t) t
      else t in
    if esc_stage t =? 3 then escape_final c t else t.

Definition tty_putc (c : Z) (t : tty) : tty :=
  if in_escape_code t then handle_escapes c t
  else if negb (IS_PRINTABLE c) then
    if c =? 10 then let t := tty_new_line t in set_cursor (tty_cursor_row t) 0 t
    else if c =? 8 then
      if 0 <? tty_cursor_col t then set_cursor (tty_cursor_row t) (tty_cursor_col t - 1) t else t
    else if c =? 27 then set_escape 0 (esc_arg0 t) (esc_arg1 t) true t
    else t
  else
    let t := set_screen (vga_put_char_at c (tty_cursor_row t) (tty_cursor_col t) (screen_of t)) t in
    let col := tty_cursor_col t + 1 in
    if VGA_TEXT_WIDTH <=? col then tty_new_line (set_cursor (tty_cursor_row t) 0 t)
    else set_cursor (tty_cursor_row t) col t.

Definition tty_set_color (color : Z) (t : tty) : tty := set_screen (vga_set_color (u8 color) (screen_of t)) t.

Fixpoint tty_puts (str : list Z) (t : tty) : tty :=
  match str with [] => t | c :: str => tty_puts str (tty_putc c t) end.

(** ** Input *)

Definition tty_submit_line_buff (sr : Z) (t : tty) : outcome tty :=
  '(_, rb) ← ringbuff_write (read_rb t) (line_buff t) (line_buff_len t);
  '(n, _) ← SemOps.semaphore_binary_up sr (read_data_signal t);
  Ret (Mk (screen_of t) (tty_cursor_col t) (tty_cursor_row t) (line_buff t) 0 rb n
         (esc_stage t) (esc_arg0 t) (esc_arg1 t) (in_escape_code t)).

Definition tty_linebuff_erase (t : tty) : tty :=
  if 0 <? line_buff_len t then
    let t := set_line (line_buff t) (line_buff_len t - 1) t in
    let t :=
      if 0 <? tty_cursor_col t then set_cursor (tty_cursor_row t) (tty_cursor_col t - 1) t
      else
        set_cursor (if 0 <? tty_cursor_row t then tty_cursor_row t - 1 else tty_cursor_row t)
          VGA_TEXT_WIDTH t in
    set_screen (vga_put_char_at 32 (tty_cursor_row t) (tty_cursor_col t) (screen_of t)) t
  else t.

Definition linebuff_putc (c : Z) (t : tty) : outcome tty :=
  if line_buff_len t <? TTY_BUFF_SIZE then
    lb ← arr_set (line_buff t) (line_buff_len t) c;
    Ret (set_line lb (line_buff_len t + 1) t)
  else Ret t.

Definition tty_submit_char {sign : CharSign} (sr c : Z) (t : tty) : outcome tty :=
  if IS_PRINTABLE c then
    t ← linebuff_putc c t; Ret (tty_putc c t)
  else if c =? 10 then
    t ← linebuff_putc c t;
    t ← tty_submit_line_buff sr t;
    let t := tty_new_line t in
    Ret (set_cursor (tty_cursor_row t) 0 t)
  else if c =? 8 then Ret (tty_linebuff_erase t)
  else
    let t := tty_putc 94 t in
    let t := tty_putc (if char_value c <=? 31 then u8 (64 + c) else 63) t in
    linebuff_putc c t.

Definition tty_init_basic (t : tty) : tty :=
  let t := set_screen (vga_init (screen_of t)) t in
  let t := set_line (line_buff t) 0 (set_cursor 0 0 t) in
  set_screen (vga_clear_screen (screen_of t)) t.

(** ** The cursor *)

Record cursor_ok (t : tty) : Prop := {
  ok_vga : vga_ok (screen_of t);
  ok_row : is_row (tty_cursor_row t);
  ok_col : is_col (tty_cursor_col t);
}.

Lemma tty_new_line_spec t :
  cursor_ok t -> cursor_ok (tty_new_line t) /\
  tty_cursor_row (tty_new_line t) = Z.min (tty_cursor_row t + 1) 47 /\
  tty_cursor_col (tty_new_line t) = tty_cursor_col t /\
  forall r k, is_row r -> is_col k ->
    screen (screen_of (tty_new_line t)) r k =
      if decide (tty_cursor_row t = 47) then (if decide (r = 47) then 0 else screen (screen_of t) (r + 1) k)
      else screen (screen_of t) r k.
Proof.
  intros [Hv Hr Hc]. unfold tty_new_line, VGA_TEXT_HEIGHT. destruct (Z.leb_spec 48 (tty_cursor_row t + 1)).
  - split_and!; simpl; [|lia|done|].
    + split; simpl; [|lia|done]. by apply (screen_scroll _ 0 0).
    + intros r k Hr' Hk. rewrite decide_True by lia. by apply screen_scroll.
  - split_and!; simpl; [|lia|done|].
    + split; simpl; [done|lia|done].
    + intros r k Hr' Hk. by rewrite decide_False by lia.
Qed.

Lemma new_lines_ok n t : cursor_ok t -> cursor_ok (new_lines n t).
Proof. revert t. induction n as [|n IH]; intros t Ht; [done|]. apply IH. by apply tty_new_line_spec. Qed.

(** Input that keeps the cursor on the screen: no move up past the first row,
    and no argument so large that it overflows. *)
Definition escape_safe (c : Z) (t : tty) : Prop :=
  in_escape_code t = true ->
  0 <= esc_arg0 t <= 32661 /\ 0 <= esc_arg1 t /\ (c = 65 -> Z.max (esc_arg0 t) 1 <= tty_cursor_row t).

Lemma cursor_ok_set t row col : cursor_ok t -> is_row row -> is_col col -> cursor_ok (set_cursor row col t).
Proof. intros [Hv _ _] Hr Hc. by split. Qed.

Lemma cursor_ok_escape t s a b e : cursor_ok (set_escape s a b e t) <-> cursor_ok t.
Proof. split; intros [Hv Hr Hc]; by split. Qed.

Lemma escape_final_ok c t :
  cursor_ok t -> 0 <= esc_arg0 t <= 32661 -> 0 <= esc_arg1 t ->
  (c = 65 -> Z.max (esc_arg0 t) 1 <= tty_cursor_row t) -> cursor_ok (escape_final c t).
Proof.
  intros Ht Ha0 Ha1 HA. pose proof Ht as [Hv Hr Hc]. unfold escape_final, VGA_TEXT_WIDTH, VGA_TEXT_HEIGHT.
  apply cursor_ok_escape.
  destruct (Z.eqb_spec c 109); [by split|].
  destruct (Z.eqb_spec c 65) as [->|].
  { specialize (HA eq_refl). rewrite i16_small by lia. apply cursor_ok_set; [done|lia|done]. }
  destruct (Z.eqb_spec c 66); [by apply new_lines_ok|].
  destruct (Z.eqb_spec c 67); [rewrite i16_small by lia; apply cursor_ok_set; [done|done|lia]|].
  destruct (Z.eqb_spec c 68); [rewrite i16_small by lia; apply cursor_ok_set; [done|done|lia]|].
  destruct (Z.eqb_spec c 72); [apply cursor_ok_set; [done|lia|lia]|done].
Qed.

Lemma handle_escapes_ok c t :
  cursor_ok t -> in_escape_code t = true -> escape_safe c t -> cursor_ok (handle_escapes c t).
Proof.
  intros Ht Hin Hs. destruct (Hs Hin) as (Ha0 & Ha1 & HA). unfold handle_escapes.
  destruct (esc_stage t =? 0); [destruct (negb (c =? 91)); by apply cursor_ok_escape|].
  destruct ((esc_stage t =? 1) || (esc_stage t =? 2)) eqn:E.
  - destruct (Z.eqb_spec c 59) as [->|].
    + simpl. case_match; [|by apply cursor_ok_escape].
      apply escape_final_ok; [by apply cursor_ok_escape|done|done|done].
    + destruct ((48 <=? c) && (c <=? 57)) eqn:Ed.
      * assert (esc_stage t <> 3) by (apply orb_true_iff in E; rewrite !Z.eqb_eq in E; lia).
        destruct (esc_stage t =? 1); simpl; rewrite (eqb_ne (esc_stage t) 3) by done; by apply cursor_ok_escape.
      * simpl. apply escape_final_ok; [by apply cursor_ok_escape|done|done|done].
  - case_match; [|done]. by apply escape_final_ok.
Qed.

(** C35. The terminal keeps its cursor on the screen: whatever character is
    printed, the row stays within 0..47 and the column within 0..105, except
    for an escape sequence that moves up past the first row or has an argument
    above 32661. *)
Theorem tty_putc_cursor c t : cursor_ok t -> escape_safe c t -> cursor_ok (tty_putc c t).
Proof.
  intros Ht Hs. pose proof Ht as [Hv Hr Hc]. unfold tty_putc, VGA_TEXT_WIDTH.
  destruct (in_escape_code t) eqn:Hin; [by apply handle_escapes_ok|].
  destruct (negb (IS_PRINTABLE c)).
  - destruct (c =? 10).
    { destruct (tty_new_line_spec t Ht) as (Hn & _). apply cursor_ok_set; [done|apply Hn|lia]. }
    destruct (c =? 8).
    { destruct (Z.ltb_spec 0 (tty_cursor_col t)); [|done]. apply cursor_ok_set; [done..|lia]. }
    destruct (c =? 27); [by apply cursor_ok_escape|done].
  - cbv zeta. simpl tty_cursor_col. simpl tty_cursor_row.
    set (t1 := set_screen _ t). assert (Ht1 : cursor_ok t1) by (by split).
    destruct (Z.leb_spec 106 (tty_cursor_col t + 1)).
    + apply tty_new_line_spec. apply cursor_ok_set; [done..|lia].
    + apply cursor_ok_set; [done..|lia].
Qed.

(** A printable character appears at the cursor in the current colour and
    the cursor moves on, to the next row at the end of a row; at the end of
    the last row every row moves up by one, the first one is lost and the last
    one is blank.  No other cell of the screen changes. *)
Theorem tty_putc_prints c t :
  cursor_ok t -> in_escape_code t = false -> IS_PRINTABLE c = true ->
  let row := tty_cursor_row t in
  let col := tty_cursor_col t in
  let glyph := u16 (Z.lor c (Z.shiftl (vga_text_color (screen_of t)) 8)) in
  let written r k := if decide (r = row /\ k = col) then glyph else screen (screen_of t) r k in
  let t' := tty_putc c t in
  tty_cursor_col t' = (if decide (col = 105) then 0 else col + 1) /\
  tty_cursor_row t' = (if decide (col = 105) then Z.min (row + 1) 47 else row) /\
  forall r k, is_row r -> is_col k ->
    screen (screen_of t') r k =
      if decide (col = 105 /\ row = 47) then (if decide (r = 47) then 0 else written (r + 1) k)
      else written r k.
Proof.
  intros Ht Hin Hp row col glyph written t'. pose proof Ht as [Hv Hr Hc]. fold row in Hr. fold col in Hc.
  assert (Hw : forall r k, is_row r -> is_col k ->
    screen (vga_put_char_at c row col (screen_of t)) r k = written r k) by (intros; by apply screen_put).
  unfold t', tty_putc. rewrite Hin, Hp. cbv zeta. simpl negb. cbv iota. simpl tty_cursor_col. simpl tty_cursor_row.
  unfold VGA_TEXT_WIDTH. fold row col. destruct (Z.leb_spec 106 (col + 1)).
  - match goal with |- context [tty_new_line ?u] => set (t2 := u) end.
    assert (H2 : cursor_ok t2) by (split; simpl; [done|done|lia]).
    destruct (tty_new_line_spec t2 H2) as (_ & -> & -> & Hscr). simpl in *. fold row in Hscr |- *.
    rewrite !(decide_True (P := col = 105)) by lia. split; [done|]. split; [done|].
    intros r k Hr' Hk. rewrite Hscr by done. destruct (decide (row = 47)) as [E|E].
    + rewrite (decide_True (P := col = 105 /\ row = 47)) by lia. case_decide; [done|]. apply Hw; [lia|done].
    + rewrite (decide_False (P := col = 105 /\ row = 47)) by lia. by apply Hw.
  - rewrite !(decide_False (P := col = 105)) by lia. simpl. split; [done|]. split; [done|].
    intros r k Hr' Hk. rewrite (decide_False (P := col = 105 /\ row = 47)) by lia. by apply Hw.
Qed.

(** ** The line buffer *)

Record line_ok (t : tty) : Prop := {
  ln_size : length (line_buff t) = 128%nat;
  ln_len : 0 <= line_buff_len t <= 128;
}.

(** The characters typed so far on the current line. *)
Definition line_of (t : tty) : list Z := take (Z.to_nat (line_buff_len t)) (line_buff t).

Lemma linebuff_putc_spec c t :
  line_ok t ->
  if decide (line_buff_len t < 128) then
    exists t', linebuff_putc c t = Ret t' /\ line_ok t' /\ line_of t' = line_of t ++ [c] /\
      read_rb t' = read_rb t /\ read_data_signal t' = read_data_signal t /\
      line_buff_len t' = line_buff_len t + 1
  else linebuff_putc c t = Fault.
Proof.
  intros [Hs Hl]. unfold linebuff_putc, TTY_BUFF_SIZE.
  destruct (Z.ltb_spec (line_buff_len t) 255); [|lia]. case_decide as Hd.
  - rewrite arr_set_in by lia. simpl. eexists. split; [done|]. split; [|split]; [|unfold line_of; simpl|done].
    + split; simpl; [by rewrite length_insert|lia].
    + replace (Z.to_nat (line_buff_len t + 1)) with (S (Z.to_nat (line_buff_len t))) by lia.
      rewrite (take_S_r _ _ c) by (apply list_lookup_insert_eq; lia). by rewrite take_insert_ge by lia.
  - unfold arr_set. rewrite decide_False by lia. done.
Qed.

(** Printing does not touch the line buffer. *)
Definition same_line (t t' : tty) : Prop :=
  line_buff t' = line_buff t /\ line_buff_len t' = line_buff_len t /\
  read_rb t' = read_rb t /\ read_data_signal t' = read_data_signal t.

Ltac same_tac := unfold same_line; simpl; split_and!; reflexivity.

#[local] Instance same_line_preorder : PreOrder same_line.
Proof.
  split; [by intros t|]. intros t1 t2 t3 (E1 & E2 & E3 & E4) (F1 & F2 & F3 & F4). split_and!; congruence.
Qed.

Lemma tty_new_line_same t : same_line t (tty_new_line t).
Proof. unfold tty_new_line. by case_match. Qed.

Lemma new_lines_same n t : same_line t (new_lines n t).
Proof.
  revert t. induction n as [|n IH]; intros t; [done|]. simpl. etrans; [apply tty_new_line_same|apply IH].
Qed.

Lemma escape_final_same c t : same_line t (escape_final c t).
Proof.
  unfold escape_final. cbv zeta. etrans; [|same_tac].
  repeat case_match; try done; try (same_tac). apply new_lines_same.
Qed.

Lemma handle_escapes_same c t : same_line t (handle_escapes c t).
Proof.
  unfold handle_escapes. case_match; [by case_match|]. cbv zeta.
  match goal with |- same_line t (if esc_stage ?u =? 3 then _ else _) => assert (same_line t u) as E end.
  { repeat case_match; same_tac. }
  match goal with |- same_line t (if ?b then _ else _) => destruct b; [|exact E] end.
  etrans; [exact E|apply escape_final_same].
Qed.

Lemma tty_putc_same c t : same_line t (tty_putc c t).
Proof.
  unfold tty_putc. case_match; [apply handle_escapes_same|]. case_match.
  - case_match; [etrans; [apply tty_new_line_same|same_tac]|]. repeat case_match; same_tac.
  - cbv zeta. case_match; [|same_tac]. etrans; [|apply tty_new_line_same]. same_tac.
Qed.

Lemma same_line_of t t' : same_line t t' -> line_of t' = line_of t /\ (line_ok t -> line_ok t').
Proof.
  intros (E1 & E2 & _). unfold line_of. rewrite E1, E2. split; [done|].
  intros [? ?]. split; by rewrite ?E1, ?E2.
Qed.

(** Feed a sequence of characters from the keyboard. *)
Fixpoint submit_chars {sign : CharSign} (sr : Z) (cs : list Z) (t : tty) : outcome tty :=
  match cs with [] => Ret t | c :: cs => t ← tty_submit_char sr c t; submit_chars sr cs t end.

Lemma submit_printable {sign : CharSign} sr cs t :
  line_ok t -> Forall (fun c => IS_PRINTABLE c = true) cs -> line_buff_len t + zlen cs <= 128 ->
  exists t', submit_chars sr cs t = Ret t' /\ line_ok t' /\ line_of t' = line_of t ++ cs /\
    read_rb t' = read_rb t /\ read_data_signal t' = read_data_signal t /\
    line_buff_len t' = line_buff_len t + zlen cs.
Proof.
  revert t. induction cs as [|c cs IH]; intros t Ht Hcs Hl.
  - exists t. rewrite app_nil_r, Z.add_0_r. done.
  - apply Forall_cons in Hcs as [Hc Hcs]. simpl in Hl.
    pose proof (linebuff_putc_spec c t Ht) as Hput. rewrite decide_True in Hput by lia.
    destruct Hput as (t1 & E & Ht1 & Hl1 & R1 & S1 & N1).
    pose proof (tty_putc_same c t1) as Hsame. destruct (same_line_of _ _ Hsame) as [L2 O2].
    destruct Hsame as (_ & N2 & R2 & S2).
    destruct (IH (tty_putc c t1)) as (t' & E' & Ht' & Hl' & R' & S' & N'); [auto|done|lia|].
    exists t'. simpl. unfold tty_submit_char. rewrite Hc, E. simpl. rewrite E'.
    rewrite Hl', L2, Hl1, <-app_assoc. split_and!; try done; try congruence. rewrite N', N2, N1. simpl. lia.
Qed.

Lemma submit_chars_app {sign : CharSign} sr cs ds t t1 :
  submit_chars sr cs t = Ret t1 -> submit_chars sr (cs ++ ds) t = submit_chars sr ds t1.
Proof.
  revert t. induction cs as [|c cs IH]; intros t E1; simpl in *; [by simplify_eq|].
  destruct (tty_submit_char sr c t); simpl in *; try done. auto.
Qed.

Lemma fifo_write_take cap q data n : fifo_write cap q (take (Z.to_nat n) data) n = fifo_write cap q data n.
Proof. unfold fifo_write. rewrite take_take. do 3 f_equal. lia. Qed.

(** The newline that ends a line. *)
Lemma submit_newline {sign : CharSign} sr t cap q :
  is_u8 sr -> line_ok t -> line_buff_len t < 128 -> repr cap q (read_rb t) ->
  read_data_signal t = 0 \/ read_data_signal t = 1 ->
  exists t', tty_submit_char sr 10 t = Ret t' /\ line_ok t' /\ line_buff_len t' = 0 /\ read_data_signal t' = 1 /\
    repr cap (fifo_write cap q (line_of t ++ [10]) (zlen (line_of t ++ [10]))).2 (read_rb t').
Proof.
  intros Hsr Ht Hl Hq Hsig. unfold tty_submit_char. simpl.
  pose proof (linebuff_putc_spec 10 t Ht) as Hput. rewrite decide_True in Hput by lia.
  destruct Hput as (t2 & -> & [Hs2 Hb2] & L2 & R2 & S2 & N2). cbn [mbind outcome_bind].
  unfold tty_submit_line_buff.
  destruct (ringbuff_write_spec cap q (read_rb t2) (line_buff t2) (line_buff_len t2)) as (rb' & -> & Hrb);
    [congruence|lia|lia|]. cbn [mbind outcome_bind].
  rewrite SemOps.semaphore_binary_up_spec by (done || congruence). cbn [mbind outcome_bind].
  eexists. split; [done|]. cbv zeta.
  match goal with |- context [tty_new_line ?u] => destruct (tty_new_line_same u) as (M1 & M2 & M3 & M4) end.
  cbn [set_cursor line_buff line_buff_len read_data_signal read_rb] in *. rewrite M2, M3, M4. split_and!; try done.
  { split; cbn [set_cursor line_buff line_buff_len]; rewrite ?M1, ?M2; [done|lia]. }
  rewrite <-L2. assert (line_buff_len t2 = zlen (line_of t2)) as E2.
  { unfold line_of. rewrite length_take. lia. }
  rewrite <-fifo_write_take in Hrb. by rewrite <-E2.
Qed.

(** A printable line and its newline go to the end of the queue. *)
Lemma submit_line {sign : CharSign} sr cs t cap q :
  is_u8 sr -> line_ok t -> line_buff_len t = 0 -> Forall (fun c => IS_PRINTABLE c = true) cs -> zlen cs < 128 ->
  repr cap q (read_rb t) -> read_data_signal t = 0 \/ read_data_signal t = 1 ->
  exists t', submit_chars sr (cs ++ [10]) t = Ret t' /\ line_ok t' /\ line_buff_len t' = 0 /\ read_data_signal t' = 1 /\
    repr cap (fifo_write cap q (cs ++ [10]) (zlen (cs ++ [10]))).2 (read_rb t').
Proof.
  intros Hsr Ht H0 Hcs Hlen Hq Hsig.
  destruct (submit_printable sr cs t Ht Hcs) as (t1 & E1 & Ht1 & L1 & R1 & S1 & N1); [lia|].
  rewrite (submit_chars_app sr cs [10] t t1 E1).
  destruct (submit_newline sr t1 cap q) as (t2 & E2 & Ho2 & Hl2 & Hs2 & Hr2); [done|done|lia|congruence..|].
  simpl. rewrite E2. exists t2. rewrite L1 in Hr2. unfold line_of in Hr2. rewrite H0 in Hr2. done.
Qed.

(** Any character, while the line has room for it *)
Lemma submit_char_ok {sign : CharSign} sr c t cap q :
  is_u8 sr -> line_ok t -> line_buff_len t < 128 -> repr cap q (read_rb t) ->
  read_data_signal t = 0 \/ read_data_signal t = 1 ->
  exists t' q', tty_submit_char sr c t = Ret t' /\ line_ok t' /\ line_buff_len t' <= line_buff_len t + 1 /\
    repr cap q' (read_rb t') /\ (read_data_signal t' = 0 \/ read_data_signal t' = 1).
Proof.
  intros Hsr Ht Hl Hq Hsig.
  assert (Hput : forall u, same_line t u -> exists u', linebuff_putc c u = Ret u' /\ line_ok u' /\
    line_buff_len u' = line_buff_len t + 1 /\ read_rb u' = read_rb t /\ read_data_signal u' = read_data_signal t).
  { intros u Hsame. destruct (same_line_of _ _ Hsame) as [_ Ou]. destruct Hsame as (_ & Nu & Ru & Su).
    pose proof (linebuff_putc_spec c u (Ou Ht)) as P. rewrite decide_True in P by lia.
    destruct P as (u' & E & O & _ & R & S & N). exists u'. split_and!; try done; congruence. }
  unfold tty_submit_char. destruct (IS_PRINTABLE c) eqn:Ep.
  - destruct (Hput t) as (u & -> & O & N & R & S); [done|]. cbn [mbind outcome_bind].
    pose proof (tty_putc_same c u) as Hsame. destruct (same_line_of _ _ Hsame) as [_ Ou]. destruct Hsame as (_ & Nu & Ru & Su).
    exists (tty_putc c u), q. rewrite Nu, N, Ru, R, Su, S. split_and!; auto. lia.
  - destruct (Z.eqb_spec c 10) as [->|].
    + destruct (submit_newline sr t cap q Hsr Ht Hl Hq Hsig) as (u & E & O & N & S & R). unfold tty_submit_char in E. rewrite Ep in E.
      cbn [Z.eqb Pos.eqb] in E. rewrite E. eexists u, _. rewrite N, S. destruct Ht. split_and!; eauto. lia.
    + destruct (c =? 8).
      * exists (tty_linebuff_erase t), q. split; [done|]. unfold tty_linebuff_erase. destruct Ht as [Hs [H0 H1]].
        destruct (Z.ltb_spec 0 (line_buff_len t)); [|split_and!; try done; lia].
        cbv zeta. destruct (0 <? _); simpl; (split_and!; [split; simpl; [done|lia]|lia|done|done]).
      * cbv zeta. match goal with |- context [linebuff_putc c ?u] => destruct (Hput u) as (u' & -> & O & N & R & S) end.
        { etrans; apply tty_putc_same. }
        exists u', q. rewrite N, R, S. split_and!; try done.
Qed.

(** A line typed at the keyboard reaches its reader whole: printable
    characters followed by a newline, up to the 128 bytes of the line buffer,
    are appended with that newline to the queue the driver reads from (as far
    as the queue has room), the line buffer is empty again and the reader is
    signalled.  One more character without a newline is stored outside the
    line buffer, because its limit is tested against a larger constant. *)
Theorem tty_line_submit {sign : CharSign} sr cs t cap q :
  is_u8 sr -> line_ok t -> line_buff_len t = 0 -> Forall (fun c => IS_PRINTABLE c = true) cs ->
  repr cap q (read_rb t) -> read_data_signal t = 0 \/ read_data_signal t = 1 ->
  (zlen cs < 128 ->
   exists t', submit_chars sr (cs ++ [10]) t = Ret t' /\ line_buff_len t' = 0 /\ read_data_signal t' = 1 /\
     repr cap (fifo_write cap q (cs ++ [10]) (zlen (cs ++ [10]))).2 (read_rb t')) /\
  (zlen cs = 129 -> submit_chars sr cs t = Fault).
Proof.
  intros Hsr Ht H0 Hcs Hq Hsig. split; intros Hlen.
  - destruct (submit_line sr cs t cap q) as (t' & E & _ & R); try done. by exists t'.
  - destruct cs as [|c cs _] using rev_ind; [done|]. rewrite length_app in Hlen. simpl in Hlen.
    apply Forall_app in Hcs as [Hcs Hc]. apply Forall_cons in Hc as [Hc _].
    destruct (submit_printable sr cs t Ht Hcs) as (t1 & E1 & Ht1 & L1 & R1 & S1 & N1); [lia|].
    rewrite (submit_chars_app sr cs [c] t t1 E1). simpl. unfold tty_submit_char. rewrite Hc.
    pose proof (linebuff_putc_spec c t1 Ht1) as Hput. rewrite decide_False in Hput by lia.
    by rewrite Hput.
Qed.

(** ** Witnesses *)

Definition demo_tty : tty :=
  Mk (Vga 0x0F 47 ∅) 105 47 (replicate 128 0) 0 (Ringbuff 0 0 256 (replicate 256 0)) 0 0 0 0 false.

Lemma tty_putc_cursor_witness : cursor_ok (tty_putc 65 demo_tty).
Proof.
  apply (tty_putc_cursor 65 demo_tty); [split; unfold vga_ok; simpl; lia|]. intros E. discriminate E.
Defined.

Lemma tty_putc_prints_witness :
  tty_cursor_col (tty_putc 65 demo_tty) = 0 /\ tty_cursor_row (tty_putc 65 demo_tty) = 47 /\
  screen (screen_of (tty_putc 65 demo_tty)) 46 105 = 0x0F41.
Proof.
  destruct (tty_putc_prints 65 demo_tty) as (E1 & E2 & E3);
    [split; unfold vga_ok; simpl; lia|reflexivity|reflexivity|].
  rewrite E1, E2, (E3 46 105) by lia. vm_compute. done.
Defined.

Lemma tty_line_submit_witness :
  exists t', submit_chars (sign := true) 4 ([108; 115] ++ [10]) demo_tty = Ret t' /\ line_buff_len t' = 0 /\
    read_data_signal t' = 1 /\ repr 255 [108; 115; 10] (read_rb t').
Proof.
  destruct (tty_line_submit (sign := true) 4 [108; 115] demo_tty 255 []) as [H _].
  - lia.
  - split; simpl; [reflexivity|lia].
  - reflexivity.
  - repeat constructor.
  - split; [split; simpl; lia|]. split; reflexivity.
  - left. reflexivity.
  - apply H. simpl. lia.
Defined.

(** The sequence ESC [ A on a fresh terminal leaves the screen: the row is -1,
    and the next character goes to an address below the frame buffer. *)
Example tty_cursor_up_leaves_screen :
  let t := tty_puts [27; 91; 65] (tty_init_basic demo_tty) in
  tty_cursor_row t = -1 /\ dev (screen_of (tty_putc 33 t)) !! (0x6000 - 212) = Some 0x0F21.
Proof. vm_compute. done. Qed.

(** Erasing at the first column puts the cursor in a column that does not
    exist. *)
Example tty_erase_leaves_screen :
  tty_cursor_col (tty_linebuff_erase (set_line (line_buff demo_tty) 1 (set_cursor 5 0 demo_tty))) = 106.
Proof. vm_compute. done. Qed.
End Tty.
