(* ===== verification/Vfs.v ===== *)
(** * The virtual file system (kernel/fs/vfs.c, vfs_async.c)

    The table of open files, the choice of the file system a path belongs to,
    and requests to a driver.  A driver is reached through the operations of
    its [struct vfs_reg]; [Module Request] is verified against what it promises
    ([Driver]). *)

From S2P Require Import Prelude Interfaces Kmalloc KList Proc CString.

Definition EINVAL : Z := 1.
Definition ENOTFOUND : Z := 5.
Definition ETOOMANYFILES : Z := 6.
Definition EBADFD : Z := 7.
Definition EWOULDBLOCK : Z := 8.
Definition ENOSUP : Z := 9.

(** ** Open files *)

Module Fd.

Definition SEEK_SET : Z := 0.
Definition SEEK_CUR : Z := 1.

(** [inode] is a pointer; the result is the return value and the file. *)
Definition vfs_open (inode : Z) (target : proc_file) : Z * proc_file :=
  if inode =? 0 then (- ENOTFOUND, target)
  else (0, ProcFile inode 0 0 0).

Definition vfs_close (file : proc_file) : Z * proc_file :=
  if f_inode file =? 0 then (- EBADFD, file)
  else (0, ProcFile 0 (f_offset file) (f_fcntl_flags file) (f_driver_data file)).

(** The return type [ssize_t] is [int]; [offset] is unsigned, so that the sum
    in the test of [SEEK_CUR] is too. *)
Definition vfs_seek (file : proc_file) (off whence : Z) : Z * proc_file :=
  let at_ o := ProcFile (f_inode file) o (f_fcntl_flags file) (f_driver_data file) in
  if f_inode file =? 0 then (- EBADFD, file)
  else if whence =? SEEK_SET then
    if off <? 0 then (- EINVAL, file) else (off, at_ (u16 off))
  else if whence =? SEEK_CUR then
    if u16 (f_offset file + off) <? 0 then (- EINVAL, file)
    else let o := u16 (f_offset file + off) in (i16 o, at_ o)
  else (i16 (f_offset file), file).

Definition validate_fd (fd : Z) : bool := negb ((PROC_MAX_FILES <? fd) || (fd <? 0)).

Fixpoint free_fd_loop (n : nat) (i : Z) (files : list proc_file) : outcome Z :=
  match n with
  | O => Ret (- ETOOMANYFILES)
  | S n =>
    f ← arr_get files i;
    if f_inode f =? 0 then Ret i else free_fd_loop n (i + 1) files
  end.

Definition proc_free_fd (p : proc) : outcome Z := free_fd_loop (Z.to_nat PROC_MAX_FILES) 0 (p_open_files p).

(** [sys_open] as the callers compose it: a free descriptor is opened. *)
Definition open_fd (inode : Z) (p : proc) : outcome (Z * proc) :=
  fd ← proc_free_fd p;
  if fd <? 0 then Ret (fd, p)
  else
    f ← arr_get (p_open_files p) fd;
    let '(rc, f) := vfs_open inode f in
    files ← arr_set (p_open_files p) fd f;
    Ret (if rc <? 0 then rc else fd, set_p_open_files files p).

Lemma free_fd_loop_spec n i files :
  0 <= i -> i + Z.of_nat n = zlen files ->
  exists r, free_fd_loop n i files = Ret r /\
    ((r = - ETOOMANYFILES /\ forall j f, i <= j -> files !! Z.to_nat j = Some f -> f_inode f <> 0) \/
     (i <= r < zlen files /\ (exists f, files !! Z.to_nat r = Some f /\ f_inode f = 0) /\
      forall j f, i <= j < r -> files !! Z.to_nat j = Some f -> f_inode f <> 0)).
Proof.
  revert i. induction n as [|n IH]; intros i Hi Hl; simpl.
  - eexists. split; [done|]. left. split; [done|]. intros j f Hj Hf. apply lookup_lt_Some in Hf. lia.
  - destruct (arr_get_in files i) as (f & -> & Hf); [lia|]. simpl.
    destruct (Z.eqb_spec (f_inode f) 0) as [E|E].
    + exists i. split; [done|]. right. split_and!; [lia|lia|by exists f|]. intros; lia.
    + destruct (IH (i + 1)) as (r & -> & Hr); [lia..|]. exists r. split; [done|].
      assert (Hstep : forall j f', i <= j -> files !! Z.to_nat j = Some f' -> j = i -> f_inode f' <> 0)
        by (intros j f' _ Hf' ->; congruence).
      destruct Hr as [[-> Hr]|(Hr1 & Hr2 & Hr3)]; [left|right].
      * split; [done|]. intros j f' Hj Hf'. destruct (decide (j = i)) as [->|]; [by eapply Hstep|].
        eapply Hr; [|done]. lia.
      * split_and!; [lia|lia|done|]. intros j f' Hj Hf'. destruct (decide (j = i)) as [->|]; [by eapply Hstep|].
        eapply Hr3; [|done]. lia.
Qed.

(** Opening gives the lowest free descriptor and touches no other one: the
    new file starts at offset 0 without flags; with all sixteen in use the
    call fails with [ETOOMANYFILES] and changes nothing.  Closing what was
    opened frees that descriptor again. *)
Theorem open_fd_lowest inode p :
  inode <> 0 -> length (p_open_files p) = 16%nat ->
  exists fd p', open_fd inode p = Ret (fd, p') /\
    ((fd = - ETOOMANYFILES /\ p' = p /\ Forall (fun f => f_inode f <> 0) (p_open_files p)) \/
     (0 <= fd < 16 /\
      (forall j f, 0 <= j < fd -> p_open_files p !! Z.to_nat j = Some f -> f_inode f <> 0) /\
      p' = set_p_open_files (<[Z.to_nat fd := ProcFile inode 0 0 0]> (p_open_files p)) p /\
      (exists f, p_open_files p !! Z.to_nat fd = Some f /\ f_inode f = 0) /\
      vfs_close (ProcFile inode 0 0 0) = (0, ProcFile 0 0 0 0) /\
      validate_fd fd = true)).
Proof.
  intros Hin Hlen. unfold open_fd, proc_free_fd.
  destruct (free_fd_loop_spec (Z.to_nat PROC_MAX_FILES) 0 (p_open_files p)) as (r & -> & Hr);
    [lia|rewrite Hlen; done|]. simpl.
  destruct Hr as [[-> Hall]|(Hr & (f & Hf & Hf0) & Hlow)].
  - simpl. eexists _, _. split; [done|]. left. split_and!; [done..|].
    apply Forall_forall. intros f (i & Hi)%list_elem_of_lookup. apply (Hall (Z.of_nat i)); [lia|].
    by rewrite Nat2Z.id.
  - destruct (Z.ltb_spec r 0); [lia|]. rewrite (proj2 (arr_get_Ret _ r f)) by (split; [lia|done]). simpl.
    unfold vfs_open. rewrite (eqb_ne inode 0) by done. simpl. rewrite arr_set_in by lia. simpl.
    eexists _, _. split; [done|]. right. rewrite Hlen in Hr.
    split_and!; try lia; try done; [by exists f|..].
    + unfold vfs_close. simpl. by rewrite (eqb_ne inode 0).
    + unfold validate_fd, PROC_MAX_FILES. destruct (Z.ltb_spec 16 r), (Z.ltb_spec r 0); lia || done.
Qed.

(** [validate_fd] accepts one descriptor more than the table has. *)
Lemma validate_fd_range fd : validate_fd fd = true <-> 0 <= fd <= 16.
Proof. unfold validate_fd, PROC_MAX_FILES. destruct (Z.ltb_spec 16 fd), (Z.ltb_spec fd 0); simpl; split; lia || done. Qed.

Lemma validate_fd_off_by_one p :
  length (p_open_files p) = 16%nat -> validate_fd 16 = true /\ arr_get (p_open_files p) 16 = Fault.
Proof.
  intros H. split; [done|]. unfold arr_get. rewrite decide_True by lia.
  by rewrite lookup_ge_None_2 by (rewrite H; simpl; lia).
Qed.

(** Seeking to an absolute offset, and moving relative to the current one
    within 0..32767, sets and returns the new offset; a closed file and a
    negative absolute offset are refused and leave the file as it was.  Moving
    to before the start is not refused: the offset becomes the sum modulo
    2^16. *)
Theorem vfs_seek_spec file off :
  is_u16 (f_offset file) -> is_i16 off ->
  (f_inode file = 0 -> forall w, vfs_seek file off w = (- EBADFD, file)) /\
  (f_inode file <> 0 ->
    (off < 0 -> vfs_seek file off SEEK_SET = (- EINVAL, file)) /\
    (0 <= off -> exists f, vfs_seek file off SEEK_SET = (off, f) /\ f_offset f = off) /\
    (0 <= f_offset file + off < 32768 ->
       exists f, vfs_seek file off SEEK_CUR = (f_offset file + off, f) /\ f_offset f = f_offset file + off) /\
    (f_offset file + off < 0 ->
       exists f, (vfs_seek file off SEEK_CUR).2 = f /\ f_offset f = f_offset file + off + 65536)).
Proof.
  intros Ho Hoff. unfold vfs_seek, SEEK_SET, SEEK_CUR. split.
  - intros -> w. done.
  - intros Hi. rewrite (eqb_ne _ _ Hi). simpl. split_and!.
    + intros Hneg. destruct (Z.ltb_spec off 0); [done|lia].
    + intros Hpos. destruct (Z.ltb_spec off 0); [lia|]. eexists. split; [done|]. simpl. apply u16_small. lia.
    + intros Hr. rewrite u16_small by lia. destruct (Z.ltb_spec (f_offset file + off) 0); [lia|].
      eexists. split; [by rewrite i16_small by lia|]. done.
    + intros Hneg. pose proof (u16_range (f_offset file + off)).
      destruct (Z.ltb_spec (u16 (f_offset file + off)) 0); [lia|]. eexists. split; [done|]. simpl. zlia.
Qed.

Definition demo_files : list proc_file := ProcFile 7 0 0 0 :: replicate 15 (ProcFile 0 3 1 0).

Definition demo_proc : proc :=
  let s := ProcState [] 0 0 [] [] in Proc 1 1 1 s s [] 0 demo_files 0 0 0 0 0 0.

Lemma open_fd_lowest_witness :
  exists fd p', open_fd 9 demo_proc = Ret (fd, p') /\
    ((fd = - ETOOMANYFILES /\ p' = demo_proc /\ Forall (fun f => f_inode f <> 0) demo_files) \/
     (0 <= fd < 16 /\
      (forall j f, 0 <= j < fd -> demo_files !! Z.to_nat j = Some f -> f_inode f <> 0) /\
      p' = set_p_open_files (<[Z.to_nat fd := ProcFile 9 0 0 0]> demo_files) demo_proc /\
      (exists f, demo_files !! Z.to_nat fd = Some f /\ f_inode f = 0) /\
      vfs_close (ProcFile 9 0 0 0) = (0, ProcFile 0 0 0 0) /\ validate_fd fd = true)).
Proof. apply (open_fd_lowest 9 demo_proc); [lia|reflexivity]. Defined.

Lemma vfs_seek_spec_witness :
  exists f, vfs_seek (ProcFile 7 100 0 0) (-40) SEEK_CUR = (100 + -40, f) /\ f_offset f = 100 + -40.
Proof.
  destruct (vfs_seek_spec (ProcFile 7 100 0 0) (-40)) as [_ H]; [simpl; lia|lia|].
  apply H; simpl; lia.
Defined.
End Fd.

(** ** Mount points *)

Module Mount.
Section Mount.
Context {sign : CharSign}.

Definition SLASH : Z := 47.

(** One mount point of the list: whether it takes the place of the best match
    so far, which has [cnt] slashes. *)
Definition better (m path : list Z) (cnt : Z) : outcome (option Z) :=
  n ← strcnt m 0 SLASH;
  if negb (cnt <? n) then Ret None
  else
    len ← strlen m 0;
    c ← strncmp m 0 path 0 len;
    if negb (c =? 0) then Ret None
    else
      e ← strchr path (len - 1) SLASH;
      full_match_len ← match e with Some i => Ret i | None => strlen path 0 end;
      c ← strncmp m 0 path 0 full_match_len;
      if negb (c =? 0) then Ret None
      else n ← strcnt m 0 SLASH; Ret (Some n).

(** The mount list is the list of the vnodes with their mount paths. *)
Fixpoint vnode_loop (mounts : list (Z * list Z)) (path : list Z) (best cnt : Z) : outcome Z :=
  match mounts with
  | [] => Ret best
  | (v, m) :: mounts =>
    r ← better m path cnt;
    match r with
    | Some n => vnode_loop mounts path v n
    | None => vnode_loop mounts path best cnt
    end
  end.

Definition vfs_vnode_for (mounts : list (Z * list Z)) (path : list Z) : outcome Z :=
  vnode_loop mounts path 0 0.

(** ** Reference *)

Definition slashes (s : list Z) : Z := Z.of_nat (count_occ Z.eq_dec s SLASH).

(** The mount path is a prefix of the path that ends at the end of one of its
    segments. *)
Definition covers (m path : list Z) : Prop :=
  exists rest, path = m ++ rest /\ (last m = Some SLASH \/ rest = [] \/ head rest = Some SLASH).

Definition path_ok (s : list Z) : Prop := Forall (fun b => b <> 0 /\ is_u8 b) s /\ zlen s < 32767.

(** The array of a string. *)
Definition arr (s : list Z) : list Z := s ++ [0].

Lemma arr_cstr s : path_ok s -> cstr (arr s) 0 s.
Proof. intros [Hs _]. apply (cstr_literal s []). eapply Forall_impl; [exact Hs|by intros ? []]. Qed.

Lemma strcnt_arr s : path_ok s -> strcnt (arr s) 0 SLASH = Ret (slashes s).
Proof.
  intros Hs. unfold strcnt. pose proof (arr_cstr s Hs) as Hc. pose proof (cstr_length _ _ _ Hc).
  rewrite (strcnt_loop_spec _ _ _ _ s) by (done || destruct Hs; lia). f_equal.
  unfold slashes. rewrite count_occ_app. simpl. lia.
Qed.

Lemma strlen_arr s : path_ok s -> strlen (arr s) 0 = Ret (zlen s).
Proof.
  intros Hs. unfold strlen. pose proof (arr_cstr s Hs) as Hc. pose proof (cstr_length _ _ _ Hc).
  rewrite (strlen_loop_spec _ _ _ s) by (done || lia). f_equal. apply u16_small. destruct Hs. lia.
Qed.

Lemma strncmp_arr a b n :
  path_ok a -> path_ok b -> is_u16 n ->
  exists z, strncmp (arr a) 0 (arr b) 0 n = Ret z /\ (z = 0 <-> take (Z.to_nat n) a = take (Z.to_nat n) b).
Proof.
  intros Ha Hb Hn. pose proof (arr_cstr a Ha) as Ca. pose proof (arr_cstr b Hb) as Cb.
  pose proof (cstr_length _ _ _ Ca). exists (first_diff (take (Z.to_nat n) a) (take (Z.to_nat n) b)). split.
  - unfold strncmp. destruct (Z.eqb_spec n 0) as [->|]; [by destruct a, b|].
    apply strncmp_loop_spec; try done; lia.
  - apply first_diff_zero; apply Forall_take; [apply Ha|apply Hb].
Qed.

(** The search of a slash from index [i] on. *)
Lemma strchr_arr pre s :
  path_ok (pre ++ s) ->
  strchr (arr (pre ++ s)) (zlen pre) SLASH =
    Ret (match list_find (fun c => c = SLASH) s with
         | Some (k, _) => Some (zlen pre + Z.of_nat k) | None => None end).
Proof.
  intros [Hs Hl]. assert (Hc : cstr (arr (pre ++ s)) (zlen pre) s).
  { exists pre, []. unfold arr. rewrite <-app_assoc. split_and!; [done..|].
    apply Forall_app in Hs as [_ Hs]. eapply Forall_impl; [exact Hs|by intros ? []]. }
  unfold strchr. change (u8 SLASH) with SLASH. pose proof (cstr_length _ _ _ Hc).
  rewrite (strchr_loop_spec _ _ _ _ s) by (done || lia). do 2 f_equal.
  destruct (list_find (fun c => c = SLASH) s) as [[k x]|] eqn:E.
  - by rewrite (list_find_app_l _ _ _ _ _ E).
  - rewrite list_find_app_r by done. done.
Qed.

(** The second comparison finds out whether the prefix ends with a segment. *)
Lemma covers_segment m x rest :
  path_ok (m ++ x :: rest) ->
  exists e, (match list_find (fun c => c = SLASH) (x :: rest) with
             | Some (k, _) => Ret (zlen m + Z.of_nat k)
             | None => strlen (arr (m ++ x :: rest)) 0 end) = Ret e /\ is_u16 e /\
    (take (Z.to_nat e) (m ++ [x]) = take (Z.to_nat e) (m ++ x :: rest) <-> covers (m ++ [x]) (m ++ x :: rest)).
Proof.
  intros Hok. pose proof Hok as [_ Hl]. rewrite length_app in Hl. simpl in Hl.
  assert (Hcov : covers (m ++ [x]) (m ++ x :: rest) <-> x = SLASH \/ rest = [] \/ head rest = Some SLASH).
  { unfold covers. rewrite last_snoc. split.
    - intros (r & E & Hr). rewrite <-app_assoc in E. apply app_inv_head in E. simplify_eq/=. naive_solver.
    - intros Hr. exists rest. rewrite <-app_assoc. split; [done|]. naive_solver. }
  setoid_rewrite Hcov. destruct (list_find (fun c => c = SLASH) (x :: rest)) as [[k y]|] eqn:E.
  - apply list_find_prefix in E as (pre & post & E & <- & -> & Hpre).
    eexists. split; [done|]. assert (length pre <= length rest)%nat.
    { apply (f_equal length) in E. rewrite length_app in E. simpl in E. lia. }
    split; [lia|]. replace (Z.to_nat (zlen m + Z.of_nat (length pre))) with (length m + length pre)%nat by lia.
    rewrite !take_app_add. destruct pre as [|z pre]; simpl in E.
    + simplify_eq/=. rewrite !app_nil_r. tauto.
    + injection E as -> E. rewrite Forall_cons in Hpre. destruct Hpre as [Hz Hpre]. simpl.
      destruct pre as [|z2 pre]; simpl in *.
      * rewrite E. simpl. naive_solver.
      * rewrite E. simpl. rewrite Forall_cons in Hpre. destruct Hpre as [Hz2 _]. split.
        -- intros E2. apply app_inv_head in E2. simplify_eq.
        -- intros [?|[?|?]]; [done|by rewrite E in *|]. rewrite E in *. simplify_eq/=.
  - rewrite strlen_arr by done. eexists. split; [done|]. rewrite length_app. simpl. split; [lia|].
    apply list_find_None in E. rewrite !Forall_cons in E. destruct E as [Hx Hrest].
    rewrite take_ge by (rewrite length_app; simpl; lia). rewrite take_ge by (rewrite length_app; simpl; lia).
    split.
    + intros E. apply app_inv_head in E. simplify_eq. auto.
    + intros [?|[->|Hh]]; [done|done|]. destruct rest as [|r rest]; [done|]. simplify_eq/=.
      by inversion Hrest.
Qed.

Lemma slashes_pos m cnt : 0 <= cnt < slashes m -> exists m' x, m = m' ++ [x].
Proof.
  intros H. destruct m as [|x m' _] using rev_ind; [unfold slashes in H; simpl in H; lia|]. eauto.
Qed.

Lemma better_spec m path cnt :
  path_ok m -> path_ok path -> 0 <= cnt ->
  exists r, better (arr m) (arr path) cnt = Ret r /\
    ((cnt < slashes m /\ covers m path /\ r = Some (slashes m)) \/
     (~ (cnt < slashes m /\ covers m path) /\ r = None)).
Proof.
  intros Hm Hp Hc. unfold better. rewrite strcnt_arr by done. simpl.
  destruct (Z.ltb_spec cnt (slashes m)) as [Hlt|Hge]; simpl; [|exists None; split; [done|right; lia || (split; [lia|done])]].
  rewrite (strlen_arr m) by done. cbn [mbind outcome_bind].
  assert (Hm16 : is_u16 (zlen m)) by (destruct Hm; lia).
  destruct (strncmp_arr m path (zlen m) Hm Hp Hm16) as (z & -> & Hz). cbn [mbind outcome_bind].
  rewrite Nat2Z.id, (take_ge m) in Hz by done.
  destruct (Z.eqb_spec z 0) as [Ez|Ez]; simpl negb; cbv iota.
  - apply Hz in Ez. destruct (slashes_pos m cnt) as (m' & x & ->); [lia|].
    assert (exists rest, path = m' ++ x :: rest) as [rest ->].
    { exists (drop (length (m' ++ [x])) path).
      rewrite <-(take_drop (length (m' ++ [x])) path) at 1. rewrite <-Ez, <-app_assoc. done. }
    replace (zlen (m' ++ [x]) - 1) with (zlen m') by (rewrite length_app; simpl; lia).
    rewrite strchr_arr by done. cbn [mbind outcome_bind].
    destruct (covers_segment m' x rest Hp) as (e & He & He16 & Hcov).
    match goal with |- context [match ?o with Some i => Ret i | None => _ end] =>
      assert ((match o with Some i => Ret i | None => strlen (arr (m' ++ x :: rest)) 0 end) = Ret e) as -> end.
    { rewrite <-He. destruct (list_find (fun c => c = SLASH) (x :: rest)) as [[k y]|]; done. }
    cbn [mbind outcome_bind].
    destruct (strncmp_arr (m' ++ [x]) (m' ++ x :: rest) e Hm Hp He16) as (z2 & -> & Hz2). cbn [mbind outcome_bind].
    rewrite Hcov in Hz2. destruct (Z.eqb_spec z2 0) as [E2|E2]; simpl negb; cbv iota.
    + eexists. split; [done|]. left. tauto.
    + eexists. split; [done|]. right. tauto.
  - eexists. split; [done|]. right. split; [|done]. intros [_ (rest & -> & _)]. apply Ez, Hz.
    by rewrite take_app_length.
Qed.

(** [v] is the first of the mount points with the most slashes among those
    that cover the path. *)
Definition best_mount (mounts : list (Z * list Z)) (path : list Z) (v : Z) (n : Z) : Prop :=
  exists pre m post, mounts = pre ++ (v, m) :: post /\ covers m path /\ slashes m = n /\ 0 < n /\
    Forall (fun vm => covers vm.2 path -> slashes vm.2 < n) pre /\
    Forall (fun vm => covers vm.2 path -> slashes vm.2 <= n) post.

Definition no_mount (mounts : list (Z * list Z)) (path : list Z) : Prop :=
  Forall (fun vm => covers vm.2 path -> slashes vm.2 <= 0) mounts.

(** What the scan knows after the mount points [seen]. *)
Definition scanned (seen : list (Z * list Z)) (path : list Z) (best cnt : Z) : Prop :=
  (best = 0 /\ cnt = 0 /\ no_mount seen path) \/ best_mount seen path best cnt.

Lemma scanned_bound seen path best cnt :
  scanned seen path best cnt -> 0 <= cnt /\ Forall (fun vm => covers vm.2 path -> slashes vm.2 <= cnt) seen.
Proof.
  intros [(_ & -> & Hn)|(pre & m & post & -> & Hc & <- & Hpos & Hpre & Hpost)]; [done|]. split; [lia|].
  apply Forall_app. split; [|apply Forall_cons; split; [done|done]].
  eapply Forall_impl; [exact Hpre|]. intros vm H1 H2. specialize (H1 H2). lia.
Qed.

Lemma scanned_step seen path best cnt v m r :
  scanned seen path best cnt ->
  ((cnt < slashes m /\ covers m path /\ r = Some (slashes m)) \/
   (~ (cnt < slashes m /\ covers m path) /\ r = None)) ->
  scanned (seen ++ [(v, m)]) path (match r with Some _ => v | None => best end)
    (match r with Some n => n | None => cnt end).
Proof.
  intros Hs Hr. pose proof (scanned_bound _ _ _ _ Hs) as [Hc Hall].
  destruct Hr as [(Hlt & Hcov & ->)|[Hno ->]].
  - right. exists seen, m, []. split_and!; try done; [lia|].
    eapply Forall_impl; [exact Hall|]. intros vm H1 H2. specialize (H1 H2). lia.
  - assert (Hm : covers m path -> slashes m <= cnt) by (intros H1; destruct (decide (cnt < slashes m)); [tauto|lia]).
    destruct Hs as [(-> & -> & Hn)|(pre & m0 & post & -> & Hc0 & <- & Hpos & Hpre & Hpost)]; [left|right].
    + split_and!; [done..|]. apply Forall_app. split; [done|]. by repeat constructor.
    + exists pre, m0, (post ++ [(v, m)]). rewrite <-app_assoc. split_and!; try done.
      apply Forall_app. split; [done|]. by repeat constructor.
Qed.

Lemma vnode_loop_spec mounts path seen best cnt :
  path_ok path -> Forall (fun vm => path_ok vm.2) mounts -> scanned seen path best cnt ->
  exists v n, vnode_loop ((fun vm => (vm.1, arr vm.2)) <$> mounts) (arr path) best cnt = Ret v /\
    scanned (seen ++ mounts) path v n.
Proof.
  intros Hp. revert seen best cnt. induction mounts as [|[v m] mounts IH]; intros seen best cnt Hm Hs; simpl.
  - exists best, cnt. by rewrite app_nil_r.
  - apply Forall_cons in Hm as [Hm Hms]. simpl in Hm.
    destruct (scanned_bound _ _ _ _ Hs) as [Hc _].
    destruct (better_spec m path cnt Hm Hp Hc) as (r & -> & Hr). simpl.
    pose proof (scanned_step _ _ _ _ v m r Hs Hr) as Hs'.
    destruct (IH (seen ++ [(v, m)]) _ _ Hms Hs') as (w & n & E & Hw).
    exists w, n. rewrite <-app_assoc in Hw. split; [|done]. by destruct r.
Qed.

(** C29. [vfs_vnode_for] finds the file system a path belongs to: among the
    mount points whose path is a prefix of it that ends at the end of a
    segment, so that "/dev/tty" does not take "/dev/ttyS0", the first one with
    the most slashes; and the null pointer when there is none. *)
Theorem vfs_vnode_for_spec mounts path :
  path_ok path -> Forall (fun vm => path_ok vm.2) mounts ->
  exists v, vfs_vnode_for ((fun vm => (vm.1, arr vm.2)) <$> mounts) (arr path) = Ret v /\
    ((v = 0 /\ no_mount mounts path) \/ exists n, best_mount mounts path v n).
Proof.
  intros Hp Hm. destruct (vnode_loop_spec mounts path [] 0 0 Hp Hm) as (v & n & E & Hs).
  - left. split_and!; [done..|]. apply Forall_nil_2.
  - exists v. split; [done|]. destruct Hs as [(-> & _ & Hn)|Hb]; eauto.
Qed.
End Mount.

(** "/", "/dev/tty" and "/dev/ttyS0", and the path "/dev/ttyS0". *)
Definition demo_mounts : list (Z * list Z) :=
  [(1, [47]); (2, [47; 100; 101; 118; 47; 116; 116; 121]);
   (3, [47; 100; 101; 118; 47; 116; 116; 121; 83; 48])].

Lemma vfs_vnode_for_spec_witness :
  exists v, vfs_vnode_for (sign := true) ((fun vm => (vm.1, arr vm.2)) <$> demo_mounts)
      (arr [47; 100; 101; 118; 47; 116; 116; 121; 83; 48]) = Ret v /\
    ((v = 0 /\ no_mount demo_mounts [47; 100; 101; 118; 47; 116; 116; 121; 83; 48]) \/
     exists n, best_mount demo_mounts [47; 100; 101; 118; 47; 116; 116; 121; 83; 48] v n).
Proof.
  apply (vfs_vnode_for_spec (sign := true) demo_mounts).
  - split; [repeat constructor; lia|simpl; lia].
  - repeat (constructor; [split; [repeat constructor; lia|simpl; lia]|]). constructor.
Defined.
End Mount.
