(* ===== verification/Request.v ===== *)
(** * Requests to a file system driver
      (kernel/fs/vfs.c, kernel/fs/vfs_async.c)

    A read or a write becomes a request object that the driver of the file
    serves now or later; the blocking calls sleep until it is served, the
    others return its number.  Also the mounting of a file system and the path
    lookup, which call the driver through the same table. *)

From S2P Require Import Prelude Interfaces Proc Sync CString Kernel Sched Virtual Vfs Sys.

Definition VFS_ASYNC_TYPE_READ : Z := 1.
Definition VFS_ASYNC_TYPE_WRITE : Z := 2.
Definition VFS_ASYNC_FLAG_WANT_WOULDBLOCK : Z := 1.
Definition O_NONBLOCK : Z := 1.
Definition INODE_TYPE_FILE : Z := 1.
Definition INODE_TYPE_DIRECTORY : Z := 2.
Definition INODE_TYPE_DEVICE : Z := 3.

(** [static struct list mount_list] *)
Definition MOUNT_LIST : Z := -3.

Section Request.
Context {St D : Type} `{ListStore St} {junk : Uninit} {others : Others St D} {sign : CharSign}.
Abbreviation sys := (sys St D).

(** [struct vfs_reg]: the functions of a driver; a null pointer is [None]. *)
Record vfs_reg := VfsReg {
  reg_flags : Z;
  vnode_data : Z;
  find_inode : Z -> list Z -> sys -> outcome (Z * sys);
  get_abs : option (Z -> sys -> outcome Z);
  async_request : option (Z -> sys -> outcome (Z * sys));
  fio_ctl : option (Z -> Z -> Z -> Z -> Z -> sys -> outcome (Z * sys));
}.

(** The tables are constants of the drivers, at fixed addresses. *)
Class VfsRegs := reg_at : Z -> option vfs_reg.

(** A function called through its address. *)
Class Callbacks := call : Z -> Z -> sys -> outcome sys.

Context {regs : VfsRegs} {callbacks : Callbacks}.

Definition deref_reg (a : Z) : outcome vfs_reg :=
  match reg_at a with Some r => Ret r | None => Fault end.

(** ** The code *)

(** [inode->vnode->reg] *)
Definition inode_reg (inode : Z) (s : sys) : outcome vfs_reg :=
  i ← deref (inodes (s_vfs s)) inode;
  v ← deref (vnodes (s_vfs s)) (i_vnode i);
  deref_reg (vn_reg v).

(** The flags of a request made through [f]. *)
Definition request_flags (f : proc_file) : Z :=
  if negb (Z.land (f_fcntl_flags f) O_NONBLOCK =? 0) then VFS_ASYNC_FLAG_WANT_WOULDBLOCK else 0.

Definition put_req (rq : Z) (r : vfs_async_req_t) (s : sys) : sys :=
  set_reqs (<[rq := r]> (reqs (s_vfs s))) s.

Definition kfree_req (rq : Z) (s : sys) : outcome sys :=
  s ← s_kfree rq s; Ret (set_reqs (delete rq (reqs (s_vfs s))) s).

Definition kfree_sema (l : Z) (s : sys) : outcome sys :=
  s ← s_kfree l s; Ret (s_set_semas (delete l (s_semas s)) s).

(** [vfs_read_blocking] and [vfs_write_blocking] differ in the request type. *)
Definition request_blocking (type file pid buff size : Z) (s : sys) : outcome (Z * sys) :=
  f ← file_at file s;
  if f_inode f =? 0 then Ret (- EBADFD, s)
  else
    reg ← inode_reg (f_inode f) s;
    match async_request reg with
    | None => Ret (- ENOSUP, s)
    | Some submit =>
      '(lock, s) ← s_kmalloc sizeof_semaphore s;
      '(rq, s) ← s_kmalloc sizeof_req s;
      let id := u16 (req_id (s_vfs s) + 1) in
      let s := set_req_id id s in
      let s := put_req rq (Req id file type pid buff size 0 lock (uninit rq 16) (request_flags f)) s in
      let s := s_sema_init lock s in
      '(rc, s) ← submit rq s;
      if rc <? 0 then
        s ← kfree_req rq s;
        s ← kfree_sema lock s;
        Ret (rc, s)
      else
        s ← s_sema_down lock s;
        r ← deref (reqs (s_vfs s)) rq;
        s ← kfree_req rq s;
        s ← kfree_sema lock s;
        Ret (r_res r, s)
    end.

Definition vfs_read_blocking : Z -> Z -> Z -> Z -> sys -> outcome (Z * sys) :=
  request_blocking VFS_ASYNC_TYPE_READ.

Definition vfs_write_blocking : Z -> Z -> Z -> Z -> sys -> outcome (Z * sys) :=
  request_blocking VFS_ASYNC_TYPE_WRITE.

Definition request_async (type file pid buff size callback rid : Z) (s : sys) : outcome (Z * sys) :=
  f ← file_at file s;
  if f_inode f =? 0 then Ret (- EBADFD, s)
  else
    reg ← inode_reg (f_inode f) s;
    match async_request reg with
    | None => Ret (- ENOSUP, s)
    | Some submit =>
      '(rq, s) ← s_kmalloc sizeof_req s;
      let '(id, s) :=
        if negb (rid =? 0) then (u16 rid, s)
        else let id := u16 (req_id (s_vfs s) + 1) in (id, set_req_id id s) in
      let s := put_req rq (Req id file type pid buff size callback 0 (uninit rq 16) (request_flags f)) s in
      '(rc, s) ← submit rq s;
      if rc <? 0 then s ← kfree_req rq s; Ret (rc, s)
      else Ret (i16 id, s)
    end.

Definition vfs_read_async : Z -> Z -> Z -> Z -> Z -> Z -> sys -> outcome (Z * sys) :=
  request_async VFS_ASYNC_TYPE_READ.

Definition vfs_write_async : Z -> Z -> Z -> Z -> Z -> Z -> sys -> outcome (Z * sys) :=
  request_async VFS_ASYNC_TYPE_WRITE.

Definition set_res (x : Z) (r : vfs_async_req_t) : vfs_async_req_t :=
  Req (r_id r) (r_file r) (r_type r) (r_pid r) (r_vbuff r) (r_size r) (r_callback r) (r_fin_sema r)
    x (r_flags r).

Definition vfs_async_finalize (rq ret : Z) (s : sys) : outcome sys :=
  r ← deref (reqs (s_vfs s)) rq;
  let s := put_req rq (set_res ret r) s in
  s ← (if negb (r_callback r =? 0) then call (r_callback r) rq s else Ret s);
  r ← deref (reqs (s_vfs s)) rq;
  if negb (r_fin_sema r =? 0) then s_sema_up (r_fin_sema r) s else Ret s.

Definition vfs_fio_ctl (file vpid type number fdrel : Z) (s : sys) : outcome (Z * sys) :=
  f ← file_at file s;
  if f_inode f =? 0 then Ret (- EBADFD, s)
  else
    reg ← inode_reg (f_inode f) s;
    match fio_ctl reg with
    | None => Ret (- ENOSUP, s)
    | Some ctl =>
      if negb (fdrel =? 0) then ctl (f_inode f) type number file vpid s
      else ctl (f_inode f) type number 0 0 s
    end.

(** The mount points: each vnode with the characters of its mount path. *)
Fixpoint mounts_of (xs : list (Z * Z)) (s : sys) : outcome (list (Z * list Z)) :=
  match xs with
  | [] => Ret []
  | (_, v) :: xs =>
    vn ← deref (vnodes (s_vfs s)) v;
    path ← deref (s_bufs s) (abs_mount_path vn);
    ms ← mounts_of xs s;
    Ret ((v, path) :: ms)
  end.

Definition vnode_for (path : list Z) (s : sys) : outcome Z :=
  xs ← ls_nodes (s_store s) MOUNT_LIST;
  ms ← mounts_of xs s;
  Mount.vfs_vnode_for ms path.

Definition vfs_find_inode (path : list Z) (s : sys) : outcome (Z * sys) :=
  v ← vnode_for path s;
  if v =? 0 then Ret (0, s)
  else
    vn ← deref (vnodes (s_vfs s)) v;
    m ← deref (s_bufs s) (abs_mount_path vn);
    len ← strlen m 0;
    reg ← deref_reg (vn_reg vn);
    find_inode reg v (drop (Z.to_nat len) path) s.

(** [root_path] is the array [kmalloc(2)] that holds the name of the root. *)
Definition vfs_init (s : sys) : outcome sys :=
  let s := s_set_store (ls_init (s_store s) MOUNT_LIST) s in
  '(r, s) ← s_kmalloc sizeof_inode s;
  '(name, s) ← kmalloc_bytes 2 s;
  nb ← deref (s_bufs s) name;
  nb ← strcpy nb 0 [Mount.SLASH; 0] 0;
  let s := set_bufs (<[name := nb]> (s_bufs s)) s in
  let s := set_inodes (<[r := Inode name (uninit r 2) (uninit r 4) 0 INODE_TYPE_DIRECTORY]>
                         (inodes (s_vfs s))) s in
  Ret (set_root_inode r s).

Definition vfs_abs_path_alloc (inode : Z) (s : sys) : outcome (Z * sys) :=
  i ← deref (inodes (s_vfs s)) inode;
  if i_vnode i =? 0 then Ret (i_name i, s)
  else
    vn ← deref (vnodes (s_vfs s)) (i_vnode i);
    reg ← deref_reg (vn_reg vn);
    match get_abs reg with
    | None => Fault
    | Some get_abs =>
      inside ← get_abs inode s;
      pb ← deref (s_bufs s) inside;
      mb ← deref (s_bufs s) (abs_mount_path vn);
      pl ← strlen pb 0;
      ml ← strlen mb 0;
      '(res, s) ← kmalloc_bytes (pl + ml + 1) s;
      rb ← deref (s_bufs s) res;
      rb ← strcpy rb 0 mb 0;
      rb ← strcpy rb ml pb 0;
      Ret (res, set_bufs (<[res := rb]> (s_bufs s)) s)
    end.

Definition vfs_mount (reg mount : Z) (s : sys) : outcome (Z * sys) :=
  '(v, s) ← s_kmalloc sizeof_vnode s;
  '(path, s) ← vfs_abs_path_alloc mount s;
  let id := free_vid (s_vfs s) in
  let s := set_free_vid (u16 (id + 1)) s in
  let s := set_vnodes (<[v := Vnode id reg path mount]> (vnodes (s_vfs s))) s in
  st ← ls_append (s_store s) MOUNT_LIST v;
  Ret (v, s_set_store st s).

Definition vfs_get_root_inode (s : sys) : Z := root_inode (s_vfs s).

(** ** The contract of a driver

    [view] is what a driver works on: the byte buffers, the inodes and its own
    state.  A driver has an invariant over the lists [m] it keeps and the heap
    objects [own] that belong to it; [F] are the objects of everybody else,
    which a request must leave alone; [drv_pre] is what it asks of a request,
    for instance that the buffer is large enough.  A request is refused with a negative
    code, for a reason that [drv_refuses] gives, and then has no effect on the
    view, or it is served at once or while
    the caller sleeps: [drv_serves] says what serving does, and ends with one
    [semaphore_up] of the request's semaphore. *)

Definition view (s : sys) : gmap Z (list Z) * gmap Z inode * D := (s_bufs s, inodes (s_vfs s), s_dev s).

(** The state a driver may rely on is the same. *)
Record same_dev (s s' : sys) : Prop := {
  sd_view : view s' = view s;
  sd_globals l : l < 0 -> s_semas s' !! l = s_semas s !! l;
  sd_procs : k_procs (s_kernel s') = k_procs (s_kernel s);
  sd_vnodes : vnodes (s_vfs s') = vnodes (s_vfs s);
  sd_run : same_run (s_kernel s) (s_kernel s');
  sd_phys : v_phys (s_vm s') = v_phys (s_vm s);
}.

Class Driver (submit : Z -> sys -> outcome (Z * sys)) := {
  drv_inv : sys -> gmap Z (list (Z * Z)) -> gset Z -> Prop;
  drv_pre : vfs_async_req_t -> sys -> gmap Z (list (Z * Z)) -> gset Z -> Prop;
  drv_serves : vfs_async_req_t -> gset Z -> sys -> gmap Z (list (Z * Z)) -> Z ->
    sys -> gmap Z (list (Z * Z)) -> Prop;
  drv_refuses : vfs_async_req_t -> sys -> gmap Z (list (Z * Z)) -> Z -> Prop;
  drv_frame s s' m own : drv_inv s m own -> same_dev s s' -> drv_inv s' m own;
  drv_pre_frame r s s' m (F F' : gset Z) :
    drv_pre r s m F -> same_dev s s' -> F ⊆ F' -> drv_pre r s' m F';
  drv_refuses_frame r s s' m rc : drv_refuses r s m rc -> same_dev s' s -> drv_refuses r s' m rc;
  drv_serves_frame r (F F' : gset Z) s1 s1' m1 x s2 s2' m2 :
    drv_serves r F' s1 m1 x s2 m2 -> same_dev s1' s1 -> same_dev s2 s2' -> F ⊆ F' ->
    drv_serves r F s1' m1 x s2' m2;
  drv_ok s m own F rq r :
    drv_inv s m own -> drv_pre r s m F -> ls_rep (s_store s) m (own ∪ F) -> own ## F ->
    reqs (s_vfs s) !! rq = Some r -> rq ∈ F -> 0 < rq < 65536 ->
    r_fin_sema r ∈ F -> 0 < r_fin_sema r < 65536 -> s_semas s !! r_fin_sema r = Some 0 ->
    r_callback r = 0 -> r_type r = VFS_ASYNC_TYPE_READ \/ r_type r = VFS_ASYNC_TYPE_WRITE ->
    match submit rq s with
    | Ret (rc, s1) =>
        if rc <? 0 then
          exists m' own', drv_inv s1 m' own' /\ ls_rep (s_store s1) m' (own' ∪ F) /\ own' ## F /\
            view s1 = view s /\ drv_refuses r s m rc
        else
          match await (r_fin_sema r) s1 with
          | Ret s2 => exists m' own' r', drv_inv s2 m' own' /\ ls_rep (s_store s2) m' (own' ∪ F) /\
              own' ## F /\ s_semas s2 !! r_fin_sema r = Some 1 /\ reqs (s_vfs s2) !! rq = Some r' /\
              drv_serves r F s m (r_res r') s2 m'
          | Panic msg => msg = HEAP_FULL
          | _ => False
          end
    | Panic msg => msg = HEAP_FULL
    | _ => False
    end;
}.

#[local] Instance same_dev_trans : Transitive same_dev.
Proof.
  intros s1 s2 s3 [E1 G1 P1 V1 R1 H1] [E2 G2 P2 V2 R2 H2]. split; [congruence| |congruence..| |congruence]; [intros; by rewrite G2, G1|].
  unfold same_run in *. naive_solver congruence.
Qed.

Lemma same_dev_store st s : same_dev s (s_set_store st s).
Proof. by split. Qed.

Lemma same_dev_semas l x s : 0 <= l -> same_dev s (s_set_semas (<[l := x]> (s_semas s)) s).
Proof. intros. split; [done| |done..]. intros l' ?. apply lookup_insert_ne. lia. Qed.

Lemma same_dev_semas_delete l s : 0 <= l -> same_dev s (s_set_semas (delete l (s_semas s)) s).
Proof. intros. split; [done| |done..]. intros l' ?. apply lookup_delete_ne. lia. Qed.

Lemma finalize_ok rq x s r c :
  reqs (s_vfs s) !! rq = Some r -> r_callback r = 0 -> r_fin_sema r <> 0 ->
  s_semas s !! r_fin_sema r = Some c ->
  vfs_async_finalize rq x s =
    Ret (s_set_semas (<[r_fin_sema r := i16 (c + 1)]> (s_semas s)) (put_req rq (set_res x r) s)).
Proof.
  intros Hr Hcb Hl Hc. unfold vfs_async_finalize. rewrite (deref_Some _ _ _ Hr). cbn [mbind outcome_bind].
  rewrite Hcb. cbn [negb Z.eqb mbind outcome_bind].
  rewrite (deref_Some _ _ (set_res x r)) by apply lookup_insert_eq. cbn [mbind outcome_bind].
  rewrite eqb_ne by done. simpl negb. cbv iota.
  by apply (s_sema_up_ok (put_req rq (set_res x r) s)).
Qed.

(** The request and its semaphore are freed: what is left are the objects of
    the driver and of everybody else. *)
Lemma free_request s m own F rq lock :
  ls_rep (s_store s) m (own ∪ ({[rq]} ∪ ({[lock]} ∪ F))) -> own ## {[rq]} ∪ ({[lock]} ∪ F) ->
  rq <> lock -> rq ∉ F -> lock ∉ F -> 0 <= lock ->
  exists s' s1, kfree_req rq s = Ret s1 /\ kfree_sema lock s1 = Ret s' /\
    ls_rep (s_store s') m (own ∪ F) /\ same_dev s s'.
Proof.
  intros R Ho Hne Hrq Hl Hpos. unfold kfree_req, kfree_sema.
  destruct (s_kfree_ok _ _ _ rq R) as (st & E1 & R1); [set_solver|]. rewrite E1. cbn [mbind outcome_bind].
  set (s1 := set_reqs _ _).
  destruct (s_kfree_ok s1 m ((own ∪ ({[rq]} ∪ ({[lock]} ∪ F))) ∖ {[rq]}) lock R1) as (st2 & E2 & R2).
  { clear -Hne. set_solver. }
  eexists _, s1. split; [done|]. rewrite E2. cbn [mbind outcome_bind]. split; [done|]. split.
  - replace (own ∪ F) with ((own ∪ ({[rq]} ∪ ({[lock]} ∪ F))) ∖ {[rq]} ∖ {[lock]}); [exact R2|].
    clear -Ho Hne Hrq Hl. apply set_eq. set_solver.
  - transitivity (s_set_store st2 s1); [|by apply same_dev_semas_delete]. by split.
Qed.

Lemma request_blocking_ok type file pid buff size s f reg submit `{!Driver submit} m own F :
  file_at file s = Ret f -> f_inode f <> 0 -> inode_reg (f_inode f) s = Ret reg ->
  async_request reg = Some submit -> type = VFS_ASYNC_TYPE_READ \/ type = VFS_ASYNC_TYPE_WRITE ->
  (forall id lock old, drv_pre (Req id file type pid buff size 0 lock old (request_flags f)) s m F) ->
  drv_inv s m own -> ls_rep (s_store s) m (own ∪ F) -> own ## F ->
  match request_blocking type file pid buff size s with
  | Ret (x, s') => exists m' own', drv_inv s' m' own' /\ ls_rep (s_store s') m' (own' ∪ F) /\ own' ## F /\
      (exists id lock old, let r := Req id file type pid buff size 0 lock old (request_flags f) in
         (x < 0 /\ view s' = view s /\ drv_refuses r s m x) \/ drv_serves r F s m x s' m')
  | Panic msg => msg = HEAP_FULL
  | _ => False
  end.
Proof.
  intros Hf Hi Hreg Hsub Ht Hpre I R Ho. unfold request_blocking. rewrite Hf. cbn [mbind outcome_bind].
  rewrite eqb_ne by done. rewrite Hreg. cbn [mbind outcome_bind]. rewrite Hsub.
  pose proof (s_kmalloc_ok s m _ sizeof_semaphore R) as A1.
  destruct (s_kmalloc sizeof_semaphore s) as [[lock s1]| | | |]; try done. cbn [mbind outcome_bind].
  destruct A1 as (Hlock & Hlo & R1 & E1).
  pose proof (s_kmalloc_ok s1 m _ sizeof_req R1) as A2.
  destruct (s_kmalloc sizeof_req s1) as [[rq s2]| | | |]; try done. cbn [mbind outcome_bind].
  destruct A2 as (Hrq & Hrqo & R2 & E2).
  set (r := Req _ _ _ _ _ _ _ _ _ _). set (s3 := s_sema_init lock _).
  assert (S3 : same_dev s s3).
  { transitivity s1; [rewrite E1; apply same_dev_store|].
    transitivity s2; [rewrite E2; apply same_dev_store|].
    transitivity (put_req rq r (set_req_id (u16 (req_id (s_vfs s2) + 1)) s2)); [by split|].
    apply same_dev_semas. lia. }
  pose proof (drv_ok s3 m own ({[rq]} ∪ ({[lock]} ∪ F)) rq r) as Hok.
  assert (Hrep3 : ls_rep (s_store s3) m (own ∪ ({[rq]} ∪ ({[lock]} ∪ F)))).
  { replace (own ∪ ({[rq]} ∪ ({[lock]} ∪ F))) with ({[rq]} ∪ ({[lock]} ∪ (own ∪ F))); [exact R2|].
    clear. apply set_eq. set_solver. }
  assert (HF : F ⊆ {[rq]} ∪ ({[lock]} ∪ F)) by (clear; set_solver).
  specialize (Hok (drv_frame _ _ _ _ I S3) (drv_pre_frame _ _ _ _ _ _ (Hpre _ _ _) S3 HF) Hrep3).
  assert (Hd : own ## {[rq]} ∪ ({[lock]} ∪ F)) by (clear -Ho Hrqo Hlo; set_solver).
  specialize (Hok Hd (lookup_insert_eq _ _ _)).
  assert (Hrqs : rq ∈ {[rq]} ∪ ({[lock]} ∪ F)) by (clear; set_solver).
  assert (Hls : lock ∈ {[rq]} ∪ ({[lock]} ∪ F)) by (clear; set_solver).
  specialize (Hok Hrqs Hrq Hls Hlock (lookup_insert_eq _ _ _) eq_refl Ht).
  destruct (submit rq s3) as [[rc s4]| | | |]; try done. cbn [mbind outcome_bind].
  destruct (Z.ltb_spec rc 0).
  - destruct Hok as (m' & own' & I4 & R4 & Ho4 & V4 & Rf).
    destruct (free_request s4 m' own' F rq lock R4 Ho4) as (s6 & s5 & -> & E6 & R6 & S6);
      [clear -Hlo Hrqo; set_solver..|lia|]. cbn [mbind outcome_bind]. rewrite E6. cbn [mbind outcome_bind].
    exists m', own'. split_and!; [by eapply drv_frame|done|clear -Ho4; set_solver|].
    eexists _, _, _. left. split_and!; [done| |by eapply drv_refuses_frame].
    rewrite (sd_view _ _ S6), V4. apply S3.
  - change (r_fin_sema r) with lock in Hok.
    destruct (await lock s4) as [s5| | | |] eqn:Ea; try done.
    2: { unfold s_sema_down. by rewrite Ea. }
    destruct Hok as (m' & own' & r' & I5 & R5 & Ho5 & C5 & Q5 & V5).
    rewrite (s_sema_down_await _ _ _ _ Ea C5) by lia. cbn [mbind outcome_bind].
    set (s6 := s_set_semas _ _). rewrite (deref_Some _ _ r') by exact Q5. cbn [mbind outcome_bind].
    destruct (free_request s6 m' own' F rq lock R5 Ho5) as (s8 & s7 & -> & E8 & R8 & S8);
      [clear -Hlo Hrqo; set_solver..|lia|]. cbn [mbind outcome_bind]. rewrite E8. cbn [mbind outcome_bind].
    assert (S58 : same_dev s5 s8).
    { transitivity s6; [apply same_dev_semas; lia|done]. }
    exists m', own'. split_and!; [by eapply drv_frame|done|clear -Ho5; set_solver|].
    eexists _, _, _. right. eapply drv_serves_frame; [exact V5|exact S3|exact S58|exact HF].
Qed.

(** ** Properties *)

(** C19. The blocking calls of the virtual file system, against the contract of
    the driver: a descriptor that is not open gives EBADFD and a file system
    without requests ENOSUP, with nothing changed.  Otherwise, for a driver that
    keeps its contract ([Driver]), a request it accepts and a kernel heap that is
    well formed, the call ends in one of three ways: the driver has served exactly
    one request with the caller's arguments and the call returns its result; the
    driver has refused it and the call returns its negative code; or [kmalloc] has
    found the heap full and panicked, the only panic there is.  When the call
    returns, the request and its semaphore are freed again, and no other heap
    object is lost or touched. *)
Theorem vfs_blocking_spec type file pid buff size s f :
  file_at file s = Ret f -> type = VFS_ASYNC_TYPE_READ \/ type = VFS_ASYNC_TYPE_WRITE ->
  (f_inode f = 0 -> request_blocking type file pid buff size s = Ret (- EBADFD, s)) /\
  (forall reg, f_inode f <> 0 -> inode_reg (f_inode f) s = Ret reg ->
     match async_request reg with
     | None => request_blocking type file pid buff size s = Ret (- ENOSUP, s)
     | Some submit => forall (drv : Driver submit) m own F,
         (forall id lock old,
            drv_pre (Req id file type pid buff size 0 lock old (request_flags f)) s m F) ->
         drv_inv s m own -> ls_rep (s_store s) m (own ∪ F) -> own ## F ->
         match request_blocking type file pid buff size s with
         | Ret (x, s') => exists m' own', drv_inv s' m' own' /\
             ls_rep (s_store s') m' (own' ∪ F) /\ own' ## F /\
             (exists id lock old, let r := Req id file type pid buff size 0 lock old (request_flags f) in
                (x < 0 /\ view s' = view s /\ drv_refuses r s m x) \/ drv_serves r F s m x s' m')
         | Panic msg => msg = HEAP_FULL
         | _ => False
         end
     end).
Proof.
  intros Hf Ht. split.
  - intros Hi. unfold request_blocking. rewrite Hf. cbn [mbind outcome_bind]. by rewrite Hi.
  - intros reg Hi Hreg. destruct (async_request reg) as [submit|] eqn:E.
    + intros drv m own F. intros. by apply (request_blocking_ok _ _ _ _ _ _ _ reg submit m own F).
    + unfold request_blocking. rewrite Hf. cbn [mbind outcome_bind]. rewrite eqb_ne by done.
      rewrite Hreg. cbn [mbind outcome_bind]. by rewrite E.
Qed.
End Request.
