(* ===== verification/Tmpfs.v ===== *)
(** * The temporary file system (kernel/fs/tmp.c)

    Up to 64 files in kernel memory, each one allocation that a longer write
    replaces.  The driver serves a request at once, under its lock, and
    implements the contract of Request.v. *)

From S2P Require Import Prelude Interfaces Kmalloc KList Proc Sync CString Kernel Sched Virtual Vfs Sys Request.

Definition TMP_FILES : Z := -4.      (** [static struct list files] *)
Definition TMP_LOCK : Z := -5.       (** [static struct semaphore lock] *)
Definition MAX_FILES : Z := 64.

(** [fid] and [alloc_fid]. *)
Record tmp_state := TmpState { fid : Z; alloc_fid : list Z }.

Section Tmpfs.
Context {St : Type} `{ListStore St} {junk : Uninit} {others : Others St tmp_state} {sign : CharSign}.
Abbreviation sys := (sys St tmp_state).
Context {regs : @VfsRegs St tmp_state} {callbacks : @Callbacks St tmp_state}.

(** ** The code *)

Fixpoint find_file (xs : list (Z * Z)) (path : list Z) (s : sys) : outcome Z :=
  match xs with
  | [] => Ret 0
  | (_, v) :: xs =>
    i ← deref (inodes (s_vfs s)) v;
    name ← deref (s_bufs s) (i_name i);
    c ← strcmp name 0 path 0;
    if c =? 0 then Ret v else find_file xs path s
  end.

Definition set_alloc (i p : Z) (s : sys) : outcome sys :=
  a ← arr_set (alloc_fid (s_dev s)) i p;
  Ret (set_dev (TmpState (fid (s_dev s)) a) s).

Definition create_file (path : list Z) (s : sys) : outcome (Z * sys) :=
  '(res, s) ← s_kmalloc sizeof_inode s;
  let f := fid (s_dev s) in
  let s := set_dev (TmpState (u16 (f + 1)) (alloc_fid (s_dev s))) s in
  len ← strlen path 0;
  '(name, s) ← kmalloc_bytes (len + 1) s;
  nb ← deref (s_bufs s) name;
  nb ← strcpy nb 0 path 0;
  let s := set_bufs (<[name := nb]> (s_bufs s)) s in
  let s := set_inodes (<[res := Inode name f 0 (uninit res 6) INODE_TYPE_FILE]> (inodes (s_vfs s))) s in
  s ← set_alloc f 0 s;
  st ← ls_append (s_store s) TMP_FILES res;
  Ret (res, s_set_store st s).

Definition tmp_find_inode (self : Z) (path : list Z) (s : sys) : outcome (Z * sys) :=
  xs ← ls_nodes (s_store s) TMP_FILES;
  res ← find_file xs path s;
  '(res, s) ← (if res =? 0 then
                 if MAX_FILES <=? fid (s_dev s) then Ret (0, s) else create_file path s
               else Ret (res, s));
  if res =? 0 then Ret (res, s)
  else
    i ← deref (inodes (s_vfs s)) res;
    Ret (res, set_inodes (<[res := Inode (i_name i) (i_fid i) (i_size i) self (i_type i)]>
                            (inodes (s_vfs s))) s).

(** The file that grows gets a new block. *)
Definition extend_file (v : Z) (i : inode) (size : Z) (s : sys) : outcome sys :=
  d ← arr_get (alloc_fid (s_dev s)) (i_fid i);
  s ← (if negb (d =? 0) then kfree_bytes d s else Ret s);
  '(new, s) ← kmalloc_bytes size s;
  s ← set_alloc (i_fid i) new s;
  Ret (set_inodes (<[v := Inode (i_name i) (i_fid i) size (i_vnode i) (i_type i)]> (inodes (s_vfs s))) s).

Definition tmp_write (rq : Z) (s : sys) : outcome (Z * sys) :=
  r ← deref (reqs (s_vfs s)) rq;
  f ← file_at (r_file r) s;
  i ← deref (inodes (s_vfs s)) (f_inode f);
  s ← (if i_size i <? r_size r then extend_file (f_inode f) i (r_size r) s else Ret s);
  d ← arr_get (alloc_fid (s_dev s)) (i_fid i);
  s ← s_memcpy d (r_vbuff r) (r_size r) s;
  Ret (i16 (r_size r), s).

Definition tmp_read (rq : Z) (s : sys) : outcome (Z * sys) :=
  r ← deref (reqs (s_vfs s)) rq;
  f ← file_at (r_file r) s;
  i ← deref (inodes (s_vfs s)) (f_inode f);
  d ← arr_get (alloc_fid (s_dev s)) (i_fid i);
  let size := Z.min (r_size r) (i_size i) in
  s ← s_memcpy (r_vbuff r) d size s;
  Ret (i16 size, s).

Definition tmp_submit_req (rq : Z) (s : sys) : outcome (Z * sys) :=
  s ← s_sema_down TMP_LOCK s;
  r ← deref (reqs (s_vfs s)) rq;
  if r_type r =? VFS_ASYNC_TYPE_READ then
    '(x, s) ← tmp_read rq s;
    s ← vfs_async_finalize rq x s;
    s ← s_sema_up TMP_LOCK s;
    Ret (0, s)
  else if r_type r =? VFS_ASYNC_TYPE_WRITE then
    '(x, s) ← tmp_write rq s;
    s ← vfs_async_finalize rq x s;
    s ← s_sema_up TMP_LOCK s;
    Ret (0, s)
  else Ret (- ENOSUP, s).

Definition tmp_init (s : sys) : outcome sys :=
  s ← s_sema_up TMP_LOCK (s_sema_init TMP_LOCK s);
  Ret (s_set_store (ls_init (s_store s) TMP_FILES) s).

Definition tmp_reg : @vfs_reg St tmp_state :=
  VfsReg 1 0 tmp_find_inode None (Some tmp_submit_req) None.

(** ** The invariant

    Every file of the list has its name and its block among the objects of the
    driver; the block is as long as the size of the file, and there is none
    exactly when the file is empty.  No block is shared. *)

Record tmp_file (ino : gmap Z inode) (bufs : gmap Z (list Z)) (t : tmp_state) (own : gset Z)
    (v : Z) (i : inode) : Prop := {
  tf_inode : ino !! v = Some i;
  tf_fid : 0 <= i_fid i < fid t;
  tf_size : is_u16 (i_size i);
  tf_name : i_name i ∈ own /\ (i_name i ∉ alloc_fid t) /\ exists nb str, bufs !! i_name i = Some nb /\ cstr nb 0 str;
  tf_data : exists d, alloc_fid t !! Z.to_nat (i_fid i) = Some d /\
    (d = 0 /\ i_size i = 0 \/ d <> 0 /\ d ∈ own /\ exists b, bufs !! d = Some b /\ zlen b = i_size i);
}.

Record tmp_ok (ino : gmap Z inode) (bufs : gmap Z (list Z)) (t : tmp_state)
    (m : gmap Z (list (Z * Z))) (own : gset Z) : Prop := {
  tok_files : exists xs, m !! TMP_FILES = Some xs /\
    (forall v, v ∈ xs.*2 -> exists i, tmp_file ino bufs t own v i);
  tok_fids v w i j : ino !! v = Some i -> ino !! w = Some j ->
    (exists xs, m !! TMP_FILES = Some xs /\ v ∈ xs.*2 /\ w ∈ xs.*2) -> i_fid i = i_fid j -> v = w;
  tok_alloc : length (alloc_fid t) = 64%nat;
  tok_fid : 0 <= fid t <= 64;
  tok_own (a : nat) d : alloc_fid t !! a = Some d -> d = 0 \/ d ∈ own;
  tok_inj (a b : nat) d : alloc_fid t !! a = Some d -> alloc_fid t !! b = Some d -> d <> 0 -> a = b;
}.

Definition is_file (m : gmap Z (list (Z * Z))) (v : Z) : Prop :=
  exists xs, m !! TMP_FILES = Some xs /\ v ∈ xs.*2.

(** The bytes of a file. *)
Definition content (ino : gmap Z inode) (bufs : gmap Z (list Z)) (t : tmp_state) (v : Z) : option (list Z) :=
  i ← ino !! v;
  d ← alloc_fid t !! Z.to_nat (i_fid i);
  if d =? 0 then Some [] else bufs !! d.

Definition overwrite (data c : list Z) : list Z := data ++ drop (length data) c.

Lemma tmp_file_of ino bufs t m own v :
  tmp_ok ino bufs t m own -> is_file m v -> exists i, tmp_file ino bufs t own v i.
Proof. intros T (xs & Hxs & Hv). destruct (tok_files _ _ _ _ _ T) as (ys & Hys & Hf). naive_solver. Qed.

Lemma content_file ino bufs t own v i :
  tmp_file ino bufs t own v i -> exists c, content ino bufs t v = Some c /\ zlen c = i_size i.
Proof.
  intros [Hi _ _ _ (d & Hd & Hb)]. unfold content. rewrite Hi. simpl. rewrite Hd. simpl.
  destruct Hb as [[-> E]|(Hne & _ & b & Hb & El)]; [by exists []|]. rewrite eqb_ne by done. eauto.
Qed.

(** Only the buffers of the driver matter. *)
Lemma tmp_ok_agree ino bufs bufs' t m own :
  tmp_ok ino bufs t m own -> (forall x, x ∈ own -> bufs' !! x = bufs !! x) ->
  tmp_ok ino bufs' t m own /\ (forall w, content ino bufs' t w = content ino bufs t w).
Proof.
  intros T Hk. split.
  - destruct T as [(xs & Hxs & Hf) Hfi Ha Hfid Hown Hinj]. split; try done. exists xs. split; [done|].
    intros w Hw. destruct (Hf w Hw) as (j & []). exists j. split; try done.
    + destruct tf_name0 as (Ho & Hn & nb & str & ? & ?). split_and!; [done..|]. exists nb, str. by rewrite Hk.
    + destruct tf_data0 as (d & Hd & [?|(? & ? & b & ? & ?)]); exists d; (split; [done|]); [by left|right].
      split_and!; [done..|]. exists b. by rewrite Hk.
  - intros w. unfold content. destruct (ino !! w) as [j|]; [|done]. simpl.
    destruct (alloc_fid t !! Z.to_nat (i_fid j)) as [d|] eqn:Hd; [|done]. simpl.
    destruct (Z.eqb_spec d 0); [done|]. destruct (tok_own _ _ _ _ _ T _ _ Hd); [done|]. by apply Hk.
Qed.

(** The block of one file is filled again, with bytes as many as before. *)
Lemma tmp_ok_rewrite ino bufs t m own v i d b b' :
  tmp_ok ino bufs t m own -> is_file m v -> tmp_file ino bufs t own v i ->
  alloc_fid t !! Z.to_nat (i_fid i) = Some d -> d <> 0 -> bufs !! d = Some b -> length b' = length b ->
  tmp_ok ino (<[d := b']> bufs) t m own /\ content ino (<[d := b']> bufs) t v = Some b' /\
  (forall w j, ino !! w = Some j -> Z.to_nat (i_fid j) <> Z.to_nat (i_fid i) ->
     content ino (<[d := b']> bufs) t w = content ino bufs t w).
Proof.
  intros T Hv Fv Hd Hne Hb Hl.
  assert (Hda : d ∈ alloc_fid t) by (by eapply list_elem_of_lookup_2).
  split_and!.
  - destruct T as [(xs & Hxs & Hf) Hfi Ha Hfid Hown Hinj]. split; try done. exists xs. split; [done|].
    intros w Hw. destruct (Hf w Hw) as (j & Hj). exists j. destruct Hj as [Hj1 Hj2 Hj3 Hj4 Hj5]. split; try done.
    + destruct Hj4 as (? & Hn & nb & str & ? & ?). split_and!; [done..|]. exists nb, str.
      rewrite lookup_insert_ne; [done|]. intros ->. done.
    + destruct Hj5 as (d' & Hd' & Hc). exists d'. split; [done|].
      destruct Hc as [|(Hne' & Ho & b'' & Hb'' & El)]; [by left|right]. split_and!; [done..|].
      destruct (decide (d = d')) as [<-|]; [|rewrite lookup_insert_ne by done; eauto].
      rewrite lookup_insert_eq. exists b'. split; [done|]. rewrite Hl. naive_solver.
  - unfold content. rewrite (tf_inode _ _ _ _ _ _ Fv). simpl. rewrite Hd. simpl.
    rewrite eqb_ne by done. apply lookup_insert_eq.
  - intros w j Hw Hne'. unfold content. rewrite Hw. simpl.
    destruct (alloc_fid t !! Z.to_nat (i_fid j)) as [d'|] eqn:Hd'; [|done]. simpl.
    destruct (Z.eqb_spec d' 0); [done|]. rewrite lookup_insert_ne; [done|]. intros <-.
    by eapply Hne', (tok_inj _ _ _ _ _ T).
Qed.

(** The block of one file is replaced by a new one at [p], which may reuse the
    address of the old one [d]. *)
Section Grow.
Context (ino : gmap Z inode) (bufs bufs' : gmap Z (list Z)) (t : tmp_state)
  (m : gmap Z (list (Z * Z))) (own own' : gset Z) (v : Z) (i : inode) (d p : Z) (data : list Z).
Hypothesis (T : tmp_ok ino bufs t m own) (Hv : is_file m v) (Fv : tmp_file ino bufs t own v i)
  (Hd : alloc_fid t !! Z.to_nat (i_fid i) = Some d) (Hp : p <> 0) (Hfresh : p ∈ own -> p = d)
  (Hdata : bufs' !! p = Some data) (Hkeep : forall x, x ∈ own -> x <> d -> bufs' !! x = bufs !! x)
  (Hown : forall x, x ∈ own -> x <> d -> x ∈ own') (Hpo : p ∈ own') (Hlen : is_u16 (zlen data)).

Definition grown_inode : inode := Inode (i_name i) (i_fid i) (zlen data) (i_vnode i) (i_type i).
Definition grown_state : tmp_state := TmpState (fid t) (<[Z.to_nat (i_fid i) := p]> (alloc_fid t)).

Lemma grow_index : (Z.to_nat (i_fid i) < length (alloc_fid t))%nat.
Proof. by eapply lookup_lt_Some. Qed.

(** Another entry of the table is not the freed block, nor the new one. *)
Lemma grow_other (a : nat) x :
  alloc_fid t !! a = Some x -> a <> Z.to_nat (i_fid i) -> x <> 0 -> x ∈ own /\ x <> d /\ x <> p.
Proof.
  intros Hx Ha Hx0. destruct (tok_own _ _ _ _ _ T _ _ Hx) as [|Ho]; [done|].
  assert (x <> d) by (intros ->; by eapply Ha, (tok_inj _ _ _ _ _ T)). naive_solver.
Qed.

Lemma grow_name w j : tmp_file ino bufs t own w j ->
  i_name j ∈ own' /\ (i_name j ∉ alloc_fid grown_state) /\
  exists nb str, bufs' !! i_name j = Some nb /\ cstr nb 0 str.
Proof.
  intros Fw. destruct (tf_name _ _ _ _ _ _ Fw) as (Ho & Hn & nb & str & Hb & Hc).
  assert (Hnd : i_name j <> d).
  { intros E. apply Hn. rewrite E. by eapply list_elem_of_lookup_2. }
  split_and!; [by apply Hown| |exists nb, str; by rewrite Hkeep].
  simpl. intros (a & Ha)%list_elem_of_lookup.
  destruct (decide (a = Z.to_nat (i_fid i))) as [->|].
  - rewrite list_lookup_insert_eq in Ha by apply grow_index. naive_solver.
  - rewrite list_lookup_insert_ne in Ha by done. apply Hn. by eapply list_elem_of_lookup_2.
Qed.

Lemma grow_fid w j : is_file m w -> tmp_file ino bufs t own w j -> w <> v -> Z.to_nat (i_fid j) <> Z.to_nat (i_fid i).
Proof.
  intros (xs & Hxs & Hw) Fw Hne E. destruct Hv as (ys & Hys & Hv'). simplify_eq. apply Hne.
  eapply (tok_fids _ _ _ _ _ T w v j i); [apply Fw|apply Fv|eauto|].
  pose proof (tf_fid _ _ _ _ _ _ Fw). pose proof (tf_fid _ _ _ _ _ _ Fv). lia.
Qed.

Lemma grow_file w : is_file m w ->
  exists j, tmp_file (<[v := grown_inode]> ino) bufs' grown_state own' w j.
Proof.
  intros Hw. destruct (decide (w = v)) as [->|Hne].
  - exists grown_inode. pose proof (grow_name v i Fv) as Hn. split; simpl; try done.
    + apply lookup_insert_eq.
    + apply Fv.
    + exists p. rewrite list_lookup_insert_eq by apply grow_index. split; [done|]. right. eauto.
  - destruct (tmp_file_of _ _ _ _ _ _ T Hw) as (j & Fw). exists j.
    pose proof (grow_name w j Fw) as Hn. pose proof (grow_fid w j Hw Fw Hne) as Hf.
    destruct Fw as [Hj1 Hj2 Hj3 _ (d' & Hd' & Hc)]. split; simpl; try done.
    + by rewrite lookup_insert_ne.
    + exists d'. rewrite list_lookup_insert_ne by done. split; [done|].
      destruct Hc as [|(Hne' & Ho & b & Hb & El)]; [by left|right].
      destruct (grow_other _ _ Hd' Hf Hne') as (_ & Hdd & _).
      split_and!; [done|by apply Hown|]. exists b. by rewrite Hkeep.
Qed.

Lemma tmp_ok_grow : tmp_ok (<[v := grown_inode]> ino) bufs' grown_state m own' /\
  content (<[v := grown_inode]> ino) bufs' grown_state v = Some data /\
  (forall w j, ino !! w = Some j -> Z.to_nat (i_fid j) <> Z.to_nat (i_fid i) ->
     content (<[v := grown_inode]> ino) bufs' grown_state w = content ino bufs t w).
Proof.
  pose proof grow_index as Hidx. split_and!.
  - split.
    + destruct (tok_files _ _ _ _ _ T) as (xs & Hxs & _). exists xs. split; [done|].
      intros w Hw. apply grow_file. by exists xs.
    + intros w1 w2 j1 j2 H1 H2 Hf E.
      assert (Hinv : forall w j, (<[v := grown_inode]> ino) !! w = Some j ->
                exists j', ino !! w = Some j' /\ i_fid j' = i_fid j).
      { intros w j Hj. destruct (decide (w = v)) as [->|];
          [rewrite lookup_insert_eq in Hj; simplify_eq; exists i; split; [apply Fv|done]
          |rewrite lookup_insert_ne in Hj by done; eauto]. }
      destruct (Hinv _ _ H1) as (j1' & G1 & E1), (Hinv _ _ H2) as (j2' & G2 & E2).
      eapply (tok_fids _ _ _ _ _ T); eauto. lia.
    + simpl. rewrite length_insert. apply T.
    + apply T.
    + simpl. intros a x Ha. destruct (decide (a = Z.to_nat (i_fid i))) as [->|Hai].
      * rewrite list_lookup_insert_eq in Ha by done. simplify_eq. by right.
      * rewrite list_lookup_insert_ne in Ha by done. destruct (decide (x = 0)); [by left|right].
        destruct (grow_other _ _ Ha Hai) as (? & ? & ?); [done|]. by apply Hown.
    + simpl. intros a b x [(<- & <- & _)|[Hai Ha]]%list_lookup_insert_Some
        [(<- & E & _)|[Hbi Hb]]%list_lookup_insert_Some Hx; [done|..].
      * destruct (grow_other _ _ Hb) as (_ & _ & ?); done.
      * subst x. destruct (grow_other _ _ Ha) as (_ & _ & ?); done.
      * by eapply (tok_inj _ _ _ _ _ T).
  - unfold content. rewrite lookup_insert_eq. simpl. rewrite list_lookup_insert_eq by done. simpl.
    by rewrite eqb_ne.
  - intros w j Hw Hne. unfold content. rewrite lookup_insert_ne.
    2: { intros <-. rewrite (tf_inode _ _ _ _ _ _ Fv) in Hw. by simplify_eq. }
    rewrite Hw. simpl. rewrite list_lookup_insert_ne by done.
    destruct (alloc_fid t !! Z.to_nat (i_fid j)) as [d'|] eqn:Hd'; [|done]. simpl.
    destruct (Z.eqb_spec d' 0); [done|]. apply Hkeep; by destruct (grow_other _ _ Hd' Hne) as (? & ? & ?).
Qed.
End Grow.

(** ** The operations *)

Definition files_ok (s : sys) (m : gmap Z (list (Z * Z))) (own : gset Z) : Prop :=
  tmp_ok (inodes (s_vfs s)) (s_bufs s) (s_dev s) m own.

Definition file_content (s : sys) (v : Z) : option (list Z) :=
  content (inodes (s_vfs s)) (s_bufs s) (s_dev s) v.

(** What an operation of the driver does not change. *)
Record same_rest (s s' : sys) : Prop := {
  sr_semas : s_semas s' = s_semas s;
  sr_reqs : reqs (s_vfs s') = reqs (s_vfs s);
  sr_procs : k_procs (s_kernel s') = k_procs (s_kernel s);
  sr_vnodes : vnodes (s_vfs s') = vnodes (s_vfs s);
}.

(** Serving a request on the file [v] changes no buffer of others but the one
    of the request, at [vb], and leaves the file in its file system. *)
Record framed (v vb : Z) (F : gset Z) (s s' : sys) : Prop := {
  fr_bufs p : p ∈ F -> p <> vb -> s_bufs s' !! p = s_bufs s !! p;
  fr_vnode i : inodes (s_vfs s) !! v = Some i ->
    exists i', inodes (s_vfs s') !! v = Some i' /\ i_vnode i' = i_vnode i;
}.

(** The other files are as before. *)
Definition same_others (i : inode) (s s' : sys) : Prop :=
  forall w j, inodes (s_vfs s) !! w = Some j -> Z.to_nat (i_fid j) <> Z.to_nat (i_fid i) ->
    file_content s' w = file_content s w.

Lemma length_fresh_bytes p n : is_u16 n -> zlen (fresh_bytes p n) = n.
Proof.
  intros Hn. unfold fresh_bytes. rewrite length_fmap, length_seqZ, u16_small by done. lia.
Qed.

Lemma alloc_get s m own v i :
  files_ok s m own -> is_file m v -> tmp_file (inodes (s_vfs s)) (s_bufs s) (s_dev s) own v i ->
  exists d, arr_get (alloc_fid (s_dev s)) (i_fid i) = Ret d /\
    alloc_fid (s_dev s) !! Z.to_nat (i_fid i) = Some d /\
    (d = 0 /\ i_size i = 0 \/
     d <> 0 /\ d ∈ own /\ exists b, s_bufs s !! d = Some b /\ zlen b = i_size i).
Proof.
  intros T Hv Fv. destruct (tf_data _ _ _ _ _ _ Fv) as (d & Hd & Hc). exists d.
  split; [|done]. apply arr_get_Ret. split; [apply Fv|done].
Qed.

(** The old block goes, if there is one. *)
Lemma free_old_block s m own F d :
  ls_rep (s_store s) m (own ∪ F) -> own ## F -> (d = 0 \/ d ∈ own) ->
  exists s' own0, (if negb (d =? 0) then kfree_bytes d s else Ret s) = Ret s' /\
    ls_rep (s_store s') m (own0 ∪ F) /\ own0 ⊆ own /\
    (forall x, x ∈ own -> x <> d -> x ∈ own0) /\
    (forall x, x <> d \/ d = 0 -> s_bufs s' !! x = s_bufs s !! x) /\ (d <> 0 -> d ∉ own0) /\
    inodes (s_vfs s') = inodes (s_vfs s) /\ s_dev s' = s_dev s /\ same_rest s s'.
Proof.
  intros R Ho Hd. destruct (Z.eqb_spec d 0) as [->|Hne]; simpl.
  - exists s, own. split_and!; try done.
  - destruct Hd as [|Hd]; [done|]. unfold kfree_bytes.
    destruct (s_kfree_ok _ _ _ d R) as (st & -> & R'); [set_solver|]. cbn [mbind outcome_bind].
    eexists _, (own ∖ {[d]}). split; [done|]. split_and!; try done.
    + replace (own ∖ {[d]} ∪ F) with ((own ∪ F) ∖ {[d]}); [exact R'|]. apply set_eq. set_solver.
    + set_solver.
    + set_solver.
    + intros x Hx. simpl. rewrite lookup_delete_ne; [done|naive_solver].
    + set_solver.
Qed.

Lemma extend_file_ok s m own F v i size :
  files_ok s m own -> ls_rep (s_store s) m (own ∪ F) -> own ## F -> is_file m v ->
  tmp_file (inodes (s_vfs s)) (s_bufs s) (s_dev s) own v i -> is_u16 size ->
  match extend_file v i size s with
  | Ret s' => exists own' p b, files_ok s' m own' /\ ls_rep (s_store s') m (own' ∪ F) /\ own' ## F /\
      arr_get (alloc_fid (s_dev s')) (i_fid i) = Ret p /\ p <> 0 /\ p ∈ own' /\ s_bufs s' !! p = Some b /\
      tmp_file (inodes (s_vfs s')) (s_bufs s') (s_dev s') own' v
        (Inode (i_name i) (i_fid i) size (i_vnode i) (i_type i)) /\
      zlen b = size /\ (forall x, x ∈ F -> s_bufs s' !! x = s_bufs s !! x) /\
      (forall w, w <> v -> inodes (s_vfs s') !! w = inodes (s_vfs s) !! w) /\
      same_others i s s' /\ same_rest s s'
  | Panic msg => msg = HEAP_FULL
  | _ => False
  end.
Proof.
  intros T R Ho Hv Fv Hsz. unfold extend_file.
  destruct (alloc_get _ _ _ _ _ T Hv Fv) as (d & Hg & Hd & Hc). rewrite Hg. cbn [mbind outcome_bind].
  assert (Hdo : d = 0 \/ d ∈ own) by (destruct Hc as [[? _]|(_ & ? & _)]; auto).
  destruct (free_old_block s m own F d R Ho Hdo) as
    (s1 & own0 & -> & R1 & Hsub & Hk & Hb1 & Hd0 & Ei1 & Ed1 & S1).
  cbn [mbind outcome_bind]. unfold kmalloc_bytes.
  pose proof (s_kmalloc_ok s1 m _ size R1) as A.
  destruct (s_kmalloc size s1) as [[p s2]| | | |]; try done. cbn [mbind outcome_bind].
  destruct A as (Hp & Hpo & R2 & ->). unfold set_alloc. cbn [s_dev set_bufs s_set_store set_kernel set_vm].
  assert (Hfid : (Z.to_nat (i_fid i) < length (alloc_fid (s_dev s)))%nat) by (by eapply lookup_lt_Some).
  pose proof (tf_fid _ _ _ _ _ _ Fv) as Hfr.
  rewrite Ed1. rewrite arr_set_in by lia. cbn [mbind outcome_bind].
  set (b := fresh_bytes p size). pose proof (length_fresh_bytes p size Hsz) as Hlb. fold b in Hlb.
  assert (Hpd : p ∈ own -> p = d).
  { intros Hin. destruct (decide (p = d)); [done|]. exfalso. apply Hpo.
    apply elem_of_union. left. by apply Hk. }
  destruct (tmp_ok_grow (inodes (s_vfs s)) (s_bufs s) (<[p := b]> (s_bufs s1)) (s_dev s) m own ({[p]} ∪ own0)
              v i d p b T Hv Fv Hd) as (T' & _ & Hoth); [lia|exact Hpd|apply lookup_insert_eq|..].
  { intros x Hx Hxd. rewrite lookup_insert_ne; [apply Hb1; auto|]. intros <-. auto. }
  { intros x Hx Hxd. apply elem_of_union_r. auto. }
  { apply elem_of_union_l, elem_of_singleton_2, eq_refl. }
  { lia. }
  destruct (tmp_file_of _ _ _ _ _ _ T' Hv) as (j & Fj).
  pose proof (tf_inode _ _ _ _ _ _ Fj) as Ej. rewrite lookup_insert_eq in Ej. injection Ej as <-.
  unfold grown_inode in T', Hoth, Fj. rewrite Hlb in T', Hoth, Fj.
  exists ({[p]} ∪ own0), p, b. unfold files_ok, same_others, file_content.
  cbn [inodes s_vfs s_bufs s_dev set_inodes set_dev set_bufs set_vfs s_set_store set_kernel set_vm alloc_fid].
  rewrite Ei1. split_and!; try done.
  - by rewrite <-(assoc_L (∪)).
  - clear -Ho Hsub Hpo. set_solver.
  - apply arr_get_Ret. split; [lia|]. by apply list_lookup_insert_eq.
  - lia.
  - apply elem_of_union_l, elem_of_singleton_2, eq_refl.
  - apply lookup_insert_eq.
  - intros x Hx. rewrite lookup_insert_ne by (clear -Hpo Hx; set_solver). apply Hb1.
    destruct Hdo as [?|Hdo]; [by right|left]. clear -Ho Hx Hdo. set_solver.
  - intros w Hw. by rewrite lookup_insert_ne.
  - split; simpl; apply S1.
Qed.

(** What a request must bring: an open file of this file system and a buffer of
    the caller that is large enough. *)
Record tmp_pre (r : vfs_async_req_t) (s : sys) (m : gmap Z (list (Z * Z))) (F : gset Z)
    (f : proc_file) (b : list Z) : Prop := {
  tp_file : file_at (r_file r) s = Ret f;
  tp_inode : is_file m (f_inode f);
  tp_mine : r_vbuff r ∈ F;
  tp_buff : s_bufs s !! r_vbuff r = Some b;
  tp_size : is_u16 (r_size r) /\ r_size r <= zlen b;
}.

(** The file as a value: a write replaces its first bytes and extends it, a
    read copies its first bytes. *)
Definition served (r : vfs_async_req_t) (v : Z) (b c : list Z) (x : Z) (s' : sys) : Prop :=
  if r_type r =? VFS_ASYNC_TYPE_WRITE then
    x = i16 (r_size r) /\ s_bufs s' !! r_vbuff r = Some b /\
    file_content s' v = Some (overwrite (take (Z.to_nat (r_size r)) b) c)
  else
    x = i16 (Z.min (r_size r) (zlen c)) /\ file_content s' v = Some c /\
    s_bufs s' !! r_vbuff r = Some (splice b 0 (take (Z.to_nat (r_size r)) c)).

Lemma overwrite_whole data c : (length c <= length data)%nat -> overwrite data c = data.
Proof. intros. unfold overwrite. by rewrite drop_ge, app_nil_r. Qed.

(** The copy into the block of a file whose size already fits. *)
Lemma write_block s m own v i p b db data n :
  files_ok s m own -> is_file m v -> tmp_file (inodes (s_vfs s)) (s_bufs s) (s_dev s) own v i ->
  alloc_fid (s_dev s) !! Z.to_nat (i_fid i) = Some p -> p <> 0 -> s_bufs s !! p = Some db ->
  s_bufs s !! b = Some data -> 0 <= n -> n <= zlen db -> n <= zlen data ->
  exists s', s_memcpy p b n s = Ret s' /\ files_ok s' m own /\ same_others i s s' /\ same_rest s s' /\
    s_store s' = s_store s /\ file_content s' v = Some (overwrite (take (Z.to_nat n) data) db) /\
    (forall x, x <> p -> s_bufs s' !! x = s_bufs s !! x) /\ inodes (s_vfs s') = inodes (s_vfs s).
Proof.
  intros T Hv Fv Hd Hne Hdb Hdata Hn Hl1 Hl2.
  rewrite (s_memcpy_ok _ _ _ _ _ _ Hdb Hdata Hn Hl1 Hl2). eexists. split; [done|].
  destruct (tmp_ok_rewrite _ _ _ _ _ _ _ _ _ (splice db 0 (take (Z.to_nat n) data)) T Hv Fv Hd Hne Hdb)
    as (T' & Hc & Hoth).
  { apply length_splice; [done|]. rewrite length_take. lia. }
  split_and!; try done.
  intros x Hx. simpl. by rewrite lookup_insert_ne.
Qed.

Lemma tmp_write_ok s m own F rq r f b :
  files_ok s m own -> ls_rep (s_store s) m (own ∪ F) -> own ## F ->
  reqs (s_vfs s) !! rq = Some r -> r_type r = VFS_ASYNC_TYPE_WRITE -> tmp_pre r s m F f b ->
  match tmp_write rq s with
  | Ret (x, s') => exists own' i c, files_ok s' m own' /\ ls_rep (s_store s') m (own' ∪ F) /\ own' ## F /\
      inodes (s_vfs s) !! f_inode f = Some i /\ file_content s (f_inode f) = Some c /\
      served r (f_inode f) b c x s' /\ same_others i s s' /\ same_rest s s' /\
      framed (f_inode f) (r_vbuff r) F s s'
  | Panic msg => msg = HEAP_FULL
  | _ => False
  end.
Proof.
  intros T R Ho Hr Ht [Hf Hv Hm Hb [Hu Hsz]]. unfold tmp_write.
  rewrite (deref_Some _ _ _ Hr). cbn [mbind outcome_bind]. rewrite Hf. cbn [mbind outcome_bind].
  destruct (tmp_file_of _ _ _ _ _ _ T Hv) as (i & Fi). pose proof (tf_inode _ _ _ _ _ _ Fi) as Hi.
  rewrite (deref_Some _ _ _ Hi). cbn [mbind outcome_bind].
  destruct (content_file _ _ _ _ _ _ Fi) as (c & Hc & Hcl). unfold served. rewrite Ht. simpl Z.eqb.
  destruct (Z.ltb_spec (i_size i) (r_size r)) as [Hlt|Hge].
  - pose proof (extend_file_ok s m own F _ i (r_size r) T R Ho Hv Fi Hu) as X.
    destruct (extend_file (f_inode f) i (r_size r) s) as [s1| | | |]; try done. cbn [mbind outcome_bind].
    destruct X as (own' & p & db & T1 & R1 & Ho1 & Hg & Hp & Hpo & Hdb & Fi1 & Hl & HF & Hin & O1 & S1).
    rewrite Hg. cbn [mbind outcome_bind]. apply arr_get_Ret in Hg as [_ Hg].
    destruct (write_block s1 m own' (f_inode f) _ p (r_vbuff r) db b (r_size r) T1 Hv Fi1 Hg Hp Hdb)
      as (s2 & -> & T2 & O2 & S2 & E2 & C2 & B2 & N2); [by rewrite HF|lia..|]. cbn [mbind outcome_bind].
    exists own', i, c. split_and!; try done.
    + by rewrite E2.
    + rewrite B2, HF by (done || (clear -Ho1 Hpo Hm; set_solver)). done.
    + rewrite C2. f_equal. rewrite !overwrite_whole; [done|rewrite length_take; lia..].
    + intros w j Hw Hne. rewrite <-(O1 w j Hw Hne). apply (O2 w j); [|done].
      rewrite Hin; [done|]. intros ->. rewrite Hi in Hw. by simplify_eq.
    + destruct S1, S2. split; congruence.
    + split; [intros q Hq _; rewrite B2, HF by (done || (clear -Ho1 Hpo Hq; set_solver)); done|].
      intros i0 Hi0. rewrite N2, (tf_inode _ _ _ _ _ _ Fi1). eexists. split; [done|]. simpl. congruence.
  - destruct (alloc_get _ _ _ _ _ T Hv Fi) as (d & Hg & Hd & Hcase). cbn [mbind outcome_bind].
    rewrite Hg. cbn [mbind outcome_bind]. destruct Hcase as [[-> Hz]|(Hne & Hdo & db & Hdb & Hdl)].
    + replace (r_size r) with 0 by lia. cbn [mbind outcome_bind s_memcpy Z.eqb].
      exists own, i, c. split_and!; try done. split; eauto.
    + destruct (write_block s m own (f_inode f) _ d (r_vbuff r) db b (r_size r) T Hv Fi Hd Hne Hdb)
        as (s2 & -> & T2 & O2 & S2 & E2 & C2 & B2 & N2); [done|lia..|]. cbn [mbind outcome_bind].
      exists own, i, c. split_and!; try done.
      * by rewrite E2.
      * rewrite B2; [done|]. clear -Ho Hdo Hm. set_solver.
      * rewrite C2. f_equal. f_equal. unfold content in Hc. rewrite Hi in Hc. simpl in Hc.
        rewrite Hd in Hc. simpl in Hc. rewrite eqb_ne in Hc by done. congruence.
      * split; [|rewrite N2; eauto]. intros q Hq _. rewrite B2; [done|]. clear -Ho Hdo Hq. set_solver.
Qed.

Lemma tmp_read_ok s m own F rq r f b :
  files_ok s m own -> ls_rep (s_store s) m (own ∪ F) -> own ## F ->
  reqs (s_vfs s) !! rq = Some r -> r_type r = VFS_ASYNC_TYPE_READ -> tmp_pre r s m F f b ->
  exists x s' i c, tmp_read rq s = Ret (x, s') /\ files_ok s' m own /\ s_store s' = s_store s /\
    inodes (s_vfs s) !! f_inode f = Some i /\ file_content s (f_inode f) = Some c /\
    served r (f_inode f) b c x s' /\ same_others i s s' /\ same_rest s s' /\
    framed (f_inode f) (r_vbuff r) F s s'.
Proof.
  intros T R Ho Hr Ht [Hf Hv Hm Hb [Hu Hsz]]. unfold tmp_read.
  rewrite (deref_Some _ _ _ Hr). cbn [mbind outcome_bind]. rewrite Hf. cbn [mbind outcome_bind].
  destruct (tmp_file_of _ _ _ _ _ _ T Hv) as (i & Fi). pose proof (tf_inode _ _ _ _ _ _ Fi) as Hi.
  rewrite (deref_Some _ _ _ Hi). cbn [mbind outcome_bind].
  destruct (content_file _ _ _ _ _ _ Fi) as (c & Hc & Hcl). unfold served. rewrite Ht. simpl Z.eqb.
  destruct (alloc_get _ _ _ _ _ T Hv Fi) as (d & Hg & Hd & Hcase). rewrite Hg. cbn [mbind outcome_bind].
  pose proof Hc as Hc'. unfold content in Hc'. rewrite Hi in Hc'. simpl in Hc'. rewrite Hd in Hc'. simpl in Hc'.
  assert (E : s_memcpy (r_vbuff r) d (Z.min (r_size r) (i_size i)) s =
                Ret (set_bufs (<[r_vbuff r := splice b 0 (take (Z.to_nat (r_size r)) c)]> (s_bufs s)) s)).
  { destruct Hcase as [[-> Hz]|(Hne & Hdo & db & Hdb & Hdl)].
    - assert (c = []) as -> by (by simpl in Hc'; simplify_eq). replace (Z.min (r_size r) (i_size i)) with 0 by lia.
      rewrite take_nil, splice_nil, insert_id by done. unfold s_memcpy. simpl. by destruct s.
    - rewrite eqb_ne in Hc' by done. assert (db = c) as -> by congruence.
      rewrite (s_memcpy_ok _ _ _ _ b c) by (done || lia). do 4 f_equal.
      destruct (Z.le_ge_cases (r_size r) (i_size i)).
      + by rewrite Z.min_l.
      + rewrite Z.min_r by done. rewrite <-Hcl, Nat2Z.id. rewrite !take_ge by lia. done. }
  rewrite E. cbn [mbind outcome_bind]. eexists _, _, i, c. split; [done|].
  assert (Hkeep : forall x, x ∈ own -> <[r_vbuff r := splice b 0 (take (Z.to_nat (r_size r)) c)]> (s_bufs s) !! x
                              = s_bufs s !! x).
  { intros x Hx. apply lookup_insert_ne. clear -Hm Hx Ho. set_solver. }
  destruct (tmp_ok_agree _ _ _ _ _ _ T Hkeep) as [T' HC].
  split_and!; try done.
  - by rewrite Hcl.
  - unfold file_content. simpl. by rewrite HC.
  - apply lookup_insert_eq.
  - intros w j _ _. apply HC.
  - split; [|eauto]. intros q _ Hq. by apply lookup_insert_ne.
Qed.

(** ** The contract of Request.v *)

Definition tmp_inv (s : sys) (m : gmap Z (list (Z * Z))) (own : gset Z) : Prop :=
  s_semas s !! TMP_LOCK = Some 1 /\ files_ok s m own.

Definition tmp_serves (r : vfs_async_req_t) (F : gset Z) (s : sys) (m : gmap Z (list (Z * Z))) (x : Z)
    (s' : sys) (m' : gmap Z (list (Z * Z))) : Prop :=
  m' = m /\ k_procs (s_kernel s') = k_procs (s_kernel s) /\ vnodes (s_vfs s') = vnodes (s_vfs s) /\
  exists f i b c, file_at (r_file r) s = Ret f /\ inodes (s_vfs s) !! f_inode f = Some i /\
    s_bufs s !! r_vbuff r = Some b /\ file_content s (f_inode f) = Some c /\
    served r (f_inode f) b c x s' /\ same_others i s s' /\ framed (f_inode f) (r_vbuff r) F s s'.

Lemma file_content_view s s' v : view s' = view s -> file_content s' v = file_content s v.
Proof. unfold view, file_content. by intros [= -> -> ->]. Qed.

(** Serving is about the view, the open files and the mounts. *)
Record same_fs (s s' : sys) : Prop := {
  sf_view : view s' = view s;
  sf_procs : k_procs (s_kernel s') = k_procs (s_kernel s);
  sf_vnodes : vnodes (s_vfs s') = vnodes (s_vfs s);
}.

Lemma tmp_serves_frame r F F' s1 s1' m1 x s2 s2' m2 :
  tmp_serves r F' s1 m1 x s2 m2 -> same_fs s1' s1 -> same_fs s2 s2' -> F ⊆ F' ->
  tmp_serves r F s1' m1 x s2' m2.
Proof.
  intros (-> & P & N & f & i & b & c & Hf & Hi & Hb & Hc & V & O & [FB FV]) [E1 P1 N1] [E2 P2 N2] HF.
  pose proof E1 as E1'. unfold view in E1'. injection E1' as B1 I1 D1.
  assert (B2 : s_bufs s2' = s_bufs s2) by (unfold view in E2; congruence).
  assert (I2 : inodes (s_vfs s2') = inodes (s_vfs s2)) by (unfold view in E2; congruence).
  split_and!; [done|congruence..|]. exists f, i, b, c. split_and!; [..|intros w j Hw Hne|split].
  - unfold file_at in *. by rewrite <-P1.
  - by rewrite <-I1.
  - by rewrite <-B1.
  - by rewrite <-(file_content_view _ _ _ E1).
  - unfold served in *. by rewrite B2, (file_content_view _ _ _ E2).
  - rewrite (file_content_view _ _ _ E2), <-(file_content_view _ _ _ E1). apply (O w j); [by rewrite I1|done].
  - intros p Hp Hne. rewrite B2, <-B1. auto.
  - intros j Hj. rewrite I2. apply FV. by rewrite I1.
Qed.

(** The end of a request: the result is stored, the caller is woken and the
    lock released. *)
Lemma finish_request s m own rq r x :
  files_ok s m own -> reqs (s_vfs s) !! rq = Some r -> r_callback r = 0 -> 0 < r_fin_sema r ->
  s_semas s !! r_fin_sema r = Some 0 -> s_semas s !! TMP_LOCK = Some 0 ->
  exists s1 s2, vfs_async_finalize rq x s = Ret s1 /\ s_sema_up TMP_LOCK s1 = Ret s2 /\
    await (r_fin_sema r) s2 = Ret s2 /\ tmp_inv s2 m own /\ s_store s2 = s_store s /\
    s_semas s2 !! r_fin_sema r = Some 1 /\ reqs (s_vfs s2) !! rq = Some (set_res x r) /\
    same_fs s s2.
Proof.
  intros T Hr Hcb Hl Hc Hlock. rewrite (finalize_ok rq x s r 0 Hr Hcb) by (done || lia).
  eexists _, _. split; [done|]. split.
  { apply s_sema_up_ok with (c := 0).
    transitivity (s_semas s !! TMP_LOCK); [apply lookup_insert_ne; unfold TMP_LOCK; lia|exact Hlock]. }
  assert (Hs : s_semas (s_set_semas (<[TMP_LOCK := i16 (0 + 1)]> (<[r_fin_sema r := i16 (0 + 1)]> (s_semas s)))
             (s_set_semas (<[r_fin_sema r := i16 (0 + 1)]> (s_semas s)) (put_req rq (set_res x r) s)))
             !! r_fin_sema r = Some 1).
  { etransitivity; [apply lookup_insert_ne; unfold TMP_LOCK; lia|apply lookup_insert_eq]. }
  split_and!; try done.
  - unfold await. erewrite deref_Some by exact Hs. done.
  - split; [|exact T]. apply lookup_insert_eq.
  - apply lookup_insert_eq.
Qed.

Lemma tmp_submit_ok s m own F rq r :
  tmp_inv s m own -> (exists f b, tmp_pre r s m F f b) -> ls_rep (s_store s) m (own ∪ F) -> own ## F ->
  reqs (s_vfs s) !! rq = Some r -> 0 < r_fin_sema r -> s_semas s !! r_fin_sema r = Some 0 ->
  r_callback r = 0 -> r_type r = VFS_ASYNC_TYPE_READ \/ r_type r = VFS_ASYNC_TYPE_WRITE ->
  match tmp_submit_req rq s with
  | Ret (rc, s1) => rc = 0 /\ await (r_fin_sema r) s1 = Ret s1 /\
      exists own' r', tmp_inv s1 m own' /\ ls_rep (s_store s1) m (own' ∪ F) /\ own' ## F /\
        s_semas s1 !! r_fin_sema r = Some 1 /\ reqs (s_vfs s1) !! rq = Some r' /\
        tmp_serves r F s m (r_res r') s1 m
  | Panic msg => msg = HEAP_FULL
  | _ => False
  end.
Proof.
  intros [Hlock T] (f & b & P) R Ho Hr Hl Hc Hcb Ht. unfold tmp_submit_req.
  rewrite (s_sema_down_now _ _ _ Hlock) by lia. cbn [mbind outcome_bind].
  set (s1 := s_set_semas _ _). rewrite (deref_Some _ _ r) by exact Hr. cbn [mbind outcome_bind].
  assert (Hc1 : s_semas s1 !! r_fin_sema r = Some 0).
  { etransitivity; [apply lookup_insert_ne; unfold TMP_LOCK; lia|done]. }
  assert (Hl1 : s_semas s1 !! TMP_LOCK = Some 0) by apply lookup_insert_eq.
  assert (P1 : tmp_pre r s1 m F f b) by (by destruct P).
  destruct Ht as [Ht|Ht]; rewrite Ht; cbn [Z.eqb VFS_ASYNC_TYPE_READ VFS_ASYNC_TYPE_WRITE Pos.eqb].
  - destruct (tmp_read_ok s1 m own F rq r f b T R Ho Hr Ht P1)
      as (x & s2 & i & c & -> & T2 & E2 & Hi & Hcc & V & O & S & Fr).
    cbn [mbind outcome_bind].
    destruct (finish_request s2 m own rq r x T2) as (s3 & s4 & -> & E4 & W & I4 & St4 & C4 & Q4 & V4);
      [by rewrite (sr_reqs _ _ S)|done..|by rewrite (sr_semas _ _ S)|by rewrite (sr_semas _ _ S)|].
    cbn [mbind outcome_bind]. rewrite E4. cbn [mbind outcome_bind]. split_and!; [done..|].
    exists own, (set_res x r). split_and!; try done.
    + by rewrite St4, E2.
    + eapply (tmp_serves_frame _ _ _ s1); [|done|exact V4|done]. destruct P1, S. split_and!; try done.
      by exists f, i, b, c.
  - pose proof (tmp_write_ok s1 m own F rq r f b T R Ho Hr Ht P1) as X.
    destruct (tmp_write rq s1) as [[x s2]| | | |]; try done. cbn [mbind outcome_bind].
    destruct X as (own' & i & c & T2 & R2 & Ho2 & Hi & Hcc & V & O & S & Fr).
    destruct (finish_request s2 m own' rq r x T2) as (s3 & s4 & -> & E4 & W & I4 & St4 & C4 & Q4 & V4);
      [by rewrite (sr_reqs _ _ S)|done..|by rewrite (sr_semas _ _ S)|by rewrite (sr_semas _ _ S)|].
    cbn [mbind outcome_bind]. rewrite E4. cbn [mbind outcome_bind]. split_and!; [done..|].
    exists own', (set_res x r). split_and!; try done.
    + by rewrite St4.
    + eapply (tmp_serves_frame _ _ _ s1); [|done|exact V4|done]. destruct P1, S. split_and!; try done.
      by exists f, i, b, c.
Qed.

#[export] Program Instance tmp_driver : Driver tmp_submit_req := {|
  drv_inv := tmp_inv;
  drv_pre := fun r s m F => exists f b, tmp_pre r s m F f b;
  drv_serves := tmp_serves;
  drv_refuses := fun _ _ _ _ => False;
|}.
Next Obligation.
  intros s s' m own [Hl T] [V G P _ _ _]. split; [rewrite G by (unfold TMP_LOCK; lia); done|].
  unfold view in V. injection V as B I E. unfold files_ok. by rewrite B, I, E.
Qed.
Next Obligation.
  intros r s s' m F F' (f & b & [Hf Hi Hm Hb Hs]) [V G P _ _ _] HF. exists f, b.
  unfold view in V. injection V as B I E. split; try done; [|by apply HF|by rewrite B].
  unfold file_at in *. by rewrite P.
Qed.
Next Obligation. done. Qed.
Next Obligation.
  intros r F F' s1 s1' m1 x s2 s2' m2 V [] [] HF. by eapply tmp_serves_frame.
Qed.
Next Obligation.
  intros s m own F rq r I P R Ho Hr Hrq _ _ Hl Hc Hcb Ht.
  pose proof (tmp_submit_ok s m own F rq r I P R Ho Hr ltac:(lia) Hc Hcb Ht) as X.
  destruct (tmp_submit_req rq s) as [[rc s1]| | | |]; try done.
  destruct X as (-> & W & own' & r' & X). simpl. rewrite W. exists m, own', r'. naive_solver.
Qed.

(** ** Properties *)

(** A blocking call on an open file of this file system serves the request. *)
Lemma tmp_request type file pid buff n s f reg m own F b :
  file_at file s = Ret f -> f_inode f <> 0 -> inode_reg (f_inode f) s = Ret reg ->
  async_request reg = Some tmp_submit_req -> is_file m (f_inode f) ->
  tmp_inv s m own -> ls_rep (s_store s) m (own ∪ F) -> own ## F ->
  type = VFS_ASYNC_TYPE_READ \/ type = VFS_ASYNC_TYPE_WRITE ->
  buff ∈ F -> s_bufs s !! buff = Some b -> is_u16 n -> n <= zlen b ->
  match request_blocking type file pid buff n s with
  | Ret (x, s') => exists own' id lock old, tmp_inv s' m own' /\ ls_rep (s_store s') m (own' ∪ F) /\
      own' ## F /\ tmp_serves (Req id file type pid buff n 0 lock old (request_flags f)) F s m x s' m
  | Panic msg => msg = HEAP_FULL
  | _ => False
  end.
Proof.
  intros Hf Hi Hreg Hsub Hfile I R Ho Ht HF Hb Hn Hl.
  assert (P : forall id lock old, exists f0 b0,
            tmp_pre (Req id file type pid buff n 0 lock old (request_flags f)) s m F f0 b0).
  { intros. by exists f, b. }
  pose proof (request_blocking_ok type file pid buff n s f reg tmp_submit_req m own F
                Hf Hi Hreg Hsub Ht P I R Ho) as X.
  destruct (request_blocking type file pid buff n s) as [[x s']| | | |]; try done.
  destruct X as (m' & own' & I' & R' & Ho' & id & lock & old & [(_ & _ & [])|V]).
  assert (m' = m) as -> by apply V. by exists own', id, lock, old.
Qed.

(** C20. What is written to a file of the temporary file system is what is read
    back, through the calls of the virtual file system: after a blocking write
    of [n] bytes ([n] at most 65535 and no longer than either buffer) to an open
    file, a blocking read of [n] bytes into another buffer through the same
    descriptor returns as the write did, with [n] converted to the 16-bit signed
    result ([i16 n], which is [n] below 32768), and fills the start of the reader's
    buffer with those bytes.  The two calls leave the driver's invariant and the
    other objects of the heap as they were; the only other outcome of either is the
    panic of [kmalloc] on a full heap. *)
Theorem tmp_write_read file f reg s m own F pid buff b n pid' buff' b' :
  file_at file s = Ret f -> f_inode f <> 0 -> inode_reg (f_inode f) s = Ret reg ->
  async_request reg = Some tmp_submit_req -> is_file m (f_inode f) ->
  tmp_inv s m own -> ls_rep (s_store s) m (own ∪ F) -> own ## F ->
  buff ∈ F -> s_bufs s !! buff = Some b -> is_u16 n -> n <= zlen b ->
  buff' ∈ F -> s_bufs s !! buff' = Some b' -> n <= zlen b' -> buff' <> buff ->
  match vfs_write_blocking file pid buff n s with
  | Ret (x, s1) => x = i16 n /\
      match vfs_read_blocking file pid' buff' n s1 with
      | Ret (y, s2) => y = i16 n /\ s_bufs s2 !! buff' = Some (splice b' 0 (take (Z.to_nat n) b)) /\
          exists own2, tmp_inv s2 m own2 /\ ls_rep (s_store s2) m (own2 ∪ F) /\ own2 ## F
      | Panic msg => msg = HEAP_FULL
      | _ => False
      end
  | Panic msg => msg = HEAP_FULL
  | _ => False
  end.
Proof.
  intros Hf Hi Hreg Hsub Hfile I R Ho HF Hb Hn Hl HF' Hb' Hl' Hne.
  unfold vfs_write_blocking, vfs_read_blocking.
  pose proof (tmp_request VFS_ASYNC_TYPE_WRITE file pid buff n s f reg m own F b
                Hf Hi Hreg Hsub Hfile I R Ho (or_intror eq_refl) HF Hb Hn Hl) as X.
  destruct (request_blocking VFS_ASYNC_TYPE_WRITE file pid buff n s) as [[x s1]| | | |]; try done.
  destruct X as (own1 & id & lock & old & I1 & R1 & Ho1 & V).
  destruct V as (_ & P1 & N1 & f0 & i & b0 & c & Hf0 & Hin & Hb0 & Hc & V & _ & [FB FV]).
  simpl in Hf0, Hb0, V, FB. assert (f0 = f) as -> by congruence. assert (b0 = b) as -> by congruence. unfold served in V. simpl in V. destruct V as (-> & _ & Hc1).
  split; [done|].
  assert (Hf1 : file_at file s1 = Ret f) by (unfold file_at; by rewrite P1).
  assert (Hreg1 : inode_reg (f_inode f) s1 = Ret reg).
  { destruct (FV _ Hin) as (i' & Hi' & Ei). unfold inode_reg in *. rewrite N1, (deref_Some _ _ _ Hi').
    cbn [mbind outcome_bind] in *. rewrite Ei.
    rewrite (deref_Some _ _ _ Hin) in Hreg. exact Hreg. }
  assert (Hb1 : s_bufs s1 !! buff' = Some b') by (by rewrite FB).
  pose proof (tmp_request VFS_ASYNC_TYPE_READ file pid' buff' n s1 f reg m own1 F b'
                Hf1 Hi Hreg1 Hsub Hfile I1 R1 Ho1 (or_introl eq_refl) HF' Hb1 Hn Hl') as X.
  destruct (request_blocking VFS_ASYNC_TYPE_READ file pid' buff' n s1) as [[y s2]| | | |]; try done.
  destruct X as (own2 & id2 & lock2 & old2 & I2 & R2 & Ho2 & V).
  destruct V as (_ & _ & _ & f2 & i2 & b2 & c2 & Hf2 & _ & Hb2 & Hc2 & V & _ & _).
  simpl in Hf2, Hb2, V. assert (f2 = f) as -> by congruence. assert (b2 = b') as -> by congruence.
  rewrite Hc1 in Hc2. injection Hc2 as <-. unfold served in V. simpl in V. destruct V as (-> & _ & Hb2').
  assert (Hlo : zlen (take (Z.to_nat n) b) = n) by (rewrite length_take; lia).
  split_and!; [|rewrite Hb2'; do 2 f_equal|by exists own2].
  - f_equal. unfold overwrite. rewrite length_app. lia.
  - unfold overwrite. rewrite take_app_le by lia. rewrite take_take. f_equal. lia.
Qed.
End Tmpfs.

(** ** Witnesses: an open file of an empty file system and two buffers *)

Section Demo.
#[local] Existing Instance klist_store.
Abbreviation demo_sys := (Sys.sys (store (list Z)) tmp_state).

Definition demo_store : outcome (Z * Z * Z * Z * store (list Z)) :=
  let st := ls_init boot_store TMP_FILES in
  '(name, st) ← ls_alloc st 3;
  '(ino, st) ← ls_alloc st sizeof_inode;
  '(b1, st) ← ls_alloc st 4;
  '(b2, st) ← ls_alloc st 4;
  st ← ls_append st TMP_FILES ino;
  Ret (name, ino, b1, b2, st).

Lemma demo_store_ok : exists name ino b1 b2 st n, demo_store = Ret (name, ino, b1, b2, st) /\
  ls_rep st (<[TMP_FILES := [(n, ino)]]> ∅) ({[name]} ∪ {[b2; b1; ino]}) /\
  (name ∉ ({[b2; b1; ino]} : gset Z)) /\ b1 <> b2 /\ 0 < name /\ 0 < ino.
Proof.
  assert (exists r, demo_store = Ret r) as [[[[[name ino] b1] b2] st] Hk]
    by (eexists; vm_compute; reflexivity).
  exists name, ino, b1, b2, st. pose proof Hk as E. unfold demo_store in E. run_inv.
  pose proof (ls_init_ok _ _ _ TMP_FILES boot_store_rep) as R0.
  destruct (ls_alloc_ok _ _ _ 3 _ _ R0 ltac:(lia) E0) as (Hn & Hn1 & R1).
  destruct (ls_alloc_ok _ _ _ sizeof_inode _ _ R1 ltac:(unfold sizeof_inode; lia) E1) as (Hi & Hi1 & R2).
  destruct (ls_alloc_ok _ _ _ 4 _ _ R2 ltac:(lia) E2) as (Hb & Hb1 & R3).
  destruct (ls_alloc_ok _ _ _ 4 _ _ R3 ltac:(lia) E3) as (Hc & Hc1 & R4).
  destruct (ls_append_ok _ _ _ TMP_FILES [] _ _ R4 (lookup_insert_eq _ _ _) E4) as (n & _ & R5).
  exists n. rewrite insert_insert_eq in R5.
  assert (Eo : {[b2]} ∪ ({[b1]} ∪ ({[ino]} ∪ ({[name]} ∪ ∅))) = ({[name]} ∪ {[b2; b1; ino]} : gset Z))
    by (clear; apply set_eq; set_solver).
  rewrite Eo in R5. split_and!; [done|exact R5|..|lia|lia]; clear -Hn1 Hi1 Hb1 Hc1; set_solver.
Qed.

(** The file system: one empty file named [a], which process 5 has open as
    descriptor 0. *)
Definition demo_proc (ino : Z) : proc :=
  Proc 1 PROC_STATE_SYSCALL PROC_TYPE_USER junk_state junk_state (replicate 16 0) 0
    (ProcFile ino 0 0 0 :: replicate 15 (ProcFile 0 0 0 0)) 0 0 0 0 0 0.

Definition demo_state (name ino b1 b2 : Z) (st : store (list Z)) : demo_sys :=
  Sys (Vm (Kernel st {[5 := demo_proc ino]} {[TMP_LOCK := 1]} ∅ 5 0 1 0x211 true false 0 0x11) ∅ 0)
    (<[name := [97; 0]]> (<[b1 := [1; 2; 3; 4]]> {[b2 := [0; 0; 0; 0]]}))
    (VfsState {[ino := Inode name 0 0 7 INODE_TYPE_FILE]} {[7 := Vnode 0 1 0 0]} ∅ 0 1 0)
    (MqState ∅ ∅ 0 0) (TmpState 1 (replicate 64 0)).

Instance demo_uninit : Uninit := fun _ _ => 0.
Instance demo_others : Others (store (list Z)) tmp_state := fun _ _ => Block.
Instance demo_sign : CharSign := true.
Instance demo_callbacks : @Callbacks (store (list Z)) tmp_state := fun _ _ _ => Fault.
Instance demo_regs : @VfsRegs (store (list Z)) tmp_state := fun a => if a =? 1 then Some tmp_reg else None.

Lemma demo_files name ino b1 b2 n :
  name ∉ ({[b2; b1; ino]} : gset Z) -> 0 < name ->
  tmp_ok {[ino := Inode name 0 0 7 INODE_TYPE_FILE]}
    (<[name := [97; 0]]> (<[b1 := [1; 2; 3; 4]]> {[b2 := [0; 0; 0; 0]]}))
    (TmpState 1 (replicate 64 0)) (<[TMP_FILES := [(n, ino)]]> ∅) {[name]}.
Proof.
  intros Hname Hpos. split.
  - exists [(n, ino)]. split; [apply lookup_insert_eq|]. intros v ->%list_elem_of_singleton.
    eexists. split; [apply lookup_singleton_eq|..]; cbn [i_fid fid i_size i_name alloc_fid]; try lia.
    + split_and!; [set_solver| |].
      * intros [? _]%elem_of_replicate. lia.
      * exists [97; 0], [97]. split; [apply lookup_insert_eq|]. apply (cstr_literal [97] []).
        repeat constructor. lia.
    + exists 0. split; [done|]. by left.
  - intros v w i j [<- _]%lookup_singleton_Some [<- _]%lookup_singleton_Some. done.
  - done.
  - simpl. lia.
  - cbn [alloc_fid]. intros a d [-> _]%lookup_replicate. by left.
  - cbn [alloc_fid]. intros a b d [-> _]%lookup_replicate. done.
Qed.

Lemma demo_bufs name ino b1 b2 st :
  name ∉ ({[b2; b1; ino]} : gset Z) -> b1 <> b2 ->
  s_bufs (demo_state name ino b1 b2 st) !! b1 = Some [1; 2; 3; 4] /\
  s_bufs (demo_state name ino b1 b2 st) !! b2 = Some [0; 0; 0; 0].
Proof.
  intros Hname Hb. assert (name <> b1 /\ name <> b2) as [Hn1 Hn2] by (clear -Hname; set_solver).
  simpl. split.
  - by rewrite lookup_insert_ne, lookup_insert_eq.
  - by rewrite lookup_insert_ne, lookup_insert_ne, lookup_singleton_eq.
Qed.

Lemma demo_reg name ino b1 b2 st : inode_reg ino (demo_state name ino b1 b2 st) = Ret tmp_reg.
Proof. unfold inode_reg. simpl. rewrite (deref_Some _ _ _ (lookup_singleton_eq _ _)). done. Qed.

(** A check of the file system that is evaluated holds of it. *)
Definition on_demo (f : demo_sys -> Z -> Z -> bool) : bool :=
  match demo_store with Ret (name, ino, b1, b2, st) => f (demo_state name ino b1 b2 st) b1 b2 | _ => false end.

Lemma demo_eval f name ino b1 b2 st :
  demo_store = Ret (name, ino, b1, b2, st) -> on_demo f = true -> f (demo_state name ino b1 b2 st) b1 b2 = true.
Proof. unfold on_demo. by intros ->. Qed.

(** Writing three bytes of one buffer and reading them into the other. *)
Lemma tmp_write_read_witness :
  exists (s s1 s2 : demo_sys) b1 b2, vfs_write_blocking (file_ptr 5 0) 0 b1 3 s = Ret (3, s1) /\
    vfs_read_blocking (file_ptr 5 0) 0 b2 3 s1 = Ret (3, s2) /\ s_bufs s2 !! b2 = Some [1; 2; 3; 0].
Proof.
  destruct demo_store_ok as (name & ino & b1 & b2 & st & n & E & R & Hname & Hb & Hpos & Hino).
  destruct (demo_bufs name ino b1 b2 st Hname Hb) as [B1 B2].
  assert (on_demo (fun s b1 b2 => returned ('(_, s1) ← vfs_write_blocking (file_ptr 5 0) 0 b1 3 s;
    vfs_read_blocking (file_ptr 5 0) 0 b2 3 s1)) = true) as Ran by (vm_compute; reflexivity).
  apply (demo_eval _ _ _ _ _ _ E) in Ran. cbv beta in Ran. clear E.
  pose proof (tmp_write_read (file_ptr 5 0) (ProcFile ino 0 0 0) tmp_reg (demo_state name ino b1 b2 st)
    (<[TMP_FILES := [(n, ino)]]> ∅) {[name]} {[b2; b1; ino]} 0 b1 [1; 2; 3; 4] 3 0 b2 [0; 0; 0; 0]) as T.
  destruct (vfs_write_blocking _ _ _ _ _) as [[x s1]| | | |] eqn:E1; cbn [mbind outcome_bind returned] in Ran; try discriminate Ran.
  destruct (vfs_read_blocking _ _ b2 _ _) as [[y s2]| | | |] eqn:E2; cbn [returned] in Ran; try discriminate Ran.
  destruct T as (-> & -> & E & _); try done; try lia.
  - simpl. lia.
  - apply demo_reg.
  - exists [(n, ino)]. split; [apply lookup_insert_eq|]. apply list_elem_of_singleton. done.
  - split; [apply lookup_singleton_eq|]. by apply demo_files.
  - clear -Hname. set_solver.
  - clear. set_solver.
  - clear. set_solver.
  - exists (demo_state name ino b1 b2 st), s1, s2, b1, b2. split_and!; [exact E1|exact E2|exact E].
Defined.

(** The contract holds of the driver above, and a request through it returns
    its result. *)
Lemma vfs_blocking_spec_witness :
  exists (s s' : demo_sys) b1 x own', request_blocking VFS_ASYNC_TYPE_WRITE (file_ptr 5 0) 0 b1 4 s = Ret (x, s') /\
    tmp_inv s' own'.1 own'.2.
Proof.
  destruct demo_store_ok as (name & ino & b1 & b2 & st & n & E & R & Hname & Hb & Hpos & Hino).
  destruct (demo_bufs name ino b1 b2 st Hname Hb) as [B1 B2].
  assert (on_demo (fun s b1 _ => returned (request_blocking VFS_ASYNC_TYPE_WRITE (file_ptr 5 0) 0 b1 4 s)) = true) as Ran
    by (vm_compute; reflexivity).
  apply (demo_eval _ _ _ _ _ _ E) in Ran. cbv beta in Ran. clear E.
  destruct (vfs_blocking_spec VFS_ASYNC_TYPE_WRITE (file_ptr 5 0) 0 b1 4 (demo_state name ino b1 b2 st)
              (ProcFile ino 0 0 0) eq_refl (or_intror eq_refl)) as [_ T].
  assert (Hi : f_inode (ProcFile ino 0 0 0) <> 0) by (simpl; lia).
  specialize (T tmp_reg Hi (demo_reg _ _ _ _ _) tmp_driver (<[TMP_FILES := [(n, ino)]]> ∅) {[name]} {[b2; b1; ino]}).
  destruct (request_blocking _ _ _ _ _ _) as [[x s']| | | |] eqn:E1; cbn [returned] in Ran; try discriminate Ran.
  destruct T as (m' & own' & I' & _); [..|by exists (demo_state name ino b1 b2 st), s', b1, x, (m', own')].
  all: try (intros; exists (ProcFile ino 0 0 0), [1; 2; 3; 4]; split; [done| |clear; set_solver|done|simpl; lia];
    exists [(n, ino)]; split; [apply lookup_insert_eq|by apply list_elem_of_singleton]).
  all: try (split; [apply lookup_singleton_eq|by apply demo_files]).
  all: try exact R.
  all: clear -Hname; set_solver.
Defined.
End Demo.
