(* ===== verification/Elf.v ===== *)
(** * The program loader (kernel/proc/elf.c)

    A program is a file with a header and segments; a segment is read in chunks
    into a kernel buffer and copied into the physical pages of the new process,
    which are allocated as they are needed.  Instruction memory has pages twice
    as large, seen by the kernel as pairs of data pages from 0x1000 on.

    The messages of the loader go to the console and are left out. *)

From S2P Require Import Prelude Interfaces Kmalloc KList Proc Sync CString Kernel Sched Virtual Vfs Sys Request.

Definition ELFCLASS32 : Z := 1.
Definition ELFDATA2LSB : Z := 1.
Definition EV_CURRENT : Z := 1.
Definition ET_EXEC : Z := 2.
Definition EM_PCPU : Z := 0x0888.

Definition HEADER_SIZE : Z := 56.
Definition EH_OFF_TYPE : Z := 16.
Definition EH_OFF_MACHINE : Z := 18.
Definition EH_OFF_ENTRY : Z := 24.
Definition EH_OFF_PHOFF : Z := 28.
Definition EH_OFF_PHNUM : Z := 44.

Definition PT_LOAD : Z := 1.
Definition PF_X : Z := 1.

Definition PH_SIZE : Z := 32.
Definition PH_OFF_TYPE : Z := 0.
Definition PH_OFF_OFFSET : Z := 4.
Definition PH_OFF_VADDR : Z := 8.
Definition PH_OFF_FILESZ : Z := 16.
Definition PH_OFF_MEMSZ : Z := 20.
Definition PH_OFF_FLAGS : Z := 24.

Definition LOAD_BUFF : Z := 0x100.

(** The static arrays [load_buff], [buff] and [ph_buff]. *)
Definition LOAD_BUFF_AT : Z := -16.
Definition BUFF_AT : Z := -17.
Definition PH_BUFF_AT : Z := -18.

(** The page after a 16-bit store of [x] at an offset, as the processor does it;
    whether the store covers the byte before or after an odd offset is not the
    business of the loader. *)
Class WordStore := store_word : list Z -> Z -> Z -> list Z.

Section Elf.
Context {St D : Type} `{ListStore St} {junk : Uninit} {others : Others St D} {sign : CharSign}.
Context {regs : @VfsRegs St D} {callbacks : @Callbacks St D} {words : WordStore}.
Abbreviation sys := (sys St D).
Set Default Proof Using "Type".

(** What a new descriptor holds before it is filled in. *)
Context (junk_proc : proc).

(** ** The code *)

Definition GET_U8 (buff : list Z) (off : Z) : outcome Z :=
  b ← arr_get buff off; Ret (char_value b).

Definition GET_U16 (buff : list Z) (off : Z) : outcome Z :=
  hi ← arr_get buff (off + 1);
  lo ← arr_get buff off;
  Ret (Z.lor (u16 (Z.shiftl (u16 (char_value hi)) 8)) (u16 (char_value lo))).

(** [vfs_seek] on an open file *)
Definition seek (file off whence : Z) (s : sys) : outcome (Z * sys) :=
  f ← file_at file s;
  let '(r, f) := Fd.vfs_seek f off whence in
  s ← set_file file f s;
  Ret (r, s).

(** Every turn stores at least one byte, inside a page: the fuel is the size of
    a page and one. *)
Fixpoint load_loop (fuel : nat) (file m_addr end_addr page : Z) (prog : bool) (s : sys)
  {struct fuel} : outcome sys :=
  match fuel with
  | O => Hang
  | S fuel =>
    if m_addr <=? end_addr then
      '(r, s) ← vfs_read_blocking file 0 LOAD_BUFF_AT (Z.min LOAD_BUFF (u16 (end_addr - m_addr + 1))) s;
      let read := u16 r in
      _ ← ASSERT (negb (read =? 0));
      b ← deref (s_bufs s) LOAD_BUFF_AT;
      v ← (if prog then load_into_userspace_program page b 0 read m_addr (s_vm s)
           else load_into_userspace page b 0 read m_addr (s_vm s));
      load_loop fuel file (u16 (m_addr + read)) end_addr page prog (set_vm v s)
    else Ret s
  end.

Definition page_fuel : nat := S (Z.to_nat PAGE_SIZE).

Definition load_to_page (file off end_addr page : Z) (prog : bool) (s : sys) : outcome sys :=
  _ ← ASSERT (end_addr <? PAGE_SIZE);
  load_loop page_fuel file off end_addr page prog s.

(** [*((u16* )off) = 0] through the kernel's page 0 *)
Definition clear_word (off : Z) (v : vm St) : outcome (vm St) :=
  pg ← deref (v_phys v) (zero_page v);
  if (0 <=? off) && (off <? zlen pg)
  then Ret (Vm (v_kernel v) (<[zero_page v := store_word pg off 0]> (v_phys v)) (zero_page v))
  else Fault.

(** [zero_page] *)
Definition clear_page (off len page : Z) (s : sys) : outcome sys :=
  _ ← ASSERT (u16 (off + len) <=? PAGE_SIZE);
  v ← map_page_zero page (s_vm s);
  v ← for_loop (Z.to_nat len) off clear_word v;
  v ← map_page_zero 0 v;
  Ret (set_vm v s).

Definition set_tables (P : Z) (p : proc) (ps : proc_state) (s : sys) : sys :=
  let k := s_kernel s in set_kernel (set_procs (<[P := set_p_proc_state ps p]> (k_procs k)) k) s.

Definition phys_page_to_load (P vaddr : Z) (prog : bool) (s : sys) : outcome (Z * sys) :=
  let virt_page := Z.shiftr vaddr 12 in
  p ← deref (k_procs (s_kernel s)) P;
  let ps := p_proc_state p in
  if prog then
    g ← arr_get (prog_pages ps) (virt_page / 2);
    '(g, s) ← (if g =? 0xff then
                 let n := first_free_prog_page (s_kernel s) in
                 pp ← arr_set (prog_pages ps) (virt_page / 2) n;
                 let s := set_tables P p (set_prog_pages pp ps) s in
                 Ret (n, set_kernel (set_first_free_prog_page (i16 (n + 1)) (s_kernel s)) s)
               else Ret (g, s));
    Ret (i16 (Z.lor (u16 (Z.shiftl g 1)) (Z.land virt_page 1) + Z.shiftl 0x800 1), s)
  else
    g ← arr_get (mem_pages ps) virt_page;
    if g =? 0xff then
      let n := first_free_page (s_kernel s) in
      mp ← arr_set (mem_pages ps) virt_page n;
      let s := set_tables P p (set_mem_pages mp ps) s in
      Ret (n, set_kernel (set_first_free_page (i16 (n + 1)) (s_kernel s)) s)
    else Ret (g, s).

(** One page of a segment. *)
Definition load_page (file P vaddr off end_addr : Z) (prog : bool) (s : sys) : outcome sys :=
  '(page, s) ← phys_page_to_load P vaddr prog s;
  load_to_page file off end_addr page prog s.

(** The bytes of a segment that are in the file: the first page, then full
    pages, then the last one. *)
Definition load_pages (file P vaddr mem_size : Z) (prog : bool) (s : sys) : outcome (Z * sys) :=
  let end_addr := u16 (vaddr + mem_size - 1) in
  let pages := u16 (u16 (mem_size + PAGE_SIZE) - 1) / PAGE_SIZE in
  if negb (mem_size =? 0) then
    s ← load_page file P vaddr (vaddr mod PAGE_SIZE) (Z.min (PAGE_SIZE - 1) (u16 (end_addr - vaddr))) prog s;
    let vaddr := u16 (vaddr + Z.min (PAGE_SIZE - vaddr mod PAGE_SIZE) (u16 (end_addr + 1))) in
    '(vaddr, s) ← for_loop (Z.to_nat (pages - 2)) 0 (fun _ st =>
        s ← load_page file P st.1 0 (PAGE_SIZE - 1) prog st.2;
        Ret (u16 (st.1 + PAGE_SIZE), s)) (vaddr, s);
    if 1 <? pages then
      s ← load_page file P vaddr 0 (end_addr mod PAGE_SIZE) prog s;
      Ret (u16 (vaddr + end_addr mod PAGE_SIZE + 1), s)
    else Ret (vaddr, s)
  else Ret (vaddr, s).

(** The bytes of a segment that are not in the file are cleared, up to address
    [top]; each turn reaches the next page. *)
Fixpoint clear_loop (fuel : nat) (P vaddr top : Z) (prog : bool) (s : sys) {struct fuel} : outcome sys :=
  match fuel with
  | O => Hang
  | S fuel =>
    if vaddr <? top then
      let size := Z.min (PAGE_SIZE - vaddr mod PAGE_SIZE) (u16 (top - vaddr)) in
      '(page, s) ← phys_page_to_load P vaddr prog s;
      s ← clear_page (vaddr mod PAGE_SIZE) size page s;
      clear_loop fuel P (u16 (vaddr + size)) top prog s
    else Ret s
  end.

(** One program header, whose bytes are [ph]. *)
Definition load_segment (file P load_brk : Z) (ph : list Z) (s : sys) : outcome (Z * sys) :=
  flags ← GET_U16 ph PH_OFF_FLAGS;
  let prog := negb (Z.land flags PF_X =? 0) in
  offset ← GET_U16 ph PH_OFF_OFFSET;
  '(_, s) ← seek file (i16 offset) Fd.SEEK_SET s;
  mem_size ← GET_U16 ph PH_OFF_FILESZ;
  zero_mem_size ← GET_U16 ph PH_OFF_MEMSZ;
  vaddr ← GET_U16 ph PH_OFF_VADDR;
  let mem_start := vaddr in
  let load_brk := if negb prog && negb (zero_mem_size =? 0)
                  then Z.max load_brk (u16 (vaddr + zero_mem_size)) else load_brk in
  '(vaddr, s) ← load_pages file P vaddr mem_size prog s;
  s ← (if negb prog && (mem_size <? zero_mem_size)
       then clear_loop 18 P vaddr (u16 (mem_start + zero_mem_size)) prog s else Ret s);
  Ret (load_brk, s).

(** A turn of the loop over the program headers. *)
Definition load_header (file P : Z) (st : Z * sys) : outcome (Z * sys) :=
  '(_, s) ← vfs_read_blocking file 0 PH_BUFF_AT PH_SIZE st.2;
  '(next_ph, s) ← seek file 0 Fd.SEEK_CUR s;
  ph ← deref (s_bufs s) PH_BUFF_AT;
  type ← GET_U16 ph PH_OFF_TYPE;
  '(load_brk, s) ← (if type =? PT_LOAD then load_segment file P st.1 ph s else Ret (st.1, s));
  '(_, s) ← seek file next_ph Fd.SEEK_SET s;
  Ret (load_brk, s).

(** [buff], which holds the number of headers, is not written in the loop. *)
Definition load_ph (file P : Z) (s : sys) : outcome sys :=
  eh ← deref (s_bufs s) BUFF_AT;
  phnum ← GET_U16 eh EH_OFF_PHNUM;
  '(load_brk, s) ← for_loop (Z.to_nat phnum) 0 (fun _ => load_header file P) (0, s);
  p ← deref (k_procs (s_kernel s)) P;
  let k := s_kernel s in
  Ret (set_kernel (set_procs (<[P := set_p_load_brk load_brk p]> (k_procs k)) k) s).

(** The tests of the header; the loader gives up when one fails. *)
Definition good_header (eh : list Z) : outcome bool :=
  m0 ← GET_U8 eh 0; m1 ← GET_U8 eh 1; m2 ← GET_U8 eh 2; m3 ← GET_U8 eh 3;
  c4 ← GET_U8 eh 4; c5 ← GET_U8 eh 5; c6 ← GET_U8 eh 6;
  type ← GET_U16 eh EH_OFF_TYPE;
  machine ← GET_U16 eh EH_OFF_MACHINE;
  Ret ((m0 =? 0x7f) && (m1 =? 69) && (m2 =? 76) && (m3 =? 70)
       && (c4 =? ELFCLASS32) && (c5 =? ELFDATA2LSB) && (c6 =? EV_CURRENT)
       && (type =? ET_EXEC) && (machine =? EM_PCPU)).

Definition elf_load (file : Z) (s : sys) : outcome (Z * sys) :=
  '(n, s) ← vfs_read_blocking file 0 BUFF_AT HEADER_SIZE s;
  if negb (n =? HEADER_SIZE) then Ret (0, s)
  else
    eh ← deref (s_bufs s) BUFF_AT;
    good ← good_header eh;
    if negb good then Ret (0, s)
    else
      phoff ← GET_U16 eh EH_OFF_PHOFF;
      '(P, k) ← sched_init_user_thread junk_proc (s_kernel s);
      let s := set_kernel k s in
      f ← file_at file s;
      i ← deref (inodes (s_vfs s)) (f_inode f);
      name ← deref (s_bufs s) (i_name i);
      p ← deref (k_procs (s_kernel s)) P;
      pname ← strcpy (p_name p) 0 name 0;
      entry ← GET_U16 eh EH_OFF_ENTRY;
      let p := set_p_proc_state (set_pc entry (p_proc_state p)) (set_p_name pname p) in
      let s := set_kernel (set_procs (<[P := p]> (k_procs (s_kernel s))) (s_kernel s)) s in
      '(_, s) ← seek file (i16 phoff) Fd.SEEK_SET s;
      s ← load_ph file P s;
      Ret (P, s).

(** ** What the loader relies on *)

(** The file, its bytes, and the new process with its entry point and name. *)
Context (file : Z) (content : list Z) (P entry : Z) (name : list Z).

Definition at_offset (o : Z) (f : proc_file) : proc_file :=
  ProcFile (f_inode f) o (f_fcntl_flags f) (f_driver_data f).

Definition snapshot (p : proc) : proc_state * list Z := (p_proc_state p, p_name p).

(** What neither a read nor the loader's own steps change. *)
Record kept (s s' : sys) : Prop := {
  kp_phys : v_phys (s_vm s') = v_phys (s_vm s);
  kp_page : first_free_page (s_kernel s') = first_free_page (s_kernel s);
  kp_prog_page : first_free_prog_page (s_kernel s') = first_free_prog_page (s_kernel s);
  kp_current : current_proc (s_kernel s') = current_proc (s_kernel s);
  kp_enabled : scheduling_enabled (s_kernel s') = scheduling_enabled (s_kernel s);
  kp_states Q : snapshot <$> k_procs (s_kernel s') !! Q = snapshot <$> k_procs (s_kernel s) !! Q;
}.

(** What a step of the loader between two reads does not change. *)
Record undisturbed (s s' : sys) : Prop := {
  ud_store : s_store s' = s_store s;
  ud_semas : s_semas s' = s_semas s;
  ud_bufs : s_bufs s' = s_bufs s;
  ud_vfs : s_vfs s' = s_vfs s;
  ud_dev : s_dev s' = s_dev s;
  ud_file f : file_at file s = Ret f -> exists o, file_at file s' = Ret (at_offset o f);
}.

(** The file can be read: from its offset on, as far as it goes.  [I] is the
    invariant of the driver behind it. *)
Record readable (I : sys -> Prop) : Prop := {
  rd_frame s s' : I s -> undisturbed s s' -> I s';
  rd_read s f buf b n :
    I s -> file_at file s = Ret f -> is_u16 (f_offset f) -> s_bufs s !! buf = Some b -> buf < 0 ->
    0 < n <= zlen b -> n < 32768 ->
    let d := take (Z.to_nat n) (drop (Z.to_nat (f_offset f)) content) in
    exists s', vfs_read_blocking file 0 buf n s = Ret (zlen d, s') /\ I s' /\ kept s s' /\
      s_bufs s' = <[buf := splice b 0 d]> (s_bufs s) /\ inodes (s_vfs s') = inodes (s_vfs s) /\
      file_at file s' = Ret (at_offset (u16 (f_offset f + zlen d)) f);
}.

Context (I : sys -> Prop) (R : readable I).

Definition buffer (a n : Z) (s : sys) : Prop := exists b, s_bufs s !! a = Some b /\ zlen b = n.

(** The state while a program is loaded: [o] is the position in the file, [ps]
    the context of the new process, [F] and [G] the next free pages. *)
Record loading (s : sys) (o : Z) (ps : proc_state) (phys : gmap Z (list Z)) (F G : Z) : Prop := {
  ld_inv : I s;
  ld_file : exists f, file_at file s = Ret f /\ f_inode f <> 0 /\ f_offset f = o;
  ld_off : is_u16 o;
  ld_proc : snapshot <$> k_procs (s_kernel s) !! P = Some (ps, name);
  ld_entry : pc ps = entry;
  ld_phys : v_phys (s_vm s) = phys;
  ld_page : first_free_page (s_kernel s) = F;
  ld_prog_page : first_free_prog_page (s_kernel s) = G;
  ld_current : current_ok (s_kernel s);
  ld_other : P <> current_proc (s_kernel s);
  ld_bufs : buffer LOAD_BUFF_AT LOAD_BUFF s /\ buffer PH_BUFF_AT PH_SIZE s;
}.

(** Physical memory changed through the kernel's page 0. *)
Definition poked (phys : gmap Z (list Z)) (page : Z) (s : sys) : sys :=
  set_vm (Vm (v_kernel (mapped page (s_vm s))) phys page) s.

Lemma current_ok_kept s s' : current_ok (s_kernel s) -> kept s s' -> current_ok (s_kernel s').
Proof.
  intros C K E. rewrite (kp_enabled _ _ K) in E. destruct (C E) as (p & Hp & Hl).
  pose proof (kp_states _ _ K (current_proc (s_kernel s))) as Hs. rewrite Hp, <-(kp_current _ _ K) in Hs.
  simpl in Hs. apply fmap_Some in Hs as (p' & Hp' & Hps). injection Hps as Hps _. exists p'. split; [done|]. by rewrite <-Hps.
Qed.

Lemma file_at_poked phys page s : file_at file (poked phys page s) = file_at file s.
Proof.
  unfold file_at, poked, s_kernel, mapped. simpl. destruct (_ && _); simpl; [|done].
  set (k := v_kernel (s_vm s)). unfold deref. destruct (decide (file_proc file = current_proc k)) as [->|].
  - rewrite lookup_alter_eq. by destruct (k_procs k !! current_proc k).
  - by rewrite lookup_alter_ne.
Qed.

Lemma poked_undisturbed phys page s : undisturbed s (poked phys page s).
Proof.
  assert (k_store (s_kernel (poked phys page s)) = s_store s /\ k_semas (s_kernel (poked phys page s)) = s_semas s) as [? ?].
  { unfold s_store, s_semas, s_kernel, poked, mapped. simpl. by destruct (_ && _). }
  split; try done. intros f Hf. exists (f_offset f). rewrite file_at_poked, Hf. by destruct f.
Qed.

Lemma loading_poked s o ps phys F G phys' page : loading s o ps phys F G ->
  loading (poked phys' page s) o ps phys' F G.
Proof using R.
  intros L. destruct (map_page_zero_ok page (s_vm s) (ld_current _ _ _ _ _ _ L)) as [_ C].
  split; try apply L; try done.
  - eapply (rd_frame _ R); [apply L|apply poked_undisturbed].
  - rewrite file_at_poked. apply L.
  - pose proof (ld_proc _ _ _ _ _ _ L) as Hp. pose proof (ld_other _ _ _ _ _ _ L) as Hne.
    unfold poked, s_kernel, mapped in *. simpl. destruct (_ && _); simpl; [|done]. by rewrite lookup_alter_ne by congruence.
  - rewrite <-(ld_page _ _ _ _ _ _ L). unfold poked, s_kernel, mapped. simpl. by destruct (_ && _).
  - rewrite <-(ld_prog_page _ _ _ _ _ _ L). unfold poked, s_kernel, mapped. simpl. by destruct (_ && _).
  - pose proof (ld_other _ _ _ _ _ _ L) as Hne. unfold poked, s_kernel, mapped in *. simpl. by destruct (_ && _).
Qed.

(** A copy into a page of the new process. *)
Lemma load_into_ok (prog : bool) page data size offset s pg :
  current_ok (s_kernel s) -> v_phys (s_vm s) !! page = Some pg -> zlen pg = PAGE_SIZE ->
  0 <= size <= zlen data -> 0 <= offset -> offset + size <= PAGE_SIZE -> (prog = true -> size mod 4 = 0) ->
  (v ← (if prog then load_into_userspace_program page data 0 size offset (s_vm s)
        else load_into_userspace page data 0 size offset (s_vm s)); Ret (set_vm v s)) =
  Ret (poked (<[page := splice pg offset (take (Z.to_nat size) data)]> (v_phys (s_vm s))) ILLEGAL_PAGE s).
Proof.
  intros C Hpg Hlen Hs Ho Hfit Hprog.
  destruct (map_page_zero_ok page (s_vm s) C) as [E1 C1].
  assert (Hz : zero_page (mapped page (s_vm s)) = page) by done.
  assert (Hph : v_phys (mapped page (s_vm s)) = v_phys (s_vm s)) by done.
  assert (Hc : memcpy pg offset data 0 size = Ret (splice pg offset (take (Z.to_nat size) data))).
  { rewrite (memcpy_at _ _ _ _ _ [] (take (Z.to_nat size) data) (drop (Z.to_nat size) data)); try done.
    - by rewrite app_nil_l, take_drop.
    - rewrite length_take. lia.
    - lia. }
  set (v2 := Vm (v_kernel (mapped page (s_vm s)))
     (<[page := splice pg offset (take (Z.to_nat size) data)]> (v_phys (s_vm s))) page).
  destruct (map_page_zero_ok ILLEGAL_PAGE v2 C1) as [E2 _].
  assert (Ev : Ret (set_vm (mapped ILLEGAL_PAGE v2) s) =
     Ret (poked (<[page := splice pg offset (take (Z.to_nat size) data)]> (v_phys (s_vm s))) ILLEGAL_PAGE s)).
  { unfold poked. by rewrite <-(mapped_mapped ILLEGAL_PAGE page (s_vm s)). }
  assert (A : ASSERT (u16 (offset + size) <=? PAGE_SIZE) = Ret tt).
  { rewrite u16_small by (unfold PAGE_SIZE in *; lia). by rewrite (proj2 (Z.leb_le _ _)). }
  destruct prog; unfold load_into_userspace_program, load_into_userspace; rewrite A; cbn [mbind outcome_bind].
  - assert (ASSERT (Z.land size 3 =? 0) = Ret tt) as ->.
    { change 3 with (Z.ones 2). rewrite Z.land_ones by lia. change (2 ^ 2) with 4. by rewrite Hprog. }
    cbn [mbind outcome_bind]. rewrite E1. cbn [mbind outcome_bind]. rewrite Hz, Hph, (deref_Some _ _ _ Hpg).
    cbn [mbind outcome_bind]. rewrite Hc. cbn [mbind outcome_bind]. fold v2. rewrite E2. exact Ev.
  - rewrite E1. cbn [mbind outcome_bind]. rewrite Hz, Hph, (deref_Some _ _ _ Hpg).
    cbn [mbind outcome_bind]. rewrite Hc. cbn [mbind outcome_bind]. fold v2. rewrite E2. exact Ev.
Qed.

Definition slice (o n : Z) : list Z := take (Z.to_nat n) (drop (Z.to_nat o) content).

Lemma length_slice o n : 0 <= o -> 0 <= n -> o + n <= zlen content -> zlen (slice o n) = n.
Proof. intros. unfold slice. rewrite length_take, length_drop. lia. Qed.

Lemma slice_app o n1 n2 : 0 <= o -> 0 <= n1 -> 0 <= n2 -> slice o (n1 + n2) = slice o n1 ++ slice (o + n1) n2.
Proof.
  intros. unfold slice. rewrite !Z2Nat.inj_add by lia. rewrite <-drop_drop.
  generalize (drop (Z.to_nat o) content). intros l. by rewrite <-take_take_drop.
Qed.

Lemma slice_lookup o n (i : nat) : 0 <= o -> Z.of_nat i < n -> slice o n !! i = content !! (Z.to_nat o + i)%nat.
Proof. intros. unfold slice. by rewrite lookup_take_lt, lookup_drop by lia. Qed.

Lemma buffer_splice a n s s' buf b d : buffer a n s -> s_bufs s !! buf = Some b ->
  s_bufs s' = <[buf := splice b 0 d]> (s_bufs s) -> zlen d <= zlen b -> buffer a n s'.
Proof.
  intros (x & Hx & Hl) Hb E Hd. unfold buffer. rewrite E. destruct (decide (a = buf)) as [->|].
  - exists (splice b 0 d). rewrite lookup_insert_eq. split; [done|]. rewrite length_splice by lia. congruence.
  - exists x. by rewrite lookup_insert_ne.
Qed.

Lemma loading_read s o ps phys F G buf b n :
  loading s o ps phys F G -> s_bufs s !! buf = Some b -> buf < 0 -> 0 < n <= zlen b -> n < 32768 ->
  o + n <= zlen content -> o + n < 65536 ->
  exists s', vfs_read_blocking file 0 buf n s = Ret (n, s') /\ loading s' (o + n) ps phys F G /\
    s_bufs s' !! buf = Some (splice b 0 (slice o n)).
Proof using R.
  intros L Hb Hbuf Hn Hn15 Hc Ho. destruct (ld_file _ _ _ _ _ _ L) as (f & Hf & Hi & Hfo).
  pose proof (ld_off _ _ _ _ _ _ L) as Hu.
  destruct (rd_read _ R s f buf b n (ld_inv _ _ _ _ _ _ L) Hf) as (s' & E & HI & K & Hbufs & Hino & Hf'); try (done || lia).
  rewrite Hfo in *. fold (slice o n) in E, Hbufs, Hf'. assert (Hl : zlen (slice o n) = n) by (apply length_slice; lia).
  rewrite Hl in *. exists s'. split; [done|]. split; [|by rewrite Hbufs, lookup_insert_eq].
  split; try done.
  - exists (at_offset (o + n) f). rewrite u16_small in Hf' by lia. split_and!; done.
  - lia.
  - rewrite (kp_states _ _ K). apply L.
  - apply L.
  - rewrite (kp_phys _ _ K). apply L.
  - rewrite (kp_page _ _ K). apply L.
  - rewrite (kp_prog_page _ _ K). apply L.
  - eapply current_ok_kept; [apply L|done].
  - rewrite (kp_current _ _ K). apply L.
  - destruct (ld_bufs _ _ _ _ _ _ L). split; (eapply buffer_splice; [done..|lia]).
Qed.

(** The bytes of a page, from [m] to [e]. *)
Lemma load_loop_ok prog q e F G ps : forall fuel m s o phys pg,
  loading s o ps phys F G -> phys !! q = Some pg -> zlen pg = PAGE_SIZE ->
  0 <= m <= e + 1 -> e < PAGE_SIZE -> e + 1 - m < Z.of_nat fuel ->
  o + (e + 1 - m) <= zlen content -> o + (e + 1 - m) < 65536 -> (prog = true -> (e + 1 - m) mod 4 = 0) ->
  exists s', load_loop fuel file m e q prog s = Ret s' /\
    loading s' (o + (e + 1 - m)) ps (<[q := splice pg m (slice o (e + 1 - m))]> phys) F G.
Proof using R.
  unfold PAGE_SIZE. intros fuel. induction fuel as [|fuel IH]; intros m s o phys pg L Hq Hpg Hm He Hf Hc Ho Hprog; [lia|].
  simpl load_loop. pose proof (ld_off _ _ _ _ _ _ L) as Hu. destruct (Z.leb_spec m e) as [Hme|Hme].
  2: { replace (e + 1 - m) with 0 by lia. exists s. split; [done|]. rewrite Z.add_0_r.
       change (slice o 0) with (@nil Z). by rewrite splice_nil, insert_id. }
  rewrite (u16_small (e - m + 1)) by lia. set (n := Z.min LOAD_BUFF (e - m + 1)).
  assert (Hn : 0 < n <= LOAD_BUFF /\ n <= e + 1 - m) by (unfold n, LOAD_BUFF; lia).
  assert (Hn4 : prog = true -> n mod 4 = 0 /\ (e + 1 - (m + n)) mod 4 = 0).
  { intros Hp. specialize (Hprog Hp). unfold n, LOAD_BUFF. zlia. }
  clearbody n.
  destruct (ld_bufs _ _ _ _ _ _ L) as [(b0 & Hb0 & Hbl0) _]. unfold LOAD_BUFF in *.
  assert (Hsl : zlen (slice o n) = n) by (apply length_slice; lia).
  destruct (loading_read s o ps phys F G LOAD_BUFF_AT b0 n L Hb0) as (s1 & -> & L1 & Hb); [done|lia..|].
  set (b := splice b0 0 (slice o n)) in *.
  assert (Hbl : zlen b = 256) by (unfold b; rewrite length_splice; lia).
  assert (Ht : take (Z.to_nat n) b = slice o n) by (unfold b, splice; rewrite take_0, app_nil_l, take_app_length'; [done|lia]).
  cbn [mbind outcome_bind]. rewrite (u16_small n), (eqb_ne n 0) by lia.
  cbn [negb ASSERT mbind outcome_bind]. rewrite (deref_Some _ _ _ Hb). cbn [mbind outcome_bind].
  rewrite (u16_small (m + n)) by lia.
  pose proof (load_into_ok prog q b n m s1 pg (ld_current _ _ _ _ _ _ L1)) as Hload.
  rewrite (ld_phys _ _ _ _ _ _ L1), Ht in Hload. unfold PAGE_SIZE in Hload.
  specialize (Hload Hq Hpg ltac:(lia) ltac:(lia) ltac:(lia) ltac:(by intros [? _]%Hn4)).
  destruct (if prog then _ else _) as [v| | | |] eqn:Ev in Hload |- *; try done. cbn [mbind outcome_bind] in Hload |- *.
  assert (set_vm v s1 = poked (<[q := splice pg m (slice o n)]> phys) ILLEGAL_PAGE s1) as -> by congruence.
  pose proof (loading_poked _ _ _ _ _ _ (<[q := splice pg m (slice o n)]> phys) ILLEGAL_PAGE L1) as L2.
  destruct (IH (m + n) _ (o + n) _ (splice pg m (slice o n)) L2) as (s' & -> & L');
    [by rewrite lookup_insert_eq|rewrite length_splice; lia|lia..|by intros [_ ?]%Hn4|].
  exists s'. split; [done|]. replace (o + n + (e + 1 - (m + n))) with (o + (e + 1 - m)) in L' by lia.
    rewrite insert_insert_eq in L'.
    pose proof (splice_app pg m (slice o n) (slice (o + n) (e + 1 - (m + n))) ltac:(lia) ltac:(lia)) as Hsp.
    rewrite Hsl in Hsp. rewrite Hsp in L'.
    rewrite <-slice_app in L' by lia. by replace (n + (e + 1 - (m + n))) with (e + 1 - m) in L' by lia.
Qed.

(** ** The pages of the new process *)

(** The physical page behind page [j] of the data memory, or of the instruction
    memory as the kernel sees it. *)
Definition seg_page (prog : bool) (ps : proc_state) (j : Z) : option Z :=
  if prog then g ← prog_pages ps !! Z.to_nat (j / 2); if g =? 0xff then None else Some (2 * g + j mod 2 + 0x1000)
  else g ← mem_pages ps !! Z.to_nat j; if g =? 0xff then None else Some g.

(** The tables map different pages to different physical pages, all of them
    given out: below [F] in data memory, below [G] in instruction memory.  The
    number 0xff stands for no page. *)
Definition table_ok (lo next : Z) (t : list Z) : Prop :=
  length t = 16%nat /\ (forall i g, t !! i = Some g -> g = 0xff \/ lo <= g < next) /\
  (forall i i' g, t !! i = Some g -> t !! i' = Some g -> g <> 0xff -> i = i').

Definition tables_ok (ps : proc_state) (F G : Z) : Prop :=
  table_ok 0x100 F (mem_pages ps) /\ table_ok 0 G (prog_pages ps) /\ 0x100 <= F <= 0x1000 /\ 0 <= G <= 0xff.

(** Every page that can be given out is there. *)
Definition memory_there (phys : gmap Z (list Z)) : Prop :=
  forall q, 0x100 <= q < 0x1200 -> exists pg, phys !! q = Some pg /\ zlen pg = PAGE_SIZE.

Lemma table_set lo next t i : lo <= next -> next <> 0xff -> t !! i = Some 0xff -> table_ok lo next t ->
  table_ok lo (next + 1) (<[i := next]> t).
Proof.
  intros Hlo Hne Hi (Hl & Hg & Hinj). pose proof (lookup_lt_Some _ _ _ Hi) as Hlt. split_and!.
  - by rewrite length_insert.
  - intros j g Hj. apply list_lookup_insert_Some in Hj as [(<- & <- & _)|[_ Hj]]; [lia|]. destruct (Hg j g Hj); lia.
  - intros j j' g Hj Hj' Hff.
    apply list_lookup_insert_Some in Hj as [(<- & <- & _)|[? Hj]]; apply list_lookup_insert_Some in Hj' as [(<- & ? & _)|[? Hj']]; try done.
    + destruct (Hg j' next Hj'); lia.
    + subst g. destruct (Hg j next Hj); lia.
    + by eapply Hinj.
Qed.

Lemma table_next lo next next' t : next <= next' -> table_ok lo next t -> table_ok lo next' t.
Proof. intros Hn (? & Hg & ?). split_and!; try done. intros i g Hi. destruct (Hg i g Hi); lia. Qed.

Lemma seg_page_range b ps F G j q : tables_ok ps F G -> seg_page b ps j = Some q ->
  if b then 0x1000 <= q < 2 * G + 0x1000 else 0x100 <= q < F.
Proof.
  intros (HM & HP & _) Hq. destruct b; simpl in Hq.
  - destruct HP as (_ & Hg & _). destruct (prog_pages ps !! _) as [g|] eqn:E; simpl in Hq; [|done].
    destruct (Z.eqb_spec g 0xff); simplify_eq. destruct (Hg _ _ E); zlia.
  - destruct HM as (_ & Hg & _). destruct (mem_pages ps !! _) as [g|] eqn:E; simpl in Hq; [|done].
    destruct (Z.eqb_spec g 0xff); simplify_eq. destruct (Hg _ _ E); lia.
Qed.

Lemma seg_page_inj b b' ps F G j j' q : tables_ok ps F G -> 0 <= j -> 0 <= j' ->
  seg_page b ps j = Some q -> seg_page b' ps j' = Some q -> b = b' /\ j = j'.
Proof.
  intros T Hj Hj' Hq Hq'. pose proof (seg_page_range _ _ _ _ _ _ T Hq) as Hr.
  pose proof (seg_page_range _ _ _ _ _ _ T Hq') as Hr'. destruct T as (HM & HP & HF & HG).
  destruct b, b'; try lia; split; try done; simpl in Hq, Hq'.
  - destruct HP as (_ & _ & Hinj). destruct (prog_pages ps !! Z.to_nat (j / 2)) as [g|] eqn:E; simpl in Hq; [|done].
    destruct (prog_pages ps !! Z.to_nat (j' / 2)) as [g'|] eqn:E'; simpl in Hq'; [|done].
    destruct (Z.eqb_spec g 0xff); [done|]. destruct (Z.eqb_spec g' 0xff); [done|].
    assert (g' = g) as -> by (simplify_eq; zlia). specialize (Hinj _ _ _ E E'). simplify_eq. zlia.
  - destruct HM as (_ & _ & Hinj). destruct (mem_pages ps !! Z.to_nat j) as [g|] eqn:E; simpl in Hq; [|done].
    destruct (mem_pages ps !! Z.to_nat j') as [g'|] eqn:E'; simpl in Hq'; [|done].
    destruct (Z.eqb_spec g 0xff); [done|]. destruct (Z.eqb_spec g' 0xff); [done|]. simplify_eq.
    specialize (Hinj _ _ _ E E'). lia.
Qed.

(** The tables [ps'] are [ps] with page [j] mapped to [q]. *)
Record fetched (prog : bool) (j q : Z) (ps ps' : proc_state) (F F' G G' : Z) : Prop := {
  ft_tables : tables_ok ps' F' G';
  ft_page : seg_page prog ps' j = Some q;
  ft_keeps b i x : seg_page b ps i = Some x -> seg_page b ps' i = Some x;
  ft_fresh : seg_page prog ps j = Some q \/
    forall b i, seg_page b ps i <> Some q;
  ft_next : F <= F' <= F + 1 /\ G <= G' <= G + 1;
}.

Lemma fetched_mapped prog j q ps F G : tables_ok ps F G -> seg_page prog ps j = Some q -> fetched prog j q ps ps F F G G.
Proof. intros T E. split; try (done || lia). by left. Qed.

Lemma fetched_code j ps F G : tables_ok ps F G -> G < 0xff -> 0 <= j < 16 -> prog_pages ps !! Z.to_nat (j / 2) = Some 0xff ->
  fetched true j (2 * G + j mod 2 + 0x1000) ps (set_prog_pages (<[Z.to_nat (j / 2) := G]> (prog_pages ps)) ps) F F G (G + 1).
Proof.
  intros T HG Hj Hgj. pose proof T as (HM & HP & HF' & HG'). pose proof HP as (Hlen & _). split; [| | | |lia].
  - split_and!; try (done || lia). simpl. apply table_set; (done || lia).
  - simpl. rewrite list_lookup_insert_eq by zlia. simpl. by rewrite eqb_ne by lia.
  - intros [] i x Hx; [|exact Hx]. simpl in *. rewrite list_lookup_insert_ne; [done|].
    intros E. rewrite <-E, Hgj in Hx. done.
  - right. intros b i Hx. pose proof (seg_page_range _ _ _ _ _ _ T Hx). destruct b; zlia.
Qed.

Lemma fetched_data j ps F G : tables_ok ps F G -> F < 0x1000 -> 0 <= j < 16 -> mem_pages ps !! Z.to_nat j = Some 0xff ->
  fetched false j F ps (set_mem_pages (<[Z.to_nat j := F]> (mem_pages ps)) ps) F (F + 1) G G.
Proof.
  intros T HF Hj Hgj. pose proof T as (HM & HP & HF' & HG'). pose proof HM as (Hlen & _). split; [| | | |lia].
  - split_and!; try (done || lia). simpl. apply table_set; (done || lia).
  - simpl. rewrite list_lookup_insert_eq by lia. simpl. by rewrite eqb_ne by lia.
  - intros [] i x Hx; [exact Hx|]. simpl in *. rewrite list_lookup_insert_ne; [done|].
    intros E. rewrite <-E, Hgj in Hx. done.
  - right. intros b i Hx. pose proof (seg_page_range _ _ _ _ _ _ T Hx). destruct b; lia.
Qed.

Lemma prog_page_number g j : 0 <= g <= 0xff -> 0 <= j < 16 ->
  i16 (Z.lor (u16 (Z.shiftl g 1)) (Z.land j 1) + Z.shiftl 0x800 1) = 2 * g + j mod 2 + 0x1000.
Proof.
  intros Hg Hj. change 1 with (Z.ones 1) at 2. rewrite Z.land_ones, Z.shiftl_mul_pow2 by lia.
  change (2 ^ 1) with 2. change (Z.shiftl 0x800 1) with 0x1000. rewrite u16_small by lia.
  assert (Z.lor (g * 2) (j mod 2) = 2 * g + j mod 2) as ->.
  { rewrite <-Z.lxor_lor, <-Z.add_nocarry_lxor; [lia|..].
    all: apply Z.bits_inj'; intros n Hn; rewrite Z.land_spec, Z.bits_0.
    all: change 2 with (2 ^ 1); destruct (decide (n < 1)).
    all: rewrite ?(Z.mul_pow2_bits_low g 1 n), ?(Z.mod_pow2_bits_high j 1 n), ?andb_false_r by lia; done. }
  apply i16_small. zlia.
Qed.

Lemma loading_tables s o ps phys F G p ps' :
  loading s o ps phys F G -> k_procs (s_kernel s) !! P = Some p -> P <> file_proc file -> pc ps' = pc ps ->
  loading (set_tables P p ps' s) o ps' phys F G.
Proof using R.
  intros L Hp Hne Hpc. pose proof (ld_other _ _ _ _ _ _ L) as Hcur.
  assert (Hf : file_at file (set_tables P p ps' s) = file_at file s).
  { unfold file_at, deref, s_kernel, set_tables. simpl. by rewrite lookup_insert_ne by done. }
  split; try apply L; try done.
  - eapply (rd_frame _ R); [apply L|]. split; try done. intros f E. exists (f_offset f). rewrite Hf, E. by destruct f.
  - rewrite Hf. apply L.
  - unfold s_kernel, set_tables. simpl. rewrite lookup_insert_eq. simpl.
    pose proof (ld_proc _ _ _ _ _ _ L) as Hs. rewrite Hp in Hs. by injection Hs as _ <-.
  - rewrite Hpc. apply L.
  - intros En. destruct (ld_current _ _ _ _ _ _ L En) as (c & Hc & Hl). exists c. split; [|done].
    unfold s_kernel, set_tables in *. simpl. by rewrite lookup_insert_ne.
Qed.

Lemma loading_counters s o ps phys F G F' G' :
  loading s o ps phys F G ->
  loading (set_kernel (set_first_free_prog_page G' (set_first_free_page F' (s_kernel s))) s) o ps phys F' G'.
Proof using R.
  intros L. split; try apply L; try done. eapply (rd_frame _ R); [apply L|].
  split; try done. intros f E. exists (f_offset f). change (file_at file s = Ret (at_offset (f_offset f) f)). rewrite E. by destruct f.
Qed.

(** A page is mapped already, or the next free one is taken. *)
Lemma phys_page_ok prog s o ps phys F G j l :
  loading s o ps phys F G -> tables_ok ps F G -> F < 0x1000 -> G < 0xff -> P <> file_proc file ->
  0 <= j < 16 -> 0 <= l < PAGE_SIZE ->
  exists q s' ps' F' G', phys_page_to_load P (j * PAGE_SIZE + l) prog s = Ret (q, s') /\
    loading s' o ps' phys F' G' /\ fetched prog j q ps ps' F F' G G'.
Proof using R.
  intros L T HF HG Hne Hj Hl. unfold phys_page_to_load.
  assert (Z.shiftr (j * PAGE_SIZE + l) 12 = j) as ->.
  { rewrite Z.shiftr_div_pow2 by lia. change (2 ^ 12) with 4096. unfold PAGE_SIZE in *. zlia. }
  pose proof (ld_proc _ _ _ _ _ _ L) as Hps. apply fmap_Some in Hps as (p & Hp & [= -> _]).
  rewrite (deref_Some _ _ _ Hp). cbn [mbind outcome_bind]. pose proof T as ((HlM & _) & (HlP & Hg & _) & HF' & HG').
  destruct prog.
  - destruct (arr_get_in (prog_pages (p_proc_state p)) (j / 2)) as (g & -> & Hgj); [zlia|]. cbn [mbind outcome_bind].
    destruct (Z.eqb_spec g 0xff) as [->|Hff]; cbn [mbind outcome_bind].
    + rewrite arr_set_in by zlia. cbn [mbind outcome_bind]. rewrite (ld_prog_page _ _ _ _ _ _ L).
      rewrite prog_page_number, i16_small by lia.
      pose proof (loading_counters _ _ _ _ _ _ F (G + 1) (loading_tables _ _ _ _ _ _ p
        (set_prog_pages (<[Z.to_nat (j / 2) := G]> (prog_pages (p_proc_state p))) (p_proc_state p)) L Hp Hne eq_refl)) as L'.
      eexists _, _, _, _, _. split; [reflexivity|]. split; [|by apply fetched_code].
      match goal with |- loading ?x _ _ _ _ _ => match type of L' with loading ?y _ _ _ _ _ => replace x with y; [exact L'|] end end.
      rewrite <-(ld_page _ _ _ _ _ _ L). by destruct s as [[[] ? ?] ? ? ? ?].
    + destruct (Hg _ _ Hgj) as [?|Hgr]; [done|]. rewrite prog_page_number by lia.
      eexists _, s, (p_proc_state p), F, G. split; [reflexivity|]. split; [exact L|]. apply fetched_mapped; [done|].
      simpl. rewrite Hgj. simpl. by rewrite eqb_ne.
  - destruct (arr_get_in (mem_pages (p_proc_state p)) j) as (g & -> & Hgj); [lia|]. cbn [mbind outcome_bind].
    destruct (Z.eqb_spec g 0xff) as [->|Hff]; cbn [mbind outcome_bind].
    + rewrite arr_set_in by lia. cbn [mbind outcome_bind]. rewrite (ld_page _ _ _ _ _ _ L), i16_small by lia.
      pose proof (loading_counters _ _ _ _ _ _ (F + 1) G (loading_tables _ _ _ _ _ _ p
        (set_mem_pages (<[Z.to_nat j := F]> (mem_pages (p_proc_state p))) (p_proc_state p)) L Hp Hne eq_refl)) as L'.
      eexists _, _, _, _, _. split; [reflexivity|]. split; [|by apply fetched_data].
      match goal with |- loading ?x _ _ _ _ _ => match type of L' with loading ?y _ _ _ _ _ => replace x with y; [exact L'|] end end.
      rewrite <-(ld_prog_page _ _ _ _ _ _ L). by destruct s as [[[] ? ?] ? ? ? ?].
    + eexists _, s, (p_proc_state p), F, G. split; [reflexivity|]. split; [exact L|]. apply fetched_mapped; [done|].
      simpl. rewrite Hgj. simpl. by rewrite eqb_ne.
Qed.

(** ** What the process finds in its memory *)

Definition seg_byte (prog : bool) (ps : proc_state) (phys : gmap Z (list Z)) (a : Z) : option Z :=
  q ← seg_page prog ps (a / PAGE_SIZE);
  pg ← phys !! q;
  pg !! Z.to_nat (a mod PAGE_SIZE).

(** A process, its memory and the next free pages. *)
Record image (s : sys) (o : Z) (ps : proc_state) (phys : gmap Z (list Z)) (F G : Z) : Prop := {
  im_loading : loading s o ps phys F G;
  im_tables : tables_ok ps F G;
  im_memory : memory_there phys;
}.

Lemma memory_insert phys q pg : memory_there phys -> zlen pg = PAGE_SIZE -> memory_there (<[q := pg]> phys).
Proof.
  intros M Hl x Hx. destruct (decide (x = q)) as [->|].
  - exists pg. by rewrite lookup_insert_eq.
  - rewrite lookup_insert_ne by done. by apply M.
Qed.

(** A page that was just fetched is filled: its own bytes are the new ones, and
    every other byte that could be reached before is the same. *)
Lemma seg_byte_own prog j q ps ps' F F' G G' phys pg a :
  fetched prog j q ps ps' F F' G G' -> a / PAGE_SIZE = j ->
  seg_byte prog ps' (<[q := pg]> phys) a = pg !! Z.to_nat (a mod PAGE_SIZE).
Proof.
  intros Ft Ha. unfold seg_byte. rewrite Ha, (ft_page _ _ _ _ _ _ _ _ _ Ft). simpl. by rewrite lookup_insert_eq.
Qed.

Lemma seg_byte_other prog j q ps ps' F F' G G' phys pg b a x :
  fetched prog j q ps ps' F F' G G' -> 0 <= j -> 0 <= a -> ~ (b = prog /\ a / PAGE_SIZE = j) ->
  seg_byte b ps phys a = Some x -> seg_byte b ps' (<[q := pg]> phys) a = Some x.
Proof.
  intros Ft Hj Ha Hne. unfold seg_byte. destruct (seg_page b ps (a / PAGE_SIZE)) as [r|] eqn:Er; [|done]. simpl.
  pose proof (ft_keeps _ _ _ _ _ _ _ _ _ Ft _ _ _ Er) as Er'. rewrite Er'. simpl.
  rewrite lookup_insert_ne; [done|]. intros <-. apply Hne.
  destruct (seg_page_inj b prog ps' F' G' (a / PAGE_SIZE) j q) as [? ?]; try done; [apply Ft| |apply Ft].
  unfold PAGE_SIZE. zlia.
Qed.

(** The same for the bytes of the page itself, when it was mapped before. *)
Lemma seg_byte_same_page prog j q ps ps' F F' G G' phys pg pg' a x :
  fetched prog j q ps ps' F F' G G' -> a / PAGE_SIZE = j -> phys !! q = Some pg ->
  seg_byte prog ps phys a = Some x -> (pg !! Z.to_nat (a mod PAGE_SIZE) = Some x -> pg' !! Z.to_nat (a mod PAGE_SIZE) = Some x) ->
  seg_byte prog ps' (<[q := pg']> phys) a = Some x.
Proof.
  intros Ft Ha Hpg Hx Hpg'. rewrite (seg_byte_own _ _ _ _ _ _ _ _ _ _ _ _ Ft Ha).
  unfold seg_byte in Hx. destruct (seg_page prog ps (a / PAGE_SIZE)) as [r|] eqn:Er; [|done]. simpl in Hx.
  pose proof (ft_keeps _ _ _ _ _ _ _ _ _ Ft _ _ _ Er) as Er'. rewrite Ha, (ft_page _ _ _ _ _ _ _ _ _ Ft) in Er'.
  injection Er' as <-. rewrite Hpg in Hx. by apply Hpg'.
Qed.

Definition loaded_to (prog : bool) (va o : Z) (ps0 : proc_state) (phys0 : gmap Z (list Z)) (F0 G0 c : Z) (s : sys) : Prop :=
  exists ps phys F G, image s (o + c) ps phys F G /\
    F0 <= F <= F0 + (c + PAGE_SIZE - 1) / PAGE_SIZE /\ G0 <= G <= G0 + (c + PAGE_SIZE - 1) / PAGE_SIZE /\
    (forall i, 0 <= i < c -> seg_byte prog ps phys (va + i) = content !! Z.to_nat (o + i)) /\
    (forall b a x, 0 <= a -> ~ (b = prog /\ va <= a < va + (c + PAGE_SIZE - 1) / PAGE_SIZE * PAGE_SIZE) ->
       seg_byte b ps0 phys0 a = Some x -> seg_byte b ps phys a = Some x).

(** One more page: [k] pages are loaded, and [n] bytes of the next. *)
Lemma load_page_ok prog va o ps0 phys0 F0 G0 k n s :
  loaded_to prog va o ps0 phys0 F0 G0 (k * PAGE_SIZE) s -> P <> file_proc file ->
  va mod PAGE_SIZE = 0 -> 0 <= va -> 0 <= k -> va + k * PAGE_SIZE + n <= 65536 -> 0 < n <= PAGE_SIZE -> 0 <= o ->
  o + k * PAGE_SIZE + n <= zlen content -> o + k * PAGE_SIZE + n < 65536 -> (prog = true -> n mod 4 = 0) ->
  F0 + k < 0x1000 -> G0 + k < 0xff ->
  exists s', load_page file P (va + k * PAGE_SIZE) 0 (n - 1) prog s = Ret s' /\
    loaded_to prog va o ps0 phys0 F0 G0 (k * PAGE_SIZE + n) s'.
Proof using R.
  intros (ps & phys & F & G & [L T M] & HF & HG & Hown & Hkeep) Hne Hva Hva0 Hk Htop Hn Ho Hc Hco Hprog HF0 HG0.
  unfold load_page. set (j := va / PAGE_SIZE + k).
  assert (Hck : (k * PAGE_SIZE + PAGE_SIZE - 1) / PAGE_SIZE = k) by (unfold PAGE_SIZE; zlia). rewrite Hck in *.
  assert (Hckn : (k * PAGE_SIZE + n + PAGE_SIZE - 1) / PAGE_SIZE = k + 1) by (unfold PAGE_SIZE in *; zlia).
  assert (Ej : va + k * PAGE_SIZE = j * PAGE_SIZE + 0) by (unfold j, PAGE_SIZE in *; zlia).
  assert (Hj : 0 <= j < 16) by (unfold j, PAGE_SIZE in *; zlia). rewrite Ej.
  destruct (phys_page_ok prog s _ ps phys F G j 0 L T) as (q & s1 & ps1 & F1 & G1 & -> & L1 & Ft); try done; try lia.
  cbn [mbind outcome_bind]. unfold load_to_page. rewrite (proj2 (Z.ltb_lt _ _)) by lia. cbn [ASSERT mbind outcome_bind].
  pose proof (ft_tables _ _ _ _ _ _ _ _ _ Ft) as T1.
  assert (Hq : 0x100 <= q < 0x1200).
  { pose proof (seg_page_range _ _ _ _ _ _ T1 (ft_page _ _ _ _ _ _ _ _ _ Ft)) as Hq. destruct T1 as (_ & _ & ? & ?).
    destruct prog; lia. }
  destruct (M q Hq) as (pg & Hpg & Hlen).
  destruct (load_loop_ok prog q (n - 1) F1 G1 ps1 page_fuel 0 s1 (o + k * PAGE_SIZE) phys pg L1 Hpg Hlen) as (s2 & -> & L2);
    try lia; [unfold page_fuel; lia|by replace (n - 1 + 1 - 0) with n by lia|].
  replace (n - 1 + 1 - 0) with n in L2 by lia. set (d := slice (o + k * PAGE_SIZE) n) in *.
  assert (Hd : zlen d = n) by (apply length_slice; unfold PAGE_SIZE in *; lia).
  exists s2. split; [done|]. exists ps1, (<[q := splice pg 0 d]> phys), F1, G1.
  destruct (ft_next _ _ _ _ _ _ _ _ _ Ft) as [HF1 HG1]. rewrite Hckn. split_and!; try lia.
  - rewrite Z.add_assoc. split; [done|done|]. apply memory_insert; [done|]. rewrite length_splice; lia.
  - intros i Hi. destruct (decide (i < k * PAGE_SIZE)) as [Hlt|Hge].
    + destruct (lookup_lt_is_Some_2 content (Z.to_nat (o + i))) as [x Hx]; [lia|]. rewrite Hx.
      eapply seg_byte_other; [done|lia|lia| |rewrite Hown, Hx by lia; done].
      intros [_ E]. unfold j, PAGE_SIZE in *. zlia.
    + assert (Ea : (va + i) / PAGE_SIZE = j /\ (va + i) mod PAGE_SIZE = i - k * PAGE_SIZE) by (unfold j, PAGE_SIZE in *; zlia).
      destruct Ea as [Ea Em]. rewrite (seg_byte_own _ _ _ _ _ _ _ _ _ _ _ _ Ft Ea), Em.
      unfold splice. rewrite take_0, app_nil_l, lookup_app_l by lia. unfold d. rewrite slice_lookup by (unfold PAGE_SIZE in *; lia).
      f_equal. unfold PAGE_SIZE in *. lia.
  - intros b a x Ha Hout Hx. eapply seg_byte_other; [done|lia|lia| |apply Hkeep; try done].
    + intros [-> E]. apply Hout. split; [done|]. unfold j, PAGE_SIZE in *. zlia.
    + intros [-> E]. apply Hout. split; [done|]. unfold PAGE_SIZE in *. lia.
Qed.

Lemma loaded_to_start prog va s o ps phys F G : image s o ps phys F G -> loaded_to prog va o ps phys F G (0 * PAGE_SIZE) s.
Proof.
  intros Im. exists ps, phys, F, G. rewrite Z.mul_0_l, Z.add_0_r.
  change ((0 + PAGE_SIZE - 1) / PAGE_SIZE) with 0. split_and!; try (done || lia).
Qed.

(** Full pages, after [k] of them. *)
Lemma load_full_pages prog va o ps0 phys0 F0 G0 : P <> file_proc file -> va mod PAGE_SIZE = 0 -> 0 <= va -> 0 <= o ->
  forall m i k s, loaded_to prog va o ps0 phys0 F0 G0 (k * PAGE_SIZE) s -> 0 <= k ->
  va + (k + Z.of_nat m) * PAGE_SIZE < 65536 -> o + (k + Z.of_nat m) * PAGE_SIZE <= zlen content ->
  o + (k + Z.of_nat m) * PAGE_SIZE < 65536 -> F0 + k + Z.of_nat m < 0x1000 -> G0 + k + Z.of_nat m < 0xff ->
  exists s', for_loop m i (fun _ st =>
      s ← load_page file P st.1 0 (PAGE_SIZE - 1) prog st.2;
      Ret (u16 (st.1 + PAGE_SIZE), s)) (va + k * PAGE_SIZE, s) = Ret (va + (k + Z.of_nat m) * PAGE_SIZE, s') /\
    loaded_to prog va o ps0 phys0 F0 G0 ((k + Z.of_nat m) * PAGE_SIZE) s'.
Proof using R.
  intros Hne Hva Hva0 Ho m. induction m as [|m IH]; intros i k s Hs Hk Htop Hc Hco HF HG.
  - exists s. simpl. by rewrite !Z.add_0_r.
  - simpl for_loop. destruct (load_page_ok prog va o ps0 phys0 F0 G0 k PAGE_SIZE s) as (s1 & -> & Hs1);
      try done; try (unfold PAGE_SIZE in *; lia).
    cbn [mbind outcome_bind]. rewrite u16_small by (unfold PAGE_SIZE in *; lia).
    replace (k * PAGE_SIZE + PAGE_SIZE) with ((k + 1) * PAGE_SIZE) in Hs1 by lia.
    replace (va + k * PAGE_SIZE + PAGE_SIZE) with (va + (k + 1) * PAGE_SIZE) by lia.
    replace (k + Z.of_nat (S m)) with (k + 1 + Z.of_nat m) in * by lia. apply IH; (done || lia).
Qed.

(** Where the loader takes the part of the file to end: after a segment of one
    page it goes to the next page, not to the end of the segment. *)
Definition file_end (va n : Z) : Z :=
  if n =? 0 then va else if n <=? PAGE_SIZE then va + Z.min PAGE_SIZE (va + n) else va + n.

Lemma file_end_range va n : va mod PAGE_SIZE = 0 -> 0 <= va -> 0 <= n ->
  va + n <= file_end va n <= va + Z.max PAGE_SIZE n.
Proof. unfold file_end, PAGE_SIZE. intros. repeat case_match; zlia. Qed.

Lemma load_pages_ok prog va n s o ps phys F G :
  image s o ps phys F G -> P <> file_proc file -> va mod PAGE_SIZE = 0 -> 0 <= va -> 0 <= n -> va + n <= 0xF000 ->
  o + n <= zlen content -> o + n < 65536 -> (prog = true -> n mod 4 = 0) -> F + 16 <= 0x1000 -> G + 16 <= 0xff ->
  exists s', load_pages file P va n prog s = Ret (file_end va n, s') /\ loaded_to prog va o ps phys F G n s'.
Proof using R.
  intros Im Hne Hva Hva0 Hn Htop Hc Hco Hprog HF HG. unfold load_pages. pose proof (ld_off _ _ _ _ _ _ (im_loading _ _ _ _ _ _ Im)) as Ho.
  assert (HP : PAGE_SIZE = 4096) by done. unfold file_end. destruct (Z.eqb_spec n 0) as [->|Hn0]; cbn [negb].
  { exists s. split; [done|]. by apply loaded_to_start. }
  assert (u16 (u16 (n + PAGE_SIZE) - 1) = n + PAGE_SIZE - 1) as -> by (rewrite HP; zlia).
  rewrite (u16_small (va + n - 1)), (u16_small (va + n - 1 - va)), (u16_small (va + n - 1 + 1)) by lia.
  rewrite Hva, Z.sub_0_r. set (pages := (n + PAGE_SIZE - 1) / PAGE_SIZE).
  destruct (load_page_ok prog va o ps phys F G 0 (Z.min PAGE_SIZE n) s (loaded_to_start _ _ _ _ _ _ _ _ Im))
    as (s1 & E1 & Hs1); try done; try lia. { intros Hp. specialize (Hprog Hp). rewrite HP. zlia. }
  replace (Z.min (PAGE_SIZE - 1) (va + n - 1 - va)) with (Z.min PAGE_SIZE n - 1) by lia.
  rewrite Z.mul_0_l, Z.add_0_r in E1. rewrite E1. cbn [mbind outcome_bind].
  replace (va + n - 1 + 1) with (va + n) by lia.
  destruct (Z.leb_spec n PAGE_SIZE) as [Hone|Hmore].
  - assert (Hp1 : pages = 1) by (unfold pages; rewrite HP in *; zlia). rewrite Hp1. simpl for_loop. cbn [mbind outcome_bind].
    change (1 <? 1) with false. cbv iota. rewrite u16_small by lia. exists s1. split; [done|].
    by replace (Z.min PAGE_SIZE n) with n in Hs1 by lia.
  - assert (Hp2 : 2 <= pages <= 15 /\ (pages - 1) * 4096 < n <= pages * 4096) by (unfold pages; rewrite HP in *; zlia).
    replace (Z.min PAGE_SIZE n) with PAGE_SIZE in Hs1 by lia. replace (Z.min PAGE_SIZE (va + n)) with PAGE_SIZE by lia.
    clearbody pages. rewrite u16_small by lia.
    destruct (load_full_pages prog va o ps phys F G Hne Hva Hva0 ltac:(lia) (Z.to_nat (pages - 2)) 0 1 s1) as (s2 & E2 & Hs2);
      try (rewrite ?HP; lia); try by rewrite Z.mul_0_l, Z.add_0_l, <-(Z.mul_1_l PAGE_SIZE) in Hs1.
    rewrite Z2Nat.id in E2, Hs2 by lia. replace (1 + (pages - 2)) with (pages - 1) in * by lia.
    rewrite Z.mul_1_l in E2. rewrite E2. cbn [mbind outcome_bind].
    rewrite (proj2 (Z.ltb_lt _ _)) by lia.
    assert (Em : (va + n - 1) mod PAGE_SIZE = n - (pages - 1) * PAGE_SIZE - 1) by (rewrite HP in *; zlia). rewrite Em.
    destruct (load_page_ok prog va o ps phys F G (pages - 1) (n - (pages - 1) * PAGE_SIZE) s2 Hs2) as (s3 & -> & Hs3);
      try done; try (rewrite HP in *; lia). { intros Hp. specialize (Hprog Hp). rewrite HP in *. zlia. }
    cbn [mbind outcome_bind]. exists s3. replace ((pages - 1) * PAGE_SIZE + (n - (pages - 1) * PAGE_SIZE)) with n in Hs3 by lia.
    split; [|done]. rewrite u16_small by (rewrite HP in *; lia). do 2 f_equal. lia.
Qed.

(** ** The part of a segment that is not in the file *)

(** A 16-bit store of zero clears the byte at its address, and no byte but the
    next one or, at an odd address, the one before. *)
Definition word_store_ok : Prop := forall pg off, 0 <= off < zlen pg ->
  length (store_word pg off 0) = length pg /\ store_word pg off 0 !! Z.to_nat off = Some 0 /\
  (forall j, store_word pg off 0 !! j = pg !! j \/ store_word pg off 0 !! j = Some 0) /\
  (forall j : nat, Z.of_nat j < off - 1 \/ off + 1 < Z.of_nat j \/ Z.even off = true /\ Z.of_nat j < off ->
     store_word pg off 0 !! j = pg !! j).

Record cleared (off n : Z) (pg pg' : list Z) : Prop := {
  cl_length : length pg' = length pg;
  cl_zero j : off <= Z.of_nat j < off + n -> pg' !! j = Some 0;
  cl_either j : pg' !! j = pg !! j \/ pg' !! j = Some 0;
  cl_before j : Z.of_nat j < off - 1 \/ Z.even off = true /\ Z.of_nat j < off -> pg' !! j = pg !! j;
}.

Lemma clear_words_ok : word_store_ok -> forall n off v pg,
  v_phys v !! zero_page v = Some pg -> 0 <= off -> off + Z.of_nat n <= zlen pg ->
  exists pg', for_loop n off clear_word v = Ret (Vm (v_kernel v) (<[zero_page v := pg']> (v_phys v)) (zero_page v)) /\
    cleared off (Z.of_nat n) pg pg'.
Proof.
  intros W n. induction n as [|n IH]; intros off v pg Hpg Ho Hl.
  - exists pg. simpl. rewrite insert_id by done. split; [by destruct v|]. split; try done; [lia|by left].
  - assert (E1 : clear_word off v = Ret (Vm (v_kernel v) (<[zero_page v := store_word pg off 0]> (v_phys v)) (zero_page v))).
    { unfold clear_word. rewrite (deref_Some _ _ _ Hpg). cbn [mbind outcome_bind].
      by rewrite (proj2 (Z.leb_le _ _)), (proj2 (Z.ltb_lt _ _)) by lia. }
    simpl for_loop. rewrite E1. cbn [mbind outcome_bind].
    destruct (W pg off) as (Wl & Wz & We & Wo); [lia|].
    destruct (IH (off + 1) (Vm (v_kernel v) (<[zero_page v := store_word pg off 0]> (v_phys v)) (zero_page v)) (store_word pg off 0))
      as (pg' & E & C); [apply lookup_insert_eq|lia|lia|].
    exists pg'. rewrite E. simpl. rewrite insert_insert_eq. split; [done|]. destruct C as [Cl Cz Ce Cb]. split.
    + congruence.
    + intros j Hj. destruct (decide (Z.of_nat j = off)) as [Ej|]; [|apply Cz; lia].
      replace (Z.to_nat off) with j in Wz by lia. destruct (Ce j) as [->|]; done.
    + intros j. destruct (Ce j) as [->|]; [apply We|by right].
    + intros j Hj. rewrite Cb by (left; destruct Hj as [?|[_ ?]]; lia). apply Wo. destruct Hj; auto.
Qed.

Lemma clear_page_ok s o ps phys F G off n q pg : word_store_ok ->
  loading s o ps phys F G -> phys !! q = Some pg -> zlen pg = PAGE_SIZE -> 0 <= off -> 0 <= n -> off + n <= PAGE_SIZE ->
  exists s' pg', clear_page off n q s = Ret s' /\ loading s' o ps (<[q := pg']> phys) F G /\ cleared off n pg pg'.
Proof using R.
  intros W L Hq Hpg Ho Hn Hl. unfold clear_page. assert (HP : PAGE_SIZE = 4096) by done.
  rewrite u16_small, (proj2 (Z.leb_le _ _)) by lia. cbn [ASSERT mbind outcome_bind].
  destruct (map_page_zero_ok q (s_vm s) (ld_current _ _ _ _ _ _ L)) as [-> C1]. cbn [mbind outcome_bind].
  destruct (clear_words_ok W (Z.to_nat n) off (mapped q (s_vm s)) pg) as (pg' & -> & Cl); [|done|lia|].
  { simpl. by rewrite (ld_phys _ _ _ _ _ _ L). }
  cbn [mbind outcome_bind]. rewrite Z2Nat.id in Cl by done.
  set (v := Vm (v_kernel (mapped q (s_vm s))) _ _).
  destruct (map_page_zero_ok 0 v C1) as [-> _]. cbn [mbind outcome_bind].
  exists (poked (<[q := pg']> phys) 0 s), pg'. split_and!; [|by eapply loading_poked|done].
  do 2 f_equal. unfold poked. rewrite <-(mapped_mapped 0 q (s_vm s)), <-(ld_phys _ _ _ _ _ _ L). done.
Qed.

(** From [v] to [top] the memory is zero; nothing else that could be reached is
    different, up to the end of the page [top] is in. *)
Record zeroed (v top : Z) (ps ps' : proc_state) (phys phys' : gmap Z (list Z)) : Prop := {
  ze_zero a : v <= a < top -> seg_byte false ps' phys' a = Some 0;
  ze_keeps b a x : 0 <= a -> ~ (b = false /\ v <= a < (top + PAGE_SIZE - 1) / PAGE_SIZE * PAGE_SIZE) ->
    seg_byte b ps phys a = Some x -> seg_byte b ps' phys' a = Some x;
}.

Lemma zeroed_done v top ps phys : top <= v -> zeroed v top ps ps phys phys.
Proof. intros. by split; [lia|]. Qed.

(** One page is cleared from [v] on, then the rest. *)
Lemma zeroed_step v size top q pg pg' ps ps1 ps2 phys phys2 F F' G G' :
  fetched false (v / PAGE_SIZE) q ps ps1 F F' G G' -> phys !! q = Some pg -> zlen pg = PAGE_SIZE ->
  cleared (v mod PAGE_SIZE) size pg pg' -> 0 <= v -> Z.even v = true ->
  0 < size <= PAGE_SIZE - v mod PAGE_SIZE -> v + size <= top -> (v + size < top -> (v + size) mod PAGE_SIZE = 0) ->
  zeroed (v + size) top ps1 ps2 (<[q := pg']> phys) phys2 -> zeroed v top ps ps2 phys phys2.
Proof.
  assert (HP : PAGE_SIZE = 4096) by done.
  intros Ft Hpg Hlen Cl Hv Hev Hs Htop Hnext [Zz Zk]. split.
  - intros a Ha. destruct (decide (a < v + size)) as [Hlt|]; [|apply Zz; lia].
    apply Zk; [lia|lia|]. rewrite (seg_byte_own _ _ _ _ _ _ _ _ _ _ _ _ Ft) by (rewrite HP in *; zlia).
    apply (cl_zero _ _ _ _ Cl). rewrite HP in *. zlia.
  - intros b a x Ha Hout Hx. apply Zk; [done|intros [-> ?]; apply Hout; split; [done|lia]|].
    destruct (decide (b = false /\ a / PAGE_SIZE = v / PAGE_SIZE)) as [[-> Ea]|Hne].
    + eapply seg_byte_same_page; try done. intros Hb. rewrite (cl_before _ _ _ _ Cl); [done|]. right.
      assert (~ v <= a).
      { intros Hva. apply Hout. split; [done|]. split; [done|]. rewrite HP in *. zlia. }
      split; [|rewrite HP in *; zlia].
      rewrite <-Hev, HP. assert (Z.even v = Z.even (4096 * (v / 4096) + v mod 4096)) as -> by (f_equal; apply Z.div_mod; lia).
      rewrite Z.even_add, Z.even_mul. by destruct (Z.even (v mod 4096)).
    + eapply seg_byte_other; try done. rewrite HP. clear -Hv. zlia.
Qed.

(** The pages from [v] up to [top], at most. *)
Definition pages_left (v top : Z) : Z := if v <? top then 16 - v / PAGE_SIZE else 0.

Lemma clear_loop_ok top : word_store_ok -> P <> file_proc file -> top < 65536 ->
  forall fuel v s o ps phys F G, image s o ps phys F G -> 0 <= v < 65536 -> (v < top -> Z.even v = true) ->
  pages_left v top < Z.of_nat fuel -> F + pages_left v top <= 0x1000 -> G + pages_left v top <= 0xff ->
  exists s' ps' phys' F' G', clear_loop fuel P v top false s = Ret s' /\ image s' o ps' phys' F' G' /\
    F <= F' <= F + pages_left v top /\ G <= G' <= G + pages_left v top /\ zeroed v top ps ps' phys phys'.
Proof using R.
  assert (HP : PAGE_SIZE = 4096) by done. unfold pages_left.
  intros W Hne Htop fuel. induction fuel as [|fuel IH]; intros v s o ps phys F G Im Hv Hev Hf HF HG.
  { destruct (v <? top); rewrite ?HP in *; zlia. }
  simpl clear_loop. destruct (Z.ltb_spec v top) as [Hlt|Hge].
  2: { exists s, ps, phys, F, G. split_and!; try (done || lia). by apply zeroed_done. }
  rewrite (u16_small (top - v)) by lia. specialize (Hev Hlt). set (size := Z.min _ _). destruct Im as [L T M].
  assert (Hs : 0 < size /\ size <= top - v /\ size <= 4096 - v mod 4096 /\ (size = top - v \/ size = 4096 - v mod 4096))
    by (unfold size; rewrite HP; zlia).
  clearbody size.
  assert (Ev : v = v / PAGE_SIZE * PAGE_SIZE + v mod PAGE_SIZE /\ 0 <= v mod PAGE_SIZE < PAGE_SIZE /\ 0 <= v / PAGE_SIZE < 16)
    by (rewrite HP; zlia).
  destruct Ev as (Ev & Hvm & Hj).
  destruct (phys_page_ok false s o ps phys F G (v / PAGE_SIZE) (v mod PAGE_SIZE) L T) as (q & s1 & ps1 & F1 & G1 & E & L1 & Ft);
    try done; try lia.
  rewrite <-Ev in E. rewrite E. cbn [mbind outcome_bind]. pose proof (ft_tables _ _ _ _ _ _ _ _ _ Ft) as T1.
  pose proof (seg_page_range _ _ _ _ _ _ T1 (ft_page _ _ _ _ _ _ _ _ _ Ft)) as Hq. simpl in Hq.
  destruct (M q) as (pg & Hpg & Hlen); [destruct T1 as (_ & _ & ? & _); lia|].
  destruct (clear_page_ok s1 o ps1 phys F1 G1 (v mod PAGE_SIZE) size q pg W L1 Hpg Hlen) as (s2 & pg' & -> & L2 & Cl);
    try (rewrite HP in *; lia).
  cbn [mbind outcome_bind]. rewrite (u16_small (v + size)) by lia. destruct (ft_next _ _ _ _ _ _ _ _ _ Ft) as [HF1 HG1].
  assert (Hnext : v + size < top -> (v + size) mod PAGE_SIZE = 0 /\ Z.even (v + size) = true /\
    (v + size) / PAGE_SIZE = v / PAGE_SIZE + 1).
  { intros Hn. assert (v + size = (v / PAGE_SIZE + 1) * 4096) as -> by (rewrite HP in *; lia).
    split_and!; [rewrite HP; zlia|by rewrite Z.even_mul, orb_true_r|rewrite HP; zlia]. }
  set (left := if v + size <? top then 16 - (v + size) / PAGE_SIZE else 0) in *.
  assert (Hleft : 0 <= left <= 16 - v / PAGE_SIZE - 1).
  { unfold left. destruct (Z.ltb_spec (v + size) top) as [Hn|Hn]; [|lia]. destruct (Hnext Hn) as (_ & _ & ->). rewrite HP in *; zlia. }
  destruct (IH (v + size) s2 o ps1 (<[q := pg']> phys) F1 G1) as (s3 & ps3 & phys3 & F3 & G3 & -> & Im3 & HF3 & HG3 & Z3);
    fold left; try lia.
  { split; [done|done|]. apply memory_insert; [done|]. by rewrite (cl_length _ _ _ _ Cl). }
  { intros Hn. by apply Hnext. }
  fold left in HF3, HG3. exists s3, ps3, phys3, F3, G3. split_and!; try done; try lia.
  eapply zeroed_step; try done; try (rewrite HP in *; lia).
Qed.

(** ** One segment *)

Lemma set_file_keeps f o s : file_at file s = Ret f ->
  exists s', set_file file (at_offset o f) s = Ret s' /\ file_at file s' = Ret (at_offset o f) /\
    kept s s' /\ undisturbed s s'.
Proof.
  unfold file_at, set_file, deref. intros Hf.
  destruct (k_procs (s_kernel s) !! file_proc file) as [p|] eqn:Hp; [|done]. cbn [mbind outcome_bind] in *.
  pose proof Hf as [Hi _]%arr_get_Ret. apply arr_get_Ret in Hf as [Hr Hl].
  rewrite arr_set_in by (split; [done|]; apply lookup_lt_Some in Hl; lia). cbn [mbind outcome_bind].
  eexists. split; [done|].
  assert (Hat : file_at file (set_kernel (set_procs (<[file_proc file := set_p_open_files
      (<[Z.to_nat (file_index file) := at_offset o f]> (p_open_files p)) p]> (k_procs (s_kernel s))) (s_kernel s)) s)
      = Ret (at_offset o f)).
  { unfold file_at, s_kernel. simpl. rewrite (deref_Some _ _ _ (lookup_insert_eq _ _ _)). cbn [mbind outcome_bind].
    apply arr_get_Ret. simpl. split; [done|]. apply list_lookup_insert_eq. by eapply lookup_lt_Some. }
  split; [exact Hat|]. split.
  - split; try done. intros Q. unfold s_kernel. simpl. destruct (decide (Q = file_proc file)) as [->|].
    + rewrite lookup_insert_eq. unfold s_kernel in Hp. by rewrite Hp.
    + by rewrite lookup_insert_ne.
  - split; try done. intros f' Hf'. exists o. rewrite Hat. unfold file_at, deref in Hf'. rewrite Hp in Hf'.
    cbn [mbind outcome_bind] in Hf'. apply arr_get_Ret in Hf' as [_ Hl']. congruence.
Qed.

Lemma loading_seek s o ps phys F G off whence :
  loading s o ps phys F G -> 0 <= off < 32768 -> o < 32768 ->
  (whence = Fd.SEEK_SET \/ whence = Fd.SEEK_CUR /\ off = 0) ->
  let o' := if whence =? Fd.SEEK_SET then off else o in
  exists s', seek file off whence s = Ret (o', s') /\ loading s' o' ps phys F G /\ s_bufs s' = s_bufs s.
Proof using R.
  intros L Hoff Ho Hw o'. destruct (ld_file _ _ _ _ _ _ L) as (f & Hf & Hi & Hfo). pose proof (ld_off _ _ _ _ _ _ L) as Hu.
  unfold seek. rewrite Hf. cbn [mbind outcome_bind].
  assert (Es : Fd.vfs_seek f off whence = (o', at_offset o' f)).
  { unfold Fd.vfs_seek, o'. rewrite (eqb_ne _ _ Hi). destruct Hw as [->|[-> ->]]; cbn [Z.eqb].
    - rewrite (proj2 (Z.ltb_ge _ _)), u16_small by lia. done.
    - simpl. rewrite Hfo, Z.add_0_r, u16_small, (proj2 (Z.ltb_ge _ _)), i16_small by lia. done. }
  rewrite Es. destruct (set_file_keeps f o' s Hf) as (s' & -> & Hf' & K & U). cbn [mbind outcome_bind].
  exists s'. split; [done|]. split; [|apply U].
  assert (is_u16 o') by (unfold o'; destruct (whence =? Fd.SEEK_SET); lia).
  split; try done.
  - eapply (rd_frame _ R); [apply L|done].
  - by exists (at_offset o' f).
  - rewrite (kp_states _ _ K). apply L.
  - apply L.
  - rewrite (kp_phys _ _ K). apply L.
  - rewrite (kp_page _ _ K). apply L.
  - rewrite (kp_prog_page _ _ K). apply L.
  - eapply current_ok_kept; [apply L|done].
  - rewrite (kp_current _ _ K). apply L.
  - unfold buffer. rewrite (ud_bufs _ _ U). apply L.
Qed.

(** A loadable program header. *)
Record segment := Segment { sg_prog : bool; sg_offset : Z; sg_vaddr : Z; sg_filesz : Z; sg_memsz : Z }.

Definition describes (ph : list Z) (g : segment) : Prop :=
  (flags ← GET_U16 ph PH_OFF_FLAGS; Ret (negb (Z.land flags PF_X =? 0))) = Ret (sg_prog g) /\
  GET_U16 ph PH_OFF_OFFSET = Ret (sg_offset g) /\ GET_U16 ph PH_OFF_VADDR = Ret (sg_vaddr g) /\
  GET_U16 ph PH_OFF_FILESZ = Ret (sg_filesz g) /\ GET_U16 ph PH_OFF_MEMSZ = Ret (sg_memsz g).

(** The addresses of a segment end below [sg_top]. *)
Definition sg_top (g : segment) : Z :=
  (sg_vaddr g + Z.max (sg_filesz g) (sg_memsz g) + PAGE_SIZE - 1) / PAGE_SIZE * PAGE_SIZE.

(** It starts on a page, lies below the stack, and its bytes are in the file; the
    part to be cleared starts at an even address. *)
Record segment_ok (g : segment) : Prop := {
  so_aligned : sg_vaddr g mod PAGE_SIZE = 0;
  so_sizes : 0 <= sg_filesz g /\ 0 <= sg_memsz g;
  so_range : 0 <= sg_vaddr g /\ sg_vaddr g + Z.max (sg_filesz g) (sg_memsz g) <= 0xF000;
  so_offset : 0 <= sg_offset g < 32768 /\ sg_offset g + sg_filesz g <= zlen content /\
    sg_offset g + sg_filesz g < 32768;
  so_code : sg_prog g = true -> sg_filesz g mod 4 = 0;
  so_even : file_end (sg_vaddr g) (sg_filesz g) < sg_vaddr g + sg_memsz g ->
    Z.even (file_end (sg_vaddr g) (sg_filesz g)) = true;
}.

(** The segment as the process finds it. *)
Record in_memory (g : segment) (ps : proc_state) (phys : gmap Z (list Z)) : Prop := {
  im_file i : 0 <= i < sg_filesz g ->
    seg_byte (sg_prog g) ps phys (sg_vaddr g + i) = content !! Z.to_nat (sg_offset g + i);
  im_zero a : sg_prog g = false -> file_end (sg_vaddr g) (sg_filesz g) <= a < sg_vaddr g + sg_memsz g ->
    seg_byte false ps phys a = Some 0;
}.

(** Nothing that could be reached outside of the segment is different. *)
Definition only_in (g : segment) (ps ps' : proc_state) (phys phys' : gmap Z (list Z)) : Prop :=
  forall b a x, 0 <= a -> ~ (b = sg_prog g /\ sg_vaddr g <= a < sg_top g) ->
    seg_byte b ps phys a = Some x -> seg_byte b ps' phys' a = Some x.

Definition new_brk (g : segment) (load_brk : Z) : Z :=
  if negb (sg_prog g) && negb (sg_memsz g =? 0) then Z.max load_brk (sg_vaddr g + sg_memsz g) else load_brk.

Lemma load_segment_ok ph g load_brk s o ps phys F G :
  word_store_ok -> P <> file_proc file -> image s o ps phys F G -> o < 32768 -> describes ph g -> segment_ok g ->
  F + 32 <= 0x1000 -> G + 32 <= 0xff ->
  exists s' o' ps' phys' F' G', load_segment file P load_brk ph s = Ret (new_brk g load_brk, s') /\
    image s' o' ps' phys' F' G' /\ o' < 32768 /\ F <= F' <= F + 32 /\ G <= G' <= G + 32 /\
    in_memory g ps' phys' /\ only_in g ps ps' phys phys'.
Proof using R.
  intros W Hne [L T M] Ho (Dp & Do & Dv & Df & Dm) [Sa Ss Sr So Sc Se] HF HG.
  assert (HP : PAGE_SIZE = 4096) by done. unfold load_segment.
  destruct (GET_U16 ph PH_OFF_FLAGS) as [fl| | | |]; try done. cbn [mbind outcome_bind] in *. injection Dp as Dp.
  rewrite Dp, Do, Df, Dm, Dv. cbn [mbind outcome_bind]. rewrite i16_small by lia.
  destruct (loading_seek s o ps phys F G (sg_offset g) Fd.SEEK_SET L) as (s1 & -> & L1 & _); [lia|lia|by left|].
  cbn [mbind outcome_bind Z.eqb] in *. change (Fd.SEEK_SET =? Fd.SEEK_SET) with true in L1. cbv iota in L1.
  rewrite (u16_small (sg_vaddr g + sg_memsz g)) by lia. fold (new_brk g load_brk).
  destruct (load_pages_ok (sg_prog g) (sg_vaddr g) (sg_filesz g) s1 (sg_offset g) ps phys F G) as
    (s2 & -> & ps2 & phys2 & F2 & G2 & Im2 & HF2 & HG2 & Hown & Hkeep); try done; try lia.
  cbn [mbind outcome_bind].
  assert (Hpages : (sg_filesz g + PAGE_SIZE - 1) / PAGE_SIZE <= 15) by (rewrite HP; zlia).
  assert (Htop : sg_vaddr g + (sg_filesz g + PAGE_SIZE - 1) / PAGE_SIZE * PAGE_SIZE <= sg_top g)
    by (unfold sg_top; rewrite HP in *; zlia).
  destruct (negb (sg_prog g) && (sg_filesz g <? sg_memsz g)) eqn:Ec; cbn [mbind outcome_bind].
  - apply andb_true_iff in Ec as [Hp Hlt]. apply negb_true_iff in Hp. apply Z.ltb_lt in Hlt. rewrite Hp in *.
    pose proof (file_end_range (sg_vaddr g) (sg_filesz g) Sa) as Hfe.
    assert (Hpl : 0 <= pages_left (file_end (sg_vaddr g) (sg_filesz g)) (sg_vaddr g + sg_memsz g) <= 16).
    { unfold pages_left. rewrite HP. destruct (_ <? _); zlia. }
    destruct (clear_loop_ok (sg_vaddr g + sg_memsz g) W Hne ltac:(lia) 18 (file_end (sg_vaddr g) (sg_filesz g)) s2
      _ ps2 phys2 F2 G2 Im2) as (s3 & ps3 & phys3 & F3 & G3 & -> & Im3 & HF3 & HG3 & [Zz Zk]); try done; try lia.
    cbn [mbind outcome_bind]. exists s3, (sg_offset g + sg_filesz g), ps3, phys3, F3, G3. split_and!; try done; try lia; [split; rewrite ?Hp|].
    + intros i Hi. destruct (lookup_lt_is_Some_2 content (Z.to_nat (sg_offset g + i))) as [x Hx]; [lia|]. rewrite Hx.
      apply Zk; [lia|lia|]. by rewrite Hown, Hx.
    + intros a _. apply Zz.
    + intros b a x Ha Hout Hx. rewrite Hp in Hout. apply Zk; [done| |apply Hkeep; try done].
      * intros [-> Hr]. apply Hout. split; [done|]. unfold sg_top. rewrite HP in *. zlia.
      * intros [-> Hr]. apply Hout. split; [done|]. lia.
  - exists s2, (sg_offset g + sg_filesz g), ps2, phys2, F2, G2. split_and!; try done; try lia; [split|].
    + done.
    + intros a Hp Ha. rewrite Hp in Ec. simpl in Ec. apply Z.ltb_ge in Ec.
      pose proof (file_end_range (sg_vaddr g) (sg_filesz g) Sa). lia.
    + intros b a x Ha Hout Hx. apply Hkeep; try done. intros [-> Hr]. apply Hout. split; [done|]. lia.
Qed.

(** ** All segments *)

(** A program header: not to be loaded ([None]), or a segment. *)
Definition header_ok (ph : list Z) (og : option segment) : Prop :=
  match og with
  | None => exists t, GET_U16 ph PH_OFF_TYPE = Ret t /\ t <> PT_LOAD
  | Some g => GET_U16 ph PH_OFF_TYPE = Ret PT_LOAD /\ describes ph g /\ segment_ok g
  end.

(** The segments share no page. *)
Definition apart (g g' : segment) : Prop :=
  sg_prog g <> sg_prog g' \/ sg_top g <= sg_vaddr g' \/ sg_top g' <= sg_vaddr g.

Definition all_apart (gs : list (option segment)) : Prop :=
  forall i j g g', gs !! i = Some (Some g) -> gs !! j = Some (Some g') -> i <> j -> apart g g'.

Definition brk_of (gs : list (option segment)) (brk : Z) : Z :=
  foldl (fun brk og => match og with Some g => new_brk g brk | None => brk end) brk gs.

Definition in_memory_all (gs : list (option segment)) (ps : proc_state) (phys : gmap Z (list Z)) : Prop :=
  forall g, Some g ∈ gs -> in_memory g ps phys.

Lemma in_memory_kept g ps ps' phys phys' : segment_ok g ->
  (forall a x, sg_vaddr g <= a < sg_top g -> seg_byte (sg_prog g) ps phys a = Some x -> seg_byte (sg_prog g) ps' phys' a = Some x) ->
  in_memory g ps phys -> in_memory g ps' phys'.
Proof.
  intros [Sa Ss Sr So _ _] K [Hf Hz].
  assert (Ht : sg_vaddr g + Z.max (sg_filesz g) (sg_memsz g) <= sg_top g) by (unfold sg_top, PAGE_SIZE; zlia).
  pose proof (file_end_range (sg_vaddr g) (sg_filesz g) Sa) as Hfe. split.
  - intros i Hi. destruct (lookup_lt_is_Some_2 content (Z.to_nat (sg_offset g + i))) as [x Hx]; [lia|]. rewrite Hx.
    apply K; [lia|by rewrite Hf].
  - intros a Hp Ha. rewrite <-Hp. apply K; [lia|]. rewrite Hp. by apply Hz.
Qed.

Definition only_in_header (og : option segment) (ps ps' : proc_state) (phys phys' : gmap Z (list Z)) : Prop :=
  match og with Some g => only_in g ps ps' phys phys' | None => ps' = ps /\ phys' = phys end.

Lemma load_header_ok og brk s o ps phys F G :
  word_store_ok -> P <> file_proc file -> image s o ps phys F G -> header_ok (slice o PH_SIZE) og ->
  o + PH_SIZE <= zlen content -> o + PH_SIZE < 32768 -> F + 32 <= 0x1000 -> G + 32 <= 0xff ->
  exists s' ps' phys' F' G', load_header file P (brk, s) = Ret (brk_of [og] brk, s') /\
    image s' (o + PH_SIZE) ps' phys' F' G' /\ F <= F' <= F + 32 /\ G <= G' <= G + 32 /\
    in_memory_all [og] ps' phys' /\ only_in_header og ps ps' phys phys'.
Proof using R.
  intros W Hne [L T M] Hh Hc Ho HF HG. unfold PH_SIZE in *. pose proof (ld_off _ _ _ _ _ _ L) as Hu.
  unfold load_header, PH_SIZE. cbn [fst snd]. destruct (ld_bufs _ _ _ _ _ _ L) as [_ (b & Hb & Hbl)].
  destruct (loading_read s o ps phys F G PH_BUFF_AT b 32 L Hb) as (s1 & -> & L1 & Hb1); [done|unfold PH_SIZE in *; lia..|].
  assert (zlen (slice o 32) = 32) as Hsl by (apply length_slice; lia).
  rewrite splice_all in Hb1 by (unfold PH_SIZE in *; lia). cbn [mbind outcome_bind].
  destruct (loading_seek s1 (o + 32) ps phys F G 0 Fd.SEEK_CUR L1) as (s2 & -> & L2 & Hb2); [lia|lia|by right|].
  change (Fd.SEEK_CUR =? Fd.SEEK_SET) with false in *. cbv iota in *. cbn [mbind outcome_bind].
  rewrite Hb2, (deref_Some _ _ _ Hb1). cbn [mbind outcome_bind].
  assert (Hend : forall s3 o3 ps3 phys3 F3 G3, image s3 o3 ps3 phys3 F3 G3 -> o3 < 32768 ->
    exists s4, seek file (o + 32) Fd.SEEK_SET s3 = Ret (o + 32, s4) /\ image s4 (o + 32) ps3 phys3 F3 G3).
  { intros s3 o3 ps3 phys3 F3 G3 [L3 T3 M3] Ho3.
    destruct (loading_seek s3 o3 ps3 phys3 F3 G3 (o + 32) Fd.SEEK_SET L3) as (s4 & E4 & L4 & _); [lia|lia|by left|].
    exists s4. by split. }
  destruct og as [g|].
  - destruct Hh as (-> & Hd & Hg). cbn [mbind outcome_bind]. change (PT_LOAD =? PT_LOAD) with true. cbv iota.
    destruct (load_segment_ok (slice o 32) g brk s2 (o + 32) ps phys F G W Hne) as
      (s3 & o3 & ps3 & phys3 & F3 & G3 & -> & Im3 & Ho3 & HF3 & HG3 & Hm & Hk); try done; try lia.
    cbn [mbind outcome_bind]. destruct (Hend _ _ _ _ _ _ Im3 Ho3) as (s4 & -> & Im4). cbn [mbind outcome_bind].
    exists s4, ps3, phys3, F3, G3. split_and!; try (done || lia). intros g' [= ->]%list_elem_of_singleton. done.
  - destruct Hh as (t & -> & Ht). cbn [mbind outcome_bind]. rewrite (eqb_ne _ _ Ht). cbn [mbind outcome_bind].
    destruct (Hend s2 (o + 32) ps phys F G) as (s4 & -> & Im4); [done|lia|]. cbn [mbind outcome_bind].
    exists s4, ps, phys, F, G. split_and!; try (done || lia). by intros g' ?%list_elem_of_singleton.
Qed.

Lemma headers_ok : word_store_ok -> P <> file_proc file -> forall gs i brk s o ps phys F G,
  image s o ps phys F G -> all_apart gs ->
  (forall k og, gs !! k = Some og -> header_ok (slice (o + PH_SIZE * Z.of_nat k) PH_SIZE) og) ->
  o + PH_SIZE * zlen gs <= zlen content -> o + PH_SIZE * zlen gs < 32768 ->
  F + 32 * zlen gs <= 0x1000 -> G + 32 * zlen gs <= 0xff ->
  exists s' o' ps' phys' F' G', for_loop (length gs) i (fun _ => load_header file P) (brk, s) = Ret (brk_of gs brk, s') /\
    image s' o' ps' phys' F' G' /\ in_memory_all gs ps' phys' /\
    (forall b a x, 0 <= a -> (forall g, Some g ∈ gs -> ~ (b = sg_prog g /\ sg_vaddr g <= a < sg_top g)) ->
       seg_byte b ps phys a = Some x -> seg_byte b ps' phys' a = Some x).
Proof using R.
  intros W Hne gs. induction gs as [|og gs IH]; intros i brk s o ps phys F G Im Hap Hh Hc Ho HF HG.
  - exists s, o, ps, phys, F, G. split_and!; try done. by intros g ?%elem_of_nil.
  - unfold PH_SIZE in *. simpl length in *. simpl for_loop.
    destruct (load_header_ok og brk s o ps phys F G W Hne Im) as (s1 & ps1 & phys1 & F1 & G1 & -> & Im1 & HF1 & HG1 & Hm1 & Hk1);
      try (unfold PH_SIZE; lia).
    { specialize (Hh 0%nat og eq_refl). by rewrite Z.mul_0_r, Z.add_0_r in Hh. }
    cbn [mbind outcome_bind]. unfold PH_SIZE in *.
    destruct (IH (i + 1) (brk_of [og] brk) s1 (o + 32) ps1 phys1 F1 G1 Im1) as
      (s' & o' & ps' & phys' & F' & G' & -> & Im' & Hm' & Hk'); try lia.
    { intros k j g g' Hk Hj Hkj. apply (Hap (S k) (S j)); (done || lia). }
    { intros k og' Hk. specialize (Hh (S k) og' Hk). by replace (o + 32 + 32 * Z.of_nat k) with (o + 32 * Z.of_nat (S k)) by lia. }
    exists s', o', ps', phys', F', G'. split_and!; try done.
    + intros g [Eg|Hg]%elem_of_cons; [|by apply Hm']. subst og.
      assert (Hg : in_memory g ps1 phys1) by (apply Hm1; by apply list_elem_of_singleton).
      assert (Sg : segment_ok g) by (destruct (Hh 0%nat (Some g) eq_refl) as (_ & _ & ?); done).
      apply (in_memory_kept g ps1 ps' phys1 phys'); [done| |done]. intros a x Ha. apply Hk'.
      * pose proof (so_range _ Sg). lia.
      * intros g' Hg' [Ep Hr]. apply list_elem_of_lookup in Hg' as [j Hj].
        destruct (Hap 0%nat (S j) g g' eq_refl Hj) as [?|[?|?]]; (done || lia).
    + intros b a x Ha Hout Hx. apply Hk'; [done|intros g Hg; apply Hout; by right|].
      destruct og as [g|]; simpl in Hk1; [|by destruct Hk1 as [-> ->]]. apply Hk1; [done|apply Hout; by left|done].
Qed.

Lemma load_ph_ok s o ps phys F G eh gs :
  word_store_ok -> P <> file_proc file -> image s o ps phys F G ->
  s_bufs s !! BUFF_AT = Some eh -> GET_U16 eh EH_OFF_PHNUM = Ret (zlen gs) -> all_apart gs ->
  (forall k og, gs !! k = Some og -> header_ok (slice (o + PH_SIZE * Z.of_nat k) PH_SIZE) og) ->
  o + PH_SIZE * zlen gs <= zlen content -> o + PH_SIZE * zlen gs < 32768 ->
  F + 32 * zlen gs <= 0x1000 -> G + 32 * zlen gs <= 0xff ->
  exists s' p', load_ph file P s = Ret s' /\ k_procs (s_kernel s') !! P = Some p' /\
    in_memory_all gs (p_proc_state p') (v_phys (s_vm s')) /\ p_load_brk p' = brk_of gs 0 /\
    pc (p_proc_state p') = entry /\ p_name p' = name.
Proof using R.
  intros W Hne Im Hb Hn Hap Hh Hc Ho HF HG. unfold load_ph. rewrite (deref_Some _ _ _ Hb). cbn [mbind outcome_bind].
  rewrite Hn. cbn [mbind outcome_bind]. rewrite Nat2Z.id.
  destruct (headers_ok W Hne gs 0 0 s o ps phys F G Im Hap Hh Hc Ho HF HG) as (s' & o' & ps' & phys' & F' & G' & -> & [L _ _] & Hm & _).
  cbn [mbind outcome_bind]. pose proof (ld_proc _ _ _ _ _ _ L) as Hp. apply fmap_Some in Hp as (p & Hp & [= -> ->]).
  rewrite (deref_Some _ _ _ Hp). cbn [mbind outcome_bind]. eexists _, (set_p_load_brk (brk_of gs 0) p). split; [done|].
  split; [apply lookup_insert_eq|]. split_and!; try done; [|apply L]. simpl. by rewrite (ld_phys _ _ _ _ _ _ L).
Qed.

(** ** The whole program *)

Lemma init_user_thread_Ret k k' : sched_init_user_thread junk_proc k = Ret (P, k') ->
  exists pr, k_procs k' = <[P := pr]> (k_procs k) /\
    mem_pages (p_proc_state pr) = <[15%nat := first_free_page k]> (replicate 16 0xff) /\
    prog_pages (p_proc_state pr) = replicate 16 0xff /\ p_name pr = <[0%nat := 0]> (p_name junk_proc) /\
    first_free_page k' = i16 (i16 (first_free_page k + 1) + 1) /\
    first_free_prog_page k' = first_free_prog_page k /\
    current_proc k' = current_proc k /\ scheduling_enabled k' = scheduling_enabled k.
Proof.
  unfold sched_init_user_thread, add_proc. intros E. apply bind_Ret_inv in E as ([p st] & _ & E).
  apply bind_Ret_inv in E as (nm & Hn & E). apply arr_set_Ret in Hn as [_ ->].
  apply bind_Ret_inv in E as (k2 & E2 & E). apply bind_Ret_inv in E2 as (st2 & _ & E2). injection E2 as <-. injection E as <- <-.
  eexists. split; [reflexivity|]. done.
Qed.

Lemma fresh_tables ps F G : mem_pages ps = <[15%nat := F]> (replicate 16 0xff) -> prog_pages ps = replicate 16 0xff ->
  0x100 <= F -> F + 2 <= 0x1000 -> 0 <= G <= 0xff -> tables_ok ps (F + 2) G.
Proof.
  intros Hm Hp HF HF2 HG. unfold tables_ok. rewrite Hm, Hp.
  assert (T0 : forall lo next, table_ok lo next (replicate 16 0xff)).
  { intros lo next. split_and!; [done|..].
    - intros i g Hi. apply lookup_replicate in Hi as [-> _]. by left.
    - intros i i' g Hi _ Hg. apply lookup_replicate in Hi as [-> _]. done. }
  split_and!; try lia; [|apply T0]. apply (table_next _ (F + 1)); [lia|]. apply table_set; try lia; [done|apply T0].
Qed.

(** The state after the header was read into [buff], in which the process was
    created. *)
Record spawned (s : sys) (k : kernel St) (phoff : Z) (gs : list (option segment)) : Prop := {
  sp_new : sched_init_user_thread junk_proc (s_kernel s) = Ret (P, k);
  sp_other : P <> current_proc (s_kernel s) /\ P <> file_proc file;
  sp_inv : I (set_kernel k s);
  sp_file : exists f i nb, file_at file s = Ret f /\ f_inode f <> 0 /\ 0 <= f_offset f < 32768 /\
    inodes (s_vfs s) !! f_inode f = Some i /\ s_bufs s !! i_name i = Some nb /\
    strcpy (<[0%nat := 0]> (p_name junk_proc)) 0 nb 0 = Ret name;
  sp_header : exists eh, s_bufs s !! BUFF_AT = Some eh /\ good_header eh = Ret true /\
    GET_U16 eh EH_OFF_PHOFF = Ret phoff /\ GET_U16 eh EH_OFF_PHNUM = Ret (zlen gs) /\ GET_U16 eh EH_OFF_ENTRY = Ret entry;
  sp_bufs : buffer LOAD_BUFF_AT LOAD_BUFF s /\ buffer PH_BUFF_AT PH_SIZE s;
  sp_current : current_ok (s_kernel s);
  sp_memory : memory_there (v_phys (s_vm s));
  sp_pages : 0x100 <= first_free_page (s_kernel s) /\ first_free_page (s_kernel s) + 2 + 32 * zlen gs <= 0x1000 /\
    0 <= first_free_prog_page (s_kernel s) /\ first_free_prog_page (s_kernel s) + 32 * zlen gs <= 0xff;
}.

(** The program headers are those of [gs], and each segment can be loaded. *)
Record program_headers (phoff : Z) (gs : list (option segment)) : Prop := {
  ph_headers k og : gs !! k = Some og -> header_ok (slice (phoff + PH_SIZE * Z.of_nat k) PH_SIZE) og;
  ph_apart : all_apart gs;
  ph_range : 0 <= phoff /\ phoff + PH_SIZE * zlen gs <= zlen content /\ phoff + PH_SIZE * zlen gs < 32768;
}.

(** The new process as [elf_load] fills it in, before the segments. *)
Lemma spawned_image s k phoff gs : spawned s k phoff gs -> exists p ps,
  k_procs k !! P = Some p /\ p_name p = <[0%nat := 0]> (p_name junk_proc) /\
  (forall f, file_at file s = Ret f -> file_at file (set_kernel k s) = Ret f) /\
  let s1 := set_kernel (set_procs (<[P := set_p_proc_state (set_pc entry (p_proc_state p)) (set_p_name name p)]> (k_procs k)) k) s in
  exists o, o < 32768 /\ image s1 o ps (v_phys (s_vm s)) (first_free_page (s_kernel s) + 2) (first_free_prog_page (s_kernel s)).
Proof using R.
  intros [Hnew [Hcur Hne] HI (f & i & nb & Hf & Hfi & Hfo & _) _ Hbufs C M HFG].
  destruct (init_user_thread_Ret _ _ Hnew) as (p & Hprocs & Hm & Hp & Hnm & HF & HG & Hc & He).
  rewrite !i16_small in HF by (rewrite ?i16_small; lia).
  assert (Hfile : forall q g, file_at file s = Ret g ->
    file_at file (set_kernel (set_procs (<[P := q]> (k_procs k)) k) s) = Ret g).
  { intros q g Hg. unfold file_at, deref, s_kernel in *. simpl. by rewrite Hprocs, !lookup_insert_ne by done. }
  assert (Hfk : forall g, file_at file s = Ret g -> file_at file (set_kernel k s) = Ret g).
  { intros g Hg. unfold file_at, deref, s_kernel in *. simpl. by rewrite Hprocs, lookup_insert_ne by done. }
  exists p, (set_pc entry (p_proc_state p)). split; [by rewrite Hprocs, lookup_insert_eq|]. split; [done|]. split; [done|].
  intros s1. exists (f_offset f). split; [lia|]. split; [|by apply fresh_tables; try lia|done]. split; try done.
  - eapply (rd_frame _ R); [exact HI|]. split; try done. intros g Hg. exists (f_offset g). rewrite (Hfk f Hf) in Hg.
    injection Hg as <-. unfold s1. rewrite (Hfile _ _ Hf). by destruct f.
  - exists f. split; [by apply Hfile|done].
  - lia.
  - unfold s1, s_kernel. simpl. by rewrite lookup_insert_eq.
  - unfold s1, s_kernel. simpl. unfold s_kernel in HF. lia.
  - intros En. unfold s1, s_kernel in *. simpl in En. rewrite He in En. destruct (C En) as (c & Hcp & Hl). exists c.
    split; [|done]. simpl. by rewrite Hc, Hprocs, !lookup_insert_ne by done.
  - unfold s1, s_kernel in *. simpl. by rewrite Hc.
Qed.

(** C17. The loader.  When the header of the file is one for this machine and a
    process can be created, [elf_load] returns that process with its entry
    point, its name, the break after the last data segment, and its memory: for
    every loadable segment the bytes of the file are at the addresses the program
    header gives, in the data memory or in the instruction memory, across page
    boundaries, and in a data segment the memory after them is zero -- from the end
    of the file part if that is empty or more than a page long, and from the next
    page otherwise.  This holds for a program ([program_headers]) whose headers and
    segments lie in the file below offset 32768, and whose segments start on a page,
    end at or below 0xF000 and share no page; the size in the file of a code segment
    must be a multiple of 4, and the address from which a segment is cleared even,
    because [clear_loop] stores words.  The kernel ([spawned]) must have
    2 + 32 free data pages per program header below page 0x1000, 32 free instruction
    pages per header below 255, those pages in memory, and the descriptor and the
    name of the file open in a process that is not the new one; the driver of the
    file must read it from the offset on ([readable], which includes room on the
    heap for its requests). *)
Theorem elf_load_loads s s1 k phoff gs :
  word_store_ok -> vfs_read_blocking file 0 BUFF_AT HEADER_SIZE s = Ret (HEADER_SIZE, s1) ->
  spawned s1 k phoff gs -> program_headers phoff gs ->
  exists s' p, elf_load file s = Ret (P, s') /\ k_procs (s_kernel s') !! P = Some p /\
    pc (p_proc_state p) = entry /\ p_name p = name /\ p_load_brk p = brk_of gs 0 /\
    in_memory_all gs (p_proc_state p) (v_phys (s_vm s')).
Proof using R.
  intros W Hread Sp [Hh Hap Hr]. pose proof Sp as [Hnew [Hcur Hne] HI Hfile Hhead _ _ _ HFG].
  destruct Hfile as (f & i & nb & Hf & Hfi & Hfo & Hi & Hnb & Hcpy). destruct Hhead as (eh & Heh & Hgood & Hphoff & Hnum & Hent).
  destruct (spawned_image s1 k phoff gs Sp) as (p & ps & Hp & Hnm & Hfk & o & Ho & [L T M]).
  unfold elf_load. rewrite Hread. cbn [mbind outcome_bind]. rewrite Z.eqb_refl. cbn [negb].
  rewrite (deref_Some _ _ _ Heh). cbn [mbind outcome_bind]. rewrite Hgood. cbn [mbind outcome_bind negb].
  rewrite Hphoff. cbn [mbind outcome_bind]. rewrite Hnew. cbn [mbind outcome_bind].
  rewrite (Hfk f Hf). cbn [mbind outcome_bind]. rewrite (deref_Some _ _ i) by done. cbn [mbind outcome_bind].
  rewrite (deref_Some _ _ nb) by done. cbn [mbind outcome_bind]. rewrite (deref_Some _ _ p) by done. cbn [mbind outcome_bind].
  rewrite Hnm, Hcpy. cbn [mbind outcome_bind]. rewrite Hent. cbn [mbind outcome_bind]. rewrite i16_small by (unfold PH_SIZE in *; lia).
  set (s2 := set_kernel _ (set_kernel k s1)). 
  destruct (loading_seek s2 o ps _ _ _ phoff Fd.SEEK_SET L) as (s3 & -> & L3 & Hb3); [unfold PH_SIZE in *; lia|lia|by left|].
  change (Fd.SEEK_SET =? Fd.SEEK_SET) with true in L3. cbv iota in L3. cbn [mbind outcome_bind].
  destruct (load_ph_ok s3 phoff ps _ _ _ eh gs W Hne (Build_image _ _ _ _ _ _ L3 T M)) as (s' & p' & -> & Hp' & Hm & Hb & He & Hn');
    try done; try lia. { by rewrite Hb3. }
  cbn [mbind outcome_bind]. by exists s', p'.
Qed.

(** ** Headers that are refused *)

(** The bytes of a header for this machine: the magic number, the class, the
    byte order and the version, then the type and the machine. *)
Definition pcpu_header (eh : list Z) : Prop :=
  take 7 eh = [0x7f; 69; 76; 70; 1; 1; 1] /\ take 4 (drop 16 eh) = [2; 0; 0x88; 0x08].

Definition word_value (sgn : bool) (lo hi : Z) : Z :=
  let value b := if sgn then (if b <? 128 then b else b - 256) else b in
  Z.lor (u16 (Z.shiftl (u16 (value hi)) 8)) (u16 (value lo)).

Definition bytes_check (f : Z -> Z -> bool) : bool :=
  forallb (fun lo => forallb (f lo) (seqZ 0 256)) (seqZ 0 256).

Lemma bytes_checked f lo hi : bytes_check f = true -> is_u8 lo -> is_u8 hi -> f lo hi = true.
Proof.
  unfold bytes_check. rewrite forallb_forall. intros Hf Hlo Hhi.
  assert (HE : forall x, is_u8 x -> List.In x (seqZ 0 256)) by (intros; apply list_elem_of_In, elem_of_seqZ; lia).
  specialize (Hf lo (HE _ Hlo)). rewrite forallb_forall in Hf. by apply Hf, HE.
Qed.

Lemma words_unsigned : bytes_check (fun lo hi => word_value false lo hi =? lo + 256 * hi) = true.
Proof. vm_compute. reflexivity. Qed.

(** A signed char spoils every word whose low byte is not below 0x80. *)
Lemma words_signed : bytes_check (fun lo hi => negb (word_value true lo hi =? EM_PCPU)) = true.
Proof. vm_compute. reflexivity. Qed.

Lemma arr_get_nat {A} (l : list A) (i : nat) z x : l !! i = Some x -> z = Z.of_nat i -> arr_get l z = Ret x.
Proof. intros Hi ->. by apply arr_get_lookup. Qed.

Lemma good_header_false eh : zlen eh = HEADER_SIZE -> Forall (fun b => is_u8 b) eh ->
  ~ pcpu_header eh \/ char_signed = true -> good_header eh = Ret false.
Proof.
  intros Hl Hb Hbad. unfold HEADER_SIZE in Hl.
  do 20 (destruct eh as [|? eh]; [simpl in Hl; lia|]). repeat (apply Forall_cons in Hb as [? Hb]).
  unfold good_header, GET_U8, GET_U16.
  repeat (match goal with |- context [arr_get ?l ?z] =>
    let i := eval vm_compute in (Z.to_nat z) in rewrite (arr_get_nat l i z _ eq_refl eq_refl) end; cbn [mbind outcome_bind]).
  repeat match goal with |- context [Z.lor (u16 (Z.shiftl (u16 (char_value ?hi)) 8)) (u16 (char_value ?lo))] =>
    change (Z.lor (u16 (Z.shiftl (u16 (char_value hi)) 8)) (u16 (char_value lo))) with (word_value char_signed lo hi) end.
  f_equal. destruct char_signed eqn:Es.
  - pose proof (bytes_checked _ z17 z18 words_signed) as Hw. cbv beta in Hw. apply negb_true_iff in Hw; [|done..].
    by rewrite Hw, andb_false_r.
  - destruct Hbad as [Hbad|?]; [|done]. apply not_true_iff_false. intros E. apply Hbad.
    pose proof (bytes_checked _ z15 z16 words_unsigned) as W1. pose proof (bytes_checked _ z17 z18 words_unsigned) as W2.
    cbv beta in W1, W2. apply Z.eqb_eq in W1; [|done..]. apply Z.eqb_eq in W2; [|done..]. rewrite W1, W2 in E.
    unfold char_value in E. rewrite Es in E. rewrite !andb_true_iff, !Z.eqb_eq in E.
    unfold ELFCLASS32, ELFDATA2LSB, EV_CURRENT, ET_EXEC, EM_PCPU in E. split; simpl; repeat f_equal; lia.
Qed.

(** C18. Files that are not loaded.  When fewer bytes than a header can be read,
    or the header is not one for this machine, [elf_load] returns the null
    pointer and has created no process; where char is signed it refuses every
    file, since the machine number 0x0888 is then never recognised. *)
Theorem elf_load_rejects f s n s1 eh :
  vfs_read_blocking f 0 BUFF_AT HEADER_SIZE s = Ret (n, s1) -> s_bufs s1 !! BUFF_AT = Some eh ->
  zlen eh = HEADER_SIZE -> Forall (fun b => is_u8 b) eh ->
  n <> HEADER_SIZE \/ ~ pcpu_header eh \/ char_signed = true ->
  elf_load f s = Ret (0, s1).
Proof.
  intros Hr He Hl Hb Hbad. unfold elf_load. rewrite Hr. cbn [mbind outcome_bind].
  destruct (Z.eqb_spec n HEADER_SIZE) as [->|]; cbn [negb]; [|done].
  rewrite (deref_Some _ _ _ He). cbn [mbind outcome_bind].
  rewrite good_header_false; [done|done|done|]. by destruct Hbad.
Qed.
End Elf.

(** ** Witnesses: a program of one data and one code segment

    The file is served at once by a driver that reads from its offset on. *)

Section Demo.
#[local] Existing Instance klist_store.
Abbreviation demo_sys := (Sys.sys (store (list Z)) unit).

(** The header, two program headers, three bytes of data and one instruction. *)
Definition demo_content : list Z :=
  [0x7f; 69; 76; 70; 1; 1; 1; 0; 0; 0; 0; 0; 0; 0; 0; 0;  2; 0; 0x88; 8;  1; 0; 0; 0;  0; 1; 0; 0;  56; 0; 0; 0;
   0; 0; 0; 0; 0; 0; 0; 0;  52; 0; 32; 0;  2; 0;  0; 0; 0; 0; 0; 0; 0; 0; 0; 0] ++
  [1; 0; 0; 0;  120; 0; 0; 0;  0; 0x10; 0; 0;  0; 0; 0; 0;  3; 0; 0; 0;  4; 0x10; 0; 0;  6; 0; 0; 0;  0; 0; 0; 0] ++
  [1; 0; 0; 0;  123; 0; 0; 0;  0; 0; 0; 0;     0; 0; 0; 0;  4; 0; 0; 0;  4; 0; 0; 0;     5; 0; 0; 0;  0; 0; 0; 0] ++
  [11; 12; 13] ++ [21; 22; 23; 24].

Definition demo_segments : list (option segment) :=
  [Some (Segment false 120 0x1000 3 0x1004); Some (Segment true 123 0 4 4)].

Definition demo_file_at : Z := file_ptr 5 0.

Instance demo_uninit : Uninit := fun _ _ => 0.
Instance demo_others : Others (store (list Z)) unit := fun _ _ => Block.
Instance demo_sign : CharSign := false.
Instance demo_callbacks : @Callbacks (store (list Z)) unit := fun _ _ _ => Fault.
Instance demo_words : WordStore := fun pg off x => <[Z.to_nat off := 0]> (<[Z.to_nat (off + 1) := 0]> pg).

Definition demo_submit (rq : Z) (s : demo_sys) : outcome (Z * demo_sys) :=
  r ← deref (reqs (s_vfs s)) rq;
  f ← file_at (r_file r) s;
  b ← deref (s_bufs s) (r_vbuff r);
  let d := take (Z.to_nat (r_size r)) (drop (Z.to_nat (f_offset f)) demo_content) in
  let s := set_bufs (<[r_vbuff r := splice b 0 d]> (s_bufs s)) s in
  s ← set_file (r_file r) (at_offset (u16 (f_offset f + zlen d)) f) s;
  s ← vfs_async_finalize rq (zlen d) s;
  Ret (0, s).

Instance demo_regs : @VfsRegs (store (list Z)) unit :=
  fun a => if a =? 1 then Some (VfsReg 0 0 (fun _ _ s => Ret (0, s)) None (Some demo_submit) None) else None.

(** There is room on the heap for a request, and it is all given back. *)
Definition steady (st : store (list Z)) : Prop :=
  exists lock rq st1 st2 st3, lock <> 0 /\
    ls_alloc st (u16 sizeof_semaphore) = Ret (lock, st1) /\ ls_alloc st1 (u16 sizeof_req) = Ret (rq, st2) /\
    ls_free st2 rq = Ret st3 /\ ls_free st3 lock = Ret st.

Definition demo_inv (s : demo_sys) : Prop :=
  steady (s_store s) /\ (exists i, inodes (s_vfs s) !! 7 = Some i /\ i_vnode i = 8) /\
  (exists v, vnodes (s_vfs s) !! 8 = Some v /\ vn_reg v = 1) /\
  exists f, file_at demo_file_at s = Ret f /\ f_inode f = 7.

Lemma file_at_procs file (s s' : demo_sys) : k_procs (s_kernel s') = k_procs (s_kernel s) -> file_at file s' = file_at file s.
Proof. unfold file_at. by intros ->. Qed.

Definition demo_reg : @vfs_reg (store (list Z)) unit := VfsReg 0 0 (fun _ _ s => Ret (0, s)) None (Some demo_submit) None.

Lemma s_kmalloc_Ret n (s : demo_sys) p st : ls_alloc (s_store s) (u16 n) = Ret (p, st) -> s_kmalloc n s = Ret (p, s_set_store st s).
Proof. intros E. unfold s_kmalloc. by rewrite E. Qed.

Lemma s_kfree_Ret p (s : demo_sys) st : ls_free (s_store s) p = Ret st -> s_kfree p s = Ret (s_set_store st s).
Proof. intros E. unfold s_kfree. by rewrite E. Qed.

(** What [demo_submit] does with a request for a kernel buffer. *)
Lemma demo_submit_ok rq r s f b c : reqs (s_vfs s) !! rq = Some r -> r_file r = demo_file_at -> r_callback r = 0 ->
  r_fin_sema r <> 0 -> s_semas s !! r_fin_sema r = Some c ->
  file_at demo_file_at s = Ret f -> s_bufs s !! r_vbuff r = Some b ->
  let d := take (Z.to_nat (r_size r)) (drop (Z.to_nat (f_offset f)) demo_content) in
  exists s', demo_submit rq s = Ret (0, s') /\ kept s s' /\
    s_bufs s' = <[r_vbuff r := splice b 0 d]> (s_bufs s) /\ inodes (s_vfs s') = inodes (s_vfs s) /\
    vnodes (s_vfs s') = vnodes (s_vfs s) /\ file_at demo_file_at s' = Ret (at_offset (u16 (f_offset f + zlen d)) f) /\
    s_store s' = s_store s /\ s_semas s' = <[r_fin_sema r := i16 (c + 1)]> (s_semas s) /\
    reqs (s_vfs s') !! rq = Some (set_res (zlen d) r).
Proof.
  intros Hr Hrf Hcb Hfin Hc Hf Hb d. unfold demo_submit. rewrite (deref_Some _ _ _ Hr). cbn [mbind outcome_bind].
  rewrite Hrf, Hf. cbn [mbind outcome_bind]. rewrite (deref_Some _ _ _ Hb). cbn [mbind outcome_bind]. fold d.
  destruct (set_file_keeps demo_file_at f (u16 (f_offset f + zlen d)) (set_bufs (<[r_vbuff r := splice b 0 d]> (s_bufs s)) s) Hf)
    as (s1 & -> & Hf1 & K & U). cbn [mbind outcome_bind].
  rewrite (finalize_ok rq (zlen d) s1 r c); [|by rewrite (ud_vfs _ _ _ U)|done..|by rewrite (ud_semas _ _ _ U)].
  cbn [mbind outcome_bind]. eexists. split; [done|].
  split; [destruct K; by split|]. split; [apply (ud_bufs _ _ _ U)|].
  split; [simpl; by rewrite (ud_vfs _ _ _ U)|]. split; [simpl; by rewrite (ud_vfs _ _ _ U)|].
  split; [exact Hf1|]. split; [apply (ud_store _ _ _ U)|].
  split; [|simpl; by rewrite lookup_insert_eq].
  change (<[r_fin_sema r := i16 (c + 1)]> (s_semas s1) = <[r_fin_sema r := i16 (c + 1)]> (s_semas s)). by rewrite (ud_semas _ _ _ U).
Qed.

Lemma demo_read s f buf b n : demo_inv s -> file_at demo_file_at s = Ret f -> s_bufs s !! buf = Some b ->
  let d := take (Z.to_nat n) (drop (Z.to_nat (f_offset f)) demo_content) in
  exists s', vfs_read_blocking demo_file_at 0 buf n s = Ret (zlen d, s') /\ demo_inv s' /\ kept s s' /\
    s_bufs s' = <[buf := splice b 0 d]> (s_bufs s) /\ inodes (s_vfs s') = inodes (s_vfs s) /\
    file_at demo_file_at s' = Ret (at_offset (u16 (f_offset f + zlen d)) f) /\ s_store s' = s_store s.
Proof.
  intros (Hsteady & (i & Hi & Hiv) & (v & Hv & Hvr) & (f' & Hf' & Hfi)) Hf Hb d. pose proof Hsteady as (lock & rq & st1 & st2 & st3 & Hlock & A1 & A2 & F1 & F2).
  rewrite Hf in Hf'. injection Hf' as <-.
  unfold vfs_read_blocking, request_blocking. rewrite Hf. cbn [mbind outcome_bind]. rewrite Hfi. cbn [Z.eqb].
  unfold inode_reg. rewrite (deref_Some _ _ _ Hi). cbn [mbind outcome_bind]. rewrite Hiv, (deref_Some _ _ _ Hv).
  cbn [mbind outcome_bind]. rewrite Hvr. change (deref_reg 1) with (Ret demo_reg). cbn [mbind outcome_bind async_request demo_reg].
  rewrite (s_kmalloc_Ret sizeof_semaphore s lock st1 A1). cbn [mbind outcome_bind].
  rewrite (s_kmalloc_Ret sizeof_req (s_set_store st1 s) rq st2 A2). cbn [mbind outcome_bind].
  set (s1 := s_sema_init _ _). set (r := Req _ _ _ _ _ _ _ _ _ _) in s1.
  destruct (demo_submit_ok rq r s1 f b 0) as (s2 & -> & K & Hb2 & Hi2 & Hv2 & Hf2 & Hst & Hse & Hr2); try done.
  { apply lookup_insert_eq. } { apply lookup_insert_eq. }
  cbn [mbind outcome_bind Z.ltb Z.compare]. change (r_size r) with n in Hb2, Hf2, Hr2. change (r_vbuff r) with buf in Hb2.
  fold d in Hb2, Hf2, Hr2. change (r_fin_sema r) with lock in Hse.
  rewrite (s_sema_down_now s2 lock 1); [|by rewrite Hse, lookup_insert_eq|done]. cbn [mbind outcome_bind].
  set (s3 := s_set_semas _ s2). rewrite (deref_Some (reqs (s_vfs s3)) rq _ Hr2). cbn [mbind outcome_bind].
  unfold kfree_req, kfree_sema.
  rewrite (s_kfree_Ret rq s3 st3) by (change (s_store s3) with (s_store s2); rewrite Hst; exact F1). cbn [mbind outcome_bind].
  match goal with |- context [s_kfree lock ?x] => rewrite (s_kfree_Ret lock x (s_store s) F2) end. cbn [mbind outcome_bind r_res].
  eexists. split; [reflexivity|]. 
  assert (Hff : forall s' : demo_sys, k_procs (s_kernel s') = k_procs (s_kernel s2) ->
     file_at demo_file_at s' = Ret (at_offset (u16 (f_offset f + zlen d)) f)).
  { intros s' E. by rewrite (file_at_procs _ _ _ E). }
  split; [split; [exact Hsteady|split; [exists i; split; [by rewrite <-Hi; simpl; rewrite Hi2|done]|split]]|].
  - exists v. split; [by rewrite <-Hv; simpl; rewrite Hv2|done].
  - eexists. split; [by apply Hff|done].
  - split; [destruct K; by split|]. split; [exact Hb2|]. split; [exact Hi2|]. split; [by apply Hff|done].
Qed.

Lemma demo_readable : readable demo_file_at demo_content demo_inv.
Proof.
  split.
  - intros s s' (Hs & Hi & Hv & (f & Hf & Hfi)) U. unfold demo_inv. rewrite (ud_store _ _ _ U), (ud_vfs _ _ _ U).
    split_and!; try done. destruct (ud_file _ _ _ U f Hf) as [o Ho]. by exists (at_offset o f).
  - intros s f buf b n HI Hf _ Hb _ _ _. destruct (demo_read s f buf b n HI Hf Hb) as (s' & E & HI' & K & Hb' & Hi' & Hf' & _).
    by exists s'.
Qed.

Definition demo_st0 : store (list Z) := ls_init boot_store PROC_LIST.

Definition demo_caller : proc :=
  Proc 1 PROC_STATE_SYSCALL PROC_TYPE_USER junk_state junk_state (replicate 16 0) 0
    (ProcFile 7 0 0 0 :: replicate 15 (ProcFile 0 0 0 0)) 0 0 0 0 0 0.

Definition demo_phys : gmap Z (list Z) :=
  list_to_map ((fun q => (q, replicate 4096 0xAA)) <$> seqZ 0x100 0x1100).

Definition demo_elf : demo_sys :=
  Sys (Vm (Kernel demo_st0 {[5 := demo_caller]} ∅ ∅ 5 0 1 0x211 true false 0 0x11) demo_phys 0)
    (<[BUFF_AT := replicate 56 0]> (<[LOAD_BUFF_AT := replicate 256 0]> (<[PH_BUFF_AT := replicate 32 0]> {[100 := [97; 0]]})))
    (VfsState {[7 := Inode 100 0 127 8 1]} {[8 := Vnode 0 1 0 0]} ∅ 0 1 0) (MqState ∅ ∅ 0 0) tt.

Lemma demo_phys_there : memory_there demo_phys.
Proof.
  intros q Hq. exists (replicate 4096 0xAA). split; [|done]. apply elem_of_list_to_map_1.
  - rewrite <-list_fmap_compose. change (fst ∘ _) with (@id Z). rewrite list_fmap_id. apply NoDup_seqZ.
  - apply list_elem_of_fmap. exists q. split; [done|]. apply elem_of_seqZ. lia.
Qed.

Definition demo_spawn : outcome (Z * store (list Z)) :=
  '(p, st) ← ls_alloc demo_st0 sizeof_proc;
  st ← ls_append (ls_init st (signal_queue_of p)) PROC_LIST p;
  Ret (p, st).

#[local] Instance list_node_eq_dec : EqDecision list_node.
Proof. solve_decision. Defined.
#[local] Instance klist_eq_dec : EqDecision klist.
Proof. solve_decision. Defined.
#[local] Instance store_eq_dec : EqDecision (store (list Z)).
Proof. solve_decision. Defined.

Definition steady_check (st : store (list Z)) : bool :=
  match ls_alloc st (u16 sizeof_semaphore) with
  | Ret (lock, st1) =>
    match ls_alloc st1 (u16 sizeof_req) with
    | Ret (rq, st2) =>
      match st3 ← ls_free st2 rq; ls_free st3 lock with
      | Ret st' => negb (lock =? 0) && bool_decide (st' = st)
      | _ => false
      end
    | _ => false
    end
  | _ => false
  end.

Lemma steady_checked st : steady_check st = true -> steady st.
Proof.
  unfold steady_check. intros E.
  destruct (ls_alloc st (u16 sizeof_semaphore)) as [[lock st1]| | | |] eqn:E1; try done.
  destruct (ls_alloc st1 (u16 sizeof_req)) as [[rq st2]| | | |] eqn:E2; try done.
  destruct (ls_free st2 rq) as [st3| | | |] eqn:E3; try done. cbn [mbind outcome_bind] in E.
  destruct (ls_free st3 lock) as [st4| | | |] eqn:E4; try done.
  apply andb_true_iff in E as [Hl Hs]. apply negb_true_iff, Z.eqb_neq in Hl. apply bool_decide_eq_true in Hs as ->.
  exists lock, rq, st1, st2, st3. done.
Qed.

Lemma demo_spawn_ok : exists p st, demo_spawn = Ret (p, st) /\ steady st /\ p <> 5.
Proof.
  assert (C : match demo_spawn with Ret (p, st) => steady_check st && negb (p =? 5) | _ => false end = true)
    by (vm_compute; reflexivity).
  destruct demo_spawn as [[p st]| | | |]; try done. apply andb_true_iff in C as [Hs Hp].
  exists p, st. split_and!; [done|by apply steady_checked|by apply Z.eqb_neq, negb_true_iff].
Qed.

Lemma demo_st0_steady : steady demo_st0.
Proof. apply steady_checked. vm_compute. reflexivity. Qed.

Lemma demo_sched_init k st0 p st1 st : k_store k = st0 -> ls_alloc st0 sizeof_proc = Ret (p, st1) ->
  ls_append (ls_init st1 (signal_queue_of p)) PROC_LIST p = Ret st ->
  exists k', sched_init_user_thread junk_proc k = Ret (p, k') /\ k_store k' = st.
Proof.
  intros Hk E1 E2. unfold sched_init_user_thread. rewrite Hk, E1. cbn [mbind outcome_bind].
  change (arr_set (p_name junk_proc) 0 0) with (Ret (replicate 16 0)). cbn [mbind outcome_bind]. unfold add_proc.
  match goal with |- context [ls_append ?x PROC_LIST p] => change x with (ls_init st1 (signal_queue_of p)) end.
  rewrite E2. cbn [mbind outcome_bind]. by eexists.
Qed.

Lemma demo_spawned k : k_store k = demo_st0 ->
  exists p k', sched_init_user_thread junk_proc k = Ret (p, k') /\ steady (k_store k') /\ p <> 5.
Proof.
  destruct demo_spawn_ok as (p & st & E & Hs & Hp). unfold demo_spawn in E. revert E Hs. generalize demo_st0. intros st0 E Hs Hk.
  apply bind_Ret_inv in E as ([p' st'] & E1 & E). apply bind_Ret_inv in E as (st2 & E2 & E). injection E as -> ->.
  destruct (demo_sched_init k st0 p st' st Hk E1 E2) as (k' & Ek & <-). by exists p, k'.
Qed.

Lemma demo_headers : program_headers demo_content 56 demo_segments.
Proof.
  split.
  - intros [|[|k]] og; [intros [= <-]|intros [= <-]|done].
    all: split; [vm_compute; reflexivity|split; [repeat split; vm_compute; reflexivity|]].
    all: split; try (vm_compute; done); simpl; unfold PAGE_SIZE; try lia; vm_compute; try done.
  - intros i j g g' Hi Hj Hij. destruct i as [|[|i]]; destruct j as [|[|j]]; simpl in Hi, Hj; simplify_eq; try done; by left.
  - vm_compute. done.
Qed.

Lemma demo_inv_elf : demo_inv demo_elf.
Proof.
  split; [apply demo_st0_steady|]. split; [by eexists|]. split; [by eexists|].
  exists (ProcFile 7 0 0 0). split; [vm_compute|]; reflexivity.
Qed.

Lemma demo_words_ok : word_store_ok.
Proof.
  intros pg off Ho. unfold store_word, demo_words. split_and!.
  - by rewrite !length_insert.
  - rewrite list_lookup_insert_eq; [done|]. rewrite length_insert. lia.
  - intros j. rewrite !list_lookup_insert. repeat case_decide; auto.
  - intros j Hj. rewrite !list_lookup_insert_ne by (destruct Hj as [?|[?|[_ ?]]]; lia). done.
Qed.

Lemma demo_file_open : file_at demo_file_at demo_elf = Ret (ProcFile 7 0 0 0).
Proof. reflexivity. Qed.

(** The bytes of the header in [buff]. *)
Definition demo_header : list Z := take 56 demo_content.

Lemma demo_good : good_header demo_header = Ret true /\ GET_U16 demo_header EH_OFF_PHOFF = Ret 56 /\
  GET_U16 demo_header EH_OFF_PHNUM = Ret 2 /\ GET_U16 demo_header EH_OFF_ENTRY = Ret 0x100.
Proof. vm_compute. done. Qed.

Lemma demo_bufs_at : s_bufs demo_elf !! BUFF_AT = Some (replicate 56 0) /\ s_bufs demo_elf !! LOAD_BUFF_AT = Some (replicate 256 0) /\
  s_bufs demo_elf !! PH_BUFF_AT = Some (replicate 32 0) /\ s_bufs demo_elf !! 100 = Some [97; 0].
Proof. done. Qed.

(** After the header was read, a process can be created. *)
Lemma demo_spawns s1 : demo_inv s1 -> kept demo_elf s1 ->
  s_bufs s1 = <[BUFF_AT := demo_header]> (s_bufs demo_elf) -> inodes (s_vfs s1) = inodes (s_vfs demo_elf) ->
  file_at demo_file_at s1 = Ret (ProcFile 7 56 0 0) -> s_store s1 = demo_st0 ->
  exists P k, spawned junk_proc demo_file_at P 0x100 ([97; 0] ++ replicate 14 0) demo_inv s1 k 56 demo_segments.
Proof.
  intros (_ & Hin & Hvn & _) K Hb Hi Hf Hst. destruct (demo_spawned (s_kernel s1) Hst) as (P & k & Ek & Hs & HP).
  assert (Hcur : current_proc (s_kernel s1) = 5) by (by rewrite (kp_current _ _ K)).
  destruct (init_user_thread_Ret junk_proc P _ _ Ek) as (pr & Hprocs & _ & _ & _ & _ & _ & _ & _).
  destruct demo_bufs_at as (_ & Hl & Hp & Hn). destruct demo_good as (G1 & G2 & G3 & G4).
  exists P, k. split.
  - exact Ek.
  - rewrite Hcur. split; [exact HP|]. unfold demo_file_at. rewrite file_ptr_proc by lia. exact HP.
  - split; [exact Hs|]. split; [exact Hin|]. split; [exact Hvn|]. exists (ProcFile 7 56 0 0). split; [|done].
    rewrite <-Hf. unfold file_at, s_kernel. simpl. rewrite Hprocs. unfold deref. rewrite lookup_insert_ne; [done|].
    unfold demo_file_at. rewrite file_ptr_proc by lia. exact HP.
  - exists (ProcFile 7 56 0 0), (Inode 100 0 127 8 1), [97; 0]. split_and!; try (done || simpl; lia).
    + by rewrite Hi.
    + rewrite Hb, lookup_insert_ne by done. exact Hn.
  - exists demo_header. split; [by rewrite Hb, lookup_insert_eq|]. done.
  - unfold buffer. rewrite Hb. split; [exists (replicate 256 0)|exists (replicate 32 0)];
      (split; [rewrite lookup_insert_ne by done; assumption|done]).
  - eapply current_ok_kept; [|exact K]. intros _. exists demo_caller. split; [done|simpl; lia].
  - rewrite (kp_phys _ _ K). apply demo_phys_there.
  - rewrite (kp_page _ _ K), (kp_prog_page _ _ K). simpl. lia.
Qed.

Lemma elf_load_loads_witness : exists P s' p, elf_load junk_proc demo_file_at demo_elf = Ret (P, s') /\
  k_procs (s_kernel s') !! P = Some p /\ pc (p_proc_state p) = 0x100 /\ p_load_brk p = 0x2004 /\
  seg_byte false (p_proc_state p) (v_phys (s_vm s')) 0x1001 = Some 12 /\
  seg_byte false (p_proc_state p) (v_phys (s_vm s')) 0x2003 = Some 0 /\
  seg_byte true (p_proc_state p) (v_phys (s_vm s')) 3 = Some 24.
Proof.
  destruct demo_bufs_at as (Hb0 & _).
  destruct (demo_read demo_elf (ProcFile 7 0 0 0) BUFF_AT (replicate 56 0) 56 demo_inv_elf demo_file_open Hb0)
    as (s1 & E & HI & K & Hb & Hi & Hf & Hst).
  destruct (demo_spawns s1 HI K Hb Hi Hf Hst) as (P & k & Sp).
  destruct (elf_load_loads junk_proc demo_file_at demo_content P 0x100 ([97; 0] ++ replicate 14 0) demo_inv demo_readable
    demo_elf s1 k 56 demo_segments demo_words_ok E Sp demo_headers) as (s' & p & El & Hp & Hpc & _ & Hbrk & Hm).
  exists P, s', p. split; [exact El|]. split; [exact Hp|]. split; [exact Hpc|]. split; [exact Hbrk|].
  destruct (Hm (Segment false 120 0x1000 3 0x1004)) as [Hfile Hzero]; [by left|].
  destruct (Hm (Segment true 123 0 4 4)) as [Hcode _]; [by right; left|].
  clear -Hfile Hzero Hcode. specialize (Hfile 1 ltac:(simpl; lia)). specialize (Hcode 3 ltac:(simpl; lia)).
  specialize (Hzero 0x2003 eq_refl ltac:(vm_compute; split; [discriminate|reflexivity])). cbn [sg_prog sg_vaddr sg_offset] in Hfile, Hcode.
  change (0x1000 + 1) with 0x1001 in Hfile. change (0 + 3) with 3 in Hcode. rewrite Hfile, Hcode, Hzero. done.
Defined.

(** The same program, where char is signed. *)
Lemma elf_load_rejects_witness : exists s1, vfs_read_blocking demo_file_at 0 BUFF_AT HEADER_SIZE demo_elf = Ret (HEADER_SIZE, s1) /\
  elf_load (sign := true) junk_proc demo_file_at demo_elf = Ret (0, s1).
Proof.
  destruct demo_bufs_at as (Hb0 & _).
  destruct (demo_read demo_elf (ProcFile 7 0 0 0) BUFF_AT (replicate 56 0) 56 demo_inv_elf demo_file_open Hb0)
    as (s1 & E & _ & _ & Hb & _).
  exists s1. split; [exact E|].
  apply (elf_load_rejects (sign := true) junk_proc demo_file_at demo_elf HEADER_SIZE s1 demo_header E).
  - by rewrite Hb, lookup_insert_eq.
  - done.
  - repeat constructor; lia.
  - by right; right.
Defined.
End Demo.
