(* ===== verification/Blockq.v ===== *)
(** * The blocking queue (kernel/libk/con/blockq.c)

    A queue of records of one size over a ring buffer, with one semaphore that
    counts the records, one that counts the free places, and a spinlock around
    the ring buffer.  The machine of this file is any number of threads that
    push and pop, interrupted between any two statements; semaphores and the
    lock are the operations of Sync.v, one step each.

    No statement of [blockq_push] or [blockq_pop] fails its assertion, records
    come out in the order in which they went in, and threads only wait for a
    queue that is full or empty. *)

From S2P Require Import Prelude Ringbuff Sync.

(** [struct blockq] without its two semaphores *)
Record blockq := Blockq {
  bq_rbuff : ringbuff;
  bq_size : Z;
  bq_max_size : Z;
  bq_base_size : Z;
  bq_lock : Spin.spinlock;
}.

Definition set_bq_lock (l : Spin.spinlock) (b : blockq) : blockq :=
  Blockq (bq_rbuff b) (bq_size b) (bq_max_size b) (bq_base_size b) l.

(** [blockq_init], with the ring buffer that [ringbuff_init] has made *)
Definition blockq_fields (size base_size : Z) (rb : ringbuff) : blockq :=
  Blockq rb 0 size base_size (Spin.Spinlock 0 (-1)).

(** What [blockq_pop] does under the lock. *)
Definition bq_take (b : blockq) : outcome (list Z * blockq) :=
  _ ← ASSERT (0 <? bq_size b);
  '(n, data, rb) ← ringbuff_read (bq_rbuff b) (bq_base_size b);
  _ ← ASSERT (n =? bq_base_size b);
  Ret (data, Blockq rb (u16 (bq_size b - 1)) (bq_max_size b) (bq_base_size b) (bq_lock b)).

(** What [blockq_push] does under the lock. *)
Definition bq_put (data : list Z) (b : blockq) : outcome blockq :=
  '(n, rb) ← ringbuff_write (bq_rbuff b) data (bq_base_size b);
  _ ← ASSERT (n =? bq_base_size b);
  let size := u16 (bq_size b + 1) in
  _ ← ASSERT (size <=? bq_max_size b);
  Ret (Blockq rb size (bq_max_size b) (bq_base_size b) (bq_lock b)).

(** [blockq_push_nonblock] up to its [semaphore_up] *)
Definition bq_put_nonblock (data : list Z) (b : blockq) : outcome blockq :=
  _ ← ASSERT (bq_size b <? bq_max_size b);
  '(_, rb) ← ringbuff_write (bq_rbuff b) data (bq_base_size b);
  Ret (Blockq rb (u16 (bq_size b + 1)) (bq_max_size b) (bq_base_size b) (bq_lock b)).

(** ** The machine *)

(** The statement a thread is about to run. *)
Inductive pc :=
| Idle
| PDown (r : list Z)     (** [semaphore_down(&s->not_full);] *)
| PLock (r : list Z)     (** [spinlock_lock(&s->queue_lock);] *)
| PWrite (r : list Z)    (** the ring buffer, the size and the assertions *)
| PUp                    (** [semaphore_up(&s->not_empty);] *)
| PUnlock                (** [spinlock_unlock(&s->queue_lock);] *)
| CDown                  (** [semaphore_down(&s->not_empty);] *)
| CLock
| CRead
| CUp                    (** [semaphore_up(&s->not_full);] *)
| CUnlock
| NWrite (r : list Z)    (** [blockq_push_nonblock] *)
| NUp.

(** [pushed] and [popped] are the records that went through the ring buffer so
    far, in order. *)
Record machine := Machine {
  bq : blockq;
  not_empty : Z;
  not_full : Z;
  threads : list pc;
  pushed : list (list Z);
  popped : list (list Z);
}.

Definition unlock (t : nat) (b : blockq) : blockq :=
  set_bq_lock (Spin.spinlock_unlock (Z.of_nat t) (bq_lock b)).1 b.

(** One statement of thread [t]; [Block] is a statement that waits. *)
Definition exec (t : nat) (c : pc) (m : machine) : outcome machine :=
  let move b ne nf c' := Machine b ne nf (<[t := c']> (threads m)) (pushed m) (popped m) in
  let lock c' :=
    match Spin.spinlock_lock (Z.of_nat t) 4 (bq_lock (bq m)) with
    | Some (l, _) => Ret (move (set_bq_lock l (bq m)) (not_empty m) (not_full m) c')
    | None => Block
    end in
  match c with
  | Idle => Block
  | PDown r =>
      if not_full m =? 0 then Block
      else '(n, _) ← SemOps.semaphore_down 4 (not_full m); Ret (move (bq m) (not_empty m) n (PLock r))
  | PLock r => lock (PWrite r)
  | PWrite r =>
      b ← bq_put r (bq m);
      Ret (Machine b (not_empty m) (not_full m) (<[t := PUp]> (threads m)) (pushed m ++ [r]) (popped m))
  | PUp => Ret (move (bq m) (SemOps.semaphore_up 4 (not_empty m)).1 (not_full m) PUnlock)
  | PUnlock | CUnlock => Ret (move (unlock t (bq m)) (not_empty m) (not_full m) Idle)
  | CDown =>
      if not_empty m =? 0 then Block
      else '(n, _) ← SemOps.semaphore_down 4 (not_empty m); Ret (move (bq m) n (not_full m) CLock)
  | CLock => lock CRead
  | CRead =>
      '(r, b) ← bq_take (bq m);
      Ret (Machine b (not_empty m) (not_full m) (<[t := CUp]> (threads m)) (pushed m) (popped m ++ [r]))
  | CUp => Ret (move (bq m) (not_empty m) (SemOps.semaphore_up 4 (not_full m)).1 CUnlock)
  | NWrite r =>
      b ← bq_put_nonblock r (bq m);
      Ret (Machine b (not_empty m) (not_full m) (<[t := NUp]> (threads m)) (pushed m ++ [r]) (popped m))
  | NUp => Ret (move (bq m) (SemOps.semaphore_up 4 (not_empty m)).1 (not_full m) Idle)
  end.

(** The call a thread makes: a record has the size of the queue's records. *)
Definition is_call (base : Z) (nonblock : bool) (c : pc) : Prop :=
  match c with
  | PDown r => zlen r = base
  | CDown => True
  | NWrite r => nonblock = true /\ zlen r = base
  | _ => False
  end.

(** Any thread may run next.  [nonblock] says whether [blockq_push_nonblock] is
    called too. *)
Inductive step (nonblock : bool) : machine -> machine -> Prop :=
| step_call m t c : threads m !! t = Some Idle -> is_call (bq_base_size (bq m)) nonblock c ->
    step nonblock m (Machine (bq m) (not_empty m) (not_full m) (<[t := c]> (threads m)) (pushed m) (popped m))
| step_exec m t c m' : threads m !! t = Some c -> exec t c m = Ret m' -> step nonblock m m'.

(** After [blockq_init] with [n] threads. *)
Definition initial (max base : Z) (rb : ringbuff) (n : nat) : machine :=
  Machine (blockq_fields max base rb) 0 max (replicate n Idle) [] [].

(** ** The invariant

    Each record in the ring buffer is counted by [not_empty], or by a thread
    that popped the count and not yet the record, or by a thread that pushed
    the record and not yet the count; likewise for the free places. *)

Definition has_item (c : pc) : bool := match c with CLock | CRead | PUp => true | _ => false end.
Definition has_place (c : pc) : bool := match c with PLock _ | PWrite _ | CUp => true | _ => false end.
Definition inside (c : pc) : bool :=
  match c with PWrite _ | PUp | PUnlock | CRead | CUp | CUnlock => true | _ => false end.
Definition carries (c : pc) : option (list Z) :=
  match c with PDown r | PLock r | PWrite r | NWrite r => Some r | _ => None end.

(** How many threads are at a statement of a kind. *)
Fixpoint cnt (f : pc -> bool) (l : list pc) : Z :=
  match l with [] => 0 | c :: l => Z.b2z (f c) + cnt f l end.

Lemma cnt_insert f l t c c' : l !! t = Some c -> cnt f (<[t := c']> l) = cnt f l - Z.b2z (f c) + Z.b2z (f c').
Proof.
  revert t. induction l as [|x l IH]; intros [|t] Hl; simpl in *; simplify_eq; [lia|]. rewrite (IH t Hl). lia.
Qed.

Lemma cnt_nonneg f l : 0 <= cnt f l.
Proof. induction l as [|c l IH]; simpl; [lia|]. destruct (f c); simpl; lia. Qed.

Lemma cnt_elem f l t c : l !! t = Some c -> Z.b2z (f c) <= cnt f l.
Proof.
  revert t. induction l as [|x l IH]; intros [|t] Hl; simpl in *; simplify_eq.
  - pose proof (cnt_nonneg f l). lia.
  - pose proof (IH t Hl). destruct (f x); simpl; lia.
Qed.

Lemma cnt_replicate f n : f Idle = false -> cnt f (replicate n Idle) = 0.
Proof. intros H. induction n as [|n IH]; simpl; [done|]. by rewrite H, IH. Qed.

(** The lock is held by the thread [h], if any. *)
Definition lock_of (h : option nat) (l : Spin.spinlock) : Prop :=
  match h with
  | Some t => l = Spin.Spinlock 1 (Z.of_nat t)
  | None => Spin.sl_locked l = 0
  end.

Record inv (max base : Z) (h : option nat) (q : list (list Z)) (m : machine) : Prop := {
  iv_sizes : bq_max_size (bq m) = max /\ bq_base_size (bq m) = base;
  iv_ring : repr (max * base) (concat q) (bq_rbuff (bq m));
  iv_items : Forall (fun r => zlen r = base) q;
  iv_size : bq_size (bq m) = zlen q;
  iv_order : pushed m = popped m ++ q;
  iv_empty : not_empty m + cnt has_item (threads m) = zlen q;
  iv_full : not_full m + cnt has_place (threads m) = max - zlen q;
  iv_counts : 0 <= not_empty m /\ 0 <= not_full m;
  iv_lock : lock_of h (bq_lock (bq m));
  iv_inside t c : threads m !! t = Some c -> inside c = true <-> h = Some t;
  iv_holder t : h = Some t -> is_Some (threads m !! t);
  iv_records t c r : threads m !! t = Some c -> carries c = Some r -> zlen r = base;
  iv_blocking t c r : threads m !! t = Some c -> c <> NWrite r /\ c <> NUp;
}.

Section Queue.
Context (max base : Z) (Hmax : max < 32768) (Hbase : 0 < base).
Set Default Proof Using "Type".

Lemma length_concat_items (q : list (list Z)) : Forall (fun r => zlen r = base) q -> zlen (concat q) = zlen q * base.
Proof. induction 1 as [|r q Hr _ IH]; simpl; [lia|]. rewrite length_app. lia. Qed.

Lemma bq_put_ok b q r : bq_max_size b = max /\ bq_base_size b = base -> repr (max * base) (concat q) (bq_rbuff b) ->
  Forall (fun r => zlen r = base) q -> bq_size b = zlen q -> zlen q < max -> zlen r = base ->
  exists rb, bq_put r b = Ret (Blockq rb (zlen (q ++ [r])) max base (bq_lock b)) /\ repr (max * base) (concat (q ++ [r])) rb.
Proof using Hbase Hmax.
  intros [E1 E2] R Hq Hs Hl Hr. assert (Hu : is_u16 base).
  { destruct R as (W & _ & Hc). pose proof (wf_size _ W). unfold capacity in Hc. nia. }
  unfold bq_put. destruct (ringbuff_write_spec _ _ _ r (bq_base_size b) R) as (rb & -> & R'); [lia|lia|].
  unfold fifo_write in *. rewrite E2 in *. rewrite (length_concat_items q Hq) in *.
  rewrite (Z.min_l base) in * by nia. cbn [mbind outcome_bind fst snd] in *. rewrite Z.eqb_refl. cbn [ASSERT mbind outcome_bind].
  rewrite Hs, u16_small, E1 by lia. rewrite (proj2 (Z.leb_le _ _)) by lia. cbn [ASSERT mbind outcome_bind].
  exists rb. split.
  - do 2 f_equal. rewrite length_app. simpl. lia.
  - rewrite concat_app. simpl. rewrite app_nil_r. by rewrite take_ge in R' by lia.
Qed.

Lemma bq_take_ok b q r : bq_max_size b = max /\ bq_base_size b = base -> repr (max * base) (concat (r :: q)) (bq_rbuff b) ->
  Forall (fun r => zlen r = base) (r :: q) -> bq_size b = zlen (r :: q) -> zlen (r :: q) <= max ->
  exists rb, bq_take b = Ret (r, Blockq rb (zlen q) max base (bq_lock b)) /\ repr (max * base) (concat q) rb.
Proof using Hbase Hmax.
  intros [E1 E2] R Hq Hs Hl. apply Forall_cons in Hq as [Hr Hq]. simpl in Hs, Hl. assert (Hu : is_u16 base).
  { destruct R as (W & _ & Hc). pose proof (wf_size _ W). unfold capacity in Hc. nia. }
  unfold bq_take. rewrite Hs, (proj2 (Z.ltb_lt _ _)) by lia. cbn [ASSERT mbind outcome_bind].
  destruct (ringbuff_read_spec _ _ _ (bq_base_size b) R) as (rb & -> & R'); [lia|].
  unfold fifo_read in *. rewrite E2 in *. simpl concat in *.
  rewrite length_app, (Z.min_l base) in * by lia. cbn [mbind outcome_bind fst snd] in *. rewrite Z.eqb_refl. cbn [ASSERT mbind outcome_bind].
  rewrite u16_small by lia. exists rb. replace (Z.to_nat base) with (length r) in * by lia.
  rewrite take_app_length. rewrite drop_app_length in R'. split; [|done]. rewrite E1. do 3 f_equal. lia.
Qed.

(** A thread moves from [c] to [c']: what has to be shown of the rest. *)
Lemma inv_move h q m t c h' q' b ne nf c' ps pp :
  inv max base h q m -> threads m !! t = Some c ->
  (bq_max_size b = max /\ bq_base_size b = base) -> repr (max * base) (concat q') (bq_rbuff b) ->
  Forall (fun r => zlen r = base) q' -> bq_size b = zlen q' -> ps = pp ++ q' ->
  ne + Z.b2z (has_item c') - zlen q' = not_empty m + Z.b2z (has_item c) - zlen q ->
  nf + Z.b2z (has_place c') + zlen q' = not_full m + Z.b2z (has_place c) + zlen q -> 0 <= ne -> 0 <= nf ->
  lock_of h' (bq_lock b) -> (inside c' = true <-> h' = Some t) -> (forall u, u <> t -> h' = Some u <-> h = Some u) ->
  (forall r, carries c' = Some r -> zlen r = base) -> (forall r, c' <> NWrite r /\ c' <> NUp) ->
  inv max base h' q' (Machine b ne nf (<[t := c']> (threads m)) ps pp).
Proof.
  intros I Ht Hsz Hr Hq Hs Ho Hne Hnf Hp1 Hp2 Hl Hin Hoth Hc Hnb. destruct I.
  assert (Hlt : (t < length (threads m))%nat) by (by eapply lookup_lt_Some).
  split; simpl; try done.
  - rewrite (cnt_insert _ _ _ _ _ Ht). lia.
  - rewrite (cnt_insert _ _ _ _ _ Ht). lia.
  - intros u d [(<- & <- & _)|[Hu Hd]]%list_lookup_insert_Some; [done|]. rewrite Hoth by done. eauto.
  - intros u Hu. destruct (decide (u = t)) as [->|]; [by rewrite list_lookup_insert_eq|].
    rewrite list_lookup_insert_ne by done. by apply iv_holder0, Hoth.
  - intros u d r [(<- & <- & _)|[Hu Hd]]%list_lookup_insert_Some; eauto.
  - intros u d r [(<- & <- & _)|[Hu Hd]]%list_lookup_insert_Some; eauto.
Qed.

Lemma bq_unlock_ok t b : lock_of (Some t) (bq_lock b) -> lock_of None (bq_lock (unlock t b)).
Proof. intros E. simpl in *. unfold unlock, Spin.spinlock_unlock. rewrite E. simpl. by rewrite Z.eqb_refl. Qed.

Lemma lock_ok h t b : lock_of h (bq_lock b) ->
  Spin.spinlock_lock (Z.of_nat t) 4 (bq_lock b) = match h with Some _ => None | None => Some (Spin.Spinlock 1 (Z.of_nat t), 0) end.
Proof.
  unfold Spin.spinlock_lock, Atomic.atomic_compare_and_swap_int. destruct h; simpl; intros E; rewrite E; done.
Qed.

Lemma sema_down_ok c : 0 < c < 32768 -> SemOps.semaphore_down 4 c = Ret (c - 1, 4).
Proof.
  intros Hc. unfold SemOps.semaphore_down, ASSERT. simpl. destruct (Z.leb_spec 0 c); [|lia]. simpl.
  rewrite eqb_ne by lia. rewrite i16_small by lia. done.
Qed.

Lemma inv_some_item h q m t c : inv max base h q m -> threads m !! t = Some c -> has_item c = true -> 0 < zlen q.
Proof. intros I Ht Hc. pose proof (cnt_elem has_item _ _ _ Ht) as H. rewrite Hc in H. simpl in H. destruct I. lia. Qed.

Lemma inv_some_place h q m t c : inv max base h q m -> threads m !! t = Some c -> has_place c = true -> zlen q < max.
Proof. intros I Ht Hc. pose proof (cnt_elem has_place _ _ _ Ht) as H. rewrite Hc in H. simpl in H. destruct I. lia. Qed.

Lemma inv_le h q m : inv max base h q m -> zlen q <= max.
Proof. intros []. pose proof (cnt_nonneg has_place (threads m)). lia. Qed.

(** Every statement of a thread returns or waits, and keeps the invariant. *)
Lemma bq_exec_inv h q m t c : inv max base h q m -> threads m !! t = Some c ->
  match exec t c m with
  | Ret m' => exists h' q', inv max base h' q' m'
  | Block => True
  | _ => False
  end.
Proof using Hbase Hmax.
  intros I Ht. pose proof I as [Hsz Hr Hq Hs Ho He Hf [Hp1 Hp2] Hl Hin _ Hc Hnb].
  pose proof (inv_le _ _ _ I) as Hle. pose proof (cnt_nonneg has_item (threads m)) as Hni.
  pose proof (cnt_nonneg has_place (threads m)) as Hnp.
  assert (Hh : inside c = true -> h = Some t) by (intros Hi; by apply (Hin t c)).
  assert (Hcar : forall r, carries c = Some r -> zlen r = base) by (intros r; by apply (Hc t c)).
  assert (Hlen : forall x y, x + y = zlen q -> 0 <= x -> 0 <= y -> x < 32768) by (intros; lia).
  destruct c as [|r|r|r| | | | | | | |r|]; simpl exec.
  - done.
  - destruct (Z.eqb_spec (not_full m) 0); [done|]. rewrite sema_down_ok by lia. cbn [mbind outcome_bind].
    exists h, q. eapply inv_move; eauto; simpl; try lia; try done. by rewrite <-(Hin t _ Ht).
  - rewrite (lock_ok h) by done. destruct h; [done|]. exists (Some t), q.
    eapply inv_move; eauto; simpl; try lia; try done. intros u Hu. split; [|done]. congruence.
  - destruct (bq_put_ok (bq m) q r Hsz Hr Hq Hs) as (rb & -> & R'); [by eapply inv_some_place|by apply Hcar|].
    cbn [mbind outcome_bind]. rewrite Hh in * by done. exists (Some t), (q ++ [r]).
    eapply inv_move; eauto; simpl; try done.
    + apply Forall_app. split; [done|]. by constructor; [apply Hcar|].
    + by rewrite Ho, app_assoc.
    + rewrite length_app. simpl. lia.
    + rewrite length_app. simpl. lia.
  - rewrite Hh in * by done. exists (Some t), q. pose proof (inv_some_item _ _ _ _ _ I Ht eq_refl).
    assert (not_empty m < 32767). { pose proof (cnt_elem has_item _ _ _ Ht) as E. simpl in E. lia. }
    unfold SemOps.semaphore_up, Atomic.atomic_add_int. simpl. rewrite i16_small by lia.
    eapply inv_move; eauto; simpl; try lia; done.
  - rewrite Hh in * by done. exists None, q. eapply inv_move; eauto; simpl; try lia; try done.
    + by apply (bq_unlock_ok t).
    + intros u Hu. split; [done|]. congruence.
  - destruct (Z.eqb_spec (not_empty m) 0); [done|]. rewrite sema_down_ok by lia. cbn [mbind outcome_bind].
    exists h, q. eapply inv_move; eauto; simpl; try lia; try done. by rewrite <-(Hin t _ Ht).
  - rewrite (lock_ok h) by done. destruct h; [done|]. exists (Some t), q.
    eapply inv_move; eauto; simpl; try lia; try done. intros u Hu. split; [|done]. congruence.
  - pose proof (inv_some_item _ _ _ _ _ I Ht eq_refl). destruct q as [|r q]; [simpl in *; lia|].
    destruct (bq_take_ok (bq m) q r Hsz Hr Hq Hs) as (rb & -> & R'); [lia|].
    cbn [mbind outcome_bind]. rewrite Hh in * by done. exists (Some t), q. apply Forall_cons in Hq as [? Hq].
    eapply inv_move; eauto; simpl; try lia; try done. by rewrite Ho, <-app_assoc.
  - rewrite Hh in * by done. exists (Some t), q. pose proof (inv_some_place _ _ _ _ _ I Ht eq_refl).
    assert (not_full m < 32767). { pose proof (cnt_elem has_place _ _ _ Ht) as E. simpl in E. lia. }
    unfold SemOps.semaphore_up, Atomic.atomic_add_int. simpl. rewrite i16_small by lia.
    eapply inv_move; eauto; simpl; try lia; done.
  - rewrite Hh in * by done. exists None, q. eapply inv_move; eauto; simpl; try lia; try done.
    + by apply (bq_unlock_ok t).
    + intros u Hu. split; [done|]. congruence.
  - by destruct (Hnb t (NWrite r) r Ht).
  - by destruct (Hnb t NUp [] Ht).
Qed.

Lemma bq_step_inv m m' : step false m m' -> (exists h q, inv max base h q m) -> exists h q, inv max base h q m'.
Proof using Hbase Hmax.
  intros S (h & q & I). destruct S as [m t c Ht Hc|m t c m' Ht He].
  - exists h, q. pose proof I as [Hsz Hr Hq Hs Ho _ _ [Hp1 Hp2] Hl Hin _ _ _]. rewrite (proj2 Hsz) in Hc.
    pose proof (Hin t _ Ht) as Hi. simpl in Hi.
    destruct c; simpl in Hc; try done; try (by destruct Hc); eapply inv_move; eauto; simpl; try lia; naive_solver.
  - pose proof (bq_exec_inv _ _ _ _ _ I Ht) as H. by rewrite He in H.
Qed.

Lemma bq_initial_inv rb n : 0 <= max -> repr (max * base) [] rb -> exists h q, inv max base h q (initial max base rb n).
Proof.
  intros Hm R. exists None, []. split; simpl; try done.
  - by rewrite cnt_replicate.
  - rewrite cnt_replicate by done. lia.
  - intros t c [-> _]%lookup_replicate. done.
  - intros t c r [-> _]%lookup_replicate. done.
  - intros t c r [-> _]%lookup_replicate. done.
Qed.

Lemma bq_reachable_inv rb n m : 0 <= max -> repr (max * base) [] rb -> rtc (step false) (initial max base rb n) m ->
  exists h q, inv max base h q m.
Proof using Hbase Hmax.
  intros Hm R S. pose proof (bq_initial_inv rb n Hm R) as I. revert I. induction S; [done|]. intros I. eauto using bq_step_inv.
Qed.

(** A thread that can run its next statement. *)
Definition moves (m : machine) (t : nat) : Prop :=
  exists c m', threads m !! t = Some c /\ exec t c m = Ret m'.

(** The thread that holds the lock can go on. *)
Lemma holder_moves h q m : inv max base (Some h) q m -> moves m h.
Proof using Hbase Hmax.
  intros I. destruct (iv_holder _ _ _ _ _ I h eq_refl) as [c Hc]. pose proof (bq_exec_inv _ _ _ _ _ I Hc) as E.
  pose proof (proj2 (iv_inside _ _ _ _ _ I h c Hc) eq_refl) as Hi.
  destruct (exec h c m) as [m'| | | |] eqn:Em; try done; [by exists c, m'|].
  destruct c; try done; simpl in Em.
  - destruct (bq_put_ok (bq m) q r) as (rb & Eb & _); [apply I..|by eapply inv_some_place|by eapply I|]. by rewrite Eb in Em.
  - destruct q as [|r q].
    + pose proof (inv_some_item _ _ _ _ _ I Hc eq_refl). simpl in *. lia.
    + destruct (bq_take_ok (bq m) q r) as (rb & Eb & _); [apply I..|by apply inv_le in I|]. by rewrite Eb in Em.
Qed.

(** When no thread can move, each is outside of any call or waits to push into a
    full queue or to pop from an empty one. *)
Definition starved (m : machine) : Prop :=
  forall t c, threads m !! t = Some c ->
    c = Idle \/ (exists r, c = PDown r /\ bq_size (bq m) = max) \/ (c = CDown /\ bq_size (bq m) = 0).

Lemma cnt_zero f l : (forall t c, l !! t = Some c -> f c = false) -> cnt f l = 0.
Proof.
  induction l as [|c l IH]; intros Hl; simpl; [done|]. rewrite (Hl 0%nat c eq_refl), IH; [done|].
  intros t d Hd. by apply (Hl (S t)).
Qed.

Lemma stuck_starved h q m : inv max base h q m -> (forall t, ~ moves m t) -> starved m.
Proof using Hbase Hmax.
  intros I Hst. destruct h as [h|]; [by destruct (Hst h); eapply holder_moves|].
  assert (Hw : forall t c, threads m !! t = Some c ->
     c = Idle \/ (exists r, c = PDown r /\ not_full m = 0) \/ (c = CDown /\ not_empty m = 0)).
  { intros t c Hc. pose proof (iv_inside _ _ _ _ _ I t c Hc) as Hi. pose proof (bq_exec_inv _ _ _ _ _ I Hc) as E.
    pose proof (iv_lock _ _ _ _ _ I) as Hl. pose proof (Hst t) as Ht. unfold moves in Ht.
    destruct (exec t c m) as [m'| | | |] eqn:Em; try done; [exfalso; eauto|]. clear Ht E.
    destruct c as [|r|r|r| | | | | | | |r|]; try (by left); try (discriminate (proj1 Hi eq_refl)); simpl in Em;
      try (pose proof (lock_ok None t (bq m) Hl) as El; rewrite El in Em; discriminate Em).
    - right; left. exists r. destruct (Z.eqb_spec (not_full m) 0); [done|].
      rewrite sema_down_ok in Em; [done|]. destruct (iv_counts _ _ _ _ _ I). pose proof (cnt_nonneg has_place (threads m)).
      pose proof (iv_full _ _ _ _ _ I). lia.
    - right; right. destruct (Z.eqb_spec (not_empty m) 0); [done|].
      rewrite sema_down_ok in Em; [done|]. destruct (iv_counts _ _ _ _ _ I). pose proof (cnt_nonneg has_item (threads m)).
      pose proof (iv_empty _ _ _ _ _ I). pose proof (inv_le _ _ _ I). lia.
    - by destruct (iv_blocking _ _ _ _ _ I t (NWrite r) r Hc). }
  assert (Hi0 : cnt has_item (threads m) = 0).
  { apply cnt_zero. intros t c Hc. destruct (Hw t c Hc) as [->|[(r & -> & _)|[-> _]]]; done. }
  assert (Hp0 : cnt has_place (threads m) = 0).
  { apply cnt_zero. intros t c Hc. destruct (Hw t c Hc) as [->|[(r & -> & _)|[-> _]]]; done. }
  pose proof (iv_empty _ _ _ _ _ I) as He. pose proof (iv_full _ _ _ _ _ I) as Hf. pose proof (iv_size _ _ _ _ _ I). rewrite Hi0 in He. rewrite Hp0 in Hf.
  intros t c Hc. destruct (Hw t c Hc) as [->|[(r & -> & ?)|[-> ?]]]; [by left|right; left; exists r|right; right]; (split; [done|lia]).
Qed.
(** ** Properties *)

(** C26. The blocking queue is a bounded first-in first-out queue for any number of
    threads and any interleaving of their statements: the records popped so far,
    then those in the ring buffer, are the records pushed so far, in order and
    each whole; at most [max] are stored, as the size says; and no thread is at
    a statement that fails an assertion or leaves the ring buffer. *)
Theorem blockq_fifo rb n m :
  0 <= max -> repr (max * base) [] rb -> rtc (step false) (initial max base rb n) m ->
  exists q, pushed m = popped m ++ q /\ bq_size (bq m) = zlen q /\ zlen q <= max /\
    repr (max * base) (concat q) (bq_rbuff (bq m)) /\
    forall t c, threads m !! t = Some c -> match exec t c m with Ret _ | Block => True | _ => False end.
Proof using Hbase Hmax.
  intros Hm R S. destruct (bq_reachable_inv rb n m Hm R S) as (h & q & I). exists q.
  split_and!; try apply I; [by eapply inv_le|]. intros t c Hc. pose proof (bq_exec_inv _ _ _ _ _ I Hc). by destruct (exec t c m).
Qed.

(** C27. The blocking queue does not deadlock: when no thread can run its next
    statement, every thread is outside of the queue's functions, or waits to
    push while the queue is full, or waits to pop while it is empty. *)
Theorem blockq_no_deadlock rb n m :
  0 <= max -> repr (max * base) [] rb -> rtc (step false) (initial max base rb n) m ->
  (forall t, ~ moves m t) -> starved m.
Proof using Hbase Hmax.
  intros Hm R S Hst. destruct (bq_reachable_inv rb n m Hm R S) as (h & q & I). by eapply stuck_starved.
Qed.
End Queue.

(** *** Concrete schedules *)

(** A schedule: which thread runs, and the call it makes if it is outside. *)
Definition turn (m : machine) (x : nat * option pc) : outcome machine :=
  c ← (match threads m !! x.1 with Some c => Ret c | None => Fault end);
  match x.2 with
  | None => exec x.1 c m
  | Some d => Ret (Machine (bq m) (not_empty m) (not_full m) (<[x.1 := d]> (threads m)) (pushed m) (popped m))
  end.

Fixpoint run (xs : list (nat * option pc)) (m : machine) : outcome machine :=
  match xs with [] => Ret m | x :: xs => m ← turn m x; run xs m end.

Definition turn_ok (nonblock : bool) (base : Z) (m : machine) (x : nat * option pc) : Prop :=
  match x.2 with
  | None => True
  | Some d => threads m !! x.1 = Some Idle /\ is_call base nonblock d
  end.

Fixpoint run_ok (nonblock : bool) (xs : list (nat * option pc)) (m : machine) : Prop :=
  match xs with
  | [] => True
  | x :: xs => turn_ok nonblock (bq_base_size (bq m)) m x /\
      match turn m x with Ret m' => run_ok nonblock xs m' | _ => False end
  end.

Lemma run_steps nonblock xs : forall m m', run xs m = Ret m' -> run_ok nonblock xs m -> rtc (step nonblock) m m'.
Proof.
  induction xs as [|x xs IH]; intros m m' Hr Hok; simpl in *; [injection Hr as <-; constructor|].
  destruct Hok as [Hx Hok]. destruct (turn m x) as [m1| | | |] eqn:E; try done. simpl in Hr.
  eapply rtc_l; [|by apply (IH m1)]. unfold turn in E. destruct (threads m !! x.1) as [c|] eqn:Ht; [|done]. simpl in E.
  unfold turn_ok in Hx. destruct (x.2) as [d|].
  - injection E as <-. destruct Hx. by apply step_call.
  - by apply (step_exec _ _ x.1 c).
Qed.

Definition demo_ring : ringbuff := Ringbuff 0 0 3 [0; 0; 0].

Lemma demo_ring_empty : repr (1 * 2) [] demo_ring.
Proof. by repeat split. Qed.

(** Thread 0 pushes while thread 1 waits and then pops. *)
Definition demo_schedule : list (nat * option pc) :=
  [(1, Some CDown); (0, Some (PDown [7; 8]%Z)); (0, None); (0, None); (0, None); (0, None); (1, None); (0, None);
   (1, None); (1, None); (1, None)]%nat.

Definition demo_state : machine := match run demo_schedule (initial 1 2 demo_ring 2) with Ret m => m | _ => initial 1 2 demo_ring 2 end.

Lemma blockq_fifo_witness :
  pushed demo_state = [[7; 8]] /\ popped demo_state = [[7; 8]] /\
  exists q, pushed demo_state = popped demo_state ++ q /\ bq_size (bq demo_state) = zlen q /\ zlen q <= 1 /\
    repr (1 * 2) (concat q) (bq_rbuff (bq demo_state)) /\
    forall t c, threads demo_state !! t = Some c -> match exec t c demo_state with Ret _ | Block => True | _ => False end.
Proof.
  split; [reflexivity|]. split; [reflexivity|].
  apply (blockq_fifo 1 2) with (rb := demo_ring) (n := 2%nat); [lia|lia|lia|exact demo_ring_empty|].
  apply (run_steps false demo_schedule); [reflexivity|vm_compute; tauto].
Defined.

(** Both threads wait on the empty queue. *)
Definition demo_waiting : machine := Machine (blockq_fields 1 2 demo_ring) 0 1 [CDown; CDown] [] [].

Lemma blockq_no_deadlock_witness : starved 1 demo_waiting.
Proof.
  apply (blockq_no_deadlock 1 2) with (rb := demo_ring) (n := 2%nat); [lia|lia|lia|exact demo_ring_empty| |].
  - apply (run_steps false [(0%nat, Some CDown); (1%nat, Some CDown)]); [reflexivity|vm_compute; tauto].
  - intros [|[|t]] (c & m' & Hc & He); simpl in Hc; simplify_eq; discriminate He.
Defined.

(** [blockq_push_nonblock] takes no place from [not_full] while [blockq_pop]
    gives one back: afterwards a thread pushes into the full queue, and its
    assertion fails. *)
Theorem blockq_nonblock_overfills :
  exists m r, rtc (step true) (initial 1 2 demo_ring 1) m /\ threads m !! 0%nat = Some (PWrite r) /\
    exec 0 (PWrite r) m = Panic "assertion".
Proof.
  set (five := replicate 5 (0%nat, @None pc)).
  set (xs := (0%nat, Some (NWrite [7; 8])) :: take 2 five ++ (0%nat, Some CDown) :: five ++
             (0%nat, Some (PDown [7; 8])) :: five ++ (0%nat, Some (PDown [9; 9])) :: take 2 five).
  destruct (run xs (initial 1 2 demo_ring 1)) as [m| | | |] eqn:E; try (vm_compute in E; discriminate E).
  exists m, [9; 9]. split; [apply (run_steps true xs); [exact E|vm_compute; tauto]|].
  vm_compute in E. injection E as <-. split; reflexivity.
Qed.
