(* ===== verification/Device.v ===== *)
(** * What the device drivers share

    The registers of the devices are bytes of one physical page, behind the
    class [DevicePage]: reading or writing one is a step of the hardware.  The
    variables of all drivers are the record [drivers], the private state of the
    file systems in Sys.v. *)

From S2P Require Import Prelude Interfaces Proc Sync CString Kernel Sched Virtual Vfs Sys Request Tmpfs Ringbuff Tty Blockq.

(** The device page: [B] is the state of the hardware behind it.  A read of a
    register can change that state.  [dev_polls] bounds how often a loop asks
    a device that is not ready. *)
Class DevicePage (B : Type) := {
  dev_read : Z -> B -> Z * B;
  dev_write : Z -> Z -> B -> B;
  dev_polls : nat;
}.

Definition DEVICE_PAGE : Z := 0x4.

(** [struct dir_t_node] without its two lists (kernel/fs/dirtree.h) *)
Record dir_t_node := DirNode { dn_name : list Z; dn_parent : Z; dn_inode : Z }.

(** [struct ent] (kernel/fs/rootfs.c) *)
Record ent := Ent { full_path_of : Z; ent_inode : Z }.

(** [struct i2c_drv_dat] *)
Record i2c_drv_dat := I2cDat { i2c_addr : Z; i2c_reg : Z }.

Record drivers (B : Type) := Drivers {
  d_bus : B;                          (** the hardware *)
  d_requests : blockq;                (** [requests] of sd.c *)
  d_nodes : gmap Z dir_t_node;        (** the objects of dirtree.c *)
  d_ents : gmap Z ent;                (** the objects of rootfs.c *)
  d_ffid : Z;                         (** [ffid] of rootfs.c *)
  d_i2c : gmap Z i2c_drv_dat;         (** the objects of i2c.c *)
  d_tty : Tty.tty;                    (** the variables of tty.c *)
  d_read_queue : Z;                   (** [read_queue_buff] of tty.c *)
  d_c_buff : ringbuff;                (** [c_buff] of kbd.c *)
  d_read_pending : Z;                 (** [list_read_pending] of kbd.c *)
  d_tmp : tmp_state;                  (** the variables of tmp.c *)
  d_log : Z;                          (** [LOG_TARGET_MASK] of log.c *)
}.
Arguments Drivers {B}.
Arguments d_bus {B}.
Arguments d_requests {B}.
Arguments d_nodes {B}.
Arguments d_ents {B}.
Arguments d_ffid {B}.
Arguments d_i2c {B}.
Arguments d_tty {B}.
Arguments d_read_queue {B}.
Arguments d_c_buff {B}.
Arguments d_read_pending {B}.
Arguments d_tmp {B}.
Arguments d_log {B}.

Section Device.
Context {St B : Type} `{ListStore St} {junk : Uninit} `{DevicePage B}.
Abbreviation sys := (sys St (drivers B)).

Definition set_bus (x : B) (s : sys) : sys :=
  let d := s_dev s in set_dev (Drivers x (d_requests d) (d_nodes d) (d_ents d) (d_ffid d) (d_i2c d) (d_tty d) (d_read_queue d) (d_c_buff d) (d_read_pending d) (d_tmp d) (d_log d)) s.
Definition set_requests (x : blockq) (s : sys) : sys :=
  let d := s_dev s in set_dev (Drivers (d_bus d) x (d_nodes d) (d_ents d) (d_ffid d) (d_i2c d) (d_tty d) (d_read_queue d) (d_c_buff d) (d_read_pending d) (d_tmp d) (d_log d)) s.
Definition set_nodes (x : gmap Z dir_t_node) (s : sys) : sys :=
  let d := s_dev s in set_dev (Drivers (d_bus d) (d_requests d) x (d_ents d) (d_ffid d) (d_i2c d) (d_tty d) (d_read_queue d) (d_c_buff d) (d_read_pending d) (d_tmp d) (d_log d)) s.
Definition set_ents (x : gmap Z ent) (ffid : Z) (s : sys) : sys :=
  let d := s_dev s in set_dev (Drivers (d_bus d) (d_requests d) (d_nodes d) x ffid (d_i2c d) (d_tty d) (d_read_queue d) (d_c_buff d) (d_read_pending d) (d_tmp d) (d_log d)) s.
Definition set_i2c (x : gmap Z i2c_drv_dat) (s : sys) : sys :=
  let d := s_dev s in set_dev (Drivers (d_bus d) (d_requests d) (d_nodes d) (d_ents d) (d_ffid d) x (d_tty d) (d_read_queue d) (d_c_buff d) (d_read_pending d) (d_tmp d) (d_log d)) s.
Definition set_tty (x : Tty.tty) (n : Z) (s : sys) : sys :=
  let d := s_dev s in set_dev (Drivers (d_bus d) (d_requests d) (d_nodes d) (d_ents d) (d_ffid d) (d_i2c d) x n (d_c_buff d) (d_read_pending d) (d_tmp d) (d_log d)) s.
Definition set_kbd (x : ringbuff) (n : Z) (s : sys) : sys :=
  let d := s_dev s in set_dev (Drivers (d_bus d) (d_requests d) (d_nodes d) (d_ents d) (d_ffid d) (d_i2c d) (d_tty d) (d_read_queue d) x n (d_tmp d) (d_log d)) s.
Definition set_tmp (x : tmp_state) (s : sys) : sys :=
  let d := s_dev s in set_dev (Drivers (d_bus d) (d_requests d) (d_nodes d) (d_ents d) (d_ffid d) (d_i2c d) (d_tty d) (d_read_queue d) (d_c_buff d) (d_read_pending d) x (d_log d)) s.
Definition set_log (x : Z) (s : sys) : sys :=
  let d := s_dev s in set_dev (Drivers (d_bus d) (d_requests d) (d_nodes d) (d_ents d) (d_ffid d) (d_i2c d) (d_tty d) (d_read_queue d) (d_c_buff d) (d_read_pending d) (d_tmp d) x) s.

(** The empty loop that reads register [reg] until the bits of [mask] are clear
    or, with [want], until one of them is set. *)
Fixpoint poll_loop (fuel : nat) (reg mask : Z) (want : bool) (b : B) : outcome B :=
  match fuel with
  | O => Hang
  | S fuel =>
    let '(x, b) := dev_read reg b in
    if Bool.eqb (negb (Z.land x mask =? 0)) want then Ret b else poll_loop fuel reg mask want b
  end.

Definition poll : Z -> Z -> bool -> B -> outcome B := poll_loop dev_polls.

(** A sequence of register accesses between
    [map_page_zero(DEVICE_PAGE)] and [map_page_zero(ILLEGAL_PAGE)] *)
Definition on_device_page {A} (f : B -> outcome (A * B)) (s : sys) : outcome (A * sys) :=
  v ← map_page_zero DEVICE_PAGE (s_vm s);
  '(x, b) ← f (d_bus (s_dev s));
  v ← map_page_zero ILLEGAL_PAGE v;
  Ret (x, set_bus b (set_vm v s)).

(** [ringbuff_init]: the allocated block holds whatever was there. *)
Definition s_ringbuff_init (size : Z) (s : sys) : outcome (ringbuff * sys) :=
  let size := u16 (size + 1) in
  '(p, s) ← s_kmalloc size s;
  Ret (Ringbuff 0 0 size (fresh_bytes p size), s).

(** [semaphore_binary_up] *)
Definition s_sema_binary_up (l : Z) (s : sys) : outcome sys :=
  c ← deref (s_semas s) l;
  '(c, _) ← SemOps.semaphore_binary_up 4 c;
  Ret (s_set_semas (<[l := c]> (s_semas s)) s).

(** The functions [..._fs_get_inode] of the devices differ in the variable
    [root_inode] they return. *)
Definition device_inode (root : Z) (self : Z) (path : list Z) (s : sys) : outcome (Z * sys) :=
  i ← deref (inodes (s_vfs s)) root;
  Ret (root, set_inodes (<[root := Inode (i_name i) (i_fid i) (i_size i) self (i_type i)]> (inodes (s_vfs s))) s).

(** ** Lemmas *)

Lemma on_device_page_ok {A} (f : B -> outcome (A * B)) s x b :
  current_ok (s_kernel s) -> f (d_bus (s_dev s)) = Ret (x, b) ->
  on_device_page f s = Ret (x, set_bus b (set_vm (mapped ILLEGAL_PAGE (s_vm s)) s)).
Proof.
  intros C Hf. unfold on_device_page. destruct (map_page_zero_ok DEVICE_PAGE (s_vm s) C) as [-> C1].
  cbn [mbind outcome_bind]. rewrite Hf. cbn [mbind outcome_bind].
  destruct (map_page_zero_ok ILLEGAL_PAGE _ C1) as [-> _]. cbn [mbind outcome_bind]. by rewrite mapped_mapped.
Qed.

End Device.
