(* ===== verification/Dirtree.v ===== *)
(** * The directory tree of a file system (kernel/fs/dirtree.c)

    A node per directory, named by its whole path with the slash at the end,
    with the lists of its subdirectories and of the inodes of its files.  The
    tree refines a table of files: looking up a path finds the first inode that
    was added under it.

    A directory is looked up by comparing its whole name, whose terminating
    null byte is stored one place too far: it is found when the byte in between
    happens to be zero. *)

From S2P Require Import Prelude Interfaces Kmalloc KList Proc Sync CString Kernel Sched Virtual Vfs Sys Request Tmpfs Ringbuff Tty Blockq Device.

Definition SLASH : Z := 47.
Definition NAME_SIZE : Z := 32.
Definition sizeof_dir_t_node : Z := 44.

(** The string literal that names the root. *)
Definition SLASH_LITERAL : Z := -20.

(** [&node->subdirs] and [&node->files] *)
Definition subdirs (node : Z) : Z := member node 34.
Definition files (node : Z) : Z := member node 38.

Section Dirtree.
Context {St B : Type} `{ListStore St} {junk : Uninit} {others : Others St (drivers B)} {sign : CharSign}.
Abbreviation sys := (sys St (drivers B)).
Set Default Proof Using "Type".

(** ** The code *)

Fixpoint slash_loop (fuel : nat) (s : list Z) (pos n : Z) : outcome Z :=
  match fuel with
  | O => Hang
  | S fuel =>
    c ← arr_get s pos;
    if c =? 0 then Ret (-1)
    else if c =? SLASH then
      if n =? 0 then Ret (i16 pos) else slash_loop fuel s (pos + 1) (i16 (n - 1))
    else slash_loop fuel s (pos + 1) n
  end.

Definition get_slash_pos (s : list Z) (n : Z) : outcome Z := slash_loop (S (length s)) s 0 n.

Definition put_node (n : Z) (d : dir_t_node) (s : sys) : sys := set_nodes (<[n := d]> (d_nodes (s_dev s))) s.

Definition dir_tree_init (root root_vnode : Z) (s : sys) : outcome sys :=
  d ← deref (d_nodes (s_dev s)) root;
  name ← strcpy (dn_name d) 0 [SLASH; 0] 0;
  '(i, s) ← s_kmalloc sizeof_inode s;
  let s := put_node root (DirNode name root i) s in
  let s := set_inodes (<[i := Inode SLASH_LITERAL (u16 (-1)) 0 root_vnode INODE_TYPE_DIRECTORY]> (inodes (s_vfs s))) s in
  let st := ls_init (s_store s) (subdirs root) in
  Ret (s_set_store (ls_init st (files root)) s).

(** The loops over the subdirectories: the first one whose name and the path
    agree in [count] characters, or 0. *)
Fixpoint find_sub (xs : list (Z * Z)) (path : list Z) (count : Z) (s : sys) : outcome Z :=
  match xs with
  | [] => Ret 0
  | (_, val) :: xs =>
    d ← deref (d_nodes (s_dev s)) val;
    c ← strncmp (dn_name d) 0 path 0 count;
    if c =? 0 then Ret val else find_sub xs path count s
  end.

(** A directory that is missing on the way. *)
Definition new_dir (node : Z) (path : list Z) (next_slash : Z) (s : sys) : outcome (Z * sys) :=
  '(n, s) ← s_kmalloc sizeof_dir_t_node s;
  let prefix_len := next_slash + 1 in
  name ← strncpy (fresh_bytes n NAME_SIZE) 0 path 0 prefix_len;
  name ← arr_set name (prefix_len + 1) 0;
  let s := put_node n (DirNode name node (uninit n 42)) s in
  let s := s_set_store (ls_init (ls_init (s_store s) (subdirs n)) (files n)) s in
  st ← ls_append (s_store s) (subdirs node) n;
  Ret (n, s_set_store st s).

Fixpoint add_loop (fuel : nat) (path : list Z) (node next_slash : Z) (s : sys) {struct fuel} : outcome (Z * sys) :=
  match fuel with
  | O => Hang
  | S fuel =>
    next ← strchr path (next_slash + 1) SLASH;
    match next with
    | None => Ret (node, s)
    | Some next_slash =>
      xs ← ls_nodes (s_store s) (subdirs node);
      v ← find_sub xs path (next_slash + 1) s;
      if negb (v =? 0) then add_loop fuel path v next_slash s
      else '(n, s) ← new_dir node path next_slash s; add_loop fuel path n next_slash s
    end
  end.

Definition dir_tree_add_path (root file : Z) (s : sys) : outcome sys :=
  i ← deref (inodes (s_vfs s)) file;
  path ← deref (s_bufs s) (i_name i);
  '(node, s) ← add_loop (S (length path)) path root 0 s;
  len ← strlen path 0;
  c ← arr_get path (len - 1);
  if c =? SLASH then
    d ← deref (d_nodes (s_dev s)) node;
    Ret (put_node node (DirNode (dn_name d) (dn_parent d) file) s)
  else
    st ← ls_append (s_store s) (files node) file;
    Ret (s_set_store st s).

Fixpoint get_loop (fuel : nat) (path : list Z) (node dir_depth : Z) (s : sys) {struct fuel} : outcome Z :=
  match fuel with
  | O => Hang
  | S fuel =>
    path_index ← get_slash_pos path dir_depth;
    if 0 <? path_index then
      xs ← ls_nodes (s_store s) (subdirs node);
      v ← find_sub xs path (path_index + 1) s;
      if negb (v =? 0) then get_loop fuel path v (i16 (dir_depth + 1)) s else Ret 0
    else Ret node
  end.

(** The loop over the files of a directory. *)
Fixpoint find_name (ys : list (Z * Z)) (path : list Z) (s : sys) : outcome Z :=
  match ys with
  | [] => Ret 0
  | (_, file) :: ys =>
    i ← deref (inodes (s_vfs s)) file;
    name ← deref (s_bufs s) (i_name i);
    c ← strcmp name 0 path 0;
    if c =? 0 then Ret file else find_name ys path s
  end.

Definition dir_tree_get_file (root : Z) (path : list Z) (s : sys) : outcome Z :=
  node ← get_loop (S (length path)) path root 0 s;
  if node =? 0 then Ret 0
  else
    d ← deref (d_nodes (s_dev s)) node;
    len ← strlen path 0;
    c ← arr_get path (len - 1);
    same ← (if c =? SLASH then z ← strcmp (dn_name d) 0 path 0; Ret (z =? 0) else Ret false);
    if (same : bool) then Ret (dn_inode d)
    else
      ys ← ls_nodes (s_store s) (files node);
      find_name ys path s.

(** ** Paths *)

Definition noslash (c : list Z) : Prop := SLASH ∉ c.
Definition is_dir (p : list Z) : Prop := p = [] \/ exists q, p = q ++ [SLASH].
Definition joined (cs : list (list Z)) : list Z := concat ((fun c => c ++ [SLASH]) <$> cs).
Definition chars (str : list Z) : Prop := Forall (fun b => b <> 0 /\ is_u8 b) str.

(** The path up to its last slash. *)
Fixpoint dirname (l : list Z) : list Z :=
  match l with
  | [] => []
  | c :: l' => if decide (SLASH ∈ l) then c :: dirname l' else []
  end.

Lemma dirname_noslash r : noslash r -> dirname r = [].
Proof. intros Hr. destruct r as [|c r]; [done|]. cbn [dirname]. by rewrite decide_False. Qed.

Lemma dirname_app p r : is_dir p -> noslash r -> dirname (p ++ r) = p.
Proof.
  intros Hp Hr. destruct Hp as [->|[q ->]]; [by apply dirname_noslash|].
  rewrite <-app_assoc. change ([SLASH] ++ r) with (SLASH :: r). induction q as [|c q IH]; cbn [app dirname].
  - rewrite decide_True by constructor. by rewrite dirname_noslash.
  - rewrite decide_True; [by rewrite IH|]. right. apply elem_of_app. right. constructor.
Qed.

Lemma is_dir_joined p cs : is_dir p -> is_dir (p ++ joined cs).
Proof.
  intros Hp. destruct cs as [|c cs _] using rev_ind; [by rewrite app_nil_r|].
  right. exists (p ++ joined cs ++ c). unfold joined. rewrite fmap_app, concat_app. simpl. by rewrite app_nil_r, <-!app_assoc.
Qed.

Lemma is_dir_snoc p c : is_dir (p ++ c ++ [SLASH]).
Proof. right. exists (p ++ c). by rewrite <-app_assoc. Qed.

Lemma joined_cons c cs : joined (c :: cs) = c ++ [SLASH] ++ joined cs.
Proof. unfold joined. simpl. by rewrite <-app_assoc. Qed.

Lemma joined_snoc cs c : joined (cs ++ [c]) = joined cs ++ c ++ [SLASH].
Proof. unfold joined. rewrite fmap_app, concat_app. simpl. by rewrite app_nil_r. Qed.

(** Every path is made of directory names and a file name. *)
Lemma split_path str : exists cs r, str = joined cs ++ r /\ Forall noslash cs /\ noslash r.
Proof.
  induction str as [|c str (cs & r & -> & Hcs & Hr)].
  - exists [], []. split_and!; [done|constructor|]. unfold noslash. set_solver.
  - destruct (decide (c = SLASH)) as [->|Hc].
    + exists ([] :: cs), r. split_and!; [by rewrite joined_cons| |done]. constructor; [|done]. unfold noslash. set_solver.
    + destruct cs as [|c0 cs].
      * exists [], (c :: r). split_and!; [done|done|]. unfold noslash in *. set_solver.
      * apply Forall_cons in Hcs as [Hc0 Hcs]. exists ((c :: c0) :: cs), r. rewrite !joined_cons.
        split_and!; [done| |done]. constructor; [|done]. unfold noslash in *. set_solver.
Qed.

Lemma dir_joined p : is_dir p -> exists cs, p = joined cs /\ Forall noslash cs.
Proof.
  intros Hp. destruct (split_path p) as (cs & r & -> & Hcs & Hr). exists cs. split; [|done].
  destruct r as [|x r _] using rev_ind; [by rewrite app_nil_r|]. destruct Hp as [E|[q E]]; [by destruct (joined cs), r|].
  rewrite app_assoc in E. apply app_inj_tail in E as [_ ->]. exfalso. apply Hr. apply elem_of_app. right. constructor.
Qed.

Lemma length_joined cs : (length cs <= length (joined cs))%nat.
Proof. induction cs as [|c cs IH]; [done|]. rewrite joined_cons, !length_app. simpl. lia. Qed.

Lemma component_inj p p' c c' : is_dir p -> is_dir p' -> noslash c -> noslash c' ->
  p ++ c ++ [SLASH] = p' ++ c' ++ [SLASH] -> p = p' /\ c = c'.
Proof.
  intros Hp Hp' Hc Hc' E. rewrite !app_assoc in E. apply app_inj_tail in E as [E _].
  assert (p = p') as <-. { by rewrite <-(dirname_app p c), <-(dirname_app p' c'), E. }
  split; [done|]. by apply app_inv_head in E.
Qed.

(** Two different names, each ended by a slash, differ before either ends. *)
Lemma component_diff c c' : noslash c -> noslash c' -> c <> c' ->
  exists w a x b y, c ++ [SLASH] = w ++ a :: x /\ c' ++ [SLASH] = w ++ b :: y /\ a <> b.
Proof.
  revert c'. induction c as [|a c IH]; intros [|b c'] Hc Hc' Hne; [done|..].
  - exists [], SLASH, [], b, (c' ++ [SLASH]). split_and!; [done..|]. intros <-. apply Hc'. constructor.
  - exists [], a, (c ++ [SLASH]), SLASH, []. split_and!; [done..|]. intros ->. apply Hc. constructor.
  - destruct (decide (a = b)) as [<-|Hab].
    + destruct (IH c') as (w & a' & x & b' & y & E1 & E2 & Hd).
      * unfold noslash in *. set_solver.
      * unfold noslash in *. set_solver.
      * congruence.
      * exists (a :: w), a', x, b', y. simpl. by rewrite E1, E2.
    + by exists [], a, (c ++ [SLASH]), b, (c' ++ [SLASH]).
Qed.

(** *** [strncmp] on names without a terminator *)

Lemma strncmp_loop_equal w : forall fuel l x r y index count, chars w -> (length w <= fuel)%nat -> w <> [] ->
  0 <= index -> index + zlen w = count -> count < 65536 ->
  strncmp_loop fuel (l ++ w ++ x) (zlen l) (r ++ w ++ y) (zlen r) index count = Ret 0.
Proof.
  induction w as [|a w IH]; intros [|fuel] l x r y index count Hw Hf Hne Hi Hc Hct; simpl in Hf, Hc; try done; try lia.
  apply Forall_cons in Hw as [[Ha _] Hw]. simpl app. cbn [strncmp_loop]. rewrite !arr_get_middle. cbn [mbind outcome_bind].
  rewrite Z.eqb_refl, (eqb_ne a 0) by done. cbn [andb]. rewrite u16_small by lia. destruct (Z.leb_spec count (index + 1)).
  - by rewrite Z.sub_diag.
  - rewrite !(cons_middle a), !app_assoc, <-!(app_assoc _ w).
    replace (zlen l + 1) with (zlen (l ++ [a])) by (rewrite length_app; simpl; lia).
    replace (zlen r + 1) with (zlen (r ++ [a])) by (rewrite length_app; simpl; lia).
    apply IH; try done; try lia. intros ->. simpl in *. lia.
Qed.

Lemma strncmp_loop_differ w a b : forall fuel l x r y index count, chars w -> (length w < fuel)%nat ->
  0 <= index -> index + zlen w < count -> count < 65536 -> a <> b ->
  strncmp_loop fuel (l ++ w ++ a :: x) (zlen l) (r ++ w ++ b :: y) (zlen r) index count = Ret (char_value a - char_value b).
Proof.
  induction w as [|c w IH]; intros [|fuel] l x r y index count Hw Hf Hi Hc Hct Hab; simpl in Hf, Hc; try lia; simpl app;
    cbn [strncmp_loop]; rewrite !arr_get_middle; cbn [mbind outcome_bind].
  - by rewrite eqb_ne.
  - apply Forall_cons in Hw as [[Hcz _] Hw]. rewrite Z.eqb_refl, (eqb_ne c 0) by done. cbn [andb].
    rewrite u16_small by lia. destruct (Z.leb_spec count (index + 1)); [lia|].
    rewrite !(cons_middle c), !app_assoc, <-!(app_assoc _ w).
    replace (zlen l + 1) with (zlen (l ++ [c])) by (rewrite length_app; simpl; lia).
    replace (zlen r + 1) with (zlen (r ++ [c])) by (rewrite length_app; simpl; lia).
    apply IH; try done; lia.
Qed.

(** Comparing a path with the name of a directory, up to the next slash of the
    path, tells whether the path enters it. *)
Lemma strncmp_component p c c' x y : noslash c -> noslash c' -> chars (p ++ c ++ [SLASH]) -> chars (p ++ c' ++ [SLASH]) ->
  zlen (p ++ c') < 65535 ->
  exists z, strncmp (p ++ c ++ [SLASH] ++ x) 0 (p ++ c' ++ [SLASH] ++ y) 0 (zlen (p ++ c') + 1) = Ret z /\ (z = 0 <-> c = c').
Proof.
  intros Hc Hc' Hw Hw' Hl. unfold strncmp. rewrite eqb_ne by lia. destruct (decide (c = c')) as [<-|Hne].
  - exists 0. split; [|done].
    replace (p ++ c ++ [SLASH] ++ x) with ([] ++ (p ++ c ++ [SLASH]) ++ x) by (by rewrite <-!app_assoc).
    replace (p ++ c ++ [SLASH] ++ y) with ([] ++ (p ++ c ++ [SLASH]) ++ y) by (by rewrite <-!app_assoc).
    apply (strncmp_loop_equal _ _ [] _ [] _); try done; rewrite ?length_app in *; simpl; try lia. by destruct p, c.
  - destruct (component_diff c c' Hc Hc' Hne) as (w & a & u & b & v & E1 & E2 & Hab).
    rewrite (app_assoc c), (app_assoc c'), E1, E2 in *. exists (char_value a - char_value b). split.
    + replace (p ++ (w ++ a :: u) ++ x) with ([] ++ (p ++ w) ++ a :: u ++ x) by (by rewrite <-!app_assoc).
      replace (p ++ (w ++ b :: v) ++ y) with ([] ++ (p ++ w) ++ b :: v ++ y) by (by rewrite <-!app_assoc).
      assert (length (c' ++ [SLASH]) = length (w ++ b :: v)) as El by (by rewrite E2). rewrite !length_app in El. simpl in El.
      apply (strncmp_loop_differ (p ++ w) a b _ [] _ [] _); rewrite ?length_app in *; simpl; try lia; try done.
      unfold chars in *. rewrite !Forall_app in Hw. rewrite Forall_app. tauto.
    + split; [|done]. intros E. exfalso. apply Hab. unfold chars in *. rewrite !Forall_app, Forall_cons in Hw, Hw'.
      apply char_value_inj; [tauto|tauto|lia].
Qed.

(** *** The slashes of a path *)

Lemma cstr_drop pb u v : cstr pb 0 (u ++ v) -> cstr pb (zlen u) v.
Proof.
  intros (pre & post & -> & Hl & [_ Hv]%Forall_app). destruct pre; [|simpl in Hl; lia]. exists u, post. by rewrite <-app_assoc.
Qed.

Lemma strchr_slash pb i c tl : cstr pb i (c ++ SLASH :: tl) -> noslash c -> strchr pb i SLASH = Ret (Some (i + zlen c)).
Proof.
  intros Hp Hc. pose proof (cstr_length _ _ _ Hp) as [Hi Hl]. unfold strchr. change (u8 SLASH) with SLASH.
  rewrite (strchr_loop_spec _ _ _ _ _ Hp) by lia. rewrite <-app_assoc. simpl app. clear Hp Hi Hl.
  assert (list_find (fun x => x = SLASH) (c ++ SLASH :: tl ++ [0]) = Some (length c, SLASH)) as ->; [|done].
  apply list_find_Some. rewrite lookup_app_r, Nat.sub_diag by lia. split_and!; [done..|].
  intros j y Hy Hj E. rewrite lookup_app_l in Hy by done. apply Hc. subst. by eapply list_elem_of_lookup_2.
Qed.

Lemma strchr_no_slash pb i r : cstr pb i r -> noslash r -> strchr pb i SLASH = Ret None.
Proof.
  intros Hp Hr. pose proof (cstr_length _ _ _ Hp) as [Hi Hl]. unfold strchr. change (u8 SLASH) with SLASH.
  rewrite (strchr_loop_spec _ _ _ _ _ Hp) by lia.
  assert (list_find (fun x => x = SLASH) (r ++ [0]) = None) as ->; [|done].
  apply list_find_None, Forall_app. split; [|by repeat constructor]. apply Forall_forall. intros x Hx ->. done.
Qed.

(** From the slash that ends [p], or from the first character on. *)
Lemma next_slash_some p c tl pb next : cstr pb 0 (p ++ c ++ SLASH :: tl) -> noslash c -> (p = [] -> c <> []) ->
  next + 1 = Z.max 1 (zlen p) -> strchr pb (next + 1) SLASH = Ret (Some (zlen p + zlen c)).
Proof.
  intros Hp Hc Hne ->. destruct p as [|a p].
  - destruct c as [|a c]; [by destruct Hne|]. simpl. change (a :: c ++ SLASH :: tl) with ([a] ++ c ++ SLASH :: tl) in Hp.
    rewrite (strchr_slash _ 1 c tl); [f_equal; f_equal; simpl; lia|by apply (cstr_drop _ [a])|]. unfold noslash in *. set_solver.
  - rewrite Z.max_r by (simpl; lia). apply strchr_slash with tl; [|done]. by apply cstr_drop.
Qed.

Lemma next_slash_none p r pb next : cstr pb 0 (p ++ r) -> noslash r -> (p = [] -> r <> []) ->
  next + 1 = Z.max 1 (zlen p) -> strchr pb (next + 1) SLASH = Ret None.
Proof.
  intros Hp Hc Hne ->. destruct p as [|a p].
  - destruct r as [|a c]; [by destruct Hne|]. change ([] ++ a :: c) with ([a] ++ c) in Hp.
    apply strchr_no_slash with c; [by apply (cstr_drop _ [a])|]. unfold noslash in *. set_solver.
  - rewrite Z.max_r by (simpl; lia). apply strchr_no_slash with r; [|done]. by apply cstr_drop.
Qed.

Lemma slash_skip pb tl n c : forall fuel i, cstr pb i (c ++ tl) -> noslash c -> (length c < fuel)%nat ->
  slash_loop fuel pb i n = slash_loop (fuel - length c) pb (i + zlen c) n /\ cstr pb (i + zlen c) tl.
Proof.
  induction c as [|a c IH]; intros fuel i Hp Hc Hf.
  - simpl. by rewrite Z.add_0_r, Nat.sub_0_r.
  - destruct fuel as [|fuel]; simpl in Hf; [lia|]. destruct (cstr_cons _ _ _ _ Hp) as (Ha & Hz & Hp' & _).
    cbn [slash_loop]. rewrite Ha. cbn [mbind outcome_bind]. rewrite (eqb_ne a 0), (eqb_ne a SLASH); [|intros ->; apply Hc; constructor|done].
    replace (i + zlen (a :: c)) with (i + 1 + zlen c) by (simpl; lia). simpl Nat.sub.
    apply IH; [done|unfold noslash in *; set_solver|lia].
Qed.

Lemma slash_loop_joined pb r : noslash r -> forall cs n fuel i, cstr pb i (joined cs ++ r) -> Forall noslash cs ->
  (length (joined cs ++ r) < fuel)%nat -> i + zlen (joined cs ++ r) < 32768 -> (n <= length cs)%nat ->
  slash_loop fuel pb i (Z.of_nat n) =
    Ret (if decide (n < length cs)%nat then i + zlen (joined (take (S n) cs)) - 1 else -1).
Proof.
  intros Hr. induction cs as [|c cs IH]; intros n fuel i Hp Hcs Hf Hl Hn.
  - simpl in Hf. destruct (slash_skip pb [] (Z.of_nat n) r fuel i) as [-> Hp']; [by rewrite app_nil_r|done|done|].
    rewrite decide_False by (simpl; lia). destruct (fuel - length r)%nat eqn:E; [lia|]. cbn [slash_loop].
    destruct (cstr_nil _ _ Hp') as [-> _]. done.
  - apply Forall_cons in Hcs as [Hc Hcs]. rewrite joined_cons in *. rewrite <-!app_assoc in *. simpl app in *.
    rewrite length_app in Hf, Hl. simpl length in Hf, Hl.
    destruct (slash_skip pb (SLASH :: joined cs ++ r) (Z.of_nat n) c fuel i) as [-> Hp']; [done|done|lia|].
    destruct (fuel - length c)%nat eqn:E; [lia|]. cbn [slash_loop].
    destruct (cstr_cons _ _ _ _ Hp') as (Ha & Hz & Hp2 & _). rewrite Ha. cbn [mbind outcome_bind].
    pose proof (cstr_length _ _ _ Hp) as [Hi0 _]. rewrite (eqb_ne SLASH 0), Z.eqb_refl by done. destruct n as [|n].
    + rewrite decide_True by (simpl; lia). simpl take. rewrite joined_cons, !length_app. cbn [Z.of_nat Z.eqb].
      rewrite i16_small by lia. simpl. f_equal. unfold joined. simpl. lia.
    + rewrite eqb_ne by lia. pose proof (length_app (joined cs) r) as Ea.
      pose proof (length_joined cs).
      simpl in Hn. rewrite i16_small by lia. replace (Z.of_nat (S n) - 1) with (Z.of_nat n) by lia.
      rewrite IH by (done || lia). simpl length. do 2 (case_decide; try lia); [|done].
      simpl take. rewrite joined_cons, !length_app. simpl. f_equal. lia.
Qed.

(** ** The tree and the table it represents

    [T] gives the node of each directory, by its path; [F] are the files in the
    order in which they were added, [G] the inodes of the directories. *)

Context (root : Z).

Definition is_file_name (str : list Z) : Prop := exists p r, str = p ++ r /\ is_dir p /\ noslash r /\ r <> [].

(** An inode whose name is the string. *)
Definition inode_named (s : sys) (file : Z) (str : list Z) : Prop :=
  exists i b, inodes (s_vfs s) !! file = Some i /\ s_bufs s !! i_name i = Some b /\ cstr b 0 str.

Record tree_rep (s : sys) (m : gmap Z (list (Z * Z))) (own : gset Z) (T : gmap (list Z) Z)
    (F : list (list Z * Z)) (G : gmap (list Z) Z) : Prop := {
  tr_root : T !! [] = Some root;
  tr_root_node : is_Some (d_nodes (s_dev s) !! root);
  tr_dirs p n : T !! p = Some n -> is_dir p /\ chars p;
  tr_inj p q n : T !! p = Some n -> T !! q = Some n -> p = q;
  tr_closed p c : noslash c -> is_dir p -> is_Some (T !! (p ++ c ++ [SLASH])) -> is_Some (T !! p);
  tr_own p n : T !! p = Some n -> p <> [] -> 0 < n < 65536 /\ n ∈ own;
  tr_name p n : T !! p = Some n -> p <> [] ->
    exists d rest, d_nodes (s_dev s) !! n = Some d /\ dn_name d = p ++ u8 (uninit n (zlen p)) :: 0 :: rest;
  tr_subs p n : T !! p = Some n -> exists xs, m !! subdirs n = Some xs /\
    forall v, v ∈ xs.*2 <-> exists c, noslash c /\ T !! (p ++ c ++ [SLASH]) = Some v;
  tr_files p n : T !! p = Some n -> exists ys, m !! files n = Some ys /\
    ys.*2 = (filter (fun e => dirname e.1 = p) F).*2;
  tr_entries e : e ∈ F -> inode_named s e.2 e.1 /\ chars e.1 /\ is_file_name e.1 /\ is_Some (T !! dirname e.1);
  tr_inode p i : G !! p = Some i -> exists n d, T !! p = Some n /\ d_nodes (s_dev s) !! n = Some d /\ dn_inode d = i;
}.

(** The specification of a lookup: the first file with that name. *)
Fixpoint first_named (str : list Z) (F : list (list Z * Z)) : Z :=
  match F with [] => 0 | e :: F => if decide (e.1 = str) then e.2 else first_named str F end.

Lemma first_named_filter str F : first_named str (filter (fun e => dirname e.1 = dirname str) F) = first_named str F.
Proof.
  induction F as [|e F IH]; [done|]. rewrite filter_cons. case_decide as Hd; simpl.
  - by rewrite IH.
  - rewrite decide_False; [done|]. congruence.
Qed.

(** A path that can be looked up. *)
Record path_ok (str : list Z) : Prop := {
  po_chars : chars str;
  po_first : exists a l, str = a :: l /\ a <> SLASH;
  po_length : zlen str < 32767;
}.

Lemma path_ok_first p c tl : path_ok (p ++ c ++ tl) -> head tl = Some SLASH \/ tl = [] -> p = [] -> c <> [].
Proof.
  intros [_ (a & l & E & Ha) _] Ht -> ->. simpl in E. subst tl. destruct Ht as [Ht|?]; [|done]. simpl in Ht. congruence.
Qed.

Lemma chars_cstr str post : chars str -> cstr (str ++ 0 :: post) 0 str.
Proof. intros Hs. apply cstr_literal. eapply Forall_impl; [exact Hs|]. by intros ? []. Qed.

Section Lookup.
Context (s : sys) (m : gmap Z (list (Z * Z))) (own : gset Z) (T : gmap (list Z) Z)
  (F : list (list Z * Z)) (G : gmap (list Z) Z) (R : tree_rep s m own T F G) (L : ls_rep (s_store s) m own).

Lemma node_nonzero p n : T !! p = Some n -> p <> [] -> n <> 0.
Proof using R. intros Hn Hp. destruct (tr_own _ _ _ _ _ _ R p n Hn Hp). lia. Qed.

Lemma find_sub_ok p c pb tl : is_dir p -> noslash c -> pb = p ++ c ++ [SLASH] ++ tl -> chars (p ++ c ++ [SLASH]) ->
  zlen (p ++ c) < 65535 -> forall xs,
  (forall v, v ∈ xs.*2 -> exists c, noslash c /\ T !! (p ++ c ++ [SLASH]) = Some v) ->
  exists v, find_sub xs pb (zlen p + zlen c + 1) s = Ret v /\
    (v <> 0 -> T !! (p ++ c ++ [SLASH]) = Some v) /\ (v = 0 -> forall w, w ∈ xs.*2 -> T !! (p ++ c ++ [SLASH]) <> Some w).
Proof using R.
  intros Hp Hc -> Hch Hl xs. induction xs as [|[x v] xs IH]; intros Hxs.
  - exists 0. simpl. split_and!; [done..|]. intros _ w Hw. by apply elem_of_nil in Hw.
  - destruct (Hxs v) as (c' & Hc' & Hv); [constructor|].
    assert (Hne : p ++ c' ++ [SLASH] <> []) by (by destruct p, c').
    destruct (tr_name _ _ _ _ _ _ R _ _ Hv Hne) as (d & rest & Hd & Hname).
    destruct (tr_dirs _ _ _ _ _ _ R _ _ Hv) as [_ Hch'].
    cbn [find_sub]. rewrite (deref_Some _ _ _ Hd). cbn [mbind outcome_bind]. rewrite Hname, <-!app_assoc.
    destruct (strncmp_component p c' c (u8 (uninit v (zlen (p ++ c' ++ [SLASH]))) :: 0 :: rest) tl) as (z & Ez & Hz); try done.
    replace (zlen p + zlen c + 1) with (zlen (p ++ c) + 1) by (rewrite length_app; lia).
    rewrite Ez. cbn [mbind outcome_bind]. destruct (Z.eqb_spec z 0) as [E|E].
    + apply Hz in E as ->. exists v. split; [done|]. split; [done|]. intros ->. by apply node_nonzero in Hv.
    + destruct IH as (w & Ew & H1 & H2). { intros w Hw. apply Hxs. by right. }
      exists w. replace (zlen p + zlen c + 1) with (zlen (p ++ c) + 1) in Ew by (rewrite length_app; lia).
      split; [done|]. split; [done|]. intros Hw0 u [->|Hu]%elem_of_cons; [|by apply H2]. intros Hu.
      pose proof (tr_inj _ _ _ _ _ _ R _ _ _ Hv Hu) as Eq. apply E, Hz. apply component_inj in Eq; tauto.
Qed.

(** The subdirectory of [node], or 0. *)
Lemma lookup_sub p c pb tl n : T !! p = Some n -> noslash c -> pb = p ++ c ++ [SLASH] ++ tl -> chars (p ++ c ++ [SLASH]) ->
  zlen (p ++ c) < 65535 ->
  (xs ← ls_nodes (s_store s) (subdirs n); find_sub xs pb (zlen p + zlen c + 1) s) = Ret (default 0 (T !! (p ++ c ++ [SLASH]))).
Proof using R L.
  intros Hn Hc Hpb Hch Hl. destruct (tr_subs _ _ _ _ _ _ R p n Hn) as (xs & Hxs & Hv).
  rewrite (ls_nodes_ok _ _ _ _ _ L Hxs). cbn [mbind outcome_bind].
  destruct (find_sub_ok p c pb tl (proj1 (tr_dirs _ _ _ _ _ _ R p n Hn)) Hc Hpb Hch Hl xs) as (v & -> & H1 & H2).
  { intros v. apply Hv. }
  destruct (decide (v = 0)) as [->|Hne]; [|by rewrite H1].
  destruct (T !! (p ++ c ++ [SLASH])) as [w|] eqn:E; [|done]. exfalso. apply (H2 eq_refl w); [|done]. apply Hv. eauto.
Qed.

(** A directory inside one that does not exist does not exist. *)
Lemma missing_joined cs : forall p, is_dir p -> Forall noslash cs -> T !! p = None -> T !! (p ++ joined cs) = None.
Proof using R.
  induction cs as [|c cs IH] using rev_ind; intros p Hp Hcs Hn; [by rewrite app_nil_r|].
  apply Forall_app in Hcs as [Hcs Hc]. apply Forall_cons in Hc as [Hc _].
  destruct (T !! (p ++ joined (cs ++ [c]))) eqn:E; [|done]. exfalso. rewrite joined_snoc, app_assoc in E.
  destruct (tr_closed _ _ _ _ _ _ R (p ++ joined cs) c Hc) as [w Hw]; [by apply is_dir_joined|by rewrite E|].
  by rewrite IH in Hw.
Qed.

Lemma joined_take_S (cs : list (list Z)) k c : cs !! k = Some c -> joined (take (S k) cs) = joined (take k cs) ++ c ++ [SLASH].
Proof. intros Hc. by rewrite (take_S_r _ _ _ Hc), joined_snoc. Qed.

Lemma joined_take_drop (cs : list (list Z)) k : joined cs = joined (take k cs) ++ joined (drop k cs).
Proof. unfold joined. by rewrite <-concat_app, <-fmap_app, take_drop. Qed.

Lemma get_loop_ok cs r pb : path_ok (joined cs ++ r) -> Forall noslash cs -> noslash r -> cstr pb 0 (joined cs ++ r) ->
  forall fuel k n, (S (length cs) - k <= fuel)%nat -> (k <= length cs)%nat ->
  T !! joined (take k cs) = Some n ->
  get_loop fuel pb n (Z.of_nat k) s = Ret (default 0 (T !! joined cs)).
Proof using R L.
  intros [Hch (a & l & Ea & Hal) Hlen] Hcs Hr Hpb. induction fuel as [|fuel IH]; intros k n Hf Hk Hn; [lia|].
  pose proof Hpb as (pre & post & Epb & Hpre & _). destruct pre; [|simpl in Hpre; lia]. simpl in Epb.
  pose proof (length_joined cs).
  pose proof (length_app (joined cs) r) as Hjr.
  cbn [get_loop]. unfold get_slash_pos. rewrite (slash_loop_joined pb r Hr cs k (S (length pb)) 0); try done; try lia.
  2: { rewrite Epb, !length_app. simpl. lia. }
  case_decide as Hlt.
  - cbn [mbind outcome_bind]. destruct (lookup_lt_is_Some_2 cs k Hlt) as [c Hc]. rewrite (joined_take_S cs k c Hc).
    assert (Hcn : noslash c) by (eapply Forall_forall; [exact Hcs|by eapply list_elem_of_lookup_2]).
    assert (Hsplit : joined cs = joined (take k cs) ++ c ++ [SLASH] ++ joined (drop (S k) cs)).
    { rewrite (joined_take_drop cs k), (drop_S _ _ _ Hc), joined_cons. done. }
    assert (Hpos : 1 < zlen (joined (take k cs) ++ c ++ [SLASH])).
    { rewrite !length_app. simpl. destruct (joined (take k cs)) as [|b u] eqn:Ej; [|simpl; lia].
      destruct c as [|b c]; [|simpl; lia]. rewrite Hsplit in Ea. simpl in Ea. congruence. }
    rewrite (proj2 (Z.ltb_lt _ _)) by lia.
    replace (0 + zlen (joined (take k cs) ++ c ++ [SLASH]) - 1 + 1) with (zlen (joined (take k cs)) + zlen c + 1)
      by (rewrite !length_app; simpl; lia).
    assert (Hchp : chars (joined (take k cs) ++ c ++ [SLASH])).
    { unfold chars in *. rewrite Hsplit, !Forall_app in Hch. rewrite !Forall_app. tauto. }
    pose proof (lookup_sub (joined (take k cs)) c pb (joined (drop (S k) cs) ++ r ++ 0 :: post) n Hn Hcn) as Hls.
    assert (Hlj : zlen (joined cs) = zlen (joined (take k cs) ++ c) + 1 + zlen (joined (drop (S k) cs))).
    { rewrite Hsplit at 1. rewrite !length_app. simpl. lia. }
    specialize (Hls ltac:(rewrite Epb, Hsplit, <-!app_assoc; done) Hchp ltac:(lia)).
    destruct (ls_nodes (s_store s) (subdirs n)) as [xs| | | |]; try discriminate Hls. cbn [mbind outcome_bind] in *. rewrite Hls.
    cbn [mbind outcome_bind]. destruct (T !! (joined (take k cs) ++ c ++ [SLASH])) as [v|] eqn:Ev; simpl default.
    + rewrite eqb_ne by (eapply node_nonzero; [exact Ev|by destruct (joined (take k cs)), c]). cbn [negb].
      rewrite i16_small by lia. replace (Z.of_nat k + 1) with (Z.of_nat (S k)) by lia. apply IH; try lia.
      by rewrite (joined_take_S cs k c Hc).
    + cbn [Z.eqb negb]. assert (T !! joined cs = None) as ->; [|done].
      rewrite Hsplit, (app_assoc c), (app_assoc _ (c ++ [SLASH])). apply missing_joined; [apply is_dir_snoc| |done].
      by apply Forall_drop.
  - assert (k = length cs) as -> by lia. rewrite take_ge in Hn by lia. rewrite Hn. done.
Qed.

Lemma find_name_ok str pb : cstr pb 0 str -> chars str -> forall F' ys,
  (forall e, e ∈ F' -> inode_named s e.2 e.1 /\ chars e.1) -> ys.*2 = F'.*2 -> find_name ys pb s = Ret (first_named str F').
Proof.
  intros Hpb Hch F'. induction F' as [|e F' IH]; intros [|[x v] ys] He Hy; simpl in Hy; try done.
  injection Hy as Hv Hy. simpl in Hv. destruct (He e) as [(i & b & Hi & Hb & Hc) Hce]; [constructor|].
  cbn [find_name]. rewrite Hv, (deref_Some _ _ _ Hi). cbn [mbind outcome_bind]. rewrite (deref_Some _ _ _ Hb). cbn [mbind outcome_bind].
  destruct (strcmp_spec b 0 pb 0 e.1 str 0 Hc Hpb Hce Hch) as (z & zn & -> & _ & Hz & _); [done|].
  cbn [mbind outcome_bind first_named]. destruct (Z.eqb_spec z 0) as [E|E]; case_decide as Hd; try tauto.
  apply IH; [|done]. intros e' He'. apply He. by right.
Qed.

Lemma last_char pb str x : cstr pb 0 (str ++ [x]) -> arr_get pb (zlen (str ++ [x]) - 1) = Ret x.
Proof.
  intros Hp. apply cstr_drop in Hp. destruct (cstr_cons _ _ _ _ Hp) as (Ha & _).
  rewrite length_app. simpl length. by replace (Z.of_nat (length str + 1) - 1) with (zlen str) by lia.
Qed.

Lemma strlen_path pb str : cstr pb 0 str -> zlen str < 32767 -> strlen pb 0 = Ret (zlen str).
Proof.
  intros Hp Hl. pose proof (cstr_length _ _ _ Hp). unfold strlen. rewrite (strlen_loop_spec _ _ _ str) by (done || lia).
  by rewrite u16_small by lia.
Qed.

(** The name of a directory is compared with its path. *)
Lemma dir_name_compare str n d pb : cstr pb 0 str -> chars str -> T !! str = Some n -> str <> [] -> d_nodes (s_dev s) !! n = Some d ->
  exists z, strcmp (dn_name d) 0 pb 0 = Ret z /\ (z = 0 <-> u8 (uninit n (zlen str)) = 0).
Proof using R.
  intros Hpb Hch Hn Hne Hd. destruct (tr_name _ _ _ _ _ _ R str n Hn Hne) as (d' & rest & Hd' & Hname). simplify_eq.
  rewrite Hname. set (b := u8 _). destruct (decide (b = 0)) as [E|E].
  - rewrite E. destruct (strcmp_spec (str ++ 0 :: 0 :: rest) 0 pb 0 str str 0) as (z & zn & -> & _ & Hz & _); try done; [by apply chars_cstr|].
    exists z. split; [done|]. tauto.
  - assert (Hb : chars (str ++ [b])). { apply Forall_app. split; [done|]. constructor; [|done]. split; [done|apply u8_range]. }
    destruct (strcmp_spec (str ++ b :: 0 :: rest) 0 pb 0 (str ++ [b]) str 0) as (z & zn & -> & _ & Hz & _); try done.
    + rewrite (cons_middle b), app_assoc. by apply chars_cstr.
    + exists z. split; [done|]. split; [|done]. intros Ez. apply Hz in Ez. apply (f_equal length) in Ez.
      rewrite length_app in Ez. simpl in Ez. lia.
Qed.

Lemma node_at p n : T !! p = Some n -> is_Some (d_nodes (s_dev s) !! n).
Proof using R.
  intros Hn. destruct (decide (p = [])) as [->|Hp].
  - rewrite (tr_root _ _ _ _ _ _ R) in Hn. injection Hn as <-. apply R.
  - destruct (tr_name _ _ _ _ _ _ R p n Hn Hp) as (d & _ & -> & _). done.
Qed.

(** Looking up in a directory that exists. *)
Lemma get_file_in p r pb n d : path_ok (p ++ r) -> noslash r -> is_dir p -> cstr pb 0 (p ++ r) -> T !! p = Some n -> n <> 0 ->
  d_nodes (s_dev s) !! n = Some d ->
  dir_tree_get_file root pb s =
    Ret (if decide (r = [] /\ u8 (uninit n (zlen p)) = 0) then dn_inode d else first_named (p ++ r) F).
Proof using R L.
  intros Hok Hr Hp Hpb Hn Hn0 Hd. pose proof Hok as [Hch Hfst Hlen].
  assert (Hloop : get_loop (S (length pb)) pb root 0 s = Ret n).
  { destruct (dir_joined p Hp) as (cs & -> & Hcs). pose proof (cstr_length _ _ _ Hpb) as [_ Hl]. rewrite length_app in Hl.
    pose proof (length_joined cs).
    pose proof (get_loop_ok cs r pb Hok Hcs Hr Hpb (S (length pb)) 0 root) as Hg. rewrite Hn in Hg. apply Hg; [lia..|]. apply R. }
  destruct (tr_files _ _ _ _ _ _ R p n Hn) as (ys & Hys & Hfs).
  assert (Hfind : find_name ys pb s = Ret (first_named (p ++ r) F)).
  { rewrite (find_name_ok (p ++ r) pb Hpb Hch (filter (fun e => dirname e.1 = p) F) ys).
    - f_equal. rewrite <-(first_named_filter (p ++ r) F), (dirname_app p r Hp Hr). done.
    - intros e [_ He]%list_elem_of_filter. destruct (tr_entries _ _ _ _ _ _ R e He) as (? & ? & _). done.
    - done. }
  unfold dir_tree_get_file. rewrite Hloop. cbn [mbind outcome_bind]. rewrite (eqb_ne n 0) by done.
  rewrite (deref_Some _ _ _ Hd). cbn [mbind outcome_bind]. rewrite (strlen_path pb (p ++ r)) by done. cbn [mbind outcome_bind].
  destruct r as [|x r _] using rev_ind.
  - rewrite app_nil_r in *. destruct Hfst as (a & l & Ea & _). destruct Hp as [E|[q E]]; [by rewrite Ea in E|].
    rewrite E in Hpb |- * at 1. rewrite last_char by done. cbn [mbind outcome_bind]. rewrite Z.eqb_refl. rewrite <-E in Hpb.
    destruct (dir_name_compare p n d pb Hpb Hch Hn ltac:(by rewrite Ea) Hd) as (z & -> & Hz). cbn [mbind outcome_bind].
    destruct (Z.eqb_spec z 0) as [Ez|Ez]; [rewrite decide_True by tauto; done|]. rewrite decide_False by tauto.
    rewrite (ls_nodes_ok _ _ _ _ _ L Hys). cbn [mbind outcome_bind]. exact Hfind.
  - rewrite app_assoc in Hpb |- * at 1. rewrite last_char by done. cbn [mbind outcome_bind].
    rewrite (eqb_ne x SLASH). 2: { intros ->. apply Hr. apply elem_of_app. right. constructor. }
    cbn [mbind outcome_bind]. rewrite decide_False by (intros [E _]; by destruct r).
    rewrite (ls_nodes_ok _ _ _ _ _ L Hys). cbn [mbind outcome_bind]. rewrite <-app_assoc in Hpb. exact Hfind.
Qed.

Lemma dir_not_file str : is_dir str -> is_file_name str -> False.
Proof.
  intros [->|[q ->]] (p & r & E & Hp & Hr & Hne).
  - symmetry in E. apply app_eq_nil in E as [_ ->]. done.
  - destruct r as [|x r _] using rev_ind; [done|]. rewrite app_assoc in E. apply app_inj_tail in E as [_ <-].
    apply Hr, elem_of_app. right. constructor.
Qed.

Lemma first_named_none str : (forall e, e ∈ F -> e.1 <> str) -> first_named str F = 0.
Proof.
  clear R. induction F as [|e F' IH]; intros He; simpl; [done|]. rewrite decide_False by (apply He; constructor).
  apply IH. intros e' He'. apply He. by right.
Qed.

Lemma get_file_missing p r pb : path_ok (p ++ r) -> noslash r -> is_dir p -> cstr pb 0 (p ++ r) -> T !! p = None ->
  dir_tree_get_file root pb s = Ret 0.
Proof using R L.
  intros Hok Hr Hp Hpb Hn. destruct (dir_joined p Hp) as (cs & -> & Hcs). pose proof (cstr_length _ _ _ Hpb) as [_ Hl]. rewrite length_app in Hl.
  pose proof (length_joined cs).
  pose proof (get_loop_ok cs r pb Hok Hcs Hr Hpb (S (length pb)) 0 root) as Hg. rewrite Hn in Hg. change (Z.of_nat 0) with 0 in Hg.
  unfold dir_tree_get_file. rewrite Hg; [done|lia..|]. apply R.
Qed.

Lemma get_file_ok str pb : root <> 0 -> path_ok str -> cstr pb 0 str ->
  (is_file_name str -> dir_tree_get_file root pb s = Ret (first_named str F)) /\
  (forall i n, G !! str = Some i -> T !! str = Some n ->
     dir_tree_get_file root pb s = Ret (if decide (u8 (uninit n (zlen str)) = 0) then i else 0)).
Proof using R L.
  intros Hr0 Hok Hpb. split.
  - intros (p & r & -> & Hp & Hr & Hne). destruct (T !! p) as [n|] eqn:Hn.
    + destruct (node_at p n Hn) as [d Hd].
      assert (n <> 0). { destruct (decide (p = [])) as [->|]; [|by eapply node_nonzero]. pose proof (tr_root _ _ _ _ _ _ R). congruence. }
      rewrite (get_file_in p r pb n d) by done. by rewrite decide_False by tauto.
    + rewrite (get_file_missing p r pb) by done. f_equal. symmetry. apply first_named_none. intros e He E.
      destruct (tr_entries _ _ _ _ _ _ R e He) as (_ & _ & _ & HT). rewrite E, (dirname_app p r Hp Hr), Hn in HT. by destruct HT.
  - intros i n Hi Hn. destruct (tr_inode _ _ _ _ _ _ R str i Hi) as (n' & d & Hn' & Hd & <-). simplify_eq.
    assert (Hne : str <> []). { destruct Hok as [_ (a & l & -> & _) _]. done. }
    destruct (tr_dirs _ _ _ _ _ _ R str n Hn) as [Hdir _]. rewrite <-(app_nil_r str) in Hok, Hpb.
    rewrite (get_file_in str [] pb n d) by (done || (by eapply node_nonzero) || by apply not_elem_of_nil). rewrite app_nil_r.
    assert (first_named str F = 0) as ->.
    { apply first_named_none. intros e He E. destruct (tr_entries _ _ _ _ _ _ R e He) as (_ & _ & Hf & _). rewrite E in Hf.
      by apply (dir_not_file str). }
    destruct (decide (u8 (uninit n (zlen str)) = 0)); [by rewrite decide_True|rewrite decide_False by tauto; done].
Qed.
End Lookup.

(** ** Adding to the tree *)

Section Add.
Context (Hroot : -65536 < root < 0).

(** Only the store of the lists and the nodes change. *)
Definition only_tree (s s' : sys) : Prop :=
  s' = s_set_store (s_store s') (set_nodes (d_nodes (s_dev s')) s).

#[local] Instance only_tree_trans : Transitive only_tree.
Proof. intros s1 s2 s3 E1 E2. unfold only_tree in *. rewrite E2 at 1. rewrite E1 at 1. done. Qed.

Lemma only_tree_refl s : only_tree s s.
Proof. unfold only_tree. by destruct s as [[[] ? ?] ? ? ? []]. Qed.

Lemma only_tree_store st s : only_tree s (s_set_store st s).
Proof. unfold only_tree. by destruct s as [[[] ? ?] ? ? ? []]. Qed.

Lemma only_tree_put n d s : only_tree s (put_node n d s).
Proof. unfold only_tree. by destruct s as [[[] ? ?] ? ? ? []]. Qed.

Lemma only_tree_named s s' file str : only_tree s s' -> inode_named s file str -> inode_named s' file str.
Proof. intros -> Hn. exact Hn. Qed.

(** The lists of the tree. *)
Definition tree_list (T : gmap (list Z) Z) (l : Z) : Prop := exists p n, T !! p = Some n /\ (l = subdirs n \/ l = files n).

Definition in_range (n : Z) : Prop := -65536 < n < 65536.

Lemma lists_apart a b : in_range a -> in_range b -> subdirs a <> files b.
Proof. unfold in_range, subdirs, files, member. lia. Qed.

Lemma subdirs_inj a b : subdirs a = subdirs b -> a = b.
Proof. unfold subdirs, member. lia. Qed.

Lemma files_inj a b : files a = files b -> a = b.
Proof. unfold files, member. lia. Qed.

Lemma node_in_range s m own T F G p n : tree_rep s m own T F G -> T !! p = Some n -> in_range n.
Proof using Hroot.
  intros R Hn. destruct (decide (p = [])) as [->|Hp].
  - pose proof (tr_root _ _ _ _ _ _ R). unfold in_range. simplify_eq. lia.
  - destruct (tr_own _ _ _ _ _ _ R p n Hn Hp). unfold in_range. lia.
Qed.

Lemma name_of_dir q tl pb n : cstr pb 0 (q ++ tl) -> zlen q <= 30 ->
  exists rest, (name ← strncpy (fresh_bytes n NAME_SIZE) 0 pb 0 (zlen q); arr_set name (zlen q + 1) 0) =
    Ret (q ++ u8 (uninit n (zlen q)) :: 0 :: rest).
Proof.
  intros Hpb Hl. unfold strncpy. rewrite Nat2Z.id.
  assert (Hf : length (fresh_bytes n NAME_SIZE) = 32%nat) by (unfold fresh_bytes; by rewrite length_fmap, length_seqZ).
  rewrite (strncpy_loop_spec _ _ _ _ _ (q ++ tl)) by (done || lia). cbn [mbind outcome_bind].
  rewrite take_app_length, length_app. replace (length q - (length q + length tl))%nat with 0%nat by lia. simpl replicate. rewrite app_nil_r.
  unfold splice. simpl take. simpl app.
  assert (Hx : fresh_bytes n NAME_SIZE !! length q = Some (u8 (uninit n (zlen q)))).
  { unfold fresh_bytes. rewrite list_lookup_fmap, lookup_seqZ_lt by (unfold NAME_SIZE; rewrite u16_small; lia). done. }
  change (Z.to_nat 0 + length q)%nat with (length q). rewrite (drop_S _ _ _ Hx).
  assert (exists y, fresh_bytes n NAME_SIZE !! S (length q) = Some y) as [y Hy] by (apply lookup_lt_is_Some_2; lia).
  rewrite (drop_S _ _ _ Hy). exists (drop (S (S (length q))) (fresh_bytes n NAME_SIZE)).
  rewrite (cons_middle (u8 _)), app_assoc.
  replace (zlen q + 1) with (zlen (q ++ [u8 (uninit n (zlen q))])) by (rewrite length_app; simpl; lia).
  rewrite arr_set_middle. by rewrite <-app_assoc.
Qed.

(** The tree with one more directory [q], at the new node [n]. *)
Section NewDir.
Context (s s' : sys) (m m' : gmap Z (list (Z * Z))) (own : gset Z) (T : gmap (list Z) Z) (F : list (list Z * Z))
  (G : gmap (list Z) Z) (p c : list Z) (n0 n : Z) (d : dir_t_node) (xs : list (Z * Z)) (x : Z).
Let q := p ++ c ++ [SLASH].
Hypothesis (R : tree_rep s m own T F G) (Hn0 : T !! p = Some n0) (Hc : noslash c) (Hq : chars q) (Hnew : T !! q = None)
  (Hn : 0 < n < 65536) (Hfresh : n ∉ own) (HO : only_tree s s') (Hd : d_nodes (s_dev s') = <[n := d]> (d_nodes (s_dev s)))
  (Hname : exists rest, dn_name d = q ++ u8 (uninit n (zlen q)) :: 0 :: rest) (Hxs : m !! subdirs n0 = Some xs)
  (Hm : m' = <[subdirs n0 := xs ++ [(x, n)]]> (<[files n := []]> (<[subdirs n := []]> m))).

Lemma new_node_fresh a k : T !! a = Some k -> k <> n.
Proof using All.
  intros Ha ->. destruct (decide (a = [])) as [->|Hne].
  - pose proof (tr_root _ _ _ _ _ _ R). simplify_eq. lia.
  - by destruct (tr_own _ _ _ _ _ _ R a n Ha Hne).
Qed.

Lemma new_node_kept a k : T !! a = Some k -> d_nodes (s_dev s') !! k = d_nodes (s_dev s) !! k.
Proof using All. intros Ha. rewrite Hd, lookup_insert_ne; [done|]. intros E. by apply (new_node_fresh a k). Qed.

Lemma insert_dir a k : <[q := n]> T !! a = Some k -> (a = q /\ k = n) \/ (a <> q /\ T !! a = Some k).
Proof using All. intros [[<- <-]|[? ?]]%lookup_insert_Some; [by left|by right]. Qed.

Lemma new_dir_subs a k : <[q := n]> T !! a = Some k -> exists ys, m' !! subdirs k = Some ys /\
  forall v, v ∈ ys.*2 <-> exists c', noslash c' /\ <[q := n]> T !! (a ++ c' ++ [SLASH]) = Some v.
Proof using All.
  intros Ha. pose proof (tr_dirs _ _ _ _ _ _ R p n0 Hn0) as [Hpd _].
  assert (Hrn : in_range n) by (unfold in_range; lia).
  assert (Hno : forall a c', is_dir a -> noslash c' -> (a ++ c' ++ [SLASH] = q <-> a = p /\ c' = c)).
  { intros a' c' Ha' Hc'. split; [|by intros [-> ->]]. intros E. by apply component_inj. }
  destruct (insert_dir a k Ha) as [[-> ->]|[Haq Hak]].
  - exists []. rewrite Hm, lookup_insert_ne by (intros E%subdirs_inj; by apply (new_node_fresh p n0)).
    rewrite lookup_insert_ne by (intros E; by apply (lists_apart n n)). rewrite lookup_insert_eq. split; [done|].
    intros v. split; [by intros ?%elem_of_nil|]. intros (c' & Hc' & Hv).
    apply insert_dir in Hv as [[E _]|[_ Hv]].
    + apply (Hno q c') in E as [E _]; [|apply is_dir_snoc|done]. unfold q in E.
      apply (f_equal length) in E. rewrite !length_app in E. simpl in E. lia.
    + destruct (tr_closed _ _ _ _ _ _ R q c' Hc' (is_dir_snoc _ _)) as [w Hw]; [by rewrite Hv|]. congruence.
  - pose proof (tr_dirs _ _ _ _ _ _ R a k Hak) as [Had _]. destruct (tr_subs _ _ _ _ _ _ R a k Hak) as (ys & Hys & Hv).
    assert (Hkn : k <> n) by (by eapply new_node_fresh).
    destruct (decide (a = p)) as [->|Hap].
    + assert (k = n0) as -> by congruence. assert (ys = xs) as -> by congruence.
      exists (xs ++ [(x, n)]). rewrite Hm, lookup_insert_eq. split; [done|].
      intros v. rewrite fmap_app, elem_of_app, Hv. simpl. rewrite list_elem_of_singleton. split.
      * intros [(c' & Hc' & Hv')| ->]; [exists c'; split; [done|]; rewrite lookup_insert_ne; congruence|].
        exists c. fold q. by rewrite lookup_insert_eq.
      * intros (c' & Hc' & Hv'). apply insert_dir in Hv' as [[_ ->]|[_ Hv']]; [by right|left; eauto].
    + exists ys. rewrite Hm, lookup_insert_ne by (intros E%subdirs_inj; apply Hap; rewrite <-E in Hak; exact (tr_inj _ _ _ _ _ _ R _ _ _ Hak Hn0)).
      rewrite lookup_insert_ne by (intros E; symmetry in E; revert E; apply lists_apart; [by eapply node_in_range|done]).
      rewrite lookup_insert_ne by (by intros E%subdirs_inj). split; [done|].
      intros v. rewrite Hv. split; intros (c' & Hc' & Hv'); exists c'; (split; [done|]).
      * rewrite lookup_insert_ne by congruence. done.
      * apply insert_dir in Hv' as [[E _]|[_ Hv']]; [|done]. apply Hno in E; tauto.
Qed.

Lemma new_dir_files a k : <[q := n]> T !! a = Some k -> exists ys, m' !! files k = Some ys /\
  ys.*2 = (filter (fun e => dirname e.1 = a) F).*2.
Proof using All.
  intros Ha. assert (Hrn : in_range n) by (unfold in_range; lia).
  assert (Hr0 : in_range n0) by (by eapply node_in_range).
  destruct (insert_dir a k Ha) as [[-> ->]|[Haq Hak]].
  - exists []. rewrite Hm, lookup_insert_ne by (by apply lists_apart). rewrite lookup_insert_eq. split; [done|].
    assert (filter (fun e => dirname e.1 = q) F = []) as ->; [|done].
    apply elem_of_nil_inv. intros e [Hq' He]%list_elem_of_filter.
    destruct (tr_entries _ _ _ _ _ _ R e He) as (_ & _ & _ & [w Hw]). rewrite Hq' in Hw. congruence.
  - destruct (tr_files _ _ _ _ _ _ R a k Hak) as (ys & Hys & Hf). exists ys. split; [|done].
    assert (in_range k) by (by eapply node_in_range). assert (Hkn : k <> n) by (by eapply new_node_fresh).
    rewrite Hm, lookup_insert_ne by (by apply lists_apart). rewrite lookup_insert_ne by (by intros E%files_inj).
    by rewrite lookup_insert_ne by (by apply lists_apart).
Qed.

Lemma tree_rep_new_dir : tree_rep s' m' ({[n]} ∪ own) (<[q := n]> T) F G.
Proof using All.
  pose proof (tr_dirs _ _ _ _ _ _ R p n0 Hn0) as [Hpd _].
  split.
  - rewrite lookup_insert_ne; [apply R|]. unfold q. by destruct p, c.
  - pose proof (tr_root _ _ _ _ _ _ R) as Hr. rewrite (new_node_kept [] root Hr). apply R.
  - intros a k [[-> ->]|[_ Ha]]%insert_dir; [split; [apply is_dir_snoc|done]|by eapply R].
  - intros a b k [[-> ->]|[? Ha]]%insert_dir [[-> E]|[? Hb]]%insert_dir; [done|..].
    + by apply new_node_fresh in Hb.
    + subst k. by apply new_node_fresh in Ha.
    + by eapply (tr_inj _ _ _ _ _ _ R).
  - intros a c' Hc' Ha [w Hw]. destruct (decide (a = q)) as [->|]; [by rewrite lookup_insert_eq|]. rewrite lookup_insert_ne by done.
    apply insert_dir in Hw as [[E _]|[_ Hw]]; [|by eapply (tr_closed _ _ _ _ _ _ R a c')].
    apply component_inj in E as [-> _]; [|done..]. by rewrite Hn0.
  - intros a k Ha Hne. apply insert_dir in Ha as [[_ ->]|[_ Ha]]; [clear -Hn; set_solver|].
    destruct (tr_own _ _ _ _ _ _ R a k Ha Hne) as [? Hko]. split; [done|]. clear -Hko. set_solver.
  - intros a k Ha Hne. apply insert_dir in Ha as [[-> ->]|[_ Ha]].
    + destruct Hname as [rest Hr]. exists d, rest. by rewrite Hd, lookup_insert_eq.
    + rewrite (new_node_kept a k Ha). by apply R.
  - apply new_dir_subs.
  - apply new_dir_files.
  - intros e He. destruct (tr_entries _ _ _ _ _ _ R e He) as (H1 & H2 & H3 & [w Hw]). split_and!; [|done..|].
    + by eapply only_tree_named.
    + rewrite lookup_insert_ne by congruence. by rewrite Hw.
  - intros a i Hi. destruct (tr_inode _ _ _ _ _ _ R a i Hi) as (k & d' & Hk & Hd' & E). exists k, d'. split_and!; [|..|done].
    + by rewrite lookup_insert_ne by congruence.
    + by rewrite (new_node_kept a k Hk).
Qed.
End NewDir.

(** What an addition leaves: a tree with more directories, the other lists. *)
Record grown (s s' : sys) (m m' : gmap Z (list (Z * Z))) (own own' : gset Z) (T T' : gmap (list Z) Z) : Prop := {
  gr_only : only_tree s s';
  gr_store : ls_rep (s_store s') m' own';
  gr_own : own ⊆ own';
  gr_dirs : T ⊆ T';
  gr_lists l : ~ tree_list T' l -> m' !! l = m !! l;
}.

Lemma tree_list_mono T T' l : T ⊆ T' -> tree_list T l -> tree_list T' l.
Proof. intros HT (p & n & Hn & Hl). exists p, n. split; [by eapply lookup_weaken|done]. Qed.

Lemma grown_trans s1 s2 s3 m1 m2 m3 o1 o2 o3 T1 T2 T3 :
  grown s1 s2 m1 m2 o1 o2 T1 T2 -> grown s2 s3 m2 m3 o2 o3 T2 T3 -> grown s1 s3 m1 m3 o1 o3 T1 T3.
Proof.
  intros [A1 A2 A3 A4 A5] [B1 B2 B3 B4 B5]. split; [by etransitivity|done|clear -A3 B3; set_solver|by etransitivity|].
  intros l Hl. rewrite B5 by done. apply A5. intros Ht. apply Hl. by eapply tree_list_mono.
Qed.

Lemma grown_refl s m own T : ls_rep (s_store s) m own -> grown s s m m own own T T.
Proof. intros L. split; [apply only_tree_refl|done..]. Qed.

Lemma new_dir_ok s m own T F G p c n0 pb tl :
  tree_rep s m own T F G -> ls_rep (s_store s) m own -> T !! p = Some n0 -> noslash c -> chars (p ++ c ++ [SLASH]) ->
  T !! (p ++ c ++ [SLASH]) = None -> zlen (p ++ c ++ [SLASH]) <= 30 -> cstr pb 0 ((p ++ c ++ [SLASH]) ++ tl) ->
  match new_dir n0 pb (zlen p + zlen c) s with
  | Ret (n, s') => exists m' own', let T' := <[p ++ c ++ [SLASH] := n]> T in
      tree_rep s' m' own' T' F G /\ grown s s' m m' own own' T T'
  | Panic msg => msg = HEAP_FULL
  | _ => False
  end.
Proof using All.
  intros R L Hn0 Hc Hch Hnew Hl Hpb. unfold new_dir. set (q := p ++ c ++ [SLASH]) in *.
  pose proof (s_kmalloc_ok s m own sizeof_dir_t_node L) as A. destruct (s_kmalloc sizeof_dir_t_node s) as [[n s1]| | | |]; try done.
  destruct A as (Hn & Hfr & L1 & E1). cbn [mbind outcome_bind].
  assert (zlen p + zlen c + 1 = zlen q) as -> by (unfold q; rewrite !length_app; simpl; lia).
  destruct (name_of_dir q tl pb n Hpb Hl) as (rest & Hname).
  destruct (strncpy (fresh_bytes n NAME_SIZE) 0 pb 0 (zlen q)) as [nm| | | |]; try discriminate Hname. cbn [mbind outcome_bind] in *.
  rewrite Hname. cbn [mbind outcome_bind]. set (d := DirNode _ n0 _).
  destruct (tr_subs _ _ _ _ _ _ R p n0 Hn0) as (xs & Hxs & _).
  assert (Hne : n0 <> n).
  { intros ->. destruct (decide (p = [])) as [->|Hp]; [pose proof (tr_root _ _ _ _ _ _ R); simplify_eq; lia|].
    by destruct (tr_own _ _ _ _ _ _ R p n Hn0 Hp). }
  set (st := ls_init (ls_init _ _) _).
  assert (L2 : ls_rep st (<[files n := []]> (<[subdirs n := []]> m)) ({[n]} ∪ own)) by (by do 2 apply ls_init_ok).
  change (s_store (s_set_store st (put_node n d s1))) with st.
  assert (Hx2 : (<[files n := []]> (<[subdirs n := []]> m)) !! subdirs n0 = Some xs).
  { rewrite lookup_insert_ne, lookup_insert_ne; [done|by intros E%subdirs_inj|]. intros E. symmetry in E. revert E.
    apply lists_apart; [by eapply node_in_range|unfold in_range; lia]. }
  pose proof (ls_append_safe _ _ _ (subdirs n0) n L2 ltac:(by rewrite Hx2)) as Hsafe.
  destruct (ls_append st (subdirs n0) n) as [st'| | | |] eqn:Ea; try done. cbn [mbind outcome_bind].
  destruct (ls_append_ok _ _ _ _ _ _ _ L2 Hx2 Ea) as (x & _ & L3).
  set (s' := s_set_store st' _). set (m' := <[subdirs n0 := _]> _) in L3.
  assert (HO : only_tree s s') by (unfold only_tree, s'; rewrite E1; done).
  exists m', ({[n]} ∪ own). split.
  - eapply (tree_rep_new_dir s s' m m' own T F G p c n0 n d xs x); try done; [|by exists rest]. unfold s'. by rewrite E1.
  - split; [done|done|clear; set_solver|by apply insert_subseteq|]. intros l Hnl. unfold m'.
    assert (forall a k, <[q := n]> T !! a = Some k -> l <> subdirs k /\ l <> files k) as Hq.
    { intros a k Ha. split; intros ->; apply Hnl; exists a, k; auto. }
    destruct (Hq q n (lookup_insert_eq _ _ _)). destruct (Hq p n0) as [? _].
    { rewrite lookup_insert_ne; [done|]. congruence. }
    by rewrite !lookup_insert_ne by congruence.
Qed.

Lemma add_loop_ok F G r pb : noslash r -> forall cs fuel s m own T p n next,
  tree_rep s m own T F G -> ls_rep (s_store s) m own -> Forall noslash cs -> T !! p = Some n ->
  path_ok (p ++ joined cs ++ r) -> cstr pb 0 (p ++ joined cs ++ r) -> zlen (p ++ joined cs) <= 30 ->
  next + 1 = Z.max 1 (zlen p) -> (length cs < fuel)%nat ->
  match add_loop fuel pb n next s with
  | Ret (n', s') => exists m' own' T', tree_rep s' m' own' T' F G /\ grown s s' m m' own own' T T' /\
      T' !! (p ++ joined cs) = Some n'
  | Panic msg => msg = HEAP_FULL
  | _ => False
  end.
Proof using All.
  intros Hr. induction cs as [|c cs IH]; intros [|fuel] s m own T p n next R L Hcs Hn Hok Hpb Hl Hnext Hf; simpl in Hf; try lia;
    cbn [add_loop].
  - unfold joined in *. simpl in *. rewrite (next_slash_none p r) by (try done; intros -> ->; destruct Hok as [_ (? & ? & E & _) _]; discriminate E).
    cbn [mbind outcome_bind]. exists m, own, T. rewrite app_nil_r. eauto using grown_refl.
  - apply Forall_cons in Hcs as [Hc Hcs].
    assert (Es : p ++ joined (c :: cs) ++ r = (p ++ c ++ [SLASH]) ++ joined cs ++ r) by (rewrite joined_cons; by rewrite <-!app_assoc).
    assert (Ej : p ++ joined (c :: cs) = (p ++ c ++ [SLASH]) ++ joined cs) by (rewrite joined_cons; by rewrite <-!app_assoc).
    rewrite Es in Hok, Hpb. rewrite Ej in Hl |- *.
    assert (Hch : chars (p ++ c ++ [SLASH])). { destruct Hok as [Hch _ _]. unfold chars in *. by apply Forall_app in Hch as [? _]. }
    assert (Hql : zlen (p ++ c ++ [SLASH]) <= 30) by (rewrite length_app in Hl; lia).
    pose proof Hpb as (pre & post & Epb & Hpre & _). destruct pre; [|simpl in Hpre; lia]. simpl in Epb.
    rewrite (next_slash_some p c (joined cs ++ r)); [|by rewrite <-!app_assoc in Hpb|done| |done].
    2: { intros -> ->. destruct Hok as [_ (? & ? & E & ?) _]. simpl in E. congruence. }
    cbn [mbind outcome_bind].
    pose proof (lookup_sub s m own T F G R L p c pb (joined cs ++ r ++ 0 :: post) n Hn Hc) as Hls.
    specialize (Hls ltac:(rewrite Epb, <-!app_assoc; done) Hch ltac:(rewrite !length_app in *; simpl in *; lia)).
    destruct (ls_nodes (s_store s) (subdirs n)) as [xs| | | |]; try discriminate Hls. cbn [mbind outcome_bind] in *. rewrite Hls.
    cbn [mbind outcome_bind].
    assert (Hnx : zlen p + zlen c + 1 = Z.max 1 (zlen (p ++ c ++ [SLASH]))) by (rewrite !length_app; simpl; lia).
    destruct (T !! (p ++ c ++ [SLASH])) as [v|] eqn:Ev; simpl default.
    + rewrite eqb_ne by (eapply (node_nonzero s m own T F G R); [exact Ev|by destruct p, c]). cbn [negb].
      apply (IH fuel s m own T (p ++ c ++ [SLASH]) v); try done; lia.
    + cbn [Z.eqb negb]. pose proof (new_dir_ok s m own T F G p c n pb (joined cs ++ r) R L Hn Hc Hch Ev Hql Hpb) as Hnd.
      destruct (new_dir n pb (zlen p + zlen c) s) as [[k s1]| | | |]; try done. cbn [mbind outcome_bind].
      destruct Hnd as (m1 & own1 & R1 & G1).
      pose proof (IH fuel s1 m1 own1 _ (p ++ c ++ [SLASH]) k (zlen p + zlen c) R1 (gr_store _ _ _ _ _ _ _ _ G1) Hcs (lookup_insert_eq _ _ _) Hok Hpb Hl Hnx ltac:(lia)) as Hgo.
      destruct (add_loop fuel pb k (zlen p + zlen c) s1) as [[n' s']| | | |]; try done.
      destruct Hgo as (m' & own' & T' & R' & G' & HT). exists m', own', T'. split_and!; [done| |done]. by eapply grown_trans.
Qed.

(** A file goes into the list of its directory. *)
Lemma tree_rep_file s s' m own T F G p r n ys x file :
  tree_rep s m own T F G -> T !! p = Some n -> is_dir p -> noslash r -> r <> [] -> chars (p ++ r) ->
  inode_named s file (p ++ r) -> m !! files n = Some ys -> only_tree s s' -> d_nodes (s_dev s') = d_nodes (s_dev s) ->
  tree_rep s' (<[files n := ys ++ [(x, file)]]> m) own T (F ++ [(p ++ r, file)]) G.
Proof using All.
  intros R Hn Hp Hr Hne Hch Hfile Hys HO Hnodes. split; try apply R.
  - rewrite Hnodes. apply R.
  - rewrite Hnodes. apply R.
  - intros a k Ha. rewrite lookup_insert_ne; [by apply R|]. intros E. symmetry in E. revert E.
    apply lists_apart; by eapply node_in_range.
  - intros a k Ha. rewrite filter_app, fmap_app. destruct (tr_files _ _ _ _ _ _ R a k Ha) as (zs & Hzs & Ez).
    destruct (decide (a = p)) as [->|Hap].
    + assert (k = n) as -> by congruence. assert (zs = ys) as -> by congruence. exists (ys ++ [(x, file)]). rewrite lookup_insert_eq.
      split; [done|]. rewrite fmap_app, Ez. rewrite filter_cons_True by (simpl; by apply dirname_app). done.
    + exists zs. rewrite lookup_insert_ne. 2: { intros E%files_inj. apply Hap. subst k. by eapply (tr_inj _ _ _ _ _ _ R). }
      split; [done|]. rewrite filter_cons_False by (simpl; rewrite dirname_app by done; congruence). by rewrite app_nil_r.
  - intros e [He|He%list_elem_of_singleton]%elem_of_app.
    + destruct (tr_entries _ _ _ _ _ _ R e He) as (H1 & H2 & H3 & H4). split_and!; try done. by eapply only_tree_named.
    + subst e. simpl. split_and!; [by eapply only_tree_named|done|by exists p, r|]. rewrite dirname_app by done. by rewrite Hn.
  - intros a i Hi. rewrite Hnodes. by apply R.
Qed.

(** A directory gets its inode. *)
Lemma tree_rep_inode s s' m own T F G p n d file :
  tree_rep s m own T F G -> T !! p = Some n -> d_nodes (s_dev s) !! n = Some d -> only_tree s s' ->
  d_nodes (s_dev s') = <[n := DirNode (dn_name d) (dn_parent d) file]> (d_nodes (s_dev s)) ->
  tree_rep s' m own T F (<[p := file]> G).
Proof using All.
  intros R Hn Hd HO Hnodes. split; try apply R.
  - rewrite Hnodes. destruct (decide (n = root)) as [->|]; [by rewrite lookup_insert_eq|]. rewrite lookup_insert_ne by done. apply R.
  - intros a k Ha Hne. destruct (tr_name _ _ _ _ _ _ R a k Ha Hne) as (d' & rest & Hd' & Hnm). rewrite Hnodes.
    destruct (decide (k = n)) as [->|]; [|rewrite lookup_insert_ne by done; eauto].
    rewrite lookup_insert_eq. simplify_eq. eexists _, rest. split; [done|]. done.
  - intros e He. destruct (tr_entries _ _ _ _ _ _ R e He) as (H1 & H2 & H3 & H4). split_and!; try done. by eapply only_tree_named.
  - intros a i Hi. rewrite Hnodes. apply lookup_insert_Some in Hi as [[<- <-]|[Hne Hi]].
    + eexists n, _. rewrite lookup_insert_eq. done.
    + destruct (tr_inode _ _ _ _ _ _ R a i Hi) as (k & d' & Hk & Hd' & E). exists k, d'. split_and!; [done| |done].
      rewrite lookup_insert_ne; [done|]. intros ->. apply Hne. by eapply (tr_inj _ _ _ _ _ _ R).
Qed.

(** The specification of an addition: a directory gets an inode, a file goes to
    the end of the table. *)
Definition table_add (str : list Z) (file : Z) (t : list (list Z * Z) * gmap (list Z) Z) : list (list Z * Z) * gmap (list Z) Z :=
  if decide (last str = Some SLASH) then (t.1, <[str := file]> t.2) else (t.1 ++ [(str, file)], t.2).

Lemma add_path_ok s m own T F G file str : tree_rep s m own T F G -> ls_rep (s_store s) m own -> path_ok str ->
  inode_named s file str -> zlen (dirname str) <= 30 ->
  match dir_tree_add_path root file s with
  | Ret s' => exists m' own' T', grown s s' m m' own own' T T' /\
      tree_rep s' m' own' T' (table_add str file (F, G)).1 (table_add str file (F, G)).2
  | Panic msg => msg = HEAP_FULL
  | _ => False
  end.
Proof using All.
  intros R L Hok Hfile Hdl. pose proof Hfile as (i & pb & Hi & Hb & Hpb). pose proof Hok as [Hch Hfst Hlen].
  destruct (split_path str) as (cs & r & -> & Hcs & Hr).
  assert (Hdj : is_dir (joined cs)) by (apply (is_dir_joined [] cs); by left).
  rewrite (dirname_app (joined cs) r) in Hdl by done.
  unfold dir_tree_add_path. rewrite (deref_Some _ _ _ Hi). cbn [mbind outcome_bind]. rewrite (deref_Some _ _ _ Hb). cbn [mbind outcome_bind].
  pose proof (cstr_length _ _ _ Hpb) as [_ Hpl]. rewrite length_app in Hpl. pose proof (length_joined cs).
  pose proof (add_loop_ok F G r pb Hr cs (S (length pb)) s m own T [] root 0 R L Hcs (tr_root _ _ _ _ _ _ R) Hok Hpb Hdl eq_refl ltac:(lia)) as Hloop.
  destruct (add_loop (S (length pb)) pb root 0 s) as [[n s1]| | | |]; try done. cbn [mbind outcome_bind app] in *.
  destruct Hloop as (m1 & own1 & T1 & R1 & G1 & Hn). pose proof (gr_store _ _ _ _ _ _ _ _ G1) as L1.
  assert (Hfile1 : inode_named s1 file (joined cs ++ r)) by (eapply only_tree_named; [apply G1|done]).
  rewrite (strlen_path pb (joined cs ++ r)) by done. cbn [mbind outcome_bind]. unfold table_add.
  destruct r as [|x r _] using rev_ind.
  - rewrite app_nil_r in *. destruct Hdj as [E|[q E]]; [destruct Hfst as (? & ? & E' & _); congruence|].
    assert (arr_get pb (zlen (joined cs) - 1) = Ret SLASH) as ->. { rewrite E in Hpb |- *. by apply last_char. }
    cbn [mbind outcome_bind]. rewrite Z.eqb_refl.
    rewrite decide_True by (by rewrite E, last_snoc).
    destruct (node_at s1 m1 own1 T1 F G R1 (joined cs) n Hn) as [d Hd]. rewrite (deref_Some _ _ _ Hd). cbn [mbind outcome_bind].
    exists m1, own1, T1. split.
    + destruct G1 as [HO ? ? ? ?]. split; try done. unfold only_tree in *. rewrite HO at 1. done.
    + eapply (tree_rep_inode s1 _ m1 own1 T1 F G (joined cs) n d file); try done. by apply only_tree_put.
  - assert (arr_get pb (zlen (joined cs ++ r ++ [x]) - 1) = Ret x) as ->. { rewrite app_assoc in Hpb |- *. by apply last_char. }
    cbn [mbind outcome_bind]. assert (Hx : x <> SLASH). { intros ->. apply Hr. apply elem_of_app. right. constructor. }
    rewrite (eqb_ne x SLASH), decide_False by (done || (rewrite app_assoc, last_snoc; congruence)).
    destruct (tr_files _ _ _ _ _ _ R1 (joined cs) n Hn) as (ys & Hys & _).
    pose proof (ls_append_safe _ _ _ (files n) file L1 ltac:(by rewrite Hys)) as Hsafe.
    destruct (ls_append (s_store s1) (files n) file) as [st'| | | |] eqn:Ea; try done. cbn [mbind outcome_bind].
    destruct (ls_append_ok _ _ _ _ _ _ _ L1 Hys Ea) as (y & _ & L3).
    exists (<[files n := ys ++ [(y, file)]]> m1), own1, T1. split.
    + destruct G1 as [HO ? ? ? Hlists]. split; try done.
      * unfold only_tree in *. rewrite HO at 1. done.
      * intros l Hl. rewrite lookup_insert_ne; [by apply Hlists|]. intros <-. apply Hl. exists (joined cs), n. auto.
    + eapply (tree_rep_file s1 _ m1 own1 T1 F G (joined cs) (r ++ [x]) n ys y file); try done; [by destruct r|].
      apply only_tree_store.
Qed.

Lemma tree_rep_empty s m own i d : m !! subdirs root = Some [] -> m !! files root = Some [] ->
  d_nodes (s_dev s) !! root = Some d -> dn_inode d = i -> tree_rep s m own {[ [] := root ]} [] {[ [] := i ]}.
Proof.
  intros Hs Hf Hd Hi.
  assert (Hone : forall p n, ({[ [] := root ]} : gmap (list Z) Z) !! p = Some n -> p = [] /\ n = root).
  { intros p n [<- <-]%lookup_singleton_Some. done. }
  assert (Hno : forall p c, ({[ [] := root ]} : gmap (list Z) Z) !! (p ++ c ++ [SLASH]) = None).
  { intros p c. apply lookup_singleton_ne. by destruct p, c. }
  split; try (intros p n [-> ->]%Hone).
  - apply lookup_singleton_eq.
  - by rewrite Hd.
  - split; [by left|constructor].
  - intros p q n [-> _]%Hone [-> _]%Hone. done.
  - intros p c _ _ [n Hn]. by rewrite Hno in Hn.
  - done.
  - done.
  - exists []. split; [done|]. intros v. split; [by intros ?%elem_of_nil|]. intros (c & _ & Hc). by rewrite Hno in Hc.
  - by exists [].
  - intros e He. by apply elem_of_nil in He.
  - intros p j [<- <-]%lookup_singleton_Some. exists root, d. by rewrite lookup_singleton_eq.
Qed.

(** [dir_tree_init] makes the empty tree. *)
Lemma tree_init_ok s m own vn d : ls_rep (s_store s) m own -> d_nodes (s_dev s) !! root = Some d -> 2 <= zlen (dn_name d) ->
  match dir_tree_init root vn s with
  | Ret s' => exists i, let m' := <[files root := []]> (<[subdirs root := []]> m) in
      tree_rep s' m' ({[i]} ∪ own) {[ [] := root ]} [] {[ [] := i ]} /\ ls_rep (s_store s') m' ({[i]} ∪ own) /\
      inodes (s_vfs s') !! i = Some (Inode SLASH_LITERAL 0xffff 0 vn INODE_TYPE_DIRECTORY)
  | Panic msg => msg = HEAP_FULL
  | _ => False
  end.
Proof using All.
  intros L Hd Hl. unfold dir_tree_init. rewrite (deref_Some _ _ _ Hd). cbn [mbind outcome_bind].
  unfold strcpy. rewrite (strcpy_loop_spec _ _ _ _ _ [SLASH]); [|by apply (cstr_literal [SLASH]); repeat constructor|simpl; lia|lia].
  rewrite decide_True by (simpl; lia). cbn [mbind outcome_bind].
  pose proof (s_kmalloc_ok s m own sizeof_inode L) as A. destruct (s_kmalloc sizeof_inode s) as [[i s1]| | | |]; try done.
  destruct A as (Hn & Hfr & L1 & E1). cbn [mbind outcome_bind]. exists i. simpl. split_and!.
  - eapply tree_rep_empty; [rewrite lookup_insert_ne; [apply lookup_insert_eq|]|apply lookup_insert_eq|apply lookup_insert_eq|done].
    intros E. symmetry in E. revert E. apply lists_apart; unfold in_range; lia.
  - by do 2 apply ls_init_ok.
  - by rewrite lookup_insert_eq.
Qed.

End Add.
End Dirtree.

(** ** Witness: a file in a directory that is not there yet *)

Section Demo.
#[local] Existing Instance klist_store.
Abbreviation demo_sys := (Sys.sys (store (list Z)) (drivers unit)).

Definition demo_root : Z := -31.
Definition demo_path : list Z := [97; SLASH; 98].

Definition demo_tree : demo_sys :=
  Sys (Vm (Kernel (ls_init (ls_init boot_store (subdirs demo_root)) (files demo_root)) ∅ ∅ ∅ 5 0 1 0x211 true false 0 0x11) ∅ 0)
    {[ -41 := demo_path ++ [0] ]} (VfsState {[ -40 := Inode (-41) 0 0 7 1 ]} ∅ ∅ 0 1 0) (MqState ∅ ∅ 0 0)
    (Drivers tt (blockq_fields 1 2 demo_ring) {[ demo_root := DirNode (SLASH :: replicate 31 0) demo_root 7 ]} ∅ 0 ∅
       Tty.demo_tty 0 demo_ring 0 (TmpState 0 []) 0).

Instance demo_uninit : Uninit := fun _ _ => 0.
Instance demo_others : Others (store (list Z)) (drivers unit) := fun _ _ => Block.
Instance demo_sign : CharSign := true.

Lemma demo_path_ok : path_ok demo_path.
Proof.
  split.
  - unfold chars, demo_path, SLASH. repeat (constructor; [split; [discriminate|lia]|]). constructor.
  - exists 97, [SLASH; 98]. split; [done|]. discriminate.
  - simpl. lia.
Qed.

Lemma demo_path_cstr : cstr (demo_path ++ [0]) 0 demo_path.
Proof. apply (cstr_literal demo_path []). by repeat constructor. Qed.

Lemma demo_file_name : is_file_name demo_path.
Proof.
  exists [97; SLASH], [98]. split_and!; [done|by right; exists [97]| |done]. unfold noslash. intros E%list_elem_of_singleton. discriminate E.
Qed.

End Demo.
