(* ===== verification/Sd.v ===== *)
(** * The SD card driver (kernel/driver/spi.c, kernel/driver/sd.c)

    The card is behind the SPI controller, one byte out and one byte in at a
    time; what the card answers is a step of the hardware in [DevicePage].  The
    driver thread takes requests from a blocking queue, reads a sector and
    copies a part of it, byte by byte, into the memory of the process that asked
    or into a buffer of the kernel.

    The messages to the console are left out. *)

From S2P Require Import Prelude Interfaces Kmalloc KList Proc Sync CString Kernel Sched Virtual Vfs Sys Request Tmpfs Ringbuff Tty Blockq Device.

(** ** Registers and constants *)

Definition SPI_TX : Z := 0x20.
Definition SPI_RX : Z := 0x22.
Definition SPI_STATUS : Z := 0x24.
Definition SPI_SETTINGS : Z := 0x26.
Definition SPI_CS : Z := 0x28.
Definition SPI_BUSY_BIT : Z := 0x1.

Definition SD_DEVICE_NO : Z := 0.
Definition CMD0 : Z := 0.
Definition CMD0_CRC : Z := 0x4A.
Definition CMD8 : Z := 8.
Definition CMD8_PARAM : Z := 0x1AA.
Definition CMD8_CRC : Z := 0x43.
Definition ACMD_PRE_CMD55 : Z := 55.
Definition ACMD41 : Z := 41.
Definition ACMD41_ARG_HC : Z := 0x4000.
Definition CMD58 : Z := 58.
Definition CMD16 : Z := 16.
Definition CMD17 : Z := 17.
Definition STATUS_NULL : Z := 0x0.
Definition STATUS_IDLE : Z := 0x1.
Definition STATUS_ILLEGAL_CMD : Z := 0x5.
Definition SD_RESP_TIMEOUT : Z := 16.
Definition SD_INIT_TIMEOUT : Z := 200.
Definition SD_READ_TOKEN : Z := 0xFE.
Definition OCR_1_3V3 : Z := 0x10.
Definition OCR_0_HC : Z := 0x80.
Definition CMD8_3_VOLATAGE : Z := 0x1.
Definition SD_REQ_QUEUE_SIZE : Z := 32.
Definition SECTOR_SIZE : Z := 512.

(** The semaphores of [requests] *)
Definition SD_NOT_EMPTY : Z := -23.
Definition SD_NOT_FULL : Z := -24.

(** [struct sd_driver_req] *)
Record sd_driver_req := SdReq {
  q_pid : Z;
  q_vbuff : Z;
  q_block_nr : Z;
  q_offset : Z;
  q_length : Z;
  q_notify_done : Z;
}.

Definition sizeof_sd_driver_req : Z := 12.

(** The object representation of a word: two cells.  For a 16-bit value these
    are its bytes; the addresses of the model are not limited to 16 bits. *)
Definition word_cells (x : Z) : list Z := [x mod 256; x / 256].

Definition req_cells (q : sd_driver_req) : list Z :=
  word_cells (q_pid q) ++ word_cells (q_vbuff q) ++ word_cells (q_block_nr q) ++
  word_cells (q_offset q) ++ word_cells (q_length q) ++ word_cells (q_notify_done q).

Definition cells_req (l : list Z) : outcome sd_driver_req :=
  match l with
  | [a0; a1; b0; b1; c0; c1; d0; d1; e0; e1; f0; f1] =>
      Ret (SdReq (a0 + 256 * a1) (b0 + 256 * b1) (c0 + 256 * c1) (d0 + 256 * d1) (e0 + 256 * e1) (f0 + 256 * f1))
  | _ => Fault
  end.

(** ** Pointers into the buffers of a process

    A pointer of a process ([pid] not 0) is a 16-bit address.  A pointer into a
    buffer of the kernel is, as in [member], its base and an offset; statically
    allocated buffers have small negative bases. *)

Definition ptr_add (pid p n : Z) : Z := if pid =? 0 then p + 65536 * n else u16 (p + n).
Definition buf_base (p : Z) : Z := (p + 4096) mod 65536 - 4096.
Definition buf_off (p : Z) : Z := (p + 4096) / 65536.

Section Sd.
Context {St B : Type} `{ListStore St} {junk : Uninit} {others : Others St (drivers B)} `{DevicePage B}.
Abbreviation sys := (sys St (drivers B)).
Set Default Proof Using "Type".

(** ** The SPI controller *)

Definition spi_init (s : sys) : outcome sys :=
  '(_, s) ← on_device_page (fun b => Ret (tt, dev_write SPI_SETTINGS (Z.lor (Z.shiftl 0 4) 4) b)) s;
  Ret s.

Definition spi_exchange (byte : Z) (b : B) : outcome (Z * B) :=
  b ← poll SPI_STATUS SPI_BUSY_BIT false b;
  let b := dev_write SPI_TX byte b in
  b ← poll SPI_STATUS SPI_BUSY_BIT false b;
  Ret (dev_read SPI_RX b).

Definition spi_tranceive (byte : Z) : sys -> outcome (Z * sys) := on_device_page (spi_exchange byte).

Definition spi_transmit (byte : Z) (s : sys) : outcome sys :=
  '(_, s) ← spi_tranceive (u8 byte) s; Ret s.

Definition spi_receive (s : sys) : outcome (Z * sys) := spi_tranceive 0xFF s.

Definition spi_cs_set (value dev_no : Z) : sys -> outcome (Z * sys) :=
  on_device_page (fun b =>
    let '(x, b) := dev_read SPI_CS b in
    let bit := Z.shiftl 1 dev_no in
    let x := if negb (value =? 0) then Z.lor x bit else Z.land x (Z.lnot bit) in
    Ret (dev_read SPI_CS (dev_write SPI_CS (u8 x) b))).

(** ** Commands *)

(** At most [SD_RESP_TIMEOUT] bytes are received. *)
Fixpoint resp_loop (fuel : nat) (response timeout : Z) (s : sys) {struct fuel} : outcome (Z * sys) :=
  match fuel with
  | O => Hang
  | S fuel =>
    if response =? 0xFF then
      '(response, s) ← spi_receive s;
      let timeout := u8 (timeout - 1) in
      if timeout =? 0 then Panic "driver/sd: command timeout" else resp_loop fuel response timeout s
    else Ret (response, s)
  end.

Fixpoint receive_more (n : nat) (s : sys) : outcome (list Z * sys) :=
  match n with
  | O => Ret ([], s)
  | S n => '(r, s) ← spi_receive s; '(rs, s) ← receive_more n s; Ret (r :: rs, s)
  end.

(** The bytes stored through [resp_buff] are returned. *)
Definition sd_command (index arg_upper arg_lower crc : Z) (resp_size : nat) (s : sys) : outcome (list Z * sys) :=
  s ← spi_transmit (Z.lor 0x40 index) s;
  s ← spi_transmit (Z.shiftr arg_upper 8) s;
  s ← spi_transmit (Z.land arg_upper 0xFF) s;
  s ← spi_transmit (Z.shiftr arg_lower 8) s;
  s ← spi_transmit (Z.land arg_lower 0xFF) s;
  s ← spi_transmit (Z.lor (Z.shiftl crc 1) 1) s;
  '(response, s) ← resp_loop 17 0xFF SD_RESP_TIMEOUT s;
  '(rs, s) ← receive_more (resp_size - 1) s;
  s ← spi_transmit 0xFF s;
  Ret (response :: rs, s).

(** A command with a response of one byte *)
Definition sd_command1 (index arg_upper arg_lower crc : Z) (s : sys) : outcome (Z * sys) :=
  '(rs, s) ← sd_command index arg_upper arg_lower crc 1 s;
  r ← arr_get rs 0;
  Ret (r, s).

(** [while (timeout--)] *)
Fixpoint acmd41_loop (fuel : nat) (timeout : Z) (s : sys) {struct fuel} : outcome sys :=
  match fuel with
  | O => Hang
  | S fuel =>
    if timeout =? 0 then Ret s
    else
      let timeout := u8 (timeout - 1) in
      '(r, s) ← sd_command1 ACMD_PRE_CMD55 0 0 0 s;
      if negb (r =? STATUS_IDLE) then Panic "driver/sd: illegal response to cmd55 (acmd41)"
      else
        '(r, s) ← sd_command1 ACMD41 ACMD41_ARG_HC 0 0 s;
        if r =? STATUS_NULL then Ret s
        else if negb (r =? STATUS_IDLE) then Panic "driver/sd: illegal response to acmd41"
        else if timeout =? 0 then Panic "driver/sd: timeout while intializing"
        else acmd41_loop fuel timeout s
  end.

Definition sd_hc_init (s : sys) : outcome sys :=
  s ← acmd41_loop 201 SD_INIT_TIMEOUT s;
  '(rb, s) ← sd_command CMD58 0 0 0 5 s;
  rb0 ← arr_get rb 0;
  rb1 ← arr_get rb 1;
  rb2 ← arr_get rb 2;
  if negb (rb0 =? STATUS_NULL) then Panic "driver/sd: illegal response to cmd58"
  else if Z.land rb2 OCR_1_3V3 =? 0 then Panic "driver/sd: volatage range not supported"
  else if Z.land rb1 OCR_0_HC =? 0 then Panic "driver/sd: not hc card"
  else
    '(r, s) ← sd_command1 CMD16 0 SECTOR_SIZE 0 s;
    if negb (r =? STATUS_NULL) then Panic "driver/sd: illegal response to cmd16" else Ret s.

Definition sd_init (s : sys) : outcome sys :=
  '(_, s) ← spi_cs_set 1 SD_DEVICE_NO s;
  s ← for_loop 80 0 (fun _ s => spi_transmit 0xFF s) s;
  '(_, s) ← spi_cs_set 0 SD_DEVICE_NO s;
  '(r, s) ← sd_command1 CMD0 0 0 CMD0_CRC s;
  if negb (r =? STATUS_IDLE) then Panic "driver/sd: sd card failed to initialize"
  else
    '(rb, s) ← sd_command CMD8 0 CMD8_PARAM CMD8_CRC 5 s;
    rb0 ← arr_get rb 0;
    if rb0 =? STATUS_IDLE then
      rb3 ← arr_get rb 3;
      rb4 ← arr_get rb 4;
      if negb (rb3 =? CMD8_3_VOLATAGE) || negb (rb4 =? Z.land CMD8_PARAM 0xff)
      then Panic "driver/sd: invalid response to cmd8"
      else sd_hc_init s
    else if rb0 =? STATUS_ILLEGAL_CMD then Panic "driver/sd: low capacity cards not implemented"
    else Panic "driver/sd: sd card failed to initialize".

(** ** Reading a sector *)

(** [map_page_zero(get_proc_addr_page(pid, vbuff));] and the store of a byte
    through the kernel's page 0.  The kernel's own memory is the map of its
    buffers. *)
Definition store_byte (pid vbuff byte : Z) (s : sys) : outcome sys :=
  page ← get_proc_addr_page pid vbuff (s_kernel s);
  v ← map_page_zero page (s_vm s);
  if pid =? 0 then
    buf ← deref (s_bufs s) (buf_base vbuff);
    buf ← arr_set buf (buf_off vbuff) byte;
    Ret (set_bufs (<[buf_base vbuff := buf]> (s_bufs s)) (set_vm v s))
  else
    pg ← deref (v_phys v) (zero_page v);
    pg ← arr_set pg (VIRT_LOCAL_PART vbuff) byte;
    Ret (set_vm (Vm (v_kernel v) (<[zero_page v := pg]> (v_phys v)) (zero_page v)) s).

(** Until the card sends the token that precedes the data. *)
Fixpoint token_loop (fuel : nat) (r : Z) (s : sys) {struct fuel} : outcome sys :=
  match fuel with
  | O => Hang
  | S fuel =>
    if r =? SD_READ_TOKEN then Ret s
    else
      '(r, s) ← spi_receive s;
      if negb (r =? 0xFF) && negb (r =? SD_READ_TOKEN) then Panic "driver/sd: data before read token"
      else token_loop fuel r s
  end.

(** A turn of the loop over the bytes of the sector. *)
Definition sector_byte (pid buff_size buff_offset i : Z) (st : Z * sys) : outcome (Z * sys) :=
  let '(vbuff, s) := st in
  '(byte, s) ← spi_receive s;
  if (buff_offset <=? i) && (i <? u16 (buff_size + buff_offset)) then
    s ← store_byte pid vbuff byte s;
    Ret (ptr_add pid vbuff 1, s)
  else Ret (vbuff, s).

Definition sd_read_block (pid vbuff addr buff_size buff_offset : Z) (s : sys) : outcome sys :=
  '(r, s) ← sd_command1 CMD17 0 addr 0 s;
  if negb (r =? STATUS_NULL) then Panic "driver/sd: invalid response to read"
  else
    '(r, s) ← spi_receive s;
    s ← token_loop (S dev_polls) r s;
    '(_, s) ← for_loop (Z.to_nat SECTOR_SIZE) 0 (sector_byte pid buff_size buff_offset) (vbuff, s);
    '(_, s) ← spi_receive s;
    '(_, s) ← spi_receive s;
    spi_transmit 0xFF s.

(** ** The queue of requests *)

Definition current_pid (s : sys) : outcome Z :=
  p ← deref (k_procs (s_kernel s)) (current_proc (s_kernel s)); Ret (p_pid p).

(** [spinlock_lock] and [spinlock_unlock] on the lock of the queue; a lock that
    is taken makes the thread wait. *)
Definition lock_requests (s : sys) : outcome sys :=
  pid ← current_pid s;
  match Spin.spinlock_lock pid 4 (bq_lock (d_requests (s_dev s))) with
  | Some (l, _) => Ret (set_requests (set_bq_lock l (d_requests (s_dev s))) s)
  | None => Block
  end.

Definition unlock_requests (s : sys) : outcome sys :=
  pid ← current_pid s;
  let b := d_requests (s_dev s) in
  Ret (set_requests (set_bq_lock (Spin.spinlock_unlock pid (bq_lock b)).1 b) s).

Definition blockq_init (size base_size : Z) (s : sys) : outcome sys :=
  '(rb, s) ← s_ringbuff_init (u16 (size * base_size)) s;
  let s := s_sema_init SD_NOT_FULL (s_sema_init SD_NOT_EMPTY s) in
  let s := s_set_semas (<[SD_NOT_FULL := i16 size]> (s_semas s)) s in
  Ret (set_requests (blockq_fields size base_size rb) s).

Definition blockq_pop (s : sys) : outcome (list Z * sys) :=
  s ← s_sema_down SD_NOT_EMPTY s;
  s ← lock_requests s;
  '(data, b) ← bq_take (d_requests (s_dev s));
  s ← s_sema_up SD_NOT_FULL (set_requests b s);
  s ← unlock_requests s;
  Ret (data, s).

Definition blockq_push (data : list Z) (s : sys) : outcome sys :=
  s ← s_sema_down SD_NOT_FULL s;
  s ← lock_requests s;
  b ← bq_put data (d_requests (s_dev s));
  s ← s_sema_up SD_NOT_EMPTY (set_requests b s);
  unlock_requests s.

Definition sd_submit_request (q : sd_driver_req) (s : sys) : outcome sys := blockq_push (req_cells q) s.

(** A turn of [sd_driver_loop] *)
Definition sd_driver_turn (s : sys) : outcome sys :=
  '(data, s) ← blockq_pop s;
  q ← cells_req data;
  s ← sd_read_block (q_pid q) (q_vbuff q) (u16 (q_block_nr q)) (q_length q) (q_offset q) s;
  s_sema_up (q_notify_done q) s.

(** [sd_register_thread], with the descriptor of the new thread and the address
    of [sd_driver_loop] *)
Definition sd_register_thread (junk_proc : proc) (name : list Z) (entry : Z) (s : sys) : outcome sys :=
  s ← blockq_init SD_REQ_QUEUE_SIZE sizeof_sd_driver_req s;
  '(_, k) ← make_kernel_thread junk_proc name entry (s_kernel s);
  Ret (set_kernel k s).

(** ** Talking to the card *)

(** After an exchange: the hardware in state [b], no page mapped. *)
Definition at_bus (b : B) (s : sys) : sys := set_bus b (set_vm (mapped ILLEGAL_PAGE (s_vm s)) s).

(** Two states that an exchange makes equal. *)
Definition alike (s s' : sys) : Prop := forall b, at_bus b s = at_bus b s'.

Lemma at_bus_twice b1 b2 s : at_bus b2 (at_bus b1 s) = at_bus b2 s.
Proof. unfold at_bus. simpl. by rewrite mapped_mapped. Qed.

Lemma at_bus_bus b s : d_bus (s_dev (at_bus b s)) = b.
Proof. done. Qed.

Lemma at_bus_current b s : current_ok (s_kernel s) -> current_ok (s_kernel (at_bus b s)).
Proof. intros C. by apply (map_page_zero_ok ILLEGAL_PAGE (s_vm s)). Qed.

(** The bytes sent and received in a conversation. *)
Inductive talks : B -> list (Z * Z) -> B -> Prop :=
| talks_nil b : talks b [] b
| talks_cons b x y b1 l b2 : spi_exchange x b = Ret (y, b1) -> talks b1 l b2 -> talks b ((x, y) :: l) b2.

Lemma talks_app l1 l2 b b2 : talks b (l1 ++ l2) b2 -> exists b1, talks b l1 b1 /\ talks b1 l2 b2.
Proof.
  revert b. induction l1 as [|[x y] l1 IH]; intros b Ht; [exists b; split; [constructor|done]|].
  inversion Ht as [|? ? ? b1 ? ? Hx Hl]; subst. destruct (IH _ Hl) as (b3 & H1 & H2). exists b3. split; [by econstructor|done].
Qed.

Lemma tranceive_ok x s y b : current_ok (s_kernel s) -> spi_exchange x (d_bus (s_dev s)) = Ret (y, b) ->
  spi_tranceive x s = Ret (y, at_bus b s).
Proof. intros C Hx. unfold spi_tranceive. by rewrite (on_device_page_ok _ _ _ _ C Hx). Qed.

Lemma transmit_ok x s y b : current_ok (s_kernel s) -> spi_exchange (u8 x) (d_bus (s_dev s)) = Ret (y, b) ->
  spi_transmit x s = Ret (at_bus b s).
Proof. intros C Hx. unfold spi_transmit. by rewrite (tranceive_ok _ _ _ _ C Hx). Qed.

Lemma receive_ok s y l b2 : current_ok (s_kernel s) -> talks (d_bus (s_dev s)) ((0xFF, y) :: l) b2 ->
  exists b, spi_receive s = Ret (y, at_bus b s) /\ talks b l b2.
Proof.
  intros C Ht. inversion Ht as [|? ? ? b1 ? ? Hx Hl]; subst. exists b1. split; [|done]. by apply tranceive_ok.
Qed.

(** The answers [ys] to bytes of ones. *)
Definition answers (ys : list Z) : list (Z * Z) := (fun y => (0xFF, y)) <$> ys.

(** The card lets [a] bytes pass before it responds with [r]. *)
Lemma resp_loop_ok a r : forall fuel timeout s l b2, (a + 1 < fuel)%nat -> Z.of_nat a + 1 < timeout -> timeout < 256 -> r <> 0xFF ->
  current_ok (s_kernel s) -> talks (d_bus (s_dev s)) (answers (replicate a 0xFF ++ [r]) ++ l) b2 ->
  exists b, resp_loop fuel 0xFF timeout s = Ret (r, at_bus b s) /\ talks b l b2.
Proof.
  induction a as [|a IH]; intros [|fuel] timeout s l b2 Hf Ht Ht2 Hr C Htk; try lia; cbn [resp_loop]; rewrite Z.eqb_refl;
    (destruct (receive_ok s _ _ _ C Htk) as (b & -> & Htk'); cbn [mbind outcome_bind];
     rewrite u8_small by lia; rewrite eqb_ne by lia).
  - exists b. split; [|done]. destruct fuel; [lia|]. cbn [resp_loop]. by rewrite eqb_ne.
  - destruct (IH fuel (timeout - 1) (at_bus b s) l b2) as (b' & -> & Htk2); try done; try lia; [by apply at_bus_current|].
    exists b'. by rewrite at_bus_twice.
Qed.

Lemma token_loop_ok w : forall fuel s l b2, (w + 1 < fuel)%nat -> current_ok (s_kernel s) ->
  talks (d_bus (s_dev s)) (answers (replicate w 0xFF ++ [SD_READ_TOKEN]) ++ l) b2 ->
  exists b, token_loop fuel 0xFF s = Ret (at_bus b s) /\ talks b l b2.
Proof.
  induction w as [|w IH]; intros [|fuel] s l b2 Hf C Htk; try lia; cbn [token_loop];
    (destruct (receive_ok s _ _ _ C Htk) as (b & -> & Htk'); simpl).
  - exists b. split; [|done]. destruct fuel; [lia|]. done.
  - destruct (IH fuel (at_bus b s) l b2) as (b' & -> & Htk2); try done; try lia; [by apply at_bus_current|].
    exists b'. by rewrite at_bus_twice.
Qed.

(** A command whose response has one byte. *)
Definition command_bytes (index arg_upper arg_lower crc : Z) : list Z :=
  u8 <$> [Z.lor 0x40 index; Z.shiftr arg_upper 8; Z.land arg_upper 0xFF; Z.shiftr arg_lower 8; Z.land arg_lower 0xFF; Z.lor (Z.shiftl crc 1) 1].

Lemma transmit_all s x y l b2 : current_ok (s_kernel s) -> talks (d_bus (s_dev s)) ((u8 x, y) :: l) b2 ->
  exists b, spi_transmit x s = Ret (at_bus b s) /\ talks b l b2.
Proof.
  intros C Ht. inversion Ht as [|? ? ? b1 ? ? Hx Hl]; subst. exists b1. split; [|done]. by eapply transmit_ok.
Qed.

Lemma sd_command1_ok index au al crc s ys a r z l b2 : length ys = 6%nat -> (a < 15)%nat -> r <> 0xFF -> current_ok (s_kernel s) ->
  talks (d_bus (s_dev s)) (zip (command_bytes index au al crc) ys ++ answers (replicate a 0xFF ++ [r]) ++ (0xFF, z) :: l) b2 ->
  exists b, sd_command1 index au al crc s = Ret (r, at_bus b s) /\ talks b l b2.
Proof.
  intros Hy Ha Hr C Ht. do 6 (destruct ys as [|? ys]; [discriminate Hy|]). destruct ys; [|discriminate Hy]. clear Hy. unfold command_bytes in Ht. simpl app in Ht.
  unfold sd_command1, sd_command.
  assert (Hstep : forall x y l b b2, talks b ((u8 x, y) :: l) b2 ->
            exists b1, spi_transmit x (at_bus b s) = Ret (at_bus b1 s) /\ talks b1 l b2).
  { intros x y l0 b b0 Hl. destruct (transmit_all (at_bus b s) x y l0 b0) as (b1 & -> & Hl1); [by apply at_bus_current|done|].
    exists b1. by rewrite at_bus_twice. }
  destruct (transmit_all _ _ _ _ _ C Ht) as (b0 & -> & Ht0). cbn [mbind outcome_bind].
  do 5 (match goal with Hl : talks ?b (_ :: _) b2 |- _ =>
          let b' := fresh "b" in let E := fresh in let Hl' := fresh "Hl" in
          destruct (Hstep _ _ _ _ _ Hl) as (b' & E & Hl'); rewrite E; clear E Hl; cbn [mbind outcome_bind] end).
  match goal with Hl : talks ?b _ b2 |- _ =>
    destruct (resp_loop_ok a r 17 SD_RESP_TIMEOUT (at_bus b s) ((0xFF, z) :: l) b2) as (b' & -> & Ht');
      [lia|unfold SD_RESP_TIMEOUT; lia|unfold SD_RESP_TIMEOUT; lia|done|by apply at_bus_current|exact Hl|] end.
  cbn [mbind outcome_bind receive_more Nat.sub]. rewrite at_bus_twice.
  destruct (Hstep 0xFF _ _ _ _ Ht') as (b'' & -> & Htl). cbn [mbind outcome_bind]. exists b''. split; [|done]. done.
Qed.

(** ** Where the bytes go *)

(** [W d] is the state with the bytes [d] stored from [vbuff] on: one more byte
    can be stored, up to all of [data]. *)
Record writable (pid vbuff : Z) (W : list Z -> sys) (data : list Z) : Prop := {
  wr_current d : d `prefix_of` data -> current_ok (s_kernel (W d));
  wr_store d x b : d ++ [x] `prefix_of` data ->
    exists s1, store_byte pid (ptr_add pid vbuff (zlen d)) x (at_bus b (W d)) = Ret s1 /\
      alike s1 (W (d ++ [x])) /\ current_ok (s_kernel s1) /\ d_bus (s_dev s1) = b;
}.

(** The part of a sector that is asked for. *)
Definition sector_part (sector : list Z) (off size : Z) : list Z := take (Z.to_nat size) (drop (Z.to_nat off) sector).

(** What is stored of it after [i] bytes of the sector. *)
Definition part_until (sector : list Z) (off size i : Z) : list Z := take (Z.to_nat (i - off)) (sector_part sector off size).

Lemma part_until_prefix sector off size i : part_until sector off size i `prefix_of` sector_part sector off size.
Proof. exists (drop (Z.to_nat (i - off)) (sector_part sector off size)). unfold part_until. by rewrite take_drop. Qed.

Lemma part_until_in sector off size i x : 0 <= off <= i -> i < off + size -> sector !! Z.to_nat i = Some x ->
  part_until sector off size (i + 1) = part_until sector off size i ++ [x] /\ zlen (part_until sector off size i) = i - off.
Proof.
  intros Ho Hi Hx. pose proof (lookup_lt_Some _ _ _ Hx).
  assert (Hp : sector_part sector off size !! Z.to_nat (i - off) = Some x).
  { unfold sector_part. rewrite lookup_take_lt, lookup_drop by lia. by replace (Z.to_nat off + Z.to_nat (i - off))%nat with (Z.to_nat i) by lia. }
  unfold part_until. replace (Z.to_nat (i + 1 - off)) with (S (Z.to_nat (i - off))) by lia. rewrite (take_S_r _ _ _ Hp). split; [done|].
  apply lookup_lt_Some in Hp. rewrite length_take. lia.
Qed.

Lemma part_until_out sector off size i : 0 <= off -> 0 <= size -> ~ (off <= i < off + size) -> 
  part_until sector off size (i + 1) = part_until sector off size i.
Proof.
  intros Ho Hs Hi. unfold part_until. destruct (decide (i < off)).
  - by replace (Z.to_nat (i + 1 - off)) with (Z.to_nat (i - off)) by lia.
  - rewrite !take_ge; [done|..]; unfold sector_part; rewrite length_take; lia.
Qed.

Lemma ptr_add_add pid v n : ptr_add pid (ptr_add pid v n) 1 = ptr_add pid v (n + 1).
Proof. unfold ptr_add. destruct (pid =? 0); [lia|]. by rewrite u16_add_assoc. Qed.

Lemma sector_loop_ok pid vbuff W sector off size s l b2 :
  zlen sector = SECTOR_SIZE -> 0 <= off -> 0 <= size -> off + size <= SECTOR_SIZE ->
  writable pid vbuff W (sector_part sector off size) -> alike s (W []) -> current_ok (s_kernel s) ->
  ptr_add pid vbuff 0 = vbuff -> talks (d_bus (s_dev s)) (answers sector ++ l) b2 ->
  exists vb s', for_loop (Z.to_nat SECTOR_SIZE) 0 (sector_byte pid size off) (vbuff, s) = Ret (vb, s') /\
    alike s' (W (sector_part sector off size)) /\ current_ok (s_kernel s') /\ talks (d_bus (s_dev s')) l b2.
Proof.
  intros Hlen Ho Hs Hos Hw Hal C Hv Ht. unfold SECTOR_SIZE in *.
  set (P := fun i (st : Z * sys) => let d := part_until sector off size i in
     st.1 = ptr_add pid vbuff (zlen d) /\ alike st.2 (W d) /\ current_ok (s_kernel st.2) /\
     talks (d_bus (s_dev st.2)) (answers (drop (Z.to_nat i) sector) ++ l) b2).
  destruct (for_loop_inv P (Z.to_nat 512) 0 (sector_byte pid size off) (vbuff, s)) as ([vb s'] & E & Hp).
  - unfold P, part_until. replace (Z.to_nat (0 - off)) with 0%nat by lia. simpl. done.
  - intros i [vb si] Hi (Hvb & Hai & Ci & Hti). simpl in *.
    assert (exists x, sector !! Z.to_nat i = Some x) as [x Hx] by (apply lookup_lt_is_Some_2; lia).
    rewrite (drop_S _ _ _ Hx) in Hti. destruct (receive_ok _ _ _ _ Ci Hti) as (b & Er & Htb). rewrite Er. cbn [mbind outcome_bind].
    replace (S (Z.to_nat i)) with (Z.to_nat (i + 1)) in Htb by lia. rewrite (u16_small (size + off)) by lia.
    destruct (Z.leb_spec off i) as [H1|H1]; [destruct (Z.ltb_spec i (size + off)) as [H2|H2]|]; cbn [andb].
    + destruct (part_until_in sector off size i x) as [En El]; [lia|lia|done|].
      destruct (wr_store _ _ _ _ Hw (part_until sector off size i) x b) as (s1 & Es & Ha1 & C1 & B1).
      { rewrite <-En. apply part_until_prefix. }
      rewrite Hvb, (Hai b), Es. cbn [mbind outcome_bind]. eexists. split; [done|]. unfold P. simpl.
      rewrite En, ptr_add_add, length_app. simpl. split_and!; [f_equal; lia|done|done|by rewrite B1].
    + eexists. split; [done|]. unfold P. simpl. rewrite part_until_out by lia.
      split_and!; [done| |by apply at_bus_current|done]. intros b'. by rewrite at_bus_twice.
    + eexists. split; [done|]. unfold P. simpl. rewrite part_until_out by lia.
      split_and!; [done| |by apply at_bus_current|done]. intros b'. by rewrite at_bus_twice.
  - exists vb, s'. split; [done|]. destruct Hp as (_ & Ha & C' & Ht'). simpl in *.
    change (0 + Z.of_nat (Z.to_nat 512)) with 512 in *. rewrite drop_ge in Ht' by lia.
    unfold part_until in Ha. rewrite take_ge in Ha; [by split_and!|]. unfold sector_part. rewrite length_take. lia.
Qed.

(** ** What the driver relies on of the card

    A conversation in which the card reads a sector: the command with any
    answers, at most 14 idle bytes, the response 0, a byte, fewer than
    [dev_polls] idle bytes, the token, the sector, two bytes of checksum and a
    last one. *)

Record sector_talk (addr : Z) (sector : list Z) (l : list (Z * Z)) : Prop := {
  st_sector : zlen sector = SECTOR_SIZE;
  st_talk : exists ys a z w c1 c2 e, length ys = 6%nat /\ (a < 15)%nat /\ (w < dev_polls)%nat /\
    l = zip (command_bytes CMD17 0 addr 0) ys ++ answers (replicate a 0xFF ++ [STATUS_NULL]) ++ (0xFF, z) ::
        answers (replicate w 0xFF ++ [SD_READ_TOKEN]) ++ answers sector ++ answers [c1; c2; e];
}.

Lemma sd_read_block_ok pid vbuff addr off size W sector l b2 s :
  0 <= off -> 0 <= size -> off + size <= SECTOR_SIZE -> sector_talk addr sector l -> talks (d_bus (s_dev s)) l b2 ->
  writable pid vbuff W (sector_part sector off size) -> alike s (W []) -> current_ok (s_kernel s) -> ptr_add pid vbuff 0 = vbuff ->
  sd_read_block pid vbuff addr size off s = Ret (at_bus b2 (W (sector_part sector off size))).
Proof.
  intros Ho Hs Hos [Hlen (ys & a & z & w & c1 & c2 & e & Hy & Ha & Hwp & ->)] Ht Hw Hal C Hv. unfold sd_read_block.
  destruct (sd_command1_ok _ _ _ _ _ _ _ STATUS_NULL _ _ _ Hy Ha ltac:(done) C Ht) as (b & -> & Htb). cbn [mbind outcome_bind].
  rewrite Z.eqb_refl. cbn [negb]. pose proof (at_bus_current b s C) as Cb.
  assert (exists b', (r ← spi_receive (at_bus b s); token_loop (S dev_polls) r.1 r.2) = Ret (at_bus b' s) /\
            talks b' (answers sector ++ answers [c1; c2; e]) b2) as (b' & Etok & Htk).
  { destruct w as [|w].
    - destruct (receive_ok (at_bus b s) _ _ _ Cb Htb) as (b1 & -> & Ht1). cbn [mbind outcome_bind fst snd token_loop].
      rewrite Z.eqb_refl, at_bus_twice. by exists b1.
    - destruct (receive_ok (at_bus b s) _ _ _ Cb Htb) as (b1 & -> & Ht1). cbn [mbind outcome_bind fst snd].
      destruct (token_loop_ok w (S dev_polls) (at_bus b1 (at_bus b s)) _ b2 ltac:(lia) ltac:(by apply at_bus_current) Ht1) as (b3 & -> & Ht3).
      exists b3. by rewrite !at_bus_twice. }
  destruct (spi_receive (at_bus b s)) as [[r sr]| | | |]; try discriminate Etok. cbn [mbind outcome_bind fst snd] in *. rewrite Etok.
  cbn [mbind outcome_bind].
  destruct (sector_loop_ok pid vbuff W sector off size (at_bus b' s) (answers [c1; c2; e]) b2) as (vb & s' & -> & Ha' & C' & Ht');
    try done; try (by apply at_bus_current); [intros b0; rewrite at_bus_twice; apply Hal|]. cbn [mbind outcome_bind].
  destruct (receive_ok s' _ _ _ C' Ht') as (b3 & -> & Ht3). cbn [mbind outcome_bind].
  destruct (receive_ok (at_bus b3 s') _ _ _ ltac:(by apply at_bus_current) Ht3) as (b4 & -> & Ht4). cbn [mbind outcome_bind].
  rewrite at_bus_twice. destruct (transmit_all (at_bus b4 s') 0xFF _ _ _ ltac:(by apply at_bus_current) Ht4) as (b5 & -> & Ht5).
  inversion Ht5; subst. by rewrite at_bus_twice, Ha'.
Qed.

(** ** Kernel buffers and user memory *)

(** The page table through which the memory of process [pid] is reached. *)
Definition dest_table (pid : Z) (s : sys) : option (list Z) :=
  match proc_by_pid pid (s_kernel s) with
  | Ret P =>
      p ← k_procs (s_kernel s) !! P;
      Some (if (p_state p =? PROC_STATE_SYSCALL) || (p_state p =? PROC_STATE_SYSCALL_BLOCKED)
            then mem_pages (p_syscall_state p) else mem_pages (p_proc_state p))
  | _ => None
  end.

Definition set_phys (ph : gmap Z (list Z)) (s : sys) : sys := set_vm (Vm (s_kernel s) ph (zero_page (s_vm s))) s.

(** The state with [data] stored from [vbuff] on. *)
Definition stored (pid vbuff : Z) (data : list Z) (s : sys) : sys :=
  if pid =? 0 then
    match s_bufs s !! buf_base vbuff with
    | Some buf => set_bufs (<[buf_base vbuff := splice buf (buf_off vbuff) data]> (s_bufs s)) s
    | None => s
    end
  else
    match dest_table pid s with
    | Some table =>
        match user_write table (v_phys (s_vm s)) vbuff data with Some ph => set_phys ph s | None => s end
    | None => s
    end.

(** The destination has room: a buffer of the kernel, or pages of a process
    other than the running thread. *)
Definition room (pid vbuff : Z) (data : list Z) (s : sys) : Prop :=
  if pid =? 0 then
    exists buf, s_bufs s !! buf_base vbuff = Some buf /\ 0 <= buf_off vbuff /\ buf_off vbuff + zlen data <= zlen buf
  else is_u16 vbuff /\
    exists P p table, proc_by_pid pid (s_kernel s) = Ret P /\ P <> 0 /\ k_procs (s_kernel s) !! P = Some p /\
      P <> current_proc (s_kernel s) /\ dest_table pid s = Some table /\
      is_Some (user_write table (v_phys (s_vm s)) vbuff data).

Lemma ptr_add_kernel p n : buf_base (ptr_add 0 p n) = buf_base p /\ buf_off (ptr_add 0 p n) = buf_off p + n.
Proof.
  unfold buf_base, buf_off, ptr_add. simpl. replace (p + 65536 * n + 4096) with (p + 4096 + n * 65536) by lia.
  rewrite Z_mod_plus_full, Z_div_plus_full by lia. done.
Qed.

Lemma kernel_writable vbuff data s : current_ok (s_kernel s) -> room 0 vbuff data s ->
  writable 0 vbuff (fun d => stored 0 vbuff d s) data.
Proof.
  intros C (buf & Hb & Ho & Hl). unfold stored. simpl. rewrite Hb. split; [done|]. intros d x b [k Hk].
  rewrite Hk, !length_app in Hl. simpl in Hl.
  destruct (ptr_add_kernel vbuff (zlen d)) as [Eb Eo].
  unfold store_byte. set (sd := at_bus b _).
  assert (get_proc_addr_page 0 (ptr_add 0 vbuff (zlen d)) (s_kernel sd) = Ret (0x200 + VIRT_PAGE_PART (ptr_add 0 vbuff (zlen d)))) as -> by done.
  cbn [mbind outcome_bind]. assert (Cd : current_ok (v_kernel (s_vm sd))) by exact (at_bus_current b (set_bufs _ s) C).
  destruct (map_page_zero_ok (0x200 + VIRT_PAGE_PART (ptr_add 0 vbuff (zlen d))) (s_vm sd) Cd) as [-> C1]. cbn [mbind outcome_bind].
  rewrite Z.eqb_refl, Eb, Eo.
  assert (Hbd : s_bufs sd !! buf_base vbuff = Some (splice buf (buf_off vbuff) d)) by apply lookup_insert_eq.
  rewrite (deref_Some _ _ _ Hbd). cbn [mbind outcome_bind]. rewrite arr_set_splice by lia. cbn [mbind outcome_bind].
  eexists. split; [done|]. split_and!; [|exact C1|done]. intros b'. unfold at_bus. simpl. rewrite !mapped_mapped.
  unfold set_bufs, set_vm. simpl. by rewrite insert_insert_eq.
Qed.

Lemma find_pid_mapped page (k : kernel St) pid xs :
  find_pid (alter (page0 page) (current_proc k) (k_procs k)) pid xs = find_pid (k_procs k) pid xs.
Proof.
  induction xs as [|[n v] xs IH]; [done|]. cbn [find_pid]. unfold deref. destruct (decide (v = current_proc k)) as [->|Hv].
  - rewrite lookup_alter_eq. destruct (k_procs k !! current_proc k); simpl; [|done]. by rewrite IH.
  - rewrite lookup_alter_ne by done. destruct (k_procs k !! v); simpl; [|done]. by rewrite IH.
Qed.

Lemma proc_by_pid_mapped pid page (v : vm St) : proc_by_pid pid (v_kernel (mapped page v)) = proc_by_pid pid (v_kernel v).
Proof.
  unfold proc_by_pid, mapped. simpl. destruct (_ && _); [|done]. simpl.
  destruct (ls_nodes (k_store (v_kernel v)) PROC_LIST); try done. simpl. apply find_pid_mapped.
Qed.

Lemma user_writable pid vbuff data s : pid <> 0 -> current_ok (s_kernel s) -> room pid vbuff data s ->
  writable pid vbuff (fun d => stored pid vbuff d s) data.
Proof.
  intros Hpid C Hroom. unfold room in Hroom. unfold stored. rewrite (eqb_ne pid 0) in * by done.
  destruct Hroom as (Hu & P & p & table & HP & HP0 & Hp & Hcur & Ht & [ph Hw]). rewrite Ht. split.
  - intros d _. by destruct (user_write table (v_phys (s_vm s)) vbuff d).
  - intros d x b [k Hk]. rewrite Hk in Hw. rewrite <-app_assoc, user_write_app in Hw by done.
    destruct (user_write table (v_phys (s_vm s)) vbuff d) as [ph1|] eqn:E1; [|done]. simpl in Hw.
    destruct (user_poke table ph1 (u16 (vbuff + zlen d)) x) as [ph2|] eqn:E2; [|done]. clear Hw.
    assert (Ew : user_write table (v_phys (s_vm s)) vbuff (d ++ [x]) = Some ph2).
    { rewrite user_write_app, E1 by done. simpl. by rewrite E2. }
    rewrite Ew. destruct (user_poke_Some _ _ _ _ _ (u16_range _) E2) as (page & pg & Ea & Epg & Hloc & ->).
    unfold store_byte, ptr_add, get_proc_addr_page. rewrite (eqb_ne pid 0) by done.
    set (sd := at_bus b _).
    assert (proc_by_pid pid (s_kernel sd) = Ret P) as ->.
    { exact (eq_trans (proc_by_pid_mapped pid ILLEGAL_PAGE (s_vm (set_phys ph1 s))) HP). }
    cbn [mbind outcome_bind]. rewrite (eqb_ne P 0) by done.
    assert (Hpd : k_procs (s_kernel sd) !! P = Some p).
    { unfold sd, at_bus, s_kernel, mapped. simpl. destruct (_ && _); [|done]. simpl. by rewrite lookup_alter_ne. }
    rewrite (deref_Some _ _ _ Hpd). cbn [mbind outcome_bind].
    assert ((if (p_state p =? PROC_STATE_SYSCALL) || (p_state p =? PROC_STATE_SYSCALL_BLOCKED)
            then arr_get (mem_pages (p_syscall_state p)) (VIRT_PAGE_PART (u16 (vbuff + zlen d)))
            else arr_get (mem_pages (p_proc_state p)) (VIRT_PAGE_PART (u16 (vbuff + zlen d)))) = Ret page) as ->.
    { unfold dest_table in Ht. rewrite HP, Hp in Ht. simpl in Ht. injection Ht as <-. by destruct (_ || _). }
    cbn [mbind outcome_bind]. assert (Cd : current_ok (v_kernel (s_vm sd))) by exact (at_bus_current b (set_phys ph1 s) C).
    destruct (map_page_zero_ok page (s_vm sd) Cd) as [-> C1]. cbn [mbind outcome_bind].
    assert (v_phys (mapped page (s_vm sd)) = ph1) as -> by done. assert (zero_page (mapped page (s_vm sd)) = page) as -> by done.
    rewrite (deref_Some _ _ _ Epg). cbn [mbind outcome_bind]. rewrite arr_set_in by done. cbn [mbind outcome_bind].
    eexists. split; [done|]. split_and!; [|exact C1|done]. intros b'. unfold at_bus, set_bus, set_dev, set_vm, set_phys. simpl.
    set (ph2 := <[page := _]> ph1). f_equal.
    pose proof (mapped_mapped ILLEGAL_PAGE page (Vm (v_kernel (s_vm sd)) ph2 (zero_page (s_vm sd)))) as M1.
    pose proof (mapped_mapped ILLEGAL_PAGE ILLEGAL_PAGE (Vm (s_kernel s) ph2 (zero_page (s_vm s)))) as M2.
    exact (eq_trans M1 M2).
Qed.

(** Reading a sector: in a conversation in which the card sends the sector,
    [sd_read_block] returns, and stores exactly the bytes
    [buff_offset .. buff_offset + buff_size) of the sector at the destination,
    in a buffer of the kernel or byte by byte through the page table of the
    process; nothing else in memory changes, and no device page stays mapped. *)
Lemma sd_read_block_stored pid vbuff addr off size sector l b2 s :
  0 <= off -> 0 <= size -> off + size <= SECTOR_SIZE -> sector_talk addr sector l -> talks (d_bus (s_dev s)) l b2 ->
  room pid vbuff (sector_part sector off size) s -> current_ok (s_kernel s) ->
  sd_read_block pid vbuff addr size off s = Ret (at_bus b2 (stored pid vbuff (sector_part sector off size) s)).
Proof.
  intros Ho Hs Hos Hst Ht Hr C.
  assert (Hv : ptr_add pid vbuff 0 = vbuff).
  { unfold ptr_add. unfold room in Hr. destruct (Z.eqb_spec pid 0); [lia|]. destruct Hr as [Hu _]. by rewrite Z.add_0_r, u16_small. }
  assert (Hal : alike s (stored pid vbuff [] s)).
  { intros b. unfold stored. destruct (Z.eqb_spec pid 0) as [->|].
    - destruct (s_bufs s !! buf_base vbuff) as [buf|] eqn:E; [|done]. rewrite splice_nil, insert_id by done. by destruct s.
    - destruct (dest_table pid s); [|done]. simpl. by destruct s as [[] ? ? ? ?]. }
  apply (sd_read_block_ok pid vbuff addr off size (fun d => stored pid vbuff d s) sector l b2 s); try done.
  destruct (decide (pid = 0)) as [->|]; [by apply kernel_writable|by apply user_writable].
Qed.

(** ** Requests *)

Lemma cells_round q : cells_req (req_cells q) = Ret q.
Proof.
  assert (W : forall x, x mod 256 + 256 * (x / 256) = x) by (intros x; pose proof (Z.div_mod x 256); lia).
  destruct q. unfold cells_req, req_cells, word_cells. simpl. by rewrite !W.
Qed.

(** The queue holds the requests [q], no thread is inside. *)
Record queue_at (q : list (list Z)) (s : sys) : Prop := {
  qa_ring : repr (32 * 12) (concat q) (bq_rbuff (d_requests (s_dev s)));
  qa_items : Forall (fun r => zlen r = 12) q;
  qa_sizes : bq_max_size (d_requests (s_dev s)) = 32 /\ bq_base_size (d_requests (s_dev s)) = 12;
  qa_size : bq_size (d_requests (s_dev s)) = zlen q;
  qa_lock : Spin.sl_locked (bq_lock (d_requests (s_dev s))) = 0;
  qa_empty : s_semas s !! SD_NOT_EMPTY = Some (zlen q);
  qa_full : s_semas s !! SD_NOT_FULL = Some (32 - zlen q);
}.

(** The state with the queue and its semaphores changed. *)
Definition requeued (b : blockq) (ne nf : Z) (s : sys) : sys :=
  set_requests b (s_set_semas (<[SD_NOT_EMPTY := ne]> (<[SD_NOT_FULL := nf]> (s_semas s))) s).

Definition running (s : sys) : Prop := is_Some (k_procs (s_kernel s) !! current_proc (s_kernel s)).

Lemma lock_unlock pid l : Spin.sl_locked l = 0 -> exists l', Spin.spinlock_lock pid 4 l = Some (l', 0) /\
  Spin.sl_locked (Spin.spinlock_unlock pid l').1 = 0.
Proof.
  intros E. unfold Spin.spinlock_lock, Atomic.atomic_compare_and_swap_int. rewrite E. simpl. eexists. split; [done|].
  unfold Spin.spinlock_unlock. simpl. by rewrite Z.eqb_refl.
Qed.

Lemma blockq_push_ok q r s : queue_at q s -> running s -> zlen q < 32 -> zlen r = 12 ->
  exists b, blockq_push r s = Ret (requeued b (zlen q + 1) (31 - zlen q) s) /\
    queue_at (q ++ [r]) (requeued b (zlen q + 1) (31 - zlen q) s).
Proof.
  intros [Hr Hi Hsz Hs Hl He Hf] [p Hp] Hq Hlen. unfold blockq_push.
  rewrite (s_sema_down_now _ _ _ Hf) by lia. cbn [mbind outcome_bind]. rewrite i16_small by lia.
  unfold lock_requests, current_pid. rewrite (deref_Some _ _ p) by exact Hp. cbn [mbind outcome_bind].
  destruct (lock_unlock (p_pid p) _ Hl) as (l' & El & Eu). simpl d_requests. rewrite El. cbn [mbind outcome_bind].
  set (b0 := set_bq_lock l' _). destruct (bq_put_ok 32 12 ltac:(lia) ltac:(lia) b0 q r Hsz Hr Hi Hs Hq Hlen) as (rb & Eb & Hrb).
  simpl d_requests. rewrite Eb. cbn [mbind outcome_bind].
  rewrite (s_sema_up_ok _ _ (zlen q)). 2: { simpl. unfold s_semas. simpl. by rewrite lookup_insert_ne. }
  cbn [mbind outcome_bind]. unfold unlock_requests, current_pid. rewrite (deref_Some _ _ p) by exact Hp. cbn [mbind outcome_bind].
  rewrite i16_small by lia. replace (32 - zlen q - 1) with (31 - zlen q) by lia. eexists. split; [done|]. split; simpl; try done.
  - by apply Forall_app; split; [|constructor].
  - unfold s_semas. simpl. rewrite lookup_insert_eq, length_app. simpl. f_equal. lia.
  - unfold s_semas. simpl. rewrite lookup_insert_ne, lookup_insert_eq, length_app by done. simpl. f_equal. lia.
Qed.

Lemma blockq_pop_ok q r s : queue_at (r :: q) s -> running s -> zlen (r :: q) <= 32 ->
  exists b, blockq_pop s = Ret (r, requeued b (zlen q) (32 - zlen q) s) /\ queue_at q (requeued b (zlen q) (32 - zlen q) s).
Proof.
  intros [Hr Hi Hsz Hs Hl He Hf] [p Hp] Hq. unfold blockq_pop. simpl length in He, Hf.
  rewrite (s_sema_down_now _ _ _ He) by lia. cbn [mbind outcome_bind]. rewrite i16_small by (simpl in Hq; lia).
  unfold lock_requests, current_pid. rewrite (deref_Some _ _ p) by exact Hp. cbn [mbind outcome_bind].
  destruct (lock_unlock (p_pid p) _ Hl) as (l' & El & Eu). simpl d_requests. rewrite El. cbn [mbind outcome_bind].
  set (b0 := set_bq_lock l' _). destruct (bq_take_ok 32 12 ltac:(lia) ltac:(lia) b0 q r Hsz Hr Hi Hs Hq) as (rb & Eb & Hrb).
  simpl d_requests. rewrite Eb. cbn [mbind outcome_bind].
  rewrite (s_sema_up_ok _ _ (32 - Z.of_nat (S (length q)))). 2: { simpl. unfold s_semas. simpl. by rewrite lookup_insert_ne. }
  cbn [mbind outcome_bind]. unfold unlock_requests, current_pid. rewrite (deref_Some _ _ p) by exact Hp. cbn [mbind outcome_bind].
  rewrite i16_small by (simpl in Hq; lia). replace (32 - Z.of_nat (S (length q)) + 1) with (32 - zlen q) by lia.
  replace (Z.of_nat (S (length q)) - 1) with (zlen q) by lia. apply Forall_cons in Hi as [_ Hi].
  eexists. split.
  - do 2 f_equal. unfold requeued. rewrite insert_insert_ne by done. reflexivity.
  - split; simpl; try done.
    + unfold s_semas. simpl. by rewrite lookup_insert_eq.
    + unfold s_semas. simpl. by rewrite lookup_insert_ne, lookup_insert_eq.
Qed.

Definition set_current (T : Z) (s : sys) : sys := set_kernel (set_current_proc T (s_kernel s)) s.

Lemma at_bus_semas b s : s_semas (at_bus b s) = s_semas s.
Proof. unfold at_bus, s_semas, s_kernel, mapped. simpl. by destruct (_ && _). Qed.

(** Storing changes buffers and physical memory only, and depends on little. *)
Lemma stored_only pid vbuff data s :
  stored pid vbuff data s = set_bufs (s_bufs (stored pid vbuff data s)) (set_phys (v_phys (s_vm (stored pid vbuff data s))) s).
Proof.
  unfold stored. destruct (pid =? 0).
  - destruct (s_bufs s !! buf_base vbuff); by destruct s as [[] ? ? ? ?].
  - destruct (dest_table pid s); [|by destruct s as [[] ? ? ? ?]].
    destruct (user_write _ _ _ _); by destruct s as [[] ? ? ? ?].
Qed.

Lemma stored_same pid vbuff data s s' : s_bufs s = s_bufs s' -> v_phys (s_vm s) = v_phys (s_vm s') ->
  dest_table pid s = dest_table pid s' ->
  s_bufs (stored pid vbuff data s) = s_bufs (stored pid vbuff data s') /\
  v_phys (s_vm (stored pid vbuff data s)) = v_phys (s_vm (stored pid vbuff data s')).
Proof.
  intros E1 E2 E3. unfold stored. rewrite E1, E2, E3. destruct (pid =? 0).
  - by destruct (s_bufs s' !! buf_base vbuff); simpl; rewrite ?E1.
  - destruct (dest_table pid s'); [|done]. by destruct (user_write _ _ _ _).
Qed.

(** A turn of the driver thread serves the oldest request. *)
Lemma sd_turn_ok q rest sector l b2 s c :
  queue_at (req_cells q :: rest) s -> running s -> zlen (req_cells q :: rest) <= 32 -> current_ok (s_kernel s) ->
  0 <= q_offset q -> 0 <= q_length q -> q_offset q + q_length q <= SECTOR_SIZE ->
  sector_talk (u16 (q_block_nr q)) sector l -> talks (d_bus (s_dev s)) l b2 ->
  let data := sector_part sector (q_offset q) (q_length q) in
  room (q_pid q) (q_vbuff q) data s -> s_semas s !! q_notify_done q = Some c ->
  q_notify_done q <> SD_NOT_EMPTY -> q_notify_done q <> SD_NOT_FULL ->
  exists b, queue_at rest (requeued b (zlen rest) (32 - zlen rest) s) /\
    let s1 := at_bus b2 (stored (q_pid q) (q_vbuff q) data (requeued b (zlen rest) (32 - zlen rest) s)) in
    sd_driver_turn s = Ret (s_set_semas (<[q_notify_done q := i16 (c + 1)]> (s_semas s1)) s1).
Proof.
  intros Hq Hrun Hl C Ho Hs Hos Hst Ht data Hroom Hc Hn1 Hn2. unfold sd_driver_turn.
  destruct (blockq_pop_ok rest (req_cells q) s Hq Hrun Hl) as (b & -> & Hq'). cbn [mbind outcome_bind]. rewrite cells_round. cbn [mbind outcome_bind].
  exists b. split; [done|]. set (s1 := requeued _ _ _ _).
  rewrite (sd_read_block_stored (q_pid q) (q_vbuff q) (u16 (q_block_nr q)) (q_offset q) (q_length q) sector l b2 s1); try done.
  cbn [mbind outcome_bind]. apply s_sema_up_ok.
  fold data. rewrite at_bus_semas, stored_only. unfold s1, s_semas. simpl. by rewrite !lookup_insert_ne.
Qed.

(** A request is submitted to the empty queue and served by a turn of thread [T]. *)
Lemma request_round q sector l b2 s T c :
  queue_at [] s -> running s -> running (set_current T s) -> current_ok (s_kernel (set_current T s)) ->
  0 <= q_offset q -> 0 <= q_length q -> q_offset q + q_length q <= SECTOR_SIZE ->
  sector_talk (u16 (q_block_nr q)) sector l -> talks (d_bus (s_dev s)) l b2 ->
  let data := sector_part sector (q_offset q) (q_length q) in
  room (q_pid q) (q_vbuff q) data (set_current T s) -> s_semas s !! q_notify_done q = Some c ->
  q_notify_done q <> SD_NOT_EMPTY -> q_notify_done q <> SD_NOT_FULL ->
  exists b b', let s1 := requeued b 1 31 s in
    let s2 := at_bus b2 (stored (q_pid q) (q_vbuff q) data (requeued b' 0 32 (set_current T s1))) in
    let s3 := s_set_semas (<[q_notify_done q := i16 (c + 1)]> (s_semas s2)) s2 in
    sd_submit_request q s = Ret s1 /\ sd_driver_turn (set_current T s1) = Ret s3 /\ queue_at [] s3.
Proof.
  intros Hq Hrun HrunT C Ho Hs Hos Hst Ht data Hroom Hc Hn1 Hn2. unfold sd_submit_request.
  destruct (blockq_push_ok [] (req_cells q) s Hq Hrun) as (b & -> & Hq1); [simpl; lia|done|].
  exists b. simpl length in *. set (s1 := requeued _ _ _ s) in *.
  destruct (sd_turn_ok q [] sector l b2 (set_current T s1) c) as (b' & Hq2 & Et); try done.
  { destruct Hq1. by split. }
  { unfold s1, s_semas. simpl. unfold s_semas in Hc. by rewrite !lookup_insert_ne. }
  exists b'. cbv zeta in *. fold data in Et. split; [done|]. split; [exact Et|]. clear Et. simpl length in *.
  change (32 - Z.of_nat 0) with 32 in *. change (Z.of_nat 0) with 0 in *. set (s2 := requeued b' _ _ _) in *.
  destruct Hq2 as [A1 A2 A3 A4 A5 A6 A7]. rewrite at_bus_semas, stored_only. split; try done.
  - change (<[q_notify_done q := i16 (c + 1)]> (s_semas s2) !! SD_NOT_EMPTY = Some 0). by rewrite lookup_insert_ne.
  - change (<[q_notify_done q := i16 (c + 1)]> (s_semas s2) !! SD_NOT_FULL = Some 32). by rewrite lookup_insert_ne.
Qed.

(** C23. A request to the SD driver: submitted to the empty queue, it is served by
    the next turn of the driver thread [T] -- the asked part of the sector is
    stored at the destination, the caller's semaphore is raised by one, and the
    queue is empty again. *)
Theorem sd_request_served q sector l b2 s T c :
  queue_at [] s -> running s -> running (set_current T s) -> current_ok (s_kernel (set_current T s)) ->
  0 <= q_offset q -> 0 <= q_length q -> q_offset q + q_length q <= SECTOR_SIZE ->
  sector_talk (u16 (q_block_nr q)) sector l -> talks (d_bus (s_dev s)) l b2 ->
  let data := sector_part sector (q_offset q) (q_length q) in
  room (q_pid q) (q_vbuff q) data (set_current T s) -> s_semas s !! q_notify_done q = Some c ->
  q_notify_done q <> SD_NOT_EMPTY -> q_notify_done q <> SD_NOT_FULL ->
  exists s1 s2, sd_submit_request q s = Ret s1 /\ sd_driver_turn (set_current T s1) = Ret s2 /\
    queue_at [] s2 /\ s_semas s2 !! q_notify_done q = Some (i16 (c + 1)) /\ d_bus (s_dev s2) = b2 /\
    s_bufs s2 = s_bufs (stored (q_pid q) (q_vbuff q) data (set_current T s)) /\
    v_phys (s_vm s2) = v_phys (s_vm (stored (q_pid q) (q_vbuff q) data (set_current T s))).
Proof.
  intros Hq Hrun HrunT C Ho Hs Hos Hst Ht data Hroom Hc Hn1 Hn2.
  destruct (request_round q sector l b2 s T c) as (b & b' & E1 & E2 & Hq'); try done. cbv zeta in *. fold data in E2, Hq'.
  eexists _, _. split; [exact E1|]. split; [exact E2|]. split; [exact Hq'|]. clear E1 E2 Hq'.
  set (s2 := requeued b' 0 32 _) in *.
  destruct (stored_same (q_pid q) (q_vbuff q) data s2 (set_current T s)) as [Eb Ep]; [done..|].
  split_and!; [|done|exact Eb|exact Ep].
  change (<[q_notify_done q := i16 (c + 1)]> (s_semas (at_bus b2 (stored (q_pid q) (q_vbuff q) data s2))) !! q_notify_done q = Some (i16 (c + 1))).
  apply lookup_insert_eq.
Qed.
End Sd.

(** ** Witness: a card that sends one sector *)

Section Demo.
#[local] Existing Instance klist_store.

(** The hardware: the byte received last and the bytes to come. *)
Instance demo_page : DevicePage (Z * list Z) := {
  dev_read reg b := (if reg =? SPI_STATUS then 0 else b.1, b);
  dev_write reg x b := if reg =? SPI_TX then match b.2 with [] => b | y :: l => (y, l) end else b;
  dev_polls := 2%nat;
}.
Instance demo_uninit : Uninit := fun _ _ => 0.
Instance demo_others : Others (store (list Z)) (drivers (Z * list Z)) := fun _ _ => Block.

Lemma demo_talks l : forall r, exists r', talks (r, l.*2) l (r', []).
Proof.
  induction l as [|[x y] l IH]; intros r; [by exists r; constructor|]. destruct (IH y) as [r' Hr]. exists r'.
  econstructor; [reflexivity|exact Hr].
Qed.

Definition demo_sector : list Z := [10; 11; 12; 13] ++ replicate 508 0.

Definition demo_talk : list (Z * Z) :=
  zip (command_bytes CMD17 0 9 0) (replicate 6 0xFF) ++ answers (replicate 1 0xFF ++ [STATUS_NULL]) ++ (0xFF, 0xFF) ::
  answers (replicate 1 0xFF ++ [SD_READ_TOKEN]) ++ answers demo_sector ++ answers [0; 0; 0xFF].

Definition demo_thread (pid : Z) : proc :=
  Proc pid PROC_STATE_RUNNABLE PROC_TYPE_KERNEL (ProcState (replicate 8 0) 0 0 (replicate 16 0) (replicate 16 0))
    (ProcState (replicate 8 0) 0 0 (replicate 16 0) (replicate 16 0)) (replicate 16 0) 0 [] 0 0 0 0 0 0.

(** Thread 5 asks for bytes 1 to 3 of sector 9 in the buffer at 77; thread 6 is
    the driver. *)
Definition demo_request : sd_driver_req := SdReq 0 77 9 1 3 (-25).

Definition demo_sd : sys (store (list Z)) (drivers (Z * list Z)) :=
  Sys (Vm (Kernel boot_store {[5 := demo_thread 5; 6 := demo_thread 6]}
             {[SD_NOT_EMPTY := 0; SD_NOT_FULL := 32; -25 := 0]} ∅ 5 0 1 0x211 true false 0 0x11) ∅ 0)
    {[77 := [0; 0; 0; 0]]} (VfsState ∅ ∅ ∅ 0 1 0) (MqState ∅ ∅ 0 0)
    (Drivers (0, demo_talk.*2) (blockq_fields 32 12 (Ringbuff 0 0 385 (replicate 385 0))) ∅ ∅ 0 ∅ Tty.demo_tty 0 demo_ring 0 (TmpState 0 []) 0).

Lemma demo_sector_talk : sector_talk 9 demo_sector demo_talk.
Proof.
  split; [done|]. exists (replicate 6 0xFF), 1%nat, 0xFF, 1%nat, 0, 0, 0xFF. split_and!; [done|lia|simpl; lia|done].
Qed.

Lemma sd_request_served_witness :
  exists s1 s2, sd_submit_request demo_request demo_sd = Ret s1 /\ sd_driver_turn (set_current 6 s1) = Ret s2 /\
    s_semas s2 !! (-25) = Some 1 /\ s_bufs s2 !! 77 = Some [11; 12; 13; 0].
Proof.
  destruct (demo_talks demo_talk 0) as [r' Ht].
  destruct (sd_request_served demo_request demo_sector demo_talk (r', []) demo_sd 6 0) as (s1 & s2 & E1 & E2 & _ & Hc & _ & Hb & _).
  - by split.
  - eexists. reflexivity.
  - eexists. reflexivity.
  - intros _. eexists. split; [reflexivity|simpl; lia].
  - simpl. lia.
  - simpl. lia.
  - simpl. unfold SECTOR_SIZE. lia.
  - exact demo_sector_talk.
  - exact Ht.
  - exists [0; 0; 0; 0]. split; [reflexivity|]. vm_compute. split; discriminate.
  - reflexivity.
  - discriminate.
  - discriminate.
  - exists s1, s2. split_and!; [done|done|done|]. rewrite Hb. reflexivity.
Defined.
End Demo.
