(* ===== verification/Tar.v ===== *)
(** * The tar file system (kernel/fs/tar.c)

    A read-only file system on the SD card.  At the start the driver walks over
    the headers of the archive and puts every entry into the directory tree; a
    file is then read sector by sector, from the sector after its header on.
    The thread of the file system sleeps while the thread of the card serves its
    requests. *)

From S2P Require Import Prelude Interfaces Kmalloc KList Proc Sync CString Kernel Sched Virtual Vfs Sys Request Tmpfs Ringbuff Tty Blockq Device Dirtree Sd.

(** The variables of the driver: the root of the tree, the buffer for headers,
    the list of requests and the semaphores *)
Definition TAR_DIR_TREE : Z := -31.
Definition SECTOR_BUFF : Z := -32.
Definition REQUEST_WAIT : Z := -33.
Definition TAR_REQ_LIST : Z := -34.
Definition TAR_LIST_SEMA : Z := -35.
Definition TAR_LIST_LOCK : Z := -36.

(** [struct tar_t]: where its fields start, and its size *)
Definition TAR_NAME : Z := 0.
Definition TAR_SIZE : Z := 124.
Definition TAR_TYPE : Z := 156.
Definition TAR_USTAR : Z := 257.
Definition sizeof_tar_t : Z := 500.

Definition USTAR : list Z := [117; 115; 116; 97; 114; 0].

Lemma sectors_below n : 0 < n < 1024 -> n / 512 = if 512 <=? n then 1 else 0.
Proof. intros. destruct (Z.leb_spec 512 n); zlia. Qed.

Lemma next_sector o : (o + 512) / 512 = o / 512 + 1 /\ (o + 512) mod 512 = o mod 512.
Proof. change 512 with (1 * 512) at 1 4. by rewrite Z_div_plus_full, Z_mod_plus_full by lia. Qed.

Lemma sector_end o : (o + (512 - o mod 512)) / 512 = o / 512 + 1 /\ (o + (512 - o mod 512)) mod 512 = 0.
Proof. zlia. Qed.

Lemma sector_number o : 0 <= o mod 512 < 512 /\ (0 <= o -> 0 <= o / 512).
Proof. zlia. Qed.

Section Tar.
Context {St B : Type} `{ListStore St} {junk : Uninit} {others : Others St (drivers B)} `{DevicePage B} {sign : CharSign}.
Abbreviation sys := (sys St (drivers B)).
Context {regs : @VfsRegs St (drivers B)} {callbacks : @Callbacks St (drivers B)}.
Set Default Proof Using "Type".

(** ** The code *)

(** The digit at [octal + i], and [res] with it *)
Definition octal_digit (buf : list Z) (octal i res : Z) : outcome Z :=
  c ← arr_get buf (octal + i);
  let cint := char_value c - 48 in
  Ret (i16 (i16 (res * 8) + cint)).

Definition convert_octal (buf : list Z) (octal : Z) : outcome Z :=
  for_loop 11 0 (octal_digit buf octal) 0.

Definition sd_read_adapter (pid vbuff block len offset : Z) (s : sys) : outcome sys :=
  s ← sd_submit_request (SdReq pid vbuff (u16 block) offset len REQUEST_WAIT) s;
  s_sema_down REQUEST_WAIT s.

Definition set_vnode (self : Z) (i : inode) : inode := Inode (i_name i) (i_fid i) (i_size i) self (i_type i).

Definition tar_find_inode (self : Z) (path : list Z) (s : sys) : outcome (Z * sys) :=
  res ← dir_tree_get_file TAR_DIR_TREE path s;
  if negb (res =? 0) then
    i ← deref (inodes (s_vfs s)) res;
    Ret (res, set_inodes (<[res := set_vnode self i]> (inodes (s_vfs s))) s)
  else Ret (res, s).

(** [for (size_t i = 0; i < new_len/512; i++)]: every turn takes a sector off
    the length that bounds the loop. *)
Fixpoint sectors_loop (fuel : nat) (pid i vbuff sector new_len : Z) (s : sys) {struct fuel} : outcome (Z * Z * Z * sys) :=
  match fuel with
  | O => Hang
  | S fuel =>
    if i <? new_len / 512 then
      s ← sd_read_adapter pid vbuff sector SECTOR_SIZE 0 s;
      sectors_loop fuel pid (u16 (i + 1)) (ptr_add pid vbuff SECTOR_SIZE) (i16 (sector + 1)) (u16 (new_len - SECTOR_SIZE)) s
    else Ret (vbuff, sector, new_len, s)
  end.

Definition tar_read_blocking (file pid vbuff len : Z) (s : sys) : outcome (Z * sys) :=
  f ← file_at file s;
  i ← deref (inodes (s_vfs s)) (f_inode f);
  let file_size := i_size i in
  if file_size <=? f_offset f then Ret (0, s)
  else
    let len := if file_size <? u16 (f_offset f + len) then u16 (file_size - f_offset f) else len in
    let pos := f_offset f mod SECTOR_SIZE in
    let sector := i16 (i_fid i + f_offset f / SECTOR_SIZE + 1) in
    let readlen := Z.min len (SECTOR_SIZE - pos) in
    s ← sd_read_adapter pid vbuff sector readlen pos s;
    let sector := i16 (sector + 1) in
    let new_len := u16 (len - readlen) in
    let vbuff := ptr_add pid vbuff readlen in
    s ← (if negb (new_len =? 0) then
           '(vbuff, sector, new_len, s) ← sectors_loop 129 pid 0 vbuff sector new_len s;
           if negb (new_len =? 0) then sd_read_adapter pid vbuff sector new_len 0 s else Ret s
         else Ret s);
    f ← file_at file s;
    s ← set_file file (ProcFile (f_inode f) (u16 (f_offset f + len)) (f_fcntl_flags f) (f_driver_data f)) s;
    Ret (i16 len, s).

(** A block of the heap is whole chunks, more than was asked for. *)
Definition kmalloc_block (n : Z) (s : sys) : outcome (Z * sys) :=
  '(p, s) ← s_kmalloc n s;
  Ret (p, set_bufs (<[p := fresh_bytes p (CHUNK_SIZE * size_in_chunks n)]> (s_bufs s)) s).

(** An entry of the archive: its inode goes into the tree.  The result is the
    number of sectors up to the next header. *)
Definition tar_entry (self sector : Z) (header : list Z) (s : sys) : outcome (Z * sys) :=
  c ← strncmp header TAR_USTAR USTAR 0 5;
  if negb (c =? 0) then Panic "tarFS: invalid header"
  else
    o ← convert_octal header TAR_SIZE;
    let size := u16 o in
    '(i, s) ← s_kmalloc sizeof_inode s;
    type ← arr_get header TAR_TYPE;
    len ← strlen header TAR_NAME;
    '(name, s) ← kmalloc_block len s;
    nb ← deref (s_bufs s) name;
    nb ← strcpy nb 0 header TAR_NAME;
    let s := set_bufs (<[name := nb]> (s_bufs s)) s in
    let s := set_inodes (<[i := Inode name (u16 sector) size self
                                 (if char_value type =? 53 then INODE_TYPE_DIRECTORY else INODE_TYPE_FILE)]>
                           (inodes (s_vfs s))) s in
    s ← dir_tree_add_path TAR_DIR_TREE i s;
    Ret (i16 (u16 (size + SECTOR_SIZE - 1) / SECTOR_SIZE + 1), s).

Fixpoint headers_loop (fuel : nat) (self empty_sectors sector : Z) (s : sys) {struct fuel} : outcome sys :=
  match fuel with
  | O => Hang
  | S fuel =>
    if empty_sectors <? 2 then
      s ← sd_read_adapter 0 SECTOR_BUFF sector sizeof_tar_t 0 s;
      header ← deref (s_bufs s) SECTOR_BUFF;
      c ← arr_get header TAR_NAME;
      if c =? 0 then headers_loop fuel self (i16 (empty_sectors + 1)) (i16 (sector + 1)) s
      else
        '(sectors_skip, s) ← tar_entry self sector header s;
        headers_loop fuel self empty_sectors (i16 (sector + sectors_skip)) s
    else Ret s
  end.

(** The archive bounds the number of turns: [fuel] is an argument. *)
Definition tar_make_dir_tree (fuel : nat) (self : Z) (s : sys) : outcome sys :=
  let s := s_sema_init REQUEST_WAIT s in
  s ← dir_tree_init TAR_DIR_TREE self s;
  headers_loop fuel self 0 0 s.

Definition tar_process_request (rq : Z) (s : sys) : outcome sys :=
  r ← deref (reqs (s_vfs s)) rq;
  if r_type r =? VFS_ASYNC_TYPE_READ then
    '(res, s) ← tar_read_blocking (r_file r) (r_pid r) (r_vbuff r) (r_size r) s;
    vfs_async_finalize rq res s
  else Ret s.

Definition tar_submit_req (rq : Z) (s : sys) : outcome (Z * sys) :=
  s ← s_sema_down TAR_LIST_LOCK s;
  r ← deref (reqs (s_vfs s)) rq;
  if negb (r_type r =? VFS_ASYNC_TYPE_READ) then Ret (- ENOSUP, s)
  else
    st ← ls_append (s_store s) TAR_REQ_LIST rq;
    s ← s_sema_up TAR_LIST_SEMA (s_set_store st s);
    s ← s_sema_up TAR_LIST_LOCK s;
    Ret (0, s).

(** A turn of [tar_driver_loop] *)
Definition tar_driver_turn (s : sys) : outcome sys :=
  s ← s_sema_down TAR_LIST_SEMA s;
  first ← ls_first (s_store s) TAR_REQ_LIST;
  rq ← ls_val (s_store s) first;
  s ← tar_process_request rq s;
  first ← ls_first (s_store s) TAR_REQ_LIST;
  st ← ls_remove (s_store s) TAR_REQ_LIST first;
  Ret (s_set_store st s).

Definition tar_init (fuel : nat) (junk_proc : proc) (name : list Z) (entry vnode : Z) (s : sys) : outcome sys :=
  let s := s_set_store (ls_init (s_store s) TAR_REQ_LIST) s in
  let s := s_sema_init TAR_LIST_LOCK (s_sema_init TAR_LIST_SEMA s) in
  s ← s_sema_up TAR_LIST_LOCK s;
  s ← tar_make_dir_tree fuel vnode s;
  '(_, k) ← make_kernel_thread junk_proc name entry (s_kernel s);
  Ret (set_kernel k s).

Definition tar_reg : @vfs_reg St (drivers B) := VfsReg 0 0 tar_find_inode None (Some tar_submit_req) None.

(** ** The card behind the driver

    The thread [T] of the card runs a turn while the caller waits; the card
    answers, in any [ready] state, with the sectors of [disk]. *)

Context (T : Z) (ready : B -> Prop) (disk : Z -> list Z).

Definition card_serves : Prop :=
  (forall s, wait REQUEST_WAIT s =
     (s' ← sd_driver_turn (set_current T s); Ret (set_current (current_proc (s_kernel s)) s'))) /\
  (forall b addr, ready b -> is_u16 addr ->
     exists l b2, sector_talk addr (disk addr) l /\ talks b l b2 /\ ready b2).

Record disk_ready (s : sys) : Prop := {
  dr_queue : queue_at [] s;
  dr_running : running s;
  dr_thread : running (set_current T s);
  dr_current : current_ok (s_kernel (set_current T s));
  dr_bus : ready (d_bus (s_dev s));
  dr_wait : s_semas s !! REQUEST_WAIT = Some 0;
  dr_other : current_proc (s_kernel s) <> T;
}.

(** What a request to the card leaves as it was. *)
Record served (s s' : sys) : Prop := {
  sv_kernel : s_kernel s' = set_procs (k_procs (s_kernel s')) (s_kernel s);
  sv_procs P : P <> T -> k_procs (s_kernel s') !! P = k_procs (s_kernel s) !! P;
  sv_pids P : p_pid <$> k_procs (s_kernel s') !! P = p_pid <$> k_procs (s_kernel s) !! P;
  sv_vfs : s_vfs s' = s_vfs s;
  sv_mq : s_mq s' = s_mq s;
  sv_dev : exists b rb, s_dev s' = s_dev (set_bus b (set_requests rb s));
}.

#[local] Instance served_trans : Transitive served.
Proof.
  intros s1 s2 s3 [K1 P1 I1 V1 M1 (b1 & r1 & D1)] [K2 P2 I2 V2 M2 (b2 & r2 & D2)]. split.
  - rewrite K2 at 1. by rewrite K1.
  - intros P HP. by rewrite P2, P1.
  - intros P. by rewrite I2, I1.
  - congruence.
  - congruence.
  - exists b2, r2. rewrite D2. unfold set_bus, set_requests. simpl. by rewrite D1.
Qed.

(** *** Storing at a destination *)

(** The buffers of the kernel and the physical memory. *)
Definition mem_of (s : sys) : gmap Z (list Z) * gmap Z (list Z) := (s_bufs s, v_phys (s_vm s)).

Definition put (pid : Z) (table : list Z) (vbuff : Z) (data : list Z) (mm : gmap Z (list Z) * gmap Z (list Z))
  : option (gmap Z (list Z) * gmap Z (list Z)) :=
  if pid =? 0 then
    buf ← mm.1 !! buf_base vbuff;
    if decide (0 <= buf_off vbuff /\ buf_off vbuff + zlen data <= zlen buf)
    then Some (<[buf_base vbuff := splice buf (buf_off vbuff) data]> mm.1, mm.2) else None
  else ph ← user_write table mm.2 vbuff data; Some (mm.1, ph).

(** The process [pid] whose memory is reached through [table] is not the thread
    of the card. *)
Definition target (pid : Z) (table : list Z) (vbuff : Z) (s : sys) : Prop :=
  pid = 0 \/ is_u16 vbuff /\ dest_table pid s = Some table /\
    exists P p, proc_by_pid pid (s_kernel s) = Ret P /\ P <> 0 /\ P <> T /\ k_procs (s_kernel s) !! P = Some p.

Lemma put_app pid table vbuff d1 d2 mm mm2 : pid = 0 \/ is_u16 vbuff -> put pid table vbuff (d1 ++ d2) mm = Some mm2 ->
  exists mm1, put pid table vbuff d1 mm = Some mm1 /\ put pid table (ptr_add pid vbuff (zlen d1)) d2 mm1 = Some mm2.
Proof.
  intros Hv. unfold put. destruct (Z.eqb_spec pid 0) as [->|Hp].
  - destruct (mm.1 !! buf_base vbuff) as [buf|] eqn:Hb; [|done]. simpl. case_decide as Hl; [|done]. intros [= <-].
    destruct (ptr_add_kernel vbuff (zlen d1)) as [Eb Eo]. rewrite length_app in Hl.
    rewrite decide_True by lia. eexists. split; [done|]. simpl. rewrite Eb, Eo, lookup_insert_eq. simpl.
    rewrite length_splice by lia. rewrite decide_True by lia. by rewrite splice_app, insert_insert_eq by lia.
  - destruct Hv as [?|Hu]; [done|]. rewrite user_write_app by done. intros Hw.
    destruct (user_write table mm.2 vbuff d1) as [ph|]; [|done]. simpl in Hw. eexists. split; [done|]. simpl.
    unfold ptr_add. by rewrite (eqb_ne pid 0).
Qed.

Lemma put_nothing pid table vbuff mm mm' : put pid table vbuff [] mm = Some mm' -> mm = mm'.
Proof.
  unfold put. destruct (pid =? 0); [|simpl; destruct mm; simpl; congruence].
  destruct (mm.1 !! buf_base vbuff) as [buf|] eqn:Eb; [|done]. simpl. case_decide; [|done]. intros [= <-].
  rewrite splice_nil, insert_id by done. by destruct mm.
Qed.

Lemma put_room pid table vbuff data s mm : target pid table vbuff s -> put pid table vbuff data (mem_of s) = Some mm ->
  room pid vbuff data (set_current T s) /\ mem_of (stored pid vbuff data (set_current T s)) = mm.
Proof.
  intros Ht. unfold put, room, stored. destruct (Z.eqb_spec pid 0) as [->|Hp].
  - change (s_bufs (set_current T s)) with (s_bufs s). simpl mem_of.
    destruct (s_bufs s !! buf_base vbuff) as [buf|] eqn:Hb; simpl; rewrite Hb; [|done]. simpl. case_decide as Hl; [|done]. intros [= <-].
    split; [by exists buf|]. done.
  - destruct Ht as [?|(Hu & Htab & P & p & HP & HP0 & HPT & Hp')]; [done|].
    change (dest_table pid (set_current T s)) with (dest_table pid s). rewrite Htab. simpl.
    destruct (user_write table (v_phys (s_vm s)) vbuff data) as [ph|] eqn:Hw; [|done]. simpl. intros [= <-].
    split; [|done]. split; [done|]. exists P, p, table. by rewrite Hw.
Qed.

Lemma find_pid_same (procs procs' : gmap Z proc) pid xs : (forall P, p_pid <$> procs' !! P = p_pid <$> procs !! P) ->
  find_pid procs' pid xs = find_pid procs pid xs.
Proof.
  intros E. induction xs as [|[n v] xs IH]; [done|]. cbn [find_pid]. unfold deref. specialize (E v).
  destruct (procs' !! v) as [p'|], (procs !! v) as [p|]; simpl in E; try done. injection E as E. simpl. by rewrite E, IH.
Qed.

Lemma proc_by_pid_served pid s s' : served s s' -> proc_by_pid pid (s_kernel s') = proc_by_pid pid (s_kernel s).
Proof.
  intros [K P I V M D]. unfold proc_by_pid. assert (k_store (s_kernel s') = k_store (s_kernel s)) as -> by (by rewrite K).
  destruct (ls_nodes (k_store (s_kernel s)) PROC_LIST); try done. simpl. by apply find_pid_same.
Qed.

Lemma target_served pid table vbuff s s' n : served s s' -> target pid table vbuff s -> target pid table (ptr_add pid vbuff n) s'.
Proof.
  intros S [->|(Hu & Htab & P & p & HP & HP0 & HPT & Hp')]; [by left|].
  destruct (decide (pid = 0)) as [->|Hpid]; [by left|right]. pose proof (proc_by_pid_served pid s s' S) as Ep.
  split; [unfold ptr_add; rewrite (eqb_ne pid 0) by done; apply u16_range|]. split.
  - unfold dest_table in *. rewrite Ep. rewrite HP in *. by rewrite (sv_procs _ _ S P HPT).
  - exists P, p. rewrite Ep, (sv_procs _ _ S P HPT). done.
Qed.

(** The semaphores after a request: as before. *)
Lemma semas_back (m : gmap Z Z) : m !! SD_NOT_EMPTY = Some 0 -> m !! SD_NOT_FULL = Some 32 -> m !! REQUEST_WAIT = Some 0 ->
  <[REQUEST_WAIT := 0]> (<[REQUEST_WAIT := 1]> (<[SD_NOT_EMPTY := 0]> (<[SD_NOT_FULL := 32]>
    (<[SD_NOT_EMPTY := 1]> (<[SD_NOT_FULL := 31]> m))))) = m.
Proof.
  intros H1 H2 H3. rewrite insert_insert_eq. apply map_eq. intros l.
  destruct (decide (l = REQUEST_WAIT)) as [->|]; [by rewrite lookup_insert_eq|]. rewrite lookup_insert_ne by done.
  destruct (decide (l = SD_NOT_EMPTY)) as [->|]; [by rewrite lookup_insert_eq|]. rewrite lookup_insert_ne by done.
  destruct (decide (l = SD_NOT_FULL)) as [->|]; [by rewrite lookup_insert_eq|]. by rewrite !lookup_insert_ne by done.
Qed.

Lemma adapter_ok pid table vbuff block len off s mm : card_serves -> disk_ready s -> is_u16 block ->
  0 <= off -> 0 <= len -> off + len <= SECTOR_SIZE -> target pid table vbuff s ->
  put pid table vbuff (sector_part (disk block) off len) (mem_of s) = Some mm ->
  exists s', sd_read_adapter pid vbuff block len off s = Ret s' /\ disk_ready s' /\ served s s' /\ mem_of s' = mm.
Proof.
  intros [Hwait Hcard] [Hq Hrun HrunT C Hbus Hw Hne] Hblk Ho Hl Hol Ht Hput.
  destruct (put_room _ _ _ _ _ _ Ht Hput) as [Hroom Hmem].
  destruct (Hcard _ block Hbus Hblk) as (l & b2 & Hst & Htk & Hb2).
  set (q := SdReq pid vbuff (u16 block) off len REQUEST_WAIT).
  destruct (request_round q (disk block) l b2 s T 0) as (b & b' & E1 & E2 & Hq'); try done.
  { simpl. by rewrite u16_u16, u16_small. }
  cbv zeta in *. unfold sd_read_adapter. fold q. rewrite E1. cbn [mbind outcome_bind].
  set (s1 := requeued b 1 31 s) in *. set (s2 := at_bus b2 _) in *. set (s3 := s_set_semas _ s2) in *.
  assert (Hw1 : s_semas s1 !! REQUEST_WAIT = Some 0) by (unfold s1, s_semas; simpl; by rewrite !lookup_insert_ne).
  assert (Hc3 : s_semas (set_current (current_proc (s_kernel s)) s3) !! REQUEST_WAIT = Some 1) by apply lookup_insert_eq.
  assert (Ha : await REQUEST_WAIT s1 = Ret (set_current (current_proc (s_kernel s)) s3)).
  { unfold await. rewrite (deref_Some _ _ _ Hw1). cbn [mbind outcome_bind Z.eqb]. rewrite Hwait, E2. done. }
  rewrite (s_sema_down_await _ _ _ _ Ha Hc3) by lia. eexists. split; [done|]. change (i16 (1 - 1)) with 0.
  set (sq := requeued b' 0 32 (set_current T s1)) in *. set (sF := s_set_semas _ (set_current _ s3)).
  assert (Hmem' : mem_of (stored pid vbuff (sector_part (disk block) off len) sq) = mm).
  { rewrite <-Hmem. destruct (stored_same pid vbuff (sector_part (disk block) off len) sq (set_current T s)) as [Eb Ep]; [done..|].
    unfold mem_of. by rewrite Eb, Ep. }
  set (procs := if scheduling_enabled (s_kernel s) && negb (int_no_proc_modify (s_kernel s))
                then alter (page0 ILLEGAL_PAGE) T (k_procs (s_kernel s)) else k_procs (s_kernel s)).
  assert (Hsem : s_semas sF = s_semas s).
  { change (s_semas sF) with (<[REQUEST_WAIT := 0]> (<[REQUEST_WAIT := 1]> (s_semas s2))). unfold s2.
    rewrite at_bus_semas, stored_only. apply semas_back; [apply Hq|apply Hq|done]. }
  assert (Hker : s_kernel sF = set_procs procs (s_kernel s)).
  { assert (forall (k k' : kernel St), k_semas k = k_semas k' -> set_semas ∅ k = set_semas ∅ k' -> k = k') as Heq.
    { intros [] []. simpl. intros. by simplify_eq. }
    apply Heq; [exact Hsem|]. unfold sF, s3, s2. rewrite stored_only. unfold at_bus, s_kernel, mapped, procs. simpl. by destruct (_ && _). }
  assert (Hserved : served s sF).
  { split; try done; unfold s3, s2 in *.
    - by rewrite Hker.
    - intros P HP. rewrite Hker. unfold procs. simpl. destruct (_ && _); [|done]. by rewrite lookup_alter_ne.
    - intros P. rewrite Hker. unfold procs. simpl. destruct (_ && _); [|done]. destruct (decide (P = T)) as [->|HP].
      + rewrite lookup_alter_eq. by destruct (k_procs (s_kernel s) !! T).
      + by rewrite lookup_alter_ne.
    - unfold sF. rewrite stored_only. done.
    - unfold sF. rewrite stored_only. done.
    - exists b2, b'. unfold sF. rewrite stored_only. done. }
  split; [|split; [done|]].
  - split.
    + destruct Hq' as [A1 A2 A3 A4 A5 A6 A7]. split; try done; rewrite Hsem; apply Hq.
    + unfold running. assert (current_proc (s_kernel sF) = current_proc (s_kernel s)) as -> by (by rewrite Hker).
      by rewrite (sv_procs _ _ Hserved _ Hne).
    + unfold running. change (is_Some (k_procs (s_kernel sF) !! T)). rewrite Hker. unfold procs. simpl. destruct (_ && _); [|exact HrunT].
      rewrite lookup_alter_eq. destruct HrunT as [p Hp]. change (k_procs (s_kernel s) !! T = Some p) in Hp. by rewrite Hp.
    + change (current_ok (set_current_proc T (s_kernel sF))). rewrite Hker. intros En. destruct (C En) as (p & Hp & Hlen). simpl in *.
      unfold procs. destruct (_ && _); [|by exists p]. rewrite lookup_alter_eq. unfold s_kernel in Hp |- *. rewrite Hp. simpl.
      eexists. split; [done|]. simpl. by rewrite length_insert.
    + unfold sF, s3, s2. exact Hb2.
    + by rewrite Hsem.
    + by rewrite Hker.
  - unfold sF, s3, s2. rewrite <-Hmem'. done.
Qed.

(** ** Reading a file *)

(** Byte [o] of the file whose header is in sector [fid], and [n] bytes. *)
Definition file_byte (fid o : Z) : Z := default 0 (disk (fid + 1 + o / 512) !! Z.to_nat (o mod 512)).
Definition file_part (fid o n : Z) : list Z := (fun k => file_byte fid (o + k)) <$> seqZ 0 n.

Lemma length_file_part fid o n : 0 <= n -> zlen (file_part fid o n) = n.
Proof. intros. unfold file_part. rewrite length_fmap, length_seqZ. lia. Qed.

Lemma file_part_app fid o n1 n2 : 0 <= n1 -> 0 <= n2 -> file_part fid o (n1 + n2) = file_part fid o n1 ++ file_part fid (o + n1) n2.
Proof.
  intros. unfold file_part. rewrite seqZ_app, fmap_app by lia. f_equal. replace (0 + n1) with (n1 + 0) by lia. rewrite <-(fmap_add_seqZ n1 0), <-list_fmap_compose.
  apply list_fmap_ext. intros ? k _. simpl. f_equal. lia.
Qed.

(** Bytes of one sector. *)
Lemma file_part_sector fid o n : 0 <= o -> 0 <= n -> o mod 512 + n <= 512 -> zlen (disk (fid + 1 + o / 512)) = 512 ->
  file_part fid o n = sector_part (disk (fid + 1 + o / 512)) (o mod 512) n.
Proof.
  intros Ho Hn Hon Hl. unfold file_part, sector_part. apply list_eq_same_length with (Z.to_nat n).
  - rewrite length_take, length_drop. zlia.
  - by rewrite length_fmap, length_seqZ.
  - intros k x y Hk Hx Hy. rewrite lookup_take_lt, lookup_drop in Hy by done.
    rewrite list_lookup_fmap, lookup_seqZ_lt in Hx by lia. simpl in Hx. injection Hx as <-. unfold file_byte.
    replace ((o + (0 + Z.of_nat k)) / 512) with (o / 512) by zlia.
    replace (Z.to_nat ((o + (0 + Z.of_nat k)) mod 512)) with (Z.to_nat (o mod 512) + k)%nat by zlia. by rewrite Hy.
Qed.

Lemma disk_sector s addr : card_serves -> disk_ready s -> is_u16 addr -> zlen (disk addr) = SECTOR_SIZE.
Proof. intros [_ Hc] R Ha. destruct (Hc _ addr (dr_bus _ R) Ha) as (l & b2 & [Hl _] & _). done. Qed.

(** A read inside one sector. *)
Lemma read_piece pid table vbuff fid o n s mm : card_serves -> disk_ready s -> 0 <= fid -> 0 <= o -> 0 <= n ->
  o mod 512 + n <= 512 -> fid + 1 + o / 512 < 32768 -> target pid table vbuff s ->
  put pid table vbuff (file_part fid o n) (mem_of s) = Some mm ->
  exists s', sd_read_adapter pid vbuff (fid + 1 + o / 512) n (o mod 512) s = Ret s' /\ disk_ready s' /\ served s s' /\ mem_of s' = mm.
Proof.
  intros Hc R Hf Ho Hn Hon Hs Ht Hp. destruct (sector_number o) as [Hm0 Hd0]. specialize (Hd0 Ho).
  assert (Hu : is_u16 (fid + 1 + o / 512)) by lia.
  rewrite file_part_sector in Hp by (try done; apply (disk_sector s); done).
  apply (adapter_ok pid table vbuff _ n (o mod 512) s mm); try done; unfold SECTOR_SIZE; lia.
Qed.

(** At most two sectors after the first one. *)
Lemma sectors_ok fuel pid table vbuff fid o n s mm : card_serves -> disk_ready s -> 0 <= fid -> 0 <= o -> o mod 512 = 0 -> 0 < n < 1024 ->
  fid + 2 + o / 512 < 32768 -> target pid table vbuff s -> put pid table vbuff (file_part fid o n) (mem_of s) = Some mm ->
  exists s', ('(vbuff, sector, new_len, s) ← sectors_loop (S (S fuel)) pid 0 vbuff (fid + 1 + o / 512) n s;
              if negb (new_len =? 0) then sd_read_adapter pid vbuff sector new_len 0 s else Ret s) = Ret s' /\
    disk_ready s' /\ served s s' /\ mem_of s' = mm.
Proof.
  intros Hc R Hf Ho Hm Hn Hs Ht Hp. destruct (sector_number o) as [_ Hd0]. specialize (Hd0 Ho).
  cbn [sectors_loop]. rewrite sectors_below by lia. destruct (Z.leb_spec 512 n) as [Hn512|Hn512]; cbn [Z.ltb Z.compare].
  -    replace n with (512 + (n - 512)) in Hp by lia. rewrite file_part_app in Hp by lia.
    destruct (put_app pid table vbuff _ _ _ _ ltac:(destruct Ht as [?|[? _]]; tauto) Hp) as (mm1 & P1 & P2).
    rewrite length_file_part in P2 by lia.
    destruct (read_piece pid table vbuff fid o 512 s mm1) as (s1 & E1 & R1 & S1 & M1); try done; try lia.
    rewrite Hm in E1. unfold SECTOR_SIZE in *. rewrite E1. cbn [mbind outcome_bind].
    change (u16 (0 + 1)) with 1. rewrite (u16_small (n - 512)), (i16_small (fid + 1 + o / 512 + 1)) by lia.
    rewrite (Z.div_small (n - 512)) by lia. cbn [Z.ltb Z.compare]. cbn [mbind outcome_bind].
    destruct (Z.eqb_spec (n - 512) 0) as [E0|E0]; cbn [negb].
    + exists s1. split_and!; try done. rewrite E0 in P2. rewrite <-M1 in P2. by apply put_nothing in P2.
    + destruct (next_sector o) as [Ed Em]. rewrite Hm in Em.
      rewrite <-M1 in P2.
      destruct (read_piece pid table (ptr_add pid vbuff 512) fid (o + 512) (n - 512) s1 mm) as (s2 & E2 & R2 & S2 & M2);
        try done; try lia; [by eapply target_served|].
      rewrite Ed, Em in E2. replace (fid + 1 + o / 512 + 1) with (fid + 1 + (o / 512 + 1)) by lia. rewrite E2.
      exists s2. split_and!; try done. by etransitivity.
  - cbn [mbind outcome_bind]. rewrite eqb_ne by lia. cbn [negb].
    destruct (read_piece pid table vbuff fid o n s mm) as (s1 & E1 & R1 & S1 & M1); try done; try lia.
    rewrite Hm in E1. rewrite E1. eauto.
Qed.

(** The number of bytes a read of [len] gives. *)
Definition read_len (i : inode) (f : proc_file) (len : Z) : Z := Z.max 0 (Z.min len (i_size i - f_offset f)).

Record read_ok (file len : Z) (f : proc_file) (i : inode) (s : sys) : Prop := {
  ro_file : file_at file s = Ret f;
  ro_inode : inodes (s_vfs s) !! f_inode f = Some i;
  ro_ranges : 0 <= f_offset f /\ 0 < len /\ f_offset f + len < 65536 /\ 0 <= i_fid i /\ is_u16 (i_size i);
  ro_sector : i_fid i + 3 + i_size i / 512 < 32768;
  ro_thread : file_proc file <> T;
  ro_short : read_len i f len < 1536 - f_offset f mod 512;
}.

Lemma read_data_ok file pid table vbuff len f i s mm : card_serves -> disk_ready s -> read_ok file len f i s -> f_offset f < i_size i ->
  target pid table vbuff s -> put pid table vbuff (file_part (i_fid i) (f_offset f) (read_len i f len)) (mem_of s) = Some mm ->
  exists s1, disk_ready s1 /\ served s s1 /\ mem_of s1 = mm /\
    tar_read_blocking file pid vbuff len s =
      (s ← set_file file (ProcFile (f_inode f) (f_offset f + read_len i f len) (f_fcntl_flags f) (f_driver_data f)) s1;
       Ret (read_len i f len, s)).
Proof.
  intros Hc R [Hf Hi (Ho & Hlen & Hol & Hfid & Hsz) Hsec HT Hshort] Hlt Ht Hp.
  unfold tar_read_blocking. rewrite Hf. cbn [mbind outcome_bind]. rewrite (deref_Some _ _ _ Hi). cbn [mbind outcome_bind].
  destruct (Z.leb_spec (i_size i) (f_offset f)); [lia|]. rewrite (u16_small (f_offset f + len)) by lia.
  assert (En : (if i_size i <? f_offset f + len then u16 (i_size i - f_offset f) else len) = read_len i f len).
  { unfold read_len. destruct (Z.ltb_spec (i_size i) (f_offset f + len)); [rewrite u16_small; lia|lia]. }
  rewrite En. unfold SECTOR_SIZE. set (o := f_offset f) in *. set (n := read_len i f len) in *. set (fid := i_fid i) in *.
  assert (Hn : 0 < n /\ o + n <= i_size i) by (unfold n, read_len; lia).
  destruct (sector_number o) as [Hmod Hd0]. specialize (Hd0 Ho).
  assert (o / 512 <= i_size i / 512) by (apply Z.div_le_mono; lia).
  set (r := Z.min n (512 - o mod 512)). assert (Hr : 0 < r <= n /\ o mod 512 + r <= 512) by lia.
  rewrite (i16_small (fid + o / 512 + 1)) by lia. replace (fid + o / 512 + 1) with (fid + 1 + o / 512) by lia.
  replace n with (r + (n - r)) in Hp by lia. rewrite file_part_app in Hp by lia.
  destruct (put_app pid table vbuff _ _ _ _ ltac:(destruct Ht as [?|[? _]]; tauto) Hp) as (mm1 & P1 & P2).
  rewrite length_file_part in P2 by lia.
  destruct (read_piece pid table vbuff fid o r s mm1) as (s1 & E1 & R1 & S1 & M1); try done; try lia.
  rewrite E1. cbn [mbind outcome_bind]. rewrite (u16_small (n - r)) by lia. rewrite (i16_small (fid + 1 + o / 512 + 1)) by lia.
  assert (exists s2, (if negb (n - r =? 0) then
           '(vbuff, sector, new_len, s) ← sectors_loop 129 pid 0 (ptr_add pid vbuff r) (fid + 1 + o / 512 + 1) (n - r) s1;
           if negb (new_len =? 0) then sd_read_adapter pid vbuff sector new_len 0 s else Ret s
         else Ret s1) = Ret s2 /\ disk_ready s2 /\ served s s2 /\ mem_of s2 = mm) as (s2 & E2 & R2 & S2 & M2).
  { rewrite <-M1 in P2. destruct (Z.eqb_spec (n - r) 0) as [E0|E0]; cbn [negb].
    - exists s1. split_and!; try done. rewrite E0 in P2. by apply put_nothing in P2.
    - assert (Er : r = 512 - o mod 512) by lia.
      destruct (sector_end o) as [Ed Em]. rewrite <-Er in Ed, Em.
      replace (fid + 1 + o / 512 + 1) with (fid + 1 + (o + r) / 512) by lia.
      destruct (sectors_ok 127 pid table (ptr_add pid vbuff r) fid (o + r) (n - r) s1 mm) as (s2 & E2 & R2 & S2 & M2);
        try done; try lia; [by eapply target_served|].
      exists s2. split_and!; [exact E2|done|by etransitivity|done]. }
  rewrite E2. cbn [mbind outcome_bind]. exists s2. split_and!; try done.
  assert (file_at file s2 = Ret f) as ->.
  { unfold file_at. unfold deref. by rewrite (sv_procs _ _ S2 _ HT). }
  cbn [mbind outcome_bind]. fold o. rewrite (u16_small (o + n)) by lia. by rewrite (i16_small n) by lia.
Qed.

(** ** A request to read

    The thread [TT] of the file system serves a request of its list, and sleeps
    while [T] reads sectors. *)

(** What [disk_ready] depends on. *)
Record same_disk (s s' : sys) : Prop := {
  sk_requests : d_requests (s_dev s') = d_requests (s_dev s);
  sk_bus : d_bus (s_dev s') = d_bus (s_dev s);
  sk_semas l : l ∈ [SD_NOT_EMPTY; SD_NOT_FULL; REQUEST_WAIT] -> s_semas s' !! l = s_semas s !! l;
  sk_current : current_proc (s_kernel s') = current_proc (s_kernel s);
  sk_enabled : scheduling_enabled (s_kernel s') = scheduling_enabled (s_kernel s);
  sk_thread : k_procs (s_kernel s') !! T = k_procs (s_kernel s) !! T;
  sk_running : running s -> running s';
}.

Lemma same_disk_ready s s' : same_disk s s' -> disk_ready s -> disk_ready s'.
Proof using Type disk.
  intros [E1 E2 E3 E4 E5 E6 E7] [Hq Hrun HrunT C Hbus Hw Hne]. split.
  - destruct Hq as [A1 A2 A3 A4 A5 A6 A7]. split; rewrite ?E1; try done; rewrite E3; try done; set_solver.
  - by apply E7.
  - unfold running in *. simpl in *. unfold s_kernel in *. by rewrite E6.
  - intros En. destruct (C ltac:(simpl in *; congruence)) as (p & Hp & Hl). exists p. simpl in *. unfold s_kernel in *. by rewrite E6.
  - by rewrite E2.
  - rewrite E3; [done|set_solver].
  - by rewrite E4.
Qed.

Lemma target_moved pid table vbuff s s' m m' own own' xs : ls_rep (s_store s) m own -> ls_rep (s_store s') m' own' ->
  m !! PROC_LIST = Some xs -> m' !! PROC_LIST = Some xs -> k_procs (s_kernel s') = k_procs (s_kernel s) ->
  target pid table vbuff s -> target pid table vbuff s'.
Proof.
  intros L L' Hm Hm' Hp [?|(Hu & Htab & P & p & HP & HP0 & HPT & Hp')]; [by left|right].
  assert (Ep : proc_by_pid pid (s_kernel s') = proc_by_pid pid (s_kernel s)).
  { unfold proc_by_pid. change (k_store (s_kernel s')) with (s_store s'). change (k_store (s_kernel s)) with (s_store s).
    by rewrite (ls_nodes_ok _ _ _ _ _ L Hm), (ls_nodes_ok _ _ _ _ _ L' Hm'), Hp. }
  split; [done|]. split.
  - unfold dest_table in *. by rewrite Ep, Hp.
  - exists P, p. by rewrite Ep, Hp.
Qed.

Definition moved (n : Z) (f : proc_file) : proc_file := ProcFile (f_inode f) (f_offset f + n) (f_fcntl_flags f) (f_driver_data f).

Lemma set_file_done file f f' (s : sys) : file_at file s = Ret f ->
  exists p fs, k_procs (s_kernel s) !! file_proc file = Some p /\
    set_file file f' s = Ret (set_kernel (set_procs (<[file_proc file := set_p_open_files fs p]> (k_procs (s_kernel s))) (s_kernel s)) s) /\
    file_at file (set_kernel (set_procs (<[file_proc file := set_p_open_files fs p]> (k_procs (s_kernel s))) (s_kernel s)) s) = Ret f'.
Proof.
  unfold file_at, set_file, deref. destruct (k_procs (s_kernel s) !! file_proc file) as [p|] eqn:Hp; [|done]. simpl. intros Hf.
  apply arr_get_Ret in Hf as [Hi Hl]. pose proof (lookup_lt_Some _ _ _ Hl). rewrite arr_set_in by lia. simpl.
  exists p, (<[Z.to_nat (file_index file) := f']> (p_open_files p)). split_and!; [done..|].
  rewrite lookup_insert_eq. simpl. apply arr_get_Ret. split; [done|]. by rewrite list_lookup_insert_eq by lia.
Qed.

(** The driver thread serves a request to read: what it leaves. *)
Record read_done (file n : Z) (f : proc_file) (mm : gmap Z (list Z) * gmap Z (list Z)) (s s' : sys) : Prop := {
  rd_disk : disk_ready s';
  rd_mem : mem_of s' = mm;
  rd_file : file_at file s' = Ret (moved n f);
  rd_kernel : s_kernel s' = set_procs (k_procs (s_kernel s')) (s_kernel s);
  rd_procs Q : Q <> T -> Q <> file_proc file -> k_procs (s_kernel s') !! Q = k_procs (s_kernel s) !! Q;
  rd_kept Q : is_Some (k_procs (s_kernel s) !! Q) -> is_Some (k_procs (s_kernel s') !! Q);
  rd_vfs : s_vfs s' = s_vfs s;
}.

Lemma tar_read_done file pid table vbuff len f i s mm : card_serves -> disk_ready s -> read_ok file len f i s ->
  target pid table vbuff s -> put pid table vbuff (file_part (i_fid i) (f_offset f) (read_len i f len)) (mem_of s) = Some mm ->
  exists s', tar_read_blocking file pid vbuff len s = Ret (read_len i f len, s') /\ read_done file (read_len i f len) f mm s s'.
Proof.
  intros Hc R Hok Ht Hp. destruct (Z.le_gt_cases (i_size i) (f_offset f)) as [Hge|Hlt].
  { destruct Hok as [Hf Hi (Ho & Hlen & _) _ _ _]. assert (E0 : read_len i f len = 0) by (unfold read_len; lia). rewrite E0 in *.
    exists s. unfold tar_read_blocking. rewrite Hf. cbn [mbind outcome_bind]. rewrite (deref_Some _ _ _ Hi). cbn [mbind outcome_bind].
    destruct (Z.leb_spec (i_size i) (f_offset f)); [|lia]. split; [done|]. apply put_nothing in Hp. split; try done.
    - rewrite Hf. unfold moved. rewrite Z.add_0_r. by destruct f.
    - by destruct (s_kernel s). }
  destruct (read_data_ok file pid table vbuff len f i s mm Hc R Hok Hlt Ht Hp) as (s1 & R1 & S1 & M1 & ->).
  destruct Hok as [Hf Hi _ _ HT _]. assert (Hf1 : file_at file s1 = Ret f).
  { unfold file_at, deref. by rewrite (sv_procs _ _ S1 _ HT). }
  destruct (set_file_done file f (moved (read_len i f len) f) s1 Hf1) as (p & fs & Hpr & Hset & Hf2).
  unfold moved in Hset. rewrite Hset. cbn [mbind outcome_bind]. eexists. split; [done|]. set (s2 := set_kernel _ s1) in *.
  split; try done.
  - apply (same_disk_ready s1); [|done]. split; try done.
    + unfold s2, s_kernel. simpl. by rewrite lookup_insert_ne.
    + unfold running, s2, s_kernel. simpl. intros Hr. destruct (decide (file_proc file = current_proc (v_kernel (s_vm s1)))) as [->|];
        [by rewrite lookup_insert_eq|by rewrite lookup_insert_ne].
  - change (s_kernel s2) with (set_procs (<[file_proc file := set_p_open_files fs p]> (k_procs (s_kernel s1))) (s_kernel s1)).
    rewrite (sv_kernel _ _ S1) at 2. done.
  - intros Q HQ HQf. unfold s2, s_kernel. simpl. rewrite lookup_insert_ne by done. by apply (sv_procs _ _ S1).
  - intros Q [q Hq]. unfold s2, s_kernel. simpl. pose proof (sv_pids _ _ S1 Q) as Hi2. unfold s_kernel in *. rewrite Hq in Hi2.
    destruct (decide (file_proc file = Q)) as [->|]; [by rewrite lookup_insert_eq|]. rewrite lookup_insert_ne by done.
    by destruct (k_procs (v_kernel (s_vm s1)) !! Q).
  - apply S1.
Qed.
Context (TT : Z).

(** The file system is idle: no request in its list, nobody holds its lock. *)
Record tar_idle (s : sys) (m : gmap Z (list (Z * Z))) (own : gset Z) : Prop := {
  ti_disk : disk_ready (set_current TT s);
  ti_lock : s_semas s !! TAR_LIST_LOCK = Some 1;
  ti_sema : s_semas s !! TAR_LIST_SEMA = Some 0;
  ti_list : m !! TAR_REQ_LIST = Some [];
  ti_procs : exists xs, m !! PROC_LIST = Some xs;
  ti_rep : ls_rep (s_store s) m own;
}.


(** A request that the driver of the file system can serve, and the memory it
    leaves. *)
Record good_request (rq : Z) (r : vfs_async_req_t) (f : proc_file) (i : inode) (c : Z) (s : sys)
    (mm : gmap Z (list Z) * gmap Z (list Z)) : Prop := {
  gr_req : reqs (s_vfs s) !! rq = Some r;
  gr_type : r_type r = VFS_ASYNC_TYPE_READ;
  gr_callback : r_callback r = 0;
  gr_sema : 0 < r_fin_sema r;
  gr_count : s_semas s !! r_fin_sema r = Some c;
  gr_read : read_ok (r_file r) (r_size r) f i s;
  gr_put : exists table, target (r_pid r) table (r_vbuff r) s /\
    put (r_pid r) table (r_vbuff r) (file_part (i_fid i) (f_offset f) (read_len i f (r_size r))) (mem_of s) = Some mm;
}.

(** The turn of the driver's thread on the oldest request. *)
Lemma tar_turn_ok s m own node rq rest r f i c mm xs n : card_serves -> disk_ready s ->
  ls_rep (s_store s) m own -> m !! TAR_REQ_LIST = Some ((node, rq) :: rest) -> m !! PROC_LIST = Some xs ->
  s_semas s !! TAR_LIST_SEMA = Some n -> 0 < n < 32768 -> good_request rq r f i c s mm ->
  exists s', tar_driver_turn s = Ret s' /\ disk_ready s' /\ ls_rep (s_store s') (<[TAR_REQ_LIST := rest]> m) own /\
    s_semas s' = <[r_fin_sema r := i16 (c + 1)]> (<[TAR_LIST_SEMA := n - 1]> (s_semas s)) /\
    reqs (s_vfs s') = <[rq := set_res (read_len i f (r_size r)) r]> (reqs (s_vfs s)) /\
    mem_of s' = mm /\ file_at (r_file r) s' = Ret (moved (read_len i f (r_size r)) f) /\
    current_proc (s_kernel s') = current_proc (s_kernel s).
Proof.
  intros Hc R L Hl Hx Hn Hn' [Hr Ht Hcb Hfs Hcnt Hok (table & Htg & Hput)]. unfold tar_driver_turn.
  rewrite (s_sema_down_now _ _ _ Hn) by lia. cbn [mbind outcome_bind]. rewrite i16_small by lia. set (s1 := s_set_semas _ s).
  change (s_store s1) with (s_store s). rewrite (ls_first_ok _ _ _ _ _ L Hl). cbn [mbind outcome_bind head_ptr].
  destruct (ls_node_ok _ _ _ _ [] node rq rest L Hl) as [_ Hv]. rewrite Hv. cbn [mbind outcome_bind].
  assert (R1 : disk_ready s1).
  { apply (same_disk_ready s); [|done]. split; try done. intros l Hl'. unfold s1, s_semas. simpl. rewrite lookup_insert_ne; [done|].
    intros <-. set_solver. }
  destruct (tar_read_done (r_file r) (r_pid r) table (r_vbuff r) (r_size r) f i s1 mm) as (s2 & E2 & [D2 M2 F2 K2 P2 Q2 V2]); try done.
  { destruct Hok. split; done. }
  unfold tar_process_request. change (s_vfs s1) with (s_vfs s). rewrite (deref_Some _ _ _ Hr). cbn [mbind outcome_bind]. rewrite Ht. cbn [Z.eqb VFS_ASYNC_TYPE_READ Pos.eqb].
  rewrite E2. cbn [mbind outcome_bind].
  assert (Hc2 : s_semas s2 !! r_fin_sema r = Some c).
  { unfold s_semas. rewrite K2. simpl. rewrite lookup_insert_ne by (unfold TAR_LIST_SEMA; lia). done. }
  assert (Hr2 : reqs (s_vfs s2) !! rq = Some r) by (by rewrite V2).
  rewrite (finalize_ok rq _ s2 r c) by (done || lia). cbn [mbind outcome_bind]. set (s3 := s_set_semas _ _).
  assert (L3 : ls_rep (s_store s3) m own).
  { change (s_store s3) with (s_store s2). unfold s_store. by rewrite K2. }
  rewrite (ls_first_ok _ _ _ _ _ L3 Hl). cbn [mbind outcome_bind head_ptr].
  destruct (ls_remove_ok _ _ _ _ [] node rq rest L3 Hl) as (st & Est & L4). rewrite Est. cbn [mbind outcome_bind]. eexists. split; [done|].
  assert (Hs2 : s_semas s2 = <[TAR_LIST_SEMA := n - 1]> (s_semas s)) by (unfold s_semas; by rewrite K2).
  split_and!; try done.
  - apply (same_disk_ready s2); [|done]. split; try done. intros l Hl'. change (s_semas (s_set_store st s3)) with (<[r_fin_sema r := i16 (c + 1)]> (s_semas s2)).
    rewrite lookup_insert_ne; [done|]. intros <-. unfold SD_NOT_EMPTY, SD_NOT_FULL, REQUEST_WAIT in Hl'. set_unfold in Hl'. lia.
  - change (s_semas (s_set_store st s3)) with (<[r_fin_sema r := i16 (c + 1)]> (s_semas s2)). by rewrite Hs2.
  - change (reqs (s_vfs (s_set_store st s3))) with (<[rq := set_res (read_len i f (r_size r)) r]> (reqs (s_vfs s2))). by rewrite V2.
  - change (current_proc (s_kernel s2) = current_proc (s_kernel s)). by rewrite K2.
Qed.

(** C21. Reading a file of the archive through the request interface.  When the
    file system is idle, a request to read [n] bytes at offset [o] of a file of
    [size] bytes is queued by [tar_submit_req] and served by the next turn of
    the driver's thread, which asks the card for one sector after another: the
    memory of the caller, kernel or user, has then exactly the bytes of the
    archive from the sector after the file's header on, [min n (size - o)] of
    them; the offset of the open file has advanced by that number, which is
    the result of the request (0 at the end of the file), its semaphore has
    been raised and the file system is idle again.  This holds for requests without
    a callback that touch at most three sectors and have room in the caller's memory
    ([good_request]), and for a card that answers every command while its thread
    takes turns ([card_serves]); the only other outcome is that [tar_submit_req]
    stops in the panic of [kmalloc] on a full heap. *)
Theorem tar_request_served s m own rq r f i c mm :
  card_serves -> tar_idle s m own -> good_request rq r f i c s mm ->
  match tar_submit_req rq s with
  | Ret (rc, s1) => rc = 0 /\
      exists s2, tar_driver_turn (set_current TT s1) = Ret s2 /\ tar_idle (set_current (current_proc (s_kernel s)) s2) m own /\
        reqs (s_vfs s2) !! rq = Some (set_res (read_len i f (r_size r)) r) /\ s_semas s2 !! r_fin_sema r = Some (i16 (c + 1)) /\
        mem_of s2 = mm /\ file_at (r_file r) s2 = Ret (moved (read_len i f (r_size r)) f)
  | Panic msg => msg = HEAP_FULL
  | _ => False
  end.
Proof.
  intros Hc [Hd Hlock Hsema Hlist (xs & Hxs) L] G. pose proof G as [Hr Ht Hcb Hfs Hcnt Hok (table & Htg & Hput)]. unfold tar_submit_req.
  rewrite (s_sema_down_now _ _ _ Hlock) by lia. cbn [mbind outcome_bind]. change (i16 (1 - 1)) with 0. set (s1 := s_set_semas _ s).
  change (s_vfs s1) with (s_vfs s). rewrite (deref_Some _ _ _ Hr). cbn [mbind outcome_bind]. rewrite Ht. cbn [negb Z.eqb VFS_ASYNC_TYPE_READ Pos.eqb].
  change (s_store s1) with (s_store s). pose proof (ls_append_safe _ _ _ TAR_REQ_LIST rq L ltac:(by eexists)) as Hsafe.
  destruct (ls_append (s_store s) TAR_REQ_LIST rq) as [st| | | |] eqn:Ea; try done. cbn [mbind outcome_bind].
  destruct (ls_append_ok _ _ _ _ _ _ _ L Hlist Ea) as (node & Hnode & L1). cbn [app] in L1.
  rewrite (s_sema_up_ok _ TAR_LIST_SEMA 0) by (unfold s1, s_semas; simpl; by rewrite lookup_insert_ne). cbn [mbind outcome_bind].
  rewrite (s_sema_up_ok _ TAR_LIST_LOCK 0) by (unfold s1, s_semas; simpl; by rewrite lookup_insert_ne, lookup_insert_eq by done).
  cbn [mbind outcome_bind]. split; [done|]. set (s2 := s_set_semas _ (s_set_semas _ _)).
  assert (Hs2 : s_semas s2 = <[TAR_LIST_SEMA := 1]> (s_semas s)).
  { unfold s2, s1, s_semas in *. simpl. rewrite (insert_insert_ne _ TAR_LIST_SEMA TAR_LIST_LOCK) by done. rewrite insert_insert_eq.
    change (i16 (0 + 1)) with 1. rewrite (insert_insert_ne _ TAR_LIST_LOCK TAR_LIST_SEMA) by done. by rewrite (insert_id _ TAR_LIST_LOCK). }
  destruct (tar_turn_ok (set_current TT s2) (<[TAR_REQ_LIST := [(node, rq)]]> m) own node rq [] r f i c mm xs 1)
    as (s3 & E3 & D3 & L3 & S3 & R3 & M3 & F3 & C3); try done.
  - apply (same_disk_ready (set_current TT s)); [|done]. split; try done. intros l Hl. change (s_semas (set_current TT s2)) with (s_semas s2).
    rewrite Hs2, lookup_insert_ne; [done|]. intros <-. set_solver.
  - apply lookup_insert_eq.
  - by rewrite lookup_insert_ne.
  - change (s_semas s2 !! TAR_LIST_SEMA = Some 1). rewrite Hs2. apply lookup_insert_eq.
  - split; try done.
    + change (s_semas s2 !! r_fin_sema r = Some c). rewrite Hs2, lookup_insert_ne; [done|]. unfold TAR_LIST_SEMA. lia.
    + destruct Hok. by split.
    + exists table. split; [|done]. apply (target_moved _ _ _ s _ m (<[TAR_REQ_LIST := [(node, rq)]]> m) own own xs); try done.
      by rewrite lookup_insert_ne.
  - exists s3. split_and!; try done.
    + rewrite insert_insert_eq, insert_id in L3 by done.
      assert (S3' : forall l, l < 0 -> l <> TAR_LIST_SEMA -> s_semas s3 !! l = s_semas s !! l).
      { intros l Hl Hne. rewrite S3. rewrite lookup_insert_ne by lia. rewrite lookup_insert_ne by done.
        change (s_semas s2 !! l = s_semas s !! l). by rewrite Hs2, lookup_insert_ne. }
      split; try done.
      * destruct D3 as [Q1 Q2 Q3 Q4 Q5 Q6 Q7]. change (current_proc (s_kernel s3) = TT) in C3. split; try done.
        -- destruct Q1. by split.
        -- unfold running in *. by rewrite C3 in Q2.
        -- by rewrite C3 in Q7.
      * change (s_semas s3 !! TAR_LIST_LOCK = Some 1). by rewrite S3'.
      * change (s_semas s3 !! TAR_LIST_SEMA = Some 0). rewrite S3. rewrite lookup_insert_ne by (unfold TAR_LIST_SEMA; lia). apply lookup_insert_eq.
      * by exists xs.
    + rewrite R3. apply lookup_insert_eq.
    + rewrite S3. apply lookup_insert_eq.
Qed.

End Tar.

(** ** Witness: a card that always answers *)

Section Demo.
#[local] Existing Instance klist_store.

Definition tar_sector : list Z := seqZ 0 256 ++ seqZ 0 256.

Definition tar_talk (addr : Z) : list (Z * Z) :=
  zip (command_bytes CMD17 0 addr 0) (replicate 6 0xFF) ++ answers (replicate 1 0xFF ++ [STATUS_NULL]) ++ (0xFF, 0xFF) ::
  answers (replicate 1 0xFF ++ [SD_READ_TOKEN]) ++ answers tar_sector ++ answers [0; 0; 0xFF].

(** What the card sends for a command: every sector has the same bytes. *)
Definition tar_script : list Z := (tar_talk 0).*2.

(** The hardware: the byte received last and the bytes to come. *)
Instance tar_page : DevicePage (Z * list Z) := {
  dev_read reg b := (if reg =? SPI_STATUS then 0 else b.1, b);
  dev_write reg x b :=
    if reg =? SPI_TX then match (match b.2 with [] => tar_script | l => l end) with [] => b | y :: l => (y, l) end else b;
  dev_polls := 2%nat;
}.
Instance tar_uninit : Uninit := fun _ _ => 0.
Instance tar_callbacks : @Callbacks (store (list Z)) (drivers (Z * list Z)) := fun _ _ _ => Fault.

(** While somebody waits for the card, its thread runs. *)
Instance tar_others : Others (store (list Z)) (drivers (Z * list Z)) := fun l s =>
  if l =? REQUEST_WAIT then
    s' ← sd_driver_turn (others := fun _ _ => Block) (set_current 6 s); Ret (set_current (current_proc (s_kernel s)) s')
  else Block.

Lemma tar_talks l : forall r, exists r', talks (r, l.*2) l (r', []).
Proof.
  induction l as [|[x y] [|[x2 y2] l] IH]; intros r; [by exists r; constructor| |].
  - exists y. econstructor; [reflexivity|constructor].
  - destruct (IH y) as [r' Hr]. exists r'. econstructor; [reflexivity|exact Hr].
Qed.

Lemma tar_card_serves : card_serves 6 (fun b => b.2 = []) (fun _ => tar_sector).
Proof.
  split.
  - intros s. reflexivity.
  - intros [r q] addr Hq _. simpl in Hq. subst q. exists (tar_talk addr). destruct (tar_talks (tar_talk addr) r) as [r' Ht].
    exists (r', []). split_and!; [|..|done].
    + split; [done|]. exists (replicate 6 0xFF), 1%nat, 0xFF, 1%nat, 0, 0, 0xFF. split_and!; [done|lia|simpl; lia|done].
    + inversion Ht as [|? ? ? b1 ? ? Hx Hl]; subst. econstructor; [|exact Hl]. exact Hx.
Qed.

(** Process 5 has opened a file of 600 bytes whose header is in sector 0, at
    offset 510, and asks for 4 bytes in the buffer at 77; thread 7 is the
    driver of the file system. *)
Definition tar_user : proc := set_p_open_files [ProcFile 40 510 0 0] (demo_thread 5).

Definition tar_req : vfs_async_req_t := Req 1 (file_ptr 5 0) VFS_ASYNC_TYPE_READ 0 77 4 0 50 0 0.

Definition tar_demo : sys (store (list Z)) (drivers (Z * list Z)) :=
  Sys (Vm (Kernel (ls_init (ls_init boot_store PROC_LIST) TAR_REQ_LIST) {[5 := tar_user; 6 := demo_thread 6; 7 := demo_thread 7]}
             {[SD_NOT_EMPTY := 0; SD_NOT_FULL := 32; REQUEST_WAIT := 0; TAR_LIST_LOCK := 1; TAR_LIST_SEMA := 0; 50 := 0]}
             ∅ 5 0 1 0x211 true false 0 0x11) ∅ 0)
    {[77 := [0; 0; 0; 0]]} (VfsState {[40 := Inode 41 0 600 9 INODE_TYPE_FILE]} ∅ {[60 := tar_req]} 1 1 0) (MqState ∅ ∅ 0 0)
    (Drivers (0, []) (blockq_fields 32 12 (Ringbuff 0 0 385 (replicate 385 0))) ∅ ∅ 0 ∅ Tty.demo_tty 0 demo_ring 0 (TmpState 0 []) 0).

Lemma tar_request_served_witness :
  exists s1 s2, tar_submit_req 60 tar_demo = Ret (0, s1) /\ tar_driver_turn (set_current 7 s1) = Ret s2 /\
    s_bufs s2 !! 77 = Some [254; 255; 0; 1] /\ r_res <$> reqs (s_vfs s2) !! 60 = Some 4 /\ s_semas s2 !! 50 = Some 1.
Proof.
  destruct (tar_submit_req 60 tar_demo) as [[rc s1]| | | |] eqn:E.
  2-5: exfalso; assert (match tar_submit_req 60 tar_demo with Ret _ => true | _ => false end = true) as Hc
         by (vm_compute; reflexivity); rewrite E in Hc; discriminate Hc.
  pose proof (tar_request_served 6 (fun b => b.2 = []) (fun _ => tar_sector) 7 tar_demo
    (<[TAR_REQ_LIST := []]> (<[PROC_LIST := []]> ∅)) ∅ 60 tar_req (ProcFile 40 510 0 0) (Inode 41 0 600 9 INODE_TYPE_FILE) 0
    ({[77 := [254; 255; 0; 1]]}, ∅) tar_card_serves) as X.
  rewrite E in X. destruct X as (-> & s2 & E2 & _ & Hr & Hs & Hm & _).
  - split; try reflexivity.
    + split; try reflexivity.
      * by split.
      * eexists. reflexivity.
      * eexists. reflexivity.
      * intros _. eexists. split; [reflexivity|simpl; lia].
      * discriminate.
    + eexists. reflexivity.
    + do 2 apply ls_init_ok. apply boot_store_rep.
  - split; try reflexivity.
    + split; try reflexivity; simpl; try lia; discriminate.
    + exists []. split; [by left|]. vm_compute. reflexivity.
  - exists s1, s2. split_and!; [done|done| | |done].
    + change (s_bufs s2) with (mem_of s2).1. by rewrite Hm.
    + by rewrite Hr.
Defined.
(** A longer read: of 1600 bytes at offset 0, the last 64 are not stored, though
    the result is 1600.  The loop over whole sectors counts [i] up while it
    takes sectors off its bound, and the read after it asks the card for 576
    bytes of one sector. *)
Definition tar_long : sys (store (list Z)) (drivers (Z * list Z)) :=
  set_bufs {[77 := replicate 1600 7]} (set_inodes {[40 := Inode 41 0 2000 9 INODE_TYPE_FILE]}
    (set_kernel (set_procs {[5 := set_p_open_files [ProcFile 40 0 0 0] (demo_thread 5); 6 := demo_thread 6; 7 := demo_thread 7]}
       (s_kernel tar_demo)) tar_demo)).

Lemma tar_long_read_hole :
  match tar_read_blocking (file_ptr 5 0) 0 77 1600 (set_current 7 tar_long) with
  | Ret (n, s') => n = 1600 /\ s_bufs s' !! 77 = Some (tar_sector ++ tar_sector ++ tar_sector ++ replicate 64 7)
  | _ => False
  end.
Proof. vm_compute. split; reflexivity. Qed.
End Demo.
