(* ===== verification/Console.v ===== *)
(** * The terminal and the keyboard as files
      (kernel/driver/tty.c, kernel/fs/kbd.c, kernel/driver/keyboard.c)

    Reads and writes of the terminal are requests that wait in two lists, each
    with a thread that serves the oldest one: one prints the bytes, the other
    hands out what was typed.  The keyboard device has the same structure.  A
    request that must not block is refused when the requests before it may take
    all the bytes that are there. *)

From S2P Require Import Prelude Interfaces Kmalloc KList Proc Sync CString Kernel Sched Virtual Vfs Sys Request Tmpfs Ringbuff Keyboard Tty Blockq Device Sd.

(** The variables of tty.c *)
Definition TTY_READ_SEMA : Z := -41.
Definition TTY_WRITE_SEMA : Z := -42.
Definition TTY_INSERT_LOCK : Z := -43.
Definition TTY_READ_LIST : Z := -44.
Definition TTY_WRITE_LIST : Z := -45.
Definition TTY_DATA_SIGNAL : Z := -46.
Definition TTY_ROOT_INODE : Z := -47.
Definition TTY_SUBMIT_BUFF : Z := 128.

(** The variables of kbd.c *)
Definition KBD_DATA_AVAILABLE : Z := -51.
Definition KBD_LIST_SEMA : Z := -52.
Definition KBD_INSERT_LOCK : Z := -53.
Definition KBD_REQ_LIST : Z := -54.
Definition KBD_ROOT_INODE : Z := -55.
Definition KBD_BUFF_SIZE : Z := 16.

Section Console.
Context {St B : Type} `{ListStore St} {junk : Uninit} {others : Others St (drivers B)} {sign : CharSign}.
Abbreviation sys := (sys St (drivers B)).
Context {callbacks : @Callbacks St (drivers B)}.
Set Default Proof Using "Type".

(** ** The code *)

(** Byte [i] of the kernel buffer at [vbuff]; [data] stored at [vbuff] *)
Definition buf_byte (vbuff i : Z) (s : sys) : outcome Z :=
  buf ← deref (s_bufs s) (buf_base vbuff);
  arr_get buf (buf_off vbuff + i).

Definition store_bytes (vbuff : Z) (data : list Z) (s : sys) : outcome sys :=
  match data with
  | [] => Ret s
  | _ =>
    buf ← deref (s_bufs s) (buf_base vbuff);
    buf ← memcpy buf (buf_off vbuff) data 0 (zlen data);
    Ret (set_bufs (<[buf_base vbuff := buf]> (s_bufs s)) s)
  end.

Definition set_size (n : Z) (r : vfs_async_req_t) : vfs_async_req_t :=
  Req (r_id r) (r_file r) (r_type r) (r_pid r) (r_vbuff r) n (r_callback r) (r_fin_sema r) (r_res r) (r_flags r).

Definition wants_wouldblock (r : vfs_async_req_t) : bool :=
  negb (Z.land (r_flags r) VFS_ASYNC_FLAG_WANT_WOULDBLOCK =? 0).

(** [list->first->val], and [list_remove(list, list->first)] *)
Definition first_req (list : Z) (s : sys) : outcome Z :=
  first ← ls_first (s_store s) list;
  ls_val (s_store s) first.

Definition remove_first (list : Z) (s : sys) : outcome sys :=
  first ← ls_first (s_store s) list;
  st ← ls_remove (s_store s) list first;
  Ret (s_set_store st s).

(** *** The terminal *)

Definition put_tty (t : Tty.tty) (s : sys) : sys := set_tty t (d_read_queue (s_dev s)) s.

Definition with_input (rb : ringbuff) (n : Z) (t : Tty.tty) : Tty.tty :=
  Tty.Mk (Tty.screen_of t) (Tty.tty_cursor_col t) (Tty.tty_cursor_row t) (Tty.line_buff t) (Tty.line_buff_len t) rb n
    (Tty.esc_stage t) (Tty.esc_arg0 t) (Tty.esc_arg1 t) (Tty.in_escape_code t).

(** [tty_putc(((char* )req->vbuff)[i])] *)
Definition put_cell (vbuff i : Z) (s : sys) : outcome sys :=
  c ← buf_byte vbuff i s;
  Ret (put_tty (Tty.tty_putc c (d_tty (s_dev s))) s).

(** A turn of [tty_driver_thread_write] *)
Definition tty_write_turn (s : sys) : outcome sys :=
  s ← s_sema_down TTY_WRITE_SEMA s;
  rq ← first_req TTY_WRITE_LIST s;
  r ← deref (reqs (s_vfs s)) rq;
  let n := Z.min (r_size r) TTY_SUBMIT_BUFF in
  let s := put_req rq (set_size n r) s in
  s ← for_loop (Z.to_nat n) 0 (put_cell (r_vbuff r)) s;
  s ← remove_first TTY_WRITE_LIST s;
  vfs_async_finalize rq (i16 n) s.

(** [semaphore_down(&read_data_signal)]: its count is a field of the terminal. *)
Definition signal_down (s : sys) : outcome sys :=
  s ← (if Tty.read_data_signal (d_tty (s_dev s)) =? 0 then wait TTY_DATA_SIGNAL s else Ret s);
  let t := d_tty (s_dev s) in
  '(n, _) ← SemOps.semaphore_down 4 (Tty.read_data_signal t);
  Ret (put_tty (with_input (Tty.read_rb t) n t) s).

(** [while (!ringbuff_length(&read_rb))]: every turn waits for input. *)
Fixpoint input_loop (fuel : nat) (r : vfs_async_req_t) (s : sys) : outcome sys :=
  match fuel with
  | O => Hang
  | S fuel =>
    if ringbuff_length (Tty.read_rb (d_tty (s_dev s))) =? 0 then
      _ ← ASSERT (negb (wants_wouldblock r));
      s ← signal_down s;
      input_loop fuel r s
    else Ret s
  end.

(** A turn of [tty_driver_thread_read] *)
Definition tty_read_turn (fuel : nat) (s : sys) : outcome sys :=
  s ← s_sema_down TTY_READ_SEMA s;
  rq ← first_req TTY_READ_LIST s;
  r ← deref (reqs (s_vfs s)) rq;
  let n := Z.min (r_size r) Tty.TTY_BUFF_SIZE in
  let s := put_req rq (set_size n r) s in
  s ← input_loop fuel r s;
  s ← s_sema_down TTY_INSERT_LOCK s;
  let t := d_tty (s_dev s) in
  '(res, data, rb) ← ringbuff_read (Tty.read_rb t) n;
  s ← store_bytes (r_vbuff r) data (put_tty (with_input rb (Tty.read_data_signal t) t) s);
  let s := set_tty (d_tty (s_dev s)) (u16 (d_read_queue (s_dev s) - n)) s in
  s ← s_sema_up TTY_INSERT_LOCK s;
  s ← remove_first TTY_READ_LIST s;
  vfs_async_finalize rq (i16 res) s.

Definition tty_submit_req (rq : Z) (s : sys) : outcome (Z * sys) :=
  s ← s_sema_down TTY_INSERT_LOCK s;
  r ← deref (reqs (s_vfs s)) rq;
  let t := d_tty (s_dev s) in
  if r_type r =? VFS_ASYNC_TYPE_READ then
    if wants_wouldblock r && (ringbuff_length (Tty.read_rb t) <=? d_read_queue (s_dev s)) then
      s ← s_sema_up TTY_INSERT_LOCK s; Ret (- EWOULDBLOCK, s)
    else
      let s := set_tty t (u16 (d_read_queue (s_dev s) + r_size r)) s in
      st ← ls_append (s_store s) TTY_READ_LIST rq;
      s ← s_sema_up TTY_READ_SEMA (s_set_store st s);
      s ← s_sema_up TTY_INSERT_LOCK s; Ret (0, s)
  else if r_type r =? VFS_ASYNC_TYPE_WRITE then
    st ← ls_append (s_store s) TTY_WRITE_LIST rq;
    s ← s_sema_up TTY_WRITE_SEMA (s_set_store st s);
    s ← s_sema_up TTY_INSERT_LOCK s; Ret (0, s)
  else
    s ← s_sema_up TTY_INSERT_LOCK s; Ret (- ENOSUP, s).

Definition tty_direct_write (buff len : Z) (s : sys) : outcome sys :=
  '(lock, s) ← s_kmalloc sizeof_semaphore s;
  '(rq, s) ← s_kmalloc sizeof_req s;
  '(heap_buff, s) ←
    (if 0xf000 <=? buff then
       '(h, s) ← kmalloc_bytes len s;
       s ← s_memcpy h buff len s;
       Ret (h, s)
     else Ret (0, s));
  let vbuff := if negb (heap_buff =? 0) then heap_buff else buff in
  let s := put_req rq (Req 0 (uninit rq 2) VFS_ASYNC_TYPE_WRITE 0 vbuff len 0 lock (uninit rq 16) 0) s in
  let s := s_sema_init lock s in
  '(_, s) ← tty_submit_req rq s;
  s ← s_sema_down lock s;
  s ← kfree_req rq s;
  s ← kfree_sema lock s;
  if negb (heap_buff =? 0) then kfree_bytes heap_buff s else Ret s.

Definition tty_fs_get_inode : Z -> list Z -> sys -> outcome (Z * sys) := device_inode TTY_ROOT_INODE.

Definition tty_vfs_reg : @vfs_reg St (drivers B) := VfsReg 1 0 tty_fs_get_inode None (Some tty_submit_req) None.

Definition tty_init_basic (s : sys) : sys := put_tty (Tty.tty_init_basic (d_tty (s_dev s))) s.

Definition tty_init_driver (s : sys) : outcome sys :=
  '(rb, s) ← s_ringbuff_init Tty.TTY_BUFF_SIZE s;
  s ← s_sema_up TTY_INSERT_LOCK (s_sema_init TTY_INSERT_LOCK (put_tty (with_input rb 0 (d_tty (s_dev s))) s));
  let s := s_sema_init TTY_WRITE_SEMA (s_sema_init TTY_READ_SEMA s) in
  let st := ls_init (ls_init (s_store s) TTY_READ_LIST) TTY_WRITE_LIST in
  Ret (s_set_store st s).

(** The descriptors of the new threads and the addresses of their functions *)
Definition tty_register_thread (junk1 junk2 : proc) (name1 name2 : list Z) (read write : Z) (s : sys) : outcome sys :=
  '(_, k) ← make_kernel_thread junk1 name1 read (s_kernel s);
  '(_, k) ← make_kernel_thread junk2 name2 write k;
  Ret (set_kernel k s).

(** *** The keyboard *)

Definition kbd_fs_get_inode : Z -> list Z -> sys -> outcome (Z * sys) := device_inode KBD_ROOT_INODE.

Definition kbd_submit_req (rq : Z) (s : sys) : outcome (Z * sys) :=
  r ← deref (reqs (s_vfs s)) rq;
  if negb (r_type r =? 1) then Ret (- ENOSUP, s)
  else
    s ← s_sema_down KBD_INSERT_LOCK s;
    r ← deref (reqs (s_vfs s)) rq;
    let d := s_dev s in
    if wants_wouldblock r && (ringbuff_length (d_c_buff d) <=? d_read_pending d) then
      s ← s_sema_up KBD_INSERT_LOCK s; Ret (- EWOULDBLOCK, s)
    else
      let s := set_kbd (d_c_buff d) (u16 (d_read_pending d + r_size r)) s in
      st ← ls_append (s_store s) KBD_REQ_LIST rq;
      s ← s_sema_up KBD_LIST_SEMA (s_set_store st s);
      s ← s_sema_up KBD_INSERT_LOCK s;
      Ret (0, s).

(** [while(!ringbuff_length(&c_buff)) semaphore_down(&data_available);] *)
Fixpoint key_loop (fuel : nat) (s : sys) : outcome sys :=
  match fuel with
  | O => Hang
  | S fuel =>
    if ringbuff_length (d_c_buff (s_dev s)) =? 0 then s ← s_sema_down KBD_DATA_AVAILABLE s; key_loop fuel s
    else Ret s
  end.

(** A turn of [kbd_thread_loop] *)
Definition kbd_turn (fuel : nat) (s : sys) : outcome sys :=
  s ← s_sema_down KBD_LIST_SEMA s;
  rq ← first_req KBD_REQ_LIST s;
  s ← key_loop fuel s;
  r ← deref (reqs (s_vfs s)) rq;
  _ ← ASSERT (r_pid r =? 0);
  s ← s_sema_down KBD_INSERT_LOCK s;
  '(_, data, rb) ← ringbuff_read (d_c_buff (s_dev s)) (r_size r);
  s ← store_bytes (r_vbuff r) data (set_kbd rb (d_read_pending (s_dev s)) s);
  s ← (if negb (ringbuff_length rb =? 0) then s_sema_binary_up KBD_DATA_AVAILABLE s else Ret s);
  let s := set_kbd rb (u16 (d_read_pending (s_dev s) - r_size r)) s in
  s ← s_sema_up KBD_INSERT_LOCK s;
  s ← remove_first KBD_REQ_LIST s;
  vfs_async_finalize rq (i16 (r_size r)) s.

Definition kbd_vfs_submit_char (c : Z) (s : sys) : outcome sys :=
  '(_, rb) ← ringbuff_write (d_c_buff (s_dev s)) [c] 1;
  s_sema_binary_up KBD_DATA_AVAILABLE (set_kbd rb (d_read_pending (s_dev s)) s).

(** [send_key] of keyboard.c: the character goes to the terminal and to the
    keyboard device. *)
Definition send_key (c : Z) (s : sys) : outcome sys :=
  t ← Tty.tty_submit_char 4 c (d_tty (s_dev s));
  kbd_vfs_submit_char c (put_tty t s).

Definition kbd_vfs_reg : @vfs_reg St (drivers B) := VfsReg 1 0 kbd_fs_get_inode None (Some kbd_submit_req) None.

Definition kbd_vfs_init (junk_proc : proc) (name : list Z) (entry : Z) (s : sys) : outcome sys :=
  let s := s_set_store (ls_init (s_store s) KBD_REQ_LIST) s in
  '(rb, s) ← s_ringbuff_init KBD_BUFF_SIZE s;
  let s := set_kbd rb (d_read_pending (s_dev s)) s in
  let s := s_sema_init KBD_INSERT_LOCK (s_sema_init KBD_LIST_SEMA (s_sema_init KBD_DATA_AVAILABLE s)) in
  s ← s_sema_up KBD_INSERT_LOCK s;
  '(_, k) ← make_kernel_thread junk_proc name entry (s_kernel s);
  Ret (set_kernel k s).

(** ** Lists of requests and kernel buffers *)

Lemma first_req_ok s m own l node rq xs : ls_rep (s_store s) m own -> m !! l = Some ((node, rq) :: xs) -> first_req l s = Ret rq.
Proof.
  intros L Hl. unfold first_req. rewrite (ls_first_ok _ _ _ _ _ L Hl). cbn [mbind outcome_bind head_ptr].
  apply (ls_node_ok _ _ _ _ [] node rq xs L Hl).
Qed.

Lemma remove_first_ok s m own l node rq xs : ls_rep (s_store s) m own -> m !! l = Some ((node, rq) :: xs) ->
  exists st, remove_first l s = Ret (s_set_store st s) /\ ls_rep st (<[l := xs]> m) own.
Proof.
  intros L Hl. unfold remove_first. rewrite (ls_first_ok _ _ _ _ _ L Hl). cbn [mbind outcome_bind head_ptr].
  destruct (ls_remove_ok _ _ _ _ [] node rq xs L Hl) as (st & Est & L'). rewrite Est. eauto.
Qed.

Lemma store_bytes_ok vbuff data s : room 0 vbuff data s -> store_bytes vbuff data s = Ret (stored 0 vbuff data s).
Proof.
  intros (buf & Hb & Ho & Hl). unfold store_bytes, stored. rewrite Z.eqb_refl, Hb. destruct data as [|x data].
  - rewrite splice_nil, insert_id by done. by destruct s.
  - rewrite (deref_Some _ _ _ Hb). cbn [mbind outcome_bind].
    rewrite (memcpy_at _ _ _ _ _ [] (x :: data) []); try done. by rewrite app_nil_r.
Qed.

(** ** Typed characters *)

(** The devices and the semaphores of [s0], the rest of [s] *)
Definition with_keys (s0 s : sys) : sys := set_dev (s_dev s0) (s_set_semas (s_semas s0) s).

Lemma with_keys_same (s0 s : sys) : s_dev s0 = s_dev s -> s_semas s0 = s_semas s -> with_keys s0 s = s.
Proof. intros Hd Hs. unfold with_keys. rewrite Hd, Hs. by destruct s as [[[]] ? ? ? ?]. Qed.

Lemma with_keys_twice (s1 s0 s : sys) : with_keys s1 (with_keys s0 s) = with_keys s1 s.
Proof. done. Qed.

(** [send_key] reads and changes nothing but devices and semaphores. *)
Lemma send_key_with c (s0 s : sys) : send_key c (with_keys s0 s) = s1 ← send_key c s0; Ret (with_keys s1 s).
Proof.
  unfold send_key, kbd_vfs_submit_char, s_sema_binary_up. change (s_dev (with_keys s0 s)) with (s_dev s0).
  destruct (Tty.tty_submit_char 4 c (d_tty (s_dev s0))) as [t| | | |]; cbn [mbind outcome_bind]; try done.
  change (d_c_buff (s_dev (put_tty t (with_keys s0 s)))) with (d_c_buff (s_dev s0)). change (d_c_buff (s_dev (put_tty t s0))) with (d_c_buff (s_dev s0)).
  destruct (ringbuff_write (d_c_buff (s_dev s0)) [c] 1) as [[n rb]| | | |]; cbn [mbind outcome_bind]; try done.
  match goal with |- context [deref (s_semas ?x) _] => change (s_semas x) with (s_semas s0) end.
  match goal with |- context [s_set_semas _ (set_kbd rb _ (put_tty t s0))] => change (s_semas (set_kbd rb (d_read_pending (s_dev (put_tty t s0))) (put_tty t s0))) with (s_semas s0) end.
  destruct (deref (s_semas s0) KBD_DATA_AVAILABLE) as [n'| | | |]; cbn [mbind outcome_bind]; try done.
  by destruct (SemOps.semaphore_binary_up 4 n') as [[n2 sr]| | | |].
Qed.

Lemma send_keys_with cs (s0 s : sys) : send_keys send_key cs (with_keys s0 s) = s1 ← send_keys send_key cs s0; Ret (with_keys s1 s).
Proof.
  revert s0. induction cs as [|c cs IH]; intros s0; [done|]. cbn [send_keys]. rewrite send_key_with.
  destruct (send_key c s0) as [s1| | | |]; cbn [mbind outcome_bind]; try done.
Qed.

(** The buffers of the two devices are well formed, and the line of the terminal
    has room for [n] characters more. *)
Record keys_ready (n : Z) (s : sys) : Prop := {
  kr_line : Tty.line_ok (d_tty (s_dev s));
  kr_room : Tty.line_buff_len (d_tty (s_dev s)) + n <= 128;
  kr_input : exists cap q, repr cap q (Tty.read_rb (d_tty (s_dev s)));
  kr_signal : Tty.read_data_signal (d_tty (s_dev s)) = 0 \/ Tty.read_data_signal (d_tty (s_dev s)) = 1;
  kr_ring : exists cap q, repr cap q (d_c_buff (s_dev s));
  kr_data : exists c, s_semas s !! KBD_DATA_AVAILABLE = Some c /\ (c = 0 \/ c = 1);
}.

Lemma keys_ready_with n (s0 s : sys) : keys_ready n s0 -> keys_ready n (with_keys s0 s).
Proof. intros []. by split. Qed.

Lemma keys_ready_less n n' s : n' <= n -> keys_ready n s -> keys_ready n' s.
Proof. intros Hn []. split; try done. lia. Qed.

(** Nothing but the devices and the semaphore of the keyboard has changed. *)
Record only_keys (s s' : sys) : Prop := {
  ok_with : s' = with_keys s' s;
  ok_semas : s_semas s' = s_semas s \/ s_semas s' = <[KBD_DATA_AVAILABLE := 1]> (s_semas s);
}.

Lemma only_keys_refl s : only_keys s s.
Proof. split; [by rewrite with_keys_same|by left]. Qed.

Lemma only_keys_trans s1 s2 s3 : only_keys s1 s2 -> only_keys s2 s3 -> only_keys s1 s3.
Proof.
  intros [E1 S1] [E2 S2]. split; [rewrite E2, E1 at 1; by rewrite with_keys_twice|].
  destruct S1 as [S1|S1], S2 as [S2|S2]; rewrite S2, S1; rewrite ?insert_insert_eq; auto.
Qed.

(** The keyboard device gets the character, when there is room for it. *)
Lemma kbd_submit_ok c (s : sys) cap q n : repr cap q (d_c_buff (s_dev s)) -> s_semas s !! KBD_DATA_AVAILABLE = Some n -> n = 0 \/ n = 1 ->
  exists rb, kbd_vfs_submit_char c s = Ret (s_set_semas (<[KBD_DATA_AVAILABLE := 1]> (s_semas s)) (set_kbd rb (d_read_pending (s_dev s)) s)) /\
    repr cap (fifo_write cap q [c] 1).2 rb.
Proof.
  intros Hr Hs Hn. unfold kbd_vfs_submit_char, s_sema_binary_up.
  destruct (ringbuff_write_spec cap q _ [c] 1 Hr) as (rb & -> & Hrb); [lia|simpl; lia|]. cbn [mbind outcome_bind].
  change (s_semas (set_kbd _ _ s)) with (s_semas s). rewrite (deref_Some _ _ _ Hs). cbn [mbind outcome_bind].
  rewrite SemOps.semaphore_binary_up_spec by (done || lia). exists rb. done.
Qed.

Definition kbd_ready (s : sys) : Prop :=
  (exists cap q, repr cap q (d_c_buff (s_dev s))) /\
  exists c, s_semas s !! KBD_DATA_AVAILABLE = Some c /\ (c = 0 \/ c = 1).

Lemma send_key_tty c (s : sys) t' : kbd_ready s -> Tty.tty_submit_char 4 c (d_tty (s_dev s)) = Ret t' ->
  exists s', send_key c s = Ret s' /\ only_keys s s' /\ d_tty (s_dev s') = t' /\ d_read_queue (s_dev s') = d_read_queue (s_dev s) /\
    kbd_ready s'.
Proof.
  intros [(cap & q & Hr) (n & Hn & H01)] E. unfold send_key. rewrite E. cbn [mbind outcome_bind].
  destruct (kbd_submit_ok c (put_tty t' s) cap q n) as (rb & -> & Hrb); try done.
  eexists. split; [done|]. split_and!; [|done|done|split; [by eexists _, _|exists 1; split; [apply lookup_insert_eq|by right]]].
  split; [by destruct s as [[[]] ? ? ? ?]|by right].
Qed.

Lemma send_key_ok c n (s : sys) : 0 <= n -> keys_ready (n + 1) s ->
  exists s', send_key c s = Ret s' /\ keys_ready n s' /\ only_keys s s'.
Proof.
  intros Hn [Hl Hroom (cap & q & Hq) Hsig Hk Hd].
  destruct (Tty.submit_char_ok 4 c _ cap q ltac:(lia) Hl ltac:(lia) Hq Hsig) as (t' & q' & E & Hl' & Hlen & Hq' & Hsig').
  destruct (send_key_tty c s t') as (s' & E' & O & Ht & _ & [Hk' Hd']); [by split|done|].
  exists s'. split; [done|]. split; [|done]. split; rewrite ?Ht; eauto. lia.
Qed.

Lemma send_keys_ok cs n (s : sys) : 0 <= n -> keys_ready (n + zlen cs) s ->
  exists s', send_keys send_key cs s = Ret s' /\ keys_ready n s' /\ only_keys s s'.
Proof.
  intros Hn. revert s. induction cs as [|c cs IH]; intros s K; cbn [send_keys length] in *.
  - exists s. split; [done|]. split; [by rewrite Z.add_0_r in K|apply only_keys_refl].
  - destruct (send_key_ok c (n + zlen cs) s) as (s1 & -> & K1 & O1); [lia|eapply keys_ready_less; [|exact K]; lia|].
    destruct (IH s1 K1) as (s2 & E2 & K2 & O2). exists s2. cbn [mbind outcome_bind]. split; [done|]. split; [done|].
    by eapply only_keys_trans.
Qed.

(** The terminal gets the characters of a list one after another. *)
Lemma send_keys_tty cs (s : sys) t' : kbd_ready s -> Tty.submit_chars 4 cs (d_tty (s_dev s)) = Ret t' ->
  exists s', send_keys send_key cs s = Ret s' /\ only_keys s s' /\ d_tty (s_dev s') = t' /\ d_read_queue (s_dev s') = d_read_queue (s_dev s).
Proof.
  revert s. induction cs as [|c cs IH]; intros s K E; cbn [Tty.submit_chars send_keys] in *.
  - injection E as <-. exists s. split_and!; try done. apply only_keys_refl.
  - destruct (Tty.tty_submit_char 4 c (d_tty (s_dev s))) as [t1| | | |] eqn:E1; try done. cbn [mbind outcome_bind] in E.
    destruct (send_key_tty c s t1 K E1) as (s1 & -> & O1 & Ht & Hq & K1). rewrite <-Ht in E.
    destruct (IH s1 K1 E) as (s2 & E2 & O2 & Ht2 & Hq2). exists s2. cbn [mbind outcome_bind].
    split_and!; [done|by eapply only_keys_trans|done|congruence].
Qed.

(** A scan code of the tables is served, in whatever state the rest of the
    system is. *)
Lemma scancode_served code k (s : sys) : known code \/ extended_scancode k = true -> keys_ready 3 s ->
  exists k' s', print_scancode send_key code k s = Ret (k', s') /\ keys_ready 0 s' /\ only_keys s s' /\
    forall r, print_scancode send_key code k (with_keys s r) = Ret (k', with_keys s' r).
Proof.
  intros Hk K. destruct (print_scancode_sends send_key code k Hk) as (k' & cs & Hlen & E).
  destruct (send_keys_ok cs 0 s) as (s' & Es & K' & O); [done|eapply keys_ready_less; [|exact K]; lia|].
  exists k', s'. split_and!; [by rewrite E, Es|done|done|]. intros r. by rewrite E, send_keys_with, Es.
Qed.

(** ** The read requests of the terminal

    [d_read_queue] is at least the number of bytes the waiting requests ask
    for.  A request that must not block has fewer bytes before it than there
    are. *)

Fixpoint pending_ok (rs : gmap Z vfs_async_req_t) (acc len total : Z) (l : list Z) : Prop :=
  match l with
  | [] => acc <= total
  | x :: l => exists r, rs !! x = Some r /\ is_u16 (r_size r) /\ (wants_wouldblock r = true -> acc < len) /\
      pending_ok rs (acc + r_size r) len total l
  end.

Lemma pending_mono rs l : forall acc len total acc' len' total', acc' + len <= acc + len' -> acc' + total <= acc + total' ->
  pending_ok rs acc len total l -> pending_ok rs acc' len' total' l.
Proof.
  induction l as [|x l IH]; intros acc len total acc' len' total' H1 H2; simpl; [lia|].
  intros (r & Hr & Hu & Hw & Hl). exists r. split; [done|]. split; [done|]. split; [intros Hn; specialize (Hw Hn); lia|].
  eapply IH; [..|exact Hl]; lia.
Qed.

Lemma pending_agree rs rs' l : (forall x, x ∈ l -> rs' !! x = rs !! x) ->
  forall acc len total, pending_ok rs acc len total l -> pending_ok rs' acc len total l.
Proof.
  induction l as [|x l IH]; intros E acc len total; [done|]. simpl. intros (r & Hr & Hu & Hw & Hl).
  exists r. rewrite E by (by left). split; [done|]. split; [done|]. split; [done|]. apply IH; [|done]. intros y Hy. apply E. by right.
Qed.

Lemma pending_snoc rs x r l : rs !! x = Some r -> is_u16 (r_size r) ->
  forall acc len total, (wants_wouldblock r = true -> total < len) -> pending_ok rs acc len total l ->
  pending_ok rs acc len (total + r_size r) (l ++ [x]).
Proof.
  intros Hr Hu. induction l as [|y l IH]; intros acc len total Hw; simpl.
  - intros Ha. exists r. split; [done|]. split; [done|]. split; [intros Hn; specialize (Hw Hn); lia|lia].
  - intros (r' & Hr' & Hu' & Hw' & Hl). exists r'. split; [done|]. split; [done|]. split; [done|]. by apply IH.
Qed.

Lemma pending_least rs l : forall acc len total, pending_ok rs acc len total l -> acc <= total.
Proof.
  induction l as [|x l IH]; intros acc len total; simpl; [done|]. intros (r & _ & Hu & _ & Hl). apply IH in Hl. lia.
Qed.

Record tty_queue (s : sys) (m : gmap Z (list (Z * Z))) (own : gset Z) (xs : list (Z * Z)) (q : list Z) : Prop := {
  tq_rep : ls_rep (s_store s) m own;
  tq_list : m !! TTY_READ_LIST = Some xs;
  tq_lock : s_semas s !! TTY_INSERT_LOCK = Some 1;
  tq_sema : s_semas s !! TTY_READ_SEMA = Some (zlen xs);
  tq_ring : repr 255 q (Tty.read_rb (d_tty (s_dev s)));
  tq_nodup : NoDup xs.*2;
  tq_count : is_u16 (d_read_queue (s_dev s));
  tq_pending : pending_ok (reqs (s_vfs s)) 0 (zlen q) (d_read_queue (s_dev s)) xs.*2;
}.

Lemma ring_length cap q rb : repr cap q rb -> ringbuff_length rb = zlen q.
Proof. intros (Hwf & <- & _). by rewrite zlen_contents. Qed.

(** What is typed is appended to the bytes that can be read. *)
Lemma tty_queue_input s m own xs q x t : tty_queue s m own xs q -> repr 255 (q ++ x) (Tty.read_rb t) -> tty_queue (put_tty t s) m own xs (q ++ x).
Proof.
  intros [L Hl Hlk Hs Hr Hn Hc Hp] Hr'. split; try done. simpl. eapply pending_mono; [..|exact Hp]; rewrite ?length_app; lia.
Qed.

(** A semaphore that is taken and given back. *)
Lemma semas_same (s : sys) l c : s_semas s !! l = Some c ->
  s_set_semas (<[l := c]> (s_semas (s_set_semas (<[l := i16 (c - 1)]> (s_semas s)) s))) (s_set_semas (<[l := i16 (c - 1)]> (s_semas s)) s) = s.
Proof.
  intros Hc. unfold s_set_semas, s_semas in *. simpl. rewrite insert_insert_eq, insert_id by done. by destruct s as [[[]] ? ? ? ?].
Qed.

(** Nothing but the input of the terminal has changed, apart from lists, buffers,
    requests and semaphores. *)
Record only_input (s s' : sys) : Prop := {
  on_inodes : inodes (s_vfs s') = inodes (s_vfs s);
  on_vnodes : vnodes (s_vfs s') = vnodes (s_vfs s);
  on_procs : k_procs (s_kernel s') = k_procs (s_kernel s);
  on_run : same_run (s_kernel s) (s_kernel s');
  on_phys : v_phys (s_vm s') = v_phys (s_vm s);
  on_tty : exists rb, d_tty (s_dev s') = with_input rb (Tty.read_data_signal (d_tty (s_dev s))) (d_tty (s_dev s));
  on_ring : d_c_buff (s_dev s') = d_c_buff (s_dev s);
  on_data : s_semas s' !! KBD_DATA_AVAILABLE = s_semas s !! KBD_DATA_AVAILABLE;
}.

Lemma on_screen s s' : only_input s s' -> Tty.screen_of (d_tty (s_dev s')) = Tty.screen_of (d_tty (s_dev s)).
Proof. intros O. destruct (on_tty _ _ O) as [rb ->]. done. Qed.

Lemma with_input_same t : t = with_input (Tty.read_rb t) (Tty.read_data_signal t) t.
Proof. by destruct t. Qed.

Lemma tty_submit_read_ok s m own xs q rq r : tty_queue s m own xs q -> reqs (s_vfs s) !! rq = Some r ->
  r_type r = VFS_ASYNC_TYPE_READ -> is_u16 (r_size r) -> (rq ∉ xs.*2) -> d_read_queue (s_dev s) + r_size r < 65536 -> zlen xs < 32767 ->
  if wants_wouldblock r && (zlen q <=? d_read_queue (s_dev s)) then tty_submit_req rq s = Ret (- EWOULDBLOCK, s)
  else match tty_submit_req rq s with
  | Ret (rc, s') => rc = 0 /\ s_vfs s' = s_vfs s /\ s_bufs s' = s_bufs s /\ only_input s s' /\
      (forall l, 0 < l -> s_semas s' !! l = s_semas s !! l) /\
      exists node, tty_queue s' (<[TTY_READ_LIST := xs ++ [(node, rq)]]> m) own (xs ++ [(node, rq)]) q
  | Panic msg => msg = HEAP_FULL
  | _ => False
  end.
Proof.
  intros [L Hl Hlk Hs Hr Hn Hc Hp] Hrq Ht Hu Hnew Hsum Hlen. unfold tty_submit_req.
  rewrite (s_sema_down_now _ _ _ Hlk) by lia. cbn [mbind outcome_bind]. change (i16 (1 - 1)) with 0. set (s1 := s_set_semas _ s).
  change (s_vfs s1) with (s_vfs s). rewrite (deref_Some _ _ _ Hrq). cbn [mbind outcome_bind]. rewrite Ht.
  cbn [Z.eqb VFS_ASYNC_TYPE_READ Pos.eqb]. change (s_dev s1) with (s_dev s). rewrite (ring_length _ _ _ Hr).
  destruct (wants_wouldblock r && (zlen q <=? d_read_queue (s_dev s))) eqn:Ew.
  - rewrite (s_sema_up_ok _ _ 0) by apply lookup_insert_eq. cbn [mbind outcome_bind]. do 2 f_equal. by apply (semas_same s TTY_INSERT_LOCK 1).
  - set (s2 := set_tty _ _ s1). change (s_store s2) with (s_store s). pose proof (ls_append_safe _ _ _ TTY_READ_LIST rq L ltac:(by eexists)) as Hsafe.
    destruct (ls_append (s_store s) TTY_READ_LIST rq) as [st| | | |] eqn:Ea; try done. cbn [mbind outcome_bind].
    destruct (ls_append_ok _ _ _ _ _ _ _ L Hl Ea) as (node & Hnode & L1).
    rewrite (s_sema_up_ok _ _ (zlen xs)) by (unfold s2, s1, s_semas; simpl; by rewrite lookup_insert_ne). cbn [mbind outcome_bind].
    rewrite (s_sema_up_ok _ TTY_INSERT_LOCK 0) by (unfold s2, s1, s_semas; simpl; by rewrite lookup_insert_ne, lookup_insert_eq by done).
    cbn [mbind outcome_bind]. split_and!; try done.
    { split; try done; [eexists; apply with_input_same|]. unfold s2, s1, s_semas. simpl. by rewrite !lookup_insert_ne. }
    { intros l Hl0. unfold s2, s1, s_semas. simpl. rewrite !lookup_insert_ne by (unfold TTY_INSERT_LOCK, TTY_READ_SEMA; lia). done. }
    exists node. split; try done.
    + apply lookup_insert_eq.
    + apply lookup_insert_eq.
    + unfold s_semas. simpl. rewrite lookup_insert_ne, lookup_insert_eq by done. rewrite length_app. simpl.
      rewrite i16_small by lia. f_equal. lia.
    + rewrite fmap_app. apply NoDup_app. split_and!; [done| |by apply NoDup_singleton]. simpl. set_solver.
    + simpl. rewrite u16_small by lia. lia.
    + simpl. rewrite u16_small, fmap_app by lia. apply pending_snoc with (r := r); try done.
      intros Hw. rewrite Hw in Ew. simpl in Ew. lia.
Qed.

(** What a request takes. *)
Definition taken (r : vfs_async_req_t) (q : list Z) : list Z := take (Z.to_nat (Z.min (r_size r) 255)) q.

(** A request with its semaphore, as the blocking calls make it. *)
Record waited (rq : Z) (r : vfs_async_req_t) (c : Z) (s : sys) : Prop := {
  wt_req : reqs (s_vfs s) !! rq = Some r;
  wt_callback : r_callback r = 0;
  wt_sema : 0 < r_fin_sema r;
  wt_count : s_semas s !! r_fin_sema r = Some c;
}.

Lemma fifo_read_taken r q : is_u16 (r_size r) ->
  fifo_read q (Z.min (r_size r) 255) = (zlen (taken r q), taken r q, drop (length (taken r q)) q).
Proof.
  intros Hu. unfold fifo_read, taken. cbv zeta. rewrite length_take. set (n := Z.min (r_size r) 255).
  replace (n `min` zlen q) with (Z.of_nat (Z.to_nat n `min` length q)) by lia. rewrite Nat2Z.id. f_equal. f_equal.
  destruct (Nat.min_spec (Z.to_nat n) (length q)) as [[? ->]|[? ->]]; [done|]. by rewrite !take_ge by lia.
Qed.

Lemma tty_read_turn_ok fuel s m own node rq xs q r c : tty_queue s m own ((node, rq) :: xs) q -> waited rq r c s ->
  zlen xs < 32767 -> (q <> [] \/ wants_wouldblock r = true) -> room 0 (r_vbuff r) (taken r q) s ->
  exists s', tty_read_turn (S fuel) s = Ret s' /\ tty_queue s' (<[TTY_READ_LIST := xs]> m) own xs (drop (length (taken r q)) q) /\
    reqs (s_vfs s') = <[rq := set_res (zlen (taken r q)) (set_size (Z.min (r_size r) 255) r)]> (reqs (s_vfs s)) /\
    s_semas s' !! r_fin_sema r = Some (i16 (c + 1)) /\
    s_bufs s' = s_bufs (stored 0 (r_vbuff r) (taken r q) s) /\ only_input s s'.
Proof.
  intros [L Hl Hlk Hs Hr Hn Hc Hp] [Hrq Hcb Hfs Hcnt] Hlen Hdata Hroom. simpl in Hp. destruct Hp as (r0 & Hr0 & Hu & Hw & Hp).
  assert (r0 = r) as -> by congruence. clear Hr0.
  assert (Hq : 0 < zlen q). { destruct Hdata as [Hne|Hw1]; [destruct q; [done|simpl; lia]|by specialize (Hw Hw1)]. }
  unfold tty_read_turn. rewrite (s_sema_down_now _ _ _ Hs) by (simpl; lia). cbn [mbind outcome_bind]. set (s1 := s_set_semas _ s).
  rewrite (first_req_ok s1 m own _ node rq xs) by done. cbn [mbind outcome_bind]. change (s_vfs s1) with (s_vfs s).
  rewrite (deref_Some _ _ _ Hrq). cbn [mbind outcome_bind]. unfold Tty.TTY_BUFF_SIZE. set (n := Z.min (r_size r) 255).
  set (s2 := put_req rq (set_size n r) s1). cbn [input_loop]. change (s_dev s2) with (s_dev s).
  rewrite (ring_length _ _ _ Hr), (eqb_ne (zlen q)) by lia. cbn [mbind outcome_bind].
  assert (Hlk2 : s_semas s2 !! TTY_INSERT_LOCK = Some 1) by (unfold s2, s1, s_semas; simpl; by rewrite lookup_insert_ne).
  rewrite (s_sema_down_now _ _ _ Hlk2) by lia. cbn [mbind outcome_bind]. change (i16 (1 - 1)) with 0. set (s3 := s_set_semas _ s2).
  change (s_dev s3) with (s_dev s). destruct (ringbuff_read_spec 255 q _ n Hr) as (rb & Erb & Hrb); [unfold n; lia|].
  rewrite (fifo_read_taken r q Hu : fifo_read q n = _) in *. cbn [fst snd] in *. rewrite Erb. cbn [mbind outcome_bind].
  set (data := taken r q) in *. set (s4 := put_tty _ s3).
  rewrite store_bytes_ok by done. cbn [mbind outcome_bind].
  assert (Est : stored 0 (r_vbuff r) data s4 = set_bufs (s_bufs (stored 0 (r_vbuff r) data s)) s4).
  { unfold stored. rewrite Z.eqb_refl. change (s_bufs s4) with (s_bufs s). destruct (s_bufs s !! buf_base (r_vbuff r)); [done|by destruct s]. }
  rewrite Est. set (s5 := set_tty _ _ _).
  rewrite (s_sema_up_ok s5 TTY_INSERT_LOCK 0) by apply lookup_insert_eq. cbn [mbind outcome_bind]. set (s6 := s_set_semas _ s5).
  destruct (remove_first_ok s6 m own TTY_READ_LIST node rq xs) as (st & Er & L'); [done..|]. rewrite Er. cbn [mbind outcome_bind]. set (s7 := s_set_store st s6).
  assert (Hlen2 : 0 <= zlen data < 32768) by (unfold data, taken; rewrite length_take; lia). rewrite (i16_small (zlen data)) by lia.
  assert (Hrq7 : reqs (s_vfs s7) !! rq = Some (set_size n r)) by apply lookup_insert_eq.
  assert (Hneg : forall l, l < 0 -> l <> r_fin_sema r) by lia.
  assert (Hc7 : s_semas s7 !! r_fin_sema r = Some c).
  { change (<[TTY_INSERT_LOCK := i16 (0 + 1)]> (<[TTY_INSERT_LOCK := 0]> (<[TTY_READ_SEMA := i16 (zlen ((node, rq) :: xs) - 1)]> (s_semas s))) !! r_fin_sema r = Some c).
    by rewrite !lookup_insert_ne by (apply Hneg; done). }
  rewrite (finalize_ok rq (zlen data) s7 (set_size n r) c Hrq7 Hcb) by (done || (simpl; lia)). eexists. split; [done|].
  set (s8 := s_set_semas _ _). assert (Hn2 : 0 <= n <= 255 /\ n <= r_size r) by (unfold n; lia).
  split_and!; try done.
  - split; try done.
    + apply lookup_insert_eq.
    + change (<[r_fin_sema r := i16 (c + 1)]> (s_semas s7) !! TTY_INSERT_LOCK = Some 1). rewrite lookup_insert_ne by (unfold TTY_INSERT_LOCK; lia). apply lookup_insert_eq.
    + change (<[r_fin_sema r := i16 (c + 1)]> (s_semas s7) !! TTY_READ_SEMA = Some (zlen xs)). rewrite lookup_insert_ne by (unfold TTY_READ_SEMA; lia).
      change (<[TTY_INSERT_LOCK := i16 (0 + 1)]> (<[TTY_INSERT_LOCK := 0]> (<[TTY_READ_SEMA := i16 (zlen ((node, rq) :: xs) - 1)]> (s_semas s))) !! TTY_READ_SEMA = Some (zlen xs)).
      rewrite !lookup_insert_ne, lookup_insert_eq by done. simpl. rewrite i16_small by lia. f_equal. lia.
    + by apply NoDup_cons in Hn as [_ ?].
    + apply u16_range.
    + change (reqs (s_vfs s8)) with (<[rq := set_res (zlen data) (set_size n r)]> (<[rq := set_size n r]> (reqs (s_vfs s)))).
      change (d_read_queue (s_dev s8)) with (u16 (d_read_queue (s_dev s) - n)). apply NoDup_cons in Hn as [Hnew _].
      apply (pending_agree (reqs (s_vfs s))).
      { intros x Hx. rewrite !lookup_insert_ne; [done|intros ->; by apply Hnew..]. }
      assert (Hb : r_size r <= d_read_queue (s_dev s)) by (by eapply pending_least in Hp; lia).
      rewrite u16_small by lia. eapply pending_mono; [..|exact Hp]; [rewrite length_drop|]; try lia.
      unfold data, taken. rewrite length_take. fold n. lia.
  - change (reqs (s_vfs s8)) with (<[rq := set_res (zlen data) (set_size n r)]> (<[rq := set_size n r]> (reqs (s_vfs s)))). by rewrite insert_insert_eq.
  - apply lookup_insert_eq.
  - split; try done; [by eexists|].
    change (<[r_fin_sema r := i16 (c + 1)]> (s_semas s7) !! KBD_DATA_AVAILABLE = s_semas s !! KBD_DATA_AVAILABLE).
    rewrite lookup_insert_ne by (unfold KBD_DATA_AVAILABLE; lia).
    change (<[TTY_INSERT_LOCK := i16 (0 + 1)]> (<[TTY_INSERT_LOCK := 0]> (<[TTY_READ_SEMA := i16 (zlen ((node, rq) :: xs) - 1)]> (s_semas s))) !! KBD_DATA_AVAILABLE = s_semas s !! KBD_DATA_AVAILABLE).
    by rewrite !lookup_insert_ne.
Qed.

(** ** Printing *)

Definition printed (r : vfs_async_req_t) (buf : list Z) : list Z :=
  take (Z.to_nat (Z.min (r_size r) TTY_SUBMIT_BUFF)) (drop (Z.to_nat (buf_off (r_vbuff r))) buf).

Lemma tty_puts_app a b t : Tty.tty_puts (a ++ b) t = Tty.tty_puts b (Tty.tty_puts a t).
Proof. revert t. induction a as [|x a IH]; intros t; [done|]. apply IH. Qed.

Lemma put_tty_twice t t' s : put_tty t (put_tty t' s) = put_tty t s.
Proof. done. Qed.

Lemma print_loop_ok n vbuff buf s : s_bufs s !! buf_base vbuff = Some buf -> 0 <= buf_off vbuff -> 0 <= n -> buf_off vbuff + n <= zlen buf ->
  for_loop (Z.to_nat n) 0 (put_cell vbuff) s =
    Ret (put_tty (Tty.tty_puts (take (Z.to_nat n) (drop (Z.to_nat (buf_off vbuff)) buf)) (d_tty (s_dev s))) s).
Proof.
  intros Hb Ho Hn Hl. set (bytes := drop _ buf). set (t := d_tty (s_dev s)).
  destruct (for_loop_inv (fun i s' => s' = put_tty (Tty.tty_puts (take (Z.to_nat i) bytes) t) s) (Z.to_nat n) 0 (put_cell vbuff) s)
    as (s' & E & ->).
  - by destruct s as [? ? ? ? []].
  - intros i s' Hi ->. unfold put_cell, buf_byte. set (s1 := put_tty _ s). change (s_bufs s1) with (s_bufs s).
    rewrite (deref_Some _ _ _ Hb). cbn [mbind outcome_bind]. destruct (arr_get_in buf (buf_off vbuff + i)) as (x & -> & Hx); [lia|].
    cbn [mbind outcome_bind]. eexists. split; [done|]. unfold s1. rewrite put_tty_twice. f_equal. change (d_tty (s_dev (put_tty ?u s))) with u.
    replace (Z.to_nat (i + 1)) with (S (Z.to_nat i)) by lia. rewrite (take_S_r _ _ x).
    + by rewrite tty_puts_app.
    + unfold bytes. rewrite lookup_drop. rewrite <-Hx. f_equal. lia.
  - rewrite E. do 4 f_equal. lia.
Qed.

(** Nothing but the screen has changed, apart from lists and semaphores. *)
Record only_screen (t : Tty.tty) (s s' : sys) : Prop := {
  os_view : view s' = view (put_tty t s);
  os_procs : k_procs (s_kernel s') = k_procs (s_kernel s);
  os_vnodes : vnodes (s_vfs s') = vnodes (s_vfs s);
  os_run : same_run (s_kernel s) (s_kernel s');
  os_phys : v_phys (s_vm s') = v_phys (s_vm s);
}.

Lemma tty_write_turn_ok s m own node rq xs n r c buf : ls_rep (s_store s) m own -> m !! TTY_WRITE_LIST = Some ((node, rq) :: xs) ->
  s_semas s !! TTY_WRITE_SEMA = Some n -> 0 < n < 32768 -> waited rq r c s -> is_u16 (r_size r) ->
  s_bufs s !! buf_base (r_vbuff r) = Some buf -> 0 <= buf_off (r_vbuff r) -> buf_off (r_vbuff r) + Z.min (r_size r) 128 <= zlen buf ->
  exists s', tty_write_turn s = Ret s' /\ ls_rep (s_store s') (<[TTY_WRITE_LIST := xs]> m) own /\
    s_semas s' = <[r_fin_sema r := i16 (c + 1)]> (<[TTY_WRITE_SEMA := n - 1]> (s_semas s)) /\
    reqs (s_vfs s') !! rq = Some (set_res (zlen (printed r buf)) (set_size (zlen (printed r buf)) r)) /\
    d_tty (s_dev s') = Tty.tty_puts (printed r buf) (d_tty (s_dev s)) /\ s_bufs s' = s_bufs s /\
    only_screen (Tty.tty_puts (printed r buf) (d_tty (s_dev s))) s s'.
Proof.
  intros L Hl Hs Hn [Hrq Hcb Hfs Hcnt] Hu Hb Ho Hroom. unfold tty_write_turn.
  assert (Hp : zlen (printed r buf) = Z.min (r_size r) TTY_SUBMIT_BUFF).
  { unfold printed, TTY_SUBMIT_BUFF. rewrite length_take, length_drop. lia. }
  rewrite (s_sema_down_now _ _ _ Hs) by lia. cbn [mbind outcome_bind]. rewrite i16_small by lia. set (s1 := s_set_semas _ s).
  rewrite (first_req_ok s1 m own TTY_WRITE_LIST node rq xs) by done. cbn [mbind outcome_bind]. change (s_vfs s1) with (s_vfs s).
  rewrite (deref_Some _ _ _ Hrq). cbn [mbind outcome_bind]. rewrite <-Hp. set (s2 := put_req _ _ s1).
  rewrite (print_loop_ok _ (r_vbuff r) buf s2) by (done || rewrite ?Hp; unfold TTY_SUBMIT_BUFF; lia). cbn [mbind outcome_bind].
  set (s3 := put_tty _ s2). destruct (remove_first_ok s3 m own TTY_WRITE_LIST node rq xs) as (st & Er & L'); [done..|]. rewrite Er.
  cbn [mbind outcome_bind]. rewrite i16_small by (rewrite Hp; unfold TTY_SUBMIT_BUFF; lia). set (s4 := s_set_store st s3).
  assert (Hrq4 : reqs (s_vfs s4) !! rq = Some (set_size (zlen (printed r buf)) r)) by apply lookup_insert_eq.
  assert (Hc4 : s_semas s4 !! r_fin_sema r = Some c).
  { change (<[TTY_WRITE_SEMA := n - 1]> (s_semas s) !! r_fin_sema r = Some c). rewrite lookup_insert_ne; [done|]. unfold TTY_WRITE_SEMA. lia. }
  rewrite (finalize_ok rq _ s4 _ c Hrq4 Hcb) by (done || (simpl; lia)). eexists. split; [done|]. split_and!; try done.
  - apply lookup_insert_eq.
  - change (Tty.tty_puts (take (Z.to_nat (zlen (printed r buf))) (drop (Z.to_nat (buf_off (r_vbuff r))) buf)) (d_tty (s_dev s)) =
      Tty.tty_puts (printed r buf) (d_tty (s_dev s))). by rewrite Hp.
  - split; try done. unfold view, s4, s3, s2, s1. simpl. by rewrite Hp.
Qed.

(** The terminal prints write requests in order: a turn of the writing thread
    takes the oldest request of the list and sends its bytes, the first 128 at
    most, one after another to the screen; the request gets their number as
    its result, its semaphore is raised and it leaves the list. *)
Theorem tty_write_served s m own node rq xs n r c buf : ls_rep (s_store s) m own -> m !! TTY_WRITE_LIST = Some ((node, rq) :: xs) ->
  s_semas s !! TTY_WRITE_SEMA = Some n -> 0 < n < 32768 -> waited rq r c s -> is_u16 (r_size r) ->
  s_bufs s !! buf_base (r_vbuff r) = Some buf -> 0 <= buf_off (r_vbuff r) -> buf_off (r_vbuff r) + Z.min (r_size r) 128 <= zlen buf ->
  exists s', tty_write_turn s = Ret s' /\ ls_rep (s_store s') (<[TTY_WRITE_LIST := xs]> m) own /\
    s_semas s' = <[r_fin_sema r := i16 (c + 1)]> (<[TTY_WRITE_SEMA := n - 1]> (s_semas s)) /\
    reqs (s_vfs s') !! rq = Some (set_res (zlen (printed r buf)) (set_size (zlen (printed r buf)) r)) /\
    d_tty (s_dev s') = Tty.tty_puts (printed r buf) (d_tty (s_dev s)) /\ s_bufs s' = s_bufs s.
Proof.
  intros. destruct (tty_write_turn_ok s m own node rq xs n r c buf) as (s' & E & L & Hs & Hr & Ht & Hb & _); try done. by exists s'.
Qed.

(** A read of the terminal that must not block is refused exactly when the
    requests that wait before it may take every byte there is, and then nothing
    has changed; otherwise it joins the end of the list, and keeps the
    invariant that every such request has fewer bytes asked for before it
    than there are. *)
Theorem tty_submit_read s m own xs q rq r : tty_queue s m own xs q -> reqs (s_vfs s) !! rq = Some r ->
  r_type r = VFS_ASYNC_TYPE_READ -> is_u16 (r_size r) -> (rq ∉ xs.*2) -> d_read_queue (s_dev s) + r_size r < 65536 -> zlen xs < 32767 ->
  if wants_wouldblock r && (zlen q <=? d_read_queue (s_dev s)) then tty_submit_req rq s = Ret (- EWOULDBLOCK, s)
  else match tty_submit_req rq s with
  | Ret (rc, s') => rc = 0 /\ s_vfs s' = s_vfs s /\ s_bufs s' = s_bufs s /\ only_input s s' /\
      (forall l, 0 < l -> s_semas s' !! l = s_semas s !! l) /\
      exists node, tty_queue s' (<[TTY_READ_LIST := xs ++ [(node, rq)]]> m) own (xs ++ [(node, rq)]) q
  | Panic msg => msg = HEAP_FULL
  | _ => False
  end.
Proof. apply tty_submit_read_ok. Qed.

(** A line typed on the keyboard goes to the end of the input. *)
Lemma typed_line s m own xs q cs : tty_queue s m own xs q -> kbd_ready s ->
  Tty.line_ok (d_tty (s_dev s)) -> Tty.line_buff_len (d_tty (s_dev s)) = 0 ->
  Tty.read_data_signal (d_tty (s_dev s)) = 0 \/ Tty.read_data_signal (d_tty (s_dev s)) = 1 ->
  Forall (fun c => Tty.IS_PRINTABLE c = true) cs -> zlen cs < 128 -> zlen q + zlen cs < 255 ->
  exists s', send_keys send_key (cs ++ [10]) s = Ret s' /\ tty_queue s' m own xs (q ++ cs ++ [10]).
Proof.
  intros [L Hl Hlk Hs Hr Hn Hc Hp] K Ho H0 Hsig Hcs Hlen Hroom.
  destruct (Tty.submit_line 4 cs _ 255 q ltac:(lia) Ho H0 Hcs Hlen Hr Hsig) as (t' & E & _ & _ & _ & Hr').
  unfold fifo_write in Hr'. cbv zeta in Hr'. cbn [snd] in Hr'. rewrite take_ge in Hr' by (rewrite length_app; simpl; lia).
  destruct (send_keys_tty _ s t' K E) as (s' & E' & [Ew Es] & Ht & Hq). exists s'. split; [done|].
  assert (Hsem : forall l, l <> KBD_DATA_AVAILABLE -> s_semas s' !! l = s_semas s !! l).
  { intros l Hne. destruct Es as [->| ->]; [done|by rewrite lookup_insert_ne]. }
  split; rewrite ?Ht, ?Hq, ?Hsem by done; try done.
  - rewrite Ew. exact L.
  - rewrite Ew. eapply pending_mono; [..|exact Hp]; rewrite ?length_app; lia.
Qed.

(** C36. What was typed is read in order.  A turn of the reading thread serves the
    oldest request when there is input -- and for a request that must not
    block there always is, so that its assertion holds: the request
    receives the oldest bytes, at most as many as it asks for and at most
    255, their number is its result, and the rest stays for the requests behind
    it.  A line typed on the keyboard afterwards, of up to 127 printable characters
    and a newline, sent by [send_key] to an empty line buffer, goes to the end of
    what is left, if the 255 bytes of the input have room for it and the ring of the
    keyboard device is well formed ([keys_ready]). *)
Theorem tty_read_served fuel s m own node rq xs q r c : tty_queue s m own ((node, rq) :: xs) q -> waited rq r c s ->
  zlen xs < 32767 -> (q <> [] \/ wants_wouldblock r = true) -> room 0 (r_vbuff r) (taken r q) s ->
  exists s', tty_read_turn (S fuel) s = Ret s' /\
    reqs (s_vfs s') = <[rq := set_res (zlen (taken r q)) (set_size (Z.min (r_size r) 255) r)]> (reqs (s_vfs s)) /\
    s_semas s' !! r_fin_sema r = Some (i16 (c + 1)) /\
    s_bufs s' = s_bufs (stored 0 (r_vbuff r) (taken r q) s) /\
    let q' := drop (length (taken r q)) q in
    tty_queue s' (<[TTY_READ_LIST := xs]> m) own xs q' /\
    forall cs, keys_ready 0 s -> Tty.line_buff_len (d_tty (s_dev s)) = 0 ->
      Forall (fun c => Tty.IS_PRINTABLE c = true) cs -> zlen cs < 128 -> zlen q' + zlen cs < 255 ->
      exists s2, send_keys send_key (cs ++ [10]) s' = Ret s2 /\
        tty_queue s2 (<[TTY_READ_LIST := xs]> m) own xs (q' ++ cs ++ [10]).
Proof.
  intros Q W Hl Hd Hr. destruct (tty_read_turn_ok fuel s m own node rq xs q r c Q W Hl Hd Hr) as (s' & E & Q' & R & S & D & O).
  exists s'. cbv zeta. split_and!; try done. intros cs [[Ho Hb] _ _ Hsig Hk Hda] H0 Hcs Hlen Hroom.
  destruct (on_tty _ _ O) as [rb Et].
  apply typed_line; try done; rewrite ?Et; try done.
  by split; [rewrite (on_ring _ _ O)|rewrite (on_data _ _ O)].
Qed.

(** ** Reading the keyboard device *)

(** The bytes a request for [n] takes, as many as there are; the result is
    [n] even when there were fewer. *)
Lemma kbd_read_served fuel s m own node rq xs q r c n p : ls_rep (s_store s) m own -> m !! KBD_REQ_LIST = Some ((node, rq) :: xs) ->
  s_semas s !! KBD_LIST_SEMA = Some n -> 0 < n < 32768 -> s_semas s !! KBD_INSERT_LOCK = Some 1 ->
  s_semas s !! KBD_DATA_AVAILABLE = Some p -> p = 0 \/ p = 1 ->
  repr KBD_BUFF_SIZE q (d_c_buff (s_dev s)) -> q <> [] -> waited rq r c s -> is_u16 (r_size r) -> r_pid r = 0 ->
  let data := take (Z.to_nat (r_size r)) q in
  room 0 (r_vbuff r) data s ->
  exists s', kbd_turn (S fuel) s = Ret s' /\ ls_rep (s_store s') (<[KBD_REQ_LIST := xs]> m) own /\
    repr KBD_BUFF_SIZE (drop (Z.to_nat (r_size r)) q) (d_c_buff (s_dev s')) /\
    s_bufs s' = s_bufs (stored 0 (r_vbuff r) data s) /\
    reqs (s_vfs s') !! rq = Some (set_res (i16 (r_size r)) r) /\ s_semas s' !! r_fin_sema r = Some (i16 (c + 1)).
Proof.
  intros L Hl Hs Hn Hlk Hda Hp01 Hr Hq [Hrq Hcb Hfs Hcnt] Hu Hpid data Hroom.
  assert (Hq0 : 0 < zlen q) by (destruct q; [done|simpl; lia]).
  assert (Hneg : forall l, l < 0 -> l <> r_fin_sema r) by lia.
  unfold kbd_turn. rewrite (s_sema_down_now _ _ _ Hs) by lia. cbn [mbind outcome_bind]. set (s1 := s_set_semas _ s).
  rewrite (first_req_ok s1 m own KBD_REQ_LIST node rq xs) by done. cbn [mbind outcome_bind key_loop]. change (s_dev s1) with (s_dev s).
  rewrite (ring_length _ _ _ Hr), (eqb_ne (zlen q)) by lia. cbn [mbind outcome_bind]. change (s_vfs s1) with (s_vfs s).
  rewrite (deref_Some _ _ _ Hrq). cbn [mbind outcome_bind]. rewrite Hpid. cbn [ASSERT Z.eqb mbind outcome_bind].
  rewrite (s_sema_down_now s1 KBD_INSERT_LOCK 1) by (done || (unfold s1, s_semas; simpl; by rewrite lookup_insert_ne)).
  cbn [mbind outcome_bind]. change (i16 (1 - 1)) with 0. set (s2 := s_set_semas _ s1). change (s_dev s2) with (s_dev s).
  destruct (ringbuff_read_spec _ q _ (r_size r) Hr Hu) as (rb & Erb & Hrb).
  assert (Ef : fifo_read q (r_size r) = (Z.min (r_size r) (zlen q), data, drop (Z.to_nat (r_size r)) q)).
  { unfold fifo_read, data. cbv zeta. destruct (Z.le_ge_cases (r_size r) (zlen q)); [by rewrite Z.min_l|].
    rewrite Z.min_r, Nat2Z.id, !take_ge, !drop_ge by lia. done. }
  rewrite Ef in Erb, Hrb. cbn [fst snd] in Erb, Hrb. rewrite Erb. cbn [mbind outcome_bind]. set (s3 := set_kbd rb _ s2).
  rewrite store_bytes_ok by done. cbn [mbind outcome_bind].
  assert (Est : stored 0 (r_vbuff r) data s3 = set_bufs (s_bufs (stored 0 (r_vbuff r) data s)) s3).
  { unfold stored. rewrite Z.eqb_refl. change (s_bufs s3) with (s_bufs s). destruct (s_bufs s !! buf_base (r_vbuff r)); [done|by destruct s]. }
  rewrite Est. set (s4 := set_bufs _ s3).
  assert (exists p', (if negb (ringbuff_length rb =? 0) then s_sema_binary_up KBD_DATA_AVAILABLE s4 else Ret s4) =
            Ret (s_set_semas (<[KBD_DATA_AVAILABLE := p']> (s_semas s4)) s4)) as (p' & ->).
  { assert (Hd4 : s_semas s4 !! KBD_DATA_AVAILABLE = Some p) by (unfold s4, s3, s2, s1, s_semas; simpl; by rewrite !lookup_insert_ne).
    destruct (ringbuff_length rb =? 0); cbn [negb].
    - exists p. rewrite insert_id by done. by destruct s as [[[]] ? ? ? ?].
    - exists 1. unfold s_sema_binary_up. rewrite (deref_Some _ _ _ Hd4). cbn [mbind outcome_bind].
      by rewrite SemOps.semaphore_binary_up_spec by (done || lia). }
  cbn [mbind outcome_bind]. set (s5 := set_kbd rb _ _).
  rewrite (s_sema_up_ok s5 KBD_INSERT_LOCK 0) by (unfold s5, s4, s3, s2, s_semas; simpl; by rewrite lookup_insert_ne, lookup_insert_eq).
  cbn [mbind outcome_bind]. set (s6 := s_set_semas _ s5).
  destruct (remove_first_ok s6 m own KBD_REQ_LIST node rq xs) as (st & Er & L'); [done..|]. rewrite Er. cbn [mbind outcome_bind]. set (s7 := s_set_store st s6).
  assert (Hc7 : s_semas s7 !! r_fin_sema r = Some c).
  { unfold s7, s6, s5, s4, s3, s2, s1, s_semas in *. simpl. by rewrite !lookup_insert_ne by (apply Hneg; done). }
  rewrite (finalize_ok rq _ s7 r c Hrq Hcb) by (done || lia). eexists. split; [done|]. split_and!; try done; apply lookup_insert_eq.
Qed.

End Console.

(** ** Witnesses *)

Section Demo.
#[local] Existing Instance klist_store.
Abbreviation demo_sys := (Sys.sys (store (list Z)) (drivers unit)).
Instance console_uninit : Uninit := fun _ _ => 0.
Instance console_sign : CharSign := true.
Instance console_others : Others (store (list Z)) (drivers unit) := fun _ _ => Block.
Instance console_callbacks : @Callbacks (store (list Z)) (drivers unit) := fun _ _ _ => Fault.

(** "ls", newline: typed, not yet read *)
Definition typed_ring : ringbuff := Ringbuff 3 0 256 ([108; 115; 10] ++ replicate 253 0).

Definition console_req (type flags : Z) : vfs_async_req_t := Req 1 0 type 0 77 2 0 50 0 flags.

(** One request at 60, in the list [st] holds. *)
Definition console_demo (st : store (list Z)) (type flags waiting asked : Z) : demo_sys :=
  Sys (Vm (Kernel st ∅ {[TTY_INSERT_LOCK := 1; TTY_READ_SEMA := waiting; TTY_WRITE_SEMA := waiting; KBD_DATA_AVAILABLE := 0; 50 := 0]} ∅ 5 0 1 0x211 true false 0 0x11) ∅ 0)
    {[77 := [0; 0; 0; 0]]} (VfsState ∅ ∅ {[60 := console_req type flags]} 1 1 0) (MqState ∅ ∅ 0 0)
    (Drivers tt (blockq_fields 32 12 demo_ring) ∅ ∅ 0 ∅ (with_input typed_ring 1 Tty.demo_tty) asked demo_ring 0 (TmpState 0 []) 0).

Lemma console_store l : l = TTY_READ_LIST \/ l = TTY_WRITE_LIST ->
  exists st node, ls_rep st (<[l := [(node, 60)]]> ∅) ∅.
Proof.
  intros Hl. pose proof (ls_init_ok boot_store ∅ ∅ l boot_store_rep) as L0.
  destruct (ls_append (ls_init boot_store l) l 60) as [st| | | |] eqn:E.
  2-5: exfalso; assert (match ls_append (ls_init boot_store l) l 60 with Ret _ => true | _ => false end = true) as Hc
         by (destruct Hl as [-> | ->]; vm_compute; reflexivity); rewrite E in Hc; discriminate Hc.
  destruct (ls_append_ok _ _ _ l [] 60 st L0 (lookup_insert_eq _ _ _) E) as (node & _ & L). rewrite insert_insert_eq in L. eauto.
Qed.

Lemma tty_write_served_witness :
  exists (s s' : demo_sys), tty_write_turn s = Ret s' /\ r_res <$> reqs (s_vfs s') !! 60 = Some 2 /\ s_semas s' !! 50 = Some 1.
Proof.
  destruct (console_store TTY_WRITE_LIST (or_intror eq_refl)) as (st & node & L).
  set (s := console_demo st VFS_ASYNC_TYPE_WRITE 0 1 0).
  destruct (tty_write_served s (<[TTY_WRITE_LIST := [(node, 60)]]> ∅) ∅ node 60 [] 1 (console_req VFS_ASYNC_TYPE_WRITE 0) 0 [0; 0; 0; 0])
    as (s' & E & _ & Hs & Hr & _); try done.
  exists s, s'. rewrite Hr, Hs. done.
Defined.

Lemma tty_submit_read_witness : exists (s : demo_sys), tty_submit_req 60 s = Ret (- EWOULDBLOCK, s).
Proof.
  pose proof (ls_init_ok boot_store ∅ ∅ TTY_READ_LIST boot_store_rep) as L0.
  set (s := console_demo (ls_init boot_store TTY_READ_LIST) VFS_ASYNC_TYPE_READ 1 0 3).
  exists s. apply (tty_submit_read s (<[TTY_READ_LIST := []]> ∅) ∅ [] [108; 115; 10] 60 (console_req VFS_ASYNC_TYPE_READ 1)); try done.
  - split; try done. constructor.
  - set_solver.
Defined.

(** Then "cd" and a newline are typed. *)
Lemma tty_read_served_witness :
  exists (s s' s2 : demo_sys), tty_read_turn 1 s = Ret s' /\ s_bufs s' !! 77 = Some [108; 115; 0; 0] /\
    r_res <$> reqs (s_vfs s') !! 60 = Some 2 /\
    send_keys send_key [99; 100; 10] s' = Ret s2 /\ repr 255 [10; 99; 100; 10] (Tty.read_rb (d_tty (s_dev s2))).
Proof.
  destruct (console_store TTY_READ_LIST (or_introl eq_refl)) as (st & node & L).
  set (s := console_demo st VFS_ASYNC_TYPE_READ 1 1 2).
  destruct (tty_read_served 0 s (<[TTY_READ_LIST := [(node, 60)]]> ∅) ∅ node 60 [] [108; 115; 10] (console_req VFS_ASYNC_TYPE_READ 1) 0)
    as (s' & E & Hr & _ & Hb & _ & Hty).
  - split; try done; [apply NoDup_singleton|]. simpl. eexists. split; [reflexivity|].
    split; [simpl; lia|]. split; simpl; lia.
  - by split.
  - simpl. lia.
  - by right.
  - exists [0; 0; 0; 0]. split; [reflexivity|]. vm_compute. split; discriminate.
  - destruct (Hty [99; 100]) as (s2 & E2 & Q2).
    + split; [split; [reflexivity|simpl; lia]|simpl; lia|exists 255, [108; 115; 10]; done|right; reflexivity| |].
      * exists 2, []. exact demo_ring_empty.
      * exists 0. split; [reflexivity|by left].
    + reflexivity.
    + repeat constructor.
    + simpl. lia.
    + simpl. lia.
    + exists s, s', s2. rewrite Hb, Hr. split_and!; [exact E|reflexivity|reflexivity|exact E2|exact (tq_ring _ _ _ _ _ Q2)].
Defined.

(** A read of more than 255 bytes is counted in full when it joins the list and
    with 255 bytes when it is served: the difference stays. *)
Lemma tty_read_count_drifts :
  let s := console_demo (ls_init boot_store TTY_READ_LIST) VFS_ASYNC_TYPE_READ 0 0 0 in
  let s := put_req 60 (set_size 300 (console_req VFS_ASYNC_TYPE_READ 0)) (set_bufs {[77 := replicate 300 0]} s) in
  match ('(_, s) ← tty_submit_req 60 s; tty_read_turn 1 s) with
  | Ret s' => d_read_queue (s_dev s') = 45 /\ ls_nodes (s_store s') TTY_READ_LIST = Ret []
  | _ => False
  end.
Proof. vm_compute. split; reflexivity. Qed.
End Demo.
