(* ===== verification/Serial.v ===== *)
(** * The serial ports (kernel/driver/serial.c)

    A byte is sent by writing it to a device register when the status says
    that the port is ready.  The file of a port sends the bytes of a write
    request before the request returns. *)

From S2P Require Import Prelude Interfaces Kmalloc KList Proc Sync CString Kernel Sched Virtual Vfs Sys Request Tmpfs Ringbuff Tty Blockq Device Sd Console.

Definition BASE_ADDR_OFF : Z := 0x000.
Definition BASE_ADDR2_OFF : Z := 0x008.
Definition STATUS_REG (base : Z) : Z := base + 0x0.
Definition TX_REG (base : Z) : Z := base + 0x4.
Definition STATUS_TX_READY : Z := 0x2.
Definition SERIAL_ROOT_INODE : Z := -61.

Section Serial.
Context {St B : Type} `{ListStore St} {junk : Uninit} {others : Others St (drivers B)} `{DevicePage B} {sign : CharSign}.
Abbreviation sys := (sys St (drivers B)).
Context {regs : @VfsRegs St (drivers B)} {callbacks : @Callbacks St (drivers B)}.
Set Default Proof Using "Type".

(** ** The code *)

Definition transmit (base c : Z) (b : B) : outcome (unit * B) :=
  b ← poll (STATUS_REG base) STATUS_TX_READY true b;
  Ret (tt, dev_write (TX_REG base) c b).

Definition serial_direct_putc (c : Z) (s : sys) : outcome sys :=
  '(_, s) ← on_device_page (transmit BASE_ADDR_OFF c) s; Ret s.

Definition serial2_direct_putc (c : Z) (s : sys) : outcome sys :=
  if c =? 27 then Ret s
  else '(_, s) ← on_device_page (transmit BASE_ADDR2_OFF c) s; Ret s.

Definition serial_fs_get_inode : Z -> list Z -> sys -> outcome (Z * sys) := device_inode SERIAL_ROOT_INODE.

(** The body of the loop of [serial_submit_request] *)
Definition send_cell (r : vfs_async_req_t) (i : Z) (s : sys) : outcome sys :=
  f ← file_at (r_file r) s;
  reg ← inode_reg (f_inode f) s;
  c ← buf_byte (r_vbuff r) i s;
  if negb (vnode_data reg =? 0) then serial2_direct_putc c s else serial_direct_putc c s.

Definition serial_submit_request (rq : Z) (s : sys) : outcome (Z * sys) :=
  r ← deref (reqs (s_vfs s)) rq;
  if negb (r_type r =? VFS_ASYNC_TYPE_WRITE) then Ret (- ENOSUP, s)
  else
    s ← for_loop (Z.to_nat (r_size r)) 0 (send_cell r) s;
    s ← vfs_async_finalize rq (i16 (r_size r)) s;
    Ret (0, s).

Definition serial_reg_1 : @vfs_reg St (drivers B) := VfsReg 1 0 serial_fs_get_inode None (Some serial_submit_request) None.
Definition serial_reg_2 : @vfs_reg St (drivers B) := VfsReg 1 1 serial_fs_get_inode None (Some serial_submit_request) None.

Definition serial_get_vfs_reg (devno : Z) : @vfs_reg St (drivers B) := if negb (devno =? 0) then serial_reg_2 else serial_reg_1.

(** ** What is sent *)

(** The port at [base] takes the bytes [l], one after another. *)
Inductive sends (base : Z) : B -> list Z -> B -> Prop :=
| sends_nil b : sends base b [] b
| sends_cons b c l b1 b2 : transmit base c b = Ret (tt, b1) -> sends base b1 l b2 -> sends base b (c :: l) b2.

Lemma sends_app base b l1 l2 b2 : sends base b (l1 ++ l2) b2 -> exists b1, sends base b l1 b1 /\ sends base b1 l2 b2.
Proof.
  revert b. induction l1 as [|c l1 IH]; intros b Hs; [exists b; split; [constructor|done]|].
  inversion Hs as [|? ? ? b1 ? Ht Hl]; subst. destruct (IH _ Hl) as (b3 & H1 & H2). exists b3. split; [by econstructor|done].
Qed.

Lemma direct_putc_ok c s b : current_ok (s_kernel s) -> transmit BASE_ADDR_OFF c (d_bus (s_dev s)) = Ret (tt, b) ->
  serial_direct_putc c s = Ret (at_bus b s).
Proof. intros C Ht. unfold serial_direct_putc. by rewrite (on_device_page_ok _ _ _ _ C Ht). Qed.

(** What a device access leaves alone. *)
Lemma file_at_bus file b (s : sys) : file_at file (at_bus b s) = file_at file s.
Proof.
  unfold file_at, at_bus, s_kernel, mapped. simpl. destruct (_ && _); [|done]. simpl. unfold deref.
  destruct (decide (file_proc file = current_proc (v_kernel (s_vm s)))) as [->|Hne].
  - rewrite lookup_alter_eq. by destruct (k_procs (v_kernel (s_vm s)) !! current_proc (v_kernel (s_vm s))).
  - by rewrite lookup_alter_ne.
Qed.

(** The bytes of a request, and those that its port sends: the second one leaves
    out the escape character. *)
Definition out_bytes (r : vfs_async_req_t) (buf : list Z) : list Z :=
  take (Z.to_nat (r_size r)) (drop (Z.to_nat (buf_off (r_vbuff r))) buf).

Definition port_base (reg : @vfs_reg St (drivers B)) : Z := if negb (vnode_data reg =? 0) then BASE_ADDR2_OFF else BASE_ADDR_OFF.

Definition port_bytes (reg : @vfs_reg St (drivers B)) (l : list Z) : list Z :=
  if negb (vnode_data reg =? 0) then filter (fun c => c <> 27) l else l.

(** After the loop: the bus has moved on. *)
Definition after_send (b : B) (s s' : sys) : Prop := (s' = s /\ b = d_bus (s_dev s)) \/ s' = at_bus b s.

Lemma after_send_step b b' (s s1 : sys) : after_send b s s1 -> after_send b' s (at_bus b' s1).
Proof. intros [[-> ->]| ->]; right; [done|apply at_bus_twice]. Qed.

Lemma after_send_same b s s1 : after_send b s s1 -> current_ok (s_kernel s) ->
  (forall file, file_at file s1 = file_at file s) /\ s_vfs s1 = s_vfs s /\ s_bufs s1 = s_bufs s /\ d_bus (s_dev s1) = b /\
  current_ok (s_kernel s1) /\ s_semas s1 = s_semas s.
Proof.
  intros [[-> ->]| ->] C; [done|]. split_and!; try done; [intros; apply file_at_bus|by apply at_bus_current|apply at_bus_semas].
Qed.

Lemma sends_nil_inv base b b' : sends base b [] b' -> b' = b.
Proof. by inversion 1. Qed.

Lemma sends_one_inv base b c b' : sends base b [c] b' -> transmit base c b = Ret (tt, b').
Proof. inversion 1 as [|? ? ? ? ? ? Hl]; subst. by inversion Hl; subst. Qed.

(** One byte of the request. *)
Lemma send_cell_ok r i f reg buf c s b b' s1 : current_ok (s_kernel s) -> file_at (r_file r) s = Ret f -> inode_reg (f_inode f) s = Ret reg ->
  s_bufs s !! buf_base (r_vbuff r) = Some buf -> arr_get buf (buf_off (r_vbuff r) + i) = Ret c -> after_send b s s1 ->
  sends (port_base reg) b (port_bytes reg [c]) b' -> exists s2, send_cell r i s1 = Ret s2 /\ after_send b' s s2.
Proof.
  intros C Hf Hg Hb Hc A Hs. destruct (after_send_same b s s1 A C) as (Ef & Ev & Eb & Ed & C1 & _). unfold send_cell.
  rewrite Ef, Hf. cbn [mbind outcome_bind]. assert (inode_reg (f_inode f) s1 = Ret reg) as -> by (unfold inode_reg in *; by rewrite Ev).
  cbn [mbind outcome_bind]. unfold buf_byte. rewrite Eb, (deref_Some _ _ _ Hb). cbn [mbind outcome_bind]. rewrite Hc. cbn [mbind outcome_bind].
  unfold port_base, port_bytes in Hs. destruct (negb (vnode_data reg =? 0)).
  - unfold serial2_direct_putc. rewrite filter_cons, filter_nil in Hs. destruct (Z.eqb_spec c 27) as [->|Hne].
    + rewrite decide_False in Hs by tauto. apply sends_nil_inv in Hs as ->. eauto.
    + rewrite decide_True in Hs by done. apply sends_one_inv in Hs. rewrite <-Ed in Hs.
      rewrite (on_device_page_ok _ _ _ _ C1 Hs). eexists. split; [done|]. by eapply after_send_step.
  - apply sends_one_inv in Hs. rewrite <-Ed in Hs. rewrite (direct_putc_ok _ _ _ C1 Hs). eexists. split; [done|]. by eapply after_send_step.
Qed.

(** A write to the file of a serial port: the port receives exactly the
    bytes of the request, in order (the second port without escape
    characters), each when its status register says that it is ready;
    the result is the number of bytes of the request and the caller is woken. *)
Theorem serial_write_served s rq r c f reg buf b2 : current_ok (s_kernel s) -> waited rq r c s ->
  r_type r = VFS_ASYNC_TYPE_WRITE -> 0 <= r_size r < 32768 -> file_at (r_file r) s = Ret f -> inode_reg (f_inode f) s = Ret reg ->
  s_bufs s !! buf_base (r_vbuff r) = Some buf -> 0 <= buf_off (r_vbuff r) -> buf_off (r_vbuff r) + r_size r <= zlen buf ->
  sends (port_base reg) (d_bus (s_dev s)) (port_bytes reg (out_bytes r buf)) b2 ->
  exists s', serial_submit_request rq s = Ret (0, s') /\ d_bus (s_dev s') = b2 /\
    reqs (s_vfs s') !! rq = Some (set_res (r_size r) r) /\ s_semas s' !! r_fin_sema r = Some (i16 (c + 1)) /\ s_bufs s' = s_bufs s.
Proof.
  intros C [Hrq Hcb Hfs Hcnt] Ht Hn Hf Hg Hb Ho Hl Hs. unfold serial_submit_request. rewrite (deref_Some _ _ _ Hrq). cbn [mbind outcome_bind].
  rewrite Ht. cbn [negb Z.eqb VFS_ASYNC_TYPE_WRITE Pos.eqb].
  set (P i (s1 : sys) := exists b, after_send b s s1 /\ sends (port_base reg) b (port_bytes reg (drop (Z.to_nat i) (out_bytes r buf))) b2).
  destruct (for_loop_inv P (Z.to_nat (r_size r)) 0 (send_cell r) s) as (s1 & E & b & A & Hs1).
  - exists (d_bus (s_dev s)). split; [by left|done].
  - intros i s1 Hi (b & A & Hs1). destruct (arr_get_in buf (buf_off (r_vbuff r) + i)) as (x & Hx & Hx'); [lia|].
    assert (Hd : drop (Z.to_nat i) (out_bytes r buf) = x :: drop (Z.to_nat (i + 1)) (out_bytes r buf)).
    { replace (Z.to_nat (i + 1)) with (S (Z.to_nat i)) by lia. apply drop_S. unfold out_bytes. rewrite lookup_take_lt, lookup_drop by lia.
      rewrite <-Hx'. f_equal. lia. }
    assert (Hp : port_bytes reg (drop (Z.to_nat i) (out_bytes r buf)) =
              port_bytes reg [x] ++ port_bytes reg (drop (Z.to_nat (i + 1)) (out_bytes r buf))).
    { rewrite Hd. unfold port_bytes. destruct (negb _); [|done]. change (x :: ?l) with ([x] ++ l). apply filter_app. }
    rewrite Hp in Hs1. destruct (sends_app _ _ _ _ _ Hs1) as (b1 & H1 & H2).
    destruct (send_cell_ok r i f reg buf x s b b1 s1 C Hf Hg Hb Hx A H1) as (s2 & E2 & A2). exists s2. split; [done|]. by exists b1.
  - rewrite E. cbn [mbind outcome_bind]. rewrite drop_ge in Hs1 by (unfold out_bytes; rewrite length_take; lia).
    assert (b2 = b) as ->. { unfold port_bytes in Hs1. by destruct (negb _); apply sends_nil_inv in Hs1. }
    destruct (after_send_same b s s1 A C) as (_ & Ev & Eb & Ed & _ & Es). rewrite i16_small by lia.
    rewrite (finalize_ok rq _ s1 r c) by (rewrite ?Ev, ?Es; done || lia). cbn [mbind outcome_bind]. eexists. split; [done|].
    split_and!; [done| | |done]; apply lookup_insert_eq.
Qed.
End Serial.

(** ** Witness: a port that is always ready *)

Section Demo.
#[local] Existing Instance klist_store.

(** The hardware: the bytes written to the first and to the second port. *)
Instance serial_page : DevicePage (list Z * list Z) := {
  dev_read reg b := (2, b);
  dev_write reg x b := if reg =? TX_REG BASE_ADDR_OFF then (b.1 ++ [x], b.2) else (b.1, b.2 ++ [x]);
  dev_polls := 1%nat;
}.
Abbreviation demo_sys := (Sys.sys (store (list Z)) (drivers (list Z * list Z))).
Instance serial_uninit : Uninit := fun _ _ => 0.
Instance serial_others : Others (store (list Z)) (drivers (list Z * list Z)) := fun _ _ => Block.
Instance serial_callbacks : @Callbacks (store (list Z)) (drivers (list Z * list Z)) := fun _ _ _ => Fault.

Definition serial_reg : @vfs_reg (store (list Z)) (drivers (list Z * list Z)) := VfsReg 1 1 (fun _ _ s => Ret (0, s)) None None None.
Instance serial_regs : @VfsRegs (store (list Z)) (drivers (list Z * list Z)) := fun a => if a =? 3 then Some serial_reg else None.

Definition serial_req : vfs_async_req_t := Req 1 (file_ptr 5 0) VFS_ASYNC_TYPE_WRITE 0 77 3 0 50 0 0.

(** Process 5 writes three characters, one of them an escape, to the second port. *)
Definition serial_demo : demo_sys :=
  Sys (Vm (Kernel boot_store {[5 := set_p_open_files [ProcFile 40 0 0 0] (demo_thread 5)]} {[50 := 0]} ∅ 5 0 1 0x211 true false 0 0x11) ∅ 0)
    {[77 := [72; 27; 105; 0]]} (VfsState {[40 := Inode 41 0 0 9 INODE_TYPE_DEVICE]} {[9 := Vnode 1 3 0 0]} {[60 := serial_req]} 1 1 0) (MqState ∅ ∅ 0 0)
    (Drivers ([], []) (blockq_fields 32 12 demo_ring) ∅ ∅ 0 ∅ Tty.demo_tty 0 demo_ring 0 (TmpState 0 []) 0).

Lemma serial_write_served_witness :
  exists s', serial_submit_request 60 serial_demo = Ret (0, s') /\ d_bus (s_dev s') = ([], [72; 105]) /\ s_semas s' !! 50 = Some 1.
Proof.
  destruct (serial_write_served serial_demo 60 serial_req 0 (ProcFile 40 0 0 0) serial_reg [72; 27; 105; 0] ([], [72; 105]))
    as (s' & E & Hb & _ & Hs & _); try done.
  - intros _. eexists. split; [reflexivity|simpl; lia].
  - econstructor; [reflexivity|]. econstructor; [reflexivity|constructor].
  - by exists s'.
Defined.
End Demo.
