(* ===== verification/Log.v ===== *)
(** * The kernel log (kernel/libk/log.c, kernel/fs/sio.c, the wrappers of
      kernel/libk/kprintf.c)

    A line of the log is built in a local array and sent to the terminal, the
    serial port or both.  The functions for the early start print character by
    character.  [sio] is the device whose writes go to the log. *)

From S2P Require Import Prelude Interfaces Kmalloc KList Proc Sync CString Kernel Sched Virtual Vfs Sys Request Tmpfs Ringbuff Kprintf Tty Blockq Device Sd Console Serial.

Definition LOG_BUFF_SIZE : Z := 512.
Definition PRINTF_TTY_BUFFER_SIZE : Z := 512.
Definition LOG_TARGET_TTY : Z := 1.
Definition LOG_TARGET_SERIAL : Z := 2.
Definition SIO_ROOT_INODE : Z := -62.

(** The string literals of [internal_log] *)
Definition KERNEL_NAME : list Z := [107; 101; 114; 110; 101; 108; 0].
Definition WARNING_MARK : list Z := [123; 87; 125; 0].
Definition ERROR_MARK : list Z := [123; 69; 125; 0].
Definition INTD_MARK : list Z := [123; 73; 78; 84; 68; 125; 0].

(** "%d: %s[%s(%d)%s%s]: " *)
Definition log_items : list item :=
  [IDec; ILit 58; ILit 32; IStr; ILit 91; IStr; ILit 40; IDec; ILit 41; IStr; IStr; ILit 93; ILit 58; ILit 32].

Section Log.
Context {St B : Type} `{ListStore St} {junk : Uninit} {others : Others St (drivers B)} `{DevicePage B} {sign : CharSign}.
Abbreviation sys := (sys St (drivers B)).
Context {callbacks : @Callbacks St (drivers B)}.
Set Default Proof Using "Type".

(** ** The code *)

(** The loop over the characters of a string *)
Fixpoint put_string (put : Z -> sys -> outcome sys) (str : list Z) (s : sys) : outcome sys :=
  match str with
  | [] => Fault
  | c :: str => if c =? 0 then Ret s else s ← put c s; put_string put str s
  end.

Definition s_tty_putc (c : Z) (s : sys) : outcome sys := Ret (put_tty (Tty.tty_putc c (d_tty (s_dev s))) s).

Definition err_string (opt_err_level : Z) : list Z :=
  if opt_err_level =? 1 then WARNING_MARK
  else if opt_err_level =? 2 then ERROR_MARK
  else if opt_err_level =? 4 then INTD_MARK
  else [0].

(** [line_buff] *)
Definition line_text (at_ opt_fn_line : Z) : outcome (list Z) :=
  let line_buff := 0 :: fresh_bytes at_ 4 in
  if negb (opt_fn_line =? 0) then '(b, _) ← _utoa line_buff 0 (u16 opt_fn_line) 10; Ret b else Ret line_buff.

(** The text of a line in [log_buff], and its length up to the newline.  [at_] is
    the address of the local arrays; a null [opt_fn_name] is the empty string. *)
Definition log_line (at_ : Z) (msg opt_fn_name : list Z) (opt_fn_line opt_err_level : Z) (args : list arg) (s : sys) : outcome (list Z * Z) :=
  p ← deref (k_procs (s_kernel s)) (current_proc (s_kernel s));
  let thread_name := if scheduling_enabled (s_kernel s) then p_name p else KERNEL_NAME in
  line_buff ← line_text at_ opt_fn_line;
  '(log_buff, n1) ← vsprintf (fresh_bytes at_ 5) (fresh_bytes at_ LOG_BUFF_SIZE) (text_of log_items ++ [0])
    [AInt (i16 (sys_ticks (s_kernel s))); AStr (err_string opt_err_level); AStr thread_name; AInt (p_pid p); AStr opt_fn_name; AStr line_buff];
  '(rest, n2) ← vsprintf (fresh_bytes at_ 5) (drop (Z.to_nat n1) log_buff) msg args;
  log_buff ← strcpy (take (Z.to_nat n1) log_buff ++ rest) (n1 + n2) [10; 0] 0;
  Ret (log_buff, n1 + n2).

Definition internal_log (at_ : Z) (msg opt_fn_name : list Z) (opt_fn_line opt_err_level : Z) (args : list arg) (s : sys) : outcome sys :=
  '(log_buff, n) ← log_line at_ msg opt_fn_name opt_fn_line opt_err_level args s;
  s ← (if negb (Z.land (d_log (s_dev s)) LOG_TARGET_TTY =? 0) then
         if opt_err_level =? 4 then put_string s_tty_putc log_buff s
         else
           s ← tty_direct_write at_ (n + 1) (set_bufs (<[at_ := log_buff]> (s_bufs s)) s);
           Ret (set_bufs (delete at_ (s_bufs s)) s)
       else Ret s);
  if negb (Z.land (d_log (s_dev s)) LOG_TARGET_SERIAL =? 0) then put_string serial_direct_putc log_buff s else Ret s.

Definition log_set_target (target enable : Z) (s : sys) : sys :=
  set_log (if negb (enable =? 0) then Z.lor (d_log (s_dev s)) target else Z.land (d_log (s_dev s)) target) s.

Definition log_early_putc (c : Z) (s : sys) : outcome sys :=
  s ← (if negb (Z.land (d_log (s_dev s)) LOG_TARGET_SERIAL =? 0) then serial_direct_putc c s else Ret s);
  if negb (Z.land (d_log (s_dev s)) LOG_TARGET_TTY =? 0) then s_tty_putc c s else Ret s.

Definition log_early_puts : list Z -> sys -> outcome sys := put_string log_early_putc.

(** [seg] for [i = 3 - j] *)
Definition hex_char (x j : Z) : Z :=
  let seg := Z.land (Z.shiftr x ((3 - j) * 4)) 0xf in
  if seg <? 10 then 48 + seg else 65 + seg - 10.

Definition log_early_putx (x : Z) (s : sys) : outcome sys := for_loop 4 0 (fun j => log_early_putc (hex_char x j)) s.

(** [sprintf] is [vsprintf] of its arguments; [at_] is the address of the local
    array of [kprintf]. *)
Definition sprintf (alp buff fmt : list Z) (args : list arg) : outcome (list Z * Z) := vsprintf alp buff fmt args.

Definition kprintf (at_ : Z) (str : list Z) (args : list arg) (s : sys) : outcome (Z * sys) :=
  '(buff, res) ← vsprintf (fresh_bytes at_ 5) (fresh_bytes at_ PRINTF_TTY_BUFFER_SIZE) str args;
  s ← log_early_puts buff s;
  Ret (res, s).

(** *** sio.c *)

Definition sio_fs_get_inode : Z -> list Z -> sys -> outcome (Z * sys) := device_inode SIO_ROOT_INODE.

Definition sio_submit_request (at_ rq : Z) (s : sys) : outcome (Z * sys) :=
  r ← deref (reqs (s_vfs s)) rq;
  if negb (r_type r =? VFS_ASYNC_TYPE_WRITE) then Ret (- ENOSUP, s)
  else
    buf ← deref (s_bufs s) (buf_base (r_vbuff r));
    s ← internal_log at_ [37; 115; 0] [0] 0 0 [AStr (drop (Z.to_nat (buf_off (r_vbuff r))) buf)] s;
    s ← vfs_async_finalize rq (i16 (r_size r)) s;
    Ret (0, s).

Definition sio_reg (at_ : Z) : @vfs_reg St (drivers B) := VfsReg 1 0 sio_fs_get_inode None (Some (sio_submit_request at_)) None.

(** ** The line *)

Lemma serial_string_ok str rest b2 s : Forall (fun c => c <> 0) str -> current_ok (s_kernel s) ->
  sends BASE_ADDR_OFF (d_bus (s_dev s)) str b2 -> exists s', put_string serial_direct_putc (str ++ 0 :: rest) s = Ret s' /\ after_send b2 s s'.
Proof.
  assert (forall str b s1, Forall (fun c => c <> 0) str -> current_ok (s_kernel s) -> after_send b s s1 -> sends BASE_ADDR_OFF b str b2 ->
    exists s', put_string serial_direct_putc (str ++ 0 :: rest) s1 = Ret s' /\ after_send b2 s s') as Hgen.
  { clear str. induction str as [|c str IH]; intros b s1 Hz C A Hs; cbn [app put_string].
    - apply sends_nil_inv in Hs as ->. eauto.
    - apply Forall_cons in Hz as [Hc Hz]. rewrite eqb_ne by done. inversion Hs as [|? ? ? b1 ? Ht Hl]; subst.
      destruct (after_send_same b s s1 A C) as (_ & _ & _ & Ed & C1 & _). rewrite <-Ed in Ht.
      rewrite (direct_putc_ok _ _ _ C1 Ht). cbn [mbind outcome_bind]. apply (IH b1); try done. by eapply after_send_step. }
  intros Hz C Hs. apply (Hgen str (d_bus (s_dev s)) s); try done. by left.
Qed.

Definition signed_text (z : Z) : list Z := (if z <? 0 then [45] else []) ++ num_text 10 (Z.abs z).

(** What a line starts with. *)
Definition prefix_of (ticks : Z) (err name : list Z) (pid : Z) (fn line : list Z) : list Z :=
  signed_text ticks ++ [58; 32] ++ err ++ [91] ++ name ++ [40] ++ signed_text pid ++ [41] ++ fn ++ line ++ [93; 58; 32].

Lemma render_log ticks err err' name name' pid fn fn' line line' : c_string err = Some err' -> c_string name = Some name' ->
  c_string fn = Some fn' -> c_string line = Some line' ->
  render log_items [AInt ticks; AStr err; AStr name; AInt pid; AStr fn; AStr line] = Some (prefix_of ticks err' name' pid fn' line').
Proof.
  intros E1 E2 E3 E4. unfold log_items. cbn [render render_item mbind option_bind]. rewrite E1. cbn [mbind option_bind]. rewrite E2.
  cbn [mbind option_bind]. rewrite E3. cbn [mbind option_bind]. rewrite E4. cbn [mbind option_bind]. done.
Qed.

Lemma c_string_of str rest : Forall (fun c => c <> 0) str -> c_string (str ++ 0 :: rest) = Some str.
Proof.
  induction str as [|c str IH]; intros Hz; [done|]. apply Forall_cons in Hz as [Hc Hz]. cbn [app c_string]. rewrite eqb_ne by done.
  by rewrite IH.
Qed.

Lemma splice_front {A} (l xs : list A) : splice l 0 xs = xs ++ drop (length xs) l.
Proof. done. Qed.

Lemma short_number n : 0 <= n < 10000 -> (length (num_text 10 n) < 5)%nat.
Proof.
  intros Hn. assert (Hall : forallb (fun n => (length (num_text 10 n) <? 5)%nat) (seqZ 0 10000) = true) by (vm_compute; reflexivity).
  rewrite forallb_forall in Hall. apply Nat.ltb_lt, Hall, list_elem_of_In, elem_of_seqZ. lia.
Qed.

Lemma number_chars n : Forall (fun c => c <> 0) (num_text 10 n).
Proof. eapply Forall_impl; [apply num_text_chars; lia|]. intros c Hc. simpl in Hc. lia. Qed.

Definition line_number (n : Z) : list Z := if n =? 0 then [] else num_text 10 n.

Lemma line_text_ok at_ n : 0 <= n < 10000 -> exists b, line_text at_ n = Ret b /\ c_string b = Some (line_number n) /\ zlen (line_number n) < 5.
Proof.
  intros Hn. unfold line_text, line_number. destruct (Z.eqb_spec n 0) as [->|Hz]; cbn [negb]; [eexists; split; [done|simpl; split; [done|lia]]|].
  pose proof (short_number n Hn) as Hs. rewrite u16_small by lia. rewrite _utoa_spec.
  - cbn [mbind outcome_bind]. eexists. split; [done|]. split; [|lia]. rewrite splice_front, <-app_assoc. apply c_string_of, number_chars.
  - lia.
  - lia.
  - lia.
  - cbn [length]. rewrite Nat2Z.inj_succ, length_fresh_bytes by lia. lia.
Qed.

(** The thread a line is attributed to, and a message. *)
Record log_call (p : proc) (name msg fn : list Z) (fn' : list Z) (line level : Z) (args : list arg) (ts : list Z) (s : sys) : Prop := {
  lc_proc : k_procs (s_kernel s) !! current_proc (s_kernel s) = Some p;
  lc_pid : is_i16 (p_pid p);
  lc_name : c_string (if scheduling_enabled (s_kernel s) then p_name p else KERNEL_NAME) = Some name;
  lc_fn : c_string fn = Some fn';
  lc_line : 0 <= line < 10000;
  lc_msg : exists items post, msg = text_of items ++ 0 :: post /\ Forall item_ok items /\ Forall arg_ok args /\ render items args = Some ts;
}.

(** The whole line, without the newline. *)
Definition line_of_log (p : proc) (name fn : list Z) (line level : Z) (ts : list Z) (s : sys) : list Z :=
  prefix_of (i16 (sys_ticks (s_kernel s))) (default [] (c_string (err_string level))) name (p_pid p) fn (line_number line) ++ ts.

Lemma err_string_text level : exists e, c_string (err_string level) = Some e /\ zlen e < 65536.
Proof. unfold err_string. repeat case_match; eexists; (split; [reflexivity|simpl; lia]). Qed.

Lemma log_line_ok at_ p name msg fn fn' line level args ts s : log_call p name msg fn fn' line level args ts s ->
  let text := line_of_log p name fn' line level ts s in
  zlen text + 1 < LOG_BUFF_SIZE -> exists rest, log_line at_ msg fn line level args s = Ret (text ++ 10 :: 0 :: rest, zlen text).
Proof using Type sign.
  intros [Hp Hpid Hname Hfn Hline (items & post & -> & Hok & Harg & Hren)] text Hfit. unfold log_line. unfold LOG_BUFF_SIZE in Hfit.
  rewrite (deref_Some _ _ _ Hp). cbn [mbind outcome_bind]. destruct (line_text_ok at_ line Hline) as (lb & -> & Hlb & Hlb5). cbn [mbind outcome_bind].
  destruct (err_string_text level) as (e & He & He2). set (pre := prefix_of (i16 (sys_ticks (s_kernel s))) e name (p_pid p) fn' (line_number line)).
  assert (Et : text = pre ++ ts) by (unfold text, line_of_log; by rewrite He). rewrite Et, length_app in Hfit. unfold LOG_BUFF_SIZE.
  assert (Hname2 : zlen name < 65536 /\ zlen fn' < 65536).
  { unfold pre, prefix_of in Hfit. rewrite !length_app in Hfit. lia. }
  rewrite (vsprintf_text _ _ log_items _ pre []).
  2: { by repeat constructor. }
  2: { repeat constructor; cbn [arg_ok]; rewrite ?He, ?Hname, ?Hfn, ?Hlb; try done; try lia; apply i16_range. }
  2: { by apply render_log. }
  2: { done. }
  2: { rewrite length_fresh_bytes by lia. lia. }
  cbn [mbind outcome_bind]. rewrite splice_front, <-app_assoc. set (r1 := drop _ _).
  assert (Hr1 : zlen r1 = 512 - (zlen pre + 1)).
  { pose proof (length_fresh_bytes at_ 512 ltac:(lia)) as HF. unfold r1. rewrite length_drop, length_app. simpl. lia. }
  rewrite Nat2Z.id, drop_app_length, take_app_length.
  rewrite (vsprintf_text _ _ items args ts post); try done.
  2: { simpl. lia. }
  cbn [mbind outcome_bind]. rewrite splice_front, <-app_assoc. set (r2 := drop _ _).
  assert (Hr2 : zlen r2 = zlen r1 - zlen ts).
  { unfold r2. rewrite length_drop, !length_app. cbn [length]. lia. }
  pose proof (strcpy_spec (pre ++ ts ++ [0] ++ r2) (zlen pre + zlen ts) [10; 0] 0 [10]) as Hcpy. rewrite decide_True in Hcpy.
  2: { rewrite !length_app. simpl. lia. }
  destruct Hcpy as (d & -> & -> & _); [apply (cstr_literal [10] []); by repeat constructor|lia|]. cbn [mbind outcome_bind].
  rewrite Et. exists (drop 1 r2). f_equal. f_equal; [|rewrite length_app; lia]. unfold splice.
  replace (Z.to_nat (zlen pre + zlen ts)) with (length (pre ++ ts)) by (rewrite length_app; lia).
  rewrite (app_assoc pre ts ([0] ++ r2)), take_app_length. rewrite drop_app_ge by (rewrite length_app; simpl; lia).
  rewrite (Nat.add_comm (length (pre ++ ts))), Nat.add_sub. done.
Qed.

(** C38. A line of the log: with the serial port as its only target, [internal_log]
    sends over the port, in order, the ticks since the start, the severity, the
    name and number of the current thread, the place in the source, the
    rendered message and a newline, as long as that fits into the 512 bytes of
    its buffer; nothing but the port changes. *)
Theorem log_line_sent at_ p name msg fn fn' line level args ts b2 s : log_call p name msg fn fn' line level args ts s ->
  let text := line_of_log p name fn' line level ts s in
  zlen text + 1 < LOG_BUFF_SIZE -> Forall (fun c => c <> 0) text -> current_ok (s_kernel s) ->
  Z.land (d_log (s_dev s)) LOG_TARGET_TTY = 0 -> Z.land (d_log (s_dev s)) LOG_TARGET_SERIAL <> 0 ->
  sends BASE_ADDR_OFF (d_bus (s_dev s)) (text ++ [10]) b2 ->
  exists s', internal_log at_ msg fn line level args s = Ret s' /\ after_send b2 s s'.
Proof using Type sign.
  intros Hcall text Hfit Hz C Ht Hser Hs. unfold internal_log.
  destruct (log_line_ok at_ _ _ _ _ _ _ _ _ _ _ Hcall Hfit) as (rest & ->). cbn [mbind outcome_bind]. rewrite Ht. cbn [negb Z.eqb mbind outcome_bind].
  rewrite eqb_ne by done. cbn [negb]. fold text. change (text ++ 10 :: 0 :: rest) with (text ++ [10] ++ 0 :: rest). rewrite app_assoc.
  apply serial_string_ok; try done. apply Forall_app. split; [done|]. by repeat constructor.
Qed.

(** Four hexadecimal digits. *)
Definition hex_value (c : Z) : Z := if c <? 58 then c - 48 else c - 65 + 10.

Lemma hex_char_value x j : 0 <= j <= 3 -> 0 <= x -> hex_value (hex_char x j) = x / 2 ^ ((3 - j) * 4) mod 16.
Proof.
  intros Hj Hx. unfold hex_char. rewrite Z.shiftr_div_pow2 by lia. change 0xf with (Z.ones 4). rewrite Z.land_ones by lia. change (2 ^ 4) with 16.
  set (d := x / _ mod 16). assert (0 <= d < 16) by (apply Z.mod_pos_bound; lia). unfold hex_value. destruct (Z.ltb_spec d 10).
  - destruct (Z.ltb_spec (48 + d) 58); lia.
  - destruct (Z.ltb_spec (65 + d - 10) 58); lia.
Qed.

Lemma putx_digits x : is_u16 x ->
  fold_left (fun acc j => acc * 16 + hex_value (hex_char x j)) [0; 1; 2; 3] 0 = x.
Proof.
  intros Hx. cbn [fold_left]. rewrite !hex_char_value by lia. change (2 ^ ((3 - 0) * 4)) with 4096. change (2 ^ ((3 - 1) * 4)) with 256.
  change (2 ^ ((3 - 2) * 4)) with 16. change (2 ^ ((3 - 3) * 4)) with 1. zlia.
Qed.

(** To switch one of two targets off leaves exactly that one on. *)
Lemma log_set_target_off (s : sys) : d_log (s_dev s) = Z.lor LOG_TARGET_TTY LOG_TARGET_SERIAL ->
  d_log (s_dev (log_set_target LOG_TARGET_TTY 0 s)) = LOG_TARGET_TTY.
Proof. intros E. unfold log_set_target. simpl. by rewrite E. Qed.

End Log.

(** ** Witness *)

Section Demo.
#[local] Existing Instance klist_store.
#[local] Existing Instance serial_page.
#[local] Existing Instance serial_uninit.
#[local] Existing Instance serial_others.
#[local] Existing Instance serial_callbacks.
Instance log_sign : CharSign := true.

Definition log_demo : Sys.sys (store (list Z)) (drivers (list Z * list Z)) := set_log LOG_TARGET_SERIAL
  (set_kernel (set_procs {[5 := Proc 5 PROC_STATE_RUNNABLE PROC_TYPE_KERNEL (p_proc_state (demo_thread 5)) (p_syscall_state (demo_thread 5))
     [105; 110; 105; 116; 0; 0; 0; 0; 0; 0; 0; 0; 0; 0; 0; 0] 0 [] 0 0 0 0 0 0]} (s_kernel serial_demo)) serial_demo).

Lemma port_takes l : forall r1 r2, sends BASE_ADDR_OFF (r1, r2) l (r1 ++ l, r2).
Proof.
  induction l as [|c l IH]; intros r1 r2; [rewrite app_nil_r; constructor|]. econstructor; [reflexivity|]. simpl.
  replace (r1 ++ c :: l) with ((r1 ++ [c]) ++ l) by (by rewrite <-app_assoc). apply IH.
Qed.

(** "0: [init(5)]: hi" *)
Lemma log_line_sent_witness :
  exists s', internal_log 0xf100 [104; 105; 0] [0] 0 0 [] log_demo = Ret s' /\
    d_bus (s_dev s') = ([48; 58; 32; 91; 105; 110; 105; 116; 40; 53; 41; 93; 58; 32; 104; 105; 10], []).
Proof.
  destruct (log_line_sent 0xf100 (default (demo_thread 5) (k_procs (s_kernel log_demo) !! 5)) [105; 110; 105; 116] [104; 105; 0] [0] [] 0 0 [] [104; 105]
    ([48; 58; 32; 91; 105; 110; 105; 116; 40; 53; 41; 93; 58; 32; 104; 105; 10], []) log_demo) as (s' & E & A).
  - split; try done. exists [ILit 104; ILit 105], []. split_and!; try done. by repeat constructor.
  - vm_compute. reflexivity.
  - vm_compute. repeat constructor; discriminate.
  - intros _. eexists. split; [reflexivity|simpl; lia].
  - done.
  - done.
  - apply (port_takes _ [] []).
  - exists s'. split; [done|]. destruct A as [[_ E']| ->]; [discriminate E'|done].
Defined.

(** A write of the log device whose bytes have no null byte behind them reads past
    the buffer. *)
Lemma sio_reads_past :
  sio_submit_request 0xf100 60 (set_bufs {[77 := [72; 105; 33]]} log_demo) = Fault.
Proof. vm_compute. reflexivity. Qed.
End Demo.
