(* ===== verification/I2c.v ===== *)
(** * The I2C bus (kernel/driver/i2c.c)

    One byte is read from or written to a register of a device on the bus.  The
    file of the bus keeps the device and the register for each descriptor; they
    are set through [i2c_fio_ctl]. *)

From S2P Require Import Prelude Interfaces Kmalloc KList Proc Sync CString Kernel Sched Virtual Vfs Sys Request Tmpfs Ringbuff Tty Blockq Device Sd Console Serial.

Definition I2C_BASE : Z := 0x4c.
Definition ADDR_REG : Z := I2C_BASE + 0x0.
Definition REG_REG : Z := I2C_BASE + 0x2.
Definition DATA_REG : Z := I2C_BASE + 0x4.
Definition I2C_STATUS_REG : Z := I2C_BASE + 0x6.
Definition I2C_BUSY_BIT : Z := 0x1.
Definition ERR_BIT : Z := 0x2.
Definition F_DRIVER_I2C_ADDRESS : Z := 0x100.
Definition F_DRIVER_I2C_REGISTER : Z := 0x101.
Definition I2C_ROOT_INODE : Z := -63.
Definition sizeof_i2c_drv_dat : Z := 4.

Section I2c.
Context {St B : Type} `{ListStore St} {junk : Uninit} {others : Others St (drivers B)} `{DevicePage B} {sign : CharSign}.
Abbreviation sys := (sys St (drivers B)).
Context {callbacks : @Callbacks St (drivers B)}.
Set Default Proof Using "Type".

(** ** The code *)

(** The register accesses of [i2c_write] and [i2c_read] *)
Definition bus_write (addr reg data : Z) (b : B) : outcome (unit * B) :=
  b ← poll I2C_STATUS_REG I2C_BUSY_BIT false b;
  Ret (tt, dev_write I2C_STATUS_REG 0 (dev_write DATA_REG data (dev_write REG_REG reg (dev_write ADDR_REG addr b)))).

Definition bus_read (addr reg : Z) (b : B) : outcome (Z * B) :=
  b ← poll I2C_STATUS_REG I2C_BUSY_BIT false b;
  let b := dev_write I2C_STATUS_REG 0 (dev_write REG_REG reg (dev_write ADDR_REG addr b)) in
  b ← poll I2C_STATUS_REG I2C_BUSY_BIT false b;
  let '(res, b) := dev_read DATA_REG b in
  let '(status, b) := dev_read I2C_STATUS_REG b in
  Ret (if negb (Z.land status ERR_BIT =? 0) then -1 else u8 res, b).

Definition i2c_write (addr reg data : Z) (s : sys) : outcome sys :=
  '(_, s) ← on_device_page (bus_write (u8 (Z.shiftl addr 1)) reg data) s; Ret s.

Definition i2c_read (addr reg : Z) (s : sys) : outcome (Z * sys) :=
  on_device_page (bus_read (Z.lor (u8 (Z.shiftl addr 1)) 1) reg) s.

Definition i2c_fs_get_inode : Z -> list Z -> sys -> outcome (Z * sys) := device_inode I2C_ROOT_INODE.

(** [if (!file->driver_data) file->driver_data = kmalloc(sizeof(struct i2c_drv_dat));] *)
Definition need_data (file : Z) (s : sys) : outcome sys :=
  f ← file_at file s;
  if f_driver_data f =? 0 then
    '(p, s) ← s_kmalloc sizeof_i2c_drv_dat s;
    let s := set_i2c (<[p := I2cDat (u16 (uninit p 0)) (u16 (uninit p 2))]> (d_i2c (s_dev s))) s in
    set_file file (ProcFile (f_inode f) (f_offset f) (f_fcntl_flags f) p) s
  else Ret s.

(** [(struct i2c_drv_dat* ) file->driver_data] *)
Definition data_of (file : Z) (s : sys) : outcome (Z * i2c_drv_dat) :=
  f ← file_at file s;
  dat ← deref (d_i2c (s_dev s)) (f_driver_data f);
  Ret (f_driver_data f, dat).

Definition i2c_submit_request (rq : Z) (s : sys) : outcome (Z * sys) :=
  r ← deref (reqs (s_vfs s)) rq;
  s ← need_data (r_file r) s;
  if negb (r_size r =? 0) then
    '(_, dat) ← data_of (r_file r) s;
    s ← (if r_type r =? VFS_ASYNC_TYPE_WRITE then
           x ← buf_byte (r_vbuff r) 0 s;
           s ← i2c_write (u8 (i2c_addr dat)) (u8 (i2c_reg dat)) x s;
           vfs_async_finalize rq 1 s
         else if r_type r =? VFS_ASYNC_TYPE_READ then
           '(rd, s) ← i2c_read (u8 (i2c_addr dat)) (u8 (i2c_reg dat)) s;
           if rd <? 0 then vfs_async_finalize rq 0 s
           else
             s ← store_bytes (r_vbuff r) [u8 rd] s;
             vfs_async_finalize rq 1 s
         else Ret s);
    Ret (0, s)
  else
    s ← vfs_async_finalize rq 0 s;
    Ret (0, s).

Definition i2c_fio_ctl (inode type number file vpid : Z) (s : sys) : outcome (Z * sys) :=
  if file =? 0 then Ret (- ENOSUP, s)
  else
    s ← need_data file s;
    '(p, dat) ← data_of file s;
    if type =? F_DRIVER_I2C_ADDRESS then
      Ret (i16 (i2c_addr dat), set_i2c (<[p := I2cDat number (i2c_reg dat)]> (d_i2c (s_dev s))) s)
    else if type =? F_DRIVER_I2C_REGISTER then
      Ret (i16 (i2c_reg dat), set_i2c (<[p := I2cDat (i2c_addr dat) number]> (d_i2c (s_dev s))) s)
    else Ret (- ENOSUP, s).

Definition i2c_vfs_reg : @vfs_reg St (drivers B) := VfsReg 1 0 i2c_fs_get_inode None (Some i2c_submit_request) (Some i2c_fio_ctl).

(** ** Transfers *)

(** The descriptor [file] has its data at [p]. *)
Record i2c_file (file p : Z) (dat : i2c_drv_dat) (s : sys) : Prop := {
  if_data : exists f, file_at file s = Ret f /\ f_driver_data f = p;
  if_nonzero : p <> 0;
  if_dat : d_i2c (s_dev s) !! p = Some dat;
}.

Lemma i2c_file_ready file p dat s : i2c_file file p dat s -> need_data file s = Ret s /\ data_of file s = Ret (p, dat).
Proof.
  intros [(f & Hf & Hp) Hz Hd]. unfold need_data, data_of. rewrite Hf. cbn [mbind outcome_bind]. rewrite Hp, eqb_ne by done.
  by rewrite (deref_Some _ _ _ Hd).
Qed.

(** Setting the device or the register of a descriptor. *)
Lemma i2c_fio_ctl_ok inode vpid type n file p dat s : file <> 0 -> i2c_file file p dat s ->
  type = F_DRIVER_I2C_ADDRESS \/ type = F_DRIVER_I2C_REGISTER ->
  let dat' := if type =? F_DRIVER_I2C_ADDRESS then I2cDat n (i2c_reg dat) else I2cDat (i2c_addr dat) n in
  exists old s', i2c_fio_ctl inode type n file vpid s = Ret (old, s') /\ i2c_file file p dat' s' /\
    s' = set_i2c (<[p := dat']> (d_i2c (s_dev s))) s.
Proof.
  intros Hz F Ht. pose proof (i2c_file_ready _ _ _ _ F) as [E1 E2]. destruct F as [Hf Hp Hd]. unfold i2c_fio_ctl. rewrite eqb_ne by done.
  rewrite E1. cbn [mbind outcome_bind]. rewrite E2. cbn [mbind outcome_bind].
  destruct Ht as [-> | ->]; cbn [Z.eqb F_DRIVER_I2C_ADDRESS F_DRIVER_I2C_REGISTER Pos.eqb]; cbv zeta;
    (eexists _, _; split; [done|]; split; [|done]; split; [done|done|apply lookup_insert_eq]).
Qed.

(** A transfer on the I2C bus.  After the device [a] and the register [g] of
    a descriptor have been set, a write request hands the hardware the
    address byte [2 a], the register and the byte of the caller and starts
    the transfer; a read request hands it [2 a + 1] and the register, starts
    the transfer, waits for its end and stores the byte received.  The result
    is 1, or 0 when the hardware reports an error on a read, and then
    nothing is stored. *)
Theorem i2c_transfer inode vpid a g file p dat s rq r c buf : file <> 0 -> i2c_file file p dat s -> is_u8 a -> is_u8 g ->
  waited rq r c s -> r_file r = file -> r_size r <> 0 -> current_ok (s_kernel s) ->
  s_bufs s !! buf_base (r_vbuff r) = Some buf -> 0 <= buf_off (r_vbuff r) < zlen buf ->
  exists o1 s1 o2 s2, i2c_fio_ctl inode F_DRIVER_I2C_ADDRESS a file vpid s = Ret (o1, s1) /\
    i2c_fio_ctl inode F_DRIVER_I2C_REGISTER g file vpid s1 = Ret (o2, s2) /\
    (forall x b, r_type r = VFS_ASYNC_TYPE_WRITE -> arr_get buf (buf_off (r_vbuff r)) = Ret x ->
       bus_write (u8 (2 * a)) g x (d_bus (s_dev s)) = Ret (tt, b) ->
       exists s', i2c_submit_request rq s2 = Ret (0, s') /\ d_bus (s_dev s') = b /\ s_bufs s' = s_bufs s /\
         reqs (s_vfs s') !! rq = Some (set_res 1 r) /\ s_semas s' !! r_fin_sema r = Some (i16 (c + 1))) /\
    (forall v b, r_type r = VFS_ASYNC_TYPE_READ -> bus_read (Z.lor (u8 (2 * a)) 1) g (d_bus (s_dev s)) = Ret (v, b) ->
       exists s', i2c_submit_request rq s2 = Ret (0, s') /\ d_bus (s_dev s') = b /\
         s_bufs s' = (if v <? 0 then s_bufs s else s_bufs (stored 0 (r_vbuff r) [u8 v] s)) /\
         reqs (s_vfs s') !! rq = Some (set_res (if v <? 0 then 0 else 1) r) /\ s_semas s' !! r_fin_sema r = Some (i16 (c + 1))).
Proof.
  intros Hz F Ha Hg [Hrq Hcb Hfs Hcnt] Hfile Hsz C Hb Ho.
  destruct (i2c_fio_ctl_ok inode vpid F_DRIVER_I2C_ADDRESS a file p dat s Hz F (or_introl eq_refl)) as (o1 & s1 & E1 & F1 & Es1).
  destruct (i2c_fio_ctl_ok inode vpid F_DRIVER_I2C_REGISTER g file p _ s1 Hz F1 (or_intror eq_refl)) as (o2 & s2 & E2 & F2 & Es2).
  exists o1, s1, o2, s2. split; [done|]. split; [done|]. clear E1 E2. cbn [Z.eqb F_DRIVER_I2C_ADDRESS F_DRIVER_I2C_REGISTER Pos.eqb i2c_addr i2c_reg] in *.
  destruct (i2c_file_ready _ _ _ _ F2) as [E1 E2].
  assert (Hrq2 : reqs (s_vfs s2) !! rq = Some r) by (by rewrite Es2, Es1).
  assert (C2 : current_ok (s_kernel s2)) by (by rewrite Es2, Es1).
  assert (Hb2 : s_bufs s2 = s_bufs s) by (by rewrite Es2, Es1). assert (Hd2 : d_bus (s_dev s2) = d_bus (s_dev s)) by (by rewrite Es2, Es1).
  assert (Hs2 : s_semas s2 = s_semas s) by (by rewrite Es2, Es1). clear Es1 Es2 F F1 F2.
  assert (Hsh : Z.shiftl a 1 = 2 * a) by (rewrite Z.shiftl_mul_pow2; lia).
  split; intros x b Ht; unfold i2c_submit_request; rewrite (deref_Some _ _ _ Hrq2); cbn [mbind outcome_bind]; rewrite Hfile, E1; cbn [mbind outcome_bind];
    rewrite (eqb_ne (r_size r)) by done; cbn [negb]; rewrite E2; cbn [mbind outcome_bind i2c_addr i2c_reg]; rewrite Ht;
    cbn [Z.eqb VFS_ASYNC_TYPE_WRITE VFS_ASYNC_TYPE_READ Pos.eqb]; rewrite (u8_small a), (u8_small g) by done.
  - intros Hx Hw. unfold buf_byte. rewrite Hb2, (deref_Some _ _ _ Hb). cbn [mbind outcome_bind]. rewrite Z.add_0_r, Hx. cbn [mbind outcome_bind].
    unfold i2c_write. rewrite Hsh, <-Hd2 in *. rewrite (on_device_page_ok _ _ _ _ C2 Hw). cbn [mbind outcome_bind].
    change (set_bus b (set_vm (mapped ILLEGAL_PAGE (s_vm s2)) s2)) with (at_bus b s2).
    rewrite (finalize_ok rq 1 (at_bus b s2) r c) by (done || lia || by rewrite at_bus_semas, Hs2). cbn [mbind outcome_bind].
    eexists. split; [done|]. split_and!; try done; apply lookup_insert_eq.
  - intros Hr. unfold i2c_read. rewrite Hsh, <-Hd2 in *. rewrite (on_device_page_ok _ _ _ _ C2 Hr). cbn [mbind outcome_bind].
    change (set_bus b (set_vm (mapped ILLEGAL_PAGE (s_vm s2)) s2)) with (at_bus b s2). destruct (x <? 0).
    + rewrite (finalize_ok rq 0 (at_bus b s2) r c) by (done || lia || by rewrite at_bus_semas, Hs2). cbn [mbind outcome_bind].
      eexists. split; [done|]. split_and!; try done; apply lookup_insert_eq.
    + rewrite store_bytes_ok by (exists buf; change (s_bufs (at_bus b s2)) with (s_bufs s2); rewrite Hb2; simpl; split; [done|lia]). cbn [mbind outcome_bind].
      assert (Est : stored 0 (r_vbuff r) [u8 x] (at_bus b s2) = set_bufs (s_bufs (stored 0 (r_vbuff r) [u8 x] s)) (at_bus b s2)).
      { unfold stored. rewrite Z.eqb_refl. change (s_bufs (at_bus b s2)) with (s_bufs s2). by rewrite Hb2, Hb. }
      rewrite Est. set (s3 := set_bufs _ _). assert (Hs3 : s_semas s3 = s_semas s) by (unfold s3; rewrite <-Hs2; exact (at_bus_semas b s2)).
      rewrite (finalize_ok rq 1 s3 r c) by (done || lia || by rewrite Hs3). cbn [mbind outcome_bind].
      eexists. split; [done|]. split_and!; try done; apply lookup_insert_eq.
Qed.
End I2c.

(** ** Witness: registers that keep what is written to them *)

Section Demo.
#[local] Existing Instance klist_store.
Instance i2c_page : DevicePage (gmap Z Z) := {
  dev_read reg b := (default 0 (b !! reg), b);
  dev_write reg x b := <[reg := x]> b;
  dev_polls := 1%nat;
}.
Abbreviation demo_sys := (Sys.sys (store (list Z)) (drivers (gmap Z Z))).
Instance i2c_uninit : Uninit := fun _ _ => 0.
Instance i2c_others : Others (store (list Z)) (drivers (gmap Z Z)) := fun _ _ => Block.
Instance i2c_callbacks : @Callbacks (store (list Z)) (drivers (gmap Z Z)) := fun _ _ _ => Fault.

Definition i2c_req : vfs_async_req_t := Req 1 (file_ptr 5 0) VFS_ASYNC_TYPE_READ 0 77 1 0 50 0 0.

(** Process 5 reads from register 3 of device 32; the data register holds 42. *)
Definition i2c_demo : demo_sys :=
  Sys (Vm (Kernel boot_store {[5 := set_p_open_files [ProcFile 40 0 0 90] (demo_thread 5)]} {[50 := 0]} ∅ 5 0 1 0x211 true false 0 0x11) ∅ 0)
    {[77 := [0; 0]]} (VfsState ∅ ∅ {[60 := i2c_req]} 1 1 0) (MqState ∅ ∅ 0 0)
    (Drivers {[DATA_REG := 42]} (blockq_fields 32 12 demo_ring) ∅ ∅ 0 {[90 := I2cDat 0 0]} Tty.demo_tty 0 demo_ring 0 (TmpState 0 []) 0).

Lemma i2c_transfer_witness :
  exists o1 s1 o2 s2 s', i2c_fio_ctl 0 F_DRIVER_I2C_ADDRESS 32 (file_ptr 5 0) 0 i2c_demo = Ret (o1, s1) /\
    i2c_fio_ctl 0 F_DRIVER_I2C_REGISTER 3 (file_ptr 5 0) 0 s1 = Ret (o2, s2) /\ i2c_submit_request 60 s2 = Ret (0, s') /\
    s_bufs s' !! 77 = Some [42; 0] /\ d_bus (s_dev s') !! ADDR_REG = Some 65.
Proof.
  destruct (i2c_transfer 0 0 32 3 (file_ptr 5 0) 90 (I2cDat 0 0) i2c_demo 60 i2c_req 0 [0; 0])
    as (o1 & s1 & o2 & s2 & E1 & E2 & _ & Hr); try done.
  - split; [|discriminate|reflexivity]. eexists. split; reflexivity.
  - intros _. eexists. split; [reflexivity|simpl; lia].
  - destruct (Hr 42 (<[I2C_STATUS_REG := 0]> (<[REG_REG := 3]> (<[ADDR_REG := 65]> {[DATA_REG := 42]}))) eq_refl) as (s' & E & Hb & Hbuf & _).
    + vm_compute. reflexivity.
    + exists o1, s1, o2, s2, s'. split_and!; [done|done|done|by rewrite Hbuf|by rewrite Hb].
Defined.
End Demo.
