(* ===== verification/Rootfs.v ===== *)
(** * The root file system (kernel/fs/rootfs.c)

    A list of named entries on which the other file systems are mounted.  An
    entry is found by its full path; its absolute path is found by its
    number. *)

From S2P Require Import Prelude Interfaces Kmalloc KList Proc Sync CString Kernel Sched Virtual Vfs Sys Request Tmpfs Ringbuff Tty Blockq Device Dirtree Sd Console.

Definition IN_LIST : Z := -64.     (** [static struct list in_list] *)
Definition sizeof_ent : Z := 4.

(** The addresses of the tables of operations *)
Definition ROOTFS_REG : Z := -70.
Definition TMP_REG : Z := -71.
Definition TTY_REG : Z := -72.
Definition SIO_REG : Z := -73.
Definition KBD_REG : Z := -74.
Definition SERIAL_REG_1 : Z := -75.
Definition SERIAL_REG_2 : Z := -76.
Definition I2C_REG : Z := -77.
Definition TAR_REG : Z := -78.

(** "dev/", "tmp/", "tty", "log", "kbd", "ttyS0", "ttyS1", "i2c" *)
Definition S_DEV : list Z := [100; 101; 118; 47; 0].
Definition S_TMP : list Z := [116; 109; 112; 47; 0].
Definition S_TTY : list Z := [116; 116; 121; 0].
Definition S_LOG : list Z := [108; 111; 103; 0].
Definition S_KBD : list Z := [107; 98; 100; 0].
Definition S_TTYS0 : list Z := [116; 116; 121; 83; 48; 0].
Definition S_TTYS1 : list Z := [116; 116; 121; 83; 49; 0].
Definition S_I2C : list Z := [105; 50; 99; 0].

Section Rootfs.
Context {St B : Type} `{ListStore St} {junk : Uninit} {others : Others St (drivers B)} {sign : CharSign}.
Abbreviation sys := (sys St (drivers B)).
Context {regs : @VfsRegs St (drivers B)}.
Set Default Proof Using "Type".

(** ** The code *)

Definition full_path (path_prefix name : list Z) (s : sys) : outcome (Z * sys) :=
  pl ← strlen path_prefix 0;
  nl ← strlen name 0;
  '(fp, s) ← kmalloc_bytes (pl + nl + 1) s;
  b ← deref (s_bufs s) fp;
  b ← strcpy b 0 path_prefix 0;
  b ← strcpy b pl name 0;
  Ret (fp, set_bufs (<[fp := b]> (s_bufs s)) s).

Definition rootfs_create_entry (self : Z) (path_prefix name : list Z) (type : Z) (s : sys) : outcome (Z * sys) :=
  '(e, s) ← s_kmalloc sizeof_ent s;
  '(i, s) ← s_kmalloc sizeof_inode s;
  '(fp, s) ← full_path path_prefix name s;
  let fid := d_ffid (s_dev s) in
  let s := set_ents (<[e := Ent fp i]> (d_ents (s_dev s))) (u16 (fid + 1)) s in
  pl ← strlen path_prefix 0;
  let s := set_inodes (<[i := Inode (ptr_add 0 fp pl) fid 0 self type]> (inodes (s_vfs s))) s in
  st ← ls_append (s_store s) IN_LIST e;
  Ret (i, s_set_store st s).

Fixpoint find_entry (xs : list (Z * Z)) (path : list Z) (s : sys) : outcome Z :=
  match xs with
  | [] => Ret 0
  | (_, e) :: xs =>
    en ← deref (d_ents (s_dev s)) e;
    fb ← deref (s_bufs s) (full_path_of en);
    c ← strcmp path 0 fb 0;
    if c =? 0 then Ret (ent_inode en) else find_entry xs path s
  end.

Definition rootfs_vfs_find_inode (self : Z) (path : list Z) (s : sys) : outcome (Z * sys) :=
  xs ← ls_nodes (s_store s) IN_LIST;
  r ← find_entry xs path s;
  if r =? 0 then Ret (0, s)
  else
    i ← deref (inodes (s_vfs s)) r;
    Ret (r, set_inodes (<[r := Inode (i_name i) (i_fid i) (i_size i) self (i_type i)]> (inodes (s_vfs s))) s).

Fixpoint find_fid (xs : list (Z * Z)) (fid : Z) (s : sys) : outcome Z :=
  match xs with
  | [] => Ret 0
  | (_, e) :: xs =>
    en ← deref (d_ents (s_dev s)) e;
    i ← deref (inodes (s_vfs s)) (ent_inode en);
    if i_fid i =? fid then Ret (full_path_of en) else find_fid xs fid s
  end.

Definition rootfs_vfs_absolute_path (inode : Z) (s : sys) : outcome Z :=
  i ← deref (inodes (s_vfs s)) inode;
  xs ← ls_nodes (s_store s) IN_LIST;
  find_fid xs (i_fid i) s.

Definition rootfs_reg : @vfs_reg St (drivers B) := VfsReg 0 0 rootfs_vfs_find_inode (Some rootfs_vfs_absolute_path) None None.

(** A function of tmp.c, which works on its own variables *)
Definition on_tmp (f : Sys.sys St tmp_state -> outcome (Sys.sys St tmp_state)) (s : sys) : outcome sys :=
  t ← f (Sys (s_vm s) (s_bufs s) (s_vfs s) (s_mq s) (d_tmp (s_dev s)));
  Ret (set_tmp (s_dev t) (Sys (s_vm t) (s_bufs t) (s_vfs t) (s_mq t) (s_dev s))).

(** [vfs_mount(reg, rootfs_create_entry(self, prefix, name, type))] *)
Definition mount_entry (reg self : Z) (path_prefix name : list Z) (type : Z) (s : sys) : outcome sys :=
  '(i, s) ← rootfs_create_entry self path_prefix name type s;
  '(_, s) ← vfs_mount reg i s;
  Ret s.

(** The last arguments are those of the thread that [kbd_vfs_init] makes. *)
Definition rootfs_create (self : Z) (junk_proc : proc) (name : list Z) (entry : Z) (s : sys) : outcome sys :=
  let s := s_set_store (ls_init (s_store s) IN_LIST) s in
  '(_, s) ← rootfs_create_entry self [0] [0] INODE_TYPE_DIRECTORY s;
  '(_, s) ← rootfs_create_entry self [0] S_DEV INODE_TYPE_DIRECTORY s;
  s ← on_tmp tmp_init s;
  s ← mount_entry TMP_REG self [0] S_TMP INODE_TYPE_DIRECTORY s;
  s ← mount_entry TTY_REG self S_DEV S_TTY INODE_TYPE_FILE s;
  s ← mount_entry SIO_REG self S_DEV S_LOG INODE_TYPE_FILE s;
  s ← kbd_vfs_init junk_proc name entry s;
  s ← mount_entry KBD_REG self S_DEV S_KBD INODE_TYPE_FILE s;
  s ← mount_entry SERIAL_REG_1 self S_DEV S_TTYS0 INODE_TYPE_FILE s;
  s ← mount_entry SERIAL_REG_2 self S_DEV S_TTYS1 INODE_TYPE_FILE s;
  mount_entry I2C_REG self S_DEV S_I2C INODE_TYPE_FILE s.

(** ** The table it keeps

    The entries in the order of their creation, each a path, the inode and the
    number. *)

Record row := Row { w_path : list Z; w_inode : Z; w_fid : Z }.

Record entry_ok (s : sys) (own : gset Z) (e : Z) (w : row) : Prop := {
  eo_ent : exists fp fb, d_ents (s_dev s) !! e = Some (Ent fp (w_inode w)) /\ s_bufs s !! fp = Some fb /\ cstr fb 0 (w_path w) /\ fp ∈ own;
  eo_inode : exists i, inodes (s_vfs s) !! w_inode w = Some i /\ i_fid i = w_fid w;
  eo_own : e ∈ own /\ w_inode w ∈ own /\ 0 < w_inode w;
  eo_chars : chars (w_path w);
}.

Record root_rep (s : sys) (m : gmap Z (list (Z * Z))) (own : gset Z) (T : list row) : Prop := {
  rr_rep : ls_rep (s_store s) m own;
  rr_list : exists xs, m !! IN_LIST = Some xs /\ Forall2 (entry_ok s own) xs.*2 T;
  rr_fids : w_fid <$> T = seqZ 0 (zlen T);
  rr_ffid : d_ffid (s_dev s) = zlen T;
  rr_few : zlen T < 65536;
}.

Fixpoint first_row (path : list Z) (T : list row) : Z :=
  match T with [] => 0 | w :: T => if decide (path = w_path w) then w_inode w else first_row path T end.

Lemma find_entry_ok s own path pb : cstr pb 0 path -> chars path -> forall xs T, Forall2 (entry_ok s own) xs.*2 T ->
  find_entry xs pb s = Ret (first_row path T).
Proof.
  intros Hpb Hch xs. induction xs as [|[n e] xs IH]; intros T HT; inversion HT as [|? w ? T' Hw HT' E1 E2]; subst; [done|].
  destruct Hw as [(fp & fb & He & Hfb & Hc & _) _ _ Hwc]. cbn [find_entry]. simpl in He. rewrite (deref_Some _ _ _ He). cbn [mbind outcome_bind].
  cbn [full_path_of ent_inode]. rewrite (deref_Some _ _ _ Hfb). cbn [mbind outcome_bind]. destruct (strcmp_spec pb 0 fb 0 path (w_path w) 0 Hpb Hc Hch Hwc) as (z & zn & -> & _ & Hz & _); [done|].
  cbn [mbind outcome_bind first_row]. destruct (Z.eqb_spec z 0) as [E|E]; case_decide as Hd; try tauto. by apply IH.
Qed.

(** The entry with a number. *)
Lemma find_fid_ok s own w : forall xs T, Forall2 (entry_ok s own) xs.*2 T -> w ∈ T -> NoDup (w_fid <$> T) ->
  exists fp fb, find_fid xs (w_fid w) s = Ret fp /\ s_bufs s !! fp = Some fb /\ cstr fb 0 (w_path w).
Proof.
  intros xs. induction xs as [|[n e] xs IH]; intros T HT Hin Hnd; inversion HT as [|? w' ? T' Hw HT' E1 E2]; subst; [by inversion Hin|].
  destruct Hw as [(fp & fb & He & Hfb & Hc & _) (i & Hi & Hf) _ _]. cbn [find_fid]. simpl in He. rewrite (deref_Some _ _ _ He). cbn [mbind outcome_bind].
  cbn [ent_inode full_path_of]. rewrite (deref_Some _ _ _ Hi). cbn [mbind outcome_bind]. rewrite Hf. rewrite fmap_cons in Hnd. apply NoDup_cons in Hnd as [Hn Hnd].
  apply elem_of_cons in Hin as [->|Hin].
  - rewrite Z.eqb_refl. by exists fp, fb.
  - rewrite eqb_ne; [by apply (IH T')|]. intros E. apply Hn. rewrite E. by apply list_elem_of_fmap_2.
Qed.

(** *** A new entry *)

Lemma entry_ok_frame s s' own own' e w : entry_ok s own e w -> own ⊆ own' ->
  (forall x, x ∈ own -> d_ents (s_dev s') !! x = d_ents (s_dev s) !! x /\ s_bufs s' !! x = s_bufs s !! x /\
     inodes (s_vfs s') !! x = inodes (s_vfs s) !! x) -> entry_ok s' own' e w.
Proof.
  intros [(fp & fb & He & Hfb & Hc & Hfp) (i & Hi & Hf) (Oe & Oi & Op) Hch] Ho E. split; [| |split_and!; try done; by apply Ho|done].
  - exists fp, fb. rewrite (proj1 (E e Oe)), (proj1 (proj2 (E fp Hfp))). split_and!; try done. by apply Ho.
  - exists i. by rewrite (proj2 (proj2 (E _ Oi))).
Qed.

Lemma strlen_chars b str : cstr b 0 str -> zlen str < 65536 -> strlen b 0 = Ret (zlen str).
Proof.
  intros Hc Hl. pose proof (cstr_length _ _ _ Hc). unfold strlen. rewrite (strlen_loop_spec _ _ _ str) by (done || lia).
  by rewrite u16_small by lia.
Qed.

Lemma full_path_ok s m own pb pre nb name : ls_rep (s_store s) m own -> cstr pb 0 pre -> cstr nb 0 name -> zlen pre + zlen name < 65535 ->
  match full_path pb nb s with
  | Ret (fp, s') => (fp ∉ own) /\ 0 < fp /\ exists st b, s' = set_bufs (<[fp := b]> (s_bufs s)) (s_set_store st s) /\ cstr b 0 (pre ++ name) /\
      ls_rep st m ({[fp]} ∪ own)
  | Panic msg => msg = HEAP_FULL
  | _ => False
  end.
Proof using Type sign.
  intros L Hp Hn Hl. unfold full_path. rewrite (strlen_chars _ _ Hp), (strlen_chars _ _ Hn) by lia. cbn [mbind outcome_bind]. unfold kmalloc_bytes.
  pose proof (s_kmalloc_ok s m own (zlen pre + zlen name + 1) L) as Hk. destruct (s_kmalloc _ s) as [[fp s1]| | | |]; try done.
  destruct Hk as (Hfp & Hno & L1 & Es1). cbn [mbind outcome_bind]. rewrite (deref_Some _ _ (fresh_bytes fp (zlen pre + zlen name + 1))) by apply lookup_insert_eq.
  cbn [mbind outcome_bind]. set (b0 := fresh_bytes fp _).
  assert (Hb0 : zlen b0 = zlen pre + zlen name + 1) by (unfold b0; rewrite length_fresh_bytes; lia).
  pose proof (strcpy_spec b0 0 pb 0 pre Hp ltac:(lia)) as X1. rewrite decide_True in X1 by lia. destruct X1 as (d1 & -> & E1 & Hd1 & _). cbn [mbind outcome_bind].
  pose proof (strcpy_spec d1 (zlen pre) nb 0 name Hn ltac:(lia)) as X2. rewrite decide_True in X2 by lia. destruct X2 as (d2 & -> & E2 & _). cbn [mbind outcome_bind].
  split; [done|]. split; [lia|]. exists (s_store s1), d2. split_and!; [|subst d1 d2|done].
  - rewrite Es1. unfold set_bufs. simpl. by rewrite insert_insert_eq.
  - pose proof (splice_over b0 pre [0] (name ++ [0])) as Eo. rewrite Eo by (rewrite ?length_app; simpl; lia). rewrite app_assoc.
    apply cstr_splice; [lia|rewrite length_app; lia|]. destruct Hp as (? & ? & _ & _ & ?), Hn as (? & ? & _ & _ & ?). by apply Forall_app.
Qed.

Lemma create_entry_ok s m own T self pb pre nb name type : root_rep s m own T -> cstr pb 0 pre -> cstr nb 0 name -> chars (pre ++ name) ->
  zlen pre + zlen name < 65535 -> zlen T < 65535 ->
  match rootfs_create_entry self pb nb type s with
  | Ret (i, s') => exists m' own', root_rep s' m' own' (T ++ [Row (pre ++ name) i (zlen T)]) /\ own ⊆ own' /\
      (forall l, l <> IN_LIST -> m' !! l = m !! l)
  | Panic msg => msg = HEAP_FULL
  | _ => False
  end.
Proof using Type sign.
  intros [L (xs & Hxs & HT) Hfids Hffid Hfew] Hp Hn Hch Hl Hlt. unfold rootfs_create_entry.
  pose proof (s_kmalloc_ok s m own sizeof_ent L) as K1. destruct (s_kmalloc sizeof_ent s) as [[e s1]| | | |]; try done. destruct K1 as (He & Hne & L1 & Es1).
  cbn [mbind outcome_bind]. pose proof (s_kmalloc_ok s1 m _ sizeof_inode L1) as K2. destruct (s_kmalloc sizeof_inode s1) as [[i s2]| | | |]; try done.
  destruct K2 as (Hi & Hni & L2 & Es2). cbn [mbind outcome_bind].
  pose proof (full_path_ok s2 m _ pb pre nb name L2 Hp Hn Hl) as K3. destruct (full_path pb nb s2) as [[fp s3]| | | |]; try done.
  destruct K3 as (Hnf & Hfp & st & b & Es3 & Hb & L3). cbn [mbind outcome_bind]. rewrite (strlen_chars _ _ Hp) by lia. cbn [mbind outcome_bind].
  set (s4 := set_inodes _ _). set (own3 := {[fp]} ∪ ({[i]} ∪ ({[e]} ∪ own))) in *.
  assert (L4 : ls_rep (s_store s4) m own3) by (unfold s4; rewrite Es3; exact L3).
  pose proof (ls_append_safe _ _ _ IN_LIST e L4 ltac:(by eexists)) as Hsafe. destruct (ls_append (s_store s4) IN_LIST e) as [st'| | | |] eqn:Ea; try done.
  cbn [mbind outcome_bind]. destruct (ls_append_ok _ _ _ _ _ _ _ L4 Hxs Ea) as (node & Hnode & L5).
  exists (<[IN_LIST := xs ++ [(node, e)]]> m), own3. set (s5 := s_set_store st' s4).
  assert (Ed : d_ents (s_dev s5) = <[e := Ent fp i]> (d_ents (s_dev s))) by (unfold s5, s4; rewrite Es3, Es2, Es1; done).
  assert (Eb : s_bufs s5 = <[fp := b]> (s_bufs s)) by (unfold s5, s4; rewrite Es3, Es2, Es1; done).
  assert (Ei : inodes (s_vfs s5) = <[i := Inode (ptr_add 0 fp (zlen pre)) (zlen T) 0 self type]> (inodes (s_vfs s))).
  { unfold s5, s4. rewrite Es3, Es2, Es1. simpl. by rewrite Hffid. }
  assert (Ef : d_ffid (s_dev s5) = u16 (zlen T + 1)) by (unfold s5, s4; rewrite Es3, Es2, Es1; simpl; by rewrite Hffid).
  split; [|split; [clear; set_solver|intros l Hl'; by rewrite lookup_insert_ne]]. split.
  - exact L5.
  - exists (xs ++ [(node, e)]). split; [apply lookup_insert_eq|]. rewrite fmap_app. apply Forall2_app.
    + eapply Forall2_impl; [exact HT|]. intros e' w Hw. apply (entry_ok_frame s s5 own own3 e' w Hw); [clear; set_solver|].
      intros x Hx. rewrite Ed, Eb, Ei. split_and!; rewrite lookup_insert_ne; try done; intros <-; [by apply Hne|clear -Hnf Hx; set_solver|clear -Hni Hx; set_solver].
    + constructor; [|constructor]. split; cbn [w_inode w_path w_fid snd].
      * exists fp, b. rewrite Ed, Eb, !lookup_insert_eq. split_and!; try done. clear; set_solver.
      * eexists. rewrite Ei, lookup_insert_eq. split; reflexivity.
      * split_and!; [clear; set_solver..|lia].
      * done.
  - rewrite fmap_app, Hfids, length_app. cbn [length]. rewrite Nat2Z.inj_add, seqZ_app by lia. done.
  - rewrite Ef, length_app, u16_small by lia. simpl. lia.
  - rewrite length_app. simpl. lia.
Qed.

Lemma first_row_elem path T : first_row path T = 0 \/ exists w, w ∈ T /\ w_inode w = first_row path T.
Proof.
  induction T as [|w T IH]; [by left|]. simpl. case_decide; [right; exists w; split; [by left|done]|].
  destruct IH as [?|(w' & Hw & E)]; [by left|right]. exists w'. split; [by right|done].
Qed.

Lemma entry_elem s own w (xs : list (Z * Z)) T : Forall2 (entry_ok s own) xs.*2 T -> w ∈ T -> exists i, inodes (s_vfs s) !! w_inode w = Some i /\ i_fid i = w_fid w.
Proof.
  intros HT Hw. apply list_elem_of_lookup in Hw as [k Hk]. destruct (Forall2_lookup_r _ _ _ _ _ HT Hk) as (e & _ & [_ Hi _ _]). exact Hi.
Qed.

Lemma find_inode_ok s m own T self path pb : root_rep s m own T -> cstr pb 0 path -> chars path ->
  exists s', rootfs_vfs_find_inode self pb s = Ret (first_row path T, s') /\ root_rep s' m own T.
Proof.
  intros R Hpb Hch. pose proof R as [L (xs & Hxs & HT) Hfids Hffid Hfew]. unfold rootfs_vfs_find_inode. rewrite (ls_nodes_ok _ _ _ _ _ L Hxs).
  cbn [mbind outcome_bind]. rewrite (find_entry_ok s own path pb Hpb Hch xs T HT). cbn [mbind outcome_bind].
  destruct (Z.eqb_spec (first_row path T) 0) as [->|Hne]; [by exists s|]. destruct (first_row_elem path T) as [?|(w & Hw & E)]; [done|]. rewrite <-E.
  destruct (entry_elem s own w xs T HT Hw) as (i & Hi & Hf). rewrite (deref_Some _ _ _ Hi). cbn [mbind outcome_bind].
  eexists. split; [done|]. split; try done. exists xs. split; [done|]. eapply Forall2_impl; [exact HT|]. intros e' w' [He' (i' & Hi' & Hf') Ho' Hc'].
  split; try done. simpl. destruct (decide (w_inode w' = w_inode w)) as [Ew|Hw'].
  - rewrite Ew, lookup_insert_eq. eexists. split; [done|]. simpl. rewrite Ew in Hi'. congruence.
  - rewrite lookup_insert_ne by done. eauto.
Qed.

Lemma absolute_path_ok s m own T w : root_rep s m own T -> w ∈ T ->
  exists fp fb, rootfs_vfs_absolute_path (w_inode w) s = Ret fp /\ s_bufs s !! fp = Some fb /\ cstr fb 0 (w_path w).
Proof.
  intros [L (xs & Hxs & HT) Hfids Hffid Hfew] Hw. unfold rootfs_vfs_absolute_path.
  destruct (entry_elem s own w xs T HT Hw) as (i & Hi & Hf). rewrite (deref_Some _ _ _ Hi). cbn [mbind outcome_bind].
  rewrite (ls_nodes_ok _ _ _ _ _ L Hxs). cbn [mbind outcome_bind]. rewrite Hf. apply (find_fid_ok s own w xs T HT Hw). rewrite Hfids. apply NoDup_seqZ.
Qed.

Lemma root_rep_empty s m own : ls_rep (s_store s) m own -> d_ffid (s_dev s) = 0 ->
  root_rep (s_set_store (ls_init (s_store s) IN_LIST) s) (<[IN_LIST := []]> m) own [].
Proof.
  intros L Hf. split; try done.
  - by apply ls_init_ok.
  - exists []. split; [apply lookup_insert_eq|constructor].
Qed.

(** C25. The root file system refines a table from paths to inodes.
    [rootfs_create_entry] adds a row for the prefix and the name together and
    keeps the other rows; afterwards the search for a path returns the first
    inode of the table with that path, or nothing, and the absolute path of
    the inode of any row is the path of that row. *)
Theorem rootfs_refines_table s m own T self pb pre nb name type : root_rep s m own T -> cstr pb 0 pre -> cstr nb 0 name -> chars (pre ++ name) ->
  zlen pre + zlen name < 65535 -> zlen T < 65535 ->
  match rootfs_create_entry self pb nb type s with
  | Ret (i, s') => let T' := T ++ [Row (pre ++ name) i (zlen T)] in
      exists m' own', root_rep s' m' own' T' /\ own ⊆ own' /\ (forall l, l <> IN_LIST -> m' !! l = m !! l) /\
      (forall path b self', cstr b 0 path -> chars path ->
         exists s2, rootfs_vfs_find_inode self' b s' = Ret (first_row path T', s2) /\ root_rep s2 m' own' T') /\
      (forall w, w ∈ T' -> exists fp fb, rootfs_vfs_absolute_path (w_inode w) s' = Ret fp /\ s_bufs s' !! fp = Some fb /\ cstr fb 0 (w_path w))
  | Panic msg => msg = HEAP_FULL
  | _ => False
  end.
Proof using Type sign.
  intros R Hp Hn Hch Hl Hlt. pose proof (create_entry_ok s m own T self pb pre nb name type R Hp Hn Hch Hl Hlt) as X.
  destruct (rootfs_create_entry self pb nb type s) as [[i s']| | | |]; try done. destruct X as (m' & own' & R' & Ho & Hm).
  exists m', own'. split_and!; try done; [intros path b self' Hb Hc; by apply find_inode_ok|intros w Hw; by eapply absolute_path_ok].
Qed.

End Rootfs.

(** ** Witness: the entry of the terminal *)

Section Demo.
#[local] Existing Instance klist_store.
#[local] Existing Instance console_uninit.
#[local] Existing Instance console_others.
Instance rootfs_sign : CharSign := true.

Definition rootfs_demo : Sys.sys (store (list Z)) (drivers unit) := console_demo (ls_init boot_store IN_LIST) 0 0 0 0.

Lemma rootfs_refines_table_witness :
  exists i s' s2, rootfs_create_entry 7 S_DEV S_TTY INODE_TYPE_FILE rootfs_demo = Ret (i, s') /\
    rootfs_vfs_find_inode 9 [100; 101; 118; 47; 116; 116; 121; 0] s' = Ret (i, s2) /\
    rootfs_vfs_find_inode 9 [100; 101; 118; 0] s' = Ret (0, s').
Proof.
  assert (Hchars : chars [100; 101; 118; 47; 116; 116; 121]) by (repeat constructor; (discriminate || lia)).
  pose proof (rootfs_refines_table rootfs_demo (<[IN_LIST := []]> ∅) ∅ [] 7 S_DEV [100; 101; 118; 47] S_TTY [116; 116; 121] INODE_TYPE_FILE) as X.
  destruct (rootfs_create_entry 7 S_DEV S_TTY INODE_TYPE_FILE rootfs_demo) as [[i s']| | | |] eqn:E.
  2-5: exfalso; assert (match rootfs_create_entry 7 S_DEV S_TTY INODE_TYPE_FILE rootfs_demo with Ret _ => true | _ => false end = true) as Hc
         by (vm_compute; reflexivity); rewrite E in Hc; discriminate Hc.
  destruct X as (m' & own' & _ & _ & _ & Hfind & _); try done.
  - exact (root_rep_empty (console_demo boot_store 0 0 0 0) ∅ ∅ boot_store_rep eq_refl).
  - apply (cstr_literal [100; 101; 118; 47] []). by repeat constructor.
  - apply (cstr_literal [116; 116; 121] []). by repeat constructor.
  - destruct (Hfind [100; 101; 118; 47; 116; 116; 121] [100; 101; 118; 47; 116; 116; 121; 0] 9) as (s2 & E2 & _); [|done|].
    { apply (cstr_literal [100; 101; 118; 47; 116; 116; 121] []). by repeat constructor. }
    exists i, s', s2. split_and!; [done|done|]. clear Hfind E2. revert E. vm_compute. intros [= <- <-]. reflexivity.
Defined.
End Demo.
