(* ===== verification/Sysd.v ===== *)
(** * System calls (kernel/sys/sysd.c)

    [process_syscall] runs in the kernel thread of the calling process, with the
    saved user context in [current_proc->syscall_state]: the number of the call
    in register 0, its arguments in the other registers, the result in register
    0 again.  Registers are kept as their 16-bit patterns; [i16] is the value of
    one as the C type [int] of the field. *)

From S2P Require Import Prelude Interfaces Kmalloc KList Proc Sync CString Kernel Sched Virtual Sys Signals Mq Vfs Request.

Definition SYS_DUMP : Z := 0x0.
Definition SYS_PRINT : Z := 0x1.
Definition SYS_OPEN : Z := 0x2.
Definition SYS_CLOSE : Z := 0x3.
Definition SYS_READ : Z := 0x4.
Definition SYS_WRITE : Z := 0x5.
Definition SYS_FCNTL : Z := 0x6.
Definition SYS_EXIT : Z := 0x7.
Definition SYS_PROCINFO : Z := 0x8.
Definition SYS_PGMAP : Z := 0x9.
Definition SYS_SIGSEND : Z := 0xb.
Definition SYS_SIGWAIT : Z := 0xc.
Definition SYS_SIGACTION : Z := 0xd.
Definition SYS_SIGHDLRRET : Z := 0xe.
Definition SYS_CLOCKTICKS : Z := 0xf.
Definition SYS_ALARMSET : Z := 0x10.
Definition SYS_MQCREAT : Z := 0x11.
Definition SYS_MQSEND : Z := 0x12.
Definition SYS_MQRECV : Z := 0x13.
Definition SYS_EXEC : Z := 0x14.

Definition F_FLAGS : Z := 0.
Definition F_DRIVER_CUSTOM_START : Z := 0x100.
Definition VFS_REG_FLAG_KERNEL_BUFFER_ONLY : Z := 1.
Definition sizeof_sys_proc_info : Z := 14.

(** The two halves of a long word. *)
Lemma lor_halves a b : 0 <= b < 65536 -> Z.lor (Z.shiftl a 16) b = a * 65536 + b.
Proof.
  intros Hb. change 65536 with (2 ^ 16). rewrite <-(Z.shiftl_mul_pow2 a 16) by lia.
  pose proof (Z.add_lor_land (Z.shiftl a 16) b).
  enough (E : Z.land (Z.shiftl a 16) b = 0) by lia. apply Z.bits_inj'. intros i Hi.
  rewrite Z.land_spec, Z.bits_0. destruct (Z.lt_ge_cases i 16).
  - by rewrite Z.shiftl_spec_low.
  - rewrite <-(Z.mod_small b (2 ^ 16)) by (simpl; lia). by rewrite Z.mod_pow2_bits_high, andb_false_r by lia.
Qed.

Lemma u32_shift_low x : is_u16 x -> u32 (Z.shiftl (u32 (i16 x)) 16) = Z.shiftl x 16.
Proof.
  intros Hx. rewrite !Z.shiftl_mul_pow2 by lia. change (2 ^ 16) with 65536. unfold i16, u32.
  rewrite (Z.mod_small x) by lia. destruct (Z.ltb_spec x 32768); zlia.
Qed.

Lemma u16_shift x : u16 (u32 (Z.shiftl x 16)) = u16 0.
Proof. rewrite Z.shiftl_mul_pow2 by lia. change (2 ^ 16) with 65536. zlia. Qed.

Lemma u32_low x : is_u16 x -> u32 (i16 x) = if x <? 32768 then x else Z.lor (Z.shiftl 0xffff 16) x.
Proof.
  intros Hx. rewrite lor_halves by lia. unfold i16, u32. rewrite (Z.mod_small x) by lia.
  destruct (Z.ltb_spec x 32768); zlia.
Qed.

Section Sysd.
Context {St D : Type} `{ListStore St} {junk : Uninit} {others : Others St D} {sign : CharSign}
  {order : ByteOrder} {regs_ : @VfsRegs St D} {callbacks : @Callbacks St D}.
Abbreviation sys := (sys St D).

(** The logger (kernel/libk/log.c), which formats its argument and writes to
    the console, and the program loader (kernel/proc/elf.c). *)
Context (log : list Z -> sys -> outcome sys) (elf_load : Z -> sys -> outcome (Z * sys)).

(** ** Access to the process and its registers *)

Definition cur (s : sys) : Z := current_proc (s_kernel s).
Definition get_proc (p : Z) (s : sys) : outcome proc := deref (k_procs (s_kernel s)) p.
Definition put_proc (p : Z) (x : proc) (s : sys) : sys :=
  let k := s_kernel s in set_kernel (set_procs (<[p := x]> (k_procs k)) k) s.

(** [state->regs[i]], for [state] the context of process [P]. *)
Definition reg (P i : Z) (s : sys) : outcome Z :=
  p ← get_proc P s; arr_get (regs (p_syscall_state p)) i.

Definition set_reg (P i x : Z) (s : sys) : outcome sys :=
  p ← get_proc P s;
  rs ← arr_set (regs (p_syscall_state p)) i (u16 x);
  Ret (put_proc P (set_p_syscall_state (set_regs rs (p_syscall_state p)) p) s).

(** [memcpy_from_userspace(kp, current_proc, ubuff, size)] into a kernel buffer *)
Definition from_user (kp ubuff size : Z) (s : sys) : outcome sys :=
  p ← get_proc (cur s) s;
  kb ← deref (s_bufs s) kp;
  '(kb, v) ← memcpy_from_userspace (fun _ => mem_pages (p_syscall_state p)) kb 0 ubuff size (s_vm s);
  Ret (set_bufs (<[kp := kb]> (s_bufs s)) (set_vm v s)).

(** [memcpy_to_userspace(current_proc, ubuff, kb, size)] *)
Definition to_user (ubuff : Z) (kb : list Z) (size : Z) (s : sys) : outcome sys :=
  p ← get_proc (cur s) s;
  v ← memcpy_to_userspace (mem_pages (p_syscall_state p)) ubuff (fun _ => kb) 0 size (s_vm s);
  Ret (set_vm v s).

(** ** The calls *)

Definition sys_print (P : Z) (s : sys) : outcome sys :=
  r1 ← reg P 1 s;
  r2 ← reg P 2 s;
  '(pb, s) ← kmalloc_bytes (r2 + 1) s;
  s ← from_user pb r1 (u16 (r2 + 1)) s;
  text ← deref (s_bufs s) pb;
  s ← log text s;
  kfree_bytes pb s.

Definition sys_open (P : Z) (s : sys) : outcome sys :=
  p ← get_proc (cur s) s;
  fd ← Fd.proc_free_fd p;
  if fd <? 0 then set_reg P 0 fd s
  else
    r1 ← reg P 1 s;
    r2 ← reg P 2 s;
    '(path, s) ← kmalloc_bytes r2 s;
    s ← from_user path r1 r2 s;
    text ← deref (s_bufs s) path;
    '(inode, s) ← vfs_find_inode text s;
    s ← kfree_bytes path s;
    let file := file_ptr (cur s) fd in
    f ← file_at file s;
    let '(rc, f) := Fd.vfs_open inode f in
    s ← set_file file f s;
    if rc <? 0 then set_reg P 0 rc s else set_reg P 0 fd s.

Definition sys_close (P : Z) (s : sys) : outcome sys :=
  r1 ← reg P 1 s;
  if negb (Fd.validate_fd (i16 r1)) then set_reg P 0 (- EBADFD) s
  else
    let file := file_ptr (cur s) (i16 r1) in
    f ← file_at file s;
    let '(r, f) := Fd.vfs_close f in
    s ← set_file file f s;
    set_reg P 0 r s.

Definition sys_read (P : Z) (s : sys) : outcome sys :=
  r1 ← reg P 1 s;
  if negb (Fd.validate_fd (i16 r1)) then set_reg P 0 (- EBADFD) s
  else
    let file := file_ptr (cur s) (i16 r1) in
    f ← file_at file s;
    rg ← inode_reg (f_inode f) s;
    r2 ← reg P 2 s;
    r3 ← reg P 3 s;
    '(ks_buff, s) ←
      (if negb (Z.land (reg_flags rg) VFS_REG_FLAG_KERNEL_BUFFER_ONLY =? 0)
       then kmalloc_bytes r3 s else Ret (0, s));
    p ← get_proc (cur s) s;
    '(r, s) ← vfs_read_blocking file (if negb (ks_buff =? 0) then 0 else p_pid p)
                (if negb (ks_buff =? 0) then ks_buff else r2) r3 s;
    s ← (if negb (ks_buff =? 0) then
           s ← (if 0 <? r then kb ← deref (s_bufs s) ks_buff; to_user r2 kb r s else Ret s);
           kfree_bytes ks_buff s
         else Ret s);
    set_reg P 0 r s.

Definition sys_write (P : Z) (s : sys) : outcome sys :=
  r1 ← reg P 1 s;
  if negb (Fd.validate_fd (i16 r1)) then set_reg P 0 (- EBADFD) s
  else
    let file := file_ptr (cur s) (i16 r1) in
    f ← file_at file s;
    rg ← inode_reg (f_inode f) s;
    r2 ← reg P 2 s;
    r3 ← reg P 3 s;
    '(ks_buff, s) ←
      (if negb (Z.land (reg_flags rg) VFS_REG_FLAG_KERNEL_BUFFER_ONLY =? 0) then
         '(kb, s) ← kmalloc_bytes r3 s;
         s ← from_user kb r2 r3 s;
         Ret (kb, s)
       else Ret (0, s));
    p ← get_proc (cur s) s;
    '(r, s) ← vfs_write_blocking file (if negb (ks_buff =? 0) then 0 else p_pid p)
                (if negb (ks_buff =? 0) then ks_buff else r2) r3 s;
    s ← (if negb (ks_buff =? 0) then kfree_bytes ks_buff s else Ret s);
    set_reg P 0 r s.

Definition sys_fcntl (P : Z) (s : sys) : outcome sys :=
  r1 ← reg P 1 s;
  if negb (Fd.validate_fd (i16 r1)) then set_reg P 0 (- EBADFD) s
  else
    let file := file_ptr (cur s) (i16 r1) in
    r2 ← reg P 2 s;
    r3 ← reg P 3 s;
    if i16 r2 =? F_FLAGS then
      s ← (if negb (r3 =? 65535) then
             f ← file_at file s;
             set_file file (ProcFile (f_inode f) (f_offset f) r3 (f_driver_data f)) s
           else Ret s);
      f ← file_at file s;
      set_reg P 0 (f_fcntl_flags f) s
    else if F_DRIVER_CUSTOM_START <=? i16 r2 then
      p ← get_proc (cur s) s;
      '(r, s) ← vfs_fio_ctl file (p_pid p) r2 r3 1 s;
      set_reg P 0 r s
    else set_reg P 0 (- EINVAL) s.

(** One turn of the loop over the 16 pages: the bit of a page that is mapped is
    set in the two masks. *)
Definition procinfo_page (p : proc) (i : Z) (masks : Z * Z) : outcome (Z * Z) :=
  m ← arr_get (mem_pages (p_syscall_state p)) i;
  g ← arr_get (prog_pages (p_syscall_state p)) i;
  Ret (if negb (m =? 0) && negb (m =? 0xff) then Z.lor masks.1 (Z.shiftl 1 i) else masks.1,
       if negb (g =? 0) then Z.lor masks.2 (Z.shiftl 1 i) else masks.2).

(** The words of [struct sys_proc_info]. *)
Definition proc_info (p : proc) : outcome (list Z) :=
  '(mem, prog) ← for_loop 16 0 (procinfo_page p) (0, 0);
  rc ← (if p_state p =? PROC_STATE_DEAD then arr_get (regs (p_proc_state p)) 0 else Ret 0);
  Ret [p_pid p; p_type p; p_state p; p_load_brk p; mem; prog; rc].

Definition sys_procinfo (P : Z) (s : sys) : outcome sys :=
  r1 ← reg P 1 s;
  target ← (if negb (r1 =? 0) then proc_by_pid (i16 r1) (s_kernel s) else Ret (cur s));
  if target =? 0 then set_reg P 0 (- ENOTFOUND) s
  else
    p ← get_proc target s;
    info ← proc_info p;
    r2 ← reg P 2 s;
    s ← to_user r2 (bytes_of info) sizeof_sys_proc_info s;
    set_reg P 0 0 s.

Definition sys_pgmap (P : Z) (s : sys) : outcome sys :=
  r1 ← reg P 1 s;
  if (i16 r1 <? 0) || (16 <=? i16 r1) then set_reg P 0 (- EINVAL) s
  else
    p ← get_proc (cur s) s;
    page ← arr_get (mem_pages (p_syscall_state p)) (i16 r1);
    if negb (page =? 0xff) && negb (page =? 0) then set_reg P 0 (- ENOTFOUND) s
    else
      let k := s_kernel s in
      pages ← arr_set (mem_pages (p_syscall_state p)) (i16 r1) (first_free_page k);
      let s := set_kernel (set_first_free_page (i16 (first_free_page k + 1)) k) s in
      let s := put_proc (cur s) (set_p_syscall_state (set_mem_pages pages (p_syscall_state p)) p) s in
      set_reg P 0 0 s.

Definition sys_sigaction (P : Z) (s : sys) : outcome sys :=
  p ← get_proc (cur s) s;
  s ← set_reg P 0 (p_sighandler p) s;
  r1 ← reg P 1 s;
  p ← get_proc (cur s) s;
  Ret (put_proc (cur s) (set_p_sighandler r1 p) s).

Definition sys_sigsend (P : Z) (s : sys) : outcome sys :=
  r1 ← reg P 1 s;
  target ← (if 0 <=? i16 r1 then proc_by_pid (i16 r1) (s_kernel s) else Ret (cur s));
  if target =? 0 then set_reg P 0 (- EINVAL) s
  else
    r2 ← reg P 2 s;
    r3 ← reg P 3 s;
    k ← signal_send target (Signal r2 r3) (s_kernel s);
    Ret (set_kernel k s).

Definition sys_sighdlrret (s : sys) : outcome sys :=
  v ← signal_handler_return (cur s) (s_vm s);
  Ret (set_vm v s).

Definition sys_sigwait (P : Z) (s : sys) : outcome sys :=
  p ← get_proc (cur s) s;
  if negb (p_sighandler p =? 0) && (p_signals_hold p =? 0) then set_reg P 0 (- EINVAL) s
  else
    s ← s_sema_down (signal_sema_of (cur s)) s;
    first ← ls_first (s_store s) (signal_queue_of (cur s));
    _ ← ASSERT (negb (first =? 0));
    g ← ls_val (s_store s) first;
    sg ← deref (k_signals (s_kernel s)) g;
    r1 ← reg P 1 s;
    s ← to_user r1 (bytes_of [sig_type sg; sig_number sg]) sizeof_signal s;
    s ← s_kfree g s;
    let s := set_kernel (set_signals (delete g (k_signals (s_kernel s))) (s_kernel s)) s in
    st ← ls_remove (s_store s) (signal_queue_of (cur s)) first;
    set_reg P 0 0 (s_set_store st s).

Definition sys_clockticks (P : Z) (s : sys) : outcome sys :=
  s ← set_reg P 0 (sys_ticks (s_kernel s)) s;
  set_reg P 1 (u32 (Z.shiftl (sys_ticks (s_kernel s)) 16)) s.

(** The registers are [int]: the conversion to [unsigned long] extends the sign. *)
Definition sys_alarmset (P : Z) (s : sys) : outcome sys :=
  r1 ← reg P 1 s;
  r2 ← reg P 2 s;
  let alarm_val := Z.lor (u32 (Z.shiftl (u32 (i16 r2)) 16)) (u32 (i16 r1)) in
  p ← get_proc (cur s) s;
  Ret (put_proc (cur s) (set_p_alarm_ticks alarm_val p) s).

Definition sys_mqcreat (P : Z) (s : sys) : outcome sys :=
  '(id, s) ← mqs_create s;
  set_reg P 0 id s.

Definition sys_mqsend (P : Z) (s : sys) : outcome sys :=
  r3 ← reg P 3 s;
  '(data, s) ← kmalloc_bytes r3 s;
  r6 ← reg P 6 s;
  s ← from_user data r6 r3 s;
  r1 ← reg P 1 s;
  r2 ← reg P 2 s;
  '(r, s) ← mq_push r1 (MqMsg 0 (i16 r2) r3 data) s;
  set_reg P 0 r s.

(** [kfree] does not clear the block: [res->data] is still there when it is
    read after [kfree(res)]. *)
Definition sys_mqrecv (P : Z) (s : sys) : outcome sys :=
  r6 ← reg P 6 s;
  r1 ← reg P 1 s;
  '(res, s) ← (if negb (r6 =? 0) then mq_pop_nonblock r1 s else mq_pop r1 s);
  if res =? 0 then set_reg P 0 (- EINVAL) s
  else
    m ← deref (msgs (s_mq s)) res;
    r2 ← reg P 2 s;
    r3 ← reg P 3 s;
    let size := Z.min (m_size m) r2 in
    s ← to_user r3 (bytes_of [m_id m; m_type m; m_size m]) 6 s;
    data ← deref (s_bufs s) (m_data m);
    s ← to_user (u16 (r3 + 6)) data size s;
    s ← s_kfree res s;
    s ← kfree_bytes (m_data m) s;
    set_reg P 0 0 (set_msgs (delete res (msgs (s_mq s))) s).

Definition sys_exit (P : Z) (s : sys) : outcome sys :=
  r1 ← reg P 1 s;
  s ← set_reg P 0 r1 s;
  p ← get_proc (cur s) s;
  let s := put_proc (cur s) (set_p_state PROC_STATE_DEAD p) s in
  k ← signal_send_sigchld (cur s) (s_kernel s);
  Ret (set_kernel k s).

Definition set_p_parent (x : Z) (p : proc) : proc :=
  Proc (p_pid p) (p_state p) (p_type p) (p_proc_state p) (p_syscall_state p) (p_name p)
    (p_kernel_stack_page p) (p_open_files p) x (p_sema_blocked p)
    (p_signals_hold p) (p_sighandler p) (p_load_brk p) (p_alarm_ticks p).

Definition sys_exec (P : Z) (s : sys) : outcome sys :=
  r1 ← reg P 1 s;
  if negb (Fd.validate_fd (i16 r1)) then set_reg P 0 (- EBADFD) s
  else
    let exe := file_ptr (cur s) (i16 r1) in
    '(child, s) ← elf_load exe s;
    if child =? 0 then set_reg P 0 (- EBADFD) s
    else
      p ← get_proc (cur s) s;
      c ← get_proc child s;
      let s := put_proc child (set_p_state PROC_STATE_RUNNABLE (set_p_parent (p_pid p) c)) s in
      c ← get_proc child s;
      set_reg P 0 (p_pid c) s.

(** [P] is the process whose context the argument [state] points to. *)
Definition process_syscall (P : Z) (s : sys) : outcome (Z * sys) :=
  sysno ← reg P 0 s;
  s ← (if sysno =? SYS_DUMP then Ret s
       else if sysno =? SYS_PRINT then sys_print P s
       else if sysno =? SYS_OPEN then sys_open P s
       else if sysno =? SYS_CLOSE then sys_close P s
       else if sysno =? SYS_READ then sys_read P s
       else if sysno =? SYS_WRITE then sys_write P s
       else if sysno =? SYS_FCNTL then sys_fcntl P s
       else if sysno =? SYS_PROCINFO then sys_procinfo P s
       else if sysno =? SYS_PGMAP then sys_pgmap P s
       else if sysno =? SYS_SIGACTION then sys_sigaction P s
       else if sysno =? SYS_SIGSEND then sys_sigsend P s
       else if sysno =? SYS_SIGHDLRRET then sys_sighdlrret s
       else if sysno =? SYS_SIGWAIT then sys_sigwait P s
       else if sysno =? SYS_CLOCKTICKS then sys_clockticks P s
       else if sysno =? SYS_ALARMSET then sys_alarmset P s
       else if sysno =? SYS_MQCREAT then sys_mqcreat P s
       else if sysno =? SYS_MQSEND then sys_mqsend P s
       else if sysno =? SYS_MQRECV then sys_mqrecv P s
       else if sysno =? SYS_EXIT then sys_exit P s
       else if sysno =? SYS_EXEC then sys_exec P s
       else set_reg P 0 (- EINVAL) s);
  Ret (1, s).

(** ** Registers *)

Definition with_reg (i x : Z) (p : proc) : proc :=
  set_p_syscall_state (set_regs (<[Z.to_nat i := u16 x]> (regs (p_syscall_state p))) (p_syscall_state p)) p.

Lemma get_proc_ok P s p : k_procs (s_kernel s) !! P = Some p -> get_proc P s = Ret p.
Proof. apply deref_Some. Qed.

Lemma reg_ok P i s p x :
  k_procs (s_kernel s) !! P = Some p -> 0 <= i -> regs (p_syscall_state p) !! Z.to_nat i = Some x ->
  reg P i s = Ret x.
Proof.
  intros Hp Hi Hx. unfold reg. rewrite (get_proc_ok _ _ _ Hp). cbn [mbind outcome_bind].
  by apply arr_get_Ret.
Qed.

Lemma set_reg_ok P i x s p :
  k_procs (s_kernel s) !! P = Some p -> 0 <= i < zlen (regs (p_syscall_state p)) ->
  set_reg P i x s = Ret (put_proc P (with_reg i x p) s).
Proof.
  intros Hp Hi. unfold set_reg. rewrite (get_proc_ok _ _ _ Hp). cbn [mbind outcome_bind].
  by rewrite arr_set_in.
Qed.

Lemma put_proc_put P x y s : put_proc P x (put_proc P y s) = put_proc P x s.
Proof. unfold put_proc, set_kernel, set_vm, set_procs. simpl. by rewrite insert_insert_eq. Qed.

Lemma put_proc_lookup P x s : k_procs (s_kernel (put_proc P x s)) !! P = Some x.
Proof. apply lookup_insert_eq. Qed.

(** The process that makes the call, with its argument in register 1. *)
Record caller (s : sys) (P : Z) (p : proc) (r1 : Z) : Prop := {
  ca_range : is_u16 P;
  ca_cur : cur s = P;
  ca_proc : k_procs (s_kernel s) !! P = Some p;
  ca_regs : length (regs (p_syscall_state p)) = 8%nat;
  ca_r1 : regs (p_syscall_state p) !! 1%nat = Some r1;
}.

Lemma caller_reg1 s P p r1 : caller s P p r1 -> reg P 1 s = Ret r1.
Proof. intros []. by eapply reg_ok. Qed.

Lemma caller_ret s P p r1 x : caller s P p r1 -> set_reg P 0 x s = Ret (put_proc P (with_reg 0 x p) s).
Proof. intros []. apply set_reg_ok; [done|lia]. Qed.

(** ** Descriptors *)

Lemma file_at_ok s P p r1 i f :
  caller s P p r1 -> 0 <= i -> p_open_files p !! Z.to_nat i = Some f -> file_at (file_ptr P i) s = Ret f.
Proof.
  intros [] Hi Hf. unfold file_at. rewrite file_ptr_proc, file_ptr_index by done.
  rewrite (deref_Some _ _ _ ca_proc0). cbn [mbind outcome_bind]. by apply arr_get_Ret.
Qed.

Lemma set_file_ok s P p r1 i f f' :
  caller s P p r1 -> 0 <= i -> p_open_files p !! Z.to_nat i = Some f ->
  set_file (file_ptr P i) f' s =
    Ret (put_proc P (set_p_open_files (<[Z.to_nat i := f']> (p_open_files p)) p) s).
Proof.
  intros [] Hi Hf. unfold set_file. rewrite file_ptr_proc, file_ptr_index by done.
  rewrite (deref_Some _ _ _ ca_proc0). cbn [mbind outcome_bind].
  apply lookup_lt_Some in Hf. by rewrite arr_set_in by lia.
Qed.

(** Closing a descriptor, for every value of the argument: a descriptor of
    the table that is open is closed and the result is 0; one that is not open,
    and a number below 0 or above 16, give EBADFD; nothing but the descriptor
    and the result register changes.  The number 16 passes the check and
    reaches past the table. *)
Theorem sys_close_spec s P p r1 :
  caller s P p r1 -> length (p_open_files p) = 16%nat ->
  let fd := i16 r1 in
  (fd < 0 \/ 16 < fd -> sys_close P s = Ret (put_proc P (with_reg 0 (- EBADFD) p) s)) /\
  (fd = 16 -> sys_close P s = Fault) /\
  (0 <= fd < 16 -> exists f, p_open_files p !! Z.to_nat fd = Some f /\
     let closed := ProcFile 0 (f_offset f) (f_fcntl_flags f) (f_driver_data f) in
     sys_close P s =
       Ret (put_proc P (if f_inode f =? 0 then with_reg 0 (- EBADFD) p
            else with_reg 0 0 (set_p_open_files (<[Z.to_nat fd := closed]> (p_open_files p)) p)) s)).
Proof.
  intros C Hl fd. unfold sys_close. rewrite (caller_reg1 _ _ _ _ C). cbn [mbind outcome_bind].
  fold fd. unfold Fd.validate_fd, PROC_MAX_FILES. rewrite (ca_cur _ _ _ _ C). split_and!.
  - intros Hfd. destruct (Z.ltb_spec 16 fd), (Z.ltb_spec fd 0); simpl; try lia; by rewrite (caller_ret _ _ _ _ _ C).
  - intros ->. destruct C. unfold file_at. rewrite file_ptr_proc, file_ptr_index by done.
    rewrite (deref_Some _ _ _ ca_proc0). cbn [mbind outcome_bind negb orb Z.ltb Z.compare Pos.compare].
    unfold arr_get. simpl. by rewrite lookup_ge_None_2 by (rewrite Hl; lia).
  - intros Hfd. destruct (Z.ltb_spec 16 fd), (Z.ltb_spec fd 0); simpl; try lia.
    destruct (lookup_lt_is_Some_2 (p_open_files p) (Z.to_nat fd)) as [f Hf]; [lia|].
    exists f. split; [done|]. rewrite (file_at_ok _ _ _ _ fd f C) by (done || lia). cbn [mbind outcome_bind].
    unfold Fd.vfs_close. destruct (Z.eqb_spec (f_inode f) 0).
    + rewrite (set_file_ok _ _ _ _ fd f f C) by (done || lia). cbn [mbind outcome_bind].
      rewrite list_insert_id by done.
      erewrite set_reg_ok by (apply put_proc_lookup || (simpl; rewrite (ca_regs _ _ _ _ C); lia)).
      rewrite put_proc_put. by destruct p.
    + rewrite (set_file_ok _ _ _ _ fd f _ C) by (done || lia). cbn [mbind outcome_bind].
      erewrite set_reg_ok by (apply put_proc_lookup || (simpl; rewrite (ca_regs _ _ _ _ C); lia)).
      by rewrite put_proc_put.
Qed.

(** ** Pages *)

(** The pages a process can reach, through the context that runs and the one
    saved during a system call. *)
Definition pages_of (p : proc) : list Z := mem_pages (p_syscall_state p) ++ mem_pages (p_proc_state p).

(** [first_free_page] and everything above it is mapped nowhere. *)
Definition pages_bounded (k : kernel St) : Prop :=
  forall a p, k_procs k !! a = Some p -> Forall (fun pg => pg < first_free_page k) (pages_of p).

Lemma pages_bounded_map k P p q i :
  let f := first_free_page k in
  pages_bounded k -> k_procs k !! P = Some p ->
  pages_of q = <[Z.to_nat i := f]> (mem_pages (p_syscall_state p)) ++ mem_pages (p_proc_state p) ->
  pages_bounded (set_procs (<[P := q]> (k_procs k)) (set_first_free_page (f + 1) k)).
Proof.
  intros f B Hp Eq a q' Hq'. simpl in Hq' |- *.
  assert (Hw : forall l, Forall (fun pg => pg < f) l -> Forall (fun pg => pg < f + 1) l).
  { intros l Hl. eapply Forall_impl; [exact Hl|]. simpl. lia. }
  destruct (decide (a = P)) as [->|].
  - rewrite lookup_insert_eq in Hq'. injection Hq' as <-. rewrite Eq.
    pose proof (B _ _ Hp) as Hb. unfold pages_of in Hb. apply Forall_app in Hb as [Hb1 Hb2].
    apply Forall_app. split; [|by apply Hw]. apply Forall_insert; [by apply Hw|]. lia.
  - rewrite lookup_insert_ne in Hq' by done. apply Hw, (B a q' Hq').
Qed.

(** C34. [SYS_PGMAP], for every value of the argument: a page number outside
    0..15 gives EINVAL and a page that is mapped ENOTFOUND, with nothing else
    changed; otherwise exactly that page of the caller is mapped to the next
    free physical page, which no process had mapped: two processes never come
    to share memory through this call. *)
Theorem sys_pgmap_isolated s P p r1 :
  caller s P p r1 -> length (mem_pages (p_syscall_state p)) = 16%nat ->
  let i := i16 r1 in
  let f := first_free_page (s_kernel s) in
  (i < 0 \/ 16 <= i -> sys_pgmap P s = Ret (put_proc P (with_reg 0 (- EINVAL) p) s)) /\
  (0 <= i < 16 -> exists page, mem_pages (p_syscall_state p) !! Z.to_nat i = Some page /\
     (page <> 0 -> page <> 0xff ->
        sys_pgmap P s = Ret (put_proc P (with_reg 0 (- ENOTFOUND) p) s)) /\
     (page = 0 \/ page = 0xff -> 0 <= f < 32767 -> pages_bounded (s_kernel s) ->
        exists s', sys_pgmap P s = Ret s' /\ pages_bounded (s_kernel s') /\
          first_free_page (s_kernel s') = f + 1 /\
          k_procs (s_kernel s') = <[P := with_reg 0 0 (set_p_syscall_state
            (set_mem_pages (<[Z.to_nat i := f]> (mem_pages (p_syscall_state p))) (p_syscall_state p)) p)]>
            (k_procs (s_kernel s)) /\
          forall a q, k_procs (s_kernel s) !! a = Some q -> f ∉ pages_of q)).
Proof.
  intros C Hl i f. unfold sys_pgmap. rewrite (caller_reg1 _ _ _ _ C). cbn [mbind outcome_bind].
  fold i. rewrite (ca_cur _ _ _ _ C), (get_proc_ok _ _ _ (ca_proc _ _ _ _ C)). split.
  - intros Hi. destruct (Z.ltb_spec i 0), (Z.leb_spec 16 i); simpl; try lia; by rewrite (caller_ret _ _ _ _ _ C).
  - intros Hi. destruct (Z.ltb_spec i 0), (Z.leb_spec 16 i); try lia. cbn [orb mbind outcome_bind].
    destruct (arr_get_in (mem_pages (p_syscall_state p)) i) as (page & -> & Hpage); [lia|].
    exists page. split; [done|]. cbn [mbind outcome_bind]. split.
    + intros Hp0 Hff. rewrite !eqb_ne by done. by rewrite (caller_ret _ _ _ _ _ C).
    + intros Hcase Hf B.
      assert (negb (page =? 255) && negb (page =? 0) = false) as -> by (by destruct Hcase as [-> | ->]).
      rewrite arr_set_in by lia. cbn [mbind outcome_bind].
      assert (Ecur : cur (set_kernel (set_first_free_page (i16 (first_free_page (s_kernel s) + 1)) (s_kernel s)) s) = P)
        by exact (ca_cur _ _ _ _ C).
      rewrite Ecur.
      erewrite set_reg_ok by (apply put_proc_lookup || (simpl; rewrite (ca_regs _ _ _ _ C); lia)).
      rewrite put_proc_put. eexists. split; [reflexivity|].
      rewrite i16_small by (unfold f in *; lia). split_and!.
      * by apply (pages_bounded_map (s_kernel s) P p _ i B (ca_proc _ _ _ _ C)).
      * done.
      * done.
      * intros a q Hq Hin. pose proof (B a q Hq) as Hb. rewrite Forall_forall in Hb.
        specialize (Hb _ Hin). simpl in Hb. unfold f in Hb. lia.
Qed.

(** ** Signals *)

(** The caller runs as a kernel thread. *)
Record in_thread (s : sys) (p : proc) : Prop := {
  it_sched : scheduling_enabled (s_kernel s) = true;
  it_irq : int_no_proc_modify (s_kernel s) = false;
  it_table : (0 < length (mem_pages (p_proc_state p)))%nat;
}.

(** The first bytes of a buffer are copied to the caller. *)
Lemma to_user_prefix_ok s P p r1 u bs rest phys' :
  caller s P p r1 -> in_thread s p -> is_u16 u -> bs <> [] ->
  user_write (mem_pages (p_syscall_state p)) (v_phys (s_vm s)) u bs = Some phys' ->
  exists page, to_user u (bs ++ rest) (zlen bs) s =
    Ret (set_vm (mapped page (Vm (s_kernel s) phys' (zero_page (s_vm s)))) s).
Proof.
  intros C [Hs Hi Ht] Hu Hn Hw. unfold to_user.
  rewrite (ca_cur _ _ _ _ C), (get_proc_ok _ _ _ (ca_proc _ _ _ _ C)). cbn [mbind outcome_bind].
  assert (Hc : current_ok (v_kernel (s_vm s))).
  { intros _. exists p. split; [|done]. destruct C as [_ <- Hp _ _]. exact Hp. }
  rewrite (memcpy_to_thread_prefix _ _ _ _ _ phys') by done. cbn [mbind outcome_bind]. eauto.
Qed.

Lemma to_user_ok s P p r1 u bs phys' :
  caller s P p r1 -> in_thread s p -> is_u16 u -> bs <> [] ->
  user_write (mem_pages (p_syscall_state p)) (v_phys (s_vm s)) u bs = Some phys' ->
  exists page, to_user u bs (zlen bs) s =
    Ret (set_vm (mapped page (Vm (s_kernel s) phys' (zero_page (s_vm s)))) s).
Proof.
  intros C T Hu Hn Hw. destruct (to_user_prefix_ok s P p r1 u bs [] phys' C T Hu Hn Hw) as [page E].
  rewrite app_nil_r in E. eauto.
Qed.

(** [mapped] changes one entry of the page table of the thread that runs. *)
Lemma mapped_procs page s P p phys' :
  cur s = P -> k_procs (s_kernel s) !! P = Some p ->
  scheduling_enabled (s_kernel s) = true -> int_no_proc_modify (s_kernel s) = false ->
  v_kernel (mapped page (Vm (s_kernel s) phys' (zero_page (s_vm s)))) =
    set_procs (<[P := page0 page p]> (k_procs (s_kernel s))) (s_kernel s).
Proof.
  intros Hc Hp Hs Hi. unfold mapped. simpl. rewrite Hs, Hi. simpl. f_equal.
  unfold cur in Hc. rewrite Hc. apply map_eq. intros j. destruct (decide (j = P)) as [->|].
  - by rewrite lookup_alter_eq, lookup_insert_eq, Hp.
  - by rewrite lookup_alter_ne, lookup_insert_ne by done.
Qed.

(** [SYS_SIGWAIT] hands the oldest pending signal to the caller: it is
    written to the user memory the caller names, removed from the queue and
    freed, the count of pending signals drops by one, and the result is 0; the
    rest of the queue and every other process are as before.  With a handler
    installed that is not running, the call gives EINVAL and changes nothing
    else. *)
Theorem sys_sigwait_oldest s P p r1 m own n g xs sg c phys' :
  caller s P p r1 -> in_thread s p -> is_u16 r1 ->
  ls_rep (s_store s) m own -> m !! signal_queue_of P = Some ((n, g) :: xs) -> n <> 0 -> g ∈ own ->
  k_signals (s_kernel s) !! g = Some sg -> s_semas s !! signal_sema_of P = Some c -> 0 < c < 32768 ->
  user_write (mem_pages (p_syscall_state p)) (v_phys (s_vm s)) r1
    (bytes_of [sig_type sg; sig_number sg]) = Some phys' ->
  if negb (p_sighandler p =? 0) && (p_signals_hold p =? 0) then
    sys_sigwait P s = Ret (put_proc P (with_reg 0 (- EINVAL) p) s)
  else exists s' page, sys_sigwait P s = Ret s' /\
    v_phys (s_vm s') = phys' /\
    ls_rep (s_store s') (<[signal_queue_of P := xs]> m) (own ∖ {[g]}) /\
    k_signals (s_kernel s') = delete g (k_signals (s_kernel s)) /\
    s_semas s' = <[signal_sema_of P := c - 1]> (s_semas s) /\
    k_procs (s_kernel s') = <[P := with_reg 0 0 (page0 page p)]> (k_procs (s_kernel s)) /\
    same_run (s_kernel s) (s_kernel s').
Proof.
  intros C T Hr1 R Hq Hn Hg Hsg Hc Hcp Hw. unfold sys_sigwait.
  rewrite (ca_cur _ _ _ _ C), (get_proc_ok _ _ _ (ca_proc _ _ _ _ C)). cbn [mbind outcome_bind].
  destruct (negb (p_sighandler p =? 0) && (p_signals_hold p =? 0)); [by apply (caller_ret _ _ _ _ _ C)|].
  rewrite (s_sema_down_now _ _ _ Hc) by lia. cbn [mbind outcome_bind]. set (s1 := s_set_semas _ _).
  assert (C1 : caller s1 P p r1) by (by destruct C).
  assert (T1 : in_thread s1 p) by (by destruct T).
  rewrite (ca_cur _ _ _ _ C1). change (s_store s1) with (s_store s). rewrite (ls_first_ok _ _ _ _ _ R Hq). cbn [mbind outcome_bind head_ptr].
  rewrite eqb_ne by done. cbn [negb ASSERT mbind outcome_bind].
  destruct (ls_node_ok _ _ _ _ [] n g xs R Hq) as [_ Hv].
  rewrite Hv. cbn [mbind outcome_bind].
  erewrite deref_Some by exact Hsg. cbn [mbind outcome_bind].
  rewrite (caller_reg1 _ _ _ _ C1). cbn [mbind outcome_bind].
  assert (Hbs : bytes_of [sig_type sg; sig_number sg] <> []).
  { unfold bytes_of, word_bytes. by destruct big_endian. }
  assert (Hlen : zlen (bytes_of [sig_type sg; sig_number sg]) = sizeof_signal).
  { unfold bytes_of, word_bytes. by destruct big_endian. }
  destruct (to_user_ok s1 P p r1 r1 _ phys' C1 T1 Hr1 Hbs Hw) as (page & E). rewrite Hlen in E. rewrite E.
  cbn [mbind outcome_bind]. set (s2 := set_vm _ s1).
  assert (Ek : s_kernel s2 = set_procs (<[P := page0 page p]> (k_procs (s_kernel s1))) (s_kernel s1)).
  { apply mapped_procs; [apply C1|apply C1|apply T1|apply T1]. }
  assert (R2 : ls_rep (s_store s2) m own) by (unfold s_store; rewrite Ek; exact R).
  destruct (s_kfree_ok s2 m own g R2 Hg) as (st & -> & R3). cbn [mbind outcome_bind].
  match goal with |- context [ls_remove (s_store ?x)] => set (s3 := x) end.
  assert (E3 : cur s3 = P). { unfold cur, s3. simpl. fold (s_kernel s2). rewrite Ek. apply C. }
  rewrite E3. destruct (ls_remove_ok st m (own ∖ {[g]}) (signal_queue_of P) [] n g xs R3 Hq) as (st2 & Er & R4).
  change (s_store s3) with st. rewrite Er. cbn [mbind outcome_bind].
  assert (Hp3 : k_procs (s_kernel (s_set_store st2 s3)) !! P = Some (page0 page p)).
  { simpl. fold (s_kernel s2). rewrite Ek. simpl. apply lookup_insert_eq. }
  rewrite (set_reg_ok _ _ _ _ _ Hp3) by (simpl; rewrite (ca_regs _ _ _ _ C); lia).
  eexists _, page. split; [reflexivity|]. simpl. fold (s_kernel s2). rewrite Ek. simpl.
  split_and!; [done|exact R4|done| |by rewrite insert_insert_eq|].
  - unfold s_semas. simpl. fold (s_kernel s2). rewrite Ek. simpl. by rewrite i16_small by lia.
  - unfold same_run. simpl. fold (s_kernel s2). by rewrite Ek.
Qed.

(** ** Process information *)

(** The bit [i] of a mask says what the loop saw of page [i]. *)
Definition mask_of (f : Z -> bool) (pages : list Z) (j mask : Z) : Prop :=
  forall i, 0 <= i -> Z.testbit mask i = (i <? j) && match pages !! Z.to_nat i with Some x => f x | None => false end.

Lemma mask_of_step f pages j mask x :
  0 <= j -> pages !! Z.to_nat j = Some x -> mask_of f pages j mask ->
  mask_of f pages (j + 1) (if f x then Z.lor mask (Z.shiftl 1 j) else mask).
Proof.
  intros Hj Hx Hm i Hi. assert (E : Z.testbit (Z.shiftl 1 j) i = (i =? j)).
  { rewrite Z.shiftl_spec by done. destruct (Z.eqb_spec i j) as [->|]; [by rewrite Z.sub_diag|].
    destruct (Z.le_gt_cases j i).
    - change 1 with (2 ^ 0). apply Z.pow2_bits_false. lia.
    - apply Z.testbit_neg_r. lia. }
  destruct (Z.eqb_spec i j) as [->|Hne].
  - destruct (Z.ltb_spec j (j + 1)); [|lia]. rewrite Hx. pose proof (Hm j Hj) as Hmj.
    rewrite Z.ltb_irrefl in Hmj. destruct (f x); [|done]. by rewrite Z.lor_spec, E, Hmj.
  - replace (i <? j + 1) with (i <? j) by (destruct (Z.ltb_spec i j), (Z.ltb_spec i (j + 1)); lia).
    rewrite <-(Hm i Hi). destruct (f x); [|done]. rewrite Z.lor_spec, E. apply orb_false_r.
Qed.

(** The masks [SYS_PROCINFO] reports are exact: bit [i] of the memory mask
    is set when page [i] is neither 0 nor the unmapped page 0xff, bit [i] of the
    program mask when page [i] is not 0, no other bit is set, and the exit code
    is the first register of a process that has exited and 0 otherwise. *)
Theorem proc_info_masks p :
  length (mem_pages (p_syscall_state p)) = 16%nat -> length (prog_pages (p_syscall_state p)) = 16%nat ->
  length (regs (p_proc_state p)) = 8%nat ->
  exists mem prog rc, proc_info p = Ret [p_pid p; p_type p; p_state p; p_load_brk p; mem; prog; rc] /\
    (forall i, 0 <= i < 16 -> exists x, mem_pages (p_syscall_state p) !! Z.to_nat i = Some x /\
       Z.testbit mem i = negb (x =? 0) && negb (x =? 0xff)) /\
    (forall i, 0 <= i < 16 -> exists x, prog_pages (p_syscall_state p) !! Z.to_nat i = Some x /\
       Z.testbit prog i = negb (x =? 0)) /\
    (forall i, 16 <= i -> Z.testbit mem i = false /\ Z.testbit prog i = false) /\
    (p_state p = PROC_STATE_DEAD -> regs (p_proc_state p) !! 0%nat = Some rc) /\
    (p_state p <> PROC_STATE_DEAD -> rc = 0).
Proof.
  intros Hm Hg Hr. unfold proc_info.
  set (fm := fun x : Z => negb (x =? 0) && negb (x =? 0xff)). set (fg := fun x : Z => negb (x =? 0)).
  destruct (for_loop_inv (fun j (ms : Z * Z) => mask_of fm (mem_pages (p_syscall_state p)) j ms.1 /\
      mask_of fg (prog_pages (p_syscall_state p)) j ms.2) 16 0 (procinfo_page p) (0, 0))
    as ([mem prog] & -> & Hmem & Hprog).
  - split; intros i Hi; rewrite Z.bits_0; destruct (Z.ltb_spec i 0); (done || lia).
  - intros j [a b] Hj [Ha Hb]. unfold procinfo_page.
    destruct (arr_get_in (mem_pages (p_syscall_state p)) j) as (x & -> & Hx); [lia|].
    destruct (arr_get_in (prog_pages (p_syscall_state p)) j) as (y & -> & Hy); [lia|].
    cbn [mbind outcome_bind]. eexists. split; [reflexivity|]. split.
    + by apply (mask_of_step fm _ _ _ x); [lia|..].
    + by apply (mask_of_step fg _ _ _ y); [lia|..].
  - simpl in Hmem, Hprog. cbn [mbind outcome_bind].
    destruct (lookup_lt_is_Some_2 (regs (p_proc_state p)) 0) as [r0 Hr0]; [lia|].
    assert (Ec : (if p_state p =? PROC_STATE_DEAD then arr_get (regs (p_proc_state p)) 0 else Ret 0)
                 = Ret (if p_state p =? PROC_STATE_DEAD then r0 else 0)).
    { destruct (p_state p =? PROC_STATE_DEAD); [|done]. by apply arr_get_Ret. }
    rewrite Ec. cbn [mbind outcome_bind]. eexists mem, prog, _. split; [reflexivity|]. split_and!.
    + intros i Hi. destruct (lookup_lt_is_Some_2 (mem_pages (p_syscall_state p)) (Z.to_nat i)) as [x Hx]; [lia|].
      exists x. split; [done|]. rewrite Hmem, Hx by lia. by rewrite (proj2 (Z.ltb_lt _ _)) by lia.
    + intros i Hi. destruct (lookup_lt_is_Some_2 (prog_pages (p_syscall_state p)) (Z.to_nat i)) as [x Hx]; [lia|].
      exists x. split; [done|]. rewrite Hprog, Hx by lia. by rewrite (proj2 (Z.ltb_lt _ _)) by lia.
    + intros i Hi. rewrite Hmem, Hprog by lia. by rewrite (proj2 (Z.ltb_ge _ _)) by lia.
    + intros ->. done.
    + intros Hd. by rewrite eqb_ne.
Qed.

Lemma sys_clockticks_ok s P p r1 :
  caller s P p r1 ->
  sys_clockticks P s = Ret (put_proc P (with_reg 1 0 (with_reg 0 (sys_ticks (s_kernel s)) p)) s).
Proof.
  intros C. unfold sys_clockticks. rewrite (caller_ret _ _ _ _ _ C). cbn [mbind outcome_bind].
  erewrite set_reg_ok by (apply put_proc_lookup || (simpl; rewrite length_insert, (ca_regs _ _ _ _ C); lia)).
  rewrite put_proc_put. unfold with_reg at 1. by rewrite u16_shift.
Qed.

Lemma sys_alarmset_ok s P p r1 r2 :
  caller s P p r1 -> regs (p_syscall_state p) !! 2%nat = Some r2 -> is_u16 r1 -> is_u16 r2 ->
  sys_alarmset P s = Ret (put_proc P (set_p_alarm_ticks
    (if r1 <? 32768 then r2 * 65536 + r1 else 0xffff0000 + r1) p) s).
Proof.
  intros C Hr2 H1 H2. unfold sys_alarmset. rewrite (caller_reg1 _ _ _ _ C). cbn [mbind outcome_bind].
  rewrite (reg_ok P 2 s p r2) by (apply C || done). cbn [mbind outcome_bind].
  rewrite (ca_cur _ _ _ _ C), (get_proc_ok _ _ _ (ca_proc _ _ _ _ C)). cbn [mbind outcome_bind].
  do 3 f_equal. rewrite u32_shift_low by done. rewrite u32_low by done.
  destruct (Z.ltb_spec r1 32768); [apply lor_halves; lia|].
  rewrite Z.lor_assoc, <-Z.shiftl_lor. change 0xffff with (Z.ones 16).
  assert (Hlog : Z.log2 r2 < 16).
  { destruct (Z.eq_dec r2 0) as [->|]; [done|]. apply Z.log2_lt_pow2; simpl; lia. }
  rewrite Z.lor_ones_low by lia. rewrite lor_halves by lia. done.
Qed.

(** [SYS_SIGACTION] returns the old handler and installs the one in register 1. *)
Lemma sys_sigaction_ok s P p r1 :
  caller s P p r1 ->
  sys_sigaction P s = Ret (put_proc P (set_p_sighandler r1 (with_reg 0 (p_sighandler p) p)) s).
Proof.
  intros C. unfold sys_sigaction. rewrite (ca_cur _ _ _ _ C), (get_proc_ok _ _ _ (ca_proc _ _ _ _ C)). cbn [mbind outcome_bind].
  rewrite (caller_ret _ _ _ _ _ C). cbn [mbind outcome_bind].
  rewrite (reg_ok P 1 _ (with_reg 0 (p_sighandler p) p) r1); [|apply put_proc_lookup|lia|].
  2:{ simpl. rewrite list_lookup_insert_ne by done. apply C. }
  cbn [mbind outcome_bind]. change (cur (put_proc _ _ s)) with (cur s). rewrite (ca_cur _ _ _ _ C).
  rewrite (get_proc_ok _ _ _ (put_proc_lookup _ _ _)). cbn [mbind outcome_bind]. by rewrite put_proc_put.
Qed.

(** The clock and the alarm keep only half of a time: [SYS_CLOCKTICKS]
    returns the low 16 bits of the tick count and always 0 for the high ones,
    and [SYS_ALARMSET] sets the time from two registers, but with the top bit of
    the low one extended over the high one. *)
Theorem clock_and_alarm s P p r1 r2 :
  caller s P p r1 -> regs (p_syscall_state p) !! 2%nat = Some r2 -> is_u16 r1 -> is_u16 r2 ->
  sys_clockticks P s = Ret (put_proc P (with_reg 1 0 (with_reg 0 (sys_ticks (s_kernel s)) p)) s) /\
  sys_alarmset P s = Ret (put_proc P (set_p_alarm_ticks
    (if r1 <? 32768 then r2 * 65536 + r1 else 0xffff0000 + r1) p) s).
Proof.
  intros C Hr2 H1 H2. split; [by eapply sys_clockticks_ok|by apply sys_alarmset_ok].
Qed.
End Sysd.

(** ** Witnesses: process 5 in a system call *)

Section Demo.
Abbreviation demo_sys := (sys (store (list Z)) unit).
Instance demo_uninit : Uninit := fun _ _ => 0.
Instance demo_others : Others (store (list Z)) unit := fun _ _ => Block.
Instance demo_sign : CharSign := true.
Instance demo_order : ByteOrder := false.

(** Registers, a page table with page 1 unmapped, and descriptor 3 open. *)
Definition demo_context (r1 : Z) : proc_state :=
  ProcState [0; r1; 1; 0; 0; 0; 0; 0] 0x100 0 ([0x40; 0xff] ++ replicate 14 0x41) (seqZ 0 16).

Definition demo_caller (r1 : Z) : proc :=
  Proc 1 PROC_STATE_SYSCALL PROC_TYPE_USER junk_state (demo_context r1) (replicate 16 0) 0
    (replicate 3 (ProcFile 0 0 0 0) ++ [ProcFile 9 0 0 0] ++ replicate 12 (ProcFile 0 0 0 0)) 0 0 0 0 0 0.

Definition demo_call (r1 : Z) (st : store (list Z)) (semas : gmap Z Z) (sigs : gmap Z signal) : demo_sys :=
  Sys (Vm (Kernel st {[5 := demo_caller r1]} semas sigs 5 0 1 0x211 true false 0 0x11)
         {[0x40 := replicate 4096 0]} 0)
    ∅ (VfsState ∅ ∅ ∅ 0 0 0) (MqState ∅ ∅ 0 0) tt.

Lemma demo_caller_ok r1 st semas sigs : caller (demo_call r1 st semas sigs) 5 (demo_caller r1) r1.
Proof. split; try done; try lia. Qed.

Lemma sys_close_spec_witness :
  let s := demo_call 3 boot_store ∅ ∅ in
  exists f, p_open_files (demo_caller 3) !! 3%nat = Some f /\ f_inode f = 9 /\
    sys_close 5 s = Ret (put_proc 5 (with_reg 0 0 (set_p_open_files
      (<[3%nat := ProcFile 0 0 0 0]> (p_open_files (demo_caller 3))) (demo_caller 3))) s).
Proof.
  destruct (sys_close_spec _ 5 _ 3 (demo_caller_ok 3 boot_store ∅ ∅) eq_refl) as (_ & _ & T).
  destruct T as (f & Hf & E); [split; (discriminate || reflexivity)|]. exists f. split; [exact Hf|].
  injection Hf as <-. split; [reflexivity|exact E].
Defined.

Lemma sys_pgmap_isolated_witness :
  let s := demo_call 1 boot_store ∅ ∅ in
  exists s', sys_pgmap 5 s = Ret s' /\ first_free_page (s_kernel s') = 0x212 /\
    forall a q, k_procs (s_kernel s) !! a = Some q -> 0x211 ∉ pages_of q.
Proof.
  destruct (sys_pgmap_isolated _ 5 _ 1 (demo_caller_ok 1 boot_store ∅ ∅) eq_refl) as (_ & T).
  destruct T as (page & Hp & _ & T); [split; (discriminate || reflexivity)|]. injection Hp as <-.
  destruct T as (s' & E & _ & Hf & _ & Hn).
  - right. reflexivity.
  - split; (discriminate || reflexivity).
  - intros a p Ha. apply (lookup_singleton_Some 5 a (demo_caller 1) p) in Ha as [<- <-]. apply (bool_decide_unpack _). vm_compute. exact I.
  - exists s'. split; [exact E|]. split; [exact Hf|exact Hn].
Defined.

Definition demo_queue : outcome (Z * store (list Z)) :=
  let st := ls_init boot_store (signal_queue_of 5) in
  '(g, st) ← ls_alloc st sizeof_signal;
  st ← ls_append st (signal_queue_of 5) g;
  Ret (g, st).

Lemma demo_signals_ok : exists g st n, demo_queue = Ret (g, st) /\ n <> 0 /\
  ls_rep st (<[signal_queue_of 5 := [(n, g)]]> ∅) {[g]}.
Proof.
  assert (exists r, demo_queue = Ret r) as [[g st] Hk] by (eexists; vm_compute; reflexivity).
  exists g, st. pose proof Hk as E. unfold demo_queue in E. run_inv.
  pose proof (ls_init_ok boot_store ∅ ∅ (signal_queue_of 5) boot_store_rep) as R0.
  destruct (ls_alloc_ok _ _ _ sizeof_signal _ _ R0 sizeof_signal_u16 E0) as (Hg & _ & R1).
  destruct (ls_append_ok _ _ _ _ [] _ _ R1 (lookup_insert_eq _ _ _) E1) as (n & Hn & R2).
  exists n. split_and!; [done..|]. rewrite insert_insert_eq, (right_id_L ∅ (∪)) in R2. exact R2.
Qed.

Lemma sys_sigwait_oldest_witness :
  exists s s' : demo_sys, sys_sigwait 5 s = Ret s' /\ s_semas s !! signal_sema_of 5 = Some 1 /\
    s_semas s' !! signal_sema_of 5 = Some 0.
Proof.
  destruct demo_signals_ok as (g & st & n & _ & Hn & R).
  assert (exists phys', user_write (mem_pages (demo_context 0x10)) {[0x40 := replicate 4096 0]} 0x10
    (bytes_of [2; 7]) = Some phys') as [phys' Hw] by (eexists; vm_compute; reflexivity).
  destruct (sys_sigwait_oldest (demo_call 0x10 st {[signal_sema_of 5 := 1]} {[g := Signal 2 7]}) 5
    (demo_caller 0x10) 0x10 (<[signal_queue_of 5 := [(n, g)]]> ∅) {[g]} n g [] (Signal 2 7) 1 phys' (demo_caller_ok _ _ _ _)) as (s' & page & E & _ & _ & _ & Es & _).
  - split; [reflexivity|reflexivity|simpl; lia].
  - lia.
  - exact R.
  - apply lookup_insert_eq.
  - exact Hn.
  - by apply elem_of_singleton_2.
  - apply lookup_singleton_eq.
  - apply lookup_singleton_eq.
  - lia.
  - exact Hw.
  - eexists _, s'. split; [exact E|]. split; [apply lookup_singleton_eq|].
    rewrite Es. apply lookup_insert_eq.
Defined.

Lemma proc_info_masks_witness :
  exists mem prog rc, proc_info (demo_caller 0) = Ret [1; 1; 3; 0; mem; prog; rc] /\
    Z.testbit mem 0 = true /\ Z.testbit mem 1 = false /\ rc = 0.
Proof.
  destruct (proc_info_masks (demo_caller 0) eq_refl eq_refl eq_refl)
    as (mem & prog & rc & E & Hm & _ & _ & _ & Hr).
  exists mem, prog, rc. split; [exact E|].
  destruct (Hm 0 ltac:(lia)) as (x & Hx & ->), (Hm 1 ltac:(lia)) as (y & Hy & ->).
  injection Hx as <-. injection Hy as <-. split; [reflexivity|]. split; [reflexivity|].
  apply Hr. discriminate.
Defined.

(** An alarm at tick 0x18000 is set to tick 0xffff8000. *)
Lemma clock_and_alarm_witness :
  let s := demo_call 0x8000 boot_store ∅ ∅ in
  sys_alarmset 5 s = Ret (put_proc 5 (set_p_alarm_ticks 0xffff8000 (demo_caller 0x8000)) s).
Proof.
  destruct (clock_and_alarm _ 5 _ 0x8000 1 (demo_caller_ok 0x8000 boot_store ∅ ∅)) as [_ T];
    [reflexivity|lia|lia|exact T].
Defined.
End Demo.
