(* ===== verification/Interrupt.v ===== *)
(** * Interrupts and the way into and out of the kernel
      (kernel/irq/interrupt.c, switch_to_userspace of kernel/proc/virtual.c)

    [interrupt] saves the interrupted context in the descriptor of the current
    process, serves the keyboard and the timer, and resumes a process;
    [int_sys_call] runs a system call as a kernel thread of the calling process
    and returns to it, through its signal handler when a signal is pending.
    [cpu] is the context the processor runs after the handler: registers,
    program counter, flags and the two page tables.

    The handlers are written as sequential code: they run with interrupts
    disabled, except [process_syscall], in which other threads run only where
    it waits for a semaphore (see Sys.v).  Console output is left out. *)

From S2P Require Import Prelude Interfaces Kmalloc KList Ringbuff Blockq Proc Sync CString Kernel Sched Virtual Sys Signals Mq Vfs Request Tmpfs Keyboard Tty Device Sd Console Sysd.

Definition SFLAG_SYSCALL : Z := 0x2.
Definition SFLAG_SEGFAULT : Z := 0x8.
Definition KEYBOARD_IRQ_ID : Z := 1.
Definition TIMER_IRQ_ID : Z := 0.
Definition SCANCODE_PAGE : Z := 0x4.
Definition IRQC_PAGE : Z := 0x4.

(** [struct int_handler_state]: what the processor was doing. *)
Record int_handler_state := IntState {
  i_regs : list Z;
  i_pc : Z;
  i_arith_flags : Z;
  irq_flags : Z;
}.

Definition IN_KERNEL (p : proc) : bool :=
  (p_type p =? PROC_TYPE_KERNEL) || (p_state p =? PROC_STATE_SYSCALL)
  || (p_state p =? PROC_STATE_SYSCALL_BLOCKED).

(** The status of the interrupt controller after a word was written to its
    clear register. *)
Class IrqController := clear_status : Z -> Z -> Z.

Section Interrupt.
Context {St B : Type} `{ListStore St} {junk : Uninit} {others : Others St (drivers B)} {sign : CharSign}
  {order : ByteOrder} {regs_ : @VfsRegs St (drivers B)} {callbacks : @Callbacks St (drivers B)} {irqc : IrqController}.
Abbreviation sys := (sys St (drivers B)).
Set Default Proof Using "Type".
Context (log : list Z -> sys -> outcome sys) (elf_load : Z -> sys -> outcome (Z * sys)).

Record machine := Machine {
  m_sys : sys;
  in_interrupt_handler : bool;
  irq_status : Z;              (** [IRQ_STATUS_ADDR] *)
  irq_masked : Z;              (** [IRQ_MASK_ADDR] *)
  scancode : Z;                (** [SCANCODE_ADDR] *)
  m_keyboard : keyboard;
  int_enabled : bool;          (** bit 2 of the status register *)
  cpu : proc_state;
}.

Definition set_m_sys (s : sys) (m : machine) : machine :=
  Machine s (in_interrupt_handler m) (irq_status m) (irq_masked m) (scancode m) (m_keyboard m) (int_enabled m) (cpu m).
Definition set_in_handler (b : bool) (m : machine) : machine :=
  Machine (m_sys m) b (irq_status m) (irq_masked m) (scancode m) (m_keyboard m) (int_enabled m) (cpu m).
Definition set_irq_status (x : Z) (m : machine) : machine :=
  Machine (m_sys m) (in_interrupt_handler m) x (irq_masked m) (scancode m) (m_keyboard m) (int_enabled m) (cpu m).
Definition set_irq_masked (x : Z) (m : machine) : machine :=
  Machine (m_sys m) (in_interrupt_handler m) (irq_status m) x (scancode m) (m_keyboard m) (int_enabled m) (cpu m).
Definition set_m_keyboard (k : keyboard) (m : machine) : machine :=
  Machine (m_sys m) (in_interrupt_handler m) (irq_status m) (irq_masked m) (scancode m) k (int_enabled m) (cpu m).
Definition set_int_enabled (b : bool) (m : machine) : machine :=
  Machine (m_sys m) (in_interrupt_handler m) (irq_status m) (irq_masked m) (scancode m) (m_keyboard m) b (cpu m).
Definition set_cpu (c : proc_state) (m : machine) : machine :=
  Machine (m_sys m) (in_interrupt_handler m) (irq_status m) (irq_masked m) (scancode m) (m_keyboard m) (int_enabled m) c.

(** ** The interrupt controller *)

(** A device register is reached through page 0. *)
Definition map_zero (page : Z) (m : machine) : outcome machine :=
  v ← map_page_zero page (s_vm (m_sys m));
  Ret (set_m_sys (set_vm v (m_sys m)) m).

Definition irq_clear (id : Z) (m : machine) : outcome machine :=
  m ← map_zero IRQC_PAGE m;
  map_zero ILLEGAL_PAGE (set_irq_status (clear_status (irq_status m) (Z.shiftl 1 id)) m).

Definition irq_pending (id : Z) (m : machine) : outcome (bool * machine) :=
  m ← map_zero IRQC_PAGE m;
  let en := Z.land (irq_status m) (Z.shiftl 1 id) in
  m ← map_zero ILLEGAL_PAGE m;
  Ret (negb (en =? 0), m).

Definition irq_mask (id : Z) (en : bool) (m : machine) : outcome machine :=
  m ← map_zero IRQC_PAGE m;
  map_zero ILLEGAL_PAGE
    (set_irq_masked (if en then Z.lor (irq_masked m) (Z.shiftl 1 id)
                     else Z.ldiff (irq_masked m) (Z.shiftl 1 id)) m).

Definition keyboard_init (m : machine) : outcome machine :=
  m ← irq_clear KEYBOARD_IRQ_ID m; irq_mask KEYBOARD_IRQ_ID true m.

(** ** Back to a process *)

Definition set_zero_page (page : Z) (s : sys) : sys :=
  set_vm (Vm (v_kernel (s_vm s)) (v_phys (s_vm s)) page) s.

(** The assembly routines load the page tables and the registers of the saved
    context and return from the interrupt, which enables interrupts. *)
Definition switch_to_userspace (P : Z) (m : machine) : outcome machine :=
  let s := m_sys m in
  let s := set_kernel (set_int_no_proc_modify false (s_kernel s)) s in
  p ← get_proc P s;
  page0 ← arr_get (mem_pages (p_proc_state p)) 0;
  Ret (set_cpu (p_proc_state p) (set_int_enabled true (set_m_sys (set_zero_page page0 s) m))).

(** ** System calls *)

(** The page tables of a kernel thread with its stack. *)
Definition kernel_tables (stack_page : Z) (ps : proc_state) : outcome proc_state :=
  '(mp, pp) ← for_loop 16 0 (fun i t =>
      mp ← arr_set t.1 i (0x200 + i);
      pp ← arr_set t.2 i i;
      Ret (mp, pp)) (mem_pages ps, prog_pages ps);
  mp ← arr_set mp 0 ILLEGAL_PAGE;
  mp ← arr_set mp 15 stack_page;
  Ret (set_prog_pages pp (set_mem_pages mp ps)).

(** The first pending signal of the current process goes to its handler. *)
Definition deliver_signal (s : sys) : outcome sys :=
  let P := cur s in
  first ← ls_first (s_store s) (signal_queue_of P);
  g ← ls_val (s_store s) first;
  sg ← deref (k_signals (s_kernel s)) g;
  v ← signal_handler_enter P sg (s_vm s);
  let s := set_vm v s in
  s ← s_kfree g s;
  let s := set_kernel (set_signals (delete g (k_signals (s_kernel s))) (s_kernel s)) s in
  st ← ls_remove (s_store s) (signal_queue_of P) first;
  let s := s_set_store st s in
  c ← deref (s_semas s) (signal_sema_of P);
  _ ← ASSERT (0 <? c);
  Ret (s_set_semas (<[signal_sema_of P := i16 (c - 1)]> (s_semas s)) s).

(** Into the system call, up to [process_syscall]. *)
Definition sys_enter (s : sys) : outcome sys :=
  p ← get_proc (cur s) s;
  let p := set_p_syscall_state (p_proc_state p) p in
  ps ← kernel_tables (p_kernel_stack_page p) (p_proc_state p);
  let s := put_proc (cur s) (set_p_state PROC_STATE_SYSCALL (set_p_proc_state ps p)) s in
  Ret (set_kernel (set_int_no_proc_modify false (s_kernel s)) s).

(** Back from it: the user context is restored and a signal is delivered, or
    another process is chosen when this one has died. *)
Definition sys_leave (fuel : nat) (s : sys) : outcome sys :=
  let s := set_kernel (set_int_no_proc_modify true (s_kernel s)) s in
  p ← get_proc (cur s) s;
  if negb (p_state p =? PROC_STATE_DEAD) then
    let s := put_proc (cur s) (set_p_proc_state (p_syscall_state p) p) s in
    first ← ls_first (s_store s) (signal_queue_of (cur s));
    s ← (if negb (first =? 0) && (p_signals_hold p =? 0) && negb (p_sighandler p =? 0)
         then deliver_signal s else Ret s);
    p ← get_proc (cur s) s;
    Ret (put_proc (cur s) (set_p_state PROC_STATE_RUNNABLE p) s)
  else
    k ← sched_pick_next fuel (s_kernel s);
    Ret (set_kernel k s).

Definition int_sys_call (fuel : nat) (m : machine) : outcome machine :=
  let m := set_in_handler false m in
  s ← sys_enter (m_sys m);
  let m := set_int_enabled true m in
  '(_, s) ← process_syscall log elf_load (cur s) s;
  let m := set_int_enabled false m in
  s ← sys_leave fuel s;
  switch_to_userspace (cur s) (set_m_sys s m).

(** ** The interrupt handler *)

Definition save_context (st : int_handler_state) (s : sys) : outcome sys :=
  p ← get_proc (cur s) s;
  let ps := p_proc_state p in
  rs ← for_loop 8 0 (fun i rs => x ← arr_get (i_regs st) i; arr_set rs i x) (regs ps);
  Ret (put_proc (cur s) (set_p_proc_state
         (ProcState rs (i_pc st) (i_arith_flags st) (mem_pages ps) (prog_pages ps)) p) s).

(** [should_switch_thread] and the flags still to be served. *)
Definition int_segfault (flags : Z) (s : sys) : outcome (bool * Z * sys) :=
  if negb (Z.land flags SFLAG_SEGFAULT =? 0) then
    p ← get_proc (cur s) s;
    if IN_KERNEL p then Panic "SEGFAULT INSIDE KERNEL"
    else
      rs ← arr_set (regs (p_proc_state p)) 0 139;
      let s := put_proc (cur s) (set_p_proc_state (set_regs rs (p_proc_state p))
                 (set_p_state PROC_STATE_DEAD p)) s in
      k ← signal_send_sigchld (cur s) (s_kernel s);
      Ret (true, 0, set_kernel k s)
  else Ret (false, flags, s).

Definition int_keyboard (m : machine) : outcome machine :=
  '(pending, m) ← irq_pending KEYBOARD_IRQ_ID m;
  if (pending : bool) then
    m ← map_zero SCANCODE_PAGE m;
    let code := u8 (scancode m) in
    m ← map_zero ILLEGAL_PAGE m;
    m ← irq_clear KEYBOARD_IRQ_ID m;
    '(k, s) ← print_scancode send_key code (m_keyboard m) (m_sys m);
    Ret (set_m_keyboard k (set_m_sys s m))
  else Ret m.

Definition int_timer (should_switch : bool) (m : machine) : outcome (bool * machine) :=
  '(pending, m) ← irq_pending TIMER_IRQ_ID m;
  if (pending : bool) then
    m ← irq_clear TIMER_IRQ_ID m;
    let k := s_kernel (m_sys m) in
    Ret (true, set_m_sys (set_kernel (set_sys_ticks (u32 (sys_ticks k + 1)) k) (m_sys m)) m)
  else Ret (should_switch, m).

(** The end of the handler: to the next process, or back into the code that
    was interrupted before scheduling was enabled. *)
Definition resume (fuel : nat) (should_switch : bool) (m : machine) : outcome machine :=
  if scheduling_enabled (s_kernel (m_sys m)) then
    k ← (if should_switch then sched_pick_next fuel (s_kernel (m_sys m)) else Ret (s_kernel (m_sys m)));
    let m := set_m_sys (set_kernel k (m_sys m)) m in
    p ← get_proc (current_proc k) (m_sys m);
    _ ← ASSERT (negb (p_state p =? PROC_STATE_UNLOADED));
    switch_to_userspace (current_proc k) m
  else Ret m.

(** Everything but a segmentation fault: the devices, then the system call of a
    user process or the choice of the next process. *)
Definition int_serve (fuel : nat) (switch : bool) (flags : Z) (m : machine) : outcome machine :=
  p ← get_proc (cur (m_sys m)) (m_sys m);
  let switch := switch || (negb (Z.land flags SFLAG_SYSCALL =? 0) && IN_KERNEL p) in
  let switch := switch || (p_type p =? PROC_TYPE_INIT) in
  m ← int_keyboard m;
  '(switch, m) ← int_timer switch m;
  p ← get_proc (cur (m_sys m)) (m_sys m);
  if negb (Z.land flags SFLAG_SYSCALL =? 0) && negb (IN_KERNEL p) then int_sys_call fuel m
  else resume fuel switch (set_in_handler false m).

(** [fuel] bounds the loop of [sched_pick_next].  A second interrupt inside the
    handler spins for ever. *)
Definition interrupt (fuel : nat) (st : int_handler_state) (m : machine) : outcome machine :=
  if in_interrupt_handler m then Hang
  else
    let m := set_in_handler true m in
    if negb (scheduling_enabled (s_kernel (m_sys m)))
    then Panic "Kernel interupted before scheduling enabled"
    else
      let s := set_zero_page ILLEGAL_PAGE (m_sys m) in
      let s := set_kernel (set_int_no_proc_modify true (s_kernel s)) s in
      s ← save_context st s;
      '(switch, flags, s) ← int_segfault (irq_flags st) s;
      int_serve fuel switch flags (set_m_sys s m).

(** ** Inside the handler *)

(** The handler runs with page 0 unmapped and must not write the page tables of
    the process it interrupted. *)
Record inside (m : machine) : Prop := {
  in_modify : int_no_proc_modify (s_kernel (m_sys m)) = true;
  in_zero : zero_page (s_vm (m_sys m)) = ILLEGAL_PAGE;
}.

Definition pending (id status : Z) : bool := negb (Z.land status (Z.shiftl 1 id) =? 0).

Lemma map_zero_irq page m :
  int_no_proc_modify (s_kernel (m_sys m)) = true ->
  map_zero page m = Ret (set_m_sys (set_zero_page page (m_sys m)) m).
Proof.
  intros Hm. unfold map_zero, map_page_zero. change (v_kernel (s_vm (m_sys m))) with (s_kernel (m_sys m)).
  by rewrite Hm, andb_false_r.
Qed.

Lemma set_zero_page_id s : zero_page (s_vm s) = ILLEGAL_PAGE -> set_zero_page ILLEGAL_PAGE s = s.
Proof. intros E. destruct s as [[] ? ? ? ?]. simpl in *. unfold set_zero_page, set_vm. simpl. by rewrite <-E. Qed.

(** Mapping a device and unmapping it again. *)
Lemma unmap_irq page m :
  inside m -> let m1 := set_m_sys (set_zero_page page (m_sys m)) m in
  set_m_sys (set_zero_page ILLEGAL_PAGE (m_sys m1)) m1 = m.
Proof.
  intros [_ Hz]. change (set_m_sys (set_zero_page ILLEGAL_PAGE (m_sys m)) m = m).
  rewrite set_zero_page_id by done. by destruct m.
Qed.

Lemma irq_pending_irq id m : inside m -> irq_pending id m = Ret (pending id (irq_status m), m).
Proof.
  intros I. unfold irq_pending. rewrite map_zero_irq by apply I. cbn [mbind outcome_bind].
  rewrite map_zero_irq by apply I. cbn [mbind outcome_bind]. by rewrite unmap_irq.
Qed.

Lemma irq_clear_irq id m : inside m ->
  irq_clear id m = Ret (set_irq_status (clear_status (irq_status m) (Z.shiftl 1 id)) m).
Proof.
  intros I. unfold irq_clear. rewrite map_zero_irq by apply I. cbn [mbind outcome_bind].
  rewrite map_zero_irq by apply I. f_equal.
  pose proof (f_equal (set_irq_status (clear_status (irq_status m) (Z.shiftl 1 id))) (unmap_irq IRQC_PAGE m I)) as E.
  exact E.
Qed.

(** The keyboard after its interrupt was served. *)
Definition typed (m : machine) : outcome machine :=
  if pending KEYBOARD_IRQ_ID (irq_status m) then
    '(k, s) ← print_scancode send_key (u8 (scancode m)) (m_keyboard m) (m_sys m);
    Ret (set_m_keyboard k (set_m_sys s (set_irq_status (clear_status (irq_status m) (Z.shiftl 1 KEYBOARD_IRQ_ID)) m)))
  else Ret m.

Lemma int_keyboard_irq m : inside m -> int_keyboard m = typed m.
Proof.
  intros I. unfold int_keyboard, typed. rewrite irq_pending_irq by done. cbn [mbind outcome_bind].
  destruct (pending _ _); [|done]. rewrite map_zero_irq by apply I. cbn [mbind outcome_bind].
  rewrite map_zero_irq by apply I. cbn [mbind outcome_bind].
  rewrite unmap_irq by done. by rewrite irq_clear_irq.
Qed.

Definition tick (k : kernel St) : kernel St := set_sys_ticks (u32 (sys_ticks k + 1)) k.

Definition ticked (m : machine) : machine :=
  let m := set_irq_status (clear_status (irq_status m) (Z.shiftl 1 TIMER_IRQ_ID)) m in
  set_m_sys (set_kernel (tick (s_kernel (m_sys m))) (m_sys m)) m.

Lemma int_timer_irq b m : inside m ->
  int_timer b m = Ret (if pending TIMER_IRQ_ID (irq_status m) then (true, ticked m) else (b, m)).
Proof.
  intros I. unfold int_timer. rewrite irq_pending_irq by done. cbn [mbind outcome_bind].
  destruct (pending _ _); [|done]. by rewrite irq_clear_irq.
Qed.

(** ** The saved context *)

Definition context (st : int_handler_state) (p : proc) : proc_state :=
  ProcState (i_regs st) (i_pc st) (i_arith_flags st)
    (mem_pages (p_proc_state p)) (prog_pages (p_proc_state p)).

Definition saved (st : int_handler_state) (p : proc) : proc := set_p_proc_state (context st p) p.

Lemma copy_regs (src dst : list Z) : length src = 8%nat -> length dst = 8%nat ->
  for_loop 8 0 (fun i rs => x ← arr_get src i; arr_set rs i x) dst = Ret src.
Proof.
  intros Hs Hd. do 8 (destruct src as [|? src]; [done|]). destruct src; [|done].
  do 8 (destruct dst as [|? dst]; [done|]). by destruct dst.
Qed.

Lemma save_context_ok st s p :
  k_procs (s_kernel s) !! cur s = Some p -> length (i_regs st) = 8%nat ->
  length (regs (p_proc_state p)) = 8%nat -> save_context st s = Ret (put_proc (cur s) (saved st p) s).
Proof.
  intros Hp H8 H8'. unfold save_context. rewrite (get_proc_ok _ _ _ Hp). cbn [mbind outcome_bind].
  by rewrite copy_regs.
Qed.

(** The state when the context has been saved. *)
Definition entered (st : int_handler_state) (p : proc) (m : machine) : machine :=
  let s := set_zero_page ILLEGAL_PAGE (m_sys m) in
  let s := set_kernel (set_int_no_proc_modify true (s_kernel s)) s in
  set_m_sys (put_proc (cur s) (saved st p) s) (set_in_handler true m).

(** A process interrupted outside of the handler. *)
Record running (m : machine) (P : Z) (p : proc) : Prop := {
  rn_handler : in_interrupt_handler m = false;
  rn_sched : scheduling_enabled (s_kernel (m_sys m)) = true;
  rn_cur : cur (m_sys m) = P;
  rn_proc : k_procs (s_kernel (m_sys m)) !! P = Some p;
  rn_regs : length (regs (p_proc_state p)) = 8%nat;
}.

Lemma entered_inside st p m : inside (entered st p m).
Proof. by split. Qed.

Lemma entered_proc st P p m : running m P p ->
  cur (m_sys (entered st p m)) = P /\ k_procs (s_kernel (m_sys (entered st p m))) !! P = Some (saved st p).
Proof. intros R. split; [apply R|]. simpl. rewrite <-(rn_cur _ _ _ R). apply lookup_insert_eq. Qed.

(** The handler up to the devices, without a segmentation fault. *)
Lemma interrupt_served fuel st m P p :
  running m P p -> length (i_regs st) = 8%nat -> Z.land (irq_flags st) SFLAG_SEGFAULT = 0 ->
  interrupt fuel st m = int_serve fuel false (irq_flags st) (entered st p m).
Proof.
  intros [Hh Hs Hc Hp H8'] H8 Hseg. unfold interrupt. rewrite Hh.
  change (s_kernel (m_sys (set_in_handler true m))) with (s_kernel (m_sys m)). rewrite Hs. cbn [negb].
  rewrite save_context_ok with (p := p); [|by subst P|done|done]. cbn [mbind outcome_bind].
  unfold int_segfault. by rewrite Hseg.
Qed.

Definition status_after_keyboard (m : machine) : Z :=
  if pending KEYBOARD_IRQ_ID (irq_status m)
  then clear_status (irq_status m) (Z.shiftl 1 KEYBOARD_IRQ_ID) else irq_status m.

Definition timer_due (m : machine) : bool := pending TIMER_IRQ_ID (status_after_keyboard m).

(** The key that is pending has an entry in the tables or is an arrow key, and
    the terminal and the keyboard device can take the characters of a key. *)
Definition key_ok (m : machine) : Prop :=
  pending KEYBOARD_IRQ_ID (irq_status m) = true ->
  (known (u8 (scancode m)) \/ extended_scancode (m_keyboard m) = true) /\ keys_ready 3 (m_sys m).

(** [kb] is the state of the keyboard driver and [sk] the system when the pending
    key, if there is one, was served: its characters were submitted to the
    terminal and to the keyboard device, and nothing else was done. *)
Definition key_served (m : machine) (kb : keyboard) (sk : sys) : Prop :=
  (if pending KEYBOARD_IRQ_ID (irq_status m)
   then print_scancode send_key (u8 (scancode m)) (m_keyboard m) (m_sys m) = Ret (kb, sk)
   else kb = m_keyboard m /\ sk = m_sys m) /\ only_keys (m_sys m) sk.

(** The key is served alike whatever the rest of the system is. *)
Lemma key_serves m s : key_ok m -> s_dev s = s_dev (m_sys m) -> s_semas s = s_semas (m_sys m) ->
  exists kb sk, key_served m kb sk /\ key_served (set_m_sys s m) kb (with_keys sk s).
Proof.
  intros Hk Hd Hs. unfold key_served. simpl. assert (Ew : with_keys (m_sys m) s = s) by (by rewrite with_keys_same).
  destruct (pending _ _) eqn:E.
  - destruct (Hk E) as [Hcode K]. destruct (scancode_served _ _ _ Hcode K) as (kb & sk & Esk & _ & O & Hall).
    exists kb, sk. split; [done|]. rewrite <-(Hall s), Ew. split; [done|]. destruct O as [_ Os]. split; [done|].
    rewrite Hs. exact Os.
  - exists (m_keyboard m), (m_sys m). rewrite Ew. split_and!; try done; apply only_keys_refl.
Qed.

Lemma key_served_kernel m kb sk : key_served m kb sk ->
  exists x, s_kernel sk = set_semas x (s_kernel (m_sys m)) /\
    forall l, is_Some (s_semas (m_sys m) !! l) -> is_Some (x !! l).
Proof.
  intros [_ [Ew Es]]. exists (s_semas sk). split; [rewrite Ew at 1; by destruct (m_sys m) as [[[]] ? ? ? ?]|].
  intros l Hl. destruct Es as [->| ->]; [done|by apply is_Some_insert].
Qed.

Definition timed (m : machine) (s : sys) : sys := if timer_due m then set_kernel (tick (s_kernel s)) s else s.

(** The state after the devices were served. *)
Record served_devices (m m1 : machine) (sk : sys) : Prop := {
  sd_key : key_served m (m_keyboard m1) sk;
  sd_sys : m_sys m1 = timed m sk;
  sd_handler : in_interrupt_handler m1 = in_interrupt_handler m;
}.

Lemma served_procs m m1 sk : served_devices m m1 sk ->
  k_procs (s_kernel (m_sys m1)) = k_procs (s_kernel (m_sys m)) /\ cur (m_sys m1) = cur (m_sys m) /\
  scheduling_enabled (s_kernel (m_sys m1)) = scheduling_enabled (s_kernel (m_sys m)) /\ s_dev (m_sys m1) = s_dev sk.
Proof.
  intros [Hk Hs _]. destruct (key_served_kernel _ _ _ Hk) as (x & E & _). unfold cur. rewrite Hs. unfold timed.
  destruct (timer_due m); simpl; rewrite E; done.
Qed.

Lemma int_serve_devices fuel b flags m p :
  inside m -> key_ok m -> k_procs (s_kernel (m_sys m)) !! cur (m_sys m) = Some p ->
  let call := negb (Z.land flags SFLAG_SYSCALL =? 0) in
  exists m1 sk, served_devices m m1 sk /\
    int_serve fuel b flags m =
      if call && negb (IN_KERNEL p) then int_sys_call fuel m1
      else resume fuel (b || call && IN_KERNEL p || (p_type p =? PROC_TYPE_INIT) || timer_due m)
             (set_in_handler false m1).
Proof.
  intros I Hk Hp call. unfold int_serve. rewrite (get_proc_ok _ _ _ Hp). cbn [mbind outcome_bind].
  fold call. rewrite int_keyboard_irq by done. set (sw := b || _ || _).
  destruct (key_serves m (m_sys m) Hk eq_refl eq_refl) as (kb & sk & Hserved & _).
  destruct (key_served_kernel _ _ _ Hserved) as (x & Ek & _).
  assert (exists m0, typed m = Ret m0 /\ m_sys m0 = sk /\ m_keyboard m0 = kb /\ irq_status m0 = status_after_keyboard m /\
            in_interrupt_handler m0 = in_interrupt_handler m) as (m0 & -> & Hs0 & Hk0 & Hst0 & Hh0).
  { destruct Hserved as [Hserved _]. unfold typed, status_after_keyboard. destruct (pending _ _).
    - rewrite Hserved. cbn [mbind outcome_bind]. by eexists.
    - destruct Hserved as [-> ->]. by exists m. }
  assert (I0 : inside m0).
  { destruct I as [Im Iz]. split; rewrite Hs0; [by rewrite Ek|]. destruct Hserved as [_ [-> _]]. exact Iz. }
  assert (Hp0 : k_procs (s_kernel sk) !! cur sk = Some p) by (unfold cur; by rewrite Ek).
  cbn [mbind outcome_bind]. rewrite int_timer_irq by done.
  rewrite Hst0. change (pending TIMER_IRQ_ID (status_after_keyboard m)) with (timer_due m).
  exists (if timer_due m then ticked m0 else m0), sk. destruct (timer_due m) eqn:Et; cbn [mbind outcome_bind].
  - rewrite (get_proc_ok _ _ p); [|unfold ticked; simpl; by rewrite Hs0]. cbn [mbind outcome_bind].
    rewrite orb_true_r. split; [|done]. split; unfold timed; rewrite ?Et; unfold ticked; simpl; by rewrite ?Hs0, ?Hk0.
  - rewrite Hs0, (get_proc_ok _ _ _ Hp0). cbn [mbind outcome_bind]. rewrite orb_false_r.
    split; [|done]. split; unfold timed; rewrite ?Et, ?Hk0; done.
Qed.

Lemma int_serve_resume fuel b flags m p :
  inside m -> key_ok m -> k_procs (s_kernel (m_sys m)) !! cur (m_sys m) = Some p ->
  (Z.land flags SFLAG_SYSCALL = 0 \/ IN_KERNEL p = true) ->
  exists m1 sk, served_devices m m1 sk /\
    int_serve fuel b flags m =
    resume fuel (b || negb (Z.land flags SFLAG_SYSCALL =? 0) || (p_type p =? PROC_TYPE_INIT) || timer_due m)
      (set_in_handler false m1).
Proof.
  intros I Hk Hp Hf. destruct (int_serve_devices fuel b flags m p I Hk Hp) as (m1 & sk & Sd & ->).
  exists m1, sk. split; [done|]. destruct Hf as [-> | ->]; [done|]. by rewrite andb_false_r, andb_true_r.
Qed.

(** ** Resumption *)

(** The idle task and the page tables. *)
Definition has_idle (k : kernel St) : Prop :=
  exists ip, k_procs k !! IDLE_STRUCT = Some ip /\ p_state ip = PROC_STATE_RUNNABLE.
Definition has_tables (k : kernel St) : Prop :=
  forall Q q, k_procs k !! Q = Some q -> mem_pages (p_proc_state q) <> [].

(** What the scheduler needs: the process it starts from is alive, the idle
    task exists, and every process has page tables. *)
Record ready (k : kernel St) (ml : gmap Z (list (Z * Z))) (own : gset Z) (xs : list (Z * Z)) : Prop := {
  rd_ok : kernel_ok k ml own xs;
  rd_last : exists w, (last_element k, w) ∈ xs /\ dead k w = false;
  rd_idle : has_idle k;
  rd_tables : has_tables k;
}.

Lemma kernel_ok_frame (k k' : kernel St) ml own xs :
  kernel_ok k ml own xs -> ls_rep (k_store k') ml own -> (forall l, is_Some (k_semas k !! l) -> is_Some (k_semas k' !! l)) ->
  (forall v p, k_procs k !! v = Some p -> exists p', k_procs k' !! v = Some p' /\ p_sema_blocked p' = p_sema_blocked p) ->
  last_element k' = last_element k -> kernel_ok k' ml own xs.
Proof.
  intros K R Hs Hp Hl. split; [done|apply K|apply K| |rewrite Hl; apply K].
  intros v Hv. eapply proc_ok_mono; [by apply (kok_procs _ _ _ _ K)|done|done|done|].
  intros p E. destruct (Hp v p E) as (p' & E' & Hb). eauto.
Qed.

Lemma kernel_ok_same k k' ml own xs :
  kernel_ok k ml own xs -> k_store k' = k_store k -> k_procs k' = k_procs k ->
  (forall l, is_Some (k_semas k !! l) -> is_Some (k_semas k' !! l)) ->
  last_element k' = last_element k -> kernel_ok k' ml own xs.
Proof.
  intros K H1 H2 H3 H4. apply (kernel_ok_frame k); try done; rewrite ?H1, ?H2; [apply K|]. intros v p Hp. by exists p.
Qed.

(** An update of a descriptor that keeps what the process waits for. *)
Lemma kernel_ok_put k ml own xs P p p' :
  kernel_ok k ml own xs -> k_procs k !! P = Some p ->
  p_sema_blocked p' = 0 \/ p_sema_blocked p' = p_sema_blocked p ->
  kernel_ok (set_procs (<[P := p']> (k_procs k)) k) ml own xs.
Proof.
  intros [R L V Pr E] Hp Hb. split; try done. intros v Hv.
  eapply proc_ok_mono; [by apply Pr|done|done|done|]. simpl. intros q Hq.
  destruct (decide (P = v)) as [<-|]; [rewrite lookup_insert_eq|rewrite lookup_insert_ne by done]; [|eauto].
  exists p'. split; [done|]. rewrite Hp in Hq. by simplify_eq.
Qed.

Lemma ready_put k ml own xs P p p' :
  ready k ml own xs -> k_procs k !! P = Some p ->
  p_sema_blocked p' = 0 \/ p_sema_blocked p' = p_sema_blocked p ->
  p_state p' = p_state p -> mem_pages (p_proc_state p') = mem_pages (p_proc_state p) ->
  ready (set_procs (<[P := p']> (k_procs k)) k) ml own xs.
Proof.
  intros [K (w & Hw & Hd) (ip & Hi & His) T] Hp Hb Hst Hm. split.
  - by eapply kernel_ok_put.
  - exists w. split; [done|]. unfold dead in *. simpl.
    destruct (decide (P = w)) as [<-|]; [rewrite lookup_insert_eq|by rewrite lookup_insert_ne].
    by rewrite Hp in Hd; rewrite Hst.
  - unfold has_idle. simpl. destruct (decide (P = IDLE_STRUCT)) as [->|]; [rewrite lookup_insert_eq|rewrite lookup_insert_ne by done; eauto].
    exists p'. split; [done|]. congruence.
  - intros Q q. simpl. destruct (decide (P = Q)) as [<-|];
      [rewrite lookup_insert_eq|rewrite lookup_insert_ne by done; eauto].
    intros [= <-]. rewrite Hm. by eapply T.
Qed.

Lemma ready_same k k' ml own xs :
  ready k ml own xs -> k_store k' = k_store k -> k_procs k' = k_procs k ->
  (forall l, is_Some (k_semas k !! l) -> is_Some (k_semas k' !! l)) ->
  last_element k' = last_element k -> ready k' ml own xs.
Proof.
  intros [K L I T] H1 H2 H3 H4. split; [by eapply kernel_ok_same|..]; unfold dead, has_idle, has_tables in *; rewrite ?H2, ?H4; done.
Qed.

Lemma served_ok m m1 sk ml own xs : served_devices m m1 sk ->
  kernel_ok (s_kernel (m_sys m)) ml own xs -> kernel_ok (s_kernel (m_sys m1)) ml own xs.
Proof.
  intros [Hk Hs _] K. destruct (key_served_kernel _ _ _ Hk) as (x & E & Hx). rewrite Hs. unfold timed.
  destruct (timer_due m); (eapply kernel_ok_same; [exact K|..]); simpl; rewrite ?E; done.
Qed.

Lemma served_ready m m1 sk ml own xs : served_devices m m1 sk ->
  ready (s_kernel (m_sys m)) ml own xs -> ready (s_kernel (m_sys m1)) ml own xs.
Proof.
  intros [Hk Hs _] Rd. destruct (key_served_kernel _ _ _ Hk) as (x & E & Hx). rewrite Hs. unfold timed.
  destruct (timer_due m); (eapply ready_same; [exact Rd|..]); simpl; rewrite ?E; done.
Qed.

(** The processor runs the saved context of the current process [c]; every
    other saved context is as it was. *)
Record dispatched (m m' : machine) (c : proc) : Prop := {
  dp_proc : k_procs (s_kernel (m_sys m')) !! cur (m_sys m') = Some c;
  dp_cpu : cpu m' = p_proc_state c;
  dp_contexts Q : option_Forall2 same_context (k_procs (s_kernel (m_sys m)) !! Q) (k_procs (s_kernel (m_sys m')) !! Q);
  dp_enabled : int_enabled m' = true;
  dp_modify : int_no_proc_modify (s_kernel (m_sys m')) = false;
  dp_handler : in_interrupt_handler m' = in_interrupt_handler m;
  dp_ticks : sys_ticks (s_kernel (m_sys m')) = sys_ticks (s_kernel (m_sys m));
  dp_keyboard : m_keyboard m' = m_keyboard m;
  dp_dev : s_dev (m_sys m') = s_dev (m_sys m);
}.

Lemma switch_ok m k P c :
  pick_frame (s_kernel (m_sys m)) k -> current_proc k = P -> k_procs k !! P = Some c ->
  mem_pages (p_proc_state c) <> [] ->
  exists m', switch_to_userspace P (set_m_sys (set_kernel k (m_sys m)) m) = Ret m' /\
    dispatched m m' c /\ cur (m_sys m') = P.
Proof.
  intros [F Hs Hm Ht] Hc Hp Hne. unfold switch_to_userspace.
  rewrite (get_proc_ok _ _ c) by done. cbn [mbind outcome_bind].
  destruct (mem_pages (p_proc_state c)) as [|pg0 pgs] eqn:E; [done|]. cbn.
  eexists. split; [done|]. split; [|done].
  split; simpl; try done. unfold cur, s_kernel. simpl. by rewrite Hc.
Qed.

Lemma ready_pick k ml own xs : ready k ml own xs -> pick_good xs (sched_pick_next (length xs) k).
Proof.
  intros [K (w & Hw & Hd) _ _]. apply list_elem_of_split in Hw as (a & b & ->). by eapply sched_pick_good.
Qed.

Lemma resume_switch fuel m xs :
  scheduling_enabled (s_kernel (m_sys m)) = true -> has_idle (s_kernel (m_sys m)) ->
  has_tables (s_kernel (m_sys m)) -> pick_good xs (sched_pick_next fuel (s_kernel (m_sys m))) ->
  match resume fuel true m with
  | Ret m' => exists c, dispatched m m' c /\ (p_state c = PROC_STATE_RUNNABLE \/ p_state c = PROC_STATE_SYSCALL)
  | Panic msg => msg = HEAP_FULL
  | _ => False
  end.
Proof.
  intros Hs (ip & Hi & His) T G. unfold resume. rewrite Hs.
  destruct (sched_pick_next _ _) as [k'| | | |] eqn:Ep; try done. cbn [mbind outcome_bind].
  pose proof (sched_pick_next_frame _ _ _ Ep) as F. destruct G as [_ G].
  assert (exists c, k_procs k' !! current_proc k' = Some c /\
            (p_state c = PROC_STATE_RUNNABLE \/ p_state c = PROC_STATE_SYSCALL)) as (c & Hc & Hst).
  { destruct G as [Hcur|(c & _ & Hc & Hst)]; [|eauto]. rewrite Hcur.
    pose proof (pf_procs _ _ F IDLE_STRUCT) as Fi. rewrite Hi in Fi. inversion Fi as [? c [_ Hsi]|]; subst.
    exists c. split; [done|]. destruct Hsi as [Hsi|[_ Hsi]]; [rewrite Hsi; auto|done]. }
  rewrite (get_proc_ok _ _ c) by done. cbn [mbind outcome_bind].
  rewrite (eqb_ne (p_state c)) by (by destruct Hst as [-> | ->]). cbn [negb ASSERT mbind outcome_bind].
  destruct (switch_ok m k' (current_proc k') c F eq_refl Hc) as (m' & -> & Dm & _).
  { pose proof (pf_procs _ _ F (current_proc k')) as Fc. rewrite Hc in Fc.
    inversion Fc as [q c' Hsame Hq|]; simplify_eq. rewrite (proj1 Hsame). by eapply T. }
  eauto.
Qed.

Lemma resume_same fuel m P p :
  scheduling_enabled (s_kernel (m_sys m)) = true -> cur (m_sys m) = P ->
  k_procs (s_kernel (m_sys m)) !! P = Some p -> p_state p <> PROC_STATE_UNLOADED ->
  mem_pages (p_proc_state p) <> [] ->
  exists m', resume fuel false m = Ret m' /\ dispatched m m' p /\ cur (m_sys m') = P.
Proof.
  intros Hs Hc Hp Hu Hm. unfold resume. rewrite Hs. cbn [mbind outcome_bind].
  change (current_proc (s_kernel (m_sys m))) with (cur (m_sys m)). rewrite Hc.
  rewrite (get_proc_ok _ _ p) by done. cbn [mbind outcome_bind].
  rewrite (eqb_ne (p_state p)) by done. cbn [negb ASSERT mbind outcome_bind].
  by apply (switch_ok m (s_kernel (m_sys m)) P p (pick_frame_refl _)).
Qed.

(** ** Theorems *)

Definition switches (st : int_handler_state) (p : proc) (m : machine) : bool :=
  negb (Z.land (irq_flags st) SFLAG_SYSCALL =? 0) || (p_type p =? PROC_TYPE_INIT) || timer_due m.

(** What an interrupt of process [P] leaves: the processor runs the context
    saved for the current process, [P]'s own context is the one that was
    interrupted, and no other saved context has changed. *)
Record preempted (st : int_handler_state) (P : Z) (p : proc) (m m' : machine) (c : proc) : Prop := {
  pr_proc : k_procs (s_kernel (m_sys m')) !! cur (m_sys m') = Some c;
  pr_cpu : cpu m' = p_proc_state c;
  pr_saved : exists p', k_procs (s_kernel (m_sys m')) !! P = Some p' /\ p_proc_state p' = context st p;
  pr_others Q : Q <> P ->
    option_Forall2 same_context (k_procs (s_kernel (m_sys m)) !! Q) (k_procs (s_kernel (m_sys m')) !! Q);
  pr_handler : in_interrupt_handler m' = false;
  pr_enabled : int_enabled m' = true;
  pr_ticks : sys_ticks (s_kernel (m_sys m')) =
    if timer_due m then u32 (sys_ticks (s_kernel (m_sys m)) + 1) else sys_ticks (s_kernel (m_sys m));
  pr_key : exists sk, key_served m (m_keyboard m') sk /\ s_dev (m_sys m') = s_dev sk;
}.

Lemma key_ok_entered st p m : key_ok m -> key_ok (entered st p m).
Proof. intros Hk E. destruct (Hk E) as [Hc []]. split; [done|]. by split. Qed.

(** Saving the context does not matter to the keyboard. *)
Lemma key_served_entered st P p m m1 sk : running m P p -> key_ok m -> served_devices (entered st p m) m1 sk ->
  exists sk', key_served m (m_keyboard m1) sk' /\ s_dev sk = s_dev sk' /\ s_semas sk = s_semas sk'.
Proof.
  intros R Hk [Hs _ _]. set (s := m_sys (entered st p m)) in *.
  destruct (key_serves m s Hk eq_refl eq_refl) as (kb & sk' & H1 & H2).
  change (entered st p m) with (set_m_sys s (set_in_handler true m)) in Hs.
  destruct Hs as [Hs _], H2 as [H2 _]. simpl in Hs, H2.
  change (irq_status (set_m_sys s m)) with (irq_status m) in H2. exists sk'.
  destruct (pending _ _).
  - rewrite Hs in H2. injection H2 as -> ->. done.
  - destruct Hs as [-> ->], H2 as [-> H2]. split; [done|]. simpl in H2 |- *.
    split; [change (s_dev sk') with (s_dev (with_keys sk' s))|change (s_semas sk') with (s_semas (with_keys sk' s))]; by rewrite H2.
Qed.

Lemma dispatched_preempted st P p m m1 sk m' c :
  running m P p -> key_ok m -> served_devices (entered st p m) m1 sk ->
  dispatched (set_in_handler false m1) m' c -> preempted st P p m m' c.
Proof.
  intros R Hk Sd [Dp Dc Dx De Dm Dh Dt Dk Dv]. destruct (served_procs _ _ _ Sd) as (Epr & _ & _ & Ed).
  assert (Hpr : k_procs (s_kernel (m_sys m1)) = <[P := saved st p]> (k_procs (s_kernel (m_sys m)))).
  { rewrite Epr. by rewrite <-(rn_cur _ _ _ R). }
  cbn [set_in_handler m_sys m_keyboard] in *. rewrite Hpr in Dx. split; try done.
  - specialize (Dx P). rewrite lookup_insert_eq in Dx. inversion Dx as [? p' Hsame|]; subst.
    exists p'. split; [done|]. apply Hsame.
  - intros Q HQ. specialize (Dx Q). by rewrite lookup_insert_ne in Dx.
  - rewrite Dt, (sd_sys _ _ _ Sd). destruct (key_served_kernel _ _ _ (sd_key _ _ _ Sd)) as (x & Ek & _).
    unfold timed. change (timer_due (entered st p m)) with (timer_due m). destruct (timer_due m); simpl; by rewrite Ek.
  - rewrite Dk, Dv, Ed. destruct (key_served_entered st P p m m1 sk R Hk Sd) as (sk' & Hs & Hd & _). by exists sk'.
Qed.

(** C1. An interrupt loses no context.  When a process is interrupted (by a
    device, or by the yield of a kernel thread), the handler saves its registers,
    program counter and flags, serves the keyboard -- the characters of a pending
    key are submitted to the terminal and to the keyboard device, and nothing else
    happens to any device -- and the timer, and resumes a process from exactly the
    context saved for it; the context of every other process is untouched, a timer
    interrupt counts one tick, and without a timer interrupt, a yield or the idle
    task the very context that was interrupted is resumed.  The only failure is
    the panic of [kmalloc] on a full heap, while the scheduler queues an alarm.
    This holds when the process list is well formed, the process the scheduler
    starts from is alive, the idle task exists and every process has page tables
    ([ready]), the interrupted process is not unloaded, and for a pending key
    ([key_ok]): the scan code is one of the tables, of a modifier or a prefix, or
    follows the extended prefix, the rings of the terminal and of the keyboard device
    are well formed with their signals at 0 or 1, and the line buffer of the terminal
    has room for three characters. *)
Theorem interrupt_preempts st m P p ml own xs :
  running m P p -> length (i_regs st) = 8%nat -> ready (s_kernel (m_sys m)) ml own xs ->
  p_state p <> PROC_STATE_UNLOADED -> key_ok m ->
  Z.land (irq_flags st) SFLAG_SEGFAULT = 0 ->
  (Z.land (irq_flags st) SFLAG_SYSCALL = 0 \/ IN_KERNEL p = true) ->
  match interrupt (length xs) st m with
  | Ret m' => exists c, preempted st P p m m' c /\
      if switches st p m then p_state c = PROC_STATE_RUNNABLE \/ p_state c = PROC_STATE_SYSCALL
      else cur (m_sys m') = P /\ cpu m' = context st p
  | Panic msg => switches st p m = true /\ msg = HEAP_FULL
  | _ => False
  end.
Proof.
  intros R H8 Rd Hu Hk Hseg Hf. rewrite (interrupt_served _ _ _ _ _ R H8 Hseg).
  destruct (entered_proc st _ _ _ R) as [Ec Ep].
  destruct (int_serve_resume (length xs) false (irq_flags st) (entered st p m) (saved st p)) as (m1 & sk & Sd & ->);
    [apply entered_inside|exact (key_ok_entered st p m Hk)|by rewrite Ec|done|].
  change (_ || timer_due (entered st p m)) with (switches st p m).
  destruct (served_procs _ _ _ Sd) as (Epr & Ecur & Esch & _).
  assert (Hs1 : scheduling_enabled (s_kernel (m_sys (set_in_handler false m1))) = true).
  { cbn [set_in_handler m_sys]. rewrite Esch. apply R. }
  assert (Rd1 : ready (s_kernel (m_sys (set_in_handler false m1))) ml own xs).
  { apply (served_ready _ _ _ _ _ _ Sd).
    pose proof (ready_put _ _ _ _ P p (saved st p) Rd (rn_proc _ _ _ R) (or_intror eq_refl) eq_refl eq_refl) as R0.
    rewrite <-(rn_cur _ _ _ R) in R0. by eapply ready_same. }
  destruct (switches st p m) eqn:Esw.
  - pose proof (resume_switch _ _ _ Hs1 (rd_idle _ _ _ _ Rd1) (rd_tables _ _ _ _ Rd1) (ready_pick _ _ _ _ Rd1)) as G.
    destruct (resume _ _ _) as [m'| | | |]; try done. destruct G as (c & Dm & Hst).
    exists c. split; [by eapply dispatched_preempted|done].
  - destruct (resume_same (length xs) (set_in_handler false m1) P (saved st p)) as (m' & -> & Dm & Hc); try done.
    + cbn [set_in_handler m_sys]. by rewrite Ecur.
    + cbn [set_in_handler m_sys]. by rewrite Epr.
    + exact (rd_tables _ _ _ _ Rd P p (rn_proc _ _ _ R)).
    + exists (saved st p). split; [by eapply dispatched_preempted|]. split; [done|apply Dm].
Qed.

(** ** Segmentation faults *)

Definition killed (st : int_handler_state) (p : proc) : proc :=
  set_p_proc_state (set_regs (<[0%nat := 139]> (i_regs st)) (context st p)) (set_p_state PROC_STATE_DEAD p).

(** The machine after the fault, with the kernel state [k]. *)
Definition after_fault (k : kernel St) (st : int_handler_state) (p : proc) (m : machine) : machine :=
  set_m_sys (set_kernel k (m_sys (entered st p m))) (set_in_handler true m).

Lemma interrupt_fault fuel st m P p :
  running m P p -> length (i_regs st) = 8%nat -> Z.land (irq_flags st) SFLAG_SEGFAULT <> 0 ->
  interrupt fuel st m =
    if IN_KERNEL p then Panic "SEGFAULT INSIDE KERNEL"
    else
      k ← signal_send_sigchld P (set_procs (<[P := killed st p]> (k_procs (s_kernel (m_sys m))))
            (set_int_no_proc_modify true (s_kernel (m_sys m))));
      int_serve fuel true 0 (after_fault k st p m).
Proof.
  intros [Hh Hs Hc Hp H8'] H8 Hseg. unfold interrupt. rewrite Hh.
  change (s_kernel (m_sys (set_in_handler true m))) with (s_kernel (m_sys m)). rewrite Hs. cbn [negb].
  rewrite save_context_ok with (p := p); [|by subst P|done|done]. cbn [mbind outcome_bind].
  unfold int_segfault. rewrite eqb_ne by done. cbn [negb].
  change (put_proc _ (saved st p) _) with (m_sys (entered st p m)). subst P.
  rewrite (get_proc_ok _ _ (saved st p)) by apply lookup_insert_eq. cbn [mbind outcome_bind].
  change (IN_KERNEL (saved st p)) with (IN_KERNEL p). destruct (IN_KERNEL p); [done|].
  rewrite arr_set_in by (simpl; lia). cbn [mbind outcome_bind].
  change (Z.to_nat 0) with 0%nat.
  assert (E : s_kernel (put_proc (cur (m_sys m)) (killed st p) (m_sys (entered st p m))) =
    set_procs (<[cur (m_sys m) := killed st p]> (k_procs (s_kernel (m_sys m))))
      (set_int_no_proc_modify true (s_kernel (m_sys m)))).
  { unfold entered. simpl. rewrite put_proc_put. done. }
  change (cur (put_proc _ _ _)) with (cur (m_sys m)). rewrite <-E.
  by destruct (signal_send_sigchld _ _).
Qed.

(** A fault leaves process [P] dead with exit code 139 and runs another one. *)
Record fault_handled (st : int_handler_state) (P : Z) (p : proc) (m m' : machine) (c : proc) : Prop := {
  fh_proc : k_procs (s_kernel (m_sys m')) !! cur (m_sys m') = Some c;
  fh_cpu : cpu m' = p_proc_state c;
  fh_other : cur (m_sys m') <> P;
  fh_state : p_state c = PROC_STATE_RUNNABLE \/ p_state c = PROC_STATE_SYSCALL;
  fh_dead : exists p', k_procs (s_kernel (m_sys m')) !! P = Some p' /\ p_state p' = PROC_STATE_DEAD /\
    regs (p_proc_state p') !! 0%nat = Some 139 /\ pc (p_proc_state p') = i_pc st;
  fh_others Q : Q <> P ->
    option_Forall2 same_context (k_procs (s_kernel (m_sys m)) !! Q) (k_procs (s_kernel (m_sys m')) !! Q);
}.

Lemma dispatched_fault k st P p m m1 sk m' c :
  length (i_regs st) = 8%nat ->
  k_procs k = <[P := killed st p]> (k_procs (s_kernel (m_sys m))) ->
  served_devices (after_fault k st p m) m1 sk -> dispatched (set_in_handler false m1) m' c ->
  (p_state c = PROC_STATE_RUNNABLE \/ p_state c = PROC_STATE_SYSCALL) -> fault_handled st P p m m' c.
Proof.
  intros H8 Hk Sd [Dp Dc Dx _ _ _ _ _ _] Hst. destruct (served_procs _ _ _ Sd) as (Hpr & _).
  change (s_kernel (m_sys (after_fault k st p m))) with k in Hpr. rewrite Hk in Hpr.
  cbn [set_in_handler m_sys] in *. rewrite Hpr in Dx.
  assert (exists p', k_procs (s_kernel (m_sys m')) !! P = Some p' /\ same_context (killed st p) p') as (p' & Hp' & [Hc Hd]).
  { specialize (Dx P). rewrite lookup_insert_eq in Dx. inversion Dx as [? p' Hsame|]; subst. by exists p'. }
  destruct Hd as [Hd|[Hd _]]; [|by destruct Hd]. simpl in Hd. split; try done.
  - intros <-. rewrite Dp in Hp'. simplify_eq. rewrite Hd in Hst. by destruct Hst.
  - exists p'. split_and!; [done|done| |by rewrite Hc]. rewrite Hc. simpl.
    apply list_lookup_insert_eq. lia.
  - intros Q HQ. specialize (Dx Q). by rewrite lookup_insert_ne in Dx.
Qed.

(** C6. A segmentation fault is confined.  In kernel code it halts the kernel.
    A user process is killed: it is left dead with exit code 139 and the program
    counter of the fault, it is not the process that runs next, and the saved
    context of every other process is untouched.  When another process of the
    list is runnable the handler ends with one that is runnable; the only other
    outcome is the panic of [kmalloc] on a full heap, while the signal for the
    parent or an alarm is queued.  The process list is well formed, the idle task exists and
    every process has page tables.  A key that is pending is served first, with the
    conditions of [key_ok]: a scan code that the driver knows, well-formed rings, and
    room for three characters in the line of the terminal. *)
Theorem segfault_kills fuel st m P p ml own xs v :
  running m P p -> length (i_regs st) = 8%nat -> Z.land (irq_flags st) SFLAG_SEGFAULT <> 0 ->
  kernel_ok (s_kernel (m_sys m)) ml own xs -> has_idle (s_kernel (m_sys m)) ->
  has_tables (s_kernel (m_sys m)) -> key_ok m -> P ∈ xs.*2 ->
  v ∈ xs.*2 -> v <> P -> runnable (s_kernel (m_sys m)) v = true ->
  if IN_KERNEL p then interrupt fuel st m = Panic "SEGFAULT INSIDE KERNEL"
  else match interrupt (length xs) st m with
       | Ret m' => exists c, fault_handled st P p m m' c
       | Panic msg => msg = HEAP_FULL
       | _ => False
       end.
Proof.
  intros R H8 Hseg K (ip & Hi & His) T Hk HP Hv HvP Hr.
  destruct (IN_KERNEL p) eqn:Ek; rewrite (interrupt_fault _ _ _ _ _ R H8 Hseg), Ek; [done|].
  set (k0 := set_procs _ _). pose proof (rn_proc _ _ _ R) as Hp.
  assert (K0 : kernel_ok k0 ml own xs).
  { eapply kernel_ok_same; [exact (kernel_ok_put _ _ _ _ P p (killed st p) K Hp (or_intror eq_refl))|done..]. }
  assert (Hcur : current_proc k0 = P) by apply R.
  assert (HP0 : k_procs k0 !! P = Some (killed st p)) by apply lookup_insert_eq.
  pose proof (sigchld_ok k0 ml own xs P K0 ltac:(by rewrite HP0) ltac:(by rewrite Hcur, HP0)) as G.
  destruct (signal_send_sigchld P k0) as [k1| | | |]; try done. cbn [mbind outcome_bind].
  destruct G as ((m1' & own1 & K1) & F & Hprocs & Hc1 & Hsem). rewrite Hcur in Hc1.
  set (mf := after_fault k1 st p m).
  assert (Hmk : s_kernel (m_sys mf) = k1) by done.
  assert (Hneg : P <> IDLE_STRUCT).
  { destruct (kok_procs _ _ _ _ K P HP) as [HPr _ _ _ _]. unfold IDLE_STRUCT. lia. }
  destruct (int_serve_resume (length xs) true 0 mf (killed st p)) as (m1 & sk & Sd & ->).
  { split; [|done]. rewrite Hmk. rewrite (pf_modify _ _ F). done. }
  { intros E. destruct (Hk E) as [Hcode [? ? ? ? ? Hda]]. split; [done|]. split; try done.
    change (s_semas (m_sys mf)) with (k_semas k1). rewrite Hsem by done. exact Hda. }
  { change (cur (m_sys mf)) with (current_proc k1). by rewrite Hmk, Hc1, Hprocs. }
  { by left. }
  cbn [orb]. destruct (served_procs _ _ _ Sd) as (Epr & _ & Esch & _). rewrite Hmk in Epr, Esch.
  pose proof (served_ok _ _ _ m1' own1 xs Sd ltac:(by rewrite Hmk)) as K2.
  set (k2 := s_kernel (m_sys m1)) in *.
  assert (Hkk : k_procs k2 = k_procs k0) by congruence.
  assert (Hother : forall Q, Q <> P -> k_procs k2 !! Q = k_procs (s_kernel (m_sys m)) !! Q).
  { intros Q HQ. rewrite Hkk. by apply lookup_insert_ne. }
  assert (S2 : scheduling_enabled k2 = true).
  { rewrite Esch, (pf_sched _ _ F). apply R. }
  assert (I2 : has_idle k2) by (exists ip; by rewrite Hother).
  assert (T2 : has_tables k2).
  { intros Q q. destruct (decide (Q = P)) as [->|]; [rewrite Hkk|by rewrite Hother by done; apply T].
    rewrite HP0. intros [= <-]. by apply (T P p). }
  assert (G2 : pick_good xs (sched_pick_next (length xs) k2)).
  { apply (sched_pick_runnable _ _ _ _ v K2 Hv). unfold runnable in *. by rewrite Hother. }
  pose proof (resume_switch (length xs) (set_in_handler false m1) xs S2 I2 T2 G2) as G. destruct (resume _ _ _) as [m'| | | |]; try done.
  destruct G as (c & Dm & Hst). exists c. by eapply (dispatched_fault k1); [..|exact Sd|exact Dm|].
Qed.

(** ** System calls *)

(** The context of the kernel thread that serves the call. *)
Definition kernel_context (p : proc) : proc_state :=
  let ps := p_proc_state p in
  ProcState (regs ps) (pc ps) (arith_flags ps) ([ILLEGAL_PAGE] ++ seqZ 0x201 14 ++ [p_kernel_stack_page p]) (seqZ 0 16).

Definition in_syscall (p : proc) : proc :=
  set_p_state PROC_STATE_SYSCALL (set_p_proc_state (kernel_context p) (set_p_syscall_state (p_proc_state p) p)).

Lemma kernel_tables_ok sp ps :
  length (mem_pages ps) = 16%nat -> length (prog_pages ps) = 16%nat ->
  kernel_tables sp ps = Ret (ProcState (regs ps) (pc ps) (arith_flags ps)
    ([ILLEGAL_PAGE] ++ seqZ 0x201 14 ++ [sp]) (seqZ 0 16)).
Proof.
  destruct ps as [r c f mp pp]. simpl. intros Hm Hp. unfold kernel_tables. simpl.
  do 16 (destruct mp as [|? mp]; [done|]). destruct mp; [|done].
  do 16 (destruct pp as [|? pp]; [done|]). by destruct pp.
Qed.

Lemma sys_enter_ok s P p :
  cur s = P -> k_procs (s_kernel s) !! P = Some p ->
  length (mem_pages (p_proc_state p)) = 16%nat -> length (prog_pages (p_proc_state p)) = 16%nat ->
  sys_enter s = Ret (set_kernel (set_int_no_proc_modify false (s_kernel (put_proc P (in_syscall p) s)))
                       (put_proc P (in_syscall p) s)).
Proof.
  intros Hc Hp Hm Hg. unfold sys_enter. rewrite Hc, (get_proc_ok _ _ _ Hp). cbn [mbind outcome_bind].
  rewrite kernel_tables_ok by done. done.
Qed.

(** A process that returns from a call without a signal to handle. *)
Record returns (s : sys) (P : Z) (p : proc) : Prop := {
  ret_cur : cur s = P;
  ret_proc : k_procs (s_kernel s) !! P = Some p;
  ret_alive : p_state p <> PROC_STATE_DEAD;
  ret_quiet : exists first, ls_first (s_store s) (signal_queue_of P) = Ret first /\
    (first = 0 \/ p_signals_hold p <> 0 \/ p_sighandler p = 0);
  ret_table : mem_pages (p_syscall_state p) <> [];
}.

Definition back (p : proc) : proc := set_p_state PROC_STATE_RUNNABLE (set_p_proc_state (p_syscall_state p) p).

Lemma sys_leave_ok fuel s P p : returns s P p ->
  sys_leave fuel s = Ret (put_proc P (back p) (set_kernel (set_int_no_proc_modify true (s_kernel s)) s)).
Proof.
  intros [Hc Hp Ha (first & Hf & Hq) Ht]. unfold sys_leave.
  change (cur (set_kernel (set_int_no_proc_modify true (s_kernel s)) s)) with (cur s). rewrite Hc.
  rewrite (get_proc_ok _ _ p) by done. cbn [mbind outcome_bind]. rewrite (eqb_ne _ _ Ha). cbn [negb].
  change (cur (put_proc _ _ _)) with (cur s). rewrite Hc.
  change (s_store (put_proc _ _ _)) with (s_store s). rewrite Hf. cbn [mbind outcome_bind].
  assert (negb (first =? 0) && (p_signals_hold p =? 0) && negb (p_sighandler p =? 0) = false) as ->.
  { destruct Hq as [-> |[Hq| ->]]; [done| |by rewrite andb_false_r].
    by rewrite (eqb_ne _ _ Hq), andb_false_r. }
  cbn [mbind outcome_bind]. change (cur (put_proc _ _ _)) with (cur s). rewrite Hc.
  rewrite (get_proc_ok _ _ _ (put_proc_lookup _ _ _)). cbn [mbind outcome_bind]. by rewrite put_proc_put.
Qed.

(** The processor runs process [P] again, from the context [x]. *)
Record back_in (m' : machine) (P : Z) (p : proc) : Prop := {
  bi_cur : cur (m_sys m') = P;
  bi_proc : k_procs (s_kernel (m_sys m')) !! P = Some (back p);
  bi_cpu : cpu m' = p_syscall_state p;
  bi_handler : in_interrupt_handler m' = false;
  bi_enabled : int_enabled m' = true;
  bi_modify : int_no_proc_modify (s_kernel (m_sys m')) = false;
}.

Lemma switch_back m P p s :
  returns s P p ->
  exists m', switch_to_userspace P (set_m_sys (put_proc P (back p)
      (set_kernel (set_int_no_proc_modify true (s_kernel s)) s)) (set_in_handler false m)) = Ret m' /\
    back_in m' P p.
Proof.
  intros [Hc Hp _ _ Ht]. unfold switch_to_userspace.
  rewrite (get_proc_ok _ _ (back p)) by apply lookup_insert_eq. cbn [mbind outcome_bind].
  change (mem_pages (p_proc_state (back p))) with (mem_pages (p_syscall_state p)).
  destruct (mem_pages (p_syscall_state p)) as [|pg0 pgs] eqn:E; [done|]. cbn.
  eexists. split; [done|]. split; try done. apply lookup_insert_eq.
Qed.

(** The state in which [process_syscall] starts; [sk] is the system after the
    keyboard was served. *)
Record called (st : int_handler_state) (P : Z) (p : proc) (m : machine) (sk s1 : sys) : Prop := {
  cl_cur : cur s1 = P;
  cl_procs : k_procs (s_kernel s1) = <[P := in_syscall (saved st p)]> (k_procs (s_kernel (m_sys m)));
  cl_modify : int_no_proc_modify (s_kernel s1) = false;
  cl_ticks : sys_ticks (s_kernel s1) =
    if timer_due m then u32 (sys_ticks (s_kernel (m_sys m)) + 1) else sys_ticks (s_kernel (m_sys m));
  cl_store : s_store s1 = s_store (m_sys m);
  cl_semas : s_semas s1 = s_semas sk;
  cl_signals : k_signals (s_kernel s1) = k_signals (s_kernel (m_sys m));
  cl_phys : v_phys (s_vm s1) = v_phys (s_vm (m_sys m));
  cl_bufs : s_bufs s1 = s_bufs (m_sys m);
  cl_vfs : s_vfs s1 = s_vfs (m_sys m);
  cl_mq : s_mq s1 = s_mq (m_sys m);
  cl_dev : s_dev s1 = s_dev sk;
}.

(** What the devices leave of the rest *)
Lemma served_rest m m1 sk : served_devices m m1 sk ->
  m_sys m1 = set_dev (s_dev sk) (set_kernel
    (set_sys_ticks (if timer_due m then u32 (sys_ticks (s_kernel (m_sys m)) + 1) else sys_ticks (s_kernel (m_sys m)))
      (set_semas (s_semas sk) (s_kernel (m_sys m)))) (m_sys m)).
Proof.
  intros [[_ [Ew _]] Hs _]. rewrite Hs. unfold timed. rewrite Ew at 1 2. destruct (timer_due m); [done|].
  by destruct (m_sys m) as [[[]] ? ? ? ?].
Qed.

Lemma interrupt_call fuel st m P p :
  running m P p -> length (i_regs st) = 8%nat -> key_ok m -> IN_KERNEL p = false ->
  length (mem_pages (p_proc_state p)) = 16%nat -> length (prog_pages (p_proc_state p)) = 16%nat ->
  Z.land (irq_flags st) SFLAG_SEGFAULT = 0 -> Z.land (irq_flags st) SFLAG_SYSCALL <> 0 ->
  exists kb sk s1 m2, key_served m kb sk /\ called st P p m sk s1 /\ interrupt fuel st m =
    '(_, s2) ← process_syscall log elf_load P s1;
    s3 ← sys_leave fuel s2;
    switch_to_userspace (cur s3) (set_m_sys s3 (set_in_handler false m2)).
Proof.
  intros R H8 Hk Hu Hm Hg Hseg Hcall. rewrite (interrupt_served _ _ _ _ _ R H8 Hseg).
  destruct (entered_proc st _ _ _ R) as [Ec Ep].
  destruct (int_serve_devices fuel false (irq_flags st) (entered st p m) (saved st p)) as (m1 & sk & Sd & ->);
    [apply entered_inside|exact (key_ok_entered st p m Hk)|by rewrite Ec|].
  destruct (key_served_entered st P p m m1 sk R Hk Sd) as (sk' & Hs' & Hd' & Hm').
  change (IN_KERNEL (saved st p)) with (IN_KERNEL p). rewrite Hu, (eqb_ne _ _ Hcall). cbn [negb andb].
  unfold int_sys_call. change (m_sys (set_in_handler false m1)) with (m_sys m1).
  destruct (served_procs _ _ _ Sd) as (Ep1 & Ec1 & _). rewrite Ec in Ec1. pose proof (served_rest _ _ _ Sd) as Er.
  change (timer_due (entered st p m)) with (timer_due m) in Er.
  rewrite (sys_enter_ok _ P (saved st p)); [|done|by rewrite Ep1|done|done]. cbn [mbind outcome_bind].
  eexists _, sk', _, (set_int_enabled false (set_int_enabled true m1)). split; [exact Hs'|]. split; [|].
  2: { match goal with |- context [process_syscall log elf_load (cur ?s) _] => change (cur s) with (cur (m_sys m1)) end.
       rewrite Ec1. done. }
  rewrite Er, Hd', Hm' in *. split; try done.
  transitivity (<[P := in_syscall (saved st p)]> (k_procs (s_kernel (m_sys (entered st p m))))); [done|].
  unfold entered. simpl. rewrite <-(rn_cur _ _ _ R). apply insert_insert_eq.
Qed.

(** The numbers that [process_syscall] knows. *)
Definition system_calls : list Z :=
  [SYS_DUMP; SYS_PRINT; SYS_OPEN; SYS_CLOSE; SYS_READ; SYS_WRITE; SYS_FCNTL; SYS_PROCINFO; SYS_PGMAP;
   SYS_SIGACTION; SYS_SIGSEND; SYS_SIGHDLRRET; SYS_SIGWAIT; SYS_CLOCKTICKS; SYS_ALARMSET; SYS_MQCREAT;
   SYS_MQSEND; SYS_MQRECV; SYS_EXIT; SYS_EXEC].

Lemma illegal_syscall P s p n :
  k_procs (s_kernel s) !! P = Some p -> length (regs (p_syscall_state p)) = 8%nat ->
  regs (p_syscall_state p) !! 0%nat = Some n -> n ∉ system_calls ->
  process_syscall log elf_load P s = Ret (1, put_proc P (with_reg 0 (- EINVAL) p) s).
Proof.
  intros Hp H8 Hn Hill. unfold process_syscall. rewrite (reg_ok P 0 s p n) by done. cbn [mbind outcome_bind].
  unfold system_calls in Hill. repeat (apply not_elem_of_cons in Hill as [?Hx Hill]).
  rewrite !eqb_ne by done. cbv iota. rewrite (set_reg_ok P 0 (- EINVAL) s p); [reflexivity|exact Hp|clear -H8; lia].
Qed.

(** C4. The path of a system call.  An interrupt by which a user process calls
    the kernel saves its context and serves the devices: the characters of a
    pending key are submitted to the terminal and to the keyboard device, whose
    buffers and semaphores are then as [send_key] leaves them, and the timer
    counts a tick.  [process_syscall] starts on the saved context with the rest of
    the system unchanged, as a kernel thread that has the kernel's page tables and
    its own kernel stack.  When the call returns, the process is alive and no
    signal waits for its handler, the processor resumes the process from the saved
    context as the call has left it, with the process runnable and interrupts
    enabled.  A call with an unknown number changes nothing of that context but
    register 0, which holds -EINVAL, when no signal waits for its handler.  The
    process has page tables of 16 entries, and a pending key satisfies [key_ok]: the
    scan code is one the driver knows, the rings of the terminal and of the keyboard
    device are well formed, and the line of the terminal has room for three
    characters. *)
Theorem syscall_roundtrip fuel st m P p :
  running m P p -> length (i_regs st) = 8%nat -> key_ok m -> IN_KERNEL p = false ->
  length (mem_pages (p_proc_state p)) = 16%nat -> length (prog_pages (p_proc_state p)) = 16%nat ->
  Z.land (irq_flags st) SFLAG_SEGFAULT = 0 -> Z.land (irq_flags st) SFLAG_SYSCALL <> 0 ->
  exists kb sk s1, key_served m kb sk /\ called st P p m sk s1 /\
    p_syscall_state (in_syscall (saved st p)) = context st p /\
    (forall r s2 p2, process_syscall log elf_load P s1 = Ret (r, s2) -> returns s2 P p2 ->
       exists m', interrupt fuel st m = Ret m' /\ back_in m' P p2) /\
    (forall n first, i_regs st !! 0%nat = Some n -> n ∉ system_calls ->
       ls_first (s_store (m_sys m)) (signal_queue_of P) = Ret first ->
       first = 0 \/ p_signals_hold p <> 0 \/ p_sighandler p = 0 ->
       exists m', interrupt fuel st m = Ret m' /\ cur (m_sys m') = P /\
         cpu m' = set_regs (<[0%nat := u16 (- EINVAL)]> (i_regs st)) (context st p)).
Proof.
  intros R H8 Hk Hu Hm Hg Hseg Hcall.
  destruct (interrupt_call fuel st m P p R H8 Hk Hu Hm Hg Hseg Hcall) as (kb & sk & s1 & m2 & Hs & C & E).
  exists kb, sk, s1. split; [done|]. split; [done|]. split; [done|].
  assert (G : forall r s2 p2, process_syscall log elf_load P s1 = Ret (r, s2) -> returns s2 P p2 ->
       exists m', interrupt fuel st m = Ret m' /\ back_in m' P p2).
  { intros r s2 p2 E2 Rt. rewrite E, E2. cbn [mbind outcome_bind].
    rewrite (sys_leave_ok _ _ _ _ Rt). cbn [mbind outcome_bind].
    change (cur (put_proc _ _ _)) with (cur s2). rewrite (ret_cur _ _ _ Rt). by apply switch_back. }
  split; [done|]. intros n first Hn Hill Hf Hq.
  assert (Hp1 : k_procs (s_kernel s1) !! P = Some (in_syscall (saved st p))).
  { rewrite (cl_procs _ _ _ _ _ _ C). apply lookup_insert_eq. }
  pose proof (illegal_syscall P s1 _ n Hp1 H8 Hn Hill) as E2.
  destruct (G _ _ (with_reg 0 (- EINVAL) (in_syscall (saved st p))) E2) as (m' & Em & Bk).
  - split; try done.
    + apply (cl_cur _ _ _ _ _ _ C).
    + apply put_proc_lookup.
    + exists first. split; [|done]. change (s_store (put_proc _ _ _)) with (s_store s1).
      by rewrite (cl_store _ _ _ _ _ _ C).
    + simpl. intros Em. by rewrite Em in Hm.
  - exists m'. split; [done|]. split; [apply Bk|]. by rewrite (bi_cpu _ _ _ Bk).
Qed.

(** ** Signals on the way back *)

(** Process [P] ends a system call with the signal [sg] first in its queue, a
    handler installed and room on its stack. *)
Record signal_due (s : sys) (P : Z) (p : proc) (sp0 page : Z) (pg : list Z) (ml : gmap Z (list (Z * Z)))
    (own : gset Z) (n g : Z) (q : list (Z * Z)) (sg : signal) (c : Z) : Prop := {
  sg_cur : cur s = P;
  sg_proc : k_procs (s_kernel s) !! P = Some p;
  sg_alive : p_state p <> PROC_STATE_DEAD;
  sg_handler : p_sighandler p <> 0;
  sg_hold : p_signals_hold p = 0;
  sg_state : state_ok (p_syscall_state p);
  sg_sp : regs (p_syscall_state p) !! 7%nat = Some sp0;
  sg_room : 0xf000 + 92 <= sp0 < 65536;
  sg_page : mem_pages (p_syscall_state p) !! 15%nat = Some page;
  sg_phys : v_phys (s_vm s) !! page = Some pg;
  sg_length : length pg = 4096%nat;
  sg_rep : ls_rep (s_store s) ml own;
  sg_queue : ml !! signal_queue_of P = Some ((n, g) :: q);
  sg_own : g ∈ own;
  sg_signal : k_signals (s_kernel s) !! g = Some sg;
  sg_sema : s_semas s !! signal_sema_of P = Some c;
  sg_count : 0 < c < 32768;
}.

(** The process with its user context restored. *)
Definition restored (p : proc) : proc := set_p_proc_state (p_syscall_state p) p.

Definition leaving (P : Z) (p : proc) (s : sys) : sys :=
  put_proc P (restored p) (set_kernel (set_int_no_proc_modify true (s_kernel s)) s).

Lemma due_deliverable s P p sp0 page pg ml own n g q sg c :
  signal_due s P p sp0 page pg ml own n g q sg c ->
  deliverable (s_vm (leaving P p s)) P (restored p) sp0 page pg.
Proof.
  intros []. split; try done; [apply put_proc_lookup|].
  intros _. exists (restored p). split; [|destruct sg_state0 as (_ & Hm & _); simpl; lia].
  simpl. unfold cur in sg_cur0. rewrite sg_cur0. apply lookup_insert_eq.
Qed.

(** The delivery proper. *)
Lemma deliver_signal_ok s P p sp0 page pg ml own n g q sg c :
  signal_due s P p sp0 page pg ml own n g q sg c ->
  exists s' z st', deliver_signal (leaving P p s) = Ret s' /\
    s' = s_set_semas (<[signal_sema_of P := c - 1]> (s_semas s))
           (s_set_store st' (set_kernel
             (set_signals (delete g (k_signals (s_kernel s)))
               (set_procs (<[P := in_handler (restored p) sp0]> (k_procs (s_kernel s)))
                 (set_int_no_proc_modify true (s_kernel s))))
             (set_vm (Vm (s_kernel s) (<[page := splice pg (sp0 - 90 - 0xf000)
               (bytes_of [sig_type sg; sig_number sg] ++ bytes_of (state_words (p_syscall_state p)))]> (v_phys (s_vm s))) z) s))) /\
    ls_rep st' (<[signal_queue_of P := q]> ml) (own ∖ {[g]}).
Proof.
  intros Du. pose proof (due_deliverable _ _ _ _ _ _ _ _ _ _ _ _ _ Du) as Dl. destruct Du.
  unfold deliver_signal. change (cur (leaving P p s)) with (cur s). rewrite sg_cur0.
  change (s_store (leaving P p s)) with (s_store s).
  rewrite (ls_first_ok _ _ _ _ _ sg_rep0 sg_queue0). cbn [mbind outcome_bind head_ptr].
  destruct (ls_node_ok _ _ _ _ [] n g q sg_rep0 sg_queue0) as [_ Hv]. rewrite Hv. cbn [mbind outcome_bind].
  erewrite deref_Some by exact sg_signal0. cbn [mbind outcome_bind].
  destruct (signal_enter_exact _ P _ sp0 page pg sg Dl) as [z E]. rewrite E. cbn [mbind outcome_bind].
  match goal with |- context [s_kfree g ?x] => set (s1 := x) end.
  destruct (s_kfree_ok s1 ml own g sg_rep0 sg_own0) as (st & -> & R3). cbn [mbind outcome_bind].
  destruct (ls_remove_ok st ml (own ∖ {[g]}) (signal_queue_of P) [] n g q R3 sg_queue0) as (st2 & Er & R4).
  match goal with |- context [ls_remove ?x _ _] => change x with st end. rewrite Er. cbn [mbind outcome_bind].
  erewrite deref_Some by exact sg_sema0. cbn [mbind outcome_bind].
  rewrite (proj2 (Z.ltb_lt 0 c)) by lia. cbn [ASSERT mbind outcome_bind].
  eexists _, z, st2. split; [reflexivity|]. split; [|exact R4].
  rewrite i16_small by lia. unfold s1, s_set_semas, set_kernel, set_vm. simpl. by rewrite insert_insert_eq.
Qed.

Lemma sys_leave_due fuel s P p sp0 page pg ml own n g q sg c :
  signal_due s P p sp0 page pg ml own n g q sg c ->
  sys_leave fuel s =
    s1 ← deliver_signal (leaving P p s);
    p1 ← get_proc (cur s1) s1;
    Ret (put_proc (cur s1) (set_p_state PROC_STATE_RUNNABLE p1) s1).
Proof.
  intros []. unfold sys_leave.
  change (cur (set_kernel (set_int_no_proc_modify true (s_kernel s)) s)) with (cur s). rewrite sg_cur0.
  rewrite (get_proc_ok _ _ p) by done. cbn [mbind outcome_bind]. rewrite (eqb_ne _ _ sg_alive0). cbn [negb].
  change (put_proc P _ _) with (leaving P p s). change (cur (leaving P p s)) with (cur s). rewrite sg_cur0.
  change (s_store (leaving P p s)) with (s_store s).
  rewrite (ls_first_ok _ _ _ _ _ sg_rep0 sg_queue0). cbn [mbind outcome_bind head_ptr].
  assert (Hn : n <> 0).
  { destruct (ls_nodup _ _ _ _ _ sg_rep0 sg_queue0) as [_ H0]. intros ->. apply H0. simpl. apply elem_of_cons. by left. }
  rewrite sg_hold0, (eqb_ne _ _ Hn), (eqb_ne _ _ sg_handler0). reflexivity.
Qed.

(** C5. A signal that is pending when a system call ends is delivered: the
    oldest one is taken out of the queue, freed and uncounted, and the process
    leaves the kernel in its handler, with the address of the signal in
    register 0 and further signals held back.  The signal and the user context
    that the call has left are on the process's stack, where the return from the
    handler finds them; no other process changes. *)
Theorem signal_on_return fuel s P p sp0 page pg ml own n g q sg c :
  signal_due s P p sp0 page pg ml own n g q sg c ->
  exists s' p', sys_leave fuel s = Ret s' /\ cur s' = P /\
    k_procs (s_kernel s') = <[P := p']> (k_procs (s_kernel s)) /\
    p_state p' = PROC_STATE_RUNNABLE /\ p_signals_hold p' = 1 /\ pc (p_proc_state p') = p_sighandler p /\
    regs (p_proc_state p') !! 0%nat = Some (sp0 - 90) /\ regs (p_proc_state p') !! 7%nat = Some (sp0 - 92) /\
    user_bytes (mem_pages (p_syscall_state p)) (v_phys (s_vm s')) (sp0 - 90) 4
      = Some (bytes_of [sig_type sg; sig_number sg]) /\
    user_bytes (mem_pages (p_syscall_state p)) (v_phys (s_vm s')) (sp0 - 86) 84
      = Some (bytes_of (state_words (p_syscall_state p))) /\
    ls_rep (s_store s') (<[signal_queue_of P := q]> ml) (own ∖ {[g]}) /\
    k_signals (s_kernel s') = delete g (k_signals (s_kernel s)) /\
    s_semas s' = <[signal_sema_of P := c - 1]> (s_semas s).
Proof.
  intros Du. destruct (deliver_signal_ok _ _ _ _ _ _ _ _ _ _ _ _ _ Du) as (s1 & z & st & E & Es & R).
  rewrite (sys_leave_due _ _ _ _ _ _ _ _ _ _ _ _ _ _ Du), E. destruct Du.
  cbn [mbind outcome_bind]. assert (Ec : cur s1 = P) by (rewrite Es; exact sg_cur0).
  assert (Ep : k_procs (s_kernel s1) = <[P := in_handler (restored p) sp0]> (k_procs (s_kernel s))) by (by rewrite Es).
  rewrite Ec, (get_proc_ok _ _ (in_handler (restored p) sp0)) by (rewrite Ep; apply lookup_insert_eq).
  cbn [mbind outcome_bind]. eexists _, (set_p_state PROC_STATE_RUNNABLE (in_handler (restored p) sp0)).
  split; [reflexivity|]. destruct sg_state0 as (H8 & Hrest) eqn:Hso.
  destruct (pushed_frame _ (v_phys (s_vm s)) page pg sp0 sg _ sg_page0 sg_length0 sg_room0 sg_state0) as [Hg Hst].
  assert (Ev : v_phys (s_vm s1) = <[page := splice pg (sp0 - 90 - 0xf000) (bytes_of [sig_type sg; sig_number sg] ++
    bytes_of (state_words (p_syscall_state p)))]> (v_phys (s_vm s))) by (by rewrite Es).
  assert (Er : s_store s1 = st) by (by rewrite Es).
  assert (Eg : k_signals (s_kernel s1) = delete g (k_signals (s_kernel s))) by (by rewrite Es).
  assert (Em : s_semas s1 = <[signal_sema_of P := c - 1]> (s_semas s)) by (by rewrite Es).
  rewrite <-Ev in Hg, Hst. rewrite <-Er in R. clear Es E Ev Er sg_rep0 sg_queue0 Hso.
  split; [exact Ec|]. split.
  { change (<[P := set_p_state PROC_STATE_RUNNABLE (in_handler (restored p) sp0)]> (k_procs (s_kernel s1)) =
      <[P := set_p_state PROC_STATE_RUNNABLE (in_handler (restored p) sp0)]> (k_procs (s_kernel s))).
    by rewrite Ep, insert_insert_eq. }
  split; [reflexivity|]. split; [reflexivity|]. split; [reflexivity|].
  split. { simpl. unfold handler_regs. rewrite !list_lookup_insert_ne by done. apply list_lookup_insert_eq. lia. }
  split. { simpl. unfold handler_regs. apply list_lookup_insert_eq. rewrite !length_insert. lia. }
  split; [exact Hg|]. split; [exact Hst|]. split; [exact R|]. split; [exact Eg|exact Em].
Qed.
End Interrupt.

(** ** Witnesses: a user process and a kernel thread *)

Section Demo.
Abbreviation demo_machine := (@machine (store (list Z)) unit).
Instance demo_uninit : Uninit := fun _ _ => 0.
Instance demo_others : Others (store (list Z)) (drivers unit) := fun _ _ => Block.
Instance demo_sign : CharSign := true.
Instance demo_order : ByteOrder := false.
Instance demo_regs : @VfsRegs (store (list Z)) (drivers unit) := fun _ => None.
Instance demo_callbacks : @Callbacks (store (list Z)) (drivers unit) := fun _ _ _ => Fault.
(** A controller that clears the bits that are written. *)
Instance demo_irqc : IrqController := Z.ldiff.
Let demo_log (_ : list Z) (s : sys (store (list Z)) (drivers unit)) := Ret s.
Let demo_elf (_ : Z) (s : sys (store (list Z)) (drivers unit)) := Ret (0, s).

Definition demo_user : proc :=
  Proc 1 PROC_STATE_RUNNABLE PROC_TYPE_USER sig_state sig_state (replicate 16 0) 0x300
    (replicate 16 (ProcFile 0 0 0 0)) 0 0 0 0 0 0.

(** A fresh terminal and keyboard device *)
Definition demo_drivers : drivers unit :=
  Drivers tt (blockq_fields 32 12 demo_ring) ∅ ∅ 0 ∅ Tty.demo_tty 0 demo_ring 0 (TmpState 0 []) 0.

Definition demo_kernel (n1 p1 : Z) (k : kernel (store (list Z))) : kernel (store (list Z)) :=
  Kernel (k_store k) (<[p1 := demo_user]> (k_procs k)) (<[KBD_DATA_AVAILABLE := 0]> (k_semas k)) (k_signals k) p1 n1 (pid_now k)
    (first_free_page k) true false 41 0x11.

(** [status] are the pending interrupts. *)
Definition demo_at (k : kernel (store (list Z))) (status : Z) : demo_machine :=
  Machine (Sys (Vm k ∅ 0) ∅ (VfsState ∅ ∅ ∅ 0 0 0) (MqState ∅ ∅ 0 0) demo_drivers)
    false status 3 0x1c (Keyboard 0 0 false) true sig_state.

Definition demo_int (r0 flags : Z) : int_handler_state := IntState [r0; 2; 3; 4; 5; 6; 7; 0xfffe] 0x123 0 flags.

Lemma demo_tables : exists k, two_threads_kernel = Ret k /\ has_idle k /\ has_tables k.
Proof.
  assert (exists k, two_threads_kernel = Ret k) as [k E] by (eexists; vm_compute; reflexivity).
  exists k. split; [done|].
  assert (Bk : match two_threads_kernel with
    | Ret k => bool_decide (p_state <$> k_procs k !! IDLE_STRUCT = Some PROC_STATE_RUNNABLE) &&
        forallb (fun q => negb (length (mem_pages (p_proc_state q.2)) =? 0)%nat) (map_to_list (k_procs k))
    | _ => false end = true) by (vm_compute; reflexivity).
  rewrite E in Bk. apply andb_true_iff in Bk as [B1%bool_decide_eq_true B2].
  split.
  2: { intros Q q Hq Hn. rewrite forallb_forall in B2. specialize (B2 (Q, q)). rewrite <-list_elem_of_In in B2.
       specialize (B2 (proj2 (elem_of_map_to_list _ _ _) Hq)). simpl in B2. by rewrite Hn in B2. }
  clear E. apply fmap_Some in B1 as (ip & Hi & Hs). exists ip. split; [exact Hi|symmetry; exact Hs].
Qed.

Lemma demo_ready : exists k n1 p1 n2 p2 ml own,
  let kd := demo_kernel n1 p1 k in let xs := [(n1, p1); (n2, p2)] in
  ready kd ml own xs /\ p1 <> p2 /\ runnable kd p2 = true /\ forall f, on_two_threads f = true -> f k n1 p1 p2 = true.
Proof.
  destruct two_threads_ok as (k & n1 & p1 & n2 & p2 & ml & own & E & K & Hne & Hpr).
  destruct demo_tables as (k' & E' & (ip & Hi & His) & T). rewrite E in E'. injection E' as <-.
  assert (forall f, on_two_threads f = true -> f k n1 p1 p2 = true) as Eval.
  { intros f Ran. by apply (two_threads_eval _ _ _ _ _ _ _ _ E K) in Ran. }
  clear E.
  exists k, n1, p1, n2, p2, ml, own. intros kd xs.
  destruct (scan_proc _ _ _ _ K n1 p1) as [pr1 Hp1]; [left|].
  destruct (scan_proc _ _ _ _ K n2 p2) as [pr2 Hp2]; [right; left|].
  assert (K1 : kernel_ok kd ml own xs).
  { eapply kernel_ok_same; [exact (kernel_ok_put _ _ _ _ p1 pr1 demo_user K Hp1 (or_introl eq_refl))|done|done| |done].
    intros l. apply is_Some_insert. }
  assert (p1 <> IDLE_STRUCT) as Hidle.
  { destruct (kok_procs _ _ _ _ K p1) as [Hr _ _ _ _]; [left|]. unfold IDLE_STRUCT. lia. }
  split_and!; [|done| |exact Eval].
  - split; [done|..].
    + exists p1. split; [left|]. unfold dead, kd. simpl. by rewrite lookup_insert_eq.
    + exists ip. simpl. by rewrite lookup_insert_ne.
    + intros Q q. simpl. destruct (decide (p1 = Q)) as [<-|];
        [rewrite lookup_insert_eq; by intros [= <-]|rewrite lookup_insert_ne by done; apply T].
  - unfold runnable, kd. simpl. rewrite lookup_insert_ne by done. simpl in Hp2. rewrite Hp2.
    destruct (Hpr p2 pr2) as [-> _]; [right; left|done|done].
Qed.

Lemma demo_running k n1 p1 status : running (demo_at (demo_kernel n1 p1 k) status) p1 demo_user.
Proof. split; try done. apply lookup_insert_eq. Qed.

Lemma demo_keys_ready k n1 p1 status : key_ok (demo_at (demo_kernel n1 p1 k) status).
Proof.
  intros _. split; [left; left; vm_compute; split; discriminate || reflexivity|]. split.
  - split; [reflexivity|simpl; lia].
  - simpl. lia.
  - exists 255, []. split; [|done]. split; simpl; lia.
  - by left.
  - exists 2, []. exact demo_ring_empty.
  - exists 0. split; [apply lookup_insert_eq|by left].
Qed.

(** A key and the timer at the same time: the key is served and the other
    thread may run. *)
Lemma interrupt_preempts_witness :
  exists (m m' : demo_machine) P c, interrupt demo_log demo_elf 2 (demo_int 1 0) m = Ret m' /\
    preempted (demo_int 1 0) P demo_user m m' c /\ sys_ticks (s_kernel (m_sys m')) = 42 /\
    (p_state c = PROC_STATE_RUNNABLE \/ p_state c = PROC_STATE_SYSCALL) /\
    Tty.line_of (d_tty (s_dev (m_sys m'))) = [97] /\ contents (d_c_buff (s_dev (m_sys m'))) = [97].
Proof.
  destruct demo_ready as (k & n1 & p1 & n2 & p2 & ml & own & Rd & _ & _ & Eval).
  assert (on_two_threads (fun k n1 p1 _ => match interrupt demo_log demo_elf 2 (demo_int 1 0) (demo_at (demo_kernel n1 p1 k) 3) with
    | Ret m' => bool_decide (Tty.line_of (d_tty (s_dev (m_sys m'))) = [97]) && bool_decide (contents (d_c_buff (s_dev (m_sys m'))) = [97])
    | _ => false end) = true) as Ran by (vm_compute; reflexivity).
  apply Eval in Ran. exists (demo_at (demo_kernel n1 p1 k) 3).
  pose proof (interrupt_preempts demo_log demo_elf (demo_int 1 0) (demo_at (demo_kernel n1 p1 k) 3) p1 demo_user
    ml own [(n1, p1); (n2, p2)] (demo_running _ _ _ _) eq_refl Rd) as T.
  specialize (T ltac:(discriminate) (demo_keys_ready _ _ _ _) eq_refl (or_introl eq_refl)).
  change (length [(n1, p1); (n2, p2)]) with 2%nat in T.
  destruct (interrupt _ _ 2 _ _) as [m'| | | |]; try discriminate Ran.
  apply andb_true_iff in Ran as [R1%bool_decide_eq_true R2%bool_decide_eq_true].
  destruct T as (c & Pr & Hst). exists m', p1, c. split; [reflexivity|]. split; [exact Pr|].
  split; [exact (pr_ticks _ _ _ _ _ _ Pr)|]. split; [exact Hst|]. split; [exact R1|exact R2].
Defined.

Lemma segfault_kills_witness :
  exists (m m' : demo_machine) P c, interrupt demo_log demo_elf 2 (demo_int 1 8) m = Ret m' /\
    fault_handled (demo_int 1 8) P demo_user m m' c.
Proof.
  destruct demo_ready as (k & n1 & p1 & n2 & p2 & ml & own & [K _ I T] & Hne & Hr & Eval).
  assert (on_two_threads (fun k n1 p1 _ => returned (interrupt demo_log demo_elf 2 (demo_int 1 8) (demo_at (demo_kernel n1 p1 k) 1))) = true)
    as Ran by (vm_compute; reflexivity).
  apply Eval in Ran. exists (demo_at (demo_kernel n1 p1 k) 1).
  pose proof (segfault_kills demo_log demo_elf 2 (demo_int 1 8) (demo_at (demo_kernel n1 p1 k) 1) p1 demo_user
    ml own [(n1, p1); (n2, p2)] p2 (demo_running _ _ _ _) eq_refl ltac:(discriminate) K I T
    (demo_keys_ready _ _ _ _) ltac:(left) ltac:(right; left) ltac:(by intros ->) Hr) as G.
  change (length [(n1, p1); (n2, p2)]) with 2%nat in G. change (IN_KERNEL demo_user) with false in G. cbv iota in G.
  destruct (interrupt _ _ 2 _ _) as [m'| | | |]; try discriminate Ran.
  destruct G as (c & F). exists m', p1, c. split; [reflexivity|exact F].
Defined.

(** System call 99 does not exist; the key "a" is pending as well. *)
Lemma syscall_roundtrip_witness :
  exists (m m' : demo_machine) P kb sk s1, interrupt demo_log demo_elf 0 (demo_int 99 2) m = Ret m' /\
    cur (m_sys m') = P /\ regs (cpu m') = [65535; 2; 3; 4; 5; 6; 7; 0xfffe] /\ Proc.pc (cpu m') = 0x123 /\
    called (demo_int 99 2) P demo_user m sk s1 /\
    print_scancode send_key 0x1c (m_keyboard m) (m_sys m) = Ret (kb, sk).
Proof.
  destruct demo_ready as (k & n1 & p1 & n2 & p2 & ml & own & [K _ _ _] & _).
  destruct (syscall_roundtrip demo_log demo_elf 0 (demo_int 99 2) (demo_at (demo_kernel n1 p1 k) 2) p1 demo_user
    (demo_running _ _ _ _) eq_refl (demo_keys_ready _ _ _ _) eq_refl eq_refl eq_refl eq_refl ltac:(discriminate))
    as (kb & sk & s1 & [Hkey _] & C & _ & _ & Till).
  destruct (kok_procs _ _ _ _ K p1) as [_ _ _ [q Hq] _]; [left|].
  destruct (Till 99 (head_ptr q 0) eq_refl) as (m' & E & Hc & Hcpu).
  - apply (bool_decide_unpack _). vm_compute. exact I.
  - exact (ls_first_ok _ _ _ _ _ (kok_rep _ _ _ _ K) Hq).
  - right. right. reflexivity.
  - exists (demo_at (demo_kernel n1 p1 k) 2), m', p1, kb, sk, s1. split; [exact E|]. split; [exact Hc|]. rewrite Hcpu.
    split; [reflexivity|]. split; [reflexivity|]. split; [exact C|exact Hkey].
Defined.

Definition demo_handled : proc :=
  Proc 1 PROC_STATE_SYSCALL PROC_TYPE_USER junk_state sig_state (replicate 16 0) 0x300
    (replicate 16 (ProcFile 0 0 0 0)) 0 0 0 0x2000 0 0.

Lemma signal_on_return_witness :
  exists s s' : sys (store (list Z)) (drivers unit), sys_leave 0 s = Ret s' /\ cur s' = 5 /\
    s_semas s !! signal_sema_of 5 = Some 1 /\ s_semas s' !! signal_sema_of 5 = Some 0.
Proof.
  destruct demo_signals_ok as (g & st & n & _ & Hn & R).
  set (s := Sys (Vm (Kernel st {[5 := demo_handled]} {[signal_sema_of 5 := 1]} {[g := Signal 2 7]} 5 0 1 0x211 true false 0 0x11)
         {[0x40 := replicate 4096 0]} 0) ∅ (VfsState ∅ ∅ ∅ 0 0 0) (MqState ∅ ∅ 0 0) demo_drivers : sys (store (list Z)) (drivers unit)).
  assert (Du : signal_due s 5 demo_handled 0xfffe 0x40 (replicate 4096 0)
    (<[signal_queue_of 5 := [(n, g)]]> ∅) {[g]} n g [] (Signal 2 7) 1).
  { split; try done; try lia; try apply lookup_singleton_eq.
    split_and!; try done. apply (bool_decide_unpack _). vm_compute. exact I. }
  destruct (signal_on_return 0 _ _ _ _ _ _ _ _ _ _ _ _ _ Du) as (s' & p' & E & Hc & Hrest).
  exists s, s'. split; [exact E|]. split; [exact Hc|]. split; [apply lookup_singleton_eq|].
  destruct Hrest as (_ & _ & _ & _ & _ & _ & _ & _ & _ & _ & ->). apply lookup_insert_eq.
Defined.
End Demo.
