(* ===== verification/Report.v ===== *)
(** * Reports on the screen and the serial port (kernel/panic.c, kernel/libk/assert.c,
      [dir_tree_printf] of kernel/fs/dirtree.c)

    The functions that print with [kprintf].  Their theorems say which characters
    reach [log_early_putc] and in which order, whatever the targets of the log. *)

From Stdlib Require Import Ascii String.
From S2P Require Import Prelude Interfaces Kmalloc KList Proc Sync CString Kernel Sched Virtual Vfs Sys Request Tmpfs Ringbuff Kprintf Keyboard Tty Blockq Device Dirtree Sd Console Serial Log Interrupt.

(** The characters of a string literal *)
Definition codes (s : string) : list Z := (fun a => Z.of_N (N_of_ascii a)) <$> list_ascii_of_string s.

(** The words of the kernel's memory that hold stack frames *)
Class StackWords := stack_word : Z -> Z.

(** The string literals of panic.c, assert.c and dirtree.c *)
Definition PANIC_TITLE : list Z := [10; 27] ++ codes "[97;91m[!] KERNEL PANIC" ++ [27] ++ codes "[97m" ++ [10; 0].
Definition PANIC_CAUSE : list Z := codes "Caused by: %s" ++ [10; 0].
Definition PANIC_END : list Z := codes "*kernel halted*" ++ [0].
Definition TRACE_TITLE : list Z := codes "Stack trace:" ++ [10; 0].
Definition TRACE_FRAME : list Z := codes "ret=%x fp=%x" ++ [10; 0].
Definition ASSERT_TITLE : list Z := [10; 10] ++ codes "ASSERTION FAILED (%s:%d)" ++ [0].
Definition DIR_LINE : list Z := codes "d: %s" ++ [10; 0].
Definition INDENT : list Z := codes " " ++ [0].
Definition FILE_LINE : list Z := codes "f: %s" ++ [10; 0].

(** ** Text without null bytes *)

Definition plain (ts : list Z) : Prop := Forall (fun c => c <> 0) ts.

Lemma num_text_plain base n : 2 <= base <= 16 -> plain (num_text base n).
Proof. intros Hb. eapply Forall_impl; [by apply num_text_chars|]. intros c Hc. simpl in Hc. lia. Qed.

Lemma c_string_plain s t : c_string s = Some t -> plain t.
Proof.
  revert t. induction s as [|c s IH]; intros t E; [done|]. simpl in E. destruct (Z.eqb_spec c 0); [by simplify_eq; constructor|].
  destruct (c_string s) as [u|]; [|done]. simplify_eq/=. constructor; [done|by apply IH].
Qed.

Lemma render_item_plain it args t args' : item_ok it -> it <> IChr -> render_item it args = Some (t, args') -> plain t.
Proof.
  intros Hi Hc E. destruct it, args as [|[z|z|str] args]; simpl in E; simplify_eq; try (by apply num_text_plain; lia);
    try (by repeat constructor; apply Hi); try (destruct (z <? 0); [constructor; [lia|]|]; apply num_text_plain; lia).
  destruct (c_string str) eqn:Es; [|done]. simplify_eq/=. by eapply c_string_plain.
Qed.

Lemma render_plain items : forall args ts, Forall item_ok items -> Forall (fun it => it <> IChr) items -> render items args = Some ts -> plain ts.
Proof.
  induction items as [|it items IH]; intros args ts Hi Hc E; [simplify_eq/=; constructor|]. cbn [render] in E.
  apply Forall_cons in Hi as [Hi1 Hi2], Hc as [Hc1 Hc2].
  destruct (render_item it args) as [[t args']|] eqn:E1; [|done]. cbn [mbind option_bind] in E.
  destruct (render items args') as [ts'|] eqn:E2; [|done]. simplify_eq/=. apply Forall_app. split; [by eapply render_item_plain|by eapply IH].
Qed.

(** Literal text in a format *)
Lemma text_of_lits ts items : text_of ((ILit <$> ts) ++ items) = ts ++ text_of items.
Proof. induction ts as [|c ts IH]; [done|]. by apply (f_equal (cons c)). Qed.

Lemma render_lits ts items args rs : render items args = Some rs -> render ((ILit <$> ts) ++ items) args = Some (ts ++ rs).
Proof. intros E. induction ts as [|c ts IH]; [done|]. cbn [fmap list_fmap app render render_item mbind option_bind]. by rewrite IH. Qed.

(** Characters that a format prints as they are *)
Definition literal (ts : list Z) : Prop := Forall (fun c => c <> 0 /\ c <> 37) ts.

Lemma items_lits ts items : literal ts -> Forall item_ok items -> Forall (fun it => it <> IChr) items ->
  Forall item_ok ((ILit <$> ts) ++ items) /\ Forall (fun it => it <> IChr) ((ILit <$> ts) ++ items).
Proof. intros Hl Hi Hc. split; apply Forall_app; (split; [apply Forall_fmap|done]); [exact Hl|]. by apply Forall_true. Qed.

Lemma length_digits base k fuel num : 2 <= base -> 0 <= num < base ^ Z.of_nat k -> (length (digits_rev fuel num base) <= k)%nat.
Proof.
  intros Hb. revert num k. induction fuel as [|fuel IH]; intros num k Hn; simpl; [destruct (num =? 0); simpl; lia|].
  destruct (Z.eqb_spec num 0); [simpl; lia|]. destruct k as [|k]; [simpl in Hn; lia|].
  rewrite Nat2Z.inj_succ, Z.pow_succ_r in Hn by lia. cbn [length]. apply le_n_S, IH. split; [apply Z.div_pos; lia|].
  apply Z.div_lt_upper_bound; lia.
Qed.

Lemma length_signed_text z : is_i16 z -> (length (signed_text z) <= 6)%nat.
Proof.
  intros Hz. unfold signed_text, num_text. rewrite length_app.
  assert (length (digits_rev 32 (Z.abs z) 10) <= 5)%nat by (apply length_digits; change (10 ^ Z.of_nat 5) with 100000; lia).
  destruct (Z.abs z =? 0), (z <? 0); cbn [length]; rewrite ?length_reverse, ?length_fmap; lia.
Qed.

(** ** What [dir_tree_printf] shows *)

Inductive dtree := DTree (name : list Z) (fs : list (list Z)) (subs : list dtree).

Definition dir_line (depth : nat) (name : list Z) : list Z := replicate depth 32 ++ codes "d: " ++ name ++ [10].
Definition file_line (depth : nat) (name : list Z) : list Z := replicate depth 32 ++ codes "f: " ++ name ++ [10].

Lemma file_line_split depth f rest : file_line depth f ++ rest = replicate depth 32 ++ (codes "f: " ++ f ++ [10]) ++ rest.
Proof. unfold file_line. by rewrite <-!app_assoc. Qed.

Lemma dir_line_split depth f rest : dir_line depth f ++ rest = replicate depth 32 ++ (codes "d: " ++ f ++ [10]) ++ rest.
Proof. unfold dir_line. by rewrite <-!app_assoc. Qed.

(** A directory, its files and its subdirectories, one column further in. *)
Fixpoint listing (depth : nat) (t : dtree) : list Z :=
  match t with
  | DTree name fs subs => dir_line depth name ++ (fs ≫= file_line (S depth)) ++ concat (listing (S depth) <$> subs)
  end.

Section Report.
Context {St B : Type} `{ListStore St} {junk : Uninit} {others : Others St (drivers B)} `{DevicePage B} {sign : CharSign}
  {callbacks : @Callbacks St (drivers B)} {words : StackWords}.
Abbreviation sys := (sys St (drivers B)).
Abbreviation machine := (@Interrupt.machine St B).
Set Default Proof Using "Type".

(** ** The code *)

(** [at_] is the address of the local array of [kprintf], [fp] the register r5. *)
Section Code.
Context (at_ : Z).

Definition print (str : list Z) (args : list arg) (s : sys) : outcome sys := '(_, s) ← kprintf at_ str args s; Ret s.

Definition last_frame (fp prev_ra : Z) : bool := (prev_ra =? 0) || (fp =? 0xfffe) || (fp =? 0xeff0).

(** The loop of [print_stacktrace], [n] turns before its limit *)
Fixpoint trace_loop (n : nat) (fp : Z) (s : sys) : outcome sys :=
  match n with
  | O => Ret s
  | S n =>
    let prev_ra := stack_word fp in
    let prev_fp := stack_word (u16 (fp - 2)) in
    s ← print TRACE_FRAME [AInt (i16 prev_ra); AInt (i16 prev_fp)] s;
    if last_frame fp prev_ra then Ret s else trace_loop n prev_fp s
  end.

Definition print_stacktrace (fp : Z) (s : sys) : outcome sys :=
  s ← print TRACE_TITLE [] s;
  trace_loop 10 fp s.

(** [panic] does not return: the result is the machine in [__panic_loop]. *)
Definition panic (message : list Z) (fp : Z) (m : machine) : outcome machine :=
  let m := set_int_enabled false m in
  s ← print PANIC_TITLE [] (m_sys m);
  s ← print PANIC_CAUSE [AStr message] s;
  s ← print_stacktrace fp s;
  s ← print PANIC_END [] s;
  Ret (set_m_sys s m).

Definition __assert_fail (line : list Z) (linenr fp : Z) (m : machine) : outcome machine :=
  let m := set_int_enabled false m in
  s ← print ASSERT_TITLE [AStr line; AInt linenr] (m_sys m);
  panic (codes "assertion" ++ [0]) fp (set_m_sys s m).

(** [INP] *)
Definition indent (depth : Z) (s : sys) : outcome sys := for_loop (Z.to_nat depth) 0 (fun _ => print INDENT []) s.

(** The loop over the files of a directory *)
Fixpoint print_files (ys : list (Z * Z)) (depth : Z) (s : sys) : outcome sys :=
  match ys with
  | [] => Ret s
  | (_, file) :: ys =>
    i ← deref (inodes (s_vfs s)) file;
    name ← deref (s_bufs s) (i_name i);
    s ← indent depth s;
    s ← print FILE_LINE [AStr name] s;
    print_files ys depth s
  end.

(** The loop over the subdirectories; [f] prints one. *)
Fixpoint print_subdirs (f : Z -> sys -> outcome sys) (xs : list (Z * Z)) (s : sys) : outcome sys :=
  match xs with
  | [] => Ret s
  | (_, node) :: xs => s ← f node s; print_subdirs f xs s
  end.

Fixpoint dir_tree_printf (fuel : nat) (node depth : Z) (s : sys) : outcome sys :=
  match fuel with
  | O => Hang
  | S fuel =>
    d ← deref (d_nodes (s_dev s)) node;
    s ← indent depth s;
    s ← print DIR_LINE [AStr (dn_name d)] s;
    let depth := i16 (depth + 1) in
    ys ← ls_nodes (s_store s) (files node);
    s ← print_files ys depth s;
    xs ← ls_nodes (s_store s) (subdirs node);
    print_subdirs (fun val => dir_tree_printf fuel val depth) xs s
  end.
End Code.

(** ** Characters *)

Fixpoint put_chars (cs : list Z) (s : sys) : outcome sys :=
  match cs with
  | [] => Ret s
  | c :: cs => s ← log_early_putc c s; put_chars cs s
  end.

Lemma put_string_chars cs rest s : Forall (fun c => c <> 0) cs -> log_early_puts (cs ++ 0 :: rest) s = put_chars cs s.
Proof.
  unfold log_early_puts. revert s. induction cs as [|c cs IH]; intros s Hz; [done|]. apply Forall_cons in Hz as [Hc Hz].
  cbn [app put_string put_chars]. rewrite eqb_ne by done. destruct (log_early_putc c s); [|done..]. by apply IH.
Qed.

(** What printing does not touch *)
Definition same_objects (s s' : sys) : Prop :=
  s_store s' = s_store s /\ s_bufs s' = s_bufs s /\ inodes (s_vfs s') = inodes (s_vfs s) /\ d_nodes (s_dev s') = d_nodes (s_dev s).

Lemma map_page_store page (v v' : vm St) : map_page_zero page v = Ret v' -> k_store (v_kernel v') = k_store (v_kernel v).
Proof. unfold map_page_zero. intros E. destruct (_ && _); run_inv; [|done]. by destruct (deref _ _) eqn:?; run_inv. Qed.

Lemma early_putc_same c s s' : log_early_putc c s = Ret s' -> same_objects s s'.
Proof.
  unfold log_early_putc, serial_direct_putc, on_device_page, s_tty_putc. intros E.
  destruct (negb (Z.land (d_log (s_dev s)) LOG_TARGET_SERIAL =? 0)); run_inv.
  - destruct (negb _); run_inv; (repeat match goal with E : map_page_zero _ _ = Ret _ |- _ => apply map_page_store in E end);
      (split_and!; [|done..]); unfold s_store, s_kernel; simpl; congruence.
  - destruct (negb _); run_inv; done.
Qed.

Lemma put_chars_bind {A} a b (f g : sys -> outcome A) s :
  (forall s', same_objects s s' -> f s' = (s ← put_chars b s'; g s)) -> (s ← put_chars a s; f s) = (s ← put_chars (a ++ b) s; g s).
Proof.
  revert s. induction a as [|c a IH]; intros s Hf; [by apply Hf|]. cbn [put_chars app].
  destruct (log_early_putc c s) as [s1| | | |] eqn:E; try done. cbn [mbind outcome_bind]. apply IH.
  intros s2 Hs2. apply Hf. apply early_putc_same in E. unfold same_objects in *. naive_solver congruence.
Qed.

Lemma put_chars_Ret cs s : (s ← put_chars cs s; Ret s) = put_chars cs s.
Proof. by destruct (put_chars cs s). Qed.

Lemma put_chars_app a b (f : sys -> outcome sys) s :
  (forall s', same_objects s s' -> f s' = put_chars b s') -> (s ← put_chars a s; f s) = put_chars (a ++ b) s.
Proof. intros Hf. rewrite <- (put_chars_Ret (a ++ b)). apply put_chars_bind. intros s' Hs. by rewrite put_chars_Ret, Hf. Qed.

(** [kprintf] of a format without a character directive *)
Lemma print_ok at_ str items args ts s :
  str = text_of items ++ [0] -> Forall item_ok items -> Forall arg_ok args -> Forall (fun it => it <> IChr) items -> render items args = Some ts -> zlen ts < 512 ->
  print at_ str args s = put_chars ts s.
Proof.
  intros -> Hi Ha Hc Hr Hl. unfold print, kprintf. rewrite (vsprintf_text _ _ items args ts []) by
    (done || (rewrite ?length_fresh_bytes; unfold PRINTF_TTY_BUFFER_SIZE; lia)).
  cbn [mbind outcome_bind]. rewrite splice_front, <-app_assoc. cbn [app]. rewrite put_string_chars by (by eapply render_plain).
  by destruct (put_chars ts s).
Qed.

Lemma print_text at_ ts s : literal ts -> zlen ts < 512 -> print at_ (ts ++ [0]) [] s = put_chars ts s.
Proof.
  intros Hp Hl. destruct (items_lits ts [] Hp) as [Hi Hc]; [constructor..|].
  apply (print_ok _ _ ((ILit <$> ts) ++ [])); try done.
  - by rewrite text_of_lits, app_nil_r.
  - rewrite (render_lits ts [] [] []) by done. by rewrite app_nil_r.
Qed.

(** A line with one string in it *)
Lemma print_line at_ pre post str name s : literal pre -> literal post ->
  c_string str = Some name -> zlen (pre ++ name ++ post) < 512 ->
  print at_ (pre ++ [37; 115] ++ post ++ [0]) [AStr str] s = put_chars (pre ++ name ++ post) s.
Proof.
  intros Hpre Hpost Hs Hl. destruct (items_lits post [] Hpost) as [Hi Hc]; [constructor..|].
  destruct (items_lits pre (IStr :: (ILit <$> post) ++ []) Hpre) as [Hi' Hc']; [by constructor..|].
  apply (print_ok _ _ ((ILit <$> pre) ++ IStr :: (ILit <$> post) ++ [])); try done.
  - rewrite text_of_lits. change (text_of (IStr :: ?x)) with ([37; 115] ++ text_of x). by rewrite text_of_lits, app_nil_r, <-!app_assoc.
  - repeat constructor. simpl. rewrite Hs. rewrite !length_app in Hl. lia.
  - apply render_lits. cbn [render render_item mbind option_bind]. rewrite Hs. cbn [mbind option_bind].
    rewrite (render_lits post [] [] []) by done. by rewrite app_nil_r.
Qed.

(** ** The stack trace *)

(** The frames that are printed: (return address, saved frame pointer) *)
Fixpoint frames (n : nat) (fp : Z) : list (Z * Z) :=
  match n with
  | O => []
  | S n =>
    let f := (stack_word fp, stack_word (u16 (fp - 2))) in
    f :: if last_frame fp f.1 then [] else frames n f.2
  end.

Definition frame_text (f : Z * Z) : list Z := codes "ret=" ++ num_text 16 f.1 ++ codes " fp=" ++ num_text 16 f.2 ++ [10].

Definition trace_text (fp : Z) : list Z := codes "Stack trace:" ++ [10] ++ (frames 10 fp ≫= frame_text).

Definition title_text : list Z := [10; 27] ++ codes "[97;91m[!] KERNEL PANIC" ++ [27] ++ codes "[97m" ++ [10].
Definition cause_text (msg : list Z) : list Z := codes "Caused by: " ++ msg ++ [10].
Definition panic_text (msg : list Z) (fp : Z) : list Z := title_text ++ cause_text msg ++ trace_text fp ++ codes "*kernel halted*".

Definition words_ok : Prop := forall a, is_u16 (stack_word a).

Lemma print_frame at_ f s : is_u16 f.1 -> is_u16 f.2 -> print at_ TRACE_FRAME [AInt (i16 f.1); AInt (i16 f.2)] s = put_chars (frame_text f) s.
Proof.
  intros H1 H2. apply (print_ok _ _ ((ILit <$> codes "ret=") ++ IHex :: (ILit <$> codes " fp=") ++ [IHex; ILit 10])).
  - reflexivity.
  - repeat constructor; discriminate.
  - repeat constructor; apply i16_range.
  - repeat constructor; discriminate.
  - unfold frame_text. apply render_lits. cbn [render render_item mbind option_bind].
    rewrite (render_lits _ _ _ (num_text 16 (u16 (i16 f.2)) ++ [10])) by done. cbn [mbind option_bind].
    by rewrite !u16_i16, !u16_small by done.
  - unfold frame_text. rewrite !length_app. pose proof (length_num_text_u16 _ H1). pose proof (length_num_text_u16 _ H2). simpl. lia.
Qed.

Lemma trace_loop_ok at_ n : words_ok -> forall fp s, trace_loop at_ n fp s = put_chars (frames n fp ≫= frame_text) s.
Proof.
  intros W. induction n as [|n IH]; intros fp s; [done|]. cbn [trace_loop frames mbind list_bind].
  pose proof (print_frame at_ (stack_word fp, stack_word (u16 (fp - 2))) s (W _) (W _)) as E. cbn [fst snd] in *. rewrite E.
  apply put_chars_app. intros s' _. destruct (last_frame fp (stack_word fp)); [done|]. apply IH.
Qed.

Lemma stacktrace_ok at_ fp s : words_ok -> print_stacktrace at_ fp s = put_chars (trace_text fp) s.
Proof.
  intros W. unfold print_stacktrace. change TRACE_TITLE with ((codes "Stack trace:" ++ [10]) ++ [0]).
  rewrite print_text by (repeat constructor; discriminate || lia). unfold trace_text. rewrite app_assoc.
  apply put_chars_app. intros s' _. by apply trace_loop_ok.
Qed.

(** The trace follows the saved frame pointers from [fp] and ends at the first
    frame that is marked as the last one, or after [n] frames. *)
Fixpoint chain (n : nat) (fp : Z) (fs : list (Z * Z)) : Prop :=
  match fs with
  | [] => n = O
  | f :: fs => exists n', n = S n' /\ f = (stack_word fp, stack_word (u16 (fp - 2))) /\
      if last_frame fp f.1 then fs = [] else chain n' f.2 fs
  end.

Lemma frames_chain n : forall fp, chain n fp (frames n fp).
Proof. induction n as [|n IH]; intros fp; [done|]. exists n. split_and!; [done..|]. cbn [fst snd]. by destruct (last_frame fp _). Qed.

Lemma chain_length n : forall fp fs, chain n fp fs -> (length fs <= n)%nat.
Proof.
  induction n as [|n IH]; intros fp [|f fs] C; try (simpl; lia); destruct C as (n' & E & -> & C); [done|]. injection E as <-.
  cbn [fst snd] in C. destruct (last_frame _ _); [subst; simpl; lia|]. apply IH in C. simpl. lia.
Qed.

Lemma panic_ok at_ message msg fp (m : machine) : words_ok -> c_string message = Some msg -> zlen msg < 500 ->
  panic at_ message fp m = (s ← put_chars (panic_text msg fp) (m_sys m); Ret (set_m_sys s (set_int_enabled false m))).
Proof.
  intros W Hm Hl. unfold panic.
  change PANIC_TITLE with (title_text ++ [0]). rewrite print_text by (repeat constructor; discriminate || lia).
  apply put_chars_bind. intros s1 _.
  change PANIC_CAUSE with (codes "Caused by: " ++ [37; 115] ++ [10] ++ [0]).
  rewrite (print_line _ _ _ _ msg) by (done || (repeat constructor; discriminate) || (rewrite !length_app; simpl; lia)).
  apply put_chars_bind. intros s2 _. rewrite stacktrace_ok by done. apply put_chars_bind. intros s3 _.
  change PANIC_END with (codes "*kernel halted*" ++ [0]). by rewrite print_text by (repeat constructor; discriminate || lia).
Qed.

Definition assert_text (line : list Z) (linenr : Z) : list Z :=
  [10; 10] ++ codes "ASSERTION FAILED (" ++ line ++ codes ":" ++ signed_text linenr ++ codes ")".

Lemma print_assert at_ str line linenr s : c_string str = Some line -> is_i16 linenr -> zlen line < 480 ->
  print at_ ASSERT_TITLE [AStr str; AInt linenr] s = put_chars (assert_text line linenr) s.
Proof.
  intros Hs Hn Hl. apply (print_ok _ _ ((ILit <$> [10; 10] ++ codes "ASSERTION FAILED (") ++ [IStr; ILit 58; IDec; ILit 41])).
  - reflexivity.
  - repeat constructor; discriminate.
  - constructor; [simpl; rewrite Hs; lia|]. constructor; [exact Hn|constructor].
  - repeat constructor; discriminate.
  - unfold assert_text. rewrite (app_assoc [10; 10]). apply render_lits. cbn [render render_item mbind option_bind]. rewrite Hs. done.
  - unfold assert_text. rewrite !length_app. pose proof (length_signed_text linenr Hn). simpl. lia.
Qed.

(** C37. A failed assertion and a panic: interrupts are off and exactly this text has
    been sent, in this order, to the targets of the log before the processor
    stops: the place of the assertion, the banner, the cause, the stack trace and
    the last line.  The trace is the chain of saved frame pointers from register
    5, cut at the first frame without a return address or at the bottom of one of
    the two kernel stacks, and never longer than ten frames, whatever the memory
    holds: a damaged stack cannot keep the report from ending. *)
Theorem assert_reports at_ str line linenr fp (m : machine) :
  words_ok -> c_string str = Some line -> is_i16 linenr -> zlen line < 480 ->
  __assert_fail at_ str linenr fp m =
    (s ← put_chars (assert_text line linenr ++ panic_text (codes "assertion") fp) (m_sys m); Ret (set_m_sys s (set_int_enabled false m))) /\
  chain 10 fp (frames 10 fp) /\ (length (frames 10 fp) <= 10)%nat.
Proof.
  intros W Hs Hn Hl. split_and!; [|apply frames_chain|eapply chain_length, frames_chain].
  unfold __assert_fail. rewrite (print_assert _ _ line) by done. apply put_chars_bind. intros s' _.
  rewrite (panic_ok _ _ (codes "assertion")) by done. done.
Qed.

(** ** The directory tree *)

(** The inode [file] has the name [f]. *)
Definition named (s : sys) (file : Z) (f : list Z) : Prop :=
  exists i b, inodes (s_vfs s) !! file = Some i /\ s_bufs s !! i_name i = Some b /\ c_string b = Some f /\ zlen f < 500.

(** The directory at [node], with everything below it, is [t], of height [h]. *)
Inductive tree_at (s : sys) (m : gmap Z (list (Z * Z))) : nat -> Z -> dtree -> Prop :=
| tree_at_node h node d name ys fs xs ts :
    d_nodes (s_dev s) !! node = Some d -> c_string (dn_name d) = Some name -> zlen name < 500 ->
    m !! files node = Some ys -> Forall2 (fun y f => named s y.2 f) ys fs ->
    m !! subdirs node = Some xs -> Forall2 (fun x t => tree_at s m h x.2 t) xs ts ->
    tree_at s m (S h) node (DTree name fs ts).

Lemma same_objects_trans s1 s2 s3 : same_objects s1 s2 -> same_objects s2 s3 -> same_objects s1 s3.
Proof. unfold same_objects. naive_solver congruence. Qed.

Lemma named_same s s' file f : same_objects s s' -> named s file f -> named s' file f.
Proof. intros (_ & Eb & Ei & _) (i & b & Hi & Hb & Hr). exists i, b. by rewrite Ei, Eb. Qed.

Lemma tree_at_same s s' m h : same_objects s s' -> forall node t, tree_at s m h node t -> tree_at s' m h node t.
Proof.
  intros E. induction h as [|h IH]; intros node t T; inversion T as [? ? d name ys fs xs ts Hd Hc Hl Hy Hf Hx Ht]; subst.
  econstructor; [by destruct E as (_ & _ & _ & ->)|done..| |done|].
  - eapply Forall2_impl; [exact Hf|]. intros y f. by apply named_same.
  - eapply Forall2_impl; [exact Ht|]. intros x t. apply IH.
Qed.

Lemma indent_ok at_ depth s : indent at_ (Z.of_nat depth) s = put_chars (replicate depth 32) s.
Proof.
  unfold indent. rewrite Nat2Z.id. generalize 0. revert s. induction depth as [|depth IH]; intros s i; [done|]. cbn [for_loop replicate].
  assert (print at_ INDENT [] s = put_chars [32] s) as -> by (apply (print_text at_ [32]); [repeat constructor; discriminate|simpl; lia]).
  apply (put_chars_app [32] (replicate depth 32)). intros s' _. apply IH.
Qed.

Lemma print_files_ok at_ depth ys fs : forall s, Forall2 (fun y f => named s y.2 f) ys fs ->
  print_files at_ ys (Z.of_nat depth) s = put_chars (fs ≫= file_line depth) s.
Proof.
  revert fs. induction ys as [|[k file] ys IH]; intros fs s F; inversion F as [|? f ? fs' N F']; subst; [done|].
  destruct N as (i & b & Hi & Hb & Hs & Hl). cbn [print_files snd] in *. rewrite (deref_Some _ _ _ Hi). cbn [mbind outcome_bind].
  rewrite (deref_Some _ _ _ Hb). cbn [mbind outcome_bind]. rewrite indent_ok.
  cbn [mbind list_bind]. rewrite file_line_split.
  apply put_chars_app. intros s1 E1. change FILE_LINE with (codes "f: " ++ [37; 115] ++ [10] ++ [0]).
  rewrite (print_line _ _ _ _ f) by (done || (repeat constructor; discriminate) || (rewrite !length_app; simpl; lia)).
  apply put_chars_app. intros s2 E2. apply IH. eapply Forall2_impl; [exact F'|]. intros y g. eapply named_same, same_objects_trans; done.
Qed.

Lemma print_subdirs_ok (f : Z -> sys -> outcome sys) (P : sys -> Z -> dtree -> Prop) depth xs ts :
  (forall s s' v t, same_objects s s' -> P s v t -> P s' v t) ->
  (forall s v t, P s v t -> f v s = put_chars (listing depth t) s) ->
  forall s, Forall2 (fun x t => P s x.2 t) xs ts -> print_subdirs f xs s = put_chars (concat (listing depth <$> ts)) s.
Proof.
  intros Hsame Hf. revert ts. induction xs as [|[k v] xs IH]; intros ts s F; inversion F as [|? t ? ts' Pt F']; subst; [done|].
  cbn [print_subdirs fmap list_fmap concat]. rewrite (Hf s v t Pt). apply put_chars_app. intros s' E. apply IH.
  eapply Forall2_impl; [exact F'|]. intros x t'. by apply Hsame.
Qed.

Lemma dir_tree_printf_ok at_ m own h : forall fuel node t depth s,
  ls_rep (s_store s) m own -> tree_at s m h node t -> (h <= fuel)%nat -> Z.of_nat (depth + h) < 32768 ->
  dir_tree_printf at_ fuel node (Z.of_nat depth) s = put_chars (listing depth t) s.
Proof.
  induction h as [|h IH]; intros [|fuel] node t depth s L T Hf Hd; inversion T as [? ? d name ys fs xs ts Hn Hc Hl Hy Hfs Hx Hts]; subst; [lia|].
  cbn [dir_tree_printf listing]. rewrite (deref_Some _ _ _ Hn). cbn [mbind outcome_bind]. rewrite indent_ok, dir_line_split.
  apply put_chars_app. intros s1 E1. change DIR_LINE with (codes "d: " ++ [37; 115] ++ [10] ++ [0]).
  rewrite (print_line _ _ _ _ name) by (done || (repeat constructor; discriminate) || (rewrite !length_app; simpl; lia)).
  apply put_chars_app. intros s2 E2. pose proof (same_objects_trans _ _ _ E1 E2) as E.
  assert (L2 : ls_rep (s_store s2) m own) by (by destruct E as (-> & _)).
  rewrite (ls_nodes_ok _ _ _ _ _ L2 Hy). cbn [mbind outcome_bind]. replace (i16 (Z.of_nat depth + 1)) with (Z.of_nat (S depth)) by (rewrite i16_small; lia).
  rewrite (print_files_ok _ _ _ fs) by (eapply Forall2_impl; [exact Hfs|]; intros y f; by apply named_same).
  apply put_chars_app. intros s3 E3. assert (E' : same_objects s s3) by (by eapply same_objects_trans).
  assert (L3 : ls_rep (s_store s3) m own) by (by destruct E' as (-> & _)).
  rewrite (ls_nodes_ok _ _ _ _ _ L3 Hx). cbn [mbind outcome_bind].
  apply (print_subdirs_ok _ (fun s v t => ls_rep (s_store s) m own /\ tree_at s m h v t)).
  - intros s4 s5 v t Es [L4 T4]. split; [by destruct Es as (-> & _)|by eapply tree_at_same].
  - intros s4 v t [L4 T4]. apply IH; done || lia.
  - eapply Forall2_impl; [exact Hts|]. intros x t Ht. split; [done|by eapply tree_at_same].
Qed.

(** The listing of a directory tree: [dir_tree_printf] ends, with as many nested
    calls as the tree has levels, and prints every directory and file once, in the
    order of the lists, each level one column further in. *)
Theorem dir_tree_listed at_ m own h node t s :
  ls_rep (s_store s) m own -> tree_at s m h node t -> Z.of_nat h < 32768 ->
  dir_tree_printf at_ h node 0 s = put_chars (listing 0 t) s.
Proof. intros L T Hh. by apply (dir_tree_printf_ok at_ m own h h node t 0). Qed.
End Report.

(** ** Witness: an assertion fails at line 7, and the report leaves by the serial port *)

Section Demo.
#[local] Existing Instance klist_store.
#[local] Existing Instance serial_page.
#[local] Existing Instance serial_uninit.
#[local] Existing Instance serial_others.
#[local] Existing Instance serial_callbacks.
#[local] Existing Instance log_sign.
(** A stack with one frame above the bottom *)
Instance report_words : StackWords := fun a => if a =? 0xffe0 then 0x1234 else if a =? 0xffde then 0xfffe else 0.

Definition report_machine : @Interrupt.machine (store (list Z)) (list Z * list Z) :=
  Machine log_demo false 0 3 0 (Keyboard 0 0 false) true (ProcState [] 0 0 [] []).

Lemma assert_reports_witness :
  exists m', __assert_fail 0xf100 (codes "n > 0 @ a.c" ++ [0]) 7 0xffe0 report_machine = Ret m' /\ int_enabled m' = false /\
    fst (d_bus (s_dev (m_sys m'))) = assert_text (codes "n > 0 @ a.c") 7 ++ title_text ++ cause_text (codes "assertion") ++
      codes "Stack trace:" ++ [10] ++ codes "ret=1234 fp=fffe" ++ [10] ++ codes "ret=0 fp=0" ++ [10] ++ codes "*kernel halted*".
Proof.
  destruct (assert_reports 0xf100 (codes "n > 0 @ a.c" ++ [0]) (codes "n > 0 @ a.c") 7 0xffe0 report_machine) as [E _].
  - intros a. unfold stack_word, report_words. destruct (a =? 0xffe0), (a =? 0xffde); lia.
  - reflexivity.
  - lia.
  - vm_compute. reflexivity.
  - destruct (__assert_fail _ _ _ _ _) as [m'| | | |] eqn:Em; [|exfalso; vm_compute in E; discriminate E..].
    exists m'. vm_compute in E. injection E as ->. split; [done|]. vm_compute. split; reflexivity.
Defined.
End Demo.
