(* ===== verification/Kstart.v ===== *)
(** * The start of the kernel (kernel/kstart.c, kernel/irq/timer.c)

    [_kstart] initialises the parts of the kernel, makes the first threads and
    switches to one of them; [init_stage1] is the thread that mounts the file
    systems and loads the first program.  Console output is left out; the
    state of the heap after [init_malloc] is an argument. *)

From S2P Require Import Prelude Interfaces Kmalloc KList Proc Sync CString Kernel Sched Virtual Vfs Sys Mq Request Tmpfs Elf Ringbuff Tty Blockq Device Dirtree Sd Tar Console Serial Log I2c Rootfs Interrupt.

Definition TIMER_PAGE : Z := 0x4.
Definition TIMER_VALUE : Z := 0x10.
Definition TIMER_CLK_DIV : Z := 0x12.
Definition TIMER_AUTO_RESET : Z := 0x14.
Definition timer_val : Z := 34285.

Definition SLEEP : Z := -80.       (** [struct semaphore sleep] *)

(** "drv::tty::read", "drv::tty::write", "kernel:init1", "fs::kbd", "drv::SD",
    "drv::tar", "sd/", "/sd/bin/libe" *)
Definition S_TTY_READ : list Z := [100; 114; 118; 58; 58; 116; 116; 121; 58; 58; 114; 101; 97; 100; 0].
Definition S_TTY_WRITE : list Z := [100; 114; 118; 58; 58; 116; 116; 121; 58; 58; 119; 114; 105; 116; 101; 0].
Definition S_INIT1 : list Z := [107; 101; 114; 110; 101; 108; 58; 105; 110; 105; 116; 49; 0].
Definition S_FS_KBD : list Z := [102; 115; 58; 58; 107; 98; 100; 0].
Definition S_DRV_SD : list Z := [100; 114; 118; 58; 58; 83; 68; 0].
Definition S_DRV_TAR : list Z := [100; 114; 118; 58; 58; 116; 97; 114; 0].
Definition S_SD : list Z := [115; 100; 47; 0].
Definition S_LIBE : list Z := [47; 115; 100; 47; 98; 105; 110; 47; 108; 105; 98; 101; 0].

(** Where the linker has put the functions of the threads. *)
Class Entries := {
  e_idle : Z; e_tty_read : Z; e_tty_write : Z; e_init : Z; e_kbd : Z; e_sd : Z; e_tar : Z;
}.

Section Kstart.
Context {St B : Type} `{ListStore St} {junk : Uninit} {others : Others St (drivers B)} `{DevicePage B} {sign : CharSign}.
Context {regs : @VfsRegs St (drivers B)} {callbacks : @Callbacks St (drivers B)} {words : WordStore} {irqc : IrqController} {entries : Entries}.
Abbreviation sys := (sys St (drivers B)).
Abbreviation machine := (@Interrupt.machine St B).
Context (junk_proc : proc).

(** ** The code *)

Definition timer_init (m : machine) : outcome machine :=
  m ← map_zero TIMER_PAGE m;
  let s := m_sys m in
  let b := dev_write TIMER_VALUE timer_val (dev_write TIMER_AUTO_RESET timer_val (dev_write TIMER_CLK_DIV 3 (d_bus (s_dev s)))) in
  m ← irq_clear TIMER_IRQ_ID (set_m_sys (set_bus b s) m);
  m ← irq_mask TIMER_IRQ_ID true m;
  map_zero ILLEGAL_PAGE m.

(** A step that works on the system state *)
Definition on_sys (f : sys -> outcome sys) (m : machine) : outcome machine :=
  s ← f (m_sys m); Ret (set_m_sys s m).

Definition on_kernel (f : kernel St -> outcome (kernel St)) (s : sys) : outcome sys :=
  k ← f (s_kernel s); Ret (set_kernel k s).

Definition start_thread (name : list Z) (entry : Z) : sys -> outcome sys :=
  on_kernel (fun k => '(_, k) ← make_kernel_thread junk_proc name entry k; Ret k).

(** [scheduling_enabled = 1;] *)
Definition enable_scheduling (k : kernel St) : kernel St :=
  Kernel (k_store k) (k_procs k) (k_semas k) (k_signals k) (current_proc k) (last_element k) (pid_now k) (first_free_page k) true
    (int_no_proc_modify k) (sys_ticks k) (first_free_prog_page k).

(** [st] is the heap after [init_malloc]; [fuel] bounds the search for a thread. *)
Definition _kstart (st : St) (fuel : nat) (m : machine) : outcome machine :=
  m ← on_sys (fun s => vfs_init (s_set_store st (log_set_target LOG_TARGET_SERIAL 1 s))) m;
  m ← timer_init m;
  m ← on_sys (on_kernel (scheduler_init junk_proc e_idle)) m;
  m ← on_sys spi_init m;
  m ← on_sys sd_init m;
  m ← keyboard_init m;
  m ← on_sys (fun s => tty_init_driver (tty_init_basic (mqs_init s))) m;
  m ← on_sys (tty_register_thread junk_proc junk_proc S_TTY_READ S_TTY_WRITE e_tty_read e_tty_write) m;
  m ← on_sys (start_thread S_INIT1 e_init) m;
  m ← on_sys (on_kernel (sched_pick_next fuel)) m;
  m ← on_sys (on_kernel (fun k => Ret (enable_scheduling k))) m;
  switch_to_userspace (current_proc (s_kernel (m_sys m))) m.

(** The program [/sd/bin/libe] *)
Definition load_first (s : sys) : outcome sys :=
  '(load_inode, s) ← vfs_find_inode S_LIBE s;
  _ ← ASSERT (negb (load_inode =? 0));
  p ← deref (k_procs (s_kernel s)) (current_proc (s_kernel s));
  fd ← Fd.proc_free_fd p;
  let elf_file := file_ptr (current_proc (s_kernel s)) fd in
  f ← file_at elf_file s;
  s ← set_file elf_file (Fd.vfs_open load_inode f).2 s;
  '(P, s) ← elf_load junk_proc elf_file s;
  _ ← ASSERT (negb (P =? 0));
  p ← deref (k_procs (s_kernel s)) P;
  let s := set_kernel (set_procs (<[P := set_p_state PROC_STATE_RUNNABLE p]> (k_procs (s_kernel s))) (s_kernel s)) s in
  f ← file_at elf_file s;
  set_file elf_file (Fd.vfs_close f).2 s.

(** [init_stage1] up to the moment it goes to sleep for ever; [fuel] bounds the
    number of entries of the archive. *)
Definition init_stage1 (fuel : nat) (s : sys) : outcome sys :=
  '(rootfs, s) ← vfs_mount ROOTFS_REG (vfs_get_root_inode s) s;
  s ← rootfs_create rootfs junk_proc S_FS_KBD e_kbd s;
  s ← sd_register_thread junk_proc S_DRV_SD e_sd s;
  '(i, s) ← rootfs_create_entry rootfs [0] S_SD INODE_TYPE_DIRECTORY s;
  '(tarfs, s) ← vfs_mount TAR_REG i s;
  s ← tar_init fuel junk_proc S_DRV_TAR e_tar tarfs s;
  s ← load_first s;
  Ret (s_sema_init SLEEP s).

End Kstart.

(** ** The kernel starts

    A complete run: hardware with an SD card that holds an archive with the
    program of Elf.v. *)

Section Demo.
#[local] Existing Instance klist_store.

(** *** The card *)

(** A header of the archive: name, size in octal digits and type *)
Definition tar_header (name size : list Z) (type : Z) : list Z :=
  splice (splice (splice (splice (replicate 512 0) 0 name) TAR_SIZE size) TAR_TYPE [type]) TAR_USTAR [117; 115; 116; 97; 114].

Definition octal_text (d2 d1 d0 : Z) : list Z := replicate 8 48 ++ [d2; d1; d0; 0].

(** "bin/", and "bin/libe" with 127 bytes *)
Definition archive : list (list Z) :=
  [tar_header [98; 105; 110; 47] (octal_text 48 48 48) 53;
   tar_header [98; 105; 110; 47; 108; 105; 98; 101] (octal_text 49 55 55) 48;
   splice (replicate 512 0) 0 demo_content].

Definition card_sector (addr : Z) : list Z := nth (Z.to_nat addr) archive (replicate 512 0).

(** What the card sends after a command. *)
Definition card_answer (command : list Z) : list Z :=
  let arg i := nth i command 0 in
  let index := arg 0%nat - 0x40 in
  if index =? CMD0 then [0xFF; STATUS_IDLE]
  else if index =? CMD8 then [0xFF; STATUS_IDLE; 0; 0; 1; 0xAA]
  else if index =? ACMD_PRE_CMD55 then [STATUS_IDLE]
  else if index =? CMD58 then [STATUS_NULL; OCR_0_HC; OCR_1_3V3; 0; 0]
  else if index =? CMD17 then [0xFF; STATUS_NULL; 0xFF; 0xFF; SD_READ_TOKEN] ++ card_sector (arg 3%nat * 256 + arg 4%nat) ++ [0; 0]
  else [STATUS_NULL].

(** The byte received last, the command so far, the bytes to come. *)
Record card := Card { c_last : Z; c_command : list Z; c_out : list Z }.

Definition card_byte (x : Z) (b : card) : card :=
  match c_out b with
  | y :: out => Card y (c_command b) out
  | [] =>
    match c_command b with
    | [] => if x =? 0xFF then Card 0xFF [] [] else Card 0xFF [x] []
    | cs => let cs := cs ++ [x] in if (length cs =? 6)%nat then Card 0xFF [] (card_answer cs) else Card 0xFF cs []
    end
  end.

Instance boot_page : DevicePage card := {
  dev_read reg b := (if reg =? SPI_STATUS then 0 else if reg =? SPI_RX then c_last b else 0, b);
  dev_write reg x b := if reg =? SPI_TX then card_byte x b else b;
  dev_polls := 4%nat;
}.

(** *** The rest of the machine *)

Abbreviation boot_sys := (Sys.sys (store (list Z)) (drivers card)).
Instance boot_uninit : Uninit := fun _ _ => 0.
Instance boot_sign : CharSign := false.
Instance boot_callbacks : @Callbacks (store (list Z)) (drivers card) := fun _ _ _ => Fault.
Instance boot_words : WordStore := fun pg off x => <[Z.to_nat off := 0]> (<[Z.to_nat (off + 1) := 0]> pg).
Instance boot_irqc : IrqController := fun _ _ => 0.
Instance boot_entries : Entries := {| e_idle := 1; e_tty_read := 2; e_tty_write := 3; e_init := 4; e_kbd := 5; e_sd := 6; e_tar := 7 |}.

(** The thread with number [pid] runs a turn, then the waiting thread goes on. *)
Definition turn_of (pid : Z) (f : boot_sys -> outcome boot_sys) (s : boot_sys) : outcome boot_sys :=
  P ← proc_by_pid pid (s_kernel s);
  s' ← f (set_current P s);
  Ret (set_current (current_proc (s_kernel s)) s').

Definition no_wait : Others (store (list Z)) (drivers card) := fun _ _ => Block.

(** Thread 5 is the driver of the card and thread 6 the tar file system. *)
Definition card_wait : Others (store (list Z)) (drivers card) := fun l s =>
  if l =? REQUEST_WAIT then turn_of 5 (sd_driver_turn (others := no_wait)) s else Block.

Instance boot_others : Others (store (list Z)) (drivers card) := fun l s =>
  if l =? REQUEST_WAIT then card_wait l s
  else if 0 <? l then turn_of 6 (tar_driver_turn (others := card_wait)) s
  else Block.

Definition boot_reg (a : Z) : option (@vfs_reg (store (list Z)) (drivers card)) :=
  if a =? ROOTFS_REG then Some rootfs_reg
  else if a =? TTY_REG then Some tty_vfs_reg
  else if a =? KBD_REG then Some kbd_vfs_reg
  else if a =? I2C_REG then Some i2c_vfs_reg
  else if a =? TAR_REG then Some tar_reg
  else None.
Instance boot_regs : @VfsRegs (store (list Z)) (drivers card) := boot_reg.

Definition boot_junk : proc :=
  Proc 0 0 0 (ProcState (replicate 8 0) 0 0 (replicate 16 0) (replicate 16 0)) (ProcState (replicate 8 0) 0 0 (replicate 16 0) (replicate 16 0))
    (replicate 16 0) 0 (replicate 16 (ProcFile 0 0 0 0)) 0 0 0 0 0 0.

Definition power_on : @Interrupt.machine (store (list Z)) card :=
  Machine
    (Sys (Vm (Kernel boot_store ∅ ∅ ∅ 0 0 0 0x211 false false 0 0x11) demo_phys 0)
       (<[SECTOR_BUFF := replicate 512 0]> (<[BUFF_AT := replicate 56 0]> (<[LOAD_BUFF_AT := replicate 256 0]> {[PH_BUFF_AT := replicate 32 0]})))
       (VfsState {[TTY_ROOT_INODE := Inode 0 0 0 0 INODE_TYPE_DEVICE; KBD_ROOT_INODE := Inode 0 0 0 0 INODE_TYPE_DEVICE;
                   I2C_ROOT_INODE := Inode 0 0 0 0 INODE_TYPE_DEVICE]} ∅ ∅ 0 1 0) (MqState ∅ ∅ 0 0)
       (Drivers (Card 0 [] []) (blockq_fields 0 0 (Ringbuff 0 0 0 [])) {[TAR_DIR_TREE := DirNode (replicate 32 0) 0 0]} ∅ 0 ∅ Tty.demo_tty 0
          (Ringbuff 0 0 0 []) 0 (TmpState 0 (replicate 64 0)) 0))
    false 0 0 0 (Keyboard.Keyboard 0 0 false) false (ProcState [] 0 0 [] []).

(** Thread 3 is [init_stage1]. *)
Definition boot : outcome boot_sys :=
  m ← _kstart boot_junk boot_store 4 power_on;
  P ← proc_by_pid 3 (s_kernel (m_sys m));
  init_stage1 boot_junk 10 (set_current P (m_sys m)).

Definition S_DEV_TTY : list Z := [47] ++ [100; 101; 118; 47] ++ S_TTY.
Definition S_DEV_KBD : list Z := [47] ++ [100; 101; 118; 47] ++ S_KBD.
Definition S_DEV_I2C : list Z := [47] ++ [100; 101; 118; 47] ++ S_I2C.

(** The user process as the loader has left it *)
Definition user_proc (s : boot_sys) : option proc :=
  match proc_by_pid 7 (s_kernel s) with Ret P => k_procs (s_kernel s) !! P | _ => None end.

Definition found (path : list Z) (s : boot_sys) : option Z :=
  match vfs_find_inode path s with Ret (i, _) => Some i | _ => None end.

(** The user process: its state, type, program counter and name, and the bytes
    of its data and of the page after them *)
Definition user_view (s : boot_sys) (p : proc) : Z * Z * Z * list Z * option (list Z) * option (list Z) :=
  let data := user_bytes (mem_pages (p_proc_state p)) (v_phys (s_vm s)) in
  (p_state p, p_type p, Proc.pc (p_proc_state p), p_name p, data 0x1000 3%nat, data 0x2000 4%nat).

(** What the machine looks like when the first program is loaded. *)
Definition boot_done (s : boot_sys) : Prop :=
  user_view s <$> user_proc s =
    Some (PROC_STATE_RUNNABLE, PROC_TYPE_USER, 0x100, [98; 105; 110; 47; 108; 105; 98; 101] ++ replicate 8 0, Some [11; 12; 13], Some [0; 0; 0; 0]) /\
  pid_now (s_kernel s) = 7 /\
  found S_DEV_TTY s = Some TTY_ROOT_INODE /\ found S_DEV_KBD s = Some KBD_ROOT_INODE /\ found S_DEV_I2C s = Some I2C_ROOT_INODE.

#[local] Instance boot_done_dec s : Decision (boot_done s).
Proof. unfold boot_done. apply _. Defined.

(** A test run: one machine, with an SD card whose archive has the program
    [bin/libe], evaluated from the power on.  [_kstart] and then [init_stage1] run
    to their ends -- the card is initialised over the SPI bus, the archive
    read, the file systems mounted and the program loaded through the virtual
    file system, the tar driver and the card driver.  Afterwards there are
    seven threads, the program is a runnable user process at its entry
    point with its three bytes of data and the cleared page behind them in
    its memory, and the paths of the devices lead to their inodes. *)
Example boot_loads_program :
  exists s, boot = Ret s /\ boot_done s.
Proof.
  assert (Hrun : (s ← boot; Ret (bool_decide (boot_done s))) = Ret true) by (vm_compute; reflexivity).
  destruct boot as [s| | | |]; [|discriminate..].
  exists s. split; [done|]. apply (bool_decide_eq_true_1 (boot_done s)). by injection Hrun.
Qed.

End Demo.
