(* ===== verification/Usys.v ===== *)
(** * The user side of system calls (lib/libc/src/sys.c, lib/libc/src/unistd.c)

    The functions of sys.c load the registers of a call and execute the [sys]
    instruction; [sleep] of unistd.c is built from four of them.  They are
    written against the class [Processor], and the second half of the file runs
    them on the kernel: there the instruction is an interrupt of the machine of
    Interrupt.v, and the theorems are about the library and the kernel together. *)

From S2P Require Import Prelude Interfaces Kmalloc KList Ringbuff Blockq Proc Sync CString Kernel Sched Virtual Sys Signals Mq Vfs Request Tmpfs Keyboard Tty Device Sd Console Sysd Interrupt.

(** What a program can do besides computing: execute [sys] with some of its
    registers loaded, of which registers 0 and 1 are read afterwards; load
    bytes; and call a function by its address. *)
Class Processor (M : Type) := {
  sys_instruction : list (nat * Z) -> M -> outcome (Z * Z * M);
  load : Z -> nat -> M -> outcome (list Z);
  call : Z -> list Z -> M -> outcome M;
}.

(** ** The code *)

Module Stub.
Section Stub.
Context {M : Type} `{Processor M} {sign : CharSign} {order : ByteOrder}.

Definition syscall_raw (p0 p1 p2 p3 p4 : Z) (o : M) : outcome (Z * M) :=
  '(ret, _, o) ← sys_instruction [(0%nat, p0); (1%nat, p1); (2%nat, p2); (3%nat, p3); (6%nat, p4)] o;
  Ret (ret, o).

(** The conversion of the result to [int] *)
Definition syscall_int (p0 p1 p2 p3 p4 : Z) (o : M) : outcome (Z * M) :=
  '(ret, o) ← syscall_raw p0 p1 p2 p3 p4 o; Ret (i16 ret, o).

Definition sys_dump (o : M) : outcome M :=
  '(_, _, o) ← sys_instruction [(0%nat, 0)] o; Ret o.

(** [text] is the array that [str] points to. *)
Definition sys_print (str : Z) (text : list Z) (o : M) : outcome M :=
  n ← strlen text 0;
  '(_, o) ← syscall_raw SYS_PRINT str n 0 0 o;
  Ret o.

Definition sys_open (path : Z) (text : list Z) (o : M) : outcome (Z * M) :=
  n ← strlen text 0;
  syscall_int SYS_OPEN path (u16 (n + 1)) 0 0 o.

Definition sys_close (fd : Z) : M -> outcome (Z * M) := syscall_int SYS_CLOSE (u16 fd) 0 0 0.

Definition sys_read (fd buff size : Z) : M -> outcome (Z * M) := syscall_int SYS_READ (u16 fd) buff size 0.

Definition sys_write (fd buff size : Z) : M -> outcome (Z * M) := syscall_int SYS_WRITE (u16 fd) buff size 0.

Definition sys_fcntl (fd type flags : Z) : M -> outcome (Z * M) := syscall_int SYS_FCNTL (u16 fd) type flags 0.

Definition sys_procinfo (pid proc_info : Z) : M -> outcome (Z * M) := syscall_int SYS_PROCINFO pid proc_info 0 0.

Definition sys_pgmap (page : Z) : M -> outcome (Z * M) := syscall_int SYS_PGMAP (u16 page) 0 0 0.

Definition sys_sigsend (pid type number : Z) : M -> outcome (Z * M) := syscall_int SYS_SIGSEND (u16 pid) type number 0.

(** Addresses of functions count bytes here and instructions in the kernel. *)
Definition sys_sigaction (handler : Z) (o : M) : outcome (Z * M) :=
  '(r, o) ← syscall_raw SYS_SIGACTION (handler / 4) 0 0 0 o;
  Ret (u16 (r * 4), o).

Definition sys_sigwait (result : Z) : M -> outcome (Z * M) := syscall_int SYS_SIGWAIT result 0 0 0.

Definition sys_clockticks (o : M) : outcome (Z * M) :=
  '(ret_low, ret_high, o) ← sys_instruction [(0%nat, 0xf)] o;
  Ret (Z.lor ret_low (u32 (Z.shiftl ret_high 16)), o).

Definition sys_alarmset (ticks : Z) (o : M) : outcome M :=
  '(_, o) ← syscall_raw SYS_ALARMSET (u16 ticks) (u16 (Z.shiftr ticks 16)) 0 0 o;
  Ret o.

Definition sys_mqcreat : M -> outcome (Z * M) := syscall_raw SYS_MQCREAT 0 0 0 0.

Definition sys_mqsend (mq_id type size data : Z) : M -> outcome (Z * M) :=
  syscall_int SYS_MQSEND mq_id (u16 type) size data.

Definition sys_mqrecv (mq_id buff size nonblock : Z) : M -> outcome (Z * M) :=
  syscall_int SYS_MQRECV mq_id (u16 (size - 6)) buff (u16 nonblock).

(** [__builtin_unreachable] after the call *)
Definition sys_exit (status : Z) (o : M) : outcome M :=
  '(_, o) ← syscall_raw SYS_EXIT status 0 0 0 o;
  Fault.

Definition sys_exec (fd : Z) : M -> outcome (Z * M) := syscall_int SYS_EXEC (u16 fd) 0 0 0.

(** *** unistd.c *)

(** The loop of [sleep] over the signals that arrive; [sigwait] is the address of
    the local variable, and the type of the last signal is returned. *)
Fixpoint sleep_loop (fuel : nat) (sigwait end_ : Z) (o : M) : outcome (Z * M) :=
  match fuel with
  | O => Hang
  | S fuel =>
    '(_, o) ← sys_sigwait sigwait o;
    bs ← load sigwait 4%nat o;
    type ← arr_get (words_of bs) 0;
    number ← arr_get (words_of bs) 1;
    if negb (negb (type =? 2) || ((type =? 2) && (number =? u16 end_))) then sleep_loop fuel sigwait end_ o
    else Ret (type, o)
  end.

Definition sleep (fuel : nat) (sigwait ticks : Z) (o : M) : outcome M :=
  '(time, o) ← sys_clockticks o;
  '(saved_handler, o) ← sys_sigaction 0 o;
  let end_ := u32 (time + ticks) in
  o ← sys_alarmset end_ o;
  '(type, o) ← sleep_loop fuel sigwait end_ o;
  o ← sys_alarmset 0 o;
  o ← (if negb (type =? 2) && negb (saved_handler =? 0) then call saved_handler [sigwait; 0] o else Ret o);
  '(_, o) ← sys_sigaction saved_handler o;
  Ret o.
End Stub.
End Stub.

(** ** On the kernel *)

(** What was written inside a page is read back. *)
Lemma user_bytes_splice table phys u bs page pg :
  is_u16 u -> zlen bs <= 4096 - VIRT_LOCAL_PART u -> table !! Z.to_nat (VIRT_PAGE_PART u) = Some page ->
  phys !! page = Some pg -> length pg = 4096%nat ->
  user_bytes table (<[page := splice pg (VIRT_LOCAL_PART u) bs]> phys) u (length bs) = Some bs.
Proof.
  intros Hu Hl Ht Hp Hpg. assert (0 <= VIRT_LOCAL_PART u < 4096) by (rewrite local_part_mod by done; zlia).
  eapply (user_bytes_in_page _ _ _ page _ (take (Z.to_nat (VIRT_LOCAL_PART u)) pg)); [done..|apply lookup_insert_eq|reflexivity|].
  rewrite length_take. lia.
Qed.

(** The time that the kernel stores for an alarm at [ticks] *)
Definition alarm_of (ticks : Z) : Z := if u16 ticks <? 32768 then ticks else 0xffff0000 + u16 ticks.

Lemma u16_alarm_of ticks : u16 (alarm_of ticks) = u16 ticks.
Proof. unfold alarm_of, u16. destruct (_ <? _); zlia. Qed.

Section OnKernel.
Context {St B : Type} `{ListStore St} {junk : Uninit} {others : Others St (drivers B)} {sign : CharSign}
  {order : ByteOrder} {regs_ : @VfsRegs St (drivers B)} {callbacks : @Callbacks St (drivers B)} {irqc : IrqController}.
Abbreviation sys := (sys St (drivers B)).
Abbreviation machine := (@machine St B).
Context (log : list Z -> sys -> outcome sys) (elf_load : Z -> sys -> outcome (Z * sys)).
Context (fuel : nat) (run_function : Z -> list Z -> machine -> outcome machine).
Set Default Proof Using "Type".

Definition loaded (args : list (nat * Z)) (rs : list Z) : list Z := foldl (fun rs a => <[a.1 := a.2]> rs) rs args.

(** The interrupt that the [sys] instruction raises, with the context of the
    processor *)
Definition trap (args : list (nat * Z)) (m : machine) : int_handler_state :=
  IntState (loaded args (regs (cpu m))) (Proc.pc (cpu m)) (arith_flags (cpu m)) SFLAG_SYSCALL.

#[local] Instance machine_processor : Processor machine := {
  sys_instruction args m :=
    m ← interrupt log elf_load fuel (trap args m) m;
    r0 ← arr_get (regs (cpu m)) 0;
    r1 ← arr_get (regs (cpu m)) 1;
    Ret (r0, r1, m);
  load a n m :=
    match user_bytes (mem_pages (cpu m)) (v_phys (s_vm (m_sys m))) a n with Some bs => Ret bs | None => Fault end;
  call := run_function;
}.

(** Process [P] executes user code, no device asks for attention, and no signal
    is queued for the process. *)
Record user_at (m : machine) (P : Z) (p : proc) (ml : gmap Z (list (Z * Z))) (own : gset Z) (xs : list (Z * Z)) : Prop := {
  ua_run : running m P p;
  ua_cpu : cpu m = p_proc_state p;
  ua_quiet : irq_status m = 0;
  ua_type : p_type p = PROC_TYPE_USER;
  ua_state : p_state p = PROC_STATE_RUNNABLE;
  ua_mem : length (mem_pages (p_proc_state p)) = 16%nat;
  ua_prog : length (prog_pages (p_proc_state p)) = 16%nat;
  ua_ok : kernel_ok (s_kernel (m_sys m)) ml own xs;
  ua_listed : P ∈ xs.*2;
  ua_none : ml !! signal_queue_of P = Some [];
  ua_sema : s_semas (m_sys m) !! signal_sema_of P = Some 0;
  ua_free : p_sema_blocked p = 0;
}.

(** The kernel when [process_syscall] starts. *)
Definition calling (st : int_handler_state) (P : Z) (p : proc) (m : machine) : sys :=
  let s := put_proc P (in_syscall (saved st p)) (m_sys (entered st p m)) in
  set_kernel (set_int_no_proc_modify false (s_kernel s)) s.

Lemma interrupt_quiet args m P p ml own xs :
  user_at m P p ml own xs ->
  interrupt log elf_load fuel (trap args m) m =
    '(_, s2) ← process_syscall log elf_load P (calling (trap args m) P p m);
    s3 ← sys_leave fuel s2;
    switch_to_userspace (cur s3) (set_m_sys s3 (set_int_enabled false (set_int_enabled true
      (set_in_handler false (entered (trap args m) p m))))).
Proof.
  intros [R Hcpu Hq Hty Hst Hm Hg K Hl Hn Hs Hfree].
  assert (H8 : length (i_regs (trap args m)) = 8%nat).
  { simpl. rewrite Hcpu. pose proof (rn_regs _ _ _ R) as E. generalize dependent (regs (p_proc_state p)).
    clear. induction args as [|a args IH]; intros rs E; [done|]. apply IH. by rewrite length_insert. }
  rewrite (interrupt_served _ _ _ _ _ _ _ R H8) by done. destruct (entered_proc (trap args m) _ _ _ R) as [Ec Ep].
  pose proof (entered_inside (trap args m) p m) as I.
  unfold int_serve. rewrite Ec, (get_proc_ok _ _ _ Ep). cbn [mbind outcome_bind].
  rewrite int_keyboard_irq by done. unfold typed. change (irq_status (entered _ _ m)) with (irq_status m). rewrite Hq.
  change (pending KEYBOARD_IRQ_ID 0) with false. cbn [mbind outcome_bind].
  rewrite int_timer_irq by done. change (irq_status (entered _ _ m)) with (irq_status m). rewrite Hq.
  change (pending TIMER_IRQ_ID 0) with false. cbn [mbind outcome_bind].
  rewrite Ec, (get_proc_ok _ _ _ Ep). cbn [mbind outcome_bind].
  assert (IN_KERNEL (saved (trap args m) p) = false) as -> by (unfold IN_KERNEL; simpl; by rewrite Hty, Hst).
  change (negb (Z.land (irq_flags (trap args m)) SFLAG_SYSCALL =? 0) && negb false) with true. cbv iota.
  unfold int_sys_call. change (m_sys (set_in_handler false ?x)) with (m_sys x).
  rewrite (sys_enter_ok _ P (saved (trap args m) p)) by done. cbn [mbind outcome_bind].
  match goal with |- context [process_syscall log elf_load (cur ?s) _] => change (cur s) with (cur (m_sys (entered (trap args m) p m))) end.
  rewrite Ec. done.
Qed.

(** The end of a system call of [P] that leaves no signal behind. *)
Record leaves (s : sys) (P : Z) (p : proc) (ml : gmap Z (list (Z * Z))) (own : gset Z) (xs : list (Z * Z)) : Prop := {
  lv_cur : cur s = P;
  lv_sched : scheduling_enabled (s_kernel s) = true;
  lv_proc : k_procs (s_kernel s) !! P = Some p;
  lv_state : p_state p = PROC_STATE_SYSCALL;
  lv_type : p_type p = PROC_TYPE_USER;
  lv_regs : length (regs (p_syscall_state p)) = 8%nat;
  lv_mem : length (mem_pages (p_syscall_state p)) = 16%nat;
  lv_prog : length (prog_pages (p_syscall_state p)) = 16%nat;
  lv_ok : kernel_ok (s_kernel s) ml own xs;
  lv_listed : P ∈ xs.*2;
  lv_none : ml !! signal_queue_of P = Some [];
  lv_sema : s_semas s !! signal_sema_of P = Some 0;
  lv_free : p_sema_blocked p = 0;
}.

Lemma leaves_returns s P p ml own xs : leaves s P p ml own xs -> returns s P p.
Proof.
  intros L. split; [apply L|apply L|by rewrite (lv_state _ _ _ _ _ _ L)| |].
  - exists 0. split; [|by left]. apply (ls_first_ok _ _ _ _ _ (kok_rep _ _ _ _ (lv_ok _ _ _ _ _ _ L)) (lv_none _ _ _ _ _ _ L)).
  - intros E. pose proof (lv_mem _ _ _ _ _ _ L) as Hm. by rewrite E in Hm.
Qed.

(** The other processes and the semaphores are as they were. *)
Definition others_same (P : Z) (k k' : kernel St) : Prop :=
  (forall v, v <> P -> k_procs k' !! v = k_procs k !! v) /\ k_semas k' = k_semas k.

Lemma others_same_trans P k1 k2 k3 : others_same P k1 k2 -> others_same P k2 k3 -> others_same P k1 k3.
Proof. intros [H1 S1] [H2 S2]. split; [intros v Hv; by rewrite H2, H1|congruence]. Qed.

(** The kernel between the entry and [process_syscall]. *)
Lemma calling_leaves args m P p ml own xs :
  user_at m P p ml own xs -> let st := trap args m in
  leaves (calling st P p m) P (in_syscall (saved st p)) ml own xs /\
  int_no_proc_modify (s_kernel (calling st P p m)) = false /\
  v_phys (s_vm (calling st P p m)) = v_phys (s_vm (m_sys m)) /\
  sys_ticks (s_kernel (calling st P p m)) = sys_ticks (s_kernel (m_sys m)) /\
  others_same P (s_kernel (m_sys m)) (s_kernel (calling st P p m)).
Proof.
  intros [R Hcpu Hq Hty Hst Hm Hg K Hl Hn Hs Hfree] st. split_and!; [|done..|].
  2: { split; [|done]. intros v Hv. unfold calling, entered. simpl. pose proof (rn_cur _ _ _ R) as <-.
       by rewrite !lookup_insert_ne. }
  split; try done; simpl; [apply R|apply R|apply lookup_insert_eq|..].
  - unfold st. simpl. rewrite Hcpu. pose proof (rn_regs _ _ _ R) as E. generalize dependent (regs (p_proc_state p)).
    clear. induction args as [|a args IH]; intros rs E; [done|]. apply IH. by rewrite length_insert.
  - apply (kernel_ok_same (set_procs (<[P := in_syscall (saved st p)]> (k_procs (s_kernel (m_sys m)))) (s_kernel (m_sys m))));
      try done; [eapply kernel_ok_put; [done|apply R|by right]|].
    unfold calling, entered. simpl. pose proof (rn_cur _ _ _ R) as <-. apply insert_insert_eq.
Qed.

(** The machine after a system call of [P] that ended in state [s]: the program
    goes on with the context that the call left in the descriptor [p]. *)
Record resumed (m : machine) (s : sys) (P : Z) (p : proc) (m' : machine) : Prop := {
  rs_cpu : cpu m' = p_syscall_state p;
  rs_irq : irq_status m' = irq_status m;
  rs_handler : in_interrupt_handler m' = false;
  rs_kernel : s_kernel (m_sys m') = set_int_no_proc_modify false (set_procs (<[P := back p]> (k_procs (s_kernel s))) (s_kernel s));
  rs_phys : v_phys (s_vm (m_sys m')) = v_phys (s_vm s);
  rs_bufs : s_bufs (m_sys m') = s_bufs s;
  rs_vfs : s_vfs (m_sys m') = s_vfs s;
  rs_dev : s_dev (m_sys m') = s_dev s;
}.

Lemma sys_instruction_resumes args m P p ml own xs r s2 p2 r0 r1 :
  user_at m P p ml own xs ->
  process_syscall log elf_load P (calling (trap args m) P p m) = Ret (r, s2) -> returns s2 P p2 ->
  regs (p_syscall_state p2) !! 0%nat = Some r0 -> regs (p_syscall_state p2) !! 1%nat = Some r1 ->
  exists m', sys_instruction args m = Ret (r0, r1, m') /\ resumed m s2 P p2 m'.
Proof.
  intros U E Rt H0 H1. pose proof Rt as [Hc Hp _ _ Hm].
  cbn [sys_instruction machine_processor]. rewrite (interrupt_quiet _ _ _ _ _ _ _ U), E. cbn [mbind outcome_bind].
  rewrite (sys_leave_ok _ _ _ _ Rt). cbn [mbind outcome_bind].
  change (cur (put_proc P ?x (set_kernel ?k s2))) with (cur (set_kernel k s2)).
  change (cur (set_kernel _ s2)) with (cur s2). rewrite Hc. unfold switch_to_userspace.
  rewrite (get_proc_ok _ _ (back p2)) by apply lookup_insert_eq. cbn [mbind outcome_bind].
  change (mem_pages (p_proc_state (back p2))) with (mem_pages (p_syscall_state p2)).
  destruct (mem_pages (p_syscall_state p2)) as [|pg0 pgs] eqn:Em; [done|].
  change (arr_get (pg0 :: pgs) 0) with (Ret pg0). cbn [mbind outcome_bind cpu set_cpu].
  change (p_proc_state (back p2)) with (p_syscall_state p2).
  rewrite (proj2 (arr_get_Ret _ 0 r0)), (proj2 (arr_get_Ret _ 1 r1)) by done. cbn [mbind outcome_bind].
  eexists. split; [reflexivity|]. by split.
Qed.

(** What the program sees of a system call. *)
Lemma sys_instruction_ok args m P p ml own xs r s2 p2 r0 r1 :
  user_at m P p ml own xs ->
  process_syscall log elf_load P (calling (trap args m) P p m) = Ret (r, s2) -> leaves s2 P p2 ml own xs ->
  regs (p_syscall_state p2) !! 0%nat = Some r0 -> regs (p_syscall_state p2) !! 1%nat = Some r1 ->
  exists m', sys_instruction args m = Ret (r0, r1, m') /\ user_at m' P (back p2) ml own xs /\
    v_phys (s_vm (m_sys m')) = v_phys (s_vm s2) /\ sys_ticks (s_kernel (m_sys m')) = sys_ticks (s_kernel s2) /\
    others_same P (s_kernel s2) (s_kernel (m_sys m')).
Proof.
  intros U E L H0 H1.
  destruct (sys_instruction_resumes args m P p ml own xs r s2 p2 r0 r1 U E (leaves_returns _ _ _ _ _ _ L) H0 H1) as (m' & -> & [Ec Ei Eh Ek Ep _ _ _]).
  destruct L as [Hc Hsc Hp Hst Hty H8 Hm Hg K Hl Hn Hs Hfree]. exists m'. split_and!; [done| |done|by rewrite Ek|].
  2: { rewrite Ek. split; [intros v Hv; by apply lookup_insert_ne|done]. }
  split; try done; rewrite ?Ek; simpl.
  - split; try done; unfold cur; rewrite Ek; simpl; [done|done|apply lookup_insert_eq].
  - rewrite Ei. apply U.
  - eapply (kernel_ok_same (set_procs (<[P := back p2]> (k_procs (s_kernel s2))) (s_kernel s2))); try done.
    eapply kernel_ok_put; [done|done|by right].
  - unfold s_semas. by rewrite Ek.
Qed.

(** *** Calls that only change the descriptor of the caller *)

Lemma loaded_raw rs p0 p1 p2 p3 p4 : length rs = 8%nat ->
  let rs' := loaded [(0%nat, p0); (1%nat, p1); (2%nat, p2); (3%nat, p3); (6%nat, p4)] rs in
  rs' !! 0%nat = Some p0 /\ rs' !! 1%nat = Some p1 /\ rs' !! 2%nat = Some p2.
Proof. intros H8. do 8 (destruct rs as [|? rs]; [done|]). by destruct rs. Qed.

Lemma calling_caller args m P p ml own xs r1 :
  user_at m P p ml own xs -> loaded args (regs (cpu m)) !! 1%nat = Some r1 ->
  caller (calling (trap args m) P p m) P (in_syscall (saved (trap args m) p)) r1.
Proof.
  intros U H1. destruct (calling_leaves args m P p ml own xs U) as [L _].
  split; [|apply L|apply L|apply (lv_regs _ _ _ _ _ _ L)|exact H1].
  pose proof (pok_range _ _ _ _ (kok_procs _ _ _ _ (ua_ok _ _ _ _ _ _ U) _ (ua_listed _ _ _ _ _ _ U))). lia.
Qed.

(** The descriptor apart from registers, handler and alarm *)
Record same_shape (q p : proc) : Prop := {
  sh_state : p_state p = p_state q;
  sh_type : p_type p = p_type q;
  sh_blocked : p_sema_blocked p = p_sema_blocked q;
  sh_regs : length (regs (p_syscall_state p)) = length (regs (p_syscall_state q));
  sh_mem : mem_pages (p_syscall_state p) = mem_pages (p_syscall_state q);
  sh_prog : prog_pages (p_syscall_state p) = prog_pages (p_syscall_state q);
}.

(** The memory and the clock as the program sees them, and everybody else *)
Definition unchanged (P : Z) (m m' : machine) : Prop :=
  mem_pages (cpu m') = mem_pages (cpu m) /\ v_phys (s_vm (m_sys m')) = v_phys (s_vm (m_sys m)) /\
  sys_ticks (s_kernel (m_sys m')) = sys_ticks (s_kernel (m_sys m)) /\
  others_same P (s_kernel (m_sys m)) (s_kernel (m_sys m')).

Lemma sys_instruction_simple args m P p ml own xs p2 r0 r1 :
  user_at m P p ml own xs -> let s := calling (trap args m) P p m in
  process_syscall log elf_load P s = Ret (1, put_proc P p2 s) -> same_shape (in_syscall (saved (trap args m) p)) p2 ->
  regs (p_syscall_state p2) !! 0%nat = Some r0 -> regs (p_syscall_state p2) !! 1%nat = Some r1 ->
  exists m', sys_instruction args m = Ret (r0, r1, m') /\ user_at m' P (back p2) ml own xs /\ unchanged P m m'.
Proof.
  intros U s E [S1 S2 S3 S4 S5 S6] H0 H1.
  destruct (calling_leaves args m P p ml own xs U) as (L & _ & Hph & Ht & Ho). fold s in L, Hph, Ht, Ho.
  destruct (sys_instruction_ok args m P p ml own xs 1 (put_proc P p2 s) p2 r0 r1 U E) as (m' & E' & U' & Hph' & Ht' & Ho'); [|done|done|].
  - destruct L as [Hc Hsc Hp Hst Hty H8 Hm Hg K Hl Hn Hs Hfree].
    split; rewrite ?S1, ?S2, ?S3, ?S4, ?S5, ?S6; try done; [apply put_proc_lookup|].
    eapply (kernel_ok_put _ _ _ _ P); [done|done|by right].
  - exists m'. split; [done|]. split; [done|]. split; [|split_and!; [by rewrite Hph'|by rewrite Ht'|]].
    2: { eapply others_same_trans; [exact Ho|]. eapply others_same_trans; [|exact Ho'].
         split; [|done]. intros v Hv. by apply lookup_insert_ne. }
    rewrite (ua_cpu _ _ _ _ _ _ U'), (ua_cpu _ _ _ _ _ _ U). simpl. by rewrite S5.
Qed.

Lemma clockticks_call m P p ml own xs :
  user_at m P p ml own xs ->
  exists m' p', Stub.sys_clockticks m = Ret (u16 (sys_ticks (s_kernel (m_sys m))), m') /\ user_at m' P p' ml own xs /\
    unchanged P m m' /\ p_sighandler p' = p_sighandler p.
Proof.
  intros U. pose proof (rn_regs _ _ _ (ua_run _ _ _ _ _ _ U)) as H8. rewrite <-(ua_cpu _ _ _ _ _ _ U) in H8.
  assert (exists r1, loaded [(0%nat, 0xf)] (regs (cpu m)) !! 1%nat = Some r1) as [r1 H1].
  { apply lookup_lt_is_Some_2. simpl. rewrite length_insert. lia. }
  pose proof (calling_caller _ _ _ _ _ _ _ _ U H1) as C. set (st := trap _ m) in *.
  destruct (calling_leaves [(0%nat, 0xf)] m P p ml own xs U) as (L & _ & Hph & Ht & _). fold st in L, Hph, Ht.
  destruct (sys_instruction_simple [(0%nat, 0xf)] m P p ml own xs
    (with_reg 1 0 (with_reg 0 (sys_ticks (s_kernel (m_sys m))) (in_syscall (saved st p)))) (u16 (sys_ticks (s_kernel (m_sys m)))) 0 U)
    as (m' & E & U' & Un).
  - fold st. unfold process_syscall. rewrite (reg_ok P 0 _ (in_syscall (saved st p)) 0xf); [|apply L|lia|].
    2:{ simpl. destruct (regs (cpu m)); done. }
    cbn [mbind outcome_bind]. rewrite !eqb_ne by done. change (0xf =? SYS_CLOCKTICKS) with true. cbv iota.
    rewrite (sys_clockticks_ok _ _ _ _ C), Ht. done.
  - split; try done. simpl. by rewrite !length_insert.
  - simpl. rewrite list_lookup_insert_ne by done. rewrite list_lookup_insert_eq; [done|]. simpl. rewrite length_insert. lia.
  - simpl. rewrite list_lookup_insert_eq; [done|]. rewrite !length_insert. lia.
  - exists m', (back (with_reg 1 0 (with_reg 0 (sys_ticks (s_kernel (m_sys m))) (in_syscall (saved st p))))). 
    split; [|done]. unfold Stub.sys_clockticks. rewrite E. cbn [mbind outcome_bind]. by rewrite Z.lor_0_r.
Qed.

Definition raw_args (n a b : Z) : list (nat * Z) := [(0%nat, n); (1%nat, a); (2%nat, b); (3%nat, 0); (6%nat, 0)].

(** The caller of [syscall_raw] in the kernel *)
Lemma raw_caller n a b m P p ml own xs :
  user_at m P p ml own xs -> let st := trap (raw_args n a b) m in
  caller (calling st P p m) P (in_syscall (saved st p)) a /\ reg P 0 (calling st P p m) = Ret n /\
  regs (p_syscall_state (in_syscall (saved st p))) !! 0%nat = Some n /\
  regs (p_syscall_state (in_syscall (saved st p))) !! 2%nat = Some b.
Proof.
  intros U st. pose proof (rn_regs _ _ _ (ua_run _ _ _ _ _ _ U)) as H8. rewrite <-(ua_cpu _ _ _ _ _ _ U) in H8.
  destruct (loaded_raw _ n a b 0 0 H8) as (H0 & H1 & H2).
  destruct (calling_leaves (raw_args n a b) m P p ml own xs U) as (L & _).
  split; [by eapply calling_caller|]. split; [|done]. eapply reg_ok; [apply L|lia|exact H0].
Qed.

Lemma syscall_raw_simple n a b m P p ml own xs f r0 :
  user_at m P p ml own xs -> let st := trap (raw_args n a b) m in let q := in_syscall (saved st p) in
  process_syscall log elf_load P (calling st P p m) = Ret (1, put_proc P (f q) (calling st P p m)) ->
  same_shape q (f q) -> regs (p_syscall_state (f q)) !! 0%nat = Some r0 ->
  exists m', Stub.syscall_raw n a b 0 0 m = Ret (r0, m') /\ user_at m' P (back (f q)) ml own xs /\ unchanged P m m'.
Proof.
  intros U st q E S H0. destruct (raw_caller n a b m P p ml own xs U) as (C & _). fold st in C. fold q in C.
  assert (exists r1, regs (p_syscall_state (f q)) !! 1%nat = Some r1) as [r1 H1].
  { apply lookup_lt_is_Some_2. rewrite (sh_regs _ _ S), (ca_regs _ _ _ _ C). lia. }
  destruct (sys_instruction_simple (raw_args n a b) m P p ml own xs (f q) r0 r1 U E S H0 H1) as (m' & E' & U' & Un).
  exists m'. split; [|done]. unfold Stub.syscall_raw. fold (raw_args n a b). by rewrite E'.
Qed.

Lemma sigaction_call handler m P p ml own xs :
  user_at m P p ml own xs -> is_u16 (p_sighandler p) ->
  exists m' p', Stub.sys_sigaction handler m = Ret (u16 (p_sighandler p * 4), m') /\ user_at m' P p' ml own xs /\
    unchanged P m m' /\ p_sighandler p' = handler / 4 /\ p_alarm_ticks p' = p_alarm_ticks p.
Proof.
  intros U Hh. destruct (raw_caller SYS_SIGACTION (handler / 4) 0 m P p ml own xs U) as (C & R0 & _).
  destruct (syscall_raw_simple SYS_SIGACTION (handler / 4) 0 m P p ml own xs
    (fun q => set_p_sighandler (handler / 4) (with_reg 0 (p_sighandler q) q)) (p_sighandler p) U) as (m' & E & U' & Un).
  - unfold process_syscall. rewrite R0. cbn [mbind outcome_bind]. rewrite !eqb_ne by done. rewrite Z.eqb_refl.
    by rewrite (sys_sigaction_ok _ _ _ _ C).
  - split; try done. simpl. by rewrite length_insert.
  - simpl. rewrite list_lookup_insert_eq; [by rewrite u16_small by done|]. pose proof (ca_regs _ _ _ _ C) as H8. simpl in H8. lia.
  - exists m'. eexists. split; [|by eauto]. unfold Stub.sys_sigaction. by rewrite E.
Qed.

Lemma alarmset_call ticks m P p ml own xs :
  user_at m P p ml own xs -> 0 <= ticks < 2 ^ 32 ->
  exists m' p', Stub.sys_alarmset ticks m = Ret m' /\ user_at m' P p' ml own xs /\
    unchanged P m m' /\ p_alarm_ticks p' = alarm_of ticks /\ p_sighandler p' = p_sighandler p.
Proof.
  intros U Ht. set (hi := u16 (Z.shiftr ticks 16)).
  assert (Ehi : ticks = hi * 65536 + u16 ticks).
  { unfold hi. rewrite Z.shiftr_div_pow2 by lia. change (2 ^ 16) with 65536. change (2 ^ 32) with 4294967296 in Ht. unfold u16. zlia. }
  destruct (raw_caller SYS_ALARMSET (u16 ticks) hi m P p ml own xs U) as (C & R0 & H0 & H2).
  destruct (syscall_raw_simple SYS_ALARMSET (u16 ticks) hi m P p ml own xs
    (set_p_alarm_ticks (alarm_of ticks)) SYS_ALARMSET U) as (m' & E & U' & Un).
  - unfold process_syscall. rewrite R0. cbn [mbind outcome_bind]. rewrite !eqb_ne by done. rewrite Z.eqb_refl.
    rewrite (sys_alarmset_ok _ _ _ _ _ C H2) by apply u16_range. cbn [mbind outcome_bind]. do 3 f_equal. f_equal.
    unfold alarm_of. by rewrite <-Ehi.
  - by split.
  - exact H0.
  - exists m'. eexists. split; [|by eauto]. unfold Stub.sys_alarmset. fold hi. by rewrite E.
Qed.

(** *** Waiting for the alarm *)

(** [semaphore_down] has blocked the process on its signals. *)
Definition blocked_for (P : Z) (q : proc) : proc := set_p_sema_blocked (signal_sema_of P) (set_p_state PROC_STATE_SYSCALL_BLOCKED q).

(** While [P] waits for a signal, blocked by [semaphore_down], the clock goes on
    to [T], and then the scheduler chooses who runs. *)
Definition wakes_at (P T : Z) : Prop :=
  forall (s : sys) q, cur s = P -> k_procs (s_kernel s) !! P = Some q ->
    wait (signal_sema_of P) s =
      (k ← sched_pick_next fuel (set_sys_ticks T (set_procs (<[P := blocked_for P q]> (k_procs (s_kernel s))) (s_kernel s)));
       Ret (set_kernel k s)).

(** At time [T] no process but [P] can run or has an alarm due. *)
Definition alone (P T : Z) (xs : list (Z * Z)) (k : kernel St) : Prop :=
  forall v, v ∈ xs.*2 -> v <> P -> asleep (set_sys_ticks T k) v.

Lemma alone_same P T xs k k' : alone P T xs k -> others_same P k k' -> alone P T xs k'.
Proof.
  intros A [Hp Hs] v Hv Hne. destruct (A v Hv Hne) as [He Ha]. unfold asleep, eligible in *. simpl in *.
  rewrite Hp, Hs by done. done.
Qed.

(** Waiting in [sys_sigwait] is the same as calling it when the signal is there. *)
Lemma sys_sigwait_waits P s s' q q' c :
  cur s = P -> k_procs (s_kernel s) !! P = Some q -> cur s' = P -> k_procs (s_kernel s') !! P = Some q' ->
  p_sighandler q = 0 -> p_sighandler q' = 0 -> await (signal_sema_of P) s = Ret s' ->
  s_semas s' !! signal_sema_of P = Some c -> 0 < c ->
  Sysd.sys_sigwait P s = Sysd.sys_sigwait P s'.
Proof.
  intros Hc Hq Hc' Hq' Hh Hh' Ha Hs Hpos. unfold Sysd.sys_sigwait.
  rewrite Hc, Hc', (get_proc_ok _ _ _ Hq), (get_proc_ok _ _ _ Hq'). cbn [mbind outcome_bind].
  rewrite Hh, Hh'. cbn [Z.eqb negb andb].
  rewrite (s_sema_down_await _ _ _ _ Ha Hs Hpos), (s_sema_down_now _ _ _ Hs Hpos). done.
Qed.

Lemma kernel_ok_moved (k : kernel St) ml own xs n :
  kernel_ok k ml own xs -> n = 0 \/ n ∈ xs.*1 -> kernel_ok (set_last_element n k) ml own xs.
Proof. intros [R L V Pr _] Hn. split; try done. intros v Hv. by destruct (Pr v Hv). Qed.

(** The alarm arrives while the process waits. *)
Lemma await_alarm P T s q ml own xs :
  leaves s P q ml own xs -> wakes_at P T -> alarm_due (set_sys_ticks T (s_kernel s)) q = true ->
  alone P T xs (s_kernel s) -> (length xs <= fuel)%nat ->
  match await (signal_sema_of P) s with
  | Ret s' => exists g nd n, (g ∉ own) /\ nd <> 0 /\ (n = 0 \/ n ∈ xs.*1) /\ v_phys (s_vm s') = v_phys (s_vm s) /\
      ls_rep (s_store s') (<[signal_queue_of P := [(nd, g)]]> ml) ({[g]} ∪ own) /\
      k_signals (s_kernel s') !! g = Some (Signal SIG_TYPE_ALARM (u16 (p_alarm_ticks q))) /\
      s_kernel s' = set_store (s_store s') (set_signals (k_signals (s_kernel s')) (set_sys_ticks T (set_last_element n
        (set_semas (<[signal_sema_of P := 1]> (s_semas s)) (set_procs (<[P := set_p_alarm_ticks 0 q]> (k_procs (s_kernel s))) (s_kernel s))))))
  | Panic msg => msg = HEAP_FULL
  | _ => False
  end.
Proof.
  intros L W Hdue A Hfuel. pose proof L as [Hc Hsc Hp Hst Hty H8 Hm Hg K Hl Hn Hs Hfree].
  unfold await. rewrite (deref_Some _ _ _ Hs). cbn [mbind outcome_bind Z.eqb].
  rewrite (W s q Hc Hp). set (k0 := set_sys_ticks T _).
  assert (K0 : kernel_ok k0 ml own xs).
  { pose proof K as [R Ll V Pr La]. split; try done. intros v Hv. destruct (Pr v Hv) as [H1 H2 (p & Ep & Hb) H4 H5].
    split; try done. simpl. destruct (decide (P = v)) as [<-|]; [rewrite lookup_insert_eq|rewrite lookup_insert_ne by done; eauto].
    eexists. split; [done|]. right. exact (mk_is_Some _ _ Hs). }
  assert (W0 : alarm_wait k0 ml P (blocked_for P q)) by (split; try done; apply lookup_insert_eq).
  assert (A0 : forall v, v ∈ xs.*2 -> v <> P -> asleep k0 v).
  { apply (alone_same P T xs _ _ A). split; [|done]. intros v Hv. by apply lookup_insert_ne. }
  pose proof (sched_pick_alarm k0 ml own xs P (blocked_for P q) fuel K0 W0 Hl A0 Hfuel) as G. unfold alarm_sent in G.
  destruct (sched_pick_next fuel k0) as [k'| | | |]; try done. cbn [mbind outcome_bind].
  destruct G as (n & g & nd & st & Hgo & Hnd & Ek & K'). exists g, nd, n. split_and!; try done.
  - pose proof (kok_last _ _ _ _ K') as La. by rewrite Ek in La.
  - apply K'.
  - unfold s_kernel. simpl. rewrite Ek. apply lookup_insert_eq.
  - change (s_kernel (set_kernel k' s)) with k'. change (s_store (set_kernel k' s)) with (k_store k'). rewrite Ek.
    assert (Ew : woken (set_p_alarm_ticks 0 (blocked_for P q)) = set_p_alarm_ticks 0 q).
    { unfold woken, blocked_for. destruct q. simpl in Hst, Hfree. subst. reflexivity. }
    unfold alarm_woken. rewrite Ew. unfold k0, cur, s_semas in *. destruct (s_kernel s). simpl in *. by rewrite insert_insert_eq, Hc.
Qed.

(** A variable of 4 bytes of the program, inside a page *)
Record variable_at (a : Z) (table : list Z) (phys : gmap Z (list Z)) : Prop := {
  va_range : is_u16 a;
  va_inside : VIRT_LOCAL_PART a <= 4092;
  va_there : exists page pg, table !! Z.to_nat (VIRT_PAGE_PART a) = Some page /\ phys !! page = Some pg /\ length pg = 4096%nat;
}.

(** [sys_sigwait] in the kernel: the alarm is taken from the queue and written
    to the program. *)
Lemma sigwait_served P T s q a ml own xs :
  leaves s P q ml own xs -> caller s P q a -> p_sighandler q = 0 -> int_no_proc_modify (s_kernel s) = false ->
  (0 < length (mem_pages (p_proc_state q)))%nat -> variable_at a (mem_pages (p_syscall_state q)) (v_phys (s_vm s)) ->
  wakes_at P T -> alarm_due (set_sys_ticks T (s_kernel s)) q = true -> alone P T xs (s_kernel s) -> (length xs <= fuel)%nat ->
  match Sysd.sys_sigwait P s with
  | Ret s' => exists page, let q' := with_reg 0 0 (page0 page (set_p_alarm_ticks 0 q)) in
      leaves s' P q' ml own xs /\ sys_ticks (s_kernel s') = T /\
      user_bytes (mem_pages (p_syscall_state q)) (v_phys (s_vm s')) a 4 =
        Some (bytes_of [SIG_TYPE_ALARM; u16 (p_alarm_ticks q)])
  | Panic msg => msg = HEAP_FULL
  | _ => False
  end.
Proof using Type log elf_load run_function.
  intros L C Hh Hi Htab [Ha Hin (page & pg & Et & Ep & Hpg)] W Hdue A Hfuel.
  pose proof (await_alarm P T s q ml own xs L W Hdue A Hfuel) as Haw.
  destruct L as [Hc Hsc Hp Hst Hty H8 Hm Hg K Hl Hn Hs Hfree].
  destruct (await (signal_sema_of P) s) as [s1| | | |] eqn:Ea; try done.
  2:{ unfold Sysd.sys_sigwait. rewrite Hc, (get_proc_ok _ _ _ Hp). cbn [mbind outcome_bind]. rewrite Hh. cbn [Z.eqb negb andb].
      unfold s_sema_down. by rewrite Ea. }
  destruct Haw as (g & n & le & Hgo & Hn0 & Hle & Hph & R1 & Hsg & Ek1).
  set (q1 := set_p_alarm_ticks 0 q) in *.
  assert (Epr : k_procs (s_kernel s1) = <[P := q1]> (k_procs (s_kernel s))) by (by rewrite Ek1).
  assert (Hse : s_semas s1 = <[signal_sema_of P := 1]> (s_semas s)) by (unfold s_semas at 1; by rewrite Ek1).
  assert (Hc1 : cur s1 = P) by (unfold cur; by rewrite Ek1).
  assert (Hsc1 : scheduling_enabled (s_kernel s1) = scheduling_enabled (s_kernel s)) by (by rewrite Ek1).
  assert (Hl1 : last_element (s_kernel s1) = le) by (by rewrite Ek1).
  assert (Ht1 : sys_ticks (s_kernel s1) = T) by (by rewrite Ek1).
  assert (Hi1 : int_no_proc_modify (s_kernel s1) = int_no_proc_modify (s_kernel s)) by (by rewrite Ek1).
  assert (Hq1 : k_procs (s_kernel s1) !! P = Some q1) by (rewrite Epr; apply lookup_insert_eq).
  assert (Hs1 : s_semas s1 !! signal_sema_of P = Some 1) by (rewrite Hse; apply lookup_insert_eq).
  rewrite (sys_sigwait_waits P s s1 q q1 1) by (done || lia).
  assert (C1 : caller s1 P q1 a) by (by split; [apply C|done|done|apply C|apply C]).
  set (bs := bytes_of [SIG_TYPE_ALARM; u16 (p_alarm_ticks q)]).
  assert (Hbs : length bs = 4%nat) by (unfold bs; by rewrite length_bytes_of).
  assert (Hw : user_write (mem_pages (p_syscall_state q1)) (v_phys (s_vm s1)) a bs
    = Some (<[page := splice pg (VIRT_LOCAL_PART a) bs]> (v_phys (s_vm s)))).
  { rewrite Hph. apply user_write_in_page; try done. lia. }
  assert (T1 : in_thread s1 q1) by (split; [by rewrite Hsc1|by rewrite Hi1|done]).
  pose proof (sys_sigwait_oldest s1 P q1 a _ _ n g [] (Signal SIG_TYPE_ALARM (u16 (p_alarm_ticks q))) 1 _ C1 T1 Ha R1
    (lookup_insert_eq _ _ _) Hn0 ltac:(set_solver) Hsg Hs1 ltac:(lia) Hw) as Hold.
  change (p_sighandler q1) with (p_sighandler q) in Hold. rewrite Hh in Hold. cbn [Z.eqb negb andb] in Hold.
  destruct Hold as (s2 & page' & -> & Hph2 & R2 & _ & Hse2 & Hpr2 & (Hcu2 & Hsc2 & Hl2 & Ht2 & _)).
  rewrite insert_insert_eq, insert_id in R2 by done. replace (({[g]} ∪ own) ∖ {[g]}) with own in R2 by set_solver.
  exists page'. cbv zeta. split; [|split].
  - split; try done; simpl; [by unfold cur; rewrite Hcu2|by rewrite Hsc2, Hsc1|rewrite Hpr2; apply lookup_insert_eq|by rewrite length_insert| |].
    + apply (kernel_ok_frame (set_last_element le (s_kernel s))); try done; [by apply kernel_ok_moved| | |by rewrite Hl2, Hl1].
      * intros l Hsl. fold (s_semas s2). rewrite Hse2, Hse. by do 2 apply is_Some_insert.
      * intros v pv Hv. rewrite Hpr2, Epr. destruct (decide (P = v)) as [<-|].
        -- rewrite lookup_insert_eq. eexists. split; [done|]. cbn [k_procs set_last_element] in Hv. rewrite Hp in Hv. by injection Hv as <-.
        -- rewrite !lookup_insert_ne by done. eauto.
    + rewrite Hse2. apply lookup_insert_eq.
  - by rewrite Ht2, Ht1.
  - rewrite Hph2, <-Hbs. apply user_bytes_splice; done || lia.
Qed.

(** [sys_sigwait] as the program sees it *)
Lemma sigwait_call a T m P p ml own xs :
  user_at m P p ml own xs -> p_sighandler p = 0 -> variable_at a (mem_pages (cpu m)) (v_phys (s_vm (m_sys m))) ->
  wakes_at P T -> alarm_due (set_sys_ticks T (s_kernel (m_sys m))) p = true ->
  alone P T xs (s_kernel (m_sys m)) -> (length xs <= fuel)%nat ->
  match Stub.sys_sigwait a m with
  | Ret (r, m') => exists p', r = 0 /\ user_at m' P p' ml own xs /\ sys_ticks (s_kernel (m_sys m')) = T /\
      p_sighandler p' = 0 /\ load a 4 m' = Ret (bytes_of [SIG_TYPE_ALARM; u16 (p_alarm_ticks p)])
  | Panic msg => msg = HEAP_FULL
  | _ => False
  end.
Proof using Type log elf_load run_function.
  intros U Hh Hv W Hdue A Hfuel. destruct (raw_caller SYS_SIGWAIT a 0 m P p ml own xs U) as (C & R0 & _).
  destruct (calling_leaves (raw_args SYS_SIGWAIT a 0) m P p ml own xs U) as (L & Hi & Hph & Ht & Ho).
  set (st := trap _ m) in *. set (q := in_syscall (saved st p)) in *. set (s := calling st P p m) in *.
  assert (Em : mem_pages (p_syscall_state q) = mem_pages (cpu m)) by (simpl; by rewrite (ua_cpu _ _ _ _ _ _ U)).
  pose proof (sigwait_served P T s q a ml own xs L C) as Hw. rewrite Em, Hph in Hw.
  change (alarm_due (set_sys_ticks T (s_kernel s)) q) with (alarm_due (set_sys_ticks T (s_kernel (m_sys m))) p) in Hw.
  specialize (Hw Hh Hi ltac:(simpl; lia) Hv W Hdue (alone_same _ _ _ _ _ A Ho) Hfuel).
  unfold Stub.sys_sigwait, Stub.syscall_int, Stub.syscall_raw. fold (raw_args SYS_SIGWAIT a 0).
  assert (Ep : process_syscall log elf_load P s = (s ← Sysd.sys_sigwait P s; Ret (1, s))).
  { unfold process_syscall. rewrite R0. cbn [mbind outcome_bind]. rewrite !eqb_ne by done. by rewrite Z.eqb_refl. }
  destruct (Sysd.sys_sigwait P s) as [s2| | | |] eqn:Es; try done.
  2:{ cbn [sys_instruction machine_processor]. rewrite (interrupt_quiet _ _ _ _ _ _ _ U). fold st s. by rewrite Ep. }
  destruct Hw as (page & L2 & Ht2 & Hb). set (q2 := with_reg 0 0 _) in *.
  assert (exists r1, regs (p_syscall_state q2) !! 1%nat = Some r1) as [r1 H1].
  { apply lookup_lt_is_Some_2. rewrite (lv_regs _ _ _ _ _ _ L2). lia. }
  assert (H0 : regs (p_syscall_state q2) !! 0%nat = Some 0).
  { unfold q2. simpl. apply list_lookup_insert_eq. pose proof (ca_regs _ _ _ _ C) as H8. simpl in H8. lia. }
  destruct (sys_instruction_ok (raw_args SYS_SIGWAIT a 0) m P p ml own xs 1 s2 q2 0 r1 U Ep L2 H0 H1) as (m' & -> & U' & Hph' & Ht' & _).
  cbn [mbind outcome_bind]. exists (back q2). split_and!; [done|done|by rewrite Ht'|exact Hh|].
  cbn [load machine_processor]. rewrite Hph', (ua_cpu _ _ _ _ _ _ U').
  change (mem_pages (p_proc_state (back q2))) with (mem_pages (p_syscall_state q)). by rewrite Em, Hb.
Qed.

Lemma sleep_ends m P p ml own xs a ticks T :
  user_at m P p ml own xs -> 0 <= p_sighandler p < 16384 -> variable_at a (mem_pages (cpu m)) (v_phys (s_vm (m_sys m))) ->
  wakes_at P T -> alone P T xs (s_kernel (m_sys m)) -> (length xs <= fuel)%nat ->
  let end_ := u32 (u16 (sys_ticks (s_kernel (m_sys m))) + ticks) in
  end_ <> 0 -> u16 end_ <= u16 T ->
  match Stub.sleep 1 a ticks m with
  | Ret m' => exists p', user_at m' P p' ml own xs /\ sys_ticks (s_kernel (m_sys m')) = T /\
      p_sighandler p' = p_sighandler p /\ p_alarm_ticks p' = 0
  | Panic msg => msg = HEAP_FULL
  | _ => False
  end.
Proof using Type log elf_load run_function.
  intros U Hh Hv W A Hfuel end_ Hne Hle.
  destruct (clockticks_call m P p ml own xs U) as (m1 & p1 & E1 & U1 & (Hm1 & Hp1 & Ht1 & Ho1) & Hh1).
  destruct (sigaction_call 0 m1 P p1 ml own xs U1) as (m2 & p2 & E2 & U2 & (Hm2 & Hp2 & Ht2 & Ho2) & Hh2 & _); [lia|].
  assert (Hr : 0 <= end_ < 2 ^ 32) by (unfold end_, u32; change (2 ^ 32) with 4294967296; zlia).
  destruct (alarmset_call end_ m2 P p2 ml own xs U2 Hr) as (m3 & p3 & E3 & U3 & (Hm3 & Hp3 & Ht3 & Ho3) & Ha3 & Hh3).
  assert (Hdue : alarm_due (set_sys_ticks T (s_kernel (m_sys m3))) p3 = true).
  { unfold alarm_due. rewrite Ha3, u16_alarm_of. simpl. rewrite (proj2 (Z.leb_le _ _)) by done. rewrite andb_true_r, negb_true_iff.
    apply Z.eqb_neq. unfold alarm_of. destruct (_ <? _); [done|]. pose proof (u16_range end_). lia. }
  assert (Hv3 : variable_at a (mem_pages (cpu m3)) (v_phys (s_vm (m_sys m3)))) by (by rewrite Hm3, Hm2, Hm1, Hp3, Hp2, Hp1).
  pose proof (alone_same _ _ _ _ _ A (others_same_trans _ _ _ _ (others_same_trans _ _ _ _ Ho1 Ho2) Ho3)) as A3.
  pose proof (sigwait_call a T m3 P p3 ml own xs U3 ltac:(by rewrite Hh3) Hv3 W Hdue A3 Hfuel) as Hw.
  unfold Stub.sleep. rewrite E1. cbn [mbind outcome_bind]. rewrite E2. cbn [mbind outcome_bind]. fold end_.
  rewrite E3. cbn [mbind outcome_bind Stub.sleep_loop].
  destruct (Stub.sys_sigwait a m3) as [[r m4]| | | |]; try done. cbn [mbind outcome_bind].
  destruct Hw as (p4 & _ & U4 & Ht4 & Hh4 & Hld). rewrite Hld. cbn [mbind outcome_bind].
  rewrite words_of_bytes by (repeat constructor; unfold SIG_TYPE_ALARM; (lia || apply u16_range)).
  rewrite Ha3, u16_alarm_of. cbn [mbind outcome_bind arr_get].
  change (arr_get [SIG_TYPE_ALARM; u16 end_] 0) with (Ret 2). change (arr_get [SIG_TYPE_ALARM; u16 end_] 1) with (Ret (u16 end_)).
  cbn [mbind outcome_bind Z.eqb Pos.eqb negb orb andb]. rewrite Z.eqb_refl. cbn [negb mbind outcome_bind].
  destruct (alarmset_call 0 m4 P p4 ml own xs U4 ltac:(lia)) as (m5 & p5 & -> & U5 & (_ & _ & Ht5 & _) & Ha5 & Hh5).
  cbn [mbind outcome_bind Z.eqb Pos.eqb negb andb].
  destruct (sigaction_call (u16 (p_sighandler p1 * 4)) m5 P p5 ml own xs U5) as (m6 & p6 & -> & U6 & (_ & _ & Ht6 & _) & Hh6 & Ha6).
  { rewrite Hh5, Hh4. lia. }
  cbn [mbind outcome_bind]. exists p6. split; [done|]. rewrite Ht6, Ht5, Ht4, Hh6, Ha6, Ha5, Hh1. split_and!; [done| |done].
  rewrite u16_small by lia. zlia.
Qed.

(** C7. [sleep] on the kernel, through six system calls and the scheduler.  Let
    [end_] be the low half of the clock plus the ticks asked for.  If the clock
    has gone on to a time [T] whose low half has reached the low half of [end_]
    when the scheduler is next called ([wakes_at]: while the process waits,
    blocked by [semaphore_down], nothing else happens), [sched_pick_next] sends
    the alarm and picks the process, and [sleep] returns at [T] with its alarm
    taken from the queue and no other left, the handler of the caller installed
    again and no alarm set; the only other outcome is the panic of [kmalloc] on a
    full heap.  Since only the low halves are compared, a sleep across a multiple
    of 65536 ticks is over at once.  This holds when no other process can run or
    has an alarm due at [T], [end_] is not 0 (0 means no alarm), the local
    variable of [sleep] lies inside one page, and the installed handler is 0 or an
    instruction address below 16384, which [sys_sigaction] multiplies by 4. *)
Theorem sleep_until_alarm m P p ml own xs a ticks T :
  user_at m P p ml own xs -> 0 <= p_sighandler p < 16384 -> variable_at a (mem_pages (cpu m)) (v_phys (s_vm (m_sys m))) ->
  wakes_at P T -> alone P T xs (s_kernel (m_sys m)) -> (length xs <= fuel)%nat ->
  let end_ := u32 (u16 (sys_ticks (s_kernel (m_sys m))) + ticks) in
  end_ <> 0 -> u16 end_ <= u16 T ->
  match Stub.sleep 1 a ticks m with
  | Ret m' => exists p', user_at m' P p' ml own xs /\ sys_ticks (s_kernel (m_sys m')) = T /\
      p_sighandler p' = p_sighandler p /\ p_alarm_ticks p' = 0
  | Panic msg => msg = HEAP_FULL
  | _ => False
  end.
Proof using Type log elf_load run_function. apply sleep_ends. Qed.

(** A sleep of less than 65536 ticks across a multiple of 65536 does not sleep. *)
Lemma sleep_across_wrap m P p ml own xs a ticks :
  user_at m P p ml own xs -> 0 <= p_sighandler p < 16384 -> variable_at a (mem_pages (cpu m)) (v_phys (s_vm (m_sys m))) ->
  let now := sys_ticks (s_kernel (m_sys m)) in
  wakes_at P now -> alone P now xs (s_kernel (m_sys m)) -> (length xs <= fuel)%nat -> 0 <= ticks < 65536 -> 65536 <= u16 now + ticks ->
  match Stub.sleep 1 a ticks m with
  | Ret m' => sys_ticks (s_kernel (m_sys m')) = now
  | Panic msg => msg = HEAP_FULL
  | _ => False
  end.
Proof using Type log elf_load run_function.
  intros U Hh Hv now W A Hfuel Ht Hw. pose proof (u16_range now) as Hr.
  pose proof (sleep_ends m P p ml own xs a ticks now U Hh Hv W A Hfuel) as S. cbv zeta in S. fold now in S.
  assert (E : u32 (u16 now + ticks) = u16 now + ticks) by (unfold u32; zlia). rewrite E in S.
  specialize (S ltac:(lia) ltac:(unfold u16 in *; zlia)).
  destruct (Stub.sleep 1 a ticks m) as [m'| | | |]; try done. by destruct S as (p' & _ & Et & _).
Qed.

End OnKernel.

(** ** Witness: a user process that sleeps from tick 41 to tick 51 *)

Section Demo.
Abbreviation demo_machine := (@Interrupt.machine (store (list Z)) unit).
Instance demo_uninit : Uninit := fun _ _ => 0.
Instance demo_sign : CharSign := true.
Instance demo_order : ByteOrder := false.
Instance demo_regs : @VfsRegs (store (list Z)) (drivers unit) := fun _ => None.
Instance demo_callbacks : @Callbacks (store (list Z)) (drivers unit) := fun _ _ _ => Fault.
Instance demo_irqc : IrqController := Z.ldiff.
(** A process that waits is blocked; at tick 51 the scheduler is called. *)
Instance demo_others : Others (store (list Z)) (drivers unit) := fun l s =>
  q ← deref (k_procs (s_kernel s)) (cur s);
  k ← sched_pick_next 2 (set_sys_ticks 51 (set_procs (<[cur s := blocked_for (cur s) q]> (k_procs (s_kernel s))) (s_kernel s)));
  Ret (set_kernel k s).
Let demo_log (_ : list Z) (s : sys (store (list Z)) (drivers unit)) := Ret s.
Let demo_elf (_ : Z) (s : sys (store (list Z)) (drivers unit)) := Ret (0, s).
Let demo_function (_ : Z) (_ : list Z) (m : demo_machine) := Ret m.

(** The second thread is blocked for ever. *)
Definition parked (p : proc) : proc := set_p_sema_blocked 0 (set_p_state PROC_STATE_BLOCKED p).

Definition sleeper (k : kernel (store (list Z))) (n1 p1 p2 : Z) : demo_machine :=
  Machine (Sys (Vm (demo_kernel n1 p1 (set_procs (alter parked p2 (k_procs k)) k)) {[0x40 := replicate 4096 0]} 0)
      ∅ (VfsState ∅ ∅ ∅ 0 0 0) (MqState ∅ ∅ 0 0) demo_drivers)
    false 0 3 0 (Keyboard 0 0 false) true sig_state.

Definition returns_zero (o : outcome Z) : bool := match o with Ret x => x =? 0 | _ => false end.

(** No process of the demonstration has a signal. *)
Lemma demo_no_signal k ml own xs n P :
  two_threads_kernel = Ret k -> kernel_ok (set_last_element n k) ml own xs -> P ∈ xs.*2 ->
  ml !! signal_queue_of P = Some [] /\ k_semas k !! signal_sema_of P = Some 0.
Proof.
  intros E K HP. destruct (kok_procs _ _ _ _ K P HP) as [Hr _ (p & Hp & _) [q Hq] _].
  pose proof (kok_rep _ _ _ _ K) as R. change (k_store (set_last_element n k)) with (k_store k) in R.
  assert (B : match two_threads_kernel with
    | Ret k => negb (returns_zero (m ← ls_val (k_store k) 0; Ret 0)) && forallb (fun q => (q.1 <? 0) ||
        returns_zero (ls_first (k_store k) (signal_queue_of q.1)) && bool_decide (k_semas k !! signal_sema_of q.1 = Some 0)) (map_to_list (k_procs k))
    | _ => false end = true) by (vm_compute; reflexivity).
  rewrite E in B. apply andb_true_iff in B as [B0 B1]. rewrite forallb_forall in B1.
  specialize (B1 (P, p)). rewrite <-list_elem_of_In in B1. specialize (B1 (proj2 (elem_of_map_to_list _ _ _) Hp)).
  apply orb_true_iff in B1 as [B1|B1]; [simpl in B1; lia|].
  apply andb_true_iff in B1 as [Hf Hs%bool_decide_eq_true]. cbn [fst] in Hf, Hs.
  split; [|done]. destruct q as [|[n' g] q]; [done|]. rewrite (ls_first_ok _ _ _ _ _ R Hq) in Hf.
  simpl in Hf. apply Z.eqb_eq in Hf as ->. destruct (ls_node_ok _ _ _ _ [] _ _ _ R Hq) as [_ Hv].
  by rewrite Hv in B0.
Qed.

Lemma demo_user_at : exists k n1 p1 p2 ml own xs, let m := sleeper k n1 p1 p2 in
  user_at m p1 demo_user ml own xs /\ alone p1 51 xs (s_kernel (m_sys m)) /\ length xs = 2%nat /\
  forall f, on_two_threads f = true -> f k n1 p1 p2 = true.
Proof.
  destruct two_threads_ok as (k & n1 & p1 & n2 & p2 & ml & own & E & K & Hne & Hpr).
  exists k, n1, p1, p2, ml, own, [(n1, p1); (n2, p2)]. cbv zeta.
  destruct (demo_no_signal k ml own [(n1, p1); (n2, p2)] n1 p1 E K) as [Hq Hs]; [left|].
  assert (forall f, on_two_threads f = true -> f k n1 p1 p2 = true) as Eval.
  { intros f Ran. by apply (two_threads_eval _ _ _ _ _ _ _ _ E K) in Ran. }
  clear E. destruct (kernel_ok_upd_proc _ _ _ _ K p2 parked) as (pr2 & Hp2 & _ & K2); [right; left|by left|].
  simpl in Hp2. assert (Ea : alter parked p2 (k_procs k) = <[p2 := parked pr2]> (k_procs k)).
  { apply map_eq. intros i. destruct (decide (p2 = i)) as [<-|].
    - by rewrite lookup_alter_eq, Hp2, lookup_insert_eq.
    - by rewrite lookup_alter_ne, lookup_insert_ne. }
  destruct (scan_proc _ _ _ _ K2 n1 p1) as [pr1 Hp1]; [left|].
  assert (Hr : 0 < p1 < 65536) by (eapply pok_range, (kok_procs _ _ _ _ K); left).
  split_and!; [|intros v Hv Hvp|done|exact Eval].
  - split; try done; [split; try done; apply lookup_insert_eq| |left|].
    + simpl. rewrite Ea. eapply kernel_ok_same; [exact (kernel_ok_put _ _ _ _ p1 pr1 demo_user K2 Hp1 (or_introl eq_refl))|done|done| |done].
      intros l. apply is_Some_insert.
    + unfold s_semas. simpl. rewrite lookup_insert_ne; [done|]. unfold signal_sema_of, member, KBD_DATA_AVAILABLE. lia.
  - assert (v = p2) as ->. { apply elem_of_cons in Hv as [->|Hv]; [done|]. by apply list_elem_of_singleton in Hv. }
    destruct (Hpr p2 pr2) as [_ Hal]; [right; left|done|].
    unfold asleep, eligible. simpl. rewrite Ea, lookup_insert_ne, lookup_insert_eq by done. split; [done|].
    intros q [= <-] _. unfold alarm_due. simpl. by rewrite Hal.
Qed.

Lemma sleep_until_alarm_witness :
  exists (m m' : demo_machine) P p' ml own xs,
    Stub.sleep (H := machine_processor demo_log demo_elf 2 demo_function) 1 0xff00 10 m = Ret m' /\
    user_at m' P p' ml own xs /\ sys_ticks (s_kernel (m_sys m)) = 41 /\ sys_ticks (s_kernel (m_sys m')) = 51 /\
    p_sighandler p' = 0 /\ p_alarm_ticks p' = 0.
Proof.
  destruct demo_user_at as (k & n1 & p1 & p2 & ml & own & xs & U & A & Hlen & Eval).
  assert (on_two_threads (fun k n1 p1 p2 => returned (Stub.sleep (H := machine_processor demo_log demo_elf 2 demo_function) 1 0xff00 10
    (sleeper k n1 p1 p2))) = true) as Ran by (vm_compute; reflexivity).
  apply Eval in Ran. clear Eval.
  assert (Hv : variable_at 0xff00 (mem_pages (cpu (sleeper k n1 p1 p2))) (v_phys (s_vm (m_sys (sleeper k n1 p1 p2)))))
    by (split; [lia|vm_compute; discriminate|exists 0x40, (replicate 4096 0); split; [reflexivity|split; [apply lookup_singleton_eq|reflexivity]]]).
  assert (W : wakes_at 2 p1 51) by (intros s q <- Hq; unfold wait, demo_others; by rewrite (deref_Some _ _ _ Hq)).
  pose proof (sleep_until_alarm demo_log demo_elf 2 demo_function (sleeper k n1 p1 p2) p1 demo_user ml own xs 0xff00 10 51 U
    ltac:(simpl; lia) Hv W A ltac:(lia) ltac:(vm_compute; discriminate) ltac:(vm_compute; discriminate)) as S.
  exists (sleeper k n1 p1 p2).
  destruct (Stub.sleep 1 0xff00 10 (sleeper k n1 p1 p2)) as [m'| | | |]; try discriminate Ran.
  destruct S as (p' & U' & Ht & Hh & Ha). exists m', p1, p', ml, own, xs. split_and!; done.
Defined.
End Demo.
