(* ===== verification/Terminal.v ===== *)
(** * From a system call to the screen

    [write] on a file of the terminal passes through the C library (sys.c), the
    interrupt and the system call (interrupt.c, sysd.c), the copy from user
    memory (virtual.c), the blocking request (vfs.c), the driver and its writing
    thread (tty.c) and the screen (vga.c).  This file discharges the contract of a
    driver for the terminal and composes the theorems of those parts. *)

From S2P Require Import Prelude Interfaces Kmalloc KList Proc Sync CString Kernel Sched Virtual Sys Signals Mq Vfs Request Tmpfs Ringbuff Keyboard Tty Blockq Device Sd Console Rootfs Sysd Interrupt Usys.

Section Terminal.
Context {St B : Type} `{ListStore St} {junk : Uninit} {others : Others St (drivers B)} {sign : CharSign}
  {order : ByteOrder} {regs_ : @VfsRegs St (drivers B)} {callbacks : @Callbacks St (drivers B)} {irqc : IrqController}.
Abbreviation sys := (sys St (drivers B)).
Abbreviation machine := (@Interrupt.machine St B).
Set Default Proof Using "Type".

(** ** The driver *)

(** While somebody waits for a request, the writing thread of the terminal has
    its turn. *)
Definition writer_runs : Prop := forall l n (s : sys),
  0 < l -> s_semas s !! TTY_WRITE_SEMA = Some n -> 0 < n -> wait l s = tty_write_turn s.

(** No write request waits, and nobody is inside [tty_submit_req]. *)
Record tty_idle (s : sys) (m : gmap Z (list (Z * Z))) : Prop := {
  ti_list : m !! TTY_WRITE_LIST = Some [];
  ti_sema : s_semas s !! TTY_WRITE_SEMA = Some 0;
  ti_lock : s_semas s !! TTY_INSERT_LOCK = Some 1;
}.

Record tty_pre (r : vfs_async_req_t) (s : sys) : Prop := {
  tp_type : r_type r = VFS_ASYNC_TYPE_WRITE;
  tp_size : is_u16 (r_size r);
  tp_buf : exists buf, s_bufs s !! buf_base (r_vbuff r) = Some buf /\ 0 <= buf_off (r_vbuff r) /\
    buf_off (r_vbuff r) + Z.min (r_size r) 128 <= zlen buf;
}.

Definition tty_serves (r : vfs_async_req_t) (F : gset Z) (s : sys) (m : gmap Z (list (Z * Z))) (x : Z) (s' : sys)
    (m' : gmap Z (list (Z * Z))) : Prop :=
  m' = m /\ exists buf, s_bufs s !! buf_base (r_vbuff r) = Some buf /\ x = zlen (printed r buf) /\
    only_screen (Tty.tty_puts (printed r buf) (d_tty (s_dev s))) s s'.

Lemma only_screen_frame t (s1 s1' s2 s2' : sys) : only_screen t s1 s2 -> same_dev s1' s1 -> same_dev s2 s2' -> only_screen t s1' s2'.
Proof.
  intros [V P N R Ph] [V1 _ P1 N1 R1 Ph1] [V2 _ P2 N2 R2 Ph2]. split; [|congruence..| |congruence].
  - rewrite V2, V. unfold view in *. injection V1 as Eb Ei Ed. simpl. by rewrite Eb, Ei, Ed.
  - unfold same_run in *. naive_solver congruence.
Qed.

(** A write request joins the list. *)
Lemma tty_submit_write_ok s m own rq r :
  tty_idle s m -> ls_rep (s_store s) m own -> reqs (s_vfs s) !! rq = Some r -> r_type r = VFS_ASYNC_TYPE_WRITE ->
  match tty_submit_req rq s with
  | Ret (rc, s1) => exists st node, rc = 0 /\ s1 = s_set_semas (<[TTY_WRITE_SEMA := 1]> (s_semas s)) (s_set_store st s) /\
      ls_rep st (<[TTY_WRITE_LIST := [(node, rq)]]> m) own
  | Panic msg => msg = HEAP_FULL
  | _ => False
  end.
Proof.
  intros [Hl Hw Hk] L Hrq Ht. unfold tty_submit_req.
  rewrite (s_sema_down_now _ _ _ Hk) by lia. cbn [mbind outcome_bind]. change (i16 (1 - 1)) with 0. set (s1 := s_set_semas _ s).
  change (s_vfs s1) with (s_vfs s). rewrite (deref_Some _ _ _ Hrq). cbn [mbind outcome_bind]. rewrite Ht.
  cbn [Z.eqb VFS_ASYNC_TYPE_READ VFS_ASYNC_TYPE_WRITE Pos.eqb].
  change (s_store s1) with (s_store s). pose proof (ls_append_safe _ _ _ TTY_WRITE_LIST rq L ltac:(by eexists)) as Hsafe.
  destruct (ls_append (s_store s) TTY_WRITE_LIST rq) as [st| | | |] eqn:Ea; try done. cbn [mbind outcome_bind].
  destruct (ls_append_ok _ _ _ _ _ _ _ L Hl Ea) as (node & _ & L1).
  rewrite (s_sema_up_ok _ _ 0) by (unfold s1, s_semas; simpl; by rewrite lookup_insert_ne). cbn [mbind outcome_bind].
  rewrite (s_sema_up_ok _ TTY_INSERT_LOCK 0) by (unfold s1, s_semas; simpl; by rewrite lookup_insert_ne, lookup_insert_eq by done).
  cbn [mbind outcome_bind]. exists st, node. split_and!; [done| |done].
  assert (E : <[TTY_INSERT_LOCK := 1]> (<[TTY_WRITE_SEMA := 1]> (<[TTY_INSERT_LOCK := 0]> (s_semas s))) = <[TTY_WRITE_SEMA := 1]> (s_semas s)).
  { rewrite (insert_insert_ne _ TTY_INSERT_LOCK TTY_WRITE_SEMA), insert_insert_eq by done. f_equal. by apply insert_id. }
  rewrite <- E. reflexivity.
Qed.

(** Somebody who waits for a write request finds it served. *)
Lemma tty_await_write s m own st node rq r :
  writer_runs -> tty_idle s m -> ls_rep st (<[TTY_WRITE_LIST := [(node, rq)]]> m) own ->
  waited rq r 0 s -> tty_pre r s ->
  exists s2 buf, await (r_fin_sema r) (s_set_semas (<[TTY_WRITE_SEMA := 1]> (s_semas s)) (s_set_store st s)) = Ret s2 /\
    tty_idle s2 m /\ ls_rep (s_store s2) m own /\ s_semas s2 !! r_fin_sema r = Some 1 /\
    s_bufs s !! buf_base (r_vbuff r) = Some buf /\
    reqs (s_vfs s2) !! rq = Some (set_res (zlen (printed r buf)) (set_size (zlen (printed r buf)) r)) /\
    only_screen (Tty.tty_puts (printed r buf) (d_tty (s_dev s))) s s2.
Proof.
  intros W [Hl Hw Hk] L [Hrq Hcb Hfs Hc] [Ht Hu (buf & Hb & Ho & Hroom)]. set (s1 := s_set_semas _ _).
  assert (Hw1 : s_semas s1 !! TTY_WRITE_SEMA = Some 1) by apply lookup_insert_eq.
  assert (Hc1 : s_semas s1 !! r_fin_sema r = Some 0).
  { unfold s1, s_semas. simpl. rewrite lookup_insert_ne; [done|]. unfold TTY_WRITE_SEMA. lia. }
  destruct (tty_write_turn_ok s1 _ own node rq [] 1 r 0 buf L) as (s2 & E2 & L2 & S2 & R2 & _ & _ & O2); try done.
  { apply lookup_insert_eq. }
  rewrite insert_insert_eq, insert_id in L2 by done.
  exists s2, buf. split_and!; try done.
  - unfold await. rewrite (deref_Some _ _ _ Hc1). cbn [mbind outcome_bind Z.eqb]. by rewrite (W _ 1).
  - split; [done|..]; rewrite S2, lookup_insert_ne by (unfold TTY_WRITE_SEMA, TTY_INSERT_LOCK; lia).
    + apply lookup_insert_eq.
    + rewrite lookup_insert_ne by done. unfold s1, s_semas. simpl. by rewrite lookup_insert_ne.
  - rewrite S2. apply lookup_insert_eq.
  - by destruct O2; split.
Qed.

(** The terminal keeps the contract of a driver. *)
#[export] Program Instance tty_driver (W : writer_runs) : Driver tty_submit_req := {|
  drv_inv := fun s m own => tty_idle s m /\ own = ∅;
  drv_pre := fun r s _ _ => tty_pre r s;
  drv_serves := tty_serves;
  drv_refuses := fun _ _ _ _ => False;
|}.
Next Obligation.
  intros W s s' m own [[Hl Hw Hk] ->] [V G _ _ _ _]. split; [|done]. by split; rewrite ?G.
Qed.
Next Obligation.
  intros W r s s' m F F' [Ht Hu Hb] [V _ _ _ _ _] _. unfold view in V. injection V as Eb Ei Ed. split; [done..|]. by rewrite Eb.
Qed.
Next Obligation. done. Qed.
Next Obligation.
  intros W r F F' s1 s1' m1 x s2 s2' m2 (-> & buf & Hb & -> & O) S1 S2 _. split; [done|]. exists buf.
  assert (view s1 = view s1') as V by apply S1. unfold view in V. injection V as Eb Ei Ed.
  rewrite <- Eb, <- Ed. split_and!; [done..|]. by eapply only_screen_frame.
Qed.
Next Obligation.
  intros W s m own F rq r [I ->] P R Ho Hr _ _ _ Hl Hc Hcb _.
  pose proof (tty_submit_write_ok s m _ rq r I R Hr (tp_type _ _ P)) as X.
  destruct (tty_submit_req rq s) as [[rc s1]| | | |]; try done. destruct X as (st & node & -> & -> & L). simpl.
  destruct (tty_await_write s m _ st node rq r W I L) as (s2 & buf & -> & I2 & L2 & C2 & Hb & R2 & O2); [by split; try lia|done|].
  exists m, ∅, (set_res (zlen (printed r buf)) (set_size (zlen (printed r buf)) r)). split_and!; try done. split; [done|]. by exists buf.
Qed.

(** *** Reading *)

(** While somebody waits for a request, there is input and nobody is inside
    [tty_submit_req], the reading thread has its turn. *)
Definition reader_runs : Prop := forall l n (s : sys),
  0 < l -> s_semas s !! TTY_READ_SEMA = Some n -> 0 < n -> s_semas s !! TTY_INSERT_LOCK = Some 1 -> ringbuff_length (Tty.read_rb (d_tty (s_dev s))) <> 0 -> wait l s = tty_read_turn 1 s.

(** No read request waits, and nobody is inside [tty_submit_req]. *)
Record tty_reading (s : sys) (m : gmap Z (list (Z * Z))) (q : list Z) : Prop := {
  tr_list : m !! TTY_READ_LIST = Some [];
  tr_lock : s_semas s !! TTY_INSERT_LOCK = Some 1;
  tr_sema : s_semas s !! TTY_READ_SEMA = Some 0;
  tr_ring : repr 255 q (Tty.read_rb (d_tty (s_dev s)));
  tr_count : is_u16 (d_read_queue (s_dev s));
}.

Lemma tty_reading_queue s m own q : tty_reading s m q -> ls_rep (s_store s) m own -> tty_queue s m own [] q.
Proof. intros [Hl Hk Hr Hq Hc] L. split; try done; [constructor|simpl; lia]. Qed.

Lemma tty_queue_reading s m own q : tty_queue s m own [] q -> tty_reading s m q.
Proof. by intros [_ Hl Hk Hr Hq _ Hc _]. Qed.

Record read_pre (r : vfs_async_req_t) (s : sys) : Prop := {
  rp_type : r_type r = VFS_ASYNC_TYPE_READ;
  rp_pid : r_pid r = 0;
  rp_size : is_u16 (r_size r);
  rp_count : d_read_queue (s_dev s) + r_size r < 65536;
  rp_blocks : wants_wouldblock r = false;
  rp_input : ringbuff_length (Tty.read_rb (d_tty (s_dev s))) <> 0;
  rp_buf : exists buf, s_bufs s !! buf_base (r_vbuff r) = Some buf /\ 0 <= buf_off (r_vbuff r) /\
    buf_off (r_vbuff r) + Z.min (r_size r) 255 <= zlen buf;
}.

(** What a read leaves: [data] in the buffer of the caller and out of the queue *)
Definition tty_reads (r : vfs_async_req_t) (F : gset Z) (s : sys) (m : gmap Z (list (Z * Z))) (x : Z) (s' : sys)
    (m' : gmap Z (list (Z * Z))) : Prop :=
  m' = m /\ exists q buf, repr 255 q (Tty.read_rb (d_tty (s_dev s))) /\ x = zlen (taken r q) /\
    s_bufs s !! buf_base (r_vbuff r) = Some buf /\
    s_bufs s' = <[buf_base (r_vbuff r) := splice buf (buf_off (r_vbuff r)) (taken r q)]> (s_bufs s) /\
    repr 255 (drop (length (taken r q)) q) (Tty.read_rb (d_tty (s_dev s'))) /\ only_input s s'.

Lemma only_input_trans (s1 s2 s3 : sys) : only_input s1 s2 -> only_input s2 s3 -> only_input s1 s3.
Proof.
  intros [? ? ? ? ? [rb1 E1] ? ?] [? ? ? ? ? [rb2 E2] ? ?]. split; try congruence.
  - unfold same_run in *. naive_solver congruence.
  - exists rb2. by rewrite E2, E1.
Qed.

Lemma same_dev_input (s s' : sys) : same_dev s s' -> only_input s s'.
Proof.
  intros [V G P N R Ph]. unfold view in V. injection V as Eb Ei Ed. split; try (congruence || done).
  - rewrite Ed. eexists. apply with_input_same.
  - by apply G.
Qed.

Lemma taken_room r q (buf : list Z) : buf_off (r_vbuff r) + Z.min (r_size r) 255 <= zlen buf -> is_u16 (r_size r) ->
  buf_off (r_vbuff r) + zlen (taken r q) <= zlen buf.
Proof. intros Hb Hu. unfold taken. rewrite length_take. lia. Qed.

(** A read request is served when it waits. *)
Lemma tty_read_now s m own q rq r : reader_runs -> tty_reading s m q -> ls_rep (s_store s) m own -> read_pre r s ->
  waited rq r 0 s ->
  match tty_submit_req rq s with
  | Ret (rc, s1) => rc = 0 /\ exists s2 r', await (r_fin_sema r) s1 = Ret s2 /\
      tty_reading s2 m (drop (length (taken r q)) q) /\ ls_rep (s_store s2) m own /\ s_semas s2 !! r_fin_sema r = Some 1 /\
      reqs (s_vfs s2) !! rq = Some r' /\ tty_reads r ∅ s m (r_res r') s2 m
  | Panic msg => msg = HEAP_FULL
  | _ => False
  end.
Proof.
  intros W I L [Ht Hpid Hu Hc Hb Hin (buf & Hbuf & Ho & Hroom)] [Hrq Hcb Hfs Hcnt].
  pose proof (tr_ring _ _ _ I) as Hq. pose proof (ring_length _ _ _ Hq) as Hlen.
  assert (Hne : q <> []) by (intros ->; done).
  pose proof (tty_submit_read_ok s m own [] q rq r (tty_reading_queue _ _ _ _ I L) Hrq Ht Hu ltac:(simpl; set_solver) Hc ltac:(simpl; lia)) as X.
  rewrite Hb in X. cbn [andb] in X. destruct (tty_submit_req rq s) as [[rc s1]| | | |]; try done.
  destruct X as (-> & Ev & Eb & O1 & Hpos & node & Q1). split; [done|]. cbn [app] in Q1.
  assert (W1 : waited rq r 0 s1) by (split; rewrite ?Ev, ?Hpos; done || lia).
  assert (Hr1 : room 0 (r_vbuff r) (taken r q) s1).
  { exists buf. rewrite Eb. pose proof (taken_room r q buf Hroom Hu). split_and!; done || lia. }
  destruct (tty_read_turn_ok 0 s1 _ own node rq [] q r 0 Q1 W1 ltac:(simpl; lia) (or_introl Hne) Hr1) as (s2 & E2 & Q2 & R2 & S2 & B2 & O2).
  rewrite insert_insert_eq, (insert_id m TTY_READ_LIST []) in Q2 by apply I.
  exists s2, (set_res (zlen (taken r q)) (set_size (Z.min (r_size r) 255) r)). split_and!.
  - unfold await. rewrite (deref_Some _ _ _ (wt_count _ _ _ _ W1)). cbn [mbind outcome_bind Z.eqb].
    rewrite (W _ 1); [done|done|exact (tq_sema _ _ _ _ _ Q1)|lia|apply Q1|]. rewrite (ring_length _ _ _ (tq_ring _ _ _ _ _ Q1)), <-Hlen. done.
  - by eapply tty_queue_reading.
  - apply Q2.
  - exact S2.
  - rewrite R2. apply lookup_insert_eq.
  - split; [done|]. exists q, buf. split_and!; try done.
    + rewrite B2. unfold stored. rewrite Z.eqb_refl, Eb, Hbuf. done.
    + apply Q2.
    + by eapply only_input_trans.
Qed.

(** The terminal keeps the contract of a driver for reads, too. *)
#[export] Program Instance tty_reader (W : reader_runs) : Driver tty_submit_req := {|
  drv_inv := fun s m own => (exists q, tty_reading s m q) /\ own = ∅;
  drv_pre := fun r s _ _ => read_pre r s;
  drv_serves := tty_reads;
  drv_refuses := fun _ _ _ _ => False;
|}.
Next Obligation.
  intros W s s' m own [[q [Hl Hk Hr Hq Hc]] ->] [V G _ _ _ _]. unfold view in V. injection V as Eb Ei Ed.
  split; [|done]. exists q. by split; rewrite ?G, ?Ed.
Qed.
Next Obligation.
  intros W r s s' m F F' [Ht Hpid Hu Hc Hb Hin Hbuf] [V _ _ _ _ _] _. unfold view in V. injection V as Eb Ei Ed.
  by split; rewrite ?Eb, ?Ed.
Qed.
Next Obligation. done. Qed.
Next Obligation.
  intros W r F F' s1 s1' m1 x s2 s2' m2 (-> & q & buf & Hq & -> & Hb & Hb2 & Hq2 & O) S1 S2 _. split; [done|]. exists q, buf.
  pose proof (sd_view _ _ S1) as V. pose proof (sd_view _ _ S2) as V2. unfold view in V, V2. injection V as Eb Ei Ed. injection V2 as Eb2 Ei2 Ed2.
  rewrite Eb2, Ed2, <-Eb, <-Ed. split_and!; try done. eapply only_input_trans; [|by apply same_dev_input].
  eapply only_input_trans; [by apply same_dev_input|done].
Qed.
Next Obligation.
  intros W s m own F rq r [[q I] ->] P R Ho Hr _ _ _ Hl Hc Hcb _. rewrite union_empty_l_L in R.
  pose proof (tty_read_now s m F q rq r W I R P ltac:(by split; try lia)) as X.
  destruct (tty_submit_req rq s) as [[rc s1]| | | |]; try done.
  destruct X as (-> & s2 & r' & -> & I2 & L2 & C2 & R2 & S2). simpl. exists m, ∅, r'. rewrite union_empty_l_L. split_and!; try done.
  by eexists.
Qed.

(** ** The call *)

Lemma kernel_ptr kb : 0 < kb < 0xF000 -> buf_base kb = kb /\ buf_off kb = 0.
Proof. intros Hkb. unfold buf_base, buf_off. rewrite Z.mod_small, Z.div_small by lia. lia. Qed.

(** A blocking write from a buffer of the kernel. *)
Lemma tty_request file s f kb bs m own :
  writer_runs -> file_at file s = Ret f -> f_inode f <> 0 -> inode_reg (f_inode f) s = Ret tty_vfs_reg ->
  0 < kb < 0xF000 -> s_bufs s !! kb = Some bs -> is_u16 (zlen bs) -> tty_idle s m -> ls_rep (s_store s) m own ->
  match vfs_write_blocking file 0 kb (zlen bs) s with
  | Ret (x, s') => x = Z.min (zlen bs) 128 /\ tty_idle s' m /\ ls_rep (s_store s') m own /\
      only_screen (Tty.tty_puts (take 128 bs) (d_tty (s_dev s))) s s'
  | Panic msg => msg = HEAP_FULL
  | _ => False
  end.
Proof.
  intros W Hf Hi Hreg Hkb Hb Hu I L.
  destruct (kernel_ptr kb Hkb) as [Hbase Hoff].
  assert (Hpr : forall id lock old fl, printed (Req id file VFS_ASYNC_TYPE_WRITE 0 kb (zlen bs) 0 lock old fl) bs = take 128 bs).
  { intros. unfold printed. simpl. rewrite Hoff, drop_0. unfold TTY_SUBMIT_BUFF.
    destruct (decide (zlen bs <= 128)); [rewrite !take_ge by lia|replace (Z.to_nat _) with 128%nat by lia]; done. }
  assert (Hpre : forall id lock old fl, tty_pre (Req id file VFS_ASYNC_TYPE_WRITE 0 kb (zlen bs) 0 lock old fl) s).
  { intros. split; [done..|]. simpl. rewrite Hbase, Hoff. exists bs. split_and!; done || lia. }
  pose proof (request_blocking_ok VFS_ASYNC_TYPE_WRITE file 0 kb (zlen bs) s f tty_vfs_reg tty_submit_req (Driver0 := tty_driver W) m ∅ own
    Hf Hi Hreg eq_refl (or_intror eq_refl) (fun id lock old => Hpre id lock old _) (conj I eq_refl) ltac:(by rewrite union_empty_l_L) (disjoint_empty_l _)) as X.
  unfold vfs_write_blocking. destruct (request_blocking _ _ _ _ _ _) as [[x s']| | | |]; try exact X.
  destruct X as (m' & own' & [I' ->] & L' & _ & id & lock & old & [(_ & _ & [])|(-> & buf & Hb' & -> & O)]).
  simpl in Hb'. rewrite Hbase in Hb'. simplify_eq. rewrite Hpr in *. rewrite union_empty_l_L in L'.
  split_and!; try done. rewrite length_take. lia.
Qed.

Lemma repr_contents cap q q' rb : repr cap q rb -> repr cap q' rb -> q = q'.
Proof. by intros (_ & <- & _) (_ & <- & _). Qed.

(** A blocking read into a buffer of the kernel *)
Lemma tty_read_request file s f kb buf q m own : reader_runs ->
  file_at file s = Ret f -> f_inode f <> 0 -> inode_reg (f_inode f) s = Ret tty_vfs_reg -> request_flags f = 0 ->
  0 < kb < 0xF000 -> s_bufs s !! kb = Some buf -> d_read_queue (s_dev s) + zlen buf < 65536 -> tty_reading s m q -> q <> [] ->
  ls_rep (s_store s) m own ->
  match vfs_read_blocking file 0 kb (zlen buf) s with
  | Ret (x, s') => let data := take (Z.to_nat (Z.min (zlen buf) 255)) q in x = zlen data /\
      tty_reading s' m (drop (length data) q) /\ ls_rep (s_store s') m own /\
      s_bufs s' = <[kb := splice buf 0 data]> (s_bufs s) /\ only_input s s'
  | Panic msg => msg = HEAP_FULL
  | _ => False
  end.
Proof.
  intros W Hf Hi Hreg Hfl Hkb Hb Hc I Hne L. destruct (kernel_ptr kb Hkb) as [Hbase Hoff]. pose proof (tr_count _ _ _ I) as Hcu.
  assert (Hpre : forall id lock old, read_pre (Req id file VFS_ASYNC_TYPE_READ 0 kb (zlen buf) 0 lock old (request_flags f)) s).
  { intros. rewrite Hfl. split; simpl; try done; [lia| |].
    - rewrite (ring_length _ _ _ (tr_ring _ _ _ I)). destruct q; [done|simpl; lia].
    - rewrite Hbase, Hoff. exists buf. split_and!; done || lia. }
  pose proof (request_blocking_ok VFS_ASYNC_TYPE_READ file 0 kb (zlen buf) s f tty_vfs_reg tty_submit_req (Driver0 := tty_reader W) m ∅ own
    Hf Hi Hreg eq_refl (or_introl eq_refl) Hpre (conj (ex_intro _ q I) eq_refl) ltac:(by rewrite union_empty_l_L) (disjoint_empty_l _)) as X.
  unfold vfs_read_blocking. destruct (request_blocking _ _ _ _ _ _) as [[x s']| | | |]; try exact X.
  destruct X as (m' & own' & [[q' I'] ->] & L' & _ & id & lock & old & [(_ & _ & [])|(-> & q0 & buf' & Hq & -> & Hb' & Hb2 & Hq2 & O)]).
  rewrite (repr_contents _ _ _ _ Hq (tr_ring _ _ _ I)) in *. unfold taken in *. simpl in Hb', Hb2, Hq2. rewrite Hbase, Hoff in *.
  rewrite Hb in Hb'. injection Hb' as <-. rewrite union_empty_l_L in L'. simpl. split_and!; try done.
  by rewrite <-(repr_contents _ _ _ _ Hq2 (tr_ring _ _ _ I')) in I'.
Qed.

Lemma from_user_ok (s : sys) P p r1 u n bs kb buf :
  caller s P p r1 -> in_thread s p -> is_u16 u -> (0 < n)%nat ->
  user_bytes (mem_pages (p_syscall_state p)) (v_phys (s_vm s)) u n = Some bs ->
  s_bufs s !! kb = Some buf -> zlen buf = Z.of_nat n ->
  exists page, from_user kb u (Z.of_nat n) s = Ret (set_bufs (<[kb := bs]> (s_bufs s)) (set_vm (mapped page (s_vm s)) s)).
Proof.
  intros C [Hs Hi Ht] Hu Hn Hb Hk Hl. unfold from_user.
  rewrite (ca_cur _ _ _ _ C), (get_proc_ok _ _ _ (ca_proc _ _ _ _ C)). cbn [mbind outcome_bind].
  rewrite (deref_Some _ _ _ Hk). cbn [mbind outcome_bind].
  assert (Hc : current_ok (v_kernel (s_vm s))).
  { intros _. exists p. split; [|done]. destruct C as [_ <- Hp _ _]. exact Hp. }
  destruct (user_bytes_lookup _ _ _ _ _ Hu Hb) as [Hbs _].
  rewrite (memcpy_from_thread _ buf 0 u n bs) by (done || lia). cbn [mbind outcome_bind]. eexists. do 3 f_equal.
  unfold splice. simpl. rewrite drop_ge by lia. apply app_nil_r.
Qed.

Lemma caller_same (s s' : sys) P p r1 : caller s P p r1 -> k_procs (s_kernel s') = k_procs (s_kernel s) -> cur s' = cur s -> caller s' P p r1.
Proof. intros [] E Ec. split; congruence. Qed.

(** The bytes [bs] of user memory are in a buffer of their own. *)
Record copied_in (s : sys) (P : Z) (p : proc) (bs : list Z) (m : gmap Z (list (Z * Z))) (own : gset Z) (kb page : Z) (s' : sys) : Prop := {
  ci_ptr : 0 < kb < 0xF000;
  ci_fresh : kb ∉ own;
  ci_bufs : s_bufs s' = <[kb := bs]> (s_bufs s);
  ci_rep : ls_rep (s_store s') m ({[kb]} ∪ own);
  ci_kernel : s_kernel s' = set_procs (<[P := page0 page p]> (k_procs (s_kernel s))) (set_store (s_store s') (s_kernel s));
  ci_phys : v_phys (s_vm s') = v_phys (s_vm s);
  ci_vfs : s_vfs s' = s_vfs s;
  ci_dev : s_dev s' = s_dev s;
}.

(** A buffer of the kernel for a call *)
Lemma kernel_buffer_ok (s : sys) n m own : 0 < n < 65536 -> ls_rep (s_store s) m own ->
  match kmalloc_bytes n s with
  | Ret (kb, s') => 0 < kb < 0xF000 /\ (kb ∉ own) /\ zlen (fresh_bytes kb n) = n /\ exists st,
      s' = set_bufs (<[kb := fresh_bytes kb n]> (s_bufs s)) (s_set_store st s) /\ ls_rep st m ({[kb]} ∪ own)
  | Panic msg => msg = HEAP_FULL
  | _ => False
  end.
Proof.
  intros Hn L. unfold kmalloc_bytes. pose proof (s_kmalloc_ok s m own n L) as A. pose proof (s_kmalloc_below s m own n) as A'.
  destruct (s_kmalloc n s) as [[kb s0]| | | |]; try done. cbn [mbind outcome_bind].
  destruct A as (Hkb & Hfresh & L0 & E0). specialize (A' kb s0 L eq_refl). split_and!; [lia|lia|done| |].
  - by rewrite length_fresh_bytes by lia.
  - exists (s_store s0). split; [|done]. by rewrite E0 at 1 2.
Qed.

Lemma copy_in_ok (s : sys) P p r1 u n bs m own :
  caller s P p r1 -> in_thread s p -> is_u16 u -> 0 < Z.of_nat n < 65536 ->
  user_bytes (mem_pages (p_syscall_state p)) (v_phys (s_vm s)) u n = Some bs -> ls_rep (s_store s) m own ->
  match ('(kb, s) ← kmalloc_bytes (Z.of_nat n) s; s ← from_user kb u (Z.of_nat n) s; Ret (kb, s)) with
  | Ret (kb, s') => exists page, copied_in s P p bs m own kb page s'
  | Panic msg => msg = HEAP_FULL
  | _ => False
  end.
Proof.
  intros C T Hu Hn Hb L. pose proof (kernel_buffer_ok s (Z.of_nat n) m own Hn L) as A.
  destruct (kmalloc_bytes (Z.of_nat n) s) as [[kb s1']| | | |]; try done. cbn [mbind outcome_bind].
  destruct A as (Hkb & Hfresh & Hlen & st0 & -> & L0).
  set (s1 := set_bufs _ _). assert (C1 : caller s1 P p r1) by (by apply (caller_same s)).
  assert (T1 : in_thread s1 p) by (destruct T; by split).
  destruct (from_user_ok s1 P p r1 u n bs kb (fresh_bytes kb (Z.of_nat n)) C1 T1 Hu) as [page E1]; [lia|done|apply lookup_insert_eq|done|].
  rewrite E1. cbn [mbind outcome_bind]. set (s2 := set_bufs _ (set_vm _ s1)). exists page.
  assert (K2 : s_kernel s2 = set_procs (<[P := page0 page p]> (k_procs (s_kernel s))) (s_kernel s1)).
  { destruct C, T1. by apply (mapped_procs page s1 P p (v_phys (s_vm s))). }
  split; [lia|done| |unfold s_store; by rewrite K2|unfold s_store; by rewrite K2|done..].
  unfold s2, s1. simpl. by rewrite insert_insert_eq.
Qed.

(** The open file the caller names is one of the terminal, and its other
    arguments are the address and the size of a buffer. *)
Record tty_args (s : sys) (p : proc) (r1 : Z) (f : proc_file) (u : Z) (n : nat) : Prop := {
  ta_fd : Fd.validate_fd (i16 r1) = true;
  ta_file : p_open_files p !! Z.to_nat (i16 r1) = Some f;
  ta_inode : f_inode f <> 0;
  ta_reg : inode_reg (f_inode f) s = Ret tty_vfs_reg;
  ta_r2 : regs (p_syscall_state p) !! 2%nat = Some u;
  ta_r3 : regs (p_syscall_state p) !! 3%nat = Some (Z.of_nat n);
  ta_ptr : is_u16 u;
  ta_len : 0 < Z.of_nat n < 65536;
}.

Lemma tty_args_file s P p r1 f u n : caller s P p r1 -> tty_args s p r1 f u n -> 0 <= i16 r1 /\ file_at (file_ptr P (i16 r1)) s = Ret f.
Proof.
  intros C A. assert (0 <= i16 r1) by (destruct A as [Hv]; unfold Fd.validate_fd in Hv; lia). split; [done|].
  eapply file_at_ok; [done|done|apply A].
Qed.

(** What the call leaves: the bytes on the screen and their number in register 0. *)
Record tty_printed (s : sys) (P : Z) (p : proc) (bs : list Z) (s' : sys) : Prop := {
  pr_dev : s_dev s' = s_dev (put_tty (Tty.tty_puts (take 128 bs) (d_tty (s_dev s))) s);
  pr_procs : exists page, k_procs (s_kernel s') = <[P := with_reg 0 (Z.min (zlen bs) 128) (page0 page p)]> (k_procs (s_kernel s));
  pr_run : same_run (s_kernel s) (s_kernel s');
  pr_phys : v_phys (s_vm s') = v_phys (s_vm s);
  pr_inodes : inodes (s_vfs s') = inodes (s_vfs s);
  pr_vnodes : vnodes (s_vfs s') = vnodes (s_vfs s);
}.

Lemma sys_write_tty (s : sys) P p r1 f u n bs m own :
  writer_runs -> caller s P p r1 -> in_thread s p -> tty_args s p r1 f u n ->
  user_bytes (mem_pages (p_syscall_state p)) (v_phys (s_vm s)) u n = Some bs -> tty_idle s m -> ls_rep (s_store s) m own ->
  match sys_write P s with
  | Ret s' => exists kb, (kb ∉ own) /\ s_bufs s' = delete kb (s_bufs s) /\ tty_idle s' m /\ ls_rep (s_store s') m own /\
      tty_printed s P p bs s'
  | Panic msg => msg = HEAP_FULL
  | _ => False
  end.
Proof.
  intros W C T A Hb I L. destruct (tty_args_file _ _ _ _ _ _ _ C A) as [Hfd Hfile]. destruct A as [Hv Hf Hi Hreg H2 H3 Hu Hn]. unfold sys_write. rewrite (caller_reg1 _ _ _ _ C). cbn [mbind outcome_bind].
  rewrite Hv. cbn [negb]. pose proof C as [HP Hcur Hp Hregs _]. rewrite Hcur.
  rewrite Hfile. cbn [mbind outcome_bind]. rewrite Hreg. cbn [mbind outcome_bind].
  rewrite (reg_ok P 2 s p u), (reg_ok P 3 s p (Z.of_nat n)) by (done || lia). cbn [mbind outcome_bind].
  cbn [reg_flags tty_vfs_reg]. change (negb (Z.land 1 VFS_REG_FLAG_KERNEL_BUFFER_ONLY =? 0)) with true. cbn [mbind outcome_bind].
  pose proof (copy_in_ok s P p r1 u n bs m own C T Hu Hn Hb L) as X. destruct (kmalloc_bytes _ s ≫= _) as [[kb s2]| | | |]; try exact X.
  cbn [mbind outcome_bind]. destruct X as [page [Hkb Hfresh B2 L2 K2 H2' F2 D2]].
  assert (Hp2 : k_procs (s_kernel s2) !! P = Some (page0 page p)) by (rewrite K2; apply lookup_insert_eq).
  assert (cur s2 = P) as -> by (unfold cur; by rewrite K2).
  rewrite (get_proc_ok _ _ _ Hp2). cbn [mbind outcome_bind]. rewrite eqb_ne by lia. cbn [negb].
  destruct (user_bytes_lookup _ _ _ _ _ Hu Hb) as [Hbs _].
  assert (Hf2 : file_at (file_ptr P (i16 r1)) s2 = Ret f).
  { unfold file_at. rewrite file_ptr_proc, file_ptr_index by done. rewrite (deref_Some _ _ _ Hp2). by apply arr_get_Ret. }
  assert (I2 : tty_idle s2 m) by (destruct I; split; unfold s_semas; by rewrite ?K2).
  pose proof (tty_request (file_ptr P (i16 r1)) s2 f kb bs m ({[kb]} ∪ own) W Hf2 Hi) as X. unfold inode_reg in X. rewrite F2, B2 in X.
  specialize (X Hreg Hkb (lookup_insert_eq _ _ _) ltac:(lia) I2 L2).
  rewrite Hbs in X. destruct (vfs_write_blocking _ _ _ _ _) as [[x s3]| | | |]; try exact X. destruct X as (-> & I3 & L3 & [V3 P3 N3 R3 H3']).
  cbn [mbind outcome_bind]. unfold kfree_bytes. destruct (s_kfree_ok s3 m _ kb L3 ltac:(clear; set_solver)) as (st & -> & L4). cbn [mbind outcome_bind].
  set (s4 := set_bufs _ _). rewrite K2 in P3, R3.
  assert (Hp4 : k_procs (s_kernel s4) !! P = Some (page0 page p)).
  { change (k_procs (s_kernel s3) !! P = Some (page0 page p)). rewrite P3. apply lookup_insert_eq. }
  rewrite (set_reg_ok P 0 _ s4 _ Hp4) by (simpl; lia).
  unfold view in V3. injection V3 as Eb Ei Ed. exists kb. split_and!; [done|..].
  - simpl. rewrite Eb. simpl. by rewrite B2, delete_insert_eq.
  - destruct I3; by split.
  - replace own with (({[kb]} ∪ own) ∖ {[kb]}); [exact L4|]. clear -Hfresh. apply set_eq. set_solver.
  - split; simpl; try congruence; [exists page; rewrite P3; simpl; by rewrite insert_insert_eq, Hbs|exact R3].
Qed.

(** What a read leaves: the oldest bytes of the input in the memory of the caller,
    and their number in register 0. *)
Record tty_got (s : sys) (P : Z) (p : proc) (data : list Z) (phys' : gmap Z (list Z)) (s' : sys) : Prop := {
  gt_procs : exists page, k_procs (s_kernel s') = <[P := with_reg 0 (zlen data) (page0 page p)]> (k_procs (s_kernel s));
  gt_run : same_run (s_kernel s) (s_kernel s');
  gt_phys : v_phys (s_vm s') = phys';
  gt_screen : Tty.screen_of (d_tty (s_dev s')) = Tty.screen_of (d_tty (s_dev s));
  gt_inodes : inodes (s_vfs s') = inodes (s_vfs s);
  gt_vnodes : vnodes (s_vfs s') = vnodes (s_vfs s);
}.

Lemma splice_data (buf data : list Z) : (length data <= length buf)%nat -> exists rest, splice buf 0 data = data ++ rest.
Proof. intros _. eexists. reflexivity. Qed.

(** The way from the request to the caller *)
Lemma read_back_ok (s3 : sys) P p r1 u kb data rest m own phys' : caller s3 P p r1 -> in_thread s3 p -> is_u16 u -> data <> [] -> zlen data <= 255 ->
  user_write (mem_pages (p_syscall_state p)) (v_phys (s_vm s3)) u data = Some phys' ->
  s_bufs s3 !! kb = Some (data ++ rest) -> (kb ∉ own) -> ls_rep (s_store s3) m ({[kb]} ∪ own) ->
  exists s4 page, (s ← (s ← (if 0 <? zlen data then kb' ← deref (s_bufs s3) kb; to_user u kb' (zlen data) s3 else Ret s3); kfree_bytes kb s);
      set_reg P 0 (zlen data) s) = Ret s4 /\
    k_procs (s_kernel s4) = <[P := with_reg 0 (zlen data) (page0 page p)]> (k_procs (s_kernel s3)) /\ ls_rep (s_store s4) m own /\
    s_bufs s4 = delete kb (s_bufs s3) /\ s_semas s4 = s_semas s3 /\ s_vfs s4 = s_vfs s3 /\ s_dev s4 = s_dev s3 /\ v_phys (s_vm s4) = phys' /\
    same_run (s_kernel s3) (s_kernel s4).
Proof.
  intros C T Hu Hne Hl Hw Hb Hfresh L. assert (Hpos : 0 < zlen data) by (destruct data; [done|simpl; lia]).
  rewrite (proj2 (Z.ltb_lt _ _) Hpos), (deref_Some _ _ _ Hb). cbn [mbind outcome_bind].
  destruct (to_user_prefix_ok s3 P p r1 u data rest phys' C T Hu Hne Hw) as [page E]. rewrite E. cbn [mbind outcome_bind].
  set (s4 := set_vm _ s3). pose proof C as [HP Hcur Hp Hregs _]. destruct T as [Hs Hi Ht].
  assert (K4 : s_kernel s4 = set_procs (<[P := page0 page p]> (k_procs (s_kernel s3))) (s_kernel s3)).
  { by apply (mapped_procs page s3 P p phys'). }
  assert (L4 : ls_rep (s_store s4) m ({[kb]} ∪ own)) by (unfold s_store; by rewrite K4).
  unfold kfree_bytes. destruct (s_kfree_ok s4 m _ kb L4 ltac:(clear; set_solver)) as (st & -> & L5). cbn [mbind outcome_bind].
  set (s5 := set_bufs _ _).
  assert (Hp5 : k_procs (s_kernel s5) !! P = Some (page0 page p)).
  { change (k_procs (s_kernel s4) !! P = Some (page0 page p)). rewrite K4. apply lookup_insert_eq. }
  rewrite (set_reg_ok P 0 _ s5 _ Hp5) by (simpl; lia). eexists _, page. split; [done|]. simpl. rewrite K4. simpl.
  split_and!; try done.
  - by rewrite insert_insert_eq.
  - replace own with (({[kb]} ∪ own) ∖ {[kb]}); [exact L5|]. clear -Hfresh. apply set_eq. set_solver.
  - unfold s_semas. simpl. by rewrite K4.
  - change (same_run (s_kernel s3) (set_procs (k_procs (s_kernel s5)) (s_kernel s4))). by rewrite K4.
Qed.

Lemma sys_read_tty (s : sys) P p r1 f u n q phys' m own :
  let data := take (Z.to_nat (Z.min (Z.of_nat n) 255)) q in
  reader_runs -> caller s P p r1 -> in_thread s p -> tty_args s p r1 f u n -> request_flags f = 0 ->
  d_read_queue (s_dev s) + Z.of_nat n < 65536 -> tty_reading s m q -> q <> [] -> ls_rep (s_store s) m own ->
  user_write (mem_pages (p_syscall_state p)) (v_phys (s_vm s)) u data = Some phys' ->
  match sys_read P s with
  | Ret s' => exists kb, (kb ∉ own) /\ s_bufs s' = delete kb (s_bufs s) /\ tty_reading s' m (drop (length data) q) /\ ls_rep (s_store s') m own /\
      tty_got s P p data phys' s'
  | Panic msg => msg = HEAP_FULL
  | _ => False
  end.
Proof.
  intros data W C T A Hfl Hcount I Hne L Hw. destruct (tty_args_file _ _ _ _ _ _ _ C A) as [Hfd Hfile]. destruct A as [Hv Hf Hi Hreg H2 H3 Hu Hn].
  unfold sys_read. rewrite (caller_reg1 _ _ _ _ C). cbn [mbind outcome_bind].
  rewrite Hv. cbn [negb]. pose proof C as [HP Hcur Hp Hregs _]. rewrite Hcur, Hfile. cbn [mbind outcome_bind]. rewrite Hreg. cbn [mbind outcome_bind].
  rewrite (reg_ok P 2 s p u), (reg_ok P 3 s p (Z.of_nat n)) by (done || lia). cbn [mbind outcome_bind].
  cbn [reg_flags tty_vfs_reg]. change (negb (Z.land 1 VFS_REG_FLAG_KERNEL_BUFFER_ONLY =? 0)) with true. cbv iota.
  pose proof (kernel_buffer_ok s (Z.of_nat n) m own Hn L) as X. destruct (kmalloc_bytes _ s) as [[kb s1]| | | |]; try exact X.
  cbn [mbind outcome_bind]. destruct X as (Hkb & Hfresh & Hlen & st & -> & L1). set (s1 := set_bufs _ _). set (buf := fresh_bytes kb (Z.of_nat n)) in *.
  change (cur s1) with (cur s). rewrite Hcur, (get_proc_ok _ s1 _ Hp). cbn [mbind outcome_bind]. rewrite eqb_ne by lia. cbn [negb].
  pose proof (tty_read_request (file_ptr P (i16 r1)) s1 f kb buf q m ({[kb]} ∪ own) W Hfile Hi Hreg Hfl Hkb (lookup_insert_eq _ _ _)) as X.
  rewrite Hlen in X. specialize (X Hcount ltac:(by destruct I; split) Hne L1). fold data in X.
  destruct (vfs_read_blocking _ _ _ _ _) as [[x s3]| | | |]; try exact X. destruct X as (-> & I3 & L3 & B3 & O3). pose proof (on_screen _ _ O3) as S3. destruct O3 as [N3 V3 P3 R3 Ph3 _ _ _].
  cbn [mbind outcome_bind].
  assert (Hd : (length data <= length buf)%nat) by (unfold data; rewrite length_take; lia).
  assert (Hdl : data <> [] /\ zlen data <= 255).
  { unfold data. rewrite length_take. split; [|lia]. destruct q; [done|]. destruct (Z.to_nat (Z.min (Z.of_nat n) 255)) eqn:Ez; [lia|done]. }
  destruct (splice_data buf data Hd) as [rest Erest].
  assert (C3 : caller s3 P p r1) by (apply (caller_same s); [done|by rewrite P3|apply R3]).
  assert (T3 : in_thread s3 p) by (destruct T as [T1 T2 T4], R3 as (_ & R4 & _ & _ & R5); split; [rewrite R4; done|rewrite R5; done|done]).
  destruct (read_back_ok s3 P p r1 u kb data rest m own phys' C3 T3 Hu) as (s4 & page & E4 & P4 & L4 & B4 & Se4 & V4 & D4 & Ph4 & R4);
    [apply Hdl|apply Hdl|by rewrite Ph3|rewrite B3, Erest; apply lookup_insert_eq|done|done|].
  rewrite E4. exists kb. split_and!; [done| | |done|].
  - rewrite B4, B3. simpl. by rewrite !delete_insert_eq.
  - destruct I3; split; rewrite ?Se4, ?D4; done.
  - split; [exists page; by rewrite P4, P3| |done|by rewrite D4|by rewrite V4|by rewrite V4].
    change (same_run (s_kernel s) (s_kernel s3)) in R3. unfold same_run in *. destruct R3 as (? & ? & ? & ? & ?), R4 as (? & ? & ? & ? & ?). split_and!; congruence.
Qed.

End Terminal.
