(* ===== verification/Userio.v ===== *)
(** * System calls on the terminal, from the program and back

    A process calls the stubs of the C library (sys.c) on a descriptor of the
    terminal: the [sys] instruction raises the interrupt of Interrupt.v, which
    runs the system call of Terminal.v and returns to the process. *)

From S2P Require Import Prelude Interfaces Kmalloc KList Proc Sync CString Kernel Sched Virtual Sys Signals Mq Vfs Request Tmpfs Ringbuff Keyboard Tty Blockq Device Sd Console Rootfs Sysd Interrupt Usys Terminal.

Section Program.
Context {St B : Type} `{ListStore St} {junk : Uninit} {others : Others St (drivers B)} {sign : CharSign}
  {order : ByteOrder} {regs_ : @VfsRegs St (drivers B)} {callbacks : @Callbacks St (drivers B)} {irqc : IrqController}.
Abbreviation sys := (sys St (drivers B)).
Abbreviation machine := (@Interrupt.machine St B).
Set Default Proof Using "Type".
Context (log : list Z -> sys -> outcome sys) (elf_load : Z -> sys -> outcome (Z * sys)).
Context (fuel : nat) (run_function : Z -> list Z -> machine -> outcome machine).
#[local] Instance program_processor : Processor machine := machine_processor log elf_load fuel run_function.

(** The registers of a call of [sys_write] or [sys_read] *)
Definition io_args (sysno fd u n : Z) : list (nat * Z) := [(0%nat, sysno); (1%nat, u16 fd); (2%nat, u); (3%nat, n); (6%nat, 0)].

(** The processor when the program goes on with [r] as the result. *)
Definition after_call (m : machine) (args : list (nat * Z)) (r : Z) : proc_state :=
  ProcState (<[0%nat := r]> (loaded args (regs (cpu m)))) (Proc.pc (cpu m)) (arith_flags (cpu m)) (mem_pages (cpu m)) (prog_pages (cpu m)).

(** The descriptor names an open file of the terminal. *)
Record tty_fd (m : machine) (p : proc) (fd : Z) (f : proc_file) : Prop := {
  tf_fd : Fd.validate_fd fd = true;
  tf_file : p_open_files p !! Z.to_nat fd = Some f;
  tf_inode : f_inode f <> 0;
  tf_reg : inode_reg (f_inode f) (m_sys m) = Ret tty_vfs_reg;
}.

(** The kernel when the call arrives *)
Lemma io_arrives sysno fd u n f m P p ml own xs :
  user_at m P p ml own xs -> tty_fd m p fd f -> is_u16 u -> 0 < Z.of_nat n < 65536 ->
  let st := trap (io_args sysno fd u (Z.of_nat n)) m in let q := in_syscall (saved st p) in let s := calling st P p m in
  caller s P q (u16 fd) /\ in_thread s q /\ tty_args s q (u16 fd) f u n /\ mem_pages (p_syscall_state q) = mem_pages (cpu m) /\
  reg P 0 s = Ret sysno.
Proof using Type log elf_load run_function.
  intros U [Hv Hf Hi Hreg] Hu Hn st q s. set (args := io_args sysno fd u (Z.of_nat n)) in *.
  destruct (calling_leaves args m P p ml own xs U) as (L & Hirq & Hph & _). fold st q s in L, Hirq, Hph.
  assert (H8 : length (regs (cpu m)) = 8%nat) by (rewrite (ua_cpu _ _ _ _ _ _ U); apply U).
  assert (Hargs : forall i x, (0%nat, sysno) = (i, x) \/ (1%nat, u16 fd) = (i, x) \/ (2%nat, u) = (i, x) \/ (3%nat, Z.of_nat n) = (i, x) ->
    regs (p_syscall_state q) !! i = Some x).
  { intros i x Hix. simpl. revert H8 Hix. generalize (regs (cpu m)). clear. intros rs H8 Hix.
    do 8 (destruct rs as [|? rs]; [done|]). destruct rs; [|done]. destruct Hix as [E|[E|[E|E]]]; by injection E as <- <-. }
  assert (Hm : mem_pages (p_syscall_state q) = mem_pages (cpu m)) by (simpl; by rewrite (ua_cpu _ _ _ _ _ _ U)).
  assert (Hfd : i16 (u16 fd) = fd) by (unfold Fd.validate_fd, PROC_MAX_FILES in Hv; rewrite u16_small by lia; apply i16_small; lia).
  split_and!; [| | |done|].
  - apply (calling_caller args m P p ml own xs (u16 fd) U). apply (Hargs 1%nat). naive_solver.
  - split; [apply L|done|simpl; lia].
  - split; rewrite ?Hfd; try done; apply Hargs; naive_solver.
  - apply (reg_ok P 0 s q sysno); [apply L|lia|apply Hargs; naive_solver].
Qed.

(** The way back from a call that left [r] in register 0 and no signal *)
Lemma io_returns args m P p ml own xs s2 page r :
  let st := trap args m in let q := in_syscall (saved st p) in let s := calling st P p m in
  user_at m P p ml own xs -> process_syscall log elf_load P s = Ret (1, s2) ->
  k_procs (s_kernel s2) = <[P := with_reg 0 r (page0 page q)]> (k_procs (s_kernel s)) ->
  current_proc (s_kernel s2) = current_proc (s_kernel s) -> ls_rep (s_store s2) ml own -> is_u16 r ->
  exists r1 m', sys_instruction args m = Ret (r, r1, m') /\ resumed m s2 P (with_reg 0 r (page0 page q)) m' /\ cpu m' = after_call m args r.
Proof using Type log elf_load run_function.
  intros st q s U Ep Hpr Hc L2 Hr. destruct (calling_leaves args m P p ml own xs U) as (L & _). fold st q s in L.
  set (q2 := with_reg 0 r (page0 page q)) in *.
  assert (Rt : returns s2 P q2).
  { split; [|rewrite Hpr; apply lookup_insert_eq|done| |].
    - unfold cur in *. rewrite Hc. apply L.
    - exists 0. split; [|by left]. apply (ls_first_ok _ _ _ _ _ L2 (ua_none _ _ _ _ _ _ U)).
    - simpl. intros E. pose proof (ua_mem _ _ _ _ _ _ U) as Hm. by rewrite E in Hm. }
  pose proof (lv_regs _ _ _ _ _ _ L) as H8.
  assert (exists r1, regs (p_syscall_state q2) !! 1%nat = Some r1) as [r1 H1].
  { apply lookup_lt_is_Some_2. unfold q2, with_reg. simpl. rewrite length_insert. simpl in H8. lia. }
  assert (H0 : regs (p_syscall_state q2) !! 0%nat = Some r).
  { unfold q2, with_reg. simpl. rewrite u16_small by lia. apply list_lookup_insert_eq. simpl in H8. lia. }
  destruct (sys_instruction_resumes log elf_load fuel run_function args m P p ml own xs 1 s2 q2 r r1 U Ep Rt H0 H1) as (m' & E & R).
  exists r1, m'. split_and!; [exact E|exact R|]. rewrite (rs_cpu _ _ _ _ _ R). unfold q2, with_reg, after_call. simpl.
  rewrite u16_small by lia. unfold context, set_regs. simpl. rewrite (ua_cpu _ _ _ _ _ _ U). done.
Qed.

(** The program runs on after the call with the number of bytes as result. *)
Record screen_wrote (m : machine) (args : list (nat * Z)) (bs : list Z) (ml : gmap Z (list (Z * Z))) (own : gset Z) (r : Z) (m' : machine) : Prop := {
  wr_result : r = Z.min (zlen bs) 128;
  wr_screen : d_tty (s_dev (m_sys m')) = Tty.tty_puts (take 128 bs) (d_tty (s_dev (m_sys m)));
  wr_cpu : cpu m' = after_call m args r;
  wr_phys : v_phys (s_vm (m_sys m')) = v_phys (s_vm (m_sys m));
  wr_idle : tty_idle (m_sys m') ml;
  wr_heap : ls_rep (s_store (m_sys m')) ml own;
}.

Lemma write_call fd u n bs f m P p ml own xs :
  writer_runs -> user_at m P p ml own xs -> tty_idle (m_sys m) ml -> tty_fd m p fd f ->
  is_u16 u -> 0 < Z.of_nat n < 65536 -> load u n m = Ret bs ->
  match Stub.sys_write fd u (Z.of_nat n) m with
  | Ret (r, m') => screen_wrote m (io_args SYS_WRITE fd u (Z.of_nat n)) bs ml own r m'
  | Panic msg => msg = HEAP_FULL
  | _ => False
  end.
Proof using Type log elf_load run_function.
  intros W U I F Hu Hn Hb. set (args := io_args SYS_WRITE fd u (Z.of_nat n)).
  destruct (io_arrives SYS_WRITE fd u n f m P p ml own xs U F Hu Hn) as (C & T & A & Hm & H0).
  destruct (calling_leaves args m P p ml own xs U) as (L & _ & Hph & _). fold args in C, T, A, Hm, H0.
  set (st := trap args m) in *. set (q := in_syscall (saved st p)) in *. set (s := calling st P p m) in *.
  assert (Hb' : user_bytes (mem_pages (p_syscall_state q)) (v_phys (s_vm s)) u n = Some bs).
  { rewrite Hm, Hph. simpl in Hb. by destruct (user_bytes _ _ u n); simplify_eq. }
  pose proof (sys_write_tty s P q (u16 fd) f u n bs ml own W C T A Hb' ltac:(by destruct I; split) ltac:(apply L)) as X.
  assert (Ep : process_syscall log elf_load P s = (s ← sys_write P s; Ret (1, s))).
  { unfold process_syscall. rewrite H0. cbn [mbind outcome_bind]. rewrite !eqb_ne by done. by rewrite Z.eqb_refl. }
  unfold Stub.sys_write, Stub.syscall_int, Stub.syscall_raw. fold (io_args SYS_WRITE fd u (Z.of_nat n)). fold args.
  destruct (sys_write P s) as [s2| | | |] eqn:Es; try done.
  2:{ cbn [sys_instruction machine_processor program_processor]. rewrite (interrupt_quiet _ _ _ _ _ _ _ _ _ _ U). fold st s. by rewrite Ep. }
  destruct X as (kb & _ & _ & I2 & L2 & [Hd (page & Hpr) (Hc & _) Hph2 _ _]).
  destruct (io_returns args m P p ml own xs s2 page (Z.min (zlen bs) 128) U Ep Hpr Hc L2 ltac:(lia)) as (r1 & m' & E & [_ _ _ Ek Eph _ _ Ed] & Ec).
  change (sys_instruction args m = Ret (Z.min (zlen bs) 128, r1, m')) in E. rewrite E. cbn [mbind outcome_bind]. rewrite i16_small by lia. split.
  - done.
  - by rewrite Ed, Hd.
  - exact Ec.
  - by rewrite Eph, Hph2.
  - destruct I2. split; unfold s_semas; by rewrite ?Ek.
  - unfold s_store. by rewrite Ek.
Qed.

(** C2. [write] on a file of the terminal, from the program to the screen: through
    the stub of the C library, the interrupt, the copy from user memory, the
    blocking request, the thread of the terminal and back.  The program goes on
    with its context unchanged but for the argument registers, the number of bytes
    in register 0 is the size asked for, 128 at most, and those bytes of its memory
    are on the screen in order.  The user memory is unchanged, the kernel heap has
    exactly the objects it had, and the terminal is idle again; the only other
    outcome is the panic of [kmalloc] on a full heap.  This holds for a user process
    without signals or interrupts pending, an open descriptor of the terminal, a
    size [0 < n < 65536] and a source that is mapped, when no other write request
    waits, and with a scheduler that runs the writing thread of the terminal, a
    turn of the real [tty_write_turn], while the caller waits for its request
    ([writer_runs]).  A caller that does not look at the result loses what is
    longer than 128 bytes. *)
Theorem write_reaches_screen fd u n bs f m P p ml own xs :
  writer_runs -> user_at m P p ml own xs -> tty_idle (m_sys m) ml -> tty_fd m p fd f ->
  is_u16 u -> 0 < Z.of_nat n < 65536 -> load u n m = Ret bs ->
  match Stub.sys_write fd u (Z.of_nat n) m with
  | Ret (r, m') => screen_wrote m (io_args SYS_WRITE fd u (Z.of_nat n)) bs ml own r m'
  | Panic msg => msg = HEAP_FULL
  | _ => False
  end.
Proof using Type log elf_load run_function. apply write_call. Qed.

(** The program runs on with the bytes it asked for in its memory. *)
Record tty_received (m : machine) (args : list (nat * Z)) (u : Z) (data : list Z) (phys' : gmap Z (list Z)) (ml : gmap Z (list (Z * Z)))
    (own : gset Z) (q' : list Z) (r : Z) (m' : machine) : Prop := {
  rv_result : r = zlen data;
  rv_cpu : cpu m' = after_call m args r;
  rv_phys : v_phys (s_vm (m_sys m')) = phys';
  rv_load : NoDup (places (mem_pages (cpu m)) u (length data)) -> load u (length data) m' = Ret data;
  rv_left : tty_reading (m_sys m') ml q';
  rv_screen : Tty.screen_of (d_tty (s_dev (m_sys m'))) = Tty.screen_of (d_tty (s_dev (m_sys m)));
  rv_heap : ls_rep (s_store (m_sys m')) ml own;
}.

Lemma read_call fd u n f q phys' m P p ml own xs :
  let data := take (Z.to_nat (Z.min (Z.of_nat n) 255)) q in
  reader_runs -> user_at m P p ml own xs -> tty_reading (m_sys m) ml q -> q <> [] -> tty_fd m p fd f -> request_flags f = 0 ->
  is_u16 u -> 0 < Z.of_nat n < 65536 -> d_read_queue (s_dev (m_sys m)) + Z.of_nat n < 65536 ->
  user_write (mem_pages (cpu m)) (v_phys (s_vm (m_sys m))) u data = Some phys' ->
  match Stub.sys_read fd u (Z.of_nat n) m with
  | Ret (r, m') => tty_received m (io_args SYS_READ fd u (Z.of_nat n)) u data phys' ml own (drop (length data) q) r m'
  | Panic msg => msg = HEAP_FULL
  | _ => False
  end.
Proof using Type log elf_load run_function.
  intros data W U I Hne F Hfl Hu Hn Hcount Hw. set (args := io_args SYS_READ fd u (Z.of_nat n)).
  destruct (io_arrives SYS_READ fd u n f m P p ml own xs U F Hu Hn) as (C & T & A & Hm & H0).
  destruct (calling_leaves args m P p ml own xs U) as (L & _ & Hph & _). fold args in C, T, A, Hm, H0.
  set (st := trap args m) in *. set (c := in_syscall (saved st p)) in *. set (s := calling st P p m) in *.
  assert (Hw' : user_write (mem_pages (p_syscall_state c)) (v_phys (s_vm s)) u data = Some phys') by (by rewrite Hm, Hph).
  pose proof (sys_read_tty s P c (u16 fd) f u n q phys' ml own W C T A Hfl Hcount ltac:(by destruct I; split) Hne ltac:(apply L) Hw') as X.
  assert (Ep : process_syscall log elf_load P s = (s ← sys_read P s; Ret (1, s))).
  { unfold process_syscall. rewrite H0. cbn [mbind outcome_bind]. rewrite !eqb_ne by done. by rewrite Z.eqb_refl. }
  unfold Stub.sys_read, Stub.syscall_int, Stub.syscall_raw. fold (io_args SYS_READ fd u (Z.of_nat n)). fold args.
  destruct (sys_read P s) as [s2| | | |] eqn:Es; try done.
  2:{ cbn [sys_instruction machine_processor program_processor]. rewrite (interrupt_quiet _ _ _ _ _ _ _ _ _ _ U). fold st s. by rewrite Ep. }
  fold data in X. destruct X as (kb & _ & _ & I2 & L2 & [(page & Hpr) (Hc & _) Hph2 Hscr _ _]).
  assert (Hlen : 0 <= zlen data <= 255) by (unfold data; rewrite length_take; lia).
  destruct (io_returns args m P p ml own xs s2 page (zlen data) U Ep Hpr Hc L2 ltac:(lia)) as (r1 & m' & E & [_ _ _ Ek Eph _ _ Ed] & Ec).
  change (sys_instruction args m = Ret (zlen data, r1, m')) in E. rewrite E. cbn [mbind outcome_bind]. rewrite i16_small by lia. split.
  - done.
  - exact Ec.
  - by rewrite Eph.
  - intros Hnd. cbn [load program_processor machine_processor]. rewrite Ec, Eph, Hph2. simpl. by rewrite (user_write_read _ _ _ _ _ Hu Hw Hnd).
  - destruct I2. split; unfold s_semas; rewrite ?Ek, ?Ed; done.
  - by rewrite Ed, Hscr.
  - unfold s_store. by rewrite Ek.
Qed.

(** C3. [read] on a file of the terminal when input is there, from the stub of the
    C library to the ring of typed bytes and back: the result is the size asked
    for or the number of the bytes there are, 255 at most, the oldest bytes are
    in the memory of the caller in order and out of the input, the screen and the
    objects on the kernel heap are as before, and the program goes on with its
    context; the only other outcome is the panic of [kmalloc] on a full heap.  This
    holds for a user process without signals or interrupts pending, a descriptor of
    the terminal that is open and blocking (without [O_NONBLOCK]), a size
    [0 < n < 65536], destination pages that are mapped, a 16-bit count of bytes asked
    for ([d_read_queue]) that [n] does not take past 65535, when no other read
    request waits and at least one byte has been typed, and with a scheduler that
    runs the reading thread, a turn of the real [tty_read_turn], while the caller
    waits ([reader_runs]).  That the bytes read back are the data needs a
    destination whose virtual pages are different physical pages. *)
Theorem read_typed_bytes fd u n f q phys' m P p ml own xs :
  let data := take (Z.to_nat (Z.min (Z.of_nat n) 255)) q in
  reader_runs -> user_at m P p ml own xs -> tty_reading (m_sys m) ml q -> q <> [] -> tty_fd m p fd f -> request_flags f = 0 ->
  is_u16 u -> 0 < Z.of_nat n < 65536 -> d_read_queue (s_dev (m_sys m)) + Z.of_nat n < 65536 ->
  user_write (mem_pages (cpu m)) (v_phys (s_vm (m_sys m))) u data = Some phys' ->
  match Stub.sys_read fd u (Z.of_nat n) m with
  | Ret (r, m') => tty_received m (io_args SYS_READ fd u (Z.of_nat n)) u data phys' ml own (drop (length data) q) r m'
  | Panic msg => msg = HEAP_FULL
  | _ => False
  end.
Proof using Type log elf_load run_function. apply read_call. Qed.
End Program.


(** ** Witnesses: a process with the terminal as descriptor 1; "ls" and a newline
    have been typed *)

Section Demo.
Abbreviation demo_sys := (Sys.sys (store (list Z)) (drivers unit)).
Abbreviation demo_machine := (@Interrupt.machine (store (list Z)) unit).
#[local] Existing Instance klist_store.
Instance term_uninit : Uninit := fun _ _ => 0.
Instance term_sign : CharSign := true.
Instance term_order : ByteOrder := false.
Instance term_callbacks : @Callbacks (store (list Z)) (drivers unit) := fun _ _ _ => Fault.
Instance term_irqc : IrqController := Z.ldiff.
Let term_log (_ : list Z) (s : demo_sys) := Ret s.
Let term_elf (_ : Z) (s : demo_sys) := Ret (0, s).
Let term_function (_ : Z) (_ : list Z) (m : demo_machine) := Ret m.

Definition term_user : proc :=
  Proc 1 PROC_STATE_RUNNABLE PROC_TYPE_USER sig_state sig_state (replicate 16 0) 0x300
    ([ProcFile 0 0 0 0; ProcFile 7 0 0 0] ++ replicate 14 (ProcFile 0 0 0 0)) 0 0 0 0 0 0.

Definition term_kernel (n1 p1 : Z) (k : kernel (store (list Z))) : kernel (store (list Z)) :=
  Kernel (ls_init (ls_init (k_store k) TTY_WRITE_LIST) TTY_READ_LIST) (<[p1 := term_user]> (k_procs k))
    (<[TTY_READ_SEMA := 0]> (<[TTY_WRITE_SEMA := 0]> (<[TTY_INSERT_LOCK := 1]> (k_semas k)))) (k_signals k) p1 n1 (pid_now k)
    (first_free_page k) true false 41 0x11.

Definition term_tty : Tty.tty := with_input typed_ring 1 Tty.demo_tty.

Definition term_machine (n1 p1 : Z) (k : kernel (store (list Z))) : demo_machine :=
  Machine (Sys (Vm (term_kernel n1 p1 k) {[0x40 := replicate 4096 33]} 0) ∅
      (VfsState {[7 := Inode 0 0 0 9 0]} {[9 := Vnode 1 TTY_REG 0 0]} ∅ 0 0 0) (MqState ∅ ∅ 0 0)
      (Drivers tt (blockq_fields 32 12 demo_ring) ∅ ∅ 0 ∅ term_tty 0 demo_ring 0 (TmpState 0 []) 0))
    false 0 3 0 (Keyboard 0 0 false) true sig_state.

Definition term_lists (ml : gmap Z (list (Z * Z))) : gmap Z (list (Z * Z)) := <[TTY_READ_LIST := []]> (<[TTY_WRITE_LIST := []]> ml).

Lemma term_user_at : exists k n1 p1 p2 ml own xs, user_at (term_machine n1 p1 k) p1 term_user (term_lists ml) own xs /\
  forall f, on_two_threads f = true -> f k n1 p1 p2 = true.
Proof.
  destruct two_threads_ok as (k & n1 & p1 & n2 & p2 & ml & own & E & K & _ & _).
  exists k, n1, p1, p2, ml, own, [(n1, p1); (n2, p2)].
  destruct (scan_proc _ _ _ _ K n1 p1) as [pr1 Hp1]; [left|].
  destruct (demo_no_signal k ml own [(n1, p1); (n2, p2)] n1 p1 E K) as [Hq Hs]; [left|].
  split; [|intros f Ran; by apply (two_threads_eval _ _ _ _ _ _ _ _ E K) in Ran]. clear E.
  assert (Hr : 0 < p1 < 65536) by (eapply pok_range, (kok_procs _ _ _ _ K); left).
  unfold term_lists. split; try done; [split; try done; apply lookup_insert_eq| |left|..].
  - destruct (kernel_ok_put _ _ _ _ p1 pr1 term_user K Hp1 (or_introl eq_refl)) as [R L V Pr La]. split; try done.
    + by do 2 apply ls_init_ok.
    + by rewrite !lookup_insert_ne.
    + intros v Hv. eapply proc_ok_mono; [by apply Pr|done|intros; by do 2 apply is_Some_insert|intros; by do 3 apply is_Some_insert|eauto].
  - rewrite !lookup_insert_ne; [done|..]; unfold signal_queue_of, member, TTY_WRITE_LIST, TTY_READ_LIST; lia.
  - unfold s_semas. simpl. rewrite !lookup_insert_ne; [done|..]; unfold signal_sema_of, member, TTY_WRITE_SEMA, TTY_READ_SEMA, TTY_INSERT_LOCK; lia.
Qed.

Lemma term_semas n1 p1 k : let s := m_sys (term_machine n1 p1 k) in
  s_semas s !! TTY_READ_SEMA = Some 0 /\ s_semas s !! TTY_WRITE_SEMA = Some 0 /\ s_semas s !! TTY_INSERT_LOCK = Some 1.
Proof.
  unfold s_semas. simpl. split_and!; [apply lookup_insert_eq|..].
  - by rewrite lookup_insert_ne, lookup_insert_eq.
  - by rewrite lookup_insert_ne, lookup_insert_ne, lookup_insert_eq.
Qed.

Lemma term_idle n1 p1 k ml : tty_idle (m_sys (term_machine n1 p1 k)) (term_lists ml).
Proof. destruct (term_semas n1 p1 k) as (Hr & Hw & Hl). split; try done. unfold term_lists. by rewrite lookup_insert_ne, lookup_insert_eq. Qed.

Lemma term_reading n1 p1 k ml : tty_reading (m_sys (term_machine n1 p1 k)) (term_lists ml) [108; 115; 10].
Proof. destruct (term_semas n1 p1 k) as (Hr & Hw & Hl). split; try done; apply lookup_insert_eq || (simpl; lia). Qed.

(** Who waits lets the writing thread run. *)
Definition write_others : Others (store (list Z)) (drivers unit) := fun _ s => tty_write_turn (others := fun _ _ => Block) s.
(** Who waits lets the reading thread run. *)
Definition read_others : Others (store (list Z)) (drivers unit) := fun _ s => tty_read_turn (others := fun _ _ => Block) 1 s.

Section Write.
#[local] Existing Instance write_others.
Instance write_regs : @VfsRegs (store (list Z)) (drivers unit) := fun a => if a =? TTY_REG then Some tty_vfs_reg else None.

Lemma demo_writer_runs : writer_runs (St := store (list Z)) (B := unit).
Proof.
  intros l n s _ Hs Hn. unfold wait, write_others, tty_write_turn.
  rewrite !(s_sema_down_now _ _ _ Hs) by done. reflexivity.
Qed.

Lemma write_reaches_screen_witness :
  exists (m m' : demo_machine),
    Stub.sys_write (H := machine_processor term_log term_elf 2 term_function) 1 0xff00 3 m = Ret (3, m') /\
    d_tty (s_dev (m_sys m')) = Tty.tty_puts [33; 33; 33] term_tty.
Proof.
  destruct term_user_at as (k & n1 & p1 & p2 & ml & own & xs & U & Eval).
  assert (on_two_threads (fun k n1 p1 _ => returned (Stub.sys_write (H := machine_processor term_log term_elf 2 term_function)
    1 0xff00 3 (term_machine n1 p1 k))) = true) as Ran by (vm_compute; reflexivity).
  apply Eval in Ran. clear Eval. exists (term_machine n1 p1 k).
  pose proof (write_reaches_screen term_log term_elf 2 term_function 1 0xff00 3 [33; 33; 33] (ProcFile 7 0 0 0) (term_machine n1 p1 k) p1
    term_user (term_lists ml) own xs demo_writer_runs U (term_idle n1 p1 k ml) ltac:(by split) ltac:(lia) ltac:(lia) ltac:(vm_compute; reflexivity)) as X.
  change (Z.of_nat 3) with 3 in X.
  destruct (Stub.sys_write 1 0xff00 3 (term_machine n1 p1 k)) as [[r m']| | | |]; try discriminate Ran.
  exists m'. by destruct X as [-> Hd _ _ _ _].
Defined.
End Write.

Section Read.
#[local] Existing Instance read_others.
Instance read_regs : @VfsRegs (store (list Z)) (drivers unit) := fun a => if a =? TTY_REG then Some tty_vfs_reg else None.

Lemma demo_reader_runs : reader_runs (St := store (list Z)) (B := unit).
Proof.
  intros l n s _ Hs Hn Hk Hr. unfold wait, read_others, tty_read_turn.
  rewrite !(s_sema_down_now _ _ _ Hs) by done. cbn [mbind outcome_bind]. set (s1 := s_set_semas _ s).
  destruct (first_req TTY_READ_LIST s1) as [rq| | | |]; try done. cbn [mbind outcome_bind].
  destruct (deref (reqs (s_vfs s1)) rq) as [r| | | |]; try done. cbn [mbind outcome_bind]. set (s2 := put_req _ _ s1).
  cbn [input_loop]. change (s_dev s2) with (s_dev s). rewrite (eqb_ne _ 0 Hr). cbn [mbind outcome_bind].
  assert (Hk2 : s_semas s2 !! TTY_INSERT_LOCK = Some 1) by (unfold s2, s1, s_semas; simpl; by rewrite lookup_insert_ne).
  rewrite !(s_sema_down_now _ _ _ Hk2) by lia. reflexivity.
Qed.

Lemma read_typed_bytes_witness :
  exists (m m' : demo_machine),
    Stub.sys_read (H := machine_processor term_log term_elf 2 term_function) 1 0xff00 2 m = Ret (2, m') /\
    load (Processor := machine_processor term_log term_elf 2 term_function) 0xff00 2 m' = Ret [108; 115].
Proof.
  destruct term_user_at as (k & n1 & p1 & p2 & ml & own & xs & U & Eval).
  assert (on_two_threads (fun k n1 p1 _ => returned (Stub.sys_read (H := machine_processor term_log term_elf 2 term_function)
    1 0xff00 2 (term_machine n1 p1 k))) = true) as Ran by (vm_compute; reflexivity).
  apply Eval in Ran. clear Eval. exists (term_machine n1 p1 k).
  pose proof (read_typed_bytes term_log term_elf 2 term_function 1 0xff00 2 (ProcFile 7 0 0 0) [108; 115; 10]
    (<[0x40 := splice (replicate 4096 33) 0xf00 [108; 115]]> {[0x40 := replicate 4096 33]}) (term_machine n1 p1 k) p1
    term_user (term_lists ml) own xs demo_reader_runs U (term_reading n1 p1 k ml) ltac:(done) ltac:(by split) eq_refl
    ltac:(lia) ltac:(lia) ltac:(simpl; lia)
    ltac:(apply user_write_in_page; [lia|vm_compute; discriminate|reflexivity|apply lookup_singleton_eq|reflexivity])) as X.
  cbv zeta in X. change (Z.of_nat 2) with 2 in X. change (take (Z.to_nat (Z.min 2 255)) [108; 115; 10]) with [108; 115] in X.
  destruct (Stub.sys_read 1 0xff00 2 (term_machine n1 p1 k)) as [[r m']| | | |]; try discriminate Ran.
  exists m'. destruct X as [-> _ _ Hld _ _ _]. split; [done|]. apply Hld. apply (bool_decide_unpack _). vm_compute. exact I.
Defined.
End Read.
End Demo.
