(* ===== verification/Libc.v ===== *)
(** * The user heap and the random numbers of the C library
      (lib/libc/src/mem.c, lib/libc/src/rand.c)

    A user process reaches the kernel through the system calls of [Syscalls],
    whose state [O] is the rest of the system.  [malloc] is a first-fit search
    over an array of chunks, like the kernel's, that maps pages as they are
    needed. *)

From S2P Require Import Prelude Interfaces Kmalloc.

(** The calls of lib/libc/src/sys.c, with their results.  A read also gives the
    bytes that were stored. *)
Class Syscalls (O : Type) := {
  sys_open : list Z -> O -> outcome (Z * O);
  sys_close : Z -> O -> outcome (Z * O);
  sys_read : Z -> Z -> O -> outcome (Z * list Z * O);
  sys_write : Z -> list Z -> O -> outcome (Z * O);
  sys_fcntl : Z -> Z -> Z -> O -> outcome (Z * O);
  sys_exec : Z -> O -> outcome (Z * O);
  sys_pgmap : Z -> O -> outcome (Z * O);
  sys_procinfo : Z -> O -> outcome (Z * Z * O);      (** [load_brk] and [mem_pages_mapped] *)
}.

Definition MEMORY_CHUNK : Z := 32.
Definition MAX_HEAP_SIZE : Z := 0xF000.
Definition MIN_HEAP_START : Z := 0x1D00.
Definition heap_chunks : Z := (MAX_HEAP_SIZE - MIN_HEAP_START) / MEMORY_CHUNK.
Definition USER_PAGE_SIZE : Z := 0x1000.

Lemma heap_chunks_val : heap_chunks = 1688.
Proof. reflexivity. Qed.

(** [mem_pages] has a bit for each page that is mapped. *)
Record uheap := UHeap { allocations : list Z; u_mem_pages : Z; heap_start : Z }.

(** ** The code *)

(** The search of [malloc]; the result is 0 when nothing fits. *)
Fixpoint malloc_loop (fuel : nat) (allocations : list Z) (size_in_chunks free_chunks i : Z)
  : outcome (Z * list Z) :=
  match fuel with
  | O => Hang
  | S fuel =>
    if i <? heap_chunks then
      a ← arr_get allocations i;
      if negb (a =? 0) then
        malloc_loop fuel allocations size_in_chunks 0 (u16 (u16 (i + u16 (a - 1)) + 1))
      else
        let free_chunks := u16 (free_chunks + 1) in
        if free_chunks =? size_in_chunks then
          let start := u16 (u16 (i - size_in_chunks) + 1) in
          allocations ← arr_set allocations start size_in_chunks;
          Ret (u16 (MIN_HEAP_START + start * MEMORY_CHUNK), allocations)
        else malloc_loop fuel allocations size_in_chunks free_chunks (u16 (i + 1))
    else Ret (0, allocations)
  end.

Definition malloc_fuel : nat := S (Z.to_nat heap_chunks).

#[global] Opaque malloc_fuel heap_chunks.

Definition user_chunks (size : Z) : Z := u16 (u16 (size + MEMORY_CHUNK) - 1) / MEMORY_CHUNK.

(** [(size + PAGE_SIZE-1)/PAGE_SIZE] *)
Definition pages_for (size : Z) : Z := u16 (u16 (size + USER_PAGE_SIZE) - 1) / USER_PAGE_SIZE.

Section Libc.
Context {O : Type} `{Syscalls O}.

Definition map_page (page : Z) (st : Z * O) : outcome (Z * O) :=
  let '(mem_pages, os) := st in
  if Z.land mem_pages (Z.shiftl 1 page) =? 0 then
    '(_, os) ← sys_pgmap page os;
    Ret (Z.lor mem_pages (Z.shiftl 1 page), os)
  else Ret st.

Definition malloc (size : Z) (u : uheap) (os : O) : outcome (Z * uheap * O) :=
  if size =? 0 then Ret (0, u, os)
  else
    '(base, allocs) ← malloc_loop malloc_fuel (allocations u) (user_chunks size) 0 0;
    if base =? 0 then Ret (0, UHeap allocs (u_mem_pages u) (heap_start u), os)
    else
      '(mem_pages, os) ← for_loop (Z.to_nat (pages_for size)) (Z.shiftr base 12) map_page (u_mem_pages u, os);
      Ret (base, UHeap allocs mem_pages (heap_start u), os).

Definition free (ptr : Z) (u : uheap) : outcome uheap :=
  let chunk := ptr / MEMORY_CHUNK in
  let chunk := u16 (chunk - MIN_HEAP_START / MEMORY_CHUNK) in
  allocs ← arr_set (allocations u) chunk 0;
  Ret (UHeap allocs (u_mem_pages u) (heap_start u)).

Definition __malloc_init (u : uheap) (os : O) : outcome (uheap * O) :=
  '(load_brk, mapped, os) ← sys_procinfo 0 os;
  allocs ← arr_set (allocations u) 0
    (u16 (u16 (u16 (load_brk - MIN_HEAP_START) + MEMORY_CHUNK) - 1) / MEMORY_CHUNK);
  Ret (UHeap allocs mapped load_brk, os).

(** ** The search finds the first fit *)

Definition user_ptr (i : Z) : Z := MIN_HEAP_START + i * MEMORY_CHUNK.

Lemma malloc_loop_found fuel pre k rest :
  Z.of_nat (S k) < 16384 -> loop_at heap_chunks pre k SFree rest ->
  malloc_loop (S fuel) (cells (pre ++ replicate k SFree ++ SFree :: rest))
    (Z.of_nat (S k)) (Z.of_nat k) (zlen (cells pre) + Z.of_nat k)
  = Ret (user_ptr (zlen (cells pre)), cells (pre ++ SBlock k :: rest)).
Proof.
  intros Hk Hat. pose proof (loop_at_bound _ _ _ _ _ Hat) as Hb. rewrite heap_chunks_val in Hb. simpl in Hb.
  simpl malloc_loop. rewrite heap_chunks_val, (proj2 (Z.ltb_lt _ _)) by lia.
  erewrite loop_at_get by done. simpl.
  rewrite (u16_small (Z.of_nat k + 1)), (proj2 (Z.eqb_eq _ _)) by lia.
  assert (Es : u16 (u16 (zlen (cells pre) + Z.of_nat k - Z.of_nat (S k)) + 1) = zlen (cells pre)) by zlia.
  rewrite Es. rewrite replicate_free_snoc, cells_allocate by lia. simpl. rewrite Nat.sub_0_r.
  unfold user_ptr. rewrite u16_small; [done|]. unfold MIN_HEAP_START, MEMORY_CHUNK. lia.
Qed.

Lemma malloc_loop_free fuel pre k n rest :
  Z.of_nat k + 1 <> Z.of_nat n -> loop_at heap_chunks pre k SFree rest ->
  malloc_loop (S fuel) (cells (pre ++ replicate k SFree ++ SFree :: rest))
    (Z.of_nat n) (Z.of_nat k) (zlen (cells pre) + Z.of_nat k)
  = malloc_loop fuel (cells (pre ++ replicate (S k) SFree ++ rest))
      (Z.of_nat n) (Z.of_nat (S k)) (zlen (cells pre) + Z.of_nat (S k)).
Proof.
  intros Hk Hat. pose proof (loop_at_bound _ _ _ _ _ Hat) as Hb. rewrite heap_chunks_val in Hb. simpl in Hb.
  simpl malloc_loop. rewrite heap_chunks_val, (proj2 (Z.ltb_lt _ _)) by lia.
  erewrite loop_at_get by done. simpl.
  rewrite (u16_small (Z.of_nat k + 1)), (proj2 (Z.eqb_neq _ _)), u16_small by lia.
  rewrite replicate_free_snoc. f_equal; lia.
Qed.

Lemma malloc_loop_block fuel pre k m n rest :
  loop_at heap_chunks pre k (SBlock m) rest ->
  malloc_loop (S fuel) (cells (pre ++ replicate k SFree ++ SBlock m :: rest))
    n (Z.of_nat k) (zlen (cells pre) + Z.of_nat k)
  = let pre' := pre ++ replicate k SFree ++ [SBlock m] in
    malloc_loop fuel (cells (pre' ++ replicate 0 SFree ++ rest))
      n (Z.of_nat 0) (zlen (cells pre') + Z.of_nat 0).
Proof.
  intros Hat. pose proof (loop_at_bound _ _ _ _ _ Hat) as Hb. rewrite heap_chunks_val in Hb. simpl in Hb.
  rewrite length_replicate in Hb.
  simpl malloc_loop. rewrite heap_chunks_val, (proj2 (Z.ltb_lt _ _)) by lia.
  erewrite loop_at_get by done. simpl.
  f_equal; [by rewrite <-!app_assoc|]. cells_len. zlia.
Qed.

Lemma malloc_loop_end fuel memory n k i : heap_chunks <= i ->
  malloc_loop (S fuel) memory n k i = Ret (0, memory).
Proof. intros Hi. simpl. by rewrite (proj2 (Z.ltb_ge _ _)). Qed.

Lemma malloc_fits : fits_first malloc_loop heap_chunks user_ptr.
Proof.
  split; [exact malloc_loop_found|exact malloc_loop_free|exact malloc_loop_block|exact malloc_loop_end].
Qed.

(** ** Pages *)

(** The kernel answers every request for a page. *)
Definition pgmap_returns : Prop := forall page os, exists r os', sys_pgmap page os = Ret (r, os').

Lemma land_bit m j : 0 <= j -> (Z.land m (Z.shiftl 1 j) =? 0) = negb (Z.testbit m j).
Proof.
  intros Hj. rewrite Z.shiftl_1_l. destruct (Z.testbit m j) eqn:E.
  - apply Z.eqb_neq. intros H0. apply (f_equal (fun x => Z.testbit x j)) in H0.
    rewrite Z.land_spec, Z.pow2_bits_true, E, Z.bits_0 in H0 by lia. done.
  - apply Z.eqb_eq. apply Z.bits_inj'. intros k Hk. rewrite Z.land_spec, Z.bits_0.
    destruct (decide (j = k)) as [<-|]; [by rewrite E|]. rewrite Z.pow2_bits_false by done. apply andb_false_r.
Qed.

Lemma lor_bit m j k : 0 <= j -> Z.testbit (Z.lor m (Z.shiftl 1 j)) k = Z.testbit m k || (j =? k).
Proof. intros Hj. by rewrite Z.lor_spec, Z.shiftl_1_l, Z.pow2_bits_eqb. Qed.

Lemma map_pages_ok n page m os : pgmap_returns -> 0 <= page ->
  exists m' os', for_loop n page map_page (m, os) = Ret (m', os') /\
    forall j, Z.testbit m' j = Z.testbit m j || ((page <=? j) && (j <? page + Z.of_nat n)).
Proof.
  intros Hpg Hp.
  destruct (for_loop_inv (fun i st => forall j, Z.testbit st.1 j = Z.testbit m j || ((page <=? j) && (j <? i)))
    n page map_page (m, os)) as ([m' os'] & E & Hm).
  - intros j. destruct (Z.leb_spec page j), (Z.ltb_spec j page); simpl; try lia; by rewrite orb_false_r.
  - intros i [m1 os1] Hi IH. simpl in IH. unfold map_page. rewrite land_bit by lia.
    destruct (Z.testbit m1 i) eqn:Eb; cbn [negb].
    + eexists. split; [done|]. intros j. simpl. rewrite IH. destruct (decide (j = i)) as [->|].
      * rewrite IH in Eb. rewrite Eb. apply orb_true_iff in Eb as [->|Eb]; [done|].
        apply andb_true_iff in Eb as [_ Eb]. apply Z.ltb_lt in Eb. lia.
      * f_equal. destruct (Z.leb_spec page j), (Z.ltb_spec j i), (Z.ltb_spec j (i + 1)); simpl; lia.
    + destruct (Hpg i os1) as (r & os2 & ->). cbn [mbind outcome_bind]. eexists. split; [done|].
      intros j. simpl. rewrite lor_bit, IH by lia. rewrite <-orb_assoc. f_equal.
      destruct (Z.leb_spec page j), (Z.ltb_spec j i), (Z.ltb_spec j (i + 1)), (Z.eqb_spec i j); simpl; lia.
  - eauto.
Qed.

(** ** Theorems *)

Definition needed (size : Z) : nat := Z.to_nat ((size + 31) / 32).

Lemma user_chunks_small size : 0 < size <= 65504 ->
  user_chunks size = Z.of_nat (needed size) /\ (0 < needed size)%nat /\ Z.of_nat (needed size) < 16384.
Proof.
  intros Hs. unfold user_chunks, needed, MEMORY_CHUNK.
  assert (E : u16 (u16 (size + 32) - 1) = size + 31) by zlia. rewrite E. zlia.
Qed.

Lemma user_chunks_large size : 65504 < size < 65536 -> user_chunks size = 0.
Proof.
  intros Hs. unfold user_chunks, MEMORY_CHUNK.
  assert (E : u16 (u16 (size + 32) - 1) = size + 31 - 65536) by zlia. rewrite E. apply Z.div_small. lia.
Qed.

Lemma malloc_enough segs : zlen (cells segs) = heap_chunks -> (length (cells segs) < malloc_fuel)%nat.
Proof. intros Hl. Transparent malloc_fuel. unfold malloc_fuel. lia. Opaque malloc_fuel. Qed.

Lemma free_user u pre n rest mp : (0 < n)%nat -> zlen (cells (pre ++ SBlock (n - 1) :: rest)) = heap_chunks ->
  free (user_ptr (zlen (cells pre))) (UHeap (cells (pre ++ SBlock (n - 1) :: rest)) mp (heap_start u)) =
  Ret (UHeap (cells (pre ++ replicate n SFree ++ rest)) mp (heap_start u)).
Proof.
  intros Hn Hl. unfold free, user_ptr, MIN_HEAP_START, MEMORY_CHUNK. rewrite heap_chunks_val in Hl. cells_len_in Hl.
  assert (E : u16 ((0x1D00 + zlen (cells pre) * 32) / 32 - 0x1D00 / 32) = zlen (cells pre)) by zlia.
  rewrite E. simpl allocations. rewrite cells_app, cells_cons. simpl seg_cells. simpl app.
  rewrite arr_set_middle. cbn [mbind outcome_bind]. rewrite !cells_app, cells_replicate_free.
  destruct n as [|n]; [lia|]. simpl. by rewrite Nat.sub_0_r.
Qed.

(** C39. The user heap.  A request is served by the first run of free chunks
    that is long enough, at an address of its own, with every other block
    untouched; the pages from the one the block starts in on, as many as its
    size needs, are mapped, and no others; [free] of the block gives back
    exactly the heap before.  Without such a run the result is NULL, nothing
    has changed and nothing is mapped; so it is for a size whose chunk count
    overflows. *)
Theorem malloc_first_fit u segs size os :
  pgmap_returns -> allocations u = cells segs -> zlen (cells segs) = heap_chunks -> 0 < size < 65536 ->
  let n := needed size in
  (exists pre rest mp os', segs = pre ++ replicate n SFree ++ rest /\
     (forall i, (i < length (cells pre))%nat -> ~ free_run segs i n) /\
     let base := user_ptr (zlen (cells pre)) in
     let u' := UHeap (cells (pre ++ SBlock (n - 1) :: rest)) mp (heap_start u) in
     malloc size u os = Ret (base, u', os') /\
     (forall j, Z.testbit mp j = Z.testbit (u_mem_pages u) j ||
        ((Z.shiftr base 12 <=? j) && (j <? Z.shiftr base 12 + pages_for size))) /\
     free base u' = Ret (UHeap (cells segs) mp (heap_start u)))
  \/ (forall i, ~ free_run segs i n) /\ malloc size u os = Ret (0, u, os).
Proof.
  intros Hpg Hu Hl Hs n. unfold malloc. rewrite eqb_ne, Hu by lia.
  assert (Hnull : UHeap (cells segs) (u_mem_pages u) (heap_start u) = u) by (rewrite <-Hu; by destruct u).
  destruct (decide (size <= 65504)) as [Hsm|].
  - destruct (user_chunks_small size) as (-> & Hn & Hn'); [lia|]. fold n in Hn, Hn' |- *.
    destruct (first_fit_search _ _ _ malloc_fits segs n malloc_fuel Hn Hn' Hl (malloc_enough _ Hl))
      as [(pre & rest & Hsegs & Hno & ->)|[Hno ->]].
    + left. cbn [mbind outcome_bind].
      assert (Hp : 0 < user_ptr (zlen (cells pre))) by (unfold user_ptr, MIN_HEAP_START, MEMORY_CHUNK; lia).
      rewrite eqb_ne by lia.
      destruct (map_pages_ok (Z.to_nat (pages_for size)) (Z.shiftr (user_ptr (zlen (cells pre))) 12)
        (u_mem_pages u) os Hpg) as (mp & os' & -> & Hmp); [apply Z.shiftr_nonneg; lia|].
      rewrite Z2Nat.id in Hmp by (unfold pages_for, USER_PAGE_SIZE; zlia).
      exists pre, rest, mp, os'. split_and!; [done..|]. rewrite Hsegs. apply free_user; [done|].
      rewrite Hsegs in Hl. cells_len_in Hl. cells_len. rewrite <-Hl. lia.
    + right. split; [done|]. cbn [mbind outcome_bind]. by rewrite Z.eqb_refl, Hnull.
  - right. rewrite user_chunks_large by lia.
    pose proof (first_fit_zero _ _ _ malloc_fits segs [] 0 malloc_fuel Hl (malloc_enough _ Hl)) as E0.
    change (malloc_loop malloc_fuel (cells segs) 0 0 0 = Ret (0, cells segs)) in E0. rewrite E0.
    cbn [mbind outcome_bind]. rewrite Z.eqb_refl, Hnull. split; [|done]. intros i Hi.
    apply free_run_length in Hi; [|unfold n, needed; zlia]. rewrite heap_chunks_val in Hl.
    assert (1688 < n)%nat by (unfold n, needed; zlia). lia.
Qed.
End Libc.

(** ** Pseudo random numbers *)

Definition RAND_M : Z := 32768.
Definition RAND_A : Z := 4099.
Definition RAND_C : Z := 997.

(** Both return the new value of the static [next]. *)
Definition rand (next : Z) : Z := u16 (u16 (next * RAND_A) + RAND_C) mod RAND_M.
Definition srand (seed : Z) : Z := seed.

(** The numbers before the seed comes back, within [fuel] calls. *)
Fixpoint cycle (fuel : nat) (seed next : Z) : option Z :=
  match fuel with
  | O => None
  | S fuel => if rand next =? seed then Some 1 else Z.succ <$> cycle fuel seed (rand next)
  end.

(** The wrap-around of the 16-bit product does not show: the generator is the
    congruence x -> 4099 x + 997 modulo 32768, its numbers are below 32768, and
    from the initial seed 1 it runs through a cycle of 16384 numbers, half of
    those below the modulus. *)
Theorem rand_cycle :
  (forall next, is_u16 next -> rand next = (next * 4099 + 997) mod 32768 /\ 0 <= rand next < 32768) /\
  cycle (Z.to_nat 20000) (srand 1) (srand 1) = Some 16384.
Proof.
  split; [|vm_compute; reflexivity]. intros next Hn. unfold rand, RAND_A, RAND_C, RAND_M.
  split; [|apply Z.mod_pos_bound; lia]. zlia.
Qed.

(** ** Witnesses *)

Section Demo.
(** A kernel that keeps the list of the pages asked for. *)
Instance demo_calls : Syscalls (list Z) := {
  sys_open _ os := Ret (0, os); sys_close _ os := Ret (0, os); sys_read _ _ os := Ret (0, [], os);
  sys_write _ bs os := Ret (zlen bs, os); sys_fcntl _ _ _ os := Ret (0, os); sys_exec _ os := Ret (0, os);
  sys_pgmap page os := Ret (0, os ++ [page]); sys_procinfo _ os := Ret (0x3000, 7, os);
}.

(** The program ends at 0x3000: 152 chunks are taken. *)
Definition demo_segs : list seg := SBlock 151 :: replicate 1536 SFree.
Definition demo_uheap : uheap := UHeap (cells demo_segs) 7 0x3000.

Lemma demo_segs_length : zlen (cells demo_segs) = heap_chunks.
Proof. reflexivity. Qed.

Lemma demo_pgmap : pgmap_returns.
Proof. intros page os. by eexists _, _. Qed.

Lemma malloc_first_fit_witness :
  exists base u' os', malloc 5000 demo_uheap [] = Ret (base, u', os') /\ base <> 0 /\
    free base u' = Ret (UHeap (cells demo_segs) (u_mem_pages u') 0x3000).
Proof.
  destruct (malloc_first_fit demo_uheap demo_segs 5000 [] demo_pgmap eq_refl demo_segs_length ltac:(lia))
    as [(pre & rest & mp & os' & Hs & Hno & E & Hmp & Hfree)|[Hno _]].
  - eexists _, _, os'. split; [exact E|]. split; [|exact Hfree].
    unfold user_ptr, MIN_HEAP_START, MEMORY_CHUNK. clear. lia.
  - exfalso. apply (Hno (length (cells [SBlock 151]))).
    apply (free_run_at [SBlock 151] (needed 5000) (replicate 1379 SFree)).
Defined.

(** A block of two chunks from 0x2FE0 on reaches into page 3, which is not
    mapped: only the size is counted in pages, not where the block starts. *)
Lemma malloc_straddle :
  malloc 64 (UHeap (cells (SBlock 150 :: replicate 1537 SFree)) 3 0x2fe0) [] =
    Ret (0x2fe0, UHeap (cells (SBlock 150 :: SBlock 1 :: replicate 1535 SFree)) 7 0x2fe0, [2]) /\
  Z.shiftr (0x2fe0 + 63) 12 = 3.
Proof. vm_compute. done. Qed.
End Demo.
