(* ===== verification/Stdio.v ===== *)
(** * Streams of the C library (lib/libc/src/stdio.c, initfini.c)

    A stream is a file descriptor with a buffer that is written out when it is
    full, when it is flushed, and, for a line-buffered stream, at the end of a
    line.  The kernel is behind [Syscalls]; the heap is the one of Libc.v. *)

From S2P Require Import Prelude Interfaces Kmalloc CString Libc.

Definition FILE_BUFF_SIZE : Z := 64.
Definition FILE_FLAG_READ : Z := 1.
Definition FILE_FLAG_WRITE : Z := 2.
Definition BUFF_TYPE_UNBUFF : Z := 0.
Definition BUFF_TYPE_LINEBUFF : Z := 1.
Definition BUFF_TYPE_FULLBUFF : Z := 2.
Definition EOF : Z := -1.
Definition F_GETFL : Z := 1.
Definition F_SETFL : Z := 2.
Definition F_CUSTOM : Z := 0x100.        (** [F_DRIVER_CUSTOM_START] *)
Definition SYS_F_FLAGS : Z := 0.         (** [F_FLAGS] *)
Definition NEWLINE : Z := 10.

(** [struct __FILE_INTERNAL] *)
Record FILE := File {
  file_fd : Z;
  flags : Z;
  buff_type : Z;
  buff : Z;
  buff_size : Z;
  buff_clen : Z;
  status : Z;
}.

Definition sizeof_FILE : Z := 14.

(** The addresses of [__stdin], [__stdout] and [__stderr]. *)
Definition STDIN : Z := -1.
Definition STDOUT : Z := -2.
Definition STDERR : Z := -3.

Definition __stdin : FILE := File 0 FILE_FLAG_READ BUFF_TYPE_UNBUFF 0 0 0 0.
Definition __stdout : FILE := File 1 FILE_FLAG_WRITE BUFF_TYPE_LINEBUFF 0 0 0 0.
Definition __stderr : FILE := File 2 FILE_FLAG_WRITE BUFF_TYPE_UNBUFF 0 0 0 0.

(** The string "/dev/tty". *)
Definition dev_tty : list Z := [47; 100; 101; 118; 47; 116; 116; 121; 0].

(** The first [n] bytes at a pointer into [b]. *)
Definition bytes_at (b : list Z) (n : Z) : outcome (list Z) :=
  if n <=? zlen b then Ret (take (Z.to_nat n) b) else Fault.

Definition set_clen (x : Z) (f : FILE) : FILE :=
  File (file_fd f) (flags f) (buff_type f) (buff f) (buff_size f) x (status f).
Definition set_status (x : Z) (f : FILE) : FILE :=
  File (file_fd f) (flags f) (buff_type f) (buff f) (buff_size f) (buff_clen f) x.
Definition set_fd (x : Z) (f : FILE) : FILE :=
  File x (flags f) (buff_type f) (buff f) (buff_size f) (buff_clen f) (status f).

Section Stdio.
Context {O : Type} `{Syscalls O}.

(** The state of a process: the kernel, the heap, the streams and the buffers
    by their addresses. *)
Record libc := LibcState {
  l_os : O;
  l_heap : uheap;
  l_files : gmap Z FILE;
  l_bufs : gmap Z (list Z);
}.

Definition set_os (os : O) (l : libc) : libc := LibcState os (l_heap l) (l_files l) (l_bufs l).
Definition set_uheap (u : uheap) (l : libc) : libc := LibcState (l_os l) u (l_files l) (l_bufs l).
Definition put_file (p : Z) (f : FILE) (l : libc) : libc := LibcState (l_os l) (l_heap l) (<[p := f]> (l_files l)) (l_bufs l).
Definition put_buf (p : Z) (b : list Z) (l : libc) : libc := LibcState (l_os l) (l_heap l) (l_files l) (<[p := b]> (l_bufs l)).

Definition l_malloc (size : Z) (l : libc) : outcome (Z * libc) :=
  '(p, u, os) ← malloc size (l_heap l) (l_os l);
  Ret (p, set_os os (set_uheap u l)).

Definition l_free (p : Z) (l : libc) : outcome libc :=
  u ← free p (l_heap l); Ret (set_uheap u l).

(** ** The code *)

Definition fflush (file : Z) (l : libc) : outcome (Z * libc) :=
  f ← deref (l_files l) file;
  if (buff_type f =? BUFF_TYPE_UNBUFF) || (buff_clen f =? 0) then Ret (0, l)
  else
    b ← deref (l_bufs l) (buff f);
    bs ← bytes_at b (buff_clen f);
    '(sys_res, os) ← sys_write (file_fd f) bs (l_os l);
    let f := set_clen 0 f in
    if sys_res <? 0 then Ret (EOF, put_file file (set_status (i16 (sys_res * -1)) f) (set_os os l))
    else Ret (0, put_file file f (set_os os l)).

(** The size is 16 bits wide; [buffer] is the array the argument points into. *)
Definition fwrite (buffer : list Z) (size nmemb : Z) (stream : Z) (l : libc) : outcome (Z * libc) :=
  let size := u16 (size * nmemb) in
  f ← deref (l_files l) stream;
  bs ← bytes_at buffer size;
  let fits := negb (buff_type f =? BUFF_TYPE_UNBUFF) && (u16 (buff_clen f + size) <=? buff_size f) in
  let write_to_buff :=
    if (buff_type f =? BUFF_TYPE_LINEBUFF) && bool_decide (NEWLINE ∈ bs) then false else fits in
  if write_to_buff then
    b ← deref (l_bufs l) (buff f);
    b ← memcpy b (buff_clen f) buffer 0 size;
    Ret (size, put_file stream (set_clen (u16 (buff_clen f + size)) f) (put_buf (buff f) b l))
  else
    '(r, l) ← fflush stream l;
    if negb (r =? 0) then Ret (0, l)
    else
      '(sys_res, os) ← sys_write (file_fd f) bs (l_os l);
      f ← deref (l_files l) stream;
      if sys_res <? 0 then Ret (0, put_file stream (set_status (i16 (sys_res * -1)) f) (set_os os l))
      else Ret (u16 sys_res, put_file stream (set_status 0 f) (set_os os l)).

(** Also gives the buffer after the call. *)
Definition fread (buffer : list Z) (size nmemb : Z) (stream : Z) (l : libc) : outcome (Z * list Z * libc) :=
  f ← deref (l_files l) stream;
  '(sys_res, bs, os) ← sys_read (file_fd f) (u16 (size * nmemb)) (l_os l);
  let l := set_os os l in
  if sys_res <? 0 then Ret (0, buffer, put_file stream (set_status (i16 (sys_res * -1)) f) l)
  else
    let f := if sys_res =? 0 then set_status EOF f else f in
    Ret (u16 sys_res, splice buffer 0 bs, put_file stream (set_status 0 f) l).

Definition fputc (ch stream : Z) (l : libc) : outcome (Z * libc) :=
  '(r, l) ← fwrite [u8 ch] 1 1 stream l;
  Ret (if negb (r =? 0) then ch else EOF, l).

Definition fputs (str : list Z) (stream : Z) (l : libc) : outcome (Z * libc) :=
  n ← strlen str 0;
  '(r, l) ← fwrite str n 1 stream l;
  Ret (if negb (r =? 0) then i16 r else EOF, l).

Definition fclose (file : Z) (l : libc) : outcome (Z * libc) :=
  f ← deref (l_files l) file;
  if file_fd f =? -1 then Ret (EOF, l)
  else
    '(r, l) ← fflush file l;
    let err := if negb (r =? 0) then 1 else 0 in
    '(c, os) ← sys_close (file_fd f) (l_os l);
    let l := set_os os l in
    let err := if negb (c =? 0) then 1 else err in
    l ← (if negb (buff_type f =? BUFF_TYPE_UNBUFF) then l_free (buff f) l else Ret l);
    f ← deref (l_files l) file;
    l ← (if (file =? STDIN) || (file =? STDOUT) || (file =? STDERR) then Ret (put_file file (set_fd (-1) f) l)
         else l ← l_free file l; Ret (LibcState (l_os l) (l_heap l) (delete file (l_files l)) (l_bufs l)));
    Ret (err * EOF, l).

(** [junk] is what the new structure holds before the call. *)
Definition fopen (junk : FILE) (path : list Z) (l : libc) : outcome (Z * libc) :=
  '(fd, os) ← sys_open path (l_os l);
  let l := set_os os l in
  if fd <? 0 then Ret (0, l)
  else
    '(file, l) ← l_malloc sizeof_FILE l;
    if file =? 0 then Fault
    else Ret (file, put_file file (File fd 0 BUFF_TYPE_UNBUFF (buff junk) (buff_size junk) (buff_clen junk) 0) l).

(** [bytes] is what the new buffer holds before the call. *)
Definition __stdio_init (bytes : list Z) (l : libc) : outcome libc :=
  o ← deref (l_files l) STDOUT;
  '(p, l) ← l_malloc FILE_BUFF_SIZE l;
  let l := put_file STDOUT (File (file_fd o) (flags o) (buff_type o) p FILE_BUFF_SIZE (buff_clen o) (status o))
             (put_buf p bytes l) in
  let open (s : Z) (l : libc) :=
    '(fd, os) ← sys_open dev_tty (l_os l);
    f ← deref (l_files l) s;
    Ret (put_file s (set_fd fd f) (set_os os l)) in
  l ← open STDIN l;
  l ← open STDOUT l;
  open STDERR l.

Definition __stdio_fini (l : libc) : outcome libc :=
  '(_, l) ← fclose STDIN l;
  '(_, l) ← fclose STDOUT l;
  '(_, l) ← fclose STDERR l;
  Ret l.

(** *** initfini.c *)

Definition __libc_init (bytes : list Z) (l : libc) : outcome libc :=
  '(u, os) ← __malloc_init (l_heap l) (l_os l);
  __stdio_init bytes (set_os os (set_uheap u l)).

Definition __libc_fini (l : libc) : outcome libc := __stdio_fini l.

Definition fcntl (file mode fl : Z) (l : libc) : outcome (Z * libc) :=
  f ← deref (l_files l) file;
  if mode =? F_GETFL then
    '(r, os) ← sys_fcntl (file_fd f) SYS_F_FLAGS 65535 (l_os l); Ret (r, set_os os l)
  else if mode =? F_SETFL then
    '(r, os) ← sys_fcntl (file_fd f) SYS_F_FLAGS fl (l_os l);
    Ret (if r <? 0 then r else 0, set_os os l)
  else if F_CUSTOM <=? mode then
    '(r, os) ← sys_fcntl (file_fd f) mode fl (l_os l); Ret (r, set_os os l)
  else Ret (-1, l).

Definition execf (file : Z) (l : libc) : outcome (Z * libc) :=
  f ← deref (l_files l) file;
  '(r, os) ← sys_exec (file_fd f) (l_os l);
  Ret (r, set_os os l).

(** ** What a stream promises

    [written os fd] are the bytes the device behind descriptor [fd] has
    received; it takes up to [limit] bytes at a time. *)

Context (written : O -> Z -> list Z) (limit : Z).

Definition accepts : Prop := limit < 32768 /\ forall fd bs os, zlen bs <= limit ->
  exists os', sys_write fd bs os = Ret (zlen bs, os') /\ written os' fd = written os fd ++ bs.

(** The stream at address [s], with the bytes [pend] in its buffer. *)
Record stream_ok (l : libc) (s : Z) (f : FILE) (pend : list Z) : Prop := {
  so_file : l_files l !! s = Some f;
  so_buffer : if buff_type f =? BUFF_TYPE_UNBUFF then pend = []
    else exists b, l_bufs l !! buff f = Some b /\ zlen b = buff_size f /\
      0 <= buff_clen f <= buff_size f /\ buff_size f <= limit /\ pend = take (Z.to_nat (buff_clen f)) b;
}.

(** The streams agree in all but their status and fill level. *)
Definition same_stream (f f' : FILE) : Prop :=
  file_fd f' = file_fd f /\ buff_type f' = buff_type f /\ buff f' = buff f /\ buff_size f' = buff_size f.

Lemma bytes_at_all b x : bytes_at (b ++ x) (zlen b) = Ret b.
Proof.
  unfold bytes_at. rewrite (proj2 (Z.leb_le _ _)) by (rewrite length_app; lia).
  by rewrite Nat2Z.id, take_app_length.
Qed.

Lemma bytes_at_take b n : 0 <= n <= zlen b -> bytes_at b n = Ret (take (Z.to_nat n) b).
Proof. intros Hn. unfold bytes_at. by rewrite (proj2 (Z.leb_le _ _)) by lia. Qed.

Lemma fflush_ok l s f pend : accepts -> stream_ok l s f pend ->
  exists l' f', fflush s l = Ret (0, l') /\ stream_ok l' s f' [] /\ same_stream f f' /\
    written (l_os l') (file_fd f) = written (l_os l) (file_fd f) ++ pend.
Proof.
  intros [Hl Hw] [Hf Hb]. unfold fflush. rewrite (deref_Some _ _ _ Hf). cbn [mbind outcome_bind].
  destruct (Z.eqb_spec (buff_type f) BUFF_TYPE_UNBUFF) as [Ht|Ht]; cbn [orb].
  { subst pend. exists l, f. split; [done|]. split; [split; [done|by rewrite Ht]|]. split; [done|].
    by rewrite app_nil_r. }
  destruct Hb as (b & Hbuf & Hlen & Hc & Hlim & ->).
  destruct (Z.eqb_spec (buff_clen f) 0) as [Hc0|Hc0].
  { exists l, f. split; [done|]. rewrite Hc0. split; [|split; [done|by rewrite app_nil_r]].
    split; [done|]. rewrite (eqb_ne _ _ Ht). exists b. rewrite Hc0. split_and!; try done; lia. }
  rewrite (deref_Some _ _ _ Hbuf). cbn [mbind outcome_bind]. rewrite bytes_at_take by lia. cbn [mbind outcome_bind].
  destruct (Hw (file_fd f) (take (Z.to_nat (buff_clen f)) b) (l_os l)) as (os' & -> & Hw').
  { rewrite length_take. lia. }
  cbn [mbind outcome_bind]. rewrite (proj2 (Z.ltb_ge _ _)) by lia.
  eexists _, (set_clen 0 f). split; [done|]. split; [|split; [done|exact Hw']].
  split; [apply lookup_insert_eq|]. simpl. rewrite (eqb_ne _ _ Ht). exists b. split_and!; try done; simpl; lia.
Qed.

Lemma fwrite_buffers l s f pend data x n k : n * k = zlen data -> accepts -> stream_ok l s f pend ->
  buff_type f <> BUFF_TYPE_UNBUFF -> buff_clen f + zlen data <= buff_size f ->
  ~ (buff_type f = BUFF_TYPE_LINEBUFF /\ NEWLINE ∈ data) ->
  exists l' f', fwrite (data ++ x) n k s l = Ret (zlen data, l') /\ stream_ok l' s f' (pend ++ data) /\
    same_stream f f' /\ l_os l' = l_os l.
Proof.
  intros Hnk [Hl Hw] [Hf Hb] Ht Hfit Hnl. rewrite (eqb_ne _ _ Ht) in Hb. destruct Hb as (b & Hbuf & Hlen & Hc & Hlim & ->).
  unfold fwrite. rewrite Hnk, (u16_small (zlen data)) by lia.
  rewrite (deref_Some _ _ _ Hf). cbn [mbind outcome_bind]. rewrite bytes_at_all. cbn [mbind outcome_bind].
  rewrite (u16_small (buff_clen f + zlen data)) by lia.
  assert ((buff_type f =? BUFF_TYPE_LINEBUFF) && bool_decide (NEWLINE ∈ data) = false) as ->.
  { apply andb_false_iff. destruct (Z.eqb_spec (buff_type f) BUFF_TYPE_LINEBUFF); [right|by left].
    apply bool_decide_eq_false. naive_solver. }
  rewrite (eqb_ne _ _ Ht), (proj2 (Z.leb_le _ _)) by lia. cbn [negb andb].
  rewrite (deref_Some _ _ _ Hbuf). cbn [mbind outcome_bind].
  rewrite (memcpy_at _ _ _ _ _ [] data x); [|done|done|lia..].
  cbn [mbind outcome_bind]. eexists _, (set_clen (buff_clen f + zlen data) f). split; [done|]. split; [|done].
  split; [apply lookup_insert_eq|]. simpl. rewrite (eqb_ne _ _ Ht).
  exists (splice b (buff_clen f) data). split_and!; try lia.
  - apply lookup_insert_eq.
  - by rewrite length_splice by lia.
  - unfold splice. rewrite Z2Nat.inj_add, Nat2Z.id by lia.
    rewrite app_assoc, take_app_length'; [done|]. rewrite length_app, length_take. lia.
Qed.

Lemma fwrite_through l s f pend data x n k : n * k = zlen data -> accepts -> stream_ok l s f pend -> zlen data <= limit ->
  buff_type f = BUFF_TYPE_UNBUFF \/
    (buff_type f <> BUFF_TYPE_UNBUFF /\ buff_size f < buff_clen f + zlen data) \/
    (buff_type f = BUFF_TYPE_LINEBUFF /\ NEWLINE ∈ data) ->
  exists l' f', fwrite (data ++ x) n k s l = Ret (zlen data, l') /\ stream_ok l' s f' [] /\ same_stream f f' /\
    written (l_os l') (file_fd f) = written (l_os l) (file_fd f) ++ pend ++ data.
Proof.
  intros Hnk A So Hd Hcase. pose proof A as [Hl Hw].
  unfold fwrite. rewrite Hnk, (u16_small (zlen data)) by lia.
  rewrite (deref_Some _ _ _ (so_file _ _ _ _ So)). cbn [mbind outcome_bind]. rewrite bytes_at_all.
  cbn [mbind outcome_bind].
  match goal with |- context [if (if ?c then false else ?d) then _ else _] => assert ((if c then false else d) = false) as -> end.
  { destruct Hcase as [->|[[Ht Hsz]|[-> Hn]]].
    - by destruct (_ && bool_decide _).
    - destruct So as [_ Hb]. rewrite (eqb_ne _ _ Ht) in Hb. destruct Hb as (b & _ & _ & Hc & Hlim & _).
      rewrite u16_small, (proj2 (Z.leb_gt _ _)) by lia. rewrite andb_false_r. by destruct (_ && bool_decide _).
    - by rewrite bool_decide_true. }
  destruct (fflush_ok l s f pend A So) as (l1 & f1 & -> & So1 & (Hfd & Hty & Hbu & Hsz) & Hw1).
  cbn [mbind outcome_bind Z.eqb negb].
  destruct (Hw (file_fd f) data (l_os l1) Hd) as (os' & -> & Hw2). cbn [mbind outcome_bind].
  rewrite (deref_Some _ _ _ (so_file _ _ _ _ So1)). cbn [mbind outcome_bind].
  rewrite (proj2 (Z.ltb_ge _ _)), u16_small by lia.
  eexists _, (set_status 0 f1). split; [done|]. split; [|split; [done|]].
  - destruct So1 as [_ Hb1]. split; [apply lookup_insert_eq|exact Hb1].
  - simpl. rewrite Hw2, Hw1. by rewrite app_assoc.
Qed.

(** The stream must not keep anything back: it has no buffer, or is
    line-buffered and has been given the end of a line. *)
Definition prompt (f : FILE) (data : list Z) : Prop :=
  buff_type f = BUFF_TYPE_UNBUFF \/ buff_type f = BUFF_TYPE_LINEBUFF /\ NEWLINE ∈ data.

Lemma fwrite_ok l s f pend data x n k : n * k = zlen data -> accepts -> stream_ok l s f pend -> zlen data <= limit ->
  exists l' f' pend', fwrite (data ++ x) n k s l = Ret (zlen data, l') /\ stream_ok l' s f' pend' /\
    same_stream f f' /\ (prompt f data -> pend' = []) /\
    written (l_os l') (file_fd f) ++ pend' = written (l_os l) (file_fd f) ++ pend ++ data.
Proof.
  intros Hnk A So Hd.
  destruct (decide (prompt f data)) as [Hp|Hp]; [|destruct (decide (buff_size f < buff_clen f + zlen data))].
  - destruct (fwrite_through l s f pend data x n k Hnk A So Hd) as (l' & f' & E & So' & Hs & Hw); [destruct Hp; auto|].
    exists l', f', []. by rewrite app_nil_r.
  - destruct (fwrite_through l s f pend data x n k Hnk A So Hd) as (l' & f' & E & So' & Hs & Hw).
    { right. left. split; [|done]. intros Ht. apply Hp. by left. }
    exists l', f', []. by rewrite app_nil_r.
  - destruct (fwrite_buffers l s f pend data x n k Hnk A So) as (l' & f' & E & So' & Hs & Ho); [|lia| |].
    + intros Ht. apply Hp. by left.
    + intros Hn. apply Hp. by right.
    + exists l', f', (pend ++ data). by rewrite Ho.
Qed.

(** A sequence of writes. *)
Fixpoint write_all (ds : list (list Z)) (s : Z) (l : libc) : outcome libc :=
  match ds with
  | [] => Ret l
  | d :: ds => '(r, l) ← fwrite d 1 (zlen d) s l; _ ← ASSERT (r =? zlen d); write_all ds s l
  end.

(** C22. Buffering is invisible.  Whatever is written to a stream by [fwrite] in
    pieces reaches the device in order, without loss or repetition: what the device
    has received and what is still in the buffer are together what was there
    and all the pieces; nothing is held back by an unbuffered stream, nor by a
    line-buffered one when the last piece has a newline in it; and after [fflush] the
    device has everything.  Every write reports the full size.  This holds for a
    stream whose buffer has the size of its [FILE] and is not longer than
    [limit], for pieces of at most [limit] bytes, and for a system call that takes
    up to [limit] < 32768 bytes at a time ([accepts]; the terminal takes 128, and
    the buffer of a stream has 64). *)
Theorem stream_in_order l s f pend ds : accepts -> stream_ok l s f pend ->
  Forall (fun d => zlen d <= limit) ds ->
  exists l' f' pend', write_all ds s l = Ret l' /\ stream_ok l' s f' pend' /\ same_stream f f' /\
    written (l_os l') (file_fd f) ++ pend' = written (l_os l) (file_fd f) ++ pend ++ concat ds /\
    (forall d, last ds = Some d -> prompt f d -> pend' = []) /\
    exists l'', fflush s l' = Ret (0, l'') /\
      written (l_os l'') (file_fd f) = written (l_os l) (file_fd f) ++ pend ++ concat ds.
Proof.
  intros A So Hds.
  assert (G : exists l' f' pend', write_all ds s l = Ret l' /\ stream_ok l' s f' pend' /\ same_stream f f' /\
    written (l_os l') (file_fd f) ++ pend' = written (l_os l) (file_fd f) ++ pend ++ concat ds /\
    (forall d, last ds = Some d -> prompt f d -> pend' = [])).
  { revert l f pend So. induction Hds as [|d ds Hd Hds IH]; intros l f pend So.
    - exists l, f, pend. rewrite app_nil_r. by split_and!.
    - destruct (fwrite_ok l s f pend d [] 1 (zlen d) ltac:(lia) A So Hd) as (l1 & f1 & p1 & E & So1 & Hs1 & Hp1 & Hw1).
      rewrite app_nil_r in E. simpl. rewrite E. cbn [mbind outcome_bind]. rewrite Z.eqb_refl. cbn [ASSERT mbind outcome_bind].
      destruct (IH l1 f1 p1 So1) as (l2 & f2 & p2 & E2 & So2 & Hs2 & Hw2 & Hp2).
      destruct Hs1 as (Hfd & Hty & Hbu & Hsz). rewrite Hfd in Hw2.
      exists l2, f2, p2. split; [done|]. split; [done|].
      split; [destruct Hs2 as (? & ? & ? & ?); unfold same_stream; split_and!; congruence|]. split.
      + rewrite Hw2, app_assoc, Hw1. by rewrite <-!app_assoc.
      + intros d' Hd' Hpr. destruct ds as [|d2 ds].
        * simpl in Hd', E2, Hw2. injection Hd' as <-. injection E2 as <-.
          apply (app_inv_head (written (l_os l1) (file_fd f))). rewrite Hw2, app_nil_r, (Hp1 Hpr). by rewrite app_nil_r.
        * apply (Hp2 d' Hd'). unfold prompt in *. by rewrite Hty. }
  destruct G as (l' & f' & pend' & E & So' & Hs & Hw & Hp). exists l', f', pend'. split_and!; try done.
  destruct (fflush_ok l' s f' pend' A So') as (l2 & f2 & E2 & _ & _ & Hw2).
  exists l2. split; [done|]. destruct Hs as (Hfd & _). rewrite Hfd in Hw2. by rewrite Hw2.
Qed.

(** Errors of the device.  When the kernel refuses a write with the error
    [e], [fflush] of a stream with something in its buffer gives EOF and drops
    what was in the buffer, [fwrite] to an unbuffered stream gives 0, and both
    leave [e] in the status of the stream. *)
Theorem stream_errors l s f e os' bs :
  l_files l !! s = Some f -> 0 < e < 32768 ->
  sys_write (file_fd f) bs (l_os l) = Ret (- e, os') ->
  (forall b, buff_type f <> BUFF_TYPE_UNBUFF -> 0 < buff_clen f -> l_bufs l !! buff f = Some b ->
     bytes_at b (buff_clen f) = Ret bs ->
     fflush s l = Ret (EOF, put_file s (set_status e (set_clen 0 f)) (set_os os' l))) /\
  (zlen bs < 65536 -> buff_type f = BUFF_TYPE_UNBUFF ->
     fwrite bs 1 (zlen bs) s l = Ret (0, put_file s (set_status e f) (set_os os' l))).
Proof.
  intros Hf He Hw. split.
  - intros b Ht Hc Hb Hbs. unfold fflush. rewrite (deref_Some _ _ _ Hf). cbn [mbind outcome_bind].
    rewrite (eqb_ne _ _ Ht), eqb_ne by lia. cbn [orb]. rewrite (deref_Some _ _ _ Hb). cbn [mbind outcome_bind].
    rewrite Hbs. cbn [mbind outcome_bind]. rewrite Hw. cbn [mbind outcome_bind].
    rewrite (proj2 (Z.ltb_lt _ _)) by lia. by replace (i16 (- e * -1)) with e by (rewrite i16_small; lia).
  - intros Hl Ht. unfold fwrite. rewrite Z.mul_1_l, u16_small by lia.
    rewrite (deref_Some _ _ _ Hf). cbn [mbind outcome_bind].
    assert (E : bytes_at bs (zlen bs) = Ret bs) by (rewrite <-(app_nil_r bs) at 1; apply bytes_at_all).
    rewrite E. cbn [mbind outcome_bind]. rewrite Ht. cbn [Z.eqb negb andb]. unfold fflush. rewrite (deref_Some _ _ _ Hf). cbn [mbind outcome_bind].
    rewrite Ht. cbn [Z.eqb orb negb mbind outcome_bind]. simpl. rewrite Hw. cbn [mbind outcome_bind].
    rewrite (deref_Some _ _ _ Hf). cbn [mbind outcome_bind].
    rewrite (proj2 (Z.ltb_lt _ _)) by lia. by replace (i16 (- e * -1)) with e by (rewrite i16_small; lia).
Qed.
End Stdio.

(** ** Witnesses: standard output, line-buffered *)

Section Demo.
(** A kernel that keeps what was written to each descriptor; with [refuse] it
    answers every write with an error. *)
Definition demo_calls (refuse : bool) : Syscalls (Z -> list Z) := {|
  sys_open _ os := Ret (0, os); sys_close _ os := Ret (0, os); sys_read _ _ os := Ret (0, [], os);
  sys_write fd bs os :=
    if refuse then Ret (-9, os) else Ret (zlen bs, fun x => if x =? fd then os x ++ bs else os x);
  sys_fcntl _ _ _ os := Ret (0, os); sys_exec _ os := Ret (0, os);
  sys_pgmap _ os := Ret (0, os); sys_procinfo _ os := Ret (0x3000, 7, os);
|}.

Definition demo_file (type clen : Z) : FILE := File 1 FILE_FLAG_WRITE type 0x3000 64 clen 0.

Definition demo_libc (f : FILE) : @libc (Z -> list Z) :=
  LibcState (fun _ => []) (UHeap [] 0 0) {[STDOUT := f]} {[0x3000 := replicate 64 88]}.

Lemma demo_accepts : @accepts _ (demo_calls false) (fun os fd => os fd) 255.
Proof. split; [lia|]. intros fd bs os _. eexists. split; [reflexivity|]. simpl. by rewrite Z.eqb_refl. Qed.

(** "ab" stays in the buffer, "c" and a newline send both out. *)
Lemma stream_in_order_witness :
  exists l', @write_all _ (demo_calls false) [[97; 98]; [99; 10]] STDOUT (demo_libc (demo_file BUFF_TYPE_LINEBUFF 0)) = Ret l' /\
    l_os l' 1 = [97; 98; 99; 10].
Proof.
  destruct (@stream_in_order _ (demo_calls false) (fun os fd => os fd) 255
    (demo_libc (demo_file BUFF_TYPE_LINEBUFF 0)) STDOUT (demo_file BUFF_TYPE_LINEBUFF 0) []
    [[97; 98]; [99; 10]] demo_accepts) as (l' & f' & pend' & E & _ & _ & Hw & Hp & _).
  - split; [apply lookup_singleton_eq|]. exists (replicate 64 88). split; [apply lookup_singleton_eq|].
    simpl. split_and!; (lia || reflexivity).
  - repeat constructor; simpl; lia.
  - exists l'. split; [exact E|]. rewrite (Hp [99; 10] eq_refl) in Hw.
    + rewrite app_nil_r in Hw. exact Hw.
    + right. split; [reflexivity|]. apply (bool_decide_unpack _). vm_compute. exact I.
Defined.

Lemma stream_errors_witness :
  let f := demo_file BUFF_TYPE_LINEBUFF 3 in
  @fflush _ (demo_calls true) STDOUT (demo_libc f) =
    Ret (EOF, put_file STDOUT (set_status 9 (set_clen 0 f)) (demo_libc f)).
Proof.
  intros f. destruct (@stream_errors _ (demo_calls true) (demo_libc f) STDOUT f 9 (fun _ => []) [88; 88; 88]) as [T _].
  - apply lookup_singleton_eq.
  - lia.
  - reflexivity.
  - apply (T (replicate 64 88)); [discriminate|simpl; lia|apply lookup_singleton_eq|reflexivity].
Defined.
End Demo.
