(* ===== verification/Printf.v ===== *)
(** * Formatted output of the C library (lib/libc/src/printf.c)

    One engine writes to a stream or into a bounded array.  The digits of a
    number are produced as in the kernel (Kprintf.v), and so is the reference
    text of a format. *)

From S2P Require Import Prelude Interfaces Kmalloc CString Kprintf Libc Stdio.

Definition UINT16_MAX : Z := 0xffff.

Section Printf.
Context {OS : Type} `{Syscalls OS}.

(** The static variables.  [dest] is the array at address [dest_at] that
    [__buff_to_write] points into. *)
Record pf := Pf {
  pf_libc : @libc OS;
  __write_to_stream : bool;
  __stream_to_write : Z;
  dest : list Z;
  dest_at : Z;
  __buff_to_write : Z;
  __buff_max : Z;
  __printf_size : Z;
}.

(** A local array of six characters, of any content. *)
Context (tmp : list Z).

(** ** The code *)

Definition after_stream (r : Z) (l : libc) (p : pf) : pf :=
  Pf l (__write_to_stream p) (__stream_to_write p) (dest p) (dest_at p) (__buff_to_write p) (__buff_max p)
    (i16 (__printf_size p + r)).

Definition after_copy (d : list Z) (n : Z) (p : pf) : pf :=
  Pf (pf_libc p) (__write_to_stream p) (__stream_to_write p) d (dest_at p) (u16 (__buff_to_write p + n))
    (__buff_max p) (i16 (__printf_size p + n)).

Definition __printf_write (buff : list Z) (len : Z) (p : pf) : outcome pf :=
  if __write_to_stream p then
    '(r, l) ← fwrite buff len 1 (__stream_to_write p) (pf_libc p);
    Ret (after_stream r l p)
  else
    let to_write := if __buff_max p <=? u16 (__buff_to_write p + len)
                    then i16 (__buff_max p - __buff_to_write p) else i16 len in
    d ← memcpy (dest p) (__buff_to_write p - dest_at p) buff 0 len;
    Ret (after_copy d to_write p).

Definition __printf_putc (c : Z) (p : pf) : outcome pf :=
  if __write_to_stream p then
    '(r, l) ← fwrite [c] 1 1 (__stream_to_write p) (pf_libc p);
    Ret (after_stream r l p)
  else if __buff_to_write p <? __buff_max p then
    d ← arr_set (dest p) (__buff_to_write p - dest_at p) c;
    Ret (after_copy d 1 p)
  else Ret p.

Definition __printf_utoa (num base : Z) (p : pf) : outcome pf :=
  if num =? 0 then __printf_putc 48 p
  else
    '(buff, pos) ← digit_loop 16 tmp 0 num base 0;
    buff ← reverse_loop buff 0 pos;
    __printf_write buff pos p.

Definition print_int (args : list arg) (p : pf) : outcome (list arg * pf) :=
  '(i_param, args) ← va_int args;
  '(i_param, p) ← (if i_param <? 0 then p ← __printf_putc 45 p; Ret (i16 (i_param * -1), p)
                   else Ret (i_param, p));
  p ← __printf_utoa (u16 i_param) 10 p;
  Ret (args, p).

Definition print_unsigned (base : Z) (args : list arg) (p : pf) : outcome (list arg * pf) :=
  '(i_param, args) ← va_int args;
  p ← __printf_utoa (u16 i_param) base p;
  Ret (args, p).

Definition print_str (args : list arg) (p : pf) : outcome (list arg * pf) :=
  '(s_param, args) ← va_str args;
  n ← strlen s_param 0;
  p ← __printf_write s_param n p;
  Ret (args, p).

Definition print_chr (args : list arg) (p : pf) : outcome (list arg * pf) :=
  '(c_param, args) ← va_int args;
  p ← __printf_putc (u8 c_param) p;
  Ret (args, p).

(** The character [c] after a percent sign, at index [s]; an unknown one prints
    a space and is read again as text. *)
Definition conversion (c s : Z) (args : list arg) (p : pf) : outcome (list arg * pf * Z) :=
  let ok (r : outcome (list arg * pf)) (s : Z) := x ← r; Ret (x, s) in
  if (c =? 100) || (c =? 105) then ok (print_int args p) (s + 1)         (* d, i *)
  else if c =? 117 then ok (print_unsigned 10 args p) (s + 1)            (* u *)
  else if c =? 120 then ok (print_unsigned 16 args p) (s + 1)            (* x *)
  else if c =? 115 then ok (print_str args p) (s + 1)                    (* s *)
  else if c =? 99 then ok (print_chr args p) (s + 1)                     (* c *)
  else ok (p ← __printf_putc 32 p; Ret (args, p)) s.

(** Every turn reads at least one character of the format. *)
Fixpoint core_loop (fuel : nat) (str : list Z) (s : Z) (args : list arg) (p : pf) {struct fuel} : outcome pf :=
  match fuel with
  | O => Hang
  | S fuel =>
    c ← arr_get str s;
    if c =? 0 then Ret p
    else if c =? 37 then
      c ← arr_get str (s + 1);
      '(args, p, s) ← conversion c (s + 1) args p;
      core_loop fuel str s args p
    else
      p ← __printf_putc c p;
      core_loop fuel str (s + 1) args p
  end.

Definition set_max (x : Z) (p : pf) : pf :=
  Pf (pf_libc p) (__write_to_stream p) (__stream_to_write p) (dest p) (dest_at p) (__buff_to_write p) x (__printf_size p).

Definition __printf_core (str : list Z) (args : list arg) (p : pf) : outcome pf :=
  p ← core_loop (S (length str)) str 0 args p;
  if negb (__write_to_stream p) then __printf_putc 0 (set_max (u16 (__buff_max p + 1)) p)
  else Ret p.

Definition vfprintf (stream : Z) (format : list Z) (vlist : list arg) (p : pf) : outcome (Z * pf) :=
  p ← __printf_core format vlist
        (Pf (pf_libc p) true stream (dest p) (dest_at p) (__buff_to_write p) (__buff_max p) 0);
  Ret (__printf_size p, p).

(** [buffer] is the address of the array [d]. *)
Definition vsnprintf (buffer : Z) (d : list Z) (bufsz : Z) (format : list Z) (vlist : list arg) (p : pf)
  : outcome (Z * pf) :=
  if bufsz =? 0 then Ret (0, p)
  else
    p ← __printf_core format vlist
          (Pf (pf_libc p) false (__stream_to_write p) d buffer buffer
             (if bufsz =? UINT16_MAX then 0xffff else u16 (buffer + bufsz - 1)) 0);
    Ret (__printf_size p, p).

(** The variadic functions pass their arguments on. *)
Definition fprintf := vfprintf.
Definition snprintf := vsnprintf.
Definition sprintf (buffer : Z) (d : list Z) := vsnprintf buffer d UINT16_MAX.
Definition vprintf := vfprintf STDOUT.
Definition printf := vfprintf STDOUT.

(** ** Any sink

    [sunk t p]: the text [t] has been printed; [room t]: it may be.  Both kinds
    of output take pieces of text one after another. *)

Record sink (sunk : list Z -> pf -> Prop) (room : list Z -> Prop) : Prop := {
  sink_write t s x p : sunk t p -> room (t ++ s) ->
    exists p', __printf_write (s ++ x) (zlen s) p = Ret p' /\ sunk (t ++ s) p';
  sink_putc t c p : sunk t p -> room (t ++ [c]) ->
    exists p', __printf_putc c p = Ret p' /\ sunk (t ++ [c]) p';
  sink_room t s : room (t ++ s) -> room t;
}.

Section Sink.
Context (sunk : list Z -> pf -> Prop) (room : list Z -> Prop) (K : sink sunk room).

Definition prints (t s : list Z) (args : list arg) (r : outcome (list arg * pf)) : Prop :=
  exists p', r = Ret (args, p') /\ sunk (t ++ s) p'.

Lemma length_num_text num base : 10 <= base <= 16 -> is_u16 num -> (length (num_text base num) <= 5)%nat.
Proof using.
  intros Hb Hn. unfold num_text. destruct (num =? 0); [simpl; lia|].
  rewrite length_reverse, length_fmap. assert (Hp : 0 <= num < base ^ Z.of_nat 5).
  { pose proof (Z.pow_le_mono_l 10 base 5). change (10 ^ 5) with 100000 in *. change (Z.of_nat 5) with 5. lia. }
  change 32%nat with (5 + 27)%nat. rewrite digits_rev_fuel by lia.
  clear. generalize 5%nat as fuel. intros fuel. revert num. induction fuel as [|fuel IH]; intros num; simpl;
    destruct (num =? 0); simpl; try lia. specialize (IH (num / base)). lia.
Qed.

Lemma utoa_prints t num base p :
  length tmp = 6%nat -> 10 <= base <= 16 -> is_u16 num -> sunk t p -> room (t ++ num_text base num) ->
  exists p', __printf_utoa num base p = Ret p' /\ sunk (t ++ num_text base num) p'.
Proof using K.
  intros Ht Hb Hn Hs Hr. pose proof (length_num_text num base Hb Hn) as H5.
  unfold __printf_utoa. unfold num_text in *. destruct (Z.eqb_spec num 0) as [->|Hz]; [by apply (sink_putc _ _ K)|].
  destruct (digits_16 num base) as [E16 Hpow]; [lia|done|]. rewrite E16 in *.
  rewrite length_reverse, length_fmap in H5.
  rewrite digit_loop_spec by (lia || done). cbn [mbind outcome_bind]. rewrite !Z.add_0_l.
  rewrite <-(length_fmap digit). rewrite reverse_splice by (rewrite ?length_fmap; lia).
  cbn [mbind outcome_bind]. rewrite <-length_reverse.
  set (ds := reverse (digit <$> digits_rev 16 num base)) in *.
  replace (splice tmp 0 ds) with (ds ++ drop (length ds) tmp) by done.
  by apply (sink_write _ _ K).
Qed.

Lemma int_prints t z args p :
  length tmp = 6%nat -> is_i16 z -> sunk t p -> room (t ++ (if z <? 0 then [45] else []) ++ num_text 10 (Z.abs z)) ->
  prints t ((if z <? 0 then [45] else []) ++ num_text 10 (Z.abs z)) args (print_int (AInt z :: args) p).
Proof using K.
  intros Ht Hz Hs Hr. unfold print_int, prints. simpl va_int. cbn [mbind outcome_bind].
  destruct (Z.ltb_spec z 0) as [Hneg|Hpos].
  - destruct (sink_putc _ _ K t 45 p Hs) as (p1 & -> & Hs1).
    { rewrite app_assoc in Hr. by apply (sink_room _ _ K) in Hr. }
    cbn [mbind outcome_bind]. assert (E : u16 (i16 (z * -1)) = Z.abs z) by (rewrite u16_i16; zlia).
    rewrite E. destruct (utoa_prints (t ++ [45]) (Z.abs z) 10 p1) as (p2 & -> & Hs2); try done; try lia.
    { by rewrite <-app_assoc. }
    exists p2. split; [done|]. by rewrite app_assoc.
  - cbn [mbind outcome_bind]. replace (u16 z) with (Z.abs z) by (rewrite u16_small; lia). simpl app in *.
    destruct (utoa_prints t (Z.abs z) 10 p) as (p2 & -> & Hs2); try done; try lia. by exists p2.
Qed.

Lemma unsigned_prints t z base args p :
  length tmp = 6%nat -> 10 <= base <= 16 -> sunk t p -> room (t ++ num_text base (u16 z)) ->
  prints t (num_text base (u16 z)) args (print_unsigned base (AInt z :: args) p).
Proof using K.
  intros Ht Hb Hs Hr. unfold print_unsigned, prints. simpl va_int. cbn [mbind outcome_bind].
  destruct (utoa_prints t (u16 z) base p) as (p2 & -> & Hs2); try done; [apply u16_range|]. by exists p2.
Qed.

Lemma str_prints t str txt args p :
  c_string str = Some txt -> zlen txt < 65536 -> sunk t p -> room (t ++ txt) ->
  prints t txt args (print_str (AStr str :: args) p).
Proof using K.
  intros Hc Hl Hs Hr. unfold print_str, prints. simpl va_str. cbn [mbind outcome_bind].
  pose proof (c_string_cstr _ _ Hc) as Hcs.
  unfold strlen. rewrite (strlen_loop_spec _ _ _ _ _ Hcs) by (try apply cstr_length in Hcs; lia).
  rewrite Z.add_0_l, u16_small by lia. cbn [mbind outcome_bind].
  assert (exists x, str = txt ++ x) as [x ->].
  { destruct Hcs as (pre & post & -> & Hp & _). destruct pre; [|simpl in Hp; lia]. by exists (0 :: post). }
  destruct (sink_write _ _ K t txt x p Hs Hr) as (p' & -> & Hs'). by exists p'.
Qed.

Definition user_item (it : item) : Prop := item_ok it /\ it <> ILongHex.

Lemma conversion_prints it args txt args' t p c cs s :
  length tmp = 6%nat -> user_item it -> is_lit it = false -> item_text it = [37; c] -> cs = s + 1 ->
  render_item it args = Some (txt, args') -> Forall arg_ok args -> sunk t p -> room (t ++ txt) ->
  exists p', conversion c s args p = Ret (args', p', cs) /\ sunk (t ++ txt) p'.
Proof using K.
  intros Ht [_ Hlx] Hlit Hit -> Hr Ha Hs Hroom. unfold conversion.
  assert (W : forall r, prints t txt args' r -> exists p', (x ← r; Ret (x, s + 1)) = Ret (args', p', s + 1) /\ sunk (t ++ txt) p').
  { intros r (p' & -> & Hp'). by exists p'. }
  destruct it as [?| | | | | | |]; simpl in Hit; simplify_eq; destruct args as [|[z|z|str] args]; simpl in Hr; try done;
    apply Forall_cons in Ha as [Ha _]; simpl in Ha; simplify_eq; simpl; try apply W.
  - by apply int_prints.
  - by apply int_prints.
  - apply unsigned_prints; (done || lia).
  - apply unsigned_prints; (done || lia).
  - destruct (c_string str) as [t'|] eqn:Es; simplify_eq/=. by eapply str_prints.
  - unfold prints, print_chr. simpl va_int. cbn [mbind outcome_bind].
    destruct (sink_putc _ _ K t (u8 z) p Hs Hroom) as (p' & -> & Hp'). by exists p'.
Qed.

(** The engine renders a format into any sink. *)
Lemma core_renders items : forall fuel args ts t p pre post,
  length tmp = 6%nat -> Forall user_item items -> Forall arg_ok args -> render items args = Some ts ->
  sunk t p -> room (t ++ ts) -> (length items < fuel)%nat ->
  exists p', core_loop fuel (pre ++ text_of items ++ 0 :: post) (zlen pre) args p = Ret p' /\ sunk (t ++ ts) p'.
Proof using K.
  induction items as [|it items IH]; intros [|fuel] args ts t p pre post Ht Hok Ha Hr Hs Hroom Hf; simpl in Hf; try lia.
  - simpl in Hr. simplify_eq. simpl core_loop. rewrite arr_get_middle. cbn [mbind outcome_bind Z.eqb].
    exists p. by rewrite app_nil_r.
  - apply Forall_cons in Hok as [Hit Hok]. simpl in Hr.
    destruct (render_item it args) as [[txt args']|] eqn:Er; [|done]. simpl in Hr.
    destruct (render items args') as [ts'|] eqn:Ers; [|done]. simplify_eq/=.
    pose proof (render_item_args _ _ _ _ Er Ha) as Ha'. rewrite app_assoc in Hroom.
    pose proof (sink_room _ _ K _ _ Hroom) as Hroom1.
    change (text_of (it :: items)) with (item_text it ++ text_of items). rewrite <-app_assoc.
    destruct (is_lit it) eqn:Hlit.
    + destruct it as [c| | | | | | |]; try done. simpl in Er. simplify_eq. destruct Hit as [[Hc0 Hc37] _].
      simpl. rewrite arr_get_middle. cbn [mbind outcome_bind]. rewrite !eqb_ne by done.
      destruct (sink_putc _ _ K t c p Hs Hroom1) as (p1 & -> & Hs1). cbn [mbind outcome_bind].
      destruct (IH fuel args' ts' (t ++ [c]) p1 (pre ++ [c]) post) as (p2 & E2 & Hs2); try done; [lia|].
      exists p2. rewrite <-app_assoc in Hs2. split; [|done]. rewrite zlen_app, <-app_assoc in E2. exact E2.
    + assert (exists c, item_text it = [37; c]) as [c Ec].
      { destruct Hit as [_ Hlx]. destruct it; simpl; eauto; done. }
      simpl core_loop. rewrite Ec. simpl app.
      rewrite arr_get_middle. cbn [mbind outcome_bind Z.eqb]. simpl.
      replace (pre ++ 37 :: c :: text_of items ++ 0 :: post) with ((pre ++ [37]) ++ c :: text_of items ++ 0 :: post)
        by (by rewrite <-app_assoc).
      replace (zlen pre + 1) with (zlen (pre ++ [37])) by (by rewrite zlen_app).
      rewrite arr_get_middle. cbn [mbind outcome_bind].
      destruct (conversion_prints it args txt args' t p c (zlen (pre ++ [37; c])) (zlen (pre ++ [37])))
        as (p1 & E1 & Hs1); try done. { rewrite !zlen_app. simpl. lia. }
      rewrite E1. cbn [mbind outcome_bind].
      destruct (IH fuel args' ts' (t ++ txt) p1 (pre ++ [37; c]) post) as (p2 & E2 & Hs2); try done; [lia|].
      exists p2. rewrite <-app_assoc in Hs2. split; [|done]. rewrite <-E2. by rewrite <-!app_assoc.
Qed.
End Sink.

Lemma length_items items : (length items <= length (text_of items))%nat.
Proof using.
  induction items as [|it items IH]; [done|]. change (text_of (it :: items)) with (item_text it ++ text_of items).
  rewrite length_app. destruct it; simpl; lia.
Qed.

(** ** The two sinks *)

Section Stream.
Context (written : OS -> Z -> list Z) (limit : Z) (s fd : Z) (W0 : list Z).

Definition stream_sunk (t : list Z) (p : pf) : Prop :=
  __write_to_stream p = true /\ __stream_to_write p = s /\ __printf_size p = zlen t /\
  exists f pend, stream_ok limit (pf_libc p) s f pend /\ file_fd f = fd /\
    written (l_os (pf_libc p)) fd ++ pend = W0 ++ t.

Lemma stream_takes t data x n k p : accepts written limit -> n * k = zlen data -> stream_sunk t p ->
  zlen (t ++ data) <= limit ->
  exists p', ('(r, l) ← fwrite (data ++ x) n k (__stream_to_write p) (pf_libc p); Ret (after_stream r l p)) = Ret p' /\
    stream_sunk (t ++ data) p'.
Proof using.
  intros A Hnk (Hw & Hst & Hsz & f & pend & So & Hfd & Hv) Hl. rewrite zlen_app in Hl. rewrite Hst.
  destruct A as [Hlim A']. pose proof (conj Hlim A' : accepts written limit) as A.
  destruct (fwrite_ok written limit (pf_libc p) _ f pend data x n k Hnk A So) as (l' & f' & pend' & -> & So' & Hs & _ & Hv'); [lia|].
  destruct Hs as (Hfd' & _). cbn [mbind outcome_bind]. eexists. split; [done|]. split; [done|]. split; [done|].
  split; [simpl; rewrite Hsz, zlen_app, i16_small; lia|]. exists f', pend'. split; [done|]. split; [congruence|].
  rewrite Hfd in Hv'. simpl. by rewrite Hv', app_assoc, Hv, app_assoc.
Qed.

Lemma stream_sink : accepts written limit -> sink stream_sunk (fun t => zlen t <= limit).
Proof using.
  intros A. split.
  - intros t data x p Hs Hl. pose proof Hs as (Hw & _). unfold __printf_write. rewrite Hw.
    apply stream_takes; try done. lia.
  - intros t c p Hs Hl. pose proof Hs as (Hw & _). unfold __printf_putc. rewrite Hw.
    apply (stream_takes t [c] [] 1 1); done.
  - intros t data. rewrite zlen_app. lia.
Qed.
End Stream.

Section Buffer.
Context (base top : Z) (d0 : list Z) (L : @libc OS).

Definition buffer_sunk (t : list Z) (p : pf) : Prop :=
  __write_to_stream p = false /\ dest_at p = base /\ __buff_max p = top /\ dest p = splice d0 0 t /\
  __buff_to_write p = base + zlen t /\ __printf_size p = zlen t /\ pf_libc p = L.

Definition buffer_room (t : list Z) : Prop :=
  0 <= base /\ base + zlen t <= top <= 65535 /\ zlen t <= zlen d0 /\ zlen t < 32768.

Lemma buffer_advances t data p : buffer_sunk t p -> buffer_room (t ++ data) -> base + zlen (t ++ data) < 65536 ->
  buffer_sunk (t ++ data) (after_copy (splice d0 0 (t ++ data)) (zlen data) p).
Proof using.
  unfold buffer_room. rewrite zlen_app. intros (Hw & Ha & Hm & Hd & Hb & Hs & HL) Hr Hlt.
  split_and!; try done; simpl; rewrite zlen_app, ?Hb, ?Hs, ?u16_small, ?i16_small; lia.
Qed.

Lemma buffer_sink : sink buffer_sunk buffer_room.
Proof using.
  split.
  - intros t data x p B Hr. pose proof B as (Hw & Ha & Hm & Hd & Hb & Hs & HL). pose proof Hr as Hr'.
    unfold buffer_room in Hr'. rewrite zlen_app in Hr'. unfold __printf_write.
    rewrite Hw, Hm, Hb, Ha, u16_small by lia.
    assert ((if top <=? base + zlen t + zlen data then i16 (top - (base + zlen t)) else i16 (zlen data)) = zlen data) as ->.
    { destruct (Z.leb_spec top (base + zlen t + zlen data)); rewrite i16_small; lia. }
    replace (base + zlen t - base) with (zlen t) by lia.
    assert (Hl : length (splice d0 0 t) = length d0) by (apply length_splice; lia).
    rewrite Hd, (memcpy_at _ _ _ _ _ [] data x); [|done|done|lia|lia|rewrite Hl; lia].
    cbn [mbind outcome_bind]. change (zlen t) with (0 + zlen t). rewrite splice_app by lia.
    eexists. split; [done|]. apply buffer_advances; try done. rewrite zlen_app. lia.
  - intros t c p B Hr. pose proof B as (Hw & Ha & Hm & Hd & Hb & Hs & HL). pose proof Hr as Hr'.
    unfold buffer_room in Hr'. rewrite zlen_app in Hr'. simpl in Hr'. unfold __printf_putc.
    rewrite Hw, Hm, Hb, Ha, (proj2 (Z.ltb_lt _ _)) by lia.
    replace (base + zlen t - base) with (0 + zlen t) by lia. rewrite Hd, arr_set_splice by lia.
    cbn [mbind outcome_bind]. eexists. split; [done|]. apply (buffer_advances t [c]); try done. rewrite zlen_app. simpl. lia.
  - intros t data. unfold buffer_room. rewrite zlen_app. lia.
Qed.
End Buffer.

(** C40. Formatted output to a stream.  For every format made of literal
    characters and the conversions d, i, u, x, s and c, with arguments to match,
    [vfprintf] gives the length of the rendered text, and what the device has
    received and what is pending in the buffer of the stream grow by exactly
    that text.  The rendering is the one the kernel printer satisfies. *)
Theorem vfprintf_renders written limit s f pend items args ts post p :
  accepts written limit -> length tmp = 6%nat -> stream_ok limit (pf_libc p) s f pend ->
  Forall user_item items -> Forall arg_ok args -> render items args = Some ts -> zlen ts <= limit ->
  exists p' f' pend', vfprintf s (text_of items ++ 0 :: post) args p = Ret (zlen ts, p') /\
    stream_ok limit (pf_libc p') s f' pend' /\
    written (l_os (pf_libc p')) (file_fd f) ++ pend' = written (l_os (pf_libc p)) (file_fd f) ++ pend ++ ts.
Proof using.
  intros A Ht So Hit Ha Hr Hl. unfold vfprintf, __printf_core.
  set (W0 := written (l_os (pf_libc p)) (file_fd f) ++ pend).
  destruct (core_renders _ _ (stream_sink written limit s (file_fd f) W0 A) items
    (S (length (text_of items ++ 0 :: post))) args ts []
    (Pf (pf_libc p) true s (dest p) (dest_at p) (__buff_to_write p) (__buff_max p) 0) [] post)
    as (p1 & E & Hw & Hs & Hsz & f' & pend' & So' & Hfd & Hv); try done.
  - split; [done|]. split; [done|]. split; [done|]. exists f, pend. split_and!; try done. by rewrite app_nil_r.
  - pose proof (length_items items). rewrite length_app. simpl. lia.
  - change (Z.of_nat (length (@nil Z))) with 0 in E. simpl app in E. rewrite E. cbn [mbind outcome_bind]. rewrite Hw. cbn [negb mbind outcome_bind].
    rewrite Hsz. exists p1, f', pend'. split; [done|]. split; [done|]. rewrite Hv. unfold W0. by rewrite <-app_assoc.
Qed.

(** Formatted output into an array.  When the rendered text and its
    terminator fit in the [bufsz] bytes given, [vsnprintf] puts them at the
    start of the array, leaves the rest of it alone, and returns the length of
    the text with the terminator. *)
Theorem vsnprintf_renders buffer d bufsz items args ts post p :
  length tmp = 6%nat -> Forall user_item items -> Forall arg_ok args -> render items args = Some ts ->
  0 <= buffer -> buffer + bufsz <= 65535 -> bufsz <> UINT16_MAX -> zlen ts < bufsz <= zlen d -> zlen ts < 32767 ->
  exists p', vsnprintf buffer d bufsz (text_of items ++ 0 :: post) args p = Ret (zlen ts + 1, p') /\
    dest p' = splice d 0 (ts ++ [0]) /\ pf_libc p' = pf_libc p.
Proof using.
  intros Ht Hit Ha Hr Hb Htop Hne Hfit Hlt. unfold vsnprintf. rewrite !eqb_ne by lia.
  rewrite u16_small by lia. unfold __printf_core.
  set (p0 := Pf (pf_libc p) false (__stream_to_write p) d buffer buffer (buffer + bufsz - 1) 0).
  destruct (core_renders _ _ (buffer_sink buffer (buffer + bufsz - 1) d (pf_libc p)) items
    (S (length (text_of items ++ 0 :: post))) args ts [] p0 [] post)
    as (p1 & E & Hw & Hda & Hm & Hd & Hbw & Hs & Hlib); try done.
  - split_and!; simpl; rewrite ?splice_nil; done || lia.
  - unfold buffer_room. simpl. lia.
  - pose proof (length_items items). rewrite length_app. simpl. lia.
  - change (Z.of_nat (length (@nil Z))) with 0 in E. simpl app in E. rewrite E. cbn [mbind outcome_bind]. rewrite Hw. cbn [negb].
    unfold __printf_putc, set_max. cbn [__write_to_stream __buff_to_write __buff_max dest dest_at].
    rewrite Hw, Hbw, Hm, Hda, Hd, u16_small, (proj2 (Z.ltb_lt _ _)) by (simpl; lia).
    replace (buffer + zlen ([] ++ ts) - buffer) with (0 + zlen ts) by (simpl; lia). simpl app. rewrite arr_set_splice by lia.
    cbn [mbind outcome_bind]. eexists.
    split; [simpl; rewrite Hs, i16_small by (simpl; lia); done|split; [done|exact Hlib]].
Qed.
End Printf.

(** ** Witnesses *)

Section Demo.
Definition demo_pf (f : FILE) : @pf (Z -> list Z) := Pf (demo_libc f) false 0 [] 0 0 0 0.

(** "%i:%s" and a newline. *)
Definition demo_items : list item := [IInt; ILit 58; IStr; ILit 10].
Definition demo_args : list arg := [AInt (-7); AStr [111; 107; 0]].

Lemma vfprintf_renders_witness :
  exists p' pend', @vfprintf _ (demo_calls false) (replicate 6 0) STDOUT (text_of demo_items ++ [0]) demo_args
      (demo_pf (demo_file BUFF_TYPE_LINEBUFF 0)) = Ret (6, p') /\
    l_os (pf_libc p') 1 ++ pend' = [45; 55; 58; 111; 107; 10].
Proof.
  destruct (@vfprintf_renders _ (demo_calls false) (replicate 6 0) (fun os fd => os fd) 255 STDOUT
    (demo_file BUFF_TYPE_LINEBUFF 0) [] demo_items demo_args [45; 55; 58; 111; 107; 10] []
    (demo_pf (demo_file BUFF_TYPE_LINEBUFF 0)) demo_accepts) as (p' & f' & pend' & E & _ & Hv).
  - reflexivity.
  - split; [apply lookup_singleton_eq|]. exists (replicate 64 88). split; [apply lookup_singleton_eq|].
    simpl. split_and!; (lia || reflexivity).
  - repeat constructor; simpl; try discriminate; lia.
  - repeat constructor; simpl; lia.
  - reflexivity.
  - simpl. lia.
  - exists p', pend'. split; [exact E|exact Hv].
Defined.

Lemma vsnprintf_renders_witness :
  exists p', @vsnprintf _ (demo_calls false) (replicate 6 0) 0x3100 (replicate 10 88) 8 (text_of demo_items ++ [0])
      demo_args (demo_pf (demo_file BUFF_TYPE_LINEBUFF 0)) = Ret (7, p') /\
    dest p' = [45; 55; 58; 111; 107; 10; 0; 88; 88; 88].
Proof.
  destruct (@vsnprintf_renders _ (demo_calls false) (replicate 6 0) 0x3100 (replicate 10 88) 8 demo_items demo_args
    [45; 55; 58; 111; 107; 10] [] (demo_pf (demo_file BUFF_TYPE_LINEBUFF 0))) as (p' & E & Hd & _); simpl; try lia.
  - repeat constructor; simpl; try discriminate; lia.
  - repeat constructor; simpl; lia.
  - reflexivity.
  - discriminate.
  - exists p'. split; [exact E|exact Hd].
Defined.

(** [sprintf] of "ok" into an array does not terminate the string: the limit
    0xffff is increased to 0 just before the terminator is printed. *)
Lemma sprintf_unterminated :
  exists p', @sprintf _ (demo_calls false) (replicate 6 0) 0x3100 (replicate 4 88) [111; 107; 0] []
      (demo_pf (demo_file BUFF_TYPE_LINEBUFF 0)) = Ret (2, p') /\ dest p' = [111; 107; 88; 88].
Proof. eexists. split; [vm_compute; reflexivity|reflexivity]. Qed.

(** A string longer than the space left is copied in full: [snprintf] into four
    bytes with the limit 4 writes past them. *)
Lemma snprintf_overflow :
  @snprintf _ (demo_calls false) (replicate 6 0) 0x3100 (replicate 4 88) 4 [37; 115; 0]
    [AStr [97; 98; 99; 100; 101; 0]] (demo_pf (demo_file BUFF_TYPE_LINEBUFF 0)) = Fault.
Proof. reflexivity. Qed.
End Demo.
