(* ===== verification/Crt.v ===== *)
(** * The start of a C program (lib/crt/crtbegin.c, crtend.c, the order of the calls
      in crt0.s)

    The linker joins the sections .ctors and .dtors of the objects of a program
    between those of crtbegin.o, which hold one word, and those of crtend.o.  The
    code in the sections .init and .fini runs before and after [main]. *)

From S2P Require Import Prelude.

(** A program: the words the objects put into .ctors and .dtors, what a call of a
    function does, and the weak symbol [__cxa_finalize]. *)
Class Program (O : Type) := {
  ctors : list Z;
  dtors : list Z;
  call_fn : Z -> O -> outcome O;
  cxa_finalize : option (O -> outcome O);
  libc_init : O -> outcome O;
  libc_fini : O -> outcome O;
  main : O -> outcome (Z * O);
}.

(** The static variables of [__do_init] and [__do_fini] *)
Record crt := Crt { initialized : bool; finalized : bool }.

Section Crt.
Context {O : Type} `{Program O}.
Set Default Proof Using "Type".

(** ** The code *)

Definition __CTOR_LIST__ : list Z := [u16 (-1)] ++ ctors ++ [0].
Definition __DTOR_LIST__ : list Z := [u16 (-1)] ++ dtors ++ [0].
Definition __CTOR_LIST_END__ : Z := zlen __CTOR_LIST__ - 1.
Definition __DTOR_LIST_END__ : Z := zlen __DTOR_LIST__ - 1.

(** [for (size_t i = n; i >= 1; i--)] *)
Fixpoint ctor_loop (i : nat) (o : O) : outcome O :=
  match i with
  | 0%nat => Ret o
  | S i' => f ← arr_get __CTOR_LIST__ (Z.of_nat i); o ← call_fn f o; ctor_loop i' o
  end.

Definition __do_init (c : crt) (o : O) : outcome (crt * O) :=
  if initialized c then Ret (c, o)
  else
    let c := Crt true (finalized c) in
    let n := u16 (__CTOR_LIST_END__ - 1) in
    o ← ctor_loop (Z.to_nat n) o;
    Ret (c, o).

(** [for (size_t i = 1; i <= n; i++)] *)
Definition dtor_loop (n : Z) (o : O) : outcome O :=
  for_loop (Z.to_nat n) 1 (fun i o => f ← arr_get __DTOR_LIST__ i; call_fn f o) o.

Definition __do_fini (c : crt) (o : O) : outcome (crt * O) :=
  if finalized c then Ret (c, o)
  else
    let c := Crt (initialized c) true in
    o ← (match cxa_finalize with Some f => f o | None => Ret o end);
    let n := u16 (__DTOR_LIST_END__ - 1) in
    o ← dtor_loop n o;
    Ret (c, o).

(** The code in the sections .init and .fini *)
Definition _init : crt -> O -> outcome (crt * O) := __do_init.
Definition _fini : crt -> O -> outcome (crt * O) := __do_init.

(** [__start] of crt0.s up to the exit system call, with the return code *)
Definition __start (o : O) : outcome (Z * crt * O) :=
  let c := Crt false false in
  o ← libc_init o;
  '(c, o) ← _init c o;
  '(r, o) ← main o;
  '(c, o) ← _fini c o;
  o ← libc_fini o;
  Ret (r, c, o).

(** ** What runs *)

(** The functions of a list, one after the other *)
Fixpoint calls (fs : list Z) (o : O) : outcome O :=
  match fs with
  | [] => Ret o
  | f :: fs => o ← call_fn f o; calls fs o
  end.

Lemma calls_app fs gs o : calls (fs ++ gs) o = (o ← calls fs o; calls gs o).
Proof. revert o. induction fs as [|f fs IH]; intros o; [done|]. simpl. destruct (call_fn f o); [apply IH|done..]. Qed.

Lemma list_word (fs : list Z) i f : fs !! i = Some f -> arr_get ([u16 (-1)] ++ fs ++ [0]) (Z.of_nat (S i)) = Ret f.
Proof. intros Hf. apply arr_get_Ret. split; [lia|]. rewrite Nat2Z.id. simpl. by rewrite lookup_app_l by (by eapply lookup_lt_Some). Qed.

Lemma ctor_loop_ok i o : (i <= length ctors)%nat -> ctor_loop i o = calls (reverse (take i ctors)) o.
Proof.
  revert o. induction i as [|i IH]; intros o Hi; [done|]. destruct (lookup_lt_is_Some_2 ctors i Hi) as [f Hf].
  cbn [ctor_loop]. unfold __CTOR_LIST__. rewrite (list_word _ _ _ Hf). cbn [mbind outcome_bind].
  rewrite (take_S_r _ _ _ Hf), reverse_app. simpl. destruct (call_fn f o); try done. apply IH. lia.
Qed.

Lemma dtor_loop_ok o : dtor_loop (zlen dtors) o = calls dtors o.
Proof.
  unfold dtor_loop. rewrite Nat2Z.id.
  assert (forall pre fs o, dtors = pre ++ fs ->
    for_loop (length fs) (Z.of_nat (S (length pre))) (fun i o => f ← arr_get __DTOR_LIST__ i; call_fn f o) o = calls fs o) as Hgen;
    [|exact (Hgen [] dtors o eq_refl)].
  clear o. intros pre fs. revert pre. induction fs as [|f fs IH]; intros pre o E; [done|]. cbn [length for_loop calls].
  unfold __DTOR_LIST__. rewrite (list_word dtors (length pre) f) by (rewrite E; by apply list_lookup_middle). cbn [mbind outcome_bind].
  destruct (call_fn f o) as [o'| | | |]; try done. cbn [mbind outcome_bind].
  replace (Z.of_nat (S (length pre)) + 1) with (Z.of_nat (S (length (pre ++ [f])))) by (rewrite length_app; simpl; lia).
  apply IH. by rewrite <-app_assoc.
Qed.

Lemma do_init_ok c o : zlen ctors < 65535 -> initialized c = false ->
  __do_init c o = (o ← calls (reverse ctors) o; Ret (Crt true (finalized c), o)).
Proof.
  intros Hn Hi. unfold __do_init. rewrite Hi.
  replace (u16 (__CTOR_LIST_END__ - 1)) with (zlen ctors); [by rewrite Nat2Z.id, ctor_loop_ok, take_ge by lia|].
  unfold __CTOR_LIST_END__, __CTOR_LIST__. rewrite !length_app. simpl. rewrite u16_small; lia.
Qed.

Lemma do_fini_ok c o : zlen dtors < 65535 -> finalized c = false ->
  __do_fini c o = (o ← default Ret cxa_finalize o; o ← calls dtors o; Ret (Crt (initialized c) true, o)).
Proof.
  intros Hn Hi. unfold __do_fini. rewrite Hi.
  replace (u16 (__DTOR_LIST_END__ - 1)) with (zlen dtors).
  - destruct cxa_finalize as [f|]; simpl; [destruct (f o); [|done..]|]; simpl; by rewrite dtor_loop_ok.
  - unfold __DTOR_LIST_END__, __DTOR_LIST__. rewrite !length_app. simpl. rewrite u16_small; lia.
Qed.

(** The run of a program: after the start of the library the constructors run,
    each once and the last one first, then [main], then the end of the library.
    The code of .fini calls [__do_init], which returns at once the second time: no
    destructor is called and the flag of [__do_fini] is never set, although
    [__do_fini] itself would call [__cxa_finalize] and every destructor in order. *)
Theorem start_skips_destructors o : zlen ctors < 65535 -> zlen dtors < 65535 ->
  __start o = (o ← libc_init o; o ← calls (reverse ctors) o; '(r, o) ← main o; o ← libc_fini o; Ret (r, Crt true false, o)) /\
  __do_fini (Crt true false) o = (o ← default Ret cxa_finalize o; o ← calls dtors o; Ret (Crt true true, o)).
Proof.
  intros Hc Hd. split; [|by apply do_fini_ok]. unfold __start. destruct (libc_init o) as [o1| | | |]; try done. cbn [mbind outcome_bind].
  unfold _init. rewrite do_init_ok by done. destruct (calls (reverse ctors) o1) as [o2| | | |]; done.
Qed.
End Crt.

(** ** Witness: a program with two constructors and a destructor; the state is the
    list of the functions called *)

Section Demo.
Instance demo_program : Program (list Z) := {
  ctors := [0x100; 0x200]; dtors := [0x300]; call_fn f o := Ret (o ++ [f]); cxa_finalize := None;
  libc_init o := Ret (o ++ [1]); libc_fini o := Ret (o ++ [2]); main o := Ret (5, o ++ [3]);
}.

Lemma start_skips_destructors_witness : __start [] = Ret (5, Crt true false, [1; 0x200; 0x100; 3; 2]).
Proof.
  pose proof (start_skips_destructors (H := demo_program) [] ltac:(simpl; lia) ltac:(simpl; lia)) as [E _]. rewrite E. reflexivity.
Defined.
End Demo.
